(* ===== verification/_CoqProject ===== *)
-Q . S2P
Prelude.v
Effects.v
Parallel.v
Hex.v
Edid.v
LogStatus.v
VencConfig.v
Video.v
VideoDevice.v
VideoActs.v
VideoReader.v
VideoLife.v
VideoTerm.v
VideoLive.v
VideoFormat.v
Handlers.v
MainServer.v
Audio.v
AudioDevice.v
AudioTransfer.v
AudioParallel.v
AudioCommon.v
Lvgl.v
UiStyles.v
UiScreens.v
Ui.v
UiActions.v
UiControl.v
UiBuild.v
UiSafe.v
UiStyleCalls.v
UiInv.v
UiTypes.v
UiNav.v
UiHold.v
UiSpec.v
UiRpc.v
UiHeaders.v
UiIndex.v
FontFormat.v
FontBold30.v
FontBook16.v
FontBook18.v
FontBook20.v
FontBook24.v
Fonts.v
UiTexts.v
