(* ===== verification/Prelude.v ===== *)
(** * JetKVM native code: a verification development

    The C code of the JetKVM firmware (src/internal/native, src/internal/audio):
    it captures HDMI video and encodes it, moves audio between HDMI, USB and the
    browser, tells the HDMI source what display it is (EDID), and drives the
    device's touch screen.  The Go program around it calls it through cgo.  Each
    part is a set of definitions that follow the C functions of the same names,
    and the theorems about them.

    ** The files and the code they model

    - [Prelude] (this file): C integers as [Z] with their conversions written out
      ([u8], [u32], [s32] ...), arrays as lists with checked accesses ([load],
      [store]: [None] is an access outside the array), C strings ([cstr],
      [strncpy]); tactics and the lemmas on lists and integers all parts share.
    - [Effects]: programs as trees over a signature of actions ([prog]), one
      signature per component; [Sem] gives a signature its behaviour on a state, [run]
      executes with given answers, [wp] and [twp] are the partial and total
      correctness of a program whatever the answers, [pool] and [pstep] interleave
      threads.  [Parallel]: threads that keep to disjoint parts of the state run
      as if each were alone ([independent_sound]).
    - [Hex], [Edid]: hex_to_bytes and bytes_to_hex of cgo/ctrl.c, cgo/edid.c, and
      jetkvm_video_{set_edid,get_edid_hex}.  [LogStatus]: videoc_log_status of edid.c.
    - [VencConfig]: the arithmetic of cgo/video.c: bit rate (IEEE floating point),
      encoder channel attributes, frame rate.
    - [Video]: the threads and control functions of cgo/video.c and the reports of
      ctrl.c, as programs over the actions [videoE] (ioctls, encoder calls, pthreads,
      globals).  [VideoDevice] gives these actions descriptors, memory blocks and an
      encoder channel; [VideoActs] says which actions each part performs;
      [VideoReader] gives the pthread object of the encoder's reader thread its life
      cycle; [VideoLife] adds the capture threads', the mutexes and the two flags,
      with the threads interleaved; [VideoTerm] bounds how often a flag is read as
      set; [VideoLive] shows that the threads never block each other for good;
      [VideoFormat] runs format detection, initialisation and shutdown on a state of
      globals and device.
    - [Handlers]: log.h, log_handler.c and the function pointers the Go side
      registers (set_*_handler of ctrl.c, the input events of screen.c).
      [MainServer]: cgo/main.c, over the actions [serverE], which contain those of
      [Video], with its own descriptors and the capture threads beside it.
    - [Audio]: audio/c/audio.c over the actions [audioE] (ALSA, Opus, globals);
      [AudioDevice] gives them open PCMs, codecs and buffers, with the number of
      channels each was set up with, and proves what the opening, configuring and
      closing functions do; [AudioTransfer] the two
      functions that move a frame; [AudioParallel] runs the two directions in threads
      of their own.  [AudioCommon]: audio/c/audio_common.{c,h}.
    - [Lvgl]: the interface of the graphics library, a class with laws and an
      instance ([store]); a label, image or spinner call and the loading of a screen
      ask for an object of their kind ([kind_ok], [is_screen]).  [UiStyles], [UiScreens]: eez/src/ui/{styles,screens}.c as
      data, one entry per call, and the style objects; [UiStyleCalls] puts them on
      objects.  [Ui]: building and ticking screens, ui.c, vars.c.
      [UiActions]: actions.c.  [UiControl]: the UI half of cgo/{ctrl,screen}.c.
    - [UiBuild], [UiSafe], [UiNav], [UiHold], [UiSpec]: the theorems about the user
      interface, by subject.  [UiInv] is an interface: an invariant of LVGL and the
      style objects that every primitive keeps ([UiInv]'s laws) is kept by building,
      ticking, events and every call from Go; [UiTypes] (the properties' types) and
      [UiTexts] (the characters shown) are instances.  [UiRpc] composes the interface
      with the registry of [Handlers]: the RPCs and the log messages.
    - [UiHeaders], [UiIndex]: the headers eez/src/ui/{screens,styles,images,vars}.h
      line by line, and cgo/ui_index.gen.sh, which makes the name tables of them.
    - [FontFormat], [Fonts]: the records of eez/src/ui/fonts/*.c, whose tables are
      [FontBold30], [FontBook16], [FontBook18], [FontBook20] and [FontBook24], and
      the interface [FontEngine] of what reads them.

    ** What the theorems show

    - EDID: a string is decoded exactly when it should be, up to the blanks and
      signs strtol takes; setting an EDID either changes nothing or puts the decoded
      bytes with right checksums on the device; set and get round trip.
    - Video: the capture thread releases what it takes, the encoder's attributes
      agree, the threads end once their flags are cleared, and one controlling
      thread can call start, stop and restart in any order, without a deadlock and
      with every thread joined at the end; format detection publishes, reports and
      restarts as the timings ask; starting and shutting down give back what they
      take.  Where this fails is shown by counterexample: early returns leak and
      wedge the stream until it is started again, a failed pthread_create joins
      garbage, two controllers race.
    - Handlers and server: an event reaches the handler last registered for its
      kind, and a frame that has none is logged; a long log message overruns its
      buffer; the server keeps its
      descriptors and its one client in order, whichever way it leaves.
    - Audio: any sequence of operations by one thread ends, keeps to its buffers
      and leaks nothing; what each function returns; capture and playback may
      run at the same time, each as if alone, when both device names are set; closing
      races with initialising, another number of channels set while a device is open
      overruns the sample buffer, and the buffer of the Go side is too short.
    - User interface: [ui_init] builds the interface; no sequence of events and of
      calls that respect the kinds of the objects ([op_fits]) makes it go wrong;
      navigation, ticks, the hold-to-confirm buttons (a
      refinement of a pure machine, and one RPC per press), texts, flags,
      variables, rotation; every style property gets a value of its type, adding and
      removing a style cancel out, and every text shown has a glyph for each of
      its characters; an RPC of a button and every log message reach the Go program
      once; the name tables
      are what the headers declare; and the places where the code does less than it
      means.
    - Fonts: every printable character has a glyph within the bitmap and the line, with
      ink unless it is the space, and kerning keeps to its tables.

    ** Conventions

    - Code outside the repository (kernel, Rockchip MPI, ALSA, Opus, LVGL, libc's
      pthreads) is an action whose answer is arbitrary within its documentation
      ([denabled], [aenabled], [lenabled] ...), or a method of [Lvgl] or [FontEngine].
      LVGL's version is an argument, and so are the generated name tables in all files
      but [UiIndex], where they are computed.
    - What a theorem asks of the devices or the callers beyond that is a predicate of
      its own: [devices_ok] (the bit rate is defined, pthread_create of the reader
      succeeds, [RK_MPI_MMZ_Fd2Handle] knows the block), [ops_ok] and [names_set]
      (audio), [op_fits] (the display).
    - Memory errors, undefined arithmetic and failed assertions are [Crash] or
      [None]; the safety theorems exclude them.
    - Loops without a bound in the code take a bound ([n], [m]) as an argument.  The
      partial-correctness theorems hold for every bound; the total ones name a
      bound that is enough ([video_threads_terminate]: one more iteration of each
      loop than reads of the flag as set; [read_encode_spec]: three more than the reads that find no
      data).  Loops with a bound in the code use it: 257 iterations for a [uint8_t]
      counter, 12 for ten resume attempts.
    - The user interface runs in one thread, so it is a state monad ([ui]); video and
      audio share state between threads, so every access to a global is an action.

    ** Not modelled

    The log calls of video.c, edid.c and audio.c, whose messages are bounded and
    change no state, but for the one of video_send_frame (those of the display are
    modelled, and the macros are in [Handlers]), and what main.c's handlers print;
    the images' pixels (half a megabyte of constants that only LVGL reads),
    write_buffer_to_file of video.c (a debugging aid nothing calls), appearance
    beyond the calls made (LVGL's layout and drawing), lv_indev_wait_release, and
    the Go and TypeScript programs. The server's threads are [main] and the
    capture threads it starts; the format-detection thread is left to
    [VideoFormat] and [two_controllers_race], since with it the stream is not
    safe.  *)
From Stdlib Require Export ZArith Lia ZifyBool Ascii String.
From stdpp Require Export base list strings gmap relations.
#[global] Open Scope Z_scope.
#[export] Set Warnings "-clear-no-such-hyp".

(** ** Machine integers: a w-bit C integer is the [Z] it denotes; the
    conversion to a type is written out where the code converts. *)

Definition wrapu (w z : Z) : Z := z mod 2 ^ w.
Definition u8 (z : Z) : Z := wrapu 8 z.
Definition u16 (z : Z) : Z := wrapu 16 z.
Definition u32 (z : Z) : Z := wrapu 32 z.
Definition u64 (z : Z) : Z := wrapu 64 z.
Definition s16 (z : Z) : Z := (z + 2 ^ 15) mod 2 ^ 16 - 2 ^ 15.
Definition s32 (z : Z) : Z := (z + 2 ^ 31) mod 2 ^ 32 - 2 ^ 31.
Definition in_u8 (z : Z) : Prop := 0 <= z < 2 ^ 8.
Definition in_u16 (z : Z) : Prop := 0 <= z < 2 ^ 16.
Definition in_u32 (z : Z) : Prop := 0 <= z < 2 ^ 32.
Definition in_s32 (z : Z) : Prop := - 2 ^ 31 <= z < 2 ^ 31.

(** ** C truth values of the code's [int]/[bool] results *)

Definition c_bool (b : bool) : Z := if b then 1 else 0.

(** ** Buffers: loads and stores that fail out of range (the C code has
    undefined behaviour there). *)

Definition load {A} (buf : list A) (i : Z) : option A :=
  if decide (0 <= i) then buf !! Z.to_nat i else None.
Definition store {A} (buf : list A) (i : Z) (v : A) : option (list A) :=
  if decide (0 <= i < Z.of_nat (length buf))
  then Some (<[Z.to_nat i := v]> buf) else None.

(** Store a block of values from index [i] on ([memcpy] into a buffer). *)
Fixpoint store_list {A} (buf : list A) (i : Z) (vs : list A) : option (list A) :=
  match vs with
  | [] => Some buf
  | v :: vs' =>
      match store buf i v with
      | Some buf' => store_list buf' (i + 1) vs'
      | None => None
      end
  end.

(** ** C strings: the characters before the terminating NUL. *)

Definition chars (s : string) : list ascii := list_ascii_of_string s.
Definition text (l : list ascii) : string := string_of_list_ascii l.
Definition NUL : ascii := Ascii.zero.
Definition strlen (s : string) : Z := Z.of_nat (String.length s).
Definition strnlen (s : string) (maxlen : Z) : Z := Z.min (strlen s) maxlen.
Definition streq (a b : string) : bool := String.eqb a b.

(** The C string a [char] array holds; [None] when no NUL ends it (reading it
    as a string runs past the array). *)
Fixpoint cstr (buf : list ascii) : option (list ascii) :=
  match buf with
  | [] => None
  | c :: buf' =>
      if Ascii.eqb c NUL then Some []
      else match cstr buf' with Some s => Some (c :: s) | None => None end
  end.

(** [strncpy(dst, src, n)] for [n] = the length of [dst]: the first [n]
    characters of [src], padded with NUL to [n] (no NUL when [src] has [n] or
    more characters). *)
Definition strncpy (n : nat) (src : list ascii) : list ascii :=
  take n src ++ replicate (n - length src) NUL.

(** ** Automation shared by the components *)

Create HintDb cint.
Create Rewrite HintDb cint.

Ltac bool_prop :=
  repeat match goal with
  | H : (_ && _)%bool = true |- _ => apply andb_prop in H; destruct H
  | H : (_ || _)%bool = false |- _ => apply orb_false_elim in H; destruct H
  | H : (_ =? _) = true |- _ => apply Z.eqb_eq in H
  | H : (_ =? _) = false |- _ => apply Z.eqb_neq in H
  | H : (_ <? _) = true |- _ => apply Z.ltb_lt in H
  | H : (_ <? _) = false |- _ => apply Z.ltb_ge in H
  | H : (_ <=? _) = true |- _ => apply Z.leb_le in H
  | H : (_ <=? _) = false |- _ => apply Z.leb_gt in H
  | H : negb _ = true |- _ => apply negb_true_iff in H
  | H : negb _ = false |- _ => apply negb_false_iff in H
  end.

(** Arithmetic on wrapped integers: unfold the conversions, turn [mod] and
    [/] into their equations, and call [lia]. *)
Ltac cint :=
  unfold u8, u16, u32, u64, s16, s32, wrapu, in_u8, in_u16, in_u32, in_s32 in *;
  Z.div_mod_to_equations; lia.

(** Split the conditionals and matches of the goal. *)
Ltac cases :=
  repeat (case_match; try done; simplify_eq/=).

(** ** Lemmas on the integers *)

Lemma u8_range z : in_u8 (u8 z).
Proof. cint. Qed.
Lemma u16_range z : in_u16 (u16 z).
Proof. cint. Qed.
Lemma u32_range z : in_u32 (u32 z).
Proof. cint. Qed.
Lemma s32_range z : in_s32 (s32 z).
Proof. cint. Qed.
Lemma u8_id z : in_u8 z → u8 z = z.
Proof. cint. Qed.
Lemma u16_id z : in_u16 z → u16 z = z.
Proof. cint. Qed.
Lemma u32_id z : in_u32 z → u32 z = z.
Proof. cint. Qed.
Lemma s32_id z : in_s32 z → s32 z = z.
Proof. cint. Qed.
#[export] Hint Resolve u8_range u16_range u32_range s32_range : cint.
#[export] Hint Rewrite u8_id u16_id u32_id s32_id using cint : cint.

(** ** Lemmas on buffers *)

Lemma store_length {A} (buf buf' : list A) i v :
  store buf i v = Some buf' → length buf' = length buf.
Proof. unfold store. intros. cases. by rewrite length_insert. Qed.

Lemma store_in {A} (buf : list A) i v :
  0 <= i < Z.of_nat (length buf) → store buf i v = Some (<[Z.to_nat i := v]> buf).
Proof. unfold store. intros. by rewrite decide_True. Qed.

Lemma store_list_length {A} (vs buf buf' : list A) i :
  store_list buf i vs = Some buf' → length buf' = length buf.
Proof.
  revert buf i. induction vs as [|v vs IH]; simpl; intros buf i H; [by simplify_eq|].
  destruct (store buf i v) eqn:Hs; [|done].
  rewrite (IH _ _ H). by eapply store_length.
Qed.

Lemma store_list_fits {A} (vs buf buf' : list A) i :
  store_list buf i vs = Some buf' → vs = [] ∨ i + Z.of_nat (length vs) <= Z.of_nat (length buf).
Proof.
  revert buf i. induction vs as [|v vs IH]; intros buf i H; [by left|right]. simpl in *.
  unfold store in H at 1. case_decide; [|done].
  destruct (IH _ _ H) as [->|Hl]; [simpl; lia|]. rewrite length_insert in Hl. lia.
Qed.

(** Storing a block that fits replaces exactly its span. *)
Lemma store_list_in {A} (vs pre buf : list A) :
  (length vs <= length buf)%nat →
  store_list (pre ++ buf) (Z.of_nat (length pre)) vs
  = Some (pre ++ vs ++ drop (length vs) buf).
Proof.
  revert pre buf. induction vs as [|v vs IH]; intros pre [|b buf] Hlen; simpl in *; try done; try lia.
  rewrite store_in by (rewrite length_app; simpl; lia).
  rewrite Nat2Z.id, insert_app_r_alt, Nat.sub_diag by lia. simpl.
  replace (pre ++ v :: buf) with ((pre ++ [v]) ++ buf) by by rewrite <- app_assoc.
  replace (Z.of_nat (length pre) + 1) with (Z.of_nat (length (pre ++ [v])))
    by (rewrite length_app; simpl; lia).
  rewrite IH by lia. by rewrite <- app_assoc.
Qed.

Lemma store_list_0 {A} (vs buf : list A) :
  (length vs <= length buf)%nat →
  store_list buf 0 vs = Some (vs ++ drop (length vs) buf).
Proof. apply (store_list_in vs [] buf). Qed.

(** ** Lemmas on C strings *)

Lemma text_chars s : text (chars s) = s.
Proof. apply string_of_list_ascii_of_string. Qed.
Lemma chars_text l : chars (text l) = l.
Proof. apply list_ascii_of_string_of_list_ascii. Qed.
Lemma length_chars s : length (chars s) = String.length s.
Proof. induction s; simpl; [done|]. by f_equal. Qed.

Lemma streq_true a b : streq a b = true ↔ a = b.
Proof. apply String.eqb_eq. Qed.
Lemma streq_false a b : streq a b = false ↔ a ≠ b.
Proof. apply String.eqb_neq. Qed.
Lemma streq_refl a : streq a a = true.
Proof. by apply streq_true. Qed.

Lemma length_strncpy n src : length (strncpy n src) = n.
Proof. unfold strncpy. rewrite length_app, length_take, length_replicate. lia. Qed.

Lemma cstr_app l rest : NUL ∉ l → cstr (l ++ NUL :: rest) = Some l.
Proof.
  induction l as [|c l IH]; intros Hin; simpl; [done|].
  apply not_elem_of_cons in Hin as [Hc Hl].
  destruct (Ascii.eqb_spec c NUL); [by subst|]. by rewrite IH.
Qed.
