(* ===== verification/Effects.v ===== *)
(** * Effectful code: programs, their execution, and how to reason about them

    The C functions that call drivers, codecs, the C library or share globals
    with another thread are translated to [prog E A]: a tree of actions [E X]
    (one constructor per call or shared-variable access, with the type [X] of
    its answer) that ends in a value.  What an action may answer and how it
    changes the state is given once per component by an instance of [Sem].
    [wpr] is the weakest precondition under interference ([rely]), with the
    component's own steps checked against [guar]; [wp] is the sequential case.
    [pstep] interleaves the actions of several threads, and [rg_sound] is the
    rely/guarantee rule that lifts [wpr] proofs to every interleaving. *)
From S2P Require Import Prelude.

(** ** Programs *)

(** [Crash]: the code reaches undefined behaviour or an assertion fails.
    [NoFuel]: the bound on a loop of the model is reached. *)
Inductive stop := Crash (why : string) | NoFuel.

Inductive prog (E : Type → Type) (A : Type) : Type :=
| Ret (a : A)
| Act {X : Type} (e : E X) (k : X → prog E A)
| Stop (why : stop).
Arguments Ret {E A} a.
Arguments Act {E A X} e k.
Arguments Stop {E A} why.

Fixpoint prog_bind {E A B} (p : prog E A) (f : A → prog E B) : prog E B :=
  match p with
  | Ret a => f a
  | Act e k => Act e (λ x, prog_bind (k x) f)
  | Stop w => Stop w
  end.

#[export] Instance prog_mret {E} : MRet (prog E) := λ A a, Ret a.

Declare Scope prog_scope.
Notation "x ← p ; q" := (prog_bind p (λ x, q))
  (at level 20, p at level 100, q at level 200, only parsing) : prog_scope.
Notation "p ;; q" := (prog_bind p (λ _, q))
  (at level 100, q at level 200, right associativity, only parsing) : prog_scope.
#[global] Open Scope prog_scope.

Definition call {E X} (e : E X) : prog E X := Act e Ret.
Definition when {E} (b : bool) (p : prog E unit) : prog E unit :=
  if b then p else mret tt.

(** [while]: run [body] on the loop's local variables until it breaks
    ([inr]); [n] bounds the iterations. *)
Fixpoint loop {E L B} (n : nat) (body : L → prog E (L + B)) (l : L) : prog E B :=
  match n with
  | O => Stop NoFuel
  | S n' => r ← body l;
            match r with
            | inl l' => loop n' body l'
            | inr b => mret b
            end
  end.

(** [for (i : is) ...] with an early [return] ([Some]). *)
Fixpoint for_each {E I B} (xs : list I) (body : I → prog E (option B))
  : prog E (option B) :=
  match xs with
  | [] => mret None
  | i :: xs' => r ← body i;
                match r with
                | Some b => mret (Some b)
                | None => for_each xs' body
                end
  end.

(** ** Meaning of the actions *)

Class Sem (E : Type → Type) (S : Type) := {
  (** the documented precondition of the call; calling it otherwise is
      undefined behaviour *)
  enabled : ∀ {X}, E X → S → bool;
  (** the state after the call answers [x]; [None] when it cannot answer so
      (a call for which no answer is possible yet blocks) *)
  act : ∀ {X}, E X → S → X → option S
}.

(** ** Weakest preconditions *)

Section wpr.
Context {E : Type → Type} {S : Type} `{!Sem E S}.
Context (rely guar : S → S → Prop) (fuel_ok : Prop).

Fixpoint wpr {A} (p : prog E A) (Q : A → S → Prop) (s : S) : Prop :=
  ∀ s1, rely s s1 →
  match p with
  | Ret a => Q a s1
  | Act e k =>
      enabled e s1 = true ∧
      ∀ x s2, act e s1 x = Some s2 → guar s1 s2 ∧ wpr (k x) Q s2
  | Stop NoFuel => fuel_ok
  | Stop (Crash _) => False
  end.
End wpr.

(** Sequential code: nothing interferes and every step is permitted.
    [wp] is partial in the fuel, [twp] is total. *)
Abbreviation wp := (wpr eq (λ _ _, True) True).
Abbreviation twp := (wpr eq (λ _ _, True) False).

(** ** Running a program against an environment that picks the answers *)

Inductive result (A S : Type) :=
| Done (a : A) (s : S)
| Crashed (why : string)
| Blocked
| OutOfFuel.
Arguments Done {A S}.
Arguments Crashed {A S}.
Arguments Blocked {A S}.
Arguments OutOfFuel {A S}.

Section run.
Context {E : Type → Type} {S : Type} `{!Sem E S}.
Variable answer : ∀ X, E X → S → X.

Fixpoint run {A} (p : prog E A) (s : S) : result A S :=
  match p with
  | Ret a => Done a s
  | Act e k =>
      if enabled e s then
        match act e s (answer _ e s) with
        | Some s' => run (k (answer _ e s)) s'
        | None => Blocked
        end
      else Crashed "precondition"
  | Stop (Crash w) => Crashed w
  | Stop NoFuel => OutOfFuel
  end.
End run.

(** ** Programs restricted to some actions *)

(** [p] performs only actions that satisfy [ok] and does not stop, as long as
    the answers satisfy [may]. *)
Section only.
Context {E : Type → Type}.
Context (ok : ∀ X, E X → Prop) (may : ∀ X, E X → X → Prop) (fuel_ok : Prop).

Fixpoint only {A} (p : prog E A) : Prop :=
  match p with
  | Ret _ => True
  | Act e k => ok _ e ∧ ∀ x, may _ e x → only (k x)
  | Stop NoFuel => fuel_ok
  | Stop (Crash _) => False
  end.

Lemma only_bind {A B} (p : prog E A) (f : A → prog E B) :
  only p → (∀ a, only (f a)) → only (prog_bind p f).
Proof.
  intros Hp Hf. induction p as [a|X e k IH|[]]; simpl in *; auto.
  destruct Hp as [He Hk]. auto.
Qed.

Lemma only_loop {L B} n (body : L → prog E (L + B)) l :
  (fuel_ok : Prop) → (∀ l, only (body l)) → only (loop n body l).
Proof.
  intros Hf Hb. revert l. induction n as [|n IH]; intros l; [done|]. simpl loop.
  apply only_bind; [done|]. intros [l'|b]; [apply IH|done].
Qed.

(** If each allowed action keeps [I] and the guarantee, and [I] is stable, the
    program does. *)
Lemma only_wpr {S} `{!Sem E S} (rely guar : S → S → Prop) (I : S → Prop) {A} (p : prog E A) s :
  (∀ s s', I s → rely s s' → I s') →
  (∀ X (e : E X) s, ok _ e → I s → enabled e s = true ∧
     ∀ x s', act e s x = Some s' → may _ e x ∧ guar s s' ∧ I s') →
  only p → I s → wpr rely guar fuel_ok p (λ _, I) s.
Proof.
  intros Hst Hok. revert s. induction p as [a|X e k IH|[]]; simpl; intros s Hp HI s1 Hs1;
    [by eauto| |done..].
  destruct Hp as [He Hk]. destruct (Hok X e s1 He) as [Hen Hact]; [by eauto|].
  split; [done|]. intros x s2 Hx. destruct (Hact _ _ Hx) as (? & ? & ?). auto.
Qed.
End only.
Arguments only {E} ok may fuel_ok {A} p.

Lemma only_mono {E A} (ok ok' : ∀ X, E X → Prop) may (fo fo' : Prop) (p : prog E A) :
  (∀ X e, ok X e → ok' X e) → (fo → fo') → only ok may fo p → only ok' may fo' p.
Proof. intros Hok Hfo. induction p as [a|X e k IH|[]]; simpl; naive_solver. Qed.

(** Walk through a program to show [only]. *)
Ltac only_step :=
  match goal with
  | |- only _ _ _ (prog_bind _ _) => apply only_bind; [|intros ?]
  | |- only _ _ _ (loop _ _ _) => apply only_loop; [done|intros ?]
  | |- only _ _ _ (mret _) => exact I
  | |- only _ _ _ (Ret _) => exact I
  | |- only _ _ _ (call _) => split; [by simpl|intros ??; exact I]
  | |- only _ _ _ (when ?b _) => destruct b; cbn [when]
  | |- only _ _ _ (let '(_, _) := ?x in _) => destruct x
  | |- only _ _ _ (match ?b with _ => _ end) => destruct b eqn:?
  end.

(** ** Threads *)

Section pool.
Context {E : Type → Type} {S : Type} `{!Sem E S}.

Definition pool : Type := list (prog E unit) * S.

(** One atomic action of one thread. *)
Inductive pstep : pool → pool → Prop :=
| pstep_act (ts : list (prog E unit)) (s s' : S) (i : nat) X (e : E X) k x :
    ts !! i = Some (Act e k) →
    act e s x = Some s' →
    pstep (ts, s) (<[i := k x]> ts, s').

(** Some thread is about to do something undefined. *)
Definition crashed (c : pool) : Prop :=
  ∃ i p, c.1 !! i = Some p ∧
    match p with
    | Act e _ => enabled e c.2 = false
    | Stop (Crash _) => True
    | _ => False
    end.

(** An executable scheduler: the threads to step, in order; a thread that
    cannot step (it has ended, or its call blocks) is passed over. *)
Definition psched1 (answer : ∀ X, E X → S → X) (c : pool) (i : nat) : pool :=
  match c.1 !! i with
  | Some (Act e k) =>
      match act e c.2 (answer _ e c.2) with
      | Some s' => (<[i := k (answer _ e c.2)]> c.1, s')
      | None => c
      end
  | _ => c
  end.
Definition psched (answer : ∀ X, E X → S → X) (xs : list nat) (c : pool) : pool :=
  foldl (psched1 answer) c xs.
Definition crashed_thread (i : nat) (c : pool) : bool :=
  match c.1 !! i with
  | Some (Act e _) => negb (enabled e c.2)
  | Some (Stop (Crash _)) => true
  | _ => false
  end.
End pool.
Arguments pool E S : clear implicits.

(** ** Rules for [wpr] *)

Section wpr_rules.
Context {E : Type → Type} {S : Type} `{!Sem E S}.
Context (rely guar : S → S → Prop) (fuel_ok : Prop).
Context `{!PreOrder rely}.
#[local] Abbreviation W := (wpr rely guar fuel_ok).

(** The assertion of a program point survives the other threads' steps. *)
Lemma wpr_stable {A} (p : prog E A) (Q : A → S → Prop) s s' :
  W p Q s → rely s s' → W p Q s'.
Proof.
  intros Hw Hr. destruct p; simpl in *; intros s1 Hs1; apply (Hw s1); by etrans.
Qed.

Lemma wpr_mono {A} (p : prog E A) (Q Q' : A → S → Prop) s :
  W p Q s → (∀ a s, Q a s → Q' a s) → W p Q' s.
Proof.
  intros Hw HQ. revert s Hw. induction p as [a|X e k IH|w]; simpl; intros s Hw s1 Hs1.
  - auto.
  - destruct (Hw _ Hs1) as [? Hk]. split; [done|]. intros x s2 Hact.
    destruct (Hk _ _ Hact). split; [done|]. by apply IH.
  - by apply (Hw s1).
Qed.

Lemma wpr_bind {A B} (p : prog E A) (f : A → prog E B) (Q : B → S → Prop) s :
  W p (λ a s', W (f a) Q s') s → W (prog_bind p f) Q s.
Proof.
  revert s. induction p as [a|X e k IH|w]; simpl; intros s Hw.
  - apply Hw. reflexivity.
  - intros s1 Hs1. destruct (Hw _ Hs1) as [? Hk]. split; [done|]. intros x s2 Hact.
    destruct (Hk _ _ Hact). split; [done|]. by apply IH.
  - intros s1 Hs1. by apply (Hw s1).
Qed.

Lemma wpr_act {A X} (e : E X) (k : X → prog E A) (Q : A → S → Prop) s :
  (∀ s1, rely s s1 → enabled e s1 = true ∧
     ∀ x s2, act e s1 x = Some s2 → guar s1 s2 ∧ W (k x) Q s2) →
  W (Act e k) Q s.
Proof. done. Qed.

Lemma wpr_ret {A} (a : A) (Q : A → S → Prop) s :
  (∀ s', rely s s' → Q a s') → W (mret a) Q s.
Proof. done. Qed.

(** A loop with an invariant that relates its local variables to the state. *)
Lemma wpr_loop {L B} (I : L → S → Prop) n (body : L → prog E (L + B))
    (Q : B → S → Prop) l s :
  (fuel_ok : Prop) →
  (∀ l s, I l s →
    W (body l) (λ r s', match r with
                        | inl l' => I l' s'
                        | inr b => ∀ s'', rely s' s'' → Q b s''
                        end) s) →
  I l s → W (loop n body l) Q s.
Proof.
  intros Hf Hbody. revert l s. induction n as [|n IH]; intros l s HI; [by simpl|].
  simpl loop. apply wpr_bind. eapply wpr_mono; [by apply Hbody|].
  intros [l'|b] s' Hs'; [by apply IH|by apply wpr_ret].
Qed.

(** A loop whose measure decreases ends within the measure's fuel. *)
Lemma wpr_loop_measure {L B} (I : L → S → Prop) (m : L → S → nat) n
    (body : L → prog E (L + B)) (Q : B → S → Prop) l s :
  (∀ l s, I l s →
    W (body l) (λ r s', match r with
                        | inl l' => I l' s' ∧ (m l' s' < m l s)%nat
                        | inr b => ∀ s'', rely s' s'' → Q b s''
                        end) s) →
  I l s → (m l s < n)%nat → W (loop n body l) Q s.
Proof.
  intros Hbody. revert l s. induction n as [|n IH]; intros l s HI Hn; [lia|].
  simpl loop. apply wpr_bind. eapply wpr_mono; [by apply Hbody|].
  intros [l'|b] s' Hs'; [|by apply wpr_ret].
  destruct Hs'. apply IH; [done|lia].
Qed.

(** A [for] loop, by the elements still to visit. *)
Lemma wpr_for_each {I B} (Inv : list I → S → Prop) (xs : list I)
    (body : I → prog E (option B)) (Q : option B → S → Prop) s :
  (∀ s, Inv [] s → ∀ s', rely s s' → Q None s') →
  (∀ i xs s, Inv (i :: xs) s →
    W (body i) (λ r s', match r with
                        | Some b => ∀ s'', rely s' s'' → Q (Some b) s''
                        | None => Inv xs s'
                        end) s) →
  Inv xs s → W (for_each xs body) Q s.
Proof.
  intros Hnil Hbody. revert s. induction xs as [|i xs IH]; intros s HI; simpl for_each.
  - apply wpr_ret. by apply Hnil.
  - apply wpr_bind. eapply wpr_mono; [by apply Hbody|].
    intros [b|] s' Hs'; [by apply wpr_ret|by apply IH].
Qed.
End wpr_rules.

(** ** Sequential rules *)

Section wp_rules.
Context {E : Type → Type} {S : Type} `{!Sem E S}.

#[export] Instance eq_preorder {T} : PreOrder (@eq T).
Proof. split; [by intros ?|by intros ??? -> ->]. Qed.

Lemma wp_act {A X} (fo : Prop) (e : E X) (k : X → prog E A) Q s :
  enabled e s = true →
  (∀ x s', act e s x = Some s' → wpr eq (λ _ _, True) fo (k x) Q s') →
  wpr eq (λ _ _, True) fo (Act e k) Q s.
Proof. simpl. intros He Hk s1 <-. split; [done|]. intros. split; [done|]. eauto. Qed.

Lemma wp_ret {A} (fo : Prop) (a : A) (Q : A → S → Prop) s :
  Q a s → wpr eq (λ _ _, True) fo (Ret a) Q s.
Proof. simpl. by intros ? ? <-. Qed.

(** What [wp] says of a run. *)
Lemma wp_run {A} answer (p : prog E A) (Q : A → S → Prop) s :
  wp p Q s →
  match run answer p s with
  | Done a s' => Q a s'
  | Crashed _ => False
  | Blocked | OutOfFuel => True
  end.
Proof.
  revert s. induction p as [a|X e k IH|[]]; simpl; intros s Hw;
    specialize (Hw s eq_refl); auto.
  destruct Hw as [-> Hk]. destruct (act e s (answer X e s)) eqn:Ha; [|done].
  destruct (Hk _ _ Ha). by apply IH.
Qed.
Lemma twp_run {A} answer (p : prog E A) (Q : A → S → Prop) s :
  twp p Q s →
  match run answer p s with
  | Done a s' => Q a s'
  | Crashed _ | OutOfFuel => False
  | Blocked => True
  end.
Proof.
  revert s. induction p as [a|X e k IH|[]]; simpl; intros s Hw;
    specialize (Hw s eq_refl); auto.
  destruct Hw as [-> Hk]. destruct (act e s (answer X e s)) eqn:Ha; [|done].
  destruct (Hk _ _ Ha). by apply IH.
Qed.
End wp_rules.

(** ** Rely/guarantee: threads that respect each other's assumptions *)

Section rely_guarantee.
Context {E : Type → Type} {S : Type} `{!Sem E S}.
Context (R G : nat → S → S → Prop) (fuel_ok : nat → Prop) (T : nat → unit → S → Prop).
Context (R_pre : ∀ i, PreOrder (R i)).
Context (G_R : ∀ i j s s', i ≠ j → G i s s' → R j s s').

Definition pool_ok (c : pool E S) : Prop :=
  ∀ i p, c.1 !! i = Some p → wpr (R i) (G i) (fuel_ok i) p (T i) c.2.

Lemma pool_ok_step c c' : pool_ok c → pstep c c' → pool_ok c'.
Proof.
  intros Hok Hstep. destruct Hstep as [ts s s' i X e k x Hi Hact]. intros j p Hj. simpl in *.
  pose proof (Hok _ _ Hi) as Hw. simpl in Hw.
  destruct (Hw s ltac:(reflexivity)) as [_ Hk]. destruct (Hk _ _ Hact) as [HG Hk'].
  destruct (decide (i = j)) as [<-|Hne].
  - rewrite list_lookup_insert_eq in Hj by by eapply lookup_lt_Some. by simplify_eq.
  - rewrite list_lookup_insert_ne in Hj by done.
    eapply wpr_stable; [by apply R_pre|by apply Hok|by eapply G_R].
Qed.

Lemma pool_ok_steps c c' : pool_ok c → rtc pstep c c' → pool_ok c'.
Proof. intros Hok Hs. induction Hs; [done|]. eauto using pool_ok_step. Qed.

Lemma pool_ok_safe c : pool_ok c → ¬ crashed c.
Proof.
  intros Hok (i & p & Hi & Hc). specialize (Hok _ _ Hi).
  destruct p as [|X e k|[]]; simpl in *; try done.
  - destruct (Hok _ ltac:(reflexivity)). congruence.
  - by apply (Hok c.2 ltac:(reflexivity)).
Qed.

(** What a thread that has ended, or has reached the bound of a loop, says. *)
Lemma pool_ok_done c i : pool_ok c → c.1 !! i = Some (Ret tt) → T i tt c.2.
Proof. intros Hok Hi. by apply (Hok _ _ Hi c.2 ltac:(reflexivity)). Qed.
Lemma pool_ok_fuel c i : pool_ok c → c.1 !! i = Some (Stop NoFuel) → fuel_ok i.
Proof. intros Hok Hi. by apply (Hok _ _ Hi c.2 ltac:(reflexivity)). Qed.

(** No interleaving of the threads crashes. *)
Lemma rg_sound c c' : pool_ok c → rtc pstep c c' → pool_ok c' ∧ ¬ crashed c'.
Proof. eauto using pool_ok_steps, pool_ok_safe. Qed.

(** A state invariant that every thread's steps preserve. *)
Lemma rg_invariant (Inv : S → Prop) c c' :
  (∀ i s s', G i s s' → Inv s → Inv s') →
  pool_ok c → Inv c.2 → rtc pstep c c' → Inv c'.2.
Proof.
  intros HG Hok HI Hs. induction Hs as [|c1 c2 c3 Hstep Hs IH]; [done|].
  apply IH; [by eapply pool_ok_step|]. destruct Hstep as [ts s s' i X e k x Hi Hact].
  pose proof (Hok _ _ Hi) as Hw. simpl in *.
  destruct (Hw s ltac:(reflexivity)) as [_ Hk]. destruct (Hk _ _ Hact). eauto.
Qed.
End rely_guarantee.

(** ** The scheduler's runs are interleavings *)

Section scheduler.
Context {E : Type → Type} {S : Type} `{!Sem E S}.

Lemma psched_nsteps (answer : ∀ X, E X → S → X) xs c :
  ∃ j, (j <= length xs)%nat ∧ nsteps pstep j c (psched answer xs c).
Proof.
  revert c. induction xs as [|i xs IH]; intros c; [exists 0%nat; split; [lia|constructor]|].
  destruct (IH (psched1 answer c i)) as (j & Hj & Hs). simpl.
  assert (Hc : psched1 answer c i = c ∨ pstep c (psched1 answer c i)).
  { unfold psched1. destruct c as [ts s]. simpl.
    destruct (ts !! i) as [[|X e k|]|] eqn:Hi; try by left.
    destruct (act e s (answer X e s)) eqn:Ha; [|by left]. right. by econstructor. }
  destruct Hc as [Hc|Hc].
  - exists j. split; [lia|]. unfold psched. simpl. rewrite Hc in Hs |- *. exact Hs.
  - exists (Datatypes.S j). split; [lia|]. by econstructor.
Qed.
Lemma psched_steps (answer : ∀ X, E X → S → X) xs c : rtc pstep c (psched answer xs c).
Proof.
  destruct (psched_nsteps answer xs c) as (j & _ & Hs). by eapply rtc_nsteps_2.
Qed.

Lemma crashed_thread_crashed i (c : pool E S) : crashed_thread i c = true → crashed c.
Proof.
  unfold crashed_thread, crashed. destruct (c.1 !! i) as [p|] eqn:Hi; [|done].
  intros H. exists i, p. split; [done|].
  destruct p as [|X e k|[]]; try done. by apply negb_true_iff in H.
Qed.
End scheduler.

#[global] Arguments wpr : simpl never.

(** ** Automation *)

(** Step a [wp] goal through bound programs, actions and returns. *)
Ltac wp_bind := apply wpr_bind; [try exact _..|].
Ltac wp_step :=
  cbn [call when mret prog_mret prog_bind];
  lazymatch goal with
  | |- wpr eq _ _ (Act _ _) _ _ => apply wp_act; [try done|intros ?x ?s ?Hact; simplify_eq/=]
  | |- wpr eq _ _ (Ret _) _ _ => apply wp_ret
  | |- wpr eq _ _ (match ?b with _ => _ end) _ _ => destruct b eqn:?
  end.
