(* ===== verification/Parallel.v ===== *)
(** * Threads that do not share

    Threads of one program that touch different parts of the state.  Each thread
    [i] has a state of its own, [u i], in which it runs alone, and a small state
    [g i] in which its actions are checked to be its own.  When every step of the
    shared state is a step of one thread's own state, each interleaving is, for
    each thread, a run of that thread alone; so what was proved of the threads one
    by one holds of all of them together. *)
From stdpp Require Import functions.
From S2P Require Import Prelude Effects.

(** ** Checking actions *)

(** Every action of [p] is enabled, whatever the answers, as long as [p] has not
    stopped. *)
Section checks.
Context {E : Type → Type} {G : Type} `{HG : !Sem E G}.

Fixpoint checks {A} (p : prog E A) (Q : A → G → Prop) (g : G) : Prop :=
  match p with
  | Ret a => Q a g
  | Act e k => enabled e g = true ∧ ∀ x g', act e g x = Some g' → checks (k x) Q g'
  | Stop _ => True
  end.

Lemma checks_mono {A} (p : prog E A) (Q Q' : A → G → Prop) g :
  checks p Q g → (∀ a g, Q a g → Q' a g) → checks p Q' g.
Proof.
  intros H HQ. revert g H. induction p as [a|X e k IH|]; simpl; intros g H; [by auto| |done].
  destruct H as [He Hk]. split; [done|]. eauto.
Qed.
Lemma checks_bind {A B} (p : prog E A) (f : A → prog E B) (Q : B → G → Prop) g :
  checks p (λ a, checks (f a) Q) g → checks (prog_bind p f) Q g.
Proof.
  revert g. induction p as [a|X e k IH|]; simpl; intros g H; [done| |done].
  destruct H as [He Hk]. split; [done|]. eauto.
Qed.
Lemma checks_loop {L B} (I : G → Prop) n (body : L → prog E (L + B)) l g :
  (∀ l g, I g → checks (body l) (λ _, I) g) → I g → checks (loop n body l) (λ _, I) g.
Proof.
  intros Hb. revert l g. induction n as [|n IH]; intros l g Hg; [done|]. simpl.
  apply checks_bind. eapply checks_mono; [by apply Hb|]. intros [l'|b] g' Hg'; [by apply IH|done].
Qed.
End checks.

(** ** The rule *)

Section independent.
Context {E : Type → Type} {S U G : Type} `{HS : !Sem E S, HU : !Sem E U, HG : !Sem E G}.

(** The shared state and the threads' own states belong together. *)
Context (joint : (nat → U) → (nat → G) → S → Prop).

(** What a thread may do in its own state it may do in the shared one, and each
    answer it gets there is one it can get on its own. *)
Definition own_step (i : nat) : Prop := ∀ u g s X (e : E X),
  joint u g s → enabled (Sem := HU) e (u i) = true → enabled (Sem := HG) e (g i) = true →
  enabled (Sem := HS) e s = true ∧
  ∀ x s', act (Sem := HS) e s x = Some s' → ∃ u' g',
    act (Sem := HU) e (u i) x = Some u' ∧ act (Sem := HG) e (g i) x = Some g' ∧
    joint (<[i := u']> u) (<[i := g']> g) s'.

Context (m : nat) (Hown : ∀ i, (i < m)%nat → own_step i).
Context (fuel_ok : Prop) (T : nat → unit → U → Prop).

(** Alone, thread [i] started as [p0] in [u0] has got to [p] in [u]. *)
Definition alone (p0 p : prog E unit) (u0 u : U) : Prop := rtc pstep ([p0], u0) ([p], u).

(** Every thread goes on as it would alone, correctly. *)
Definition independent (ts0 : list (prog E unit)) (u0 : nat → U) (c : pool E S) : Prop :=
  length c.1 = m ∧
  ∃ u g, joint u g c.2 ∧ ∀ i p0 p, ts0 !! i = Some p0 → c.1 !! i = Some p →
    wpr (S := U) eq (λ _ _, True) fuel_ok p (T i) (u i) ∧
    checks (G := G) p (λ _ _, True) (g i) ∧
    alone p0 p (u0 i) (u i).

Lemma independent_step ts0 u0 c c' :
  length ts0 = m → independent ts0 u0 c → pstep c c' → independent ts0 u0 c'.
Proof.
  intros H0 (Hlen & u & g & Hj & Hok) Hstep. destruct Hstep as [ts s s' i X e k x Hi Hact]. simpl in *.
  assert (Him : (i < m)%nat) by (rewrite <- Hlen; by eapply lookup_lt_Some).
  destruct (lookup_lt_is_Some_2 ts0 i) as [p0 Hp0]; [by rewrite H0|].
  destruct (Hok _ _ _ Hp0 Hi) as (Hu & Hg & Ha).
  destruct (Hu (u i) eq_refl) as [Heu Hku]. destruct Hg as [Heg Hkg].
  destruct (Hown i Him u g s X e Hj Heu Heg) as [_ Hx].
  destruct (Hx x s' Hact) as (u' & g' & Hau & Hag & Hj').
  split; [cbn [fst]; by rewrite length_insert|]. exists (<[i := u']> u), (<[i := g']> g). split; [done|].
  intros j q0 q Hq0 Hq. cbn [fst] in Hq. destruct (decide (i = j)) as [<-|Hne].
  - rewrite list_lookup_insert_eq in Hq by by eapply lookup_lt_Some. simplify_eq.
    rewrite !fn_lookup_insert. split_and!; [by apply Hku|by apply Hkg|].
    eapply rtc_r; [exact Ha|]. by apply (pstep_act [Act e k] (u i) u' 0 X e k x).
  - rewrite list_lookup_insert_ne in Hq by done. rewrite !fn_lookup_insert_ne by done. by apply Hok.
Qed.

Lemma independent_steps ts0 u0 c c' :
  length ts0 = m → independent ts0 u0 c → rtc pstep c c' → independent ts0 u0 c'.
Proof. intros H0 Hok Hs. induction Hs; [done|]. eauto using independent_step. Qed.

Lemma independent_safe ts0 u0 c : length ts0 = m → independent ts0 u0 c → ¬ crashed c.
Proof.
  intros H0 (Hlen & u & g & Hj & Hok) (i & p & Hi & Hc).
  assert (Him : (i < m)%nat) by (rewrite <- Hlen; by eapply lookup_lt_Some).
  destruct (lookup_lt_is_Some_2 ts0 i) as [p0 Hp0]; [by rewrite H0|].
  destruct (Hok _ _ _ Hp0 Hi) as (Hu & Hg & _).
  destruct p as [|X e k|[]]; try done.
  - destruct (Hu (u i) eq_refl) as [Heu _]. destruct Hg as [Heg _].
    destruct (Hown i Him u g _ X e Hj Heu Heg). congruence.
  - by apply (Hu (u i) eq_refl).
Qed.

(** The rule. *)
Lemma independent_sound ts u g s c :
  length ts = m → joint u g s →
  (∀ i p, ts !! i = Some p → wpr (S := U) eq (λ _ _, True) fuel_ok p (T i) (u i)) →
  (∀ i p, ts !! i = Some p → checks (G := G) p (λ _ _, True) (g i)) →
  rtc pstep (ts, s) c → independent ts u c ∧ ¬ crashed c.
Proof.
  intros Hm Hj Hu Hg Hs.
  assert (H : independent ts u (ts, s)).
  { split; [done|]. exists u, g. split; [done|]. intros i p0 p H1 H2. simpl in *. simplify_eq.
    split_and!; [by apply Hu|by apply Hg|apply rtc_refl]. }
  pose proof (independent_steps _ _ _ _ Hm H Hs). split; [done|]. by eapply independent_safe.
Qed.
End independent.
