(* ===== verification/Hex.v ===== *)
(** * Hexadecimal conversions of [ctrl.c]

    [hex_to_bytes] and [bytes_to_hex] (src/internal/native/cgo/ctrl.c), over a
    model of the library's [strtol] in base 16 and of [snprintf("%02x")].  A
    store outside the caller's array makes [hex_to_bytes] return [None]. *)
From S2P Require Import Prelude.

(** ** The C library's [strtol(s, &end, 16)] and [%02x] *)

Definition isspace (c : ascii) : bool :=
  let n := nat_of_ascii c in ((n =? 32) || ((9 <=? n) && (n <=? 13)))%nat%bool.

Definition hex_digit (c : ascii) : option Z :=
  let n := Z.of_N (N_of_ascii c) in
  if (48 <=? n) && (n <=? 57) then Some (n - 48)
  else if (97 <=? n) && (n <=? 102) then Some (n - 87)
  else if (65 <=? n) && (n <=? 70) then Some (n - 55)
  else None.

Fixpoint skip_space (l : list ascii) : list ascii :=
  match l with
  | c :: l' => if isspace c then skip_space l' else l
  | [] => []
  end.

Fixpoint digits16 (acc : Z) (l : list ascii) : Z * list ascii :=
  match l with
  | c :: l' =>
      match hex_digit c with
      | Some d => digits16 (acc * 16 + d) l'
      | None => (acc, l)
      end
  | [] => (acc, [])
  end.

Definition strip_sign (l : list ascii) : bool * list ascii :=
  match l with
  | c :: l' => if Ascii.eqb c "-"%char then (true, l')
               else if Ascii.eqb c "+"%char then (false, l') else (false, l)
  | [] => (false, [])
  end.

Definition strip_0x (l : list ascii) : list ascii :=
  match l with
  | z :: x :: ((d :: _) as l') =>
      if (Ascii.eqb z "0"%char && (Ascii.eqb x "x"%char || Ascii.eqb x "X"%char) &&
          (match hex_digit d with Some _ => true | None => false end))%bool
      then l' else l
  | _ => l
  end.

(** [long] is 32 bits wide on the target (ARMv7). *)
Definition clamp_long (v : Z) : Z := Z.max (- 2 ^ 31) (Z.min (2 ^ 31 - 1) v).

(** The value and the characters left ([*end_ptr] on); no conversion leaves all. *)
Definition strtol16 (nptr : list ascii) : Z * list ascii :=
  let '(neg, l) := strip_sign (skip_space nptr) in
  let l := strip_0x l in
  match l with
  | c :: _ =>
      match hex_digit c with
      | Some _ => let '(v, rest) := digits16 0 l in
                  (clamp_long (if neg then - v else v), rest)
      | None => (0, nptr)
      end
  | [] => (0, nptr)
  end.

Definition hex_char (d : Z) : ascii :=
  ascii_of_N (Z.to_N (if d <? 10 then d + 48 else d + 87)).

(** [snprintf(p, 3, "%02x", b)] for a byte [b]. *)
Definition fmt_02x (b : Z) : list ascii := [hex_char (b / 16); hex_char (b mod 16)].

(** ** [hex_to_bytes] *)

Definition pair_value (c0 c1 : ascii) : option Z :=
  let '(value, end_ptr) := strtol16 [c0; c1] in
  match end_ptr with
  | _ :: _ => None
  | [] => if (value <? 0) || (255 <? value) then None else Some (u8 value)
  end.

(** The [for] loop from index [i] ([bytes[i / 2]] is stored at [j]); [Some -1]
    is the early return, [None] a store out of the array. *)
Fixpoint hex_loop (s : list ascii) (j : Z) (bytes : list Z) : option (Z * list Z) :=
  match s with
  | c0 :: c1 :: s' =>
      match pair_value c0 c1 with
      | None => Some (-1, bytes)
      | Some v =>
          match store bytes j v with
          | Some bytes' => hex_loop s' (j + 1) bytes'
          | None => None
          end
      end
  | _ => Some (j, bytes)
  end.

Definition hex_to_bytes (hex_str : string) (bytes : list Z) (max_len : Z)
  : option (Z * list Z) :=
  let hex_len := strnlen hex_str 4096 in
  if negb (hex_len mod 2 =? 0) || (max_len <? hex_len / 2) then Some (-1, bytes)
  else hex_loop (take (Z.to_nat hex_len) (chars hex_str)) 0 bytes.

(** ** [bytes_to_hex]: [malloc_ok] says whether [malloc] succeeds; a [NULL]
    array is [None]. *)

Definition hex_of (bytes : list Z) : list ascii := bytes ≫= fmt_02x.

Definition bytes_to_hex (bytes : option (list Z)) (len : Z) (malloc_ok : bool)
  : option string :=
  match bytes with
  | None => None
  | Some bs =>
      if len =? 0 then None
      else if negb malloc_ok then None
      else Some (text (hex_of (take (Z.to_nat len) bs)))
  end.

(** ** The abstract decoder: pairs of hexadecimal digits, nothing else *)

Fixpoint hex_decode (s : list ascii) : option (list Z) :=
  match s with
  | [] => Some []
  | [_] => None
  | c0 :: c1 :: s' =>
      match hex_digit c0, hex_digit c1, hex_decode s' with
      | Some h, Some l, Some bs => Some (16 * h + l :: bs)
      | _, _, _ => None
      end
  end.

(** The pairs that [strtol] accepts although they are not two hexadecimal
    digits: a blank or a sign before one digit ([-] only before [0]). *)
Definition lax_pair (c0 c1 : ascii) : option Z :=
  match hex_digit c1 with
  | Some d =>
      if isspace c0 || Ascii.eqb c0 "+"%char then Some d
      else if Ascii.eqb c0 "-"%char && (d =? 0) then Some 0 else None
  | None => None
  end.

Definition pair_spec (c0 c1 : ascii) : option Z :=
  match hex_digit c0, hex_digit c1 with
  | Some h, Some l => Some (16 * h + l)
  | _, _ => lax_pair c0 c1
  end.

(** What the function accepts: a sequence of accepted pairs. *)
Fixpoint hex_accept (s : list ascii) : option (list Z) :=
  match s with
  | [] => Some []
  | [_] => None
  | c0 :: c1 :: s' =>
      match pair_spec c0 c1, hex_accept s' with
      | Some v, Some bs => Some (v :: bs)
      | _, _ => None
      end
  end.

(** ** Lemmas *)

Definition all_ascii : list ascii := map ascii_of_nat (seq 0 256).

Lemma all_ascii_complete c : In c all_ascii.
Proof.
  apply in_map_iff. exists (nat_of_ascii c). split; [apply ascii_nat_embedding|].
  apply in_seq. pose proof (nat_ascii_bounded c). lia.
Qed.

Definition option_eqb (a b : option Z) : bool :=
  match a, b with
  | Some x, Some y => x =? y
  | None, None => true
  | _, _ => false
  end.

Lemma option_eqb_eq a b : option_eqb a b = true → a = b.
Proof. destruct a, b; simpl; try done. intros ?%Z.eqb_eq. by f_equal. Qed.

(** All 65536 pairs, by computation. *)
Lemma pair_value_spec c0 c1 : pair_value c0 c1 = pair_spec c0 c1.
Proof.
  assert (Hall : forallb (λ a, forallb (λ b, option_eqb (pair_value a b) (pair_spec a b))
                   all_ascii) all_ascii = true) by (vm_compute; reflexivity).
  rewrite forallb_forall in Hall. specialize (Hall c0 (all_ascii_complete c0)).
  rewrite forallb_forall in Hall. by apply option_eqb_eq, Hall, all_ascii_complete.
Qed.

Lemma hex_char_digit d : 0 <= d < 16 → hex_digit (hex_char d) = Some d.
Proof.
  intros Hd. assert (Hs : forallb (λ n, option_eqb (hex_digit (hex_char (Z.of_nat n)))
    (Some (Z.of_nat n))) (seq 0 16) = true) by (vm_compute; reflexivity).
  rewrite forallb_forall in Hs. specialize (Hs (Z.to_nat d)).
  rewrite Z2Nat.id in Hs by lia. apply option_eqb_eq, Hs, in_seq. lia.
Qed.

Lemma hex_decode_hex_of bs : Forall in_u8 bs → hex_decode (hex_of bs) = Some bs.
Proof.
  induction 1 as [|b bs Hb Hbs IH]; [done|].
  unfold hex_of in *. rewrite bind_cons. simpl.
  rewrite !hex_char_digit by cint. rewrite IH. f_equal. f_equal. cint.
Qed.

Lemma length_hex_of bs : length (hex_of bs) = (2 * length bs)%nat.
Proof. induction bs; [done|]. unfold hex_of in *. rewrite bind_cons, length_app, IHbs. simpl. lia. Qed.

(** The characters come in pairs: induction two at a time. *)
Lemma pair_ind (P : list ascii → Prop) :
  P [] → (∀ c, P [c]) → (∀ a b l, P l → P (a :: b :: l)) → ∀ l, P l.
Proof.
  intros H0 H1 H2. enough (H : ∀ l, P l ∧ ∀ c, P (c :: l)) by (intros l; apply H).
  induction l as [|c l [IH1 IH2]]; split; auto.
Qed.

Lemma hex_digit_pair c0 c1 h l :
  hex_digit c0 = Some h → hex_digit c1 = Some l → pair_value c0 c1 = Some (16 * h + l).
Proof. intros Hh Hl. rewrite pair_value_spec. unfold pair_spec. by rewrite Hh, Hl. Qed.

Lemma hex_accept_decode s bs : hex_decode s = Some bs → hex_accept s = Some bs.
Proof.
  revert bs. induction s as [|c|c0 c1 s IH] using pair_ind; simpl; intros bs H; [done..|].
  unfold pair_spec. destruct (hex_digit c0), (hex_digit c1), (hex_decode s) as [bs'|]; simplify_eq.
  by rewrite (IH _ eq_refl).
Qed.

Lemma hex_accept_length s bs : hex_accept s = Some bs → length s = (2 * length bs)%nat.
Proof.
  revert bs. induction s as [|c|c0 c1 s IH] using pair_ind; simpl; intros bs Hd; simplify_eq; [done|].
  destruct (pair_spec c0 c1), (hex_accept s) eqn:Hs; simplify_eq.
  rewrite (IH _ eq_refl). simpl. lia.
Qed.

Lemma pair_spec_range c0 c1 v : pair_spec c0 c1 = Some v → in_u8 v.
Proof.
  rewrite <- pair_value_spec. unfold pair_value. destruct (strtol16 [c0; c1]) as [w [|]]; [|done].
  destruct (_ || _); [done|]. intros [= <-]. apply u8_range.
Qed.

Lemma hex_accept_range s bs : hex_accept s = Some bs → Forall in_u8 bs.
Proof.
  revert bs. induction s as [|c|c0 c1 s IH] using pair_ind; simpl; intros bs Hd; simplify_eq; [done|].
  destruct (pair_spec c0 c1) as [v|] eqn:Hv, (hex_accept s) eqn:Hs; simplify_eq.
  constructor; [by eapply pair_spec_range|by apply IH].
Qed.

(** The loop on accepted pairs stores their bytes one after the other. *)
Lemma hex_loop_accept s pre bs buf :
  hex_accept s = Some bs → (length bs <= length buf)%nat →
  hex_loop s (Z.of_nat (length pre)) (pre ++ buf)
  = Some (Z.of_nat (length pre + length bs), pre ++ bs ++ drop (length bs) buf).
Proof.
  revert pre bs buf. induction s as [|c|c0 c1 s IH] using pair_ind; intros pre bs buf Hd Hlen.
  - simpl in *. simplify_eq/=. by rewrite Nat.add_0_r.
  - done.
  - simpl in Hd. destruct (pair_spec c0 c1) as [v|] eqn:Hv; [|done].
    destruct (hex_accept s) as [bs'|] eqn:Hs; [|done]. injection Hd as <-.
    destruct buf as [|b buf]; simpl in Hlen; [lia|]. cbn [hex_loop].
    rewrite pair_value_spec, Hv, store_in by (rewrite length_app; simpl; lia).
    rewrite Nat2Z.id, insert_app_r_alt, Nat.sub_diag by lia. simpl.
    replace (pre ++ v :: buf) with ((pre ++ [v]) ++ buf) by by rewrite <- app_assoc.
    replace (Z.of_nat (length pre) + 1) with (Z.of_nat (length (pre ++ [v])))
      by (rewrite length_app; simpl; lia).
    rewrite (IH _ bs') by (done || lia). rewrite length_app. simpl.
    f_equal. f_equal; [lia|]. by rewrite <- app_assoc.
Qed.

(** Whatever the input, the loop stays within [n] bytes from [j]. *)
Lemma hex_loop_bounds s j buf n :
  (length s <= 2 * n)%nat → 0 <= j → j + Z.of_nat n <= Z.of_nat (length buf) →
  ∃ r buf', hex_loop s j buf = Some (r, buf') ∧
    (r = -1 ∨ 0 <= r <= j + Z.of_nat n) ∧ length buf' = length buf ∧
    take (Z.to_nat j) buf' = take (Z.to_nat j) buf ∧
    drop (Z.to_nat j + n) buf' = drop (Z.to_nat j + n) buf.
Proof.
  revert j buf n. induction s as [|c|c0 c1 s IH] using pair_ind; intros j buf n Hs Hj Hn.
  - exists j, buf. simpl. split_and!; auto. lia.
  - exists j, buf. simpl. split_and!; auto. lia.
  - simpl in Hs. destruct n as [|n]; [lia|]. cbn [hex_loop].
    destruct (pair_value c0 c1) as [v|]; [|exists (-1), buf; split_and!; auto].
    rewrite store_in by lia.
    destruct (IH (j + 1) (<[Z.to_nat j := v]> buf) n) as (r & buf' & -> & Hr & Hl & Ht & Hd);
      rewrite ?length_insert; try lia.
    exists r, buf'. rewrite length_insert in Hl. split_and!; [done|lia|done| |].
    + replace (take (Z.to_nat j) buf') with (take (Z.to_nat j) (take (Z.to_nat (j + 1)) buf'))
        by (rewrite take_take; f_equal; lia).
      rewrite Ht, take_take, Nat.min_l by lia. apply take_insert_ge. lia.
    + replace (Z.to_nat j + Datatypes.S n)%nat with (Z.to_nat (j + 1) + n)%nat by lia.
      rewrite Hd. apply drop_insert_lt. lia.
Qed.

(** A pair that is not accepted makes the loop return [-1]. *)
Lemma hex_loop_reject s j buf n :
  hex_accept s = None → length s = (2 * n)%nat →
  0 <= j → j + Z.of_nat n <= Z.of_nat (length buf) →
  ∃ buf', hex_loop s j buf = Some (-1, buf').
Proof.
  revert j buf n. induction s as [|c|a b s IH] using pair_ind; intros j buf n Hs Hl Hj Hn.
  - done.
  - simpl in Hl. lia.
  - cbn [hex_loop]. rewrite pair_value_spec. simpl in Hs, Hl.
    destruct (pair_spec a b) as [v|]; [|eauto].
    destruct (hex_accept s); [done|]. destruct n as [|n]; [lia|].
    rewrite store_in by lia. apply (IH _ _ n); rewrite ?length_insert; lia || done.
Qed.

Lemma hex_to_bytes_even hex buf max_len n :
  length (chars hex) = (2 * n)%nat → Z.of_nat n <= 2048 →
  hex_to_bytes hex buf max_len
  = if max_len <? Z.of_nat n then Some (-1, buf) else hex_loop (chars hex) 0 buf.
Proof.
  intros Hl Hn. unfold hex_to_bytes, strnlen, strlen. rewrite <- length_chars, Hl.
  rewrite Z.min_l by lia. replace (Z.of_nat (2 * n)) with (Z.of_nat n * 2) by lia.
  rewrite Z.mod_mul, Z.div_mul by lia. simpl. destruct (_ <? _); [done|].
  by rewrite take_ge by lia.
Qed.

Lemma even_or_odd_length (l : list ascii) :
  (∃ n, length l = (2 * n)%nat) ∨ (∃ n, length l = (2 * n + 1)%nat).
Proof. destruct (Nat.Even_or_Odd (length l)) as [[n ?]|[n ?]]; eauto. Qed.

Lemma hex_to_bytes_odd hex buf max_len n :
  length (chars hex) = (2 * n + 1)%nat → strlen hex <= 4096 →
  hex_to_bytes hex buf max_len = Some (-1, buf).
Proof.
  unfold hex_to_bytes, strnlen, strlen. rewrite length_chars. intros -> Hs.
  rewrite Z.min_l by lia.
  replace (Z.of_nat (2 * n + 1) mod 2) with 1; [done|]. Z.div_mod_to_equations; lia.
Qed.

Lemma hex_to_bytes_long hex buf max_len :
  4096 < strlen hex → max_len < 2048 → hex_to_bytes hex buf max_len = Some (-1, buf).
Proof.
  intros. unfold hex_to_bytes, strnlen. rewrite Z.min_r by lia.
  by destruct (Z.ltb_spec max_len (4096 / 2)); [|change (4096 / 2) with 2048 in *; lia].
Qed.

Lemma hex_to_bytes_correct (hex : string) (buf : list Z) (max_len : Z) :
  0 <= max_len <= Z.of_nat (length buf) → max_len < 2048 →
  match hex_accept (chars hex) with
  | Some bs =>
      hex_to_bytes hex buf max_len
      = if max_len <? Z.of_nat (length bs) then Some (-1, buf)
        else Some (Z.of_nat (length bs), bs ++ drop (length bs) buf)
  | None =>
      ∃ buf', hex_to_bytes hex buf max_len = Some (-1, buf') ∧ length buf' = length buf
        ∧ drop (Z.to_nat max_len) buf' = drop (Z.to_nat max_len) buf
  end.
Proof.
  intros Hm Hs'. destruct (Z.le_gt_cases (strlen hex) 4096) as [Hs|Hs]; cycle 1.
  { rewrite hex_to_bytes_long by lia. destruct (hex_accept (chars hex)) as [bs|] eqn:Ha; [|eauto].
    apply hex_accept_length in Ha. unfold strlen in Hs. rewrite <- length_chars in Hs.
    by destruct (Z.ltb_spec max_len (Z.of_nat (length bs))); [|lia]. }
  destruct (hex_accept (chars hex)) as [bs|] eqn:Ha.
  - pose proof (hex_accept_length _ _ Ha) as Hl. unfold strlen in Hs. rewrite <- length_chars in Hs.
    rewrite (hex_to_bytes_even _ _ _ _ Hl) by lia. destruct (Z.ltb_spec max_len (Z.of_nat (length bs))); [done|].
    apply (hex_loop_accept _ [] bs buf Ha). lia.
  - destruct (even_or_odd_length (chars hex)) as [[n Hl]|[n Hl]];
      [|exists buf; by rewrite (hex_to_bytes_odd _ _ _ n)].
    unfold strlen in Hs. rewrite <- length_chars in Hs.
    rewrite (hex_to_bytes_even _ _ _ _ Hl) by lia.
    destruct (Z.ltb_spec max_len (Z.of_nat n)); [eauto|].
    destruct (hex_loop_reject _ 0 buf n Ha Hl) as [buf' Hb]; [lia..|].
    destruct (hex_loop_bounds (chars hex) 0 buf n) as (r & b & He & _ & Hlen & _ & Hd); [lia..|].
    rewrite Hb in He. simplify_eq. exists b. split_and!; [done..|].
    replace (Z.to_nat max_len) with (Z.to_nat 0 + n + (Z.to_nat max_len - n))%nat by lia.
    by rewrite <- !(drop_drop _ _ (Z.to_nat 0 + n)), Hd.
Qed.

(** ** Properties *)

(** C29: [hex_to_bytes] on every string and every array that holds [max_len]
    (fewer than 2048) bytes: a string of accepted pairs that fits is decoded
    to the front of the array and its byte count returned, everything else
    (odd length, too long, a rejected pair) returns [-1]; no store leaves the
    array. *)
Theorem hex_to_bytes_spec (hex : string) (buf : list Z) (max_len : Z) :
  0 <= max_len <= Z.of_nat (length buf) → max_len < 2048 →
  match hex_accept (chars hex) with
  | Some bs =>
      hex_to_bytes hex buf max_len
      = if max_len <? Z.of_nat (length bs) then Some (-1, buf)
        else Some (Z.of_nat (length bs), bs ++ drop (length bs) buf)
  | None =>
      ∃ buf', hex_to_bytes hex buf max_len = Some (-1, buf') ∧ length buf' = length buf
        ∧ drop (Z.to_nat max_len) buf' = drop (Z.to_nat max_len) buf
  end.
Proof. apply hex_to_bytes_correct. Qed.
Lemma hex_to_bytes_spec_witness :
  (0 <= 2 <= Z.of_nat (length [0; 0; 0])) ∧ 2 < 2048 ∧
  hex_to_bytes "fF0a" [0; 0; 0] 2 = Some (2, [255; 10; 0]).
Proof.
  split_and!; [vm_compute; done..|].
  apply (hex_to_bytes_spec "fF0a" [0; 0; 0] 2); vm_compute; done.
Defined.

(** C31: round trip. Decoding what [bytes_to_hex] prints for at most [max_len]
    bytes gives the bytes back. *)
Theorem hex_roundtrip (bs buf : list Z) (max_len : Z) (hex : string) :
  Forall in_u8 bs → max_len < 2048 →
  Z.of_nat (length bs) <= max_len <= Z.of_nat (length buf) →
  bytes_to_hex (Some bs) (Z.of_nat (length bs)) true = Some hex →
  hex_to_bytes hex buf max_len = Some (Z.of_nat (length bs), bs ++ drop (length bs) buf).
Proof.
  intros Hbs Hn Hm Hx. unfold bytes_to_hex in Hx. destruct (_ =? 0); [done|]. simpl in Hx.
  rewrite Nat2Z.id, take_ge in Hx by lia. injection Hx as <-.
  pose proof (hex_to_bytes_correct (text (hex_of bs)) buf max_len) as H.
  rewrite chars_text in H.
  rewrite (hex_accept_decode _ bs) in H by by apply hex_decode_hex_of.
  rewrite H by lia. destruct (Z.ltb_spec max_len (Z.of_nat (length bs))); [lia|done].
Qed.
Lemma hex_roundtrip_witness :
  Forall in_u8 [0; 171; 255] ∧
  hex_to_bytes "00abff" [1; 1; 1; 1] 4 = Some (3, [0; 171; 255; 1]).
Proof.
  assert (H : Forall in_u8 [0; 171; 255]) by (repeat constructor; vm_compute; done).
  split; [done|]. apply (hex_roundtrip [0; 171; 255]); [done|vm_compute; done..].
Defined.

(** Finding: the function accepts more than the hexadecimal strings its comment
    announces: a blank or a sign counts as the first character of a pair, so
    ["+5"], [" 5"] and ["-0"] convert instead of returning [-1], while every
    pair of hexadecimal digits and only these extra pairs are accepted. *)
Theorem hex_to_bytes_accepts_sign :
  hex_decode (chars "+5 a-0") = None ∧
  hex_to_bytes "+5 a-0" [0; 0; 0] 3 = Some (3, [5; 10; 0]) ∧
  ∀ c0 c1, pair_value c0 c1 ≠ None ↔
    (hex_digit c0 ≠ None ∧ hex_digit c1 ≠ None) ∨ lax_pair c0 c1 ≠ None.
Proof.
  split_and!; [vm_compute; done..|]. intros c0 c1. rewrite pair_value_spec.
  unfold pair_spec, lax_pair. destruct (hex_digit c0), (hex_digit c1); intuition congruence.
Qed.
