(* ===== verification/Edid.v ===== *)
(** * The display's EDID: [edid.c] and its callers in [ctrl.c]

    [get_edid], [set_edid] and [fix_edid_checksum]
    (src/internal/native/cgo/edid.c) with [jetkvm_video_set_edid] and
    [jetkvm_video_get_edid_hex] (ctrl.c).  The V4L2 subdevice is the
    environment: [edid_sem] gives the documented meaning of its ioctls (a
    successful [VIDIOC_S_EDID] replaces the device's EDID, [VIDIOC_G_EDID]
    writes at most [blocks] blocks of it to the caller's array). *)
From S2P Require Import Prelude Effects Hex.

(** ** [fix_edid_checksum] *)

(** [uint8_t sum]; [for (i = 0; i < n; i++) sum += edid[p + i]]. *)
Fixpoint sum_bytes (edid : list Z) (p : Z) (n : nat) (sum : Z) : option Z :=
  match n with
  | O => Some sum
  | S n' =>
      match load edid p with
      | Some b => sum_bytes edid (p + 1) n' (u8 (sum + b))
      | None => None
      end
  end.

Fixpoint fix_blocks (edid : list Z) (block : Z) (n : nat) : option (list Z) :=
  match n with
  | O => Some edid
  | S n' =>
      match sum_bytes edid (block * 128) 127 0 with
      | Some sum =>
          match store edid (block * 128 + 127) (u8 (256 - sum)) with
          | Some edid' => fix_blocks edid' (block + 1) n'
          | None => None
          end
      | None => None
      end
  end.

Definition fix_edid_checksum (edid : list Z) (size : Z) : option (list Z) :=
  fix_blocks edid 0 (Z.to_nat (size / 128)).

(** A block is valid when its 128 bytes add up to 0 modulo 256. *)
Definition block_valid (edid : list Z) (block : Z) : Prop :=
  sum_bytes edid (block * 128) 128 0 = Some 0.

(** ** The subdevice and the C library *)

Inductive edidE : Type → Type :=
| Open : edidE Z                                        (* open(V4L_SUBDEV, O_RDWR) *)
| Close (fd : Z) : edidE unit
| G_EDID (fd blocks : Z) : edidE (Z * Z * list Z)       (* rc, blocks, bytes written *)
| S_EDID (fd blocks : Z) (edid : list Z) : edidE Z      (* rc *)
| Malloc : edidE bool
| SetErrno (e : Z) : edidE unit.

Definition EINVAL : Z := 22.

Record edid_state := EdidState {
  fds : list Z;         (* open descriptors of the subdevice *)
  dev_edid : list Z;    (* the EDID the device presents *)
  errno : Z
}.

Definition edid_enabled {X} (e : edidE X) (s : edid_state) : bool :=
  match e with
  | Close fd | G_EDID fd _ | S_EDID fd _ _ => bool_decide (fd ∈ fds s)
  | _ => true
  end.

Definition edid_act {X} (e : edidE X) (s : edid_state) : X → option edid_state :=
  match e in edidE X return X → option edid_state with
  | Open => λ fd,
      if fd <? 0 then Some s
      else if bool_decide (fd ∈ fds s) then None
      else Some (EdidState (fd :: fds s) (dev_edid s) (errno s))
  | Close fd => λ _, Some (EdidState (remove Z.eq_dec fd (fds s)) (dev_edid s) (errno s))
  | G_EDID _ blocks => λ '(rc, b, data),
      if rc <? 0 then Some s
      else if bool_decide (b = Z.min blocks (Z.of_nat (length (dev_edid s)) / 128)
                           ∧ data = take (Z.to_nat (b * 128)) (dev_edid s))
           then Some s else None
  | S_EDID _ blocks edid => λ rc,
      if rc <? 0 then Some s
      else Some (EdidState (fds s) (take (Z.to_nat (blocks * 128)) edid) (errno s))
  | Malloc => λ _, Some s
  | SetErrno e => λ _, Some (EdidState (fds s) (dev_edid s) e)
  end.

#[export] Instance edid_sem : Sem edidE edid_state :=
  {| enabled := @edid_enabled; act := @edid_act |}.

(** ** [get_edid] and [set_edid]: the array is part of the result, [NULL] is
    [None]; the array's bytes past [length] are out of bounds. *)

Definition get_edid (edid : option (list Z)) (max_size : Z) : prog edidE (Z * list Z) :=
  match edid with
  | None => call (SetErrno EINVAL);; mret (-1, [])
  | Some buf =>
      if negb (max_size =? 128) && negb (max_size =? 256) then
        call (SetErrno EINVAL);; mret (-1, buf)
      else
        fd ← call Open;
        if fd <? 0 then mret (-1, buf)
        else
          r ← call (G_EDID fd 2);
          let '(rc, blocks, data) := r in
          if rc <? 0 then call (Close fd);; mret (-1, buf)
          else
            match store_list buf 0 data with
            | None => Stop (Crash "VIDIOC_G_EDID writes past the array")
            | Some buf' => call (Close fd);; mret (blocks * 128, buf')
            end
  end.

Definition set_edid (edid : option (list Z)) (size : Z) : prog edidE (Z * list Z) :=
  match edid with
  | None => call (SetErrno EINVAL);; mret (-1, [])
  | Some buf =>
      if negb (size =? 128) && negb (size =? 256) then
        call (SetErrno EINVAL);; mret (-1, buf)
      else
        fd ← call Open;
        if fd <? 0 then mret (-1, buf)
        else
          match fix_edid_checksum buf size with
          | None => Stop (Crash "fix_edid_checksum reads past the array")
          | Some buf' =>
              rc ← call (S_EDID fd (size / 128) buf');
              if rc <? 0 then call (Close fd);; mret (-1, buf')
              else call (Close fd);; mret (0, buf')
          end
  end.

(** ** The exported functions of [ctrl.c]; [edid] is the uninitialised local
    array [uint8_t edid[256]]. *)

Definition jetkvm_video_set_edid (edid : list Z) (edid_hex : string) : prog edidE Z :=
  match hex_to_bytes edid_hex edid 256 with
  | None => Stop (Crash "hex_to_bytes writes past the array")
  | Some (edid_len, edid') =>
      if edid_len <? 0 then mret (-1)
      else r ← set_edid (Some edid') edid_len; mret r.1
  end.

Definition jetkvm_video_get_edid_hex (edid : list Z) : prog edidE (option string) :=
  r ← get_edid (Some edid) 256;
  let '(edid_len, edid') := r in
  if edid_len <? 0 then mret None
  else ok ← call Malloc; mret (bytes_to_hex (Some edid') edid_len ok).

(** ** Lemmas on the checksum *)

Lemma load_some {A} (l : list A) i : 0 <= i < Z.of_nat (length l) → ∃ x, load l i = Some x.
Proof.
  intros. unfold load. rewrite decide_True by lia. apply lookup_lt_is_Some. lia.
Qed.

Lemma load_store {A} (l l' : list A) i j v :
  store l i v = Some l' → load l' j = if decide (i = j) then Some v else load l j.
Proof.
  unfold store, load. intros H. case_decide; [|done]. injection H as <-.
  destruct (decide (0 <= j)); [|by rewrite decide_False by lia].
  destruct (decide (i = j)) as [->|].
  - rewrite list_lookup_insert_eq; [done|lia].
  - rewrite list_lookup_insert_ne; [done|lia].
Qed.

Lemma load_eq {A} (l l' : list A) :
  length l = length l' → (∀ i, load l i = load l' i) → l = l'.
Proof.
  intros Hlen H. apply list_eq. intros i. specialize (H (Z.of_nat i)).
  unfold load in H. rewrite !decide_True, Nat2Z.id in H by lia. done.
Qed.

Lemma sum_bytes_ext e e' p n s :
  (∀ i, p <= i < p + Z.of_nat n → load e i = load e' i) →
  sum_bytes e p n s = sum_bytes e' p n s.
Proof.
  revert p s. induction n as [|n IH]; simpl; intros p s H; [done|].
  rewrite (H p) by lia. destruct (load e' p); [|done]. apply IH. intros. apply H. lia.
Qed.

Lemma sum_bytes_snoc e p n s t :
  sum_bytes e p n s = Some t →
  sum_bytes e p (S n) s
  = match load e (p + Z.of_nat n) with Some b => Some (u8 (t + b)) | None => None end.
Proof.
  revert p s. induction n as [|n IH]; intros p s H.
  - simpl in *. simplify_eq. rewrite Z.add_0_r. by destruct (load e p).
  - cbn [sum_bytes] in H. destruct (load e p) as [b|] eqn:Hb; [|done].
    cbn [sum_bytes]. rewrite Hb. specialize (IH _ _ H). cbn [sum_bytes] in IH. rewrite IH.
    by replace (p + 1 + Z.of_nat n) with (p + Z.of_nat (S n)) by lia.
Qed.

Lemma sum_bytes_total e p n s :
  0 <= p → p + Z.of_nat n <= Z.of_nat (length e) → in_u8 s →
  ∃ t, sum_bytes e p n s = Some t ∧ in_u8 t.
Proof.
  revert p s. induction n as [|n IH]; simpl; intros p s Hp Hl Hs; [eauto|].
  destruct (load_some e p) as [b ->]; [lia|]. apply IH; [lia..|]. apply u8_range.
Qed.

(** The loop from block [b] on: it succeeds within the array, leaves every
    byte but the checksums of its blocks alone, and makes its blocks valid. *)
Lemma fix_blocks_spec edid b n :
  0 <= b → (b + Z.of_nat n) * 128 <= Z.of_nat (length edid) →
  ∃ edid', fix_blocks edid b n = Some edid' ∧ length edid' = length edid ∧
    (∀ i, (∀ k, b <= k < b + Z.of_nat n → i ≠ k * 128 + 127) → load edid' i = load edid i) ∧
    (∀ k, b <= k < b + Z.of_nat n → block_valid edid' k).
Proof.
  revert edid b. induction n as [|n IH]; intros edid b Hb Hl; cbn [fix_blocks].
  { exists edid. repeat split; try (intros; reflexivity). intros. lia. }
  destruct (sum_bytes_total edid (b * 128) 127 0) as (t & Ht & Hti); [lia|lia|cint|].
  rewrite Ht. rewrite store_in by lia.
  set (e1 := <[Z.to_nat (b * 128 + 127):=u8 (256 - t)]> edid).
  assert (Hst : store edid (b * 128 + 127) (u8 (256 - t)) = Some e1) by (apply store_in; lia).
  assert (Hl1 : length e1 = length edid) by apply length_insert.
  destruct (IH e1 (b + 1)) as (e' & He & Hlen & Hsame & Hval); [lia|lia|].
  exists e'. repeat split; [exact He|lia| |].
  - intros i Hi. rewrite Hsame by (intros k Hk; apply Hi; lia).
    rewrite (load_store _ _ _ _ _ Hst), decide_False; [done|]. specialize (Hi b). lia.
  - intros k Hk. destruct (decide (k = b)) as [->|Hne]; [|apply Hval; lia].
    assert (Hs127 : sum_bytes e' (b * 128) 127 0 = Some t).
    { rewrite <- Ht. apply sum_bytes_ext. intros i Hi. rewrite Hsame by (intros j Hj; lia).
      rewrite (load_store _ _ _ _ _ Hst), decide_False; [done|lia]. }
    unfold block_valid. rewrite (sum_bytes_snoc _ _ _ _ _ Hs127).
    replace (b * 128 + Z.of_nat 127) with (b * 128 + 127) by lia.
    rewrite Hsame by (intros j Hj; lia).
    rewrite (load_store _ _ _ _ _ Hst), decide_True by done. f_equal. cint.
Qed.

(** Valid blocks are already fixed. *)
Lemma fix_blocks_valid edid b n :
  Forall in_u8 edid → 0 <= b → (b + Z.of_nat n) * 128 <= Z.of_nat (length edid) →
  (∀ k, b <= k < b + Z.of_nat n → block_valid edid k) →
  fix_blocks edid b n = Some edid.
Proof.
  intros Hu. revert b. induction n as [|n IH]; intros b Hb Hl Hv; cbn [fix_blocks]; [reflexivity|].
  destruct (sum_bytes_total edid (b * 128) 127 0) as (t & Ht & Hti); [lia|lia|cint|].
  pose proof (Hv b ltac:(lia)) as Hvb. unfold block_valid in Hvb.
  rewrite (sum_bytes_snoc _ _ _ _ _ Ht) in Hvb.
  change (Z.of_nat 127) with 127 in Hvb.
  destruct (load edid (b * 128 + 127)) as [c|] eqn:Hc; [|done]. rewrite Ht.
  rewrite store_in by lia. unfold load in Hc. rewrite decide_True in Hc by lia.
  assert (in_u8 c) by (eapply (Forall_lookup_1 _ _ _ _ Hu), Hc).
  injection Hvb as Hvb. replace (u8 (256 - t)) with c by cint.
  rewrite list_insert_id by done. apply IH; [lia|lia|]. intros. apply Hv. lia.
Qed.

Lemma fix_blocks_range edid edid' b n :
  Forall in_u8 edid → fix_blocks edid b n = Some edid' → Forall in_u8 edid'.
Proof.
  revert edid b. induction n as [|n IH]; cbn [fix_blocks]; intros edid b Hu H; [by injection H as <-|].
  destruct (sum_bytes edid (b * 128) 127 0); [|done].
  destruct (store _ _ _) as [e1|] eqn:Hs; [|done]. eapply IH; [|done].
  unfold store in Hs. case_decide; simplify_eq. apply Forall_insert; [done|apply u8_range].
Qed.

(** The loop does not look past its last block. *)
Lemma sum_bytes_app e r p n s :
  0 <= p → p + Z.of_nat n <= Z.of_nat (length e) →
  sum_bytes (e ++ r) p n s = sum_bytes e p n s.
Proof.
  intros Hp Hl. apply sum_bytes_ext. intros i Hi. unfold load.
  rewrite !decide_True by lia. apply lookup_app_l. lia.
Qed.

Lemma fix_blocks_app e r b n :
  0 <= b → (b + Z.of_nat n) * 128 <= Z.of_nat (length e) →
  fix_blocks (e ++ r) b n
  = match fix_blocks e b n with Some e' => Some (e' ++ r) | None => None end.
Proof.
  revert e b. induction n as [|n IH]; intros e b Hb Hl; cbn [fix_blocks]; [reflexivity|].
  rewrite sum_bytes_app by lia. destruct (sum_bytes e (b * 128) 127 0) as [t|]; [|reflexivity].
  rewrite !store_in by (rewrite ?length_app; lia). rewrite insert_app_l by lia.
  apply IH; [lia|]. rewrite length_insert. lia.
Qed.

Lemma edid_blocks size : size = 128 ∨ size = 256 →
  Z.of_nat (Z.to_nat (size / 128)) = size / 128 ∧ size / 128 * 128 = size.
Proof. by intros [-> | ->]. Qed.

(** ** Lemmas on the device functions *)

Lemma remove_fresh (fd : Z) l : fd ∉ l → remove Z.eq_dec fd (fd :: l) = l.
Proof.
  intros H. simpl. destruct (Z.eq_dec fd fd); [|done].
  apply notin_remove. by rewrite <- list_elem_of_In.
Qed.

Ltac edid_act :=
  repeat match goal with
  | H : edid_act _ _ _ = Some _ |- _ => unfold edid_act in H
  | H : (if ?b then _ else _) = Some _ |- _ => destruct b eqn:?; try done
  | H : Some _ = Some _ |- _ => injection H as <-
  | H : bool_decide _ = true |- _ => apply bool_decide_eq_true in H
  | H : bool_decide _ = false |- _ => apply bool_decide_eq_false in H
  | H : _ ∧ _ |- _ => destruct H
  end; simpl fds in *; simpl dev_edid in *; simpl errno in *.

Lemma edid_close_enabled fd s : fd ∈ fds s → edid_enabled (Close fd) s = true.
Proof. intros. by apply bool_decide_eq_true. Qed.

(** The subdevice's EDID fits the caller's 256 bytes. *)
Lemma get_edid_wp buf s (Q : Z * list Z → edid_state → Prop) :
  length buf = 256%nat →
  (∀ buf' s', length buf' = 256%nat → fds s' = fds s → dev_edid s' = dev_edid s →
    Q (-1, buf') s') →
  (∀ s', fds s' = fds s → dev_edid s' = dev_edid s →
    let b := Z.min 2 (Z.of_nat (length (dev_edid s)) / 128) in
    let data := take (Z.to_nat (b * 128)) (dev_edid s) in
    Q (b * 128, data ++ drop (length data) buf) s') →
  twp (get_edid (Some buf) 256) Q s.
Proof.
  intros Hb Herr Hok. unfold get_edid. simpl negb. cbv iota.
  cbn [call mret prog_mret prog_bind andb].
  apply wp_act; [done|]. intros fd s1 H1. simpl in H1.
  destruct (fd <? 0) eqn:Hfd; edid_act; [by apply wp_ret, Herr|].
  apply wp_act; [by apply bool_decide_eq_true; left|]. intros [[rc b] data] s2 H2. simpl in H2.
  destruct (rc <? 0) eqn:Hrc; edid_act.
  - apply wp_act; [by apply bool_decide_eq_true; left|]. intros [] s3 H3. simpl in H3. injection H3 as <-.
    apply wp_ret, Herr; [done| |done]. by apply remove_fresh.
  - assert (Hlen : (length data <= length buf)%nat).
    { subst. rewrite length_take. pose proof (Z.le_min_l 2 (Z.of_nat (length (dev_edid s)) / 128)). lia. }
    rewrite (store_list_0 _ _ Hlen).
    apply wp_act; [by apply bool_decide_eq_true; left|]. intros [] s3 H3. simpl in H3. injection H3 as <-.
    subst b data. apply wp_ret, Hok; [|done]. by apply remove_fresh.
Qed.

Lemma set_edid_wp buf size buf' s (Q : Z * list Z → edid_state → Prop) :
  size = 128 ∨ size = 256 → fix_edid_checksum buf size = Some buf' →
  (∀ b s', fds s' = fds s → dev_edid s' = dev_edid s → Q (-1, b) s') →
  (∀ s', fds s' = fds s → dev_edid s' = take (Z.to_nat size) buf' → Q (0, buf') s') →
  twp (set_edid (Some buf) size) Q s.
Proof.
  intros Hsize Hfix Herr Hok. unfold set_edid.
  replace (negb (size =? 128) && negb (size =? 256)) with false by lia.
  cbn [call mret prog_mret prog_bind].
  apply wp_act; [done|]. intros fd s1 H1. simpl in H1.
  destruct (fd <? 0) eqn:Hfd; edid_act; [by apply wp_ret, Herr|]. rewrite Hfix.
  apply wp_act; [by apply bool_decide_eq_true; left|]. intros rc s2 H2. simpl in H2.
  destruct (rc <? 0) eqn:Hrc; edid_act;
    (apply wp_act; [by apply bool_decide_eq_true; left|]; intros [] s3 H3; simpl in H3; injection H3 as <-);
    apply wp_ret.
  - apply Herr; [|done]. by apply remove_fresh.
  - apply Hok; [by apply remove_fresh|]. simpl. f_equal.
    by destruct (edid_blocks _ Hsize) as [_ ->].
Qed.

Lemma set_edid_invalid buf size s (Q : Z * list Z → edid_state → Prop) :
  size ≠ 128 → size ≠ 256 →
  Q (-1, buf) (EdidState (fds s) (dev_edid s) EINVAL) →
  twp (set_edid (Some buf) size) Q s.
Proof.
  intros Hn1 Hn2 HQ. unfold set_edid.
  replace (negb (size =? 128) && negb (size =? 256)) with true by lia.
  cbn [call mret prog_mret prog_bind].
  apply wp_act; [done|]. intros [] s1 H1. simpl in H1. injection H1 as <-. by apply wp_ret.
Qed.

Lemma fix_edid_checksum_correct (edid : list Z) (size : Z) :
  Forall in_u8 edid → 0 <= size <= Z.of_nat (length edid) →
  ∃ edid', fix_edid_checksum edid size = Some edid' ∧ length edid' = length edid ∧
    (∀ k, 0 <= k < size / 128 → block_valid edid' k) ∧
    (∀ i, (∀ k, 0 <= k < size / 128 → i ≠ k * 128 + 127) → load edid' i = load edid i) ∧
    fix_edid_checksum edid' size = Some edid' ∧
    ((∀ k, 0 <= k < size / 128 → block_valid edid k) → edid' = edid).
Proof.
  intros Hu Hsize. unfold fix_edid_checksum. set (n := Z.to_nat (size / 128)).
  assert (Hd : 0 <= size / 128) by (apply Z.div_pos; lia).
  assert (Hn : Z.of_nat n = size / 128) by (unfold n; lia). rewrite <- Hn. clearbody n.
  assert (Hfit : (0 + Z.of_nat n) * 128 <= Z.of_nat (length edid)).
  { pose proof (Z.mul_div_le size 128). lia. }
  destruct (fix_blocks_spec edid 0 n) as (e' & He & Hlen & Hsame & Hval); [done..|].
  exists e'. repeat split; [exact He|exact Hlen|intros; by apply Hval|intros; by apply Hsame| |].
  - apply fix_blocks_valid; [by eapply fix_blocks_range|done|by rewrite Hlen|done].
  - intros Hv. rewrite fix_blocks_valid in He by done. by injection He as <-.
Qed.

Lemma jetkvm_video_set_edid_wp (hex : string) (junk : list Z) (s : edid_state) :
  length junk = 256%nat → Forall in_u8 junk →
  twp (jetkvm_video_set_edid junk hex)
    (λ r s', fds s' = fds s ∧
       (r = -1 ∧ dev_edid s' = dev_edid s ∨
        r = 0 ∧ ∃ bs, hex_accept (chars hex) = Some bs ∧
          (length bs = 128%nat ∨ length bs = 256%nat) ∧
          fix_edid_checksum bs (Z.of_nat (length bs)) = Some (dev_edid s') ∧
          ∀ k, 0 <= k < Z.of_nat (length bs) / 128 → block_valid (dev_edid s') k)) s.
Proof.
  intros Hj Hju. unfold jetkvm_video_set_edid.
  pose proof (hex_to_bytes_correct hex junk 256 ltac:(lia) ltac:(lia)) as Hhex.
  destruct (hex_accept (chars hex)) as [bs|] eqn:Ha; cycle 1.
  { destruct Hhex as (b & -> & _). apply wp_ret. auto. }
  rewrite Hhex. destruct (Z.ltb_spec 256 (Z.of_nat (length bs))) as [|Hbs]; [apply wp_ret; auto|].
  destruct (Z.ltb_spec (Z.of_nat (length bs)) 0); [lia|]. set (n := Z.of_nat (length bs)) in *.
  set (buf := bs ++ drop (length bs) junk).
  assert (Hbl : length buf = 256%nat) by (unfold buf; rewrite length_app, length_drop; lia).
  pose proof (hex_accept_range _ _ Ha) as Hru.
  apply wpr_bind; [exact _|].
  destruct (decide (n = 128 ∨ n = 256)) as [Hn|Hn]; cycle 1.
  { apply set_edid_invalid; [lia|lia|]. apply wp_ret. auto. }
  assert (Hnat : length bs = 128%nat ∨ length bs = 256%nat) by lia.
  destruct (fix_edid_checksum_correct bs n) as (e & He & Hle & Hve & _); [done|lia|].
  destruct (fix_edid_checksum_correct buf n) as (e' & He' & Hle' & _);
    [unfold buf; apply Forall_app; split; [done|by apply Forall_drop]|lia|].
  assert (Htake : take (Z.to_nat n) e' = e).
  { unfold fix_edid_checksum, buf in *.
    rewrite fix_blocks_app in He' by (destruct (edid_blocks _ Hn); lia).
    rewrite He in He'. injection He' as <-. apply take_app_length'. lia. }
  apply (set_edid_wp _ _ e'); [done|done| |].
  - intros b s' Hf Hd. apply wp_ret. auto.
  - intros s' Hf Hd. apply wp_ret. split; [done|]. right. split; [done|]. exists bs.
    rewrite Hd, Htake. auto.
Qed.

(** ** Properties *)

(** C30: [fix_edid_checksum] within the array makes every block's 128 bytes add
    up to 0 modulo 256, changes no byte but the checksums, and leaves an EDID
    that is already right unchanged (so it is idempotent). *)
Theorem fix_edid_checksum_spec (edid : list Z) (size : Z) :
  Forall in_u8 edid → 0 <= size <= Z.of_nat (length edid) →
  ∃ edid', fix_edid_checksum edid size = Some edid' ∧ length edid' = length edid ∧
    (∀ k, 0 <= k < size / 128 → block_valid edid' k) ∧
    (∀ i, (∀ k, 0 <= k < size / 128 → i ≠ k * 128 + 127) → load edid' i = load edid i) ∧
    fix_edid_checksum edid' size = Some edid' ∧
    ((∀ k, 0 <= k < size / 128 → block_valid edid k) → edid' = edid).
Proof. apply fix_edid_checksum_correct. Qed.
Definition sample_edid : list Z := replicate 100 7 ++ replicate 28 0.
Lemma fix_edid_checksum_spec_witness :
  (Forall in_u8 sample_edid ∧ 0 <= 128 <= Z.of_nat (length sample_edid)) ∧
  ∃ edid', fix_edid_checksum sample_edid 128 = Some edid' ∧ block_valid edid' 0.
Proof.
  assert (H : Forall in_u8 sample_edid)
    by (unfold sample_edid; apply Forall_app; split; apply Forall_replicate; vm_compute; done).
  split; [split; [exact H|vm_compute; done]|].
  destruct (fix_edid_checksum_spec sample_edid 128) as (e & He & _ & Hv & _);
    [exact H|vm_compute; done|].
  exists e. split; [exact He|]. apply Hv. vm_compute. done.
Defined.

(** C15: setting an EDID. On every hexadecimal string and whatever the driver
    answers, [jetkvm_video_set_edid] terminates without a memory error, leaves
    no descriptor open, and returns [-1] with the device's EDID unchanged or
    [0] with the device presenting the decoded 128 or 256 bytes with their
    checksums fixed; strings that do not decode to 128 or 256 bytes always give
    [-1]. *)
Theorem jetkvm_video_set_edid_spec (hex : string) (junk : list Z) (s : edid_state) :
  length junk = 256%nat → Forall in_u8 junk →
  twp (jetkvm_video_set_edid junk hex)
    (λ r s', fds s' = fds s ∧
       (r = -1 ∧ dev_edid s' = dev_edid s ∨
        r = 0 ∧ ∃ bs, hex_accept (chars hex) = Some bs ∧
          (length bs = 128%nat ∨ length bs = 256%nat) ∧
          fix_edid_checksum bs (Z.of_nat (length bs)) = Some (dev_edid s') ∧
          ∀ k, 0 <= k < Z.of_nat (length bs) / 128 → block_valid (dev_edid s') k)) s.
Proof. apply jetkvm_video_set_edid_wp. Qed.
Definition zero_hex : string := text (replicate 256 "0"%char).
Definition some_edid_state : edid_state := EdidState [7] (replicate 128 1) 0.
Lemma jetkvm_video_set_edid_spec_witness :
  length (replicate 256 0) = 256%nat ∧ Forall in_u8 (replicate 256 0) ∧
  twp (jetkvm_video_set_edid (replicate 256 0) zero_hex)
    (λ r s', fds s' = [7]) some_edid_state.
Proof.
  assert (H : Forall in_u8 (replicate 256 0)) by (apply Forall_replicate; vm_compute; done).
  split; [vm_compute; done|]. split; [exact H|].
  eapply wpr_mono; [apply (jetkvm_video_set_edid_spec zero_hex _ some_edid_state);
    [vm_compute; done|exact H]|].
  intros r s' [Hf _]. exact Hf.
Defined.

(** C20: round trip through the device. If an EDID is set from a hexadecimal
    string and then read back, the string read back is the lower-case
    hexadecimal form of the decoded bytes with their checksums fixed; no call
    crashes or leaks a descriptor, whatever the driver and [malloc] answer. *)
Theorem edid_set_get_roundtrip (hex : string) (junk1 junk2 : list Z) (s : edid_state) :
  length junk1 = 256%nat → Forall in_u8 junk1 → length junk2 = 256%nat →
  twp (r ← jetkvm_video_set_edid junk1 hex;
       h ← jetkvm_video_get_edid_hex junk2;
       mret (r, h))
    (λ '(r, h) s', fds s' = fds s ∧
       (r = 0 → ∀ out, h = Some out →
        ∃ bs e, hex_accept (chars hex) = Some bs ∧
          fix_edid_checksum bs (Z.of_nat (length bs)) = Some e ∧
          out = text (hex_of e))) s.
Proof.
  intros Hj Hju Hj2. apply wpr_bind; [exact _|].
  eapply wpr_mono; [by apply jetkvm_video_set_edid_wp|].
  intros r s1 [Hf1 Hr]. unfold jetkvm_video_get_edid_hex. apply wpr_bind; [exact _|].
  apply wpr_bind; [exact _|]. apply get_edid_wp; [done| |].
  - intros buf' s2 _ Hf2 _. apply wp_ret, wp_ret. split; [congruence|]. by intros _ out [=].
  - intros s2 Hf2 Hd2 b data. destruct (Z.ltb_spec (b * 128) 0); [apply wp_ret, wp_ret;
      split; [congruence|by intros _ out [=]]|].
    cbn [call mret prog_mret prog_bind].
    apply wp_act; [done|]. intros ok s3 H3. simpl in H3. injection H3 as <-.
    apply wp_ret, wp_ret. split; [congruence|]. intros -> out Hout.
    destruct Hr as [[? _]|(_ & bs & Ha & Hlen & Hfix & _)]; [done|].
    exists bs, (dev_edid s1). split_and!; [done..|].
    assert (Hdl : length (dev_edid s1) = length bs).
    { destruct (fix_edid_checksum_correct bs (Z.of_nat (length bs))) as (e & He & Hle & _);
        [by eapply hex_accept_range|lia|]. congruence. }
    assert (Hb : b * 128 = Z.of_nat (length bs)).
    { unfold b. rewrite Hdl. by destruct Hlen as [-> | ->]. }
    unfold data in Hout. rewrite Hb, Nat2Z.id, take_ge in Hout by lia.
    unfold bytes_to_hex in Hout. destruct (_ =? 0); [done|]. destruct ok; [|done].
    rewrite Nat2Z.id, take_app_length' in Hout by lia. by injection Hout as <-.
Qed.
Lemma edid_set_get_roundtrip_witness :
  length (replicate 256 0) = 256%nat ∧ Forall in_u8 (replicate 256 0) ∧
  twp (r ← jetkvm_video_set_edid (replicate 256 0) zero_hex;
       h ← jetkvm_video_get_edid_hex (replicate 256 0);
       mret (r, h)) (λ rh s', fds s' = [7]) some_edid_state.
Proof.
  assert (H : Forall in_u8 (replicate 256 0)) by (apply Forall_replicate; vm_compute; done).
  split; [vm_compute; done|]. split; [exact H|].
  eapply wpr_mono; [apply (edid_set_get_roundtrip zero_hex _ (replicate 256 0) some_edid_state);
    [vm_compute; done|exact H|vm_compute; done]|].
  intros [r h] s' [Hf _]. exact Hf.
Defined.

(** [get_edid] accepts an array of 128 bytes but always asks the driver for
    two blocks: on a device that presents a 256-byte EDID the answer is written
    past the array's end, while the caller in [ctrl.c], with its 256 bytes, is
    safe for every device and answer. *)
Theorem get_edid_128_overflows (buf : list Z) (s : edid_state) :
  length buf = 128%nat → fds s = [] →
  length (dev_edid s) = 256%nat →
  (∃ answer, run answer (get_edid (Some buf) 128) s
             = Crashed "VIDIOC_G_EDID writes past the array") ∧
  ∀ junk, length junk = 256%nat →
    twp (jetkvm_video_get_edid_hex junk) (λ _ s', fds s' = [] ∧ dev_edid s' = dev_edid s) s.
Proof.
  intros Hb Hs Hd. split.
  - exists (λ X e s', match e in edidE X return X with
                      | Open => 3
                      | Close _ => tt
                      | G_EDID _ _ => (0, 2, dev_edid s)
                      | S_EDID _ _ _ => 0
                      | Malloc => true
                      | SetErrno _ => tt
                      end).
    destruct s as [f d err]. simpl in Hs, Hd. subst f.
    unfold get_edid. simpl negb. cbv iota. cbn [andb].
    simpl. rewrite bool_decide_eq_true_2 by (rewrite Hd; split; [done|by rewrite take_ge by lia]).
    destruct (store_list buf 0 d) eqn:Hst; [|done].
    exfalso. destruct (store_list_fits _ _ _ _ Hst) as [->|]; simpl in *; lia.
  - intros junk Hj. unfold jetkvm_video_get_edid_hex. apply wpr_bind; [exact _|].
    apply get_edid_wp; [done| |].
    + intros b s' _ Hf He. apply wp_ret. by rewrite Hf.
    + intros s' Hf He b data. destruct (_ <? 0); [apply wp_ret; by rewrite Hf|].
      cbn [call mret prog_mret prog_bind].
      apply wp_act; [done|]. intros ok s3 H3. simpl in H3. injection H3 as <-.
      apply wp_ret. by rewrite Hf.
Qed.
Lemma get_edid_128_overflows_witness :
  ∃ answer, run answer (get_edid (Some (replicate 128 0)) 128)
              (EdidState [] (replicate 256 0) 0)
            = Crashed "VIDIOC_G_EDID writes past the array".
Proof.
  apply (get_edid_128_overflows (replicate 128 0) (EdidState [] (replicate 256 0) 0));
    vm_compute; done.
Defined.
