(* ===== verification/LogStatus.v ===== *)
(** * The receiver's status report: [videoc_log_status] of [edid.c]

    The driver writes its status to the kernel log; the function reads the log
    into a local array, finds the last report in it by string functions, blanks
    its level tags in place and returns a copy.  Pointers into the array are
    indices; [None] is an access outside it. *)
From S2P Require Import Prelude Effects.

(** ** String functions on the array *)

Fixpoint starts_with (needle l : list ascii) : bool :=
  match needle, l with
  | [], _ => true
  | c :: needle', d :: l' => Ascii.eqb c d && starts_with needle' l'
  | _ :: _, [] => false
  end.

(** The offset of the first match before the terminator. *)
Fixpoint scan (needle l : list ascii) : option (option nat) :=
  match l with
  | [] => None
  | c :: l' =>
      if starts_with needle l then Some (Some O)
      else if Ascii.eqb c NUL then Some None
      else
        match scan needle l' with
        | Some (Some i) => Some (Some (S i))
        | r => r
        end
  end.
Definition strstr (buf : list ascii) (p : nat) (needle : string) : option (option nat) :=
  match scan (chars needle) (drop p buf) with
  | Some (Some i) => Some (Some (p + i)%nat)
  | r => r
  end.

(** ** The function's loops; [n] bounds the iterations *)

(** [while ((q = strstr(p, "START STATUS"))) { found_status = true; p = q + 1; }] *)
Fixpoint find_status (n : nat) (buf : list ascii) (p : nat) (found_status : bool)
  : option (nat * bool) :=
  match n with
  | O => None
  | S n' =>
      match strstr buf p "START STATUS" with
      | None => None
      | Some None => Some (p, found_status)
      | Some (Some q) => find_status n' buf (q + 1)%nat true
      end
  end.

(** [while (p > buf && *p != '<') p--;] *)
Fixpoint back_to_tag (buf : list ascii) (p : nat) : option nat :=
  match p with
  | O => Some O
  | S p' =>
      match buf !! p with
      | None => None
      | Some c => if Ascii.eqb c "<"%char then Some p else back_to_tag buf p'
      end
  end.

(** [while ((q = strstr(q, "<6>"))) memcpy(q, "   ", 3);] *)
Fixpoint blank_tags (n : nat) (buf : list ascii) (q : nat) : option (list ascii) :=
  match n with
  | O => None
  | S n' =>
      match strstr buf q "<6>" with
      | None => None
      | Some None => Some buf
      | Some (Some q') =>
          match store_list buf (Z.of_nat q') (chars "   ") with
          | None => None
          | Some buf' => blank_tags n' buf' q'
          end
      end
  end.

(** From the first search to the string that is copied. *)
Definition edit_log (buf : list ascii) : option string :=
  let n := S (length buf) in
  match find_status n buf 0 false with
  | None => None
  | Some (p, found_status) =>
      let edited :=
        if found_status then
          match back_to_tag buf p with
          | None => None
          | Some p => match blank_tags n buf p with None => None | Some buf => Some (buf, p) end
          end
        else Some (buf, p) in
      match edited with
      | None => None
      | Some (buf, p) => match cstr (drop p buf) with Some l => Some (text l) | None => None end
      end
  end.
Definition status_text (buf : list ascii) (len : Z) : option string :=
  match store buf len NUL with
  | None => None
  | Some buf => edit_log buf
  end.

(** ** The subdevice, the kernel log and [malloc] *)

Inductive logE : Type → Type :=
| OpenSubdev : logE Z
| LOG_STATUS (fd : Z) : logE (Z * list ascii)    (* rc, the lines the driver logs *)
| CloseSubdev (fd : Z) : logE unit
| Klogctl (size : Z) : logE (Z * list ascii)     (* klogctl(3, buf, size) *)
| StrdupOk : logE bool.

Record log_state := LogState {
  l_open : list Z;             (* open descriptors of the subdevice *)
  klog : list ascii            (* the kernel log *)
}.

Definition log_enabled {X} (e : logE X) (s : log_state) : bool :=
  match e with
  | LOG_STATUS fd | CloseSubdev fd => bool_decide (fd ∈ l_open s)
  | _ => true
  end.

(** The driver adds lines to the log; [klogctl] copies the end of the log. *)
Definition log_act {X} (e : logE X) (s : log_state) : X → option log_state :=
  match e in logE X return X → option log_state with
  | OpenSubdev => λ fd,
      if fd <? 0 then Some s
      else if bool_decide (fd ∈ l_open s) then None else Some (LogState (fd :: l_open s) (klog s))
  | LOG_STATUS _ => λ '(_, lines), Some (LogState (l_open s) (klog s ++ lines))
  | CloseSubdev fd => λ _, Some (LogState (remove Z.eq_dec fd (l_open s)) (klog s))
  | Klogctl size => λ '(rc, data),
      if rc <? 0 then (if bool_decide (data = []) then Some s else None)
      else if bool_decide (data = drop (length (klog s) - Z.to_nat size) (klog s)
                           ∧ rc = Z.of_nat (length data))
           then Some s else None
  | StrdupOk => λ _, Some s
  end.

#[export] Instance log_sem : Sem logE log_state := {| enabled := @log_enabled; act := @log_act |}.

Definition log_buf_size : Z := 40960.

(** [buf] is the uninitialised local array; the result is the copy, or [NULL]. *)
Definition videoc_log_status (buf : list ascii) : prog logE (option string) :=
  fd ← call OpenSubdev;
  if fd <? 0 then mret None
  else
    r ← call (LOG_STATUS fd);
    if r.1 =? -1 then call (CloseSubdev fd);; mret None
    else
      call (CloseSubdev fd);;
      r ← call (Klogctl (log_buf_size - 1));
      let '(len, data) := r in
      if 0 <=? len then
        match store_list buf 0 data with
        | None => Stop (Crash "klogctl writes past buf")
        | Some buf =>
            match status_text buf len with
            | None => Stop (Crash "access outside buf")
            | Some s => ok ← call StrdupOk; mret (if ok : bool then Some s else None)
            end
        end
      else mret None.
Definition jetkvm_video_log_status (buf : list ascii) : prog logE (option string) :=
  videoc_log_status buf.

(** ** What the report is, on the text of the log *)

Fixpoint first_match (needle l : list ascii) : option nat :=
  match l with
  | [] => None
  | _ :: l' => if starts_with needle l then Some O else S <$> first_match needle l'
  end.
Fixpoint last_match (needle l : list ascii) : option nat :=
  match l with
  | [] => None
  | _ :: l' =>
      match last_match needle l' with
      | Some i => Some (S i)
      | None => if starts_with needle l then Some O else None
      end
  end.
(** Every level tag replaced by blanks. *)
Fixpoint without_tags (l : list ascii) : list ascii :=
  match l with
  | [] => []
  | c :: l' =>
      match c, l' with
      | "<"%char, "6"%char :: ">"%char :: l'' => chars "   " ++ without_tags l''
      | _, _ => c :: without_tags l'
      end
  end.
(** The text up to the first NUL. *)
Fixpoint until_nul (l : list ascii) : list ascii :=
  match l with
  | [] => []
  | c :: l' => if Ascii.eqb c NUL then [] else c :: until_nul l'
  end.
(** From the tag of the line with the last "START STATUS" on, or everything. *)
Definition report (l : list ascii) : list ascii :=
  match last_match (chars "START STATUS") l with
  | None => l
  | Some i =>
      without_tags (drop (match last_match ["<"%char] (take (S (S i)) l) with
                          | Some k => k | None => O end) l)
  end.

(** ** Searching *)

Lemma starts_with_app needle l rest :
  NUL ∉ needle → NUL ∉ l → starts_with needle (l ++ NUL :: rest) = starts_with needle l.
Proof.
  revert l. induction needle as [|c needle IH]; intros l Hn Hl; [done|].
  apply not_elem_of_cons in Hn as [Hc Hn].
  destruct l as [|d l]; cbn [starts_with app].
  - by rewrite (proj2 (Ascii.eqb_neq c NUL)) by congruence.
  - apply not_elem_of_cons in Hl as [_ Hl]. by rewrite IH.
Qed.

Lemma scan_first needle l rest :
  needle ≠ [] → NUL ∉ needle → NUL ∉ l →
  scan needle (l ++ NUL :: rest) = Some (first_match needle l).
Proof.
  intros Hne Hn. induction l as [|c l IH]; intros Hl.
  - cbn [app scan]. change (NUL :: rest) with ([] ++ NUL :: rest). rewrite starts_with_app by done.
    by destruct needle.
  - pose proof Hl as [Hc Hl']%not_elem_of_cons. cbn [app scan first_match].
    change (c :: l ++ NUL :: rest) with ((c :: l) ++ NUL :: rest). rewrite starts_with_app by done.
    destruct (starts_with needle (c :: l)); [done|].
    rewrite (proj2 (Ascii.eqb_neq c NUL)) by congruence. rewrite IH by done.
    by destruct (first_match needle l).
Qed.

Lemma strstr_first needle l rest p :
  chars needle ≠ [] → NUL ∉ chars needle → NUL ∉ l → (p ≤ length l)%nat →
  strstr (l ++ NUL :: rest) p needle = Some (Nat.add p <$> first_match (chars needle) (drop p l)).
Proof.
  intros Hne Hn Hl Hp. unfold strstr. rewrite drop_app_le by done.
  assert (Hd : NUL ∉ drop p l).
  { intros H. apply Hl. rewrite <- (take_drop p l). apply elem_of_app. by right. }
  rewrite scan_first by done. by destruct (first_match _ _).
Qed.

Lemma starts_with_split needle l :
  starts_with needle l = true → l = needle ++ drop (length needle) l.
Proof.
  revert l. induction needle as [|c needle IH]; intros l H; [done|]. destruct l as [|d l]; [done|].
  cbn in H. apply andb_true_iff in H as [->%Ascii.eqb_eq H]. cbn. f_equal. by apply IH.
Qed.

(** A first match splits the text. *)
Lemma first_match_split needle l i :
  first_match needle l = Some i →
  ∃ a b, l = a ++ needle ++ b ∧ length a = i ∧
    (∀ a1 a2, a = a1 ++ a2 → a2 ≠ [] → starts_with needle (a2 ++ needle ++ b) = false).
Proof.
  revert i. induction l as [|c l IH]; intros i H; [done|]. cbn [first_match] in H.
  destruct (starts_with needle (c :: l)) eqn:E.
  - injection H as <-. exists [], (drop (length needle) (c :: l)).
    split_and!; [by apply starts_with_split|done|]. by intros a1 [|] Ha; destruct a1.
  - destruct (first_match needle l) as [j|] eqn:Ej; [|done]. injection H as <-.
    destruct (IH j eq_refl) as (a & b & -> & <- & Ha). exists (c :: a), b. split_and!; try done.
    intros [|d a1] a2 Hs Hne; cbn in Hs; [by rewrite <- Hs|]. injection Hs as -> Hs. by eapply Ha.
Qed.

Lemma last_match_app needle a b :
  last_match needle (a ++ b) =
  match last_match needle b with
  | Some i => Some (length a + i)%nat
  | None => last_match needle (a ++ b)
  end.
Proof.
  destruct (last_match needle b) as [i|] eqn:E; [|done].
  induction a as [|c a IH]; [done|]. cbn [app last_match]. by rewrite IH.
Qed.
Lemma first_match_none needle l : first_match needle l = None → last_match needle l = None.
Proof.
  induction l as [|c l IH]; [done|]. cbn [first_match last_match].
  destruct (starts_with needle (c :: l)); [done|]. destruct (first_match needle l); [done|]. by intros _; rewrite IH.
Qed.

Lemma last_of_first needle l i :
  first_match needle l = Some i →
  last_match needle l =
    Some match last_match needle (drop (S i) l) with Some j => (S i + j)%nat | None => i end.
Proof.
  revert i. induction l as [|c l IH]; intros i H; [done|]. cbn [first_match last_match] in *.
  destruct (starts_with needle (c :: l)).
  - injection H as <-. change (drop 1 (c :: l)) with l. by destruct (last_match needle l).
  - destruct (first_match needle l) as [j|]; [|done]. injection H as <-.
    change (drop (S (S j)) (c :: l)) with (drop (S j) l). rewrite (IH j eq_refl). by destruct (last_match needle (drop (S j) l)).
Qed.

Lemma first_match_bound needle l i : first_match needle l = Some i → (i < length l)%nat.
Proof.
  revert i. induction l as [|c l IH]; intros i; [done|]. cbn.
  destruct (starts_with needle (c :: l)); [intros [= <-]; lia|].
  destruct (first_match needle l); [|done]. intros [= <-]. specialize (IH _ eq_refl). lia.
Qed.

(** ** The loops *)

Lemma find_status_spec n l rest p found :
  NUL ∉ l → (p ≤ length l)%nat → (length l - p < n)%nat →
  find_status n (l ++ NUL :: rest) p found =
    Some match last_match (chars "START STATUS") (drop p l) with
         | Some i => ((p + S i)%nat, true) | None => (p, found) end.
Proof.
  intros Hl. revert p found. induction n as [|n IH]; intros p found Hp Hn; [lia|].
  cbn [find_status]. rewrite strstr_first by (done || (apply (bool_decide_unpack _); by vm_compute)).
  destruct (first_match _ (drop p l)) as [i|] eqn:E; cbn [fmap option_fmap option_map].
  - pose proof (first_match_bound _ _ _ E) as Hi. rewrite length_drop in Hi.
    rewrite IH by lia. rewrite (last_of_first _ _ _ E), drop_drop.
    replace (p + S i)%nat with (p + i + 1)%nat by lia.
    destruct (last_match _ (drop (p + i + 1) l)); do 2 f_equal; lia.
  - by rewrite (first_match_none _ _ E).
Qed.

Lemma last_match_take_S c l p d :
  l !! p = Some d →
  last_match [c] (take (S p) l) = if Ascii.eqb c d then Some p else last_match [c] (take p l).
Proof.
  revert p. induction l as [|e l IH]; intros p H; [done|]. destruct p as [|p]; cbn in H.
  - injection H as ->. cbn. by destruct (Ascii.eqb c d).
  - change (take (S (S p)) (e :: l)) with (e :: take (S p) l).
    change (take (S p) (e :: l)) with (e :: take p l). cbn [last_match starts_with].
    rewrite (IH p H). destruct (Ascii.eqb c d); done.
Qed.

Lemma back_to_tag_spec l rest p :
  (p < length l)%nat →
  back_to_tag (l ++ NUL :: rest) p =
    Some match last_match ["<"%char] (take (S p) l) with Some k => k | None => O end.
Proof.
  induction p as [|p IH]; intros Hp; destruct (lookup_lt_is_Some_2 l _ Hp) as (d & Hd);
    rewrite (last_match_take_S _ _ _ _ Hd).
  - by destruct (Ascii.eqb "<"%char d).
  - cbn [back_to_tag]. rewrite lookup_app_l, Hd by done. rewrite Ascii.eqb_sym.
    destruct (Ascii.eqb "<"%char d); [done|]. apply IH. lia.
Qed.

(** Level tags left to blank. *)
Fixpoint tags (l : list ascii) : nat :=
  match l with
  | [] => O
  | c :: l' =>
      match c, l' with
      | "<"%char, "6"%char :: ">"%char :: l'' => S (tags l'')
      | _, _ => tags l'
      end
  end.

Lemma no_tag_head c l :
  starts_with (chars "<6>") (c :: l) = false →
  without_tags (c :: l) = c :: without_tags l ∧ tags (c :: l) = tags l.
Proof.
  intros H. destruct (ascii_dec c "<"%char) as [->|]; cycle 1.
  { cbn [without_tags tags]. destruct c as [[] [] [] [] [] [] [] []]; done. }
  destruct l as [|d l]; [done|]. destruct (ascii_dec d "6"%char) as [->|]; cycle 1.
  { cbn [without_tags tags]. destruct d as [[] [] [] [] [] [] [] []]; done. }
  destruct l as [|e l]; [done|]. destruct (ascii_dec e ">"%char) as [->|]; [done|].
  cbn [without_tags tags]. destruct e as [[] [] [] [] [] [] [] []]; done.
Qed.

Lemma without_tags_none l : first_match (chars "<6>") l = None → without_tags l = l ∧ tags l = O.
Proof.
  induction l as [|c l IH]; [done|]. cbn [first_match].
  destruct (starts_with (chars "<6>") (c :: l)) eqn:E; [done|].
  destruct (first_match (chars "<6>") l); [done|]. intros _. destruct (IH eq_refl) as [IH1 IH2].
  destruct (no_tag_head _ _ E) as [-> ->]. by rewrite IH1.
Qed.

Lemma without_tags_prefix a x :
  (∀ a1 a2, a = a1 ++ a2 → a2 ≠ [] → starts_with (chars "<6>") (a2 ++ x) = false) →
  without_tags (a ++ x) = a ++ without_tags x ∧ tags (a ++ x) = tags x.
Proof.
  induction a as [|c a IH]; intros H; [done|]. cbn [app].
  destruct (no_tag_head c (a ++ x)) as [-> ->]; [by apply (H [] (c :: a))|].
  destruct IH as [-> ->]; [|done]. intros a1 a2 -> Hne. by apply (H (c :: a1) a2).
Qed.

Lemma without_tags_blank x : without_tags (chars "   " ++ x) = chars "   " ++ without_tags x.
Proof. done. Qed.
Lemma tags_blank x : tags (chars "   " ++ x) = tags x.
Proof. done. Qed.
Lemma without_tags_tag x : without_tags (chars "<6>" ++ x) = chars "   " ++ without_tags x.
Proof. done. Qed.
Lemma tags_tag x : tags (chars "<6>" ++ x) = S (tags x).
Proof. done. Qed.

Lemma blank_tags_spec n l rest q :
  NUL ∉ l → (q ≤ length l)%nat → (tags (drop q l) < n)%nat →
  blank_tags n (l ++ NUL :: rest) q = Some (take q l ++ without_tags (drop q l) ++ NUL :: rest).
Proof.
  revert l q. induction n as [|n IH]; intros l q Hl Hq Hn; [lia|].
  cbn [blank_tags]. rewrite strstr_first by (done || (apply (bool_decide_unpack _); by vm_compute)).
  destruct (first_match (chars "<6>") (drop q l)) as [i|] eqn:E; cbn [fmap option_fmap option_map]; cycle 1.
  { destruct (without_tags_none _ E) as [-> _]. by rewrite app_assoc, take_drop. }
  destruct (first_match_split _ _ _ E) as (a & b & Eab & <- & Ha).
  destruct (without_tags_prefix a (chars "<6>" ++ b) Ha) as [Ew Et].
  rewrite Eab, Ew, without_tags_tag in *. rewrite Et, tags_tag in Hn.
  set (pre := take q l ++ a).
  assert (El : l = pre ++ chars "<6>" ++ b) by (unfold pre; by rewrite <- app_assoc, <- Eab, take_drop).
  assert (Hpre : (q + length a)%nat = length pre) by (unfold pre; rewrite length_app, length_take; lia).
  assert (Hl' : NUL ∉ pre ++ chars "   " ++ b).
  { rewrite El in Hl. rewrite !elem_of_app in Hl |- *.
    assert (NUL ∉ chars "   ") by (apply (bool_decide_unpack _); by vm_compute). tauto. }
  assert (Est : store_list (l ++ NUL :: rest) (Z.of_nat (q + length a)) (chars "   ") =
    Some ((pre ++ chars "   " ++ b) ++ NUL :: rest)).
  { rewrite El, Hpre. rewrite <- !app_assoc. rewrite store_list_in by (cbn; lia). done. }
  rewrite Est, IH; [|done|rewrite Hpre, length_app; lia|].
  - rewrite Hpre, take_app_length, drop_app_length, without_tags_blank. unfold pre. by rewrite <- !app_assoc.
  - rewrite Hpre, drop_app_length, tags_blank. lia.
Qed.

Lemma tag_split l : starts_with (chars "<6>") l = true →
  ∃ x, l = chars "<6>" ++ x ∧ (length x < length l)%nat.
Proof.
  intros E%starts_with_split. eexists. split; [exact E|].
  apply (f_equal length) in E. rewrite length_app, length_drop in E. rewrite length_drop.
  assert (length (chars "<6>") = 3%nat) by done. lia.
Qed.
Lemma tags_bound l : (tags l ≤ length l)%nat.
Proof.
  remember (length l) as n eqn:Hn. revert l Hn. induction n as [n IH] using lt_wf_ind. intros l ->.
  destruct l as [|c l]; [done|]. destruct (starts_with (chars "<6>") (c :: l)) eqn:E.
  - destruct (tag_split _ E) as (x & Ex & Hx). specialize (IH _ Hx x eq_refl).
    rewrite Ex, tags_tag in *. rewrite length_app. cbn. lia.
  - destruct (no_tag_head _ _ E) as [_ ->]. specialize (IH (length l) ltac:(cbn; lia) l eq_refl). cbn. lia.
Qed.

Lemma until_nul_split l : NUL ∈ l → ∃ rest, l = until_nul l ++ NUL :: rest.
Proof.
  induction l as [|c l IH]; intros H; [by apply not_elem_of_nil in H|]. cbn [until_nul].
  destruct (Ascii.eqb_spec c NUL) as [->|Hc]; [by exists l|].
  apply elem_of_cons in H as [?|H]; [congruence|]. destruct (IH H) as (rest & E). exists rest. cbn. by rewrite <- E.
Qed.
Lemma until_nul_none l : NUL ∉ until_nul l.
Proof.
  induction l as [|c l IH]; [apply not_elem_of_nil|]. cbn [until_nul].
  destruct (Ascii.eqb_spec c NUL); [apply not_elem_of_nil|]. apply not_elem_of_cons. split; congruence.
Qed.

Lemma last_match_lt needle l i : last_match needle l = Some i → (i < length l)%nat.
Proof.
  revert i. induction l as [|c l IH]; intros i; [done|]. cbn.
  destruct (last_match needle l); [intros [= <-]; specialize (IH _ eq_refl); lia|].
  destruct (starts_with needle (c :: l)); [intros [= <-]; lia|done].
Qed.
Lemma last_match_at needle l i : last_match needle l = Some i → starts_with needle (drop i l) = true.
Proof.
  revert i. induction l as [|c l IH]; intros i; [done|]. cbn [last_match].
  destruct (last_match needle l) as [j|]; [intros [= <-]; by apply IH|].
  destruct (starts_with needle (c :: l)) eqn:E; [by intros [= <-]|done].
Qed.
Lemma last_match_bound l i : last_match (chars "START STATUS") l = Some i → (S i < length l)%nat.
Proof.
  intros H%last_match_at. apply starts_with_split in H.
  assert (Hlen : length (drop i l) = (12 + length (drop 12 (drop i l)))%nat) by (rewrite H at 1; done).
  rewrite length_drop in Hlen. lia.
Qed.

Lemma without_tags_NUL l : NUL ∉ l → NUL ∉ without_tags l.
Proof.
  remember (length l) as n eqn:Hn. revert l Hn. induction n as [n IH] using lt_wf_ind. intros l -> Hl.
  destruct l as [|c l]; [done|]. destruct (starts_with (chars "<6>") (c :: l)) eqn:E.
  - destruct (tag_split _ E) as (x & Ex & Hx). specialize (IH _ Hx x eq_refl).
    rewrite Ex in Hl |- *. rewrite without_tags_tag. rewrite elem_of_app in Hl |- *.
    assert (NUL ∉ chars "   ") by (apply (bool_decide_unpack _); by vm_compute). tauto.
  - destruct (no_tag_head _ _ E) as [-> _]. apply not_elem_of_cons in Hl as [Hc Hl].
    apply not_elem_of_cons. split; [done|]. by apply (IH (length l) ltac:(cbn; lia)).
Qed.

(** The report of the text before the first NUL. *)
Lemma report_text l rest : NUL ∉ l → edit_log (l ++ NUL :: rest) = Some (text (report l)).
Proof.
  intros Hl. unfold edit_log. set (n := S (length (l ++ NUL :: rest))). rewrite find_status_spec; [|done|lia|unfold n; rewrite length_app; lia].
  unfold report. rewrite drop_0.
  destruct (last_match (chars "START STATUS") l) as [i|] eqn:E; cycle 1.
  { rewrite drop_0. by rewrite cstr_app. }
  assert (Hi : (S i < length l)%nat) by by eapply last_match_bound.
  cbn [Nat.add]. rewrite back_to_tag_spec by done.
  set (k := match last_match ["<"%char] (take (S (S i)) l) with Some k => k | None => O end).
  assert (Hk : (k ≤ length l)%nat).
  { subst k. destruct (last_match ["<"%char] _) as [k|] eqn:Ek; [|lia].
    apply last_match_lt in Ek. rewrite length_take in Ek. lia. }
  rewrite blank_tags_spec; [|done|done|].
  - rewrite drop_app_length' by (rewrite length_take; lia). rewrite cstr_app; [done|].
    apply without_tags_NUL. intros H. apply Hl. rewrite <- (take_drop k l). apply elem_of_app. by right.
  - pose proof (tags_bound (drop k l)). rewrite length_drop in H. unfold n. rewrite length_app. lia.
Qed.

Lemma until_nul_app l rest : until_nul (l ++ NUL :: rest) = until_nul l.
Proof. induction l as [|c l IH]; [done|]. cbn. by rewrite IH. Qed.

Lemma status_text_spec buf data :
  (length data < length buf)%nat →
  status_text (data ++ drop (length data) buf) (Z.of_nat (length data)) =
    Some (text (report (until_nul data))).
Proof.
  intros Hlen. unfold status_text. rewrite store_in by (rewrite length_app, length_drop; lia).
  rewrite Nat2Z.id, insert_app_r_alt, Nat.sub_diag by lia.
  destruct (drop (length data) buf) as [|c rest] eqn:E.
  { apply (f_equal length) in E. rewrite length_drop in E. cbn in E. lia. }
  change (<[0%nat := NUL]> (c :: rest)) with (NUL :: rest).
  destruct (until_nul_split (data ++ NUL :: rest)) as (rest' & E');
    [apply elem_of_app; right; by left|].
  rewrite until_nul_app in E'. rewrite E'. apply report_text, until_nul_none.
Qed.

Lemma remove_new (fd : Z) l : fd ∉ l → remove Z.eq_dec fd (fd :: l) = l.
Proof.
  intros H. simpl. destruct (Z.eq_dec fd fd); [|done].
  apply notin_remove. by rewrite <- list_elem_of_In.
Qed.

(** C32: The receiver's status report. Whatever the driver and the kernel answer,
    [videoc_log_status] ends, keeps to its 40960 bytes, closes the subdevice, and
    returns [NULL] or a copy of the log it read (its last 40959 bytes, up to a
    NUL) from the beginning of the line, marked by its level tag, that holds the
    last "START STATUS" (the whole log when there is none), with every level tag 6
    in it blanked and nothing else changed. *)
Theorem log_status_spec (buf : list ascii) (s : log_state) :
  Z.of_nat (length buf) = log_buf_size →
  twp (videoc_log_status buf) (λ r s', l_open s' = l_open s ∧
    (r = None ∨
     ∃ lines, klog s' = klog s ++ lines ∧
       r = Some (text (report (until_nul
             (drop (length (klog s') - Z.to_nat (log_buf_size - 1)) (klog s'))))))) s.
Proof.
  intros Hbuf. unfold videoc_log_status. cbn [call mret prog_mret prog_bind].
  apply wp_act; [done|]. intros fd s1 H1. cbn in H1.
  destruct (fd <? 0); [injection H1 as <-; apply wp_ret; auto|].
  case_bool_decide as Hfd; [done|]. injection H1 as <-.
  apply wp_act; [apply bool_decide_eq_true; by left|]. intros [rc lines] s2 [= <-]. cbn [fst].
  assert (Hclose : ∀ (p : prog logE (option string)) Q,
    twp p Q (LogState (l_open s) (klog s ++ lines)) →
    twp (Act (CloseSubdev fd) (λ _, p)) Q (LogState (fd :: l_open s) (klog s ++ lines))).
  { intros p Q Hp. apply wp_act; [apply bool_decide_eq_true; by left|]. intros [] s3 H3.
    cbn in H3. injection H3 as <-. pose proof (remove_new fd _ Hfd) as Er. cbn in Er. by rewrite Er. }
  destruct (rc =? -1); apply Hclose; [apply wp_ret; auto|].
  apply wp_act; [done|]. intros [len data] s4 H4. cbn -[log_buf_size] in H4.
  destruct (Z.ltb_spec len 0); [case_bool_decide; [|done]; injection H4 as <-|].
  { rewrite (proj2 (Z.leb_gt 0 len)) by lia. apply wp_ret; auto. }
  case_bool_decide as Hd; [|done]. destruct Hd as [Ed ->]. injection H4 as <-.
  rewrite (proj2 (Z.leb_le 0 _)) by lia. unfold log_buf_size in *.
  assert (Hlen : (length data < length buf)%nat) by (rewrite Ed, length_drop; lia).
  rewrite store_list_0, status_text_spec by lia.
  apply wp_act; [done|]. intros ok s5 [= <-]. apply wp_ret. split; [done|].
  destruct ok; [right|by left]. exists lines. split; [done|]. by rewrite Ed.
Qed.

Lemma log_status_spec_witness :
  let buf := replicate (Z.to_nat log_buf_size) NUL in
  twp (videoc_log_status buf) (λ _ s', l_open s' = []) (LogState [] (chars "<6>boot")).
Proof.
  intros buf. assert (Hbuf : Z.of_nat (length buf) = log_buf_size).
  { unfold buf. by rewrite length_replicate, Z2Nat.id. }
  clearbody buf.
  eapply wpr_mono; [apply (log_status_spec buf (LogState [] (chars "<6>boot"))); exact Hbuf|].
  cbn beta. by intros r s' [-> _].
Defined.

Example report_example :
  text (report (chars "<6>boot<6>tc358743: START STATUS <6>signal: no<6>tc358743: START STATUS <6>signal: yes"))
  = "   tc358743: START STATUS    signal: yes".
Proof. reflexivity. Qed.
