(* ===== verification/VencConfig.v ===== *)
(** * Encoder configuration of [video.c]

    The arithmetic of src/internal/native/cgo/video.c: [calculate_bitrate],
    [populate_venc_attr], the [RK_ALIGN] macros and the frame-rate arithmetic of
    [run_detect_format].  C [float]/[double] are IEEE 754 binary32/binary64 in
    the Standard Library's [SpecFloat]; a conversion of an out-of-range value to
    an integer type is undefined in C and [None] here. *)
From Stdlib Require Export SpecFloat.
From S2P Require Import Prelude.

(** ** IEEE arithmetic *)

Definition float := spec_float.     (* binary32 values *)
Definition double := spec_float.    (* binary64 values *)
#[export] Instance float_eq_dec : EqDecision float.
Proof. unfold float. solve_decision. Defined.
Definition f32_of_Z (z : Z) : float := binary_normalize 24 128 z 0 false.
Definition f64_of_Z (z : Z) : double := binary_normalize 53 1024 z 0 false.
Definition f32_mul : float → float → float := SFmul 24 128.
Definition f64_mul : double → double → double := SFmul 53 1024.
Definition f64_div : double → double → double := SFdiv 53 1024.
Definition f64_add : double → double → double := SFadd 53 1024.
Definition half : double := f64_div (f64_of_Z 1) (f64_of_Z 2).

(** The integer part, as a C cast computes it; [None] for NaN and infinities. *)
Definition trunc (x : spec_float) : option Z :=
  match x with
  | S754_zero _ => Some 0
  | S754_finite s m e => Some (cond_Zopp s (Z.shiftl (Zpos m) e))
  | _ => None
  end.
Definition to_s32 (x : spec_float) : option Z :=
  match trunc x with
  | Some z => if (- 2 ^ 31 <=? z) && (z <? 2 ^ 31) then Some z else None
  | None => None
  end.
Definition to_u32 (x : spec_float) : option Z :=
  match trunc x with
  | Some z => if (0 <=? z) && (z <? 2 ^ 32) then Some z else None
  | None => None
  end.

(** ** [calculate_bitrate] (kbit/s) *)

Definition calculate_bitrate (bitrate_factor : float) (width height : Z) : option Z :=
  let base_bitrate_high := 4000 in
  let base_bitrate_low := 512 in
  let pixels := f64_mul (f64_of_Z width) (f64_of_Z height) in
  let ref_pixels := f64_mul (f64_of_Z 1920) (f64_of_Z 1080) in
  let scale_factor := f64_div pixels ref_pixels in
  match to_s32 (f32_mul (f32_of_Z (base_bitrate_high - base_bitrate_low)) bitrate_factor) with
  | None => None
  | Some range =>
      let base_bitrate := base_bitrate_low + range in
      if 2 ^ 31 <=? base_bitrate then None       (* signed overflow *)
      else
        match to_s32 (f64_mul (f64_of_Z base_bitrate) scale_factor) with
        | None => None
        | Some bitrate =>
            let min_bitrate := 200 in
            Some (if bitrate <? min_bitrate then min_bitrate else bitrate)
        end
  end.

(** ** [RK_ALIGN_16] on [RK_U32] *)

Definition RK_ALIGN (x a : Z) : Z := Z.land (u32 (u32 (x + a) - 1)) (u32 (Z.lnot (a - 1))).
Definition RK_ALIGN_16 (x : Z) : Z := RK_ALIGN x 16.

(** ** [populate_venc_attr] *)

Inductive rc_mode := VENC_RC_MODE_H264VBR | VENC_RC_MODE_H265VBR.
Inductive venc_type := RK_VIDEO_ID_AVC | RK_VIDEO_ID_HEVC.
Inductive venc_profile := H264E_PROFILE_HIGH | H265E_PROFILE_MAIN.
Inductive pixel_format := RK_FMT_YUV422_YUYV.
Inductive mirror := MIRROR_NONE.

Record vbr_attr := Vbr {
  u32BitRate : Z; u32MaxBitRate : Z; u32MinBitRate : Z; u32Gop : Z;
  u32StatTime : Z; u32SrcFrameRateNum : Z; u32SrcFrameRateDen : Z;
  fr32DstFrameRateNum : Z; fr32DstFrameRateDen : Z
}.
(** The union of rate-control attributes: the member that is filled in. *)
Inductive rc_attr := stH264Vbr (v : vbr_attr) | stH265Vbr (v : vbr_attr).

Record VENC_CHN_ATTR_S := VencAttr {
  enRcMode : rc_mode; stRcAttr : rc_attr;
  enType : venc_type; u32Profile : venc_profile; enPixelFormat : pixel_format;
  u32PicWidth : Z; u32PicHeight : Z; u32VirWidth : Z; u32VirHeight : Z;
  u32StreamBufCnt : Z; u32BufSize : Z; enMirror : mirror
}.

Definition populate_venc_attr (codec_type bitrate max_bitrate width height fps : Z)
  : VENC_CHN_ATTR_S :=
  let min_bitrate := bitrate / 2 in
  let min_bitrate := if min_bitrate <? 2 then 2 else min_bitrate in
  let gop := if 0 <? fps then fps / 2 else 30 in
  let gop := if gop <? 1 then 1 else gop in
  let vbr := Vbr bitrate max_bitrate min_bitrate gop 2 fps 1 fps 1 in
  let hevc := codec_type =? 1 in
  VencAttr
    (if hevc then VENC_RC_MODE_H265VBR else VENC_RC_MODE_H264VBR)
    (if hevc then stH265Vbr vbr else stH264Vbr vbr)
    (if hevc then RK_VIDEO_ID_HEVC else RK_VIDEO_ID_AVC)
    (if hevc then H265E_PROFILE_MAIN else H264E_PROFILE_HIGH)
    RK_FMT_YUV422_YUYV width height (RK_ALIGN_16 width) (RK_ALIGN_16 height) 3
    (u32 (u32 (width * height) * 3) / 2) MIRROR_NONE.

(** ** Frame rate of a detected mode ([run_detect_format]) *)

Record dv_timings := Timings {
  bt_width : Z; bt_height : Z; bt_pixelclock : Z;
  bt_hfrontporch : Z; bt_hsync : Z; bt_hbackporch : Z;
  bt_vfrontporch : Z; bt_vsync : Z; bt_vbackporch : Z
}.

Definition total_pixels (t : dv_timings) : Z :=
  u32 (u32 (bt_height t + bt_vfrontporch t + bt_vsync t + bt_vbackporch t) *
       u32 (bt_width t + bt_hfrontporch t + bt_hsync t + bt_hbackporch t)).

Definition frames_per_second (t : dv_timings) : double :=
  f64_div (f64_of_Z (bt_pixelclock t)) (f64_of_Z (total_pixels t)).

(** [(uint32_t)(frames_per_second + 0.5)], at least 1. *)
Definition fps_of (t : dv_timings) : option Z :=
  match to_u32 (f64_add (frames_per_second t) half) with
  | Some fps => Some (if fps <? 1 then 1 else fps)
  | None => None
  end.

Definition fps_changed (fps_int detected_fps : Z) : bool :=
  (u32 (detected_fps + 1) <? fps_int) || (u32 (fps_int + 1) <? detected_fps).

(** ** The rate-control parameters a channel was given *)

Definition vbr_of (a : VENC_CHN_ATTR_S) : vbr_attr :=
  match stRcAttr a with stH264Vbr v | stH265Vbr v => v end.

(** The mode, the filled union member, the codec and the profile agree. *)
Definition codec_coherent (a : VENC_CHN_ATTR_S) : Prop :=
  match enRcMode a, stRcAttr a, enType a, u32Profile a with
  | VENC_RC_MODE_H264VBR, stH264Vbr _, RK_VIDEO_ID_AVC, H264E_PROFILE_HIGH => True
  | VENC_RC_MODE_H265VBR, stH265Vbr _, RK_VIDEO_ID_HEVC, H265E_PROFILE_MAIN => True
  | _, _, _, _ => False
  end.

(** ** Lemmas *)

(** Masking with [~15] in 32 bits drops the remainder modulo 16. *)
Lemma land_align16 x : in_u32 x → Z.land x (u32 (Z.lnot 15)) = x - x mod 16.
Proof.
  intros Hx. unfold u32, wrapu. rewrite <- Z.land_ones by lia.
  rewrite (Z.land_comm (Z.lnot 15)), Z.land_assoc, Z.land_ones by lia.
  rewrite Z.mod_small by (cbv [in_u32] in Hx; lia).
  change (Z.land x (Z.lnot 15)) with (Z.land x (Z.lnot (Z.ones 4))).
  rewrite <- Z.ldiff_land, Z.ldiff_ones_r by lia.
  rewrite Z.shiftr_div_pow2, Z.shiftl_mul_pow2 by lia. Z.div_mod_to_equations; lia.
Qed.

Lemma align16 x : 0 <= x <= 2 ^ 32 - 16 →
  RK_ALIGN_16 x mod 16 = 0 ∧ x <= RK_ALIGN_16 x < x + 16.
Proof.
  intros Hx. unfold RK_ALIGN_16, RK_ALIGN. change (16 - 1) with 15.
  assert (Hu : u32 (u32 (x + 16) - 1) = x + 15) by cint.
  rewrite Hu, land_align16 by cint. Z.div_mod_to_equations; lia.
Qed.

Lemma to_s32_range x z : to_s32 x = Some z → in_s32 z.
Proof.
  unfold to_s32. destruct (trunc x); [|done]. destruct (_ && _) eqn:H; [|done].
  intros [= <-]. unfold in_s32. lia.
Qed.

(** ** Properties *)

(** C35: the channel attributes. For every codec, bit rate, mode and frame rate
    the rate-control mode, the union member that is filled, the codec and the
    profile agree; the minimum bit rate is at least 2 and at most
    [max(2, bitrate)]; an IDR frame comes at least every half second
    ([2 * gop <= max(2, fps)], 30 frames when the rate is unknown); the virtual
    size is the picture size rounded up to 16; and for pictures of fewer than
    2^32 / 3 pixels the stream buffer holds the 3/2 bytes per pixel. *)
Theorem populate_venc_attr_spec (codec bitrate max_bitrate width height fps : Z) :
  in_u32 bitrate → in_u32 fps →
  0 <= width <= 2 ^ 32 - 16 → 0 <= height <= 2 ^ 32 - 16 →
  let a := populate_venc_attr codec bitrate max_bitrate width height fps in
  let v := vbr_of a in
  codec_coherent a ∧ (enType a = RK_VIDEO_ID_HEVC ↔ codec = 1) ∧
  (u32BitRate v = bitrate ∧ u32MaxBitRate v = max_bitrate ∧
   2 <= u32MinBitRate v <= Z.max 2 bitrate) ∧
  (1 <= u32Gop v ∧ (0 < fps → 2 * u32Gop v <= Z.max 2 fps) ∧ (fps = 0 → u32Gop v = 30)) ∧
  (u32VirWidth a mod 16 = 0 ∧ width <= u32VirWidth a < width + 16) ∧
  (u32VirHeight a mod 16 = 0 ∧ height <= u32VirHeight a < height + 16) ∧
  (width * height * 3 < 2 ^ 32 → u32BufSize a = width * height * 3 / 2).
Proof.
  intros Hb Hf Hw Hh a v. unfold in_u32 in *.
  pose proof (align16 width Hw). pose proof (align16 height Hh).
  assert (Hv : v = Vbr bitrate max_bitrate (if bitrate / 2 <? 2 then 2 else bitrate / 2)
    (let gop := if 0 <? fps then fps / 2 else 30 in if gop <? 1 then 1 else gop) 2 fps 1 fps 1)
    by (subst v a; unfold vbr_of, populate_venc_attr; simpl; by destruct (codec =? 1)).
  refine (conj _ (conj _ (conj _ (conj _ (conj _ (conj _ _)))))); [..|intros Hs].
  - unfold codec_coherent, a, populate_venc_attr. simpl. by destruct (codec =? 1).
  - unfold a, populate_venc_attr. simpl. by destruct (Z.eqb_spec codec 1).
  - rewrite Hv. simpl. destruct (Z.ltb_spec (bitrate / 2) 2); Z.div_mod_to_equations; lia.
  - rewrite Hv. simpl. destruct (Z.ltb_spec 0 fps).
    + destruct (Z.ltb_spec (fps / 2) 1); Z.div_mod_to_equations; lia.
    + simpl. lia.
  - done.
  - done.
  - subst a. unfold populate_venc_attr, u32BufSize.
    rewrite (u32_id (width * height)) by (unfold in_u32; nia). by rewrite u32_id by (unfold in_u32; nia).
Qed.
Lemma populate_venc_attr_spec_witness :
  (in_u32 4000 ∧ in_u32 60 ∧ 0 <= 1920 <= 2 ^ 32 - 16 ∧ 0 <= 1080 <= 2 ^ 32 - 16) ∧
  u32VirHeight (populate_venc_attr 1 4000 6000 1920 1080 60) mod 16 = 0 ∧
  u32BufSize (populate_venc_attr 1 4000 6000 1920 1080 60) = 3110400.
Proof.
  split; [repeat split; vm_compute; done|].
  destruct (populate_venc_attr_spec 1 4000 6000 1920 1080 60)
    as (_ & _ & _ & _ & _ & [Hv _] & Hs); [vm_compute; done..|].
  split; [exact Hv|]. rewrite Hs; vm_compute; done.
Defined.

(** The bit rate. Whenever the arithmetic is defined the result is an
    [int32_t] of at least 200 kbit/s; at 1920x1080 the factor moves it linearly
    from 512 to 4000, and it scales with the number of pixels. *)
Theorem calculate_bitrate_spec (bitrate_factor : float) (width height bitrate : Z) :
  calculate_bitrate bitrate_factor width height = Some bitrate →
  200 <= bitrate < 2 ^ 31 ∧
  calculate_bitrate (f32_of_Z 1) 1920 1080 = Some 4000 ∧
  calculate_bitrate half 1920 1080 = Some 2256 ∧
  calculate_bitrate (S754_zero false) 1920 1080 = Some 512 ∧
  calculate_bitrate (f32_of_Z 1) 960 1080 = Some 2000 ∧
  calculate_bitrate (f32_of_Z 1) 64 64 = Some 200.
Proof.
  intros H. split; [|repeat split; vm_compute; reflexivity].
  unfold calculate_bitrate in H. destruct (to_s32 (f32_mul _ _)) as [r|]; [|done].
  destruct (2 ^ 31 <=? 512 + r); [done|].
  destruct (to_s32 (f64_mul _ _)) as [b|] eqn:Hb; [|done]. apply to_s32_range in Hb.
  unfold in_s32 in Hb. injection H as <-. destruct (Z.ltb_spec b 200); lia.
Qed.
Lemma calculate_bitrate_spec_witness :
  calculate_bitrate (f32_of_Z 1) 1280 720 = Some 1777 ∧ 200 <= 1777 < 2 ^ 31.
Proof.
  assert (H : calculate_bitrate (f32_of_Z 1) 1280 720 = Some 1777) by (vm_compute; reflexivity).
  split; [exact H|]. exact (proj1 (calculate_bitrate_spec _ _ _ _ H)).
Defined.

(** The frame rate. A defined rate is at least 1 and below 2^32, the usual
    modes round to their nominal rate (119.88 Hz to 120), rates that differ by
    at most 1 are the same mode and others are not; but timings whose total
    pixel count is 0 (modulo 2^32) make the cast to [uint32_t] undefined. *)
Theorem fps_of_spec (t : dv_timings) (a b : Z) :
  0 <= a < 2 ^ 32 - 1 → 0 <= b < 2 ^ 32 - 1 →
  (∀ fps, fps_of t = Some fps → 1 <= fps < 2 ^ 32) ∧
  (total_pixels t = 0 → fps_of t = None) ∧
  fps_of (Timings 1920 1080 148500000 88 44 148 4 5 36) = Some 60 ∧
  fps_of (Timings 1920 1080 285250000 48 32 80 3 5 56) = Some 120 ∧
  (fps_changed a b = true ↔ 2 <= Z.abs (a - b)).
Proof.
  intros Ha Hb. split; [|split; [|split; [|split]]].
  - intros fps. unfold fps_of, to_u32. destruct (trunc _) as [z|]; [|done].
    destruct (_ && _) eqn:Hz; [|done]. intros [= <-]. destruct (Z.ltb_spec z 1); lia.
  - intros H0. unfold fps_of, frames_per_second. rewrite H0.
    assert (Hd : ∀ x : double, to_u32 (f64_add (f64_div x (f64_of_Z 0)) half) = None)
      by (intros [[]|[]| |[] ? ?]; reflexivity).
    by rewrite Hd.
  - vm_compute. reflexivity.
  - vm_compute. reflexivity.
  - unfold fps_changed. rewrite !u32_id by (unfold in_u32; lia). lia.
Qed.
Lemma fps_of_spec_witness :
  (0 <= 60 < 2 ^ 32 - 1 ∧ 0 <= 62 < 2 ^ 32 - 1) ∧ fps_changed 60 62 = true.
Proof.
  split; [lia|]. apply (fps_of_spec (Timings 0 0 0 0 0 0 0 0 0) 60 62); lia.
Defined.
