(* ===== verification/Video.v ===== *)
(** * The video pipeline: the code of [video.c]

    Every function of src/internal/native/cgo/video.c, with the functions of
    ctrl.c it calls back ([video_report_format], [video_send_format_report],
    [video_send_frame]), as programs over the actions [videoE]: reads and writes
    of the file's globals, pthread and memory calls, V4L2 ioctls and the
    Rockchip encoder's calls.  Of the log calls only the one of
    [video_send_frame] is kept, for [Handlers]; the others do not change the
    state.  What the actions mean is chosen per question: [VideoDevice]
    (descriptors, buffers, encoder), [VideoLife] (threads and flags),
    [VideoTerm] (how long the loops run). *)
From S2P Require Import Prelude Effects VencConfig.

(** ** Constants *)

Definition VIDEO_DEV : string := "/dev/video0".
Definition SUB_DEV : string := "/dev/v4l-subdev2".
Definition SLEEP_MODE_FILE : string :=
  "/sys/devices/platform/ff470000.i2c/i2c-4/4-000f/sleep_mode".
Definition RK_SUCCESS : Z := 0.
Definition RK_FAILURE : Z := -1.
Definition MB_INVALID_POOLID : Z := 2 ^ 32 - 1.
Definition EINTR : Z := 4.
Definition ERANGE : Z := 34.
Definition ENOLCK : Z := 37.
Definition ENOLINK : Z := 67.
Definition V4L2_EVENT_SOURCE_CHANGE : Z := 5.
Definition NULL : Z := 0.
Definition input_buffer_count : nat := 3.
Definition LEVEL_ERROR : Z := 3.

(** ** Data *)

(** [jetkvm_video_state_t] (ctrl.h); a [NULL] error string is [None]. *)
Record jetkvm_video_state_t := VideoState {
  ready : bool; streaming : Z; error : option string;
  width : Z; height : Z; frame_per_second : double
}.

(** The globals of video.c, and those of ctrl.c the pipeline reports through.
    Pointers are addresses; the handlers are only ever tested for [NULL]. *)
Inductive var : Type → Type :=
| streaming_flag : var bool
| streaming_stopped : var bool
| detected_signal : var bool
| sleep_mode_available : var bool
| should_exit : var bool
| venc_running : var bool
| streaming_thread : var Z
| venc_read_thread : var Z
| format_thread : var Z
| detected_width : var Z
| detected_height : var Z
| detected_fps : var Z
| codec_type : var Z
| sub_dev_fd : var Z
| memPool : var Z
| quality_factor : var float
| state : var jetkvm_video_state_t
| video_state_handler : var bool
| video_handler : var bool.

(** The thread functions. *)
Inductive routine := StreamThread | VencThread | FormatThread.

(** [VIDEO_FRAME_INFO_S], the fields that are set. *)
Record frame_info := Frame {
  pMbBlk : Z; u32Width : Z; u32Height : Z;
  u32FVirWidth : Z; u32FVirHeight : Z; u32TimeRef : Z; u64PTS : Z
}.

(** What [RK_MPI_VENC_GetStream] returns. *)
Inductive stream_status := StreamOk (blk len : Z) | StreamEmpty | StreamError (code : Z).

(** ** Actions *)

Inductive videoE : Type → Type :=
(* globals: plain accesses, and accesses under the variable's mutex *)
| Rd {T} (v : var T) : videoE T
| Wr {T} (v : var T) (x : T) : videoE unit
| RdLocked (v : var bool) : videoE bool
| WrLocked (v : var bool) (x : bool) : videoE unit
| MutexDestroy : videoE unit
(* threads; the cell a pthread_t lives in is named by its address *)
| Malloc (r : routine) : videoE Z
| Free (r : routine) (p : Z) : videoE unit
| PthreadCreate (r : routine) (p : Z) : videoE Z
| PthreadJoin (r : routine) (p : Z) : videoE unit
(* files, time *)
| Open (path : string) : videoE Z
| Close (fd : Z) : videoE unit
| Shutdown (fd : Z) : videoE unit
| Access (path : string) : videoE Z
| Read1 (fd : Z) : videoE ascii
| Write1 (fd : Z) (c : ascii) : videoE unit
| Usleep (us : Z) : videoE unit
| ClockGettime : videoE (Z * Z)
| Errno : videoE Z
(* V4L2 *)
| S_FMT (fd w h : Z) : videoE Z
| REQBUFS (fd count : Z) : videoE Z
| QUERYBUF (fd index : Z) : videoE (Z * Z)              (* rc, plane length *)
| QBUF (fd index plane_fd : Z) : videoE Z
| DQBUF (fd : Z) : videoE (Z * Z * Z)                   (* rc, index, plane fd *)
| STREAMON (fd : Z) : videoE Z
| STREAMOFF (fd : Z) : videoE Z
| Select (fd : Z) : videoE Z
| SUBSCRIBE_EVENT (fd : Z) : videoE Z
| QUERY_DV_TIMINGS (fd : Z) : videoE (Z * dv_timings)
| DQEVENT (fd : Z) : videoE (Z * Z)                     (* rc, event type *)
(* Rockchip media *)
| SYS_Init : videoE Z
| MB_CreatePool (size count : Z) : videoE Z
| MB_DestroyPool (pool : Z) : videoE unit
| MB_GetMB (pool len : Z) : videoE Z
| MB_Handle2Fd (blk : Z) : videoE Z
| MB_ReleaseMB (blk : Z) : videoE unit
| MB_Handle2VirAddr (blk : Z) : videoE Z
| MMZ_Fd2Handle (fd : Z) : videoE Z
| VENC_CreateChn (a : VENC_CHN_ATTR_S) : videoE Z
| VENC_StartRecvFrame (count : Z) : videoE Z
| VENC_StopRecvFrame : videoE Z
| VENC_DestroyChn : videoE Z
| VENC_SendFrame (f : frame_info) : videoE Z
| VENC_GetStream : videoE stream_status
| VENC_ReleaseStream : videoE Z
(* the reader's packet *)
| MallocPack : videoE Z
| FreePack (p : Z) : videoE unit
(* logging, and the callbacks registered from Go *)
| EmitLog (level : Z) (file func : string) (line : Z) (message : string) : videoE unit
| StateHandler (st : jetkvm_video_state_t) : videoE unit
| FrameHandler (data len : Z) : videoE unit
(* the start and the end of a stream thread's life *)
| ThreadBegin (tid : nat) : videoE unit
| ThreadEnd (tid : nat) : videoE unit.

Abbreviation video := (prog videoE).

(** ** Status and reports *)

Definition get_streaming_flag : video bool := call (RdLocked streaming_flag).
Definition get_streaming_stopped : video bool := call (RdLocked streaming_stopped).

(** 0 = stopped, 1 = running, 2 = stopping *)
Definition video_get_streaming_status : video Z :=
  flag ← get_streaming_flag;
  if flag then mret 1
  else
    stopped ← get_streaming_stopped;
    if negb stopped then mret 2 else mret 0.

Definition notify_state (st : jetkvm_video_state_t) : video unit :=
  h ← call (Rd video_state_handler);
  when h (call (StateHandler st)).

Definition video_send_format_report : video unit :=
  status ← video_get_streaming_status;
  st ← call (Rd state);
  let st := VideoState (ready st) status (error st) (width st) (height st)
              (frame_per_second st) in
  call (Wr state st);;
  notify_state st.

Definition video_report_format (rdy : bool) (err : option string) (w h : Z) (fps : double)
  : video unit :=
  status ← video_get_streaming_status;
  let st := VideoState rdy status err (u16 w) (u16 h) fps in
  call (Wr state st);;
  notify_state st.

Definition video_send_frame (frame len : Z) : video Z :=
  h ← call (Rd video_handler);
  (if (h : bool) then call (FrameHandler frame len)
   else call (EmitLog LEVEL_ERROR "ctrl.c" "video_send_frame" 85 "video handler is not set"));;
  mret 0.

Definition set_streaming_flag (flag : bool) : video unit :=
  call (WrLocked streaming_flag flag);;
  video_send_format_report.

Definition set_streaming_stopped (stopped : bool) : video unit :=
  call (WrLocked streaming_stopped stopped);;
  video_send_format_report.

(** ** Time and the receiver's sleep mode *)

Definition get_us : video Z :=
  t ← call ClockGettime;
  mret (u64 (u64 (t.1 * 1000000) + t.2 / 1000)).

Definition ensure_sleep_mode_disabled : video unit :=
  avail ← call (Rd sleep_mode_available);
  if negb avail then mret tt
  else
    fd ← call (Open SLEEP_MODE_FILE);
    if fd <? 0 then mret tt
    else
      c ← call (Read1 fd);
      if Ascii.eqb c "0"%char then call (Close fd)
      else
        call (Write1 fd "0"%char);;
        call (Close fd);;
        call (Usleep 1000).

Definition detect_sleep_mode : video unit :=
  rc ← call (Access SLEEP_MODE_FILE);
  if negb (rc =? 0) then call (Wr sleep_mode_available false)
  else
    call (Wr sleep_mode_available true);;
    ensure_sleep_mode_disabled.

(** ** The encoder channel *)

(** The arguments are [int32_t] and become the [RK_U32] of the attributes. *)
Definition venc_start (bitrate max_bitrate w h fps : Z) : video Z :=
  codec ← call (Rd codec_type);
  let stAttr := populate_venc_attr codec (u32 bitrate) (u32 max_bitrate)
                  (u32 w) (u32 h) (u32 fps) in
  ret ← call (VENC_CreateChn stAttr);
  if ret <? 0 then mret ret
  else
    ret ← call (VENC_StartRecvFrame (-1));
    if ret <? 0 then mret ret
    else
      call (Wr venc_running true);;
      p ← call (Malloc VencThread);
      call (Wr venc_read_thread p);;
      rc ← call (PthreadCreate VencThread p);
      if negb (rc =? 0) then mret RK_FAILURE else mret RK_SUCCESS.

Definition join_venc_thread : video unit :=
  p ← call (Rd venc_read_thread);
  when (negb (p =? NULL))
    (call (PthreadJoin VencThread p);;
     call (Free VencThread p);;
     call (Wr venc_read_thread NULL)).

Definition venc_stop : video Z :=
  call (Wr venc_running false);;
  ret ← call VENC_StopRecvFrame;
  if negb (ret =? RK_SUCCESS) then mret ret
  else
    join_venc_thread;;
    ret ← call VENC_DestroyChn;
    if negb (ret =? RK_SUCCESS) then mret ret else mret RK_SUCCESS.

(** The reader thread: one iteration of [while (venc_running)]; [pack] is
    [stFrame.pstPack]. *)
Definition venc_read_step (pack : Z) (_ : unit) : video (unit + unit) :=
  running ← call (Rd venc_running);
  if negb running then mret (inr tt)
  else
    r ← call VENC_GetStream;
    match r with
    | StreamOk blk len =>
        now ← get_us;
        if pack =? NULL then Stop (Crash "stFrame.pstPack is NULL") else
        pData ← call (MB_Handle2VirAddr blk);
        video_send_frame pData len;;
        call VENC_ReleaseStream;;
        mret (inl tt)
    | StreamEmpty => mret (inl tt)
    | StreamError _ => mret (inr tt)
    end.

Definition venc_read_stream (n : nat) : video Z :=
  pack ← call MallocPack;
  loop n (venc_read_step pack) tt;;
  call (FreePack pack);;
  mret NULL.

(** ** The capture thread *)

(** The early returns of [run_video_stream]: [return errno]. *)
Definition close_and_fail {A} (fd : Z) : video (Z + A) :=
  call (Close fd);;
  e ← call Errno;
  mret (inl e).

(** The first [for]: query each buffer and back it with a memory block;
    the blocks and their descriptors are [buffers[i]]. *)
Fixpoint query_buffers (fd : Z) (n : nat) (i : Z) (buffers : list (Z * Z))
  : video (Z + list (Z * Z)) :=
  match n with
  | O => mret (inr buffers)
  | S n' =>
      r ← call (QUERYBUF fd i);
      let '(rc, len) := r in
      if rc =? -1 then close_and_fail fd
      else
        pool ← call (Rd memPool);
        blk ← call (MB_GetMB pool len);
        if blk =? NULL then close_and_fail fd
        else
          buf_fd ← call (MB_Handle2Fd blk);
          if buf_fd <? 0 then close_and_fail fd
          else query_buffers fd n' (i + 1) (buffers ++ [(blk, buf_fd)])
  end.

(** The second [for]: queue every buffer. *)
Fixpoint queue_buffers (fd : Z) (i : Z) (buffers : list (Z * Z)) : video (Z + unit) :=
  match buffers with
  | [] => mret (inr tt)
  | (_, plane_fd) :: buffers' =>
      rc ← call (QBUF fd i plane_fd);
      if rc <? 0 then close_and_fail fd
      else queue_buffers fd (i + 1) buffers'
  end.

(** [retry_send_frame]: a frame the encoder refuses is sent once more. *)
Definition send_frame (f : frame_info) : video unit :=
  rc ← call (VENC_SendFrame f);
  when (negb (rc =? RK_SUCCESS))
    (call (Usleep 1000);;
     call (VENC_SendFrame f);;
     mret tt).

(** One iteration of the inner [while (streaming_flag)]; the local is [num]. *)
Definition capture_step (fd w h : Z) (num : Z) : video (Z + unit) :=
  flag ← call (Rd streaming_flag);
  if negb flag then mret (inr tt)
  else
    r ← call (Select fd);
    if r =? 0 then ensure_sleep_mode_disabled;; mret (inr tt)
    else if r =? -1 then
      e ← call Errno;
      if e =? EINTR then mret (inl num) else mret (inr tt)
    else
      d ← call (DQBUF fd);
      let '(rc, index, plane_fd) := d in
      if rc <? 0 then mret (inr tt)
      else
        blk ← call (MMZ_Fd2Handle plane_fd);
        if blk =? NULL then Stop (Crash "assert(blk != RK_NULL)")
        else
          pts ← get_us;
          send_frame (Frame blk w h (RK_ALIGN_16 w) (RK_ALIGN_16 h) num pts);;
          call (QBUF fd index plane_fd);;
          mret (inl (u32 (num + 1))).

Fixpoint release_blocks (buffers : list (Z * Z)) : video unit :=
  match buffers with
  | [] => mret tt
  | (blk, _) :: buffers' =>
      when (negb (blk =? NULL)) (call (MB_ReleaseMB blk));;
      release_blocks buffers'
  end.

(** The [cleanup:] label. *)
Definition stream_cleanup (fd : Z) (buffers : list (Z * Z)) : video unit :=
  call (STREAMOFF fd);;
  call (REQBUFS fd 0);;
  venc_stop;;
  release_blocks buffers;;
  call (Close fd).

(** From [VIDIOC_REQBUFS] to the end of the outer loop's body. *)
Definition stream_session (m : nat) (fd w h fps : Z) : video (Z + unit) :=
  rc ← call (REQBUFS fd (Z.of_nat input_buffer_count));
  if rc <? 0 then close_and_fail fd
  else
    r ← query_buffers fd input_buffer_count 0 [];
    match r with
    | inl e => mret (inl e)
    | inr buffers =>
        q ← queue_buffers fd 0 buffers;
        match q with
        | inl e => mret (inl e)
        | inr _ =>
            rc ← call (STREAMON fd);
            if rc <? 0 then close_and_fail fd
            else
              quality ← call (Rd quality_factor);
              match calculate_bitrate quality (s32 w) (s32 h) with
              | None => Stop (Crash "bit rate out of the range of int32_t")
              | Some bitrate =>
                  if 2 ^ 31 <=? bitrate * 3 then Stop (Crash "signed overflow")
                  else
                    ret ← venc_start bitrate (bitrate * 3 / 2) (s32 w) (s32 h) (s32 fps);
                    when (ret =? RK_SUCCESS) (loop m (capture_step fd w h) 0);;
                    stream_cleanup fd buffers;;
                    mret (inr tt)
              end
        end
    end.

(** One iteration of the outer [while (streaming_flag)]: [inr None] leaves the
    loop, [inr (Some e)] is an early [return e]. *)
Definition stream_step (m : nat) (_ : unit) : video (unit + option Z) :=
  flag ← call (Rd streaming_flag);
  if negb flag then mret (inr None)
  else
    signal ← call (Rd detected_signal);
    if negb signal then call (Usleep 10000);; mret (inl tt)
    else
      fd ← call (Open VIDEO_DEV);
      if fd <? 0 then call (Usleep 1000000);; mret (inl tt)
      else
        w ← call (Rd detected_width);
        h ← call (Rd detected_height);
        fps ← call (Rd detected_fps);
        rc ← call (S_FMT fd w h);
        if rc <? 0 then
          call (Usleep 100000);;
          call (Close fd);;
          mret (inl tt)
        else
          r ← stream_session m fd w h fps;
          match r with
          | inl e => mret (inr (Some e))
          | inr _ => mret (inl tt)
          end.

(** [n] and [m] bound the outer and the inner loop. *)
Definition run_video_stream (n m : nat) : video Z :=
  set_streaming_stopped false;;
  r ← loop n (stream_step m) tt;
  match r with
  | Some e => mret e
  | None => set_streaming_stopped true;; mret NULL
  end.

(** ** Starting and stopping *)

Definition video_start_streaming : video unit :=
  p ← call (Rd streaming_thread);
  if negb (p =? NULL) then
    (* already started; the assertion that follows the test cannot fail *)
    get_streaming_stopped;; mret tt
  else
    new_thread ← call (Malloc StreamThread);
    if new_thread =? NULL then mret tt
    else
      set_streaming_flag true;;
      result ← call (PthreadCreate StreamThread new_thread);
      if negb (result =? 0) then
        set_streaming_flag false;;
        call (Free StreamThread new_thread)
      else call (Wr streaming_thread new_thread).

(** [while (attempts < 30)]: [n] is the number of attempts left. *)
Fixpoint wait_attempts (n : nat) : video bool :=
  match n with
  | O => mret false
  | S n' =>
      stopped ← get_streaming_stopped;
      if stopped then mret true
      else call (Usleep 100000);; wait_attempts n'
  end.
Definition wait_for_streaming_stopped : video bool := wait_attempts 30.

Definition video_stop_streaming : video unit :=
  p ← call (Rd streaming_thread);
  if p =? NULL then mret tt
  else
    set_streaming_flag false;;
    wait_for_streaming_stopped;;
    p ← call (Rd streaming_thread);
    call (PthreadJoin StreamThread p);;
    p ← call (Rd streaming_thread);
    call (Free StreamThread p);;
    call (Wr streaming_thread NULL).

Definition video_restart_streaming : video unit :=
  streaming_status ← video_get_streaming_status;
  if streaming_status =? 0 then mret tt
  else
    when ((streaming_status =? 1) || (streaming_status =? 2)) video_stop_streaming;;
    stopped ← wait_for_streaming_stopped;
    if negb stopped then mret tt else video_start_streaming.

(** ** Initialisation and shutdown *)

Definition buf_init : video Z :=
  pool ← call (MB_CreatePool (1920 * 1080 * 3) (Z.of_nat input_buffer_count));
  call (Wr memPool pool);;
  if pool =? MB_INVALID_POOLID then mret (-1) else mret RK_SUCCESS.

Definition open_sub_dev : video (option Z) :=
  fd ← call (Rd sub_dev_fd);
  if fd <? 0 then
    fd ← call (Open SUB_DEV);
    call (Wr sub_dev_fd fd);;
    if fd <? 0 then e ← call Errno; mret (Some e) else mret None
  else mret None.

Definition video_init (factor : float) : video Z :=
  detect_sleep_mode;;
  let factor := if SFleb factor (f32_of_Z 0) then f32_of_Z 1 else factor in
  call (Wr quality_factor factor);;
  rc ← call SYS_Init;
  if negb (rc =? RK_SUCCESS) then mret RK_FAILURE
  else
    r ← open_sub_dev;
    match r with
    | Some e => mret e
    | None =>
        ret ← buf_init;
        if negb (ret =? RK_SUCCESS) then mret ret
        else
          p ← call (Malloc FormatThread);
          call (Wr format_thread p);;
          call (PthreadCreate FormatThread p);;
          mret RK_SUCCESS
    end.

Definition video_shutdown : video unit :=
  exiting ← call (Rd should_exit);
  if (exiting : bool) then mret tt
  else
    video_stop_streaming;;
    call (Wr should_exit true);;
    fd ← call (Rd sub_dev_fd);
    when (0 <? fd) (call (Shutdown fd));;
    pool ← call (Rd memPool);
    when (negb (pool =? MB_INVALID_POOLID)) (call (MB_DestroyPool pool));;
    call MutexDestroy.

(** ** The format-detection thread *)

(** The timings were read: publish them, and restart the stream if the mode,
    the rate (by more than one) or the presence of the signal changed. *)
Definition format_detected (t : dv_timings) : video unit :=
  match fps_of t with
  | None => Stop (Crash "frame rate out of the range of uint32_t")
  | Some fps_int =>
      old_fps ← call (Rd detected_fps);
      old_width ← call (Rd detected_width);
      old_height ← call (Rd detected_height);
      signal ← call (Rd detected_signal);
      let should_restart :=
        (negb (bt_width t =? old_width) || negb (bt_height t =? old_height)
         || fps_changed fps_int old_fps || negb signal)%bool in
      call (Wr detected_width (bt_width t));;
      call (Wr detected_height (bt_height t));;
      call (Wr detected_fps fps_int);;
      call (Wr detected_signal true);;
      video_report_format true None (bt_width t) (bt_height t) (frames_per_second t);;
      when should_restart video_restart_streaming
  end.

(** The timings could not be read: the report to make, [None] for an error
    that is retried a second later. *)
Definition signal_error (e : Z) : option string :=
  if e =? ENOLINK then Some "no_signal"%string
  else if e =? ENOLCK then Some "no_lock"%string
  else if e =? ERANGE then Some "out_of_range"%string
  else None.

(** The rest of the loop's body: wait for the next event. *)
Definition wait_event (fd : Z) : video (unit + unit) :=
  ev ← call (DQEVENT fd);
  let '(rc, type) := ev in
  if negb (rc =? 0) then mret (inr tt)
  else mret (inl tt).   (* any event type goes round the loop *)

Definition detect_step (_ : unit) : video (unit + unit) :=
  exiting ← call (Rd should_exit);
  if (exiting : bool) then mret (inr tt)
  else
    fd ← call (Rd sub_dev_fd);
    r ← call (QUERY_DV_TIMINGS fd);
    let '(rc, t) := r in
    if negb (rc =? 0) then
      call (Wr detected_signal false);;
      e ← call Errno;
      match signal_error e with
      | Some msg =>
          video_report_format false (Some msg) 0 0 (f64_of_Z 0);;
          wait_event fd
      | None => call (Usleep 1000000);; mret (inl tt)
      end
    else
      format_detected t;;
      wait_event fd.

Definition run_detect_format (n : nat) : video Z :=
  fd ← call (Rd sub_dev_fd);
  rc ← call (SUBSCRIBE_EVENT fd);
  when (negb (rc =? -1)) (loop n detect_step tt);;
  fd ← call (Rd sub_dev_fd);
  call (Close fd);;
  mret NULL.

(** ** Settings *)

Definition video_set_quality_factor (factor : float) : video unit :=
  call (Wr quality_factor factor);;
  video_restart_streaming.
Definition video_get_quality_factor : video float := call (Rd quality_factor).
Definition video_set_codec_type (type : Z) : video unit := call (Wr codec_type type).
Definition video_get_codec_type : video Z := call (Rd codec_type).

(** The guards of the exported wrappers in ctrl.c. *)
Definition jetkvm_video_set_quality_factor (factor : float) : video Z :=
  if SFleb factor (f32_of_Z 0) then mret (-1)
  else video_set_quality_factor factor;; mret 0.
Definition jetkvm_video_set_codec_type (type : Z) : video Z :=
  if (type <? 0) || (1 <? type) then mret (-1)
  else video_set_codec_type type;; mret 0.

(** The other exported wrappers. [jetkvm_video_get_status] returns the address of
    the global; what the caller then reads is the global's value. *)
Definition jetkvm_video_start : video unit := video_start_streaming.
Definition jetkvm_video_stop : video unit := video_stop_streaming.
Definition jetkvm_video_get_streaming_status : video Z := video_get_streaming_status.
Definition jetkvm_video_get_quality_factor : video float := video_get_quality_factor.
Definition jetkvm_video_get_codec_type : video Z := video_get_codec_type.
Definition jetkvm_video_get_status : video jetkvm_video_state_t := call (Rd state).
Definition jetkvm_video_init (factor : float) : video Z := video_init factor.
Definition jetkvm_video_shutdown : video unit := video_shutdown.
Definition jetkvm_crash : video unit := Stop (Crash "store through a null pointer").
