(* ===== verification/VideoDevice.v ===== *)
(** * The capture thread's resources

    [run_video_stream] of [Video] against the documented protocols of the
    capture device, the memory pool and the encoder: a descriptor is used and
    closed only while open, a memory block is used and released only while held,
    frames go to a channel that is receiving, and a thread is joined only when
    it was created.  Every answer the protocols allow is considered, and the
    globals other threads write ([streaming_flag], [detected_*], ...) may be
    read with any value at any time. *)
From S2P Require Import Prelude Effects VencConfig Video.

(** ** State of the devices *)

Inductive chan_state := NoChan | Created | Receiving.

(** What the model's environment may do. *)
Record env := Env {
  e_threads_ok : bool;            (* malloc and pthread_create of the reader succeed *)
  e_quality : float → bool;       (* the quality factors that are set *)
  e_width : Z → bool;             (* the widths and heights that are detected *)
  e_height : Z → bool;
  e_block : Z → bool              (* the answers of RK_MPI_MMZ_Fd2Handle *)
}.

Record dstate := DState {
  d_fds : gset Z;                 (* open descriptors *)
  d_blks : gset Z;                (* memory blocks held *)
  d_chan : chan_state;            (* the encoder channel *)
  d_vthread : Z;                  (* the global venc_read_thread *)
  d_cells : list (Z * bool);      (* allocated pthread_t cells, with a thread? *)
  d_stopped : bool;               (* the global streaming_stopped *)
  d_env : env                     (* never changes *)
}.

Definition set_fds (l : gset Z) (s : dstate) : dstate :=
  DState l (d_blks s) (d_chan s) (d_vthread s) (d_cells s) (d_stopped s) (d_env s).
Definition set_blks (l : gset Z) (s : dstate) : dstate :=
  DState (d_fds s) l (d_chan s) (d_vthread s) (d_cells s) (d_stopped s) (d_env s).
Definition set_chan (c : chan_state) (s : dstate) : dstate :=
  DState (d_fds s) (d_blks s) c (d_vthread s) (d_cells s) (d_stopped s) (d_env s).
Definition set_vthread (p : Z) (s : dstate) : dstate :=
  DState (d_fds s) (d_blks s) (d_chan s) p (d_cells s) (d_stopped s) (d_env s).
Definition set_cells (l : list (Z * bool)) (s : dstate) : dstate :=
  DState (d_fds s) (d_blks s) (d_chan s) (d_vthread s) l (d_stopped s) (d_env s).
Definition set_stopped (b : bool) (s : dstate) : dstate :=
  DState (d_fds s) (d_blks s) (d_chan s) (d_vthread s) (d_cells s) b (d_env s).

(** ** The protocols *)

Definition del_cell (p : Z) (l : list (Z * bool)) : list (Z * bool) :=
  List.filter (λ c, negb (c.1 =? p)) l.

Definition is_stopped_var {T} (v : var T) : bool :=
  match v with streaming_stopped => true | _ => false end.

Definition denabled {X} (e : videoE X) (s : dstate) : bool :=
  match e with
  | Close fd | Read1 fd | Write1 fd _
  | S_FMT fd _ _ | REQBUFS fd _ | QUERYBUF fd _ | QBUF fd _ _ | DQBUF fd
  | STREAMON fd | STREAMOFF fd | Select fd => bool_decide (fd ∈ d_fds s)
  | MB_Handle2Fd blk | MB_ReleaseMB blk => bool_decide (blk ∈ d_blks s)
  | VENC_SendFrame _ => match d_chan s with Receiving => true | _ => false end
  | Free VencThread p => bool_decide (p ∈ (d_cells s).*1)
  | PthreadCreate VencThread p => bool_decide (p ∈ (d_cells s).*1)
  | PthreadJoin VencThread p => bool_decide ((p, true) ∈ d_cells s)
  | _ => true
  end.

Definition dact {X} (e : videoE X) (s : dstate) : X → option dstate :=
  match e in videoE X return X → option dstate with
  | Rd v =>
      match v in var T return T → option dstate with
      | venc_read_thread => λ p, if p =? d_vthread s then Some s else None
      | quality_factor => λ q, if e_quality (d_env s) q then Some s else None
      | detected_width => λ w, if e_width (d_env s) w then Some s else None
      | detected_height => λ h, if e_height (d_env s) h then Some s else None
      | _ => λ _, Some s
      end
  | Wr v x =>
      match v in var T return T → unit → option dstate with
      | venc_read_thread => λ p _, Some (set_vthread p s)
      | _ => λ _ _, Some s
      end x
  | WrLocked v b => λ _, Some (if is_stopped_var v then set_stopped b s else s)
  | Open _ => λ fd,
      if fd <? 0 then Some s
      else if bool_decide (fd ∈ d_fds s) then None
      else Some (set_fds ({[fd]} ∪ d_fds s) s)
  | Close fd => λ _, Some (set_fds (d_fds s ∖ {[fd]}) s)
  | MB_GetMB _ _ => λ blk,
      if blk =? NULL then Some s
      else if bool_decide (blk ∈ d_blks s) then None
      else Some (set_blks ({[blk]} ∪ d_blks s) s)
  | MB_ReleaseMB blk => λ _, Some (set_blks (d_blks s ∖ {[blk]}) s)
  | MMZ_Fd2Handle _ => λ blk, if blk =? NULL then None else Some s
  | VENC_CreateChn _ => λ ret,
      if ret <? 0 then Some s
      else match d_chan s with NoChan => Some (set_chan Created s) | _ => None end
  | VENC_StartRecvFrame _ => λ ret,
      if ret <? 0 then Some s
      else match d_chan s with NoChan => None | _ => Some (set_chan Receiving s) end
  | VENC_StopRecvFrame => λ ret,
      if negb (ret =? 0) then Some s
      else match d_chan s with NoChan => None | _ => Some (set_chan Created s) end
  | VENC_DestroyChn => λ ret,
      if negb (ret =? 0) then Some s
      else match d_chan s with Created => Some (set_chan NoChan s) | _ => None end
  | Malloc VencThread => λ p,
      if p =? NULL then if e_threads_ok (d_env s) then None else Some s
      else if bool_decide (p ∈ (d_cells s).*1) then None
      else Some (set_cells ((p, false) :: d_cells s) s)
  | PthreadCreate VencThread p => λ rc,
      if negb (rc =? 0) then if e_threads_ok (d_env s) then None else Some s
      else Some (set_cells ((p, true) :: del_cell p (d_cells s)) s)
  | Free VencThread p => λ _, Some (set_cells (del_cell p (d_cells s)) s)
  | _ => λ _, Some s
  end.

#[export] Instance dsem : Sem videoE dstate :=
  {| enabled := @denabled; act := @dact |}.

(** The reader thread's handle: none, or one cell that holds a live thread, and
    then the channel it reads from exists. *)
Definition reader_ok (s : dstate) : Prop :=
  (d_vthread s = NULL ∧ d_cells s = []) ∨
  (d_vthread s ≠ NULL ∧ d_cells s = [(d_vthread s, true)] ∧ d_chan s ≠ NoChan).

(** The bit rate of every quality and mode is defined, and so is its triple. *)
Definition bitrate_ok (e : env) : Prop :=
  ∀ q w h, e_quality e q = true → e_width e w = true → e_height e h = true →
  ∃ b, calculate_bitrate q (s32 w) (s32 h) = Some b ∧ b * 3 < 2 ^ 31.

(** What the threads of the stream need of the environment: defined bit rates,
    that the encoder's reader thread can be created, and that
    [RK_MPI_MMZ_Fd2Handle] knows the descriptors the driver hands back. *)
Record devices_ok (e : env) : Prop := {
  ok_bitrate : bitrate_ok e;
  ok_reader : e_threads_ok e = true;
  ok_block : e_block e NULL = false
}.

(** ** Stepping *)

Lemma wp_skip {A X} (e : videoE X) (k : X → video A) Q (s : dstate) :
  denabled e s = true → (∀ x, dact e s x = Some s) →
  (∀ x, wp (k x) Q s) → wp (Act e k) Q s.
Proof. intros He Ha Hk. apply wp_act; [done|]. intros x s' H. simpl in H. rewrite Ha in H. by simplify_eq. Qed.

(** Unfold the monad's operations at the head of the program. *)
Ltac norm := cbn [call when mret prog_mret prog_bind].
Ltac skip := norm; apply wp_skip; [reflexivity|reflexivity|intros ?].
Ltac skip_fd := norm; apply wp_skip; [by apply bool_decide_eq_true_2|reflexivity|intros ?].
Ltac ret := norm; apply wp_ret.
Ltac ret_done := ret; repeat match goal with u : unit |- _ => destruct u end; auto.
Ltac enab := apply bool_decide_eq_true_2; simpl.
Ltac sub := apply wpr_bind; [exact _|].

Lemma d_notify st Q (s : dstate) : Q tt s → wp (notify_state st) Q s.
Proof. intros HQ. unfold notify_state. skip. destruct x; [skip; ret; by destruct x|ret; done]. Qed.

Lemma d_status Q (s : dstate) : (∀ z, Q z s) → wp video_get_streaming_status Q s.
Proof.
  intros HQ. unfold video_get_streaming_status, get_streaming_flag, get_streaming_stopped.
  skip. destruct x; [by ret|]. skip. destruct x; by ret.
Qed.

Lemma d_report Q (s : dstate) : Q tt s → wp video_send_format_report Q s.
Proof.
  intros HQ. unfold video_send_format_report. sub. apply d_status. intros z.
  skip. skip. by apply d_notify.
Qed.

Lemma d_set_stopped b Q (s : dstate) :
  Q tt (set_stopped b s) → wp (set_streaming_stopped b) Q s.
Proof.
  intros HQ. unfold set_streaming_stopped. norm. apply wp_act; [done|].
  intros [] s' [= <-]. by apply d_report.
Qed.

Lemma set_fds_id s : set_fds (d_fds s) s = s.
Proof. by destruct s. Qed.
Lemma set_blks_id s : set_blks (d_blks s) s = s.
Proof. by destruct s. Qed.

Lemma set_fds_set F G s : set_fds F (set_fds G s) = set_fds F s.
Proof. done. Qed.
Lemma set_blks_set B C s : set_blks B (set_blks C s) = set_blks B s.
Proof. done. Qed.
Create Rewrite HintDb dstate.
#[local] Hint Rewrite set_fds_set set_blks_set set_fds_id set_blks_id : dstate.

Lemma d_open {A} path (k : Z → video A) Q (s : dstate) :
  (∀ fd, fd < 0 → wp (k fd) Q s) →
  (∀ fd, 0 <= fd → fd ∉ d_fds s → wp (k fd) Q (set_fds ({[fd]} ∪ d_fds s) s)) →
  wp (Act (Open path) k) Q s.
Proof.
  intros Hf Hk. apply wp_act; [done|]. intros fd s' H. simpl in H.
  destruct (Z.ltb_spec fd 0); [simplify_eq; by apply Hf|].
  destruct (bool_decide (fd ∈ d_fds s)) eqn:E; [done|]. apply bool_decide_eq_false in E.
  simplify_eq. by apply Hk.
Qed.

(** Closing a descriptor that was opened over the set [F]. *)
Lemma d_close {A} fd F (k : unit → video A) Q (s : dstate) :
  fd ∉ F → d_fds s = {[fd]} ∪ F →
  wp (k tt) Q (set_fds F s) → wp (Act (Close fd) k) Q s.
Proof.
  intros Hn Hs Hk. apply wp_act; [enab; set_solver|].
  intros [] s' [= <-]. rewrite Hs.
  by replace (({[fd]} ∪ F) ∖ {[fd]}) with F by set_solver.
Qed.

Lemma d_sleep_mode Q (s : dstate) : Q tt s → wp ensure_sleep_mode_disabled Q s.
Proof.
  intros HQ. unfold ensure_sleep_mode_disabled. skip. destruct (negb x); [by ret|].
  norm. apply d_open; intros fd Hfd.
  - destruct (Z.ltb_spec fd 0); [by ret|lia].
  - intros Hn. destruct (Z.ltb_spec fd 0); [lia|].
    assert (Hin : fd ∈ d_fds (set_fds ({[fd]} ∪ d_fds s) s)) by set_solver.
    skip_fd. destruct (Ascii.eqb _ _); norm; [|skip_fd];
      (apply (d_close _ (d_fds s)); [done|done|]); autorewrite with dstate.
    + by ret.
    + skip. by ret_done.
Qed.

(** Early return: the descriptor is closed, the blocks stay. *)
Lemma d_fail {B} fd F (Q : Z + B → dstate → Prop) (s : dstate) :
  fd ∉ F → d_fds s = {[fd]} ∪ F → (∀ e, Q (inl e) (set_fds F s)) →
  wp (close_and_fail fd) Q s.
Proof. intros Hn Hs HQ. unfold close_and_fail. norm. apply (d_close _ F); [done|done|]. skip. by ret. Qed.

(** The blocks of [buffers] are distinct, not [NULL], and were not held before. *)
Definition fresh_blocks (buffers : list (Z * Z)) (B : gset Z) : Prop :=
  NoDup buffers.*1 ∧ ∀ b, b ∈ buffers.*1 → b ≠ NULL ∧ b ∉ B.

(** Querying: on success the blocks of the new buffers are held on top of [B];
    on failure the descriptor is closed and whatever was acquired is kept. *)
Lemma d_query fd F B n i buffers (Q : Z + list (Z * Z) → dstate → Prop) (s : dstate) :
  fd ∉ F → d_fds s = {[fd]} ∪ F →
  fresh_blocks buffers B → d_blks s = list_to_set buffers.*1 ∪ B →
  (∀ e C, d_blks s ⊆ C → Q (inl e) (set_fds F (set_blks C s))) →
  (∀ buffers', fresh_blocks buffers' B →
     Q (inr buffers') (set_blks (list_to_set buffers'.*1 ∪ B) s)) →
  wp (query_buffers fd n i buffers) Q s.
Proof.
  intros Hfd Hfds. revert i buffers s Hfds.
  induction n as [|n IH]; intros i buffers s Hfds Hfr HB Hf Hk; cbn [query_buffers].
  { ret. rewrite <- (set_blks_id s), HB. by apply Hk. }
  assert (Hin : fd ∈ d_fds s) by set_solver.
  assert (Hfail : wp (close_and_fail fd) Q s).
  { apply (d_fail _ F); [done..|]. intros e. rewrite <- (set_blks_id s). by apply Hf. }
  skip_fd. destruct x as [rc len]. destruct (rc =? -1); [done|]. skip.
  norm. apply wp_act; [done|]. intros blk s' H. simpl in H.
  destruct (Z.eqb_spec blk NULL) as [|Hnull]; [by injection H as <-|].
  destruct (bool_decide (blk ∈ d_blks s)) eqn:E; [done|]. apply bool_decide_eq_false in E.
  injection H as <-. set (s1 := set_blks _ s).
  assert (Hb1 : blk ∈ d_blks s1) by set_solver. skip_fd.
  destruct (x0 <? 0).
  { apply (d_fail _ F); [done..|]. intros e. apply Hf. set_solver. }
  apply IH; [done| | |intros e C HC|].
  - destruct Hfr as [Hnd Hall]. split.
    + rewrite fmap_app. apply NoDup_app. split_and!; [done| |apply NoDup_singleton].
      intros b Hb Hb'. apply list_elem_of_singleton in Hb'. subst b. rewrite HB in E. set_solver.
    + intros b. rewrite fmap_app, elem_of_app. simpl. rewrite list_elem_of_singleton.
      intros [Hb| ->]; [by apply Hall|]. split; [done|]. set_solver.
  - simpl. rewrite HB, fmap_app, list_to_set_app_L. simpl. set_solver.
  - unfold s1. rewrite set_blks_set. apply Hf. simpl in HC. set_solver.
  - intros buffers' Hfr'. unfold s1. rewrite set_blks_set. by apply Hk.
Qed.

Lemma d_queue fd F i buffers (Q : Z + unit → dstate → Prop) (s : dstate) :
  fd ∉ F → d_fds s = {[fd]} ∪ F →
  (∀ e, Q (inl e) (set_fds F s)) → Q (inr tt) s →
  wp (queue_buffers fd i buffers) Q s.
Proof.
  intros Hfd Hfds Hf Hk. revert i. induction buffers as [|[blk pfd] buffers IH]; intros i;
    cbn [queue_buffers]; [by ret|].
  assert (Hin : fd ∈ d_fds s) by set_solver. skip_fd.
  destruct (x <? 0); [by apply (d_fail _ F)|]. apply IH.
Qed.

Lemma d_release buffers B Q (s : dstate) :
  fresh_blocks buffers B → d_blks s = list_to_set buffers.*1 ∪ B →
  Q tt (set_blks B s) → wp (release_blocks buffers) Q s.
Proof.
  revert s. induction buffers as [|[blk pfd] buffers IH]; intros s [Hnd Hall] HB HQ; cbn [release_blocks].
  { ret. rewrite <- (set_blks_id s), HB. simpl. by rewrite union_empty_l_L. }
  simpl in *. apply NoDup_cons in Hnd as [Hni Hnd].
  destruct (Hall blk) as [Hnull HnB]; [by left|].
  destruct (Z.eqb_spec blk NULL); [done|]. norm.
  apply wp_act; [enab; set_solver|]. intros [] s' [= <-].
  apply IH; [split; [done|intros; apply Hall; by right]| |].
  - simpl. rewrite HB. set_solver.
  - by rewrite set_blks_set.
Qed.

(** Everything but the encoder channel and its reader is as it was. *)
Definition frame (s s' : dstate) : Prop :=
  d_fds s' = d_fds s ∧ d_blks s' = d_blks s ∧
  d_stopped s' = d_stopped s ∧ d_env s' = d_env s.

Lemma d_rd_vthread {A} (k : Z → video A) Q (s : dstate) :
  wp (k (d_vthread s)) Q s → wp (Act (Rd venc_read_thread) k) Q s.
Proof.
  intros Hk. apply wp_act; [done|]. intros p s' H. simpl in H.
  destruct (Z.eqb_spec p (d_vthread s)) as [->|]; [|done]. by simplify_eq.
Qed.

Lemma d_venc_start b mb w h fps Q (s : dstate) :
  reader_ok s → e_threads_ok (d_env s) = true →
  (∀ ret s', frame s s' → reader_ok s' → ret ≠ 0 → Q ret s') →
  (∀ s', frame s s' → reader_ok s' → d_chan s' = Receiving → Q 0 s') →
  wp (venc_start b mb w h fps) Q s.
Proof.
  intros Hr Hok Hf Hs. unfold venc_start. skip. norm. apply wp_act; [done|]. intros ret1 s1 H1. simpl in H1. destruct (Z.ltb_spec ret1 0).
  { simplify_eq. ret. apply Hf; [done|done|lia]. }
  destruct (d_chan s) eqn:Hc; simplify_eq.
  assert (Hv : d_vthread s = NULL ∧ d_cells s = []) by (destruct Hr as [|(_ & _ & ?)]; [done|congruence]).
  destruct Hv as [Hv Hcells]. norm. apply wp_act; [done|]. intros ret2 s2 H2. simpl in H2.
  destruct (Z.ltb_spec ret2 0).
  { simplify_eq. ret. apply Hf; [done|by left|lia]. }
  injection H2 as <-. skip.
  norm. apply wp_act; [done|]. intros p s3 H3. simpl in H3. rewrite Hok, Hcells in H3.
  destruct (Z.eqb_spec p NULL); [done|]. simpl in H3. injection H3 as <-.
  norm. apply wp_act; [done|]. intros _ s4 [= <-].
  norm. apply wp_act; [enab; set_solver|]. intros rc s5 H5. simpl in H5.
  destruct (Z.eqb_spec rc 0) as [->|]; simpl in H5; [|by rewrite Hok in H5].
  rewrite Z.eqb_refl in H5. simpl in H5. injection H5 as <-. ret. apply Hs; [done| |done].
  by right.
Qed.

(** Joining the reader, if there is one, leaves no handle and no cell. *)
Lemma d_join Q (s : dstate) :
  reader_ok s → Q tt (set_cells [] (set_vthread NULL s)) → wp join_venc_thread Q s.
Proof.
  intros Hr HQ. unfold join_venc_thread. norm. apply d_rd_vthread.
  destruct Hr as [[Hv Hcells]|(Hv & Hcells & _)].
  - rewrite Hv. norm. ret. destruct s. simpl in *. by subst.
  - destruct (Z.eqb_spec (d_vthread s) NULL); [done|]. norm.
    apply wp_act; [enab; rewrite Hcells; set_solver|]. intros [] s2 [= <-].
    norm. apply wp_act; [enab; rewrite Hcells; set_solver|]. intros [] s3 [= <-].
    norm. apply wp_act; [done|]. intros [] s4 [= <-]. rewrite Hcells. simpl.
    rewrite Z.eqb_refl. by ret.
Qed.

Lemma d_venc_stop Q (s : dstate) :
  reader_ok s → (∀ ret s', frame s s' → reader_ok s' → Q ret s') → wp venc_stop Q s.
Proof.
  intros Hr HQ. unfold venc_stop. skip. norm. apply wp_act; [done|].
  intros ret1 s1 H1. simpl in H1. unfold RK_SUCCESS. destruct (Z.eqb_spec ret1 0) as [->|]; simpl in H1; cycle 1.
  { injection H1 as <-. ret. by apply HQ. }
  assert (Hs1 : s1 = set_chan Created s) by (destruct (d_chan s); by simplify_eq). subst s1.
  cbn [Z.eqb negb]. sub. apply d_join.
  { destruct Hr as [?|(? & ? & ?)]; [by left|by right]. }
  norm. apply wp_act; [done|]. intros ret2 s2 H2. simpl in H2.
  destruct (Z.eqb_spec ret2 0) as [->|]; simpl in H2; injection H2 as <-;
    ret; (apply HQ; [done|by left]).
Qed.

Lemma d_get_us Q (s : dstate) : (∀ t, Q t s) → wp get_us Q s.
Proof. intros HQ. unfold get_us. skip. by ret. Qed.

Lemma d_send_frame f Q (s : dstate) : d_chan s = Receiving → Q tt s → wp (send_frame f) Q s.
Proof.
  intros Hc HQ. unfold send_frame.
  assert (He : denabled (VENC_SendFrame f) s = true) by (simpl; by rewrite Hc).
  norm. apply wp_skip; [done|done|intros rc]. destruct (negb _); [|by ret_done]. skip.
  norm. apply wp_skip; [done|done|intros rc']. by ret_done.
Qed.

(** While the channel receives, capturing leaves the state as it is. *)
Lemma d_capture fd w h num m Q (s : dstate) :
  fd ∈ d_fds s → d_chan s = Receiving → Q tt s →
  wp (loop m (capture_step fd w h) num) Q s.
Proof.
  intros Hin Hc HQ. apply (wpr_loop _ _ _ (λ _ s', s' = s)); [done| |done].
  intros n s' ->. unfold capture_step.
  skip. destruct (negb x); [by ret; intros ? <-|]. skip_fd. destruct (x0 =? 0).
  { sub. apply d_sleep_mode. by ret; intros ? <-. }
  destruct (x0 =? -1); [skip; destruct (x1 =? EINTR); ret; [done|by intros ? <-]|].
  skip_fd. destruct x1 as [[rc index] pfd]. destruct (rc <? 0); [by ret; intros ? <-|].
  norm. apply wp_act; [done|]. intros blk s1 H1. simpl in H1.
  destruct (blk =? NULL) eqn:Hb; [done|]. injection H1 as <-. sub. apply d_get_us. intros pts.
  sub. apply d_send_frame; [done|]. skip_fd. by ret.
Qed.

Lemma d_cleanup fd F B buffers Q (s : dstate) :
  fd ∉ F → d_fds s = {[fd]} ∪ F →
  fresh_blocks buffers B → d_blks s = list_to_set buffers.*1 ∪ B → reader_ok s →
  (∀ s', d_fds s' = F → d_blks s' = B → d_stopped s' = d_stopped s →
     d_env s' = d_env s → reader_ok s' → Q tt s') →
  wp (stream_cleanup fd buffers) Q s.
Proof.
  intros Hfd Hfds Hfr HB Hr HQ. unfold stream_cleanup.
  assert (Hin : fd ∈ d_fds s) by set_solver. skip_fd. skip_fd.
  sub. apply d_venc_stop; [done|]. intros ret1 s1 (H1 & H2 & H3 & H4) Hr1.
  sub. apply (d_release _ B); [done|congruence|].
  norm. apply (d_close _ F); [done|simpl; congruence|]. ret. apply HQ; try done.
Qed.

(** A session: either it returns early, with the descriptor closed but every
    block it acquired still held, or it ends with everything released. *)
Lemma d_session m fd F w h fps (Q : Z + unit → dstate → Prop) (s : dstate) :
  fd ∉ F → d_fds s = {[fd]} ∪ F → reader_ok s → e_threads_ok (d_env s) = true →
  (∀ e s', d_fds s' = F → d_blks s ⊆ d_blks s' → d_stopped s' = d_stopped s →
     reader_ok s' → Q (inl e) s') →
  (∀ s', d_fds s' = F → d_blks s' = d_blks s → d_stopped s' = d_stopped s →
     d_env s' = d_env s → reader_ok s' → Q (inr tt) s') →
  bitrate_ok (d_env s) → e_width (d_env s) w = true → e_height (d_env s) h = true →
  wp (stream_session m fd w h fps) Q s.
Proof.
  intros Hfd Hfds Hr Hok Hf Hs Hbr Hw Hh. unfold stream_session.
  assert (Hin : fd ∈ d_fds s) by set_solver.
  skip_fd. destruct (x <? 0); [apply (d_fail _ F); [done..|]; intros e; by apply Hf|].
  sub. apply (d_query _ F (d_blks s)); [done|done| |simpl; by rewrite union_empty_l_L| |].
  { split; [by constructor|]. intros b. by rewrite elem_of_nil. }
  { intros e C HC. ret. apply Hf; try done. }
  intros buffers Hfr. set (s1 := set_blks _ s).
  sub. apply (d_queue _ F); [done|done| |].
  { intros e. ret. apply Hf; try done. simpl. set_solver. }
  assert (Hin1 : fd ∈ d_fds s1) by done.
  skip_fd. destruct (x0 <? 0); [apply (d_fail _ F); [done..|]; intros e; apply Hf; try done; simpl; set_solver|].
  norm. apply wp_act; [done|]. intros q s2 H2. simpl in H2.
  destruct (e_quality (d_env s) q) eqn:Hq; [injection H2 as <-|done].
  destruct (Hbr q w h) as (b & -> & Hb); [done..|].
  destruct (Z.leb_spec (2 ^ 31) (b * 3)); [lia|].
  assert (Hclean : ∀ s', frame s1 s' → reader_ok s' →
    wp (stream_cleanup fd buffers;; mret (inr tt)) Q s').
  { intros s' (H1 & H2 & H3 & H4) Hr'. sub.
    apply (d_cleanup _ F (d_blks s)); [done|by rewrite H1|done|by rewrite H2|done|].
    intros s2 H1' H2' H3' H4' Hr2. ret. apply Hs; try congruence. by rewrite H3', H3. by rewrite H4', H4. }
  sub. apply d_venc_start; [done|done| |].
  - intros rc s' Hfr' Hr' Hne. unfold RK_SUCCESS. destruct (Z.eqb_spec rc 0); [done|].
    norm. by apply Hclean.
  - intros s' Hfr' Hr' Hc. cbn [when]. sub.
    apply d_capture; [destruct Hfr' as [-> _]; done|done|]. by apply Hclean.
Qed.

(** The invariant of the outer loop, relative to the state it starts in. *)
Definition outer (s s' : dstate) : Prop :=
  d_fds s' = d_fds s ∧ d_blks s' = d_blks s ∧ d_stopped s' = d_stopped s ∧
  d_env s' = d_env s ∧ reader_ok s'.

Lemma d_rd_width {A} (k : Z → video A) Q (s : dstate) :
  (∀ w, e_width (d_env s) w = true → wp (k w) Q s) → wp (Act (Rd detected_width) k) Q s.
Proof.
  intros Hk. apply wp_act; [done|]. intros w s' H. simpl in H.
  destruct (e_width _ w) eqn:E; simplify_eq. by apply Hk.
Qed.
Lemma d_rd_height {A} (k : Z → video A) Q (s : dstate) :
  (∀ h, e_height (d_env s) h = true → wp (k h) Q s) → wp (Act (Rd detected_height) k) Q s.
Proof.
  intros Hk. apply wp_act; [done|]. intros h s' H. simpl in H.
  destruct (e_height _ h) eqn:E; simplify_eq. by apply Hk.
Qed.

Lemma d_step m (Q : unit + option Z → dstate → Prop) (s : dstate) :
  reader_ok s → e_threads_ok (d_env s) = true → bitrate_ok (d_env s) →
  (∀ s', outer s s' → Q (inl tt) s') →
  (∀ s', outer s s' → Q (inr None) s') →
  (∀ e s', d_fds s' = d_fds s → d_blks s ⊆ d_blks s' → d_stopped s' = d_stopped s →
     reader_ok s' → Q (inr (Some e)) s') →
  wp (stream_step m tt) Q s.
Proof.
  intros Hr Hok Hbr Hgo Hend Hearly. unfold stream_step.
  skip. destruct (negb x); [ret; by apply Hend|].
  skip. destruct (negb x0); [skip; ret; by apply Hgo|].
  norm. apply d_open.
  { intros fd Hfd. destruct (Z.ltb_spec fd 0); [|lia]. skip. ret. by apply Hgo. }
  intros fd Hfd Hnew. destruct (Z.ltb_spec fd 0); [lia|]. set (s1 := set_fds _ s).
  norm. apply d_rd_width. intros w Hw. norm. apply d_rd_height. intros h Hh. skip.
  assert (Hin : fd ∈ d_fds s1) by set_solver. skip_fd. destruct (x2 <? 0).
  { skip. apply (d_close _ (d_fds s)); [done|done|]. ret. apply Hgo.
    unfold s1. by rewrite set_fds_set, set_fds_id. }
  sub. apply (d_session _ _ (d_fds s)); [done..| | |done|done|done].
  - intros e s' H1 H2 H3 H4. ret. by apply Hearly.
  - intros s' H1 H2 H3 H4 H5. ret. by apply Hgo.
Qed.

(** ** A concrete environment *)

Definition f32_half : float := SFdiv 24 128 (f32_of_Z 1) (f32_of_Z 2).
Definition f32_tenth : float := SFdiv 24 128 (f32_of_Z 1) (f32_of_Z 10).

(** The quality factors the settings page offers (and the default) and modes up to 1920x1200. *)
Definition hdmi_env (threads : bool) : env := Env threads
  (λ q, bool_decide (q ∈ [f32_of_Z 1; f32_half; f32_tenth]))
  (λ w, bool_decide (w ∈ [640; 720; 1280; 1920]))
  (λ h, bool_decide (h ∈ [480; 576; 720; 1080; 1200]))
  (λ blk, negb (blk =? NULL)).

(** ** Properties *)

(** C4: the capture thread gives back what it takes. Whatever the devices
    answer (but [RK_MPI_MMZ_Fd2Handle] knows every descriptor the driver hands back:
    the code asserts it), and whatever other threads write to the shared flags, the thread
    never uses or closes a descriptor it does not have open, never releases a
    memory block twice, never sends a frame to a channel that is not receiving
    and never joins a reader thread that does not exist, in any number of
    sessions. When it ends normally every descriptor and block is released and
    [streaming_stopped] is [true]; when it returns early the descriptors are
    closed but [streaming_stopped] stays [false]. *)
Theorem run_video_stream_resources (n m : nat) (s : dstate) :
  reader_ok s → e_threads_ok (d_env s) = true → bitrate_ok (d_env s) →
  wp (run_video_stream n m) (λ r s',
    d_fds s' = d_fds s ∧ reader_ok s' ∧
    ((d_stopped s' = true ∧ d_blks s' = d_blks s ∧ r = NULL) ∨
     (d_stopped s' = false ∧ d_blks s ⊆ d_blks s'))) s.
Proof.
  intros Hr Hok Hbr. unfold run_video_stream. sub. apply d_set_stopped. sub.
  apply (wpr_loop _ _ _ (λ _, outer (set_stopped false s))); [done| |done].
  intros [] s1 (H1 & H2 & H3 & H4 & H5). apply d_step; [done|by rewrite H4|by rewrite H4|..].
  - intros s2 (? & ? & ? & ? & ?). split_and!; try done; congruence.
  - intros s2 (? & ? & ? & ? & ?) ? <-. sub. apply d_set_stopped. ret. simpl in *.
    split; [congruence|]. split; [done|]. left. split_and!; try done; congruence.
  - intros e s2 ? Hsub ? ? ? <-. ret. simpl in *. split; [congruence|]. split; [done|].
    right. split; [congruence|]. by rewrite H2 in Hsub.
Qed.
Lemma hdmi_env_bitrate b : bitrate_ok (hdmi_env b).
Proof.
  intros q w h Hq Hw Hh. simpl in *. apply bool_decide_eq_true_1 in Hq, Hw, Hh.
  set_unfold in Hq. set_unfold in Hw. set_unfold in Hh.
  destruct_or?; subst; eexists; (split; [vm_compute; reflexivity|lia]).
Qed.
Lemma hdmi_env_ok : devices_ok (hdmi_env true).
Proof. split; [apply hdmi_env_bitrate|done..]. Qed.
Definition idle_device (threads : bool) : dstate :=
  DState ∅ ∅ NoChan NULL [] true (hdmi_env threads).
Lemma run_video_stream_resources_witness :
  reader_ok (idle_device true) ∧
  wp (run_video_stream 5 9) (λ _ s', d_fds s' = ∅) (idle_device true).
Proof.
  assert (Hr : reader_ok (idle_device true)) by (by left).
  split; [exact Hr|].
  eapply wpr_mono; [exact (run_video_stream_resources 5 9 _ Hr eq_refl (hdmi_env_bitrate true))|].
  simpl. tauto.
Defined.

(** An environment that answers every call successfully, but for the calls the
    argument answers. *)
Definition hdmi_answers {S} (special : ∀ X, videoE X → S → option X)
    (X : Type) (e : videoE X) (s : S) : X :=
  match special X e s with
  | Some x => x
  | None =>
      match e in videoE X return X with
      | Rd v =>
          match v in var T return T with
          | streaming_flag | detected_signal | sleep_mode_available
          | venc_running | streaming_stopped => true
          | should_exit | video_state_handler | video_handler => false
          | detected_width => 1920 | detected_height => 1080 | detected_fps => 60
          | quality_factor => f32_of_Z 1
          | state => VideoState true 1 None 1920 1080 (f64_of_Z 60)
          | streaming_thread | format_thread | venc_read_thread | codec_type | sub_dev_fd | memPool => 0
          end
      | Wr _ _ | WrLocked _ _ | MutexDestroy | Free _ _ | PthreadJoin _ _
      | Close _ | Shutdown _ | Write1 _ _ | Usleep _ | MB_DestroyPool _
      | MB_ReleaseMB _ | StateHandler _ | FrameHandler _ _
      | FreePack _ | EmitLog _ _ _ _ _
      | ThreadBegin _ | ThreadEnd _ => tt
      | RdLocked _ => true
      | Malloc _ | MallocPack => 4096
      | MB_GetMB _ _ => 1
      | Open _ => 3
      | Read1 _ => "0"%char
      | ClockGettime => (0, 0)
      | Errno => 22
      | QUERYBUF _ _ => (0, 4147200)
      | DQBUF _ => (0, 0, 10)
      | Select _ => 1
      | QUERY_DV_TIMINGS _ => (0, Timings 1920 1080 148500000 88 44 148 4 5 36)
      | DQEVENT _ => (0, V4L2_EVENT_SOURCE_CHANGE)
      | MB_Handle2VirAddr _ | MMZ_Fd2Handle _ => 1
      | VENC_GetStream => StreamEmpty
      | Access _ | S_FMT _ _ _ | REQBUFS _ _ | QBUF _ _ _ | STREAMON _
      | STREAMOFF _ | SUBSCRIBE_EVENT _ | SYS_Init | MB_CreatePool _ _
      | MB_Handle2Fd _ | VENC_CreateChn _ | VENC_StartRecvFrame _
      | VENC_StopRecvFrame | VENC_DestroyChn | VENC_SendFrame _
      | VENC_ReleaseStream | PthreadCreate _ _ => 0
      end
  end.

(** The same for the devices: fresh descriptors and blocks. *)
Definition device_answers (special : ∀ X, videoE X → option X) :
    ∀ X, videoE X → dstate → X :=
  hdmi_answers (λ X e s,
    match special X e with
    | Some x => Some x
    | None =>
        match e in videoE X return option X with
        | Rd v => match v in var T return option T with
                  | venc_read_thread => Some (d_vthread s) | _ => None end
        | MB_GetMB _ _ => Some (Z.of_nat (size (d_blks s)) + 1)
        | Open _ => Some (Z.of_nat (size (d_fds s)) + 3)
        | _ => None
        end
    end).


(** A failed [pthread_create] is fatal. When the encoder's reader thread
    cannot be created, [venc_read_thread] keeps pointing to the uninitialised
    cell, and the clean-up of the session joins it: undefined behaviour. *)
Theorem venc_start_failure_joins_garbage :
  ∃ special,
    run (device_answers special) (run_video_stream 2 2) (idle_device false)
    = Crashed "precondition".
Proof.
  exists (λ X e, match e in videoE X return option X with
                   | PthreadCreate VencThread _ => Some 11 | _ => None end).
  vm_compute. done.
Qed.
