(* ===== verification/VideoActs.v ===== *)
(** * Which actions the parts of the capture thread perform

    The reading of [streaming_flag] and the control of threads are what
    [VideoLife] looks at; everything else is [basic].  These lemmas say which
    functions of [Video] are basic, and that the capture thread does nothing but
    basic actions, reads of the flag and the control of the encoder's reader
    thread. *)
From S2P Require Import Prelude Effects VencConfig Video VideoDevice.

(** The pointer to the encoder's reader thread, and the calls on its cell. *)
Definition on_reader {X} (e : videoE X) : bool :=
  match e with
  | Rd venc_read_thread | Wr venc_read_thread _ | Malloc VencThread | Free VencThread _
  | PthreadCreate VencThread _ | PthreadJoin VencThread _ => true
  | _ => false
  end.

(** Neither a read of [streaming_flag] outside its mutex nor a control of
    threads. *)
Definition basic {X} (e : videoE X) : bool :=
  match e with
  | Rd venc_read_thread | Wr venc_read_thread _ | Malloc VencThread | Free VencThread _
  | PthreadCreate VencThread _ | PthreadJoin VencThread _
  | Rd streaming_flag | Wr streaming_thread _ | Wr should_exit _ | MutexDestroy
  | Malloc StreamThread | Free StreamThread _ | PthreadCreate StreamThread _
  | PthreadJoin StreamThread _ | ThreadBegin _ | ThreadEnd _ => false
  | _ => true
  end.
Lemma basic_off_reader {X} (e : videoE X) : basic e = true → on_reader e = false.
Proof. destruct e; try done; try (by destruct v); by destruct r. Qed.
Definition basicP (X : Type) (e : videoE X) : Prop := basic e = true.

(** The answers an environment gives. *)
Definition may_answer (ev : env) (X : Type) (e : videoE X) : X → Prop :=
  match e in videoE X return X → Prop with
  | Rd v =>
      match v in var T return T → Prop with
      | quality_factor => λ q, e_quality ev q = true
      | detected_width => λ w, e_width ev w = true
      | detected_height => λ h, e_height ev h = true
      | _ => λ _, True
      end
  | MMZ_Fd2Handle _ => λ blk, e_block ev blk = true
  | _ => λ _, True
  end.

Section basic.
Context (ev : env).
#[local] Abbreviation O := (only basicP (may_answer ev) False).

Ltac o := repeat first [progress cbn [call mret prog_mret prog_bind] | only_step
                       | split; [reflexivity|intros ? ?]].

Lemma basic_status : O video_get_streaming_status.
Proof. unfold video_get_streaming_status, get_streaming_flag, get_streaming_stopped. o. Qed.
Lemma basic_report : O video_send_format_report.
Proof. unfold video_send_format_report, notify_state. o; try apply basic_status; o. Qed.
Lemma basic_set_flag b : O (set_streaming_flag b).
Proof. unfold set_streaming_flag. o; apply basic_report. Qed.
Lemma basic_set_stopped b : O (set_streaming_stopped b).
Proof. unfold set_streaming_stopped. o; apply basic_report. Qed.
Lemma basic_sleep_mode : O ensure_sleep_mode_disabled.
Proof. unfold ensure_sleep_mode_disabled. o. Qed.
Lemma basic_query fd n i bs : O (query_buffers fd n i bs).
Proof.
  revert i bs. induction n as [|n IH]; intros i bs; cbn [query_buffers]; [done|].
  unfold close_and_fail. o; apply IH.
Qed.
Lemma basic_queue fd i bs : O (queue_buffers fd i bs).
Proof.
  revert i. induction bs as [|[b pfd] bs IH]; intros i; cbn [queue_buffers]; [done|].
  unfold close_and_fail. o; apply IH.
Qed.
Lemma basic_release bs : O (release_blocks bs).
Proof. induction bs as [|[b pfd] bs IH]; cbn [release_blocks]; [done|]. o; apply IH. Qed.
Lemma basic_wait n : O (wait_attempts n).
Proof.
  induction n as [|n IH]; cbn [wait_attempts]; unfold get_streaming_stopped; [done|]. o; apply IH.
Qed.

Lemma basic_init factor : O (video_init factor).
Proof. unfold video_init, detect_sleep_mode, open_sub_dev, buf_init. o; try apply basic_sleep_mode; o. Qed.

(** What an iteration of the inner loop does after reading the flag. *)
Lemma basic_capture fd w h num : e_block ev NULL = false →
  ∃ k, capture_step fd w h num = Act (Rd streaming_flag) k ∧ k false = Ret (inr tt) ∧ O (k true).
Proof.
  intros Hblk. eexists. split; [reflexivity|]. split; [reflexivity|]. cbn [negb prog_bind].
  unfold send_frame, get_us. o; try apply basic_sleep_mode; o.
  simpl in *. match goal with Hx : e_block ev ?x = true, Hn : (?x =? NULL) = true |- _ =>
    apply Z.eqb_eq in Hn; congruence end.
Qed.
End basic.

(** The whole capture thread. *)
Definition quietP (X : Type) (e : videoE X) : Prop :=
  basic e = true ∨ on_reader e = true ∨ match e with Rd streaming_flag => True | _ => False end.

Section quiet.
Context (ev : env) (Hok : devices_ok ev).
#[local] Abbreviation O := (only quietP (may_answer ev) True).

Lemma quiet_of_basic {A} (p : video A) : only basicP (may_answer ev) False p → O p.
Proof. apply only_mono; [by left|done]. Qed.

Create HintDb acts.
#[local] Hint Resolve quiet_of_basic : acts.
#[local] Hint Resolve basic_query basic_queue basic_release basic_set_stopped : acts.
Ltac o := repeat first [progress cbn [call mret prog_mret prog_bind] | solve [auto 3 with acts]
                       | only_step | split; [first [by left|by right; left|by right; right]|intros ? ?]].

Lemma quiet_venc_start b mb w h fps : O (venc_start b mb w h fps).
Proof. unfold venc_start. o. Qed.
Lemma quiet_cleanup fd bs : O (stream_cleanup fd bs).
Proof. unfold stream_cleanup, venc_stop, join_venc_thread. o. Qed.
Lemma quiet_capture m fd w h num : O (loop m (capture_step fd w h) num).
Proof.
  apply only_loop; [done|]. intros num'. destruct (basic_capture ev fd w h num' (ok_block _ Hok)) as (k & -> & H0 & H1).
  split; [by right; right|]. intros [] _; [by apply quiet_of_basic|by rewrite H0].
Qed.

#[local] Hint Resolve quiet_capture quiet_venc_start quiet_cleanup : acts.

Lemma quiet_session m fd w h fps :
  e_width ev w = true → e_height ev h = true → O (stream_session m fd w h fps).
Proof.
  intros Hw Hh. unfold stream_session, close_and_fail. o.
  all: match goal with Hq : may_answer _ _ (Rd quality_factor) ?q |- _ =>
         destruct (ok_bitrate _ Hok q w h Hq Hw Hh) as (b & Hb & ?) end.
  - simplify_eq. lia.
  - congruence.
Qed.
#[local] Hint Resolve quiet_session : acts.

Lemma quiet_stream n m : O (run_video_stream n m).
Proof. unfold run_video_stream, stream_step. o. Qed.
End quiet.
