(* ===== verification/VideoReader.v ===== *)
(** * The encoder's reader thread as a pthread object

    [venc_start] and [venc_stop] keep the reader thread in a cell they allocate,
    with the pointer in the global [venc_read_thread].  Here are the pointer, the
    cells and what may be done to them, on their own; [VideoLife] makes them a part
    of the stream's state.  The capture thread is shown to use them correctly
    whatever its other calls answer. *)
From S2P Require Import Prelude Effects Parallel VencConfig Video VideoDevice VideoActs.

(** ** State *)

(** What a [pthread_t] cell holds: nothing yet, a thread, or a thread that has
    been joined. *)
Inductive vcell := VEmpty | VThread | VJoined.
#[export] Instance vcell_eq_dec : EqDecision vcell.
Proof. solve_decision. Defined.

Record reader := Reader {
  r_thread : Z;                           (* venc_read_thread *)
  r_cells : list (Z * vcell)              (* the allocated cells *)
}.

Definition rcell (p : Z) (r : reader) : option vcell :=
  snd <$> List.find (λ c, c.1 =? p) (r_cells r).
Definition without (p : Z) (l : list (Z * vcell)) : list (Z * vcell) :=
  List.filter (λ c, negb (c.1 =? p)) l.
Definition set_cell (p : Z) (c : vcell) (r : reader) : reader :=
  Reader (r_thread r) ((p, c) :: without p (r_cells r)).

(** A cell is used while it is allocated, and joined while it holds a thread that
    was not joined. *)
Definition renabled {X} (e : videoE X) (r : reader) : bool :=
  match e with
  | PthreadCreate VencThread p | Free VencThread p => bool_decide (is_Some (rcell p r))
  | PthreadJoin VencThread p => bool_decide (rcell p r = Some VThread)
  | _ => true
  end.

(** [malloc] and [pthread_create] fail only where the environment says so. *)
Definition ract (ev : env) {X} (e : videoE X) (r : reader) : X → option reader :=
  match e in videoE X return X → option reader with
  | Rd v =>
      match v in var T return T → option reader with
      | venc_read_thread => λ p, if p =? r_thread r then Some r else None
      | _ => λ _, Some r
      end
  | Wr v x =>
      match v in var T return T → unit → option reader with
      | venc_read_thread => λ p _, Some (Reader p (r_cells r))
      | _ => λ _ _, Some r
      end x
  | Malloc VencThread => λ p,
      if p =? NULL then if e_threads_ok ev then None else Some r
      else match rcell p r with Some _ => None | None => Some (set_cell p VEmpty r) end
  | PthreadCreate VencThread p => λ rc,
      if negb (rc =? 0) then if e_threads_ok ev then None else Some r
      else Some (set_cell p VThread r)
  | PthreadJoin VencThread p => λ _, Some (set_cell p VJoined r)
  | Free VencThread p => λ _, Some (Reader (r_thread r) (without p (r_cells r)))
  | _ => λ _, Some r
  end.
Definition rsem (ev : env) : Sem videoE reader := {| enabled := @renabled; act := @ract ev |}.

(** Between two sessions: no thread, or one that was not joined. *)
Definition reader_idle (r : reader) : Prop :=
  r_thread r = NULL ∨ rcell (r_thread r) r = Some VThread.

Lemma rcell_set p c r : rcell p (set_cell p c r) = Some c.
Proof. unfold rcell, set_cell. simpl. by rewrite Z.eqb_refl. Qed.

(** ** Code that leaves the reader alone *)

Fixpoint readerless {A} (p : video A) : Prop :=
  match p with
  | Act e k => on_reader e = false ∧ ∀ x, readerless (k x)
  | _ => True
  end.
Lemma readerless_bind {A B} (p : video A) (f : A → video B) :
  readerless p → (∀ a, readerless (f a)) → readerless (prog_bind p f).
Proof. intros Hp Hf. induction p as [a|X e k IH|w]; simpl in *; [done| |done]. destruct Hp. auto. Qed.
Lemma readerless_loop {L B} n (body : L → video (L + B)) l :
  (∀ l, readerless (body l)) → readerless (loop n body l).
Proof.
  intros Hb. revert l. induction n as [|n IH]; intros l; [done|]. simpl.
  apply readerless_bind; [done|]. by intros [l'|b].
Qed.

Ltac rl_step :=
  match goal with
  | |- readerless (prog_bind _ _) => apply readerless_bind; [|intros ?]
  | |- readerless (Act _ _) => split; [reflexivity|intros ?]
  | |- readerless (call _) => split; [reflexivity|intros ?; exact I]
  | |- readerless (mret _) => exact I
  | |- readerless (Ret _) => exact I
  | |- readerless (Stop _) => exact I
  | |- readerless (loop _ _ _) => apply readerless_loop; intros ?
  | |- readerless (when ?b _) => destruct b; cbn [when]
  | |- readerless (match ?b with _ => _ end) => destruct b
  end.
Create HintDb readerless.
Ltac rl := repeat first [progress cbn [call mret prog_mret prog_bind] | solve [auto 2 with readerless] | rl_step].

Lemma rl_set_stopped b : readerless (set_streaming_stopped b).
Proof.
  unfold set_streaming_stopped, video_send_format_report, video_get_streaming_status,
    get_streaming_flag, get_streaming_stopped, notify_state. rl.
Qed.
Lemma rl_query fd n i bs : readerless (query_buffers fd n i bs).
Proof. revert i bs. induction n; intros i bs; cbn [query_buffers]; unfold close_and_fail; rl. Qed.
Lemma rl_queue fd i bs : readerless (queue_buffers fd i bs).
Proof. revert i. induction bs; intros i; cbn [queue_buffers]; unfold close_and_fail; rl. Qed.
Lemma rl_release bs : readerless (release_blocks bs).
Proof. induction bs; cbn [release_blocks]; rl. Qed.
Lemma rl_capture fd w h num : readerless (capture_step fd w h num).
Proof. unfold capture_step, ensure_sleep_mode_disabled, send_frame, get_us. rl. Qed.
#[export] Hint Resolve rl_set_stopped rl_query rl_queue rl_release rl_capture : readerless.

(** ** The capture thread's use of it *)

Section checks.
Context (ev : env) (Hev : e_threads_ok ev = true).
#[local] Instance sem : Sem videoE reader := rsem ev.
Implicit Types r : reader.

Lemma ract_other {X} (e : videoE X) r x : on_reader e = false → ract ev e r x = Some r.
Proof. destruct e; try done; try (by destruct v); by destruct r0. Qed.
Lemma renabled_other {X} (e : videoE X) r : on_reader e = false → renabled e r = true.
Proof. destruct e; try done; by destruct r0. Qed.

Lemma checks_readerless {A} (p : video A) (Q : A → reader → Prop) r :
  readerless p → (∀ a, Q a r) → checks p Q r.
Proof.
  intros Hp HQ. induction p as [a|X e k IH|w]; simpl in *; [done| |done]. destruct Hp as [He Hk].
  split; [by apply renabled_other|]. intros x r' Hx.
  change (ract ev e r x = Some r') in Hx. rewrite ract_other in Hx by done. simplify_eq. auto.
Qed.
Lemma checks_other {X A} (e : videoE X) (k : X → video A) (Q : A → reader → Prop) r :
  on_reader e = false → (∀ x, checks (k x) Q r) → checks (Act e k) Q r.
Proof.
  intros He Hk. split; [by apply renabled_other|]. intros x r' Hx.
  change (ract ev e r x = Some r') in Hx. rewrite ract_other in Hx by done. by simplify_eq.
Qed.
Lemma checks_rd {A} (k : Z → video A) (Q : A → reader → Prop) r :
  checks (k (r_thread r)) Q r → checks (Act (Rd venc_read_thread) k) Q r.
Proof.
  intros Hk. split; [done|]. intros p r' Hx. simpl in Hx.
  destruct (Z.eqb_spec p (r_thread r)) as [->|]; by simplify_eq.
Qed.

Ltac other := cbn [call mret prog_mret prog_bind]; apply checks_other; [done|intros ?].

Lemma checks_venc_start b mb w h fps (Q : Z → reader → Prop) r :
  reader_idle r → (∀ rc r', reader_idle r' → Q rc r') → checks (venc_start b mb w h fps) Q r.
Proof.
  intros Hr HQ. unfold venc_start. do 2 other. destruct (_ <? 0); [by apply HQ|].
  other. destruct (_ <? 0); [by apply HQ|]. other. cbn [prog_bind].
  split; [done|]. intros p r1 H1. simpl in H1. rewrite Hev in H1.
  destruct (Z.eqb_spec p NULL); [done|]. destruct (rcell p r); [done|]. injection H1 as <-.
  cbn [prog_bind]. split; [done|]. intros [] r2 H2. simpl in H2. injection H2 as <-. cbn [prog_bind].
  split. { apply bool_decide_eq_true_2. unfold rcell. simpl. rewrite Z.eqb_refl. by eexists. }
  intros rc r3 H3. simpl in H3. rewrite Hev in H3. destruct (negb (rc =? 0)); [done|].
  injection H3 as <-. apply HQ. right. apply (rcell_set p VThread (Reader p _)).
Qed.

Lemma checks_venc_stop (Q : Z → reader → Prop) r :
  reader_idle r → (∀ rc r', reader_idle r' → Q rc r') → checks venc_stop Q r.
Proof.
  intros Hr HQ. unfold venc_stop. do 2 other. destruct (negb _); [by apply HQ|].
  unfold join_venc_thread. cbn [call prog_bind]. apply checks_rd.
  assert (Hend : ∀ r', reader_idle r' →
    checks (ret ← call VENC_DestroyChn; if negb (ret =? RK_SUCCESS) then mret ret else mret RK_SUCCESS) Q r').
  { intros r' Hr'. other. case_match; by apply HQ. }
  destruct (Z.eqb_spec (r_thread r) NULL) as [|Hn]; [by apply Hend|]. destruct Hr as [|Hr]; [done|].
  cbn [negb when prog_bind]. split; [by apply bool_decide_eq_true_2|]. intros [] r1 H1. injection H1 as <-.
  cbn [prog_bind]. split. { apply bool_decide_eq_true_2. rewrite rcell_set. by eexists. }
  intros [] r2 H2. injection H2 as <-. cbn [prog_bind]. split; [done|].
  intros [] r3 H3. injection H3 as <-. apply Hend. by left.
Qed.

(** It never misuses the cell, and leaves it as it found it: idle. *)
Lemma checks_stream n m r :
  reader_idle r → checks (run_video_stream n m) (λ _, reader_idle) r.
Proof.
  intros Hr. unfold run_video_stream. apply checks_bind. apply checks_readerless; [auto with readerless|].
  intros _. apply checks_bind. eapply checks_mono.
  - apply (checks_loop reader_idle); [|done]. clear r Hr. intros [] r Hr. unfold stream_step.
    other. destruct (negb _); [done|]. other. destruct (negb _); [other; done|]. other.
    destruct (_ <? 0); [other; done|]. do 4 other. destruct (_ <? 0); [do 2 other; done|].
    apply checks_bind. apply (checks_mono _ (λ _, reader_idle)); [|by intros [e|u] r'].
    unfold stream_session, close_and_fail. other. destruct (_ <? 0); [do 2 other; done|].
    apply checks_bind. apply checks_readerless; [auto with readerless|]. intros [e|bufs]; [done|].
    apply checks_bind. apply checks_readerless; [auto with readerless|]. intros [e|u]; [done|].
    other. destruct (_ <? 0); [do 2 other; done|]. other.
    destruct (calculate_bitrate _ _ _); [|done]. destruct (_ <=? _); [done|].
    apply checks_bind. apply checks_venc_start; [done|]. clear r Hr. intros rc r Hr.
    apply checks_bind. apply checks_readerless.
    { destruct (_ =? _); cbn [when]; [|done]. apply readerless_loop. intros; apply rl_capture. }
    intros _. apply checks_bind. unfold stream_cleanup. do 2 other. apply checks_bind.
    apply checks_venc_stop; [done|]. clear r rc Hr. intros _ r Hr.
    apply checks_bind. apply checks_readerless; [auto with readerless|]. intros _. other. done.
  - cbn beta. intros [e|] r' Hr'; [done|]. apply checks_bind.
    apply checks_readerless; [auto with readerless|]. by intros _.
Qed.
End checks.

(** ** None of the calls on the reader waits *)

Lemma rcell_fresh r : ∃ p, p ≠ NULL ∧ rcell p r = None.
Proof.
  destruct (exist_fresh (list_to_set (NULL :: (r_cells r).*1) : gset Z)) as [p Hp].
  rewrite elem_of_list_to_set in Hp. apply not_elem_of_cons in Hp as [Hn Hp]. exists p. split; [done|].
  unfold rcell. destruct (List.find _ _) as [c|] eqn:E; [|done]. apply find_some in E as [Hin Hc].
  exfalso. apply Hp. apply Z.eqb_eq in Hc as <-. by apply list_elem_of_fmap_2, list_elem_of_In.
Qed.
Lemma ract_answered ev {X} (e : videoE X) r :
  on_reader e = true → ∃ x r', ract ev e r x = Some r'.
Proof.
  intros He. destruct e; try done; simpl.
  - destruct v; try done. exists (r_thread r). rewrite Z.eqb_refl. eauto.
  - destruct v; try done. exists tt. eauto.
  - destruct r0; try done. destruct (rcell_fresh r) as (p & Hp & Hc). exists p.
    destruct (Z.eqb_spec p NULL); [done|]. rewrite Hc. eauto.
  - destruct r0; try done. exists tt. eauto.
  - destruct r0; try done. exists 0. simpl. eauto.
  - destruct r0; try done. exists tt. eauto.
Qed.
