(* ===== verification/VideoLife.v ===== *)
(** * Starting, stopping and restarting the stream

    The thread structure of [Video]: the flags [streaming_flag] and
    [streaming_stopped], the pointer [streaming_thread] with the cell it points
    to, the capture threads that [pthread_create] starts, and the encoder's reader
    thread as they start and join it ([VideoReader]).  A controller
    thread and any number of capture threads run interleaved.  With one
    controller every interleaving is safe; the code has two (the Go side and the
    format-detection thread) and no lock between them, which is not. *)
From S2P Require Import Prelude Effects Parallel VencConfig Video VideoDevice VideoActs VideoReader.

(** ** State *)

Inductive tstatus := TCreated | TRunning | TEnded | TJoined.
#[export] Instance tstatus_eq_dec : EqDecision tstatus.
Proof. solve_decision. Defined.

Record lstate := LState {
  l_flag : bool;                          (* streaming_flag *)
  l_stopped : bool;                       (* streaming_stopped *)
  l_thread : Z;                           (* streaming_thread *)
  l_cells : list (Z * option nat);        (* pthread_t cells and their thread *)
  l_threads : list tstatus;               (* capture threads, by number *)
  l_mutex : bool;                         (* streaming_mutex not destroyed *)
  l_exit : bool;                          (* should_exit *)
  l_reader : reader;                      (* venc_read_thread and its cells *)
  l_env : env
}.

Definition with_flag b s := LState b (l_stopped s) (l_thread s) (l_cells s) (l_threads s) (l_mutex s) (l_exit s) (l_reader s) (l_env s).
Definition with_stopped b s := LState (l_flag s) b (l_thread s) (l_cells s) (l_threads s) (l_mutex s) (l_exit s) (l_reader s) (l_env s).
Definition with_thread p s := LState (l_flag s) (l_stopped s) p (l_cells s) (l_threads s) (l_mutex s) (l_exit s) (l_reader s) (l_env s).
Definition with_cells c s := LState (l_flag s) (l_stopped s) (l_thread s) c (l_threads s) (l_mutex s) (l_exit s) (l_reader s) (l_env s).
Definition with_threads t s := LState (l_flag s) (l_stopped s) (l_thread s) (l_cells s) t (l_mutex s) (l_exit s) (l_reader s) (l_env s).
Definition with_mutex b s := LState (l_flag s) (l_stopped s) (l_thread s) (l_cells s) (l_threads s) b (l_exit s) (l_reader s) (l_env s).
Definition with_exit b s := LState (l_flag s) (l_stopped s) (l_thread s) (l_cells s) (l_threads s) (l_mutex s) b (l_reader s) (l_env s).
Definition with_reader r s := LState (l_flag s) (l_stopped s) (l_thread s) (l_cells s) (l_threads s) (l_mutex s) (l_exit s) r (l_env s).

Definition cell (p : Z) (l : list (Z * option nat)) : option (option nat) :=
  snd <$> List.find (λ c, c.1 =? p) l.
Definition drop_cell (p : Z) (l : list (Z * option nat)) : list (Z * option nat) :=
  List.filter (λ c, negb (c.1 =? p)) l.

(** ** The pthread interface *)

Definition lenabled {X} (e : videoE X) (s : lstate) : bool :=
  if on_reader e then renabled e (l_reader s) else
  match e with
  | RdLocked streaming_flag | WrLocked streaming_flag _ => l_mutex s
  | MutexDestroy => l_mutex s
  | PthreadCreate StreamThread p | Free StreamThread p => bool_decide (is_Some (cell p (l_cells s)))
  | PthreadJoin StreamThread p =>
      match cell p (l_cells s) with
      | Some (Some t) => match l_threads s !! t with Some TJoined | None => false | _ => true end
      | _ => false
      end
  | ThreadEnd t => bool_decide (l_threads s !! t = Some TRunning)
  | _ => true
  end.

Definition read_flag (b : bool) (s : lstate) (x : bool) : option lstate :=
  if Bool.eqb x b then Some s else None.

(** The actions other than those on the reader thread. *)
Definition stream_act {X} (e : videoE X) (s : lstate) : X → option lstate :=
  match e in videoE X return X → option lstate with
  | Rd v =>
      match v in var T return T → option lstate with
      | streaming_flag => read_flag (l_flag s) s
      | streaming_stopped => read_flag (l_stopped s) s
      | should_exit => read_flag (l_exit s) s
      | streaming_thread => λ p, if p =? l_thread s then Some s else None
      | quality_factor => λ q, if e_quality (l_env s) q then Some s else None
      | detected_width => λ w, if e_width (l_env s) w then Some s else None
      | detected_height => λ h, if e_height (l_env s) h then Some s else None
      | _ => λ _, Some s
      end
  | Wr v x =>
      match v in var T return T → unit → option lstate with
      | streaming_thread => λ p _, Some (with_thread p s)
      | should_exit => λ b _, Some (with_exit b s)
      | _ => λ _ _, Some s
      end x
  | RdLocked v =>
      match v with
      | streaming_flag => read_flag (l_flag s) s
      | streaming_stopped => read_flag (l_stopped s) s
      | _ => λ _, Some s
      end
  | WrLocked v b => λ _,
      Some match v with
           | streaming_flag => with_flag b s
           | streaming_stopped => with_stopped b s
           | _ => s
           end
  | MutexDestroy => λ _, Some (with_mutex false s)
  | Malloc StreamThread => λ p,
      if p =? NULL then Some s
      else match cell p (l_cells s) with
           | Some _ => None
           | None => Some (with_cells ((p, None) :: l_cells s) s)
           end
  | Free StreamThread p => λ _, Some (with_cells (drop_cell p (l_cells s)) s)
  | PthreadCreate StreamThread p => λ rc,
      if negb (rc =? 0) then Some s
      else Some (with_threads (l_threads s ++ [TCreated])
             (with_cells ((p, Some (length (l_threads s))) :: drop_cell p (l_cells s)) s))
  | PthreadJoin StreamThread p => λ _,
      match cell p (l_cells s) with
      | Some (Some t) =>
          match l_threads s !! t with
          | Some TEnded => Some (with_threads (<[t := TJoined]> (l_threads s)) s)
          | _ => None
          end
      | _ => None
      end
  | ThreadBegin t => λ _,
      match l_threads s !! t with
      | Some TCreated => Some (with_threads (<[t := TRunning]> (l_threads s)) s)
      | _ => None
      end
  | ThreadEnd t => λ _,
      match l_threads s !! t with
      | Some TRunning => Some (with_threads (<[t := TEnded]> (l_threads s)) s)
      | _ => None
      end
  | MMZ_Fd2Handle _ => λ blk, if e_block (l_env s) blk then Some s else None
  | _ => λ _, Some s
  end.
Definition lact {X} (e : videoE X) (s : lstate) (x : X) : option lstate :=
  if on_reader e then (λ r, with_reader r s) <$> ract (l_env s) e (l_reader s) x
  else stream_act e s x.

#[export] Instance lsem : Sem videoE lstate := {| enabled := @lenabled; act := @lact |}.

(** ** The threads *)

(** The capture thread [t], as the kernel runs it once it is created. *)
Definition capture_thread (n m : nat) (t : nat) : video unit :=
  call (ThreadBegin t);;
  run_video_stream n m;;
  call (ThreadEnd t).

(** What the controlling thread calls, in any order. *)
Inductive op := OpStart | OpStop | OpRestart | OpQuality (factor : float) | OpStatus.
Definition perform (o : op) : video unit :=
  match o with
  | OpStart => video_start_streaming
  | OpStop => video_stop_streaming
  | OpRestart => video_restart_streaming
  | OpQuality factor => jetkvm_video_set_quality_factor factor;; mret tt
  | OpStatus => video_get_streaming_status;; mret tt
  end.
Fixpoint controller (ops : list op) : video unit :=
  match ops with
  | [] => video_shutdown
  | o :: ops' => perform o;; controller ops'
  end.

Definition lstart (e : env) : lstate := LState false true NULL [] [] true false (Reader NULL []) e.

Definition alive (st : tstatus) : bool :=
  match st with TCreated | TRunning => true | _ => false end.
Definition alive_threads (s : lstate) : nat := length (List.filter alive (l_threads s)).

(** ** What the threads assume of each other *)

(** Threads advance from created to running to ended. *)
Definition adv (a b : tstatus) : Prop :=
  match a, b with
  | TCreated, (TCreated | TRunning | TEnded) | TRunning, (TRunning | TEnded)
  | TEnded, TEnded | TJoined, TJoined => True
  | _, _ => False
  end.
#[export] Instance adv_preorder : PreOrder adv.
Proof. split; [by intros []|by intros [] [] []]. Qed.

(** At most one capture thread is alive, and while one is the mutex exists. *)
Definition one_alive (s : lstate) : Prop :=
  (alive_threads s <= 1)%nat ∧ ((0 < alive_threads s)%nat → l_mutex s = true).

(** What capture threads do to the rest of the state. *)
Definition thread_guar (s s' : lstate) : Prop :=
  l_thread s' = l_thread s ∧ l_cells s' = l_cells s ∧ l_mutex s' = l_mutex s ∧
  l_exit s' = l_exit s ∧ l_env s' = l_env s ∧ Forall2 adv (l_threads s) (l_threads s').
(** While no capture thread runs, the encoder's reader is idle. *)
Definition reader_inv (s : lstate) : Prop :=
  (∀ t, l_threads s !! t ≠ Some TRunning) → reader_idle (l_reader s).
(** What the capture thread [t] needs of the others: while it runs, the encoder's
    reader thread is its own. *)
Definition thread_rely (t : nat) (s s' : lstate) : Prop :=
  l_env s' = l_env s ∧
  (l_threads s !! t = Some TRunning →
   one_alive s → l_threads s' !! t = Some TRunning ∧ l_reader s' = l_reader s) ∧
  (one_alive s → one_alive s') ∧ (one_alive s → reader_inv s → reader_inv s').
(** A step of the capture thread [t]. *)
Definition thread_step (t : nat) (s s' : lstate) : Prop :=
  thread_guar s s' ∧ ∀ t', t' ≠ t → thread_rely t' s s'.

#[export] Instance thread_guar_preorder : PreOrder thread_guar.
Proof.
  split.
  - intros s. split_and!; try done.
  - intros a b c (?&?&?&?&?&?) (?&?&?&?&?&?). split_and!; try congruence. by etrans.
Qed.
#[export] Instance thread_rely_preorder t : PreOrder (thread_rely t).
Proof.
  split; [by intros s; split_and!|].
  intros a b c (?&Hab&?&?) (?&Hbc&?&?). split_and!; [congruence| |auto..].
  intros Ht Ho. destruct (Hab Ht Ho) as [Htb Hrb]. destruct Hbc as [? ?]; [auto..|].
  split; [done|congruence].
Qed.

Lemma alive_adv l l' : Forall2 adv l l' →
  (length (List.filter alive l') <= length (List.filter alive l))%nat.
Proof.
  induction 1 as [|a b l l' Hab H IH]; simpl; [done|].
  destruct a, b; simpl in *; try done; clear Hab H; lia.
Qed.

Lemma thread_guar_one_alive s s' : thread_guar s s' → one_alive s → one_alive s'.
Proof.
  intros (_ & _ & Hm & _ & _ & Hadv) [H1 H2]. apply alive_adv in Hadv.
  unfold one_alive, alive_threads in *. rewrite Hm. split; [lia|]. intros. apply H2. lia.
Qed.

(** No two threads are alive at once. *)
Lemma alive_lookup (l : list tstatus) t st : l !! t = Some st → alive st = true →
  (0 < length (List.filter alive l))%nat.
Proof.
  intros Ht Ha. revert t Ht. induction l as [|st' l IH]; intros [|t] Ht; simpl in *; simplify_eq.
  - rewrite Ha. simpl. lia.
  - specialize (IH _ Ht). destruct (alive st'); simpl; lia.
Qed.
Lemma only_alive t t' st st' s :
  one_alive s → l_threads s !! t = Some st → l_threads s !! t' = Some st' →
  alive st = true → alive st' = true → t = t'.
Proof.
  unfold one_alive, alive_threads. intros [Ho _] Ht Ht' Ha Ha'. revert t t' Ht Ht'.
  induction (l_threads s) as [|st0 l IH]; intros [|t] [|t'] Ht Ht'; simpl in *; simplify_eq; [done| | |].
  - rewrite Ha in Ho. simpl in Ho. pose proof (alive_lookup _ _ _ Ht' Ha'). lia.
  - rewrite Ha' in Ho. simpl in Ho. pose proof (alive_lookup _ _ _ Ht Ha). lia.
  - f_equal. apply IH; [destruct (alive st0); simpl in Ho; lia|done..].
Qed.
Lemma running_alive t s : l_threads s !! t = Some TRunning → (0 < alive_threads s)%nat.
Proof. intros Ht. by eapply alive_lookup. Qed.

(** ** A capture thread *)

Section capture.
Context (ev : env) (Hok : devices_ok ev).

(** What capture thread [t] knows while it runs. *)
Definition running (t : nat) (s : lstate) : Prop :=
  l_env s = ev ∧ l_threads s !! t = Some TRunning ∧ one_alive s.

Lemma running_stable t s s' :
  running t s → thread_rely t s s' → running t s' ∧ l_reader s' = l_reader s.
Proof.
  intros (? & Ht & Ho) (? & Hr & ? & _). destruct (Hr Ht Ho). split; [|done]. split_and!; [congruence|auto..].
Qed.

Lemma running_mutex t s : running t s → l_mutex s = true.
Proof. intros (_ & Ht & _ & Hm). apply Hm. by eapply running_alive. Qed.

(** Actions that are quiet only change the flags and the reader. *)
Lemma var_cases {T R} (v : var T) (a b c : R) (P : R → Prop) :
  P a → P b → P c →
  P (match v with streaming_flag => a | streaming_stopped => b | _ => c end).
Proof. by destruct v. Qed.

Lemma quiet_enabled X (e : videoE X) s :
  quietP X e → l_mutex s = true → renabled e (l_reader s) = true → enabled e s = true.
Proof.
  intros Hq Hm Hr. simpl. unfold lenabled. destruct (on_reader e) eqn:Hon; [done|].
  destruct Hq as [Hq|[Hq|Hq]]; [|congruence|]; destruct e; try done; try (by destruct r);
    apply (var_cases v _ _ _ (λ b, b = true)); done.
Qed.

Definition flags_reader (r : reader) (s s' : lstate) : Prop :=
  ∃ f b, s' = with_flag f (with_stopped b (with_reader r s)).
Lemma flags_reader_refl s : flags_reader (l_reader s) s s.
Proof. exists (l_flag s), (l_stopped s). by destruct s. Qed.

Lemma quiet_stream_act X (e : videoE X) s x s' :
  quietP X e → on_reader e = false → stream_act e s x = Some s' →
  may_answer (l_env s) X e x ∧ flags_reader (l_reader s) s s'.
Proof.
  intros Hq Hon Hact. pose proof (flags_reader_refl s) as Hr.
  assert (Hread : ∀ b (y : bool), read_flag b s y = Some s' → s' = s)
    by (unfold read_flag; intros; by case_match; simplify_eq).
  assert (Hq' : basic e = true ∨ match e with Rd streaming_flag => True | _ => False end)
    by (destruct Hq as [?|[?|?]]; [by left|congruence|by right]). clear Hq. rename Hq' into Hq.
  destruct e; simpl in *; try (split; [done|]); try (by simplify_eq);
    try (destruct r; simplify_eq; by destruct Hq).
  - destruct v; repeat case_match; simplify_eq; try done; by apply Hread in Hact as ->.
  - destruct v; simplify_eq; try done; by destruct Hq.
  - revert Hact. apply (var_cases v _ _ _ (λ r, r x = Some s' → _));
      [by intros ->%Hread..|by intros; simplify_eq].
  - simplify_eq. apply (var_cases v _ _ _ (λ r, flags_reader (l_reader s) s r)); [| |done].
    + exists x0, (l_stopped s). by destruct s.
    + exists (l_flag s), x0. by destruct s.
  - by destruct Hq.
  - case_match; by simplify_eq.
  - by destruct Hq.
  - by destruct Hq.
Qed.

Lemma quiet_act X (e : videoE X) s x s' :
  quietP X e → act e s x = Some s' →
  may_answer (l_env s) X e x ∧
  ∃ r, ract (l_env s) e (l_reader s) x = Some r ∧ flags_reader r s s'.
Proof.
  intros Hq Hact. simpl in Hact. unfold lact in Hact. destruct (on_reader e) eqn:Hon.
  - split; [destruct e; try done; by destruct v|].
    destruct (ract _ e _ x) as [r|]; [|done]. injection Hact as <-. exists r. split; [done|].
    exists (l_flag s), (l_stopped s). by destruct s.
  - destruct (quiet_stream_act _ _ _ _ _ Hq Hon Hact) as [Hm Hf]. split; [done|].
    exists (l_reader s). split; [by apply ract_other|done].
Qed.

Lemma adv_insert l t a b : l !! t = Some a → adv a b → Forall2 adv l (<[t := b]> l).
Proof.
  intros Ht Hab. rewrite <- (list_insert_id l t a) at 1 by done.
  apply Forall2_insert; [|done]. by apply Forall_Forall2_diag, Forall_true.
Qed.

Lemma flags_thread_guar r s s' : flags_reader r s s' → thread_guar s s'.
Proof. intros (f & b & ->). by split_and!. Qed.

(** A step of a thread that runs, or whose step starts or ends it. *)
Lemma running_step t s s' :
  thread_guar s s' → (∀ t', t' ≠ t → l_threads s' !! t' = l_threads s !! t') →
  (l_threads s !! t = Some TRunning ∨ l_reader s' = l_reader s) →
  (l_threads s' !! t = Some TRunning ∨ reader_idle (l_reader s')) →
  thread_step t s s'.
Proof.
  intros Hg Hth Hr Hi. split; [done|]. intros t' Hne. split_and!.
  - by destruct Hg as (_&_&_&_&?&_).
  - intros Ht' Ho. split; [by rewrite Hth|]. destruct Hr as [Ht|]; [|done].
    exfalso. apply Hne. by eapply only_alive.
  - by apply thread_guar_one_alive.
  - intros _ _ Hno. destruct Hi as [Ht|]; [by destruct (Hno t)|done].
Qed.

(** Quiet code that uses the reader correctly, in the capture thread. *)
Lemma capture_quiet {A} (p : video A) (Q : A → reader → Prop) t s :
  only quietP (may_answer ev) True p → checks (HG := rsem ev) p Q (l_reader s) → running t s →
  wpr (thread_rely t) (thread_step t) True p (λ a s', running t s' ∧ Q a (l_reader s')) s.
Proof.
  revert s. induction p as [a|X e k IH|[]]; intros s Hp Hc Hr; [| |done|done].
  - apply wpr_ret. intros s' Hs'. destruct (running_stable _ _ _ Hr Hs') as [Hr' E]. split; [done|].
    by rewrite E.
  - destruct Hp as [He Hk], Hc as [Hen Hck]. apply wpr_act. intros s1 Hs1.
    destruct (running_stable _ _ _ Hr Hs1) as [Hr1 E]. clear Hr Hs1. rewrite <- E in Hen, Hck. clear E s.
    split; [by apply quiet_enabled; [|eapply running_mutex|]|]. intros x s2 Hx.
    destruct (quiet_act _ _ _ _ _ He Hx) as (Hm & r & Hra & Hf).
    assert (Hev : l_env s1 = ev) by apply Hr1. rewrite Hev in Hm, Hra.
    pose proof (flags_thread_guar _ _ _ Hf) as Hg. destruct Hf as (f & b & ->).
    assert (Ht : l_threads s1 !! t = Some TRunning) by apply Hr1.
    split; [apply running_step; [done|done|by left|by left]|].
    apply IH; [by apply Hk|by apply Hck|]. split_and!; [done..|].
    eapply thread_guar_one_alive; [done|]. apply Hr1.
Qed.

(** A capture thread never crashes and respects the other threads, whatever
    they do. *)
Lemma capture_thread_safe n m t s :
  l_env s = ev → one_alive s → reader_inv s →
  wpr (thread_rely t) (thread_step t) True (capture_thread n m t) (λ _ _, True) s.
Proof.
  intros He Ho Hi. unfold capture_thread. cbn [call prog_bind].
  apply wpr_act. intros s1 (He1 & _ & Ho1 & Hi1). specialize (Hi1 Ho Hi). specialize (Ho1 Ho).
  split; [done|]. intros [] s2 Hact. cbn in Hact.
  destruct (l_threads s1 !! t) as [[]|] eqn:Ht; try done. injection Hact as <-.
  set (s2 := with_threads _ _).
  assert (Hg : thread_guar s1 s2) by (split_and!; try done; by eapply adv_insert).
  assert (Ht2 : l_threads s2 !! t = Some TRunning)
    by (apply list_lookup_insert_eq; by eapply lookup_lt_Some).
  split; [apply running_step; [done|by intros; apply list_lookup_insert_ne|by right|by left]|].
  assert (Hidle : reader_idle (l_reader s2)).
  { apply Hi1. intros t' Ht'. destruct (decide (t' = t)) as [->|Hne]; [congruence|].
    apply Hne. by eapply only_alive. }
  apply wpr_bind; [exact _|]. eapply wpr_mono.
  - apply (capture_quiet _ (λ _, reader_idle)); [by apply quiet_stream|apply checks_stream; [by apply ok_reader|done]|].
    split_and!; [simpl; congruence|done|by eapply thread_guar_one_alive].
  - intros r s' [Hr Hid]. apply wpr_act. intros s3 Hs3.
    destruct (running_stable _ _ _ Hr Hs3) as [Hr3 E]. rewrite <- E in Hid.
    assert (Ht3 : l_threads s3 !! t = Some TRunning) by apply Hr3.
    split; [by apply bool_decide_eq_true_2|].
    intros [] s4 H4. cbn in H4. rewrite Ht3 in H4. injection H4 as <-. split; [|by apply wpr_ret].
    apply running_step; [split_and!; try done; by eapply adv_insert
      |intros; by apply list_lookup_insert_ne|by right|by right].
Qed.
End capture.

(** ** The controller *)

Lemma cell_one p x : cell p [(p, x)] = Some x.
Proof. unfold cell. simpl. by rewrite Z.eqb_refl. Qed.
Lemma drop_cell_one p x : drop_cell p [(p, x)] = [].
Proof. unfold drop_cell. simpl. by rewrite Z.eqb_refl. Qed.

Section quiet_control.
Context (ev : env) (fo : Prop) (exiting : bool).

Definition ctl_guar (s s' : lstate) : Prop := ∀ t, thread_rely t s s'.
#[local] Abbreviation C := (wpr thread_guar ctl_guar fo).
Lemma ctl_guar_refl s : ctl_guar s s.
Proof. intros t. reflexivity. Qed.

(** The pointer, the cells, and what the threads were when last looked at. *)
Definition shape (p : Z) (cs : list (Z * option nat)) (ts : list tstatus) (s : lstate) : Prop :=
  l_env s = ev ∧ l_mutex s = true ∧ l_exit s = exiting ∧ l_thread s = p ∧ l_cells s = cs ∧
  Forall2 adv ts (l_threads s) ∧ (length (List.filter alive ts) <= 1)%nat.

Lemma shape_stable p cs ts s s' : shape p cs ts s → thread_guar s s' → shape p cs ts s'.
Proof.
  intros (?&?&?&?&?&?&?) (?&?&?&?&?&?). split_and!; try congruence. by etrans.
Qed.
Lemma shape_flags r p cs ts s s' : shape p cs ts s → flags_reader r s s' → shape p cs ts s'.
Proof. intros (?&?&?&?&?&?&?) (f&b&->). by split_and!. Qed.
Lemma shape_one_alive p cs ts s : shape p cs ts s → one_alive s.
Proof.
  intros (_&Hm&_&_&_&Hadv&Hle). apply alive_adv in Hadv. unfold one_alive, alive_threads.
  split; [lia|by rewrite Hm].
Qed.

Lemma ctl_guar_keeps s s' :
  l_env s' = l_env s → l_reader s' = l_reader s → one_alive s' →
  (∀ t, l_threads s !! t = Some TRunning → l_threads s' !! t = Some TRunning) → ctl_guar s s'.
Proof.
  intros He Hr Ho Ht t. split_and!; [done|by auto|done|]. intros _ Hi Hno. rewrite Hr. apply Hi.
  intros t' Ht'. by apply (Hno t'), Ht.
Qed.
Lemma ctl_guar_same s s' p cs ts :
  l_env s' = l_env s → l_reader s' = l_reader s → l_threads s' = l_threads s →
  shape p cs ts s' → ctl_guar s s'.
Proof.
  intros He Hr Ht Hs. apply ctl_guar_keeps; [done|done|by eapply shape_one_alive|by rewrite Ht].
Qed.

(** Quiet code keeps the shape. *)
Lemma ctl_quiet {A} (q : video A) p cs ts (Q : A → lstate → Prop) s :
  only basicP (may_answer ev) False q → shape p cs ts s →
  (∀ a s', shape p cs ts s' → Q a s') → C q Q s.
Proof.
  intros Hq Hs HQ. eapply wpr_mono; [|intros a s'; apply HQ].
  apply (only_wpr basicP (may_answer ev) fo _ _ (shape p cs ts));
    [by intros; eapply shape_stable| | |done];
    [|by revert Hq; apply only_mono].
  intros X e s' He Hs'. assert (Hon : on_reader e = false) by by apply basic_off_reader.
  split; [apply quiet_enabled; [by left|by apply Hs'|by apply renabled_other]|].
  intros x s'' Hx. simpl in Hx. unfold lact in Hx. rewrite Hon in Hx.
  destruct (quiet_stream_act _ _ _ _ _ (or_introl He) Hon Hx) as [Hm Hf].
  split; [by replace ev with (l_env s') by apply Hs'|].
  eapply shape_flags in Hs'; [|done]. split; [|done].
  destruct Hf as (f & b & ->). by eapply ctl_guar_same.
Qed.

Lemma ctl_basic {X A} (e : videoE X) (k : X → video A) p cs ts Q s :
  basic e = true → shape p cs ts s →
  (∀ x s', shape p cs ts s' → C (k x) Q s') → C (Act e k) Q s.
Proof.
  intros He Hs Hk. change (Act e k) with (prog_bind (call e) k). apply wpr_bind; [exact _|].
  eapply ctl_quiet; [by split|done|done].
Qed.

Lemma ctl_rd_thread {A} (k : Z → video A) p cs ts Q s :
  shape p cs ts s → (∀ s', shape p cs ts s' → C (k p) Q s') →
  C (Act (Rd streaming_thread) k) Q s.
Proof.
  intros Hs Hk. apply wpr_act. intros s1 H1. eapply shape_stable in Hs; [|done].
  split; [done|]. intros x s2 Hx. cbn in Hx. assert (Hp : l_thread s1 = p) by apply Hs.
  rewrite Hp in Hx. destruct (Z.eqb_spec x p) as [->|]; [injection Hx as <-|done].
  split; [apply ctl_guar_refl|]. by apply Hk.
Qed.

Lemma ctl_wr_thread {A} (k : unit → video A) p p' cs ts Q s :
  shape p cs ts s → (∀ s', shape p' cs ts s' → C (k tt) Q s') →
  C (Act (Wr streaming_thread p') k) Q s.
Proof.
  intros Hs Hk. apply wpr_act. intros s1 H1. eapply shape_stable in Hs; [|done].
  split; [done|]. intros [] s2 Hx. simpl in Hx. injection Hx as <-.
  assert (Hs' : shape p' cs ts (with_thread p' s1)) by (destruct Hs as (?&?&?&?&?&?&?); by split_and!).
  split; [by eapply ctl_guar_same|]. by apply Hk.
Qed.

Definition joined (k : nat) : list tstatus := replicate k TJoined.
Lemma joined_alive k : List.filter alive (joined k) = [].
Proof. by induction k. Qed.
Lemma adv_joined k ts : Forall2 adv (joined k) ts → ts = joined k.
Proof.
  revert ts. induction k as [|k IH]; intros ts H; simpl in *; inversion H as [|a b ? l Hab Hl]; [done|].
  subst. destruct b; try done. by rewrite (IH _ Hl).
Qed.

(** Freeing the one cell. *)
Lemma ctl_free {A} (k : unit → video A) p p' x ts Q s :
  shape p' [(p, x)] ts s → (∀ s', shape p' [] ts s' → C (k tt) Q s') →
  C (Act (Free StreamThread p) k) Q s.
Proof.
  intros Hs Hk. apply wpr_act. intros s1 H1. eapply shape_stable in Hs; [|done].
  assert (Hc : l_cells s1 = [(p, x)]) by apply Hs.
  split; [apply bool_decide_eq_true_2; by rewrite Hc, cell_one|].
  intros [] s2 H2. cbn in H2. rewrite Hc, drop_cell_one in H2. injection H2 as <-.
  assert (Hs' : shape p' [] ts (with_cells [] s1)) by (destruct Hs as (?&?&?&?&?&?&?); by split_and!).
  split; [by eapply ctl_guar_same|]. by apply Hk.
Qed.

(** Joining the thread of the one cell waits for its end. *)
Lemma ctl_join {A} (k : unit → video A) p j Q s :
  shape p [(p, Some j)] (joined j ++ [TCreated]) s →
  (∀ s', shape p [(p, Some j)] (joined (S j)) s' → C (k tt) Q s') →
  C (Act (PthreadJoin StreamThread p) k) Q s.
Proof.
  intros Hs Hk. apply wpr_act. intros s1 H1. eapply shape_stable in Hs; [|done].
  destruct Hs as (He & Hm & Hx & Ht & Hc & Hadv & _).
  apply Forall2_app_inv_l in Hadv as (l1 & l2 & ->%adv_joined & Hl2 & Hth).
  apply Forall2_cons_inv_l in Hl2 as (st & l & Hst & Hl & ->). apply Forall2_nil_inv_l in Hl as ->.
  assert (Hj : (joined j ++ [st]) !! j = Some st).
  { rewrite lookup_app_r by (unfold joined; by rewrite length_replicate).
    unfold joined. by rewrite length_replicate, Nat.sub_diag. }
  split; [cbn; rewrite Hc, cell_one, Hth, Hj; by destruct st|].
  intros [] s2 H2. cbn in H2. rewrite Hc, cell_one, Hth, Hj in H2.
  destruct st; try done. injection H2 as <-.
  assert (Hins : <[j:=TJoined]> (joined j ++ [TEnded]) = joined (S j)).
  { rewrite insert_app_r_alt by (unfold joined; by rewrite length_replicate).
    unfold joined. rewrite length_replicate, Nat.sub_diag. simpl. by rewrite <- replicate_cons_app. }
  rewrite Hins.
  assert (Hs' : shape p [(p, Some j)] (joined (S j)) (with_threads (joined (S j)) s1)).
  { split_and!; try done. rewrite joined_alive. simpl. lia. }
  split; [|by apply Hk]. apply ctl_guar_keeps; [done|done|by eapply shape_one_alive|].
  intros t. rewrite Hth. simpl. intros Hr. exfalso. destruct (decide (t = j)) as [->|]; [congruence|].
  destruct (decide (t < j)%nat).
  - rewrite lookup_app_l in Hr by (unfold joined; by rewrite length_replicate).
    unfold joined in Hr. rewrite lookup_replicate_2 in Hr by done. done.
  - rewrite lookup_ge_None_2 in Hr; [done|]. unfold joined. rewrite length_app, length_replicate. simpl. lia.
Qed.

End quiet_control.

Section control.
Context (ev : env) (fo : Prop).
#[local] Abbreviation C := (wpr thread_guar ctl_guar fo).
#[local] Abbreviation shape := (shape ev false).

Definition idle (s : lstate) : Prop := ∃ k, shape NULL [] (joined k) s.
Definition owns (s : lstate) : Prop :=
  ∃ p k, p ≠ NULL ∧ shape p [(p, Some k)] (joined k ++ [TCreated]) s.

Lemma ctl_start s : idle s ∨ owns s → C video_start_streaming (λ _ s', idle s' ∨ owns s') s.
Proof.
  intros Hs. unfold video_start_streaming. cbn [call prog_bind].
  destruct Hs as [[k Hs]|(p & k & Hp & Hs)]; (eapply ctl_rd_thread; [done|]); intros s1 Hs1; cycle 1.
  { destruct (Z.eqb_spec p NULL); [done|]. cbn [negb].
    eapply ctl_quiet; [|done|intros; right; by exists p, k].
    apply only_bind; [|done]. unfold get_streaming_stopped. by repeat split. }
  cbn [negb Z.eqb]. apply wpr_act. intros s2 H2. eapply shape_stable in Hs1; [|done].
  split; [done|]. intros p s3 H3. cbn in H3. destruct (Z.eqb_spec p NULL) as [|Hp].
  { injection H3 as <-. split; [apply ctl_guar_refl|]. apply wpr_ret. intros. left. exists k.
    by eapply shape_stable. }
  replace (l_cells s2) with (@nil (Z * option nat)) in H3 by (symmetry; apply Hs1).
  injection H3 as <-. assert (Hs2 : shape NULL [(p, None)] (joined k) (with_cells [(p, None)] s2))
    by (destruct Hs1 as (?&?&?&?&?&?&?); by split_and!).
  split; [by eapply ctl_guar_same|]. apply wpr_bind; [exact _|].
  eapply ctl_quiet; [apply basic_set_flag|done|]. intros _ s4 Hs4.
  apply wpr_act. intros s5 H5. eapply shape_stable in Hs4; [|done].
  destruct Hs4 as (He & Hm & Hx & Ht & Hc & Hadv & Hle) eqn:E. clear E.
  split; [apply bool_decide_eq_true_2; by rewrite Hc, cell_one|].
  intros rc s6 H6. cbn in H6. destruct (Z.eqb_spec rc 0) as [->|]; cbn in H6; cycle 1.
  - injection H6 as <-. split; [apply ctl_guar_refl|]. cbn [negb].
    apply wpr_bind; [exact _|]. eapply ctl_quiet; [apply basic_set_flag|done|]. intros _ s7 Hs7.
    eapply ctl_free; [done|]. intros s8 Hs8. apply wpr_ret. intros s9 H9. left. exists k.
    by eapply shape_stable.
  - apply adv_joined in Hadv as Hts. rewrite Hc, drop_cell_one, Hts in H6. unfold joined in H6.
    rewrite length_replicate in H6. injection H6 as <-. fold (joined k).
    set (s6 := with_threads _ _).
    assert (Hs6 : shape NULL [(p, Some k)] (joined k ++ [TCreated]) s6).
    { split_and!; try done. rewrite List.filter_app, joined_alive. simpl. lia. }
    split.
    + apply ctl_guar_keeps; [done|done|by eapply shape_one_alive|]. intros t.
      rewrite Hts. intros Hr. simpl. by apply lookup_app_l_Some.
    + eapply ctl_wr_thread; [done|]. intros s7 Hs7. apply wpr_ret. intros s8 H8.
      right. exists p, k. split; [done|]. by eapply shape_stable.
Qed.

Lemma ctl_stop s : idle s ∨ owns s → C video_stop_streaming (λ _ s', idle s') s.
Proof.
  intros Hs. unfold video_stop_streaming. cbn [call prog_bind].
  destruct Hs as [[k Hs]|(p & k & Hp & Hs)]; (eapply ctl_rd_thread; [done|]); intros s1 Hs1.
  { apply wpr_ret. intros. exists k. by eapply shape_stable. }
  destruct (Z.eqb_spec p NULL); [done|].
  apply wpr_bind; [exact _|]. eapply ctl_quiet; [apply basic_set_flag|done|]. intros _ s2 Hs2.
  apply wpr_bind; [exact _|]. eapply ctl_quiet; [apply basic_wait|done|]. intros _ s3 Hs3.
  cbn [prog_bind]. eapply ctl_rd_thread; [done|]. intros s4 Hs4. cbn [prog_bind].
  eapply ctl_join; [done|]. intros s5 Hs5. cbn [prog_bind].
  eapply ctl_rd_thread; [done|]. intros s6 Hs6. cbn [prog_bind].
  eapply ctl_free; [done|]. intros s7 Hs7. cbn [prog_bind].
  eapply ctl_wr_thread; [done|]. intros s8 Hs8. apply wpr_ret. intros s9 H9.
  exists (S k). by eapply shape_stable.
Qed.

(** Code that neither touches the pointer nor the threads keeps the choice. *)
Lemma ctl_either {A} (q : video A) (Q : A → lstate → Prop) s :
  only basicP (may_answer ev) False q → idle s ∨ owns s →
  (∀ a s', idle s' ∨ owns s' → Q a s') → C q Q s.
Proof.
  intros Hq [[k Hs]|(p & k & Hp & Hs)] HQ; (eapply ctl_quiet; [done|done|]); intros a s' Hs'; apply HQ.
  - left. by exists k.
  - right. by exists p, k.
Qed.

Lemma either_stable s s' : idle s ∨ owns s → thread_guar s s' → idle s' ∨ owns s'.
Proof.
  intros [[k Hs]|(p & k & Hp & Hs)] H; [left; exists k|right; exists p, k; split; [done|]];
    by eapply shape_stable.
Qed.

Lemma ctl_restart s : idle s ∨ owns s → C video_restart_streaming (λ _ s', idle s' ∨ owns s') s.
Proof.
  intros Hs. unfold video_restart_streaming. apply wpr_bind; [exact _|].
  eapply ctl_either; [apply basic_status|done|]. intros z s1 Hs1.
  destruct (z =? 0); [apply wpr_ret; by intros; eapply either_stable|].
  apply wpr_bind; [exact _|]. apply (wpr_mono _ _ _ _ (λ _ s', idle s' ∨ owns s')).
  - destruct (_ || _); cbn [when]; [|apply wpr_ret; by intros; eapply either_stable].
    eapply wpr_mono; [by apply ctl_stop|]. by left.
  - cbn beta. intros _ s2 Hs2. apply wpr_bind; [exact _|]. eapply ctl_either; [apply basic_wait|done|].
    intros [] s3 Hs3; cbn [negb]; [by apply ctl_start|].
    apply wpr_ret. by intros; eapply either_stable.
Qed.

Lemma ctl_perform o s : idle s ∨ owns s → C (perform o) (λ _ s', idle s' ∨ owns s') s.
Proof.
  intros Hs. destruct o as [| | |factor|]; cbn [perform].
  - by apply ctl_start.
  - eapply wpr_mono; [by apply ctl_stop|]. by left.
  - by apply ctl_restart.
  - unfold jetkvm_video_set_quality_factor. destruct (SFleb _ _).
    { apply wpr_ret. by intros; eapply either_stable. }
    apply wpr_bind; [exact _|]. apply wpr_bind; [exact _|]. unfold video_set_quality_factor.
    apply wpr_bind; [exact _|]. eapply ctl_either; [by repeat split|done|]. intros _ s1 Hs1.
    eapply wpr_mono; [by apply ctl_restart|]. cbn beta. intros _ s2 Hs2.
    apply wpr_ret. intros s3 H3. apply wpr_ret. intros s4 H4.
    eapply either_stable; [|done]. by eapply either_stable.
  - apply wpr_bind; [exact _|]. eapply ctl_either; [apply basic_status|done|]. intros z s1 Hs1.
    apply wpr_ret. by intros; eapply either_stable.
Qed.

(** Shutting down leaves no capture thread. *)
Definition no_stream (s : lstate) : Prop :=
  l_thread s = NULL ∧ l_cells s = [] ∧ ∃ k, l_threads s = joined k.
Lemma idle_no_stream s : idle s → no_stream s.
Proof. intros (k & _ & _ & _ & Hp & Hc & Hts%adv_joined & _). split_and!; [done..|by exists k]. Qed.
Lemma no_stream_stable s s' : no_stream s → thread_guar s s' → no_stream s'.
Proof.
  intros (Hp & Hc & k & Hk) (Hp' & Hc' & _ & _ & _ & Hadv). rewrite Hk in Hadv.
  split_and!; [congruence..|]. exists k. by apply adv_joined.
Qed.

Lemma ctl_shutdown s : idle s ∨ owns s → C video_shutdown (λ _ s', no_stream s') s.
Proof.
  intros Hs. unfold video_shutdown. cbn [call prog_bind].
  apply wpr_act. intros s1 H1. eapply either_stable in Hs; [|done]. split; [done|].
  intros x s2 H2. cbn in H2. replace (l_exit s1) with false in H2
    by (destruct Hs as [[? Hs]|(? & ? & _ & Hs)]; symmetry; apply Hs).
  destruct x; [done|]. injection H2 as <-. split; [apply ctl_guar_refl|].
  apply wpr_bind; [exact _|]. eapply wpr_mono; [by apply ctl_stop|]. clear s Hs H1 s1.
  cbn beta. intros _ s [k Hs]. apply wpr_act. intros s1 H1. eapply shape_stable in Hs; [|done].
  split; [done|]. intros [] s2 H2. cbn in H2. injection H2 as <-.
  assert (Hs2 : VideoLife.shape ev true NULL [] (joined k) (with_exit true s1))
    by (destruct Hs as (?&?&?&?&?&?&?); by split_and!).
  split; [by eapply ctl_guar_same|]. clear Hs H1.
  eapply ctl_basic; [done|exact Hs2|]. intros fd s4 Hs4.
  apply wpr_bind; [exact _|]. eapply ctl_quiet; [by destruct (0 <? fd); repeat split|done|].
  intros _ s5 Hs5. eapply ctl_basic; [done|exact Hs5|]. intros pool s6 Hs6.
  apply wpr_bind; [exact _|].
  eapply ctl_quiet; [by destruct (negb (pool =? MB_INVALID_POOLID)); repeat split|done|].
  intros _ s7 Hs7. apply wpr_act. intros s8 H8. eapply shape_stable in Hs7; [|done].
  destruct Hs7 as (_ & Hm & _ & Hp & Hc & Hts%adv_joined & _). split; [done|].
  intros [] s9 H9. injection H9 as <-. split.
  - apply ctl_guar_keeps; [done|done| |done]. unfold one_alive, alive_threads. simpl.
    rewrite Hts, joined_alive. simpl. split; [lia|lia].
  - apply wpr_ret. intros s10 H10. eapply no_stream_stable; [|done]. split_and!; [done..|by exists k].
Qed.

Lemma ctl_controller ops s : idle s ∨ owns s → C (controller ops) (λ _ s', no_stream s') s.
Proof.
  revert s. induction ops as [|o ops IH]; intros s Hs; cbn [controller]; [by apply ctl_shutdown|].
  apply wpr_bind; [exact _|]. eapply wpr_mono; [by apply ctl_perform|]. cbn beta. intros _ s1. apply IH.
Qed.
End control.

(** ** One controller and its capture threads *)

(** One controller, and as many capture threads as it starts. *)
Definition one_controller (n m k : nat) (ops : list op) : list (video unit) :=
  controller ops :: map (capture_thread n m) (seq 0 k).

Definition life_rely (i : nat) : lstate → lstate → Prop :=
  match i with O => thread_guar | S t => thread_rely t end.
Definition life_guar (i : nat) : lstate → lstate → Prop :=
  match i with O => ctl_guar | S t => thread_step t end.
Definition life_post (i : nat) (_ : unit) (s : lstate) : Prop :=
  match i with O => no_stream s | S _ => True end.
#[export] Instance life_rely_preorder i : PreOrder (life_rely i).
Proof. destruct i; apply _. Qed.
Lemma life_guar_rely i j s s' : i ≠ j → life_guar i s s' → life_rely j s s'.
Proof.
  destruct i as [|t], j as [|t']; intros Hne HG; simpl in *; [done|apply HG|apply HG|].
  apply HG. congruence.
Qed.
Lemma life_guar_inv i s s' :
  life_guar i s s' → one_alive s ∧ reader_inv s → one_alive s' ∧ reader_inv s'.
Proof.
  intros HG [Ho Hi]. assert (∃ t, thread_rely t s s') as (t & _ & _ & H1 & H2).
  { destruct i as [|t]; [exists 0%nat; apply HG|exists (S t); apply HG; lia]. }
  auto.
Qed.
(** The controller's loops are bounded; a capture thread may reach its bound. *)
Definition life_fuel (i : nat) : Prop := match i with O => False | S _ => True end.
Abbreviation life_ok := (pool_ok life_rely life_guar life_fuel life_post).

Lemma lstart_inv ev : one_alive (lstart ev) ∧ reader_inv (lstart ev).
Proof. split; [split; unfold alive_threads; simpl; lia|by left]. Qed.
Lemma one_controller_ok ev ops n m k :
  devices_ok ev → life_ok (one_controller n m k ops, lstart ev).
Proof.
  intros Hok [|t] p Hp; simpl in Hp.
  - injection Hp as <-. apply (ctl_controller ev False). left. exists 0%nat. by split_and!; simpl; try lia.
  - rewrite list_lookup_fmap in Hp. destruct (seq 0 k !! t) as [t'|] eqn:Ht; [|done].
    apply lookup_seq in Ht as [-> _]. injection Hp as <-. destruct (lstart_inv ev).
    by apply (capture_thread_safe ev).
Qed.
Lemma one_controller_steps ev ops n m k c :
  devices_ok ev → rtc pstep (one_controller n m k ops, lstart ev) c →
  life_ok c ∧ ¬ crashed c ∧ one_alive c.2 ∧ reader_inv c.2.
Proof.
  intros Hok Hs. pose proof (one_controller_ok ev ops n m k Hok) as H0.
  destruct (rg_sound life_rely life_guar life_fuel life_post _ life_guar_rely _ _ H0 Hs).
  split_and!; [done|done|..];
    apply (rg_invariant life_rely life_guar life_fuel life_post _ life_guar_rely
      (λ s, one_alive s ∧ reader_inv s) _ _ life_guar_inv H0 (lstart_inv ev) Hs).
Qed.

(** ** Properties *)

(** C1: with one controlling thread the stream's life cycle is safe. Whatever
    sequence of starts, stops, restarts, quality changes and status queries the
    controller makes before it shuts down, however its steps interleave with
    those of the capture threads it starts, and whatever the devices answer within
    [devices_ok] (the bit rates are defined, the encoder's reader thread can be
    created, [RK_MPI_MMZ_Fd2Handle] returns a block): no pthread object is misused
    (a cell is used and freed only while it is allocated, and joined only while it
    holds a thread that was not joined, both for the capture threads and for the
    encoder's reader threads they start; no destroyed mutex is locked), no assertion
    fails, and at most one capture thread is alive at any time. Whenever no capture
    thread runs, [venc_read_thread] is [NULL] or holds a thread that was not joined.
    When the controller has shut down, every capture thread is joined and its cell
    freed. *)
Theorem one_controller_safe (ev : env) (ops : list op) (n m k : nat) c :
  devices_ok ev →
  rtc pstep (one_controller n m k ops, lstart ev) c →
  ¬ crashed c ∧ (alive_threads c.2 <= 1)%nat ∧
  ((∀ t, l_threads c.2 !! t ≠ Some TRunning) → reader_idle (l_reader c.2)) ∧
  (c.1 !! 0%nat = Some (Ret tt) → no_stream c.2).
Proof.
  intros Hok Hsteps. destruct (one_controller_steps _ _ _ _ _ _ Hok Hsteps) as (Hlife & Hsafe & [Ho _] & Hi).
  split_and!; [done..|]. apply (pool_ok_done _ _ _ _ _ _ 0 Hlife).
Qed.

(** Answers that agree with the state. *)
Definition life_answers (special : ∀ X, videoE X → option X) : ∀ X, videoE X → lstate → X :=
  hdmi_answers (λ X e s,
    match special X e with
    | Some x => Some x
    | None =>
        match e in videoE X return option X with
        | Rd v => match v in var T return option T with
                  | streaming_flag => Some (l_flag s)
                  | streaming_stopped => Some (l_stopped s)
                  | streaming_thread => Some (l_thread s)
                  | venc_read_thread => Some (r_thread (l_reader s))
                  | _ => None end
        | RdLocked v => match v with
                        | streaming_flag => Some (l_flag s)
                        | streaming_stopped => Some (l_stopped s)
                        | _ => None end
        | Malloc StreamThread => Some (4096 + 8 * Z.of_nat (length (l_cells s)))
        | Malloc VencThread => Some (8192 + 8 * Z.of_nat (length (r_cells (l_reader s))))
        | _ => None
        end
    end).
Definition ordinary : ∀ X, videoE X → option X := λ _ _, None.

(** The capture thread has started the encoder's reader and captures. *)
Lemma one_controller_safe_witness :
  let c := psched (life_answers ordinary) (replicate 9 0%nat ++ replicate 60 1%nat)
             (one_controller 9 99 1 [OpStart; OpStop], lstart (hdmi_env true)) in
  l_threads c.2 = [TRunning] ∧ l_reader c.2 = Reader 8192 [(8192, VThread)] ∧
  ¬ crashed c ∧ (alive_threads c.2 <= 1)%nat.
Proof.
  intros c. split; [vm_compute; reflexivity|]. split; [vm_compute; reflexivity|].
  destruct (one_controller_safe (hdmi_env true) [OpStart; OpStop] 9 99 1 c
    hdmi_env_ok (psched_steps _ _ _)) as (H1 & H2 & _). by split.
Defined.

(** The Go side and the format-detection thread, which share no lock. *)
Definition two_controllers (n m k : nat) (go format : video unit) : list (video unit) :=
  go :: format :: map (capture_thread n m) (seq 0 k).

Definition sched (l : list (nat * nat)) : list nat := l ≫= λ '(i, n), replicate n i.

(** Thread [i] is about to join the capture thread of the cell at [NULL]. *)
Definition joins_null {X} (e : videoE X) : bool :=
  match e with PthreadJoin StreamThread p => p =? NULL | _ => false end.
Definition about_to_join_null (i : nat) (c : pool videoE lstate) : bool :=
  match (c.1 !! i : option (video unit)) with Some (Act e _) => joins_null e | _ => false end.

(** C38: two controllers are not safe. There is an interleaving in which the Go
    side stops the stream while the format-detection thread restarts it and the
    format-detection thread calls [pthread_join] through the pointer
    [streaming_thread] that is [NULL] by then; and one in which both start it and
    two capture threads are alive in two cells, only one of which
    [streaming_thread] points to. *)
Theorem two_controllers_race :
  (∃ n m k c, about_to_join_null 1 c = true ∧ crashed c ∧
    rtc pstep (two_controllers n m k
                 (video_start_streaming;; video_stop_streaming)
                 video_restart_streaming, lstart (hdmi_env true)) c) ∧
  (∃ n m k c, l_threads c.2 = [TRunning; TRunning] ∧
    length (l_cells c.2) = 2%nat ∧ l_thread c.2 ≠ NULL ∧
    rtc pstep (two_controllers n m k video_start_streaming video_start_streaming,
               lstart (hdmi_env true)) c).
Proof.
  split; exists 9%nat, 9%nat, 2%nat; eexists.
  - split; [|split; [|apply (psched_steps (life_answers ordinary)
      (sched [(0, 9); (2, 20); (1, 2); (0, 6); (2, 90); (0, 40); (1, 40)]%nat))]].
    + vm_compute. reflexivity.
    + apply (crashed_thread_crashed 1). vm_compute. reflexivity.
  - split_and!; [| | |apply (psched_steps (life_answers ordinary)
      (sched [(0, 1); (1, 1); (0, 9); (1, 9); (2, 20); (3, 20)]%nat))];
      vm_compute; [reflexivity|reflexivity|done].
Qed.

(** *** Restarting after an early return *)

Lemma l_rdlocked_flag {A} (k : bool → video A) Q (s : lstate) :
  l_mutex s = true → wp (k (l_flag s)) Q s → wp (Act (RdLocked streaming_flag) k) Q s.
Proof.
  intros Hm Hk. apply wp_act; [done|]. intros b s' H. cbn in H. unfold read_flag in H.
  destruct (Bool.eqb_spec b (l_flag s)) as [->|]; by simplify_eq.
Qed.
Lemma l_rdlocked_stopped {A} (k : bool → video A) Q (s : lstate) :
  wp (k (l_stopped s)) Q s → wp (Act (RdLocked streaming_stopped) k) Q s.
Proof.
  intros Hk. apply wp_act; [done|]. intros b s' H. cbn in H. unfold read_flag in H.
  destruct (Bool.eqb_spec b (l_stopped s)) as [->|]; by simplify_eq.
Qed.

Lemma l_status Q (s : lstate) :
  l_mutex s = true →
  Q (if l_flag s then 1 else if l_stopped s then 0 else 2) s →
  wp video_get_streaming_status Q s.
Proof.
  intros Hm HQ. unfold video_get_streaming_status, get_streaming_flag, get_streaming_stopped.
  cbn [call prog_bind]. apply l_rdlocked_flag; [done|]. destruct (l_flag s); [by apply wp_ret|].
  cbn [prog_bind]. apply l_rdlocked_stopped. destruct (l_stopped s); by apply wp_ret.
Qed.

Lemma l_wait n Q (s : lstate) :
  l_stopped s = false → Q false s → wp (wait_attempts n) Q s.
Proof.
  intros Hs HQ. induction n as [|n IH]; cbn [wait_attempts]; [by apply wp_ret|].
  unfold get_streaming_stopped. cbn [call prog_bind]. apply l_rdlocked_stopped. rewrite Hs.
  apply wp_act; [done|]. intros [] s' [= <-]. done.
Qed.

(** A sequence of operations. *)
Fixpoint performs (ops : list op) : video unit :=
  match ops with [] => mret tt | o :: ops' => perform o;; performs ops' end.
(** Not streaming, no capture thread, and [streaming_stopped] never set. *)
Definition wedged (s : lstate) : Prop :=
  l_flag s = false ∧ l_stopped s = false ∧ l_thread s = NULL ∧ l_mutex s = true.

Lemma l_rd_thread {A} (k : Z → video A) Q (s : lstate) :
  wp (k (l_thread s)) Q s → wp (Act (Rd streaming_thread) k) Q s.
Proof.
  intros Hk. apply wp_act; [done|]. intros p s' H. cbn in H.
  destruct (Z.eqb_spec p (l_thread s)) as [->|]; by simplify_eq.
Qed.
Lemma l_stop_idle Q (s : lstate) : l_thread s = NULL → Q tt s → wp video_stop_streaming Q s.
Proof.
  intros Ht HQ. unfold video_stop_streaming. cbn [call prog_bind]. apply l_rd_thread.
  rewrite Ht. by apply wp_ret.
Qed.
Lemma l_wedged_restart Q (s : lstate) : wedged s → Q tt s → wp video_restart_streaming Q s.
Proof.
  intros (Hf & Hst & Ht & Hm) HQ.
  unfold video_restart_streaming. wp_bind. apply l_status; [done|]. rewrite Hf, Hst.
  cbn [Z.eqb orb when]. wp_bind. apply l_stop_idle; [done|]. wp_bind.
  apply l_wait; [done|]. by apply wp_ret.
Qed.
Lemma l_wedged_perform o Q (s : lstate) :
  o ≠ OpStart → wedged s → Q tt s → wp (perform o) Q s.
Proof.
  intros Ho Hw HQ. pose proof Hw as (Hf & Hst & Ht & Hm). destruct o as [| | |factor|]; [done|..]; cbn [perform].
  - by apply l_stop_idle.
  - by apply l_wedged_restart.
  - unfold jetkvm_video_set_quality_factor. wp_bind. destruct (SFleb _ _); [by apply wp_ret, wp_ret|].
    wp_bind. unfold video_set_quality_factor. cbn [call prog_bind]. apply wp_act; [done|].
    intros [] s' [= <-]. apply l_wedged_restart; [done|]. by apply wp_ret, wp_ret.
  - wp_bind. apply l_status; [done|]. by apply wp_ret.
Qed.

(** C37: an early return of the capture thread disables restarting until the next
    start. There is a run in which a stream whose capture thread returned early (a
    refused [VIDIOC_QBUF]) is stopped and the state is [wedged]: the status is 2
    (stopping) although nothing runs. In a wedged state the status is 2, and
    stopping, [video_restart_streaming] and changing the quality factor, in any
    order and any number, leave the state as it is: a restart waits its three
    seconds and gives up. Only [video_start_streaming] leaves it, and then the flag
    is set again. *)
Theorem restart_wedged :
  let refuse_qbuf : ∀ X, videoE X → option X :=
    λ X e, match e in videoE X return option X with QBUF _ _ _ => Some (-1) | _ => None end in
  let stopped := psched (life_answers refuse_qbuf) (sched [(0, 9); (1, 60); (0, 300)]%nat)
           ([video_start_streaming;; video_stop_streaming; capture_thread 2 2 0],
            lstart (hdmi_env true)) in
  wedged stopped.2 ∧
  (∀ s, wedged s → wp video_get_streaming_status (λ r s', r = 2 ∧ s' = s) s) ∧
  (∀ s ops, wedged s → OpStart ∉ ops → wp (performs ops) (λ _ s', s' = s) s) ∧
  match run (life_answers ordinary) video_start_streaming stopped.2 with
  | Done _ s' => l_flag s' = true ∧ l_thread s' ≠ NULL
  | _ => False
  end.
Proof.
  intros refuse_qbuf stopped. split; [vm_compute; done|]. split_and!.
  - intros s (Hf & Hst & Ht & Hm). apply l_status; [done|]. by rewrite Hf, Hst.
  - intros s ops Hw Hn. induction ops as [|o ops IH]; cbn [performs]; [by apply wp_ret|].
    apply not_elem_of_cons in Hn as [Ho Hn]. wp_bind. apply l_wedged_perform; [congruence|done|]. auto.
  - vm_compute. done.
Qed.
Lemma restart_wedged_witness :
  let s := LState false false NULL [] [TJoined] true false (Reader NULL []) (hdmi_env true) in
  wp (performs [OpRestart; OpQuality (f32_of_Z 1); OpStatus; OpStop]) (λ _ s', s' = s) s.
Proof.
  intros s. destruct restart_wedged as (_ & _ & H & _). apply H; [split_and!; reflexivity|].
  intros Hin. repeat (apply elem_of_cons in Hin as [Hin|Hin]; [discriminate|]). by apply elem_of_nil in Hin.
Defined.
