(* ===== verification/VideoTerm.v ===== *)
(** * The loops of the video threads end

    Each thread of [Video] loops on a flag another thread owns:
    [streaming_flag], [venc_running] and [should_exit].  Here the state is how
    many more times each flag will be read as "go on"; every other call may answer
    anything at all.  The fuel of the model's loops is then enough: every thread
    function returns, or stops at one of the few operations on an answer that the
    code does not check. *)
From S2P Require Import Prelude Effects VencConfig Video.

Record tstate := TState {
  t_flag : nat;       (* reads of streaming_flag that are still true *)
  t_running : nat;    (* reads of venc_running that are still true *)
  t_stay : nat        (* reads of should_exit that are still false *)
}.

Definition spend (go : bool) (n : nat) (f : nat → tstate) : option tstate :=
  if go then match n with O => None | S n' => Some (f n') end else Some (f n).

(** Any answer, but for the three flags. *)
Definition tact {X} (e : videoE X) (s : tstate) : X → option tstate :=
  match e in videoE X return X → option tstate with
  | Rd v =>
      match v in var T return T → option tstate with
      | streaming_flag => λ b, spend b (t_flag s) (λ n, TState n (t_running s) (t_stay s))
      | venc_running => λ b, spend b (t_running s) (λ n, TState (t_flag s) n (t_stay s))
      | should_exit => λ b, spend (negb b) (t_stay s) (λ n, TState (t_flag s) (t_running s) n)
      | _ => λ _, Some s
      end
  | _ => λ _, Some s
  end.
#[export] Instance tsem : Sem videoE tstate := {| enabled := λ _ _ _, true; act := @tact |}.

(** No counter grows. *)
Definition spent (s s' : tstate) : Prop :=
  (t_flag s' <= t_flag s)%nat ∧ (t_running s' <= t_running s)%nat ∧ (t_stay s' <= t_stay s)%nat.
#[export] Instance spent_preorder : PreOrder spent.
Proof. split; [by intros s|]. intros a b c (?&?&?) (?&?&?). split_and!; lia. Qed.

Lemma tact_spent {X} (e : videoE X) s x s' : tact e s x = Some s' → spent s s'.
Proof.
  assert (Hs : ∀ b n f, spend b n f = Some s' → ∃ n', (n' <= n)%nat ∧ s' = f n').
  { intros [] [|n] f H; simpl in H; simplify_eq; eauto. }
  intros H. destruct e; simpl in H; try (by simplify_eq).
  destruct v; try (by simplify_eq); apply Hs in H as (n & Hn & ->); split_and!; simpl; lia.
Qed.

(** ** Ending *)

(** However the calls answer, [p] does not reach the bound of a loop, and stops
    only for one of the reasons [why]; when it returns, [Q] holds. *)
Fixpoint ends {A} (why : list string) (p : video A) (Q : A → tstate → Prop) (s : tstate) : Prop :=
  match p with
  | Ret a => Q a s
  | Act e k => ∀ x s', act e s x = Some s' → ends why (k x) Q s'
  | Stop NoFuel => False
  | Stop (Crash w) => w ∈ why
  end.

(** What [ends] says of a run. *)
Lemma ends_run {A} answer why (p : video A) Q s :
  ends why p Q s →
  match run answer p s with
  | Done a s' => Q a s'
  | Crashed w => w ∈ why
  | Blocked => True
  | OutOfFuel => False
  end.
Proof.
  revert s. induction p as [a|X e k IH|[w|]]; intros s H; simpl in *; [done| |done..].
  destruct (tact e s _) eqn:E; [|done]. by apply IH, H.
Qed.

Section rules.
Context (why : list string).
#[local] Abbreviation E := (ends why).

Lemma ends_mono {A} (p : video A) (Q Q' : A → tstate → Prop) s :
  E p Q s → (∀ a s, Q a s → Q' a s) → E p Q' s.
Proof.
  intros H HQ. revert s H. induction p as [a|X e k IH|[w|]]; intros s H; simpl in *; [by auto| |done..].
  eauto.
Qed.
Lemma ends_bind {A B} (p : video A) (f : A → video B) Q s :
  E p (λ a, E (f a) Q) s → E (prog_bind p f) Q s.
Proof.
  revert s. induction p as [a|X e k IH|[w|]]; intros s H; simpl in *; [done| |done..]. eauto.
Qed.
(** A loop each iteration of which uses up a read of its flag. *)
Lemma ends_loop {L B} (I : tstate → Prop) (m : tstate → nat) n (body : L → video (L + B))
    (Q : B → tstate → Prop) l s :
  (∀ l s, I s →
    E (body l) (λ r s', match r with inl _ => I s' ∧ (m s' < m s)%nat | inr b => Q b s' end) s) →
  I s → (m s < n)%nat → E (loop n body l) Q s.
Proof.
  intros Hbody. revert l s. induction n as [|n IH]; intros l s HI Hn; [lia|].
  simpl loop. apply ends_bind. eapply ends_mono; [by apply Hbody|].
  intros [l'|b] s' Hs'; [|done]. destruct Hs'. apply IH; [done|lia].
Qed.

(** Code without loops ends whatever the flags say. *)
Fixpoint finite {A} (p : video A) : Prop :=
  match p with
  | Ret _ => True
  | Act e k => ∀ x, finite (k x)
  | Stop NoFuel => False
  | Stop (Crash w) => w ∈ why
  end.
Lemma finite_bind {A B} (p : video A) (f : A → video B) :
  finite p → (∀ a, finite (f a)) → finite (prog_bind p f).
Proof. intros Hp Hf. induction p as [a|X e k IH|[w|]]; simpl in *; auto. Qed.
Lemma finite_ends {A} (p : video A) (Q : A → tstate → Prop) s :
  finite p → (∀ a s', spent s s' → Q a s') → E p Q s.
Proof.
  intros Hp. revert s. induction p as [a|X e k IH|[w|]]; intros s HQ; simpl in *; [by apply HQ| |done..].
  intros x s' Hx. apply IH; [done|]. intros a s'' Hs. apply HQ. etrans; [by eapply tact_spent|done].
Qed.
End rules.

(** ** The functions without loops of their own *)

Ltac listed := cbn [finite ends]; apply (bool_decide_unpack _); vm_compute; exact I.
Ltac fin_step :=
  match goal with
  | |- finite _ (prog_bind _ _) => apply finite_bind; [|intros ?]
  | |- finite _ (Act _ _) => intros ?
  | |- finite _ (call _) => intros ?; exact I
  | |- finite _ (mret _) => exact I
  | |- finite _ (Ret _) => exact I
  | |- finite _ (Stop (Crash _)) => listed
  | |- finite _ (when ?b _) => destruct b; cbn [when]
  | |- finite _ (match ?b with _ => _ end) => destruct b
  end.
Create HintDb finite.
Ltac fin := repeat first [progress cbn [call mret prog_mret prog_bind] | solve [auto 2 with finite] | fin_step].

(** The operations of the capture thread on unchecked answers: the assertion on the
    block of a captured buffer, and the bit rate as a signed integer. *)
Definition capture_stops : list string :=
  ["assert(blk != RK_NULL)"; "bit rate out of the range of int32_t"; "signed overflow"].
(** Of the reader thread: the packet it allocates. *)
Definition reader_stops : list string := ["stFrame.pstPack is NULL"].
(** Of the format thread: the conversion of the frame rate. *)
Definition format_stops : list string := ["frame rate out of the range of uint32_t"].

Section finite.
Context (why : list string).
#[local] Abbreviation F := (finite why).
Lemma fin_status : F video_get_streaming_status.
Proof. unfold video_get_streaming_status, get_streaming_flag, get_streaming_stopped. fin. Qed.
#[local] Hint Resolve fin_status : finite.
Lemma fin_report : F video_send_format_report.
Proof. unfold video_send_format_report, notify_state. fin. Qed.
#[local] Hint Resolve fin_report : finite.
Lemma fin_set_flag b : F (set_streaming_flag b).
Proof. unfold set_streaming_flag. fin. Qed.
Lemma fin_set_stopped b : F (set_streaming_stopped b).
Proof. unfold set_streaming_stopped. fin. Qed.
Lemma fin_query fd n i bs : F (query_buffers fd n i bs).
Proof. revert i bs. induction n; intros i bs; cbn [query_buffers]; unfold close_and_fail; fin. Qed.
Lemma fin_queue fd i bs : F (queue_buffers fd i bs).
Proof. revert i. induction bs; intros i; cbn [queue_buffers]; unfold close_and_fail; fin. Qed.
Lemma fin_release bs : F (release_blocks bs).
Proof. induction bs; cbn [release_blocks]; fin. Qed.
#[local] Hint Resolve fin_release : finite.
Lemma fin_cleanup fd bs : F (stream_cleanup fd bs).
Proof. unfold stream_cleanup, venc_stop, join_venc_thread. fin. Qed.
Lemma fin_venc_start b mb w h fps : F (venc_start b mb w h fps).
Proof. unfold venc_start. fin. Qed.
Lemma fin_wait n : F (wait_attempts n).
Proof. induction n; cbn [wait_attempts]; unfold get_streaming_stopped; fin. Qed.
#[local] Hint Resolve fin_set_flag fin_wait : finite.
Lemma fin_restart : F video_restart_streaming.
Proof.
  unfold video_restart_streaming, video_stop_streaming, video_start_streaming,
    wait_for_streaming_stopped, get_streaming_stopped. fin.
Qed.
End finite.
#[local] Hint Resolve fin_set_stopped fin_query fin_queue fin_cleanup fin_venc_start fin_restart : finite.

(** ** Reads of the flags *)

Section reads.
Context {A : Type} (why : list string).
Implicit Types (Q : A → tstate → Prop) (k : bool → video A).

Lemma t_read_flag k Q s :
  ends why (k false) Q s →
  (∀ n, t_flag s = S n → ends why (k true) Q (TState n (t_running s) (t_stay s))) →
  ends why (Act (Rd streaming_flag) k) Q s.
Proof.
  intros Hf Ht [] s' H; simpl in H.
  - destruct (t_flag s) eqn:E; [done|]. injection H as <-. by apply Ht.
  - injection H as <-. by destruct s.
Qed.
Lemma t_read_stay k Q s :
  ends why (k true) Q s →
  (∀ n, t_stay s = S n → ends why (k false) Q (TState (t_flag s) (t_running s) n)) →
  ends why (Act (Rd should_exit) k) Q s.
Proof.
  intros Hf Ht [] s' H; simpl in H.
  - injection H as <-. by destruct s.
  - destruct (t_stay s) eqn:E; [done|]. injection H as <-. by apply Ht.
Qed.
Lemma t_read_running k Q s :
  ends why (k false) Q s →
  (∀ n, t_running s = S n → ends why (k true) Q (TState (t_flag s) n (t_stay s))) →
  ends why (Act (Rd venc_running) k) Q s.
Proof.
  intros Hf Ht [] s' H; simpl in H.
  - destruct (t_running s) eqn:E; [done|]. injection H as <-. by apply Ht.
  - injection H as <-. by destruct s.
Qed.
End reads.

(** ** The capture thread *)

#[local] Abbreviation C := (ends capture_stops).
#[local] Abbreviation straight := (finite_ends capture_stops).

Lemma t_capture m fd w h num (Q : unit → tstate → Prop) s :
  (t_flag s < m)%nat → (∀ u s', spent s s' → Q u s') →
  C (loop m (capture_step fd w h) num) Q s.
Proof.
  intros Hm HQ. apply (ends_loop _ (spent s) t_flag); [|done|done].
  intros l s1 H1. unfold capture_step. cbn [call prog_bind]. apply t_read_flag; [by apply HQ|].
  intros n Hn. apply straight.
  { unfold ensure_sleep_mode_disabled, send_frame, get_us. fin. }
  intros r s2 (H2&H3&H4). simpl in H2, H3, H4. destruct H1 as (?&?&?).
  assert (spent s s2) by (split_and!; lia). destruct r as [l'|u]; [split; [done|lia]|by apply HQ].
Qed.

Lemma t_session m fd w h fps (Q : Z + unit → tstate → Prop) s :
  (t_flag s < m)%nat → (∀ r s', spent s s' → Q r s') →
  C (stream_session m fd w h fps) Q s.
Proof.
  intros Hm HQ. unfold stream_session, close_and_fail.
  apply ends_bind, straight; [fin|]. intros rc s1 H1.
  destruct (rc <? 0). { apply straight; [fin|]. intros. apply HQ. by etrans. }
  apply ends_bind, straight; [fin|]. intros [e|bufs] s2 H2; [apply HQ; by etrans|].
  apply ends_bind, straight; [fin|]. intros [e|u] s3 H3; [apply HQ; etrans; [done|]; by etrans|].
  apply ends_bind, straight; [fin|]. intros rc' s4 H4.
  assert (H : spent s s4) by (etrans; [done|]; etrans; [done|]; by etrans). clear H1 H2 H3 H4 s1 s2 s3.
  destruct (rc' <? 0). { apply straight; [fin|]. intros. apply HQ. by etrans. }
  intros q s5 [= <-]. cbn [prog_bind]. destruct (calculate_bitrate q (s32 w) (s32 h)) as [bitrate|]; [|listed].
  destruct (2 ^ 31 <=? bitrate * 3); [listed|].
  apply ends_bind, straight; [fin|]. intros ret s5 H5.
  assert (H' : spent s s5) by by etrans. clear H H5.
  assert (Hclean : ∀ s', spent s s' → C (prog_bind (stream_cleanup fd bufs) (λ _, mret (inr tt))) Q s').
  { intros s' Hs'. apply straight; [fin|]. intros. apply HQ. by etrans. }
  apply ends_bind. destruct (ret =? RK_SUCCESS); cbn [when]; [|by apply Hclean].
  apply t_capture; [destruct H' as (?&_); lia|]. intros u' s6 H6. apply Hclean. by etrans.
Qed.

Lemma t_stream_step m s (Q : unit + option Z → tstate → Prop) :
  (t_flag s <= m)%nat →
  (∀ r s', spent s s' → (t_flag s' < t_flag s)%nat → Q (inl r) s') →
  (∀ r s', spent s s' → Q (inr r) s') →
  C (stream_step m tt) Q s.
Proof.
  intros Hm Hgo Hend. unfold stream_step. cbn [call prog_bind]. apply t_read_flag.
  { by apply Hend. }
  intros n Hn. set (s1 := TState _ _ _).
  assert (HQ : ∀ r s', spent s1 s' → Q r s').
  { intros r s' (?&?&?). simpl in *. assert (spent s s') by (split_and!; lia).
    destruct r; [apply Hgo|apply Hend]; (done || lia). }
  clear Hgo Hend. cbn [negb].
  intros sg s2 [= <-]. destruct (negb sg); [apply straight; [fin|done]|].
  intros fd s2 [= <-]. destruct (fd <? 0); [apply straight; [fin|done]|].
  intros w s2 [= <-] h s3 [= <-] fps s4 [= <-] rc s5 [= <-].
  destruct (rc <? 0); [apply straight; [fin|done]|].
  apply ends_bind, t_session; [simpl; lia|]. intros [e|u] s' H'; by apply HQ.
Qed.

(** ** Properties *)

(** C9: the video threads end. Once the flag a thread loops on has been read as "go
    on" for the last time (after at most [b] such reads), the capture thread, the
    encoder's reader thread and the format-detection thread need no more than [b]
    iterations of each of their loops and one more, whatever every other call answers;
    so each returns, unless a call never answers ([VIDIOC_DQEVENT], in which the
    format thread waits for the next event, may wait for ever) or it stops at an
    answer the code does not check: the capture thread at the assertion that a
    captured buffer has a block or where the bit rate overflows, the reader where its
    packet could not be allocated, the format thread where the frame rate does not fit
    its integer. *)
Theorem video_threads_terminate (b n m : nat) :
  (b < n)%nat → (b < m)%nat →
  let s := TState b b b in
  ends capture_stops (run_video_stream n m) (λ _ _, True) s ∧
  ends reader_stops (venc_read_stream n) (λ r _, r = NULL) s ∧
  ends format_stops (run_detect_format n) (λ r _, r = NULL) s.
Proof.
  intros Hn Hm s. split; [|split].
  - unfold run_video_stream. apply ends_bind, straight; [fin|]. intros _ s1 H1. apply ends_bind.
    apply (ends_loop _ (spent s) t_flag); [|done|destruct H1 as (?&_); simpl in *; lia].
    intros [] s2 H2. apply t_stream_step; [destruct H2 as (?&_); simpl in *; lia|..].
    + intros [] s3 H3 Hlt. split; [by etrans|done].
    + intros [e|] s3 H3; [done|]. apply straight; [fin|done].
  - unfold venc_read_stream. intros pack s1 [= <-]. cbn [prog_bind]. apply ends_bind.
    apply (ends_loop _ (spent s) t_running); [|done|simpl; lia].
    intros [] s1 H1. unfold venc_read_step. cbn [call prog_bind]. apply t_read_running; [by intros [] s2|].
    intros k Hk. apply finite_ends.
    { unfold get_us, video_send_frame. fin. }
    intros r s2 (?&?&?). simpl in *. destruct H1 as (?&?&?).
    destruct r as [[]|[]]; [split; [split_and!; lia|simpl in *; lia]|by intros [] s3].
  - unfold run_detect_format. intros fd s1 [= <-] rc s2 [= <-]. cbn [prog_bind].
    assert (Hend : ∀ s', ends format_stops (fd' ← call (Rd sub_dev_fd); call (Close fd');; mret NULL)
      (λ r _, r = NULL) s') by (intros s'; by intros fd' s3 [= <-] [] s4 [= <-]).
    apply ends_bind. destruct (negb _); cbn [when]; [|apply Hend].
    apply (ends_loop _ (spent s) t_stay); [|done|simpl; lia].
    intros [] s3 H3. unfold detect_step. cbn [call prog_bind]. apply t_read_stay; [apply Hend|].
    intros j Hj. apply finite_ends.
    { unfold format_detected, video_report_format, notify_state, wait_event. fin. all: apply fin_status. }
    intros r s4 (?&?&?). simpl in *. destruct H3 as (?&?&?).
    destruct r as [[]|[]]; [split; [split_and!; lia|simpl in *; lia]|apply Hend].
Qed.
Lemma video_threads_terminate_witness :
  (3 < 4)%nat ∧ ends capture_stops (run_video_stream 4 4) (λ _ _, True) (TState 3 3 3).
Proof. split; [lia|]. apply (video_threads_terminate 3 4 4); lia. Defined.
