(* ===== verification/VideoLive.v ===== *)
(** * The stream's threads never deadlock

    [VideoLife] shows that one controller and its capture threads do nothing
    undefined.  Here: until the controller has shut down, some thread can take a
    step, in every reachable configuration.  The only calls that wait are
    [pthread_join] and a thread's start, so the proof follows each capture
    thread through its life (not created, running, ended) and bounds the number
    of threads that are created. *)
From S2P Require Import Prelude Effects VencConfig Video VideoDevice VideoActs VideoReader VideoLife.

(** ** Fuel: a program that cannot reach the bound of a loop in fewer than [j] steps *)

Fixpoint lasts {A} (j : nat) (p : video A) : Prop :=
  match p with
  | Ret _ => True
  | Act e k => ∀ x, lasts (pred j) (k x)
  | Stop NoFuel => j = 0%nat
  | Stop (Crash _) => True
  end.

Lemma lasts_mono {A} (p : video A) j j' : (j' <= j)%nat → lasts j p → lasts j' p.
Proof.
  revert j j'. induction p as [a|X e k IH|[]]; simpl; intros j j' Hj H; [done| |done|lia].
  intros x. apply (IH x (pred j)); [lia|done].
Qed.
Lemma lasts_bind {A B} (p : video A) (f : A → video B) j :
  lasts j p → (∀ a, lasts j (f a)) → lasts j (prog_bind p f).
Proof.
  revert j. induction p as [a|X e k IH|w]; simpl; intros j Hp Hf; [done| |done].
  intros x. apply IH; [done|]. intros a. by apply (lasts_mono _ j); [lia|].
Qed.
(** Each iteration takes a step. *)
Lemma lasts_loop {L B} n m (body : L → video (L + B)) l j :
  (∀ l j, (j <= m)%nat → lasts j (body l)) →
  (∀ l, match body l with Act _ _ => True | _ => False end) →
  (j <= n)%nat → (j <= m)%nat → lasts j (loop n body l).
Proof.
  intros Hb Ha. revert j l. induction n as [|n IH]; intros j l Hn Hm; [simpl; lia|].
  simpl loop. specialize (Hb l j Hm). specialize (Ha l). destruct (body l) as [|X e k|]; [done| |done].
  intros x. apply lasts_bind; [apply Hb|]. intros [l'|b]; [|done]. apply IH; lia.
Qed.

Ltac lasts_step :=
  match goal with
  | |- lasts _ (prog_bind _ _) => apply lasts_bind; [|intros ?]
  | |- lasts _ (Act _ _) => intros ?; try (eapply lasts_mono; [apply Nat.le_pred_l|])
  | |- lasts _ (call _) => intros ?; exact I
  | |- lasts _ (mret _) => exact I
  | |- lasts _ (Ret _) => exact I
  | |- lasts _ (Stop (Crash _)) => exact I
  | |- lasts _ (when ?b _) => destruct b; cbn [when]
  | |- lasts _ (let '(_, _) := ?x in _) => destruct x
  | |- lasts _ (match ?b with _ => _ end) => destruct b
  end.
Create HintDb lasts.
Ltac la := repeat first [progress cbn [call mret prog_mret prog_bind] | solve [auto 2 with lasts] | lasts_step].

Lemma lasts_report j : lasts j video_send_format_report.
Proof. unfold video_send_format_report, video_get_streaming_status, get_streaming_flag,
  get_streaming_stopped, notify_state. la. Qed.
#[local] Hint Resolve lasts_report : lasts.
Lemma lasts_set_stopped j b : lasts j (set_streaming_stopped b).
Proof. unfold set_streaming_stopped. la. Qed.
Lemma lasts_sleep_mode j : lasts j ensure_sleep_mode_disabled.
Proof. unfold ensure_sleep_mode_disabled. la. Qed.
Lemma lasts_query j fd n i bs : lasts j (query_buffers fd n i bs).
Proof. revert i bs. induction n; intros i bs; cbn [query_buffers]; unfold close_and_fail; la. Qed.
Lemma lasts_queue j fd i bs : lasts j (queue_buffers fd i bs).
Proof. revert i. induction bs; intros i; cbn [queue_buffers]; unfold close_and_fail; la. Qed.
Lemma lasts_release j bs : lasts j (release_blocks bs).
Proof. induction bs; cbn [release_blocks]; la. Qed.
#[local] Hint Resolve lasts_set_stopped lasts_sleep_mode lasts_query lasts_queue lasts_release : lasts.
Lemma lasts_venc j b mb w h fps : lasts j (venc_start b mb w h fps).
Proof. unfold venc_start. la. Qed.
Lemma lasts_cleanup j fd bs : lasts j (stream_cleanup fd bs).
Proof. unfold stream_cleanup, venc_stop, join_venc_thread. la. Qed.
Lemma lasts_capture j fd w h num : lasts j (capture_step fd w h num).
Proof. unfold capture_step, send_frame, get_us. la. Qed.
#[local] Hint Resolve lasts_venc lasts_cleanup lasts_capture : lasts.
Lemma lasts_session j m fd w h fps : (j <= m)%nat → lasts j (stream_session m fd w h fps).
Proof.
  intros Hj. unfold stream_session, close_and_fail. la.
  apply (lasts_loop m m); [intros; apply lasts_capture|done|done|done].
Qed.
Lemma lasts_stream n m j : (j <= n)%nat → (j <= m)%nat → lasts j (run_video_stream n m).
Proof.
  intros Hn Hm. unfold run_video_stream. la. apply (lasts_loop n m); [|done|done|done].
  intros l j' Hj'. unfold stream_step. la. by apply lasts_session.
Qed.

(** ** How many threads a program creates, and that it is no thread's start or end *)

Definition is_create {X} (e : videoE X) : bool :=
  match e with PthreadCreate StreamThread _ => true | _ => false end.
Definition outside {X} (e : videoE X) : bool :=
  match e with ThreadBegin _ | ThreadEnd _ => false | _ => true end.
Fixpoint creates {A} (c : nat) (p : video A) : Prop :=
  match p with
  | Act e k => outside e = true ∧
      if is_create e then match c with O => False | S c' => ∀ x, creates c' (k x) end
      else ∀ x, creates c (k x)
  | _ => True
  end.

Lemma creates_mono {A} (p : video A) c c' : (c <= c')%nat → creates c p → creates c' p.
Proof.
  revert c c'. induction p as [a|X e k IH|w]; simpl; intros c c' Hc H; [done| |done].
  destruct H as [Ho H]. split; [done|]. destruct (is_create e).
  - destruct c as [|c], c' as [|c']; [done|done|lia|]. intros x. apply (IH x c); [lia|done].
  - intros x. by apply (IH x c).
Qed.
Lemma creates_bind {A B} (p : video A) (f : A → video B) a b :
  creates a p → (∀ x, creates b (f x)) → creates (a + b) (prog_bind p f).
Proof.
  revert a. induction p as [r|X e k IH|w]; simpl; intros a Hp Hf; [| |done].
  - by apply (creates_mono _ b); [lia|].
  - destruct Hp as [Ho Hp]. split; [done|].
    destruct (is_create e); [destruct a; [done|]|]; intros x; by apply IH.
Qed.
Lemma creates_bind_0 {A B} (p : video A) (f : A → video B) b :
  creates 0 p → (∀ x, creates b (f x)) → creates b (prog_bind p f).
Proof. apply (creates_bind p f 0). Qed.

Ltac creates_step :=
  match goal with
  | |- creates _ (prog_bind _ _) => apply creates_bind_0; [|intros ?]
  | |- creates _ (Act _ _) => split; [reflexivity|cbn [is_create]; intros ?]
  | |- creates _ (call _) => split; [reflexivity|intros ?; exact I]
  | |- creates _ (mret _) => exact I
  | |- creates _ (Ret _) => exact I
  | |- creates _ (when ?b _) => destruct b; cbn [when]
  | |- creates _ (match ?b with _ => _ end) => destruct b
  end.
Create HintDb creates.
Ltac cr := repeat first [progress cbn [call mret prog_mret prog_bind] | solve [auto 2 with creates] | creates_step].

Lemma creates_status : creates 0 video_get_streaming_status.
Proof. unfold video_get_streaming_status, get_streaming_flag, get_streaming_stopped. cr. Qed.
#[local] Hint Resolve creates_status : creates.
Lemma creates_set_flag b : creates 0 (set_streaming_flag b).
Proof. unfold set_streaming_flag, video_send_format_report, notify_state. cr. Qed.
Lemma creates_wait n : creates 0 (wait_attempts n).
Proof. induction n; cbn [wait_attempts]; unfold get_streaming_stopped; cr. Qed.
#[local] Hint Resolve creates_set_flag creates_wait : creates.
Lemma creates_start : creates 1 video_start_streaming.
Proof. unfold video_start_streaming, get_streaming_stopped. cr. Qed.
Lemma creates_stop : creates 0 video_stop_streaming.
Proof. unfold video_stop_streaming, wait_for_streaming_stopped. cr. Qed.
#[local] Hint Resolve creates_start creates_stop : creates.
Lemma creates_restart : creates 1 video_restart_streaming.
Proof. unfold video_restart_streaming, wait_for_streaming_stopped. cr. Qed.
Lemma creates_perform o : creates 1 (perform o).
Proof.
  destruct o; cbn [perform]; [apply creates_start|apply (creates_mono _ 0 1); [lia|apply creates_stop]
    |apply creates_restart| |apply (creates_mono _ 0 1); [lia|cr]].
  unfold jetkvm_video_set_quality_factor, video_set_quality_factor.
  destruct (SFleb _ _); [cr|]. apply (creates_bind _ _ 1 0); [|intros ?; cr].
  apply (creates_bind _ _ 1 0); [|intros ?; cr]. apply creates_bind_0; [cr|intros _; apply creates_restart].
Qed.
Lemma creates_controller ops : creates (length ops) (controller ops).
Proof.
  induction ops as [|o ops IH]; cbn [controller length].
  - unfold video_shutdown. cr.
  - apply (creates_bind _ _ 1 (length ops)); [apply creates_perform|done].
Qed.

(** ** A capture thread's life *)

Section life.
Context (ev : env) (Hok : devices_ok ev) (n m : nat).

(** Its program is the whole of [capture_thread] until it starts, then what is left
    of [run_video_stream] and the thread's end, then nothing. *)
Inductive living (j t : nat) : video unit → lstate → Prop :=
| not_begun s :
    l_threads s !! t = None ∨ l_threads s !! t = Some TCreated →
    living j t (capture_thread n m t) s
| under_way (q : video Z) s :
    only quietP (may_answer ev) True q → lasts j q → l_threads s !! t = Some TRunning →
    living j t (q;; call (ThreadEnd t)) s
| ended s :
    l_threads s !! t = Some TEnded ∨ l_threads s !! t = Some TJoined →
    living j t (Ret tt) s.

(** What a step does to the status of threads other than the one that makes it. *)
Definition others (t : nat) (s s' : lstate) : Prop :=
  l_threads s' !! t = l_threads s !! t ∨
  (l_threads s !! t = None ∧ l_threads s' !! t = Some TCreated) ∨
  (l_threads s !! t = Some TEnded ∧ l_threads s' !! t = Some TJoined).

Lemma living_others j t p s s' : living j t p s → others t s s' → living (pred j) t p s'.
Proof.
  intros Hl Ho. destruct Hl as [s Hs|q s Hq Hj Hs|s Hs].
  - constructor. destruct Ho as [->|[[_ ->]|[H _]]]; [done|by right|destruct Hs; congruence].
  - constructor; [done|by eapply lasts_mono; [apply Nat.le_pred_l|]|].
    destruct Ho as [->|[[H _]|[H _]]]; [done|congruence..].
  - constructor. destruct Ho as [->|[[H _]|[_ ->]]]; [done|destruct Hs; congruence|by right].
Qed.

(** Actions outside a thread's own life: what happens to the list of threads. *)
Lemma outside_act {X} (e : videoE X) s x s' :
  outside e = true → act e s x = Some s' →
  l_env s' = l_env s ∧
  (l_threads s' = l_threads s ∨
   (is_create e = true ∧ l_threads s' = l_threads s ++ [TCreated]) ∨
   ∃ t, l_threads s !! t = Some TEnded ∧ l_threads s' = <[t := TJoined]> (l_threads s)).
Proof.
  intros He Hact. set (Goal := _ ∧ _). simpl in Hact. unfold lact in Hact.
  destruct (on_reader e) eqn:Hon.
  { destruct (ract _ e _ x); [|done]. injection Hact as <-. split; [done|by left]. }
  assert (Hsame : l_env s' = l_env s → l_threads s' = l_threads s → Goal)
    by (intros; split; [done|by left]).
  assert (Hread : ∀ b (y : bool), read_flag b s y = Some s' → s' = s)
    by (unfold read_flag; intros; by case_match; simplify_eq).
  destruct e; simpl in *; try done; try (apply Hsame; by simplify_eq);
    try (destruct r; try (apply Hsame; by simplify_eq)).
  - destruct v; repeat case_match; simplify_eq; try (by apply Hsame);
      apply Hread in Hact as ->; by apply Hsame.
  - destruct v; simplify_eq; by apply Hsame.
  - revert Hact. apply (var_cases v _ _ _ (λ r, r x = Some s' → _));
      [intros ->%Hread; by apply Hsame..|intros; simplify_eq; by apply Hsame].
  - simplify_eq. apply Hsame.
    + by apply (var_cases v _ _ _ (λ r, l_env r = l_env s)).
    + by apply (var_cases v _ _ _ (λ r, l_threads r = l_threads s)).
  - repeat case_match; simplify_eq; by apply Hsame.
  - case_match; simplify_eq; [by apply Hsame|]. split; [done|]. right; left. by split.
  - repeat case_match; simplify_eq. split; [done|]. right; right. eauto.
  - case_match; simplify_eq; by apply Hsame.
Qed.

Lemma outside_others {X} (e : videoE X) s x s' t :
  outside e = true → act e s x = Some s' → others t s s'.
Proof.
  intros He Hact. unfold others.
  apply outside_act in Hact as [_ [->|[[_ ->]|(t' & Ht & ->)]]]; [..|done].
  - by left.
  - destruct (decide (t < length (l_threads s))%nat); [left; by rewrite lookup_app_l|].
    destruct (decide (t = length (l_threads s))) as [->|].
    + right; left. rewrite lookup_ge_None_2 by lia. by rewrite list_lookup_middle.
    + left. rewrite !lookup_ge_None_2; [done|lia|rewrite length_app; simpl; lia].
  - destruct (decide (t = t')) as [->|]; [|left; by apply list_lookup_insert_ne].
    right; right. rewrite list_lookup_insert_eq by by eapply lookup_lt_Some. done.
Qed.
Lemma outside_length {X} (e : videoE X) s x s' : outside e = true → act e s x = Some s' →
  (length (l_threads s') <= length (l_threads s) + (if is_create e then 1 else 0))%nat.
Proof.
  intros He Hact. apply outside_act in Hact as [_ [->|[[-> ->]|(t' & Ht & ->)]]]; [..|done].
  - lia.
  - rewrite length_app. simpl. lia.
  - rewrite length_insert. lia.
Qed.
Lemma lact_env {X} (e : videoE X) s x s' : act e s x = Some s' → l_env s' = l_env s.
Proof.
  destruct (outside e) eqn:He; [intros Hact; by apply outside_act in Hact as [-> _]|].
  destruct e; try done; intros Hact; cbn in Hact; repeat case_match; by simplify_eq.
Qed.

(** A step of its own. *)
Lemma living_step j t p s :
  living j t p s → l_env s = ev → (j <= n)%nat → (j <= m)%nat →
  match p with
  | Act e k => ∀ x s', act e s x = Some s' →
      living (pred j) t (k x) s' ∧ length (l_threads s') = length (l_threads s) ∧
      ∀ t', t' ≠ t → l_threads s' !! t' = l_threads s !! t'
  | _ => True
  end.
Proof.
  intros Hl He Hn Hm. destruct Hl as [s Hs|q s Hq Hj Hs|s Hs]; [| |done].
  - intros [] s' Hact. cbn in Hact. destruct (l_threads s !! t) as [[]|] eqn:Ht; try done.
    injection Hact as <-. split_and!; simpl;
      [|by rewrite length_insert|by intros; apply list_lookup_insert_ne].
    refine (under_way _ _ (run_video_stream n m) _ _ _ _);
      [by apply quiet_stream|apply lasts_stream; lia|].
    simpl. apply list_lookup_insert_eq. by eapply lookup_lt_Some.
  - destruct q as [a|X e k|w]; [| |done].
    + intros [] s' Hact. cbn in Hact. rewrite Hs in Hact. injection Hact as <-.
      split_and!; simpl; [|by rewrite length_insert|by intros; apply list_lookup_insert_ne].
      constructor. left. simpl. apply list_lookup_insert_eq. by eapply lookup_lt_Some.
    + intros x s' Hact. destruct Hq as [Hq Hk], (quiet_act _ _ _ _ _ Hq Hact) as (Hmay & r & _ & f & b & ->).
      split_and!; try done. refine (under_way _ _ (k x) _ _ _ _); [apply Hk; by rewrite <- He|apply Hj|done].
Qed.

(** ** The pool *)

(** After [j] of [n] and [m] steps: the controller, with the threads it can still
    create, and the capture threads. *)
Definition linv (k j : nat) (c : pool videoE lstate) : Prop :=
  l_env c.2 = ev ∧ length c.1 = S k ∧
  (∀ pc, c.1 !! 0%nat = Some pc → ∃ cr, creates cr pc ∧ (length (l_threads c.2) + cr <= k)%nat) ∧
  ∀ t p, c.1 !! S t = Some p → living j t p c.2.

Lemma linv_step k j c c' :
  linv k j c → (j <= n)%nat → (j <= m)%nat → pstep c c' → linv k (pred j) c'.
Proof.
  intros (He & Hk & Hc & Ht) Hn Hm Hstep. destruct Hstep as [ts s s' i X e kk x Hi Hact].
  unfold linv in *. simpl in *. split_and!; [by rewrite (lact_env _ _ _ _ Hact)|by rewrite length_insert|..].
  - intros pc Hpc. destruct i as [|t].
    + rewrite list_lookup_insert_eq in Hpc by by eapply lookup_lt_Some.
      injection Hpc as <-. destruct (Hc _ Hi) as (cr & [Ho Hcr] & Hle).
      pose proof (outside_length _ _ _ _ Ho Hact). destruct (is_create e).
      * destruct cr as [|cr]; [done|]. exists cr. split; [done|lia].
      * exists cr. split; [done|lia].
    + rewrite list_lookup_insert_ne in Hpc by done. destruct (Hc _ Hpc) as (cr & ? & ?).
      destruct (living_step _ _ _ _ (Ht _ _ Hi) He Hn Hm x s' Hact) as (_ & -> & _). eauto.
  - intros t p Hp. destruct (decide (i = S t)) as [->|Hne].
    + rewrite list_lookup_insert_eq in Hp by by eapply lookup_lt_Some. injection Hp as <-.
      by apply (living_step _ _ _ _ (Ht _ _ Hi) He Hn Hm x s' Hact).
    + rewrite list_lookup_insert_ne in Hp by done. eapply living_others; [by apply Ht|].
      destruct i as [|t'].
      * destruct (Hc _ Hi) as (cr & [Ho _] & _). by eapply outside_others.
      * left. apply (living_step _ _ _ _ (Ht _ _ Hi) He Hn Hm x s' Hact). congruence.
Qed.
Lemma linv_steps k i j c c' :
  linv k j c → (j <= n)%nat → (j <= m)%nat → nsteps pstep i c c' → linv k (j - i) c'.
Proof.
  intros Hl Hn Hm Hs. revert j Hl Hn Hm. induction Hs as [c|i c1 c2 c3 H1 Hs IH]; intros j Hl Hn Hm.
  - by rewrite Nat.sub_0_r.
  - replace (j - S i)%nat with (pred j - i)%nat by lia. apply IH; [by eapply linv_step|lia|lia].
Qed.

(** ** Progress *)

(** The calls that wait: joining a thread that is alive, and a thread's start. *)
Definition waits {X} (e : videoE X) (s : lstate) : Prop :=
  match e with
  | PthreadJoin StreamThread p =>
      ∃ t st, cell p (l_cells s) = Some (Some t) ∧ l_threads s !! t = Some st ∧ alive st = true
  | ThreadBegin t => l_threads s !! t ≠ Some TCreated
  | _ => False
  end.

(** The environment has a quality factor, a width, a height and a block to answer. *)
Context (q : float) (w h blk : Z).
Context (Hq : e_quality ev q = true) (Hw : e_width ev w = true) (Hh : e_height ev h = true)
  (Hblk : e_block ev blk = true).

Lemma answered {X} (e : videoE X) s :
  l_env s = ev → enabled e s = true → waits e s ∨ ∃ x s', act e s x = Some s'.
Proof.
  intros He Hen.
  assert (Hread : ∀ b, ∃ s', read_flag b s b = Some s')
    by (intros b; unfold read_flag; rewrite eqb_reflx; eauto).
  assert (Hrd : ∀ b, ∃ x s', read_flag b s x = Some s') by (intros b; exists b; by apply Hread).
  simpl in Hen. unfold lenabled in Hen. simpl. unfold lact. destruct (on_reader e) eqn:Hon.
  { right. destruct (ract_answered (l_env s) e (l_reader s) Hon) as (x & r & Hx).
    exists x. rewrite Hx. eexists. reflexivity. }
  destruct e; simpl in *;
    try (right; first [exists tt; eexists; reflexivity|exists 0; eexists; reflexivity
                      |exists (0, 0); eexists; reflexivity|exists (0, 0, 0); eexists; reflexivity
                      |exists "0"%char; eexists; reflexivity|exists StreamEmpty; eexists; reflexivity]; fail).
  - right. destruct v; try apply Hrd; try (exists true; by eauto); try (exists 0; by eauto).
    + exists (l_thread s). rewrite Z.eqb_refl. eauto.
    + exists w. rewrite He, Hw. eauto.
    + exists h. rewrite He, Hh. eauto.
    + exists q. rewrite He, Hq. eauto.
    + exists (VideoState true 0 None 0 0 (f64_of_Z 0)). eauto.
  - right. exists tt. destruct v; eexists; reflexivity.
  - right. apply (var_cases v _ _ _ (λ r, ∃ x s', r x = Some s')); [apply Hrd..|].
    exists true. by eauto.
  - right. exists NULL. destruct r; eexists; reflexivity.
  - right. exists tt. destruct r; eexists; reflexivity.
  - right. exists 1. destruct r; eexists; reflexivity.
  - destruct r; [|right; exists tt; eexists; reflexivity..].
    destruct (cell p (l_cells s)) as [[t|]|] eqn:Hp; [|done..].
    destruct (l_threads s !! t) as [[]|] eqn:Ht; try done.
    + left. by exists t, TCreated.
    + left. by exists t, TRunning.
    + right. exists tt. eexists. reflexivity.
  - right. exists (0, Timings 0 0 0 0 0 0 0 0 0). eexists. reflexivity.
  - right. exists blk. rewrite He, Hblk. eexists. reflexivity.
  - destruct (decide (l_threads s !! tid = Some TCreated)) as [->|]; [|by left].
    right. exists tt. eexists. reflexivity.
  - right. exists tt. apply bool_decide_eq_true_1 in Hen as ->. eexists. reflexivity.
Qed.

(** A thread that is alive can step, as long as its loops are within their bounds. *)
Lemma alive_steps j t p s st :
  living j t p s → l_env s = ev → (0 < j)%nat →
  match p with Act e _ => enabled e s = true | Stop (Crash _) => False | _ => True end →
  l_threads s !! t = Some st → alive st = true →
  match p with Act e _ => ∃ x s', act e s x = Some s' | _ => False end.
Proof.
  intros Hl He Hj Hen Hst Hal. destruct Hl as [s Hs|r s Hr Hlast Hs|s Hs].
  - destruct Hs as [Hs|Hs]; [congruence|]. exists tt. cbn. rewrite Hs. by eexists.
  - destruct r as [a|X e k|[]]; simpl in *; [|destruct Hr as [Hqe _]|done|lia].
    + exists tt. cbn. rewrite Hs. by eexists.
    + destruct (answered e s He Hen) as [Hwt|?]; [|done].
      destruct e; simpl in Hwt; try done; try (destruct r; try done); by destruct Hqe as [?|[?|?]].
  - destruct Hs as [Hs|Hs]; rewrite Hs in Hst; by injection Hst as <-.
Qed.
End life.

(** ** Property *)

(** The environment can answer every query. *)
Definition env_answers (ev : env) : Prop :=
  (∃ q, e_quality ev q = true) ∧ (∃ w, e_width ev w = true) ∧ (∃ h, e_height ev h = true) ∧
  (∃ blk, e_block ev blk = true).

(** C2: the stream's threads never deadlock. For every sequence of operations of one
    controller, every interleaving with the capture threads it starts and all answers
    of the devices within [devices_ok], after any number [j] of steps smaller than the
    bounds [n] and [m] of the capture threads' loops (so for every number of steps of
    the code, whose loops have no bound): either the controller has shut down, every
    capture thread is joined and every cell freed, or some thread can take a step. In
    particular [pthread_join] only ever waits for a thread that can go on. *)
Theorem stream_control_live (ev : env) (ops : list op) (n m j : nat) c :
  devices_ok ev → env_answers ev → (j < n)%nat → (j < m)%nat →
  nsteps pstep j (one_controller n m (length ops) ops, lstart ev) c →
  (c.1 !! 0%nat = Some (Ret tt) ∧ no_stream c.2) ∨ ∃ c', pstep c c'.
Proof.
  intros Hdev ([q Hq] & [w Hw] & [h Hh] & [blk Hblk]) Hn Hm Hsteps.
  destruct (one_controller_steps ev ops n m (length ops) c Hdev) as (Hok & Hsafe & _);
    [by eapply rtc_nsteps_2|].
  assert (Hl : linv ev n m (length ops) (S j - j) c).
  { eapply linv_steps; [done| |lia|lia|exact Hsteps]. split_and!; simpl; [done| | |].
    - by rewrite length_map, length_seq.
    - intros pc [= <-]. exists (length ops). split; [apply creates_controller|simpl; lia].
    - intros t p Hp. rewrite list_lookup_fmap in Hp. destruct (seq 0 _ !! t) as [t'|] eqn:Ht; [|done].
      apply lookup_seq in Ht as [-> _]. injection Hp as <-. constructor. by left. }
  replace (S j - j)%nat with 1%nat in Hl by lia. destruct Hl as (He & Hlen & Hctl & Hthr).
  assert (Hen : ∀ i p, c.1 !! i = Some p →
    match p with Act e _ => enabled e c.2 = true | Stop (Crash _) => False | _ => True end).
  { intros i p Hi. destruct p as [|X e k|[]]; try done.
    - apply not_false_is_true. intros Hf. apply Hsafe. by exists i, (Act e k).
    - apply Hsafe. by exists i, (Stop (Crash why)). }
  destruct (c.1 !! 0%nat) as [pc|] eqn:Hpc; [|apply lookup_ge_None_1 in Hpc; lia].
  assert (Hstep : ∀ i X (e : videoE X) k x s', c.1 !! i = Some (Act e k) →
    act e c.2 x = Some s' → ∃ c', pstep c c').
  { intros i X e k x s' Hi Hact. destruct c as [ts s]. eexists. by eapply pstep_act. }
  pose proof (Hen _ _ Hpc) as Henc. destruct (Hctl pc eq_refl) as (cr & Hcr & Hcount).
  destruct pc as [[]|X e k|[]].
  - left. split; [done|]. by apply (pool_ok_done _ _ _ _ _ _ 0 Hok).
  - right. destruct (answered ev q w h blk Hq Hw Hh Hblk e c.2 He Henc) as [Hwt|(x & s' & Hact)];
      [|by eapply Hstep].
    destruct Hcr as [Ho _]. destruct e; try done. destruct r; try done.
    destruct Hwt as (t & st & _ & Hst & Hal). pose proof (lookup_lt_Some _ _ _ Hst).
    destruct (c.1 !! S t) as [p'|] eqn:Hp'; [|apply lookup_ge_None_1 in Hp'; lia].
    pose proof (alive_steps ev n m q w h blk Hq Hw Hh Hblk 1 t p' c.2 st (Hthr t p' Hp') He
      ltac:(lia) (Hen _ _ Hp') Hst Hal) as Hgo.
    destruct p' as [|X' e' k'|]; [done| |done]. destruct Hgo as (x & s' & Hact). by eapply Hstep.
  - done.
  - exfalso. by apply (pool_ok_fuel _ _ _ _ _ _ 0 Hok) in Hpc.
Qed.

Lemma hdmi_env_answers b : env_answers (hdmi_env b).
Proof.
  split_and!; [exists (f32_of_Z 1)|exists 640|exists 480|by exists 1]; apply bool_decide_eq_true_2;
    apply list_elem_of_here.
Qed.

(** The controller waits in [pthread_join] while the capture thread runs on. *)
Lemma stream_control_live_witness :
  let c := psched (life_answers ordinary) (sched [(0, 9); (1, 20); (0, 80)]%nat)
             (one_controller 200 200 2 [OpStart; OpStop], lstart (hdmi_env true)) in
  l_flag c.2 = false ∧ l_threads c.2 = [TRunning] ∧ ∃ c', pstep c c'.
Proof.
  intros c. assert (Hf : l_flag c.2 = false ∧ l_threads c.2 = [TRunning]) by (vm_compute; done).
  destruct (psched_nsteps (life_answers ordinary) (sched [(0, 9); (1, 20); (0, 80)]%nat)
    (one_controller 200 200 2 [OpStart; OpStop], lstart (hdmi_env true))) as (j & Hj & Hs).
  change (length _) with 109%nat in Hj.
  destruct (stream_control_live (hdmi_env true) [OpStart; OpStop] 200 200 j c) as [[_ Hd]|Hc].
  - apply hdmi_env_ok.
  - apply hdmi_env_answers.
  - lia.
  - lia.
  - exact Hs.
  - exfalso. destruct Hd as (_ & _ & [|k] & Hk); destruct Hf as [_ Hf]; rewrite Hf in Hk; done.
  - destruct Hf. by split_and!.
Defined.
