(* ===== verification/VideoFormat.v ===== *)
(** * Format detection, initialisation and shutdown

    What the functions of cgo/video.c that run outside the stream do to the
    globals: [detect_step] (one round of the format-detection thread),
    [video_init] and [video_shutdown].  The state holds every global of
    [Video.var] and what the devices will answer, so a function has one run, and
    the theorems say what it is. *)
From S2P Require Import Prelude Effects VencConfig Video VideoDevice.

(** ** State *)

(** What the system answers. *)
Record device := Device {
  access_rc : Z;                 (* the sleep-mode file exists *)
  open_rc : string → Z;
  sleep_mode : ascii;            (* its content *)
  sys_rc : Z;                    (* RK_MPI_SYS_Init *)
  pool_rc : Z;                   (* RK_MPI_MB_CreatePool *)
  malloc_rc : routine → Z;
  create_rc : routine → Z;       (* pthread_create *)
  timings_rc : Z; timings : dv_timings;
  errno_is : Z;
  event_rc : Z; event_type : Z
}.

(** The globals. *)
Definition globals : Type := ∀ T, var T → T.
Definition upd {T} (v : var T) (x : T) (g : globals) : globals := λ T' v',
  match v in var T, v' in var T' return T → T' → T' with
  | streaming_flag, streaming_flag
  | streaming_stopped, streaming_stopped
  | detected_signal, detected_signal
  | sleep_mode_available, sleep_mode_available
  | should_exit, should_exit
  | venc_running, venc_running
  | streaming_thread, streaming_thread
  | venc_read_thread, venc_read_thread
  | format_thread, format_thread
  | detected_width, detected_width
  | detected_height, detected_height
  | detected_fps, detected_fps
  | codec_type, codec_type
  | sub_dev_fd, sub_dev_fd
  | memPool, memPool
  | quality_factor, quality_factor
  | state, state
  | video_state_handler, video_state_handler
  | video_handler, video_handler
    => λ x _, x
  | _, _ => λ _ y, y
  end x (g T' v').

Record gstate := GState {
  glob : globals;
  dev : device;
  reports : list jetkvm_video_state_t;   (* passed to the state handler *)
  fds : list Z;                          (* descriptors opened and not closed *)
  pools : list Z;                        (* memory pools *)
  created : list routine;                (* threads started *)
  shut_down : list Z;                    (* descriptors passed to shutdown() *)
  mutex : bool                           (* streaming_mutex exists *)
}.
Definition rd {T} (v : var T) (s : gstate) : T := glob s T v.
Definition with_glob g s := GState g (dev s) (reports s) (fds s) (pools s) (created s) (shut_down s) (mutex s).
Definition wr {T} (v : var T) (x : T) (s : gstate) : gstate := with_glob (upd v x (glob s)) s.
Definition with_reports l s := GState (glob s) (dev s) l (fds s) (pools s) (created s) (shut_down s) (mutex s).
Definition with_fds l s := GState (glob s) (dev s) (reports s) l (pools s) (created s) (shut_down s) (mutex s).
Definition with_pools l s := GState (glob s) (dev s) (reports s) (fds s) l (created s) (shut_down s) (mutex s).
Definition with_created l s := GState (glob s) (dev s) (reports s) (fds s) (pools s) l (shut_down s) (mutex s).
Definition with_shut l s := GState (glob s) (dev s) (reports s) (fds s) (pools s) (created s) l (mutex s).
Definition with_gmutex b s := GState (glob s) (dev s) (reports s) (fds s) (pools s) (created s) (shut_down s) b.

Definition without (x : Z) (l : list Z) : list Z := List.filter (λ y, negb (y =? x)) l.

Definition geffect {X} (e : videoE X) (s : gstate) : gstate :=
  match e with
  | Wr v x => wr v x s
  | WrLocked v b => wr v b s
  | MutexDestroy => with_gmutex false s
  | PthreadCreate r _ => if create_rc (dev s) r =? 0 then with_created (created s ++ [r]) s else s
  | Open path => if open_rc (dev s) path <? 0 then s else with_fds (fds s ++ [open_rc (dev s) path]) s
  | Close fd => with_fds (without fd (fds s)) s
  | Shutdown fd => with_shut (shut_down s ++ [fd]) s
  | MB_CreatePool _ _ =>
      if pool_rc (dev s) =? MB_INVALID_POOLID then s else with_pools (pools s ++ [pool_rc (dev s)]) s
  | MB_DestroyPool p => with_pools (without p (pools s)) s
  | StateHandler st => with_reports (reports s ++ [st]) s
  | _ => s
  end.
#[export] Instance gsem : Sem videoE gstate := {|
  enabled X e s :=
    match e with
    | RdLocked streaming_flag | WrLocked streaming_flag _ | MutexDestroy => mutex s
    | _ => true
    end;
  act X e s _ := Some (geffect e s)
|}.

Definition ganswer : ∀ X, videoE X → gstate → X :=
  hdmi_answers (λ X e s,
    match e in videoE X return option X with
    | Rd v => Some (rd v s)
    | RdLocked v => Some (rd v s)
    | Access _ => Some (access_rc (dev s))
    | Open path => Some (open_rc (dev s) path)
    | Read1 _ => Some (sleep_mode (dev s))
    | SYS_Init => Some (sys_rc (dev s))
    | MB_CreatePool _ _ => Some (pool_rc (dev s))
    | Malloc r => Some (malloc_rc (dev s) r)
    | PthreadCreate r _ => Some (create_rc (dev s) r)
    | QUERY_DV_TIMINGS _ => Some (timings_rc (dev s), timings (dev s))
    | DQEVENT _ => Some (event_rc (dev s), event_type (dev s))
    | Errno => Some (errno_is (dev s))
    | _ => None
    end).
#[local] Abbreviation grun := (run ganswer).

(** ** What is reported *)

Definition status_of (s : gstate) : Z :=
  if rd streaming_flag s then 1 else if rd streaming_stopped s then 0 else 2.
Definition reported (rdy : bool) (err : option string) (w h : Z) (fps : double) (s : gstate) : gstate :=
  let st := VideoState rdy (status_of s) err (u16 w) (u16 h) fps in
  let s1 := wr state st s in
  if rd video_state_handler s then with_reports (reports s ++ [st]) s1 else s1.

(** ** Lemmas *)

Lemma run_bind {A B} (p : video A) (f : A → video B) s :
  grun (prog_bind p f) s =
  match grun p s with
  | Done a s' => grun (f a) s'
  | Crashed w => Crashed w | Blocked => Blocked | OutOfFuel => OutOfFuel
  end.
Proof.
  revert s. induction p as [a|X e k IH|[]]; intros s; cbn [prog_bind run]; try done.
  destruct (enabled e s); [|done]. destruct (act e s _); [apply IH|done].
Qed.

Lemma run_status s : mutex s = true → grun video_get_streaming_status s = Done (status_of s) s.
Proof.
  intros Hm. unfold status_of, rd. cbn. rewrite Hm. unfold rd.
  destruct (glob s bool streaming_flag); cbn; [done|].
  unfold rd. by destruct (glob s bool streaming_stopped).
Qed.
Lemma run_report rdy err w h fps s :
  mutex s = true → grun (video_report_format rdy err w h fps) s = Done tt (reported rdy err w h fps s).
Proof.
  intros Hm. unfold video_report_format. rewrite run_bind, run_status by done.
  unfold reported, notify_state, rd. cbn. unfold rd. cbn.
  by destruct (glob s bool video_state_handler).
Qed.

(** ** Format detection *)

(** The mode that is read differs from the one published last, or there was none. *)
Definition mode_changed (t : dv_timings) (fps : Z) (s : gstate) : bool :=
  negb (bt_width t =? rd detected_width s) || negb (bt_height t =? rd detected_height s)
  || fps_changed fps (rd detected_fps s) || negb (rd detected_signal s).
(** Publishing a mode and reporting it. *)
Definition published (t : dv_timings) (fps : Z) (s : gstate) : gstate :=
  reported true None (bt_width t) (bt_height t) (frames_per_second t)
    (wr detected_signal true (wr detected_fps fps
      (wr detected_height (bt_height t) (wr detected_width (bt_width t) s)))).
(** How a round ends: a failed [VIDIOC_DQEVENT] ends the loop. *)
Definition after_event (s : gstate) : unit + unit :=
  if event_rc (dev s) =? 0 then inl tt else inr tt.

Lemma reported_rd rdy err w h fps s {T} (v : var T) :
  match v with state => False | _ => True end → rd v (reported rdy err w h fps s) = rd v s.
Proof. intros Hv. unfold reported. destruct (rd video_state_handler s); by destruct v. Qed.
Lemma reported_mutex rdy err w h fps s : mutex (reported rdy err w h fps s) = mutex s.
Proof. unfold reported. by destruct (rd video_state_handler s). Qed.
Lemma reported_dev rdy err w h fps s : dev (reported rdy err w h fps s) = dev s.
Proof. unfold reported. by destruct (rd video_state_handler s). Qed.

Lemma run_wait_event fd s : grun (wait_event fd) s = Done (after_event s) s.
Proof. unfold wait_event, after_event. cbn. by destruct (event_rc (dev s) =? 0). Qed.

Lemma run_format_detected t fps s :
  mutex s = true → fps_of t = Some fps →
  grun (format_detected t) s =
  if mode_changed t fps s then grun video_restart_streaming (published t fps s)
  else Done tt (published t fps s).
Proof.
  intros Hm Hf. unfold format_detected. rewrite Hf. cbn [call prog_bind run enabled act gsem].
  rewrite run_bind, run_report by done. cbn [when].
  change (negb (bt_width t =? _) || _ || _ || _)%bool with (mode_changed t fps s).
  by destruct (mode_changed t fps s).
Qed.

(** A stream that is stopped is not restarted. *)
Lemma run_restart_stopped s :
  mutex s = true → status_of s = 0 → grun video_restart_streaming s = Done tt s.
Proof. intros Hm Hs. unfold video_restart_streaming. by rewrite run_bind, run_status, Hs. Qed.

Lemma fps_of_pos t fps : fps_of t = Some fps → 1 <= fps < 2 ^ 32.
Proof.
  unfold fps_of, to_u32. destruct (trunc _) as [z|]; [|done].
  destruct (_ && _) eqn:Hz; [|done]. intros [= <-]. destruct (Z.ltb_spec z 1); lia.
Qed.
Lemma fps_of_no_pixels t : total_pixels t = 0 → fps_of t = None.
Proof.
  intros H0. unfold fps_of, frames_per_second. rewrite H0.
  assert (Hd : ∀ x : double, to_u32 (f64_add (f64_div x (f64_of_Z 0)) half) = None)
    by (intros [[]|[]| |[] ? ?]; reflexivity).
  by rewrite Hd.
Qed.

(** C10: one round of format detection. While the mutex exists and the loop goes
    on, whatever the receiver says:
    - if the timings cannot be read, the signal is marked lost; [ENOLINK],
      [ENOLCK] and [ERANGE] are reported by name, with size and rate 0, any other
      error is retried without a report;
    - timings with no pixels (modulo 2^32) make the conversion of the rate
      undefined;
    - otherwise size, rate (rounded, at least 1) and signal are published and
      reported, and the stream is restarted exactly when the size changed, the
      rate changed by more than 1, or there was no signal before; a stopped
      stream stays stopped.
    The loop ends when no event can be read. *)
Theorem detect_step_spec (s : gstate) :
  mutex s = true → rd should_exit s = false → 0 <= rd detected_fps s < 2 ^ 32 - 1 →
  let t := timings (dev s) in
  (timings_rc (dev s) ≠ 0 →
   let lost := wr detected_signal false s in
   grun (detect_step tt) s =
   match signal_error (errno_is (dev s)) with
   | Some msg => Done (after_event s) (reported false (Some msg) 0 0 (f64_of_Z 0) lost)
   | None => Done (inl tt) lost
   end) ∧
  (timings_rc (dev s) = 0 → total_pixels t = 0 →
   grun (detect_step tt) s = Crashed "frame rate out of the range of uint32_t") ∧
  (∀ fps, timings_rc (dev s) = 0 → fps_of t = Some fps → fps < 2 ^ 32 - 1 →
   1 <= fps ∧
   (mode_changed t fps s = true ↔
      bt_width t ≠ rd detected_width s ∨ bt_height t ≠ rd detected_height s ∨
      2 <= Z.abs (fps - rd detected_fps s) ∨ rd detected_signal s = false) ∧
   grun (detect_step tt) s =
   (if mode_changed t fps s && negb (status_of s =? 0)
    then grun (video_restart_streaming;; wait_event (rd sub_dev_fd s)) (published t fps s)
    else Done (after_event s) (published t fps s))).
Proof.
  intros Hm Hx Hold t.
  assert (Hrun : grun (detect_step tt) s =
    if negb (timings_rc (dev s) =? 0)
    then grun (match signal_error (errno_is (dev s)) with
               | Some msg => video_report_format false (Some msg) 0 0 (f64_of_Z 0);;
                             wait_event (rd sub_dev_fd s)
               | None => call (Usleep 1000000);; mret (inl tt)
               end) (wr detected_signal false s)
    else grun (format_detected t;; wait_event (rd sub_dev_fd s)) s).
  { unfold detect_step. cbn [call prog_bind run enabled act gsem].
    change (ganswer bool (Rd should_exit) s) with (rd should_exit s). rewrite Hx.
    cbn [run enabled act gsem]. change (ganswer (Z * dv_timings) _ _) with (timings_rc (dev s), timings (dev s)).
    cbn beta iota. destruct (negb (timings_rc (dev s) =? 0)); [|done].
    cbn [prog_bind run enabled act gsem].
    change (ganswer Z Errno _) with (errno_is (dev s)). by destruct (signal_error (errno_is (dev s))). }
  rewrite Hrun. clear Hrun. split_and!.
  - intros Hrc. destruct (Z.eqb_spec (timings_rc (dev s)) 0); [done|]. cbn [negb].
    destruct (signal_error _) as [msg|]; [|done].
    rewrite run_bind, run_report by done. rewrite run_wait_event. unfold after_event.
    by rewrite reported_dev.
  - intros -> H0. cbn [Z.eqb negb]. unfold format_detected. by rewrite (fps_of_no_pixels t H0).
  - intros fps -> Hf Hlt. split; [by apply (fps_of_pos t)|]. split.
    + unfold mode_changed, fps_changed. apply fps_of_pos in Hf.
      rewrite !u32_id by (unfold in_u32; lia).
      destruct (rd detected_signal s); rewrite !orb_true_iff, !negb_true_iff, !Z.eqb_neq, !Z.ltb_lt;
        intuition (try lia; try congruence).
    + cbn [Z.eqb negb]. rewrite run_bind, (run_format_detected t fps) by done.
      assert (Hst : status_of (published t fps s) = status_of s).
      { unfold published, status_of. by rewrite !reported_rd. }
      assert (Hend : grun (wait_event (rd sub_dev_fd s)) (published t fps s)
        = Done (after_event s) (published t fps s)).
      { rewrite run_wait_event. unfold after_event, published. by rewrite reported_dev. }
      destruct (mode_changed t fps s); [|by rewrite Hend]. cbn [andb].
      destruct (Z.eqb_spec (status_of s) 0) as [H0|H0]; cbn [negb].
      * rewrite run_restart_stopped; [by rewrite Hend| |congruence].
        unfold published. by rewrite reported_mutex.
      * by rewrite run_bind.
Qed.

(** The globals as video.c initialises them. *)
Definition initial_globals : globals := λ T v,
  match v in var T return T with
  | streaming_stopped => true
  | streaming_flag | detected_signal | sleep_mode_available | should_exit | venc_running
  | video_state_handler | video_handler => false
  | streaming_thread | venc_read_thread | format_thread => NULL
  | detected_width | detected_height | codec_type => 0
  | detected_fps => 60
  | sub_dev_fd => -1
  | memPool => MB_INVALID_POOLID
  | quality_factor => f32_of_Z 1
  | state => VideoState false 0 None 0 0 (f64_of_Z 0)
  end.
(** A working device that shows 1080p at 60 Hz. *)
Definition working_device : device :=
  Device 0 (λ p, if streq p SUB_DEV then 5 else 6) "1"%char 0 9 (λ _, 4096) (λ _, 0)
    0 (Timings 1920 1080 148500000 88 44 148 4 5 36) 19 0 V4L2_EVENT_SOURCE_CHANGE.
Definition at_boot : gstate := GState initial_globals working_device [] [] [] [] [] true.

(** The first mode is published and reported; the stopped stream is not started. *)
Lemma detect_step_spec_witness :
  let s := wr video_state_handler true at_boot in
  match grun (detect_step tt) s with
  | Done (inl _) s' =>
      (rd detected_width s', rd detected_height s', rd detected_fps s', rd detected_signal s')
        = (1920, 1080, 60, true) ∧
      length (reports s') = 1%nat ∧ created s' = []
  | _ => False
  end.
Proof.
  intros s.
  destruct (detect_step_spec s eq_refl eq_refl ltac:(vm_compute; split; [discriminate|reflexivity]))
    as (_ & _ & H).
  destruct (H 60 eq_refl ltac:(vm_compute; reflexivity) ltac:(lia)) as (_ & _ & ->).
  vm_compute. split_and!; reflexivity.
Defined.

(** ** Initialisation *)

Definition sub_dev_ok (s : gstate) : bool :=
  negb (rd sub_dev_fd s <? 0) || negb (open_rc (dev s) SUB_DEV <? 0).

(** Its result: the first stage that fails. *)
Definition init_result (s : gstate) : Z :=
  if negb (sys_rc (dev s) =? RK_SUCCESS) then RK_FAILURE
  else if negb (sub_dev_ok s) then errno_is (dev s)
  else if pool_rc (dev s) =? MB_INVALID_POOLID then -1
  else RK_SUCCESS.
(** What each stage leaves in the globals. *)
Definition after_sleep_mode (s : gstate) : gstate :=
  wr sleep_mode_available (access_rc (dev s) =? 0) s.
Definition after_quality (factor : float) (s : gstate) : gstate :=
  wr quality_factor (if SFleb factor (f32_of_Z 0) then f32_of_Z 1 else factor) s.
Definition after_sub_dev (s : gstate) : gstate :=
  if rd sub_dev_fd s <? 0 then
    let fd := open_rc (dev s) SUB_DEV in
    wr sub_dev_fd fd (if fd <? 0 then s else with_fds (fds s ++ [fd]) s)
  else s.
Definition after_pool (s : gstate) : gstate :=
  let p := pool_rc (dev s) in
  wr memPool p (if p =? MB_INVALID_POOLID then s else with_pools (pools s ++ [p]) s).
Definition after_thread (s : gstate) : gstate :=
  let s1 := wr format_thread (malloc_rc (dev s) FormatThread) s in
  if create_rc (dev s) FormatThread =? 0 then with_created (created s ++ [FormatThread]) s1 else s1.
Definition init_effect (factor : float) (s : gstate) : gstate :=
  let s := after_quality factor (after_sleep_mode s) in
  if negb (sys_rc (dev s) =? RK_SUCCESS) then s
  else
    let opened := after_sub_dev s in
    if negb (sub_dev_ok s) then opened
    else
      let pooled := after_pool opened in
      if pool_rc (dev s) =? MB_INVALID_POOLID then pooled else after_thread pooled.

Lemma without_last x l : x ∉ l → without x (l ++ [x]) = l.
Proof.
  unfold without. induction l as [|y l IH]; intros H; simpl; [by rewrite Z.eqb_refl|].
  destruct (Z.eqb_spec y x) as [->|]; simpl; [exfalso; set_solver|]. rewrite IH; [done|set_solver].
Qed.

(** The descriptor of the sleep-mode file is closed again. *)
Lemma run_sleep_mode s :
  open_rc (dev s) SLEEP_MODE_FILE ∉ fds s →
  grun ensure_sleep_mode_disabled s = Done tt s.
Proof.
  intros Hf. unfold ensure_sleep_mode_disabled. cbn [call prog_bind run enabled act gsem].
  change (ganswer bool _ s) with (rd sleep_mode_available s).
  destruct (rd sleep_mode_available s); [|done]. cbn [negb run enabled act gsem geffect].
  change (ganswer Z _ s) with (open_rc (dev s) SLEEP_MODE_FILE).
  set (fd := open_rc (dev s) SLEEP_MODE_FILE) in *. destruct (fd <? 0) eqn:Hfd; [done|].
  assert (Hclose : geffect (Close fd) (with_fds (fds s ++ [fd]) s) = s).
  { simpl. rewrite without_last by done. by destruct s. }
  cbn [run enabled act gsem]. destruct (Ascii.eqb _ _); cbn [run enabled act gsem].
  - exact (f_equal (Done tt) Hclose).
  - exact (f_equal (Done tt) Hclose).
Qed.

Lemma run_open_sub_dev s :
  grun open_sub_dev s = Done (if sub_dev_ok s then None else Some (errno_is (dev s))) (after_sub_dev s).
Proof.
  unfold open_sub_dev, sub_dev_ok, after_sub_dev. cbn [call prog_bind run enabled act gsem].
  change (ganswer Z _ s) with (rd sub_dev_fd s). destruct (rd sub_dev_fd s <? 0); [|done].
  cbn [call prog_bind run enabled act gsem].
  change (ganswer Z (Open SUB_DEV) _) with (open_rc (dev s) SUB_DEV). cbn [geffect].
  by destruct (open_rc (dev s) SUB_DEV <? 0).
Qed.
Lemma run_buf_init s :
  grun buf_init s =
  Done (if pool_rc (dev s) =? MB_INVALID_POOLID then -1 else RK_SUCCESS) (after_pool s).
Proof.
  unfold buf_init, after_pool. cbn [call prog_bind run enabled act gsem].
  change (ganswer Z _ s) with (pool_rc (dev s)). cbn [geffect].
  by destruct (pool_rc (dev s) =? MB_INVALID_POOLID).
Qed.
Lemma after_sub_dev_dev s : dev (after_sub_dev s) = dev s.
Proof. unfold after_sub_dev. destruct (_ <? 0); [|done]. by destruct (_ <? 0). Qed.
Lemma after_pool_dev s : dev (after_pool s) = dev s.
Proof. unfold after_pool. by destruct (_ =? _). Qed.

Lemma run_video_init factor s :
  open_rc (dev s) SLEEP_MODE_FILE ∉ fds s →
  grun (video_init factor) s = Done (init_result s) (init_effect factor s).
Proof.
  intros Hf. unfold video_init. rewrite run_bind.
  assert (Hsleep : grun detect_sleep_mode s = Done tt (after_sleep_mode s)).
  { unfold detect_sleep_mode. cbn [call prog_bind run enabled act gsem].
    change (ganswer Z _ s) with (access_rc (dev s)). unfold after_sleep_mode.
    destruct (access_rc (dev s) =? 0); cbn [negb]; [|done].
    cbn [call prog_bind run enabled act gsem]. by apply run_sleep_mode. }
  rewrite Hsleep. cbn [call prog_bind run enabled act gsem]. unfold init_result, init_effect.
  change (geffect (Wr quality_factor _) _) with (after_quality factor (after_sleep_mode s)).
  set (s1 := after_quality factor (after_sleep_mode s)).
  change (ganswer Z SYS_Init s1) with (sys_rc (dev s)). change (geffect SYS_Init s1) with s1.
  change (dev s1) with (dev s). change (sub_dev_ok s1) with (sub_dev_ok s).
  destruct (negb (sys_rc (dev s) =? RK_SUCCESS)); [done|].
  rewrite run_bind, run_open_sub_dev. change (sub_dev_ok s1) with (sub_dev_ok s).
  destruct (sub_dev_ok s); [|done]. cbn [negb]. rewrite run_bind, run_buf_init, after_sub_dev_dev.
  change (dev s1) with (dev s). destruct (pool_rc (dev s) =? MB_INVALID_POOLID); [done|].
  cbn [Z.eqb RK_SUCCESS negb call prog_bind run enabled act gsem].
  set (s2 := after_pool _). assert (Hd : dev s2 = dev s) by (unfold s2; by rewrite after_pool_dev, after_sub_dev_dev).
  unfold after_thread. by destruct (create_rc (dev s2) FormatThread =? 0) eqn:Hc; cbn [geffect run mret prog_mret];
    change (dev (geffect _ _)) with (dev s2); change (dev (wr _ _ _)) with (dev s2); rewrite ?Hc.
Qed.

(** ** Shutting down *)

(** With no stream running: the threads are told to leave, the subdevice's
    descriptor is passed to [shutdown], and the pool and the mutex are destroyed. *)
Definition shutdown_effect (s : gstate) : gstate :=
  let s := wr should_exit true s in
  let s := if 0 <? rd sub_dev_fd s then with_shut (shut_down s ++ [rd sub_dev_fd s]) s else s in
  let s := if rd memPool s =? MB_INVALID_POOLID then s else with_pools (without (rd memPool s) (pools s)) s in
  with_gmutex false s.

Lemma run_video_shutdown s :
  mutex s = true → rd streaming_thread s = NULL →
  grun video_shutdown s = Done tt (if rd should_exit s then s else shutdown_effect s).
Proof.
  intros Hm Hn. unfold video_shutdown. cbn [call prog_bind run enabled act gsem].
  change (ganswer bool _ s) with (rd should_exit s). change (geffect (Rd should_exit) s) with s.
  destruct (rd should_exit s); [done|].
  assert (Hstop : grun video_stop_streaming s = Done tt s).
  { unfold video_stop_streaming. cbn [call prog_bind run enabled act gsem].
    change (ganswer Z _ s) with (rd streaming_thread s). by rewrite Hn. }
  rewrite run_bind, Hstop. cbn [call prog_bind run enabled act gsem geffect]. unfold shutdown_effect.
  set (s1 := wr should_exit true s). change (ganswer Z _ s1) with (rd sub_dev_fd s1).
  assert (Hpool : ∀ s2, mutex s2 = true →
    grun (pool ← call (Rd memPool);
          when (negb (pool =? MB_INVALID_POOLID)) (call (MB_DestroyPool pool));; call MutexDestroy) s2
    = Done tt (with_gmutex false
        (if rd memPool s2 =? MB_INVALID_POOLID then s2
         else with_pools (without (rd memPool s2) (pools s2)) s2))).
  { intros s2 Hm2. cbn [call prog_bind run enabled act gsem geffect].
    change (ganswer Z _ s2) with (rd memPool s2).
    destruct (rd memPool s2 =? MB_INVALID_POOLID); cbn; by rewrite Hm2. }
  rewrite run_bind. destruct (0 <? rd sub_dev_fd s1); cbn [when call run enabled act gsem geffect mret prog_mret].
  - by rewrite <- (Hpool (with_shut (shut_down s1 ++ [rd sub_dev_fd s1]) s1)).
  - by rewrite <- Hpool.
Qed.

Lemma run_shutdown_twice s : rd should_exit s = true → grun video_shutdown s = Done tt s.
Proof.
  intros Hx. unfold video_shutdown. cbn [call prog_bind run enabled act gsem].
  change (ganswer bool _ s) with (rd should_exit s). by rewrite Hx.
Qed.

(** What an attempt leaves, case by case. *)
Ltac init_cases s :=
  unfold init_result, init_effect, sub_dev_ok, after_thread, after_pool, after_sub_dev, rd,
    RK_SUCCESS, RK_FAILURE in *;
  destruct (sys_rc (dev s) =? 0) eqn:?;
  [destruct (glob s Z sub_dev_fd <? 0) eqn:?;
   [destruct (open_rc (dev s) SUB_DEV <? 0) eqn:?|];
   destruct (pool_rc (dev s) =? MB_INVALID_POOLID) eqn:?;
   destruct (create_rc (dev s) FormatThread =? 0) eqn:?|];
  repeat (progress (cbn -[Z.eqb Z.ltb MB_INVALID_POOLID]; repeat match goal with
    | H : ?b = true |- context [?b] => rewrite H
    | H : ?b = false |- context [?b] => rewrite H
    end)).

Lemma init_fds factor s :
  fds (init_effect factor s) = fds s ++
    (if (sys_rc (dev s) =? 0) && (rd sub_dev_fd s <? 0) && sub_dev_ok s
     then [open_rc (dev s) SUB_DEV] else []).
Proof. init_cases s; by rewrite ?app_nil_r. Qed.
Lemma init_dev factor s : dev (init_effect factor s) = dev s.
Proof. init_cases s; done. Qed.
Lemma init_sub_dev factor s :
  rd sub_dev_fd (init_effect factor s) =
  if (sys_rc (dev s) =? 0) && (rd sub_dev_fd s <? 0) then open_rc (dev s) SUB_DEV else rd sub_dev_fd s.
Proof. init_cases s; done. Qed.
(** A retry opens nothing again. *)
Lemma init_retry_fds factor s :
  fds (init_effect factor (init_effect factor s)) = fds (init_effect factor s).
Proof.
  rewrite (init_fds factor (init_effect factor s)). unfold sub_dev_ok. rewrite init_sub_dev, init_dev.
  destruct (sys_rc (dev s) =? 0); cbn [andb]; [|by rewrite app_nil_r].
  destruct (rd sub_dev_fd s <? 0) eqn:Hfd; [|by rewrite Hfd, app_nil_r].
  destruct (open_rc (dev s) SUB_DEV <? 0) eqn:Ho; by rewrite app_nil_r.
Qed.

(** ** Property *)

(** C19: initialising and shutting down. [video_init] returns 0 exactly when the
    media library starts, the subdevice is or can be opened and the memory pool
    is created; otherwise the code of the first stage that failed, without trying
    the later ones. It sets the quality factor (1 for one that is not positive),
    closes the sleep-mode file again, keeps the one descriptor of the subdevice
    across a failed attempt and a retry, and starts the detection thread only on
    success; that [pthread_create] failed goes unnoticed. [video_shutdown], with
    no stream running, makes the threads leave and destroys the pool and the
    mutex once: a second call changes nothing. *)
Theorem video_init_shutdown_spec (factor : float) (s : gstate) :
  open_rc (dev s) SLEEP_MODE_FILE ∉ fds s → errno_is (dev s) ≠ 0 →
  let s' := init_effect factor s in
  grun (video_init factor) s = Done (init_result s) s' ∧
  (init_result s = 0 ↔ sys_rc (dev s) = 0 ∧ sub_dev_ok s = true ∧ pool_rc (dev s) ≠ MB_INVALID_POOLID) ∧
  rd quality_factor s' = (if SFleb factor (f32_of_Z 0) then f32_of_Z 1 else factor) ∧
  created s' = created s ++
    (if (init_result s =? 0) && (create_rc (dev s) FormatThread =? 0) then [FormatThread] else []) ∧
  pools s' = pools s ++ (if init_result s =? 0 then [pool_rc (dev s)] else []) ∧
  fds s' = fds s ++
    (if (sys_rc (dev s) =? 0) && (rd sub_dev_fd s <? 0) && sub_dev_ok s
     then [open_rc (dev s) SUB_DEV] else []) ∧
  fds (init_effect factor s') = fds s' ∧
  (mutex s = true → rd streaming_thread s = NULL → rd should_exit s = false →
   let s'' := shutdown_effect s in
   grun video_shutdown s = Done tt s'' ∧ grun video_shutdown s'' = Done tt s'' ∧
   rd should_exit s'' = true ∧ mutex s'' = false ∧
   (rd memPool s ≠ MB_INVALID_POOLID → rd memPool s ∉ pools s'') ∧
   shut_down s'' = shut_down s ++ (if 0 <? rd sub_dev_fd s then [rd sub_dev_fd s] else [])).
Proof.
  intros Hf He s'. split; [by apply run_video_init|]. split.
  { unfold init_result, RK_SUCCESS, RK_FAILURE. destruct (Z.eqb_spec (sys_rc (dev s)) 0); [|naive_solver].
    destruct (sub_dev_ok s); [|naive_solver]. cbn [negb].
    destruct (Z.eqb_spec (pool_rc (dev s)) MB_INVALID_POOLID); naive_solver. }
  assert (Hno : (errno_is (dev s) =? 0) = false) by by apply Z.eqb_neq.
  split; [unfold s'; init_cases s; done|].
  split; [unfold s'; init_cases s; by rewrite ?Hno, ?app_nil_r|].
  split; [unfold s'; init_cases s; by rewrite ?Hno, ?app_nil_r|].
  split; [apply init_fds|].
  split; [apply init_retry_fds|].
  intros Hm Hn Hx s''.
  assert (Hfields : rd should_exit s'' = true ∧ mutex s'' = false ∧
    pools s'' = (if rd memPool s =? MB_INVALID_POOLID then pools s else without (rd memPool s) (pools s)) ∧
    shut_down s'' = shut_down s ++ (if 0 <? rd sub_dev_fd s then [rd sub_dev_fd s] else [])).
  { unfold s'', shutdown_effect, rd. cbn -[Z.ltb Z.eqb MB_INVALID_POOLID].
    destruct (0 <? glob s Z sub_dev_fd); cbn -[Z.ltb Z.eqb MB_INVALID_POOLID];
      destruct (glob s Z memPool =? MB_INVALID_POOLID); by rewrite ?app_nil_r. }
  destruct Hfields as (Hx'' & Hm'' & Hp & Hsh). split_and!; try done.
  - rewrite run_video_shutdown by done. by rewrite Hx.
  - by apply run_shutdown_twice.
  - rewrite Hp. destruct (Z.eqb_spec (rd memPool s) MB_INVALID_POOLID); [done|].
    intros _ Hin. unfold without in Hin. apply list_elem_of_In, filter_In in Hin as [_ Hin].
    by rewrite Z.eqb_refl in Hin.
Qed.
Lemma video_init_shutdown_spec_witness :
  let s := at_boot in
  grun (video_init (f32_of_Z 0)) s = Done 0 (init_effect (f32_of_Z 0) s) ∧
  rd quality_factor (init_effect (f32_of_Z 0) s) = f32_of_Z 1 ∧
  rd should_exit (shutdown_effect s) = true.
Proof.
  intros s.
  destruct (video_init_shutdown_spec (f32_of_Z 0) s ltac:(by apply not_elem_of_nil)
    ltac:(vm_compute; discriminate)) as (Hi & _ & Hq & _ & _ & _ & _ & Hs).
  destruct (Hs eq_refl eq_refl eq_refl) as (_ & _ & Hx & _).
  split_and!; [exact Hi|exact Hq|exact Hx].
Defined.
