(* ===== verification/Handlers.v ===== *)
(** * Logging and the handlers the Go side registers

    src/internal/native/cgo/log.h and log_handler.c, the set_*_handler functions
    of ctrl.c with the calls through the stored pointers, and
    [lvgl_set_indev_handler] and [handle_indev_event] of screen.c.  The handlers
    are functions of the embedding program, known by a number; what they are
    called with is recorded.  The frames and state reports come from [Video],
    whose callback and log actions get their meaning here. *)
From S2P Require Import Prelude Effects VencConfig Video VideoDevice.

(** ** State *)

(** What a handler is called with. *)
Inductive event :=
| EvLog (level : Z) (filename funcname : string) (line : Z) (message : string)
| EvFrame (frame len : Z)
| EvState (st : jetkvm_video_state_t)
| EvIndev (code : Z)
| EvRpc (method : string) (params : option string).   (* [None] is [NULL] *)

(** [indev_handler_t] pointers: the static wrapper of ctrl.c, or another function. *)
Inductive indev_target := to_jetkvm_indev_wrapper | to_function (f : Z).

(** The six function pointers ([None] is [NULL]) and the calls made, first one first. *)
Record registry := Registry {
  log_handler : option Z;                  (* log_handler.c *)
  video_state_handler : option Z;          (* ctrl.c *)
  rpc_handler : option Z;
  video_handler : option Z;
  jetkvm_indev_handler : option Z;
  indev_handler : option indev_target;     (* screen.c *)
  calls : list (Z * event)
}.
Definition no_handlers : registry := Registry None None None None None None [].

Definition call_function (f : Z) (ev : event) (s : registry) : registry :=
  Registry (log_handler s) (video_state_handler s) (rpc_handler s) (video_handler s)
    (jetkvm_indev_handler s) (indev_handler s) (calls s ++ [(f, ev)]).

(** ** log_handler.c *)

Definition log_message (level : Z) (filename funcname : string) (line : Z) (message : string)
    (s : registry) : registry :=
  match log_handler s with
  | Some h => call_function h (EvLog level filename funcname line message) s
  | None => s
  end.

Definition log_set_handler (handler : option Z) (s : registry) : registry :=
  Registry handler (video_state_handler s) (rpc_handler s) (video_handler s)
    (jetkvm_indev_handler s) (indev_handler s) (calls s).

(** ** log.h *)

Definition LEVEL_PANIC : Z := 5.
Definition LEVEL_FATAL : Z := 4.
Definition LEVEL_WARN : Z := 2.
Definition LEVEL_INFO : Z := 1.
Definition LEVEL_DEBUG : Z := 0.
Definition LEVEL_TRACE : Z := -1.
Definition LOG_LEVEL : Z := LEVEL_INFO.
Definition msg_buffer_size : Z := 1024.

(** The formatted [message] and its NUL go to [msg_buffer] without a bound;
    [None]: they do not fit. *)
Definition emit_log (level : Z) (file func : string) (line : Z) (message : string)
    (s : registry) : option registry :=
  if strlen message + 1 <=? msg_buffer_size
  then Some (log_message level file func line message s) else None.

Definition log_above (level : Z) (file func : string) (line : Z) (message : string)
    (s : registry) : option registry :=
  if LOG_LEVEL <=? level then emit_log level file func line message s else Some s.
Definition log_trace := log_above LEVEL_TRACE.
Definition log_debug := log_above LEVEL_DEBUG.
Definition log_info := log_above LEVEL_INFO.
Definition log_notice := log_above LEVEL_INFO.
Definition log_warn := log_above LEVEL_WARN.
Definition log_error := log_above LEVEL_ERROR.
Definition log_panic := log_above LEVEL_PANIC.

(** ** screen.c *)

Definition lvgl_set_indev_handler (handler : option indev_target) (s : registry) : registry :=
  Registry (log_handler s) (video_state_handler s) (rpc_handler s) (video_handler s)
    (jetkvm_indev_handler s) handler (calls s).

(** ** ctrl.c *)

Definition jetkvm_set_log_handler (handler : option Z) (s : registry) : registry :=
  log_set_handler handler s.

Definition jetkvm_set_video_handler (handler : option Z) (s : registry) : registry :=
  Registry (log_handler s) (video_state_handler s) (rpc_handler s) handler
    (jetkvm_indev_handler s) (indev_handler s) (calls s).

Definition jetkvm_indev_wrapper (code : Z) (s : registry) : registry :=
  match jetkvm_indev_handler s with
  | Some h => call_function h (EvIndev (s32 code)) s
  | None => s
  end.

Definition jetkvm_set_indev_handler (handler : option Z) (s : registry) : registry :=
  lvgl_set_indev_handler (Some to_jetkvm_indev_wrapper)
    (Registry (log_handler s) (video_state_handler s) (rpc_handler s) (video_handler s)
       handler (indev_handler s) (calls s)).

Definition jetkvm_set_rpc_handler (handler : option Z) (s : registry) : registry :=
  Registry (log_handler s) (video_state_handler s) handler (video_handler s)
    (jetkvm_indev_handler s) (indev_handler s) (calls s).

Definition jetkvm_call_rpc_handler (method : string) (params : option string) (s : registry) : registry :=
  match rpc_handler s with
  | Some h => call_function h (EvRpc method params) s
  | None => s
  end.

Definition jetkvm_set_video_state_handler (handler : option Z) (s : registry) : registry :=
  Registry (log_handler s) handler (rpc_handler s) (video_handler s)
    (jetkvm_indev_handler s) (indev_handler s) (calls s).

(** The event's code is a [lv_event_code_t], an unsigned enumeration. *)
Definition handle_indev_event (code : Z) (s : registry) : registry :=
  match indev_handler s with
  | None => s
  | Some to_jetkvm_indev_wrapper => jetkvm_indev_wrapper code s
  | Some (to_function f) => call_function f (EvIndev code) s
  end.

(** ** What the callbacks of the video code do *)

Definition is_set {A} (p : option A) : bool := match p with Some _ => true | None => false end.

(** A callback is called through its pointer, which must not be [NULL]; a logged
    message must fit the buffer. *)
#[export] Instance registry_sem : Sem videoE registry := {|
  enabled X e s :=
    match e with
    | StateHandler _ => is_set (video_state_handler s)
    | FrameHandler _ _ => is_set (video_handler s)
    | EmitLog level file func line message => is_set (log_above level file func line message s)
    | _ => true
    end;
  act X e s :=
    match e in videoE X return X → option registry with
    | Rd v =>
        match v in var T return T → option registry with
        | Video.video_state_handler => λ b,
            if Bool.eqb b (is_set (video_state_handler s)) then Some s else None
        | Video.video_handler => λ b,
            if Bool.eqb b (is_set (video_handler s)) then Some s else None
        | _ => λ _, Some s
        end
    | StateHandler st => λ _, (λ h, call_function h (EvState st) s) <$> video_state_handler s
    | FrameHandler data len => λ _, (λ h, call_function h (EvFrame data len) s) <$> video_handler s
    | EmitLog level file func line message => λ _, log_above level file func line message s
    | _ => λ _, Some s
    end
|}.

(** The answers that agree with the registry. *)
Definition registry_answers : ∀ X, videoE X → registry → X :=
  hdmi_answers (λ X e s,
    match e in videoE X return option X with
    | Rd v => match v in var T return option T with
              | Video.video_state_handler => Some (is_set (video_state_handler s))
              | Video.video_handler => Some (is_set (video_handler s))
              | _ => None
              end
    | _ => None
    end).
Definition run_video {A} (p : video A) (s : registry) : option registry :=
  match run registry_answers p s with Done _ s' => Some s' | _ => None end.

(** ** Uses of the interface

    A report is what [video_report_format] and [video_send_format_report] end with;
    the log calls they and the code around them make are operations of their own. *)

Inductive log_macro := LogTrace | LogDebug | LogInfo | LogNotice | LogWarn | LogError | LogPanic.
Definition expand (m : log_macro)
  : string → string → Z → string → registry → option registry :=
  match m with
  | LogTrace => log_trace | LogDebug => log_debug | LogInfo => log_info
  | LogNotice => log_notice | LogWarn => log_warn | LogError => log_error
  | LogPanic => log_panic
  end.

Inductive reg_op :=
| SetLog (h : option Z) | SetVideo (h : option Z) | SetVideoState (h : option Z)
| SetIndev (h : option Z) | SetRpc (h : option Z)
| Log (m : log_macro) (file func : string) (line : Z) (message : string)
| SendFrame (frame len : Z) | Report (st : jetkvm_video_state_t)
| Indev (code : Z) | Rpc (method : string) (params : option string).

Definition reg_perform (o : reg_op) (s : registry) : option registry :=
  match o with
  | SetLog h => Some (jetkvm_set_log_handler h s)
  | SetVideo h => Some (jetkvm_set_video_handler h s)
  | SetVideoState h => Some (jetkvm_set_video_state_handler h s)
  | SetIndev h => Some (jetkvm_set_indev_handler h s)
  | SetRpc h => Some (jetkvm_set_rpc_handler h s)
  | Log m file func line message => expand m file func line message s
  | SendFrame frame len => run_video (video_send_frame frame len) s
  | Report st => run_video (notify_state st) s
  | Indev code => Some (handle_indev_event code s)
  | Rpc method params => Some (jetkvm_call_rpc_handler method params s)
  end.
Fixpoint reg_run (ops : list reg_op) (s : registry) : option registry :=
  match ops with
  | [] => Some s
  | o :: ops' => match reg_perform o s with Some s' => reg_run ops' s' | None => None end
  end.

(** ** The specification: a router *)

(** One current handler per kind of event; an event goes to the current handler
    of its kind, or nowhere; but a frame that nobody takes is logged. *)
Inductive kind := KLog | KFrame | KState | KIndev | KRpc.
#[export] Instance kind_eq_dec : EqDecision kind.
Proof. solve_decision. Defined.
Definition kind_of (ev : event) : kind :=
  match ev with
  | EvLog _ _ _ _ _ => KLog | EvFrame _ _ => KFrame | EvState _ => KState
  | EvIndev _ => KIndev | EvRpc _ _ => KRpc
  end.

Definition macro_level (m : log_macro) : Z :=
  match m with
  | LogTrace => -1 | LogDebug => 0 | LogInfo | LogNotice => 1 | LogWarn => 2
  | LogError => 3 | LogPanic => 5
  end.

(** What an operation is to the router. *)
Inductive routed := Register (k : kind) (h : option Z) | Deliver (ev : event) | Nothing.
Definition route (o : reg_op) : routed :=
  match o with
  | SetLog h => Register KLog h
  | SetVideo h => Register KFrame h
  | SetVideoState h => Register KState h
  | SetIndev h => Register KIndev h
  | SetRpc h => Register KRpc h
  | Log m file func line message =>
      if 1 <=? macro_level m then Deliver (EvLog (macro_level m) file func line message) else Nothing
  | SendFrame frame len => Deliver (EvFrame frame len)
  | Report st => Deliver (EvState st)
  | Indev code => Deliver (EvIndev (s32 code))
  | Rpc method params => Deliver (EvRpc method params)
  end.

Definition no_video_handler : event :=
  EvLog LEVEL_ERROR "ctrl.c" "video_send_frame" 85 "video handler is not set".
Definition delivered (cur : kind → option Z) (ev : event) : list (Z * event) :=
  match cur (kind_of ev), ev with
  | Some h, _ => [(h, ev)]
  | None, EvFrame _ _ => match cur KLog with Some h => [(h, no_video_handler)] | None => [] end
  | None, _ => []
  end.
Fixpoint deliveries (cur : kind → option Z) (ops : list reg_op) : list (Z * event) :=
  match ops with
  | [] => []
  | o :: ops' =>
      match route o with
      | Register k h => deliveries (λ k', if decide (k' = k) then h else cur k') ops'
      | Deliver ev => delivered cur ev ++ deliveries cur ops'
      | Nothing => deliveries cur ops'
      end
  end.

(** A log message that is formatted and does not fit the buffer. *)
Definition too_long (o : reg_op) : bool :=
  match o with
  | Log m _ _ _ message => (1 <=? macro_level m) && (1024 <=? strlen message)
  | _ => false
  end.

(** ** Lemmas *)

(** The wrapper stays installed once a handler for input events was set. *)
Definition routes (cur : kind → option Z) (s : registry) : Prop :=
  log_handler s = cur KLog ∧ video_handler s = cur KFrame ∧
  video_state_handler s = cur KState ∧ jetkvm_indev_handler s = cur KIndev ∧
  rpc_handler s = cur KRpc ∧
  (indev_handler s = Some to_jetkvm_indev_wrapper ∨ indev_handler s = None ∧ cur KIndev = None).

Lemma run_send_frame frame len s :
  run_video (video_send_frame frame len) s =
  Some match video_handler s with
       | Some h => call_function h (EvFrame frame len) s
       | None => match log_handler s with Some h => call_function h no_video_handler s | None => s end
       end.
Proof.
  unfold run_video. cbn. destruct (video_handler s) eqn:E; cbn; rewrite ?E; cbn; rewrite ?E; [done|].
  unfold log_above, emit_log, log_message. cbn. by destruct (log_handler s).
Qed.
Lemma run_notify st s :
  run_video (notify_state st) s =
  Some match video_state_handler s with
       | Some h => call_function h (EvState st) s
       | None => s
       end.
Proof.
  unfold run_video. cbn. destruct (video_state_handler s) eqn:E; cbn; rewrite ?E; cbn; by rewrite ?E.
Qed.

(** One operation is one step of the router. *)
Lemma reg_perform_routes cur o s :
  routes cur s →
  reg_perform o s =
  if too_long o then None
  else Some match route o with
            | Deliver ev => foldl (λ s '(h, ev), call_function h ev s) s (delivered cur ev)
            | Nothing => s
            | Register _ _ => default s (reg_perform o s)
            end.
Proof.
  intros (Hl & Hv & Hs & Hi & Hr & Hw). destruct o as [| | | | |m file func line msg| | | |];
    cbn [reg_perform route too_long kind_of default]; try done.
  - assert (Hx : expand m file func line msg s =
      if 1 <=? macro_level m then emit_log (macro_level m) file func line msg s else Some s)
      by (by destruct m).
    rewrite Hx. destruct (1 <=? macro_level m); [|done]. unfold delivered. cbn [andb kind_of].
    unfold emit_log, log_message, msg_buffer_size. rewrite Hl.
    destruct (Z.leb_spec (strlen msg + 1) 1024), (Z.leb_spec 1024 (strlen msg)); try lia; [|done].
    by destruct (cur KLog).
  - rewrite run_send_frame, Hv, Hl. unfold delivered. cbn [kind_of].
    destruct (cur KFrame); [done|]. by destruct (cur KLog).
  - rewrite run_notify, Hs. unfold delivered. cbn [kind_of]. by destruct (cur KState).
  - unfold handle_indev_event, jetkvm_indev_wrapper, delivered. cbn [kind_of].
    destruct Hw as [->|[-> Hn]]; [rewrite Hi; by destruct (cur KIndev)|by rewrite Hn].
  - unfold jetkvm_call_rpc_handler, delivered. cbn [kind_of]. rewrite Hr. by destruct (cur KRpc).
Qed.

Lemma routes_calls cur evs s : routes cur s →
  routes cur (foldl (λ s '(h, ev), call_function h ev s) s evs) ∧
  calls (foldl (λ s '(h, ev), call_function h ev s) s evs) = calls s ++ evs.
Proof.
  revert s. induction evs as [|[h ev] evs IH]; intros s Hs; cbn [foldl]; [by rewrite app_nil_r|].
  destruct (IH (call_function h ev s) Hs) as [H1 H2]. split; [done|]. rewrite H2. cbn.
  by rewrite <- app_assoc.
Qed.

Lemma reg_run_deliveries ops cur s :
  routes cur s →
  match reg_run ops s with
  | Some s' => Forall (λ o, too_long o = false) ops ∧ calls s' = calls s ++ deliveries cur ops
  | None => Exists (λ o, too_long o = true) ops
  end.
Proof.
  revert cur s. induction ops as [|o ops IH]; intros cur s Hs; cbn [reg_run deliveries].
  { by rewrite app_nil_r. }
  pose proof (reg_perform_routes cur o s Hs) as Hp. rewrite Hp.
  destruct (too_long o) eqn:Ht; [by left|].
  assert (Hnext : ∀ cur' s', routes cur' s' → ∀ l, calls s' = calls s ++ l →
    match reg_run ops s' with
    | Some s'' => Forall (λ o, too_long o = false) (o :: ops) ∧
        calls s'' = calls s ++ l ++ deliveries cur' ops
    | None => Exists (λ o, too_long o = true) (o :: ops)
    end).
  { intros cur' s' Hs' l Hl. specialize (IH cur' s' Hs'). destruct (reg_run ops s'); [|by right].
    destruct IH as [IH1 IH2]. split; [by constructor|]. by rewrite IH2, Hl, app_assoc. }
  destruct (route o) eqn:Hr.
  - apply (Hnext _ _) with (l := []); [|by destruct o; simplify_eq/=; rewrite ?app_nil_r; repeat case_match].
    destruct Hs as (Hl & Hv & Hst & Hi & Hrp & Hw).
    destruct o; simplify_eq/=; try (repeat case_match; done); split_and!; try done; [..|by left].
    all: by destruct Hw as [->|[-> ?]]; [left|right].
  - destruct (routes_calls cur (delivered cur ev) s Hs). by apply Hnext.
  - by apply Hnext with (l := []); [|rewrite app_nil_r].
Qed.

(** ** Properties *)

(** C11: the registration interface is a router. For every sequence of registrations,
    log calls, frames, state reports, input events and RPC requests, from the state
    before any registration: each event is passed, in order and with its arguments, to
    the handler last registered for its kind and to no other; an event whose handler
    is not set or was reset to [NULL] is dropped, as are the log calls below
    [LOG_LEVEL], except that for a frame the log handler, if there is one, is told
    that the video handler is not set; a [NULL] pointer is never called. The sequence
    goes wrong exactly when a message that is logged has 1024 characters or more,
    which overruns [msg_buffer]. *)
Theorem events_reach_registered_handlers (ops : list reg_op) :
  (reg_run ops no_handlers = None ↔ Exists (λ o, too_long o = true) ops) ∧
  ∀ s, reg_run ops no_handlers = Some s → calls s = deliveries (λ _, None) ops.
Proof.
  pose proof (reg_run_deliveries ops (λ _, None) no_handlers) as H.
  specialize (H ltac:(split_and!; [done..|by right])). destruct (reg_run ops no_handlers) as [s|].
  - destruct H as [Hf Hc]. split; [|by intros ? [= <-]]. split; [done|].
    intros He. exfalso. apply Exists_exists in He as (o & Ho & Ht).
    rewrite Forall_forall in Hf. specialize (Hf _ Ho). congruence.
  - split; [done|]. intros s. done.
Qed.
Lemma events_reach_registered_handlers_witness :
  let ops := [Rpc "early" None; SetRpc (Some 7); SetIndev (Some 8); Indev 13; Rpc "rebootDevice" None;
              SetIndev None; Indev 1; SetVideo (Some 9); SendFrame 4096 100;
              SetLog (Some 5); SetVideo None; SendFrame 8192 50;
              Log LogDebug "ctrl.c" "f" 1 "hidden"] in
  ∃ s, reg_run ops no_handlers = Some s ∧
    calls s = [(8, EvIndev 13); (7, EvRpc "rebootDevice" None); (9, EvFrame 4096 100);
               (5, EvLog 3 "ctrl.c" "video_send_frame" 85 "video handler is not set")].
Proof.
  intros ops. destruct (reg_run ops no_handlers) as [s|] eqn:E; [|by vm_compute in E].
  exists s. split; [done|].
  rewrite (proj2 (events_reach_registered_handlers ops) s E). vm_compute. reflexivity.
Defined.
