(* ===== verification/MainServer.v ===== *)
(** * The standalone server

    src/internal/native/cgo/main.c: a program that starts the video code of
    [Video] and accepts clients, one at a time, on a socket.  [main] is a program
    over the actions [serverE]: the actions of the video code, the calls on
    sockets, and the global [client_fd] with its mutex.  Its state holds the
    process's descriptors, the socket files and, as one component, the state of
    the stream's threads ([VideoLife]), which run beside it. *)
From S2P Require Import Prelude Effects VencConfig Video VideoDevice VideoActs VideoLife Handlers.

Definition SOCKET_PATH : string := "/tmp/video.sock".
Definition O_NONBLOCK : Z := 2048.
Definition FD_SETSIZE : Z := 1024.
(** [sizeof(addr.sun_path)] *)
Definition sun_path_size : nat := 108.

(** ** Actions *)

Inductive serverE : Type → Type :=
| Video {X} (e : videoE X) : serverE X
| Register (f : registry → registry) : serverE unit
| Unlink (path : string) : serverE unit
| Socket : serverE Z
| GetFlags (fd : Z) : serverE Z
| SetFlags (fd flags : Z) : serverE Z
| Bind (fd : Z) (sun_path : string) : serverE Z
| Listen (fd backlog : Z) : serverE Z
| WaitReadable (nfds : Z) (read_fds : list Z) : serverE (Z * list Z * Z)  (* rc, set, errno *)
| Accept (fd : Z) : serverE Z
| ReadByte (fd : Z) : serverE Z
| CloseFd (fd : Z) : serverE unit
(* client_fd_mutex and client_fd *)
| LockClient : serverE unit
| UnlockClient : serverE unit
| RdClient : serverE Z
| WrClient (fd : Z) : serverE unit
(* the status [main] returns *)
| Exit (status : Z) : serverE unit.

(** The video code's functions, as parts of this program. *)
Fixpoint lift {A} (p : video A) : prog serverE A :=
  match p with
  | Ret a => Ret a
  | Act e k => Act (Video e) (λ x, lift (k x))
  | Stop w => Stop w
  end.

(** ** The code *)

(** The five handlers main.c defines; they print, and the video handler does
    nothing: its body is commented out. *)
Definition jetkvm_c_log_handler : Z := 1.
Definition jetkvm_video_handler : Z := 2.
Definition jetkvm_video_state_handler : Z := 3.
Definition jetkvm_indev_handler : Z := 4.
Definition jetkvm_rpc_handler : Z := 5.

Definition set_handlers (s : registry) : registry :=
  jetkvm_set_rpc_handler (Some jetkvm_rpc_handler)
    (jetkvm_set_indev_handler (Some jetkvm_indev_handler)
       (jetkvm_set_video_state_handler (Some jetkvm_video_state_handler)
          (jetkvm_set_video_handler (Some jetkvm_video_handler)
             (jetkvm_set_log_handler (Some jetkvm_c_log_handler) s)))).

(** [strncpy(addr.sun_path, socket_path, sizeof(addr.sun_path) - 1)] on a zeroed
    structure. *)
Definition sun_path_of (socket_path : string) : string :=
  text (take (sun_path_size - 1) (chars socket_path)).

(** The error exits, before and after the socket exists. *)
Definition stop_video : prog serverE Z :=
  lift jetkvm_video_stop;;
  lift jetkvm_video_shutdown;;
  mret 1.
Definition close_and_stop (server_fd : Z) : prog serverE Z :=
  call (CloseFd server_fd);;
  stop_video.

Definition FD_ISSET (fd : Z) (read_fds : list Z) : bool := bool_decide (fd ∈ read_fds).

(** A pending connection: the new client replaces the previous one. *)
Definition accept_client (server_fd : Z) : prog serverE unit :=
  accepted_fd ← call (Accept server_fd);
  if 0 <=? accepted_fd then
    call LockClient;;
    client_fd ← call RdClient;
    when (0 <=? client_fd) (call (CloseFd client_fd));;
    call (WrClient accepted_fd);;
    call UnlockClient
  else mret tt.

(** The client sent something or hung up. *)
Definition read_client (current_client_fd : Z) : prog serverE unit :=
  n ← call (ReadByte current_client_fd);
  if n <=? 0 then
    call LockClient;;
    client_fd ← call RdClient;
    call (CloseFd client_fd);;
    call (WrClient (-1));;
    call UnlockClient
  else mret tt.

(** One iteration of [while (1)]. *)
Definition serve (server_fd : Z) (_ : unit) : prog serverE (unit + unit) :=
  call LockClient;;
  current_client_fd ← call RdClient;
  let read_fds :=
    server_fd :: (if 0 <=? current_client_fd then [current_client_fd] else []) in
  let max_fd := if server_fd <? current_client_fd then current_client_fd else server_fd in
  call UnlockClient;;
  r ← call (WaitReadable (max_fd + 1) read_fds);
  let '(result, read_fds, errno) := r in
  if result <? 0 then
    if errno =? EINTR then mret (inl tt) else mret (inr tt)
  else
    when (FD_ISSET server_fd read_fds) (accept_client server_fd);;
    call LockClient;;
    current_client_fd ← call RdClient;
    call UnlockClient;;
    when ((0 <=? current_client_fd) && FD_ISSET current_client_fd read_fds)
      (read_client current_client_fd);;
    mret (inl tt).

Definition set_nonblocking (server_fd : Z) : prog serverE bool :=
  flags ← call (GetFlags server_fd);
  if flags <? 0 then mret false
  else
    rc ← call (SetFlags server_fd (Z.lor flags O_NONBLOCK));
    mret (negb (rc <? 0)).

Definition cleanup (server_fd : Z) (socket_path : string) : prog serverE Z :=
  lift jetkvm_video_stop;;
  lift jetkvm_video_shutdown;;
  call LockClient;;
  client_fd ← call RdClient;
  when (0 <=? client_fd) (call (CloseFd client_fd);; call (WrClient (-1)));;
  call UnlockClient;;
  call (CloseFd server_fd);;
  call (Unlink socket_path);;
  mret 0.

(** [n] bounds the iterations of [while (1)]. *)
Definition main (n : nat) (argv : list string) : prog serverE Z :=
  let socket_path := match argv with _ :: path :: _ => path | _ => SOCKET_PATH end in
  call (Unlink socket_path);;
  call (Register set_handlers);;
  rc ← lift (jetkvm_video_init (f32_of_Z 1));
  if negb (rc =? 0) then mret 1
  else
    lift jetkvm_video_start;;
    server_fd ← call Socket;
    if server_fd <? 0 then stop_video
    else
      ok ← set_nonblocking server_fd;
      if negb ok then close_and_stop server_fd
      else
        rc ← call (Bind server_fd (sun_path_of socket_path));
        if rc <? 0 then close_and_stop server_fd
        else
          rc ← call (Listen server_fd 1);
          if rc <? 0 then close_and_stop server_fd
          else
            loop n (serve server_fd) tt;;
            cleanup server_fd socket_path.

Definition main_thread (n : nat) (argv : list string) : prog serverE unit :=
  status ← main n argv;
  call (Exit status).

(** ** State *)

Record server := Server {
  client_fd : Z;               (* the global *)
  client_locked : bool;        (* client_fd_mutex *)
  open_fds : list Z;           (* the server's open descriptors *)
  nonblocking : list Z;        (* those with O_NONBLOCK *)
  readable : list Z;           (* found readable by the last select and not read since *)
  bound : list string;         (* the socket files that exist *)
  selects_left : nat;          (* how often select can still be interrupted or return *)
  waited : bool;               (* accept or read has blocked *)
  exited : option Z;           (* the exit status *)
  nofile : Z;                  (* RLIMIT_NOFILE: descriptors are smaller *)
  handlers : registry;
  vstate : lstate
}.

Definition with_client fd s := Server fd (client_locked s) (open_fds s) (nonblocking s) (readable s) (bound s) (selects_left s) (waited s) (exited s) (nofile s) (handlers s) (vstate s).
Definition with_locked b s := Server (client_fd s) b (open_fds s) (nonblocking s) (readable s) (bound s) (selects_left s) (waited s) (exited s) (nofile s) (handlers s) (vstate s).
Definition with_fds o n r s := Server (client_fd s) (client_locked s) o n r (bound s) (selects_left s) (waited s) (exited s) (nofile s) (handlers s) (vstate s).
Definition with_bound b s := Server (client_fd s) (client_locked s) (open_fds s) (nonblocking s) (readable s) b (selects_left s) (waited s) (exited s) (nofile s) (handlers s) (vstate s).
Definition with_selects k s := Server (client_fd s) (client_locked s) (open_fds s) (nonblocking s) (readable s) (bound s) k (waited s) (exited s) (nofile s) (handlers s) (vstate s).
Definition with_waited b s := Server (client_fd s) (client_locked s) (open_fds s) (nonblocking s) (readable s) (bound s) (selects_left s) b (exited s) (nofile s) (handlers s) (vstate s).
Definition with_exited r s := Server (client_fd s) (client_locked s) (open_fds s) (nonblocking s) (readable s) (bound s) (selects_left s) (waited s) r (nofile s) (handlers s) (vstate s).
Definition with_handlers h s := Server (client_fd s) (client_locked s) (open_fds s) (nonblocking s) (readable s) (bound s) (selects_left s) (waited s) (exited s) (nofile s) h (vstate s).
Definition with_vstate v s := Server (client_fd s) (client_locked s) (open_fds s) (nonblocking s) (readable s) (bound s) (selects_left s) (waited s) (exited s) (nofile s) (handlers s) v.

Definition minus (fd : Z) (l : list Z) : list Z := List.filter (λ f, negb (f =? fd)) l.
#[global] Arguments minus : simpl never.
Definition has_nonblock (flags : Z) : bool := Z.testbit flags 11.
#[global] Arguments has_nonblock : simpl never.
Definition fresh (fd : Z) (s : server) : bool :=
  (0 <=? fd) && (fd <? nofile s) && bool_decide (fd ∉ open_fds s).

(** Descriptors are open when they are used, those of a [select] fit the set and
    are below [nfds]; the mutex is not locked twice, and guards the variable. *)
Definition senabled {X} (e : serverE X) (s : server) : bool :=
  match e with
  | Video e => enabled e (vstate s)
  | GetFlags fd | SetFlags fd _ | Bind fd _ | Listen fd _ | Accept fd | ReadByte fd
  | CloseFd fd => bool_decide (fd ∈ open_fds s)
  | WaitReadable nfds fds =>
      forallb (λ fd, (0 <=? fd) && (fd <? FD_SETSIZE) && (fd <? nfds)
                     && bool_decide (fd ∈ open_fds s)) fds
  | LockClient => negb (client_locked s)
  | UnlockClient | RdClient | WrClient _ => client_locked s
  | _ => true
  end.

Definition opened (fd : Z) (s : server) : server :=
  with_fds (fd :: open_fds s) (nonblocking s) (readable s) s.

(** A [select] that fails for good is possible at any time and the only answer
    once [selects_left] is used up. *)
Definition sact {X} (e : serverE X) (s : server) : X → option server :=
  match e in serverE X return X → option server with
  | Video e => λ x, (λ v, with_vstate v s) <$> act e (vstate s) x
  | Register f => λ _, Some (with_handlers (f (handlers s)) s)
  | Unlink path => λ _, Some (with_bound (List.filter (λ p, negb (streq p path)) (bound s)) s)
  | Socket => λ fd,
      if fd <? 0 then Some s else if fresh fd s then Some (opened fd s) else None
  | SetFlags fd flags => λ rc,
      if rc <? 0 then Some s
      else Some (with_fds (open_fds s)
             (if has_nonblock flags then fd :: nonblocking s else minus fd (nonblocking s))
             (readable s) s)
  | Bind _ path => λ rc,
      if rc <? 0 then Some s
      else if bool_decide (path ∈ bound s) then None else Some (with_bound (path :: bound s) s)
  | WaitReadable _ fds => λ r,
      let '(rc, ready, errno) := r in
      if (rc <? 0) && negb (errno =? EINTR) then Some s
      else
        match selects_left s with
        | O => None
        | S k =>
            if rc <? 0 then Some (with_selects k s)
            else if (rc =? Z.of_nat (length ready)) && forallb (λ fd, bool_decide (fd ∈ fds)) ready
            then Some (with_fds (open_fds s) (nonblocking s) ready (with_selects k s))
            else None
        end
  | Accept fd => λ accepted_fd,
      let s := with_waited (waited s || negb (bool_decide (fd ∈ nonblocking s))) s in
      if accepted_fd <? 0 then Some s
      else if fresh accepted_fd s then Some (opened accepted_fd s) else None
  | ReadByte fd => λ n,
      if n <=? 1 then
        Some (with_fds (open_fds s) (nonblocking s) (minus fd (readable s))
          (with_waited (waited s || negb (bool_decide (fd ∈ readable s))) s))
      else None
  | CloseFd fd => λ _,
      Some (with_fds (minus fd (open_fds s)) (minus fd (nonblocking s)) (minus fd (readable s)) s)
  | LockClient => λ _, Some (with_locked true s)
  | UnlockClient => λ _, Some (with_locked false s)
  | RdClient => λ fd, if fd =? client_fd s then Some s else None
  | WrClient fd => λ _, Some (with_client fd s)
  | Exit status => λ _, Some (with_exited (Some status) s)
  | _ => λ _, Some s
  end.

#[export] Instance server_sem : Sem serverE server := {| enabled := @senabled; act := @sact |}.

(** Nothing open, no client, the given socket files; [life] selects. *)
Definition server_start (ev : env) (limit : Z) (files : list string) (life : nat) : server :=
  Server (-1) false [] [] [] files life false None limit no_handlers (lstart ev).

(** ** What holds at every moment *)

(** What is left behind on exit: nothing is open and no thread runs. After a
    successful run the socket file is gone too, if its name fitted [sun_path]. *)
Definition left_behind (socket_path : string) (files : list string) : list string :=
  (if strlen socket_path <=? 107 then [] else [sun_path_of socket_path])
  ++ List.filter (λ p, negb (streq p socket_path)) files.
Definition clean_exit (socket_path : string) (files : list string) (status : Z) (s : server) : Prop :=
  (status = 0 ∨ status = 1) ∧ open_fds s = [] ∧ client_fd s = -1 ∧ client_locked s = false ∧
  no_stream (vstate s) ∧ (status = 0 → bound s = left_behind socket_path files).

Definition server_inv (socket_path : string) (files : list string) (s : server) : Prop :=
  waited s = false ∧ NoDup (open_fds s) ∧ (length (open_fds s) <= 3)%nat ∧
  (client_locked s = false → client_fd s = -1 ∨ client_fd s ∈ open_fds s) ∧
  (∀ status, exited s = Some status → clean_exit socket_path files status s).

(** ** Threads of the server *)

Section threads.
Context (ev : env) (socket_path : string) (files : list string) (fo : Prop).

(** The capture threads change the video state only. *)
Definition srely (s s' : server) : Prop :=
  s' = with_vstate (vstate s') s ∧ thread_guar (vstate s) (vstate s').
Definition sguar (s s' : server) : Prop :=
  server_inv socket_path files s' ∧ ctl_guar (vstate s) (vstate s').
Definition crely (t : nat) (s s' : server) : Prop := thread_rely t (vstate s) (vstate s').
Definition cguar (t : nat) (s s' : server) : Prop :=
  s' = with_vstate (vstate s') s ∧ thread_step t (vstate s) (vstate s').
#[local] Abbreviation W := (wpr srely sguar fo).

#[export] Instance srely_preorder : PreOrder srely.
Proof.
  split; [intros [] ; by split|].
  intros a b c [H1 ?] [H2 ?]. split; [by rewrite H2, H1|by etrans].
Qed.
#[export] Instance crely_preorder t : PreOrder (crely t).
Proof. split; [intros s; unfold crely; reflexivity|intros a b c; unfold crely; apply transitivity]. Qed.

(** Code of the video library keeps its specification inside the server. *)
Lemma lift_wpr {A} (p : video A) R G fo' (Q : A → lstate → Prop) (F : server → Prop)
    (R' G' : server → server → Prop) s :
  (∀ s s', F s → R' s s' → F s' ∧ R (vstate s) (vstate s')) →
  (∀ s v, F s → G (vstate s) v → G' s (with_vstate v s) ∧ F (with_vstate v s)) →
  F s → wpr R G fo' p Q (vstate s) →
  wpr R' G' fo' (lift p) (λ a s', F s' ∧ Q a (vstate s')) s.
Proof.
  intros HR HG. revert s. induction p as [a|X e k IH|w]; intros s HF Hw; cbn [lift wpr] in *;
    intros s1 H1; destruct (HR _ _ HF H1) as [HF1 HR1].
  - split; [done|]. by apply Hw.
  - destruct (Hw _ HR1) as [He Hk]. split; [done|]. intros x s2 H2. simpl in H2.
    destruct (lact e (vstate s1) x) as [v|] eqn:Hv; [|done]. injection H2 as <-.
    destruct (Hk x v Hv) as [Hg Hk']. destruct (HG _ _ HF1 Hg) as [Hg' HF2].
    split; [done|]. by apply IH.
  - by apply (Hw _ HR1).
Qed.

(** *** The main thread *)

(** Everything but the video state is as in [s0]. *)
Definition at_ (s0 : server) (V : lstate → Prop) (s : server) : Prop :=
  s = with_vstate (vstate s) s0 ∧ V (vstate s).
Definition stable (V : lstate → Prop) : Prop := ∀ v v', V v → thread_guar v v' → V v'.
#[local] Abbreviation busy := (λ v, idle ev v ∨ owns ev v).
Lemma busy_stable : stable busy.
Proof. intros v v'. apply either_stable. Qed.
Lemma idle_stable : stable (idle ev).
Proof. intros v v' [k H] Hg. exists k. by eapply shape_stable. Qed.
Lemma no_stream_stable' : stable no_stream.
Proof. intros v v'. apply no_stream_stable. Qed.

Lemma at_rely s0 V s s' : stable V → at_ s0 V s → srely s s' → at_ s0 V s'.
Proof.
  intros HV [Hs Hv] [Hs' Hg]. split; [|by eapply HV]. rewrite Hs'. rewrite Hs. done.
Qed.

Definition no_video {X} (e : serverE X) : bool := match e with Video _ => false | _ => true end.
Lemma sact_frame {X} (e : serverE X) s v x :
  no_video e = true → sact e (with_vstate v s) x = with_vstate v <$> sact e s x.
Proof.
  destruct e; simpl; intros; try done; unfold fresh; simpl; repeat case_match; simplify_eq/=; try done.
Qed.
Lemma senabled_frame {X} (e : serverE X) s v :
  no_video e = true → senabled e (with_vstate v s) = senabled e s.
Proof. by destruct e. Qed.

(** A call of the server's own. *)
Lemma srv_act {A X} (e : serverE X) (k : X → prog serverE A) Q s0 V s :
  stable V → no_video e = true → at_ s0 V s → senabled e s0 = true →
  (∀ x s1, sact e s0 x = Some s1 →
     (∀ v, V v → server_inv socket_path files (with_vstate v s1)) ∧
     ∀ s2, at_ s1 V s2 → W (k x) Q s2) →
  W (Act e k) Q s.
Proof.
  intros HV He Hat Hen Hk. apply wpr_act. intros s1 H1. eapply at_rely in Hat; [|done..].
  destruct Hat as [Hs1 Hv]. rewrite Hs1. cbn [enabled act server_sem].
  split; [by rewrite senabled_frame|]. intros x s2 H2. rewrite sact_frame in H2 by done.
  destruct (sact e s0 x) as [s1'|] eqn:Hx; [|done]. injection H2 as <-.
  destruct (Hk x s1' Hx) as [Hinv Hk']. split.
  - split; [by apply Hinv|]. apply ctl_guar_refl.
  - apply Hk'. by split.
Qed.

(** A call of the video code, which keeps the server's part. *)
Lemma srv_video {A} (p : video A) (Q : A → server → Prop) (P : A → lstate → Prop) s0 V s :
  stable V → at_ s0 V s → exited s0 = None → server_inv socket_path files s0 →
  (∀ v, V v → wpr thread_guar ctl_guar fo p P v) →
  (∀ a s', at_ s0 (P a) s' → Q a s') →
  W (lift p) Q s.
Proof.
  intros HV Hat Hex Hinv Hp HQ.
  eapply wpr_mono.
  - apply (lift_wpr p thread_guar ctl_guar fo P (λ s, s = with_vstate (vstate s) s0)).
    + intros s1 s2 H1 [H2 Hg]. split; [|done]. rewrite H2. by rewrite H1.
    + intros s1 v H1 Hg. split; [split|]; [|exact Hg|by rewrite H1].
      rewrite H1. destruct Hinv as (?&?&?&?&?). split_and!; try done. intros st Hst.
      simpl in Hst. congruence.
    + apply Hat.
    + apply Hp, Hat.
  - intros a s' [H1 H2]. apply HQ. by split.
Qed.

(** The server's own part, while it runs. *)
Context (limit : Z) (Hlimit : limit <= FD_SETSIZE).
Definition running_server c l o nb rd b k h : server :=
  Server c l o nb rd b k false None limit h (lstart ev).

Lemma running_inv c l o nb rd b k h v :
  NoDup o → (length o <= 3)%nat → (l = false → c = -1 ∨ c ∈ o) →
  server_inv socket_path files (with_vstate v (running_server c l o nb rd b k h)).
Proof. intros. unfold server_inv. simpl. split_and!; [done..|by intros]. Qed.

Definition connected (sfd c : Z) (o : list Z) : Prop :=
  0 <= sfd < limit ∧ (c = -1 ∧ o = [sfd] ∨ 0 <= c < limit ∧ c ≠ sfd ∧ o = [c; sfd]).

Ltac sinv :=
  intros; apply running_inv; simpl;
  [repeat (apply NoDup_cons; split; [set_solver|]); try apply NoDup_nil_2; done|lia|];
  intros; first [done | by left | rewrite ?elem_of_cons; tauto].
Ltac srv :=
  cbn [call when mret prog_mret prog_bind];
  eapply srv_act; [eassumption|reflexivity|eassumption| |
    let x := fresh "x" in intros x ?s1 ?Hx; simpl in Hx;
    lazymatch type of x with unit => destruct x | _ => idtac end];
  [simpl|].

Lemma minus_other fd l : fd ∉ l → minus fd l = l.
Proof.
  unfold minus. induction l as [|f l IH]; intros H; [done|]. simpl.
  destruct (Z.eqb_spec f fd) as [->|]; simpl; [set_solver|]. rewrite IH; [done|set_solver].
Qed.
Lemma minus_same fd l : fd ∉ l → minus fd (fd :: l) = l.
Proof. intros H. unfold minus. simpl. rewrite Z.eqb_refl. by apply minus_other. Qed.
Lemma minus_second fd g l : fd ≠ g → minus fd (g :: l) = g :: minus fd l.
Proof. intros H. unfold minus. simpl. by destruct (Z.eqb_spec g fd) as [->|]. Qed.

(** Reading [client_fd]. *)
Lemma srv_rd_client {A} (k : Z → prog serverE A) Q s0 V s :
  stable V → at_ s0 V s → client_locked s0 = true →
  (∀ v, V v → server_inv socket_path files (with_vstate v s0)) →
  (∀ s2, at_ s0 V s2 → W (k (client_fd s0)) Q s2) →
  W (Act RdClient k) Q s.
Proof.
  intros HV Hat Hl Hinv Hk. eapply srv_act; [done|done|done|done|]. intros x s1 Hx. simpl in Hx.
  destruct (Z.eqb_spec x (client_fd s0)) as [->|]; [injection Hx as <-|done]. by split.
Qed.

Lemma connected_elem sfd c o : connected sfd c o → c = -1 ∨ c ∈ o.
Proof. intros [_ [[-> _]|(_ & _ & ->)]]; [by left|right; set_solver]. Qed.
Lemma connected_nodup sfd c o : connected sfd c o → NoDup o ∧ (length o <= 2)%nat ∧ sfd ∈ o.
Proof.
  intros [_ [[_ ->]|(_ & ? & ->)]]; (split_and!; [|simpl; lia|set_solver]).
  - apply NoDup_singleton.
  - apply NoDup_cons. split; [set_solver|apply NoDup_singleton].
Qed.

Section loop.
Context (sfd : Z) (V : lstate → Prop) (HV : stable V) (b : list string) (h : registry).
#[local] Abbreviation st c l o rd k := (running_server c l o [sfd] rd b k h).

Lemma connected_inv c l o rd k v : connected sfd c o →
  server_inv socket_path files (with_vstate v (st c l o rd k)).
Proof.
  intros H. pose proof (connected_elem _ _ _ H). destruct (connected_nodup _ _ _ H) as (?&?&?).
  apply running_inv; [done|lia|done].
Qed.

(** Accepting: nothing changes, or a new descriptor takes the client's place. *)
Lemma srv_accept c o rd k s Q :
  connected sfd c o → at_ (st c false o rd k) V s →
  (∀ s', at_ (st c false o rd k) V s' → Q tt s') →
  (∀ c' o' rd' s', connected sfd c' o' → c' ∉ o → 0 <= c' →
     at_ (st c' false o' rd' k) V s' → Q tt s') →
  W (accept_client sfd) Q s.
Proof.
  intros Hc Hat Hsame Hnew. destruct (connected_nodup _ _ _ Hc) as (Hnd & Hlen & Hsfd).
  pose proof (connected_elem _ _ _ Hc) as Hin. unfold accept_client. srv; [by apply bool_decide_eq_true_2|].
  rewrite bool_decide_eq_true_2 in Hx by set_solver. simpl in Hx.
  destruct (Z.ltb_spec x 0).
  { injection Hx as <-. split; [intros; by apply connected_inv|]. intros s2 Hat2.
    destruct (Z.leb_spec 0 x); [lia|]. apply wpr_ret. intros s3 H3. apply Hsame. by eapply at_rely. }
  destruct (fresh x _) eqn:Hf; [|done]. injection Hx as <-.
  unfold fresh in Hf. simpl in Hf. rewrite !andb_true_iff, bool_decide_eq_true in Hf.
  destruct Hf as [[_ Hx%Z.ltb_lt] Hxo].
  split; [sinv|]. intros s2 Hat2. destruct (Z.leb_spec 0 x); [|lia].
  clear Hat. srv; [done|]. injection Hx0 as <-. split; [sinv|]. intros s3 Hat3. clear Hat2.
  cbn [prog_bind call]. eapply srv_rd_client; [done|done|done|sinv|]. intros s4 Hat4. clear Hat3. simpl.
  assert (Hlast : ∀ rd' s', at_ (running_server c true [x; sfd] [sfd] rd' b k h) V s' →
    W (Act (WrClient x) (λ _, call UnlockClient)) Q s').
  { intros rd' s' Hat'. srv; [done|]. injection Hx0 as <-. split; [sinv|]. intros s5 Hat5. clear Hat'.
    srv; [done|]. injection Hx0 as <-. split; [sinv|]. intros s6 Hat6.
    apply wpr_ret. intros s7 H7. apply (Hnew x [x; sfd] rd' s7); [|done|done|by eapply at_rely].
    split; [apply Hc|]. right. split_and!; [done..|set_solver|done]. }
  destruct Hc as [Hs [[-> ->]|(Hc & Hne & ->)]].
  - apply (Hlast rd). done.
  - destruct (Z.leb_spec 0 c); [|lia]. srv; [apply bool_decide_eq_true_2; set_solver|].
    injection Hx0 as <-. rewrite minus_second by set_solver. rewrite minus_same by set_solver.
    rewrite minus_other by set_solver. split; [sinv|]. intros s5 Hat5. by apply (Hlast (minus c rd)).
Qed.

(** Reading: nothing but the descriptor's readiness changes, or the client is
    dropped. *)
Lemma srv_read c o rd k s Q :
  connected sfd c o → 0 <= c → c ∈ rd → at_ (st c false o rd k) V s →
  (∀ c' o' rd' s', connected sfd c' o' → at_ (st c' false o' rd' k) V s' → Q tt s') →
  W (read_client c) Q s.
Proof.
  intros Hc Hc0 Hrd Hat HQ. unfold read_client.
  assert (Hc' := Hc). destruct Hc' as [Hs [[-> _]|(Hcl & Hne & ->)]]; [lia|].
  srv; [apply bool_decide_eq_true_2; set_solver|].
  rewrite bool_decide_eq_true_2 in Hx by done. simpl in Hx.
  destruct (x <=? 1); [|done]. injection Hx as <-.
  split; [sinv; right; set_solver|]. intros s2 Hat2. destruct (x <=? 0).
  2: { apply wpr_ret. intros s3 H3. eapply HQ; [done|]. by eapply at_rely. }
  clear Hat. srv; [done|]. injection Hx as <-. split; [sinv|]. intros s3 Hat3. clear Hat2.
  cbn [prog_bind call]. eapply srv_rd_client; [done|done|done|sinv|]. intros s4 Hat4. clear Hat3. simpl.
  srv; [apply bool_decide_eq_true_2; set_solver|]. injection Hx as <-.
  rewrite minus_same by set_solver. rewrite minus_other by set_solver.
  split; [sinv|]. intros s5 Hat5. clear Hat4.
  srv; [done|]. injection Hx as <-. split; [sinv|]. intros s6 Hat6. clear Hat5.
  srv; [done|]. injection Hx as <-. split; [sinv|]. intros s7 Hat7.
  apply wpr_ret. intros s8 H8. apply (HQ (-1) [sfd] (minus c (minus c rd)) s8); [|by eapply at_rely].
  split; [done|by left].
Qed.

(** One iteration: the number of selects left goes down, or the last one failed. *)
Lemma srv_serve c o rd k s (Q : unit + unit → server → Prop) :
  connected sfd c o → at_ (st c false o rd k) V s →
  (∀ c' o' rd' k' r s', connected sfd c' o' → at_ (st c' false o' rd' k') V s' →
     match r with inl _ => (k' < k)%nat | inr _ => True end → Q r s') →
  W (serve sfd tt) Q s.
Proof.
  intros Hc Hat HQ. unfold serve.
  pose proof (connected_elem _ _ _ Hc) as Hin. destruct (connected_nodup _ _ _ Hc) as (Hnd & Hlen & Hsfd).
  srv; [done|]. injection Hx as <-. split; [sinv|]. intros s2 Hat2. clear Hat. cbn [prog_bind].
  eapply srv_rd_client; [done|done|done|sinv|]. intros s3 Hat3. clear Hat2. simpl client_fd.
  srv; [done|]. injection Hx as <-. split; [sinv|]. intros s4 Hat4. clear Hat3.
  set (fds := sfd :: _).
  assert (Hfds : ∀ fd, fd ∈ fds → fd ∈ o ∧ 0 <= fd < limit ∧
    fd < (if sfd <? c then c else sfd) + 1).
  { intros fd. unfold fds. destruct Hc as [? [[-> ->]|(? & ? & ->)]].
    - simpl. intros ->%list_elem_of_singleton. destruct (Z.ltb_spec sfd (-1)); set_solver by lia.
    - destruct (Z.leb_spec 0 c); [|lia].
      intros [->| ->%list_elem_of_singleton]%elem_of_cons;
        destruct (Z.ltb_spec sfd c); (split; [set_solver|lia]). }
  clearbody fds. srv.
  { apply forallb_forall. intros fd Hfd%list_elem_of_In. destruct (Hfds fd Hfd) as (? & ? & ?).
    rewrite !andb_true_iff, bool_decide_eq_true. split_and!; [apply Z.leb_le|apply Z.ltb_lt..|done]; lia. }
  destruct x as [[rc ready] err]. destruct (rc <? 0) eqn:Hrc.
  - assert (Hnext : ∃ k', s1 = st c false o rd k' ∧ ((err =? EINTR) = true → (k' < k)%nat)).
    { simpl in Hx. destruct (err =? EINTR); simpl in Hx; [|injection Hx as <-; by exists k].
      destruct k as [|k']; [done|]. injection Hx as <-. exists k'. split; [done|lia]. }
    destruct Hnext as (k' & -> & Hk). split; [sinv|]. intros s5 Hat5.
    destruct (err =? EINTR); apply wpr_ret; intros s6 H6;
      (eapply HQ; [exact Hc|by eapply at_rely|auto]).
  - simpl in Hx. destruct k as [|k']; [done|].
    destruct ((rc =? _) && forallb _ ready) eqn:Hr; [|done]. injection Hx as <-.
    apply andb_true_iff in Hr as [_ Hr]. rewrite forallb_forall in Hr.
    assert (Hready : ∀ fd, fd ∈ ready → fd ∈ o).
    { intros fd Hfd. apply Hfds. eapply bool_decide_eq_true_1, Hr. by apply list_elem_of_In. }
    clear Hr. split; [sinv|]. intros s5 Hat5. clear Hat4.
    assert (Hrest : ∀ c' o' rd' s', connected sfd c' o' → (c' ∈ ready → 0 <= c' → c' ∈ rd') →
      at_ (st c' false o' rd' k') V s' →
      W (call LockClient;; current ← call RdClient; call UnlockClient;;
          when ((0 <=? current) && FD_ISSET current ready) (read_client current);;
          mret (inl tt)) Q s').
    { clear s5 Hat5. intros c' o' rd' s5 Hc' Hrd' Hat5.
      pose proof (connected_elem _ _ _ Hc') as Hin'. destruct (connected_nodup _ _ _ Hc') as (Hnd' & Hlen' & _).
      srv; [done|]. injection Hx as <-. split; [sinv|]. intros s6 Hat6. clear Hat5. cbn [prog_bind].
      eapply srv_rd_client; [done|done|done|sinv|]. intros s7 Hat7. clear Hat6. simpl client_fd.
      srv; [done|]. injection Hx as <-. split; [sinv|]. intros s8 Hat8. clear Hat7.
      cbn [call prog_bind]. apply wpr_bind; [exact _|]. unfold FD_ISSET.
      destruct (Z.leb_spec 0 c'); cbn [andb when]; [case_bool_decide; cbn [when]|].
      - eapply srv_read; [exact Hc'|done|by apply Hrd'|exact Hat8|].
        intros c2 o2 rd2 s9 Hc2 Hat9. apply wpr_ret. intros s10 H10.
        eapply HQ; [exact Hc2|by eapply at_rely|simpl; lia].
      - apply wpr_ret. intros s9 H9. eapply at_rely in Hat8; [|done..]. apply wpr_ret. intros s10 H10.
        eapply HQ; [exact Hc'|by eapply at_rely|simpl; lia].
      - apply wpr_ret. intros s9 H9. eapply at_rely in Hat8; [|done..]. apply wpr_ret. intros s10 H10.
        eapply HQ; [exact Hc'|by eapply at_rely|simpl; lia]. }
    apply wpr_bind; [exact _|]. unfold FD_ISSET at 1. case_bool_decide; cbn [when].
    + eapply srv_accept; [exact Hc|exact Hat5|..].
      * intros s6 Hat6. by apply (Hrest c o ready).
      * intros c' o' rd' s6 Hc' Hno Hc0 Hat6. apply (Hrest c' o' rd'); [done| |done].
        intros Hin' _. exfalso. by apply Hno, Hready.
    + apply wpr_ret. intros s6 H6. apply (Hrest c o ready); [done|done|]. by eapply at_rely.
Qed.
End loop.

(** *** Leaving *)

Lemma srv_stop {A} (k : prog serverE A) Q s0 s :
  at_ s0 busy s → exited s0 = None → server_inv socket_path files s0 →
  (∀ s', at_ s0 no_stream s' → W k Q s') →
  W (lift jetkvm_video_stop;; lift jetkvm_video_shutdown;; k) Q s.
Proof.
  intros Hat Hex Hinv Hk. apply wpr_bind; [exact _|].
  eapply (srv_video _ _ (λ _, idle ev)); [apply busy_stable|done|done|done|..].
  { intros v Hv. by apply ctl_stop. }
  intros _ s1 H1. apply wpr_bind; [exact _|].
  eapply (srv_video _ _ (λ _, no_stream)); [apply idle_stable|done|done|done|..].
  { intros v Hv. apply (ctl_shutdown ev). by left. }
  intros _ s2 H2. by apply Hk.
Qed.

Lemma srv_exit c b k h status s :
  c = -1 → (status = 0 ∧ b = left_behind socket_path files ∨ status = 1) →
  ∀ nb rd, at_ (running_server c false [] nb rd b k h) no_stream s →
  W (call (Exit status)) (λ _ s', is_Some (exited s')) s.
Proof.
  intros -> Hst nb rd Hat. eapply srv_act; [apply no_stream_stable'|done|exact Hat|done|].
  intros [] s1 Hx. injection Hx as <-. split.
  - intros v Hv. unfold server_inv, clean_exit. simpl.
    split_and!; [done|apply NoDup_nil_2|lia|by left|].
    intros ? [= <-]. split_and!; try done; [intuition|]. intros ->. naive_solver.
  - intros s2 [Hs2 _]. apply wpr_ret. intros s3 [Hs3 _]. rewrite Hs3, Hs2. simpl. by eexists.
Qed.

#[local] Abbreviation leaves :=
  (λ status s', W (call (Exit status)) (λ _ s'', is_Some (exited s'')) s').

(** The error exits. *)
Lemma srv_give_up nb rd b k h s :
  at_ (running_server (-1) false [] nb rd b k h) busy s →
  W stop_video leaves s.
Proof.
  intros Hat. unfold stop_video.
  eapply srv_stop; [done|done|by apply (running_inv _ _ _ _ _ _ _ _ (lstart ev)); [apply NoDup_nil_2|simpl; lia|left]|].
  intros s' Hat'. apply wpr_ret. intros s2 H2.
  eapply srv_exit; [done|by right|]. eapply at_rely; [apply no_stream_stable'|done|done].
Qed.
Lemma srv_close_and_stop sfd nb rd b k h s :
  0 <= sfd → at_ (running_server (-1) false [sfd] nb rd b k h) busy s →
  W (close_and_stop sfd) leaves s.
Proof.
  intros Hs Hat. pose proof busy_stable. unfold close_and_stop. srv; [apply bool_decide_eq_true_2; set_solver|].
  injection Hx as <-. rewrite minus_same by set_solver. split.
  { intros. apply running_inv; [apply NoDup_nil_2|simpl; lia|by left]. }
  intros s2 Hat2. cbn [prog_bind]. by eapply srv_give_up.
Qed.

Lemma filter_twice path (l : list string) :
  List.filter (λ p, negb (streq p path)) (List.filter (λ p, negb (streq p path)) l)
  = List.filter (λ p, negb (streq p path)) l.
Proof.
  induction l as [|p l IH]; [done|]. simpl. destruct (negb (streq p path)) eqn:E; [|done].
  simpl. by rewrite E, IH.
Qed.
Lemma sun_path_same path : streq (sun_path_of path) path = (strlen path <=? 107).
Proof.
  unfold streq, sun_path_of, sun_path_size.
  assert (Hlen : strlen path = Z.of_nat (length (chars path))).
  { unfold strlen. by rewrite length_chars. }
  destruct (Z.leb_spec (strlen path) 107).
  - rewrite take_ge by lia. rewrite text_chars. apply String.eqb_refl.
  - apply String.eqb_neq. intros Heq. apply (f_equal chars) in Heq.
    rewrite chars_text in Heq. apply (f_equal length) in Heq. rewrite length_take in Heq. lia.
Qed.

Lemma srv_cleanup sfd c o nb rd b k h s :
  connected sfd c o →
  b = sun_path_of socket_path :: List.filter (λ p, negb (streq p socket_path)) files →
  at_ (running_server c false o nb rd b k h) busy s →
  W (cleanup sfd socket_path) leaves s.
Proof.
  intros Hc Hb Hat. unfold cleanup.
  pose proof Hc as Hin%connected_elem. pose proof Hc as (Hnd & Hlen & Hsfd)%connected_nodup.
  pose proof no_stream_stable'.
  eapply srv_stop; [exact Hat|done|by apply (running_inv _ _ _ _ _ _ _ _ (lstart ev)); [|lia|]|].
  clear Hat. intros s1 Hat1.
  srv; [done|]. injection Hx as <-. split; [sinv|]. intros s2 Hat2. clear Hat1. cbn [prog_bind].
  eapply srv_rd_client; [done|done|done|sinv|]. intros s3 Hat3. clear Hat2. simpl client_fd.
  apply wpr_bind; [exact _|].
  assert (Hrest : ∀ nb rd s', at_ (running_server (-1) true [sfd] nb rd b k h) no_stream s' →
    W (call UnlockClient;; call (CloseFd sfd);; call (Unlink socket_path);; mret 0)
      leaves s').
  { clear s3 Hat3. intros nb' rd' s3 Hat3.
    srv; [done|]. injection Hx as <-. split; [sinv|]. intros s4 Hat4. clear Hat3.
    srv; [apply bool_decide_eq_true_2; set_solver|]. injection Hx as <-.
    rewrite minus_same by set_solver. split; [sinv|]. intros s5 Hat5. clear Hat4.
    srv; [done|]. injection Hx as <-. split; [sinv|]. intros s6 Hat6. clear Hat5.
    apply wpr_ret. intros s7 H7. eapply at_rely in Hat6; [|done..].
    eapply srv_exit; [done| |exact Hat6]. left. split; [done|].
    rewrite Hb. simpl. rewrite sun_path_same, filter_twice. unfold left_behind.
    by destruct (strlen socket_path <=? 107). }
  destruct Hc as [Hs [[-> ->]|(Hcl & Hne & ->)]].
  { apply wpr_ret. intros s4 H4. eapply Hrest. by eapply at_rely. }
  destruct (Z.leb_spec 0 c); [|lia]. cbn [when].
  srv; [apply bool_decide_eq_true_2; set_solver|]. injection Hx as <-.
  rewrite minus_same by set_solver. split; [sinv|]. intros s4 Hat4. clear Hat3.
  srv; [done|]. injection Hx as <-. split; [sinv|]. intros s5 Hat5.
  apply wpr_ret. intros s6 H6. eapply Hrest. by eapply at_rely.
Qed.

(** *** [main] *)

Lemma srv_main n argv s life :
  socket_path = (match argv with _ :: path :: _ => path | _ => SOCKET_PATH end) →
  (life < n)%nat →
  at_ (running_server (-1) false [] [] [] files life no_handlers) (idle ev) s →
  W (main_thread n argv) (λ _ s', is_Some (exited s')) s.
Proof.
  intros Hpath Hn Hat. pose proof idle_stable as Hstable.
  unfold main_thread, main. rewrite <- Hpath.
  assert (Hnil : ∀ nb rd b k h v,
    server_inv socket_path files (with_vstate v (running_server (-1) false [] nb rd b k h)))
    by (intros; apply running_inv; [apply NoDup_nil_2|simpl; lia|by left]).
  srv; [done|]. injection Hx as <-. split; [intros; apply Hnil|]. intros s2 Hat2. clear Hat.
  srv; [done|]. injection Hx as <-. split; [intros; apply Hnil|]. intros s3 Hat3. clear Hat2.
  set (b := List.filter _ files) in *. set (h := set_handlers no_handlers) in *.
  change (at_ (running_server (-1) false [] [] [] b life h) (idle ev) s3) in Hat3. clearbody h.
  apply wpr_bind; [exact _|]. apply wpr_bind; [exact _|].
  eapply (srv_video _ _ (λ _, idle ev)); [done|exact Hat3|done|apply (Hnil _ _ _ _ _ (lstart ev))|..].
  { intros v [j Hv]. eapply (ctl_quiet ev); [apply basic_init|exact Hv|]. intros. by exists j. }
  intros rc s4 Hat4. destruct (rc =? 0); cbn [negb].
  2: { apply wpr_ret. intros s5 H5. eapply srv_exit; [done|by right|].
       eapply at_rely in Hat4; [|done..]. destruct Hat4 as [H4 Hv].
       split; [exact H4|by eapply idle_no_stream]. }
  apply wpr_bind; [exact _|].
  eapply (srv_video _ _ (λ _, busy)); [done|exact Hat4|done|apply (Hnil _ _ _ _ _ (lstart ev))|..].
  { intros v Hv. apply ctl_start. by left. }
  intros _ s5 Hat5. clear Hat3 Hat4 s3 s4 Hstable. pose proof busy_stable.
  srv; [done|]. rename x into sfd. destruct (Z.ltb_spec sfd 0).
  { injection Hx as <-. split; [intros; apply Hnil|]. intros s6 Hat6. by eapply srv_give_up. }
  destruct (fresh sfd _) eqn:Hf; [|done]. injection Hx as <-.
  unfold fresh in Hf. simpl in Hf. rewrite !andb_true_iff in Hf. destruct Hf as [[_ Hlt%Z.ltb_lt] _].
  assert (Hone : ∀ nb rd b k h v,
    server_inv socket_path files (with_vstate v (running_server (-1) false [sfd] nb rd b k h)))
    by (intros; apply running_inv; [apply NoDup_singleton|simpl; lia|by left]).
  split; [intros; apply Hone|]. intros s6 Hat6. clear Hat5. unfold set_nonblocking.
  assert (Hopen : bool_decide (sfd ∈ [sfd]) = true) by (apply bool_decide_eq_true_2; set_solver).
  srv; [done|]. rename x into flags. injection Hx as <-. split; [intros; apply Hone|].
  intros s7 Hat7. clear Hat6. destruct (flags <? 0).
  { cbn [prog_bind mret prog_mret negb]. by eapply srv_close_and_stop. }
  srv; [done|]. cbn [prog_bind mret prog_mret]. destruct (x <? 0); cbn [negb].
  { injection Hx as <-. split; [intros; apply Hone|]. intros s8 Hat8. by eapply srv_close_and_stop. }
  replace (has_nonblock (Z.lor flags O_NONBLOCK)) with true in Hx
    by (unfold has_nonblock; rewrite Z.lor_spec; by rewrite orb_true_r).
  injection Hx as <-. split; [intros; apply Hone|]. intros s8 Hat8. clear Hat7.
  srv; [done|]. destruct (x0 <? 0).
  { injection Hx as <-. split; [intros; apply Hone|]. intros s9 Hat9. by eapply srv_close_and_stop. }
  case_bool_decide; [done|]. injection Hx as <-. split; [intros; apply Hone|].
  intros s9 Hat9. clear Hat8.
  srv; [done|]. injection Hx as <-. split; [intros; apply Hone|]. intros s10 Hat10. clear Hat9.
  destruct (x1 <? 0); [by eapply srv_close_and_stop|].
  apply wpr_bind; [exact _|].
  set (b' := sun_path_of socket_path :: b) in *.
  apply (wpr_loop_measure _ _ _
    (λ _ s, ∃ c o rd k, connected sfd c o ∧ at_ (running_server c false o [sfd] rd b' k h) busy s)
    (λ _ s, selects_left s)); [| |by destruct Hat10 as [-> _]].
  - clear s10 Hat10. intros [] s10 (c & o & rd & k & Hc & Hat10).
    eapply srv_serve; [done|exact Hc|exact Hat10|]. intros c' o' rd' k' r s11 Hc' Hat11 Hr.
    destruct r as [[]|[]].
    + split; [by eexists _, _, _, _|]. by destruct Hat10 as [-> _], Hat11 as [-> _].
    + intros s12 H12. eapply srv_cleanup; [exact Hc'|reflexivity|by eapply at_rely].
  - exists (-1), [sfd], [], life. split; [split; [done|by left]|exact Hat10].
Qed.

(** *** The capture threads *)

Lemma capture_in_server n m t s :
  devices_ok ev → l_env (vstate s) = ev → one_alive (vstate s) → reader_inv (vstate s) →
  wpr (crely t) (cguar t) True (lift (capture_thread n m t)) (λ _ _, True) s.
Proof.
  intros Hok He Ho Hi.
  eapply wpr_mono; [apply (lift_wpr _ (thread_rely t) (thread_step t) True (λ _ _, True) (λ _, True))|done].
  - done.
  - intros s1 v _ Hg. by split.
  - done.
  - by apply (capture_thread_safe ev).
Qed.

(** The state's invariant is kept by the capture threads too. *)
Lemma server_inv_capture t s s' :
  cguar t s s' → server_inv socket_path files s → server_inv socket_path files s'.
Proof.
  intros [-> [Hg _]] (Hw & Hnd & Hlen & Hin & Hex). split_and!; [done..|].
  intros st Hst. destruct (Hex st Hst) as (?&?&?&?&?&?). split_and!; try done.
  by eapply no_stream_stable.
Qed.
End threads.

(** ** Properties *)

(** The main thread and as many capture threads as it starts. *)
Definition server_pool (n m k : nat) (argv : list string) : list (prog serverE unit) :=
  main_thread n argv :: map (λ t, lift (capture_thread n m t)) (seq 0 k).
Definition path_of (argv : list string) : string :=
  match argv with _ :: path :: _ => path | _ => SOCKET_PATH end.

(** C5: the standalone server keeps its descriptors. In every reachable state of
    [main], interleaved in any way with the capture threads it starts, with any
    answers of the system (those of the video devices within [devices_ok]) and any
    number [life] of selects before one fails: nothing undefined has happened or is
    about to (in particular no descriptor is used or closed after it was closed, none
    outside an [fd_set] is put into it, and [client_fd] is only touched under its
    mutex); at most three descriptors are open; when the mutex is free [client_fd] is
    -1 or an open descriptor; and neither [accept] nor [read] ever waited, so the loop
    only waits in [select]. Whichever way [main] leaves, it returns 0 or 1 with every
    descriptor closed, no client, every capture thread joined, and after a successful
    run the socket file is removed unless its name was cut. Its loop ends with the
    first [select] that fails for another reason than a signal. *)
Theorem server_invariant (ev : env) (limit : Z) (files : list string) (argv : list string)
    (life n m k : nat) c :
  devices_ok ev → limit <= FD_SETSIZE → (life < n)%nat →
  rtc pstep (server_pool n m k argv, server_start ev limit files life) c →
  ¬ crashed c ∧ server_inv (path_of argv) files c.2 ∧
  c.1 !! 0%nat ≠ Some (Stop NoFuel) ∧
  (c.1 !! 0%nat = Some (Ret tt) → is_Some (exited c.2)).
Proof.
  intros Hdev Hlim Hlife Hsteps.
  set (R i := match i with O => srely | S t => crely t end).
  set (G i := match i with O => sguar (path_of argv) files | S t => cguar t end).
  set (fo i := match i with O => False | S _ => True end).
  set (T i := λ (_ : unit) s, match i with O => is_Some (exited s) | S _ => True end).
  assert (Hok : pool_ok R G fo T (server_pool n m k argv, server_start ev limit files life)).
  { intros [|t] p Hp; simpl in Hp.
    - injection Hp as <-.
      apply (srv_main ev (path_of argv) files False limit Hlim n argv _ life); [done|done|].
      split; [done|]. exists 0%nat. by split_and!; simpl; try lia.
    - rewrite list_lookup_fmap in Hp. destruct (seq 0 k !! t) as [t'|] eqn:Ht; [|done].
      apply lookup_seq in Ht as [-> _]. injection Hp as <-.
      destruct (lstart_inv ev). by apply (capture_in_server ev). }
  assert (HGR : ∀ i j s s', i ≠ j → G i s s' → R j s s').
  { intros [|t] [|t'] s s' Hne HG; simpl in *; [done|apply HG|split; apply HG|].
    apply HG. congruence. }
  assert (HR : ∀ i, PreOrder (R i)) by (intros [|t]; apply _).
  destruct (rg_sound R G fo T HR HGR _ _ Hok Hsteps) as [Hok' Hsafe].
  split_and!; [done| | |].
  - refine (rg_invariant R G fo T HR HGR _ _ c _ Hok _ Hsteps).
    + intros [|t] s s' HG; [intros _; apply HG|]. by eapply server_inv_capture.
    + unfold server_inv. simpl. split_and!; [done|apply NoDup_nil_2|lia|by left|done].
  - intros Hf. exact (pool_ok_fuel R G fo T HR c 0 Hok' Hf).
  - intros Hd. exact (pool_ok_done R G fo T HR c 0 Hok' Hd).
Qed.

(** A session: a client connects, hangs up, another one connects, and [select]
    fails. *)
Definition session_answers (X : Type) (e : serverE X) (s : server) : X :=
  match e in serverE X return X with
  | Video e => life_answers ordinary _ e (vstate s)
  | Socket => 3
  | GetFlags _ => 2
  | SetFlags _ _ | Bind _ _ | Listen _ _ | ReadByte _ => 0
  | WaitReadable _ _ =>
      match selects_left s with
      | 3%nat => (1, [3], 0)
      | 2%nat => (1, [4], 0)
      | 1%nat => (1, [3], 0)
      | _ => (-1, [], 9)
      end
  | Accept _ => 4
  | RdClient => client_fd s
  | Register _ | Unlink _ | CloseFd _ | LockClient | UnlockClient | WrClient _ | Exit _ => tt
  end.

Lemma server_invariant_witness :
  let c := psched session_answers (sched [(0, 90); (1, 40); (0, 100); (1, 40); (0, 60)]%nat)
             (server_pool 4 9 1 ["main"%string], server_start (hdmi_env true) 1024 [] 3) in
  exited c.2 = Some 0 ∧ open_fds c.2 = [] ∧ bound c.2 = [] ∧ ¬ crashed c.
Proof.
  intros c.
  destruct (server_invariant (hdmi_env true) 1024 [] ["main"%string] 3 4 9 1 c
    hdmi_env_ok ltac:(done) ltac:(lia) (psched_steps _ _ _))
    as (Hsafe & (_ & _ & _ & _ & Hex) & _).
  assert (He : exited c.2 = Some 0) by (vm_compute; reflexivity).
  destruct (Hex 0 He) as (_ & Ho & _ & _ & _ & Hb). by split_and!.
Defined.
