(* ===== verification/Audio.v ===== *)
(** * The audio pipelines: the code of [audio.c]

    src/internal/audio/c/audio.c as programs over the actions [audioE]: the
    file's globals, ALSA, Opus and sleeping.  The two static sample buffers are
    lists the code stores into and crashes out of; the caller's packet buffer is
    passed with its real size.  Tracing, prefetching and the two lines printed to
    stderr when a device does not open are left out. *)
From S2P Require Import Prelude Effects.

(** ** Constants *)

Definition EPERM : Z := 1.
Definition ENOENT : Z := 2.
Definition EINTR : Z := 4.
Definition EIO : Z := 5.
Definition EAGAIN : Z := 11.
Definition EACCES : Z := 13.
Definition EBUSY : Z := 16.
Definition ENODEV : Z := 19.
Definition EPIPE : Z := 32.
Definition ESTRPIPE : Z := 86.
Definition OPUS_OK : Z := 0.
Definition NULL : Z := 0.
(** [static short pcm_buffer[960 * 2]] *)
Definition pcm_buffer_size : nat := 1920.

(** ** Configuration *)

Record config := Config {
  sample_rate : Z; channels : Z; frame_size : Z;
  opus_bitrate : Z; opus_complexity : Z; max_packet_size : Z;
  sleep_microseconds : Z; sleep_milliseconds : Z;
  max_attempts_global : Z; max_backoff_us_global : Z
}.

(** The initial values of the file's variables. *)
Definition default_config : config :=
  Config 48000 2 960 128000 5 1500 1000 1 5 500000.

Inductive direction := Capture | Playback.
#[export] Instance direction_eq_dec : EqDecision direction.
Proof. solve_decision. Defined.

(** The pointers and flags other threads can change under a function: for each
    direction the PCM handle, the codec instance and the two flags. *)
Inductive gvar := pcm_handle (d : direction) | codec (d : direction)
  | initializing (d : direction) | initialized (d : direction).
#[export] Instance gvar_eq_dec : EqDecision gvar.
Proof. solve_decision. Defined.

(** ** Actions *)

(** The parameters [configure_alsa_device] sets, in ALSA's terms. *)
Inductive hw_request :=
| hw_any | hw_access_rw_interleaved | hw_format_s16_le | hw_channels (n : Z) | hw_rate (hz : Z)
| hw_install | sw_current | sw_start_threshold (frames : Z) | sw_avail_min (frames : Z) | sw_install.

Inductive encoder_ctl :=
| SET_BITRATE (v : Z) | SET_COMPLEXITY (v : Z) | SET_VBR (v : Z) | SET_VBR_CONSTRAINT (v : Z)
| SET_SIGNAL (v : Z) | SET_BANDWIDTH (v : Z) | SET_DTX (v : Z) | SET_LSB_DEPTH (v : Z)
| SET_INBAND_FEC (v : Z) | SET_PACKET_LOSS_PERC (v : Z).

Inductive audioE : Type → Type :=
(* globals *)
| Ld (v : gvar) : audioE Z
| St (v : gvar) (x : Z) : audioE unit
| CAS (v : gvar) (old new : Z) : audioE bool
| Cfg : audioE config
| SetCfg (c : config) : audioE unit
| LdDev (d : direction) : audioE (option string)                    (* [None] is [NULL] *)
| StDev (d : direction) (name : option string) : audioE unit
| LdBuf (d : direction) : audioE (list Z)
| StBuf (d : direction) (buf : list Z) : audioE unit
(* the C library *)
| GetEnv (name : string) : audioE (option string)
| Nanosleep (tv_sec tv_nsec : Z) : audioE unit
| SchedYield : audioE unit
(* ALSA *)
| PcmOpen (device : option string) (d : direction) : audioE (Z * Z)         (* rc, handle *)
| PcmNonblock (h mode : Z) : audioE Z
| PcmClose (h : Z) : audioE unit
| PcmDrain (h : Z) : audioE unit
| PcmDrop (h : Z) : audioE Z
| PcmPrepare (h : Z) : audioE Z
| PcmResume (h : Z) : audioE Z
| PcmWait (h ms : Z) : audioE Z
| HwRequest (h : Z) (r : hw_request) : audioE Z
| HwRateNear (h hz : Z) : audioE Z
| HwPeriodNear (h frames : Z) : audioE (Z * Z)                       (* rc, period *)
| HwBufferNear (h frames : Z) : audioE Z
| PcmReadi (h frames : Z) : audioE (Z * list Z)                      (* rc, samples *)
| PcmWritei (h : Z) (pcm : list Z) (frames : Z) : audioE Z
(* Opus *)
| EncoderCreate (rate chans : Z) : audioE (Z * Z)                    (* instance, error *)
| EncoderDestroy (e : Z) : audioE unit
| EncoderCtl (e : Z) (req : encoder_ctl) : audioE Z
| OpusEncode (e : Z) (pcm : list Z) (frames max : Z) : audioE (Z * list Z)   (* rc, bytes *)
| DecoderCreate (rate chans : Z) : audioE (Z * Z)
| DecoderDestroy (e : Z) : audioE unit
| OpusDecode (e : Z) (data : option (list Z)) (frames fec : Z) : audioE (Z * list Z). (* rc, samples *)

Abbreviation audio := (prog audioE).

(** ** Settings *)

Definition update_audio_constants (bitrate complexity sr ch fs max_pkt sleep_us
    max_attempts max_backoff : Z) : audio unit :=
  call (SetCfg (Config sr ch fs bitrate complexity max_pkt sleep_us (sleep_us / 1000)
                  max_attempts max_backoff)).

Definition update_audio_decoder_constants (sr ch fs max_pkt sleep_us
    max_attempts max_backoff : Z) : audio unit :=
  c ← call Cfg;
  call (SetCfg (Config sr ch fs (opus_bitrate c) (opus_complexity c) max_pkt sleep_us
                  (sleep_us / 1000) max_attempts max_backoff)).

(** [name == NULL || name[0] == '\0']: the variable is read twice. *)
Definition device_unset (d : direction) : audio bool :=
  name ← call (LdDev d);
  match name with
  | None => mret true
  | Some _ =>
      name ← call (LdDev d);
      match name with
      | None => Stop (Crash "the device name is NULL")
      | Some name => mret (bool_decide (name = ""%string))
      end
  end.

(** The lines for one of the two names: the value of the environment is stored
    as it is, possibly [NULL], before the default. *)
Definition init_device (variable : string) (d : direction) : audio unit :=
  v ← call (GetEnv variable);
  call (StDev d v);;
  unset ← device_unset d;
  when unset (call (StDev d (Some "hw:1,0"%string))).

Definition init_alsa_devices_from_env : audio unit :=
  init_device "ALSA_CAPTURE_DEVICE" Capture;;
  init_device "ALSA_PLAYBACK_DEVICE" Playback.

Definition update_opus_encoder_params (bitrate complexity : Z) : audio Z :=
  e ← call (Ld (codec Capture));
  i ← call (Ld (initialized Capture));
  if (e =? NULL) || (i =? 0) then mret (-1)
  else
    c ← call Cfg;
    call (SetCfg (Config (sample_rate c) (channels c) (frame_size c) bitrate complexity
                    (max_packet_size c) (sleep_microseconds c) (sleep_milliseconds c)
                    (max_attempts_global c) (max_backoff_us_global c)));;
    r1 ← call (EncoderCtl e (SET_BITRATE bitrate));
    r2 ← call (EncoderCtl e (SET_COMPLEXITY complexity));
    mret (Z.lor r1 r2).

(** ** [simd_clear_samples_s16] on the buffer from [start] on; a vector store
    writes eight samples.  [None]: a store outside the buffer. *)

Definition vst1q_zero (buf : list Z) (i : Z) : option (list Z) :=
  store_list buf i (replicate 8 0).

(** [for (; i < simd_samples; i += 16)], [n] iterations *)
Fixpoint clear16 (n : nat) (buf : list Z) (i : Z) : option (list Z) :=
  match n with
  | O => Some buf
  | S n' =>
      buf ← vst1q_zero buf i;
      buf ← vst1q_zero buf (i + 8);
      clear16 n' buf (i + 16)
  end%stdpp.

(** [for (; i < samples; i++)], [n] iterations *)
Fixpoint clear1 (n : nat) (buf : list Z) (i : Z) : option (list Z) :=
  match n with
  | O => Some buf
  | S n' => buf ← store buf i 0; clear1 n' buf (i + 1)
  end%stdpp.

Definition simd_clear_samples_s16 (buf : list Z) (start samples : Z) : option (list Z) :=
  let simd_samples := Z.land samples (u32 (Z.lnot 15)) in
  (buf ← clear16 (Z.to_nat (simd_samples / 16)) buf start;
   let i := simd_samples in
   if i + 8 <=? samples then
     buf ← vst1q_zero buf (start + i);
     clear1 (Z.to_nat (samples - (i + 8))) buf (start + (i + 8))
   else clear1 (Z.to_nat (samples - i)) buf (start + i))%stdpp.

(** ** ALSA utilities *)

Definition precise_sleep_us (microseconds : Z) : audio unit :=
  call (Nanosleep (microseconds / 1000000) ((microseconds mod 1000000) * 1000)).

(** [(backoff_us << 1 < max_backoff_us_global) ? (backoff_us << 1) : max_backoff_us_global] *)
Definition double_backoff (c : config) (backoff_us : Z) : Z :=
  if u32 (Z.shiftl backoff_us 1) <? max_backoff_us_global c
  then u32 (Z.shiftl backoff_us 1) else max_backoff_us_global c.

(** The locals of [safe_alsa_open]; [err] is [None] until it is assigned. *)
Record open_locals := OpenLocals { attempt : Z; err : option Z; backoff_us : Z }.

Definition open_step (device : option string) (d : direction) (l : open_locals)
  : audio (open_locals + Z) :=
  c ← call Cfg;
  if negb (attempt l <? max_attempts_global c) then
    match err l with
    | Some e => mret (inr e)
    | None => Stop (Crash "err is read before it is assigned")
    end
  else
    r ← call (PcmOpen device d);
    let '(e, h) := r in
    if 0 <=? e then
      call (St (pcm_handle d) h);;
      call (PcmNonblock h 0);;
      mret (inr 0)
    else
      let attempt' := u8 (attempt l + 1) in
      c ← call Cfg;
      if (e =? - EBUSY) || (e =? - EAGAIN) then
        precise_sleep_us (backoff_us l);;
        mret (inl (OpenLocals attempt' (Some e) (double_backoff c (backoff_us l))))
      else if (e =? - ENODEV) || (e =? - ENOENT) then
        precise_sleep_us (u32 (Z.shiftl (backoff_us l) 1));;
        mret (inl (OpenLocals attempt' (Some e) (double_backoff c (backoff_us l))))
      else if (e =? - EPERM) || (e =? - EACCES) then
        precise_sleep_us (Z.shiftr (backoff_us l) 1);;
        mret (inl (OpenLocals attempt' (Some e) (backoff_us l)))
      else
        precise_sleep_us (backoff_us l);;
        mret (inl (OpenLocals attempt' (Some e) (double_backoff c (backoff_us l)))).

(** [attempt] and [max_attempts_global] are [uint8_t]: 256 iterations are enough. *)
Definition safe_alsa_open (device : option string) (d : direction) : audio Z :=
  c ← call Cfg;
  loop 257 (open_step device d) (OpenLocals 0 None (sleep_microseconds c)).

(** [err = call; if (err < 0) return err;] *)
Definition checked (e : audio Z) (k : audio Z) : audio Z :=
  err ← e;
  if err <? 0 then mret err else k.

(** [configure_alsa_device] from the period on. *)
Definition configure_periods (handle : Z) : audio Z :=
  let hw r := call (HwRequest handle r) in
  c ← call Cfg;
  let period_size := frame_size c in
  let period_size := if period_size <? 64 then 64 else period_size in
  r ← call (HwPeriodNear handle period_size);
  let '(err, period_size) := r in
  if err <? 0 then mret err
  else
    checked (call (HwBufferNear handle (period_size * 4))) (
    checked (hw hw_install) (
    checked (hw sw_current) (
    checked (hw (sw_start_threshold period_size)) (
    checked (hw (sw_avail_min period_size)) (
    checked (hw sw_install) (
    call (PcmPrepare handle))))))).

Definition configure_alsa_device (handle : Z) : audio Z :=
  if handle =? NULL then mret (-1)
  else
    let hw r := call (HwRequest handle r) in
    checked (hw hw_any) (
    checked (hw hw_access_rw_interleaved) (
    checked (hw hw_format_s16_le) (
    c ← call Cfg;
    checked (hw (hw_channels (channels c))) (
    c ← call Cfg;
    let set_rate :=
      err ← hw (hw_rate (sample_rate c));
      if err <? 0 then c ← call Cfg; call (HwRateNear handle (sample_rate c)) else mret err in
    checked set_rate (configure_periods handle))))).

(** ** Codec and PCM instances of a direction *)

Definition codec_destroy (d : direction) (e : Z) : audio unit :=
  match d with
  | Capture => call (EncoderDestroy e)
  | Playback => call (DecoderDestroy e)
  end.

(** [if (encoder) { destroy; encoder = NULL; }] *)
Definition drop_codec (d : direction) : audio unit :=
  e ← call (Ld (codec d));
  when (negb (e =? NULL))
    (e ← call (Ld (codec d)); codec_destroy d e;; call (St (codec d) NULL)).

(** [if (pcm_handle) { close; pcm_handle = NULL; }] *)
Definition drop_pcm (d : direction) : audio unit :=
  h ← call (Ld (pcm_handle d));
  when (negb (h =? NULL))
    (h ← call (Ld (pcm_handle d)); call (PcmClose h);; call (St (pcm_handle d) NULL)).

(** ** Initialisation *)

Definition fail_init (d : direction) (rc : Z) : audio Z :=
  call (St (initializing d) 0);; mret rc.

(** [snd_pcm_close(pcm); pcm = NULL; initializing = 0; return rc;] *)
Definition close_and_fail (d : direction) (rc : Z) : audio Z :=
  h ← call (Ld (pcm_handle d));
  call (PcmClose h);;
  call (St (pcm_handle d) NULL);;
  fail_init d rc.

Definition encoder_settings (c : config) : list encoder_ctl :=
  [SET_BITRATE (opus_bitrate c); SET_COMPLEXITY (opus_complexity c); SET_VBR 1;
   SET_VBR_CONSTRAINT 1; SET_SIGNAL 3002; SET_BANDWIDTH 1104; SET_DTX 1; SET_LSB_DEPTH 16;
   SET_INBAND_FEC 1; SET_PACKET_LOSS_PERC 20].
Fixpoint apply_settings (e : Z) (l : list encoder_ctl) : audio unit :=
  match l with
  | [] => mret tt
  | r :: l' => call (EncoderCtl e r);; apply_settings e l'
  end.

Definition jetkvm_audio_capture_init : audio Z :=
  init_alsa_devices_from_env;;
  got ← call (CAS (initializing Capture) 0 1);
  if negb got then mret (- EBUSY)
  else
    i ← call (Ld (initialized Capture));
    if negb (i =? 0) then fail_init Capture 0
    else
      drop_codec Capture;;
      drop_pcm Capture;;
      dev ← call (LdDev Capture);
      err ← safe_alsa_open dev Capture;
      if err <? 0 then fail_init Capture (-1)
      else
        h ← call (Ld (pcm_handle Capture));
        err ← configure_alsa_device h;
        if err <? 0 then close_and_fail Capture (-2)
        else
          c ← call Cfg;
          r ← call (EncoderCreate (sample_rate c) (channels c));
          let '(e, opus_err) := r in
          call (St (codec Capture) e);;
          if (e =? NULL) || negb (opus_err =? OPUS_OK) then
            drop_pcm Capture;;
            fail_init Capture (-3)
          else
            c ← call Cfg;
            apply_settings e (encoder_settings c);;
            call (St (initialized Capture) 1);;
            fail_init Capture 0.

Definition jetkvm_audio_playback_init : audio Z :=
  init_alsa_devices_from_env;;
  got ← call (CAS (initializing Playback) 0 1);
  if negb got then mret (- EBUSY)
  else
    i ← call (Ld (initialized Playback));
    if negb (i =? 0) then fail_init Playback 0
    else
      drop_codec Playback;;
      drop_pcm Playback;;
      dev ← call (LdDev Playback);
      err ← safe_alsa_open dev Playback;
      err ← (if err <? 0 then safe_alsa_open (Some "default"%string) Playback else mret err);
      if err <? 0 then fail_init Playback (-1)
      else
        h ← call (Ld (pcm_handle Playback));
        err ← configure_alsa_device h;
        if err <? 0 then close_and_fail Playback (-1)
        else
          c ← call Cfg;
          r ← call (DecoderCreate (sample_rate c) (channels c));
          let '(e, opus_err) := r in
          call (St (codec Playback) e);;
          if (e =? NULL) || negb (opus_err =? OPUS_OK) then close_and_fail Playback (-2)
          else
            call (St (initialized Playback) 1);;
            fail_init Playback 0.

(** ** Closing *)

(** [while (initializing) sched_yield();] *)
Definition wait_initializing (n : nat) (d : direction) : audio unit :=
  loop n (λ _ : unit,
    i ← call (Ld (initializing d));
    if i =? 0 then mret (inr tt) else call SchedYield;; mret (inl tt)) tt.

Definition close_direction (n : nat) (d : direction) : audio unit :=
  wait_initializing n d;;
  was ← call (CAS (initialized d) 1 0);
  if negb was then mret tt
  else
    drop_codec d;;
    h ← call (Ld (pcm_handle d));
    when (negb (h =? NULL))
      (h ← call (Ld (pcm_handle d)); call (PcmDrain h);;
       h ← call (Ld (pcm_handle d)); call (PcmClose h);;
       call (St (pcm_handle d) NULL)).

Definition jetkvm_audio_playback_close (n : nat) : audio unit := close_direction n Playback.
Definition jetkvm_audio_capture_close (n : nat) : audio unit := close_direction n Capture.

(** ** The capture path's hot function *)

Definition max_recovery_attempts : Z := 3.

(** [while ((err = snd_pcm_resume(h)) == -EAGAIN && resume_attempts < 10)]; the
    result is [err]. *)
Definition resume_step (h : Z) (resume_attempts : Z) : audio (Z + Z) :=
  err ← call (PcmResume h);
  if (err =? - EAGAIN) && (resume_attempts <? 10) then
    c ← call Cfg;
    call (PcmWait h (sleep_milliseconds c));;
    mret (inl (u8 (resume_attempts + 1)))
  else mret (inr err).
Definition resume (h : Z) : audio Z := loop 12 (resume_step h) 0.

(** How a failed transfer ends: [Retry], or a [return]. *)
Inductive outcome := Retry (recovery_attempts : Z) | Return (rc : Z).

(** [snd_pcm_prepare], and after a failure [snd_pcm_drop] and once more. *)
Definition recover_xrun (h recovery_attempts fail : Z) : audio outcome :=
  err ← call (PcmPrepare h);
  if err <? 0 then
    call (PcmDrop h);;
    err ← call (PcmPrepare h);
    if err <? 0 then mret (Return fail) else mret (Retry recovery_attempts)
  else mret (Retry recovery_attempts).

Definition recover_suspend (h fail : Z) : audio outcome :=
  err ← resume h;
  if err <? 0 then
    err ← call (PcmPrepare h);
    if err <? 0 then mret (Return fail) else mret (Return 0)
  else mret (Return 0).

Definition recover_io (h recovery_attempts fail : Z) : audio outcome :=
  if recovery_attempts <=? max_recovery_attempts then
    call (PcmDrop h);;
    err ← call (PcmPrepare h);
    if 0 <=? err then mret (Retry recovery_attempts) else mret (Return fail)
  else mret (Return fail).

(** The branches on a negative [pcm_rc] of [jetkvm_audio_read_encode]. *)
Definition recover_read (h pcm_rc recovery_attempts : Z) : audio outcome :=
  let attempts := u8 (recovery_attempts + 1) in
  if pcm_rc =? - EPIPE then
    if max_recovery_attempts <? attempts then mret (Return (-1))
    else recover_xrun h attempts (-1)
  else if pcm_rc =? - EAGAIN then
    c ← call Cfg;
    call (PcmWait h (sleep_milliseconds c));;
    mret (Retry recovery_attempts)
  else if pcm_rc =? - ESTRPIPE then
    if max_recovery_attempts <? attempts then mret (Return (-1))
    else recover_suspend h (-1)
  else if pcm_rc =? - ENODEV then mret (Return (-1))
  else if pcm_rc =? - EIO then recover_io h attempts (-1)
  else if (attempts <=? 1) && (pcm_rc =? - EINTR) then mret (Retry attempts)
  else if (attempts <=? 1) && (pcm_rc =? - EBUSY) then
    call (PcmWait h 1);;
    mret (Retry attempts)
  else mret (Return (-1)).

(** From [retry_read:] to the [goto]s and [return]s; [inr (inr n)]: [n] frames
    are in the buffer. *)
Definition read_step (recovery_attempts : Z) : audio (Z + (Z + Z)) :=
  h ← call (Ld (pcm_handle Capture));
  c ← call Cfg;
  r ← call (PcmReadi h (frame_size c));
  let '(pcm_rc, samples) := r in
  if pcm_rc <? 0 then
    o ← recover_read h pcm_rc recovery_attempts;
    match o with
    | Retry k => mret (inl k)
    | Return rc => mret (inr (inl rc))
    end
  else
    buf ← call (LdBuf Capture);
    match store_list buf 0 samples with
    | None => Stop (Crash "read past pcm_buffer")
    | Some buf' => call (StBuf Capture buf');; mret (inr (inr pcm_rc))
    end.

(** [opus_buf] is the caller's buffer; the result carries it as it is left.
    [n] bounds the reads. *)
Definition jetkvm_audio_read_encode (n : nat) (opus_buf : option (list Z))
  : audio (Z * option (list Z)) :=
  i ← call (Ld (initialized Capture));
  h ← call (Ld (pcm_handle Capture));
  e ← call (Ld (codec Capture));
  match opus_buf with
  | None => mret (-1, None)
  | Some out =>
      if (i =? 0) || (h =? NULL) || (e =? NULL) then mret (-1, opus_buf)
      else
        r ← loop n read_step 0;
        match r with
        | inl rc => mret (rc, opus_buf)
        | inr pcm_rc =>
            c ← call Cfg;
            buf ← call (LdBuf Capture);
            let padded :=
              if pcm_rc <? frame_size c then
                simd_clear_samples_s16 buf (pcm_rc * channels c)
                  (u32 ((frame_size c - pcm_rc) * channels c))
              else Some buf in
            match padded with
            | None => Stop (Crash "cleared past pcm_buffer")
            | Some buf' =>
                call (StBuf Capture buf');;
                e ← call (Ld (codec Capture));
                c ← call Cfg;
                r ← call (OpusEncode e buf' (frame_size c) (max_packet_size c));
                let '(nb_bytes, bytes) := r in
                match store_list out 0 bytes with
                | None => Stop (Crash "encoded past opus_buf")
                | Some out' => mret (nb_bytes, Some out')
                end
            end
        end
  end.

(** ** The playback path's hot function *)

Definition recover_write (h pcm_rc recovery_attempts : Z) : audio outcome :=
  let attempts := u8 (recovery_attempts + 1) in
  if pcm_rc =? - EPIPE then
    if max_recovery_attempts <? attempts then mret (Return (-2))
    else recover_xrun h attempts (-2)
  else if pcm_rc =? - ESTRPIPE then
    if max_recovery_attempts <? attempts then mret (Return (-2))
    else recover_suspend h (-2)
  else if pcm_rc =? - ENODEV then mret (Return (-2))
  else if pcm_rc =? - EIO then recover_io h attempts (-2)
  else if pcm_rc =? - EAGAIN then
    if attempts <=? max_recovery_attempts then
      call (PcmWait h 1);; mret (Retry attempts)
    else mret (Return (-2))
  else if (attempts <=? 1) && ((pcm_rc =? - EINTR) || (pcm_rc =? - EBUSY)) then
    call (PcmWait h 1);; mret (Retry attempts)
  else mret (Return (-2)).

Definition write_step (pcm_frames : Z) (recovery_attempts : Z) : audio (Z + Z) :=
  h ← call (Ld (pcm_handle Playback));
  buf ← call (LdBuf Playback);
  pcm_rc ← call (PcmWritei h buf pcm_frames);
  if pcm_rc <? 0 then
    o ← recover_write h pcm_rc recovery_attempts;
    match o with
    | Retry k => mret (inl k)
    | Return rc => mret (inr rc)
    end
  else mret (inr pcm_frames).

(** Every retry is counted here, so the bound is fixed. *)
Definition jetkvm_audio_decode_write (opus_buf : option (list Z)) (opus_size : Z) : audio Z :=
  i ← call (Ld (initialized Playback));
  h ← call (Ld (pcm_handle Playback));
  e ← call (Ld (codec Playback));
  match opus_buf with
  | None => mret (-1)
  | Some data =>
      if (i =? 0) || (h =? NULL) || (e =? NULL) || (opus_size <=? 0) then mret (-1)
      else
        c ← call Cfg;
        if max_packet_size c <? opus_size then mret (-1)
        else
          if Z.of_nat (length data) <? opus_size then Stop (Crash "read past opus_buf")
          else
          c ← call Cfg;
          r ← call (OpusDecode e (Some (take (Z.to_nat opus_size) data)) (frame_size c) 0);
          r ← (if r.1 <? 0 then call (OpusDecode e None (frame_size c) 1) else mret r);
          let '(pcm_frames, samples) := r in
          if pcm_frames <? 0 then mret (-1)
          else
            buf ← call (LdBuf Playback);
            match store_list buf 0 samples with
            | None => Stop (Crash "decoded past pcm_buffer")
            | Some buf' =>
                call (StBuf Playback buf');;
                loop 5 (write_step pcm_frames) 0
            end
  end.
