(* ===== verification/AudioDevice.v ===== *)
(** * The audio pipelines against ALSA and Opus

    The documented protocols of the two libraries for [Audio]: a PCM is used
    between its open and its close, a codec between its creation and its
    destruction, a transfer or an encoding reads no more samples than it is
    given, and answers stay within the sizes that were asked for.  Every answer
    the protocols allow is considered. *)
From stdpp Require Import functions.
From S2P Require Import Prelude Effects Audio.

(** ** State *)

(** What happened, for the properties that speak of it. *)
Record trace := Trace {
  slept : Z;                    (* microseconds slept by nanosleep *)
  opens : nat;                  (* calls of snd_pcm_open *)
  writes : nat;                 (* calls of snd_pcm_writei *)
  was_read : list Z;            (* samples of the last successful read *)
  was_encoded : list Z;         (* samples of the last encoding *)
  was_decoded : option (list Z) * Z * list Z;  (* packet, result and samples of the last decoding *)
  was_written : Z * list Z * Z  (* frames and samples given to the last write, and its answer *)
}.

(** The channels ALSA and Opus work with, which fix the size of what they
    transfer: a PCM's are set in the parameters of [configure_alsa_device] and
    hold from their installation, a codec's from its creation.  The global
    [channels] may have changed since. *)
Record sizes := Sizes {
  asked : Z → option Z;               (* in the parameters, by PCM *)
  installed : Z → option Z;           (* of a PCM *)
  codec_channels : direction → Z → Z  (* of an encoder, a decoder *)
}.
Definition set_asked h k z := Sizes (<[h := k]> (asked z)) (installed z) (codec_channels z).
Definition set_installed h k z := Sizes (asked z) (<[h := k]> (installed z)) (codec_channels z).
Definition set_codec_channels d e k z :=
  Sizes (asked z) (installed z) (<[d := <[e := k]> (codec_channels z d)]> (codec_channels z)).

(** A new PCM has no parameters. *)
Definition pcm_opened (h : Z) (z : sizes) : sizes := set_asked h None (set_installed h None z).
Definition hw_done (h : Z) (r : hw_request) (rc : Z) (z : sizes) : sizes :=
  match r with
  | hw_any => set_asked h None z
  | hw_channels n => if rc <? 0 then z else set_asked h (Some n) z
  | hw_install => set_installed h (if rc <? 0 then None else asked z h) z
  | _ => z
  end.

Record astate := AState {
  a_var : gvar → Z;
  a_pcms : gset Z;                      (* open PCMs *)
  a_codecs : direction → gset Z;        (* live encoders, live decoders *)
  a_cfg : config;
  a_dev : direction → option string;
  a_buf : direction → list Z;           (* the static pcm_buffers *)
  a_env : string → option string;
  a_again : nat;                        (* reads still answered with EAGAIN *)
  a_trace : trace;
  a_sizes : sizes
}.

Definition s_var f s :=
  AState f (a_pcms s) (a_codecs s) (a_cfg s) (a_dev s) (a_buf s) (a_env s) (a_again s) (a_trace s) (a_sizes s).
Definition s_pcms x s :=
  AState (a_var s) x (a_codecs s) (a_cfg s) (a_dev s) (a_buf s) (a_env s) (a_again s) (a_trace s) (a_sizes s).
Definition s_codecs x s :=
  AState (a_var s) (a_pcms s) x (a_cfg s) (a_dev s) (a_buf s) (a_env s) (a_again s) (a_trace s) (a_sizes s).
Definition s_cfg x s :=
  AState (a_var s) (a_pcms s) (a_codecs s) x (a_dev s) (a_buf s) (a_env s) (a_again s) (a_trace s) (a_sizes s).
Definition s_dev x s :=
  AState (a_var s) (a_pcms s) (a_codecs s) (a_cfg s) x (a_buf s) (a_env s) (a_again s) (a_trace s) (a_sizes s).
Definition s_buf x s :=
  AState (a_var s) (a_pcms s) (a_codecs s) (a_cfg s) (a_dev s) x (a_env s) (a_again s) (a_trace s) (a_sizes s).
Definition s_again x s :=
  AState (a_var s) (a_pcms s) (a_codecs s) (a_cfg s) (a_dev s) (a_buf s) (a_env s) x (a_trace s) (a_sizes s).
Definition s_trace x s :=
  AState (a_var s) (a_pcms s) (a_codecs s) (a_cfg s) (a_dev s) (a_buf s) (a_env s) (a_again s) x (a_sizes s).
Definition s_sizes x s :=
  AState (a_var s) (a_pcms s) (a_codecs s) (a_cfg s) (a_dev s) (a_buf s) (a_env s) (a_again s) (a_trace s) x.

Definition t_slept n t :=
  Trace (slept t + n) (opens t) (writes t) (was_read t) (was_encoded t) (was_decoded t) (was_written t).
Definition t_opened t :=
  Trace (slept t) (S (opens t)) (writes t) (was_read t) (was_encoded t) (was_decoded t) (was_written t).
Definition t_written w t :=
  Trace (slept t) (opens t) (S (writes t)) (was_read t) (was_encoded t) (was_decoded t) w.
Definition t_read l t :=
  Trace (slept t) (opens t) (writes t) l (was_encoded t) (was_decoded t) (was_written t).
Definition t_encoded l t :=
  Trace (slept t) (opens t) (writes t) (was_read t) l (was_decoded t) (was_written t).
Definition t_decoded r t :=
  Trace (slept t) (opens t) (writes t) (was_read t) (was_encoded t) r (was_written t).

#[export] Instance config_eq_dec : EqDecision config.
Proof. solve_decision. Defined.

(** ** Protocols *)

Definition aenabled {X} (e : audioE X) (s : astate) : bool :=
  let open h := bool_decide (h ∈ a_pcms s) in
  let live d e := bool_decide (e ∈ a_codecs s d) in
  let holds k pcm frames := frames * k <=? Z.of_nat (length (A:=Z) pcm) in
  match e with
  | PcmOpen device _ => bool_decide (is_Some device)
  | PcmNonblock h _ | PcmClose h | PcmDrain h | PcmDrop h | PcmPrepare h | PcmResume h
  | PcmWait h _ | HwRequest h _ | HwRateNear h _ | HwPeriodNear h _ | HwBufferNear h _ => open h
  | PcmReadi h _ => open h && bool_decide (is_Some (installed (a_sizes s) h))
  | PcmWritei h pcm frames => open h &&
      match installed (a_sizes s) h with Some k => holds k pcm frames | None => false end
  | EncoderDestroy e | EncoderCtl e _ => live Capture e
  | OpusEncode e pcm frames _ => live Capture e && holds (codec_channels (a_sizes s) Capture e) pcm frames
  | DecoderDestroy e | OpusDecode e _ _ _ => live Playback e
  | _ => true
  end.

(** The only answer is [y]. *)
Definition det {A} `{EqDecision A} (y : A) (s : astate) (x : A) : option astate :=
  if bool_decide (x = y) then Some s else None.

(** A new handle. *)
Definition fresh (h : Z) (l : gset Z) : bool := negb (h =? NULL) && bool_decide (h ∉ l).

(** The channels of a PCM; a transfer needs them. *)
Definition pcm_channels (s : astate) (h : Z) : Z := default 0 (installed (a_sizes s) h).

(** [n] units of [k] values each, or a negative error and no values. *)
Definition sized (rc most k : Z) (l : list Z) : bool :=
  if rc <? 0 then bool_decide (l = [])
  else (rc <=? most) && (Z.of_nat (length l) =? rc * k).

Definition aact {X} (e : audioE X) (s : astate) : X → option astate :=
  let destroy d x := s_codecs (<[d := a_codecs s d ∖ {[x]}]> (a_codecs s)) s in
  let create d chans (r : Z * Z) :=
    if r.1 =? NULL then Some s
    else if fresh r.1 (a_codecs s d)
         then Some (s_codecs (<[d := {[r.1]} ∪ a_codecs s d]> (a_codecs s))
                     (s_sizes (set_codec_channels d r.1 chans (a_sizes s)) s)) else None in
  match e in audioE X return X → option astate with
  | Ld v => det (a_var s v) s
  | St v x => λ _, Some (s_var (<[v := x]> (a_var s)) s)
  | CAS v old new =>
      if a_var s v =? old then det true (s_var (<[v := new]> (a_var s)) s) else det false s
  | Cfg => det (a_cfg s) s
  | SetCfg c => λ _, Some (s_cfg c s)
  | LdDev d => det (a_dev s d) s
  | StDev d name => λ _, Some (s_dev (<[d := name]> (a_dev s)) s)
  | LdBuf d => det (a_buf s d) s
  | StBuf d b => λ _, Some (s_buf (<[d := b]> (a_buf s)) s)
  | GetEnv n => det (a_env s n) s
  | Nanosleep sec nsec => λ _, Some (s_trace (t_slept (sec * 1000000 + nsec / 1000) (a_trace s)) s)
  | PcmOpen _ _ => λ r,
      let s := s_trace (t_opened (a_trace s)) s in
      if r.1 <? 0 then Some s
      else if fresh r.2 (a_pcms s)
      then Some (s_pcms ({[r.2]} ∪ a_pcms s) (s_sizes (pcm_opened r.2 (a_sizes s)) s)) else None
  | PcmClose h => λ _, Some (s_pcms (a_pcms s ∖ {[h]}) s)
  | HwRequest h r => λ rc, Some (s_sizes (hw_done h r rc (a_sizes s)) s)
  | PcmReadi h frames => λ r,
      if sized r.1 frames (pcm_channels s h) r.2 then
        if r.1 =? - EAGAIN then
          match a_again s with O => None | S n => Some (s_again n s) end
        else if r.1 <? 0 then Some s
        else Some (s_trace (t_read r.2 (a_trace s)) s)
      else None
  | PcmWritei h pcm frames => λ rc,
      if rc <=? frames then
        Some (s_trace (t_written (frames, take (Z.to_nat (frames * pcm_channels s h)) pcm, rc)
                (a_trace s)) s)
      else None
  | EncoderCreate _ chans => create Capture chans
  | DecoderCreate _ chans => create Playback chans
  | EncoderDestroy x => λ _, Some (destroy Capture x)
  | DecoderDestroy x => λ _, Some (destroy Playback x)
  | OpusEncode x pcm frames max => λ r,
      if sized r.1 max 1 r.2
      then Some (s_trace (t_encoded
                   (take (Z.to_nat (frames * codec_channels (a_sizes s) Capture x)) pcm) (a_trace s)) s)
      else None
  | OpusDecode x data frames _ => λ r,
      if sized r.1 frames (codec_channels (a_sizes s) Playback x) r.2
      then Some (s_trace (t_decoded (data, r.1, r.2) (a_trace s)) s) else None
  | _ => λ _, Some s
  end.

#[export] Instance asem : Sem audioE astate := {| enabled := @aenabled; act := @aact |}.

(** ** Rules *)

Section rules.
Context (fo : Prop).
#[local] Abbreviation W := (wpr eq (λ _ _, True) fo).

Lemma det_some {A} `{EqDecision A} (y x : A) s s' : det y s x = Some s' → x = y ∧ s' = s.
Proof. unfold det. case_bool_decide; [|done]. by intros [= <-]. Qed.

Lemma a_ld {A} v (k : Z → audio A) Q s : W (k (a_var s v)) Q s → W (Act (Ld v) k) Q s.
Proof. intros Hk. apply wp_act; [done|]. by intros x s' [-> ->]%det_some. Qed.
Lemma a_cfg_ {A} (k : config → audio A) Q s : W (k (a_cfg s)) Q s → W (Act Cfg k) Q s.
Proof. intros Hk. apply wp_act; [done|]. by intros x s' [-> ->]%det_some. Qed.
Lemma a_lddev {A} d (k : option string → audio A) Q s : W (k (a_dev s d)) Q s → W (Act (LdDev d) k) Q s.
Proof. intros Hk. apply wp_act; [done|]. by intros x s' [-> ->]%det_some. Qed.
Lemma a_ldbuf {A} d (k : list Z → audio A) Q s : W (k (a_buf s d)) Q s → W (Act (LdBuf d) k) Q s.
Proof. intros Hk. apply wp_act; [done|]. by intros x s' [-> ->]%det_some. Qed.
Lemma a_getenv {A} n (k : option string → audio A) Q s :
  W (k (a_env s n)) Q s → W (Act (GetEnv n) k) Q s.
Proof. intros Hk. apply wp_act; [done|]. by intros x s' [-> ->]%det_some. Qed.
Lemma a_cas {A} v old new (k : bool → audio A) Q s :
  (a_var s v = old → W (k true) Q (s_var (<[v := new]> (a_var s)) s)) →
  (a_var s v ≠ old → W (k false) Q s) →
  W (Act (CAS v old new) k) Q s.
Proof.
  intros Ht Hf. apply wp_act; [done|]. intros x s' H. simpl in H.
  destruct (Z.eqb_spec (a_var s v) old); apply det_some in H as [-> ->]; auto.
Qed.

(** An action whose answer is unconstrained and that changes nothing. *)
Lemma a_skip {A X} (e : audioE X) (k : X → audio A) Q (s : astate) :
  aenabled e s = true → (∀ x, aact e s x = Some s) → (∀ x, W (k x) Q s) → W (Act e k) Q s.
Proof. intros He Ha Hk. apply wp_act; [done|]. simpl. intros x s' H. rewrite Ha in H. by simplify_eq. Qed.
(** An action that answers [tt]. *)
Lemma a_do {A} (e : audioE unit) (k : unit → audio A) Q (s s' : astate) :
  aenabled e s = true → (∀ x, aact e s x = Some s') → W (k tt) Q s' → W (Act e k) Q s.
Proof. intros He Ha Hk. apply wp_act; [done|]. simpl. intros [] s1 H. rewrite Ha in H. by simplify_eq. Qed.
End rules.

Ltac anorm :=
  cbn [call when mret prog_mret prog_bind];
  lazymatch goal with
  | |- wpr _ _ _ (call _) _ _ => unfold call
  | |- wpr _ _ _ (mret _) _ _ => unfold mret, prog_mret
  | |- wpr _ _ _ (prog_bind (mret ?x) ?f) _ _ => change (prog_bind (mret x) f) with (f x); cbn beta
  | _ => idtac
  end.
(** One deterministic or state-preserving action. *)
Ltac astep :=
  anorm;
  lazymatch goal with
  | |- wpr _ _ _ (Act (Ld _) _) _ _ => apply a_ld
  | |- wpr _ _ _ (Act Cfg _) _ _ => apply a_cfg_
  | |- wpr _ _ _ (Act (LdDev _) _) _ _ => apply a_lddev
  | |- wpr _ _ _ (Act (LdBuf _) _) _ _ => apply a_ldbuf
  | |- wpr _ _ _ (Act (GetEnv _) _) _ _ => apply a_getenv
  | |- wpr _ _ _ (Act (St _ _) _) _ _ => eapply a_do; [reflexivity|reflexivity|]
  | |- wpr _ _ _ (Act (SetCfg _) _) _ _ => eapply a_do; [reflexivity|reflexivity|]
  | |- wpr _ _ _ (Act (StDev _ _) _) _ _ => eapply a_do; [reflexivity|reflexivity|]
  | |- wpr _ _ _ (Act (StBuf _ _) _) _ _ => eapply a_do; [reflexivity|reflexivity|]
  | |- wpr _ _ _ (Act (Nanosleep _ _) _) _ _ => eapply a_do; [reflexivity|reflexivity|]
  | |- wpr _ _ _ (Act SchedYield _) _ _ => eapply a_do; [reflexivity|reflexivity|]
  | |- wpr _ _ _ (Act _ _) _ _ =>
      apply a_skip; [by apply bool_decide_eq_true_2|reflexivity|intros ?]
  | |- wpr _ _ _ (Ret _) _ _ => apply wp_ret
  | |- wpr _ _ _ (prog_bind _ _) _ _ => apply wpr_bind; [exact _|]
  | |- wpr _ _ _ (match _ with _ => _ end) _ _ => idtac
  end.

(** ** Opening a PCM *)

(** The constants Go passes fit their types; the sample buffers hold a frame. *)
Record config_ok (c : config) : Prop := {
  ok_attempts : 0 < max_attempts_global c < 2 ^ 8;
  ok_sleep : 0 <= sleep_microseconds c < 2 ^ 31;
  ok_backoff : 0 <= max_backoff_us_global c < 2 ^ 31;
  ok_channels : 0 < channels c;
  ok_frame : 0 < frame_size c < 2 ^ 16;
  ok_buffer : frame_size c * channels c <= Z.of_nat pcm_buffer_size
}.

(** The longest single sleep of a retry. *)
Definition longest_sleep (c : config) : Z :=
  2 * Z.max (sleep_microseconds c) (max_backoff_us_global c).

(** What [k] attempts may have added to the trace. *)
Definition tried (c : config) (k : nat) (t t' : trace) : Prop :=
  opens t' = (opens t + k)%nat ∧
  slept t <= slept t' <= slept t + Z.of_nat k * longest_sleep c ∧
  writes t' = writes t ∧ was_read t' = was_read t ∧ was_encoded t' = was_encoded t.

Lemma tried_0 c t : tried c 0 t t.
Proof. split_and!; try done; lia. Qed.

Lemma sleep_slept us : 0 <= us → us / 1000000 * 1000000 + us mod 1000000 * 1000 / 1000 = us.
Proof. intros. rewrite Z.div_mul by lia. pose proof (Z.div_mod us 1000000). lia. Qed.

Lemma a_sleep fo us Q s :
  0 <= us → Q tt (s_trace (t_slept us (a_trace s)) s) →
  wpr eq (λ _ _, True) fo (precise_sleep_us us) Q s.
Proof. intros Hus HQ. unfold precise_sleep_us. astep. rewrite sleep_slept by done. by astep. Qed.

Lemma double_backoff_range c b B :
  config_ok c → B = Z.max (sleep_microseconds c) (max_backoff_us_global c) →
  0 <= b <= B → 0 <= double_backoff c b <= B.
Proof.
  intros [] -> Hb. unfold double_backoff.
  destruct (Z.ltb_spec (u32 (Z.shiftl b 1)) (max_backoff_us_global c)); [|lia].
  pose proof (u32_range (Z.shiftl b 1)). unfold in_u32 in *. lia.
Qed.

(** The state in which attempt [k] is made. *)
Definition opening (s : astate) (l : open_locals) (s' : astate) : Prop :=
  ∃ (k : nat) t,
    s' = s_trace t s ∧ tried (a_cfg s) k (a_trace s) t ∧
    attempt l = Z.of_nat k ∧ Z.of_nat k <= max_attempts_global (a_cfg s) ∧
    0 <= backoff_us l <= Z.max (sleep_microseconds (a_cfg s)) (max_backoff_us_global (a_cfg s)) ∧
    match err l with None => k = 0%nat | Some e => e < 0 end.

(** A new PCM in the state. *)
Definition s_opened (h : Z) (s : astate) : astate :=
  s_pcms ({[h]} ∪ a_pcms s) (s_sizes (pcm_opened h (a_sizes s)) s).

Lemma a_open_step fo dev d s l s1 (Q : open_locals + Z → astate → Prop) :
  is_Some dev → config_ok (a_cfg s) → opening s l s1 →
  (∀ l' s', opening s l' s' → attempt l' = attempt l + 1 → Q (inl l') s') →
  (∀ e k t, e < 0 → Z.of_nat k = max_attempts_global (a_cfg s) →
     tried (a_cfg s) k (a_trace s) t → Q (inr e) (s_trace t s)) →
  (∀ h k t, fresh h (a_pcms s) = true → Z.of_nat k <= max_attempts_global (a_cfg s) →
     tried (a_cfg s) k (a_trace s) t →
     Q (inr 0) (s_var (<[pcm_handle d := h]> (a_var s)) (s_opened h (s_trace t s)))) →
  wpr eq (λ _ _, True) fo (open_step dev d l) Q s1.
Proof.
  intros Hdev Hc (k & t & -> & Ht & Hk & Hkm & Hb & He) Hagain Hfail Hok. unfold open_step.
  astep. simpl a_cfg. destruct (Z.ltb_spec (attempt l) (max_attempts_global (a_cfg s))); cbn [negb]; cycle 1.
  { destruct (err l) as [e|]; [|destruct Hc; lia]. astep. apply (Hfail _ k); [done|lia|done]. }
  anorm. apply wp_act; [by apply bool_decide_eq_true_2|]. intros [e h] s2 H2. simpl in H2.
  destruct Ht as (Ho & Hs & Hrest). destruct (Z.ltb_spec e 0); cycle 1.
  { destruct (Z.leb_spec 0 e); [|lia]. destruct (fresh h (a_pcms s)) eqn:Hh; [|done].
    injection H2 as <-. astep.
    apply a_skip; [apply bool_decide_eq_true_2; simpl; set_solver|done|intros ?]. astep.
    apply (Hok h (S k) (t_opened t)); [done|lia|].
    split; [simpl; lia|]. split; [|done]. destruct Hc. unfold longest_sleep in *. simpl. nia. }
  injection H2 as <-. destruct (Z.leb_spec 0 e); [lia|]. astep. simpl a_cfg.
  assert (Hu8 : u8 (attempt l + 1) = Z.of_nat (S k)) by (destruct Hc; rewrite u8_id; unfold in_u8; lia).
  set (B := Z.max _ _) in *.
  assert (Hgo : ∀ us b, 0 <= us <= 2 * B → 0 <= b <= B →
    wpr eq (λ _ _, True) fo
      (precise_sleep_us us;; mret (inl (OpenLocals (u8 (attempt l + 1)) (Some e) b))) Q
      (s_trace (t_opened t) s)).
  { intros us b Hus Hb'. astep. apply a_sleep; [lia|]. astep. simpl.
    apply Hagain; [|simpl; lia]. exists (S k), (t_slept us (t_opened t)).
    split_and!; try done; simpl; try lia.
    unfold tried, longest_sleep in *. fold B in Hs |- *. simpl. split_and!; try apply Hrest; lia. }
  assert (HB : B < 2 ^ 31) by (unfold B; destruct Hc; lia).
  assert (Hd : 0 <= double_backoff (a_cfg s) (backoff_us l) <= B) by by apply double_backoff_range.
  destruct (_ || _); [apply Hgo; lia|].
  destruct (_ || _).
  { apply Hgo; [|done]. rewrite Z.shiftl_mul_pow2, u32_id by (unfold in_u32; lia). lia. }
  destruct (_ || _); [|apply Hgo; lia].
  apply Hgo; [|done]. rewrite Z.shiftr_div_pow2 by lia. Z.div_mod_to_equations; lia.
Qed.

Lemma a_open fo dev d s (Q : Z → astate → Prop) :
  is_Some dev → config_ok (a_cfg s) →
  (∀ e k t, e < 0 → Z.of_nat k = max_attempts_global (a_cfg s) →
     tried (a_cfg s) k (a_trace s) t → Q e (s_trace t s)) →
  (∀ h k t, fresh h (a_pcms s) = true → Z.of_nat k <= max_attempts_global (a_cfg s) →
     tried (a_cfg s) k (a_trace s) t →
     Q 0 (s_var (<[pcm_handle d := h]> (a_var s)) (s_opened h (s_trace t s)))) →
  wpr eq (λ _ _, True) fo (safe_alsa_open dev d) Q s.
Proof.
  intros Hdev Hc Hfail Hok. unfold safe_alsa_open. astep.
  apply (wpr_loop_measure _ _ _ (opening s) (λ l _, Z.to_nat (256 - attempt l))).
  - intros l s1 Hl. apply (a_open_step _ _ _ s l); [done|done|done|..].
    + intros l' s' Hl' Ha. split; [done|].
      destruct Hl' as (k & t & _ & _ & Hk & Hkm & _), Hc. lia.
    + intros e k t ? ? ? s2 <-. by eapply Hfail.
    + intros h k t ? ? ? s2 <-. by eapply Hok.
  - destruct Hc. exists 0%nat, (a_trace s).
    split_and!; [by destruct s|by apply tried_0|simpl; try done; lia..].
  - simpl. lia.
Qed.

(** ** The resources of one direction *)

Definition opp (d : direction) : direction :=
  match d with Capture => Playback | Playback => Capture end.
Lemma opp_ne d : opp d ≠ d.
Proof. by destruct d. Qed.
Definition direction_of (v : gvar) : direction :=
  match v with pcm_handle d | codec d | initializing d | initialized d => d end.

(** What a handle variable owns. *)
Definition owned (h : Z) : gset Z := if h =? NULL then ∅ else {[h]}.
Lemma owned_null : owned NULL = ∅.
Proof. done. Qed.
Lemma owned_handle h : h ≠ NULL → owned h = {[h]}.
Proof. unfold owned. by destruct (Z.eqb_spec h NULL). Qed.

(** The PCM [p] and the codec [e] of the direction [d] have the configured
    channels. *)
Definition sized_for (s : astate) (d : direction) (p e : Z) : Prop :=
  installed (a_sizes s) p = Some (channels (a_cfg s)) ∧
  codec_channels (a_sizes s) d e = channels (a_cfg s).
(** The PCM and the codecs of the direction [d] have the channels they had. *)
Definition same_sizes (d : direction) (s0 s : astate) : Prop :=
  installed (a_sizes s) (a_var s0 (pcm_handle d)) = installed (a_sizes s0) (a_var s0 (pcm_handle d)) ∧
  codec_channels (a_sizes s) d = codec_channels (a_sizes s0) d.

(** The direction [d] has the PCM [p], the codec [e] and the flags [ini] and
    [ing], owns exactly these, and nothing of the other direction has changed
    since [s0]. *)
Record dir (d : direction) (p e ini ing : Z) (s0 s : astate) : Prop := {
  dir_pcm : a_var s (pcm_handle d) = p;
  dir_codec : a_var s (codec d) = e;
  dir_ini : a_var s (initialized d) = ini;
  dir_ing : a_var s (initializing d) = ing;
  dir_pcms : a_pcms s = owned p ∪ owned (a_var s0 (pcm_handle (opp d)));
  dir_new : p ≠ NULL → p ≠ a_var s0 (pcm_handle (opp d));
  dir_codecs : a_codecs s d = owned e;
  dir_vars : ∀ v, direction_of v = opp d → a_var s v = a_var s0 v;
  dir_others : a_codecs s (opp d) = a_codecs s0 (opp d);
  dir_bufs : ∀ d', length (a_buf s d') = length (a_buf s0 d');
  dir_cfg : a_cfg s = a_cfg s0;
  dir_again : (a_again s <= a_again s0)%nat;
  dir_name : ing = 1 → is_Some (a_dev s d);
  dir_sized : ini = 1 → sized_for s d p e;
  dir_sizes : same_sizes (opp d) s0 s
}.

(** The state between operations: nothing is being initialised, an initialised
    direction has its PCM and its codec, both with the configured channels, and
    nothing else is open. *)
Record awf (s : astate) : Prop := {
  awf_cfg : config_ok (a_cfg s);
  awf_bufs : ∀ d, length (a_buf s d) = pcm_buffer_size;
  awf_ing : ∀ d, a_var s (initializing d) = 0;
  awf_ini : ∀ d, a_var s (initialized d) = 0 ∨
    a_var s (initialized d) = 1 ∧ a_var s (pcm_handle d) ≠ NULL ∧ a_var s (codec d) ≠ NULL;
  awf_pcms : a_pcms s = owned (a_var s (pcm_handle Capture)) ∪ owned (a_var s (pcm_handle Playback));
  awf_new : a_var s (pcm_handle Capture) ≠ NULL →
    a_var s (pcm_handle Capture) ≠ a_var s (pcm_handle Playback);
  awf_codecs : ∀ d, a_codecs s d = owned (a_var s (codec d));
  awf_sized : ∀ d, a_var s (initialized d) = 1 →
    sized_for s d (a_var s (pcm_handle d)) (a_var s (codec d))
}.

Lemma awf_dir d s : awf s →
  dir d (a_var s (pcm_handle d)) (a_var s (codec d)) (a_var s (initialized d)) 0 s s.
Proof.
  intros []. split; auto.
  - rewrite awf_pcms0. destruct d; [done|]. apply (comm_L (∪)).
  - destruct d; [done|]. simpl. intros H Heq. apply awf_new0; congruence.
  - done.
  - by split.
Qed.

Lemma dir_awf d p e ini s0 s : awf s0 → dir d p e ini 0 s0 s →
  ini = 0 ∨ ini = 1 ∧ p ≠ NULL ∧ e ≠ NULL → awf s.
Proof.
  intros [] [] Hini.
  assert (Hv : ∀ (f : direction → gvar), (∀ d', direction_of (f d') = d') →
    a_var s (f (opp d)) = a_var s0 (f (opp d))) by (intros; apply dir_vars0; auto).
  assert (Hd : ∀ d', d' = d ∨ d' = opp d) by (intros; destruct d, d'; auto).
  split; [congruence|congruence|..].
  - intros d'. destruct (Hd d') as [-> | ->]; [done|]. by rewrite (Hv initializing).
  - intros d'. destruct (Hd d') as [-> | ->]; [by subst|].
    rewrite (Hv initialized), (Hv pcm_handle), (Hv codec) by done. apply awf_ini0.
  - rewrite dir_pcms0. destruct d; simpl in *.
    + by rewrite dir_pcm0, (Hv pcm_handle).
    + rewrite dir_pcm0, (Hv pcm_handle) by done. apply (comm_L (∪)).
  - pose proof (Hv pcm_handle (λ d', eq_refl)). destruct d; simpl in *;
      intros Hc Heq; apply dir_new0; congruence.
  - intros d'. destruct (Hd d') as [-> | ->]; [by rewrite dir_codec0|].
    rewrite (Hv codec) by done. congruence.
  - intros d'. destruct (Hd d') as [-> | ->].
    + rewrite dir_pcm0, dir_codec0, dir_ini0. apply dir_sized0.
    + rewrite (Hv initialized), (Hv pcm_handle), (Hv codec) by done. intros Hi.
      destruct (awf_sized0 _ Hi) as [H1 H2], dir_sizes0 as [H3 H4].
      split; [by rewrite H3, dir_cfg0|by rewrite H4, dir_cfg0].
Qed.

(** Stores to the variables of the direction. *)
Ltac dir_store H :=
  destruct H; split; simpl; rewrite ?fn_lookup_insert, ?fn_lookup_insert_ne by congruence;
  try done;
  try (intros v Hv; rewrite fn_lookup_insert_ne by (intros <-; simpl in Hv; by apply (opp_ne _ (eq_sym Hv)));
       auto).

Lemma dir_set_ini d p e ini ing s0 s x :
  (x = 1 → sized_for s d p e) → dir d p e ini ing s0 s →
  dir d p e x ing s0 (s_var (<[initialized d := x]> (a_var s)) s).
Proof. intros Hx H. dir_store H. Qed.
Lemma dir_set_ing d p e ini ing s0 s x :
  (x = 1 → is_Some (a_dev s d)) → dir d p e ini ing s0 s →
  dir d p e ini x s0 (s_var (<[initializing d := x]> (a_var s)) s).
Proof. intros Hx H. dir_store H. Qed.
Lemma dir_trace d p e ini ing s0 s t : dir d p e ini ing s0 s → dir d p e ini ing s0 (s_trace t s).
Proof. by intros []. Qed.
Lemma dir_dev d p e ini s0 s x : dir d p e ini 0 s0 s → dir d p e ini 0 s0 (s_dev x s).
Proof. by intros []. Qed.

(** Closing the PCM and forgetting it. *)
Lemma dir_close d p e ing s0 s :
  p ≠ NULL → dir d p e 0 ing s0 s →
  dir d NULL e 0 ing s0
    (s_var (<[pcm_handle d := NULL]> (a_var s)) (s_pcms (a_pcms s ∖ {[p]}) s)).
Proof.
  intros Hp H. assert (Hpcms : a_pcms s ∖ {[p]} = owned NULL ∪ owned (a_var s0 (pcm_handle (opp d)))).
  { destruct H. rewrite dir_pcms0, (owned_handle p), owned_null by done. unfold owned.
    specialize (dir_new0 Hp). destruct (_ =? NULL); set_solver. }
  dir_store H.
Qed.
(** A fresh PCM. *)
Lemma dir_opened d e ing s0 s h :
  fresh h (a_pcms s) = true → dir d NULL e 0 ing s0 s →
  dir d h e 0 ing s0 (s_var (<[pcm_handle d := h]> (a_var s)) (s_opened h s)).
Proof.
  unfold fresh. intros [Hh Hn]%andb_prop H. apply bool_decide_eq_true_1 in Hn. bool_prop.
  assert (Hpcms : {[h]} ∪ a_pcms s = owned h ∪ owned (a_var s0 (pcm_handle (opp d)))).
  { destruct H. rewrite dir_pcms0, owned_null, (owned_handle h) by done. set_solver. }
  assert (Hne : h ≠ a_var s0 (pcm_handle (opp d))).
  { intros Heq. apply Hn. destruct H. rewrite dir_pcms0, <- Heq, (owned_handle h) by done. set_solver. }
  dir_store H. destruct dir_sizes0. split; [simpl; by rewrite fn_lookup_insert_ne|done].
Qed.
(** The parameters of its PCM. *)
Lemma dir_hw d h e ing s0 s r rc :
  h ≠ NULL → dir d h e 0 ing s0 s → dir d h e 0 ing s0 (s_sizes (hw_done h r rc (a_sizes s)) s).
Proof.
  intros Hh []. split; try done. specialize (dir_new0 Hh). destruct dir_sizes0 as [H1 H2].
  split; destruct r; simpl; try done; try (by case_match). by rewrite fn_lookup_insert_ne.
Qed.
(** The codec is destroyed and forgotten; a new one is created and stored. *)
Lemma dir_codec_gone d p e ing s0 s :
  e ≠ NULL → dir d p e 0 ing s0 s →
  dir d p NULL 0 ing s0
    (s_var (<[codec d := NULL]> (a_var s)) (s_codecs (<[d := a_codecs s d ∖ {[e]}]> (a_codecs s)) s)).
Proof.
  intros He H. assert (Hc : a_codecs s d ∖ {[e]} = owned NULL)
    by (destruct H; rewrite dir_codecs0, owned_handle by done; set_solver).
  pose proof (opp_ne d). dir_store H.
Qed.
Lemma dir_codec_new d p ing s0 s x k :
  x ≠ NULL → dir d p NULL 0 ing s0 s →
  dir d p x 0 ing s0
    (s_var (<[codec d := x]> (a_var s)) (s_codecs (<[d := {[x]} ∪ a_codecs s d]> (a_codecs s))
      (s_sizes (set_codec_channels d x k (a_sizes s)) s))).
Proof.
  intros He H. assert (Hc : {[x]} ∪ a_codecs s d = owned x)
    by (destruct H; rewrite dir_codecs0, owned_null, (owned_handle x) by done; set_solver).
  pose proof (opp_ne d). dir_store H. destruct dir_sizes0.
  split; [done|simpl; by rewrite fn_lookup_insert_ne].
Qed.
Lemma dir_codec_null d p e ing s0 s :
  e = NULL → dir d p e 0 ing s0 s →
  dir d p NULL 0 ing s0 (s_var (<[codec d := NULL]> (a_var s)) s).
Proof. intros -> H. dir_store H. Qed.

(** ** The operations on one direction *)

Section operations.
Context (fo : Prop) (d : direction) (s0 : astate).
#[local] Abbreviation W := (wpr eq (λ _ _, True) fo).

(** One of the two names: it is set afterwards, the other one is kept. *)
Lemma w_init_device variable d' Q s :
  (∀ f, is_Some (f d') → (∀ d2, d2 ≠ d' → f d2 = a_dev s d2) → Q tt (s_dev f s)) →
  W (init_device variable d') Q s.
Proof.
  intros HQ. unfold init_device, device_unset. astep. astep. astep. astep. simpl.
  assert (Hdone : ∀ f v, (∀ d2, d2 ≠ d' → f d2 = a_dev s d2) →
    Q tt (s_dev (<[d' := Some v]> f) s)).
  { intros f v Hf. apply HQ; [by rewrite fn_lookup_insert; eexists|].
    intros d2 Hd. by rewrite fn_lookup_insert_ne, Hf. }
  assert (Hother : ∀ v d2, d2 ≠ d' → (<[d' := v]> (a_dev s)) d2 = a_dev s d2)
    by (intros; by rewrite fn_lookup_insert_ne).
  rewrite fn_lookup_insert. destruct (a_env s variable) as [v|].
  - astep. simpl. rewrite fn_lookup_insert. astep.
    case_bool_decide; cbn [when]; astep; [astep|]; apply Hdone; intros; simpl; by rewrite ?Hother.
  - astep. cbn [when]. astep. astep. apply Hdone; intros; simpl; by rewrite Hother.
Qed.

Lemma w_env Q s p e ini :
  dir d p e ini 0 s0 s → (∀ s', dir d p e ini 0 s0 s' → is_Some (a_dev s' d) → Q tt s') →
  W init_alsa_devices_from_env Q s.
Proof.
  intros H HQ. unfold init_alsa_devices_from_env. astep. apply w_init_device. intros f Hf _.
  apply w_init_device. intros f' Hf' Hk. apply HQ; [by do 2 apply dir_dev|].
  simpl. destruct d; [by rewrite Hk|done].
Qed.

Lemma w_drop_codec p e ing Q s :
  dir d p e 0 ing s0 s → (∀ s', dir d p NULL 0 ing s0 s' → Q tt s') → W (drop_codec d) Q s.
Proof.
  intros H HQ. unfold drop_codec. astep. rewrite (dir_codec _ _ _ _ _ _ _ H).
  destruct (Z.eqb_spec e NULL) as [He|He]; cbn [negb when].
  - astep. apply HQ. by subst.
  - astep. rewrite (dir_codec _ _ _ _ _ _ _ H).
    assert (Hin : bool_decide (e ∈ a_codecs s d) = true).
    { apply bool_decide_eq_true_2. rewrite (dir_codecs _ _ _ _ _ _ _ H), owned_handle by done. set_solver. }
    unfold codec_destroy. destruct d; anorm; (eapply a_do; [exact Hin|reflexivity|]); astep; astep;
      apply HQ; exact (dir_codec_gone _ _ _ _ _ _ He H).
Qed.

Lemma dir_open_in p e ini ing s : p ≠ NULL → dir d p e ini ing s0 s → p ∈ a_pcms s.
Proof. intros Hp H. rewrite (dir_pcms _ _ _ _ _ _ _ H), (owned_handle p) by done. set_solver. Qed.

(** Closing the open PCM through the variable. *)
Lemma w_close {A} (k : unit → audio A) p e ing Q s :
  p ≠ NULL → dir d p e 0 ing s0 s → (∀ s', dir d NULL e 0 ing s0 s' → W (k tt) Q s') →
  W (Act (PcmClose p) (λ _, Act (St (pcm_handle d) NULL) k)) Q s.
Proof.
  intros Hp H HQ. eapply a_do; [apply bool_decide_eq_true_2; by eapply dir_open_in|reflexivity|].
  astep. apply HQ. exact (dir_close _ _ _ _ _ _ Hp H).
Qed.

Lemma w_drop_pcm p e ing Q s :
  dir d p e 0 ing s0 s → (∀ s', dir d NULL e 0 ing s0 s' → Q tt s') → W (drop_pcm d) Q s.
Proof.
  intros H HQ. unfold drop_pcm. astep. rewrite (dir_pcm _ _ _ _ _ _ _ H).
  destruct (Z.eqb_spec p NULL) as [He|He]; cbn [negb when].
  - astep. apply HQ. by subst.
  - astep. rewrite (dir_pcm _ _ _ _ _ _ _ H). anorm. eapply w_close; [done|done|].
    intros s' H'. astep. by apply HQ.
Qed.

Lemma w_fail_init rc p e ini ing Q s :
  dir d p e ini ing s0 s → (∀ s', dir d p e ini 0 s0 s' → Q rc s') → W (fail_init d rc) Q s.
Proof. intros H HQ. unfold fail_init. astep. astep. apply HQ. by apply dir_set_ing with ing. Qed.

Lemma w_close_and_fail rc p e ing Q s :
  p ≠ NULL → dir d p e 0 ing s0 s → (∀ s', dir d NULL e 0 0 s0 s' → Q rc s') →
  W (close_and_fail d rc) Q s.
Proof.
  intros Hp H HQ. unfold close_and_fail. astep. rewrite (dir_pcm _ _ _ _ _ _ _ H). anorm.
  eapply w_close; [done|done|]. intros s' H'. by eapply w_fail_init.
Qed.

Lemma w_open dev e ing Q s :
  is_Some dev → config_ok (a_cfg s0) → dir d NULL e 0 ing s0 s →
  (∀ rc s', rc < 0 → dir d NULL e 0 ing s0 s' → Q rc s') →
  (∀ h s', h ≠ NULL → dir d h e 0 ing s0 s' → Q 0 s') →
  W (safe_alsa_open dev d) Q s.
Proof.
  intros Hdev Hc H Hf Hk. apply a_open; [done|by rewrite (dir_cfg _ _ _ _ _ _ _ H)|..].
  - intros rc k t Hrc _ _. apply Hf; [done|by apply dir_trace].
  - intros h k t Hh _ _. apply (Hk h).
    + unfold fresh in Hh. by bool_prop.
    + by apply (dir_opened _ _ _ _ (s_trace t s)); [|apply dir_trace].
Qed.

(** Requests for the open PCM, on their own and as
    [err = call; if (err < 0) return err;]. *)
Lemma w_hw_act {A} h r e ing (k : Z → audio A) Q s :
  h ≠ NULL → dir d h e 0 ing s0 s →
  (∀ rc s', dir d h e 0 ing s0 s' → a_sizes s' = hw_done h r rc (a_sizes s) → W (k rc) Q s') →
  W (Act (HwRequest h r) k) Q s.
Proof.
  intros Hh H Hk. apply wp_act; [apply bool_decide_eq_true_2; by eapply dir_open_in|].
  intros rc s1 [= <-]. apply (Hk rc); [by apply dir_hw|done].
Qed.
Lemma w_hw h r e ing (k : audio Z) Q s :
  h ≠ NULL → dir d h e 0 ing s0 s →
  (∀ rc s', rc < 0 → dir d h e 0 ing s0 s' → Q rc s') →
  (∀ rc s', 0 <= rc → dir d h e 0 ing s0 s' → a_sizes s' = hw_done h r rc (a_sizes s) → W k Q s') →
  W (checked (call (HwRequest h r)) k) Q s.
Proof.
  intros Hh H Hf Hk. unfold checked. anorm. eapply w_hw_act; [done|exact H|]. intros rc s1 H1 Hz.
  destruct (Z.ltb_spec rc 0); [astep; by eapply Hf|by eapply Hk].
Qed.

(** After a success the PCM has the configured channels. *)
Lemma w_configure h e ing Q s :
  h ≠ NULL → dir d h e 0 ing s0 s →
  (∀ rc s', dir d h e 0 ing s0 s' →
     (0 <= rc → installed (a_sizes s') h = Some (channels (a_cfg s0))) → Q rc s') →
  W (configure_alsa_device h) Q s.
Proof.
  intros Hh H HQ. unfold configure_alsa_device. destruct (Z.eqb_spec h NULL); [done|].
  assert (Hfail : ∀ rc s', rc < 0 → dir d h e 0 ing s0 s' → Q rc s')
    by (intros; apply HQ; [done|lia]).
  assert (Hopen : ∀ s', dir d h e 0 ing s0 s' → bool_decide (h ∈ a_pcms s') = true)
    by (intros; apply bool_decide_eq_true_2; by eapply dir_open_in).
  do 3 (eapply w_hw; [exact Hh|exact H|exact Hfail|]; clear H; intros _ ? _ H _).
  astep. rewrite (dir_cfg _ _ _ _ _ _ _ H).
  eapply w_hw; [exact Hh|exact H|exact Hfail|]. clear H. intros rc s1 Hrc H Hz.
  assert (Hs : asked (a_sizes s1) h = Some (channels (a_cfg s0))).
  { rewrite Hz. simpl. destruct (Z.ltb_spec rc 0); [lia|]. simpl. by rewrite fn_lookup_insert. }
  clear rc Hrc Hz. astep. unfold checked at 1. anorm.
  eapply w_hw_act; [exact Hh|exact H|]. clear H. intros rc s2 H Hz.
  assert (Hs2 : asked (a_sizes s2) h = Some (channels (a_cfg s0))) by by rewrite Hz.
  clear dependent s1.
  assert (Hrest : W (configure_periods h) Q s2).
  { unfold configure_periods, checked at 1. astep. apply a_skip; [by apply Hopen|done|].
    intros [rc' period]. destruct (Z.ltb_spec rc' 0); [astep; by apply Hfail|].
    anorm. apply a_skip; [by apply Hopen|done|]. intros rc2.
    destruct (Z.ltb_spec rc2 0); [astep; by apply Hfail|].
    eapply w_hw; [exact Hh|exact H|exact Hfail|]. clear H. intros rc3 s3 Hrc3 H Hz.
    assert (Hi : installed (a_sizes s3) h = Some (channels (a_cfg s0))).
    { rewrite Hz. simpl. destruct (Z.ltb_spec rc3 0); [lia|]. by rewrite fn_lookup_insert. }
    clear dependent s2.
    do 4 (eapply w_hw; [exact Hh|exact H|exact Hfail|]; clear H; intros ? s3' _ H Hz;
      replace (installed (a_sizes s3) h) with (installed (a_sizes s3') h) in Hi by (by rewrite Hz);
      clear dependent s3; rename s3' into s3).
    anorm. apply a_skip; [by apply Hopen|done|]. intros err. astep. by apply HQ. }
  destruct (Z.ltb_spec rc 0) as [?|Hrc].
  - anorm. astep. anorm. apply a_skip; [by apply Hopen|done|]. intros rc'.
    destruct (Z.ltb_spec rc' 0); [astep; by apply Hfail|done].
  - anorm. destruct (Z.ltb_spec rc 0); [lia|done].
Qed.

Lemma w_settings e l Q s :
  e ∈ a_codecs s Capture → Q tt s → W (apply_settings e l) Q s.
Proof.
  intros He HQ. induction l as [|r l IH]; cbn [apply_settings]; [by astep|]. anorm.
  apply a_skip; [by apply bool_decide_eq_true_2|done|done].
Qed.

Lemma w_close_direction n p e ini Q s :
  dir d p e ini 0 s0 s → (0 < n)%nat → ini = 0 ∨ ini = 1 →
  (∀ s', ini = 0 → dir d p e 0 0 s0 s' → Q tt s') →
  (∀ s', dir d NULL NULL 0 0 s0 s' → Q tt s') →
  W (close_direction n d) Q s.
Proof.
  intros H Hn Hini Hsame HQ. unfold close_direction, wait_initializing.
  destruct n as [|n]; [lia|]. cbn [loop]. astep. rewrite (dir_ing _ _ _ _ _ _ _ H).
  cbn [Z.eqb]. anorm. apply a_cas; rewrite (dir_ini _ _ _ _ _ _ _ H).
  - intros ->. cbn [negb]. astep. eapply w_drop_codec; [by apply dir_set_ini with 1|].
    intros s1 H1. astep. rewrite (dir_pcm _ _ _ _ _ _ _ H1).
    destruct (Z.eqb_spec p NULL) as [->|Hp]; cbn [negb when]; [astep; by apply HQ|].
    astep. rewrite (dir_pcm _ _ _ _ _ _ _ H1). anorm.
    apply a_skip; [apply bool_decide_eq_true_2; by eapply dir_open_in|done|intros _].
    astep. rewrite (dir_pcm _ _ _ _ _ _ _ H1). anorm.
    eapply w_close; [done|done|]. intros s2 H2. astep. by apply HQ.
  - intros Hne. cbn [negb]. astep. assert (ini = 0) as -> by lia. by apply Hsame.
Qed.
End operations.

(** ** Initialising a direction *)

(** The result of an initialisation: success with PCM and codec in place, or a
    failure code with the direction uninitialised and its PCM closed. *)
Definition init_result (d : direction) (errors : list Z) (s0 : astate) (rc : Z) (s : astate) : Prop :=
  awf s ∧ (∀ v, direction_of v = opp d → a_var s v = a_var s0 v) ∧
  a_cfg s = a_cfg s0 ∧ (a_again s <= a_again s0)%nat ∧
  ((rc = 0 ∧ a_var s (initialized d) = 1) ∨
   (rc ∈ errors ∧ a_var s (initialized d) = 0 ∧ a_var s (pcm_handle d) = NULL)).

Section initialisation.
Context (fo : Prop) (d : direction) (s0 : astate) (Hs0 : awf s0).
#[local] Abbreviation W := (wpr eq (λ _ _, True) fo).

Lemma init_ok errors p e s :
  dir d p e 1 0 s0 s → p ≠ NULL → e ≠ NULL → init_result d errors s0 0 s.
Proof.
  intros H Hp He. split; [eapply dir_awf; [done|done|by right]|].
  destruct H. split_and!; try done. by left.
Qed.
Lemma init_failed errors rc e s :
  rc ∈ errors → dir d NULL e 0 0 s0 s → init_result d errors s0 rc s.
Proof.
  intros Hrc H. split; [eapply dir_awf; [done|done|by left]|].
  destruct H. split_and!; try done. by right.
Qed.

(** Taking the [initializing] flag. *)
Lemma w_take {A} (k : bool → audio A) p e ini Q s :
  is_Some (a_dev s d) → dir d p e ini 0 s0 s → (∀ s', dir d p e ini 1 s0 s' → W (k true) Q s') →
  W (Act (CAS (initializing d) 0 1) k) Q s.
Proof.
  intros Hdev H Hk. apply a_cas; rewrite (dir_ing _ _ _ _ _ _ _ H); [|done]. intros _.
  apply Hk. by apply dir_set_ing with 0.
Qed.

(** Creating the codec and storing it. *)
Lemma w_create {A} (k : Z → Z → audio A) chans (e : audioE (Z * Z)) p ing Q s :
  aenabled e s = true →
  (∀ r s', aact e s r = Some s' → (r.1 = NULL ∧ s' = s) ∨
     (r.1 ≠ NULL ∧ s' = s_codecs (<[d := {[r.1]} ∪ a_codecs s d]> (a_codecs s))
                          (s_sizes (set_codec_channels d r.1 chans (a_sizes s)) s))) →
  dir d p NULL 0 ing s0 s →
  (∀ x err s', dir d p x 0 ing s0 s' → installed (a_sizes s') p = installed (a_sizes s) p →
     (x ≠ NULL → codec_channels (a_sizes s') d x = chans) → W (k x err) Q s') →
  W (Act e (λ '(x, err), Act (St (codec d) x) (λ _, k x err))) Q s.
Proof.
  intros Hen Ha H Hk. apply wp_act; [done|]. intros [x err] s1 H1.
  destruct (Ha _ _ H1) as [[Hx ->]|[Hx ->]]; simpl in Hx; astep; apply Hk; try done.
  - subst x. by eapply dir_codec_null.
  - exact (dir_codec_new _ _ _ _ _ _ chans Hx H).
  - intros _. simpl. by rewrite !fn_lookup_insert.
Qed.
End initialisation.

(** The PCM was configured and the codec created with the channels of [s5]. *)
Lemma sized_configured d h x ini ing s0 s5 s6 :
  dir d h x ini ing s0 s6 → installed (a_sizes s5) h = Some (channels (a_cfg s0)) →
  installed (a_sizes s6) h = installed (a_sizes s5) h → a_cfg s5 = a_cfg s0 →
  codec_channels (a_sizes s6) d x = channels (a_cfg s5) → sized_for s6 d h x.
Proof. intros [] H1 H2 H3 H4. split; congruence. Qed.

Lemma create_capture s r s' rate ch :
  aact (EncoderCreate rate ch) s r = Some s' → (r.1 = NULL ∧ s' = s) ∨
  (r.1 ≠ NULL ∧ s' = s_codecs (<[Capture := {[r.1]} ∪ a_codecs s Capture]> (a_codecs s))
                       (s_sizes (set_codec_channels Capture r.1 ch (a_sizes s)) s)).
Proof.
  simpl. destruct (Z.eqb_spec r.1 NULL); [intros [= <-]; by left|].
  destruct (fresh _ _); [|done]. intros [= <-]. by right.
Qed.
Lemma create_playback s r s' rate ch :
  aact (DecoderCreate rate ch) s r = Some s' → (r.1 = NULL ∧ s' = s) ∨
  (r.1 ≠ NULL ∧ s' = s_codecs (<[Playback := {[r.1]} ∪ a_codecs s Playback]> (a_codecs s))
                       (s_sizes (set_codec_channels Playback r.1 ch (a_sizes s)) s)).
Proof.
  simpl. destruct (Z.eqb_spec r.1 NULL); [intros [= <-]; by left|].
  destruct (fresh _ _); [|done]. intros [= <-]. by right.
Qed.

Lemma w_capture_init fo s0 :
  awf s0 →
  wpr eq (λ _ _, True) fo jetkvm_audio_capture_init (init_result Capture [-1; -2; -3] s0) s0.
Proof.
  intros Hs0. pose proof (awf_dir Capture s0 Hs0) as H0.
  destruct (awf_ini s0 Hs0 Capture) as [Hi|(Hi & Hp & He)]; rewrite Hi in H0;
    unfold jetkvm_audio_capture_init; astep; (eapply w_env; [exact H0|]); intros s1 H1 Hn1;
    anorm; (eapply w_take; [exact Hn1|exact H1|]); intros s2 H2; cbn [negb]; astep;
    rewrite (dir_ini _ _ _ _ _ _ _ H2); cbn [Z.eqb negb]; cycle 1.
  { eapply w_fail_init; [exact H2|]. intros s3 H3.
    by eapply (init_ok _ _ Hs0 _ _ _ _ H3). }
  astep. eapply w_drop_codec; [exact H2|]. intros s3 H3.
  astep. eapply w_drop_pcm; [exact H3|]. intros s4 H4. astep.
  pose proof (awf_cfg s0 Hs0) as Hcfg. anorm. astep.
  eapply w_open; [by apply (dir_name _ _ _ _ _ _ _ H4)|done|exact H4|intros rc s5 Hrc H5|intros h s5 Hh H5].
  { destruct (Z.ltb_spec rc 0); [|lia]. eapply w_fail_init; [exact H5|]. intros s6 H6.
    eapply init_failed; [done| |exact H6]. set_solver. }
  cbn [Z.ltb Z.compare]. astep. rewrite (dir_pcm _ _ _ _ _ _ _ H5). anorm. astep.
  eapply w_configure; [exact Hh|exact H5|]. clear dependent s5. intros rc s5 H5 Hch.
  destruct (Z.ltb_spec rc 0) as [?|Hrc].
  { eapply w_close_and_fail; [done|exact H5|]. intros s6 H6. eapply init_failed; [done| |exact H6]. set_solver. }
  specialize (Hch Hrc).
  astep. anorm. eapply (w_create _ Capture s0 (λ x err, _));
    [done|intros r s'; apply create_capture|exact H5|]. intros x err s6 H6 Hp6 He6. cbv beta.
  destruct (Z.eqb_spec x NULL) as [->|Hx]; cbn [orb]; [|destruct (err =? OPUS_OK); cbn [negb]]; cycle 1.
  - astep. anorm. astep. eapply w_settings.
    { rewrite (dir_codecs _ _ _ _ _ _ _ H6), owned_handle by done. set_solver. }
    astep. eapply w_fail_init; [eapply dir_set_ini; [intros _|exact H6]|].
    { eapply (sized_configured _ _ _ _ _ s0 s5 s6); [exact H6|exact Hch|exact Hp6|by destruct H5|by apply He6]. }
    intros s7 H7. by eapply (init_ok _ _ Hs0 _ _ _ _ H7).
  - astep. eapply w_drop_pcm; [exact H6|]. intros s7 H7. eapply w_fail_init; [exact H7|].
    intros s8 H8. eapply init_failed; [done| |exact H8]. set_solver.
  - astep. eapply w_drop_pcm; [exact H6|]. intros s7 H7. eapply w_fail_init; [exact H7|].
    intros s8 H8. eapply init_failed; [done| |exact H8]. set_solver.
Qed.

Lemma w_playback_init fo s0 :
  awf s0 →
  wpr eq (λ _ _, True) fo jetkvm_audio_playback_init (init_result Playback [-1; -2] s0) s0.
Proof.
  intros Hs0. pose proof (awf_dir Playback s0 Hs0) as H0.
  destruct (awf_ini s0 Hs0 Playback) as [Hi|(Hi & Hp & He)]; rewrite Hi in H0;
    unfold jetkvm_audio_playback_init; astep; (eapply w_env; [exact H0|]); intros s1 H1 Hn1;
    anorm; (eapply w_take; [exact Hn1|exact H1|]); intros s2 H2; cbn [negb]; astep;
    rewrite (dir_ini _ _ _ _ _ _ _ H2); cbn [Z.eqb negb]; cycle 1.
  { eapply w_fail_init; [exact H2|]. intros s3 H3.
    by eapply (init_ok _ _ Hs0 _ _ _ _ H3). }
  astep. eapply w_drop_codec; [exact H2|]. intros s3 H3.
  astep. eapply w_drop_pcm; [exact H3|]. intros s4 H4. astep.
  pose proof (awf_cfg s0 Hs0) as Hcfg. anorm.
  assert (Hfail : ∀ e s5, dir Playback NULL e 0 1 s0 s5 →
    wpr eq (λ _ _, True) fo (fail_init Playback (-1)) (init_result Playback [-1; -2] s0) s5).
  { intros e s5 H5. eapply w_fail_init; [exact H5|]. intros s6 H6.
    eapply init_failed; [done| |exact H6]. set_solver. }
  assert (Hopened : ∀ h s5, h ≠ NULL → dir Playback h NULL 0 1 s0 s5 →
    wpr eq (λ _ _, True) fo
      (h ← call (Ld (pcm_handle Playback));
       err ← configure_alsa_device h;
       if err <? 0 then close_and_fail Playback (-1)
       else
         c ← call Cfg;
         r ← call (DecoderCreate (sample_rate c) (channels c));
         let '(e, opus_err) := r in
         call (St (codec Playback) e);;
         if (e =? NULL) || negb (opus_err =? OPUS_OK) then close_and_fail Playback (-2)
         else call (St (initialized Playback) 1);; fail_init Playback 0)
      (init_result Playback [-1; -2] s0) s5).
  { intros h s5 Hh H5. astep. rewrite (dir_pcm _ _ _ _ _ _ _ H5). anorm. astep.
    eapply w_configure; [exact Hh|exact H5|]. clear dependent s5. intros rc s5 H5 Hch.
    destruct (Z.ltb_spec rc 0) as [?|Hrc].
    { eapply w_close_and_fail; [done|exact H5|]. intros s6 H6.
      eapply init_failed; [done| |exact H6]. set_solver. }
    specialize (Hch Hrc).
    astep. anorm. eapply (w_create _ Playback s0 (λ x err, _));
      [done|intros r s'; apply create_playback|exact H5|]. intros x err s6 H6 Hp6 He6. cbv beta.
    destruct (Z.eqb_spec x NULL) as [->|Hx]; cbn [orb]; [|destruct (err =? OPUS_OK); cbn [negb]].
    - eapply w_close_and_fail; [exact Hh|exact H6|]. intros s7 H7.
      eapply init_failed; [done| |exact H7]. set_solver.
    - astep. anorm. eapply w_fail_init; [eapply dir_set_ini; [intros _|exact H6]|].
      { eapply (sized_configured _ _ _ _ _ s0 s5 s6); [exact H6|exact Hch|exact Hp6|by destruct H5|by apply He6]. }
      intros s7 H7. by eapply (init_ok _ _ Hs0 _ _ _ _ H7).
    - eapply w_close_and_fail; [exact Hh|exact H6|]. intros s7 H7.
      eapply init_failed; [done| |exact H7]. set_solver. }
  astep. eapply w_open; [by apply (dir_name _ _ _ _ _ _ _ H4)|done|exact H4|intros rc s5 Hrc H5|intros h s5 Hh H5].
  - destruct (Z.ltb_spec rc 0); [|lia]. astep.
    eapply w_open; [done|done|exact H5|intros rc' s6 Hrc' H6|intros h s6 Hh H6].
    + destruct (Z.ltb_spec rc' 0); [|lia]. by eapply Hfail.
    + cbn [Z.ltb Z.compare]. by eapply Hopened.
  - cbn [Z.ltb Z.compare]. anorm. cbn [Z.ltb Z.compare]. by eapply Hopened.
Qed.

Lemma w_close_op fo n d s0 :
  awf s0 → (0 < n)%nat →
  wpr eq (λ _ _, True) fo (close_direction n d)
    (λ _ s', awf s' ∧ a_var s' (initialized d) = 0 ∧
       (∀ v, direction_of v = opp d → a_var s' v = a_var s0 v) ∧ (a_again s' <= a_again s0)%nat ∧
       a_cfg s' = a_cfg s0 ∧
       (a_var s0 (initialized d) = 1 → a_pcms s' = owned (a_var s0 (pcm_handle (opp d))) ∧
          a_codecs s' d = ∅)) s0.
Proof.
  intros Hs0 Hn. pose proof (awf_dir d s0 Hs0) as H0.
  eapply w_close_direction; [exact H0|done| | |].
  - destruct (awf_ini s0 Hs0 d) as [?|(? & _)]; auto.
  - intros s1 Hi H1. split; [eapply dir_awf; [done|exact H1|by left]|].
    destruct H1; split_and!; auto. lia.
  - intros s1 H1. split; [eapply dir_awf; [done|exact H1|by left]|].
    destruct H1; split_and!; auto. intros _. rewrite dir_pcms0, owned_null. split; [set_solver|done].
Qed.
