(* ===== verification/AudioTransfer.v ===== *)
(** * Audio transfers: reading and encoding, decoding and writing

    The theorems on [Audio]: zero padding is [memset], opening retries within
    its bounds, the hot functions deliver what the devices gave and end, every
    sequence of operations is safe; and what goes wrong with the packet buffer Go
    passes, with no attempts configured, and when closing races initialising. *)
From stdpp Require Import functions.
From S2P Require Import Prelude Effects Audio AudioDevice.

(** ** [simd_clear_samples_s16] is a fill with zeros *)

Definition zero_fill (buf : list Z) (start n : Z) : list Z :=
  take (Z.to_nat start) buf ++ replicate (Z.to_nat n) 0 ++ drop (Z.to_nat (start + n)) buf.

Lemma vst1q_zero_in pre buf : (8 <= length buf)%nat →
  vst1q_zero (pre ++ buf) (Z.of_nat (length pre)) = Some ((pre ++ replicate 8 0) ++ drop 8 buf).
Proof. intros. unfold vst1q_zero. rewrite store_list_in by (simpl; lia). by rewrite <- app_assoc. Qed.

Lemma clear16_in n pre buf : (16 * n <= length buf)%nat →
  clear16 n (pre ++ buf) (Z.of_nat (length pre))
  = Some ((pre ++ replicate (16 * n) 0) ++ drop (16 * n) buf).
Proof.
  revert pre buf. induction n as [|n IH]; intros pre buf Hl; cbn [clear16].
  { simpl. by rewrite app_nil_r. }
  rewrite vst1q_zero_in by lia. cbn [mbind option_bind].
  replace (Z.of_nat (length pre) + 8) with (Z.of_nat (length (pre ++ replicate 8 0)))
    by (rewrite length_app, length_replicate; lia).
  rewrite vst1q_zero_in by (rewrite length_drop; lia). cbn [mbind option_bind].
  replace (Z.of_nat (length pre) + 16) with
    (Z.of_nat (length ((pre ++ replicate 8 0) ++ replicate 8 0)))
    by (rewrite !length_app, !length_replicate; lia).
  rewrite IH by (rewrite !length_drop; lia).
  replace (16 * S n)%nat with (8 + (8 + 16 * n))%nat by lia.
  rewrite !replicate_add, !drop_drop, <- !app_assoc. repeat f_equal; lia.
Qed.

Lemma clear1_in n pre buf : (n <= length buf)%nat →
  clear1 n (pre ++ buf) (Z.of_nat (length pre)) = Some (pre ++ replicate n 0 ++ drop n buf).
Proof.
  revert pre buf. induction n as [|n IH]; intros pre buf Hl; cbn [clear1]; [done|].
  destruct buf as [|b buf]; simpl in Hl; [lia|].
  rewrite store_in by (rewrite length_app; simpl; lia). cbn [mbind option_bind].
  rewrite Nat2Z.id, insert_app_r_alt, Nat.sub_diag by lia. simpl.
  replace (pre ++ 0 :: buf) with ((pre ++ [0]) ++ buf) by by rewrite <- app_assoc.
  replace (Z.of_nat (length pre) + 1) with (Z.of_nat (length (pre ++ [0])))
    by (rewrite length_app; simpl; lia).
  rewrite IH by lia. by rewrite <- app_assoc.
Qed.

Lemma land_not15 n : in_u32 n → Z.land n (u32 (Z.lnot 15)) = n - n mod 16.
Proof.
  intros Hx. unfold u32, wrapu. rewrite <- Z.land_ones by lia.
  rewrite (Z.land_comm (Z.lnot 15)), Z.land_assoc, Z.land_ones by lia.
  rewrite Z.mod_small by (cbv [in_u32] in Hx; lia).
  change (Z.land n (Z.lnot 15)) with (Z.land n (Z.lnot (Z.ones 4))).
  rewrite <- Z.ldiff_land, Z.ldiff_ones_r by lia.
  rewrite Z.shiftr_div_pow2, Z.shiftl_mul_pow2 by lia. Z.div_mod_to_equations; lia.
Qed.

Lemma simd_clear_fill buf start n :
  0 <= start → in_u32 n → start + n <= Z.of_nat (length buf) →
  simd_clear_samples_s16 buf start n = Some (zero_fill buf start n).
Proof.
  intros Hs Hn Hl. unfold simd_clear_samples_s16. rewrite land_not15 by done.
  set (q := n / 16). assert (Hq : n - n mod 16 = 16 * q) by (unfold q; Z.div_mod_to_equations; lia).
  rewrite Hq. replace (16 * q / 16) with q by (rewrite Z.mul_comm, Z.div_mul; lia).
  assert (Hr : 0 <= n - 16 * q < 16) by (unfold q; Z.div_mod_to_equations; unfold in_u32 in Hn; lia).
  assert (Hq0 : 0 <= q) by (unfold q, in_u32 in *; Z.div_mod_to_equations; lia).
  set (pre := take (Z.to_nat start) buf). set (rest := drop (Z.to_nat start) buf).
  assert (Hbuf : buf = pre ++ rest) by (symmetry; apply take_drop).
  assert (Hpre : Z.of_nat (length pre) = start) by (unfold pre; rewrite length_take; lia).
  assert (Hrest : Z.of_nat (length rest) = Z.of_nat (length buf) - start)
    by (unfold rest; rewrite length_drop; lia).
  rewrite Hbuf at 1. rewrite <- Hpre at 1. rewrite clear16_in by lia. cbn [mbind option_bind].
  set (mid := pre ++ replicate (16 * Z.to_nat q) 0).
  assert (Hmid : start + 16 * q = Z.of_nat (length mid))
    by (unfold mid; rewrite length_app, length_replicate; lia).
  assert (Hfill : zero_fill buf start n = pre ++ replicate (Z.to_nat n) 0 ++ drop (Z.to_nat n) rest).
  { unfold zero_fill, rest. fold pre. rewrite drop_drop. repeat f_equal; lia. }
  rewrite Hfill. destruct (Z.leb_spec (16 * q + 8) n).
  - rewrite Hmid, vst1q_zero_in by (rewrite length_drop; lia). cbn [mbind option_bind].
    replace (start + (16 * q + 8)) with (Z.of_nat (length (mid ++ replicate 8 0)))
      by (rewrite length_app, length_replicate; lia).
    rewrite clear1_in by (rewrite !length_drop; lia). unfold mid.
    replace (Z.to_nat n) with (16 * Z.to_nat q + (8 + Z.to_nat (n - (16 * q + 8))))%nat by lia.
    rewrite !replicate_add, !drop_drop, <- !app_assoc. repeat f_equal; lia.
  - rewrite Hmid, clear1_in by (rewrite length_drop; lia). unfold mid.
    replace (Z.to_nat n) with (16 * Z.to_nat q + Z.to_nat (n - 16 * q))%nat by lia.
    rewrite !replicate_add, !drop_drop, <- !app_assoc. repeat f_equal; lia.
Qed.

Lemma length_zero_fill buf start n :
  0 <= start → 0 <= n → start + n <= Z.of_nat (length buf) →
  length (zero_fill buf start n) = length buf.
Proof.
  intros. unfold zero_fill. rewrite !length_app, length_take, length_replicate, length_drop. lia.
Qed.

(** ** Recovery from a failed transfer *)

Section recovery.
Context (s : astate) (h : Z) (Hh : h ∈ a_pcms s).
#[local] Abbreviation W p Q := (twp p Q s).

Lemma w_resume Q : (∀ rc, Q rc s) → W (resume h) Q.
Proof.
  intros HQ. unfold resume.
  apply (wpr_loop_measure _ _ _ (λ a s', s' = s ∧ 0 <= a <= 10) (λ a _, Z.to_nat (10 - a)));
    [|split; [done|lia]|simpl; lia].
  intros a s' [-> Ha]. unfold resume_step. anorm. astep. destruct (_ && _) eqn:Hb; bool_prop.
  - astep. astep. astep. rewrite u8_id by (unfold in_u8; lia).
    split; [split; [done|lia]|lia].
  - astep. intros ? <-. apply HQ.
Qed.

(** [Retry] with the counter given, or a return of [fail] or 0. *)
Lemma w_recover_xrun k fail Q : Q (Retry k) s → Q (Return fail) s → W (recover_xrun h k fail) Q.
Proof. intros H1 H2. unfold recover_xrun. repeat (progress (astep; try case_match; try done)). Qed.
Lemma w_recover_io k fail Q :
  (k <= max_recovery_attempts → Q (Retry k) s) → Q (Return fail) s → W (recover_io h k fail) Q.
Proof.
  intros H1 H2. unfold recover_io. destruct (Z.leb_spec k max_recovery_attempts); [|by astep].
  repeat (progress (astep; try case_match; try done)). by apply H1.
Qed.
Lemma w_recover_suspend fail Q :
  Q (Return 0) s → Q (Return fail) s → W (recover_suspend h fail) Q.
Proof.
  intros H1 H2. unfold recover_suspend. astep. apply w_resume. intros rc.
  repeat (progress (try case_match; astep; try done)).
Qed.

Lemma w_recover_read rc k Q :
  0 <= k <= 3 → Q (Return (-1)) s → Q (Return 0) s →
  (rc ≠ - EAGAIN → k + 1 <= 3 → Q (Retry (k + 1)) s) →
  (rc = - EAGAIN → Q (Retry k) s) →
  W (recover_read h rc k) Q.
Proof.
  intros Hk Hf H0 Hr Ha. unfold recover_read. rewrite u8_id by (unfold in_u8; lia).
  unfold max_recovery_attempts.
  destruct (Z.eqb_spec rc (- EPIPE)) as [->|].
  { destruct (Z.ltb_spec 3 (k + 1)); [by astep|]. apply w_recover_xrun; [apply Hr; [done|lia]|done]. }
  destruct (Z.eqb_spec rc (- EAGAIN)) as [->|]; [astep; astep; astep; by apply Ha|].
  destruct (rc =? - ESTRPIPE).
  { destruct (Z.ltb_spec 3 (k + 1)); [by astep|]. by apply w_recover_suspend. }
  destruct (rc =? - ENODEV); [by astep|].
  destruct (rc =? - EIO); [apply w_recover_io; [by intros; apply Hr|done]|].
  destruct ((k + 1 <=? 1) && (rc =? - EINTR)) eqn:Hb; [astep; apply Hr; [done|lia]|].
  destruct ((k + 1 <=? 1) && (rc =? - EBUSY)) eqn:Hb'; [astep; astep; apply Hr; [done|lia]|].
  by astep.
Qed.

Lemma w_recover_write rc k Q :
  0 <= k <= 3 → Q (Return (-2)) s → (rc = - ESTRPIPE → Q (Return 0) s) →
  (k + 1 <= 3 → Q (Retry (k + 1)) s) →
  W (recover_write h rc k) Q.
Proof.
  intros Hk Hf H0 Hr. unfold recover_write. rewrite u8_id by (unfold in_u8; lia).
  unfold max_recovery_attempts.
  destruct (rc =? - EPIPE).
  { destruct (Z.ltb_spec 3 (k + 1)); [by astep|]. apply w_recover_xrun; [apply Hr; lia|done]. }
  destruct (Z.eqb_spec rc (- ESTRPIPE)).
  { destruct (Z.ltb_spec 3 (k + 1)); [by astep|]. apply w_recover_suspend; auto. }
  destruct (rc =? - ENODEV); [by astep|].
  destruct (rc =? - EIO); [apply w_recover_io; [by intros; apply Hr|done]|].
  destruct (rc =? - EAGAIN).
  { destruct (Z.leb_spec (k + 1) 3); [astep; astep; by apply Hr|by astep]. }
  destruct (Z.leb_spec (k + 1) 1); cbn [andb]; [|by astep].
  destruct (_ || _); [astep; astep; apply Hr; lia|by astep].
Qed.
End recovery.

(** ** Reading a frame *)

Lemma sized_neg rc most k l : sized rc most k l = true → rc < 0 → l = [].
Proof.
  unfold sized. destruct (Z.ltb_spec rc 0); [|lia]. intros Hl _. by apply bool_decide_eq_true_1 in Hl.
Qed.
Lemma sized_pos rc most k l :
  sized rc most k l = true → 0 <= rc → rc <= most ∧ Z.of_nat (length l) = rc * k.
Proof. unfold sized. destruct (Z.ltb_spec rc 0); [lia|]. intros Hl _. lia. Qed.

(** The state after reading [samples]. *)
Definition after_read (samples : list Z) (a : nat) (s : astate) : astate :=
  s_buf (<[Capture := samples ++ drop (length samples) (a_buf s Capture)]> (a_buf s))
    (s_trace (t_read samples (a_trace s)) (s_again a s)).

Lemma w_read s n (Q : Z + Z → astate → Prop) :
  awf s → a_var s (pcm_handle Capture) ≠ NULL →
  installed (a_sizes s) (a_var s (pcm_handle Capture)) = Some (channels (a_cfg s)) →
  (a_again s + 3 < n)%nat →
  (∀ rc a, rc = -1 ∨ rc = 0 → (a <= a_again s)%nat → Q (inl rc) (s_again a s)) →
  (∀ frames samples a, 0 <= frames <= frame_size (a_cfg s) → (a <= a_again s)%nat →
     Z.of_nat (length samples) = frames * channels (a_cfg s) →
     Q (inr frames) (after_read samples a s)) →
  twp (loop n read_step 0) Q s.
Proof.
  intros Hs Hh Hch Hn Hret Hok.
  apply (wpr_loop_measure _ _ _ (λ k s', 0 <= k <= 3 ∧ ∃ a, (a <= a_again s)%nat ∧ s' = s_again a s)
           (λ k s', (a_again s' + Z.to_nat (3 - k))%nat)).
  2: { split; [lia|]. exists (a_again s). split; [done|]. by destruct s. }
  2: { simpl. lia. }
  intros k s' (Hk & a & Ha & ->). unfold read_step. astep. astep. anorm. simpl a_var. simpl a_cfg.
  assert (Hin : a_var s (pcm_handle Capture) ∈ a_pcms s).
  { rewrite (awf_pcms _ Hs), (owned_handle (a_var s (pcm_handle Capture))) by done. set_solver. }
  apply wp_act.
  { simpl. apply andb_true_intro. split; apply bool_decide_eq_true_2; [done|rewrite Hch; by eexists]. }
  intros [rc smp] s1 H1. simpl in H1. unfold pcm_channels in H1. simpl in H1. rewrite Hch in H1. simpl in H1.
  destruct (sized rc _ _ smp) eqn:Hsz; [|done].
  assert (Hrec : ∀ s1, a_pcms s1 = a_pcms s → rc < 0 →
    (∀ rc', rc' = -1 ∨ rc' = 0 → ∀ s'', s1 = s'' → Q (inl rc') s'') →
    (∀ k', (k' = k + 1 ∧ rc ≠ - EAGAIN ∨ k' = k ∧ rc = - EAGAIN) → k' <= 3 →
       (0 <= k' <= 3 ∧ ∃ a', (a' <= a_again s)%nat ∧ s1 = s_again a' s) ∧
       (a_again s1 + Z.to_nat (3 - k') < a + Z.to_nat (3 - k))%nat) →
    twp (if rc <? 0 then
      o ← recover_read (a_var s (pcm_handle Capture)) rc k;
      match o with Retry k => mret (inl k) | Return rc => mret (inr (inl rc)) end
      else
        buf ← call (LdBuf Capture);
        match store_list buf 0 smp with
        | None => Stop (Crash "read past pcm_buffer")
        | Some buf' => call (StBuf Capture buf');; mret (inr (inr rc))
        end)
      (λ r s', match r with
         | inl l' => (0 <= l' <= 3 ∧ ∃ a', (a' <= a_again s)%nat ∧ s' = s_again a' s) ∧
                     (a_again s' + Z.to_nat (3 - l') < a + Z.to_nat (3 - k))%nat
         | inr b => ∀ s'', s' = s'' → Q b s'' end) s1).
  { intros s2 Hp Hneg Hr Hgo. destruct (Z.ltb_spec rc 0); [|lia]. astep.
    apply w_recover_read; [by rewrite Hp|done|..].
    - astep. apply Hr. by left.
    - astep. apply Hr. by right.
    - intros. astep. apply Hgo; [by left|done].
    - intros. astep. apply Hgo; [by right|lia]. }
  destruct (Z.eqb_spec rc (- EAGAIN)) as [->|Hna]; [|destruct (Z.ltb_spec rc 0)].
  - destruct a as [|a]; [done|]. injection H1 as <-. apply Hrec; [done|done|..].
    + intros rc' Hrc' s'' <-. apply Hret; [done|lia].
    + intros k' [[? ?]|[-> _]] Hk'; [done|]. split; [split; [done|]; exists a; split; [lia|done]|simpl; lia].
  - injection H1 as <-. destruct (Z.ltb_spec rc 0) in Hrec; [|lia]. apply Hrec; [done|done|..].
    + intros rc' Hrc' s'' <-. by apply Hret.
    + intros k' [[-> _]|[_ ?]] Hk'; [|done]. split; [split; [lia|]; by exists a|simpl; lia].
  - injection H1 as <-. apply sized_pos in Hsz as [Hle Hlen]; [|done]. simpl a_cfg in Hlen.
    astep. simpl a_buf. pose proof (awf_bufs _ Hs Capture) as Hb. pose proof (awf_cfg _ Hs) as [].
    rewrite store_list_0 by (unfold pcm_buffer_size in *; nia). astep. astep. intros s'' <-.
    apply Hok; [lia|done|done].
Qed.

(** ** Encoding *)

Lemma awf_keep s s' :
  awf s → a_var s' = a_var s → a_pcms s' = a_pcms s → a_codecs s' = a_codecs s →
  a_cfg s' = a_cfg s → a_sizes s' = a_sizes s →
  (∀ d, length (a_buf s' d) = length (a_buf s d)) → awf s'.
Proof.
  intros [] Hv Hp Hc Hf Hz Hb. split; unfold sized_for; rewrite ?Hv, ?Hp, ?Hc, ?Hf, ?Hz; try done.
  intros d. by rewrite Hb.
Qed.
(** An initialised direction. *)
Lemma awf_running d s : awf s → a_var s (initialized d) ≠ 0 →
  sized_for s d (a_var s (pcm_handle d)) (a_var s (codec d)).
Proof. intros Hs Hi. apply (awf_sized s Hs). by destruct (awf_ini s Hs d) as [?|[? _]]. Qed.

(** The frame of [samples] padded with zeros to [total] samples. *)
Definition padded (samples : list Z) (total : Z) : list Z :=
  samples ++ replicate (Z.to_nat total - length samples) 0.

(** What [jetkvm_audio_read_encode] returns: the packet is the encoder's output
    for exactly one frame, the samples read and zeros after them. *)
Definition encode_result (s0 : astate) (out : list Z) (r : Z * option (list Z)) (s : astate) : Prop :=
  awf s ∧ a_var s = a_var s0 ∧ a_cfg s = a_cfg s0 ∧ (a_again s <= a_again s0)%nat ∧
  (((r.1 = -1 ∨ r.1 = 0) ∧ r.2 = Some out ∧ a_trace s = a_trace s0) ∨
   (∃ bytes, r.2 = Some (bytes ++ drop (length bytes) out) ∧
     (r.1 < 0 ∧ bytes = [] ∨ 0 <= r.1 <= max_packet_size (a_cfg s0) ∧ Z.of_nat (length bytes) = r.1) ∧
     was_encoded (a_trace s)
       = padded (was_read (a_trace s)) (frame_size (a_cfg s0) * channels (a_cfg s0)) ∧
     Z.of_nat (length (was_encoded (a_trace s))) = frame_size (a_cfg s0) * channels (a_cfg s0))).

Lemma after_read_padded s frames samples a :
  awf s → 0 <= frames <= frame_size (a_cfg s) →
  Z.of_nat (length samples) = frames * channels (a_cfg s) →
  let c := a_cfg s in let total := frame_size c * channels c in
  ∃ buf,
    (if frames <? frame_size c then
       simd_clear_samples_s16 (a_buf (after_read samples a s) Capture) (frames * channels c)
         (u32 ((frame_size c - frames) * channels c))
     else Some (a_buf (after_read samples a s) Capture)) = Some buf ∧
    length buf = pcm_buffer_size ∧ take (Z.to_nat total) buf = padded samples total ∧
    Z.of_nat (length (padded samples total)) = total.
Proof.
  intros Hs Hf Hl c total. destruct (awf_cfg _ Hs) as [_ _ _ Hch Hfs Hbuf].
  fold c in Hch, Hfs, Hbuf, Hf, Hl. pose proof (awf_bufs _ Hs Capture) as Hb.
  assert (Hmul : frames * channels c <= total) by (unfold total; nia).
  unfold after_read. simpl a_buf. rewrite fn_lookup_insert.
  set (buf := samples ++ drop (length samples) (a_buf s Capture)).
  assert (Hlb : length buf = pcm_buffer_size) by (unfold buf; rewrite length_app, length_drop; lia).
  assert (Hpad : Z.of_nat (length (padded samples total)) = total)
    by (unfold padded; rewrite length_app, length_replicate; lia).
  destruct (Z.ltb_spec frames (frame_size c)).
  - rewrite u32_id by (unfold in_u32, pcm_buffer_size in *; nia).
    rewrite simd_clear_fill; [|nia|unfold in_u32, pcm_buffer_size in *; nia|unfold pcm_buffer_size in *; nia].
    eexists. split; [reflexivity|].
    split; [rewrite length_zero_fill; [done|nia|nia|unfold pcm_buffer_size in *; nia]|].
    split; [|done]. unfold zero_fill, padded.
    assert (Hbs : take (Z.to_nat (frames * channels c)) buf = samples).
    { unfold buf. rewrite take_app_le by lia. apply take_ge. lia. }
    rewrite Hbs, app_assoc, take_app_le by (rewrite length_app, length_replicate; unfold total; nia).
    rewrite take_ge by (rewrite length_app, length_replicate; unfold total; nia).
    f_equal. f_equal. unfold total. nia.
  - exists buf. split_and!; [done|done| |done]. unfold buf, padded.
    rewrite take_app_le by (unfold total; nia). rewrite take_ge by (unfold total; nia).
    replace (Z.to_nat total - length samples)%nat with 0%nat by (unfold total; nia).
    by rewrite app_nil_r.
Qed.

Lemma w_read_encode s n out :
  awf s → (a_again s + 3 < n)%nat → max_packet_size (a_cfg s) <= Z.of_nat (length out) →
  twp (jetkvm_audio_read_encode n (Some out)) (encode_result s out) s.
Proof.
  intros Hs Hn Hout. unfold jetkvm_audio_read_encode. astep. astep. astep.
  assert (Hsame : ∀ rc, rc = -1 ∨ rc = 0 → ∀ a, (a <= a_again s)%nat →
    encode_result s out (rc, Some out) (s_again a s)).
  { intros rc Hrc a Ha. split; [by eapply awf_keep|]. split_and!; try done. by left. }
  destruct (_ || _) eqn:Hc.
  { astep. specialize (Hsame (-1) (or_introl eq_refl) (a_again s)). destruct s. by apply Hsame. }
  bool_prop. destruct (awf_running Capture s Hs) as [Hch Hec]; [done|].
  astep. apply w_read; [done|done|done|done| |].
  { intros rc a Hrc Ha. astep. by apply Hsame. }
  intros frames samples a Hf Ha Hl.
  destruct (after_read_padded s frames samples a Hs Hf Hl) as (buf & Hbuf & Hlen & Htake & Hpl).
  astep. astep. anorm. simpl a_cfg. rewrite Hbuf. astep. astep. astep. anorm. simpl a_var. simpl a_cfg.
  assert (Hin : a_var s (codec Capture) ∈ a_codecs s Capture).
  { rewrite (awf_codecs _ Hs Capture), owned_handle by done. set_solver. }
  apply wp_act.
  { simpl. apply andb_true_intro. split; [by apply bool_decide_eq_true_2|].
    rewrite Hec, Hlen. destruct (awf_cfg _ Hs). lia. }
  intros [nb bytes] s' H'. simpl in H'. rewrite Hec in H'. destruct (sized nb _ 1 bytes) eqn:Hsz; [|done].
  injection H' as <-.
  assert (Hb : nb < 0 ∧ bytes = [] ∨ 0 <= nb <= max_packet_size (a_cfg s) ∧ Z.of_nat (length bytes) = nb).
  { destruct (Z.ltb_spec nb 0); [left; split; [done|by eapply sized_neg]|right].
    apply sized_pos in Hsz; [lia|done]. }
  assert (Hfit : (length bytes <= length out)%nat) by (destruct Hb as [[? ->]|?]; simpl; lia).
  rewrite store_list_0 by done. astep. split.
  { eapply awf_keep; [exact Hs|done..|]. intros [].
    - simpl. rewrite fn_lookup_insert. by rewrite Hlen, (awf_bufs _ Hs).
    - simpl. by rewrite !fn_lookup_insert_ne by done. }
  split_and!; try done. right. exists bytes. split_and!; [done|done|exact Htake|].
  simpl. by rewrite Htake.
Qed.

(** ** Decoding and writing *)

(** What [jetkvm_audio_decode_write] returns, against what happened: -1 when
    nothing was written; otherwise the samples of the last decoding, of the packet
    or concealing its loss, were written at most four times, and the result tells
    how the device answered the last time: the frames decoded when it took some
    of them or all, 0 when it was suspended, -2 for an error. *)
Definition write_result (s0 : astate) (packet : list Z) (rc : Z) (s : astate) : Prop :=
  awf s ∧ a_var s = a_var s0 ∧ a_cfg s = a_cfg s0 ∧ a_again s = a_again s0 ∧
  ((rc = -1 ∧ writes (a_trace s) = writes (a_trace s0)) ∨
   ∃ (k : nat) data frames samples answer,
     (1 <= k <= 4)%nat ∧ writes (a_trace s) = (writes (a_trace s0) + k)%nat ∧
     (data = Some packet ∨ data = None) ∧
     was_decoded (a_trace s) = (data, frames, samples) ∧
     0 <= frames <= frame_size (a_cfg s0) ∧
     Z.of_nat (length samples) = frames * channels (a_cfg s0) ∧
     was_written (a_trace s) = (frames, samples, answer) ∧
     (rc = frames ∧ 0 <= answer <= frames ∨ rc = 0 ∧ answer = - ESTRPIPE ∨ rc = -2 ∧ answer < 0)).

Lemma w_write s frames samples Q :
  awf s → a_var s (pcm_handle Playback) ≠ NULL →
  installed (a_sizes s) (a_var s (pcm_handle Playback)) = Some (channels (a_cfg s)) →
  0 <= frames <= frame_size (a_cfg s) →
  take (Z.to_nat (frames * channels (a_cfg s))) (a_buf s Playback) = samples →
  (∀ rc k t answer, (1 <= k <= 4)%nat → writes t = (writes (a_trace s) + k)%nat →
     was_decoded t = was_decoded (a_trace s) → was_written t = (frames, samples, answer) →
     (rc = frames ∧ 0 <= answer <= frames ∨ rc = 0 ∧ answer = - ESTRPIPE ∨ rc = -2 ∧ answer < 0) →
     Q rc (s_trace t s)) →
  twp (loop 5 (write_step frames) 0) Q s.
Proof.
  intros Hs Hh Hch Hf Hsm HQ.
  apply (wpr_loop_measure _ _ _
    (λ k s', 0 <= k <= 3 ∧ ∃ t, s' = s_trace t s ∧ writes t = (writes (a_trace s) + Z.to_nat k)%nat ∧
       was_decoded t = was_decoded (a_trace s))
    (λ k _, Z.to_nat (3 - k))).
  2: { split; [lia|]. exists (a_trace s). split; [by destruct s|simpl; split; [lia|done]]. }
  2: { simpl. lia. }
  intros k s' (Hk & t & -> & Ht & Hd). unfold write_step. astep. astep. anorm. simpl a_var. simpl a_buf.
  assert (Hin : a_var s (pcm_handle Playback) ∈ a_pcms s).
  { rewrite (awf_pcms _ Hs), (owned_handle (a_var s (pcm_handle Playback))) by done. set_solver. }
  apply wp_act.
  { simpl. apply andb_true_intro. split; [by apply bool_decide_eq_true_2|].
    rewrite Hch, (awf_bufs _ Hs). destruct (awf_cfg _ Hs). unfold pcm_buffer_size in *. nia. }
  intros rc s1 H1. cbn [aact act asem] in H1. destruct (Z.leb_spec rc frames); [|done].
  injection H1 as <-. unfold pcm_channels. simpl a_sizes. rewrite Hch. simpl default. rewrite Hsm.
  change (a_trace (s_trace t s)) with t. set (t' := t_written _ t).
  assert (HQ' : ∀ r, r = frames ∧ 0 <= rc <= frames ∨ r = 0 ∧ rc = - ESTRPIPE ∨ r = -2 ∧ rc < 0 →
    ∀ s'', s_trace t' (s_trace t s) = s'' → Q r s'').
  { intros r Hr s'' <-. apply (HQ _ (S (Z.to_nat k)) _ rc); [lia|simpl; lia|done|done|done]. }
  destruct (Z.ltb_spec rc 0).
  - astep. apply w_recover_write; [done|done|..].
    + astep. apply HQ'. auto.
    + intros Hrc. astep. apply HQ'. auto.
    + intros Hk'. astep. split; [|lia]. split; [lia|]. exists t'. split; [done|simpl; split; [lia|done]].
  - astep. apply HQ'. auto with lia.
Qed.

Lemma w_decode_write s data size :
  awf s → size <= Z.of_nat (length data) →
  twp (jetkvm_audio_decode_write (Some data) size) (write_result s (take (Z.to_nat size) data)) s.
Proof.
  intros Hs Hsize. unfold jetkvm_audio_decode_write. astep. astep. astep.
  set (packet := take _ data).
  assert (Hnone : ∀ t, writes t = writes (a_trace s) → write_result s packet (-1) (s_trace t s))
    by (intros t Ht; split; [by eapply awf_keep|by repeat (split; [done|]); left]).
  assert (Hnone0 : write_result s packet (-1) s) by (specialize (Hnone (a_trace s)); destruct s; auto).
  destruct (_ || _) eqn:Hc; [by astep|]. bool_prop. astep. destruct (_ <? _); [by astep|].
  destruct (awf_running Playback s Hs) as [Hch Hdc]; [done|].
  destruct (Z.ltb_spec (Z.of_nat (length data)) size); [lia|]. astep. anorm.
  assert (Hin : a_var s (codec Playback) ∈ a_codecs s Playback).
  { rewrite (awf_codecs _ Hs Playback), owned_handle by done. set_solver. }
  assert (Hdec : ∀ data' fec t (k : Z * list Z → audio Z) s1, s1 = s_trace t s → (data' = Some packet ∨ data' = None) →
    writes t = writes (a_trace s) →
    (∀ frames smp t', sized frames (frame_size (a_cfg s)) (channels (a_cfg s)) smp = true →
       was_decoded t' = (data', frames, smp) → writes t' = writes (a_trace s) →
       twp (k (frames, smp)) (write_result s packet) (s_trace t' s)) →
    twp (Act (OpusDecode (a_var s (codec Playback)) data' (frame_size (a_cfg s)) fec) k)
      (write_result s packet) s1).
  { intros data' fec t k s1 -> Hd Ht Hk. apply wp_act; [by apply bool_decide_eq_true_2|].
    intros [fr smp] s' H'. simpl in H'. rewrite Hdc in H'. destruct (sized _ _ _ _) eqn:E; [|done].
    injection H' as <-. by apply (Hk fr smp (t_decoded (data', fr, smp) t)). }
  assert (Hplay : ∀ data' frames smp t, (data' = Some packet ∨ data' = None) →
    sized frames (frame_size (a_cfg s)) (channels (a_cfg s)) smp = true →
    was_decoded t = (data', frames, smp) → writes t = writes (a_trace s) →
    twp (if frames <? 0 then mret (-1)
         else
           buf ← call (LdBuf Playback);
           match store_list buf 0 smp with
           | None => Stop (Crash "decoded past pcm_buffer")
           | Some buf' => call (StBuf Playback buf');; loop 5 (write_step frames) 0
           end) (write_result s packet) (s_trace t s)).
  { intros data' frames smp t Hd Hsz Hdt Hwt.
    destruct (Z.ltb_spec frames 0); [astep; by apply Hnone|].
    apply sized_pos in Hsz as [Hfr Hl]; [|done]. astep. simpl a_buf.
    pose proof (awf_bufs _ Hs Playback) as Hb. pose proof (awf_cfg _ Hs) as Hcfg.
    assert (Hfit : (length smp <= length (a_buf s Playback))%nat)
      by (destruct Hcfg; unfold pcm_buffer_size in *; nia).
    rewrite store_list_0 by done. astep. set (s1 := s_buf _ (s_trace t s)).
    assert (Hs1 : awf s1).
    { eapply awf_keep; [exact Hs|done..|]. intros []; simpl.
      - by rewrite fn_lookup_insert_ne by done.
      - rewrite fn_lookup_insert, length_app, length_drop. lia. }
    apply (w_write s1 frames smp); [done|done|done|done| |].
    { simpl. rewrite fn_lookup_insert, take_app_le by lia. apply take_ge. lia. }
    intros rc k t' answer Hk Ht' Hd' Hw' Hrc.
    split; [by eapply awf_keep|]. do 3 (split; [done|]). right.
    exists k, data', frames, smp, answer. destruct Hk. simpl in *. rewrite Ht', Hd', Hwt. by split_and!. }
  apply (Hdec _ _ (a_trace s)); [by destruct s|by left|done|]. intros fr smp t Hsz Hdt Hwt. cbn [fst]. destruct (Z.ltb_spec fr 0).
  - anorm. apply (Hdec _ _ t); [done|by right|done|]. intros fr' smp' t' Hsz' Hdt' Hwt'. eapply Hplay; [|done..]. by right.
  - anorm. eapply Hplay; [|done..]. by left.
Qed.

(** ** Sequences of operations *)

(** Largest packet the operations below are made for. *)
Definition packet_limit : Z := 1500.

Inductive audio_op :=
| CaptureInit | PlaybackInit | CaptureClose | PlaybackClose
| ReadEncode (opus_buf : list Z) | DecodeWrite (opus_buf : list Z) (opus_size : Z)
| Constants (c : config) | DecoderConstants (c : config) | EncoderParams (bitrate complexity : Z).

(** What the callers owe: packet buffers that are long enough, and constants
    that fit the sample buffers. *)
Definition op_ok (o : audio_op) : Prop :=
  match o with
  | ReadEncode out => packet_limit <= Z.of_nat (length out)
  | DecodeWrite data size => size <= Z.of_nat (length data)
  | Constants c => config_ok c ∧ max_packet_size c <= packet_limit ∧
      sleep_milliseconds c = sleep_microseconds c / 1000
  | DecoderConstants c => config_ok c ∧ max_packet_size c <= packet_limit
  | _ => True
  end.

Definition audio_perform (n : nat) (o : audio_op) : audio unit :=
  match o with
  | CaptureInit => jetkvm_audio_capture_init;; mret tt
  | PlaybackInit => jetkvm_audio_playback_init;; mret tt
  | CaptureClose => jetkvm_audio_capture_close n
  | PlaybackClose => jetkvm_audio_playback_close n
  | ReadEncode out => jetkvm_audio_read_encode n (Some out);; mret tt
  | DecodeWrite data size => jetkvm_audio_decode_write (Some data) size;; mret tt
  | Constants c =>
      update_audio_constants (opus_bitrate c) (opus_complexity c) (sample_rate c) (channels c)
        (frame_size c) (max_packet_size c) (sleep_microseconds c)
        (max_attempts_global c) (max_backoff_us_global c)
  | DecoderConstants c =>
      update_audio_decoder_constants (sample_rate c) (channels c) (frame_size c)
        (max_packet_size c) (sleep_microseconds c) (max_attempts_global c) (max_backoff_us_global c)
  | EncoderParams b c => update_opus_encoder_params b c;; mret tt
  end.
(** The operations run one after the other; [up]: which directions may be
    initialised, [ch]: the configured channels.  PCMs and codecs keep the channels
    they were made with, so these may only change while no direction is up. *)
Definition keeps_channels (up : direction → bool) (ch : Z) (o : audio_op) : Prop :=
  match o with
  | Constants c | DecoderConstants c => channels c = ch ∨ ∀ d, up d = false
  | _ => True
  end.
Definition up_after (o : audio_op) (up : direction → bool) : direction → bool :=
  match o with
  | CaptureInit => <[Capture := true]> up
  | PlaybackInit => <[Playback := true]> up
  | CaptureClose => <[Capture := false]> up
  | PlaybackClose => <[Playback := false]> up
  | _ => up
  end.
Definition channels_after (o : audio_op) (ch : Z) : Z :=
  match o with Constants c | DecoderConstants c => channels c | _ => ch end.
Fixpoint ops_ok (up : direction → bool) (ch : Z) (ops : list audio_op) : Prop :=
  match ops with
  | [] => True
  | o :: ops' =>
      op_ok o ∧ keeps_channels up ch o ∧ ops_ok (up_after o up) (channels_after o ch) ops'
  end.
Definition is_up (s : astate) (d : direction) : bool := negb (a_var s (initialized d) =? 0).

Fixpoint audio_perform_all (n : nat) (ops : list audio_op) : audio unit :=
  match ops with
  | [] => mret tt
  | o :: ops' => audio_perform n o;; audio_perform_all n ops'
  end.

(** The invariant between operations. *)
Definition audio_inv (n : nat) (s : astate) : Prop :=
  awf s ∧ max_packet_size (a_cfg s) <= packet_limit ∧ (a_again s + 3 < n)%nat.

Lemma awf_cfg_change s c : awf s → config_ok c →
  (channels c = channels (a_cfg s) ∨ ∀ d, a_var s (initialized d) = 0) → awf (s_cfg c s).
Proof.
  intros [] Hc Hch. split; try done. intros d Hd. destruct Hch as [Hch|Hch]; [|by specialize (Hch d); simpl in Hd; congruence].
  destruct (awf_sized d Hd). split; simpl; congruence.
Qed.

(** The state and the callers' view of it. *)
Definition seen (up : direction → bool) (ch : Z) (s : astate) : Prop :=
  channels (a_cfg s) = ch ∧ ∀ d, up d = false → a_var s (initialized d) = 0.
Lemma seen_keep up ch s s' : seen up ch s → a_cfg s' = a_cfg s → a_var s' = a_var s → seen up ch s'.
Proof. intros [Hc Hu] Hf Hv. split; [congruence|]. intros d. rewrite Hv. apply Hu. Qed.
Lemma seen_change d b up ch s s' : seen up ch s → a_cfg s' = a_cfg s →
  (∀ v, direction_of v = opp d → a_var s' v = a_var s v) →
  (b = false → a_var s' (initialized d) = 0) → seen (<[d := b]> up) ch s'.
Proof.
  intros [Hc Hu] Hf Hv Hb. split; [congruence|]. intros d'. destruct (decide (d' = d)) as [->|Hne].
  - by rewrite fn_lookup_insert.
  - rewrite fn_lookup_insert_ne by done. intros Hd'.
    rewrite Hv by by destruct d, d'. by apply Hu.
Qed.

Lemma w_params s b c n up ch :
  audio_inv n s → seen up ch s →
  twp (update_opus_encoder_params b c) (λ _ s', audio_inv n s' ∧ seen up ch s') s.
Proof.
  intros (Hs & Hm & Hn) Hseen. unfold update_opus_encoder_params. astep. astep. anorm.
  destruct (_ || _) eqn:Hc; [by astep|]. bool_prop. astep. astep. anorm.
  assert (Hin : a_var s (codec Capture) ∈ a_codecs s Capture).
  { rewrite (awf_codecs _ Hs Capture), owned_handle by done. set_solver. }
  do 2 (apply a_skip; [by apply bool_decide_eq_true_2|done|intros ?]). astep.
  split; [|done]. split; [|done]. apply awf_cfg_change; [done| |by left]. by destruct (awf_cfg _ Hs).
Qed.

Lemma w_perform n o s up ch :
  audio_inv n s → seen up ch s → op_ok o → keeps_channels up ch o →
  twp (audio_perform n o) (λ _ s', audio_inv n s' ∧ seen (up_after o up) (channels_after o ch) s') s.
Proof.
  intros (Hs & Hm & Hn) Hseen Ho Hch.
  assert (Hkeep : ∀ s', awf s' → a_cfg s' = a_cfg s → (a_again s' <= a_again s)%nat → audio_inv n s')
    by (intros s' ? Hc ?; split; [done|]; rewrite Hc; split; [done|lia]).
  assert (Hset : ∀ c, config_ok c → max_packet_size c <= packet_limit →
    channels c = ch ∨ (∀ d, up d = false) → audio_inv n (s_cfg c s) ∧ seen up (channels c) (s_cfg c s)).
  { intros c Hc Hp Hup. destruct Hseen as [Hsc Hsu]. split; [split; [|done]|by split].
    apply awf_cfg_change; [done|done|]. destruct Hup; [left; congruence|right; auto]. }
  destruct o as [| | | |out|data size|c|c|b c]; cbn [audio_perform op_ok keeps_channels up_after channels_after] in *.
  - wp_bind. eapply wpr_mono; [by apply w_capture_init|]. intros rc s' (? & Hv & ? & ? & _).
    astep. split; [by apply Hkeep|]. by eapply seen_change.
  - wp_bind. eapply wpr_mono; [by apply w_playback_init|]. intros rc s' (? & Hv & ? & ? & _).
    astep. split; [by apply Hkeep|]. by eapply seen_change.
  - unfold jetkvm_audio_capture_close. eapply wpr_mono; [apply w_close_op; [done|lia]|].
    cbv beta. intros [] s' (? & ? & ? & ? & ? & _). split; [by apply Hkeep|]. by eapply seen_change.
  - unfold jetkvm_audio_playback_close. eapply wpr_mono; [apply w_close_op; [done|lia]|].
    cbv beta. intros [] s' (? & ? & ? & ? & ? & _). split; [by apply Hkeep|]. by eapply seen_change.
  - wp_bind. eapply wpr_mono; [apply w_read_encode; [done|done|lia]|].
    intros rc s' (? & ? & ? & ? & _). astep. split; [by apply Hkeep|by eapply seen_keep].
  - wp_bind. eapply wpr_mono; [by apply w_decode_write|].
    intros rc s' (? & ? & ? & Ha & _). astep. split; [apply Hkeep; [done|done|lia]|by eapply seen_keep].
  - unfold update_audio_constants. destruct Ho as (Hc & Hp & Hsl). rewrite <- Hsl. astep. astep.
    replace (Config _ _ _ _ _ _ _ _ _ _) with c by by destruct c. by apply Hset.
  - unfold update_audio_decoder_constants. destruct Ho as [[] Hp]. astep. astep. astep.
    change (channels c) with (channels (Config (sample_rate c) (channels c) (frame_size c)
      (opus_bitrate (a_cfg s)) (opus_complexity (a_cfg s)) (max_packet_size c) (sleep_microseconds c)
      (sleep_microseconds c / 1000) (max_attempts_global c) (max_backoff_us_global c))) at 2.
    apply Hset; [by split|done|done].
  - wp_bind. eapply wpr_mono; [by apply w_params|]. intros rc s' Hs'. by astep.
Qed.

Lemma w_perform_all n ops s up ch :
  audio_inv n s → seen up ch s → ops_ok up ch ops → twp (audio_perform_all n ops) (λ _, audio_inv n) s.
Proof.
  revert s up ch. induction ops as [|o ops IH]; intros s up ch Hs Hseen Hops;
    cbn [audio_perform_all]; [by astep|]. destruct Hops as (Ho & Hk & Hops).
  wp_bind. eapply wpr_mono; [by eapply w_perform|]. cbv beta. intros _ s' [? ?]. by eapply IH.
Qed.

(** ** A concrete audio system *)

Definition no_trace : trace := Trace 0 0 0 [] [] (None, 0, []) (0, [], 0).
Definition astart_in (env : string → option string) (c : config) : astate :=
  AState (λ _, 0) ∅ (λ _, ∅) c (λ _, None) (λ _, replicate pcm_buffer_size 7)
    env 0 no_trace (Sizes (λ _, None) (λ _, None) (λ _ _, 0)).
Definition astart : config → astate := astart_in (λ _, None).
(** Both directions initialised. *)
Definition arunning (c : config) : astate :=
  AState (λ v, match v with
               | pcm_handle Capture => 3 | pcm_handle Playback => 4
               | codec _ => 5 | initializing _ => 0 | initialized _ => 1 end)
    ({[3]} ∪ {[4]}) (λ _, {[5]}) c (λ _, Some "hw:1,0"%string) (λ _, replicate pcm_buffer_size 7)
    (λ _, None) 0 no_trace
    (Sizes (λ _, Some (channels c)) (λ _, Some (channels c)) (λ _ _, channels c)).

Lemma default_config_ok : config_ok default_config.
Proof. split; unfold default_config, pcm_buffer_size; simpl; lia. Qed.
(** Constants for one channel, in frames of 40 ms. *)
Definition mono_config : config := Config 48000 1 1920 128000 5 1500 1000 1 5 500000.
Lemma mono_config_ok : config_ok mono_config.
Proof. split; unfold mono_config, pcm_buffer_size; simpl; lia. Qed.
Lemma astart_awf env : awf (astart_in env default_config).
Proof. split; [apply default_config_ok|try done..]. intros d. by left. Qed.
Lemma arunning_awf : awf (arunning default_config).
Proof. split; [apply default_config_ok|try done..]; intros []; try done; by right. Qed.

(** Answers that agree with the state, but for the given ones. *)
Definition audio_answers (special : ∀ X, audioE X → option X) (X : Type) (e : audioE X) (s : astate) : X :=
  match special X e with
  | Some x => x
  | None =>
      match e in audioE X return X with
      | Ld v => a_var s v
      | CAS v old _ => a_var s v =? old
      | Cfg => a_cfg s
      | LdDev d => a_dev s d
      | LdBuf d => a_buf s d
      | GetEnv n => a_env s n
      | St _ _ | SetCfg _ | StDev _ _ | StBuf _ _ | Nanosleep _ _ | SchedYield
      | PcmClose _ | PcmDrain _ | EncoderDestroy _ | DecoderDestroy _ => tt
      | PcmOpen _ _ => (0, Z.of_nat (size (a_pcms s)) + 1)
      | EncoderCreate _ _ => (Z.of_nat (size (a_codecs s Capture)) + 1, OPUS_OK)
      | DecoderCreate _ _ => (Z.of_nat (size (a_codecs s Playback)) + 1, OPUS_OK)
      | HwPeriodNear _ n => (0, n)
      | PcmReadi h n => (n, replicate (Z.to_nat (n * pcm_channels s h)) 9)
      | OpusEncode _ _ _ _ => (3, [1; 2; 3])
      | OpusDecode x _ n _ =>
          (n, replicate (Z.to_nat (n * codec_channels (a_sizes s) Playback x)) 8)
      | PcmWritei _ _ n => n
      | PcmNonblock _ _ | PcmDrop _ | PcmPrepare _ | PcmResume _ | PcmWait _ _
      | HwRequest _ _ | HwRateNear _ _ | HwBufferNear _ _ | EncoderCtl _ _ => 0
      end
  end.

(** ** Properties *)

(** The vectorised clear is [memset]. For every offset and length that fit
    the buffer, [simd_clear_samples_s16] writes zeros exactly to the samples
    [start .. start + samples) and nothing else, in blocks of sixteen, eight and
    one. *)
Theorem simd_clear_is_memset (buf : list Z) (start samples : Z) :
  0 <= start → in_u32 samples → start + samples <= Z.of_nat (length buf) →
  ∃ buf', simd_clear_samples_s16 buf start samples = Some buf' ∧
    length buf' = length buf ∧
    ∀ i : nat, buf' !! i =
      if decide (start <= Z.of_nat i < start + samples) then Some 0 else buf !! i.
Proof.
  intros Hs Hn Hl. exists (zero_fill buf start samples).
  split; [by apply simd_clear_fill|]. unfold in_u32 in Hn.
  split; [apply length_zero_fill; lia|]. intros i. unfold zero_fill.
  case_decide.
  - rewrite lookup_app_r by (rewrite length_take; lia). rewrite length_take.
    rewrite lookup_app_l by (rewrite length_replicate; lia). apply lookup_replicate_2. lia.
  - destruct (decide (Z.of_nat i < start)).
    + rewrite lookup_app_l by (rewrite length_take; lia). apply lookup_take_lt. lia.
    + rewrite lookup_app_r by (rewrite length_take; lia). rewrite length_take.
      rewrite lookup_app_r by (rewrite length_replicate; lia).
      rewrite length_replicate, lookup_drop. f_equal. lia.
Qed.
Lemma simd_clear_is_memset_witness :
  ∃ buf', simd_clear_samples_s16 (replicate 40 1) 3 29 = Some buf' ∧ buf' !! 31%nat = Some 0.
Proof.
  destruct (simd_clear_is_memset (replicate 40 1) 3 29) as (buf' & H & _ & Hi);
    [lia|vm_compute; split; congruence|simpl; lia|].
  exists buf'. split; [exact H|]. rewrite Hi. reflexivity.
Defined.

(** Opening a PCM. With at least one attempt configured the code makes at
    most [max_attempts] calls of [snd_pcm_open], between which it sleeps at most
    twice the larger of the configured sleep and backoff; it returns 0 exactly
    when a call succeeded, with the handle stored, and otherwise the last error
    after having made all attempts. With 0 attempts configured it returns an
    uninitialised variable. *)
Theorem safe_alsa_open_spec (dev : string) (d : direction) (s : astate) :
  config_ok (a_cfg s) →
  twp (safe_alsa_open (Some dev) d) (λ rc s',
    let c := a_cfg s in
    ∃ k : nat, (opens (a_trace s') = opens (a_trace s) + k)%nat ∧
      Z.of_nat k <= max_attempts_global c ∧
      slept (a_trace s') <= slept (a_trace s) + Z.of_nat k * longest_sleep c ∧
      ((rc = 0 ∧ a_var s' (pcm_handle d) ≠ NULL ∧
        a_pcms s' = {[a_var s' (pcm_handle d)]} ∪ a_pcms s ∧
        a_var s' (pcm_handle d) ∉ a_pcms s) ∨
       (rc < 0 ∧ Z.of_nat k = max_attempts_global c ∧
        a_var s' = a_var s ∧ a_pcms s' = a_pcms s))) s ∧
  (∀ answer, run (answer : ∀ X, audioE X → astate → X) (safe_alsa_open (Some dev) d)
     (s_cfg (Config 48000 2 960 128000 5 1500 1000 1 0 500000) s) ≠ Blocked →
   run answer (safe_alsa_open (Some dev) d)
     (s_cfg (Config 48000 2 960 128000 5 1500 1000 1 0 500000) s)
   = Crashed "err is read before it is assigned").
Proof.
  intros Hc. split.
  - apply a_open; [by eexists|done|..].
    + intros e k t He Hk (Ho & [_ Hs] & _). exists k. split_and!; try done; [lia|].
      by right.
    + intros h k t Hh Hk (Ho & [_ Hs] & _). exists k. split_and!; try done. left.
      unfold fresh in Hh. bool_prop. apply bool_decide_eq_true_1 in H0.
      simpl. by rewrite fn_lookup_insert.
  - intros answer. unfold safe_alsa_open. cbn [loop call prog_bind run].
    unfold open_step. cbn [enabled act asem aenabled aact]. unfold det.
    case_bool_decide as H1; [|done]. rewrite H1. cbn. unfold det.
    case_bool_decide as H2; [|done]. rewrite H2. done.
Qed.
Lemma safe_alsa_open_spec_witness :
  let s := astart default_config in
  config_ok (a_cfg s) ∧
  twp (safe_alsa_open (Some "hw:1,0"%string) Playback) (λ _ s', slept (a_trace s') <= 5000000) s.
Proof.
  intros s. split; [apply default_config_ok|].
  eapply wpr_mono; [exact (proj1 (safe_alsa_open_spec "hw:1,0" Playback s default_config_ok))|].
  cbv beta. intros rc s' (k & _ & Hk & Hs & _). change (longest_sleep (a_cfg s)) with 1000000 in Hs.
  change (max_attempts_global (a_cfg s)) with 5 in Hk. simpl in Hs. lia.
Defined.

(** C18: initialising and closing a direction. [jetkvm_audio_capture_init]
    returns 0 with the direction initialised, or -1, -2 or -3 with it
    uninitialised and its PCM closed; [jetkvm_audio_playback_init] returns 0, -1
    or -2 likewise; closing a direction leaves it uninitialised, and closes its
    PCM and destroys its codec when it was initialised. None of them touches the
    other direction, and afterwards exactly the PCMs and codecs the variables
    name are open. *)
Theorem audio_init_close_spec (s : astate) (d : direction) (n : nat) :
  awf s → (0 < n)%nat →
  twp jetkvm_audio_capture_init (init_result Capture [-1; -2; -3] s) s ∧
  twp jetkvm_audio_playback_init (init_result Playback [-1; -2] s) s ∧
  twp (close_direction n d) (λ _ s',
    awf s' ∧ a_var s' (initialized d) = 0 ∧
    (∀ v, direction_of v = opp d → a_var s' v = a_var s v) ∧
    (a_var s (initialized d) = 1 →
       a_pcms s' = owned (a_var s (pcm_handle (opp d))) ∧ a_codecs s' d = ∅)) s.
Proof.
  intros Hs Hn. split; [by apply w_capture_init|]. split; [by apply w_playback_init|].
  eapply wpr_mono; [by apply w_close_op|]. cbv beta. intros _ s' (?&?&?&_&_&?). by split_and!.
Qed.
Lemma audio_init_close_spec_witness :
  let s := arunning default_config in
  (awf s ∧ (0 < 1)%nat) ∧ twp (close_direction 1 Capture) (λ _ s', a_pcms s' = {[4]}) s.
Proof.
  intros s. split; [split; [exact arunning_awf|lia]|].
  eapply wpr_mono;
    [exact (proj2 (proj2 (audio_init_close_spec s Capture 1 arunning_awf (le_n 1))))|].
  cbv beta. intros _ s' (_ & _ & _ & H). apply H. reflexivity.
Defined.

(** C16: what the capture function returns. Between operations,
    with a packet buffer of at least [max_packet_size] bytes, the function
    returns (enough fuel being three more than the reads that find no data).
    Either it returns -1 or 0, nothing was read or encoded and the buffer is as it
    was; or the encoder was given exactly one frame, the samples of the last read
    followed by zeros, and its answer is returned as it is: a size, 0 included,
    with a packet of that size at the start of the buffer and the rest as it was,
    or any of its negative error codes, with the buffer as it was. No sample and no
    packet byte is written outside its buffer. *)
Theorem read_encode_spec (s : astate) (n : nat) (out : list Z) :
  awf s → (a_again s + 3 < n)%nat → max_packet_size (a_cfg s) <= Z.of_nat (length out) →
  twp (jetkvm_audio_read_encode n (Some out)) (encode_result s out) s.
Proof. apply w_read_encode. Qed.
Lemma read_encode_spec_witness :
  let s := arunning default_config in
  (awf s ∧ (0 + 3 < 4)%nat ∧ 1500 <= Z.of_nat (length (replicate 1500 0))) ∧
  twp (jetkvm_audio_read_encode 4 (Some (replicate 1500 0)))
    (encode_result s (replicate 1500 0)) s.
Proof.
  intros s. split; [split; [exact arunning_awf|split; [lia|by rewrite length_replicate]]|].
  apply (read_encode_spec s 4); [exact arunning_awf|simpl; lia|by rewrite length_replicate].
Defined.

(** C17: what the playback function returns. For a packet that is as long as the
    caller says it returns, and either the result is -1 and nothing was written;
    or the decoder, given the packet's [opus_size] bytes or no packet, delivered
    [frames] frames, at most the configured number, exactly their samples were
    given to the device in the last of one to four writes, and the result is
    [frames] when the device took them, or only some of them; 0 when it was
    suspended, and the frames are dropped; -2 when it answered with an error. *)
Theorem decode_write_spec (s : astate) (data : list Z) (opus_size : Z) :
  awf s → opus_size <= Z.of_nat (length data) →
  twp (jetkvm_audio_decode_write (Some data) opus_size)
    (write_result s (take (Z.to_nat opus_size) data)) s.
Proof. apply w_decode_write. Qed.
Lemma decode_write_spec_witness :
  let s := arunning default_config in
  (awf s ∧ 3 <= Z.of_nat (length [1; 2; 3; 4])) ∧
  twp (jetkvm_audio_decode_write (Some [1; 2; 3; 4]) 3) (write_result s [1; 2; 3]) s.
Proof.
  intros s. split; [split; [exact arunning_awf|simpl; lia]|].
  apply (decode_write_spec s); [exact arunning_awf|simpl; lia].
Defined.

(** C6: one thread may use the audio code in any order. Every sequence of
    initialisations, closes, transfers and changes of constants, whose callers
    keep to [ops_ok] (packet buffers that are long enough, constants that fit the
    sample buffers, and another number of channels only while neither direction is
    up), ends, never touches a closed PCM or a destroyed codec, never leaves a
    buffer, where reads, writes and codecs move as many samples as the channels
    they were set up with ask for, and keeps the invariant: what is open is exactly
    what the variables name, so nothing leaks. *)
Theorem audio_operations_safe (n : nat) (ops : list audio_op) (s : astate) :
  audio_inv n s → ops_ok (is_up s) (channels (a_cfg s)) ops →
  twp (audio_perform_all n ops) (λ _, audio_inv n) s.
Proof.
  intros Hs. apply w_perform_all; [done|]. split; [done|]. unfold is_up. intros d. by destruct (Z.eqb_spec (a_var s (initialized d)) 0).
Qed.
Lemma audio_operations_safe_witness :
  let ops := [CaptureInit; ReadEncode (replicate 1500 0); CaptureClose; Constants mono_config;
              PlaybackInit; DecodeWrite [1; 2] 2; CaptureInit; PlaybackClose] in
  twp (audio_perform_all 4 ops) (λ _, audio_inv 4) (astart default_config).
Proof.
  intros ops. apply audio_operations_safe.
  - split; [apply astart_awf|]. split; [vm_compute; congruence|simpl; lia].
  - assert (∀ d, (<[Capture := false]> (<[Capture := true]> (is_up (astart default_config)))) d = false)
      by (by intros []).
    pose proof mono_config_ok. unfold ops. cbn [ops_ok op_ok keeps_channels up_after channels_after].
    rewrite length_replicate. split_and!; try done; auto.
Defined.

(** The condition on the channels is needed. Capture is initialised with two
    channels; constants of one channel and 1920 frames, which fit the sample buffer
    as well, are set; the next read asks the PCM, which still has two channels, for
    1920 frames, and ALSA stores 3840 samples into the 1920 of [pcm_buffer]. *)
Theorem channel_change_overflows_pcm_buffer :
  op_ok (Constants mono_config) ∧
  run (audio_answers (λ _ _, None))
    (audio_perform_all 4 [CaptureInit; Constants mono_config; ReadEncode (replicate 1500 0)])
    (astart default_config) = Crashed "read past pcm_buffer".
Proof.
  split; [split; [exact mono_config_ok|by vm_compute]|]. vm_compute. reflexivity.
Qed.

(** C40: the packet buffer Go passes is too short. cgo_source.go allocates 1024
    bytes and configures packets of up to 1500: an encoder that uses 1100 of the
    bytes it was allowed writes past the end of the buffer. *)
Theorem read_encode_overflows_go_buffer :
  ∃ special, run (audio_answers special)
      (jetkvm_audio_read_encode 4 (Some (replicate 1024 0))) (arunning default_config)
    = Crashed "encoded past opus_buf".
Proof.
  exists (λ X e, match e in audioE X return option X with
                 | OpusEncode _ _ _ _ => Some (1100, replicate 1100 0) | _ => None end).
  vm_compute. reflexivity.
Qed.

(** Thread [i] is about to call [opus_encoder_destroy] on [x]. *)
Definition about_to_destroy (i : nat) (x : Z) (c : pool audioE astate) : bool :=
  match (c.1 !! i : option (audio unit)) with
  | Some (Act e _) =>
      match e with
      | EncoderDestroy y => x =? y
      | _ => false
      end
  | _ => false
  end.

(** C39: closing is not safe against initialising. [close] clears
    [capture_initialized] before it destroys the encoder, so an initialisation
    that starts in between destroys the same encoder: there is an interleaving
    after which the closing thread is about to call [opus_encoder_destroy] on the
    encoder that was alive at the beginning and that the other thread has destroyed
    already. *)
Theorem close_races_init :
  ∃ c e, about_to_destroy 0 e c = true ∧
    e ∈ a_codecs (arunning default_config) Capture ∧ (e ∉ a_codecs c.2 Capture) ∧ crashed c ∧
    rtc pstep ([jetkvm_audio_capture_close 2; (jetkvm_audio_capture_init;; mret tt)],
               arunning default_config) c.
Proof.
  exists (psched (audio_answers (λ _ _, None)) (replicate 3 0%nat ++ replicate 13 1%nat ++ [0%nat])
            ([jetkvm_audio_capture_close 2; (jetkvm_audio_capture_init;; mret tt)],
             arunning default_config)), 5.
  split_and!; [by vm_compute|by vm_compute|by apply (bool_decide_unpack _); vm_compute| |apply psched_steps].
  apply (crashed_thread_crashed 0). vm_compute. reflexivity.
Qed.

