(* ===== verification/AudioParallel.v ===== *)
(** * The two directions at the same time

    The Go side runs capture and playback in threads of their own, each behind its
    own lock.  They share the constants, the device names and ALSA itself; all else
    in audio.c belongs to one direction.  An [owner] checks that a thread keeps to
    its direction; [two] splits the state between the directions, so that [Parallel]
    makes every interleaving two runs of one direction each. *)
From stdpp Require Import functions.
From S2P Require Import Prelude Effects Parallel Audio AudioDevice AudioTransfer.

(** ** Keeping to a direction *)

(** A thread's direction, the environment and the constants it may rely on, and
    which device names it has loaded. *)
Record owner := Owner {
  o_dir : direction; o_env : string → option string; o_cfg : config; o_loaded : direction → bool
}.

Definition env_name (d : direction) : string :=
  match d with Capture => "ALSA_CAPTURE_DEVICE" | Playback => "ALSA_PLAYBACK_DEVICE" end.
(** The device names are set and not empty: the default is not needed. *)
Definition names_set (env : string → option string) : Prop :=
  ∀ d, ∃ name, env (env_name d) = Some name ∧ name ≠ ""%string.

Definition oenabled {X} (e : audioE X) (g : owner) : bool :=
  match e with
  | Ld v | St v _ | CAS v _ _ => bool_decide (direction_of v = o_dir g)
  | SetCfg c => bool_decide (c = o_cfg g)
  | LdDev d => o_loaded g d
  | StDev d name => bool_decide (name = o_env g (env_name d))
  | LdBuf d | StBuf d _ => bool_decide (d = o_dir g)
  | PcmReadi _ _ | EncoderCreate _ _ | EncoderDestroy _ | EncoderCtl _ _ | OpusEncode _ _ _ _ =>
      bool_decide (o_dir g = Capture)
  | DecoderCreate _ _ | DecoderDestroy _ | OpusDecode _ _ _ _ => bool_decide (o_dir g = Playback)
  | _ => true
  end.
Definition oact {X} (e : audioE X) (g : owner) : X → option owner :=
  match e in audioE X return X → option owner with
  | Cfg => λ c, if bool_decide (c = o_cfg g) then Some g else None
  | GetEnv n => λ v, if bool_decide (v = o_env g n) then Some g else None
  | LdDev d => λ v, if bool_decide (v = o_env g (env_name d)) then Some g else None
  | StDev d _ => λ _, Some (Owner (o_dir g) (o_env g) (o_cfg g) (<[d := true]> (o_loaded g)))
  | _ => λ _, Some g
  end.
#[export] Instance owner_sem : Sem audioE owner := {| enabled := @oenabled; act := @oact |}.

(** ** Splitting the state *)

(** The buffer of the direction that is not there. *)
Definition no_buf : list Z := replicate pcm_buffer_size 0.
Lemma length_no_buf : length no_buf = pcm_buffer_size.
Proof. apply length_replicate. Qed.
#[global] Opaque no_buf.

(** The state [u] in which the direction [d] runs alone, beside [s]. *)
Record piece (d : direction) (u : astate) (g : owner) (s : astate) : Prop := {
  pc_dir : o_dir g = d;
  pc_env : o_env g = a_env s ∧ a_env u = a_env s;
  pc_cfg : o_cfg g = a_cfg s ∧ a_cfg u = a_cfg s;
  pc_vars : ∀ v, a_var u v = if decide (direction_of v = d) then a_var s v else 0;
  pc_codecs : a_codecs u d = a_codecs s d ∧ a_codecs u (opp d) = ∅;
  pc_buf : a_buf u d = a_buf s d ∧ a_buf u (opp d) = no_buf;
  pc_dev : ∀ d', o_loaded g d' = true →
    a_dev s d' = a_env s (env_name d') ∧ a_dev u d' = a_env s (env_name d');
  pc_again : d = Capture → a_again u = a_again s;
  pc_pcms : ∀ h, h ∈ a_pcms u → asked (a_sizes u) h = asked (a_sizes s) h ∧
    installed (a_sizes u) h = installed (a_sizes s) h;
  pc_channels : ∀ e, codec_channels (a_sizes u) d e = codec_channels (a_sizes s) d e
}.

(** The direction [d] in [u], the other one in [u']. *)
Record two (d : direction) (u : astate) (g : owner) (u' : astate) (g' : owner) (s : astate) : Prop := {
  tw_own : piece d u g s;
  tw_other : piece (opp d) u' g' s;
  tw_pcms : a_pcms s = a_pcms u ∪ a_pcms u';
  tw_disjoint : a_pcms u ## a_pcms u'
}.

Lemma opp_opp d : opp (opp d) = d.
Proof. by destruct d. Qed.
Lemma two_swap d u g u' g' s : two d u g u' g' s → two (opp d) u' g' u g s.
Proof. intros []. split; [done|by rewrite opp_opp|by rewrite (comm_L (∪))|done]. Qed.

(** The direction [d] of a state between operations. *)
Definition part (d : direction) (s : astate) : astate :=
  AState (λ v, if decide (direction_of v = d) then a_var s v else 0)
    (owned (a_var s (pcm_handle d)))
    (λ d', if decide (d' = d) then a_codecs s d else ∅) (a_cfg s) (a_dev s)
    (λ d', if decide (d' = d) then a_buf s d else no_buf)
    (a_env s) (a_again s) (a_trace s) (a_sizes s).

Lemma part_inv n d s : audio_inv n s → audio_inv n (part d s).
Proof.
  intros ([] & Hm & Ha). split; [|done]. unfold part. split; simpl; try done.
  - intros d'. case_decide; subst; [done|]. apply length_no_buf.
  - intros d'. by case_decide.
  - intros d'. case_decide; [done|by left].
  - destruct d; simpl; change (owned 0) with (∅ : gset Z); set_solver.
  - destruct d; simpl; auto.
  - intros d'. case_decide; subst; [auto|done].
  - intros d'. case_decide; [apply awf_sized|done].
Qed.
Lemma part_piece d s : piece d (part d s) (Owner d (a_env s) (a_cfg s) (λ _, false)) s.
Proof.
  unfold part. split; simpl; try done.
  - rewrite decide_True, decide_False by (try done; apply opp_ne). done.
  - rewrite decide_True, decide_False by (try done; apply opp_ne). done.
Qed.
Lemma part_two s : awf s →
  two Capture (part Capture s) (Owner Capture (a_env s) (a_cfg s) (λ _, false))
    (part Playback s) (Owner Playback (a_env s) (a_cfg s) (λ _, false)) s.
Proof.
  intros []. split; [apply part_piece|apply (part_piece Playback)|done|].
  simpl. unfold owned. repeat case_match; set_solver by lia.
Qed.

(** ** What keeps the split *)

Section keep.
Context (d : direction) (u : astate) (g : owner) (u' : astate) (g' : owner) (s : astate).
Context (Ht : two d u g u' g' s).

Lemma opp_eq d' : d' ≠ d → d' = opp d.
Proof. by destruct d, d'. Qed.

(** Open the split and close the fields that did not change. *)
Ltac two_start :=
  destruct Ht as [[] [] ? ?]; split; [split|split|..]; simpl; try done.

Lemma two_var v x : direction_of v = d →
  two d (s_var (<[v := x]> (a_var u)) u) g u' g' (s_var (<[v := x]> (a_var s)) s).
Proof.
  intros Hv. two_start.
  - intros v'. destruct (decide (v = v')) as [<-|Hne]; rewrite ?fn_lookup_insert, ?fn_lookup_insert_ne by done;
      [by rewrite decide_True|done].
  - intros v'. destruct (decide (v = v')) as [<-|Hne]; [|by rewrite fn_lookup_insert_ne].
    rewrite pc_vars1. rewrite Hv, !decide_False by (intros Heq; by apply (opp_ne d)). done.
Qed.
Lemma two_dev d' name : name = a_env s (env_name d') →
  two d (s_dev (<[d' := name]> (a_dev u)) u)
    (Owner (o_dir g) (o_env g) (o_cfg g) (<[d' := true]> (o_loaded g))) u' g'
    (s_dev (<[d' := name]> (a_dev s)) s).
Proof.
  intros ->. two_start.
  - intros d2. destruct (decide (d' = d2)) as [->|Hne];
      rewrite ?fn_lookup_insert, ?fn_lookup_insert_ne by done; auto.
  - intros d2 Hl. destruct (pc_dev1 _ Hl) as [H1 H2]. split; [|done].
    destruct (decide (d' = d2)) as [->|Hne]; rewrite ?fn_lookup_insert, ?fn_lookup_insert_ne by done; done.
Qed.
Lemma two_buf b : two d (s_buf (<[d := b]> (a_buf u)) u) g u' g' (s_buf (<[d := b]> (a_buf s)) s).
Proof.
  pose proof (opp_ne d). two_start; rewrite ?fn_lookup_insert, ?fn_lookup_insert_ne by done; by destruct_and?.
Qed.
Lemma two_codecs x :
  two d (s_codecs (<[d := x]> (a_codecs u)) u) g u' g' (s_codecs (<[d := x]> (a_codecs s)) s).
Proof.
  pose proof (opp_ne d). two_start; rewrite ?fn_lookup_insert, ?fn_lookup_insert_ne by done; by destruct_and?.
Qed.
Lemma two_created x e k :
  two d (s_codecs (<[d := x]> (a_codecs u)) (s_sizes (set_codec_channels d e k (a_sizes u)) u)) g u' g'
    (s_codecs (<[d := x]> (a_codecs s)) (s_sizes (set_codec_channels d e k (a_sizes s)) s)).
Proof.
  pose proof (opp_ne d). two_start; rewrite ?fn_lookup_insert, ?fn_lookup_insert_ne by done;
    try (by destruct_and?); auto.
  intros e'. destruct (decide (e = e')) as [->|]; rewrite ?fn_lookup_insert, ?fn_lookup_insert_ne by done; auto.
Qed.
Lemma two_trace t t' : two d (s_trace t u) g u' g' (s_trace t' s).
Proof. by two_start. Qed.
Lemma two_again k : d = Capture → two d (s_again k u) g u' g' (s_again k s).
Proof. intros Hd. two_start. by rewrite Hd. Qed.
Lemma two_cfg : two d (s_cfg (o_cfg g) u) g u' g' (s_cfg (o_cfg g) s).
Proof. two_start. destruct_and?. split; congruence. Qed.
Lemma two_open h t t' : h ∉ a_pcms s →
  two d (s_opened h (s_trace t u)) g u' g' (s_opened h (s_trace t' s)).
Proof.
  intros Hh. two_start; try (clear -Hh tw_pcms0 tw_disjoint0; set_solver).
  - intros h'. destruct (decide (h = h')) as [->|Hne];
      rewrite ?fn_lookup_insert, ?fn_lookup_insert_ne by done; [done|]. intros Hin. apply pc_pcms0. set_solver.
  - intros h' Hin. assert (h ≠ h') by set_solver. rewrite !fn_lookup_insert_ne by done. auto.
Qed.
Lemma hw_done_channels h r rc z : codec_channels (hw_done h r rc z) = codec_channels z.
Proof. destruct r; simpl; try done; by case_match. Qed.
Lemma two_hw h r rc : h ∈ a_pcms u →
  two d (s_sizes (hw_done h r rc (a_sizes u)) u) g u' g' (s_sizes (hw_done h r rc (a_sizes s)) s).
Proof.
  intros Hh. assert (Hne : ∀ h', h' ∈ a_pcms u' → h ≠ h') by (destruct Ht; set_solver).
  two_start.
  - intros h' Hh'. destruct (pc_pcms0 _ Hh) as [H1 H2], (pc_pcms0 _ Hh') as [H3 H4].
    destruct r; simpl; try done; try (destruct (rc <? 0); try done; simpl);
      destruct (decide (h = h')) as [->|]; rewrite ?fn_lookup_insert, ?fn_lookup_insert_ne by done; done.
  - intros. rewrite !hw_done_channels. done.
  - intros h' Hh'. specialize (Hne h' Hh'). destruct (pc_pcms1 _ Hh') as [H3 H4].
    destruct r; simpl; try done; try (destruct (rc <? 0); try done; simpl);
      rewrite ?fn_lookup_insert_ne by done; done.
  - intros. rewrite !hw_done_channels. done.
Qed.
Lemma two_close h : h ∈ a_pcms u →
  two d (s_pcms (a_pcms u ∖ {[h]}) u) g u' g' (s_pcms (a_pcms s ∖ {[h]}) s).
Proof.
  intros Hh. two_start; try (clear -Hh tw_pcms0 tw_disjoint0; set_solver).
  intros h' Hin. apply pc_pcms0. set_solver.
Qed.
End keep.

(** ** A step of one direction *)

(** Every action of the owner of [d] that is allowed in [u] is allowed in [s], and
    does to both what it does. *)
Lemma two_step d u g u' g' s X (e : audioE X) :
  two d u g u' g' s → aenabled e u = true → oenabled e g = true →
  aenabled e s = true ∧
  ∀ x s1, aact e s x = Some s1 → ∃ u1 g1,
    aact e u x = Some u1 ∧ oact e g x = Some g1 ∧ two d u1 g1 u' g' s1.
Proof.
  intros Ht Hu Hg. pose proof Ht as [[Hd [He1 He2] [Hc1 Hc2] Hv [Hk Hk'] [Hb Hb'] Hdev Ha Hz Hcd] _ Hp Hx].
  assert (Hinst : ∀ h, h ∈ a_pcms u → installed (a_sizes s) h = installed (a_sizes u) h)
    by (intros h Hh; by destruct (Hz h Hh)).
  assert (Hvar : ∀ v, direction_of v = d → a_var u v = a_var s v).
  { intros v <-. by rewrite Hv, decide_True. }
  assert (Hopen : ∀ h, h ∈ a_pcms u → bool_decide (h ∈ a_pcms s) = true).
  { intros h Hh. apply bool_decide_eq_true_2. rewrite Hp. set_solver. }
  assert (Hfresh : ∀ h, fresh h (a_pcms s) = true → fresh h (a_pcms u) = true ∧ h ∉ a_pcms s).
  { unfold fresh. intros h [-> Hh%bool_decide_eq_true]%andb_prop. split; [|done].
    apply bool_decide_eq_true_2. rewrite Hp in Hh. set_solver. }
  clear Hp Hx Hb' Hk' Hv.
  destruct e; cbn [aenabled oenabled aact oact] in *; bool_prop;
    repeat match goal with H : bool_decide _ = true |- _ => apply bool_decide_eq_true in H end;
    simplify_eq; try (rewrite Hg in *).
  all: split; [try done; rewrite <- ?Hc2, <- ?Hk, ?Hopen, ?Hinst, <- ?Hcd by done;
    rewrite ?andb_true_iff, ?bool_decide_eq_true, ?Z.leb_le; done|].
  all: unfold det, pcm_channels; intros x1 s1 Hact; cbn [a_pcms s_trace] in Hact |- *.
  all: try (destruct (Hdev _ ltac:(done)) as [Hd1 Hd2]; rewrite ?Hd1, ?Hd2 in *).
  all: rewrite ?Hinst, <- ?Hcd in Hact by done.
  all: rewrite ?Hvar, ?Hc2, ?Hk, ?Hb, ?He2, ?Ha by done.
  all: try match goal with
       | |- context [bool_decide (_ = o_cfg _)] => rewrite Hc1
       | |- context [bool_decide (_ = o_env _ _)] => rewrite He1 end.
  all: repeat (case_match; try done); simplify_eq.
  all: try match goal with H : fresh _ _ = true |- _ => apply Hfresh in H as [Hf1 Hf2]; try congruence end.
  all: eexists _, _; split_and!; [reflexivity..|].
  all: first [done|apply two_trace|apply two_var|apply two_buf|apply two_codecs|apply two_close
    |apply two_cfg|apply two_again|apply two_open|apply two_dev|apply two_hw|apply two_created]; by rewrite <- ?He1.
Qed.

(** ** The code keeps to its direction *)

Section keeps.
Context (env : string → option string) (c0 : config) (Hnames : names_set env).

(** [p] only performs actions of its direction; the device names stay loaded or
    not. *)
Definition kp (d : direction) (l : direction → bool) {A} (p : audio A) : Prop :=
  checks p (λ _ g, g = Owner d env c0 l) (Owner d env c0 l).

Lemma kp_bind d l {A B} (p : audio A) (f : A → audio B) :
  kp d l p → (∀ a, kp d l (f a)) → kp d l (prog_bind p f).
Proof. intros Hp Hf. apply checks_bind. eapply checks_mono; [exact Hp|]. intros a g ->. apply Hf. Qed.
Lemma kp_loop d l {L B} n (body : L → audio (L + B)) x :
  (∀ x, kp d l (body x)) → kp d l (loop n body x).
Proof. intros Hb. apply (checks_loop (λ g, g = Owner d env c0 l)); [|done]. intros y g ->. apply Hb. Qed.
Lemma kp_ret d l {A} (a : A) : kp d l (mret a).
Proof. done. Qed.
Lemma kp_call d l {X} (e : audioE X) :
  match e with StDev _ _ => False | _ => True end →
  oenabled e (Owner d env c0 l) = true → kp d l (call e).
Proof.
  intros Hn He. split; [done|]. intros x g'. destruct e; simpl; try done; try case_match; by intros [= <-].
Qed.

Ltac kp_step :=
  match goal with
  | |- kp _ _ (prog_bind _ _) => apply kp_bind; [|intros ?]
  | |- kp _ _ (loop _ _ _) => apply kp_loop; intros ?
  | |- kp _ _ (mret _) => apply kp_ret
  | |- kp _ _ (call _) =>
      apply kp_call; [exact I|first [reflexivity|assumption|by apply bool_decide_eq_true_2]]
  | |- kp _ _ (when ?b _) => destruct b; cbn [when]
  | |- kp _ _ (Stop _) => exact I
  | |- kp _ _ (match ?x with _ => _ end) => destruct x
  | |- kp _ _ _ => solve [auto]
  end.
Ltac kp_steps := repeat (kp_step; cbv beta).

Lemma kp_drop_codec d l : kp d l (drop_codec d).
Proof. unfold drop_codec, codec_destroy. destruct d; kp_steps. Qed.
Lemma kp_drop_pcm d l : kp d l (drop_pcm d).
Proof. unfold drop_pcm. kp_steps. Qed.
Lemma kp_fail_init d l rc : kp d l (fail_init d rc).
Proof. unfold fail_init. kp_steps. Qed.
Hint Resolve kp_drop_codec kp_drop_pcm kp_fail_init : core.
Lemma kp_close_and_fail d l rc : kp d l (close_and_fail d rc).
Proof. unfold close_and_fail. kp_steps. Qed.
Lemma kp_open d l dev : kp d l (safe_alsa_open dev d).
Proof. unfold safe_alsa_open, open_step, precise_sleep_us. kp_steps. Qed.
Lemma kp_configure d l h : kp d l (configure_alsa_device h).
Proof. unfold configure_alsa_device, configure_periods, checked. kp_steps. Qed.
Lemma kp_settings l e rs : kp Capture l (apply_settings e rs).
Proof. induction rs; cbn [apply_settings]; kp_steps. Qed.
Hint Resolve kp_close_and_fail kp_open kp_configure kp_settings : core.
Lemma kp_close d l n : kp d l (close_direction n d).
Proof. unfold close_direction, wait_initializing. kp_steps. Qed.
Lemma kp_read_encode l n out : kp Capture l (jetkvm_audio_read_encode n out).
Proof.
  unfold jetkvm_audio_read_encode, read_step, recover_read, recover_xrun, recover_suspend, recover_io,
    resume, resume_step. kp_steps.
Qed.
Lemma kp_decode_write l data size : kp Playback l (jetkvm_audio_decode_write data size).
Proof.
  unfold jetkvm_audio_decode_write, write_step, recover_write, recover_xrun, recover_suspend, recover_io,
    resume, resume_step. kp_steps.
Qed.

(** Initialising loads the device names before it uses one. *)
Lemma checks_device d d' l :
  checks (init_device (env_name d') d') (λ _ g, g = Owner d env c0 (<[d' := true]> l))
    (Owner d env c0 l).
Proof.
  destruct (Hnames d') as (name & Hname & Hne).
  split; [done|]. simpl. intros v g. case_bool_decide; [|done]. intros [= <-].
  split; [subst; by apply bool_decide_eq_true_2|]. intros _ g [= <-].
  split; [apply fn_lookup_insert|]. intros v' g. case_bool_decide as Hv'; [|done].
  intros [= <-]. simpl in Hv'. rewrite Hname in Hv'. subst v'. cbn.
  split; [apply fn_lookup_insert|]. intros v2 g. case_bool_decide as Hv2; [|done].
  intros [= <-]. simpl in Hv2. rewrite Hname in Hv2. subst v2. cbn. by rewrite bool_decide_eq_false_2.
Qed.
Lemma checks_init d l {A} (p : audio A) : (∀ l, l d = true → kp d l p) →
  checks (init_alsa_devices_from_env;; p) (λ _ g, ∃ l', g = Owner d env c0 l') (Owner d env c0 l).
Proof.
  intros Hp. apply checks_bind. unfold init_alsa_devices_from_env. apply checks_bind.
  eapply checks_mono; [apply (checks_device d Capture)|]. intros _ g ->.
  eapply checks_mono; [apply (checks_device d Playback)|]. intros _ g ->.
  eapply checks_mono; [apply Hp|intros a g ->; eauto].
  destruct d; [by rewrite fn_lookup_insert_ne, fn_lookup_insert|by rewrite fn_lookup_insert].
Qed.
Lemma checks_capture_init l :
  checks jetkvm_audio_capture_init (λ _ g, ∃ l', g = Owner Capture env c0 l') (Owner Capture env c0 l).
Proof. apply checks_init. intros l' Hl. kp_steps. Qed.
Lemma checks_playback_init l :
  checks jetkvm_audio_playback_init (λ _ g, ∃ l', g = Owner Playback env c0 l') (Owner Playback env c0 l).
Proof. apply checks_init. intros l' Hl. kp_steps. Qed.

Lemma config_eta c : sleep_milliseconds c = sleep_microseconds c / 1000 →
  Config (sample_rate c) (channels c) (frame_size c) (opus_bitrate c) (opus_complexity c)
    (max_packet_size c) (sleep_microseconds c) (sleep_microseconds c / 1000)
    (max_attempts_global c) (max_backoff_us_global c) = c.
Proof. intros <-. by destruct c. Qed.

(** The operations of a direction, with the constants both directions agree on. *)
Definition op_of (d : direction) (o : audio_op) : Prop :=
  match o with
  | CaptureInit | CaptureClose | ReadEncode _ => d = Capture
  | PlaybackInit | PlaybackClose | DecodeWrite _ _ => d = Playback
  | Constants c | DecoderConstants c =>
      c = c0 ∧ sleep_milliseconds c = sleep_microseconds c / 1000
  | EncoderParams _ _ => False
  end.

Lemma checks_perform d n o l : op_of d o →
  checks (audio_perform n o) (λ _ g, ∃ l', g = Owner d env c0 l') (Owner d env c0 l).
Proof.
  assert (Hk : ∀ {A} (p : audio A) (f : A → audio unit), kp d l p → (∀ a, kp d l (f a)) →
    checks (prog_bind p f) (λ _ g, ∃ l', g = Owner d env c0 l') (Owner d env c0 l)).
  { intros A p f Hp Hf. eapply checks_mono; [exact (kp_bind d l p f Hp Hf)|]. intros ? g ->. eauto. }
  destruct o; cbn [op_of audio_perform]; try (intros ->); try done.
  - apply checks_bind. eapply checks_mono; [apply checks_capture_init|]. intros ? g [l' ->]. by exists l'.
  - apply checks_bind. eapply checks_mono; [apply checks_playback_init|]. intros ? g [l' ->]. by exists l'.
  - eapply checks_mono; [apply kp_close|]. intros ? g ->. eauto.
  - eapply checks_mono; [apply kp_close|]. intros ? g ->. eauto.
  - apply Hk; [apply kp_read_encode|]. by intros.
  - apply Hk; [apply kp_decode_write|]. by intros.
  - intros [Hc Hs]. subst c. split; [apply bool_decide_eq_true_2; exact (config_eta c0 Hs)|].
    intros x g [= <-]. by exists l.
  - intros [Hc Hs]. subst c. split; [done|]. simpl. intros c g. case_bool_decide; [|done]. intros [= <-]. subst c.
    split; [apply bool_decide_eq_true_2; exact (config_eta c0 Hs)|].
    intros x g [= <-]. by exists l.
Qed.
Lemma checks_perform_all d n ops l : Forall (op_of d) ops →
  checks (audio_perform_all n ops) (λ _ _, True) (Owner d env c0 l).
Proof.
  intros Hops. revert l. induction Hops as [|o ops Ho _ IH]; intros l; [done|].
  cbn [audio_perform_all]. apply checks_bind. eapply checks_mono; [by apply checks_perform|]. intros _ g [l' ->]. apply IH.
Qed.
End keeps.

(** The constants stay as they are, so the channels do. *)
Lemma directed_ops_ok c0 d ops up : Forall (op_of c0 d) ops → Forall op_ok ops →
  ops_ok up (channels c0) ops.
Proof.
  intros Hd Ho. revert up. induction Hd as [|o ops Hd _ IH]; intros up; [done|].
  inversion Ho; subst. assert (Hc : channels_after o (channels c0) = channels c0)
    by (destruct o; simpl in *; destruct_and?; subst; done).
  cbn [ops_ok]. rewrite Hc. split_and!; [done| |by apply IH].
  destruct o; simpl in *; try done; left; by destruct Hd as [-> _].
Qed.

(** ** Both threads *)

Definition thread_of (d : direction) : nat := match d with Capture => 0 | Playback => 1 end.
Definition joint (u : nat → astate) (g : nat → owner) (s : astate) : Prop :=
  two Capture (u 0%nat) (g 0%nat) (u 1%nat) (g 1%nat) s.

Lemma joint_own i : (i < 2)%nat → own_step joint i.
Proof.
  intros Hi u g s X e Hj Hu Hg. destruct i as [|[|i]]; [| |lia].
  - destruct (two_step _ _ _ _ _ _ _ e Hj Hu Hg) as [He Hx]. split; [done|]. intros x s1 Hs1.
    destruct (Hx x s1 Hs1) as (u1 & g1 & H1 & H2 & H3). by exists u1, g1.
  - destruct (two_step _ _ _ _ _ _ _ e (two_swap _ _ _ _ _ _ Hj) Hu Hg) as [He Hx].
    split; [done|]. intros x s1 Hs1. destruct (Hx x s1 Hs1) as (u1 & g1 & H1 & H2 & H3).
    exists u1, g1. split_and!; [done..|]. by apply two_swap in H3.
Qed.

(** What the direction [d] of [s] shows, it shows in [u]. *)
Definition same_direction (d : direction) (u s : astate) : Prop :=
  (∀ v, direction_of v = d → a_var s v = a_var u v) ∧ a_codecs s d = a_codecs u d ∧
  a_buf s d = a_buf u d ∧ (a_pcms u ⊆ a_pcms s) ∧ a_cfg s = a_cfg u.
Lemma two_same d u g u' g' s : two d u g u' g' s → same_direction d u s.
Proof.
  intros [[] _ Hp _]. destruct_and?. split_and!; try done.
  - intros v Hv. by rewrite pc_vars0, decide_True.
  - rewrite Hp. set_solver.
Qed.

(** The two directions, each between operations, make a state between operations. *)
Lemma two_inv n d u g u' g' s :
  two d u g u' g' s → audio_inv n u → audio_inv n u' → d = Capture → audio_inv n s.
Proof.
  intros [[] [] Hp Hx] (Hw & Hm & Ha) (Hw' & _ & _) ->. simpl in *.
  destruct Hw as [Hc Hb Hg Hi Hps _ Hco Hsz], Hw' as [_ Hb' Hg' Hi' Hps' _ Hco' Hsz']. destruct_and?.
  assert (Hd : ∀ d', d' = Capture ∨ d' = Playback) by (intros []; auto).
  assert (Hv : ∀ v, direction_of v = Capture → a_var s v = a_var u v)
    by (intros v Hv; by rewrite pc_vars0, decide_True).
  assert (Hv' : ∀ v, direction_of v = Playback → a_var s v = a_var u' v)
    by (intros v Hv2; by rewrite pc_vars1, decide_True).
  assert (Hz : a_var u (pcm_handle Playback) = 0) by (by rewrite pc_vars0).
  assert (Hz' : a_var u' (pcm_handle Capture) = 0) by (by rewrite pc_vars1).
  rewrite Hz in Hps. rewrite Hz' in Hps'. change (owned 0) with (∅ : gset Z) in *.
  rewrite right_id_L in Hps by apply _. rewrite left_id_L in Hps' by apply _.
  split; [split|split; [congruence|rewrite <- pc_again0 by done; lia]].
  - congruence.
  - intros d'. destruct (Hd d') as [-> | ->]; congruence.
  - intros []; [rewrite Hv|rewrite Hv']; auto.
  - intros []; [rewrite !Hv by done|rewrite !Hv' by done]; auto.
  - rewrite Hp, Hps, Hps', Hv, Hv' by done. done.
  - rewrite Hv, Hv' by done. intros Hn Heq. rewrite Hps, Hps' in Hx.
    rewrite <- Heq, owned_handle in Hx by done. set_solver.
  - intros []; [rewrite Hv by done; congruence|rewrite Hv' by done; congruence].
  - intros []; [rewrite !Hv by done; intros Hini|rewrite !Hv' by done; intros Hini].
    + destruct (Hi Capture) as [?|(_ & Hn & _)]; [congruence|]. destruct (Hsz _ Hini).
      destruct (pc_pcms0 (a_var u (pcm_handle Capture))) as [_ Hin];
        [rewrite Hps, owned_handle by done; set_solver|].
      split; [congruence|]. rewrite <- pc_channels0. congruence.
    + destruct (Hi' Playback) as [?|(_ & Hn & _)]; [congruence|]. destruct (Hsz' _ Hini).
      destruct (pc_pcms1 (a_var u' (pcm_handle Playback))) as [_ Hin];
        [rewrite Hps', owned_handle by done; set_solver|].
      split; [congruence|]. rewrite <- pc_channels1. congruence.
Qed.

Section threads.
Context (n : nat) (cops pops : list audio_op) (s : astate).

Definition direction_threads : list (audio unit) := [audio_perform_all n cops; audio_perform_all n pops].
Definition parts (i : nat) : astate := match i with O => part Capture s | _ => part Playback s end.
Definition owners (i : nat) : owner :=
  Owner (match i with O => Capture | _ => Playback end) (a_env s) (a_cfg s) (λ _, false).

Context (Hs : audio_inv n s) (Hnames : names_set (a_env s)).
Context (Hc : Forall (op_of (a_cfg s) Capture) cops) (Hc' : Forall op_ok cops).
Context (Hp : Forall (op_of (a_cfg s) Playback) pops) (Hp' : Forall op_ok pops).

Lemma directions_independent c : rtc pstep (direction_threads, s) c →
  independent joint 2 False (λ _ _, audio_inv n) direction_threads parts c ∧ ¬ crashed c.
Proof.
  apply (independent_sound joint 2 joint_own False (λ _ _, audio_inv n) _ parts owners); [done|..].
  - apply part_two. apply Hs.
  - intros [|[|i]] p [= <-]; (eapply (w_perform_all _ _ _ (λ _, true)); [by apply part_inv|by split|]);
      by eapply directed_ops_ok.
  - intros [|[|i]] p [= <-]; by apply checks_perform_all.
Qed.

(** Where both threads have got to. *)
Lemma directions_reached c : rtc pstep (direction_threads, s) c → ∃ p q u u' g g',
  c.1 = [p; q] ∧ two Capture u g u' g' c.2 ∧
  twp p (λ _, audio_inv n) u ∧ twp q (λ _, audio_inv n) u' ∧
  alone (audio_perform_all n cops) p (part Capture s) u ∧
  alone (audio_perform_all n pops) q (part Playback s) u'.
Proof.
  intros Hrun. destruct (directions_independent c Hrun) as [(Hlen & u & g & Hj & Hok) _].
  destruct c as [[|p [|q [|]]] s']; try done. simpl in *.
  destruct (Hok 0%nat _ _ eq_refl eq_refl) as (H1 & _ & H2).
  destruct (Hok 1%nat _ _ eq_refl eq_refl) as (H3 & _ & H4).
  exists p, q, (u 0%nat), (u 1%nat), (g 0%nat), (g 1%nat). by split_and!.
Qed.
End threads.



(** Thread [i] is about to open a device whose name is [NULL]. *)
Definition about_to_open_null (i : nat) (c : pool audioE astate) : bool :=
  match (c.1 !! i : option (audio unit)) with
  | Some (Act e _) => match e with PcmOpen None _ => true | _ => false end
  | _ => false
  end.

(** The device names must be set.  Every initialisation stores the value of both
    variables before it replaces an unset one by the default: when neither is set,
    there is an interleaving of the two initialisations after which capture is
    about to pass [NULL] to [snd_pcm_open]. *)
Theorem unset_names_race :
  ∃ c, about_to_open_null 0 c = true ∧ crashed c ∧
    rtc pstep (direction_threads 4 [CaptureInit] [PlaybackInit], astart default_config) c.
Proof.
  exists (psched (audio_answers (λ _ _, None))
            (replicate 12 0%nat ++ replicate 2 1%nat ++ replicate 3 0%nat)
            (direction_threads 4 [CaptureInit] [PlaybackInit], astart default_config)).
  split_and!; [by vm_compute| |apply psched_steps].
  apply (crashed_thread_crashed 0). vm_compute. reflexivity.
Qed.
