(* ===== verification/AudioCommon.v ===== *)
(** * Shared helpers of the audio servers

    src/internal/audio/c/audio_common.c and audio_common.h: configuration from
    the environment, the shutdown signals and the error tracker.  The
    environment is a function from names to values; the configuration is returned
    and not printed. *)
From stdpp Require Import functions.
From S2P Require Import Prelude.

Section environment.
Context (getenv : string → option string).

(** ** [atoi]: optional blanks, a sign and decimal digits; [None] when the value
    does not fit an [int] (undefined in C). *)

Definition is_space (c : ascii) : bool :=
  let n := Z.of_nat (nat_of_ascii c) in (n =? 32) || ((9 <=? n) && (n <=? 13)).
Definition digit (c : ascii) : option Z :=
  let n := Z.of_nat (nat_of_ascii c) in
  if (48 <=? n) && (n <=? 57) then Some (n - 48) else None.
Fixpoint digits (acc : Z) (l : list ascii) : Z :=
  match l with
  | [] => acc
  | c :: l' => match digit c with Some d => digits (acc * 10 + d) l' | None => acc end
  end.
Fixpoint skip_spaces (l : list ascii) : list ascii :=
  match l with
  | c :: l' => if is_space c then skip_spaces l' else l
  | [] => []
  end.
Definition signed (l : list ascii) : Z :=
  match l with
  | "-"%char :: l' => - digits 0 l'
  | "+"%char :: l' => digits 0 l'
  | _ => digits 0 l
  end.
Definition atoi (s : string) : option Z :=
  let v := signed (skip_spaces (chars s)) in
  if (- 2 ^ 31 <=? v) && (v <? 2 ^ 31) then Some v else None.

Definition audio_common_parse_env_int (name : string) (default_value : Z) : option Z :=
  match getenv name with
  | None | Some ""%string => Some default_value
  | Some str => atoi str
  end.

Definition audio_common_parse_env_string (name default_value : string) : string :=
  match getenv name with
  | None | Some ""%string => default_value
  | Some str => str
  end.

(** ** [audio_config_t] *)

Record audio_config_t := AudioConfig {
  alsa_device : string; opus_bitrate : Z; opus_complexity : Z;
  sample_rate : Z; channels : Z; frame_size : Z
}.

Definition audio_common_load_config (is_output : bool) : option audio_config_t :=
  let device := audio_common_parse_env_string
    (if is_output then "ALSA_CAPTURE_DEVICE" else "ALSA_PLAYBACK_DEVICE") "hw:1,0" in
  bitrate ← audio_common_parse_env_int "OPUS_BITRATE" 128000;
  complexity ← audio_common_parse_env_int "OPUS_COMPLEXITY" 2;
  rate ← audio_common_parse_env_int "AUDIO_SAMPLE_RATE" 48000;
  chans ← audio_common_parse_env_int "AUDIO_CHANNELS" 2;
  frame ← audio_common_parse_env_int "AUDIO_FRAME_SIZE" 960;
  Some (AudioConfig device bitrate complexity rate chans frame).
End environment.

(** ** Signals

    A process: what it does on each signal, the static [g_running_ptr], the flags it
    may point to, whether the process lives, and its output. *)

Definition SIGINT : Z := 2.
Definition SIGPIPE : Z := 13.
Definition SIGTERM : Z := 15.

Inductive disposition := SIG_DFL | SIG_IGN | sa_handler.
Record process := Process {
  on_signal : Z → disposition;
  g_running_ptr : option nat;               (* [None] is [NULL] *)
  flag_at : nat → Z;
  alive : bool;
  output : list string
}.

Definition say (line : string) (p : process) : process :=
  Process (on_signal p) (g_running_ptr p) (flag_at p) (alive p) (output p ++ [line]).
Definition set_flag (a : nat) (v : Z) (p : process) : process :=
  Process (on_signal p) (g_running_ptr p) (<[a := v]> (flag_at p)) (alive p) (output p).
Definition sigaction (signo : Z) (d : disposition) (p : process) : process :=
  Process (<[signo := d]> (on_signal p)) (g_running_ptr p) (flag_at p) (alive p) (output p).

Definition signal_handler (signo : Z) (p : process) : process :=
  if (signo =? SIGTERM) || (signo =? SIGINT) then
    let p := say ("Audio server: Received signal " +:+ (if signo =? SIGTERM then "15" else "2")
                  +:+ ", shutting down...") p in
    match g_running_ptr p with Some a => set_flag a 0 p | None => p end
  else p.

Definition audio_common_setup_signal_handlers (running : nat) (p : process) : process :=
  let p := Process (on_signal p) (Some running) (flag_at p) (alive p) (output p) in
  let p := sigaction SIGTERM sa_handler p in
  let p := sigaction SIGINT sa_handler p in
  sigaction SIGPIPE SIG_IGN p.

Definition audio_common_print_startup (server_name : string) : process → process :=
  say ("JetKVM " +:+ server_name +:+ " Starting...").
Definition audio_common_print_shutdown (server_name : string) : process → process :=
  say ("Shutting down " +:+ server_name +:+ "...").

(** The system delivers a signal to a process; by default these signals end it. *)
Definition deliver_signal (p : process) (signo : Z) : process :=
  if alive p then
    match on_signal p signo with
    | SIG_DFL => Process (on_signal p) (g_running_ptr p) (flag_at p) false (output p)
    | SIG_IGN => p
    | sa_handler => signal_handler signo p
    end
  else p.

(** ** Error tracker *)

Definition AUDIO_MAX_CONSECUTIVE_ERRORS : Z := 10.
Definition AUDIO_TRACE_MASK : Z := 1023.

Record audio_error_tracker_t := Tracker { consecutive_errors : Z; frame_count : Z }.

Definition audio_error_tracker_init : audio_error_tracker_t := Tracker 0 0.

Definition audio_error_tracker_record_error (t : audio_error_tracker_t)
  : Z * audio_error_tracker_t :=
  let t := Tracker (u8 (consecutive_errors t + 1)) (frame_count t) in
  (c_bool (AUDIO_MAX_CONSECUTIVE_ERRORS <=? consecutive_errors t), t).

Definition audio_error_tracker_record_success (t : audio_error_tracker_t)
  : audio_error_tracker_t :=
  Tracker 0 (u32 (frame_count t + 1)).

Definition audio_error_tracker_should_trace (t : audio_error_tracker_t) : Z :=
  c_bool (Z.land (frame_count t) AUDIO_TRACE_MASK =? 1).

(** A run of the processing loop: [true] for a frame, [false] for an error; the
    answers of [record_error]. *)
Fixpoint track (t : audio_error_tracker_t) (events : list bool)
  : list Z * audio_error_tracker_t :=
  match events with
  | [] => ([], t)
  | true :: es => track (audio_error_tracker_record_success t) es
  | false :: es =>
      let '(r, t) := audio_error_tracker_record_error t in
      let '(rs, t) := track t es in (r :: rs, t)
  end.

(** ** Lemmas *)

Lemma trace_land n : Z.land n AUDIO_TRACE_MASK = n mod 1024.
Proof. change AUDIO_TRACE_MASK with (Z.ones 10). by rewrite Z.land_ones by lia. Qed.

Lemma track_errors k t : 0 <= consecutive_errors t < 256 →
  (track t (replicate k false)).2 = Tracker ((consecutive_errors t + Z.of_nat k) mod 256) (frame_count t) ∧
  ∀ i, (i < k)%nat → (track t (replicate k false)).1 !! i =
    Some (c_bool (10 <=? (consecutive_errors t + Z.of_nat (S i)) mod 256)).
Proof.
  revert t. induction k as [|k IH]; intros t Ht; cbn [replicate track].
  { split; [|lia]. destruct t as [e f]. simpl in *. by rewrite Z.add_0_r, Z.mod_small by lia. }
  unfold audio_error_tracker_record_error. cbn [fst snd].
  set (t1 := Tracker _ _). assert (Ht1 : 0 <= consecutive_errors t1 < 256) by (apply u8_range).
  destruct (IH t1 Ht1) as [H1 H2]. destruct (track t1 (replicate k false)) as [rs t2]. simpl in *.
  unfold u8, wrapu in *. split.
  - rewrite H1. f_equal. rewrite Zplus_mod_idemp_l. f_equal. lia.
  - intros [|i] Hi; simpl; [done|]. rewrite H2 by lia. do 3 f_equal.
    rewrite Zplus_mod_idemp_l. f_equal. lia.
Qed.

(** ** Properties *)

(** Shutting down. Once the handlers are set up for a flag, and until they are set up
    for another, no sequence of SIGTERM, SIGINT and SIGPIPE ends the process: the
    first SIGTERM or SIGINT clears that flag, which then stays cleared, a SIGPIPE
    changes nothing, no other flag is ever written, and each stop request is
    announced. Setting up never writes a flag itself. *)
Theorem signals_stop_the_loop (p : process) (running : nat) (signals : list Z) :
  alive p = true → Forall (λ s, s = SIGTERM ∨ s = SIGINT ∨ s = SIGPIPE) signals →
  let stops := List.filter (λ s, negb (s =? SIGPIPE)) signals in
  let p' := foldl deliver_signal (audio_common_setup_signal_handlers running p) signals in
  alive p' = true ∧ g_running_ptr p' = Some running ∧
  flag_at p' running = match stops with [] => flag_at p running | _ => 0 end ∧
  (∀ a, a ≠ running → flag_at p' a = flag_at p a) ∧
  length (output p') = (length (output p) + length stops)%nat.
Proof.
  intros Ha Hs. set (p0 := audio_common_setup_signal_handlers running p).
  assert (Hd : on_signal p0 SIGTERM = sa_handler ∧ on_signal p0 SIGINT = sa_handler ∧
    on_signal p0 SIGPIPE = SIG_IGN) by done.
  assert (Hp : alive p0 = true ∧ g_running_ptr p0 = Some running) by done.
  change (flag_at p) with (flag_at p0). change (output p) with (output p0). clearbody p0. clear Ha p.
  revert p0 Hd Hp. induction Hs as [|s l Hs _ IH]; intros p (H1 & H2 & H3) [Hl Hg]; cbn zeta.
  { simpl. by split_and!. }
  assert (Hcases : (s = SIGPIPE ∧ deliver_signal p s = p) ∨
    ((s =? SIGPIPE) = false ∧ deliver_signal p s = signal_handler s p)).
  { unfold deliver_signal. rewrite Hl. destruct Hs as [->|[->| ->]]; rewrite ?H1, ?H2, ?H3; auto. }
  destruct Hcases as [[-> E]|[Es E]]; simpl; rewrite E; [by apply (IH p)|].
  assert (Hh : ∃ line, signal_handler s p = set_flag running 0 (say line p)).
  { unfold signal_handler. destruct Hs as [->|[->| ->]]; [| |done]; simpl; rewrite Hg; eauto. }
  destruct Hh as [line ->]. rewrite Es. cbn [negb List.filter].
  destruct (IH (set_flag running 0 (say line p))) as (G1 & G2 & G3 & G4 & G5); [done|done|].
  split_and!; try done.
  - rewrite G3. cbn. rewrite fn_lookup_insert. by case_match.
  - intros a Hne. rewrite G4 by done. cbn. by rewrite fn_lookup_insert_ne.
  - rewrite G5. cbn. rewrite length_app. simpl. lia.
Qed.
Lemma signals_stop_the_loop_witness :
  let p := Process (λ _, SIG_DFL) None (λ _, 1) true [] in
  let p' := foldl deliver_signal (audio_common_setup_signal_handlers 3 p) [SIGPIPE; SIGTERM] in
  alive p' = true ∧ flag_at p' 3%nat = 0 ∧ alive (deliver_signal p SIGTERM) = false.
Proof.
  intros p. destruct (signals_stop_the_loop p 3 [SIGPIPE; SIGTERM]) as (H1 & _ & H2 & _);
    [done|by apply (bool_decide_unpack _); vm_compute|by split_and!].
Defined.

(** Giving up after errors. From a fresh tracker or right after a success,
    the [k]-th error in a row is the first to ask for giving up exactly when
    [k = 10]; the counter is a byte, so a caller that goes on is asked again
    only while the number of errors modulo 256 is at least 10. A success starts
    over, counts the frame modulo 2^32, and one frame in 1024 is traced. *)
Theorem error_tracker_spec (t : audio_error_tracker_t) (k : nat) :
  consecutive_errors t = 0 →
  (∀ i, (i < k)%nat → (track t (replicate k false)).1 !! i
     = Some (c_bool (10 <=? Z.of_nat (S i) mod 256))) ∧
  consecutive_errors (audio_error_tracker_record_success t) = 0 ∧
  frame_count (audio_error_tracker_record_success t) = (frame_count t + 1) mod 2 ^ 32 ∧
  (audio_error_tracker_should_trace t = 1 ↔ frame_count t mod 1024 = 1).
Proof.
  intros Ht. destruct (track_errors k t) as [_ H]; [lia|].
  split; [intros i Hi; rewrite H by done; by rewrite Ht|]. split_and!; [done|done|].
  unfold audio_error_tracker_should_trace. rewrite trace_land. unfold c_bool.
  destruct (Z.eqb_spec (frame_count t mod 1024) 1); lia.
Qed.
Lemma error_tracker_spec_witness :
  consecutive_errors audio_error_tracker_init = 0 ∧
  (track audio_error_tracker_init (replicate 12 false)).1 !! 9%nat = Some 1 ∧
  (track audio_error_tracker_init (replicate 12 false)).1 !! 8%nat = Some 0.
Proof.
  split; [reflexivity|].
  destruct (error_tracker_spec audio_error_tracker_init 12 eq_refl) as [H _].
  split; apply H; lia.
Defined.
