(* ===== verification/Lvgl.v ===== *)
(** * What the user interface relies on of LVGL

    LVGL is not part of the repository.  The interface [Lvgl] states what the
    code uses: objects are created with fresh addresses, a configuration call
    on an object of the kind it is meant for changes that object and no other, and
    loading a screen makes it the active one.  What an object is made of is [view]; [apply] says what each
    call does to it.  [store] is an instance. *)
From S2P Require Import Prelude.

(** ** Vocabulary *)

Definition NULL : Z := 0.

Inductive wkind := lv_obj | lv_label | lv_image | lv_button | lv_spinner.
Inductive coord := Px (n : Z) | Pct (n : Z) | SizeContent.
Inductive lv_event_code :=
| LV_EVENT_PRESSED | LV_EVENT_PRESSING | LV_EVENT_PRESS_LOST | LV_EVENT_RELEASED
| LV_EVENT_CLICKED | LV_EVENT_LONG_PRESSED | LV_EVENT_GESTURE.
Inductive lv_dir := LV_DIR_LEFT | LV_DIR_RIGHT | LV_DIR_TOP | LV_DIR_BOTTOM | LV_DIR_VER.
Inductive lv_obj_flag :=
| LV_OBJ_FLAG_HIDDEN | LV_OBJ_FLAG_CLICKABLE | LV_OBJ_FLAG_SCROLLABLE
| LV_OBJ_FLAG_CLICK_FOCUSABLE | LV_OBJ_FLAG_SCROLL_ON_FOCUS | LV_OBJ_FLAG_SCROLL_CHAIN
| LV_OBJ_FLAG_PRESS_LOCK | LV_OBJ_FLAG_OVERFLOW_VISIBLE | LV_OBJ_FLAG_SNAPPABLE
| LV_OBJ_FLAG_CHECKABLE.
Inductive lv_state :=
| LV_STATE_DEFAULT | LV_STATE_CHECKED | LV_STATE_FOCUSED | LV_STATE_DISABLED
| LV_STATE_USER_1 | LV_STATE_USER_2 | LV_STATE_USER_3 | LV_STATE_USER_4.
Inductive lv_part := LV_PART_MAIN | LV_PART_SCROLLBAR.
Inductive style_prop :=
| pad_left | pad_top | pad_right | pad_bottom | pad_row | margin_top
| opa | bg_color | bg_opa | border_width | radius | shadow_width
| text_color | text_opa | text_font | text_align | align
| layout | flex_flow | flex_main_place | flex_cross_place | flex_track_place
| transform_width | transform_height.
(** Numbers, colours, and names of fonts and of LVGL's enumeration constants. *)
Inductive style_value := Num (n : Z) | Color (hex : Z) | Name (s : string).

#[export] Instance wkind_eq_dec : EqDecision wkind.
Proof. solve_decision. Defined.
#[export] Instance lv_event_code_eq_dec : EqDecision lv_event_code.
Proof. solve_decision. Defined.
#[export] Instance lv_dir_eq_dec : EqDecision lv_dir.
Proof. solve_decision. Defined.
#[export] Instance lv_obj_flag_eq_dec : EqDecision lv_obj_flag.
Proof. solve_decision. Defined.
#[export] Instance lv_state_eq_dec : EqDecision lv_state.
Proof. solve_decision. Defined.
#[export] Instance style_prop_eq_dec : EqDecision style_prop.
Proof. solve_decision. Defined.
#[export] Instance style_value_eq_dec : EqDecision style_value.
Proof. solve_decision. Defined.

(** The styles of styles.c and the handlers of actions.c, by name. *)
Inductive ui_style :=
| flex_column_space_between | flex_center | flex_start | flow_row_space_between
| flow_row_start_center | flex_column_start | flex_screen | flex_screen_menu
| label_font16 | label_font_bold30 | header_link | menu_button | menu_button_label
| info_headline_label | info_content_label | back_button.
Inductive ui_action :=
| action_switch_to_menu | action_switch_to_advanced_menu | action_switch_to_status
| action_switch_to_about | action_switch_to_reset_config | action_switch_to_dhcpc
| action_switch_to_reboot | action_menu_screen_gesture | action_menu_advanced_screen_gesture
| action_reset_config_screen_gesture | action_home_screen_gesture
| action_about_screen_gesture | action_reset_config | action_dhcpc | action_reboot.
#[export] Instance ui_style_eq_dec : EqDecision ui_style.
Proof. solve_decision. Defined.
#[export] Instance ui_action_eq_dec : EqDecision ui_action.
Proof. solve_decision. Defined.

(** ** Configuration calls *)

Inductive attr :=
| lv_obj_set_pos (x y : coord) | lv_obj_set_size (w h : coord)
| lv_obj_set_style (p : style_prop) (v : style_value) (part : lv_part) (st : lv_state)
| lv_obj_add_flag (f : lv_obj_flag) | lv_obj_clear_flag (fs : list lv_obj_flag)
| lv_obj_add_state (st : lv_state) | lv_obj_clear_state (st : lv_state)
| lv_obj_set_scrollbar_mode (m : string) | lv_obj_set_scroll_snap_x (m : string)
| lv_obj_set_scroll_dir (d : lv_dir)
| add_style (s : ui_style) | remove_style (s : ui_style)
| lv_label_set_text (s : string) | lv_label_set_long_mode (m : string)
| lv_image_set_src (img : string) | lv_spinner_set_anim_params (t angle : Z)
| lv_obj_add_event_cb (a : ui_action) (ev : lv_event_code)
| lv_obj_fade_in (duration : Z) | lv_obj_fade_out (duration : Z).

(** What the code can tell of an object. A flag or a state that was never set
    or cleared has LVGL's default, [None]. *)
Record view := View {
  v_kind : wkind; v_parent : Z; v_text : string;
  v_flags : list (lv_obj_flag * bool);
  v_states : list (lv_state * bool);
  v_styles : list ui_style;
  v_callbacks : list (ui_action * lv_event_code)
}.
Definition new_view (k : wkind) (parent : Z) : view := View k parent "Text" [] [] [] [].

Definition with_text (s : string) (v : view) : view :=
  View (v_kind v) (v_parent v) s (v_flags v) (v_states v) (v_styles v) (v_callbacks v).
Definition with_flag (f : lv_obj_flag) (b : bool) (v : view) : view :=
  View (v_kind v) (v_parent v) (v_text v) ((f, b) :: v_flags v) (v_states v) (v_styles v) (v_callbacks v).
Definition with_state (st : lv_state) (b : bool) (v : view) : view :=
  View (v_kind v) (v_parent v) (v_text v) (v_flags v) ((st, b) :: v_states v) (v_styles v) (v_callbacks v).
Definition with_styles (l : list ui_style) (v : view) : view :=
  View (v_kind v) (v_parent v) (v_text v) (v_flags v) (v_states v) l (v_callbacks v).
Definition with_callback (a : ui_action) (ev : lv_event_code) (v : view) : view :=
  View (v_kind v) (v_parent v) (v_text v) (v_flags v) (v_states v) (v_styles v) (v_callbacks v ++ [(a, ev)]).

Definition lookup_setting {K} `{EqDecision K} (k : K) (l : list (K * bool)) : option bool :=
  snd <$> List.find (λ p, bool_decide (p.1 = k)) l.
Definition has_flag (f : lv_obj_flag) (v : view) : option bool := lookup_setting f (v_flags v).
Definition has_state (st : lv_state) (v : view) : option bool := lookup_setting st (v_states v).

Definition apply (a : attr) (v : view) : view :=
  match a with
  | lv_obj_add_flag f => with_flag f true v
  | lv_obj_clear_flag fs => foldl (λ v f, with_flag f false v) v fs
  | lv_obj_add_state LV_STATE_DEFAULT | lv_obj_clear_state LV_STATE_DEFAULT => v
  | lv_obj_add_state st => with_state st true v
  | lv_obj_clear_state st => with_state st false v
  | add_style s => with_styles (v_styles v ++ [s]) v
  | remove_style s => with_styles (List.filter (λ t, negb (bool_decide (t = s))) (v_styles v)) v
  | lv_label_set_text s => with_text s v
  | lv_obj_add_event_cb a ev => with_callback a ev v
  | _ => v      (* geometry and appearance *)
  end.

(** The calls on labels, images and spinners read parts of the object that only
    these kinds have: LVGL documents them for objects of their kind only. *)
Definition kind_ok (a : attr) (k : wkind) : bool :=
  match a with
  | lv_label_set_text _ | lv_label_set_long_mode _ => bool_decide (k = lv_label)
  | lv_image_set_src _ => bool_decide (k = lv_image)
  | lv_spinner_set_anim_params _ _ => bool_decide (k = lv_spinner)
  | _ => true
  end.
(** A screen is an object without a parent. *)
Definition is_screen (v : view) : bool := v_parent v =? NULL.

(** ** The interface *)

Class Lvgl (L : Type) := {
  lv_view : L → Z → option view;
  lv_create : wkind → Z → L → Z * L;
  lv_set : attr → Z → L → L;
  lv_scr_act : L → Z;
  lv_scr_load : Z → L → L
}.

Class LvglLaws (L : Type) `{!Lvgl L} : Prop := {
  create_fresh k p l o l' : lv_create k p l = (o, l') →
    o ≠ NULL ∧ lv_view l o = None;
  create_view k p l o l' o' : lv_create k p l = (o, l') →
    lv_view l' o' = if decide (o' = o) then Some (new_view k p) else lv_view l o';
  create_act k p l o l' : lv_create k p l = (o, l') → lv_scr_act l' = lv_scr_act l;
  set_view a o l v o' : lv_view l o = Some v → kind_ok a (v_kind v) = true →
    lv_view (lv_set a o l) o' = if decide (o' = o) then Some (apply a v) else lv_view l o';
  set_act a o l v : lv_view l o = Some v → kind_ok a (v_kind v) = true →
    lv_scr_act (lv_set a o l) = lv_scr_act l;
  load_view o l o' : lv_view (lv_scr_load o l) o' = lv_view l o';
  load_act o l : lv_scr_act (lv_scr_load o l) = o
}.

(** ** An instance: the objects in the order of their creation *)

Record store := Store { s_objs : list view; s_act : Z }.

Definition store_view (l : store) (o : Z) : option view :=
  if o <=? 0 then None else s_objs l !! Z.to_nat (o - 1).

#[export] Instance store_lvgl : Lvgl store := {
  lv_view := store_view;
  lv_create k p l :=
    (Z.of_nat (length (s_objs l)) + 1, Store (s_objs l ++ [new_view k p]) (s_act l));
  lv_set a o l :=
    if o <=? 0 then l else Store (alter (apply a) (Z.to_nat (o - 1)) (s_objs l)) (s_act l);
  lv_scr_act := s_act;
  lv_scr_load o l := Store (s_objs l) o
}.

#[export] Instance store_laws : LvglLaws store.
Proof.
  split; simpl; unfold store_view.
  - intros k p l o l' [= <- <-]. split; [unfold NULL; lia|].
    destruct (Z.leb_spec (Z.of_nat (length (s_objs l)) + 1) 0); [done|].
    apply lookup_ge_None_2. lia.
  - intros k p l o l' o' [= <- <-]. simpl. case_decide.
    + subst. destruct (Z.leb_spec (Z.of_nat (length (s_objs l)) + 1) 0); [lia|].
      rewrite lookup_app_r by lia.
      by replace (Z.to_nat (Z.of_nat (length (s_objs l)) + 1 - 1) - length (s_objs l))%nat with 0%nat by lia.
    + destruct (Z.leb_spec o' 0); [done|].
      destruct (decide (Z.to_nat (o' - 1) < length (s_objs l))%nat); [by rewrite lookup_app_l|].
      rewrite (lookup_ge_None_2 (s_objs l)) by lia. apply lookup_ge_None_2.
      rewrite length_app. simpl. lia.
  - by intros k p l o l' [= <- <-].
  - intros a o l v o' Hv _. case_decide.
    + subst. destruct (Z.leb_spec o 0); [done|]. simpl. destruct (Z.leb_spec o 0); [lia|].
      by rewrite list_lookup_alter_eq, Hv.
    + destruct (Z.leb_spec o 0); simpl; [done|]. destruct (Z.leb_spec o' 0); [done|].
      rewrite list_lookup_alter_ne by lia. done.
  - intros a o l v _ _. by destruct (o <=? 0).
  - done.
  - done.
Qed.
