(* ===== verification/UiStyles.v ===== *)
(** * The styles

    src/internal/native/eez/src/ui/styles.c: the properties each style sets,
    through the styles it extends, the order of the style tables, and the lazily
    created style objects [get_style_*] returns. *)
From stdpp Require Import functions.
From S2P Require Import Prelude Lvgl.

(** ** Style objects: the properties set, latest first *)

Definition lv_style_t : Type := list (style_prop * style_value).

Definition lv_style_set (p : style_prop) (v : style_value) (style : lv_style_t) : lv_style_t :=
  (p, v) :: style.
Definition lv_style_get (p : style_prop) (style : lv_style_t) : option style_value :=
  snd <$> List.find (λ q, bool_decide (q.1 = p)) style.

(** The calls of an initialiser, in order. *)
Definition lv_style_sets (l : list (style_prop * style_value)) (style : lv_style_t) : lv_style_t :=
  foldl (λ st '(p, v), lv_style_set p v st) style l.

(** ** The initialisers *)

Definition init_style_flex_column_space_between_MAIN_DEFAULT (style : lv_style_t) : lv_style_t :=
  lv_style_sets
    [(flex_flow, (Name "LV_FLEX_FLOW_COLUMN"));
     (flex_main_place, (Name "LV_FLEX_ALIGN_SPACE_BETWEEN"));
     (flex_cross_place, (Name "LV_FLEX_ALIGN_START"));
     (flex_track_place, (Name "LV_FLEX_ALIGN_START"));
     (text_align, (Name "LV_TEXT_ALIGN_CENTER"))]
    style.

Definition init_style_flex_center_MAIN_DEFAULT (style : lv_style_t) : lv_style_t :=
  lv_style_sets
    [(layout, (Name "LV_LAYOUT_FLEX"));
     (flex_flow, (Name "LV_FLEX_FLOW_COLUMN"));
     (flex_main_place, (Name "LV_FLEX_ALIGN_CENTER"));
     (flex_cross_place, (Name "LV_FLEX_ALIGN_CENTER"));
     (flex_track_place, (Name "LV_FLEX_ALIGN_CENTER"))]
    style.

Definition init_style_flex_start_MAIN_DEFAULT (style : lv_style_t) : lv_style_t :=
  lv_style_sets
    [(layout, (Name "LV_LAYOUT_FLEX"));
     (flex_flow, (Name "LV_FLEX_FLOW_COLUMN"));
     (flex_main_place, (Name "LV_FLEX_ALIGN_START"));
     (flex_cross_place, (Name "LV_FLEX_ALIGN_START"));
     (flex_track_place, (Name "LV_FLEX_ALIGN_START"))]
    (init_style_flex_center_MAIN_DEFAULT style).

Definition init_style_flow_row_space_between_MAIN_DEFAULT (style : lv_style_t) : lv_style_t :=
  lv_style_sets
    [(layout, (Name "LV_LAYOUT_FLEX"));
     (flex_flow, (Name "LV_FLEX_FLOW_ROW"));
     (flex_main_place, (Name "LV_FLEX_ALIGN_SPACE_BETWEEN"));
     (flex_cross_place, (Name "LV_FLEX_ALIGN_CENTER"));
     (flex_track_place, (Name "LV_FLEX_ALIGN_START"))]
    (init_style_flex_center_MAIN_DEFAULT style).

Definition init_style_flow_row_start_center_MAIN_DEFAULT (style : lv_style_t) : lv_style_t :=
  lv_style_sets
    [(layout, (Name "LV_LAYOUT_FLEX"));
     (flex_flow, (Name "LV_FLEX_FLOW_ROW"));
     (flex_main_place, (Name "LV_FLEX_ALIGN_START"));
     (flex_cross_place, (Name "LV_FLEX_ALIGN_CENTER"));
     (flex_track_place, (Name "LV_FLEX_ALIGN_START"))]
    (init_style_flow_row_space_between_MAIN_DEFAULT style).

Definition init_style_flex_column_start_MAIN_DEFAULT (style : lv_style_t) : lv_style_t :=
  lv_style_sets
    [(layout, (Name "LV_LAYOUT_FLEX"));
     (flex_flow, (Name "LV_FLEX_FLOW_COLUMN"));
     (flex_main_place, (Name "LV_FLEX_ALIGN_START"));
     (flex_cross_place, (Name "LV_FLEX_ALIGN_START"));
     (flex_track_place, (Name "LV_FLEX_ALIGN_START"))]
    (init_style_flow_row_space_between_MAIN_DEFAULT style).

Definition init_style_flex_screen_MAIN_DEFAULT (style : lv_style_t) : lv_style_t :=
  lv_style_sets
    [(pad_top, (Num 24));
     (pad_bottom, (Num 24));
     (pad_left, (Num 44));
     (pad_right, (Num 24));
     (pad_row, (Num 16));
     (layout, (Name "LV_LAYOUT_FLEX"));
     (flex_flow, (Name "LV_FLEX_FLOW_COLUMN"));
     (flex_main_place, (Name "LV_FLEX_ALIGN_START"));
     (flex_cross_place, (Name "LV_FLEX_ALIGN_START"));
     (flex_track_place, (Name "LV_FLEX_ALIGN_START"));
     (bg_color, (Color 0xff000000))]
    style.

Definition init_style_flex_screen_menu_MAIN_DEFAULT (style : lv_style_t) : lv_style_t :=
  lv_style_sets
    []
    (init_style_flex_screen_MAIN_DEFAULT style).

Definition init_style_label_font16_MAIN_DEFAULT (style : lv_style_t) : lv_style_t :=
  lv_style_sets
    [(text_align, (Name "LV_TEXT_ALIGN_CENTER"));
     (text_font, (Name "ui_font_font_book16"));
     (text_color, (Color 0xffffffff))]
    style.

Definition init_style_label_font_bold30_MAIN_DEFAULT (style : lv_style_t) : lv_style_t :=
  lv_style_sets
    [(text_font, (Name "ui_font_font_bold30"))]
    (init_style_label_font16_MAIN_DEFAULT style).

Definition init_style_header_link_MAIN_DEFAULT (style : lv_style_t) : lv_style_t :=
  lv_style_sets
    [(text_color, (Color 0xff1d4ed8));
     (text_opa, (Num 255));
     (text_font, (Name "ui_font_font_book20"));
     (text_align, (Name "LV_TEXT_ALIGN_CENTER"))]
    (init_style_label_font16_MAIN_DEFAULT style).

Definition init_style_menu_button_MAIN_DEFAULT (style : lv_style_t) : lv_style_t :=
  lv_style_sets
    [(radius, (Num 8));
     (bg_color, (Color 0xff262626));
     (bg_opa, (Num 255));
     (pad_top, (Num 20));
     (pad_bottom, (Num 20));
     (pad_left, (Num 16));
     (pad_right, (Num 0));
     (shadow_width, (Num 0))]
    style.

Definition init_style_menu_button_label_MAIN_DEFAULT (style : lv_style_t) : lv_style_t :=
  lv_style_sets
    [(align, (Name "LV_ALIGN_LEFT_MID"));
     (text_font, (Name "ui_font_font_book20"));
     (text_color, (Color 0xffffffff));
     (text_opa, (Num 255))]
    style.

Definition init_style_info_headline_label_MAIN_DEFAULT (style : lv_style_t) : lv_style_t :=
  lv_style_sets
    [(text_color, (Color 0xff94a3b8));
     (text_font, (Name "ui_font_font_book20"))]
    style.

Definition init_style_info_content_label_MAIN_DEFAULT (style : lv_style_t) : lv_style_t :=
  lv_style_sets
    [(text_font, (Name "ui_font_font_book18"));
     (text_color, (Color 0xffffffff))]
    style.

Definition init_style_back_button_MAIN_DEFAULT (style : lv_style_t) : lv_style_t :=
  lv_style_sets
    [(bg_color, (Color 0xff262626));
     (bg_opa, (Num 255));
     (radius, (Num 10000));
     (shadow_width, (Num 0))]
    style.

Definition init_style (s : ui_style) : lv_style_t → lv_style_t :=
  match s with
  | flex_column_space_between => init_style_flex_column_space_between_MAIN_DEFAULT
  | flex_center => init_style_flex_center_MAIN_DEFAULT
  | flex_start => init_style_flex_start_MAIN_DEFAULT
  | flow_row_space_between => init_style_flow_row_space_between_MAIN_DEFAULT
  | flow_row_start_center => init_style_flow_row_start_center_MAIN_DEFAULT
  | flex_column_start => init_style_flex_column_start_MAIN_DEFAULT
  | flex_screen => init_style_flex_screen_MAIN_DEFAULT
  | flex_screen_menu => init_style_flex_screen_menu_MAIN_DEFAULT
  | label_font16 => init_style_label_font16_MAIN_DEFAULT
  | label_font_bold30 => init_style_label_font_bold30_MAIN_DEFAULT
  | header_link => init_style_header_link_MAIN_DEFAULT
  | menu_button => init_style_menu_button_MAIN_DEFAULT
  | menu_button_label => init_style_menu_button_label_MAIN_DEFAULT
  | info_headline_label => init_style_info_headline_label_MAIN_DEFAULT
  | info_content_label => init_style_info_content_label_MAIN_DEFAULT
  | back_button => init_style_back_button_MAIN_DEFAULT
  end.

(** ** [get_style_*]: one static object per style, created when first asked for *)

Definition style_table : Type := ui_style → option lv_style_t.

(** [if (!style) { style = lv_malloc(...); lv_style_init(style); init(style); } return style;]
    on the static of style [s]. *)
Definition get_static (s : ui_style) (init : lv_style_t → lv_style_t) (t : style_table)
  : lv_style_t * style_table :=
  match t s with
  | Some style => (style, t)
  | None => let style := init [] in (style, <[s := Some style]> t)
  end.

Definition get_style_flex_column_space_between_MAIN_DEFAULT : style_table → lv_style_t * style_table :=
  get_static flex_column_space_between init_style_flex_column_space_between_MAIN_DEFAULT.
Definition get_style_flex_center_MAIN_DEFAULT : style_table → lv_style_t * style_table :=
  get_static flex_center init_style_flex_center_MAIN_DEFAULT.
Definition get_style_flex_start_MAIN_DEFAULT : style_table → lv_style_t * style_table :=
  get_static flex_start init_style_flex_start_MAIN_DEFAULT.
Definition get_style_flow_row_space_between_MAIN_DEFAULT : style_table → lv_style_t * style_table :=
  get_static flow_row_space_between init_style_flow_row_space_between_MAIN_DEFAULT.
Definition get_style_flow_row_start_center_MAIN_DEFAULT : style_table → lv_style_t * style_table :=
  get_static flow_row_start_center init_style_flow_row_start_center_MAIN_DEFAULT.
Definition get_style_flex_column_start_MAIN_DEFAULT : style_table → lv_style_t * style_table :=
  get_static flex_column_start init_style_flex_column_start_MAIN_DEFAULT.
Definition get_style_flex_screen_MAIN_DEFAULT : style_table → lv_style_t * style_table :=
  get_static flex_screen init_style_flex_screen_MAIN_DEFAULT.
Definition get_style_flex_screen_menu_MAIN_DEFAULT : style_table → lv_style_t * style_table :=
  get_static flex_screen_menu init_style_flex_screen_menu_MAIN_DEFAULT.
Definition get_style_label_font16_MAIN_DEFAULT : style_table → lv_style_t * style_table :=
  get_static label_font16 init_style_label_font16_MAIN_DEFAULT.
Definition get_style_label_font_bold30_MAIN_DEFAULT : style_table → lv_style_t * style_table :=
  get_static label_font_bold30 init_style_label_font_bold30_MAIN_DEFAULT.
Definition get_style_header_link_MAIN_DEFAULT : style_table → lv_style_t * style_table :=
  get_static header_link init_style_header_link_MAIN_DEFAULT.
Definition get_style_menu_button_MAIN_DEFAULT : style_table → lv_style_t * style_table :=
  get_static menu_button init_style_menu_button_MAIN_DEFAULT.
Definition get_style_menu_button_label_MAIN_DEFAULT : style_table → lv_style_t * style_table :=
  get_static menu_button_label init_style_menu_button_label_MAIN_DEFAULT.
Definition get_style_info_headline_label_MAIN_DEFAULT : style_table → lv_style_t * style_table :=
  get_static info_headline_label init_style_info_headline_label_MAIN_DEFAULT.
Definition get_style_info_content_label_MAIN_DEFAULT : style_table → lv_style_t * style_table :=
  get_static info_content_label init_style_info_content_label_MAIN_DEFAULT.
Definition get_style_back_button_MAIN_DEFAULT : style_table → lv_style_t * style_table :=
  get_static back_button init_style_back_button_MAIN_DEFAULT.

Definition get_style (s : ui_style) : style_table → lv_style_t * style_table :=
  match s with
  | flex_column_space_between => get_style_flex_column_space_between_MAIN_DEFAULT
  | flex_center => get_style_flex_center_MAIN_DEFAULT
  | flex_start => get_style_flex_start_MAIN_DEFAULT
  | flow_row_space_between => get_style_flow_row_space_between_MAIN_DEFAULT
  | flow_row_start_center => get_style_flow_row_start_center_MAIN_DEFAULT
  | flex_column_start => get_style_flex_column_start_MAIN_DEFAULT
  | flex_screen => get_style_flex_screen_MAIN_DEFAULT
  | flex_screen_menu => get_style_flex_screen_menu_MAIN_DEFAULT
  | label_font16 => get_style_label_font16_MAIN_DEFAULT
  | label_font_bold30 => get_style_label_font_bold30_MAIN_DEFAULT
  | header_link => get_style_header_link_MAIN_DEFAULT
  | menu_button => get_style_menu_button_MAIN_DEFAULT
  | menu_button_label => get_style_menu_button_label_MAIN_DEFAULT
  | info_headline_label => get_style_info_headline_label_MAIN_DEFAULT
  | info_content_label => get_style_info_content_label_MAIN_DEFAULT
  | back_button => get_style_back_button_MAIN_DEFAULT
  end.

Lemma get_style_static s t : get_style s t = get_static s (init_style s) t.
Proof. by destruct s. Qed.
