(* ===== verification/UiScreens.v ===== *)
(** * The screens, as the generated code builds them

    src/internal/native/eez/src/ui/screens.c and screens.h: the fields of
    [objects_t] in their order, and for each [create_screen_*] the tree of
    widgets it creates: the LVGL constructor, the field of [objects] the widget is
    stored in, the configuration calls in their order, and the widgets created
    inside it.  Large trees are split at their containers.  [Ui] gives them
    their meaning. *)
From S2P Require Import Prelude Lvgl.

(** ** [objects_t] *)

Inductive field :=
| o_boot_screen | o_no_network_screen | o_home_screen | o_menu_screen
| o_menu_advanced_screen | o_menu_network_screen | o_about_screen | o_status_screen
| o_reset_config_screen | o_reboot_screen | o_rebooting_screen | o_switch_dhcp_client_screen
| o_boot_logo | o_boot_screen_version | o_no_network_header_container
| o_no_network_header_logo | o_no_network_content_container | o_no_network_title
| o_home_info_ipv6_addr_1 | o_home_header_container | o_home_header_logo
| o_cloud_status_icon | o_cloud_status_label | o_home_info_container | o_home_info_ipv4_addr
| o_home_info_ipv6_addr | o_home_info_mac_addr | o_divider | o_home_status_container
| o_usb_status | o_usb_indicator | o_usb_status_label | o_hdmi_status | o_hdmi_indicator
| o_hdmi_status_label | o_menu_header_container | o_menu_items_container | o_menu_btn_status
| o_menu_btn_network | o_menu_btn_access | o_menu_btn_advanced | o_menu_btn_about
| o_menu_header_container_1 | o_menu_items_container_1 | o_menu_btn_advanced_developer_mode
| o_menu_btn_advanced_usb_emulation | o_menu_btn_advanced_reboot | o_menu_btn_dhcp_client
| o_menu_btn_advanced_reset_config | o_menu_header_container_2 | o_menu_items_container_2
| o_menu_btn_network_ipv4 | o_menu_btn_network_ipv6 | o_menu_btn_network_lldp
| o_about_header_container | o_about_items_container | o_system_version_container
| o_system_version | o_app_version_container | o_app_version | o_build_branch_container
| o_build_branch | o_build_date_container | o_build_date | o_golang_version_container
| o_golang_version | o_lvgl_version_container | o_lvgl_version | o_kernel_version_container
| o_kernel_version | o_cpu_serial_container | o_cpu_serial | o_status_header_container
| o_status_items_container | o_device_id_container | o_device_id
| o_cloud_account_id_container | o_app_version_1 | o_cloud_domain_container | o_cloud_domain
| o_reset_config_header | o_reset_config_container | o_reset_config_label_container
| o_reset_config_label | o_reset_config_spinner | o_reset_config_button | o_obj0
| o_reboot_header | o_reboot_container | o_reboot_label_container | o_reboot_label
| o_reboot_config_button | o_obj1 | o_reboot_in_progress_logo | o_reboot_in_progress_label
| o_dhcp_client_header | o_dhcp_client_container | o_dhcp_client_label_container
| o_dhcpc_label | o_dhcp_client_spinner | o_dhcp_client_button | o_obj2
| o_dhcp_client_change_label.
#[export] Instance field_eq_dec : EqDecision field.
Proof. solve_decision. Defined.

(** The fields in the order of the structure, which ui.c indexes as an array. *)
Definition all_fields : list field :=
  [o_boot_screen; o_no_network_screen; o_home_screen; o_menu_screen; o_menu_advanced_screen;
   o_menu_network_screen; o_about_screen; o_status_screen; o_reset_config_screen;
   o_reboot_screen; o_rebooting_screen; o_switch_dhcp_client_screen; o_boot_logo;
   o_boot_screen_version; o_no_network_header_container; o_no_network_header_logo;
   o_no_network_content_container; o_no_network_title; o_home_info_ipv6_addr_1;
   o_home_header_container; o_home_header_logo; o_cloud_status_icon; o_cloud_status_label;
   o_home_info_container; o_home_info_ipv4_addr; o_home_info_ipv6_addr; o_home_info_mac_addr;
   o_divider; o_home_status_container; o_usb_status; o_usb_indicator; o_usb_status_label;
   o_hdmi_status; o_hdmi_indicator; o_hdmi_status_label; o_menu_header_container;
   o_menu_items_container; o_menu_btn_status; o_menu_btn_network; o_menu_btn_access;
   o_menu_btn_advanced; o_menu_btn_about; o_menu_header_container_1; o_menu_items_container_1;
   o_menu_btn_advanced_developer_mode; o_menu_btn_advanced_usb_emulation;
   o_menu_btn_advanced_reboot; o_menu_btn_dhcp_client; o_menu_btn_advanced_reset_config;
   o_menu_header_container_2; o_menu_items_container_2; o_menu_btn_network_ipv4;
   o_menu_btn_network_ipv6; o_menu_btn_network_lldp; o_about_header_container;
   o_about_items_container; o_system_version_container; o_system_version;
   o_app_version_container; o_app_version; o_build_branch_container; o_build_branch;
   o_build_date_container; o_build_date; o_golang_version_container; o_golang_version;
   o_lvgl_version_container; o_lvgl_version; o_kernel_version_container; o_kernel_version;
   o_cpu_serial_container; o_cpu_serial; o_status_header_container; o_status_items_container;
   o_device_id_container; o_device_id; o_cloud_account_id_container; o_app_version_1;
   o_cloud_domain_container; o_cloud_domain; o_reset_config_header; o_reset_config_container;
   o_reset_config_label_container; o_reset_config_label; o_reset_config_spinner;
   o_reset_config_button; o_obj0; o_reboot_header; o_reboot_container;
   o_reboot_label_container; o_reboot_label; o_reboot_config_button; o_obj1;
   o_reboot_in_progress_logo; o_reboot_in_progress_label; o_dhcp_client_header;
   o_dhcp_client_container; o_dhcp_client_label_container; o_dhcpc_label;
   o_dhcp_client_spinner; o_dhcp_client_button; o_obj2; o_dhcp_client_change_label].

(** [enum ScreensEnum] *)
Definition SCREEN_ID_BOOT_SCREEN : Z := 1.
Definition SCREEN_ID_NO_NETWORK_SCREEN : Z := 2.
Definition SCREEN_ID_HOME_SCREEN : Z := 3.
Definition SCREEN_ID_MENU_SCREEN : Z := 4.
Definition SCREEN_ID_MENU_ADVANCED_SCREEN : Z := 5.
Definition SCREEN_ID_MENU_NETWORK_SCREEN : Z := 6.
Definition SCREEN_ID_ABOUT_SCREEN : Z := 7.
Definition SCREEN_ID_STATUS_SCREEN : Z := 8.
Definition SCREEN_ID_RESET_CONFIG_SCREEN : Z := 9.
Definition SCREEN_ID_REBOOT_SCREEN : Z := 10.
Definition SCREEN_ID_REBOOTING_SCREEN : Z := 11.
Definition SCREEN_ID_SWITCH_DHCP_CLIENT_SCREEN : Z := 12.

(** ** Widget trees *)

#[local] Set Warnings "-register-all".
Inductive widget :=
| W (kind : wkind) (dest : option field) (attrs : list attr) (children : list widget).

Definition newline : string := String (ascii_of_nat 10) "".

Definition create_screen_boot_screen : widget :=
  W lv_obj (Some o_boot_screen)
    [lv_obj_set_pos (Px 0) (Px 0);
     lv_obj_set_size (Px 300) (Px 240);
     add_style flex_column_space_between;
     lv_obj_set_style bg_color (Color 0xff000000) LV_PART_MAIN LV_STATE_DEFAULT]
    [
      W lv_obj None
        [lv_obj_set_pos (Px 0) (Px 0);
         lv_obj_set_size (Pct 100) (Pct 100);
         lv_obj_set_style pad_left (Num 0) LV_PART_MAIN LV_STATE_DEFAULT;
         lv_obj_set_style pad_top (Num 0) LV_PART_MAIN LV_STATE_DEFAULT;
         lv_obj_set_style pad_right (Num 0) LV_PART_MAIN LV_STATE_DEFAULT;
         lv_obj_set_style pad_bottom (Num 0) LV_PART_MAIN LV_STATE_DEFAULT;
         lv_obj_set_style bg_opa (Num 0) LV_PART_MAIN LV_STATE_DEFAULT;
         lv_obj_set_style border_width (Num 0) LV_PART_MAIN LV_STATE_DEFAULT;
         lv_obj_set_style radius (Num 0) LV_PART_MAIN LV_STATE_DEFAULT;
         add_style flex_start]
        [
          W lv_obj None
            [lv_obj_set_pos (Px 0) (Px 0);
             lv_obj_set_size (Pct 100) (Pct 100);
             lv_obj_set_style pad_left (Num 0) LV_PART_MAIN LV_STATE_DEFAULT;
             lv_obj_set_style pad_top (Num 0) LV_PART_MAIN LV_STATE_DEFAULT;
             lv_obj_set_style pad_right (Num 0) LV_PART_MAIN LV_STATE_DEFAULT;
             lv_obj_set_style pad_bottom (Num 0) LV_PART_MAIN LV_STATE_DEFAULT;
             lv_obj_set_style bg_opa (Num 0) LV_PART_MAIN LV_STATE_DEFAULT;
             lv_obj_set_style border_width (Num 0) LV_PART_MAIN LV_STATE_DEFAULT;
             lv_obj_set_style radius (Num 0) LV_PART_MAIN LV_STATE_DEFAULT;
             add_style flex_center]
            [
              W lv_image (Some o_boot_logo)
                [lv_obj_set_pos (Px 0) (Px 0);
                 lv_obj_set_size SizeContent SizeContent;
                 lv_image_set_src "img_boot_logo_2";
                 lv_obj_set_style transform_width (Num 174) LV_PART_MAIN LV_STATE_DEFAULT;
                 lv_obj_set_style transform_height (Num 49) LV_PART_MAIN LV_STATE_DEFAULT]
                [];
              W lv_label (Some o_boot_screen_version)
                [lv_obj_set_pos (Pct 0) (Pct 0);
                 lv_obj_set_size SizeContent SizeContent;
                 add_style label_font16;
                 lv_obj_set_style text_align (Name "LV_TEXT_ALIGN_CENTER") LV_PART_MAIN LV_STATE_DEFAULT;
                 lv_obj_set_style text_font (Name "ui_font_font_book16") LV_PART_MAIN LV_STATE_DEFAULT;
                 lv_label_set_text ""]
                []
            ]
        ]
    ].

Definition create_screen_no_network_screen : widget :=
  W lv_obj (Some o_no_network_screen)
    [lv_obj_set_pos (Px 0) (Px 0);
     lv_obj_set_size (Px 300) (Px 240);
     lv_obj_add_event_cb action_switch_to_menu LV_EVENT_LONG_PRESSED;
     lv_obj_add_event_cb action_home_screen_gesture LV_EVENT_GESTURE;
     add_style flex_screen]
    [
      W lv_obj None
        [lv_obj_set_pos (Px 0) (Px 0);
         lv_obj_set_size (Pct 100) (Pct 100);
         lv_obj_set_style pad_left (Num 0) LV_PART_MAIN LV_STATE_DEFAULT;
         lv_obj_set_style pad_top (Num 0) LV_PART_MAIN LV_STATE_DEFAULT;
         lv_obj_set_style pad_right (Num 0) LV_PART_MAIN LV_STATE_DEFAULT;
         lv_obj_set_style pad_bottom (Num 0) LV_PART_MAIN LV_STATE_DEFAULT;
         lv_obj_set_style bg_opa (Num 0) LV_PART_MAIN LV_STATE_DEFAULT;
         lv_obj_set_style border_width (Num 0) LV_PART_MAIN LV_STATE_DEFAULT;
         lv_obj_set_style radius (Num 0) LV_PART_MAIN LV_STATE_DEFAULT;
         lv_obj_clear_flag [LV_OBJ_FLAG_CLICKABLE];
         lv_obj_set_scrollbar_mode "LV_SCROLLBAR_MODE_OFF";
         add_style flex_start]
        [
          W lv_obj (Some o_no_network_header_container)
            [lv_obj_set_pos (Px 0) (Px 0);
             lv_obj_set_size (Pct 100) SizeContent;
             lv_obj_set_style pad_left (Num 0) LV_PART_MAIN LV_STATE_DEFAULT;
             lv_obj_set_style pad_top (Num 0) LV_PART_MAIN LV_STATE_DEFAULT;
             lv_obj_set_style pad_right (Num 0) LV_PART_MAIN LV_STATE_DEFAULT;
             lv_obj_set_style pad_bottom (Num 0) LV_PART_MAIN LV_STATE_DEFAULT;
             lv_obj_set_style bg_opa (Num 0) LV_PART_MAIN LV_STATE_DEFAULT;
             lv_obj_set_style border_width (Num 0) LV_PART_MAIN LV_STATE_DEFAULT;
             lv_obj_set_style radius (Num 0) LV_PART_MAIN LV_STATE_DEFAULT;
             lv_obj_clear_flag [LV_OBJ_FLAG_CLICKABLE];
             add_style flow_row_space_between]
            [
              W lv_image (Some o_no_network_header_logo)
                [lv_obj_set_pos (Px 0) (Px 0);
                 lv_obj_set_size SizeContent SizeContent;
                 lv_image_set_src "img_jetkvm";
                 lv_obj_set_style transform_width (Num 174) LV_PART_MAIN LV_STATE_DEFAULT;
                 lv_obj_set_style transform_height (Num 49) LV_PART_MAIN LV_STATE_DEFAULT]
                []
            ];
          W lv_obj (Some o_no_network_content_container)
            [lv_obj_set_pos (Px 0) (Px 20);
             lv_obj_set_size (Pct 100) (Pct 75);
             lv_obj_set_style pad_left (Num 0) LV_PART_MAIN LV_STATE_DEFAULT;
             lv_obj_set_style pad_top (Num 0) LV_PART_MAIN LV_STATE_DEFAULT;
             lv_obj_set_style pad_right (Num 0) LV_PART_MAIN LV_STATE_DEFAULT;
             lv_obj_set_style pad_bottom (Num 0) LV_PART_MAIN LV_STATE_DEFAULT;
             lv_obj_set_style bg_opa (Num 0) LV_PART_MAIN LV_STATE_DEFAULT;
             lv_obj_set_style border_width (Num 0) LV_PART_MAIN LV_STATE_DEFAULT;
             lv_obj_set_style radius (Num 0) LV_PART_MAIN LV_STATE_DEFAULT;
             lv_obj_clear_flag [LV_OBJ_FLAG_CLICKABLE];
             lv_obj_set_scrollbar_mode "LV_SCROLLBAR_MODE_OFF";
             add_style flex_column_start;
             lv_obj_set_style flex_main_place (Name "LV_FLEX_ALIGN_CENTER") LV_PART_MAIN LV_STATE_DEFAULT;
             lv_obj_set_style flex_cross_place (Name "LV_FLEX_ALIGN_CENTER") LV_PART_MAIN LV_STATE_DEFAULT;
             lv_obj_set_style flex_track_place (Name "LV_FLEX_ALIGN_CENTER") LV_PART_MAIN LV_STATE_DEFAULT;
             lv_obj_set_style margin_top (Num 200) LV_PART_MAIN LV_STATE_CHECKED]
            [
              W lv_image None
                [lv_obj_set_pos (Px 227) (Px 50);
                 lv_obj_set_size SizeContent SizeContent;
                 lv_image_set_src "img_ethernet"]
                [];
              W lv_label (Some o_no_network_title)
                [lv_obj_set_pos (Pct 0) (Pct 0);
                 lv_obj_set_size SizeContent SizeContent;
                 add_style label_font_bold30;
                 lv_label_set_text "No Network"]
                [];
              W lv_label (Some o_home_info_ipv6_addr_1)
                [lv_obj_set_pos (Pct 0) (Pct 0);
                 lv_obj_set_size SizeContent SizeContent;
                 lv_label_set_long_mode "LV_LABEL_LONG_DOT";
                 add_style label_font16;
                 lv_label_set_text "Connect Ethernet cable"]
                []
            ]
        ]
    ].

Definition home_header_container_widget : widget :=
  W lv_obj (Some o_home_header_container)
    [lv_obj_set_pos (Px 0) (Px 0);
     lv_obj_set_size (Pct 100) SizeContent;
     lv_obj_set_style pad_left (Num 0) LV_PART_MAIN LV_STATE_DEFAULT;
     lv_obj_set_style pad_top (Num 0) LV_PART_MAIN LV_STATE_DEFAULT;
     lv_obj_set_style pad_right (Num 0) LV_PART_MAIN LV_STATE_DEFAULT;
     lv_obj_set_style pad_bottom (Num 0) LV_PART_MAIN LV_STATE_DEFAULT;
     lv_obj_set_style bg_opa (Num 0) LV_PART_MAIN LV_STATE_DEFAULT;
     lv_obj_set_style border_width (Num 0) LV_PART_MAIN LV_STATE_DEFAULT;
     lv_obj_set_style radius (Num 0) LV_PART_MAIN LV_STATE_DEFAULT;
     lv_obj_clear_flag [LV_OBJ_FLAG_CLICKABLE];
     add_style flow_row_space_between]
    [
      W lv_image (Some o_home_header_logo)
        [lv_obj_set_pos (Px 0) (Px 0);
         lv_obj_set_size SizeContent SizeContent;
         lv_image_set_src "img_jetkvm";
         lv_obj_set_style transform_width (Num 174) LV_PART_MAIN LV_STATE_DEFAULT;
         lv_obj_set_style transform_height (Num 49) LV_PART_MAIN LV_STATE_DEFAULT]
        [];
      W lv_obj None
        [lv_obj_set_pos (Px 0) (Px 0);
         lv_obj_set_size SizeContent SizeContent;
         lv_obj_set_style pad_left (Num 0) LV_PART_MAIN LV_STATE_DEFAULT;
         lv_obj_set_style pad_top (Num 0) LV_PART_MAIN LV_STATE_DEFAULT;
         lv_obj_set_style pad_right (Num 0) LV_PART_MAIN LV_STATE_DEFAULT;
         lv_obj_set_style pad_bottom (Num 0) LV_PART_MAIN LV_STATE_DEFAULT;
         lv_obj_set_style bg_opa (Num 0) LV_PART_MAIN LV_STATE_DEFAULT;
         lv_obj_set_style border_width (Num 0) LV_PART_MAIN LV_STATE_DEFAULT;
         lv_obj_set_style radius (Num 0) LV_PART_MAIN LV_STATE_DEFAULT;
         lv_obj_clear_flag [LV_OBJ_FLAG_CLICKABLE];
         add_style flow_row_start_center]
        [
          W lv_image (Some o_cloud_status_icon)
            [lv_obj_set_pos (Px 0) (Px 0);
             lv_obj_set_size SizeContent SizeContent;
             lv_image_set_src "img_cloud"]
            [];
          W lv_label (Some o_cloud_status_label)
            [lv_obj_set_pos (Pct 0) (Pct 0);
             lv_obj_set_size SizeContent SizeContent;
             add_style label_font16;
             lv_label_set_text "-1 active"]
            []
        ]
    ].

Definition home_info_container_widget : widget :=
  W lv_obj (Some o_home_info_container)
    [lv_obj_set_pos (Px 0) (Px 0);
     lv_obj_set_size (Pct 100) (Pct 47);
     lv_obj_set_style pad_left (Num 0) LV_PART_MAIN LV_STATE_DEFAULT;
     lv_obj_set_style pad_top (Num 0) LV_PART_MAIN LV_STATE_DEFAULT;
     lv_obj_set_style pad_right (Num 0) LV_PART_MAIN LV_STATE_DEFAULT;
     lv_obj_set_style pad_bottom (Num 0) LV_PART_MAIN LV_STATE_DEFAULT;
     lv_obj_set_style bg_opa (Num 0) LV_PART_MAIN LV_STATE_DEFAULT;
     lv_obj_set_style border_width (Num 0) LV_PART_MAIN LV_STATE_DEFAULT;
     lv_obj_set_style radius (Num 0) LV_PART_MAIN LV_STATE_DEFAULT;
     lv_obj_clear_flag [LV_OBJ_FLAG_CLICKABLE];
     lv_obj_set_scrollbar_mode "LV_SCROLLBAR_MODE_OFF";
     add_style flex_column_start]
    [
      W lv_label (Some o_home_info_ipv4_addr)
        [lv_obj_set_pos (Pct 0) (Pct 0);
         lv_obj_set_size SizeContent SizeContent;
         add_style label_font_bold30;
         lv_label_set_text "169.254.169.254"]
        [];
      W lv_label (Some o_home_info_ipv6_addr)
        [lv_obj_set_pos (Pct 0) (Pct 0);
         lv_obj_set_size (Pct 98) (Px 17);
         lv_label_set_long_mode "LV_LABEL_LONG_DOT";
         lv_obj_add_flag LV_OBJ_FLAG_HIDDEN;
         add_style label_font16;
         lv_obj_set_style text_align (Name "LV_TEXT_ALIGN_LEFT") LV_PART_MAIN LV_STATE_DEFAULT;
         lv_label_set_text "fe80::ffff:ffff:ffff:ffff:ffff:ffff:ffff:ffff"]
        [];
      W lv_label (Some o_home_info_mac_addr)
        [lv_obj_set_pos (Pct 0) (Pct 0);
         lv_obj_set_size SizeContent SizeContent;
         add_style label_font16;
         lv_label_set_text "01:23:45:67:89:ab"]
        []
    ].

Definition usb_status_widget : widget :=
  W lv_obj (Some o_usb_status)
    [lv_obj_set_pos (Px 0) (Px 0);
     lv_obj_set_size (Pct 50) SizeContent;
     lv_obj_set_style pad_left (Num 0) LV_PART_MAIN LV_STATE_DEFAULT;
     lv_obj_set_style pad_top (Num 0) LV_PART_MAIN LV_STATE_DEFAULT;
     lv_obj_set_style pad_right (Num 0) LV_PART_MAIN LV_STATE_DEFAULT;
     lv_obj_set_style pad_bottom (Num 0) LV_PART_MAIN LV_STATE_DEFAULT;
     lv_obj_set_style bg_opa (Num 0) LV_PART_MAIN LV_STATE_DEFAULT;
     lv_obj_set_style border_width (Num 0) LV_PART_MAIN LV_STATE_DEFAULT;
     lv_obj_set_style radius (Num 0) LV_PART_MAIN LV_STATE_DEFAULT;
     lv_obj_clear_flag [LV_OBJ_FLAG_CLICKABLE];
     add_style flex_column_start]
    [
      W lv_obj (Some o_usb_indicator)
        [lv_obj_set_pos (Px 0) (Px 0);
         lv_obj_set_size SizeContent SizeContent;
         lv_obj_set_style pad_left (Num 0) LV_PART_MAIN LV_STATE_DEFAULT;
         lv_obj_set_style pad_top (Num 0) LV_PART_MAIN LV_STATE_DEFAULT;
         lv_obj_set_style pad_right (Num 0) LV_PART_MAIN LV_STATE_DEFAULT;
         lv_obj_set_style pad_bottom (Num 0) LV_PART_MAIN LV_STATE_DEFAULT;
         lv_obj_set_style bg_opa (Num 0) LV_PART_MAIN LV_STATE_DEFAULT;
         lv_obj_set_style border_width (Num 0) LV_PART_MAIN LV_STATE_DEFAULT;
         lv_obj_set_style radius (Num 0) LV_PART_MAIN LV_STATE_DEFAULT;
         lv_obj_clear_flag [LV_OBJ_FLAG_CLICKABLE];
         add_style flow_row_start_center]
        [
          W lv_image None
            [lv_obj_set_pos (Px 0) (Px 0);
             lv_obj_set_size SizeContent SizeContent;
             lv_image_set_src "img_usb"]
            [];
          W lv_label None
            [lv_obj_set_pos (Pct 0) (Pct 0);
             lv_obj_set_size SizeContent SizeContent;
             add_style label_font16;
             lv_label_set_text "USB"]
            []
        ];
      W lv_label (Some o_usb_status_label)
        [lv_obj_set_pos (Pct 0) (Pct 0);
         lv_obj_set_size SizeContent SizeContent;
         lv_obj_add_flag LV_OBJ_FLAG_CHECKABLE;
         add_style label_font16;
         lv_obj_set_style text_color (Color 0xff808080) LV_PART_MAIN LV_STATE_DEFAULT;
         lv_obj_set_style text_color (Color 0xff22c55e) LV_PART_MAIN LV_STATE_CHECKED;
         lv_label_set_text "Unknown"]
        []
    ].

Definition hdmi_status_widget : widget :=
  W lv_obj (Some o_hdmi_status)
    [lv_obj_set_pos (Px 0) (Px 0);
     lv_obj_set_size (Pct 50) SizeContent;
     lv_obj_set_style pad_left (Num 0) LV_PART_MAIN LV_STATE_DEFAULT;
     lv_obj_set_style pad_top (Num 0) LV_PART_MAIN LV_STATE_DEFAULT;
     lv_obj_set_style pad_right (Num 0) LV_PART_MAIN LV_STATE_DEFAULT;
     lv_obj_set_style pad_bottom (Num 0) LV_PART_MAIN LV_STATE_DEFAULT;
     lv_obj_set_style bg_opa (Num 0) LV_PART_MAIN LV_STATE_DEFAULT;
     lv_obj_set_style border_width (Num 0) LV_PART_MAIN LV_STATE_DEFAULT;
     lv_obj_set_style radius (Num 0) LV_PART_MAIN LV_STATE_DEFAULT;
     lv_obj_clear_flag [LV_OBJ_FLAG_CLICKABLE];
     add_style flex_column_start]
    [
      W lv_obj (Some o_hdmi_indicator)
        [lv_obj_set_pos (Px 0) (Px 0);
         lv_obj_set_size SizeContent SizeContent;
         lv_obj_set_style pad_left (Num 0) LV_PART_MAIN LV_STATE_DEFAULT;
         lv_obj_set_style pad_top (Num 0) LV_PART_MAIN LV_STATE_DEFAULT;
         lv_obj_set_style pad_right (Num 0) LV_PART_MAIN LV_STATE_DEFAULT;
         lv_obj_set_style pad_bottom (Num 0) LV_PART_MAIN LV_STATE_DEFAULT;
         lv_obj_set_style bg_opa (Num 0) LV_PART_MAIN LV_STATE_DEFAULT;
         lv_obj_set_style border_width (Num 0) LV_PART_MAIN LV_STATE_DEFAULT;
         lv_obj_set_style radius (Num 0) LV_PART_MAIN LV_STATE_DEFAULT;
         lv_obj_clear_flag [LV_OBJ_FLAG_CLICKABLE];
         add_style flow_row_start_center]
        [
          W lv_image None
            [lv_obj_set_pos (Px 0) (Px 0);
             lv_obj_set_size SizeContent SizeContent;
             lv_image_set_src "img_hdmi"]
            [];
          W lv_label None
            [lv_obj_set_pos (Pct 0) (Pct 0);
             lv_obj_set_size SizeContent SizeContent;
             add_style label_font16;
             lv_label_set_text "HDMI"]
            []
        ];
      W lv_label (Some o_hdmi_status_label)
        [lv_obj_set_pos (Pct 0) (Pct 0);
         lv_obj_set_size SizeContent SizeContent;
         lv_obj_add_flag LV_OBJ_FLAG_CHECKABLE;
         add_style label_font16;
         lv_obj_set_style text_color (Color 0xff22c55e) LV_PART_MAIN LV_STATE_CHECKED;
         lv_obj_set_style text_color (Color 0xff808080) LV_PART_MAIN LV_STATE_DEFAULT;
         lv_label_set_text "Unknown"]
        []
    ].

Definition home_status_container_widget : widget :=
  W lv_obj (Some o_home_status_container)
    [lv_obj_set_pos (Px 0) (Px 0);
     lv_obj_set_size (Pct 100) SizeContent;
     lv_obj_set_style pad_left (Num 0) LV_PART_MAIN LV_STATE_DEFAULT;
     lv_obj_set_style pad_top (Num 0) LV_PART_MAIN LV_STATE_DEFAULT;
     lv_obj_set_style pad_right (Num 0) LV_PART_MAIN LV_STATE_DEFAULT;
     lv_obj_set_style pad_bottom (Num 0) LV_PART_MAIN LV_STATE_DEFAULT;
     lv_obj_set_style bg_opa (Num 0) LV_PART_MAIN LV_STATE_DEFAULT;
     lv_obj_set_style border_width (Num 0) LV_PART_MAIN LV_STATE_DEFAULT;
     lv_obj_set_style radius (Num 0) LV_PART_MAIN LV_STATE_DEFAULT;
     lv_obj_clear_flag [LV_OBJ_FLAG_CLICKABLE; LV_OBJ_FLAG_CLICK_FOCUSABLE; LV_OBJ_FLAG_SCROLLABLE];
     add_style flow_row_start_center]
    [
      usb_status_widget;
      hdmi_status_widget
    ].

Definition create_screen_home_screen_1 : widget :=
  W lv_obj None
    [lv_obj_set_pos (Px 0) (Px 0);
     lv_obj_set_size (Pct 100) (Pct 100);
     lv_obj_set_style pad_left (Num 0) LV_PART_MAIN LV_STATE_DEFAULT;
     lv_obj_set_style pad_top (Num 0) LV_PART_MAIN LV_STATE_DEFAULT;
     lv_obj_set_style pad_right (Num 0) LV_PART_MAIN LV_STATE_DEFAULT;
     lv_obj_set_style pad_bottom (Num 0) LV_PART_MAIN LV_STATE_DEFAULT;
     lv_obj_set_style bg_opa (Num 0) LV_PART_MAIN LV_STATE_DEFAULT;
     lv_obj_set_style border_width (Num 0) LV_PART_MAIN LV_STATE_DEFAULT;
     lv_obj_set_style radius (Num 0) LV_PART_MAIN LV_STATE_DEFAULT;
     lv_obj_clear_flag [LV_OBJ_FLAG_CLICKABLE];
     add_style flex_start]
    [
      home_header_container_widget;
      home_info_container_widget;
      W lv_obj (Some o_divider)
        [lv_obj_set_pos (Px 0) (Px 0);
         lv_obj_set_size (Pct 100) (Px 1);
         lv_obj_set_style pad_left (Num 0) LV_PART_MAIN LV_STATE_DEFAULT;
         lv_obj_set_style pad_top (Num 0) LV_PART_MAIN LV_STATE_DEFAULT;
         lv_obj_set_style pad_right (Num 0) LV_PART_MAIN LV_STATE_DEFAULT;
         lv_obj_set_style pad_bottom (Num 0) LV_PART_MAIN LV_STATE_DEFAULT;
         lv_obj_set_style border_width (Num 0) LV_PART_MAIN LV_STATE_DEFAULT;
         lv_obj_set_style radius (Num 0) LV_PART_MAIN LV_STATE_DEFAULT;
         lv_obj_clear_flag [LV_OBJ_FLAG_CLICKABLE; LV_OBJ_FLAG_CLICK_FOCUSABLE; LV_OBJ_FLAG_SCROLLABLE];
         lv_obj_set_scrollbar_mode "LV_SCROLLBAR_MODE_OFF";
         add_style flex_column_start;
         lv_obj_set_style bg_color (Color 0xff262626) LV_PART_MAIN LV_STATE_DEFAULT;
         lv_obj_set_style bg_opa (Num 255) LV_PART_MAIN LV_STATE_DEFAULT]
        [];
      home_status_container_widget
    ].

Definition create_screen_home_screen : widget :=
  W lv_obj (Some o_home_screen)
    [lv_obj_set_pos (Px 0) (Px 0);
     lv_obj_set_size (Px 300) (Px 240);
     lv_obj_add_event_cb action_switch_to_menu LV_EVENT_LONG_PRESSED;
     lv_obj_add_event_cb action_home_screen_gesture LV_EVENT_GESTURE;
     add_style flex_screen]
    [
      create_screen_home_screen_1
    ].

Definition menu_header_container_widget : widget :=
  W lv_obj (Some o_menu_header_container)
    [lv_obj_set_pos (Px 0) (Px 0);
     lv_obj_set_size (Pct 100) SizeContent;
     lv_obj_set_style pad_left (Num 0) LV_PART_MAIN LV_STATE_DEFAULT;
     lv_obj_set_style pad_top (Num 0) LV_PART_MAIN LV_STATE_DEFAULT;
     lv_obj_set_style pad_bottom (Num 0) LV_PART_MAIN LV_STATE_DEFAULT;
     lv_obj_set_style bg_opa (Num 0) LV_PART_MAIN LV_STATE_DEFAULT;
     lv_obj_set_style border_width (Num 0) LV_PART_MAIN LV_STATE_DEFAULT;
     lv_obj_set_style radius (Num 0) LV_PART_MAIN LV_STATE_DEFAULT;
     add_style flow_row_space_between;
     lv_obj_set_style pad_right (Num 4) LV_PART_MAIN LV_STATE_DEFAULT]
    [
      W lv_button None
        [lv_obj_set_pos (Px 0) (Px 0);
         lv_obj_set_size (Px 32) (Px 32);
         lv_obj_add_event_cb action_menu_screen_gesture LV_EVENT_PRESSED;
         add_style back_button]
        [
          W lv_image None
            [lv_obj_set_pos (Px (-1)) (Px 2);
             lv_obj_set_size SizeContent SizeContent;
             lv_image_set_src "img_back_caret"]
            []
        ];
      W lv_label None
        [lv_obj_set_pos (Pct 0) (Pct 0);
         lv_obj_set_size SizeContent SizeContent;
         add_style header_link;
         lv_label_set_text "Settings"]
        []
    ].

Definition menu_items_container_widget : widget :=
  W lv_obj (Some o_menu_items_container)
    [lv_obj_set_pos (Px 0) (Px 0);
     lv_obj_set_size (Pct 100) (Pct 80);
     lv_obj_set_style pad_left (Num 0) LV_PART_MAIN LV_STATE_DEFAULT;
     lv_obj_set_style pad_top (Num 0) LV_PART_MAIN LV_STATE_DEFAULT;
     lv_obj_set_style pad_bottom (Num 0) LV_PART_MAIN LV_STATE_DEFAULT;
     lv_obj_set_style bg_opa (Num 0) LV_PART_MAIN LV_STATE_DEFAULT;
     lv_obj_set_style border_width (Num 0) LV_PART_MAIN LV_STATE_DEFAULT;
     lv_obj_set_style radius (Num 0) LV_PART_MAIN LV_STATE_DEFAULT;
     lv_obj_add_flag LV_OBJ_FLAG_OVERFLOW_VISIBLE;
     lv_obj_set_scrollbar_mode "LV_SCROLLBAR_MODE_AUTO";
     lv_obj_set_scroll_dir LV_DIR_VER;
     lv_obj_set_scroll_snap_x "LV_SCROLL_SNAP_START";
     add_style flex_column_start;
     lv_obj_set_style pad_right (Num 4) LV_PART_MAIN LV_STATE_DEFAULT;
     lv_obj_set_style pad_right (Num 2) LV_PART_SCROLLBAR LV_STATE_DEFAULT]
    [
      W lv_obj None
        [lv_obj_set_pos (Px 0) (Px 0);
         lv_obj_set_size (Pct 100) SizeContent;
         lv_obj_set_style pad_left (Num 0) LV_PART_MAIN LV_STATE_DEFAULT;
         lv_obj_set_style pad_top (Num 0) LV_PART_MAIN LV_STATE_DEFAULT;
         lv_obj_set_style pad_bottom (Num 0) LV_PART_MAIN LV_STATE_DEFAULT;
         lv_obj_set_style bg_opa (Num 0) LV_PART_MAIN LV_STATE_DEFAULT;
         lv_obj_set_style border_width (Num 0) LV_PART_MAIN LV_STATE_DEFAULT;
         lv_obj_set_style radius (Num 0) LV_PART_MAIN LV_STATE_DEFAULT;
         lv_obj_clear_flag [LV_OBJ_FLAG_SCROLLABLE];
         add_style flex_column_start;
         lv_obj_set_style pad_right (Num 10) LV_PART_MAIN LV_STATE_DEFAULT]
        [
          W lv_button (Some o_menu_btn_status)
            [lv_obj_set_pos (Px 0) (Px 0);
             lv_obj_set_size (Pct 100) (Px 50);
             lv_obj_add_event_cb action_switch_to_status LV_EVENT_CLICKED;
             add_style menu_button]
            [
              W lv_label None
                [lv_obj_set_pos (Px 0) (Px 0);
                 lv_obj_set_size SizeContent SizeContent;
                 add_style menu_button_label;
                 lv_label_set_text "Status"]
                []
            ];
          W lv_button (Some o_menu_btn_network)
            [lv_obj_set_pos (Px 0) (Px 0);
             lv_obj_set_size (Pct 100) (Px 50);
             add_style menu_button]
            [
              W lv_label None
                [lv_obj_set_pos (Px 0) (Px 0);
                 lv_obj_set_size SizeContent SizeContent;
                 add_style menu_button_label;
                 lv_label_set_text "Network"]
                []
            ];
          W lv_button (Some o_menu_btn_access)
            [lv_obj_set_pos (Px 0) (Px 0);
             lv_obj_set_size (Pct 100) (Px 50);
             lv_obj_clear_flag [LV_OBJ_FLAG_SNAPPABLE];
             add_style menu_button]
            [
              W lv_label None
                [lv_obj_set_pos (Px 0) (Px 0);
                 lv_obj_set_size SizeContent SizeContent;
                 add_style menu_button_label;
                 lv_label_set_text "Access"]
                []
            ];
          W lv_button (Some o_menu_btn_advanced)
            [lv_obj_set_pos (Px 0) (Px 0);
             lv_obj_set_size (Pct 100) (Px 50);
             lv_obj_add_event_cb action_switch_to_advanced_menu LV_EVENT_CLICKED;
             lv_obj_clear_flag [LV_OBJ_FLAG_SNAPPABLE];
             add_style menu_button]
            [
              W lv_label None
                [lv_obj_set_pos (Px 0) (Px 0);
                 lv_obj_set_size SizeContent SizeContent;
                 add_style menu_button_label;
                 lv_label_set_text "Advanced"]
                []
            ];
          W lv_button (Some o_menu_btn_about)
            [lv_obj_set_pos (Px 0) (Px 0);
             lv_obj_set_size (Pct 100) (Px 50);
             lv_obj_add_event_cb action_switch_to_about LV_EVENT_CLICKED;
             lv_obj_clear_flag [LV_OBJ_FLAG_SNAPPABLE];
             add_style menu_button]
            [
              W lv_label None
                [lv_obj_set_pos (Px 0) (Px 0);
                 lv_obj_set_size SizeContent SizeContent;
                 add_style menu_button_label;
                 lv_label_set_text "About"]
                []
            ]
        ]
    ].

Definition create_screen_menu_screen_1 : widget :=
  W lv_obj None
    [lv_obj_set_pos (Px 0) (Px 0);
     lv_obj_set_size (Pct 100) (Pct 100);
     lv_obj_set_style pad_left (Num 0) LV_PART_MAIN LV_STATE_DEFAULT;
     lv_obj_set_style pad_top (Num 0) LV_PART_MAIN LV_STATE_DEFAULT;
     lv_obj_set_style pad_right (Num 0) LV_PART_MAIN LV_STATE_DEFAULT;
     lv_obj_set_style pad_bottom (Num 0) LV_PART_MAIN LV_STATE_DEFAULT;
     lv_obj_set_style bg_opa (Num 0) LV_PART_MAIN LV_STATE_DEFAULT;
     lv_obj_set_style border_width (Num 0) LV_PART_MAIN LV_STATE_DEFAULT;
     lv_obj_set_style radius (Num 0) LV_PART_MAIN LV_STATE_DEFAULT;
     lv_obj_clear_flag [LV_OBJ_FLAG_SCROLLABLE];
     add_style flex_start]
    [
      menu_header_container_widget;
      menu_items_container_widget
    ].

Definition create_screen_menu_screen : widget :=
  W lv_obj (Some o_menu_screen)
    [lv_obj_set_pos (Px 0) (Px 0);
     lv_obj_set_size (Px 300) (Px 240);
     lv_obj_add_event_cb action_menu_screen_gesture LV_EVENT_GESTURE;
     add_style flex_screen_menu]
    [
      create_screen_menu_screen_1
    ].

Definition menu_header_container_1_widget : widget :=
  W lv_obj (Some o_menu_header_container_1)
    [lv_obj_set_pos (Px 0) (Px 0);
     lv_obj_set_size (Pct 100) SizeContent;
     lv_obj_set_style pad_left (Num 0) LV_PART_MAIN LV_STATE_DEFAULT;
     lv_obj_set_style pad_top (Num 0) LV_PART_MAIN LV_STATE_DEFAULT;
     lv_obj_set_style pad_bottom (Num 0) LV_PART_MAIN LV_STATE_DEFAULT;
     lv_obj_set_style bg_opa (Num 0) LV_PART_MAIN LV_STATE_DEFAULT;
     lv_obj_set_style border_width (Num 0) LV_PART_MAIN LV_STATE_DEFAULT;
     lv_obj_set_style radius (Num 0) LV_PART_MAIN LV_STATE_DEFAULT;
     add_style flow_row_space_between;
     lv_obj_set_style pad_right (Num 4) LV_PART_MAIN LV_STATE_DEFAULT]
    [
      W lv_button None
        [lv_obj_set_pos (Px 0) (Px 0);
         lv_obj_set_size (Px 32) (Px 32);
         lv_obj_add_event_cb action_switch_to_menu LV_EVENT_CLICKED;
         add_style back_button]
        [
          W lv_image None
            [lv_obj_set_pos (Px (-1)) (Px 2);
             lv_obj_set_size SizeContent SizeContent;
             lv_image_set_src "img_back_caret"]
            []
        ];
      W lv_label None
        [lv_obj_set_pos (Pct 0) (Pct 0);
         lv_obj_set_size SizeContent SizeContent;
         add_style header_link;
         lv_label_set_text "Advanced"]
        []
    ].

Definition menu_items_container_1_widget : widget :=
  W lv_obj (Some o_menu_items_container_1)
    [lv_obj_set_pos (Px 0) (Px 0);
     lv_obj_set_size (Pct 100) (Pct 80);
     lv_obj_set_style pad_left (Num 0) LV_PART_MAIN LV_STATE_DEFAULT;
     lv_obj_set_style pad_top (Num 0) LV_PART_MAIN LV_STATE_DEFAULT;
     lv_obj_set_style pad_bottom (Num 0) LV_PART_MAIN LV_STATE_DEFAULT;
     lv_obj_set_style bg_opa (Num 0) LV_PART_MAIN LV_STATE_DEFAULT;
     lv_obj_set_style border_width (Num 0) LV_PART_MAIN LV_STATE_DEFAULT;
     lv_obj_set_style radius (Num 0) LV_PART_MAIN LV_STATE_DEFAULT;
     lv_obj_set_scrollbar_mode "LV_SCROLLBAR_MODE_AUTO";
     lv_obj_set_scroll_dir LV_DIR_VER;
     lv_obj_set_scroll_snap_x "LV_SCROLL_SNAP_START";
     add_style flex_column_start;
     lv_obj_set_style pad_right (Num 4) LV_PART_MAIN LV_STATE_DEFAULT]
    [
      W lv_obj None
        [lv_obj_set_pos (Px 0) (Px 0);
         lv_obj_set_size (Pct 100) SizeContent;
         lv_obj_set_style pad_left (Num 0) LV_PART_MAIN LV_STATE_DEFAULT;
         lv_obj_set_style pad_top (Num 0) LV_PART_MAIN LV_STATE_DEFAULT;
         lv_obj_set_style pad_bottom (Num 0) LV_PART_MAIN LV_STATE_DEFAULT;
         lv_obj_set_style bg_opa (Num 0) LV_PART_MAIN LV_STATE_DEFAULT;
         lv_obj_set_style border_width (Num 0) LV_PART_MAIN LV_STATE_DEFAULT;
         lv_obj_set_style radius (Num 0) LV_PART_MAIN LV_STATE_DEFAULT;
         lv_obj_clear_flag [LV_OBJ_FLAG_SCROLLABLE];
         add_style flex_column_start;
         lv_obj_set_style pad_right (Num 10) LV_PART_MAIN LV_STATE_DEFAULT]
        [
          W lv_button (Some o_menu_btn_advanced_developer_mode)
            [lv_obj_set_pos (Px 0) (Px 0);
             lv_obj_set_size (Pct 100) (Px 50);
             lv_obj_add_event_cb action_reset_config LV_EVENT_PRESSED;
             lv_obj_add_flag LV_OBJ_FLAG_HIDDEN;
             add_style menu_button]
            [
              W lv_label None
                [lv_obj_set_pos (Px 0) (Px 0);
                 lv_obj_set_size SizeContent SizeContent;
                 add_style menu_button_label;
                 lv_label_set_text "Developer Mode"]
                []
            ];
          W lv_button (Some o_menu_btn_advanced_usb_emulation)
            [lv_obj_set_pos (Px 0) (Px 0);
             lv_obj_set_size (Pct 100) (Px 50);
             lv_obj_add_flag LV_OBJ_FLAG_HIDDEN;
             add_style menu_button]
            [
              W lv_label None
                [lv_obj_set_pos (Px 0) (Px 0);
                 lv_obj_set_size SizeContent SizeContent;
                 add_style menu_button_label;
                 lv_label_set_text "USB Emulation"]
                []
            ];
          W lv_button (Some o_menu_btn_advanced_reboot)
            [lv_obj_set_pos (Px 0) (Px 0);
             lv_obj_set_size (Pct 100) (Px 50);
             lv_obj_add_event_cb action_switch_to_reboot LV_EVENT_PRESSED;
             lv_obj_clear_flag [LV_OBJ_FLAG_SNAPPABLE];
             add_style menu_button]
            [
              W lv_label None
                [lv_obj_set_pos (Px 0) (Px 0);
                 lv_obj_set_size SizeContent SizeContent;
                 add_style menu_button_label;
                 lv_label_set_text "Reboot Device"]
                []
            ];
          W lv_button (Some o_menu_btn_dhcp_client)
            [lv_obj_set_pos (Px 0) (Px 0);
             lv_obj_set_size (Pct 100) (Px 50);
             lv_obj_add_event_cb action_switch_to_dhcpc LV_EVENT_PRESSED;
             lv_obj_clear_flag [LV_OBJ_FLAG_SNAPPABLE];
             add_style menu_button]
            [
              W lv_label None
                [lv_obj_set_pos (Px 0) (Px 0);
                 lv_obj_set_size SizeContent SizeContent;
                 add_style menu_button_label;
                 lv_label_set_text "DHCP Client"]
                []
            ];
          W lv_button (Some o_menu_btn_advanced_reset_config)
            [lv_obj_set_pos (Px 0) (Px 0);
             lv_obj_set_size (Pct 100) (Px 50);
             lv_obj_add_event_cb action_switch_to_reset_config LV_EVENT_PRESSED;
             lv_obj_clear_flag [LV_OBJ_FLAG_SNAPPABLE];
             add_style menu_button;
             lv_obj_set_style bg_color (Color 0xffdc2626) LV_PART_MAIN LV_STATE_DEFAULT;
             lv_obj_set_style bg_opa (Num 255) LV_PART_MAIN LV_STATE_DEFAULT]
            [
              W lv_label None
                [lv_obj_set_pos (Px 0) (Px 0);
                 lv_obj_set_size SizeContent SizeContent;
                 add_style menu_button_label;
                 lv_label_set_text "Reset Configuration"]
                []
            ]
        ]
    ].

Definition create_screen_menu_advanced_screen_1 : widget :=
  W lv_obj None
    [lv_obj_set_pos (Px 0) (Px 0);
     lv_obj_set_size (Pct 100) (Pct 100);
     lv_obj_set_style pad_left (Num 0) LV_PART_MAIN LV_STATE_DEFAULT;
     lv_obj_set_style pad_top (Num 0) LV_PART_MAIN LV_STATE_DEFAULT;
     lv_obj_set_style pad_right (Num 0) LV_PART_MAIN LV_STATE_DEFAULT;
     lv_obj_set_style pad_bottom (Num 0) LV_PART_MAIN LV_STATE_DEFAULT;
     lv_obj_set_style bg_opa (Num 0) LV_PART_MAIN LV_STATE_DEFAULT;
     lv_obj_set_style border_width (Num 0) LV_PART_MAIN LV_STATE_DEFAULT;
     lv_obj_set_style radius (Num 0) LV_PART_MAIN LV_STATE_DEFAULT;
     lv_obj_clear_flag [LV_OBJ_FLAG_SCROLLABLE];
     add_style flex_start]
    [
      menu_header_container_1_widget;
      menu_items_container_1_widget
    ].

Definition create_screen_menu_advanced_screen : widget :=
  W lv_obj (Some o_menu_advanced_screen)
    [lv_obj_set_pos (Px 0) (Px 0);
     lv_obj_set_size (Px 300) (Px 240);
     lv_obj_add_event_cb action_menu_advanced_screen_gesture LV_EVENT_GESTURE;
     add_style flex_screen_menu]
    [
      create_screen_menu_advanced_screen_1
    ].

Definition menu_header_container_2_widget : widget :=
  W lv_obj (Some o_menu_header_container_2)
    [lv_obj_set_pos (Px 0) (Px 0);
     lv_obj_set_size (Pct 100) SizeContent;
     lv_obj_set_style pad_left (Num 0) LV_PART_MAIN LV_STATE_DEFAULT;
     lv_obj_set_style pad_top (Num 0) LV_PART_MAIN LV_STATE_DEFAULT;
     lv_obj_set_style pad_bottom (Num 0) LV_PART_MAIN LV_STATE_DEFAULT;
     lv_obj_set_style bg_opa (Num 0) LV_PART_MAIN LV_STATE_DEFAULT;
     lv_obj_set_style border_width (Num 0) LV_PART_MAIN LV_STATE_DEFAULT;
     lv_obj_set_style radius (Num 0) LV_PART_MAIN LV_STATE_DEFAULT;
     add_style flow_row_space_between;
     lv_obj_set_style pad_right (Num 4) LV_PART_MAIN LV_STATE_DEFAULT]
    [
      W lv_button None
        [lv_obj_set_pos (Px 0) (Px 0);
         lv_obj_set_size (Px 32) (Px 32);
         lv_obj_add_event_cb action_switch_to_menu LV_EVENT_CLICKED;
         add_style back_button]
        [
          W lv_image None
            [lv_obj_set_pos (Px (-1)) (Px 2);
             lv_obj_set_size SizeContent SizeContent;
             lv_image_set_src "img_back_caret"]
            []
        ];
      W lv_label None
        [lv_obj_set_pos (Pct 0) (Pct 0);
         lv_obj_set_size SizeContent SizeContent;
         add_style header_link;
         lv_label_set_text "Network"]
        []
    ].

Definition menu_items_container_2_widget : widget :=
  W lv_obj (Some o_menu_items_container_2)
    [lv_obj_set_pos (Px 0) (Px 0);
     lv_obj_set_size (Pct 100) (Pct 80);
     lv_obj_set_style pad_left (Num 0) LV_PART_MAIN LV_STATE_DEFAULT;
     lv_obj_set_style pad_top (Num 0) LV_PART_MAIN LV_STATE_DEFAULT;
     lv_obj_set_style pad_bottom (Num 0) LV_PART_MAIN LV_STATE_DEFAULT;
     lv_obj_set_style bg_opa (Num 0) LV_PART_MAIN LV_STATE_DEFAULT;
     lv_obj_set_style border_width (Num 0) LV_PART_MAIN LV_STATE_DEFAULT;
     lv_obj_set_style radius (Num 0) LV_PART_MAIN LV_STATE_DEFAULT;
     lv_obj_set_scrollbar_mode "LV_SCROLLBAR_MODE_AUTO";
     lv_obj_set_scroll_dir LV_DIR_VER;
     lv_obj_set_scroll_snap_x "LV_SCROLL_SNAP_START";
     add_style flex_column_start;
     lv_obj_set_style pad_right (Num 4) LV_PART_MAIN LV_STATE_DEFAULT]
    [
      W lv_obj None
        [lv_obj_set_pos (Px 0) (Px 0);
         lv_obj_set_size (Pct 100) SizeContent;
         lv_obj_set_style pad_left (Num 0) LV_PART_MAIN LV_STATE_DEFAULT;
         lv_obj_set_style pad_top (Num 0) LV_PART_MAIN LV_STATE_DEFAULT;
         lv_obj_set_style pad_bottom (Num 0) LV_PART_MAIN LV_STATE_DEFAULT;
         lv_obj_set_style bg_opa (Num 0) LV_PART_MAIN LV_STATE_DEFAULT;
         lv_obj_set_style border_width (Num 0) LV_PART_MAIN LV_STATE_DEFAULT;
         lv_obj_set_style radius (Num 0) LV_PART_MAIN LV_STATE_DEFAULT;
         lv_obj_clear_flag [LV_OBJ_FLAG_SCROLLABLE];
         add_style flex_column_start;
         lv_obj_set_style pad_right (Num 10) LV_PART_MAIN LV_STATE_DEFAULT]
        [
          W lv_button (Some o_menu_btn_network_ipv4)
            [lv_obj_set_pos (Px 0) (Px 0);
             lv_obj_set_size (Pct 100) (Px 50);
             add_style menu_button]
            [
              W lv_label None
                [lv_obj_set_pos (Px 0) (Px 0);
                 lv_obj_set_size SizeContent SizeContent;
                 add_style menu_button_label;
                 lv_label_set_text "IPv4 Info"]
                []
            ];
          W lv_button (Some o_menu_btn_network_ipv6)
            [lv_obj_set_pos (Px 0) (Px 0);
             lv_obj_set_size (Pct 100) (Px 50);
             add_style menu_button]
            [
              W lv_label None
                [lv_obj_set_pos (Px 0) (Px 0);
                 lv_obj_set_size SizeContent SizeContent;
                 add_style menu_button_label;
                 lv_label_set_text "IPv6 Info"]
                []
            ];
          W lv_button (Some o_menu_btn_network_lldp)
            [lv_obj_set_pos (Px 0) (Px 0);
             lv_obj_set_size (Pct 100) (Px 50);
             lv_obj_clear_flag [LV_OBJ_FLAG_SNAPPABLE];
             add_style menu_button]
            [
              W lv_label None
                [lv_obj_set_pos (Px 0) (Px 0);
                 lv_obj_set_size SizeContent SizeContent;
                 add_style menu_button_label;
                 lv_label_set_text "LLDP Neighbours"]
                []
            ]
        ]
    ].

Definition create_screen_menu_network_screen_1 : widget :=
  W lv_obj None
    [lv_obj_set_pos (Px 0) (Px 0);
     lv_obj_set_size (Pct 100) (Pct 100);
     lv_obj_set_style pad_left (Num 0) LV_PART_MAIN LV_STATE_DEFAULT;
     lv_obj_set_style pad_top (Num 0) LV_PART_MAIN LV_STATE_DEFAULT;
     lv_obj_set_style pad_right (Num 0) LV_PART_MAIN LV_STATE_DEFAULT;
     lv_obj_set_style pad_bottom (Num 0) LV_PART_MAIN LV_STATE_DEFAULT;
     lv_obj_set_style bg_opa (Num 0) LV_PART_MAIN LV_STATE_DEFAULT;
     lv_obj_set_style border_width (Num 0) LV_PART_MAIN LV_STATE_DEFAULT;
     lv_obj_set_style radius (Num 0) LV_PART_MAIN LV_STATE_DEFAULT;
     lv_obj_clear_flag [LV_OBJ_FLAG_SCROLLABLE];
     add_style flex_start]
    [
      menu_header_container_2_widget;
      menu_items_container_2_widget
    ].

Definition create_screen_menu_network_screen : widget :=
  W lv_obj (Some o_menu_network_screen)
    [lv_obj_set_pos (Px 0) (Px 0);
     lv_obj_set_size (Px 300) (Px 240);
     lv_obj_add_event_cb action_menu_advanced_screen_gesture LV_EVENT_GESTURE;
     add_style flex_screen_menu]
    [
      create_screen_menu_network_screen_1
    ].

Definition about_header_container_widget : widget :=
  W lv_obj (Some o_about_header_container)
    [lv_obj_set_pos (Px 0) (Px 0);
     lv_obj_set_size (Pct 100) SizeContent;
     lv_obj_set_style pad_left (Num 0) LV_PART_MAIN LV_STATE_DEFAULT;
     lv_obj_set_style pad_top (Num 0) LV_PART_MAIN LV_STATE_DEFAULT;
     lv_obj_set_style pad_bottom (Num 0) LV_PART_MAIN LV_STATE_DEFAULT;
     lv_obj_set_style bg_opa (Num 0) LV_PART_MAIN LV_STATE_DEFAULT;
     lv_obj_set_style border_width (Num 0) LV_PART_MAIN LV_STATE_DEFAULT;
     lv_obj_set_style radius (Num 0) LV_PART_MAIN LV_STATE_DEFAULT;
     add_style flow_row_space_between;
     lv_obj_set_style pad_right (Num 4) LV_PART_MAIN LV_STATE_DEFAULT]
    [
      W lv_button None
        [lv_obj_set_pos (Px 0) (Px 0);
         lv_obj_set_size (Px 32) (Px 32);
         lv_obj_add_event_cb action_switch_to_menu LV_EVENT_CLICKED;
         add_style back_button]
        [
          W lv_image None
            [lv_obj_set_pos (Px (-1)) (Px 2);
             lv_obj_set_size SizeContent SizeContent;
             lv_image_set_src "img_back_caret"]
            []
        ];
      W lv_label None
        [lv_obj_set_pos (Pct 0) (Pct 0);
         lv_obj_set_size SizeContent SizeContent;
         add_style header_link;
         lv_label_set_text "About"]
        []
    ].

Definition system_version_container_widget : widget :=
  W lv_obj (Some o_system_version_container)
    [lv_obj_set_pos (Px 0) (Px 0);
     lv_obj_set_size (Pct 100) SizeContent;
     lv_obj_set_style pad_left (Num 0) LV_PART_MAIN LV_STATE_DEFAULT;
     lv_obj_set_style pad_top (Num 0) LV_PART_MAIN LV_STATE_DEFAULT;
     lv_obj_set_style pad_bottom (Num 0) LV_PART_MAIN LV_STATE_DEFAULT;
     lv_obj_set_style bg_opa (Num 0) LV_PART_MAIN LV_STATE_DEFAULT;
     lv_obj_set_style border_width (Num 0) LV_PART_MAIN LV_STATE_DEFAULT;
     lv_obj_set_style radius (Num 0) LV_PART_MAIN LV_STATE_DEFAULT;
     lv_obj_clear_flag [LV_OBJ_FLAG_SCROLLABLE];
     add_style flex_column_start;
     lv_obj_set_style pad_right (Num 10) LV_PART_MAIN LV_STATE_DEFAULT]
    [
      W lv_label None
        [lv_obj_set_pos (Px 0) (Px 0);
         lv_obj_set_size SizeContent SizeContent;
         add_style info_headline_label;
         lv_label_set_text "System"]
        [];
      W lv_label (Some o_system_version)
        [lv_obj_set_pos (Px 0) (Px 0);
         lv_obj_set_size (Pct 100) SizeContent;
         add_style info_content_label;
         lv_label_set_text ""]
        []
    ].

Definition app_version_container_widget : widget :=
  W lv_obj (Some o_app_version_container)
    [lv_obj_set_pos (Px 0) (Px 0);
     lv_obj_set_size (Pct 100) SizeContent;
     lv_obj_set_style pad_left (Num 0) LV_PART_MAIN LV_STATE_DEFAULT;
     lv_obj_set_style pad_top (Num 0) LV_PART_MAIN LV_STATE_DEFAULT;
     lv_obj_set_style pad_bottom (Num 0) LV_PART_MAIN LV_STATE_DEFAULT;
     lv_obj_set_style bg_opa (Num 0) LV_PART_MAIN LV_STATE_DEFAULT;
     lv_obj_set_style border_width (Num 0) LV_PART_MAIN LV_STATE_DEFAULT;
     lv_obj_set_style radius (Num 0) LV_PART_MAIN LV_STATE_DEFAULT;
     lv_obj_clear_flag [LV_OBJ_FLAG_SCROLLABLE];
     add_style flex_column_start;
     lv_obj_set_style pad_right (Num 10) LV_PART_MAIN LV_STATE_DEFAULT]
    [
      W lv_label None
        [lv_obj_set_pos (Px 0) (Px 0);
         lv_obj_set_size SizeContent SizeContent;
         add_style info_headline_label;
         lv_label_set_text "Application"]
        [];
      W lv_label (Some o_app_version)
        [lv_obj_set_pos (Px 0) (Px 0);
         lv_obj_set_size (Pct 100) SizeContent;
         add_style info_content_label;
         lv_label_set_text ""]
        []
    ].

Definition build_branch_container_widget : widget :=
  W lv_obj (Some o_build_branch_container)
    [lv_obj_set_pos (Px 0) (Px 0);
     lv_obj_set_size (Pct 100) SizeContent;
     lv_obj_set_style pad_left (Num 0) LV_PART_MAIN LV_STATE_DEFAULT;
     lv_obj_set_style pad_top (Num 0) LV_PART_MAIN LV_STATE_DEFAULT;
     lv_obj_set_style pad_bottom (Num 0) LV_PART_MAIN LV_STATE_DEFAULT;
     lv_obj_set_style bg_opa (Num 0) LV_PART_MAIN LV_STATE_DEFAULT;
     lv_obj_set_style border_width (Num 0) LV_PART_MAIN LV_STATE_DEFAULT;
     lv_obj_set_style radius (Num 0) LV_PART_MAIN LV_STATE_DEFAULT;
     lv_obj_clear_flag [LV_OBJ_FLAG_SCROLLABLE];
     add_style flex_column_start;
     lv_obj_set_style pad_right (Num 10) LV_PART_MAIN LV_STATE_DEFAULT]
    [
      W lv_label None
        [lv_obj_set_pos (Px 0) (Px 0);
         lv_obj_set_size SizeContent SizeContent;
         add_style info_headline_label;
         lv_label_set_text "App Branch"]
        [];
      W lv_label (Some o_build_branch)
        [lv_obj_set_pos (Px 0) (Px 0);
         lv_obj_set_size (Pct 100) SizeContent;
         add_style info_content_label;
         lv_label_set_text "0.0.1"]
        []
    ].

Definition build_date_container_widget : widget :=
  W lv_obj (Some o_build_date_container)
    [lv_obj_set_pos (Px 0) (Px 0);
     lv_obj_set_size (Pct 100) SizeContent;
     lv_obj_set_style pad_left (Num 0) LV_PART_MAIN LV_STATE_DEFAULT;
     lv_obj_set_style pad_top (Num 0) LV_PART_MAIN LV_STATE_DEFAULT;
     lv_obj_set_style pad_bottom (Num 0) LV_PART_MAIN LV_STATE_DEFAULT;
     lv_obj_set_style bg_opa (Num 0) LV_PART_MAIN LV_STATE_DEFAULT;
     lv_obj_set_style border_width (Num 0) LV_PART_MAIN LV_STATE_DEFAULT;
     lv_obj_set_style radius (Num 0) LV_PART_MAIN LV_STATE_DEFAULT;
     lv_obj_clear_flag [LV_OBJ_FLAG_SCROLLABLE];
     add_style flex_column_start;
     lv_obj_set_style pad_right (Num 10) LV_PART_MAIN LV_STATE_DEFAULT]
    [
      W lv_label None
        [lv_obj_set_pos (Px 0) (Px 0);
         lv_obj_set_size SizeContent SizeContent;
         add_style info_headline_label;
         lv_label_set_text "App Build Date"]
        [];
      W lv_label (Some o_build_date)
        [lv_obj_set_pos (Px 0) (Px 0);
         lv_obj_set_size (Pct 100) SizeContent;
         add_style info_content_label;
         lv_label_set_text "0.0.1"]
        []
    ].

Definition golang_version_container_widget : widget :=
  W lv_obj (Some o_golang_version_container)
    [lv_obj_set_pos (Px 0) (Px 0);
     lv_obj_set_size (Pct 100) SizeContent;
     lv_obj_set_style pad_left (Num 0) LV_PART_MAIN LV_STATE_DEFAULT;
     lv_obj_set_style pad_top (Num 0) LV_PART_MAIN LV_STATE_DEFAULT;
     lv_obj_set_style pad_bottom (Num 0) LV_PART_MAIN LV_STATE_DEFAULT;
     lv_obj_set_style bg_opa (Num 0) LV_PART_MAIN LV_STATE_DEFAULT;
     lv_obj_set_style border_width (Num 0) LV_PART_MAIN LV_STATE_DEFAULT;
     lv_obj_set_style radius (Num 0) LV_PART_MAIN LV_STATE_DEFAULT;
     lv_obj_clear_flag [LV_OBJ_FLAG_SCROLLABLE];
     add_style flex_column_start;
     lv_obj_set_style pad_right (Num 10) LV_PART_MAIN LV_STATE_DEFAULT]
    [
      W lv_label None
        [lv_obj_set_pos (Px 0) (Px 0);
         lv_obj_set_size SizeContent SizeContent;
         add_style info_headline_label;
         lv_label_set_text "Golang"]
        [];
      W lv_label (Some o_golang_version)
        [lv_obj_set_pos (Px 0) (Px 0);
         lv_obj_set_size (Pct 100) SizeContent;
         add_style info_content_label;
         lv_label_set_text "0.0.1"]
        []
    ].

Definition lvgl_version_container_widget : widget :=
  W lv_obj (Some o_lvgl_version_container)
    [lv_obj_set_pos (Px 0) (Px 0);
     lv_obj_set_size (Pct 100) SizeContent;
     lv_obj_set_style pad_left (Num 0) LV_PART_MAIN LV_STATE_DEFAULT;
     lv_obj_set_style pad_top (Num 0) LV_PART_MAIN LV_STATE_DEFAULT;
     lv_obj_set_style pad_bottom (Num 0) LV_PART_MAIN LV_STATE_DEFAULT;
     lv_obj_set_style bg_opa (Num 0) LV_PART_MAIN LV_STATE_DEFAULT;
     lv_obj_set_style border_width (Num 0) LV_PART_MAIN LV_STATE_DEFAULT;
     lv_obj_set_style radius (Num 0) LV_PART_MAIN LV_STATE_DEFAULT;
     lv_obj_clear_flag [LV_OBJ_FLAG_SCROLLABLE];
     add_style flex_column_start;
     lv_obj_set_style pad_right (Num 10) LV_PART_MAIN LV_STATE_DEFAULT]
    [
      W lv_label None
        [lv_obj_set_pos (Px 0) (Px 0);
         lv_obj_set_size SizeContent SizeContent;
         add_style info_headline_label;
         lv_label_set_text "LVGL"]
        [];
      W lv_label (Some o_lvgl_version)
        [lv_obj_set_pos (Px 0) (Px 0);
         lv_obj_set_size (Pct 100) SizeContent;
         add_style info_content_label;
         lv_label_set_text ""]
        []
    ].

Definition kernel_version_container_widget : widget :=
  W lv_obj (Some o_kernel_version_container)
    [lv_obj_set_pos (Px 0) (Px 0);
     lv_obj_set_size (Pct 100) SizeContent;
     lv_obj_set_style pad_left (Num 0) LV_PART_MAIN LV_STATE_DEFAULT;
     lv_obj_set_style pad_top (Num 0) LV_PART_MAIN LV_STATE_DEFAULT;
     lv_obj_set_style pad_bottom (Num 0) LV_PART_MAIN LV_STATE_DEFAULT;
     lv_obj_set_style bg_opa (Num 0) LV_PART_MAIN LV_STATE_DEFAULT;
     lv_obj_set_style border_width (Num 0) LV_PART_MAIN LV_STATE_DEFAULT;
     lv_obj_set_style radius (Num 0) LV_PART_MAIN LV_STATE_DEFAULT;
     lv_obj_clear_flag [LV_OBJ_FLAG_SCROLLABLE];
     add_style flex_column_start;
     lv_obj_set_style pad_right (Num 10) LV_PART_MAIN LV_STATE_DEFAULT]
    [
      W lv_label None
        [lv_obj_set_pos (Px 0) (Px 0);
         lv_obj_set_size SizeContent SizeContent;
         add_style info_headline_label;
         lv_label_set_text "Linux Kernel"]
        [];
      W lv_label (Some o_kernel_version)
        [lv_obj_set_pos (Px 0) (Px 0);
         lv_obj_set_size (Pct 100) SizeContent;
         add_style info_content_label;
         lv_label_set_text "0.0.1"]
        []
    ].

Definition cpu_serial_container_widget : widget :=
  W lv_obj (Some o_cpu_serial_container)
    [lv_obj_set_pos (Px 0) (Px 0);
     lv_obj_set_size (Pct 100) SizeContent;
     lv_obj_set_style pad_left (Num 0) LV_PART_MAIN LV_STATE_DEFAULT;
     lv_obj_set_style pad_top (Num 0) LV_PART_MAIN LV_STATE_DEFAULT;
     lv_obj_set_style pad_bottom (Num 0) LV_PART_MAIN LV_STATE_DEFAULT;
     lv_obj_set_style bg_opa (Num 0) LV_PART_MAIN LV_STATE_DEFAULT;
     lv_obj_set_style border_width (Num 0) LV_PART_MAIN LV_STATE_DEFAULT;
     lv_obj_set_style radius (Num 0) LV_PART_MAIN LV_STATE_DEFAULT;
     lv_obj_clear_flag [LV_OBJ_FLAG_SCROLLABLE];
     add_style flex_column_start;
     lv_obj_set_style pad_right (Num 10) LV_PART_MAIN LV_STATE_DEFAULT]
    [
      W lv_label None
        [lv_obj_set_pos (Px 0) (Px 0);
         lv_obj_set_size SizeContent SizeContent;
         add_style info_headline_label;
         lv_label_set_text "CPU Serial"]
        [];
      W lv_label (Some o_cpu_serial)
        [lv_obj_set_pos (Px 0) (Px 0);
         lv_obj_set_size (Pct 100) SizeContent;
         add_style info_content_label;
         lv_label_set_text "0.0.1"]
        []
    ].

Definition about_items_container_widget_1 : widget :=
  W lv_obj None
    [lv_obj_set_pos (Px 0) (Px 0);
     lv_obj_set_size (Pct 100) SizeContent;
     lv_obj_set_style pad_left (Num 0) LV_PART_MAIN LV_STATE_DEFAULT;
     lv_obj_set_style pad_top (Num 0) LV_PART_MAIN LV_STATE_DEFAULT;
     lv_obj_set_style pad_bottom (Num 0) LV_PART_MAIN LV_STATE_DEFAULT;
     lv_obj_set_style bg_opa (Num 0) LV_PART_MAIN LV_STATE_DEFAULT;
     lv_obj_set_style border_width (Num 0) LV_PART_MAIN LV_STATE_DEFAULT;
     lv_obj_set_style radius (Num 0) LV_PART_MAIN LV_STATE_DEFAULT;
     lv_obj_clear_flag [LV_OBJ_FLAG_SCROLLABLE];
     add_style flex_column_start;
     lv_obj_set_style pad_right (Num 10) LV_PART_MAIN LV_STATE_DEFAULT]
    [
      system_version_container_widget;
      app_version_container_widget;
      build_branch_container_widget;
      build_date_container_widget;
      golang_version_container_widget;
      lvgl_version_container_widget;
      kernel_version_container_widget;
      cpu_serial_container_widget
    ].

Definition about_items_container_widget : widget :=
  W lv_obj (Some o_about_items_container)
    [lv_obj_set_pos (Px 0) (Px 0);
     lv_obj_set_size (Pct 100) (Pct 80);
     lv_obj_set_style pad_left (Num 0) LV_PART_MAIN LV_STATE_DEFAULT;
     lv_obj_set_style pad_top (Num 0) LV_PART_MAIN LV_STATE_DEFAULT;
     lv_obj_set_style pad_bottom (Num 0) LV_PART_MAIN LV_STATE_DEFAULT;
     lv_obj_set_style bg_opa (Num 0) LV_PART_MAIN LV_STATE_DEFAULT;
     lv_obj_set_style border_width (Num 0) LV_PART_MAIN LV_STATE_DEFAULT;
     lv_obj_set_style radius (Num 0) LV_PART_MAIN LV_STATE_DEFAULT;
     lv_obj_set_scrollbar_mode "LV_SCROLLBAR_MODE_AUTO";
     lv_obj_set_scroll_dir LV_DIR_VER;
     lv_obj_set_scroll_snap_x "LV_SCROLL_SNAP_START";
     add_style flex_column_start;
     lv_obj_set_style pad_right (Num 4) LV_PART_MAIN LV_STATE_DEFAULT]
    [
      about_items_container_widget_1
    ].

Definition create_screen_about_screen_1 : widget :=
  W lv_obj None
    [lv_obj_set_pos (Px 0) (Px 0);
     lv_obj_set_size (Pct 100) (Pct 100);
     lv_obj_set_style pad_left (Num 0) LV_PART_MAIN LV_STATE_DEFAULT;
     lv_obj_set_style pad_top (Num 0) LV_PART_MAIN LV_STATE_DEFAULT;
     lv_obj_set_style pad_right (Num 0) LV_PART_MAIN LV_STATE_DEFAULT;
     lv_obj_set_style pad_bottom (Num 0) LV_PART_MAIN LV_STATE_DEFAULT;
     lv_obj_set_style bg_opa (Num 0) LV_PART_MAIN LV_STATE_DEFAULT;
     lv_obj_set_style border_width (Num 0) LV_PART_MAIN LV_STATE_DEFAULT;
     lv_obj_set_style radius (Num 0) LV_PART_MAIN LV_STATE_DEFAULT;
     lv_obj_clear_flag [LV_OBJ_FLAG_SCROLLABLE];
     add_style flex_start]
    [
      about_header_container_widget;
      about_items_container_widget
    ].

Definition create_screen_about_screen : widget :=
  W lv_obj (Some o_about_screen)
    [lv_obj_set_pos (Px 0) (Px 0);
     lv_obj_set_size (Px 300) (Px 240);
     lv_obj_add_event_cb action_about_screen_gesture LV_EVENT_GESTURE;
     add_style flex_screen_menu]
    [
      create_screen_about_screen_1
    ].

Definition status_header_container_widget : widget :=
  W lv_obj (Some o_status_header_container)
    [lv_obj_set_pos (Px 0) (Px 0);
     lv_obj_set_size (Pct 100) SizeContent;
     lv_obj_set_style pad_left (Num 0) LV_PART_MAIN LV_STATE_DEFAULT;
     lv_obj_set_style pad_top (Num 0) LV_PART_MAIN LV_STATE_DEFAULT;
     lv_obj_set_style pad_bottom (Num 0) LV_PART_MAIN LV_STATE_DEFAULT;
     lv_obj_set_style bg_opa (Num 0) LV_PART_MAIN LV_STATE_DEFAULT;
     lv_obj_set_style border_width (Num 0) LV_PART_MAIN LV_STATE_DEFAULT;
     lv_obj_set_style radius (Num 0) LV_PART_MAIN LV_STATE_DEFAULT;
     add_style flow_row_space_between;
     lv_obj_set_style pad_right (Num 4) LV_PART_MAIN LV_STATE_DEFAULT]
    [
      W lv_button None
        [lv_obj_set_pos (Px 0) (Px 0);
         lv_obj_set_size (Px 32) (Px 32);
         lv_obj_add_event_cb action_switch_to_menu LV_EVENT_CLICKED;
         add_style back_button]
        [
          W lv_image None
            [lv_obj_set_pos (Px (-1)) (Px 2);
             lv_obj_set_size SizeContent SizeContent;
             lv_image_set_src "img_back_caret"]
            []
        ];
      W lv_label None
        [lv_obj_set_pos (Pct 0) (Pct 0);
         lv_obj_set_size SizeContent SizeContent;
         add_style header_link;
         lv_label_set_text "Status"]
        []
    ].

Definition status_items_container_widget_1 : widget :=
  W lv_obj None
    [lv_obj_set_pos (Px 0) (Px 0);
     lv_obj_set_size (Pct 100) SizeContent;
     lv_obj_set_style pad_left (Num 0) LV_PART_MAIN LV_STATE_DEFAULT;
     lv_obj_set_style pad_top (Num 0) LV_PART_MAIN LV_STATE_DEFAULT;
     lv_obj_set_style pad_bottom (Num 0) LV_PART_MAIN LV_STATE_DEFAULT;
     lv_obj_set_style bg_opa (Num 0) LV_PART_MAIN LV_STATE_DEFAULT;
     lv_obj_set_style border_width (Num 0) LV_PART_MAIN LV_STATE_DEFAULT;
     lv_obj_set_style radius (Num 0) LV_PART_MAIN LV_STATE_DEFAULT;
     lv_obj_clear_flag [LV_OBJ_FLAG_SCROLLABLE];
     add_style flex_column_start;
     lv_obj_set_style pad_right (Num 10) LV_PART_MAIN LV_STATE_DEFAULT]
    [
      W lv_obj (Some o_device_id_container)
        [lv_obj_set_pos (Px 0) (Px 0);
         lv_obj_set_size (Pct 100) SizeContent;
         lv_obj_set_style pad_left (Num 0) LV_PART_MAIN LV_STATE_DEFAULT;
         lv_obj_set_style pad_top (Num 0) LV_PART_MAIN LV_STATE_DEFAULT;
         lv_obj_set_style pad_bottom (Num 0) LV_PART_MAIN LV_STATE_DEFAULT;
         lv_obj_set_style bg_opa (Num 0) LV_PART_MAIN LV_STATE_DEFAULT;
         lv_obj_set_style border_width (Num 0) LV_PART_MAIN LV_STATE_DEFAULT;
         lv_obj_set_style radius (Num 0) LV_PART_MAIN LV_STATE_DEFAULT;
         lv_obj_clear_flag [LV_OBJ_FLAG_SCROLLABLE];
         add_style flex_column_start;
         lv_obj_set_style pad_right (Num 10) LV_PART_MAIN LV_STATE_DEFAULT]
        [
          W lv_label None
            [lv_obj_set_pos (Px 0) (Px 0);
             lv_obj_set_size SizeContent SizeContent;
             add_style info_headline_label;
             lv_label_set_text "Device ID"]
            [];
          W lv_label (Some o_device_id)
            [lv_obj_set_pos (Px 0) (Px 0);
             lv_obj_set_size (Pct 100) SizeContent;
             add_style info_content_label;
             lv_label_set_text "64238c05ececc831"]
            []
        ];
      W lv_obj (Some o_cloud_account_id_container)
        [lv_obj_set_pos (Px 0) (Px 0);
         lv_obj_set_size (Pct 100) SizeContent;
         lv_obj_set_style pad_left (Num 0) LV_PART_MAIN LV_STATE_DEFAULT;
         lv_obj_set_style pad_top (Num 0) LV_PART_MAIN LV_STATE_DEFAULT;
         lv_obj_set_style pad_bottom (Num 0) LV_PART_MAIN LV_STATE_DEFAULT;
         lv_obj_set_style bg_opa (Num 0) LV_PART_MAIN LV_STATE_DEFAULT;
         lv_obj_set_style border_width (Num 0) LV_PART_MAIN LV_STATE_DEFAULT;
         lv_obj_set_style radius (Num 0) LV_PART_MAIN LV_STATE_DEFAULT;
         lv_obj_add_flag LV_OBJ_FLAG_HIDDEN;
         lv_obj_clear_flag [LV_OBJ_FLAG_SCROLLABLE];
         add_style flex_column_start;
         lv_obj_set_style pad_right (Num 10) LV_PART_MAIN LV_STATE_DEFAULT]
        [
          W lv_label None
            [lv_obj_set_pos (Px 0) (Px 0);
             lv_obj_set_size SizeContent SizeContent;
             add_style info_headline_label;
             lv_label_set_text "Cloud Account ID"]
            [];
          W lv_label (Some o_app_version_1)
            [lv_obj_set_pos (Px 0) (Px 0);
             lv_obj_set_size (Pct 100) SizeContent;
             add_style info_content_label;
             lv_label_set_text "12387612876312673dd"]
            []
        ];
      W lv_obj (Some o_cloud_domain_container)
        [lv_obj_set_pos (Px 0) (Px 0);
         lv_obj_set_size (Pct 100) SizeContent;
         lv_obj_set_style pad_left (Num 0) LV_PART_MAIN LV_STATE_DEFAULT;
         lv_obj_set_style pad_top (Num 0) LV_PART_MAIN LV_STATE_DEFAULT;
         lv_obj_set_style pad_bottom (Num 0) LV_PART_MAIN LV_STATE_DEFAULT;
         lv_obj_set_style bg_opa (Num 0) LV_PART_MAIN LV_STATE_DEFAULT;
         lv_obj_set_style border_width (Num 0) LV_PART_MAIN LV_STATE_DEFAULT;
         lv_obj_set_style radius (Num 0) LV_PART_MAIN LV_STATE_DEFAULT;
         lv_obj_clear_flag [LV_OBJ_FLAG_SCROLLABLE];
         add_style flex_column_start;
         lv_obj_set_style pad_right (Num 10) LV_PART_MAIN LV_STATE_DEFAULT]
        [
          W lv_label None
            [lv_obj_set_pos (Px 0) (Px 0);
             lv_obj_set_size SizeContent SizeContent;
             add_style info_headline_label;
             lv_label_set_text "Cloud Endpoint"]
            [];
          W lv_label (Some o_cloud_domain)
            [lv_obj_set_pos (Px 0) (Px 0);
             lv_obj_set_size (Pct 100) SizeContent;
             add_style info_content_label;
             lv_label_set_text "api.jetkvm.com"]
            []
        ]
    ].

Definition status_items_container_widget : widget :=
  W lv_obj (Some o_status_items_container)
    [lv_obj_set_pos (Px 0) (Px 0);
     lv_obj_set_size (Pct 100) (Pct 80);
     lv_obj_set_style pad_left (Num 0) LV_PART_MAIN LV_STATE_DEFAULT;
     lv_obj_set_style pad_top (Num 0) LV_PART_MAIN LV_STATE_DEFAULT;
     lv_obj_set_style pad_bottom (Num 0) LV_PART_MAIN LV_STATE_DEFAULT;
     lv_obj_set_style bg_opa (Num 0) LV_PART_MAIN LV_STATE_DEFAULT;
     lv_obj_set_style border_width (Num 0) LV_PART_MAIN LV_STATE_DEFAULT;
     lv_obj_set_style radius (Num 0) LV_PART_MAIN LV_STATE_DEFAULT;
     lv_obj_set_scrollbar_mode "LV_SCROLLBAR_MODE_AUTO";
     lv_obj_set_scroll_dir LV_DIR_VER;
     lv_obj_set_scroll_snap_x "LV_SCROLL_SNAP_START";
     add_style flex_column_start;
     lv_obj_set_style pad_right (Num 4) LV_PART_MAIN LV_STATE_DEFAULT]
    [
      status_items_container_widget_1
    ].

Definition create_screen_status_screen_1 : widget :=
  W lv_obj None
    [lv_obj_set_pos (Px 0) (Px 0);
     lv_obj_set_size (Pct 100) (Pct 100);
     lv_obj_set_style pad_left (Num 0) LV_PART_MAIN LV_STATE_DEFAULT;
     lv_obj_set_style pad_top (Num 0) LV_PART_MAIN LV_STATE_DEFAULT;
     lv_obj_set_style pad_right (Num 0) LV_PART_MAIN LV_STATE_DEFAULT;
     lv_obj_set_style pad_bottom (Num 0) LV_PART_MAIN LV_STATE_DEFAULT;
     lv_obj_set_style bg_opa (Num 0) LV_PART_MAIN LV_STATE_DEFAULT;
     lv_obj_set_style border_width (Num 0) LV_PART_MAIN LV_STATE_DEFAULT;
     lv_obj_set_style radius (Num 0) LV_PART_MAIN LV_STATE_DEFAULT;
     lv_obj_clear_flag [LV_OBJ_FLAG_SCROLLABLE];
     add_style flex_start]
    [
      status_header_container_widget;
      status_items_container_widget
    ].

Definition create_screen_status_screen : widget :=
  W lv_obj (Some o_status_screen)
    [lv_obj_set_pos (Px 0) (Px 0);
     lv_obj_set_size (Px 300) (Px 240);
     lv_obj_add_event_cb action_about_screen_gesture LV_EVENT_GESTURE;
     add_style flex_screen_menu]
    [
      create_screen_status_screen_1
    ].

Definition reset_config_header_widget : widget :=
  W lv_obj (Some o_reset_config_header)
    [lv_obj_set_pos (Px 0) (Px 0);
     lv_obj_set_size (Pct 100) SizeContent;
     lv_obj_set_style pad_left (Num 0) LV_PART_MAIN LV_STATE_DEFAULT;
     lv_obj_set_style pad_top (Num 0) LV_PART_MAIN LV_STATE_DEFAULT;
     lv_obj_set_style pad_bottom (Num 0) LV_PART_MAIN LV_STATE_DEFAULT;
     lv_obj_set_style bg_opa (Num 0) LV_PART_MAIN LV_STATE_DEFAULT;
     lv_obj_set_style border_width (Num 0) LV_PART_MAIN LV_STATE_DEFAULT;
     lv_obj_set_style radius (Num 0) LV_PART_MAIN LV_STATE_DEFAULT;
     add_style flow_row_space_between;
     lv_obj_set_style pad_right (Num 4) LV_PART_MAIN LV_STATE_DEFAULT]
    [
      W lv_button None
        [lv_obj_set_pos (Px 0) (Px 0);
         lv_obj_set_size (Px 32) (Px 32);
         lv_obj_add_event_cb action_switch_to_menu LV_EVENT_CLICKED;
         add_style back_button]
        [
          W lv_image None
            [lv_obj_set_pos (Px (-1)) (Px 2);
             lv_obj_set_size SizeContent SizeContent;
             lv_image_set_src "img_back_caret"]
            []
        ];
      W lv_label None
        [lv_obj_set_pos (Pct 0) (Pct 0);
         lv_obj_set_size SizeContent SizeContent;
         add_style header_link;
         lv_label_set_text "Reset Config"]
        []
    ].

Definition reset_config_container_widget : widget :=
  W lv_obj (Some o_reset_config_container)
    [lv_obj_set_pos (Px 0) (Px 0);
     lv_obj_set_size (Pct 100) (Pct 80);
     lv_obj_set_style pad_left (Num 0) LV_PART_MAIN LV_STATE_DEFAULT;
     lv_obj_set_style pad_top (Num 0) LV_PART_MAIN LV_STATE_DEFAULT;
     lv_obj_set_style pad_bottom (Num 0) LV_PART_MAIN LV_STATE_DEFAULT;
     lv_obj_set_style bg_opa (Num 0) LV_PART_MAIN LV_STATE_DEFAULT;
     lv_obj_set_style border_width (Num 0) LV_PART_MAIN LV_STATE_DEFAULT;
     lv_obj_set_style radius (Num 0) LV_PART_MAIN LV_STATE_DEFAULT;
     lv_obj_set_scrollbar_mode "LV_SCROLLBAR_MODE_AUTO";
     lv_obj_set_scroll_dir LV_DIR_VER;
     lv_obj_set_scroll_snap_x "LV_SCROLL_SNAP_START";
     add_style flex_column_start;
     lv_obj_set_style pad_right (Num 4) LV_PART_MAIN LV_STATE_DEFAULT]
    [
      W lv_obj None
        [lv_obj_set_pos (Px 0) (Px 0);
         lv_obj_set_size (Pct 100) SizeContent;
         lv_obj_set_style pad_left (Num 0) LV_PART_MAIN LV_STATE_DEFAULT;
         lv_obj_set_style pad_top (Num 0) LV_PART_MAIN LV_STATE_DEFAULT;
         lv_obj_set_style pad_bottom (Num 0) LV_PART_MAIN LV_STATE_DEFAULT;
         lv_obj_set_style bg_opa (Num 0) LV_PART_MAIN LV_STATE_DEFAULT;
         lv_obj_set_style border_width (Num 0) LV_PART_MAIN LV_STATE_DEFAULT;
         lv_obj_set_style radius (Num 0) LV_PART_MAIN LV_STATE_DEFAULT;
         lv_obj_clear_flag [LV_OBJ_FLAG_SCROLLABLE];
         add_style flex_column_start;
         lv_obj_set_style pad_right (Num 10) LV_PART_MAIN LV_STATE_DEFAULT]
        [
          W lv_obj (Some o_reset_config_label_container)
            [lv_obj_set_pos (Px 0) (Px 0);
             lv_obj_set_size (Pct 100) SizeContent;
             lv_obj_set_style bg_opa (Num 0) LV_PART_MAIN LV_STATE_DEFAULT;
             lv_obj_set_style border_width (Num 0) LV_PART_MAIN LV_STATE_DEFAULT;
             lv_obj_set_style radius (Num 0) LV_PART_MAIN LV_STATE_DEFAULT;
             lv_obj_clear_flag [LV_OBJ_FLAG_SCROLLABLE];
             add_style flex_column_start;
             lv_obj_set_style pad_right (Num 10) LV_PART_MAIN LV_STATE_DEFAULT;
             lv_obj_set_style pad_left (Num 10) LV_PART_MAIN LV_STATE_DEFAULT;
             lv_obj_set_style pad_top (Num 10) LV_PART_MAIN LV_STATE_DEFAULT;
             lv_obj_set_style pad_bottom (Num 10) LV_PART_MAIN LV_STATE_DEFAULT]
            [
              W lv_label (Some o_reset_config_label)
                [lv_obj_set_pos (Px 0) (Px 0);
                 lv_obj_set_size (Pct 100) SizeContent;
                 add_style info_content_label;
                 lv_obj_set_style text_font (Name "ui_font_font_book20") LV_PART_MAIN LV_STATE_DEFAULT;
                 lv_label_set_text ("Press and hold for" ++ newline ++ "10 seconds")%string]
                []
            ];
          W lv_obj (Some o_reset_config_spinner)
            [lv_obj_set_pos (Px 0) (Px 0);
             lv_obj_set_size (Pct 100) SizeContent;
             lv_obj_set_style pad_left (Num 0) LV_PART_MAIN LV_STATE_DEFAULT;
             lv_obj_set_style pad_top (Num 0) LV_PART_MAIN LV_STATE_DEFAULT;
             lv_obj_set_style pad_right (Num 0) LV_PART_MAIN LV_STATE_DEFAULT;
             lv_obj_set_style pad_bottom (Num 0) LV_PART_MAIN LV_STATE_DEFAULT;
             lv_obj_set_style bg_opa (Num 0) LV_PART_MAIN LV_STATE_DEFAULT;
             lv_obj_set_style border_width (Num 0) LV_PART_MAIN LV_STATE_DEFAULT;
             lv_obj_set_style radius (Num 0) LV_PART_MAIN LV_STATE_DEFAULT;
             lv_obj_add_flag LV_OBJ_FLAG_HIDDEN;
             lv_obj_clear_flag [LV_OBJ_FLAG_CLICKABLE; LV_OBJ_FLAG_SCROLLABLE];
             add_style flex_column_start;
             lv_obj_set_style flex_main_place (Name "LV_FLEX_ALIGN_CENTER") LV_PART_MAIN LV_STATE_DEFAULT;
             lv_obj_set_style flex_cross_place (Name "LV_FLEX_ALIGN_CENTER") LV_PART_MAIN LV_STATE_DEFAULT;
             lv_obj_set_style flex_track_place (Name "LV_FLEX_ALIGN_CENTER") LV_PART_MAIN LV_STATE_DEFAULT]
            [
              W lv_spinner None
                [lv_obj_set_pos (Px 0) (Px 0);
                 lv_obj_set_size (Px 80) (Px 80);
                 lv_spinner_set_anim_params 1000 60]
                []
            ];
          W lv_obj (Some o_reset_config_button)
            [lv_obj_set_pos (Px 0) (Px 0);
             lv_obj_set_size (Pct 100) SizeContent;
             lv_obj_set_style pad_left (Num 0) LV_PART_MAIN LV_STATE_DEFAULT;
             lv_obj_set_style pad_top (Num 0) LV_PART_MAIN LV_STATE_DEFAULT;
             lv_obj_set_style pad_right (Num 0) LV_PART_MAIN LV_STATE_DEFAULT;
             lv_obj_set_style pad_bottom (Num 0) LV_PART_MAIN LV_STATE_DEFAULT;
             lv_obj_set_style bg_opa (Num 0) LV_PART_MAIN LV_STATE_DEFAULT;
             lv_obj_set_style border_width (Num 0) LV_PART_MAIN LV_STATE_DEFAULT;
             lv_obj_set_style radius (Num 0) LV_PART_MAIN LV_STATE_DEFAULT;
             lv_obj_clear_flag [LV_OBJ_FLAG_SCROLLABLE];
             add_style flex_column_start]
            [
              W lv_button (Some o_obj0)
                [lv_obj_set_pos (Px 0) (Px 0);
                 lv_obj_set_size (Pct 100) (Px 50);
                 lv_obj_add_event_cb action_reset_config LV_EVENT_PRESSED;
                 lv_obj_add_event_cb action_reset_config LV_EVENT_PRESSING;
                 lv_obj_add_event_cb action_reset_config LV_EVENT_RELEASED;
                 lv_obj_set_style bg_color (Color 0xffdc2626) LV_PART_MAIN LV_STATE_DEFAULT;
                 lv_obj_set_style text_align (Name "LV_TEXT_ALIGN_LEFT") LV_PART_MAIN LV_STATE_DEFAULT;
                 lv_obj_set_style pad_right (Num 13) LV_PART_MAIN LV_STATE_DEFAULT]
                [
                  W lv_label None
                    [lv_obj_set_pos (Px 0) (Px 0);
                     lv_obj_set_size SizeContent SizeContent;
                     lv_obj_set_style align (Name "LV_ALIGN_CENTER") LV_PART_MAIN LV_STATE_DEFAULT;
                     lv_obj_set_style text_align (Name "LV_TEXT_ALIGN_LEFT") LV_PART_MAIN LV_STATE_DEFAULT;
                     lv_label_set_text "Reset configuration"]
                    []
                ]
            ]
        ]
    ].

Definition create_screen_reset_config_screen_1 : widget :=
  W lv_obj None
    [lv_obj_set_pos (Px 0) (Px 0);
     lv_obj_set_size (Pct 100) (Pct 100);
     lv_obj_set_style pad_left (Num 0) LV_PART_MAIN LV_STATE_DEFAULT;
     lv_obj_set_style pad_top (Num 0) LV_PART_MAIN LV_STATE_DEFAULT;
     lv_obj_set_style pad_right (Num 0) LV_PART_MAIN LV_STATE_DEFAULT;
     lv_obj_set_style pad_bottom (Num 0) LV_PART_MAIN LV_STATE_DEFAULT;
     lv_obj_set_style bg_opa (Num 0) LV_PART_MAIN LV_STATE_DEFAULT;
     lv_obj_set_style border_width (Num 0) LV_PART_MAIN LV_STATE_DEFAULT;
     lv_obj_set_style radius (Num 0) LV_PART_MAIN LV_STATE_DEFAULT;
     lv_obj_clear_flag [LV_OBJ_FLAG_SCROLLABLE];
     add_style flex_start]
    [
      reset_config_header_widget;
      reset_config_container_widget
    ].

Definition create_screen_reset_config_screen : widget :=
  W lv_obj (Some o_reset_config_screen)
    [lv_obj_set_pos (Px 0) (Px 0);
     lv_obj_set_size (Px 300) (Px 240);
     lv_obj_add_event_cb action_about_screen_gesture LV_EVENT_GESTURE;
     add_style flex_screen_menu]
    [
      create_screen_reset_config_screen_1
    ].

Definition reboot_header_widget : widget :=
  W lv_obj (Some o_reboot_header)
    [lv_obj_set_pos (Px 0) (Px 0);
     lv_obj_set_size (Pct 100) SizeContent;
     lv_obj_set_style pad_left (Num 0) LV_PART_MAIN LV_STATE_DEFAULT;
     lv_obj_set_style pad_top (Num 0) LV_PART_MAIN LV_STATE_DEFAULT;
     lv_obj_set_style pad_bottom (Num 0) LV_PART_MAIN LV_STATE_DEFAULT;
     lv_obj_set_style bg_opa (Num 0) LV_PART_MAIN LV_STATE_DEFAULT;
     lv_obj_set_style border_width (Num 0) LV_PART_MAIN LV_STATE_DEFAULT;
     lv_obj_set_style radius (Num 0) LV_PART_MAIN LV_STATE_DEFAULT;
     add_style flow_row_space_between;
     lv_obj_set_style pad_right (Num 4) LV_PART_MAIN LV_STATE_DEFAULT]
    [
      W lv_button None
        [lv_obj_set_pos (Px 0) (Px 0);
         lv_obj_set_size (Px 32) (Px 32);
         lv_obj_add_event_cb action_switch_to_menu LV_EVENT_CLICKED;
         add_style back_button]
        [
          W lv_image None
            [lv_obj_set_pos (Px (-1)) (Px 2);
             lv_obj_set_size SizeContent SizeContent;
             lv_image_set_src "img_back_caret"]
            []
        ];
      W lv_label None
        [lv_obj_set_pos (Pct 0) (Pct 0);
         lv_obj_set_size SizeContent SizeContent;
         add_style header_link;
         lv_label_set_text "Reboot Device"]
        []
    ].

Definition reboot_container_widget : widget :=
  W lv_obj (Some o_reboot_container)
    [lv_obj_set_pos (Px 0) (Px 0);
     lv_obj_set_size (Pct 100) (Pct 80);
     lv_obj_set_style pad_left (Num 0) LV_PART_MAIN LV_STATE_DEFAULT;
     lv_obj_set_style pad_top (Num 0) LV_PART_MAIN LV_STATE_DEFAULT;
     lv_obj_set_style pad_bottom (Num 0) LV_PART_MAIN LV_STATE_DEFAULT;
     lv_obj_set_style bg_opa (Num 0) LV_PART_MAIN LV_STATE_DEFAULT;
     lv_obj_set_style border_width (Num 0) LV_PART_MAIN LV_STATE_DEFAULT;
     lv_obj_set_style radius (Num 0) LV_PART_MAIN LV_STATE_DEFAULT;
     lv_obj_set_scrollbar_mode "LV_SCROLLBAR_MODE_AUTO";
     lv_obj_set_scroll_dir LV_DIR_VER;
     lv_obj_set_scroll_snap_x "LV_SCROLL_SNAP_START";
     add_style flex_column_start;
     lv_obj_set_style pad_right (Num 4) LV_PART_MAIN LV_STATE_DEFAULT]
    [
      W lv_obj None
        [lv_obj_set_pos (Px 0) (Px 0);
         lv_obj_set_size (Pct 100) SizeContent;
         lv_obj_set_style pad_left (Num 0) LV_PART_MAIN LV_STATE_DEFAULT;
         lv_obj_set_style pad_top (Num 0) LV_PART_MAIN LV_STATE_DEFAULT;
         lv_obj_set_style pad_bottom (Num 0) LV_PART_MAIN LV_STATE_DEFAULT;
         lv_obj_set_style bg_opa (Num 0) LV_PART_MAIN LV_STATE_DEFAULT;
         lv_obj_set_style border_width (Num 0) LV_PART_MAIN LV_STATE_DEFAULT;
         lv_obj_set_style radius (Num 0) LV_PART_MAIN LV_STATE_DEFAULT;
         lv_obj_clear_flag [LV_OBJ_FLAG_SCROLLABLE];
         add_style flex_column_start;
         lv_obj_set_style pad_right (Num 10) LV_PART_MAIN LV_STATE_DEFAULT]
        [
          W lv_obj (Some o_reboot_label_container)
            [lv_obj_set_pos (Px 0) (Px 0);
             lv_obj_set_size (Pct 100) SizeContent;
             lv_obj_set_style bg_opa (Num 0) LV_PART_MAIN LV_STATE_DEFAULT;
             lv_obj_set_style border_width (Num 0) LV_PART_MAIN LV_STATE_DEFAULT;
             lv_obj_set_style radius (Num 0) LV_PART_MAIN LV_STATE_DEFAULT;
             lv_obj_clear_flag [LV_OBJ_FLAG_SCROLLABLE];
             add_style flex_column_start;
             lv_obj_set_style pad_right (Num 10) LV_PART_MAIN LV_STATE_DEFAULT;
             lv_obj_set_style pad_left (Num 10) LV_PART_MAIN LV_STATE_DEFAULT;
             lv_obj_set_style pad_top (Num 10) LV_PART_MAIN LV_STATE_DEFAULT;
             lv_obj_set_style pad_bottom (Num 10) LV_PART_MAIN LV_STATE_DEFAULT]
            [
              W lv_label (Some o_reboot_label)
                [lv_obj_set_pos (Px 0) (Px 0);
                 lv_obj_set_size (Pct 100) SizeContent;
                 add_style info_content_label;
                 lv_obj_set_style text_font (Name "ui_font_font_book20") LV_PART_MAIN LV_STATE_DEFAULT;
                 lv_label_set_text ("Press and hold for" ++ newline ++ "5 seconds")%string]
                []
            ];
          W lv_obj (Some o_reboot_config_button)
            [lv_obj_set_pos (Px 0) (Px 0);
             lv_obj_set_size (Pct 100) SizeContent;
             lv_obj_set_style pad_left (Num 0) LV_PART_MAIN LV_STATE_DEFAULT;
             lv_obj_set_style pad_top (Num 0) LV_PART_MAIN LV_STATE_DEFAULT;
             lv_obj_set_style pad_right (Num 0) LV_PART_MAIN LV_STATE_DEFAULT;
             lv_obj_set_style pad_bottom (Num 0) LV_PART_MAIN LV_STATE_DEFAULT;
             lv_obj_set_style bg_opa (Num 0) LV_PART_MAIN LV_STATE_DEFAULT;
             lv_obj_set_style border_width (Num 0) LV_PART_MAIN LV_STATE_DEFAULT;
             lv_obj_set_style radius (Num 0) LV_PART_MAIN LV_STATE_DEFAULT;
             lv_obj_clear_flag [LV_OBJ_FLAG_SCROLLABLE];
             add_style flex_column_start]
            [
              W lv_button (Some o_obj1)
                [lv_obj_set_pos (Px 0) (Px 0);
                 lv_obj_set_size (Pct 100) (Px 50);
                 lv_obj_add_event_cb action_reboot LV_EVENT_PRESSED;
                 lv_obj_add_event_cb action_reboot LV_EVENT_PRESSING;
                 lv_obj_add_event_cb action_reboot LV_EVENT_RELEASED;
                 lv_obj_set_style bg_color (Color 0xffdc2626) LV_PART_MAIN LV_STATE_DEFAULT;
                 lv_obj_set_style text_align (Name "LV_TEXT_ALIGN_LEFT") LV_PART_MAIN LV_STATE_DEFAULT;
                 lv_obj_set_style pad_right (Num 13) LV_PART_MAIN LV_STATE_DEFAULT]
                [
                  W lv_label None
                    [lv_obj_set_pos (Px 0) (Px 0);
                     lv_obj_set_size SizeContent SizeContent;
                     lv_obj_set_style align (Name "LV_ALIGN_CENTER") LV_PART_MAIN LV_STATE_DEFAULT;
                     lv_obj_set_style text_align (Name "LV_TEXT_ALIGN_LEFT") LV_PART_MAIN LV_STATE_DEFAULT;
                     lv_label_set_text "Hold to reboot"]
                    []
                ]
            ]
        ]
    ].

Definition create_screen_reboot_screen_1 : widget :=
  W lv_obj None
    [lv_obj_set_pos (Px 0) (Px 0);
     lv_obj_set_size (Pct 100) (Pct 100);
     lv_obj_set_style pad_left (Num 0) LV_PART_MAIN LV_STATE_DEFAULT;
     lv_obj_set_style pad_top (Num 0) LV_PART_MAIN LV_STATE_DEFAULT;
     lv_obj_set_style pad_right (Num 0) LV_PART_MAIN LV_STATE_DEFAULT;
     lv_obj_set_style pad_bottom (Num 0) LV_PART_MAIN LV_STATE_DEFAULT;
     lv_obj_set_style bg_opa (Num 0) LV_PART_MAIN LV_STATE_DEFAULT;
     lv_obj_set_style border_width (Num 0) LV_PART_MAIN LV_STATE_DEFAULT;
     lv_obj_set_style radius (Num 0) LV_PART_MAIN LV_STATE_DEFAULT;
     lv_obj_clear_flag [LV_OBJ_FLAG_SCROLLABLE];
     add_style flex_start]
    [
      reboot_header_widget;
      reboot_container_widget
    ].

Definition create_screen_reboot_screen : widget :=
  W lv_obj (Some o_reboot_screen)
    [lv_obj_set_pos (Px 0) (Px 0);
     lv_obj_set_size (Px 300) (Px 240);
     lv_obj_add_event_cb action_about_screen_gesture LV_EVENT_GESTURE;
     add_style flex_screen_menu]
    [
      create_screen_reboot_screen_1
    ].

Definition create_screen_rebooting_screen : widget :=
  W lv_obj (Some o_rebooting_screen)
    [lv_obj_set_pos (Px 0) (Px 0);
     lv_obj_set_size (Px 300) (Px 240);
     add_style flex_column_space_between;
     lv_obj_set_style bg_color (Color 0xff000000) LV_PART_MAIN LV_STATE_DEFAULT]
    [
      W lv_obj None
        [lv_obj_set_pos (Px 0) (Px 0);
         lv_obj_set_size (Pct 100) (Pct 100);
         lv_obj_set_style pad_left (Num 0) LV_PART_MAIN LV_STATE_DEFAULT;
         lv_obj_set_style pad_top (Num 0) LV_PART_MAIN LV_STATE_DEFAULT;
         lv_obj_set_style pad_right (Num 0) LV_PART_MAIN LV_STATE_DEFAULT;
         lv_obj_set_style pad_bottom (Num 0) LV_PART_MAIN LV_STATE_DEFAULT;
         lv_obj_set_style bg_opa (Num 0) LV_PART_MAIN LV_STATE_DEFAULT;
         lv_obj_set_style border_width (Num 0) LV_PART_MAIN LV_STATE_DEFAULT;
         lv_obj_set_style radius (Num 0) LV_PART_MAIN LV_STATE_DEFAULT;
         add_style flex_start]
        [
          W lv_obj None
            [lv_obj_set_pos (Px 0) (Px 0);
             lv_obj_set_size (Pct 100) (Pct 100);
             lv_obj_set_style pad_left (Num 0) LV_PART_MAIN LV_STATE_DEFAULT;
             lv_obj_set_style pad_top (Num 0) LV_PART_MAIN LV_STATE_DEFAULT;
             lv_obj_set_style pad_right (Num 0) LV_PART_MAIN LV_STATE_DEFAULT;
             lv_obj_set_style pad_bottom (Num 0) LV_PART_MAIN LV_STATE_DEFAULT;
             lv_obj_set_style bg_opa (Num 0) LV_PART_MAIN LV_STATE_DEFAULT;
             lv_obj_set_style border_width (Num 0) LV_PART_MAIN LV_STATE_DEFAULT;
             lv_obj_set_style radius (Num 0) LV_PART_MAIN LV_STATE_DEFAULT;
             add_style flex_center]
            [
              W lv_image (Some o_reboot_in_progress_logo)
                [lv_obj_set_pos (Px 0) (Px 0);
                 lv_obj_set_size SizeContent SizeContent;
                 lv_image_set_src "img_boot_logo_2";
                 lv_obj_set_style transform_width (Num 174) LV_PART_MAIN LV_STATE_DEFAULT;
                 lv_obj_set_style transform_height (Num 49) LV_PART_MAIN LV_STATE_DEFAULT]
                [];
              W lv_label (Some o_reboot_in_progress_label)
                [lv_obj_set_pos (Pct 0) (Pct 0);
                 lv_obj_set_size SizeContent SizeContent;
                 add_style label_font16;
                 lv_obj_set_style text_align (Name "LV_TEXT_ALIGN_CENTER") LV_PART_MAIN LV_STATE_DEFAULT;
                 lv_obj_set_style text_font (Name "ui_font_font_book16") LV_PART_MAIN LV_STATE_DEFAULT;
                 lv_label_set_text "Rebooting device ..."]
                []
            ]
        ]
    ].

Definition dhcp_client_header_widget : widget :=
  W lv_obj (Some o_dhcp_client_header)
    [lv_obj_set_pos (Px 0) (Px 0);
     lv_obj_set_size (Pct 100) SizeContent;
     lv_obj_set_style pad_left (Num 0) LV_PART_MAIN LV_STATE_DEFAULT;
     lv_obj_set_style pad_top (Num 0) LV_PART_MAIN LV_STATE_DEFAULT;
     lv_obj_set_style pad_bottom (Num 0) LV_PART_MAIN LV_STATE_DEFAULT;
     lv_obj_set_style bg_opa (Num 0) LV_PART_MAIN LV_STATE_DEFAULT;
     lv_obj_set_style border_width (Num 0) LV_PART_MAIN LV_STATE_DEFAULT;
     lv_obj_set_style radius (Num 0) LV_PART_MAIN LV_STATE_DEFAULT;
     add_style flow_row_space_between;
     lv_obj_set_style pad_right (Num 4) LV_PART_MAIN LV_STATE_DEFAULT]
    [
      W lv_button None
        [lv_obj_set_pos (Px 0) (Px 0);
         lv_obj_set_size (Px 32) (Px 32);
         lv_obj_add_event_cb action_switch_to_menu LV_EVENT_CLICKED;
         add_style back_button]
        [
          W lv_image None
            [lv_obj_set_pos (Px (-1)) (Px 2);
             lv_obj_set_size SizeContent SizeContent;
             lv_image_set_src "img_back_caret"]
            []
        ];
      W lv_label None
        [lv_obj_set_pos (Pct 0) (Pct 0);
         lv_obj_set_size SizeContent SizeContent;
         add_style header_link;
         lv_label_set_text "DHCP Client"]
        []
    ].

Definition dhcp_client_container_widget : widget :=
  W lv_obj (Some o_dhcp_client_container)
    [lv_obj_set_pos (Px 0) (Px 0);
     lv_obj_set_size (Pct 100) (Pct 80);
     lv_obj_set_style pad_left (Num 0) LV_PART_MAIN LV_STATE_DEFAULT;
     lv_obj_set_style pad_top (Num 0) LV_PART_MAIN LV_STATE_DEFAULT;
     lv_obj_set_style pad_bottom (Num 0) LV_PART_MAIN LV_STATE_DEFAULT;
     lv_obj_set_style bg_opa (Num 0) LV_PART_MAIN LV_STATE_DEFAULT;
     lv_obj_set_style border_width (Num 0) LV_PART_MAIN LV_STATE_DEFAULT;
     lv_obj_set_style radius (Num 0) LV_PART_MAIN LV_STATE_DEFAULT;
     lv_obj_set_scrollbar_mode "LV_SCROLLBAR_MODE_AUTO";
     lv_obj_set_scroll_dir LV_DIR_VER;
     lv_obj_set_scroll_snap_x "LV_SCROLL_SNAP_START";
     add_style flex_column_start;
     lv_obj_set_style pad_right (Num 4) LV_PART_MAIN LV_STATE_DEFAULT]
    [
      W lv_obj None
        [lv_obj_set_pos (Px 0) (Px 0);
         lv_obj_set_size (Pct 100) SizeContent;
         lv_obj_set_style pad_left (Num 0) LV_PART_MAIN LV_STATE_DEFAULT;
         lv_obj_set_style pad_top (Num 0) LV_PART_MAIN LV_STATE_DEFAULT;
         lv_obj_set_style pad_bottom (Num 0) LV_PART_MAIN LV_STATE_DEFAULT;
         lv_obj_set_style bg_opa (Num 0) LV_PART_MAIN LV_STATE_DEFAULT;
         lv_obj_set_style border_width (Num 0) LV_PART_MAIN LV_STATE_DEFAULT;
         lv_obj_set_style radius (Num 0) LV_PART_MAIN LV_STATE_DEFAULT;
         lv_obj_clear_flag [LV_OBJ_FLAG_SCROLLABLE];
         add_style flex_column_start;
         lv_obj_set_style pad_right (Num 10) LV_PART_MAIN LV_STATE_DEFAULT]
        [
          W lv_obj (Some o_dhcp_client_label_container)
            [lv_obj_set_pos (Px 0) (Px 0);
             lv_obj_set_size (Pct 100) SizeContent;
             lv_obj_set_style bg_opa (Num 0) LV_PART_MAIN LV_STATE_DEFAULT;
             lv_obj_set_style border_width (Num 0) LV_PART_MAIN LV_STATE_DEFAULT;
             lv_obj_set_style radius (Num 0) LV_PART_MAIN LV_STATE_DEFAULT;
             lv_obj_clear_flag [LV_OBJ_FLAG_SCROLLABLE];
             add_style flex_column_start;
             lv_obj_set_style pad_right (Num 10) LV_PART_MAIN LV_STATE_DEFAULT;
             lv_obj_set_style pad_left (Num 10) LV_PART_MAIN LV_STATE_DEFAULT;
             lv_obj_set_style pad_top (Num 10) LV_PART_MAIN LV_STATE_DEFAULT;
             lv_obj_set_style pad_bottom (Num 10) LV_PART_MAIN LV_STATE_DEFAULT]
            [
              W lv_label (Some o_dhcpc_label)
                [lv_obj_set_pos (Px 0) (Px 0);
                 lv_obj_set_size (Pct 100) SizeContent;
                 add_style info_content_label;
                 lv_obj_set_style text_font (Name "ui_font_font_book20") LV_PART_MAIN LV_STATE_DEFAULT;
                 lv_label_set_text ("Press and hold for" ++ newline ++ "5 seconds")%string]
                []
            ];
          W lv_obj (Some o_dhcp_client_spinner)
            [lv_obj_set_pos (Px 0) (Px 0);
             lv_obj_set_size (Pct 100) SizeContent;
             lv_obj_set_style pad_left (Num 0) LV_PART_MAIN LV_STATE_DEFAULT;
             lv_obj_set_style pad_top (Num 0) LV_PART_MAIN LV_STATE_DEFAULT;
             lv_obj_set_style pad_right (Num 0) LV_PART_MAIN LV_STATE_DEFAULT;
             lv_obj_set_style pad_bottom (Num 0) LV_PART_MAIN LV_STATE_DEFAULT;
             lv_obj_set_style bg_opa (Num 0) LV_PART_MAIN LV_STATE_DEFAULT;
             lv_obj_set_style border_width (Num 0) LV_PART_MAIN LV_STATE_DEFAULT;
             lv_obj_set_style radius (Num 0) LV_PART_MAIN LV_STATE_DEFAULT;
             lv_obj_add_flag LV_OBJ_FLAG_HIDDEN;
             lv_obj_clear_flag [LV_OBJ_FLAG_CLICKABLE; LV_OBJ_FLAG_SCROLLABLE];
             add_style flex_column_start;
             lv_obj_set_style flex_main_place (Name "LV_FLEX_ALIGN_CENTER") LV_PART_MAIN LV_STATE_DEFAULT;
             lv_obj_set_style flex_cross_place (Name "LV_FLEX_ALIGN_CENTER") LV_PART_MAIN LV_STATE_DEFAULT;
             lv_obj_set_style flex_track_place (Name "LV_FLEX_ALIGN_CENTER") LV_PART_MAIN LV_STATE_DEFAULT]
            [
              W lv_spinner None
                [lv_obj_set_pos (Px 0) (Px 0);
                 lv_obj_set_size (Px 80) (Px 80);
                 lv_spinner_set_anim_params 1000 60]
                []
            ];
          W lv_obj (Some o_dhcp_client_button)
            [lv_obj_set_pos (Px 0) (Px 0);
             lv_obj_set_size (Pct 100) SizeContent;
             lv_obj_set_style pad_left (Num 0) LV_PART_MAIN LV_STATE_DEFAULT;
             lv_obj_set_style pad_top (Num 0) LV_PART_MAIN LV_STATE_DEFAULT;
             lv_obj_set_style pad_right (Num 0) LV_PART_MAIN LV_STATE_DEFAULT;
             lv_obj_set_style pad_bottom (Num 0) LV_PART_MAIN LV_STATE_DEFAULT;
             lv_obj_set_style bg_opa (Num 0) LV_PART_MAIN LV_STATE_DEFAULT;
             lv_obj_set_style border_width (Num 0) LV_PART_MAIN LV_STATE_DEFAULT;
             lv_obj_set_style radius (Num 0) LV_PART_MAIN LV_STATE_DEFAULT;
             lv_obj_clear_flag [LV_OBJ_FLAG_SCROLLABLE];
             add_style flex_column_start]
            [
              W lv_button (Some o_obj2)
                [lv_obj_set_pos (Px 0) (Px 0);
                 lv_obj_set_size (Pct 100) (Px 50);
                 lv_obj_add_event_cb action_dhcpc LV_EVENT_PRESSED;
                 lv_obj_add_event_cb action_dhcpc LV_EVENT_PRESSING;
                 lv_obj_add_event_cb action_dhcpc LV_EVENT_RELEASED;
                 lv_obj_set_style bg_color (Color 0xffdc2626) LV_PART_MAIN LV_STATE_DEFAULT;
                 lv_obj_set_style text_align (Name "LV_TEXT_ALIGN_LEFT") LV_PART_MAIN LV_STATE_DEFAULT;
                 lv_obj_set_style pad_right (Num 13) LV_PART_MAIN LV_STATE_DEFAULT]
                [
                  W lv_label (Some o_dhcp_client_change_label)
                    [lv_obj_set_pos (Px 0) (Px 0);
                     lv_obj_set_size SizeContent SizeContent;
                     lv_obj_set_style align (Name "LV_ALIGN_CENTER") LV_PART_MAIN LV_STATE_DEFAULT;
                     lv_obj_set_style text_align (Name "LV_TEXT_ALIGN_LEFT") LV_PART_MAIN LV_STATE_DEFAULT;
                     lv_label_set_text "Switch to udhcpc"]
                    []
                ]
            ]
        ]
    ].

Definition create_screen_switch_dhcp_client_screen_1 : widget :=
  W lv_obj None
    [lv_obj_set_pos (Px 0) (Px 0);
     lv_obj_set_size (Pct 100) (Pct 100);
     lv_obj_set_style pad_left (Num 0) LV_PART_MAIN LV_STATE_DEFAULT;
     lv_obj_set_style pad_top (Num 0) LV_PART_MAIN LV_STATE_DEFAULT;
     lv_obj_set_style pad_right (Num 0) LV_PART_MAIN LV_STATE_DEFAULT;
     lv_obj_set_style pad_bottom (Num 0) LV_PART_MAIN LV_STATE_DEFAULT;
     lv_obj_set_style bg_opa (Num 0) LV_PART_MAIN LV_STATE_DEFAULT;
     lv_obj_set_style border_width (Num 0) LV_PART_MAIN LV_STATE_DEFAULT;
     lv_obj_set_style radius (Num 0) LV_PART_MAIN LV_STATE_DEFAULT;
     lv_obj_clear_flag [LV_OBJ_FLAG_SCROLLABLE];
     add_style flex_start]
    [
      dhcp_client_header_widget;
      dhcp_client_container_widget
    ].

Definition create_screen_switch_dhcp_client_screen : widget :=
  W lv_obj (Some o_switch_dhcp_client_screen)
    [lv_obj_set_pos (Px 0) (Px 0);
     lv_obj_set_size (Px 300) (Px 240);
     lv_obj_add_event_cb action_about_screen_gesture LV_EVENT_GESTURE;
     add_style flex_screen_menu]
    [
      create_screen_switch_dhcp_client_screen_1
    ].

(** The screens in the order [create_screens] creates them. *)
Definition screen_widgets : list widget :=
  [create_screen_boot_screen;
   create_screen_no_network_screen;
   create_screen_home_screen;
   create_screen_menu_screen;
   create_screen_menu_advanced_screen;
   create_screen_menu_network_screen;
   create_screen_about_screen;
   create_screen_status_screen;
   create_screen_reset_config_screen;
   create_screen_reboot_screen;
   create_screen_rebooting_screen;
   create_screen_switch_dhcp_client_screen].
