(* ===== verification/Ui.v ===== *)
(** * The user interface's code

    src/internal/native/eez/src/ui/{ui,vars,actions,screens}.c, the UI half of
    src/internal/native/cgo/{screen,ctrl}.c, over any LVGL ([Lvgl]).  The globals
    of these files are the record [ust]; a function is a computation [ui] on it
    that fails where the C code would dereference a bad pointer or run past an
    array.  The index tables ([ui_objects], [ui_styles], [ui_vars]) are generated
    by the build from the headers and are parameters. *)
From stdpp Require Import functions.
From S2P Require Import Prelude Lvgl UiStyles UiScreens.

(** ** State *)

(** The three hold-to-confirm buttons of actions.c, and the statics of each. *)
Inductive hold := hold_reset_config | hold_dhcpc | hold_reboot.
#[export] Instance hold_eq_dec : EqDecision hold.
Proof. solve_decision. Defined.
Record hold_state := HoldState { start_time : Z; completed : bool; lock : bool }.

Inductive lv_disp_rotation := LV_DISP_ROTATION_0 | LV_DISP_ROTATION_90
  | LV_DISP_ROTATION_180 | LV_DISP_ROTATION_270.

(** What the interface tells the outside, in order: RPCs, and log messages
    ([log_info], [log_warn], [log_error]; the trace messages are compiled out). *)
Inductive ui_log := UiInfo | UiWarn | UiError.
Inductive ui_output :=
| OutRpc (method : string)
| OutLog (m : ui_log) (file func : string) (line : Z) (message : string).

Record ust (L : Type) := Ust {
  u_lv : L;
  objects : field → Z;
  styles : style_table;
  currentScreen : Z;                        (* ui.c, int16_t *)
  app_version : list ascii;                 (* char[100] *)
  system_version : list ascii;              (* char[100] *)
  lvgl_version : list ascii;                (* char[32] *)
  main_screen : list ascii;                 (* char[32] *)
  ui_rpc_handler : bool;                    (* not NULL *)
  u_out : list ui_output;                   (* first one first *)
  holds : hold → hold_state;
  u_tick : Z;                               (* lv_tick_get() *)
  current_rotation : Z;                     (* screen.c, u_int16_t *)
  display_rotation : lv_disp_rotation;      (* of the display *)
  touch_indev : option (Z * Z * Z * Z)      (* the touchscreen and its calibration *)
}.
Arguments Ust {L}.
Arguments u_lv {L}. Arguments objects {L}. Arguments styles {L}. Arguments currentScreen {L}.
Arguments app_version {L}. Arguments system_version {L}. Arguments lvgl_version {L}.
Arguments main_screen {L}. Arguments ui_rpc_handler {L}. Arguments u_out {L}.
Arguments holds {L}. Arguments u_tick {L}. Arguments current_rotation {L}.
Arguments display_rotation {L}. Arguments touch_indev {L}.

Section setters.
Context {L : Type}.
Implicit Type s : ust L.
Definition set_lv (x : L) s := Ust x (objects s) (styles s) (currentScreen s) (app_version s) (system_version s) (lvgl_version s) (main_screen s) (ui_rpc_handler s) (u_out s) (holds s) (u_tick s) (current_rotation s) (display_rotation s) (touch_indev s).
Definition set_objects x s := Ust (u_lv s) x (styles s) (currentScreen s) (app_version s) (system_version s) (lvgl_version s) (main_screen s) (ui_rpc_handler s) (u_out s) (holds s) (u_tick s) (current_rotation s) (display_rotation s) (touch_indev s).
Definition set_styles x s := Ust (u_lv s) (objects s) x (currentScreen s) (app_version s) (system_version s) (lvgl_version s) (main_screen s) (ui_rpc_handler s) (u_out s) (holds s) (u_tick s) (current_rotation s) (display_rotation s) (touch_indev s).
Definition set_currentScreen x s := Ust (u_lv s) (objects s) (styles s) x (app_version s) (system_version s) (lvgl_version s) (main_screen s) (ui_rpc_handler s) (u_out s) (holds s) (u_tick s) (current_rotation s) (display_rotation s) (touch_indev s).
Definition set_app_version x s := Ust (u_lv s) (objects s) (styles s) (currentScreen s) x (system_version s) (lvgl_version s) (main_screen s) (ui_rpc_handler s) (u_out s) (holds s) (u_tick s) (current_rotation s) (display_rotation s) (touch_indev s).
Definition set_system_version x s := Ust (u_lv s) (objects s) (styles s) (currentScreen s) (app_version s) x (lvgl_version s) (main_screen s) (ui_rpc_handler s) (u_out s) (holds s) (u_tick s) (current_rotation s) (display_rotation s) (touch_indev s).
Definition set_lvgl_version x s := Ust (u_lv s) (objects s) (styles s) (currentScreen s) (app_version s) (system_version s) x (main_screen s) (ui_rpc_handler s) (u_out s) (holds s) (u_tick s) (current_rotation s) (display_rotation s) (touch_indev s).
Definition set_main_screen x s := Ust (u_lv s) (objects s) (styles s) (currentScreen s) (app_version s) (system_version s) (lvgl_version s) x (ui_rpc_handler s) (u_out s) (holds s) (u_tick s) (current_rotation s) (display_rotation s) (touch_indev s).
Definition set_rpc_handler x s := Ust (u_lv s) (objects s) (styles s) (currentScreen s) (app_version s) (system_version s) (lvgl_version s) (main_screen s) x (u_out s) (holds s) (u_tick s) (current_rotation s) (display_rotation s) (touch_indev s).
Definition set_out x s := Ust (u_lv s) (objects s) (styles s) (currentScreen s) (app_version s) (system_version s) (lvgl_version s) (main_screen s) (ui_rpc_handler s) x (holds s) (u_tick s) (current_rotation s) (display_rotation s) (touch_indev s).
Definition set_holds x s := Ust (u_lv s) (objects s) (styles s) (currentScreen s) (app_version s) (system_version s) (lvgl_version s) (main_screen s) (ui_rpc_handler s) (u_out s) x (u_tick s) (current_rotation s) (display_rotation s) (touch_indev s).
Definition set_tick x s := Ust (u_lv s) (objects s) (styles s) (currentScreen s) (app_version s) (system_version s) (lvgl_version s) (main_screen s) (ui_rpc_handler s) (u_out s) (holds s) x (current_rotation s) (display_rotation s) (touch_indev s).
Definition set_rotation x s := Ust (u_lv s) (objects s) (styles s) (currentScreen s) (app_version s) (system_version s) (lvgl_version s) (main_screen s) (ui_rpc_handler s) (u_out s) (holds s) (u_tick s) x (display_rotation s) (touch_indev s).
Definition set_display x s := Ust (u_lv s) (objects s) (styles s) (currentScreen s) (app_version s) (system_version s) (lvgl_version s) (main_screen s) (ui_rpc_handler s) (u_out s) (holds s) (u_tick s) (current_rotation s) x (touch_indev s).
Definition set_touch x s := Ust (u_lv s) (objects s) (styles s) (currentScreen s) (app_version s) (system_version s) (lvgl_version s) (main_screen s) (ui_rpc_handler s) (u_out s) (holds s) (u_tick s) (current_rotation s) (display_rotation s) x.
End setters.

(** The RPC methods called. *)
Definition out_rpc (o : ui_output) : option string :=
  match o with OutRpc m => Some m | OutLog _ _ _ _ _ => None end.
Definition u_rpcs {L} (s : ust L) : list string := omap out_rpc (u_out s).

(** ** Computations *)

Definition ui (L A : Type) : Type := ust L → option (A * ust L).

#[export] Instance ui_mret {L} : MRet (ui L) := λ A a s, Some (a, s).
#[export] Instance ui_mbind {L} : MBind (ui L) := λ A B f m s,
  match m s with
  | Some (a, s') => f a s'
  | None => None
  end.

#[export] Instance ui_fmap {L} : FMap (ui L) := λ A B f m s,
  match m s with
  | Some (a, s') => Some (f a, s')
  | None => None
  end.

Definition get {L} : ui L (ust L) := λ s, Some (s, s).
Definition modify {L} (f : ust L → ust L) : ui L unit := λ s, Some (tt, f s).
Definition crash {L A} : ui L A := λ _, None.
Definition put {L} (o : ui_output) : ui L unit := modify (λ s, set_out (u_out s ++ [o]) s).
(** The macros of log.h: the message is printed into 1024 bytes without a bound. *)
Definition log {L} (m : ui_log) (file func : string) (line : Z) (message : string) : ui L unit :=
  if strlen message <? 1024 then put (OutLog m file func line message) else crash.
Definition ui_when {L} (b : bool) (m : ui L unit) : ui L unit := if b then m else mret tt.

Section ui.
Context {L : Type} `{!Lvgl L}.
#[local] Abbreviation ui := (ui L).

(** ** LVGL calls; an object that does not exist is a bad pointer *)

Definition live (o : Z) : ui view :=
  s ← get; match lv_view (u_lv s) o with Some v => mret v | None => crash end.

Definition create (k : wkind) (parent : Z) : ui Z :=
  s ← get; let '(o, l) := lv_create k parent (u_lv s) in modify (set_lv l);; mret o.

(** A configuration call, of an object of the right kind. Adding or removing one of
    the styles of styles.c asks for the style object first. *)
Definition configure (a : attr) (o : Z) : ui unit :=
  v ← live o;
  if negb (kind_ok a (v_kind v)) then crash
  else
    s ← get;
    match a with
    | add_style st | remove_style st => modify (set_styles (get_style st (styles s)).2)
    | _ => mret tt
    end;;
    modify (λ s, set_lv (lv_set a o (u_lv s)) s).

Definition label_get_text (o : Z) : ui string :=
  v ← live o;
  if bool_decide (v_kind v = lv_label) then mret (v_text v) else crash.

Definition scr_load (o : Z) : ui unit :=
  v ← live o;
  if is_screen v then modify (λ s, set_lv (lv_scr_load o (u_lv s)) s) else crash.

(** ** vars.c *)

(** [strncpy(dst, value, sizeof dst); dst[sizeof dst - 1] = 0;] *)
Definition copy_var (n : nat) (value : string) : list ascii :=
  <[(n - 1)%nat := NUL]> (strncpy n (chars value)).

Definition read_var (buf : list ascii) : ui string :=
  match cstr buf with Some l => mret (text l) | None => crash end.

Definition get_var_app_version : ui string := s ← get; read_var (app_version s).
Definition get_var_system_version : ui string := s ← get; read_var (system_version s).
Definition get_var_main_screen : ui string := s ← get; read_var (main_screen s).

(** The version of the LVGL library the code is built with. *)
Variable LVGL_VERSION : string.

Definition get_var_lvgl_version : ui string :=
  s ← get;
  match lvgl_version s !! 0%nat with
  | None => crash
  | Some c =>
      ui_when (Ascii.eqb c NUL)
        (if 32 <=? strlen LVGL_VERSION then crash      (* sprintf past buf[32] *)
         else
           modify (set_lvgl_version (strncpy 32 (chars LVGL_VERSION)));;
           modify (λ s, set_app_version (<[31%nat := NUL]> (app_version s)) s));;
      s ← get; read_var (lvgl_version s)
  end.

Definition set_var_app_version (value : string) : ui unit :=
  modify (set_app_version (copy_var 100 value)).
Definition set_var_system_version (value : string) : ui unit :=
  modify (set_system_version (copy_var 100 value)).
Definition set_var_lvgl_version (value : string) : ui unit := mret tt.
Definition set_var_main_screen (value : string) : ui unit :=
  modify (set_main_screen (copy_var 32 value)).

(** ** screens.c: building and ticking *)

(** A block of [create_screen_*]: the constructor, the field, the calls, and the
    blocks inside with this object as the parent. *)
Fixpoint create_widget (w : widget) (parent : Z) : ui Z :=
  match w with
  | W kind dest attrs children =>
      o ← create kind parent;
      (match dest with
       | Some f => modify (λ s, set_objects (<[f := o]> (objects s)) s)
       | None => mret tt
       end);;
      (fix calls (l : list attr) : ui unit :=
         match l with [] => mret tt | a :: l' => configure a o;; calls l' end) attrs;;
      (fix blocks (l : list widget) : ui unit :=
         match l with [] => mret tt | c :: l' => create_widget c o;; blocks l' end) children;;
      mret o
  end.

(** One block of a tick function. *)
Definition tick_label (getter : ui string) (f : field) : ui unit :=
  new_val ← getter;
  s ← get;
  cur_val ← label_get_text (objects s f);
  if streq new_val cur_val then mret tt
  else configure (lv_label_set_text new_val) (objects s f).

Definition tick_screen_boot_screen : ui unit :=
  tick_label get_var_app_version o_boot_screen_version.
Definition tick_screen_about_screen : ui unit :=
  tick_label get_var_system_version o_system_version;;
  tick_label get_var_app_version o_app_version;;
  tick_label get_var_lvgl_version o_lvgl_version.
(** The other screens' tick functions are empty. *)
Definition tick_screen_none : ui unit := mret tt.

Definition tick_screen_funcs : list (ui unit) :=
  [tick_screen_boot_screen; tick_screen_none; tick_screen_none; tick_screen_none;
   tick_screen_none; tick_screen_none; tick_screen_about_screen; tick_screen_none;
   tick_screen_none; tick_screen_none; tick_screen_none; tick_screen_none].

Definition tick_screen (screen_index : Z) : ui unit :=
  match load tick_screen_funcs screen_index with Some f => f | None => crash end.
Definition tick_screen_by_id (screenId : Z) : ui unit := tick_screen (screenId - 1).

(** The theme is LVGL's; each [create_screen_*] ends by ticking its screen. *)
Fixpoint create_each (l : list (widget * ui unit)) : ui unit :=
  match l with
  | [] => mret tt
  | (w, tick) :: l' => create_widget w NULL;; tick;; create_each l'
  end.
Definition create_screens : ui unit := create_each (zip screen_widgets tick_screen_funcs).

(** ** ui.c *)

Definition getLvglObjectFromIndex (index : Z) : ui Z :=
  if index =? -1 then mret 0
  else
    match load all_fields index with
    | Some f => s ← get; mret (objects s f)
    | None => crash
    end.

Definition loadScreen (screenId : Z) : ui unit :=
  let index := s16 (screenId - 1) in
  modify (set_currentScreen index);;
  screen ← getLvglObjectFromIndex index;
  scr_load screen.

Definition ui_init : ui unit := create_screens;; loadScreen SCREEN_ID_BOOT_SCREEN.
Definition ui_tick : ui unit := s ← get; tick_screen (currentScreen s).

Definition ui_set_rpc_handler (handler : bool) : ui unit := modify (set_rpc_handler handler).
Definition ui_call_rpc_handler (method : string) : ui unit :=
  s ← get;
  ui_when (ui_rpc_handler s) (put (OutRpc method)).
End ui.
