(* ===== verification/UiActions.v ===== *)
(** * Event handlers

    src/internal/native/eez/src/ui/actions.c: switching screens by buttons and
    gestures, and the three hold-to-confirm buttons as a state machine over press
    events and time. *)
From stdpp Require Import functions.
From S2P Require Import Prelude Lvgl UiStyles UiScreens Ui.

Section actions.
Context {L : Type} `{!Lvgl L}.
#[local] Abbreviation ui := (ui L).

(** An event: its code and the direction of the gesture of the input device. *)
Record lv_event := Event { lv_event_get_code : lv_event_code; gesture_dir : lv_dir }.

Definition handle_gesture_screen_switch (e : lv_event) (direction : lv_dir) (screenId : Z) : ui Z :=
  if negb (bool_decide (lv_event_get_code e = LV_EVENT_GESTURE)) then mret 0
  else if negb (bool_decide (gesture_dir e = direction)) then mret 0
  else loadScreen screenId;; mret 1.

Definition handle_gesture_main_screen_switch (e : lv_event) (direction : lv_dir) : ui unit :=
  main_screen ← get_var_main_screen;
  if streq main_screen "home_screen" then loadScreen SCREEN_ID_HOME_SCREEN
  else if streq main_screen "no_network_screen" then loadScreen SCREEN_ID_NO_NETWORK_SCREEN
  else mret tt.

(** ** Holding a button *)

Record hold_action_config_t := HoldConfig {
  hold_time_seconds : Z; rpc_method : string;
  button_obj : Z; spinner_obj : Z; label_obj : Z; default_text : string
}.

(** [hold_time_seconds * 1000 - lv_tick_elaps(start)] is unsigned; the result is
    converted to [int]. *)
Definition remaining_time (c : hold_action_config_t) (now start : Z) : Z :=
  s32 (u32 (hold_time_seconds c * 1000 - u32 (now - start))).

(** The decimal digits of a positive number, for [sprintf]'s [%d]. *)
Fixpoint decimal (fuel : nat) (n : Z) : string :=
  match fuel with
  | O => ""
  | S fuel' =>
      let d := String (ascii_of_nat (48 + Z.to_nat (n mod 10))) "" in
      if n <? 10 then d else decimal fuel' (n / 10) ++ d
  end.
Definition hold_text (seconds : Z) : string :=
  "Press and hold for" ++ newline ++ decimal 10 seconds ++ " seconds".

Definition set_hold (h : hold) (f : hold_state → hold_state) : ui unit :=
  modify (λ s, set_holds (<[h := f (holds s h)]> (holds s)) s).

Definition handle_hold_action (e : lv_event) (h : hold) (c : hold_action_config_t) : ui unit :=
  s ← get;
  match lv_event_get_code e with
  | LV_EVENT_PRESSED => set_hold h (λ x, HoldState (u_tick s) (completed x) (lock x))
  | LV_EVENT_PRESSING =>
      let remaining := remaining_time c (u_tick s) (start_time (holds s h)) in
      if remaining <=? 0 then
        if lock (holds s h) then mret tt
        else
          ui_when (negb (button_obj c =? NULL) && negb (spinner_obj c =? NULL))
            (configure (lv_obj_add_flag LV_OBJ_FLAG_HIDDEN) (button_obj c);;
             configure (lv_obj_clear_flag [LV_OBJ_FLAG_HIDDEN]) (spinner_obj c));;
          ui_call_rpc_handler (rpc_method c);;
          set_hold h (λ x, HoldState (start_time x) true true)
      else
        set_hold h (λ x, HoldState (start_time x) false (lock x));;
        let seconds := remaining / 1000 in
        let seconds := if seconds <=? 1 then 1 else seconds in
        configure (lv_label_set_text (hold_text seconds)) (label_obj c)
  | LV_EVENT_RELEASED =>
      ui_when (lock (holds s h))
        (set_hold h (λ x, HoldState (start_time x) (completed x) false));;
      s ← get;
      ui_when (negb (completed (holds s h)))
        (configure (lv_label_set_text (default_text c)) (label_obj c))
  | _ => mret tt
  end.

Definition RESET_CONFIG_HOLD_TIME : Z := 10.
Definition REBOOT_HOLD_TIME : Z := 5.
Definition DHCPC_HOLD_TIME : Z := 5.

Definition reset_config_hold (objs : field → Z) : hold_action_config_t :=
  HoldConfig RESET_CONFIG_HOLD_TIME "resetConfig"
    (objs o_reset_config_button) (objs o_reset_config_spinner) (objs o_reset_config_label)
    ("Press and hold for" ++ newline ++ "10 seconds").
Definition dhcpc_hold (objs : field → Z) : hold_action_config_t :=
  HoldConfig DHCPC_HOLD_TIME "toggleDHCPClient" NULL NULL (objs o_dhcpc_label)
    ("Press and hold for" ++ newline ++ "5 seconds").
Definition reboot_hold (objs : field → Z) : hold_action_config_t :=
  HoldConfig REBOOT_HOLD_TIME "reboot" NULL NULL (objs o_reboot_label)
    ("Press and hold for" ++ newline ++ "5 seconds").
Definition hold_config (h : hold) : (field → Z) → hold_action_config_t :=
  match h with
  | hold_reset_config => reset_config_hold
  | hold_dhcpc => dhcpc_hold
  | hold_reboot => reboot_hold
  end.

Definition hold_action (h : hold) (e : lv_event) : ui unit :=
  s ← get; handle_hold_action e h (hold_config h (objects s)).

(** ** The handlers, by name *)

Definition perform_action (a : ui_action) (e : lv_event) : ui unit :=
  match a with
  | action_switch_to_menu => loadScreen SCREEN_ID_MENU_SCREEN
  | action_switch_to_advanced_menu => loadScreen SCREEN_ID_MENU_ADVANCED_SCREEN
  | action_switch_to_status => loadScreen SCREEN_ID_STATUS_SCREEN
  | action_switch_to_about => loadScreen SCREEN_ID_ABOUT_SCREEN
  | action_switch_to_reset_config => loadScreen SCREEN_ID_RESET_CONFIG_SCREEN
  | action_switch_to_dhcpc => loadScreen SCREEN_ID_SWITCH_DHCP_CLIENT_SCREEN
  | action_switch_to_reboot => loadScreen SCREEN_ID_REBOOT_SCREEN
  | action_menu_screen_gesture => handle_gesture_main_screen_switch e LV_DIR_RIGHT
  | action_menu_advanced_screen_gesture =>
      handle_gesture_screen_switch e LV_DIR_RIGHT SCREEN_ID_MENU_SCREEN;; mret tt
  | action_reset_config_screen_gesture =>
      handle_gesture_screen_switch e LV_DIR_RIGHT SCREEN_ID_MENU_SCREEN;; mret tt
  | action_home_screen_gesture =>
      handle_gesture_screen_switch e LV_DIR_LEFT SCREEN_ID_MENU_SCREEN;; mret tt
  | action_about_screen_gesture =>
      handle_gesture_screen_switch e LV_DIR_RIGHT SCREEN_ID_MENU_SCREEN;; mret tt
  | action_reset_config => hold_action hold_reset_config e
  | action_dhcpc => hold_action hold_dhcpc e
  | action_reboot => hold_action hold_reboot e
  end.

(** What LVGL does with an event on an object: it calls the handlers that were
    added for the event, in their order. *)
Fixpoint call_handlers (l : list (ui_action * lv_event_code)) (e : lv_event) : ui unit :=
  match l with
  | [] => mret tt
  | (a, code) :: l' =>
      ui_when (bool_decide (code = lv_event_get_code e)) (perform_action a e);;
      call_handlers l' e
  end.
Definition send_event (o : Z) (e : lv_event) : ui unit :=
  v ← live o; call_handlers (v_callbacks v) e.
End actions.
