(* ===== verification/UiControl.v ===== *)
(** * The control interface of the display

    The UI half of src/internal/native/cgo/ctrl.c ([jetkvm_ui_*]) and of screen.c
    (lookups, rotation, touch calibration, ticks): what the Go side calls by
    name, and the log calls these make. *)
From stdpp Require Import functions.
From S2P Require Import Prelude Lvgl UiStyles UiScreens Ui UiActions.

(** ** Names of flags and states *)

(** 0, the unknown flag, is [None]. *)
Definition str_to_lv_obj_flag (flag : string) : option lv_obj_flag :=
  if streq flag "LV_OBJ_FLAG_HIDDEN" then Some LV_OBJ_FLAG_HIDDEN
  else if streq flag "LV_OBJ_FLAG_CLICKABLE" then Some LV_OBJ_FLAG_CLICKABLE
  else if streq flag "LV_OBJ_FLAG_SCROLLABLE" then Some LV_OBJ_FLAG_SCROLLABLE
  else if streq flag "LV_OBJ_FLAG_CLICK_FOCUSABLE" then Some LV_OBJ_FLAG_CLICK_FOCUSABLE
  else if streq flag "LV_OBJ_FLAG_SCROLL_ON_FOCUS" then Some LV_OBJ_FLAG_SCROLL_ON_FOCUS
  else if streq flag "LV_OBJ_FLAG_SCROLL_CHAIN" then Some LV_OBJ_FLAG_SCROLL_CHAIN
  else if streq flag "LV_OBJ_FLAG_PRESS_LOCK" then Some LV_OBJ_FLAG_PRESS_LOCK
  else if streq flag "LV_OBJ_FLAG_OVERFLOW_VISIBLE" then Some LV_OBJ_FLAG_OVERFLOW_VISIBLE
  else None.

Definition str_to_lv_state (state_name : string) : lv_state :=
  if streq state_name "LV_STATE_USER_1" then LV_STATE_USER_1
  else if streq state_name "LV_STATE_USER_2" then LV_STATE_USER_2
  else if streq state_name "LV_STATE_USER_3" then LV_STATE_USER_3
  else if streq state_name "LV_STATE_USER_4" then LV_STATE_USER_4
  else if streq state_name "LV_STATE_DISABLED" then LV_STATE_DISABLED
  else if streq state_name "LV_STATE_DEFAULT" then LV_STATE_DEFAULT
  else if streq state_name "LV_STATE_CHECKED" then LV_STATE_CHECKED
  else if streq state_name "LV_STATE_FOCUSED" then LV_STATE_FOCUSED
  else LV_STATE_DEFAULT.

Section control.
Context {L : Type} `{!Lvgl L}.
#[local] Abbreviation ui := (ui L).

(** The generated tables. *)
Variable ui_objects : list (string * field).
Variable ui_styles : list (string * ui_style).
Inductive ui_var := var_app_version | var_system_version | var_lvgl_version | var_main_screen.
Variable ui_vars : list (string * ui_var).
Variable LVGL_VERSION : string.

(** ** Lookups: the first entry with the name *)

Fixpoint find_name {A} (name : string) (l : list (string * A)) : option A :=
  match l with
  | [] => None
  | (n, a) :: l' => if streq n name then Some a else find_name name l'
  end.

Definition ui_get_obj (name : string) : ui Z :=
  match find_name name ui_objects with
  | Some f => s ← get; mret (objects s f)
  | None => mret NULL
  end.

(** [None] is [NULL]; the style object is created when it is first asked for. *)
Definition ui_get_style (name : string) : ui (option ui_style) :=
  match find_name name ui_styles with
  | Some st =>
      s ← get;
      modify (set_styles (get_style st (styles s)).2);; mret (Some st)
  | None => mret None
  end.

Fixpoint find_obj (o : Z) (objs : field → Z) (l : list (string * field)) : option string :=
  match l with
  | [] => None
  | (n, f) :: l' => if objs f =? o then Some n else find_obj o objs l'
  end.
Definition ui_get_current_screen : ui (option string) :=
  s ← get;
  let scr := lv_scr_act (u_lv s) in
  if scr =? NULL then mret None else mret (find_obj scr (objects s) ui_objects).

(** The image of a name; the table and the images are generated. *)
Definition ui_get_image {Image} (ui_images : list (string * Image)) (name : string) : option Image :=
  find_name name ui_images.

Definition ui_set_text (name text : string) : ui unit :=
  obj ← ui_get_obj name;
  if obj =? NULL then
    log UiError "screen.c" "ui_set_text" 225 ("ui_set_text " ++ name ++ " " ++ text ++ ", obj not found")
  else configure (lv_label_set_text text) obj.

(** ** Rotation and touch calibration

    A rotation is a [u_int16_t], of at most five digits. *)

Definition TOUCH_Y_OFFSET : Z := 20.

Definition apply_touch_calibration : ui unit :=
  s ← get;
  match touch_indev s with
  | None => mret tt
  | Some _ =>
      if current_rotation s =? 90 then
        modify (set_touch (Some (0, - TOUCH_Y_OFFSET, 239, 299 - TOUCH_Y_OFFSET)));;
        log UiInfo "screen.c" "apply_touch_calibration" 52
          ("touch calibration: rotation=" ++ decimal 5 (current_rotation s) ++ ", Y offset=+20")
      else
        modify (set_touch (Some (0, 0, 239, 299)));;
        log UiInfo "screen.c" "apply_touch_calibration" 56
          ("touch calibration: rotation=" ++ decimal 5 (current_rotation s) ++ ", no offset")
  end.

(** A touchscreen is found ([is_abs]: an absolute pointer device). *)
Definition evdev_discovery_cb (is_abs : bool) : ui unit :=
  if negb is_abs then mret tt
  else
    log UiInfo "screen.c" "evdev_discovery_cb" 68
      "[C-UI-INIT] touchscreen discovered, configuring...";;
    modify (set_touch (Some (0, 0, 0, 0)));;
    apply_touch_calibration;;
    log UiInfo "screen.c" "evdev_discovery_cb" 76 "[C-UI-INIT] touchscreen configured successfully".

Definition style_set (st : ui_style) (p : style_prop) (v : style_value) : ui unit :=
  s ← get;
  match styles s st with
  | Some style => modify (set_styles (<[st := Some (lv_style_set p v style)]> (styles s)))
  | None => crash
  end.

Definition set_display_rotation (rotation : Z) : ui unit :=
  if rotation =? 0 then modify (set_display LV_DISP_ROTATION_0)
  else if rotation =? 90 then modify (set_display LV_DISP_ROTATION_90)
  else if rotation =? 180 then modify (set_display LV_DISP_ROTATION_180)
  else if rotation =? 270 then modify (set_display LV_DISP_ROTATION_270)
  else
    log UiError "screen.c" "lvgl_set_rotation" 128 ("invalid rotation " ++ decimal 5 rotation).

Definition set_pads (flex_screen_style flex_screen_menu_style : ui_style) (left right : Z) : ui unit :=
  style_set flex_screen_style pad_left (Num left);;
  style_set flex_screen_style pad_right (Num right);;
  style_set flex_screen_menu_style pad_left (Num left);;
  style_set flex_screen_menu_style pad_right (Num right).

Definition lvgl_set_rotation (rotation : Z) : ui unit :=
  log UiInfo "screen.c" "lvgl_set_rotation" 118 ("setting rotation to " ++ decimal 5 rotation);;
  set_display_rotation rotation;;
  modify (set_rotation rotation);;
  apply_touch_calibration;;
  flex_screen_style ← ui_get_style "flex_screen";
  match flex_screen_style with
  | None => log UiError "screen.c" "lvgl_set_rotation" 136 "flex_screen style not found"
  | Some flex_screen_style =>
      flex_screen_menu_style ← ui_get_style "flex_screen_menu";
      match flex_screen_menu_style with
      | None => log UiError "screen.c" "lvgl_set_rotation" 142 "flex_screen_menu style not found"
      | Some flex_screen_menu_style =>
          (if rotation =? 90 then set_pads flex_screen_style flex_screen_menu_style 24 44
           else if rotation =? 270 then set_pads flex_screen_style flex_screen_menu_style 44 24
           else mret tt);;
          log UiInfo "screen.c" "lvgl_set_rotation" 158 "refreshing objects"
      end
  end.

(** The display and the input devices are LVGL's; [discovery]: its search for input
    devices started. *)
Definition lvgl_init (rotation : Z) (discovery : bool) : ui unit :=
  lvgl_set_rotation rotation;;
  log UiInfo "screen.c" "lvgl_init" 93 "[C-UI-INIT] step 4/6: initializing input device discovery";;
  (if discovery then
     log UiInfo "screen.c" "lvgl_init" 97 "[C-UI-INIT] step 4/6: evdev discovery started"
   else
     log UiWarn "screen.c" "lvgl_init" 95
       "[C-UI-INIT] step 4/6: evdev discovery failed to start, touchscreen may not work");;
  ui_init LVGL_VERSION;;
  ui_set_rpc_handler true;;
  log UiInfo "screen.c" "lvgl_init" 106 "ui initalized".

(** The timers, which deliver the events, run first. *)
Definition lvgl_tick (timer_handler : ui unit) : ui unit := timer_handler;; ui_tick LVGL_VERSION.

(** ** [custom_tick_get]: milliseconds since the first call; [start_ms] is the
    static, and the time of day is in seconds and microseconds *)
Definition ms_of (tv_sec tv_usec : Z) : Z := u64 ((tv_sec * 1000000 + tv_usec) / 1000).
Definition custom_tick_get (start_ms tv_sec tv_usec : Z) : Z * Z :=
  let start_ms := if start_ms =? 0 then ms_of tv_sec tv_usec else start_ms in
  (u32 (u64 (ms_of tv_sec tv_usec - start_ms)), start_ms).

(** ** ctrl.c *)

Definition not_found (name : string) : string := "variable " ++ name ++ " not found".

Definition jetkvm_ui_init (rotation : Z) (discovery : bool) : ui unit := lvgl_init rotation discovery.
Definition jetkvm_ui_set_rotation (rotation : Z) : ui unit := lvgl_set_rotation rotation.
Definition jetkvm_ui_tick (timer_handler : ui unit) : ui unit := lvgl_tick timer_handler.
Definition jetkvm_ui_get_current_screen : ui (option string) := ui_get_current_screen.

Definition jetkvm_ui_set_var (name value : string) : ui unit :=
  match find_name name ui_vars with
  | Some var_app_version => set_var_app_version value
  | Some var_system_version => set_var_system_version value
  | Some var_lvgl_version => set_var_lvgl_version value
  | Some var_main_screen => set_var_main_screen value
  | None => log UiError "ctrl.c" "jetkvm_ui_set_var" 199 (not_found name)
  end.

Definition jetkvm_ui_get_var (name : string) : ui (option string) :=
  match find_name name ui_vars with
  | Some var_app_version => Some <$> get_var_app_version
  | Some var_system_version => Some <$> get_var_system_version
  | Some var_lvgl_version => Some <$> get_var_lvgl_version LVGL_VERSION
  | Some var_main_screen => Some <$> get_var_main_screen
  | None => log UiError "ctrl.c" "jetkvm_ui_get_var" 208 (not_found name);; mret None
  end.

Definition jetkvm_ui_load_screen (obj_name : string) : ui unit :=
  obj ← ui_get_obj obj_name;
  if obj =? NULL then mret tt
  else
    s ← get;
    if lv_scr_act (u_lv s) =? obj then mret tt else scr_load obj.

Definition jetkvm_ui_set_text (obj_name text : string) : ui Z :=
  obj ← ui_get_obj obj_name;
  if obj =? NULL then mret (-1)
  else
    cur ← label_get_text obj;
    if streq cur text then mret 1
    else configure (lv_label_set_text text) obj;; mret 0.

(** Apply a call to a named object, if there is one. *)
Definition on_object (obj_name : string) (a : attr) : ui unit :=
  obj ← ui_get_obj obj_name;
  if obj =? NULL then mret tt else configure a obj.

Definition jetkvm_ui_set_image (obj_name image_name : string) : ui unit :=
  on_object obj_name (lv_image_set_src image_name).
Definition jetkvm_ui_add_state (obj_name state_name : string) : ui unit :=
  on_object obj_name (lv_obj_add_state (str_to_lv_state state_name)).
Definition jetkvm_ui_clear_state (obj_name state_name : string) : ui unit :=
  on_object obj_name (lv_obj_clear_state (str_to_lv_state state_name)).
Definition jetkvm_ui_fade_in (obj_name : string) (duration : Z) : ui unit :=
  on_object obj_name (lv_obj_fade_in duration).
Definition jetkvm_ui_fade_out (obj_name : string) (duration : Z) : ui unit :=
  on_object obj_name (lv_obj_fade_out duration).
Definition jetkvm_ui_set_opacity (obj_name : string) (opacity : Z) : ui unit :=
  on_object obj_name (lv_obj_set_style opa (Num (u8 opacity)) LV_PART_MAIN LV_STATE_DEFAULT).

Definition change_flag (obj_name flag_name : string) (mk : lv_obj_flag → attr) : ui Z :=
  obj ← ui_get_obj obj_name;
  if obj =? NULL then mret (-1)
  else
    match str_to_lv_obj_flag flag_name with
    | None => mret (-2)
    | Some flag_val => configure (mk flag_val) obj;; mret 0
    end.
Definition jetkvm_ui_add_flag (obj_name flag_name : string) : ui Z :=
  change_flag obj_name flag_name lv_obj_add_flag.
Definition jetkvm_ui_clear_flag (obj_name flag_name : string) : ui Z :=
  change_flag obj_name flag_name (λ f, lv_obj_clear_flag [f]).
(** The name is LVGL's. *)
Definition jetkvm_ui_event_code_to_name (lv_event_code_get_name : Z → string) (code : Z) : string :=
  lv_event_code_get_name (u32 code).
Definition jetkvm_ui_get_lvgl_version (lv_version_info : string) : string := lv_version_info.
End control.
