(* ===== verification/UiBuild.v ===== *)
(** * Building the screens

    A weakest precondition for [ui] computations, the invariant [wf] that the
    rest of the interface relies on, and the proof that [ui_init] establishes it:
    over any LVGL that keeps the laws, every field of [objects] ends up holding
    its own object, of the kind and with the handlers screens.c gives it. *)
From stdpp Require Import functions.
From S2P Require Import Prelude Lvgl UiStyles UiScreens Ui.

(** ** Weakest preconditions *)

Definition uwp {L A} (m : ui L A) (Q : A → ust L → Prop) (s : ust L) : Prop :=
  match m s with Some (a, s') => Q a s' | None => False end.
#[global] Arguments uwp : simpl never.

Section uwp.
Context {L : Type}.
Implicit Types s : ust L.

Lemma uwp_mret {A} (a : A) (Q : A → ust L → Prop) s : Q a s → uwp (mret a) Q s.
Proof. done. Qed.
Lemma uwp_get (Q : ust L → ust L → Prop) s : Q s s → uwp get Q s.
Proof. done. Qed.
Lemma uwp_modify f (Q : unit → ust L → Prop) s : Q tt (f s) → uwp (modify f) Q s.
Proof. done. Qed.
Lemma uwp_bind {A B} (m : ui L A) (f : A → ui L B) Q s :
  uwp m (λ a, uwp (f a) Q) s → uwp (m ≫= f) Q s.
Proof. unfold uwp, mbind, ui_mbind. destruct (m s) as [[??]|]; auto. Qed.
Lemma uwp_fmap {A B} (g : A → B) (m : ui L A) Q s :
  uwp m (λ a, Q (g a)) s → uwp (g <$> m) Q s.
Proof. unfold uwp, fmap, ui_fmap. destruct (m s) as [[??]|]; auto. Qed.
Lemma uwp_mono {A} (m : ui L A) (P Q : A → ust L → Prop) s :
  uwp m P s → (∀ a s', P a s' → Q a s') → uwp m Q s.
Proof. unfold uwp. destruct (m s) as [[??]|]; auto. Qed.
Lemma uwp_run {A} (m : ui L A) Q s : uwp m Q s → ∃ a s', m s = Some (a, s') ∧ Q a s'.
Proof. unfold uwp. destruct (m s) as [[??]|]; [eauto|done]. Qed.
Lemma uwp_run_unit (m : ui L unit) (Q : ust L → Prop) s :
  uwp m (λ _, Q) s → ∃ s', m s = Some (tt, s') ∧ Q s'.
Proof. intros ([] & s' & ? & ?)%uwp_run. eauto. Qed.
Lemma uwp_put o (Q : unit → ust L → Prop) s : Q tt (set_out (u_out s ++ [o]) s) → uwp (put o) Q s.
Proof. done. Qed.
Lemma uwp_log m file func line msg (Q : unit → ust L → Prop) s :
  strlen msg < 1024 → Q tt (set_out (u_out s ++ [OutLog m file func line msg]) s) →
  uwp (log m file func line msg) Q s.
Proof. intros Hm HQ. unfold log. rewrite (proj2 (Z.ltb_lt _ _)) by done. by apply uwp_put. Qed.
Lemma uwp_conj {A} (m : ui L A) (P Q : A → ust L → Prop) s :
  uwp m P s → uwp m Q s → uwp m (λ a s', P a s' ∧ Q a s') s.
Proof. unfold uwp. destruct (m s) as [[??]|]; auto. Qed.
End uwp.

(** One step through a [ui] computation. *)
Ltac uwp_step :=
  match goal with
  | |- uwp (_ ≫= _) _ _ => apply uwp_bind
  | |- uwp (_ <$> _) _ _ => apply uwp_fmap
  | |- uwp get _ _ => apply uwp_get
  | |- uwp (modify _) _ _ => apply uwp_modify
  | |- uwp (mret _) _ _ => apply uwp_mret
  end.
Ltac uwp_steps := repeat (uwp_step; cbn beta).
(** Run a computation whose branches are decided. *)
Ltac ui_run := repeat first
  [progress unfold mbind, ui_mbind, mret, ui_mret, fmap, ui_fmap, get, modify, ui_when | progress cbn].

(** ** Trees *)

Section widget_ind.
Context (P : widget → Prop).
Context (HW : ∀ k d a cs, Forall P cs → P (W k d a cs)).
Fixpoint widget_rec' (w : widget) : P w :=
  match w with
  | W k d a cs =>
      HW k d a cs ((fix go (l : list widget) : Forall P l :=
        match l with
        | [] => Forall_nil_2 _
        | c :: l' => Forall_cons_2 _ _ _ (widget_rec' c) (go l')
        end) cs)
  end.
End widget_ind.

(** The widgets of a tree in the order they are created: the kind, whether it is a
    screen ([root]), the field and the calls. *)
Definition node : Type := (wkind * bool) * option field * list attr.
Fixpoint nodes_of (root : bool) (w : widget) : list node :=
  match w with
  | W k d a cs =>
      ((k, root), d, a) :: (fix go (l : list widget) : list node :=
                      match l with [] => [] | c :: l' => nodes_of false c ++ go l' end) cs
  end.
Definition nodes_all (root : bool) (l : list widget) : list node := l ≫= nodes_of root.
Definition ui_nodes : list node := nodes_all true screen_widgets.
Definition dests (ns : list node) : list field := omap (λ n : node, n.1.2) ns.

Lemma nodes_of_unfold root k d a cs :
  nodes_of root (W k d a cs) = ((k, root), d, a) :: nodes_all false cs.
Proof. done. Qed.
Lemma dests_app ns1 ns2 : dests (ns1 ++ ns2) = dests ns1 ++ dests ns2.
Proof. apply omap_app. Qed.
Lemma dests_elem ns k f a : (k, Some f, a) ∈ ns → f ∈ dests ns.
Proof. intros H. apply list_elem_of_omap. by exists (k, Some f, a). Qed.
Lemma dests_node ns f : f ∈ dests ns → ∃ k a, (k, Some f, a) ∈ ns.
Proof. intros ([[k d] a] & Hin & Hd)%list_elem_of_omap. simpl in Hd. subst. eauto. Qed.

(** What never changes of an object: its kind, whether it is a screen, and its
    handlers. *)
Definition shape (v : view) : (wkind * bool) * list (ui_action * lv_event_code) :=
  ((v_kind v, is_screen v), v_callbacks v).
Definition is_callback (a : attr) : bool :=
  match a with lv_obj_add_event_cb _ _ => true | _ => false end.
Definition callbacks (l : list attr) : list (ui_action * lv_event_code) :=
  omap (λ a, match a with lv_obj_add_event_cb c ev => Some (c, ev) | _ => None end) l.

Lemma shape_clear_flags fs v : shape (foldl (λ v f, with_flag f false v) v fs) = shape v.
Proof. revert v. induction fs as [|f fs IH]; intros v; simpl; [done|by rewrite IH]. Qed.
Lemma shape_apply a v : is_callback a = false → shape (apply a v) = shape v.
Proof. destruct a; simpl; try done; [intros _; apply shape_clear_flags|by destruct st..]. Qed.
Lemma shape_apply_callbacks a v :
  shape (apply a v) = ((v_kind v, is_screen v), v_callbacks v ++ callbacks [a]).
Proof.
  destruct (is_callback a) eqn:E; [by destruct a|].
  rewrite shape_apply by done. unfold shape. f_equal. destruct a; simpl in *; try done; by rewrite app_nil_r.
Qed.
Lemma shape_configured l v :
  shape (foldl (λ v a, apply a v) v l) = ((v_kind v, is_screen v), v_callbacks v ++ callbacks l).
Proof.
  revert v. induction l as [|a l IH]; intros v; [cbn; by rewrite app_nil_r|].
  change (a :: l) with ([a] ++ l). unfold callbacks. rewrite foldl_app, IH, omap_app. cbn [foldl].
  pose proof (shape_apply_callbacks a v) as H. unfold shape in H. injection H as -> -> ->.
  by rewrite <- app_assoc.
Qed.

Lemma apply_kind a v : v_kind (apply a v) = v_kind v.
Proof. pose proof (shape_apply_callbacks a v) as H. unfold shape in H. by injection H. Qed.

(** Every call of screens.c suits the kind of its object. *)
Fixpoint kinds_ok (w : widget) : bool :=
  match w with
  | W k _ attrs children => forallb (λ a, kind_ok a k) attrs && forallb kinds_ok children
  end.
Lemma screens_kinds : Forall (λ w, kinds_ok w = true) screen_widgets.
Proof. by apply (bool_decide_unpack _). Qed.

Lemma all_dests : NoDup (dests ui_nodes) ∧ ∀ f, f ∈ dests ui_nodes.
Proof.
  split; [apply (bool_decide_unpack _); by vm_compute|].
  intros f. apply (bool_decide_unpack _). by destruct f; vm_compute.
Qed.

(** ** The invariant *)

(** A variable's buffer: of its size, ending in NUL. *)
Definition buffer_ok (n : nat) (buf : list ascii) : Prop :=
  length buf = n ∧ buf !! (n - 1)%nat = Some NUL.

Section wf.
Context {L : Type} `{!Lvgl L}.
Implicit Types s : ust L.

Record buffers_ok s : Prop := {
  ok_app : buffer_ok 100 (app_version s);
  ok_system : buffer_ok 100 (system_version s);
  ok_lvgl : buffer_ok 32 (lvgl_version s);
  ok_main : buffer_ok 32 (main_screen s)
}.

(** The objects of the nodes [ns] exist. *)
Definition has_nodes (ns : list node) (objs : field → Z) (l : L) : Prop :=
  ∀ k f a, (k, Some f, a) ∈ ns →
    ∃ v, lv_view l (objs f) = Some v ∧ shape v = (k, callbacks a).
Definition distinct (ns : list node) (objs : field → Z) : Prop :=
  ∀ f g, f ∈ dests ns → g ∈ dests ns → objs f = objs g → f = g.

Record wf (objs : field → Z) s : Prop := {
  wf_objects : objects s = objs;
  wf_nodes : has_nodes ui_nodes objs (u_lv s);
  wf_distinct : distinct ui_nodes objs;
  wf_not_null : ∀ f, objs f ≠ NULL;
  wf_buffers : buffers_ok s;
  wf_screen : 0 ≤ currentScreen s < 12
}.
Definition ui_wf s : Prop := wf (objects s) s.

(** The globals that neither building nor ticking touches. *)
Definition same_globals s s' : Prop :=
  lv_scr_act (u_lv s') = lv_scr_act (u_lv s) ∧ currentScreen s' = currentScreen s ∧
  ui_rpc_handler s' = ui_rpc_handler s ∧ u_out s' = u_out s ∧ holds s' = holds s ∧
  u_tick s' = u_tick s ∧ current_rotation s' = current_rotation s ∧
  display_rotation s' = display_rotation s ∧ touch_indev s' = touch_indev s ∧
  system_version s' = system_version s ∧ main_screen s' = main_screen s.

Lemma same_globals_refl s : same_globals s s.
Proof. unfold same_globals. tauto. Qed.
Lemma same_globals_trans s1 s2 s3 : same_globals s1 s2 → same_globals s2 s3 → same_globals s1 s3.
Proof. unfold same_globals. intuition congruence. Qed.

Lemma buffers_ok_eq s s' :
  buffers_ok s → app_version s' = app_version s → system_version s' = system_version s →
  lvgl_version s' = lvgl_version s → main_screen s' = main_screen s → buffers_ok s'.
Proof. intros [] E1 E2 E3 E4. split; by rewrite ?E1, ?E2, ?E3, ?E4. Qed.

(** The kind of the object of a field, and whether it is a screen, from the trees. *)
Definition field_kind (f : field) : wkind * bool :=
  match List.find (λ n : node, bool_decide (n.1.2 = Some f)) ui_nodes with
  | Some n => n.1.1
  | None => (lv_obj, false)
  end.

Lemma field_kind_node f : ∃ a, (field_kind f, Some f, a) ∈ ui_nodes.
Proof.
  unfold field_kind. destruct (List.find _ ui_nodes) as [[[k d] a]|] eqn:E.
  - apply List.find_some in E as [Hin Hd]. apply bool_decide_eq_true in Hd. cbn in *. subst.
    exists a. by apply list_elem_of_In.
  - destruct (dests_node _ _ (proj2 all_dests f)) as (k & a & Hin).
    eapply List.find_none in E; [|by apply list_elem_of_In in Hin]. cbn in E. by rewrite bool_decide_true in E.
Qed.
Lemma has_nodes_view objs l f : has_nodes ui_nodes objs l →
  ∃ v, lv_view l (objs f) = Some v ∧ v_kind v = (field_kind f).1 ∧ is_screen v = (field_kind f).2.
Proof.
  intros Hn. destruct (field_kind_node f) as (a & Hin). destruct (Hn _ _ _ Hin) as (v & Hv & Hs).
  exists v. unfold shape in Hs. destruct (field_kind f). naive_solver.
Qed.

(** Every field has its object. *)
Lemma wf_live objs s f : wf objs s →
  ∃ v k a, lv_view (u_lv s) (objs f) = Some v ∧ (k, Some f, a) ∈ ui_nodes ∧
    shape v = (k, callbacks a).
Proof.
  intros H. destruct (dests_node _ _ (proj2 all_dests f)) as (k & a & Hin).
  destruct (wf_nodes _ _ H _ _ _ Hin) as (v & ? & ?). eauto 10.
Qed.
Lemma wf_inj objs s f g : wf objs s → objs f = objs g → f = g.
Proof. intros H. apply (wf_distinct _ _ H); apply all_dests. Qed.
End wf.

(** ** Reading the variables *)

Section reads.
Context {L : Type} `{!Lvgl L}.
Implicit Types s : ust L.

Lemma cstr_ok n buf : (0 < n)%nat → buffer_ok n buf → ∃ l, cstr buf = Some l.
Proof.
  intros Hn [_ Hlast]. apply list_elem_of_lookup_2 in Hlast. clear Hn.
  induction buf as [|c buf IH]; [by apply not_elem_of_nil in Hlast|]. simpl.
  destruct (Ascii.eqb_spec c NUL) as [|Hc]; [eauto|].
  apply elem_of_cons in Hlast as [?|Hin]; [congruence|]. destruct (IH Hin) as (l & ->). simpl. eauto.
Qed.

Lemma uwp_read_var n buf (Q : string → ust L → Prop) s :
  (0 < n)%nat → buffer_ok n buf → (∀ l, cstr buf = Some l → Q (text l) s) → uwp (read_var buf) Q s.
Proof.
  intros Hn Hb HQ. destruct (cstr_ok n buf Hn Hb) as (l & El). unfold read_var. rewrite El.
  apply uwp_mret. auto.
Qed.

Lemma copy_var_ok n v : (0 < n)%nat → buffer_ok n (copy_var n v).
Proof.
  intros Hn. unfold copy_var, buffer_ok. rewrite length_insert.
  assert (Hl : length (strncpy n (chars v)) = n).
  { apply length_strncpy. }
  split; [done|]. apply list_lookup_insert_eq. lia.
Qed.
End reads.

(** ** Building *)

Section build.
Context {L : Type} `{!Lvgl L, !LvglLaws L}.
Implicit Types s : ust L.

(** A configuration call on an object that exists. *)
Definition configured_from (o : Z) (v : view) s s' : Prop :=
  lv_view (u_lv s') o = Some v ∧ (∀ o', o' ≠ o → lv_view (u_lv s') o' = lv_view (u_lv s) o') ∧
  objects s' = objects s ∧ app_version s' = app_version s ∧ lvgl_version s' = lvgl_version s ∧
  same_globals s s'.

Lemma uwp_live o (Q : view → ust L → Prop) s v :
  lv_view (u_lv s) o = Some v → Q v s → uwp (live o) Q s.
Proof. intros Hv HQ. unfold live. uwp_steps. rewrite Hv. by uwp_steps. Qed.

Lemma uwp_configure a o s v :
  lv_view (u_lv s) o = Some v → kind_ok a (v_kind v) = true →
  uwp (configure a o) (λ _ s', configured_from o (apply a v) s s') s.
Proof.
  intros Hv Hk. unfold configure. uwp_steps. eapply uwp_live; [done|]. rewrite Hk. uwp_steps.
  assert (H : ∀ s', u_lv s' = u_lv s → objects s' = objects s → app_version s' = app_version s →
    lvgl_version s' = lvgl_version s → same_globals s s' →
    configured_from o (apply a v) s (set_lv (lv_set a o (u_lv s')) s')).
  { intros s' El Eo Ea Elv HG. unfold configured_from. simpl. rewrite El. split_and!; try done.
    - by rewrite (set_view _ _ _ v), decide_True.
    - intros o' Ho'. by rewrite (set_view _ _ _ v), decide_False.
    - apply (same_globals_trans _ s'); [done|]. unfold same_globals. simpl.
      rewrite (set_act _ _ _ v), El by done. tauto. }
  destruct a; simpl; uwp_steps; apply H; try done; apply same_globals_refl.
Qed.

Definition calls (o : Z) : list attr → ui L unit :=
  fix calls l := match l with [] => mret tt | a :: l' => configure a o;; calls l' end.

Lemma uwp_calls l o s v :
  lv_view (u_lv s) o = Some v → forallb (λ a, kind_ok a (v_kind v)) l = true →
  uwp (calls o l) (λ _ s', configured_from o (foldl (λ v a, apply a v) v l) s s') s.
Proof.
  revert s v. induction l as [|a l IH]; intros s v Hv Hk; simpl; uwp_steps.
  { unfold configured_from. split_and!; try done. }
  apply andb_prop in Hk as [Hk Hks].
  eapply uwp_mono; [by apply uwp_configure|]. cbn beta. intros _ s1 (Hv1 & Ho1 & ? & ? & ? & HG1).
  eapply uwp_mono; [apply IH; [done|by rewrite apply_kind]|]. cbn beta.
  intros _ s2 (Hv2 & Ho2 & ? & ? & ? & HG2).
  unfold configured_from. split_and!; try congruence.
  - intros o' Ho'. rewrite Ho2, Ho1; done.
  - by eapply same_globals_trans.
Qed.

Definition blocks (o : Z) : list widget → ui L unit :=
  fix blocks l := match l with [] => mret tt | c :: l' => create_widget c o;; blocks l' end.

(** The screens in [ns] are built. *)
Record partial (ns : list node) s : Prop := {
  p_nodes : has_nodes ns (objects s) (u_lv s);
  p_distinct : distinct ns (objects s);
  p_not_null : ∀ f, f ∈ dests ns → objects s f ≠ NULL;
  p_buffers : buffers_ok s
}.

Lemma dests_snoc k d a ns f :
  f ∈ dests (ns ++ [(k, d, a)]) ↔ f ∈ dests ns ∨ d = Some f.
Proof.
  rewrite dests_app, elem_of_app. destruct d as [g|]; cbn.
  - rewrite list_elem_of_singleton. naive_solver.
  - rewrite elem_of_nil. naive_solver.
Qed.

(** A new object, stored in the node's field. *)
Lemma partial_add k d a ns s s' o v :
  NoDup (dests (ns ++ [(k, d, a)])) → partial ns s →
  o ≠ NULL → lv_view (u_lv s) o = None →
  objects s' = match d with Some f => <[f := o]> (objects s) | None => objects s end →
  (∀ o', o' ≠ o → lv_view (u_lv s') o' = lv_view (u_lv s) o') →
  lv_view (u_lv s') o = Some v → shape v = (k, callbacks a) → buffers_ok s' →
  partial (ns ++ [(k, d, a)]) s'.
Proof.
  intros Hnd [Hn Hd Hnn Hb] Ho Hfresh Eobj Hoth Hv Hs Hb'.
  assert (Hobj : ∀ f, f ∈ dests ns → objects s' f = objects s f).
  { intros f Hf. rewrite Eobj. destruct d as [g|]; [|done].
    rewrite fn_lookup_insert_ne; [done|]. intros ->. rewrite dests_app in Hnd.
    apply NoDup_app in Hnd as (_ & Hnd & _). apply (Hnd _ Hf). cbn. by left. }
  assert (Hnew : ∀ f, d = Some f → objects s' f = o).
  { intros f ->. rewrite Eobj. by rewrite fn_lookup_insert. }
  assert (Hold : ∀ f, f ∈ dests ns → objects s f ≠ o).
  { intros f Hf ->%symmetry. destruct (dests_node _ _ Hf) as (k' & a' & Hin).
    destruct (Hn _ _ _ Hin) as (v' & Hv' & _). congruence. }
  split; [| | |done].
  - intros k' f a'. rewrite elem_of_app, list_elem_of_singleton. intros [Hin|[= -> <- ->]].
    + assert (Hf : f ∈ dests ns) by (eapply dests_elem; eassumption).
      destruct (Hn _ _ _ Hin) as (v' & Hv' & Hs'). exists v'. rewrite Hobj, Hoth by auto. done.
    + rewrite (Hnew _ eq_refl). eauto.
  - intros f g [Hf|Hf]%dests_snoc [Hg|Hg]%dests_snoc Heq.
    + rewrite !Hobj in Heq by done. by apply Hd.
    + rewrite Hobj, (Hnew g) in Heq by done. by destruct (Hold f).
    + rewrite (Hobj g), (Hnew f) in Heq by done. by destruct (Hold g).
    + congruence.
  - intros f [Hf|Hf]%dests_snoc; [rewrite Hobj by done; auto|by rewrite Hnew].
Qed.

Lemma uwp_create_node {A} k d attrs ns parent s (K : Z → ui L A) (Q : A → ust L → Prop) :
  let n : node := ((k, parent =? NULL), d, attrs) in
  NoDup (dests (ns ++ [n])) → forallb (λ a, kind_ok a k) attrs = true → partial ns s →
  (∀ o s', o ≠ NULL → partial (ns ++ [n]) s' → same_globals s s' → uwp (K o) Q s') →
  uwp (o ← create k parent;
       (match d with
        | Some f => modify (λ s, set_objects (<[f := o]> (objects s)) s)
        | None => mret tt
        end);;
       calls o attrs;; K o) Q s.
Proof.
  intros n Hnd Hk Hp HQ. unfold create. uwp_steps.
  destruct (lv_create k parent (u_lv s)) as [o l'] eqn:Ec. uwp_steps.
  destruct (create_fresh _ _ _ _ _ Ec) as [Ho0 Hfresh].
  set (s2 := match d with
             | Some f => set_objects (<[f := o]> (objects s)) (set_lv l' s) | None => set_lv l' s end).
  assert (Hs2 : u_lv s2 = l' ∧ buffers_ok s2 ∧ same_globals s s2 ∧
    objects s2 = match d with Some f => <[f := o]> (objects s) | None => objects s end).
  { subst s2. split_and!; [by destruct d| |
      destruct d; unfold same_globals; simpl; rewrite (create_act _ _ _ _ _ Ec); tauto|by destruct d].
    apply (buffers_ok_eq _ _ (p_buffers _ _ Hp)); by destruct d. }
  destruct Hs2 as (Hlv2 & Hb2 & HG2 & Eo2).
  assert (Hstep : ∀ P : unit → ust L → Prop, P tt s2 →
    uwp match d with
        | Some f => modify (λ s, set_objects (<[f := o]> (objects s)) s)
        | None => mret tt
        end P (set_lv l' s)) by (intros P HP; subst s2; destruct d; by uwp_steps).
  apply Hstep. clear Hstep. clearbody s2. uwp_steps.
  eapply uwp_mono;
    [apply (uwp_calls _ _ _ (new_view k parent)); [|done];
     by rewrite Hlv2, (create_view _ _ _ _ _ _ Ec), decide_True|].
  cbn beta. intros _ s3 (Hv3 & Hoth3 & Eo3 & Ea3 & El3 & HG3). uwp_steps.
  apply HQ; [done| |by eapply same_globals_trans].
  eapply (partial_add _ _ _ _ s); try done; [congruence| |by rewrite shape_configured|].
  - intros o' Ho'. by rewrite Hoth3, Hlv2, (create_view _ _ _ _ _ _ Ec), decide_False.
  - destruct HG3 as (_ & _ & _ & _ & _ & _ & _ & _ & _ & Es & Em). by apply (buffers_ok_eq s2).
Qed.

Lemma create_widget_unfold k d attrs cs parent :
  create_widget (W k d attrs cs) parent =
  (o ← create k parent;
   (match d with
    | Some f => modify (λ s, set_objects (<[f := o]> (objects s)) s)
    | None => mret tt
    end);;
   calls o attrs;; blocks o cs;; mret o).
Proof. reflexivity. Qed.

(** A tree of widgets. *)
Definition builds (w : widget) : Prop := ∀ ns parent s,
  NoDup (dests (ns ++ nodes_of (parent =? NULL) w)) → partial ns s →
  uwp (create_widget w parent)
    (λ _ s', partial (ns ++ nodes_of (parent =? NULL) w) s' ∧ same_globals s s') s.

Lemma NoDup_dests_app_l ns1 ns2 : NoDup (dests (ns1 ++ ns2)) → NoDup (dests ns1).
Proof. rewrite dests_app. by intros (? & _ & _)%NoDup_app. Qed.

Lemma uwp_blocks o cs ns s :
  o ≠ NULL → Forall builds cs → NoDup (dests (ns ++ nodes_all false cs)) → partial ns s →
  uwp (blocks o cs) (λ _ s', partial (ns ++ nodes_all false cs) s' ∧ same_globals s s') s.
Proof.
  intros Ho Hcs. apply Z.eqb_neq in Ho. revert ns s. induction Hcs as [|c cs Hc Hcs IH]; intros ns s Hnd Hp; simpl; uwp_steps.
  { rewrite app_nil_r. auto using same_globals_refl. }
  cbn [nodes_all mbind list_bind] in *. rewrite app_assoc in *.
  pose proof (Hc ns o s) as Hco. rewrite Ho in Hco.
  eapply uwp_mono; [apply Hco; [by eapply NoDup_dests_app_l|done]|].
  cbn beta. intros _ s1 [Hp1 HG1].
  eapply uwp_mono; [by apply (IH _ _ Hnd Hp1)|]. cbn beta. intros _ s2 [Hp2 HG2].
  split; [done|]. by eapply same_globals_trans.
Qed.

Lemma uwp_create_widget w : kinds_ok w = true → builds w.
Proof.
  induction w as [k d attrs cs IH] using widget_rec'. intros [Hk Hks]%andb_prop ns parent s.
  assert (Hcs : Forall builds cs).
  { apply Forall_forall. intros c Hc. rewrite Forall_forall in IH. apply (IH c Hc).
    rewrite forallb_forall in Hks. by apply Hks, list_elem_of_In. }
  rewrite nodes_of_unfold, create_widget_unfold. change (?x :: ?l) with ([x] ++ l).
  rewrite app_assoc. intros Hnd Hp. apply (uwp_create_node _ _ _ ns); [by eapply NoDup_dests_app_l|done|done|].
  intros o s1 Ho Hp1 HG1. uwp_steps. eapply uwp_mono; [by apply (uwp_blocks _ _ _ _ Ho Hcs Hnd Hp1)|].
  cbn beta. intros _ s2 [Hp2 HG2]. uwp_steps. split; [done|]. by eapply same_globals_trans.
Qed.
End build.

(** ** Ticking *)

(** The string a variable's buffer holds. *)
Definition var_text (buf : list ascii) : string :=
  match cstr buf with Some l => text l | None => "" end.

Section tick.
Context {L : Type} `{!Lvgl L, !LvglLaws L}.
Implicit Types s : ust L.
Variable LVGL_VERSION : string.
Hypothesis Hversion : strlen LVGL_VERSION < 32.

Lemma read_var_text n buf s : (0 < n)%nat → buffer_ok n buf → read_var buf s = Some (var_text buf, s).
Proof. intros Hn Hb. destruct (cstr_ok _ _ Hn Hb) as (l & El). unfold read_var, var_text. by rewrite El. Qed.

Lemma get_app_version_run s : buffers_ok s → get_var_app_version s = Some (var_text (app_version s), s).
Proof. intros [? _ _ _]. cbn. by apply (read_var_text 100); [lia|]. Qed.
Lemma get_system_version_run s :
  buffers_ok s → get_var_system_version s = Some (var_text (system_version s), s).
Proof. intros [_ ? _ _]. cbn. by apply (read_var_text 100); [lia|]. Qed.
Lemma get_main_screen_run s : buffers_ok s → get_var_main_screen s = Some (var_text (main_screen s), s).
Proof. intros [_ _ _ ?]. cbn. by apply (read_var_text 32); [lia|]. Qed.

(** The first call of [get_var_lvgl_version] fills its buffer. *)
Definition lvgl_filled s : ust L :=
  if bool_decide (lvgl_version s !! 0%nat = Some NUL) then
    set_app_version (<[31%nat := NUL]> (app_version s))
      (set_lvgl_version (strncpy 32 (chars LVGL_VERSION)) s)
  else s.

Lemma strncpy_ok n v : (0 < n)%nat → strlen v < Z.of_nat n → buffer_ok n (strncpy n (chars v)).
Proof.
  intros Hn Hv. split; [apply length_strncpy|]. unfold strncpy, strlen in *.
  assert (length (chars v) = String.length v) by apply length_chars.
  rewrite lookup_app_r by (rewrite length_take; lia).
  rewrite length_take. apply lookup_replicate_2. lia.
Qed.

Lemma lvgl_filled_ok s : buffers_ok s → buffers_ok (lvgl_filled s).
Proof.
  intros [[Ha1 Ha2] ? ? ?]. unfold lvgl_filled. case_bool_decide; [|by split].
  split; simpl; try done; [|apply strncpy_ok; [lia|exact Hversion]].
  split; [by rewrite length_insert|]. by rewrite list_lookup_insert_ne by done.
Qed.

Lemma get_lvgl_version_run s : buffers_ok s →
  get_var_lvgl_version LVGL_VERSION s = Some (var_text (lvgl_version (lvgl_filled s)), lvgl_filled s).
Proof.
  intros Hb. pose proof (ok_lvgl _ (lvgl_filled_ok _ Hb)) as Hok.
  assert (Hlen : length (lvgl_version s) = 32%nat) by apply Hb.
  unfold get_var_lvgl_version, lvgl_filled in *. ui_run.
  destruct (lvgl_version s) as [|c buf] eqn:E; [done|]. ui_run.
  destruct (Ascii.eqb_spec c NUL) as [->|Hc].
  - rewrite bool_decide_true in Hok |- * by done.
    destruct (Z.leb_spec 32 (strlen LVGL_VERSION)); [lia|]. ui_run. by apply (read_var_text 32); [lia|].
  - rewrite bool_decide_false in Hok |- * by (cbn; congruence). ui_run. rewrite E in *.
    by apply (read_var_text 32); [lia|].
Qed.

(** A label afterwards shows the variable, whether or not its text was set. *)
Lemma uwp_tick_label getter f val s s1 v :
  getter s = Some (val, s1) → objects s1 = objects s →
  lv_view (u_lv s1) (objects s f) = Some v → v_kind v = lv_label →
  uwp (tick_label getter f) (λ _ s', configured_from (objects s f) (with_text val v) s1 s') s.
Proof.
  intros Hg Ho Hv Hk. unfold tick_label. uwp_step. unfold uwp at 1. rewrite Hg. uwp_steps. rewrite Ho.
  unfold label_get_text. uwp_steps. eapply uwp_live; [done|]. rewrite bool_decide_true by done. uwp_steps.
  destruct (streq val (v_text v)) eqn:E;
    [|by apply (uwp_configure (lv_label_set_text val)); [|cbn; apply bool_decide_eq_true_2]].
  apply streq_true in E. uwp_steps. subst val. unfold configured_from. split_and!; try done.
  by destruct v.
Qed.

Definition tick_ok (ns : list node) (m : ui L unit) : Prop :=
  ∀ s, partial ns s → uwp m (λ _ s', partial ns s' ∧ same_globals s s') s.

Lemma configured_partial ns o v v' s s' :
  partial ns s → lv_view (u_lv s) o = Some v → shape v' = shape v →
  configured_from o v' s s' → partial ns s'.
Proof.
  intros [Hn Hd Hnn Hb] Hv Hs (Hv' & Hoth & Eo & Ea & El & HG). split.
  - intros k f a Hin. destruct (Hn _ _ _ Hin) as (w & Hw & Hsw). rewrite Eo.
    destruct (decide (objects s f = o)) as [E|]; [rewrite E in *|rewrite Hoth by done; eauto].
    exists v'. split; [done|]. congruence.
  - by rewrite Eo.
  - by rewrite Eo.
  - destruct HG as (_ & _ & _ & _ & _ & _ & _ & _ & _ & Es & Em). by apply (buffers_ok_eq s).
Qed.

(** [f] is a label. *)
Definition label_in (ns : list node) (f : field) : Prop := ∃ r a, ((lv_label, r), Some f, a) ∈ ns.
Lemma label_in_mono ns ns' f : (∀ n, n ∈ ns → n ∈ ns') → label_in ns f → label_in ns' f.
Proof. intros H (r & a & Hin). exists r, a. auto. Qed.

Lemma tick_label_ok ns getter f :
  label_in ns f →
  (∀ s, buffers_ok s → ∃ val s1, getter s = Some (val, s1) ∧ objects s1 = objects s ∧
     u_lv s1 = u_lv s ∧ buffers_ok s1 ∧ same_globals s s1) →
  tick_ok ns (tick_label getter f).
Proof.
  intros Hf Hget s Hp. destruct (Hget _ (p_buffers _ _ Hp)) as (val & s1 & Hg & Eo & El & Hb1 & HG1).
  destruct Hf as (r & a & Hin). destruct (p_nodes _ _ Hp _ _ _ Hin) as (v & Hv & Hsh).
  assert (Hk : v_kind v = lv_label) by (unfold shape in Hsh; congruence).
  assert (Hp1 : partial ns s1).
  { destruct Hp as [Hn Hd Hnn _]. split; rewrite ?Eo, ?El; done. }
  eapply uwp_mono; [eapply uwp_tick_label; [done|done|by rewrite El|done]|].
  cbn beta. intros _ s' Hc. split.
  - apply (configured_partial _ _ v _ _ _ Hp1) in Hc; [done|by rewrite El|done].
  - eapply same_globals_trans; [done|]. apply Hc.
Qed.

Lemma tick_bind_ok ns m1 m2 : tick_ok ns m1 → tick_ok ns m2 → tick_ok ns (m1;; m2).
Proof.
  intros H1 H2 s Hp. uwp_steps. eapply uwp_mono; [by apply H1|]. cbn beta. intros _ s1 [Hp1 HG1].
  eapply uwp_mono; [by apply H2|]. cbn beta. intros _ s2 [Hp2 HG2].
  split; [done|]. by eapply same_globals_trans.
Qed.
Lemma tick_none_ok ns : tick_ok ns tick_screen_none.
Proof. intros s Hp. apply uwp_mret. auto using same_globals_refl. Qed.
Lemma tick_boot_ok ns : label_in ns o_boot_screen_version → tick_ok ns tick_screen_boot_screen.
Proof.
  intros Hf. apply tick_label_ok; [done|]. intros s Hb.
  eexists _, _. rewrite get_app_version_run by done. split_and!; done || apply same_globals_refl.
Qed.
Lemma tick_about_ok ns :
  label_in ns o_system_version → label_in ns o_app_version → label_in ns o_lvgl_version →
  tick_ok ns (tick_screen_about_screen LVGL_VERSION).
Proof.
  intros H1 H2 H3. unfold tick_screen_about_screen.
  repeat apply tick_bind_ok; apply tick_label_ok; try done; intros s Hb; eexists _, _;
    [rewrite get_system_version_run by done|rewrite get_app_version_run by done|
     rewrite get_lvgl_version_run by done]; split_and!; try done.
  all: try (by apply lvgl_filled_ok).
  all: unfold lvgl_filled, same_globals; by case_bool_decide.
Qed.

Definition has_label (ns : list node) (f : field) : bool :=
  existsb (λ n : node, bool_decide (n.1.2 = Some f) && bool_decide (n.1.1.1 = lv_label)) ns.
Lemma has_label_in ns f : has_label ns f = true → label_in ns f.
Proof.
  intros ([[[k r] d] a] & Hin & [H1 H2]%andb_prop)%existsb_exists. cbn in *.
  apply bool_decide_eq_true in H1, H2. subst. exists r, a. by apply list_elem_of_In.
Qed.

(** Every tick function, once its screen is built. *)
Lemma tick_funcs_ok :
  Forall (λ '(w, tick), ∀ ns, (∀ n, n ∈ nodes_of true w → n ∈ ns) → tick_ok ns tick)
    (zip screen_widgets (tick_screen_funcs LVGL_VERSION)).
Proof.
  repeat apply Forall_cons_2; try apply Forall_nil_2; intros ns Hns; try apply tick_none_ok.
  - apply tick_boot_ok. eapply label_in_mono; [exact Hns|]. by apply has_label_in.
  - apply tick_about_ok; (eapply label_in_mono; [exact Hns|]); by apply has_label_in.
Qed.
End tick.

(** ** Screens *)

Section init.
Context {L : Type} `{!Lvgl L, !LvglLaws L}.
Implicit Types s : ust L.
Variable LVGL_VERSION : string.
Hypothesis Hversion : strlen LVGL_VERSION < 32.

Lemma partial_nil s : buffers_ok s → partial [] s.
Proof. split; [| | |done]; intros ? **; by (exfalso; eapply not_elem_of_nil; eassumption). Qed.

Lemma uwp_create_each l ns s :
  Forall (λ '(w, tick), ∀ ns, (∀ n, n ∈ nodes_of true w → n ∈ ns) → tick_ok ns tick) l →
  Forall (λ w, kinds_ok w = true) l.*1 →
  NoDup (dests (ns ++ nodes_all true l.*1)) → partial ns s →
  uwp (create_each l) (λ _ s', partial (ns ++ nodes_all true l.*1) s' ∧ same_globals s s') s.
Proof.
  intros Hl. revert ns s. induction Hl as [|[w tick] l Hw Hl IH]; intros ns s Hk Hnd Hp; simpl; uwp_steps.
  { rewrite app_nil_r. auto using same_globals_refl. }
  cbn [nodes_all mbind list_bind fmap list_fmap fst] in *. rewrite app_assoc in *.
  apply Forall_cons in Hk as [Hkw Hk].
  eapply uwp_mono; [by apply (uwp_create_widget w Hkw ns NULL); [eapply NoDup_dests_app_l|]|].
  cbn beta. intros _ s1 [Hp1 HG1].
  uwp_steps. eapply uwp_mono; [apply (Hw (ns ++ nodes_of true w)); [|done]|].
  { intros n Hn. rewrite elem_of_app. by right. }
  cbn beta. intros _ s2 [Hp2 HG2].
  eapply uwp_mono; [by apply (IH _ _ Hk Hnd Hp2)|]. cbn beta. intros _ s3 [Hp3 HG3].
  split; [done|]. eauto using same_globals_trans.
Qed.

Lemma uwp_create_screens s : buffers_ok s →
  uwp (create_screens LVGL_VERSION) (λ _ s', partial ui_nodes s' ∧ same_globals s s') s.
Proof.
  intros Hb.
  assert (E : (zip screen_widgets (tick_screen_funcs LVGL_VERSION)).*1 = screen_widgets) by done.
  eapply uwp_mono.
  - apply (uwp_create_each _ [] _ (tick_funcs_ok _ Hversion)); [| |by apply partial_nil];
      rewrite E; [apply screens_kinds|apply all_dests].
  - cbn beta. rewrite E. done.
Qed.

(** A screen switch. *)
Definition switched (i : Z) (f : field) s : ust L :=
  set_lv (lv_scr_load (objects s f) (u_lv s)) (set_currentScreen i s).

Lemma uwp_loadScreen id f v s (Q : unit → ust L → Prop) :
  lv_view (u_lv s) (objects s f) = Some v → is_screen v = true → 1 ≤ id ≤ 12 → all_fields !! Z.to_nat (id - 1) = Some f →
  Q tt (switched (id - 1) f s) → uwp (loadScreen id) Q s.
Proof.
  intros Hv Hsc Hid Hf HQ. unfold loadScreen, getLvglObjectFromIndex.
  assert (E : s16 (id - 1) = id - 1) by (unfold s16; rewrite Z.mod_small; lia).
  rewrite E. uwp_steps. destruct (Z.eqb_spec (id - 1) (-1)); [lia|].
  unfold load. rewrite decide_True, Hf by lia. uwp_steps.
  unfold scr_load. uwp_steps.
  eapply uwp_live; [exact Hv|]. rewrite Hsc. by uwp_steps.
Qed.

Lemma switched_wf i f s : partial ui_nodes s → 0 ≤ i < 12 → ui_wf (switched i f s).
Proof.
  intros [Hn Hd Hnn Hb] Hi. split; try done; [|intros g; apply Hnn, all_dests|by apply (buffers_ok_eq s)].
  intros k g a Hin. destruct (Hn _ _ _ Hin) as (v & Hv & Hs). exists v. split; [|done].
  cbn. by rewrite load_view.
Qed.

Lemma switched_wf' i f s : ui_wf s → 0 ≤ i < 12 → ui_wf (switched i f s).
Proof. intros [_ ? ? ? ? _] ?. by apply switched_wf. Qed.

Lemma uwp_ui_init s : buffers_ok s →
  uwp (ui_init LVGL_VERSION) (λ _ s', ui_wf s' ∧
    lv_scr_act (u_lv s') = objects s' o_boot_screen ∧ currentScreen s' = 0 ∧
    u_out s' = u_out s ∧ holds s' = holds s ∧
    system_version s' = system_version s ∧ main_screen s' = main_screen s) s.
Proof.
  intros Hb. unfold ui_init. uwp_steps. eapply uwp_mono; [by apply uwp_create_screens|].
  cbn beta. intros _ s1 [Hp (_ & _ & _ & Eu & Eh & _ & _ & _ & _ & Es & Em)].
  destruct (has_nodes_view _ _ o_boot_screen (p_nodes _ _ Hp)) as (v & Hv & _ & Hsc).
  apply (uwp_loadScreen _ o_boot_screen v); try done.
  split; [by apply switched_wf|]. cbn. by rewrite load_act, Eu.
Qed.
End init.

(** The globals as the program starts, over the LVGL instance. *)
Definition ui_blank : ust store :=
  Ust (Store [] 0) (λ _, NULL) (λ _, None) (-1)
    (replicate 100 NUL) (replicate 100 NUL) (replicate 32 NUL) (copy_var 32 "home_screen")
    false [] (λ _, HoldState 0 false false) 0 270 LV_DISP_ROTATION_0 None.

Lemma ui_blank_ok : buffers_ok ui_blank.
Proof. by split; split. Qed.

(** The interface as it runs, started and with its RPC handler. *)
Definition ui_started : ust store :=
  match ui_init "9.2.2" ui_blank with Some (_, s) => set_rpc_handler true s | None => ui_blank end.

Lemma ui_started_wf : ui_wf ui_started ∧ u_out ui_started = [].
Proof.
  assert (HV : strlen "9.2.2" < 32) by done.
  destruct (uwp_run _ _ _ (uwp_ui_init "9.2.2" HV ui_blank ui_blank_ok))
    as ([] & s' & E & [Ho Hn Hd Hnn Hb Hc] & _ & _ & Er & _).
  unfold ui_started. rewrite E. clear E. split; [|exact Er]. split; try done. by apply (buffers_ok_eq s').
Qed.

(** C8: Starting the interface. From any state whose variables are in good order,
    [ui_init] neither dereferences a bad pointer nor overruns a buffer: it
    builds every widget of the twelve screens, so that each of the 103 fields of
    [objects] holds an object of its own, not NULL, of the kind and with the event
    handlers screens.c gives it, ticks each screen as it is built, and leaves
    the boot screen active, in LVGL and in [currentScreen]; no RPC is called,
    nothing is logged and the variables set from outside are kept. *)
Theorem ui_init_builds {L} `{!Lvgl L, !LvglLaws L} LVGL_VERSION (s : ust L) :
  strlen LVGL_VERSION < 32 → buffers_ok s →
  ∃ s', ui_init LVGL_VERSION s = Some (tt, s') ∧ ui_wf s' ∧
    lv_scr_act (u_lv s') = objects s' o_boot_screen ∧ currentScreen s' = 0 ∧
    u_out s' = u_out s ∧ holds s' = holds s ∧
    system_version s' = system_version s ∧ main_screen s' = main_screen s.
Proof.
  intros HV Hb. destruct (uwp_run _ _ _ (uwp_ui_init _ HV s Hb)) as ([] & s' & ? & ?). eauto.
Qed.

Lemma ui_init_builds_witness :
  ∃ s', ui_init "9.2.2" ui_blank = Some (tt, s') ∧ ui_wf s' ∧
    lv_scr_act (u_lv s') = objects s' o_boot_screen ∧ currentScreen s' = 0.
Proof.
  destruct (ui_init_builds "9.2.2" ui_blank) as (s' & H1 & H2 & H3 & H4 & _);
    [done|apply ui_blank_ok|]. exact (ex_intro _ s' (conj H1 (conj H2 (conj H3 H4)))).
Defined.
