(* ===== verification/UiSafe.v ===== *)
(** * The interface never goes wrong

    Every operation of the display, from Go ([jetkvm_ui_*]) or from LVGL (events,
    ticks), keeps the invariant of [UiBuild] and never dereferences a bad pointer
    or overruns a buffer, so neither does any sequence of them. *)
From stdpp Require Import functions.
From S2P Require Import Prelude Lvgl UiStyles UiScreens Ui UiActions UiControl UiBuild.

(** The RPCs the display may ask for, and the log messages the buffer has room for. *)
Definition rpc_methods : list string := ["resetConfig"; "toggleDHCPClient"; "reboot"].
Definition out_ok (o : ui_output) : Prop :=
  match o with OutRpc m => m ∈ rpc_methods | OutLog _ _ _ _ message => strlen message < 1024 end.
(** [out] follows [base]. *)
Definition sent_ok (base out : list ui_output) : Prop := ∃ outs, out = base ++ outs ∧ Forall out_ok outs.
Lemma sent_ok_refl base : sent_ok base base.
Proof. exists []. by rewrite app_nil_r. Qed.
Lemma sent_ok_put base out o : out_ok o → sent_ok base out → sent_ok base (out ++ [o]).
Proof.
  intros Ho (outs & -> & Houts). exists (outs ++ [o]). rewrite <- app_assoc. split; [done|].
  apply Forall_app. auto.
Qed.

Section safe.
Context {L : Type} `{!Lvgl L, !LvglLaws L}.
Context (objs : field → Z) (base : list ui_output).
Implicit Types s : ust L.

Definition sound s : Prop := wf objs s ∧ sent_ok base (u_out s).
Definition safe {A} (m : ui L A) : Prop := ∀ s, sound s → uwp m (λ _, sound) s.

(** ** What keeps the invariant *)

Lemma wf_ext s s' :
  wf objs s → objects s' = objects s → u_lv s' = u_lv s → app_version s' = app_version s →
  system_version s' = system_version s → lvgl_version s' = lvgl_version s →
  main_screen s' = main_screen s → currentScreen s' = currentScreen s → wf objs s'.
Proof.
  intros [Ho Hn Hd Hnn Hb Hc] Eo El E1 E2 E3 E4 E5.
  split; rewrite ?Eo, ?El, ?E5; try done. by apply (buffers_ok_eq s).
Qed.
Lemma wf_buffers_change s s' :
  wf objs s → objects s' = objects s → u_lv s' = u_lv s → currentScreen s' = currentScreen s →
  buffers_ok s' → wf objs s'.
Proof. intros [Ho Hn Hd Hnn Hb Hc] Eo El E5 Hb'. split; rewrite ?Eo, ?El, ?E5; done. Qed.

Lemma safe_mret {A} (a : A) : safe (mret a).
Proof. intros s Hs. by apply uwp_mret. Qed.
Lemma safe_bind {A B} (m : ui L A) (f : A → ui L B) :
  safe m → (∀ a, safe (f a)) → safe (m ≫= f).
Proof.
  intros Hm Hf s Hs. apply uwp_bind. eapply uwp_mono; [by apply Hm|]. cbn beta. intros a s' Hs'.
  by apply Hf.
Qed.
Lemma safe_fmap {A B} (g : A → B) (m : ui L A) : safe m → safe (g <$> m).
Proof. intros Hm s Hs. apply uwp_fmap. by apply Hm. Qed.
Lemma safe_get {A} (f : ust L → ui L A) :
  (∀ s, sound s → safe (f s)) → safe (get ≫= f).
Proof. intros Hf s Hs. uwp_steps. by apply Hf. Qed.
Lemma safe_modify f :
  (∀ s, sound s → sound (f s)) → safe (modify f : ui L unit).
Proof. intros Hf s Hs. apply uwp_modify. auto. Qed.
Lemma safe_when b (m : ui L unit) : (b = true → safe m) → safe (ui_when b m).
Proof. intros Hm. destruct b; [by apply Hm|apply safe_mret]. Qed.

(** A change of globals outside the invariant. *)
Lemma safe_modify_other f :
  (∀ s, objects (f s) = objects s ∧ u_lv (f s) = u_lv s ∧ app_version (f s) = app_version s ∧
    system_version (f s) = system_version s ∧ lvgl_version (f s) = lvgl_version s ∧
    main_screen (f s) = main_screen s ∧ currentScreen (f s) = currentScreen s ∧
    u_out (f s) = u_out s) →
  safe (modify f : ui L unit).
Proof.
  intros Hf. apply safe_modify. intros s [Hwf Hr].
  destruct (Hf s) as (? & ? & ? & ? & ? & ? & ? & Er). split; [by apply (wf_ext s)|by rewrite Er].
Qed.

(** ** Objects *)

Lemma live_obj s f : sound s →
  ∃ v, lv_view (u_lv s) (objs f) = Some v ∧ v_kind v = (field_kind f).1 ∧ is_screen v = (field_kind f).2.
Proof. intros [Hwf _]. apply has_nodes_view, Hwf. Qed.

Lemma configured_wf o v v' s s' :
  wf objs s → lv_view (u_lv s) o = Some v → shape v' = shape v →
  configured_from o v' s s' → wf objs s'.
Proof.
  intros [Ho Hn Hd Hnn Hb Hc] Hv Hs (Hv' & Hoth & Eo & Ea & El & HG).
  destruct HG as (_ & Ec & _ & Er & _ & _ & _ & _ & _ & Es & Em).
  split; rewrite ?Eo, ?Ec; try done; [|by apply (buffers_ok_eq s)].
  intros k f a Hin. destruct (Hn _ _ _ Hin) as (w & Hw & Hsw).
  destruct (decide (objs f = o)) as [E|]; [|rewrite Hoth by done; eauto].
  rewrite E in *. exists v'. split; [done|]. congruence.
Qed.
Lemma configured_sound o v v' s s' :
  sound s → lv_view (u_lv s) o = Some v → shape v' = shape v →
  configured_from o v' s s' → sound s'.
Proof.
  intros [Hwf Hr] Hv Hs Hc. split; [by eapply configured_wf|].
  destruct Hc as (_ & _ & _ & _ & _ & _ & _ & _ & Er & _). by rewrite Er.
Qed.

Lemma safe_configure a f :
  is_callback a = false → kind_ok a (field_kind f).1 = true → safe (configure a (objs f)).
Proof.
  intros Ha Hk s Hs. destruct (live_obj s f Hs) as (v & Hv & Hkv & _).
  eapply uwp_mono; [by apply uwp_configure; [|by rewrite Hkv]|]. cbn beta. intros _ s' Hc.
  eapply configured_sound; [done|done| |done]. by apply shape_apply.
Qed.
Lemma safe_label_get_text f : (field_kind f).1 = lv_label → safe (label_get_text (objs f)).
Proof.
  intros Hf s Hs. destruct (live_obj s f Hs) as (v & Hv & Hk & _). unfold label_get_text. uwp_steps.
  eapply uwp_live; [done|]. rewrite bool_decide_true by congruence. by uwp_steps.
Qed.
Lemma safe_log m file func line msg : strlen msg < 1024 → safe (log m file func line msg).
Proof.
  intros Hm s [Hwf Hr]. apply uwp_log; [done|]. split; [by apply (wf_ext s)|].
  by apply sent_ok_put.
Qed.
Lemma sound_load o s : sound s → sound (set_lv (lv_scr_load o (u_lv s)) s).
Proof.
  intros [[Ho Hn Hd Hnn Hb Hc] Hr]. split; [|done]. split; try done; [|by apply (buffers_ok_eq s)].
  intros k g a Hin. destruct (Hn _ _ _ Hin) as (v & Hv & Hs). exists v. cbn. by rewrite load_view.
Qed.
Lemma safe_scr_load f : (field_kind f).2 = true → safe (scr_load (objs f)).
Proof.
  intros Hf s Hs. destruct (live_obj s f Hs) as (v & Hv & _ & Hsc). unfold scr_load. uwp_steps.
  eapply uwp_live; [done|]. rewrite Hsc, Hf. uwp_steps. by apply sound_load.
Qed.
(** The first twelve fields are the screens. *)
Lemma screens_first i f : (i < 12)%nat → all_fields !! i = Some f → (field_kind f).2 = true.
Proof.
  intros Hi. do 12 (destruct i as [|i]; [intros [= <-]; by vm_compute|]). lia.
Qed.
Lemma safe_loadScreen id : 1 ≤ id ≤ 12 → safe (loadScreen id).
Proof.
  intros Hid s Hs. pose proof (wf_objects _ _ (proj1 Hs)) as Eo.
  destruct (lookup_lt_is_Some_2 all_fields (Z.to_nat (id - 1))) as (f & Hf);
    [change (length all_fields) with 103%nat; lia|].
  destruct (live_obj s f Hs) as (v & Hv & _ & Hsc).
  apply (uwp_loadScreen _ f v); try done;
    [by rewrite Eo|by rewrite Hsc, (screens_first (Z.to_nat (id - 1))) by (done || lia)|]. unfold switched.
  destruct Hs as [Hwf Hr].
  assert (Hs' : sound (set_currentScreen (id - 1) s)).
  { split; [|done]. destruct Hwf. split; try done; [by apply (buffers_ok_eq s)|cbn; lia]. }
  exact (sound_load (objects s f) _ Hs').
Qed.

(** Only the object of one field changes. *)
Definition field_changed (f : field) (a : attr) s s' : Prop :=
  wf objs s' ∧ same_globals s s' ∧ app_version s' = app_version s ∧
  lvgl_version s' = lvgl_version s ∧
  (∃ v, lv_view (u_lv s) (objs f) = Some v ∧ lv_view (u_lv s') (objs f) = Some (apply a v)) ∧
  (∀ o, o ≠ objs f → lv_view (u_lv s') o = lv_view (u_lv s) o).

Lemma uwp_configure_field a f s :
  wf objs s → is_callback a = false → kind_ok a (field_kind f).1 = true →
  uwp (configure a (objs f)) (λ _ s', field_changed f a s s') s.
Proof.
  intros Hwf Ha Hk. destruct (has_nodes_view _ _ f (wf_nodes _ _ Hwf)) as (v & Hv & Hkv & _).
  eapply uwp_mono; [by apply uwp_configure; [|by rewrite Hkv]|]. cbn beta. intros _ s' Hc.
  assert (Hwf' : wf objs s') by (eapply configured_wf; [done|exact Hv|by apply shape_apply|done]).
  destruct Hc as (Hv' & Hoth & Eo & Ea & El & HG). split_and!; try done. eauto.
Qed.

Lemma sound_objects s : sound s → objects s = objs.
Proof. intros [Hwf _]. apply Hwf. Qed.
End safe.

(** The lengths of the log messages. *)
Lemma strlen_app a b : strlen (a ++ b) = strlen a + strlen b.
Proof.
  unfold strlen. induction a as [|c a IH]; [done|].
  change (Z.of_nat (S (String.length (a ++ b))) = Z.of_nat (S (String.length a)) + Z.of_nat (String.length b)). lia.
Qed.
Lemma strlen_decimal fuel n : strlen (decimal fuel n) ≤ Z.of_nat fuel.
Proof.
  revert n. induction fuel as [|fuel IH]; intros n; [done|]. cbn [decimal].
  destruct (n <? 10); [unfold strlen; simpl; lia|]. rewrite strlen_app. specialize (IH (n / 10)).
  unfold strlen at 2. simpl. lia.
Qed.
Ltac log_fits :=
  rewrite ?strlen_app;
  repeat match goal with
  | |- context [strlen (decimal 5 ?r)] =>
      let H := fresh in pose proof (strlen_decimal 5 r) as H; revert H; generalize (strlen (decimal 5 r)); intros ? ?
  | |- context [strlen ?s] => let n := eval vm_compute in (strlen s) in change (strlen s) with n
  end; lia.

Create HintDb safe.
#[export] Hint Resolve safe_mret safe_loadScreen safe_label_get_text safe_scr_load : safe.
(** Go through a computation; what is left are the conditions of its calls. *)
Ltac safe_step :=
  match goal with
  | |- safe _ _ (get ≫= _) => apply safe_get; [..|intros ? ?]
  | |- safe _ _ (_ ≫= _) => apply safe_bind; [|intros ?]
  | |- safe _ _ (_ <$> _) => apply safe_fmap
  | |- safe _ _ (ui_when _ _) => apply safe_when; intros ?
  | |- safe _ _ (if ?b then _ else _) => destruct b eqn:?
  | |- safe _ _ (modify _) => apply safe_modify_other; intros ?; by split_and!
  | |- safe _ _ (configure _ _) => apply safe_configure; [by simpl|first [by simpl|by vm_compute|idtac]]
  | |- safe _ _ (log _ _ _ _ _) => apply safe_log
  | |- safe _ _ _ => solve [auto with safe lia]
  end.
Ltac safe_steps := repeat (safe_step; cbn beta).

Section actions.
Context {L : Type} `{!Lvgl L, !LvglLaws L}.
Context (objs : field → Z) (base : list ui_output).
Implicit Types s : ust L.
#[local] Abbreviation safe := (safe (L := L) objs base).

(** ** Variables *)

Lemma safe_read (m : ui L string) (val : ust L → string) :
  (∀ s, buffers_ok s → m s = Some (val s, s)) → safe m.
Proof. intros Hm s Hs. unfold uwp. rewrite Hm; [done|]. apply Hs. Qed.
Lemma safe_get_app : safe get_var_app_version.
Proof. eapply safe_read. apply get_app_version_run. Qed.
Lemma safe_get_system : safe get_var_system_version.
Proof. eapply safe_read. apply get_system_version_run. Qed.
Lemma safe_get_main : safe get_var_main_screen.
Proof. eapply safe_read. apply get_main_screen_run. Qed.

Lemma safe_get_lvgl V : strlen V < 32 → safe (get_var_lvgl_version V).
Proof.
  intros HV s [Hwf Hr]. pose proof (wf_buffers _ _ Hwf) as Hb. unfold uwp.
  rewrite (get_lvgl_version_run _ HV) by done.
  pose proof (lvgl_filled_ok _ HV _ Hb) as Hb'. revert Hb'. unfold lvgl_filled.
  case_bool_decide; [|by split]. intros Hb'. split; [|done].
  by apply (wf_buffers_change _ s).
Qed.

Lemma safe_set_var (set : list ascii → ust L → ust L) n v :
  (∀ s buf, sound objs base s → buffer_ok n buf → sound objs base (set buf s)) → (0 < n)%nat →
  safe (modify (set (copy_var n v))).
Proof. intros Hset Hn. apply safe_modify. intros s Hs. apply Hset; [done|]. by apply copy_var_ok. Qed.
Lemma safe_set_app v : safe (set_var_app_version v).
Proof.
  apply safe_set_var; [|lia]. intros s buf [Hwf Hr] Hb. split; [|done].
  apply (wf_buffers_change _ s); try done. by destruct (wf_buffers _ _ Hwf).
Qed.
Lemma safe_set_system v : safe (set_var_system_version v).
Proof.
  apply safe_set_var; [|lia]. intros s buf [Hwf Hr] Hb. split; [|done].
  apply (wf_buffers_change _ s); try done. by destruct (wf_buffers _ _ Hwf).
Qed.
Lemma safe_set_main v : safe (set_var_main_screen v).
Proof.
  apply safe_set_var; [|lia]. intros s buf [Hwf Hr] Hb. split; [|done].
  apply (wf_buffers_change _ s); try done. by destruct (wf_buffers _ _ Hwf).
Qed.

(** ** Event handlers *)

Lemma safe_rpc m : m ∈ rpc_methods → safe (ui_call_rpc_handler m).
Proof.
  intros Hm. unfold ui_call_rpc_handler, put. safe_steps. apply safe_modify.
  intros s' [Hwf Hr]. split; [by apply (wf_ext _ s')|]. by apply sent_ok_put.
Qed.

Lemma safe_hold e h : safe (hold_action h e).
Proof.
  unfold hold_action, handle_hold_action. apply safe_get. intros s Hs.
  rewrite (sound_objects _ _ _ Hs). unfold set_hold.
  destruct h; cbn; apply safe_get; intros s1 Hs1; destruct (lv_event_get_code e); safe_steps;
    try (apply safe_rpc; unfold rpc_methods; set_solver).
Qed.

Lemma safe_gesture e d id : 1 ≤ id ≤ 12 → safe (handle_gesture_screen_switch e d id).
Proof. intros Hid. unfold handle_gesture_screen_switch. safe_steps. Qed.
Lemma safe_main_gesture e d : safe (handle_gesture_main_screen_switch e d).
Proof.
  unfold handle_gesture_main_screen_switch. apply safe_bind; [apply safe_get_main|intros m].
  safe_steps; apply safe_loadScreen; unfold SCREEN_ID_HOME_SCREEN, SCREEN_ID_NO_NETWORK_SCREEN; lia.
Qed.

Lemma safe_perform_action a e : safe (perform_action a e).
Proof.
  destruct a; cbn; try apply safe_hold; try apply safe_main_gesture;
    try (apply safe_loadScreen; by vm_compute);
    (apply safe_bind; [apply safe_gesture; by vm_compute|intros; apply safe_mret]).
Qed.
Lemma safe_call_handlers l e : safe (call_handlers l e).
Proof.
  induction l as [|[a c] l IH]; cbn; [apply safe_mret|].
  apply safe_bind; [|done]. apply safe_when. intros _. apply safe_perform_action.
Qed.
End actions.
#[export] Hint Resolve safe_get_app safe_get_system safe_get_main safe_get_lvgl safe_set_app
  safe_set_system safe_set_main safe_rpc safe_hold safe_gesture safe_main_gesture
  safe_perform_action safe_call_handlers : safe.

Section control.
Context {L : Type} `{!Lvgl L, !LvglLaws L}.
Context (objs : field → Z) (base : list ui_output).
Implicit Types s : ust L.
#[local] Abbreviation safe := (safe (L := L) objs base).

(** ** Ticks *)

Lemma safe_tick_label getter f :
  (field_kind f).1 = lv_label → safe getter → safe (tick_label getter f).
Proof.
  intros Hf Hg. unfold tick_label. apply safe_bind; [done|intros val]. apply safe_get.
  intros s Hs. rewrite (sound_objects _ _ _ Hs). safe_steps.
  cbn. by rewrite Hf.
Qed.

Variable ui_objects : list (string * field).
Variable ui_styles : list (string * ui_style).
Variable ui_vars : list (string * ui_var).
Variable LVGL_VERSION : string.
Hypothesis Hversion : strlen LVGL_VERSION < 32.

Lemma safe_ui_tick : safe (ui_tick LVGL_VERSION).
Proof.
  unfold ui_tick. intros s Hs. uwp_steps. unfold tick_screen, load.
  pose proof (wf_screen _ _ (proj1 Hs)) as Hc. rewrite decide_True by lia.
  assert (Hall : Forall safe (tick_screen_funcs LVGL_VERSION)).
  { unfold tick_screen_funcs, tick_screen_none, tick_screen_boot_screen, tick_screen_about_screen.
    repeat apply Forall_cons_2; try apply Forall_nil_2; safe_steps;
      (apply safe_tick_label; [by vm_compute|auto with safe]). }
  destruct (lookup_lt_is_Some_2 (tick_screen_funcs LVGL_VERSION) (Z.to_nat (currentScreen s)))
    as (f & Hf); [change (length (tick_screen_funcs LVGL_VERSION)) with 12%nat; lia|].
  rewrite Hf. rewrite Forall_lookup in Hall. by apply (Hall _ _ Hf).
Qed.

(** ** Named objects and styles *)

Lemma safe_on_obj {A} name (K : Z → ui L A) :
  safe (K NULL) → (∀ f, safe (K (objs f))) → safe (ui_get_obj ui_objects name ≫= K).
Proof.
  intros H0 Hf s Hs. unfold ui_get_obj. destruct (find_name name ui_objects) as [f|].
  - uwp_steps. rewrite (sound_objects _ _ _ Hs). by apply Hf.
  - uwp_steps. by apply H0.
Qed.

Lemma style_table_insert (t : style_table) st st' x :
  (<[st := x]> t : style_table) st' = if decide (st = st') then x else t st'.
Proof. case_decide; [subst; apply fn_lookup_insert|by apply fn_lookup_insert_ne]. Qed.
Lemma get_style_some st t : ∃ style, (get_style st t).2 st = Some style.
Proof.
  rewrite get_style_static. unfold get_static. destruct (t st) eqn:E; [eauto|].
  eexists. apply fn_lookup_insert.
Qed.
Lemma get_style_keeps st st' t style : t st' = Some style → ∃ style', (get_style st t).2 st' = Some style'.
Proof.
  intros H. rewrite get_style_static. unfold get_static. destruct (t st) eqn:E; [eauto|].
  exists style. change ((<[st := Some (init_style st [])]> t) st' = Some style).
  rewrite fn_lookup_insert_ne; [done|congruence].
Qed.

(** With its style objects created, setting the paddings is safe. *)
Lemma uwp_style_set st p v (Q : unit → ust L → Prop) s style :
  styles s st = Some style →
  Q tt (set_styles (<[st := Some (lv_style_set p v style)]> (styles s)) s) →
  uwp (style_set st p v) Q s.
Proof. intros Hst HQ. unfold style_set. uwp_steps. rewrite Hst. by uwp_steps. Qed.

Lemma sound_styles t s : sound objs base s → sound objs base (set_styles t s).
Proof. intros [Hwf Hr]. split; [by apply (wf_ext _ s)|done]. Qed.

Lemma safe_style_set st p v (K : unit → ui L unit) (P : style_table → Prop) s :
  sound objs base s → P (styles s) → (∀ t, P t → ∃ style, t st = Some style) →
  (∀ t st style, P t → P (<[st := Some style]> t)) →
  (∀ s, sound objs base s → P (styles s) → uwp (K tt) (λ _, sound objs base) s) →
  uwp (style_set st p v ≫= K) (λ _, sound objs base) s.
Proof.
  intros Hs HP Hst Hins HK. uwp_steps. destruct (Hst _ HP) as (style & Hstyle).
  eapply uwp_style_set; [done|]. apply HK; [by apply sound_styles|]. by apply Hins.
Qed.

Lemma set_pads_safe st1 st2 l r s :
  sound objs base s → (∃ x, styles s st1 = Some x) → (∃ x, styles s st2 = Some x) →
  uwp (set_pads st1 st2 l r) (λ _, sound objs base) s.
Proof.
  intros Hs H1 H2.
  set (P := λ t : style_table, (∃ x, t st1 = Some x) ∧ (∃ x, t st2 = Some x)).
  assert (Hins : ∀ t st style, P t → P (<[st := Some style]> t)).
  { intros t st style [[x Hx] [y Hy]]. split; rewrite style_table_insert; case_decide; eauto. }
  assert (HP : P (styles s)) by done. clear H1 H2. unfold set_pads.
  do 3 (eapply (safe_style_set _ _ _ _ P); [done|done|by intros t []|done|]; clear s Hs HP; intros s Hs HP).
  destruct (proj2 HP) as (x & Hx). eapply uwp_style_set; [exact Hx|]. by apply sound_styles.
Qed.

Lemma safe_calibration : safe apply_touch_calibration.
Proof. unfold apply_touch_calibration. safe_steps; log_fits. Qed.
Lemma safe_discovery is_abs : safe (evdev_discovery_cb is_abs).
Proof.
  unfold evdev_discovery_cb. destruct is_abs; cbn [negb]; [|apply safe_mret].
  safe_steps; try apply safe_calibration; log_fits.
Qed.

Lemma uwp_get_style name s :
  sound objs base s →
  uwp (ui_get_style ui_styles name)
    (λ r s', sound objs base s' ∧ (∀ st, (∃ x, styles s st = Some x) → ∃ x, styles s' st = Some x) ∧
       match r with Some st => ∃ x, styles s' st = Some x | None => True end) s.
Proof.
  intros Hs. unfold ui_get_style. destruct (find_name name ui_styles) as [st|]; uwp_steps; [|by eauto].
  split_and!; [by apply sound_styles| |apply get_style_some].
  intros st' (x & Hx). by eapply get_style_keeps.
Qed.

Lemma safe_set_rotation r : safe (lvgl_set_rotation ui_styles r).
Proof.
  unfold lvgl_set_rotation, set_display_rotation. apply safe_bind; [apply safe_log; log_fits|intros _].
  apply safe_bind; [safe_steps; log_fits|intros _].
  apply safe_bind; [safe_steps|intros _]. apply safe_bind; [apply safe_calibration|intros _].
  intros s Hs. uwp_steps. eapply uwp_mono; [by apply uwp_get_style|]. cbn beta.
  intros [st1|] s1 (Hs1 & _ & H1); [|apply (safe_log objs base); [log_fits|done]]. uwp_steps.
  eapply uwp_mono; [by apply uwp_get_style|]. cbn beta.
  intros [st2|] s2 (Hs2 & Hk2 & H2); [|apply (safe_log objs base); [log_fits|done]]. uwp_steps.
  apply (uwp_mono _ (λ _, sound objs base)); [|intros [] s3 Hs3; apply (safe_log objs base); [log_fits|done]].
  destruct (r =? 90); [by apply set_pads_safe; auto|].
  destruct (r =? 270); [by apply set_pads_safe; auto|by uwp_steps].
Qed.
End control.

(** ** Everything that can happen to the interface *)

(** A call from Go, a tick during which LVGL delivers events to objects while its
    clock advances, or an input device LVGL has found. *)
Inductive ui_op :=
| op_touch_found (is_abs : bool)
| op_tick (events : list (Z * Z * lv_event))
| op_set_rotation (rotation : Z)
| op_set_var (name value : string) | op_get_var (name : string)
| op_get_current_screen | op_load_screen (obj_name : string)
| op_set_text (obj_name text : string) | op_set_image (obj_name image_name : string)
| op_add_state (obj_name state_name : string) | op_clear_state (obj_name state_name : string)
| op_fade_in (obj_name : string) (duration : Z) | op_fade_out (obj_name : string) (duration : Z)
| op_set_opacity (obj_name : string) (opacity : Z)
| op_add_flag (obj_name flag_name : string) | op_clear_flag (obj_name flag_name : string).

Section ops.
Context {L : Type} `{!Lvgl L, !LvglLaws L}.
Implicit Types s : ust L.
#[local] Abbreviation ui := (ui L).

(** LVGL delivers events to the objects it has. *)
Definition deliver (ev : Z * Z * lv_event) : ui unit :=
  let '(now, o, e) := ev in
  modify (set_tick now);;
  s ← get;
  match lv_view (u_lv s) o with
  | Some v => call_handlers (v_callbacks v) e
  | None => mret tt
  end.
Fixpoint timer_handler (events : list (Z * Z * lv_event)) : ui unit :=
  match events with
  | [] => mret tt
  | ev :: events' => deliver ev;; timer_handler events'
  end.

Variable ui_objects : list (string * field).
Variable ui_styles : list (string * ui_style).
Variable ui_vars : list (string * ui_var).
Variable LVGL_VERSION : string.

Definition ui_perform (op : ui_op) : ui unit :=
  match op with
  | op_touch_found is_abs => evdev_discovery_cb is_abs
  | op_tick events => jetkvm_ui_tick LVGL_VERSION (timer_handler events)
  | op_set_rotation r => jetkvm_ui_set_rotation ui_styles r
  | op_set_var n v => jetkvm_ui_set_var ui_vars n v
  | op_get_var n => jetkvm_ui_get_var ui_vars LVGL_VERSION n;; mret tt
  | op_get_current_screen => jetkvm_ui_get_current_screen ui_objects;; mret tt
  | op_load_screen n => jetkvm_ui_load_screen ui_objects n
  | op_set_text n t => jetkvm_ui_set_text ui_objects n t;; mret tt
  | op_set_image n i => jetkvm_ui_set_image ui_objects n i
  | op_add_state n st => jetkvm_ui_add_state ui_objects n st
  | op_clear_state n st => jetkvm_ui_clear_state ui_objects n st
  | op_fade_in n d => jetkvm_ui_fade_in ui_objects n d
  | op_fade_out n d => jetkvm_ui_fade_out ui_objects n d
  | op_set_opacity n v => jetkvm_ui_set_opacity ui_objects n v
  | op_add_flag n f => jetkvm_ui_add_flag ui_objects n f;; mret tt
  | op_clear_flag n f => jetkvm_ui_clear_flag ui_objects n f;; mret tt
  end.
Fixpoint ui_run_ops (ops : list ui_op) : ui unit :=
  match ops with [] => mret tt | op :: ops' => ui_perform op;; ui_run_ops ops' end.

(** What the callers owe: texts are set on labels, images on images, a screen is
    loaded as one, and the name of a variable that does not exist leaves room for
    the log message about it. *)
Definition names (name : string) (p : wkind * bool → bool) : bool :=
  match find_name name ui_objects with Some f => p (field_kind f) | None => true end.
Definition op_fits (op : ui_op) : bool :=
  match op with
  | op_set_text n _ => names n (λ k, bool_decide (k.1 = lv_label))
  | op_set_image n _ => names n (λ k, bool_decide (k.1 = lv_image))
  | op_load_screen n => names n snd
  | op_set_var n _ | op_get_var n =>
      match find_name n ui_vars with Some _ => true | None => strlen (not_found n) <? 1024 end
  | _ => true
  end.

Hypothesis Hversion : strlen LVGL_VERSION < 32.
Context (objs : field → Z) (base : list ui_output).
#[local] Abbreviation safe := (safe (L := L) objs base).

Lemma safe_deliver ev : safe (deliver ev).
Proof.
  destruct ev as [[now o] e]. cbn. apply safe_bind; [safe_steps|intros _].
  apply safe_get. intros s Hs. destruct (lv_view (u_lv s) o); auto with safe.
Qed.
Lemma safe_timer events : safe (timer_handler events).
Proof. induction events; cbn; [auto with safe|]. apply safe_bind; [apply safe_deliver|done]. Qed.

Lemma safe_on_named {A} name p (K : Z → ui A) :
  names name p = true → safe (K NULL) → (∀ f, p (field_kind f) = true → safe (K (objs f))) →
  safe (ui_get_obj ui_objects name ≫= K).
Proof.
  unfold names. intros Hn H0 Hf s Hs. unfold ui_get_obj. destruct (find_name name ui_objects) as [f|].
  - uwp_steps. rewrite (sound_objects _ _ _ Hs). by apply Hf.
  - uwp_steps. by apply H0.
Qed.

Lemma safe_on_object name a :
  is_callback a = false → names name (λ k, kind_ok a k.1) = true → safe (on_object ui_objects name a).
Proof.
  intros Ha Hn. unfold on_object. eapply safe_on_named; [exact Hn|apply safe_mret|]. intros f Hf.
  destruct (objs f =? NULL); [auto with safe|by apply safe_configure].
Qed.
(** A call for any object. *)
Lemma safe_on_any name a :
  is_callback a = false → (∀ k, kind_ok a k = true) → safe (on_object ui_objects name a).
Proof. intros Ha Hk. apply safe_on_object; [done|]. unfold names. by case_match. Qed.
Lemma safe_change_flag name flag mk :
  (∀ f, is_callback (mk f) = false ∧ ∀ k, kind_ok (mk f) k = true) →
  safe (change_flag ui_objects name flag mk).
Proof.
  intros Hmk. unfold change_flag. apply safe_on_obj; [apply safe_mret|]. intros f.
  destruct (objs f =? NULL); [auto with safe|]. destruct (str_to_lv_obj_flag flag); [|auto with safe].
  apply safe_bind; [apply safe_configure; apply Hmk|auto with safe].
Qed.
Lemma safe_load_screen name : names name snd = true → safe (jetkvm_ui_load_screen ui_objects name).
Proof.
  intros Hn. unfold jetkvm_ui_load_screen. eapply safe_on_named; [exact Hn|apply safe_mret|].
  intros f Hf. safe_steps.
Qed.
Lemma safe_set_text name t :
  names name (λ k, bool_decide (k.1 = lv_label)) = true → safe (jetkvm_ui_set_text ui_objects name t).
Proof.
  intros Hn. unfold jetkvm_ui_set_text. eapply safe_on_named; [exact Hn|apply safe_mret|].
  intros f Hf. pose proof Hf as Hl%bool_decide_eq_true. safe_steps.
Qed.
Lemma safe_current_screen : safe (jetkvm_ui_get_current_screen ui_objects).
Proof. unfold jetkvm_ui_get_current_screen, ui_get_current_screen. safe_steps. Qed.
Lemma safe_jetkvm_set_var n v : op_fits (op_set_var n v) = true → safe (jetkvm_ui_set_var ui_vars n v).
Proof.
  unfold jetkvm_ui_set_var. cbn. destruct (find_name n ui_vars) as [[]|]; try (intros _; first [apply safe_mret|solve [auto with safe]]).
  intros Hf%Z.ltb_lt. by apply safe_log.
Qed.
Lemma safe_jetkvm_get_var n :
  op_fits (op_get_var n) = true → safe (jetkvm_ui_get_var ui_vars LVGL_VERSION n).
Proof.
  unfold jetkvm_ui_get_var. cbn. destruct (find_name n ui_vars) as [[]|];
    try (intros _; safe_steps; solve [auto with safe]).
  intros Hf%Z.ltb_lt. apply safe_bind; [by apply safe_log|intros _; apply safe_mret].
Qed.

Lemma safe_perform op : op_fits op = true → safe (ui_perform op).
Proof.
  destruct op; cbn [ui_perform]; intros Hop;
    try (apply safe_bind; [|intros ?; apply safe_mret]);
    try (by apply safe_on_any); try (by apply safe_change_flag).
  - apply safe_discovery.
  - apply safe_bind; [apply safe_timer|intros _]. by apply safe_ui_tick.
  - apply safe_set_rotation.
  - by apply safe_jetkvm_set_var.
  - by apply safe_jetkvm_get_var.
  - apply safe_current_screen.
  - by apply safe_load_screen.
  - by apply safe_set_text.
  - by apply safe_on_object.
Qed.

Lemma safe_run_ops ops : forallb op_fits ops = true → safe (ui_run_ops ops).
Proof.
  induction ops as [|op ops IH]; cbn [forallb ui_run_ops]; [auto with safe|]. intros [H1 H2]%andb_prop.
  apply safe_bind; [by apply safe_perform|auto].
Qed.
End ops.

(** C3: The display never goes wrong. Whatever sequence of calls from Go and of
    ticks with events it gets, in whatever order, for any generated name tables,
    when the callers keep to [op_fits] (texts are set on labels and images on
    images, only screens are loaded, and the name of a variable that does not exist
    has at most 1004 characters), it runs to the end without dereferencing a bad
    pointer, calling LVGL with an object of the wrong kind, indexing past a table or
    overrunning a buffer, the log's included; no object is lost or moved, the
    variables keep their terminators, [currentScreen] stays the index of a screen,
    and all it sends are log messages the log buffer has room for and the three RPCs
    of the hold buttons. *)
Theorem ui_operations_safe {L} `{!Lvgl L, !LvglLaws L} ui_objects ui_styles ui_vars
    LVGL_VERSION (ops : list ui_op) (s : ust L) :
  strlen LVGL_VERSION < 32 → forallb (op_fits ui_objects ui_vars) ops = true →
  ui_wf s →
  ∃ s', ui_run_ops ui_objects ui_styles ui_vars LVGL_VERSION ops s = Some (tt, s') ∧
    ui_wf s' ∧ objects s' = objects s ∧ ∃ outs, u_out s' = u_out s ++ outs ∧ Forall out_ok outs.
Proof.
  intros HV Hops Hwf.
  destruct (uwp_run _ _ _ (safe_run_ops ui_objects ui_styles ui_vars _ HV (objects s) (u_out s) ops Hops s
    (conj Hwf (sent_ok_refl _)))) as ([] & s' & E & Hwf' & Hr').
  exists s'. unfold ui_wf. by rewrite (wf_objects _ _ Hwf').
Qed.

Definition sample_objects : list (string * field) :=
  [("about_screen", o_about_screen); ("home_screen", o_home_screen);
   ("home_info_ipv4_addr", o_home_info_ipv4_addr)].
Definition sample_styles : list (string * ui_style) :=
  [("flex_screen", flex_screen); ("flex_screen_menu", flex_screen_menu)].
Definition sample_vars : list (string * ui_var) :=
  [("app_version", var_app_version); ("system_version", var_system_version);
   ("lvgl_version", var_lvgl_version); ("main_screen", var_main_screen)].
Definition sample_ops : list ui_op :=
  [op_touch_found true; op_set_rotation 90; op_set_var "no_variable" "1"; op_set_var "main_screen" "home_screen"; op_load_screen "home_screen";
   op_tick [(1000, objects ui_started o_obj0, Event LV_EVENT_PRESSED LV_DIR_LEFT)];
   op_set_text "home_info_ipv4_addr" "10.0.0.1"; op_get_var "lvgl_version"].

Lemma ui_operations_safe_witness :
  ∃ s', ui_run_ops sample_objects sample_styles sample_vars "9.2.2" sample_ops ui_started = Some (tt, s') ∧
    ui_wf s'.
Proof.
  destruct (ui_operations_safe sample_objects sample_styles sample_vars "9.2.2" sample_ops ui_started)
    as (s' & H1 & H2 & _); [done|by vm_compute|apply ui_started_wf|].
  exact (ex_intro _ s' (conj H1 H2)).
Defined.
