(* ===== verification/UiStyleCalls.v ===== *)
(** * Using the styles

    The functions of src/internal/native/eez/src/ui/styles.c that put a style on
    an object and take it off again, by name and by number. *)
From stdpp Require Import functions.
From S2P Require Import Prelude Lvgl UiStyles UiScreens Ui UiActions UiControl UiBuild UiSafe.

Section calls.
Context {L : Type} `{!Lvgl L}.
#[local] Abbreviation ui := (ui L).

(** ** [add_style_*] and [remove_style_*] *)

Definition add_style_flex_column_space_between (obj : Z) : ui unit := configure (add_style flex_column_space_between) obj.
Definition add_style_flex_center (obj : Z) : ui unit := configure (add_style flex_center) obj.
Definition add_style_flex_start (obj : Z) : ui unit := configure (add_style flex_start) obj.
Definition add_style_flow_row_space_between (obj : Z) : ui unit := configure (add_style flow_row_space_between) obj.
Definition add_style_flow_row_start_center (obj : Z) : ui unit := configure (add_style flow_row_start_center) obj.
Definition add_style_flex_column_start (obj : Z) : ui unit := configure (add_style flex_column_start) obj.
Definition add_style_flex_screen (obj : Z) : ui unit := configure (add_style flex_screen) obj.
Definition add_style_flex_screen_menu (obj : Z) : ui unit := configure (add_style flex_screen_menu) obj.
Definition add_style_label_font16 (obj : Z) : ui unit := configure (add_style label_font16) obj.
Definition add_style_label_font_bold30 (obj : Z) : ui unit := configure (add_style label_font_bold30) obj.
Definition add_style_header_link (obj : Z) : ui unit := configure (add_style header_link) obj.
Definition add_style_menu_button (obj : Z) : ui unit := configure (add_style menu_button) obj.
Definition add_style_menu_button_label (obj : Z) : ui unit := configure (add_style menu_button_label) obj.
Definition add_style_info_headline_label (obj : Z) : ui unit := configure (add_style info_headline_label) obj.
Definition add_style_info_content_label (obj : Z) : ui unit := configure (add_style info_content_label) obj.
Definition add_style_back_button (obj : Z) : ui unit := configure (add_style back_button) obj.

Definition remove_style_flex_column_space_between (obj : Z) : ui unit := configure (remove_style flex_column_space_between) obj.
Definition remove_style_flex_center (obj : Z) : ui unit := configure (remove_style flex_center) obj.
Definition remove_style_flex_start (obj : Z) : ui unit := configure (remove_style flex_start) obj.
Definition remove_style_flow_row_space_between (obj : Z) : ui unit := configure (remove_style flow_row_space_between) obj.
Definition remove_style_flow_row_start_center (obj : Z) : ui unit := configure (remove_style flow_row_start_center) obj.
Definition remove_style_flex_column_start (obj : Z) : ui unit := configure (remove_style flex_column_start) obj.
Definition remove_style_flex_screen (obj : Z) : ui unit := configure (remove_style flex_screen) obj.
Definition remove_style_flex_screen_menu (obj : Z) : ui unit := configure (remove_style flex_screen_menu) obj.
Definition remove_style_label_font16 (obj : Z) : ui unit := configure (remove_style label_font16) obj.
Definition remove_style_label_font_bold30 (obj : Z) : ui unit := configure (remove_style label_font_bold30) obj.
Definition remove_style_header_link (obj : Z) : ui unit := configure (remove_style header_link) obj.
Definition remove_style_menu_button (obj : Z) : ui unit := configure (remove_style menu_button) obj.
Definition remove_style_menu_button_label (obj : Z) : ui unit := configure (remove_style menu_button_label) obj.
Definition remove_style_info_headline_label (obj : Z) : ui unit := configure (remove_style info_headline_label) obj.
Definition remove_style_info_content_label (obj : Z) : ui unit := configure (remove_style info_content_label) obj.
Definition remove_style_back_button (obj : Z) : ui unit := configure (remove_style back_button) obj.

(** ** By number *)

Definition add_style_funcs : list (Z → ui unit) :=
  [add_style_flex_column_space_between; add_style_flex_center; add_style_flex_start;
   add_style_flow_row_space_between; add_style_flow_row_start_center;
   add_style_flex_column_start; add_style_flex_screen; add_style_flex_screen_menu;
   add_style_label_font16; add_style_label_font_bold30; add_style_header_link;
   add_style_menu_button; add_style_menu_button_label; add_style_info_headline_label;
   add_style_info_content_label; add_style_back_button].
Definition remove_style_funcs : list (Z → ui unit) :=
  [remove_style_flex_column_space_between; remove_style_flex_center;
   remove_style_flex_start; remove_style_flow_row_space_between;
   remove_style_flow_row_start_center; remove_style_flex_column_start;
   remove_style_flex_screen; remove_style_flex_screen_menu; remove_style_label_font16;
   remove_style_label_font_bold30; remove_style_header_link; remove_style_menu_button;
   remove_style_menu_button_label; remove_style_info_headline_label;
   remove_style_info_content_label; remove_style_back_button].

(** [add_style] and [remove_style]; a number outside the table is a wild call. *)
Definition add_style_index (obj styleIndex : Z) : ui unit :=
  match load add_style_funcs styleIndex with Some f => f obj | None => crash end.
Definition remove_style_index (obj styleIndex : Z) : ui unit :=
  match load remove_style_funcs styleIndex with Some f => f obj | None => crash end.
End calls.

(** The style of a number. *)
Definition all_styles : list ui_style :=
  [flex_column_space_between; flex_center; flex_start; flow_row_space_between;
   flow_row_start_center; flex_column_start; flex_screen; flex_screen_menu; label_font16;
   label_font_bold30; header_link; menu_button; menu_button_label; info_headline_label;
   info_content_label; back_button].

Lemma add_index_style {L} `{!Lvgl L} obj i :
  add_style_index (L := L) obj i =
  match load all_styles i with Some st => configure (add_style st) obj | None => crash end.
Proof.
  unfold add_style_index, load. case_decide; [|done].
  change (@add_style_funcs L _) with ((λ st obj, configure (L := L) (add_style st) obj) <$> all_styles).
  rewrite list_lookup_fmap. by destruct (all_styles !! Z.to_nat i).
Qed.
Lemma remove_index_style {L} `{!Lvgl L} obj i :
  remove_style_index (L := L) obj i =
  match load all_styles i with Some st => configure (remove_style st) obj | None => crash end.
Proof.
  unfold remove_style_index, load. case_decide; [|done].
  change (@remove_style_funcs L _) with ((λ st obj, configure (L := L) (remove_style st) obj) <$> all_styles).
  rewrite list_lookup_fmap. by destruct (all_styles !! Z.to_nat i).
Qed.

(** What a style call does. *)
Definition off (st : ui_style) (l : list ui_style) : list ui_style :=
  List.filter (λ t, negb (bool_decide (t = st))) l.
Lemma off_twice st l : off st (l ++ [st]) = off st l.
Proof.
  unfold off. rewrite List.filter_app. simpl. rewrite bool_decide_eq_true_2 by done. apply app_nil_r.
Qed.
Lemma off_new st l : st ∉ l → off st l = l.
Proof.
  unfold off. induction l as [|t l IH]; intros H; simpl; [done|].
  rewrite bool_decide_eq_false_2 by set_solver. simpl. rewrite IH; [done|set_solver].
Qed.
Lemma style_call_run {L} `{!Lvgl L} a st o (s : ust L) v :
  a = add_style st ∨ a = remove_style st → lv_view (u_lv s) o = Some v →
  configure a o s = Some (tt, set_lv (lv_set a o (u_lv s)) (set_styles (get_style st (styles s)).2 s)).
Proof.
  intros Ha Hv. unfold configure, live. unfold mbind, ui_mbind, get, modify. cbn. rewrite Hv. cbn.
  by destruct Ha as [-> | ->].
Qed.

(** C28: putting a style on an object and taking it off again. For every number of
    the table both functions succeed on every object there is: the first adds the
    style with this number last, the second takes it off wherever it is, so that
    the two in a row restore an object that did not have it; no other object and
    no global changes. The style object is created by its initialiser the first
    time and is the same one ever after. Outside the table both functions crash. *)
Theorem style_index_roundtrip {L} `{!Lvgl L, !LvglLaws L} (s : ust L) (o i : Z) v :
  lv_view (u_lv s) o = Some v →
  match load all_styles i with
  | None => (i < 0 ∨ 16 <= i) ∧ add_style_index o i s = None ∧ remove_style_index o i s = None
  | Some st => ∃ s1 s2,
      add_style_index o i s = Some (tt, s1) ∧ remove_style_index o i s1 = Some (tt, s2) ∧
      lv_view (u_lv s1) o = Some (with_styles (v_styles v ++ [st]) v) ∧
      lv_view (u_lv s2) o = Some (with_styles (off st (v_styles v)) v) ∧
      (st ∉ v_styles v → ∀ o', lv_view (u_lv s2) o' = lv_view (u_lv s) o') ∧
      (∀ o', o' ≠ o → lv_view (u_lv s1) o' = lv_view (u_lv s) o') ∧
      objects s2 = objects s ∧ lv_scr_act (u_lv s2) = lv_scr_act (u_lv s) ∧
      styles s1 st = Some (default (init_style st []) (styles s st)) ∧ styles s2 = styles s1 ∧
      ∀ st', st' ≠ st → styles s1 st' = styles s st'
  end.
Proof.
  intros Hv. rewrite add_index_style, remove_index_style.
  destruct (load all_styles i) as [st|] eqn:Hi.
  2: { split; [|done]. unfold load in Hi. case_decide; [|lia].
       apply lookup_ge_None_1 in Hi. simpl in Hi. lia. }
  assert (Hs1 : (get_style st (styles s)).2 st = Some (default (init_style st []) (styles s st))).
  { rewrite get_style_static. unfold get_static. destruct (styles s st) eqn:E; simpl; [done|].
    by rewrite style_table_insert, decide_True. }
  eexists _, _. split; [by eapply style_call_run; [left|]|].
  assert (Hv1 : ∀ o', lv_view (lv_set (add_style st) o (u_lv s)) o' =
    if decide (o' = o) then Some (with_styles (v_styles v ++ [st]) v) else lv_view (u_lv s) o').
  { intros o'. by rewrite (set_view _ _ _ v). }
  assert (Hv2 : ∀ o', lv_view (lv_set (remove_style st) o (lv_set (add_style st) o (u_lv s))) o' =
    if decide (o' = o) then Some (with_styles (off st (v_styles v)) v) else lv_view (u_lv s) o').
  { intros o'. rewrite (set_view _ _ _ (with_styles (v_styles v ++ [st]) v)), Hv1 by
      (done || by rewrite Hv1, decide_True).
    destruct (decide (o' = o)); [|done]. simpl. f_equal. unfold with_styles. simpl. f_equal. apply off_twice. }
  assert (Hsame : get_style st (get_style st (styles s)).2 =
    (default (init_style st []) (styles s st), (get_style st (styles s)).2)).
  { rewrite (get_style_static st (get_style st (styles s)).2). unfold get_static at 1. by rewrite Hs1. }
  split; [eapply style_call_run; [by right|]; simpl; by rewrite Hv1, decide_True|].
  cbn [u_lv set_lv set_styles styles objects]. rewrite Hsame. split_and!; try done.
  - by rewrite Hv1, decide_True.
  - by rewrite Hv2, decide_True.
  - intros Hno o'. rewrite Hv2. case_decide; [|done]. subst o'. rewrite Hv, off_new by done. by destruct v.
  - intros o' Ho'. by rewrite Hv1, decide_False.
  - rewrite (set_act _ _ _ (with_styles (v_styles v ++ [st]) v)), (set_act _ _ _ v); try done.
    by rewrite Hv1, decide_True.
  - intros st' Hne. rewrite get_style_static. unfold get_static. destruct (styles s st); [done|]. simpl.
    by rewrite style_table_insert, decide_False.
Qed.
Lemma style_index_roundtrip_witness :
  let s := set_lv (Store [new_view lv_obj NULL] NULL) ui_blank in
  ∃ s1 s2, add_style_index 1 6 s = Some (tt, s1) ∧ remove_style_index 1 6 s1 = Some (tt, s2) ∧
    lv_view (u_lv s1) 1 = Some (with_styles [flex_screen] (new_view lv_obj NULL)) ∧
    lv_view (u_lv s2) 1 = Some (with_styles [] (new_view lv_obj NULL)).
Proof.
  intros s. pose proof (style_index_roundtrip s 1 6 (new_view lv_obj NULL) eq_refl) as H.
  destruct H as (s1 & s2 & H1 & H2 & H3 & H4 & _). exists s1, s2. by split_and!.
Defined.
