(* ===== verification/UiInv.v ===== *)
(** * Invariants of what the interface hands to LVGL

    An invariant of LVGL's state and of the style objects that every call the
    program makes keeps is kept by all of the interface's code. [UiInv] states
    what such an invariant has to satisfy, once per primitive; the section shows
    it for building the screens, ticking, events and every operation from Go.
    [UiTypes] and [UiTexts] are instances. *)
From stdpp Require Import functions.
From S2P Require Import Prelude Lvgl UiStyles UiScreens Ui UiActions UiControl UiBuild UiSafe.

(** ** The types of the style properties *)

(** The fonts of fonts.h. *)
Definition ui_fonts : list string :=
  ["ui_font_font_bold30"; "ui_font_font_book16"; "ui_font_font_book18"; "ui_font_font_book20";
   "ui_font_font_book24"].
Definition one_of (l : list string) (v : style_value) : bool :=
  match v with Name s => existsb (streq s) l | _ => false end.

(** The values a property takes: a length, an opacity, a 32-bit colour, one of the
    fonts, or one of the constants the program uses of its own enumeration. *)
Definition well_typed (p : style_prop) (v : style_value) : bool :=
  match p with
  | pad_left | pad_top | pad_right | pad_bottom | pad_row | margin_top | border_width | radius
  | shadow_width | transform_width | transform_height =>
      match v with Num _ => true | _ => false end
  | opa | bg_opa | text_opa =>
      match v with Num n => (0 <=? n) && (n <=? 255) | _ => false end
  | bg_color | text_color => match v with Color c => (0 <=? c) && (c <? 2 ^ 32) | _ => false end
  | text_font => one_of ui_fonts v
  | text_align => one_of ["LV_TEXT_ALIGN_LEFT"; "LV_TEXT_ALIGN_CENTER"; "LV_TEXT_ALIGN_RIGHT"] v
  | align => one_of ["LV_ALIGN_DEFAULT"; "LV_ALIGN_LEFT_MID"; "LV_ALIGN_RIGHT_MID"; "LV_ALIGN_CENTER"] v
  | layout => one_of ["LV_LAYOUT_FLEX"; "LV_LAYOUT_NONE"] v
  | flex_flow => one_of ["LV_FLEX_FLOW_COLUMN"; "LV_FLEX_FLOW_ROW"] v
  | flex_main_place | flex_cross_place | flex_track_place =>
      one_of ["LV_FLEX_ALIGN_START"; "LV_FLEX_ALIGN_CENTER"; "LV_FLEX_ALIGN_END";
              "LV_FLEX_ALIGN_SPACE_BETWEEN"] v
  end.

(** ** The characters of the texts *)

(** A character of printable ASCII, or a new line. *)
Definition plain_char (c : ascii) : bool :=
  let n := N_of_ascii c in ((32 <=? n)%N && (n <=? 126)%N) || (n =? 10)%N.
Definition text_all (p : ascii → bool) (t : string) : bool := forallb p (chars t).

(** ** The calls on a widget and on the widgets inside it *)

Section calls_ok.
Context (value_ok : style_prop → style_value → bool) (char_ok : ascii → bool).

Definition attr_ok (a : attr) : bool :=
  match a with
  | lv_obj_set_style p v _ _ => value_ok p v
  | lv_label_set_text t => text_all char_ok t
  | _ => true
  end.
Fixpoint widget_ok (w : widget) : bool :=
  match w with
  | W _ _ attrs children => forallb attr_ok attrs && forallb widget_ok children
  end.
End calls_ok.

(** Everything screens.c hands to LVGL has its type, and plain text. *)
Lemma screens_plain : Forall (λ w, widget_ok well_typed plain_char w = true) screen_widgets.
Proof. by apply (bool_decide_unpack _). Qed.

(** ** The interface *)

Class UiInv {L} `{!Lvgl L} (I : L → style_table → Prop)
    (value_ok : style_prop → style_value → bool) (char_ok : ascii → bool) : Prop := {
  value_typed p v : well_typed p v = true → value_ok p v = true;
  char_plain c : plain_char c = true → char_ok c = true;
  inv_create k p l o l' t : lv_create k p l = (o, l') → I l t → I l' t;
  inv_set a o l t v : attr_ok value_ok char_ok a = true → lv_view l o = Some v →
    kind_ok a (v_kind v) = true → I l t → I (lv_set a o l) t;
  inv_load o l t : I l t → I (lv_scr_load o l) t;
  inv_get_style st l t : I l t → I l (get_style st t).2;
  inv_style_set st p v style l t :
    value_ok p v = true → t st = Some style → I l t →
    I l (<[st := Some (lv_style_set p v style)]> t)
}.

Section keeps.
Context {L : Type} `{!Lvgl L} (I : L → style_table → Prop)
  (value_ok : style_prop → style_value → bool) (char_ok : ascii → bool)
  `{!UiInv I value_ok char_ok}.
#[local] Abbreviation ui := (ui L).
#[local] Abbreviation attr_good := (attr_ok value_ok char_ok).
#[local] Abbreviation text_ok := (text_all char_ok).
Implicit Types s : ust L.

(** ** The invariant of the whole state: the variables' buffers included *)

Definition buf_ok (buf : list ascii) : Prop := Forall (λ c, c = NUL ∨ char_ok c = true) buf.
Record inv s : Prop := {
  inv_lv : I (u_lv s) (styles s);
  inv_app : buf_ok (app_version s);
  inv_system : buf_ok (system_version s);
  inv_lvgl : buf_ok (lvgl_version s);
  inv_main : buf_ok (main_screen s)
}.

(** [m], run from [s], ends with the invariant and an answer that satisfies [P]. *)
Definition keeps_at {A} (m : ui A) (P : A → Prop) s : Prop :=
  ∀ a s', m s = Some (a, s') → inv s → inv s' ∧ P a.
Definition keeps_to {A} (m : ui A) (P : A → Prop) : Prop := ∀ s, keeps_at m P s.
#[local] Abbreviation keeps m := (keeps_to m (λ _, True)).

Lemma keeps_weaken {A} (m : ui A) P : keeps_to m P → keeps m.
Proof. intros Hm s a s' H Hs. by destruct (Hm s a s' H Hs). Qed.
Lemma keeps_mret_to {A} (a : A) (P : A → Prop) : P a → keeps_to (mret a) P.
Proof. intros Ha s ? ? [= <- <-]. done. Qed.
Lemma keeps_mret {A} (a : A) : keeps (mret a).
Proof. by apply keeps_mret_to. Qed.
Lemma keeps_crash {A} P : keeps_to (crash : ui A) P.
Proof. by intros s. Qed.
Lemma keeps_at_bind {A B} (m : ui A) (f : A → ui B) P Q s :
  keeps_at m P s → (∀ a, P a → keeps_to (f a) Q) → keeps_at (m ≫= f) Q s.
Proof.
  intros Hm Hf b s'' H Hs. unfold mbind, ui_mbind in H. destruct (m s) as [[a s']|] eqn:E; [|done].
  destruct (Hm a s' E Hs) as [Hs' Ha]. by apply (Hf a Ha s').
Qed.
Lemma keeps_bind {A B} (m : ui A) (f : A → ui B) P Q :
  keeps_to m P → (∀ a, P a → keeps_to (f a) Q) → keeps_to (m ≫= f) Q.
Proof. intros Hm Hf s. by eapply keeps_at_bind. Qed.
Lemma keeps_get_at {A} (f : ust L → ui A) P :
  (∀ s, inv s → keeps_at (f s) P s) → keeps_to (get ≫= f) P.
Proof. intros Hf s a s' H Hs. by apply (Hf s Hs a s'). Qed.
Lemma keeps_get {A} (f : ust L → ui A) P : (∀ s, inv s → keeps_to (f s) P) → keeps_to (get ≫= f) P.
Proof. intros Hf. apply keeps_get_at. intros s Hs. by apply Hf. Qed.
Lemma keeps_fmap {A B} (g : A → B) (m : ui A) : keeps m → keeps (g <$> m).
Proof.
  intros Hm s b s' H Hs. unfold fmap, ui_fmap in H. destruct (m s) as [[a s1]|] eqn:E; simplify_eq.
  by apply (Hm s a).
Qed.
Lemma keeps_at_modify (f : ust L → ust L) s : (inv s → inv (f s)) → keeps_at (modify f) (λ _, True) s.
Proof. intros Hf ? ? [= <- <-]. auto. Qed.
Lemma keeps_modify (f : ust L → ust L) : (∀ s, inv s → inv (f s)) → keeps (modify f).
Proof. intros Hf s. by apply keeps_at_modify, Hf. Qed.
Lemma keeps_when b (m : ui unit) : keeps m → keeps (ui_when b m).
Proof. destruct b; [done|]. intros _. apply keeps_mret. Qed.

Lemma inv_frame (f : ust L → ust L) s :
  u_lv (f s) = u_lv s → styles (f s) = styles s → app_version (f s) = app_version s →
  system_version (f s) = system_version s → lvgl_version (f s) = lvgl_version s →
  main_screen (f s) = main_screen s → inv s → inv (f s).
Proof. intros E1 E2 E3 E4 E5 E6 []. split; by rewrite ?E1, ?E2, ?E3, ?E4, ?E5, ?E6. Qed.

(** ** Texts and buffers *)

Lemma text_ok_Forall l : text_ok (text l) = true ↔ Forall (λ c, char_ok c = true) l.
Proof.
  unfold text_all. rewrite chars_text, forallb_forall, Forall_forall.
  by setoid_rewrite list_elem_of_In.
Qed.
Lemma plain_ok t : text_all plain_char t = true → text_ok t = true.
Proof. unfold text_all. rewrite !forallb_forall. intros H c Hc. by apply char_plain, H. Qed.
Lemma cstr_Forall (buf l : list ascii) (P : ascii → Prop) :
  cstr buf = Some l → Forall (λ c, c = NUL ∨ P c) buf → Forall P l.
Proof.
  revert l. induction buf as [|c buf IH]; intros l; [done|]. cbn [cstr]. intros H [Hc Hb]%Forall_cons.
  destruct (Ascii.eqb_spec c NUL) as [->|Hne]; [simplify_eq; constructor|].
  destruct (cstr buf) as [l'|]; simplify_eq. constructor; [by destruct Hc|by apply IH].
Qed.
Lemma buf_strncpy n v : text_ok v = true → buf_ok (strncpy n (chars v)).
Proof.
  unfold text_all, buf_ok, strncpy. rewrite forallb_forall. intros Hv. apply Forall_app. split.
  - apply Forall_take, Forall_forall. intros c Hc. right. by apply Hv, list_elem_of_In.
  - apply Forall_replicate. by left.
Qed.
Lemma buf_insert i buf : buf_ok buf → buf_ok (<[i := NUL]> buf).
Proof. intros H. apply Forall_insert; [done|by left]. Qed.
Lemma buf_copy n v : text_ok v = true → buf_ok (copy_var n v).
Proof. intros. by apply buf_insert, buf_strncpy. Qed.
Hint Resolve buf_strncpy buf_insert buf_copy : core.

Lemma keeps_read buf : buf_ok buf → keeps_to (read_var buf) (λ t, text_ok t = true).
Proof.
  intros Hb. unfold read_var. destruct (cstr buf) as [l|] eqn:E; [|apply keeps_crash].
  apply keeps_mret_to, text_ok_Forall. by eapply cstr_Forall.
Qed.

(** ** The calls of LVGL and the style objects *)

Lemma keeps_live o : keeps (live o).
Proof.
  apply keeps_get. intros s _. destruct (lv_view (u_lv s) o); [apply keeps_mret|apply keeps_crash].
Qed.
Lemma keeps_create k p : keeps (create k p).
Proof.
  apply keeps_get_at. intros s Hs. cbn. destruct (lv_create k p (u_lv s)) as [o l] eqn:E.
  eapply keeps_at_bind; [|intros _ _; apply keeps_mret]. apply keeps_at_modify.
  intros [H]. split; try done. by eapply inv_create.
Qed.
Lemma keeps_at_get_style st s : keeps_at (modify (set_styles (get_style st (styles s)).2)) (λ _, True) s.
Proof. apply keeps_at_modify. intros [H]. split; try done. by apply inv_get_style. Qed.
Lemma keeps_configure a o : attr_good a = true → keeps (configure a o).
Proof.
  intros Ha s x s' H Hs. unfold configure, live, mbind, ui_mbind, get in H.
  destruct (lv_view (u_lv s) o) as [v|] eqn:Hv; [|done]. cbn in H.
  destruct (kind_ok a (v_kind v)) eqn:Hk; [|done]. cbn in H.
  assert (Hset : ∀ s1, u_lv s1 = u_lv s → inv s1 → inv (set_lv (lv_set a o (u_lv s1)) s1)).
  { intros s1 E [H1]. split; try done. cbn. eapply inv_set; [done|by rewrite E|done|done]. }
  pose proof (λ st, keeps_at_get_style st s tt _ eq_refl Hs) as Hst.
  unfold modify in H. destruct a; cbn in H; simplify_eq; (split; [|done]);
    first [exact (Hset s eq_refl Hs)|exact (Hset (set_styles _ s) eq_refl (proj1 (Hst _)))].
Qed.
Lemma keeps_style_set st p v : well_typed p v = true → keeps (style_set st p v).
Proof.
  intros Hv. apply keeps_get_at. intros s Hs. destruct (styles s st) as [style|] eqn:E; [|apply keeps_crash].
  apply keeps_at_modify. intros [H]. split; try done. by apply inv_style_set; [apply value_typed| |].
Qed.
Lemma keeps_scr_load o : keeps (scr_load o).
Proof.
  eapply keeps_bind; [apply keeps_live|intros v _]. destruct (is_screen v); [|apply keeps_crash].
  apply keeps_modify. intros s [H]. split; try done. by apply inv_load.
Qed.
Lemma keeps_log m file func line msg : keeps (log m file func line msg).
Proof.
  unfold log. destruct (_ <? _); [|apply keeps_crash]. apply keeps_modify. intros s []. by split.
Qed.

(** ** The operations *)

Create HintDb keeps.
#[local] Hint Resolve keeps_mret keeps_crash keeps_live keeps_create keeps_scr_load keeps_log : keeps.
Ltac inv_modify := apply keeps_modify; intros ? ?; by apply inv_frame.
Ltac keeps_step :=
  match goal with
  | |- keeps_to (get ≫= _) _ => apply keeps_get; intros ? ?
  | |- keeps_to (_ ≫= _) _ => apply (keeps_bind _ _ (λ _, True)); [|intros ? _]
  | |- keeps_to (_ <$> _) _ => apply keeps_fmap
  | |- keeps_to (ui_when _ _) _ => apply keeps_when
  | |- keeps_to (if ?b then _ else _) _ => destruct b eqn:?
  | |- keeps_to (modify _) _ => inv_modify
  | |- keeps_to (configure _ _) _ => apply keeps_configure; done
  | |- keeps_to (style_set _ _ _) _ => apply keeps_style_set; done
  | |- keeps_to (match ?x with _ => _ end) _ => destruct x eqn:?
  | |- keeps_to _ _ => solve [auto with keeps]
  end.
Ltac keeps_steps := repeat (keeps_step; cbn beta).

(** The variables *)
Lemma keeps_get_app : keeps_to (get_var_app_version : ui string) (λ t, text_ok t = true).
Proof. apply keeps_get. intros s []. by apply keeps_read. Qed.
Lemma keeps_get_system : keeps_to (get_var_system_version : ui string) (λ t, text_ok t = true).
Proof. apply keeps_get. intros s []. by apply keeps_read. Qed.
Lemma keeps_get_main : keeps_to (get_var_main_screen : ui string) (λ t, text_ok t = true).
Proof. apply keeps_get. intros s []. by apply keeps_read. Qed.

Context (V : string) (HV : text_ok V = true).
Lemma keeps_get_lvgl : keeps_to (get_var_lvgl_version V : ui string) (λ t, text_ok t = true).
Proof.
  unfold get_var_lvgl_version. apply keeps_get. intros s _.
  destruct (lvgl_version s !! 0%nat); [|apply keeps_crash].
  apply (keeps_bind _ _ (λ _, True)); [|intros _ _; apply keeps_get; intros s' []; by apply keeps_read].
  keeps_step. destruct (32 <=? strlen V); [apply keeps_crash|].
  keeps_step; apply keeps_modify; intros s' []; split; cbn; auto.
Qed.
Lemma keeps_set_var (f : list ascii → ust L → ust L) n v :
  (∀ buf s, buf_ok buf → inv s → inv (f buf s)) → text_ok v = true → keeps (modify (f (copy_var n v))).
Proof. intros Hf Hv. apply keeps_modify. intros s Hs. apply Hf; auto. Qed.
Lemma keeps_set_app v : text_ok v = true → keeps (set_var_app_version v : ui unit).
Proof. apply (keeps_set_var set_app_version). intros buf s Hb []. by split. Qed.
Lemma keeps_set_system v : text_ok v = true → keeps (set_var_system_version v : ui unit).
Proof. apply (keeps_set_var set_system_version). intros buf s Hb []. by split. Qed.
Lemma keeps_set_main v : text_ok v = true → keeps (set_var_main_screen v : ui unit).
Proof. apply (keeps_set_var set_main_screen). intros buf s Hb []. by split. Qed.

(** Screens *)
Lemma keeps_getLvglObjectFromIndex i : keeps (getLvglObjectFromIndex i : ui Z).
Proof. unfold getLvglObjectFromIndex. keeps_steps. Qed.
#[local] Hint Resolve keeps_getLvglObjectFromIndex : keeps.
Lemma keeps_loadScreen id : keeps (loadScreen id).
Proof. unfold loadScreen. keeps_steps. Qed.
Lemma keeps_tick_label getter f : keeps_to getter (λ t, text_ok t = true) → keeps (tick_label getter f).
Proof.
  intros Hg. unfold tick_label, label_get_text. eapply keeps_bind; [exact Hg|]. intros t Ht.
  do 3 keeps_step; keeps_steps; by apply keeps_configure.
Qed.
#[local] Hint Resolve keeps_loadScreen keeps_tick_label keeps_get_app keeps_get_system
  keeps_get_main keeps_get_lvgl : keeps.

Lemma keeps_tick_funcs : Forall (λ m, keeps m) (tick_screen_funcs V).
Proof.
  unfold tick_screen_funcs, tick_screen_boot_screen, tick_screen_about_screen, tick_screen_none.
  repeat apply Forall_cons_2; try apply Forall_nil_2; keeps_steps.
Qed.
Lemma keeps_tick_screen i : keeps (tick_screen V i).
Proof.
  unfold tick_screen, load. case_decide; [|apply keeps_crash].
  destruct (tick_screen_funcs V !! Z.to_nat i) as [m|] eqn:E; [|apply keeps_crash].
  exact (proj1 (Forall_lookup _ _) keeps_tick_funcs _ _ E).
Qed.
Lemma keeps_ui_tick : keeps (ui_tick V).
Proof. apply keeps_get. intros s _. apply keeps_tick_screen. Qed.

(** Building the screens *)
Lemma keeps_calls (l : list attr) o : forallb attr_good l = true → keeps (calls o l).
Proof.
  induction l as [|a l IH]; [intros _; apply keeps_mret|].
  intros [Ha Hl]%andb_prop. eapply keeps_bind; [by apply keeps_configure|]. intros _ _. by apply IH.
Qed.
Lemma keeps_create_widget w :
  widget_ok value_ok char_ok w = true → ∀ parent, keeps (create_widget w parent).
Proof.
  induction w as [kind dest attrs children IH] using widget_rec'. intros [Ha Hc]%andb_prop parent.
  rewrite create_widget_unfold.
  keeps_step; [keeps_step|]. keeps_step; [keeps_steps|].
  keeps_step; [by apply keeps_calls|]. keeps_step; [|keeps_steps].
  clear -Hc IH. induction children as [|c children IHc]; [apply keeps_mret|].
  apply andb_prop in Hc as [H1 H2]. apply Forall_cons in IH as [Hw IH].
  eapply keeps_bind; [by apply Hw|]. intros _ _. by apply IHc.
Qed.
Lemma keeps_create_each ws ts :
  Forall (λ w, widget_ok value_ok char_ok w = true) ws → Forall (λ m, keeps m) ts →
  keeps (create_each (zip ws ts)).
Proof.
  intros Hw. revert ts. induction Hw as [|w ws Hw _ IH]; intros ts; [intros _; apply keeps_mret|].
  intros [|t ts' Ht Hts]; cbn; [apply keeps_mret|].
  keeps_step; [by apply keeps_create_widget|]. keeps_step; [done|]. by apply IH.
Qed.
Lemma attr_mono a : attr_ok well_typed plain_char a = true → attr_good a = true.
Proof. destruct a; try done; cbn; [apply value_typed|apply plain_ok]. Qed.
Lemma widget_mono w : widget_ok well_typed plain_char w = true → widget_ok value_ok char_ok w = true.
Proof.
  induction w as [kind dest attrs children IH] using widget_rec'. cbn [widget_ok].
  rewrite !andb_true_iff, !forallb_forall. intros [Ha Hc]. split.
  - intros a Hin. by apply attr_mono, Ha.
  - intros w Hin. rewrite Forall_forall in IH. apply IH; [by apply list_elem_of_In|by apply Hc].
Qed.
Lemma keeps_ui_init : keeps (ui_init V).
Proof.
  eapply keeps_bind; [|intros _ _; auto with keeps].
  apply keeps_create_each; [|apply keeps_tick_funcs].
  eapply Forall_impl; [apply screens_plain|apply widget_mono].
Qed.

(** ** Events *)

Lemma keeps_rpc m : keeps (ui_call_rpc_handler m : ui unit).
Proof. unfold ui_call_rpc_handler, put. keeps_steps. Qed.
#[local] Hint Resolve keeps_rpc : keeps.

Lemma digit_plain n : plain_char (ascii_of_nat (48 + Z.to_nat (n mod 10))) = true.
Proof.
  pose proof (Z.mod_pos_bound n 10 ltac:(lia)) as Hb.
  assert (Hk : (Z.to_nat (n mod 10) < 10)%nat) by lia. revert Hk.
  generalize (Z.to_nat (n mod 10)). intros k Hk. do 10 (destruct k as [|k]; [done|]). lia.
Qed.
Lemma text_all_app p a b : text_all p (a ++ b) = text_all p a && text_all p b.
Proof.
  unfold text_all. induction a as [|c a IH]; [done|].
  change (p c && forallb p (chars (a ++ b)) = (p c && forallb p (chars a)) && forallb p (chars b)).
  by rewrite IH, andb_assoc.
Qed.
Lemma decimal_plain fuel n : text_all plain_char (decimal fuel n) = true.
Proof.
  revert n. induction fuel as [|fuel IH]; intros n; [done|]. cbn [decimal].
  assert (Hd : text_all plain_char (String (ascii_of_nat (48 + Z.to_nat (n mod 10))) "") = true).
  { unfold text_all. cbn [chars list_ascii_of_string forallb]. by rewrite digit_plain. }
  destruct (n <? 10); [done|]. by rewrite text_all_app, IH, Hd.
Qed.
Lemma hold_text_plain n : text_all plain_char (hold_text n) = true.
Proof. unfold hold_text. by rewrite !text_all_app, decimal_plain. Qed.

Lemma keeps_hold h e : keeps (hold_action h e).
Proof.
  unfold hold_action, handle_hold_action, set_hold. keeps_step. keeps_step.
  destruct (lv_event_get_code e); keeps_steps; apply keeps_configure; cbn; apply plain_ok;
    by first [apply hold_text_plain|destruct h].
Qed.
Lemma keeps_gesture e d id : keeps (handle_gesture_screen_switch e d id).
Proof. unfold handle_gesture_screen_switch. keeps_steps. Qed.
Lemma keeps_main_gesture e d : keeps (handle_gesture_main_screen_switch e d).
Proof.
  unfold handle_gesture_main_screen_switch.
  keeps_step; [eapply keeps_weaken, keeps_get_main|keeps_steps].
Qed.
#[local] Hint Resolve keeps_hold keeps_gesture keeps_main_gesture : keeps.
Lemma keeps_perform_action a e : keeps (perform_action a e).
Proof. destruct a; cbn; keeps_steps. Qed.
#[local] Hint Resolve keeps_perform_action : keeps.
Lemma keeps_call_handlers l e : keeps (call_handlers l e).
Proof. induction l as [|[a c] l IH]; cbn; keeps_steps. Qed.
#[local] Hint Resolve keeps_call_handlers : keeps.
Lemma keeps_timer events : keeps (timer_handler events).
Proof.
  induction events as [|[[now o] e] events IH]; cbn; [apply keeps_mret|].
  keeps_step; [|done]. keeps_steps.
Qed.

(** ** The control interface *)

Context (ui_objects : list (string * field)) (ui_styles : list (string * ui_style))
  (ui_vars : list (string * ui_var)).

(** What Go may pass: texts and variables of characters that are allowed. *)
Definition op_ok (op : ui_op) : bool :=
  match op with
  | op_set_text _ t => text_ok t
  | op_set_var _ v => text_ok v
  | _ => true
  end.

Lemma keeps_get_obj n : keeps (ui_get_obj ui_objects n : ui Z).
Proof. unfold ui_get_obj. keeps_steps. Qed.
#[local] Hint Resolve keeps_get_obj : keeps.
Lemma keeps_on_object n a : attr_good a = true → keeps (on_object ui_objects n a).
Proof. intros Ha. unfold on_object. keeps_steps. Qed.
Lemma keeps_change_flag n f mk :
  (∀ x, attr_good (mk x) = true) → keeps (change_flag ui_objects n f mk).
Proof. intros Hmk. unfold change_flag. keeps_steps. Qed.
Lemma keeps_get_style n : keeps (ui_get_style ui_styles n : ui (option ui_style)).
Proof.
  unfold ui_get_style. destruct (find_name n ui_styles) as [st|]; [|apply keeps_mret].
  apply keeps_get_at. intros s _. eapply keeps_at_bind; [apply keeps_at_get_style|].
  intros _ _. apply keeps_mret.
Qed.
#[local] Hint Resolve keeps_get_style : keeps.
Lemma keeps_set_rotation r : keeps (lvgl_set_rotation ui_styles r : ui unit).
Proof.
  unfold lvgl_set_rotation, set_display_rotation, apply_touch_calibration, set_pads. keeps_steps.
Qed.
Lemma keeps_discovery is_abs : keeps (evdev_discovery_cb is_abs : ui unit).
Proof. unfold evdev_discovery_cb, apply_touch_calibration. keeps_steps. Qed.
#[local] Hint Resolve keeps_set_rotation keeps_ui_init keeps_ui_tick keeps_timer : keeps.
Lemma keeps_jetkvm_set_var n v : text_ok v = true → keeps (jetkvm_ui_set_var ui_vars n v : ui unit).
Proof.
  intros Hv. unfold jetkvm_ui_set_var. destruct (find_name n ui_vars) as [[]|];
    [by apply keeps_set_app|by apply keeps_set_system|apply keeps_mret|by apply keeps_set_main|apply keeps_log].
Qed.
Lemma keeps_jetkvm_get_var n : keeps (jetkvm_ui_get_var ui_vars V n : ui (option string)).
Proof.
  unfold jetkvm_ui_get_var. destruct (find_name n ui_vars) as [[]|]; [..|keeps_steps];
    apply keeps_fmap; eapply keeps_weaken; auto with keeps.
Qed.
#[local] Hint Resolve keeps_jetkvm_set_var keeps_jetkvm_get_var : keeps.

Lemma keeps_perform op : op_ok op = true → keeps (ui_perform ui_objects ui_styles ui_vars V op).
Proof.
  intros Hop. destruct op; cbn; try (apply (keeps_bind _ _ (λ _, True)); [|intros ? _; apply keeps_mret]);
    try (by apply keeps_on_object); try (by apply keeps_change_flag).
  - apply keeps_discovery.
  - apply (keeps_bind _ _ (λ _, True)); auto with keeps.
  - auto with keeps.
  - auto with keeps.
  - auto with keeps.
  - unfold jetkvm_ui_get_current_screen, ui_get_current_screen. keeps_steps.
  - unfold jetkvm_ui_load_screen. keeps_steps.
  - unfold jetkvm_ui_set_text, label_get_text. keeps_steps.
  - apply keeps_on_object. cbn. apply value_typed. cbn.
    pose proof (u8_range opacity). unfold in_u8 in *. lia.
Qed.
Lemma keeps_run_ops ops :
  forallb op_ok ops = true → keeps (ui_run_ops ui_objects ui_styles ui_vars V ops).
Proof.
  induction ops as [|op ops IH]; cbn; [intros _; apply keeps_mret|]. intros [H1 H2]%andb_prop.
  keeps_step; [by apply keeps_perform|by apply IH].
Qed.
End keeps.

(** ** Runs that end *)

Lemma ui_runs {L} `{!Lvgl L, !LvglLaws L} ui_objects ui_styles ui_vars V ops (s : ust L) :
  strlen V < 32 → buffers_ok s →
  ∃ s1, ui_init V s = Some (tt, s1) ∧
    (forallb (op_fits ui_objects ui_vars) ops = true →
     ∃ s2, ui_run_ops ui_objects ui_styles ui_vars V ops s1 = Some (tt, s2)).
Proof.
  intros HV Hb.
  destruct (uwp_run _ _ _ (uwp_ui_init V HV s Hb)) as ([] & s1 & E1 & Hwf & _).
  pose proof (conj Hwf (sent_ok_refl (u_out s1))) as Hs1.
  exists s1. split; [done|]. intros Hops.
  destruct (uwp_run _ _ _ (safe_run_ops ui_objects ui_styles ui_vars V HV (objects s1) _ ops Hops s1 Hs1))
    as ([] & s2 & E2 & _). eauto.
Qed.
