(* ===== verification/UiTypes.v ===== *)
(** * The types of the style properties

    Each property of a style has a type: a length, an opacity, a colour, a font or
    a constant of its own enumeration. The styles of styles.c, the calls of
    screens.c and everything the interface does when it runs respect it: LVGL
    is never handed a value of another type. *)
From stdpp Require Import functions.
From S2P Require Import Prelude Lvgl UiStyles UiScreens Ui UiActions UiControl UiBuild UiSafe UiInv.

Definition style_typed (style : lv_style_t) : bool := forallb (λ '(p, v), well_typed p v) style.
Definition attr_typed (a : attr) : bool :=
  match a with lv_obj_set_style p v _ _ => well_typed p v | _ => true end.

(** ** An LVGL that watches the calls *)

(** The flag says that every property set so far had a value of its type. *)
#[export] Instance typed_lvgl L `{!Lvgl L} : Lvgl (L * bool) := {
  lv_view l := lv_view l.1;
  lv_create k p l := let '(o, l') := lv_create k p l.1 in (o, (l', l.2));
  lv_set a o l := (lv_set a o l.1, l.2 && attr_typed a);
  lv_scr_act l := lv_scr_act l.1;
  lv_scr_load o l := (lv_scr_load o l.1, l.2)
}.
#[export] Instance typed_laws L `{!Lvgl L, !LvglLaws L} : LvglLaws (L * bool).
Proof.
  split; simpl.
  - intros k p l o l' H. destruct (lv_create k p l.1) as [o1 l1] eqn:E. simplify_eq.
    by apply (create_fresh k p _ _ l1).
  - intros k p l o l' o' H. destruct (lv_create k p l.1) as [o1 l1] eqn:E. simplify_eq. simpl.
    by apply create_view.
  - intros k p l o l' H. destruct (lv_create k p l.1) as [o1 l1] eqn:E. simplify_eq. simpl.
    by apply (create_act k p _ o).
  - intros a o l v o' Hv Hk. by apply set_view.
  - intros a o l v Hv Hk. by eapply set_act.
  - intros. apply load_view.
  - intros. apply load_act.
Qed.

Definition table_typed (t : style_table) : Prop :=
  ∀ st style, t st = Some style → style_typed style = true.

(** A style object that exists keeps its settings and may get more, the newest
    first: it is never made anew. *)
Definition styles_grow (t0 t : style_table) : Prop :=
  ∀ st style, t0 st = Some style → ∃ new, t st = Some (new ++ style).
Lemma styles_grow_refl t : styles_grow t t.
Proof. intros st style H. by exists []. Qed.
Lemma styles_grow_trans t1 t2 t3 : styles_grow t1 t2 → styles_grow t2 t3 → styles_grow t1 t3.
Proof.
  intros H1 H2 st style Hst. destruct (H1 st style Hst) as [n1 H]. destruct (H2 st _ H) as [n2 ->].
  exists (n2 ++ n1). by rewrite <- app_assoc.
Qed.

(** The style objects only grow, and all of it is well typed. *)
Definition typed_inv {L} (t0 : style_table) (l : L * bool) (t : style_table) : Prop :=
  l.2 = true ∧ table_typed t ∧ styles_grow t0 t.
Definition typed {L} (s : ust (L * bool)) : Prop := (u_lv s).2 = true ∧ table_typed (styles s).

Lemma table_insert t st style :
  table_typed t → style_typed style = true → table_typed (<[st := Some style]> t).
Proof. intros Ht Hs st' style'. rewrite style_table_insert. case_decide; [by intros [= <-]|apply Ht]. Qed.
Lemma init_style_typed st : style_typed (init_style st []) = true.
Proof. by destruct st. Qed.
(** A setting is added, or a style that does not exist yet is created. *)
Lemma grow_insert (t0 t : style_table) st style :
  styles_grow t0 t → (∀ old, t st = Some old → ∃ new, style = new ++ old) →
  styles_grow t0 (<[st := Some style]> t).
Proof.
  intros H Hs st' old Hold. destruct (H st' old Hold) as [new Hnew].
  unfold styles_grow. rewrite style_table_insert. case_decide; [subst st'|by exists new].
  destruct (Hs _ Hnew) as [n2 ->]. exists (n2 ++ new). by rewrite <- app_assoc.
Qed.

#[export] Instance typed_ui_inv L `{!Lvgl L} t0 :
  UiInv (L := L * bool) (typed_inv t0) well_typed (λ _, true).
Proof.
  split; try done.
  - intros k p l o l' t E (H1 & H2). cbn in E. destruct (lv_create k p l.1). by simplify_eq.
  - intros a o l t v Ha _ _ (H1 & H2). split; [|done]. cbn. rewrite H1. by destruct a.
  - intros st l t (H1 & H2 & H3). rewrite get_style_static. unfold get_static.
    destruct (t st) eqn:E; [done|]. split; [done|].
    split; [by apply table_insert; [|apply init_style_typed]|apply grow_insert; [done|congruence]].
  - intros st p v style l t Hv Hst (H1 & H2 & H3). split; [done|].
    split; [|apply grow_insert; [done|rewrite Hst; intros old [= <-]; by exists [(p, v)]]].
    apply table_insert; [done|].
    unfold style_typed, lv_style_set. cbn. rewrite Hv. by apply (H2 st).
Qed.

(** Any character is allowed here. *)
Lemma any_text t : text_all (λ _, true) t = true.
Proof. unfold text_all. by apply forallb_forall. Qed.
Lemma any_ops ops : forallb (op_ok (λ _, true)) ops = true.
Proof. apply forallb_forall. intros [] _; try done; apply any_text. Qed.
Lemma any_buf buf : buf_ok (λ _, true) buf.
Proof. apply Forall_forall. auto. Qed.
Lemma typed_inv_of {L} (s : ust (L * bool)) : typed s → inv (typed_inv (styles s)) (λ _, true) s.
Proof. intros [H1 H2]. split; [split; [done|by split; [|apply styles_grow_refl]]|apply any_buf..]. Qed.

(** C23: Every style property gets a value of its type. From the first state on,
    through building the screens and any sequence of calls from Go and of ticks
    with events, LVGL is never handed a property with a value of another type,
    be it a number where a colour belongs, a font that is not one of fonts.h or an
    opacity over 255: at the end of every run, which is reached when the callers keep
    to [op_fits], every property set so far is well typed, in the objects and in the
    style objects, those the next [get_style] creates included; and every style
    object that existed at the beginning or after building still has all its
    settings, under those added since: none is created a second time. *)
Theorem style_values_typed {L} `{!Lvgl L, !LvglLaws L} ui_objects ui_styles ui_vars V
    (ops : list ui_op) (s : ust (L * bool)) :
  strlen V < 32 → buffers_ok s → typed s →
  ∃ s1, ui_init V s = Some (tt, s1) ∧ typed s1 ∧ styles_grow (styles s) (styles s1) ∧
    (forallb (op_fits ui_objects ui_vars) ops = true →
     ∃ s2, ui_run_ops ui_objects ui_styles ui_vars V ops s1 = Some (tt, s2)) ∧
    ∀ s2, ui_run_ops ui_objects ui_styles ui_vars V ops s1 = Some (tt, s2) →
      typed s2 ∧ (∀ st, style_typed (get_style st (styles s2)).1 = true) ∧
      styles_grow (styles s) (styles s2) ∧ styles_grow (styles s1) (styles s2).
Proof.
  intros HV Hb Ht.
  destruct (ui_runs ui_objects ui_styles ui_vars V ops s HV Hb) as (s1 & E1 & Hrun).
  destruct (keeps_ui_init _ _ _ V (any_text V) s tt s1 E1 (typed_inv_of s Ht)) as [[(H1 & H2 & Hg) _ _ _ _] _].
  assert (Ht1 : typed s1) by done.
  exists s1. split_and!; try done. intros s2 E2.
  destruct (keeps_run_ops _ _ _ V (any_text V) ui_objects ui_styles ui_vars ops (any_ops ops) s1 tt s2 E2
    (typed_inv_of s1 Ht1)) as [[(H3 & H4 & Hk) _ _ _ _] _].
  split_and!; try done; [|by eapply styles_grow_trans]. intros st.
  rewrite get_style_static. unfold get_static. destruct (styles s2 st) eqn:E; [by apply (H4 st)|].
  apply init_style_typed.
Qed.

Definition typed_blank : ust (store * bool) :=
  Ust (Store [] 0, true) (λ _, NULL) (λ _, None) (-1)
    (replicate 100 NUL) (replicate 100 NUL) (replicate 32 NUL) (copy_var 32 "home_screen")
    false [] (λ _, HoldState 0 false false) 0 270 LV_DISP_ROTATION_0 None.
Lemma style_values_typed_witness :
  ∃ s1 s2, ui_init "9.2.2" typed_blank = Some (tt, s1) ∧
    ui_run_ops sample_objects sample_styles sample_vars "9.2.2" sample_ops s1 = Some (tt, s2) ∧
    typed s2.
Proof.
  destruct (style_values_typed sample_objects sample_styles sample_vars "9.2.2" sample_ops typed_blank)
    as (s1 & H1 & _ & _ & H2 & H3); [done|by split; split|by split|].
  destruct H2 as (s2 & H2); [by vm_compute|].
  exact (ex_intro _ s1 (ex_intro _ s2 (conj H1 (conj H2 (proj1 (H3 s2 H2)))))).
Defined.
