(* ===== verification/UiNav.v ===== *)
(** * Screens

    Which event leads to which screen, what [ui_tick] shows on a screen, and the
    two ways of switching screens, which disagree. *)
From stdpp Require Import functions.
From S2P Require Import Prelude Lvgl UiStyles UiScreens Ui UiActions UiControl UiBuild UiSafe.

(** ** The navigation of the device *)

(** On an event at an object, the screen that follows. [None] for the direction:
    the event is not a gesture, or its direction does not matter. *)
Definition nav_table : list (field * lv_event_code * option lv_dir * Z) :=
  [(o_home_screen, LV_EVENT_LONG_PRESSED, None, SCREEN_ID_MENU_SCREEN);
   (o_home_screen, LV_EVENT_GESTURE, Some LV_DIR_LEFT, SCREEN_ID_MENU_SCREEN);
   (o_no_network_screen, LV_EVENT_LONG_PRESSED, None, SCREEN_ID_MENU_SCREEN);
   (o_no_network_screen, LV_EVENT_GESTURE, Some LV_DIR_LEFT, SCREEN_ID_MENU_SCREEN);
   (o_menu_btn_status, LV_EVENT_CLICKED, None, SCREEN_ID_STATUS_SCREEN);
   (o_menu_btn_advanced, LV_EVENT_CLICKED, None, SCREEN_ID_MENU_ADVANCED_SCREEN);
   (o_menu_btn_about, LV_EVENT_CLICKED, None, SCREEN_ID_ABOUT_SCREEN);
   (o_menu_btn_advanced_reboot, LV_EVENT_PRESSED, None, SCREEN_ID_REBOOT_SCREEN);
   (o_menu_btn_dhcp_client, LV_EVENT_PRESSED, None, SCREEN_ID_SWITCH_DHCP_CLIENT_SCREEN);
   (o_menu_btn_advanced_reset_config, LV_EVENT_PRESSED, None, SCREEN_ID_RESET_CONFIG_SCREEN);
   (o_menu_advanced_screen, LV_EVENT_GESTURE, Some LV_DIR_RIGHT, SCREEN_ID_MENU_SCREEN);
   (o_menu_network_screen, LV_EVENT_GESTURE, Some LV_DIR_RIGHT, SCREEN_ID_MENU_SCREEN);
   (o_about_screen, LV_EVENT_GESTURE, Some LV_DIR_RIGHT, SCREEN_ID_MENU_SCREEN);
   (o_status_screen, LV_EVENT_GESTURE, Some LV_DIR_RIGHT, SCREEN_ID_MENU_SCREEN);
   (o_reset_config_screen, LV_EVENT_GESTURE, Some LV_DIR_RIGHT, SCREEN_ID_MENU_SCREEN);
   (o_reboot_screen, LV_EVENT_GESTURE, Some LV_DIR_RIGHT, SCREEN_ID_MENU_SCREEN);
   (o_switch_dhcp_client_screen, LV_EVENT_GESTURE, Some LV_DIR_RIGHT, SCREEN_ID_MENU_SCREEN)].

(** The handlers of a field, from the trees. *)
Definition handlers_of (f : field) : list (ui_action * lv_event_code) :=
  match List.find (λ n : node, bool_decide (n.1.2 = Some f)) ui_nodes with
  | Some n => callbacks n.2
  | None => []
  end.
Definition screen_field (id : Z) : field :=
  match load all_fields (id - 1) with Some f => f | None => o_boot_screen end.

Section nav.
Context {L : Type} `{!Lvgl L, !LvglLaws L}.
Implicit Types s : ust L.

Lemma loadScreen_run id s : ui_wf s → 1 ≤ id ≤ 12 →
  loadScreen id s = Some (tt, switched (id - 1) (screen_field id) s).
Proof.
  intros Hwf Hid.
  destruct (lookup_lt_is_Some_2 all_fields (Z.to_nat (id - 1))) as (f & Hf);
    [change (length all_fields) with 103%nat; lia|].
  destruct (has_nodes_view _ _ f (wf_nodes _ _ Hwf)) as (v & Hv & _ & Hsc).
  rewrite (screens_first (Z.to_nat (id - 1)) f) in Hsc by (done || lia).
  destruct (uwp_run _ _ _ (uwp_loadScreen id f v s (λ _ s', s' = switched (id - 1) f s) Hv Hsc Hid Hf eq_refl))
    as ([] & s' & E & ->).
  rewrite E. unfold screen_field, load. by rewrite decide_True, Hf by lia.
Qed.

Lemma elem_of_dests_unique ns k1 k2 f a1 a2 :
  NoDup (dests ns) → (k1, Some f, a1) ∈ ns → (k2, Some f, a2) ∈ ns → k1 = k2 ∧ a1 = a2.
Proof.
  induction ns as [|[[k d] a] ns IH]; intros Hnd H1 H2; [by apply not_elem_of_nil in H1|].
  assert (Hnd' : NoDup (dests ns) ∧ (d = Some f → f ∉ dests ns)).
    { destruct d as [g|]; cbn in Hnd; [apply NoDup_cons in Hnd as [? ?]|]; (split; [done|]); [by intros [= <-]|done]. }
  destruct Hnd' as [Hnd' Hnot].
  apply elem_of_cons in H1 as [H1|H1]; apply elem_of_cons in H2 as [H2|H2]; auto;
    [split; congruence|exfalso; apply (Hnot ltac:(congruence)); by eapply dests_elem..].
Qed.

Lemma handlers_run f s : ui_wf s →
  ∃ v, lv_view (u_lv s) (objects s f) = Some v ∧ v_callbacks v = handlers_of f.
Proof.
  intros Hwf. destruct (wf_live _ _ f Hwf) as (v & k & a & Hv & Hin & Hs).
  exists v. split; [done|]. unfold handlers_of.
  destruct (List.find _ ui_nodes) as [[[k' d'] a']|] eqn:E.
  - apply List.find_some in E as [Hin' Hd]. apply bool_decide_eq_true in Hd. cbn in Hd. subst.
    destruct (elem_of_dests_unique _ _ _ _ _ _ (proj1 all_dests) Hin (proj2 (list_elem_of_In _ _) Hin')) as [-> ->].
    by injection Hs.
  - exfalso. eapply List.find_none in E; [|by apply list_elem_of_In in Hin].
    cbn in E. by rewrite bool_decide_true in E.
Qed.

(** An event at a field runs its handlers. *)
Lemma send_event_run f e s : ui_wf s →
  send_event (objects s f) e s = call_handlers (handlers_of f) e s.
Proof.
  intros Hwf. destruct (handlers_run f s Hwf) as (v & Hv & <-).
  unfold send_event, live. ui_run. by rewrite Hv.
Qed.
(** The answer of one handler. *)
Lemma call_one a ev e s :
  call_handlers [(a, ev)] e s =
  if bool_decide (ev = lv_event_get_code e) then perform_action a e s else Some (tt, s).
Proof.
  cbn. case_bool_decide; ui_run; [|done]. by destruct (perform_action a e s) as [[[] ?]|].
Qed.
Lemma call_cons_other a ev l e s :
  ev ≠ lv_event_get_code e → call_handlers ((a, ev) :: l) e s = call_handlers l e s.
Proof. intros H. cbn. by rewrite bool_decide_false. Qed.
Lemma call_pair_first a1 a2 ev1 ev2 e s :
  ev1 = lv_event_get_code e → ev2 ≠ lv_event_get_code e →
  call_handlers [(a1, ev1); (a2, ev2)] e s = perform_action a1 e s.
Proof.
  intros H1 H2. cbn. rewrite (bool_decide_true _ H1), (bool_decide_false _ H2). ui_run.
  by destruct (perform_action a1 e s) as [[[] ?]|].
Qed.

Lemma gesture_run e d id s : ui_wf s → 1 ≤ id ≤ 12 → lv_event_get_code e = LV_EVENT_GESTURE →
  (handle_gesture_screen_switch e d id;; mret tt) s =
  Some (tt, if bool_decide (gesture_dir e = d) then switched (id - 1) (screen_field id) s else s).
Proof.
  intros Hwf Hid He. unfold handle_gesture_screen_switch. rewrite He.
  rewrite bool_decide_true by done. cbn [negb].
  destruct (bool_decide (gesture_dir e = d)); cbn [negb]; [|done].
  unfold mbind, ui_mbind. by rewrite loadScreen_run.
Qed.
End nav.

(** Find the handler of a field for an event. *)
Ltac handlers :=
  match goal with |- context [handlers_of ?f] =>
    let l := eval vm_compute in (handlers_of f) in change (handlers_of f) with l end;
  first [rewrite call_pair_first by done
        |rewrite ?call_cons_other by done; rewrite call_one, bool_decide_true by done].

(** C21: The navigation of the device. Each of the screens and buttons of
    [nav_table], given the event the table names (with the direction it asks for),
    switches to the screen the table gives, through whatever handlers screens.c
    registered there, and changes nothing else; a gesture in another direction on a
    screen that asks for one leaves the interface as it is. *)
Theorem navigation {L} `{!Lvgl L, !LvglLaws L} f code d id (e : lv_event) (s : ust L) :
  ui_wf s → (f, code, d, id) ∈ nav_table → lv_event_get_code e = code →
  send_event (objects s f) e s =
    Some (tt, if bool_decide (d = None ∨ d = Some (gesture_dir e))
              then switched (id - 1) (screen_field id) s else s).
Proof.
  intros Hwf Hin He. rewrite send_event_run by done. destruct e as [c dir]. cbn in He. subst c.
  unfold nav_table in Hin.
  repeat (apply elem_of_cons in Hin as [[= -> -> -> ->]|Hin]); [..|by apply not_elem_of_nil in Hin];
    handlers; cbn [perform_action].
  all: first [rewrite gesture_run by (done || by vm_compute)|rewrite loadScreen_run by (done || by vm_compute)].
  all: do 2 f_equal; repeat case_bool_decide; naive_solver.
Qed.

Lemma navigation_witness :
  ui_wf ui_started ∧
  send_event (objects ui_started o_about_screen) (Event LV_EVENT_GESTURE LV_DIR_RIGHT) ui_started =
    Some (tt, switched 3 (screen_field SCREEN_ID_MENU_SCREEN) ui_started).
Proof.
  split; [apply ui_started_wf|].
  rewrite (navigation o_about_screen LV_EVENT_GESTURE (Some LV_DIR_RIGHT) SCREEN_ID_MENU_SCREEN);
    [by rewrite bool_decide_true by (by right)|apply ui_started_wf| |done].
  apply (bool_decide_unpack _). by vm_compute.
Defined.

(** ** The menu *)

(** Any gesture leaves the menu. The handler of the menu screen is given the
    direction right, but looks at neither the event nor the direction of the
    gesture: a gesture to any side goes to the screen the variable main_screen
    names, home or no network, and to none for any other value. *)
Theorem menu_left_by_any_gesture {L} `{!Lvgl L, !LvglLaws L} dir (s : ust L) :
  ui_wf s →
  send_event (objects s o_menu_screen) (Event LV_EVENT_GESTURE dir) s =
    Some (tt,
      if streq (var_text (main_screen s)) "home_screen" then switched 2 o_home_screen s
      else if streq (var_text (main_screen s)) "no_network_screen" then switched 1 o_no_network_screen s
      else s).
Proof.
  intros Hwf. rewrite send_event_run by done. handlers. cbn [perform_action].
  unfold handle_gesture_main_screen_switch. unfold mbind, ui_mbind.
  rewrite get_main_screen_run by apply Hwf.
  destruct (streq _ "home_screen"); [by rewrite loadScreen_run|].
  destruct (streq _ "no_network_screen"); [by rewrite loadScreen_run|done].
Qed.

Lemma menu_left_by_any_gesture_witness :
  send_event (objects ui_started o_menu_screen) (Event LV_EVENT_GESTURE LV_DIR_TOP) ui_started =
    Some (tt, switched 2 o_home_screen ui_started).
Proof.
  rewrite (menu_left_by_any_gesture LV_DIR_TOP) by apply ui_started_wf.
  assert (E : streq (var_text (main_screen ui_started)) "home_screen" = true) by by vm_compute.
  by rewrite E.
Defined.

(** ** Ticks *)

Section ticks.
Context {L : Type} `{!Lvgl L, !LvglLaws L}.
Implicit Types s : ust L.

Definition label_text s (f : field) : option string := v_text <$> lv_view (u_lv s) (objects s f).

(** The labels a screen's tick fills, and from where. *)
Definition shown (V : string) s : list (field * list ascii) :=
  if currentScreen s =? 0 then [(o_boot_screen_version, app_version s)]
  else if currentScreen s =? 6 then
    [(o_system_version, system_version s); (o_app_version, app_version s);
     (o_lvgl_version, lvgl_version (lvgl_filled V s))]
  else [].

(** From [s], the object of [f] has got the text [val], and no other object and no
    global but the version buffers has changed. *)
Definition relabelled (f : field) (val : string) s s' : Prop :=
  ui_wf s' ∧ objects s' = objects s ∧ same_globals s s' ∧ styles s' = styles s ∧
  (∃ v, lv_view (u_lv s) (objects s f) = Some v ∧ lv_view (u_lv s') (objects s f) = Some (with_text val v)) ∧
  (∀ o, o ≠ objects s f → lv_view (u_lv s') o = lv_view (u_lv s) o).

Lemma tick_label_styles getter f val s s1 s' :
  getter s = Some (val, s1) → tick_label getter f s = Some (tt, s') → styles s' = styles s1.
Proof.
  intros Hg. unfold tick_label, label_get_text, configure, live. ui_run. rewrite Hg. intros H.
  repeat (case_match; simplify_eq/=; try done).
Qed.

Lemma uwp_tick_relabelled getter f val s s1 :
  ui_wf s → (field_kind f).1 = lv_label → getter s = Some (val, s1) → objects s1 = objects s →
  u_lv s1 = u_lv s → same_globals s s1 → styles s1 = styles s → buffers_ok s1 →
  uwp (tick_label getter f)
    (λ _ s', relabelled f val s s' ∧ app_version s' = app_version s1 ∧ lvgl_version s' = lvgl_version s1) s.
Proof.
  intros Hwf Hf Hg Eo El HG1 Est Hb.
  destruct (has_nodes_view _ _ f (wf_nodes _ _ Hwf)) as (v & Hv & Hk & _). rewrite Hf in Hk.
  destruct (uwp_run _ _ _ (uwp_tick_label getter f val s s1 v Hg Eo ltac:(by rewrite El) Hk))
    as ([] & s' & Es & Hv' & Hoth & Eo' & Ea & Elv & HG).
  unfold uwp. rewrite Es. split; [|done]. rewrite Eo in Eo'.
  split_and!; [|done|by eapply same_globals_trans|by rewrite (tick_label_styles _ _ _ _ _ _ Hg Es)
              |by exists v|intros o Ho; by rewrite Hoth, El].
  assert (Hwf1 : wf (objects s) s1).
  { destruct Hwf as [_ ? ? ? _ ?]. destruct HG1 as (_ & Ec & _). split; rewrite ?El, ?Ec; done. }
  unfold ui_wf. rewrite Eo'. apply (configured_wf (objects s) (objects s f) v (with_text val v) s1); [done|by rewrite El|done|].
  split_and!; try done. congruence.
Qed.
End ticks.

Section tick_screens.
Context {L : Type} `{!Lvgl L, !LvglLaws L}.
Implicit Types s : ust L.
Variable V : string.
Hypothesis HV : strlen V < 32.

Lemma lvgl_filled_frame s :
  objects (lvgl_filled V s) = objects s ∧ u_lv (lvgl_filled V s) = u_lv s ∧
  same_globals s (lvgl_filled V s) ∧ styles (lvgl_filled V s) = styles s.
Proof. unfold lvgl_filled, same_globals. by case_bool_decide. Qed.

Lemma lvgl_filled_versions s s' :
  app_version s' = app_version s → lvgl_version s' = lvgl_version s →
  app_version (lvgl_filled V s') = app_version (lvgl_filled V s) ∧
  lvgl_version (lvgl_filled V s') = lvgl_version (lvgl_filled V s).
Proof. intros Ea E. unfold lvgl_filled. rewrite E. case_bool_decide; cbn; by rewrite ?Ea. Qed.

Lemma uwp_tick_boot s :
  ui_wf s →
  uwp tick_screen_boot_screen (λ _ s', relabelled o_boot_screen_version (var_text (app_version s)) s s' ∧
    app_version s' = app_version s ∧ lvgl_version s' = lvgl_version s) s.
Proof.
  intros Hwf. apply uwp_tick_relabelled; try done; try apply same_globals_refl;
    [by apply get_app_version_run, Hwf|apply Hwf].
Qed.

(** The three labels of the about screen, one after the other. *)
Lemma uwp_tick_about s :
  ui_wf s →
  uwp (tick_screen_about_screen V) (λ _ s3, ∃ s1 s2,
    relabelled o_system_version (var_text (system_version s)) s s1 ∧
    relabelled o_app_version (var_text (app_version s)) s1 s2 ∧
    relabelled o_lvgl_version (var_text (lvgl_version (lvgl_filled V s))) s2 s3 ∧
    app_version s3 = app_version (lvgl_filled V s) ∧ lvgl_version s3 = lvgl_version (lvgl_filled V s)) s.
Proof.
  intros Hwf. unfold tick_screen_about_screen. uwp_steps.
  eapply uwp_mono; [eapply uwp_tick_relabelled;
    [done|by vm_compute|by apply get_system_version_run, Hwf|done|done|apply same_globals_refl|done|apply Hwf]|].
  cbn beta. intros _ s1 (R1 & Ea1 & El1). pose proof (proj1 R1) as Hwf1. uwp_steps.
  eapply uwp_mono; [eapply uwp_tick_relabelled;
    [done|by vm_compute|by apply get_app_version_run, Hwf1|done|done|apply same_globals_refl|done|apply Hwf1]|].
  cbn beta. intros _ s2 (R2 & Ea2 & El2). pose proof (proj1 R2) as Hwf2.
  destruct (lvgl_filled_frame s2) as (Eo & El & HG & Est).
  destruct (lvgl_filled_versions s s2) as [Ea Ev]; [congruence..|].
  eapply uwp_mono; [eapply uwp_tick_relabelled; [done|by vm_compute
    |apply get_lvgl_version_run; [exact HV|apply Hwf2]|done|done|done|done|apply lvgl_filled_ok; [exact HV|apply Hwf2]]|].
  cbn beta. intros _ s3 (R3 & Ea3 & El3). rewrite Ev in R3, El3. rewrite Ea in Ea3. rewrite Ea1 in R2. eauto 10.
Qed.

Lemma set_app_wf v s : ui_wf s → ui_wf (set_app_version (copy_var 100 v) s).
Proof.
  intros Hwf. apply (wf_buffers_change _ s); try done. destruct (wf_buffers _ _ Hwf).
  split; try done. apply copy_var_ok. lia.
Qed.
Lemma set_system_wf v s : ui_wf s → ui_wf (set_system_version (copy_var 100 v) s).
Proof.
  intros Hwf. apply (wf_buffers_change _ s); try done. destruct (wf_buffers _ _ Hwf).
  split; try done. apply copy_var_ok. lia.
Qed.

(** On the other screens a tick does nothing, however often it runs. *)
Lemma tick_other_run s : ui_wf s → currentScreen s ≠ 0 → currentScreen s ≠ 6 →
  ui_tick V s = Some (tt, s).
Proof.
  intros Hwf Hn0 Hn6. pose proof (wf_screen _ _ Hwf) as Hc.
  assert (Htick : ui_tick V s = tick_screen V (currentScreen s) s) by done. rewrite Htick.
  unfold tick_screen, load. rewrite decide_True by lia.
  assert (Hcases : ∀ n, (n < 12)%nat → n ≠ 0%nat → n ≠ 6%nat →
    tick_screen_funcs (L := L) V !! n = Some tick_screen_none)
    by (intros n Hn ??; do 12 (destruct n as [|n]; [done|]); lia).
  rewrite Hcases by lia. done.
Qed.

Lemma tick_boot_unfold s : currentScreen s = 0 → ui_tick V s = tick_screen_boot_screen s.
Proof.
  intros E. assert (Htick : ui_tick V s = tick_screen V (currentScreen s) s) by done. by rewrite Htick, E.
Qed.
Lemma tick_about_unfold s : currentScreen s = 6 → ui_tick V s = tick_screen_about_screen V s.
Proof.
  intros E. assert (Htick : ui_tick V s = tick_screen V (currentScreen s) s) by done. by rewrite Htick, E.
Qed.

Lemma about_shown s s1 s2 s3 :
  ui_wf s → relabelled o_system_version (var_text (system_version s)) s s1 →
  relabelled o_app_version (var_text (app_version s)) s1 s2 →
  relabelled o_lvgl_version (var_text (lvgl_version (lvgl_filled V s))) s2 s3 →
  let shown := [(o_system_version, system_version s); (o_app_version, app_version s);
    (o_lvgl_version, lvgl_version (lvgl_filled V s))] in
  ui_wf s3 ∧ objects s3 = objects s ∧ same_globals s s3 ∧ styles s3 = styles s ∧
  (∀ f buf, (f, buf) ∈ shown → ∃ v, lv_view (u_lv s) (objects s f) = Some v ∧
     lv_view (u_lv s3) (objects s f) = Some (with_text (var_text buf) v)) ∧
  (∀ o, o ∉ objects s <$> shown.*1 → lv_view (u_lv s3) o = lv_view (u_lv s) o).
Proof.
  intros Hwf (_ & Eo1 & HG1 & Es1 & T1 & H1) (_ & Eo2 & HG2 & Es2 & T2 & H2) (Hwf3 & Eo3 & HG3 & Es3 & T3 & H3).
  rewrite Eo1 in T2, H2, Eo2. rewrite Eo2 in T3, H3.
  assert (Hd : ∀ f g, f ≠ g → objects s f ≠ objects s g).
  { intros f g Hfg E. by apply Hfg, (wf_inj _ _ _ _ Hwf). }
  split_and!; [done|congruence|by eauto using same_globals_trans|congruence| |].
  - intros f buf Hin. rewrite !elem_of_cons in Hin.
    destruct Hin as [[= -> ->]|[[= -> ->]|[[= -> ->]|[]%not_elem_of_nil]]].
    + by rewrite H3, H2 by (by apply Hd).
    + rewrite H3 by (by apply Hd). by rewrite H1 in T2 by (by apply Hd).
    + by rewrite H2, H1 in T3 by (by apply Hd).
  - cbn. intros o Ho. rewrite !not_elem_of_cons in Ho. destruct Ho as (? & ? & ? & _).
    by rewrite H3, H2, H1.
Qed.
End tick_screens.

(** The variables after a tick: the first tick of the about screen fills the buffer
    of the LVGL version, and cuts the application version at 31 characters. *)
Definition ticked {L} V (s : ust L) : ust L := if currentScreen s =? 6 then lvgl_filled V s else s.

(** C22: A tick refreshes the screen [currentScreen] names. [ui_tick] always
    succeeds. The version label of the boot screen, or the system, application and
    LVGL version labels of the about screen, get the texts the variables hold
    ([shown]: the first two as they were before the tick, the LVGL version as the
    tick leaves it), and nothing else of these objects changes; every other object,
    the table of objects, the styles, the active screen, the messages sent and all
    other globals are left as they were, and so is everything on the other screens.
    Of the variables, only the first tick of the about screen changes any: it fills
    lvgl_version and, with it, cuts app_version at 31 characters ([ticked]), so a
    longer application version is shown whole by that tick and cut by the next. *)
Theorem ui_tick_shows_variables {L} `{!Lvgl L, !LvglLaws L} V (s : ust L) :
  strlen V < 32 → ui_wf s →
  ∃ s', ui_tick V s = Some (tt, s') ∧ ui_wf s' ∧ objects s' = objects s ∧
    same_globals s s' ∧ styles s' = styles s ∧
    app_version s' = app_version (ticked V s) ∧ lvgl_version s' = lvgl_version (ticked V s) ∧
    (∀ f buf, (f, buf) ∈ shown V s → ∃ v, lv_view (u_lv s) (objects s f) = Some v ∧
       lv_view (u_lv s') (objects s f) = Some (with_text (var_text buf) v)) ∧
    (∀ o, o ∉ objects s <$> (shown V s).*1 → lv_view (u_lv s') o = lv_view (u_lv s) o) ∧
    (shown V s = [] → s' = s).
Proof.
  intros HV Hwf. pose proof (wf_screen _ _ Hwf) as Hc. unfold shown, ticked.
  destruct (Z.eqb_spec (currentScreen s) 0) as [E|Hn0]; [|destruct (Z.eqb_spec (currentScreen s) 6) as [E|Hn6]].
  - rewrite (tick_boot_unfold V s E), E.
    destruct (uwp_run _ _ _ (uwp_tick_boot s Hwf))
      as ([] & s' & Es & (? & ? & ? & ? & Ht & Hoth) & ? & ?).
    exists s'. split; [exact Es|]. split_and!; try done.
    + intros f buf [= -> ->]%list_elem_of_singleton. done.
    + intros o Ho. apply Hoth. cbn in Ho. by rewrite list_elem_of_singleton in Ho.
  - rewrite (tick_about_unfold V s E).
    destruct (uwp_run _ _ _ (uwp_tick_about V HV s Hwf)) as ([] & s' & Es & s1 & s2 & R1 & R2 & R3 & Ea & El).
    destruct (about_shown V s s1 s2 s' Hwf R1 R2 R3) as (? & ? & ? & ? & ? & ?).
    exists s'. by split; [exact Es|split_and!].
  - pose proof (tick_other_run V s Hwf Hn0 Hn6) as E.
    exists s. split_and!; try done. by intros f buf ?%not_elem_of_nil.
Qed.

Lemma ui_tick_shows_variables_witness :
  ∃ s', ui_tick "9.2.2" (set_app_version (copy_var 100 "0.4.8") ui_started) = Some (tt, s') ∧
    label_text s' o_boot_screen_version = Some "0.4.8".
Proof.
  set (s := set_app_version (copy_var 100 "0.4.8") ui_started).
  assert (Hwf : ui_wf s) by apply set_app_wf, ui_started_wf.
  assert (Hs : shown "9.2.2" s = [(o_boot_screen_version, copy_var 100 "0.4.8")]) by by vm_compute.
  destruct (ui_tick_shows_variables "9.2.2" s) as (s' & H1 & _ & Ho & _ & _ & _ & _ & H2 & _);
    [done|exact Hwf|].
  exists s'. split; [exact H1|]. unfold label_text. rewrite Ho.
  destruct (H2 o_boot_screen_version (copy_var 100 "0.4.8")) as (v & _ & ->); [|by vm_compute].
  rewrite Hs. by apply list_elem_of_singleton.
Defined.

(** ** Screens loaded from Go *)

Section load.
Context {L : Type} `{!Lvgl L, !LvglLaws L}.
Implicit Types s : ust L.
Variable ui_objects : list (string * field).

Lemma load_screen_run n f s : ui_wf s → find_name n ui_objects = Some f → (field_kind f).2 = true →
  ∃ s', jetkvm_ui_load_screen ui_objects n s = Some (tt, s') ∧ ui_wf s' ∧
    lv_scr_act (u_lv s') = objects s f ∧ s' = set_lv (u_lv s') s ∧
    (∀ o, lv_view (u_lv s') o = lv_view (u_lv s) o).
Proof.
  intros Hwf Hf Hscreen. cut (uwp (jetkvm_ui_load_screen ui_objects n) (λ _ s', ui_wf s' ∧
    lv_scr_act (u_lv s') = objects s f ∧ s' = set_lv (u_lv s') s ∧
    (∀ o, lv_view (u_lv s') o = lv_view (u_lv s) o)) s).
  { intros ([] & s' & ? & ?)%uwp_run. eauto. }
  destruct (has_nodes_view _ _ f (wf_nodes _ _ Hwf)) as (v & Hv & _ & Hsc).
  unfold jetkvm_ui_load_screen, ui_get_obj. rewrite Hf. uwp_steps.
  destruct (Z.eqb_spec (objects s f) NULL) as [E|_]; [by destruct (wf_not_null _ _ Hwf f)|]. uwp_steps.
  destruct (Z.eqb_spec (lv_scr_act (u_lv s)) (objects s f)); uwp_steps; [by destruct s|].
  unfold scr_load. uwp_steps. eapply uwp_live; [done|]. rewrite Hsc, Hscreen. uwp_steps. cbn.
  split_and!; [|by rewrite load_act|done|intros o; by rewrite load_view].
  destruct Hwf as [_ Hn Hd Hnn Hb Hc]. split; try done; [|by apply (buffers_ok_eq s)].
  intros k g a Hin. destruct (Hn _ _ _ Hin) as (w & ? & ?). exists w. cbn. by rewrite load_view.
Qed.

Lemma find_name_elem {A} n (l : list (string * A)) a : find_name n l = Some a → (n, a) ∈ l.
Proof.
  induction l as [|[m b] l IH]; [done|].
  change (find_name n ((m, b) :: l)) with (if streq m n then Some b else find_name n l).
  destruct (streq m n) eqn:E; [|intros; right; auto].
  apply streq_true in E as ->. intros Eb. injection Eb as ->. by left.
Qed.
Lemma find_obj_first objs f n l :
  (∀ g, objs g = objs f → g = f) → (n, f) ∈ l → (∀ n', (n', f) ∈ l → n' = n) →
  find_obj (objs f) objs l = Some n.
Proof.
  intros Hinj. induction l as [|[m g] l IH]; intros Hin Hun; [by apply not_elem_of_nil in Hin|]. cbn.
  destruct (Z.eqb_spec (objs g) (objs f)) as [E|Hne].
  - apply Hinj in E as ->. f_equal. apply Hun. by left.
  - apply elem_of_cons in Hin as [[= -> ->]|Hin]; [done|]. apply IH; [done|]. intros n' ?. apply Hun. by right.
Qed.
End load.

(** The current screen is the one last loaded. After [jetkvm_ui_load_screen]
    of the name of a screen in the table, that screen is LVGL's active one, nothing else
    has changed, and, when no other name stands for the same object,
    [jetkvm_ui_get_current_screen] answers the name. *)
Theorem load_get_current_screen {L} `{!Lvgl L, !LvglLaws L} ui_objects n f (s : ust L) :
  ui_wf s → find_name n ui_objects = Some f → (field_kind f).2 = true →
  (∀ n', (n', f) ∈ ui_objects → n' = n) →
  ∃ s', (jetkvm_ui_load_screen ui_objects n;; jetkvm_ui_get_current_screen ui_objects) s = Some (Some n, s') ∧
    ui_wf s' ∧ lv_scr_act (u_lv s') = objects s f ∧ s' = set_lv (u_lv s') s ∧
    (∀ o, lv_view (u_lv s') o = lv_view (u_lv s) o).
Proof.
  intros Hwf Hf Hsc Hun. destruct (load_screen_run ui_objects n f s Hwf Hf Hsc) as (s' & E & Hwf' & Ha & Es & Hv).
  exists s'. split; [|done]. unfold mbind at 1, ui_mbind. rewrite E.
  unfold jetkvm_ui_get_current_screen, ui_get_current_screen. ui_run. rewrite Ha.
  destruct (Z.eqb_spec (objects s f) NULL) as [E0|_]; [by destruct (wf_not_null _ _ Hwf f)|].
  assert (Eo : objects s' = objects s) by by rewrite Es. rewrite Eo.
  rewrite (find_obj_first _ f n); [done| |by apply find_name_elem|done].
  intros g. apply (wf_inj _ _ _ _ Hwf).
Qed.

Lemma load_get_current_screen_witness :
  ∃ s', (jetkvm_ui_load_screen sample_objects "about_screen";;
         jetkvm_ui_get_current_screen sample_objects) ui_started = Some (Some "about_screen", s').
Proof.
  destruct (load_get_current_screen sample_objects "about_screen" o_about_screen ui_started)
    as (s' & H & _); [apply ui_started_wf|done|by vm_compute| |exact (ex_intro _ s' H)].
  intros n' Hin. unfold sample_objects in Hin. rewrite !elem_of_cons in Hin.
  destruct Hin as [[= ->]|[[=]|[[=]|[]%not_elem_of_nil]]]. done.
Defined.

(** A screen loaded from Go is not the one ticked. [jetkvm_ui_load_screen]
    does not go through [loadScreen], so [currentScreen] stays behind: with the
    about screen loaded this way from any screen but boot and about, its label keeps
    its old text however often [ui_tick] runs after the variable was set. *)
Theorem loaded_screen_not_ticked {L} `{!Lvgl L, !LvglLaws L} ui_objects n V v k (s : ust L) :
  ui_wf s → find_name n ui_objects = Some o_about_screen →
  currentScreen s ≠ 0 → currentScreen s ≠ 6 → strlen V < 32 →
  ∃ s', (jetkvm_ui_load_screen ui_objects n;; set_var_system_version v;;
         Nat.iter k (λ m, m;; ui_tick V) (mret tt)) s = Some (tt, s') ∧
    lv_scr_act (u_lv s') = objects s' o_about_screen ∧
    system_version s' = copy_var 100 v ∧
    label_text s' o_system_version = label_text s o_system_version.
Proof.
  intros Hwf Hf Hc0 Hc6 HV.
  destruct (load_screen_run ui_objects n _ s Hwf Hf ltac:(by vm_compute)) as (s1 & E & Hwf1 & Ha & Es & Hv).
  assert (Ec : currentScreen s1 = currentScreen s) by by rewrite Es.
  assert (Eo : objects s1 = objects s) by by rewrite Es.
  exists (set_system_version (copy_var 100 v) s1). split_and!; [|cbn; by rewrite Ha, Eo|done|].
  - unfold mbind at 1, ui_mbind. rewrite E. unfold mbind at 1. cbn [set_var_system_version modify].
    set (s2 := set_system_version _ s1).
    assert (Htick : ui_tick V s2 = Some (tt, s2))
      by (apply tick_other_run; [by apply set_system_wf|by rewrite <- Ec in Hc0|by rewrite <- Ec in Hc6]).
    clearbody s2. induction k as [|k IH]; [done|]. rewrite Nat.iter_succ. unfold mbind, ui_mbind in *.
    by rewrite IH.
  - unfold label_text. cbn. by rewrite Hv, Eo.
Qed.

Lemma loaded_screen_not_ticked_witness :
  ∃ s', (jetkvm_ui_load_screen sample_objects "about_screen";; set_var_system_version "0.2.6";;
         Nat.iter 3 (λ m, m;; ui_tick "9.2.2") (mret tt)) (switched 2 o_home_screen ui_started) = Some (tt, s') ∧
    lv_scr_act (u_lv s') = objects s' o_about_screen.
Proof.
  destruct (loaded_screen_not_ticked sample_objects "about_screen" "9.2.2" "0.2.6" 3
    (switched 2 o_home_screen ui_started)) as (s' & H1 & H2 & _);
    [|done|done|done|done|exact (ex_intro _ s' (conj H1 H2))].
  apply switched_wf'; [apply ui_started_wf|lia].
Defined.
