(* ===== verification/UiHold.v ===== *)
(** * The hold-to-confirm buttons

    A pure state machine for one button, the proof that [hold_action] implements
    it, and what a whole press does: the RPC is called once if the button was held
    long enough, and not otherwise. *)
From stdpp Require Import functions.
From S2P Require Import Prelude Lvgl UiStyles UiScreens Ui UiActions UiBuild UiSafe UiNav.

(** ** The machine *)

Definition hold_ms (h : hold) : Z := match h with hold_reset_config => 10000 | _ => 5000 end.
Definition hold_rpc (h : hold) : string :=
  match h with
  | hold_reset_config => "resetConfig" | hold_dhcpc => "toggleDHCPClient" | hold_reboot => "reboot"
  end.
Definition hold_label (h : hold) : field :=
  match h with
  | hold_reset_config => o_reset_config_label | hold_dhcpc => o_dhcpc_label
  | hold_reboot => o_reboot_label
  end.
Definition hold_default (h : hold) : string :=
  "Press and hold for" ++ newline ++ decimal 2 (hold_ms h / 1000) ++ " seconds".

(** Milliseconds since the press, on a clock that wraps at 2^32. *)
Definition elapsed (now start : Z) : Z := u32 (now - start).

(** The new state of the button and whether the RPC is called. *)
Definition hold_next (h : hold) (code : lv_event_code) (now : Z) (x : hold_state) : hold_state * bool :=
  match code with
  | LV_EVENT_PRESSED => (HoldState now (completed x) (lock x), false)
  | LV_EVENT_PRESSING =>
      if hold_ms h <=? elapsed now (start_time x) then
        if lock x then (x, false) else (HoldState (start_time x) true true, true)
      else (HoldState (start_time x) false (lock x), false)
  | LV_EVENT_RELEASED => (HoldState (start_time x) (completed x) false, false)
  | _ => (x, false)
  end.

(** The text an event puts on the label: the seconds left, rounded down but at
    least 1, or the default. *)
Definition hold_shows (h : hold) (code : lv_event_code) (now : Z) (x : hold_state) : option string :=
  match code with
  | LV_EVENT_PRESSING =>
      if hold_ms h <=? elapsed now (start_time x) then None
      else Some (hold_text (Z.max 1 ((hold_ms h - elapsed now (start_time x)) / 1000)))
  | LV_EVENT_RELEASED => if completed x then None else Some (hold_default h)
  | _ => None
  end.

(** The press is not longer than the clock can tell: 24 days. *)
Definition in_time (h : hold) (code : lv_event_code) (now : Z) (x : hold_state) : Prop :=
  code = LV_EVENT_PRESSING → elapsed now (start_time x) ≤ hold_ms h + 2 ^ 31.

Lemma remaining_spec h c now start :
  hold_time_seconds c * 1000 = hold_ms h → elapsed now start ≤ hold_ms h + 2 ^ 31 →
  remaining_time c now start = hold_ms h - elapsed now start.
Proof.
  intros E He. unfold remaining_time, elapsed in *. rewrite E.
  pose proof (u32_range (now - start)) as Hr. unfold in_u32 in Hr.
  assert (Hh : 0 ≤ hold_ms h ≤ 10000) by (destruct h; cbn; lia).
  generalize dependent (u32 (now - start)). intros e He Hr. unfold s32, u32, wrapu.
  destruct (Z.leb_spec e (hold_ms h)).
  - rewrite (Z.mod_small (hold_ms h - e)) by lia. rewrite Z.mod_small by lia. lia.
  - replace ((hold_ms h - e) mod 2 ^ 32) with (hold_ms h - e + 2 ^ 32)
      by (apply (Z.mod_unique _ _ (-1)); lia).
    replace ((hold_ms h - e + 2 ^ 32 + 2 ^ 31) mod 2 ^ 32) with (hold_ms h - e + 2 ^ 31)
      by (apply (Z.mod_unique _ _ 1); lia).
    lia.
Qed.

Section hold.
Context {L : Type} `{!Lvgl L, !LvglLaws L}.
Implicit Types s : ust L.

Lemma ui_started_quiet : u_rpcs ui_started = [].
Proof. unfold u_rpcs. by rewrite (proj2 ui_started_wf). Qed.
Lemma rpcs_app s s' l : u_out s' = u_out s ++ l → u_rpcs s' = u_rpcs s ++ omap out_rpc l.
Proof. intros E. unfold u_rpcs. by rewrite E, omap_app. Qed.

(** What an event at a hold button changes: the button's state, to [x]; an RPC, and
    no message besides; the text of its label. *)
Definition held_to (h : hold) (x : hold_state) (fired : bool) (shows : option string) s s' : Prop :=
  wf (objects s) s' ∧ holds s' h = x ∧ (∀ g, g ≠ h → holds s' g = holds s g) ∧
  u_out s' = u_out s ++ (if fired && ui_rpc_handler s then [OutRpc (hold_rpc h)] else []) ∧
  u_tick s' = u_tick s ∧ ui_rpc_handler s' = ui_rpc_handler s ∧ currentScreen s' = currentScreen s ∧
  label_text s' (hold_label h) = match shows with Some t => Some t | None => label_text s (hold_label h) end.
Definition held (h : hold) (e : lv_event) s s' : Prop :=
  let '(x, fired) := hold_next h (lv_event_get_code e) (u_tick s) (holds s h) in
  held_to h x fired (hold_shows h (lv_event_get_code e) (u_tick s) (holds s h)) s s'.

Lemma hold_config_spec h objs :
  hold_time_seconds (hold_config h objs) * 1000 = hold_ms h ∧
  rpc_method (hold_config h objs) = hold_rpc h ∧ label_obj (hold_config h objs) = objs (hold_label h) ∧
  default_text (hold_config h objs) = hold_default h.
Proof. by destruct h. Qed.

Lemma field_text s s' f g a :
  ui_wf s → field_changed (objects s) f a s s' →
  label_text s' g = if decide (g = f) then v_text ∘ apply a <$> lv_view (u_lv s) (objects s f)
                    else label_text s g.
Proof.
  intros Hwf (Hwf' & _ & _ & _ & (v & Hv & Hv') & Hoth). unfold label_text.
  rewrite (wf_objects _ _ Hwf'). case_decide as E; [subst; by rewrite Hv, Hv'|].
  rewrite Hoth; [done|]. intros E'. by apply E, (wf_inj _ _ _ _ Hwf).
Qed.

(** Setting the label's text. *)
Lemma uwp_set_label f t s (Q : unit → ust L → Prop) : ui_wf s → (field_kind f).1 = lv_label →
  (∀ s', wf (objects s) s' → same_globals s s' → label_text s' f = Some t → Q tt s') →
  uwp (configure (lv_label_set_text t) (objects s f)) Q s.
Proof.
  intros Hwf Hf HQ. eapply uwp_mono; [apply (uwp_configure_field (objects s)); [done|done|]|]; cbn beta.
  { cbn. by apply bool_decide_eq_true_2. }
  intros [] s' Hc. apply HQ; [apply Hc..|]. rewrite (field_text _ _ _ _ _ Hwf Hc), decide_True by done.
  destruct Hc as (_ & _ & _ & _ & (v & Hv & _) & _). by rewrite Hv.
Qed.

Lemma set_tick_wf now s : ui_wf s → ui_wf (set_tick now s).
Proof. intros Hwf. by apply (wf_ext _ s). Qed.
Lemma wf_set_holds objs x s : wf objs s → wf objs (set_holds x s).
Proof. intros Hwf. by apply (wf_ext _ s). Qed.

(** Firing: the spinner, if there is one, replaces the button; the label stays. *)
Lemma uwp_hold_fire h s (Q : unit → ust L → Prop) :
  let c := hold_config h (objects s) in
  ui_wf s →
  (∀ s', wf (objects s) s' → same_globals s s' →
     label_text s' (hold_label h) = label_text s (hold_label h) → Q tt s') →
  uwp (ui_when (negb (button_obj c =? NULL) && negb (spinner_obj c =? NULL))
        (configure (lv_obj_add_flag LV_OBJ_FLAG_HIDDEN) (button_obj c);;
         configure (lv_obj_clear_flag [LV_OBJ_FLAG_HIDDEN]) (spinner_obj c))) Q s.
Proof.
  intros c Hwf HQ. destruct h; cbn.
  2,3: by (uwp_steps; apply HQ; [done|apply same_globals_refl|done]).
  pose proof (wf_not_null _ _ Hwf) as Hnn.
  rewrite !(proj2 (Z.eqb_neq _ NULL)) by apply Hnn. cbn. uwp_steps.
  eapply uwp_mono; [by apply (uwp_configure_field (objects s))|]. cbn beta. intros _ s1 Hc1.
  pose proof Hc1 as (Hwf1 & HG1 & _). pose proof (wf_objects _ _ Hwf1) as Eo1.
  eapply uwp_mono; [by apply (uwp_configure_field (objects s))|]. cbn beta. intros [] s2 Hc2.
  apply HQ; [apply Hc2|eapply same_globals_trans; [done|apply Hc2]|].
  rewrite <- Eo1 in Hc2. unfold ui_wf in *. rewrite <- Eo1 in Hwf1.
  rewrite (field_text _ _ _ _ _ Hwf1 Hc2), decide_False by done.
  by rewrite (field_text _ _ _ _ _ Hwf Hc1), decide_False by done.
Qed.

Lemma held_to_same h s : ui_wf s → held_to h (holds s h) false None s s.
Proof. intros Hwf. split_and!; try done. by rewrite app_nil_r. Qed.

Lemma held_to_set h x s : ui_wf s → held_to h x false None s (set_holds (<[h := x]> (holds s)) s).
Proof.
  intros Hwf. split_and!; try done; cbn; [by apply wf_set_holds|by rewrite fn_lookup_insert|
    intros g Hg; by rewrite fn_lookup_insert_ne|by rewrite app_nil_r].
Qed.

Lemma uwp_held_label h x fired t s s1 (Q : unit → ust L → Prop) o :
  held_to h x fired None s s1 → o = objects s (hold_label h) →
  (∀ s', held_to h x fired (Some t) s s' → Q tt s') →
  uwp (configure (lv_label_set_text t) o) Q s1.
Proof.
  intros (Hwf & Hx & Hoth & Hr & Ht & Hh & Hc & _) -> HQ.
  pose proof (wf_objects _ _ Hwf) as Eo. rewrite <- Eo. rewrite <- Eo in Hwf.
  apply uwp_set_label; [done|by destruct h; vm_compute|]. intros s' Hwf' (_ & Ec & Eh & Er & Ehs & Et & _) Hl. apply HQ.
  rewrite Eo in Hwf'. split_and!; try done; try congruence. intros g Hg. rewrite Ehs. auto.
Qed.

Lemma uwp_rpc m s (Q : unit → ust L → Prop) :
  Q tt (if ui_rpc_handler s then set_out (u_out s ++ [OutRpc m]) s else s) →
  uwp (ui_call_rpc_handler m) Q s.
Proof. intros HQ. unfold ui_call_rpc_handler. uwp_steps. by destruct (ui_rpc_handler s). Qed.

(** Held long enough for the first time. *)
Lemma uwp_hold_fired h s s1 (Q : unit → ust L → Prop) :
  wf (objects s) s1 → same_globals s s1 →
  label_text s1 (hold_label h) = label_text s (hold_label h) →
  (∀ s', held_to h (HoldState (start_time (holds s h)) true true) true None s s' → Q tt s') →
  uwp (ui_call_rpc_handler (hold_rpc h);;
       set_hold h (λ x, HoldState (start_time x) true true)) Q s1.
Proof.
  intros Hwf1 (_ & Ec & Eh & Er & Ehs & Et & _) Hl HQ. uwp_steps. apply uwp_rpc.
  unfold set_hold. uwp_steps. apply HQ.
  rewrite Eh. split_and!; destruct (ui_rpc_handler s); cbn; rewrite ?fn_lookup_insert, ?Ehs, ?Er, ?app_nil_r;
    try done; try congruence;
    try (intros g Hg; by rewrite fn_lookup_insert_ne);
    try (apply wf_set_holds; [done || by apply (wf_ext _ s1)]).
Qed.

Lemma uwp_hold_action h e s : ui_wf s → in_time h (lv_event_get_code e) (u_tick s) (holds s h) →
  uwp (hold_action h e) (λ _ s', held h e s s') s.
Proof.
  intros Hwf Hin. unfold hold_action. uwp_steps.
  destruct (hold_config_spec h (objects s)) as (Et & Er & El & Ed).
  pose proof (uwp_hold_fire h s) as Hfire. cbn zeta in Hfire.
  set (c := hold_config h (objects s)) in *. clearbody c.
  unfold handle_hold_action. uwp_steps. unfold held, hold_next, hold_shows.
  destruct (lv_event_get_code e) eqn:Ee;
    try (apply uwp_mret; by apply held_to_same).
  - unfold set_hold. uwp_steps. by apply held_to_set.
  - rewrite (remaining_spec h) by (done || by apply Hin).
    set (el := elapsed _ _). destruct (Z.leb_spec (hold_ms h) el).
    + rewrite (proj2 (Z.leb_le (hold_ms h - el) 0)) by lia.
      destruct (lock (holds s h)); [apply uwp_mret; by apply held_to_same|].
      uwp_step. apply Hfire; [done|]. intros s1 Hwf1 HG1 Hl1. rewrite Er.
      by apply (uwp_hold_fired h s).
    + rewrite (proj2 (Z.leb_gt (hold_ms h - el) 0)) by lia. unfold set_hold. uwp_steps.
      apply (uwp_held_label h _ _ _ s _ _ _ (held_to_set h _ s Hwf) El). intros s' Hs'.
      replace (Z.max 1 ((hold_ms h - el) / 1000)) with
        (if (hold_ms h - el) / 1000 <=? 1 then 1 else (hold_ms h - el) / 1000)
        by (destruct (Z.leb_spec ((hold_ms h - el) / 1000) 1); lia).
      done.
  - uwp_steps.
    assert (Hrel : ∀ Q : unit → ust L → Prop,
      (∀ s1, held_to h (HoldState (start_time (holds s h)) (completed (holds s h)) false) false None s s1 → Q tt s1) →
      uwp (ui_when (lock (holds s h)) (set_hold h (λ x, HoldState (start_time x) (completed x) false))) Q s).
    { intros Q HQ. unfold set_hold, ui_when. destruct (lock (holds s h)) eqn:El'.
      - apply uwp_modify, HQ. by apply held_to_set.
      - apply uwp_mret, HQ. replace (HoldState _ _ false) with (holds s h) by (destruct (holds s h); cbn in *; congruence).
        by apply held_to_same. }
    apply Hrel. intros s1 Hs1. uwp_steps.
    assert (Ec : completed (holds s1 h) = completed (holds s h)) by (destruct Hs1 as (_ & -> & _); done).
    rewrite Ec. destruct (completed (holds s h)); cbn; [by apply uwp_mret|].
    rewrite Ed. by apply (uwp_held_label h _ _ _ s _ _ _ Hs1 El).
Qed.
End hold.

(** C14: The hold buttons implement the machine. Whatever the event and the state
    of the button, [handle_hold_action] runs to the end, moves the button's statics
    exactly as [hold_next] says, calls its RPC exactly when the machine fires (and
    Go's handler is set), and shows on its label the seconds left or the default
    text as [hold_shows] says, in spite of the unsigned clock that may wrap around
    during the press; the other buttons and the current screen stay as they are. *)
Theorem hold_action_refines {L} `{!Lvgl L, !LvglLaws L} h (e : lv_event) (s : ust L) :
  ui_wf s → in_time h (lv_event_get_code e) (u_tick s) (holds s h) →
  ∃ s', hold_action h e s = Some (tt, s') ∧ held h e s s'.
Proof.
  intros Hwf Hin. destruct (uwp_run _ _ _ (uwp_hold_action h e s Hwf Hin)) as ([] & s' & ? & ?). eauto.
Qed.

Lemma hold_action_refines_witness :
  let s := set_tick 7000 ui_started in
  ∃ s', hold_action hold_reboot (Event LV_EVENT_PRESSING LV_DIR_LEFT) s = Some (tt, s') ∧
    u_rpcs s' = ["reboot"] ∧ holds s' hold_reboot = HoldState 0 true true.
Proof.
  set (s := set_tick 7000 ui_started).
  assert (Hwf : ui_wf s) by apply set_tick_wf, ui_started_wf.
  assert (Hh : holds s hold_reboot = HoldState 0 false false) by by vm_compute.
  assert (Hr : ui_rpc_handler s = true) by by vm_compute.
  assert (Hu : u_rpcs s = []) by by vm_compute.
  assert (Ht : u_tick s = 7000) by by vm_compute.
  assert (Hn : hold_next hold_reboot LV_EVENT_PRESSING 7000 (HoldState 0 false false) =
    (HoldState 0 true true, true)) by by vm_compute.
  clearbody s.
  destruct (hold_action_refines hold_reboot (Event LV_EVENT_PRESSING LV_DIR_LEFT) s Hwf) as (s' & E & H).
  { rewrite Hh, Ht. intros _. by vm_compute. }
  unfold held in H. rewrite Hh, Ht in H. cbn [lv_event_get_code] in H. rewrite Hn in H.
  destruct H as (_ & H1 & _ & H2%rpcs_app & _). rewrite Hr, Hu in H2.
  exact (ex_intro _ s' (conj E (conj H2 H1))).
Defined.

(** ** A press *)

Definition hold_button (h : hold) : field :=
  match h with hold_reset_config => o_obj0 | hold_dhcpc => o_obj2 | hold_reboot => o_obj1 end.

(** The events of a press at [t0], still held at the times [ts]. *)
Definition press (h : hold) (objs : field → Z) (t0 : Z) (ts : list Z) : list (Z * Z * lv_event) :=
  (t0, objs (hold_button h), Event LV_EVENT_PRESSED LV_DIR_LEFT) ::
  map (λ t, (t, objs (hold_button h), Event LV_EVENT_PRESSING LV_DIR_LEFT)) ts.
Definition release (h : hold) (objs : field → Z) (t : Z) : list (Z * Z * lv_event) :=
  [(t, objs (hold_button h), Event LV_EVENT_RELEASED LV_DIR_LEFT)].
Definition long_enough (h : hold) (t0 : Z) (ts : list Z) : bool :=
  existsb (λ t, hold_ms h <=? elapsed t t0) ts.

(** The machine through the pressing events at the times [ts], and the label. *)
Definition hold_run (h : hold) (x : hold_state) (ts : list Z) : hold_state :=
  foldl (λ x t, (hold_next h LV_EVENT_PRESSING t x).1) x ts.
Definition label_run (h : hold) (t0 : Z) (ts : list Z) (old : option string) : option string :=
  foldl (λ old t, match hold_shows h LV_EVENT_PRESSING t (HoldState t0 false false) with
                  | Some text => Some text | None => old end) old ts.

(** What a press held for too short shows at its last pressing event. *)
Definition countdown (h : hold) (t0 t : Z) : string :=
  hold_text (Z.max 1 ((hold_ms h - elapsed t t0) / 1000)).
Definition shorter (h : hold) (t0 t : Z) : Prop := elapsed t t0 < hold_ms h.

Lemma next_start h t x : start_time (hold_next h LV_EVENT_PRESSING t x).1 = start_time x.
Proof. cbn. by repeat case_match. Qed.
Lemma shows_start h t x y : start_time x = start_time y →
  hold_shows h LV_EVENT_PRESSING t x = hold_shows h LV_EVENT_PRESSING t y.
Proof. intros E. cbn. by rewrite E. Qed.

Lemma hold_run_short h ts x : Forall (shorter h (start_time x)) ts → ts ≠ [] →
  hold_run h x ts = HoldState (start_time x) false (lock x).
Proof.
  intros Hts Hne. induction ts as [|t ts IH] using rev_ind; [done|]. apply Forall_app in Hts as [Hts Ht].
  apply Forall_cons in Ht as [Ht%Z.leb_gt _]. unfold hold_run in *. rewrite foldl_app. cbn [foldl].
  destruct ts as [|t' ts]; [|rewrite IH by done]; cbn [foldl hold_next start_time lock fst]; by rewrite Ht.
Qed.
Lemma hold_run_long h ts x : Forall (λ t, ¬ shorter h (start_time x) t) ts → ts ≠ [] → lock x = false →
  hold_run h x ts = HoldState (start_time x) true true.
Proof.
  intros Hts Hne Hl. induction ts as [|t ts IH] using rev_ind; [done|]. apply Forall_app in Hts as [Hts Ht].
  apply Forall_cons in Ht as [Ht%Z.nlt_ge%Z.leb_le _]. unfold hold_run in *. rewrite foldl_app. cbn [foldl].
  destruct ts as [|t' ts]; [|rewrite IH by done]; cbn [foldl hold_next start_time lock fst];
    by rewrite Ht, ?Hl.
Qed.
Lemma label_run_short h t0 ts old : Forall (shorter h t0) ts →
  label_run h t0 ts old = match last ts with Some t => Some (countdown h t0 t) | None => old end.
Proof.
  intros Hts. induction ts as [|t ts _] using rev_ind; [done|]. apply Forall_app in Hts as [_ Ht].
  apply Forall_cons in Ht as [Ht%Z.leb_gt _]. unfold label_run. rewrite foldl_app, last_snoc. cbn.
  by rewrite Ht.
Qed.
Lemma label_run_long h t0 ts old : Forall (λ t, ¬ shorter h t0 t) ts → label_run h t0 ts old = old.
Proof.
  intros Hts. revert old. induction Hts as [|t ts Ht Hts IH]; intros old; [done|].
  apply Z.nlt_ge, Z.leb_le in Ht. unfold label_run in *. cbn. by rewrite Ht.
Qed.
Lemma not_long_enough h t0 ts : long_enough h t0 ts = false → Forall (shorter h t0) ts.
Proof.
  unfold long_enough, shorter. induction ts as [|t ts IH]; cbn; [constructor|].
  intros [Ht%Z.leb_gt ?]%orb_false_iff. constructor; [lia|auto].
Qed.

Section press.
Context {L : Type} `{!Lvgl L, !LvglLaws L}.
Implicit Types s : ust L.

Lemma call_hold a code s :
  code ∈ [LV_EVENT_PRESSED; LV_EVENT_PRESSING; LV_EVENT_RELEASED] →
  call_handlers [(a, LV_EVENT_PRESSED); (a, LV_EVENT_PRESSING); (a, LV_EVENT_RELEASED)]
    (Event code LV_DIR_LEFT) s = perform_action a (Event code LV_DIR_LEFT) s.
Proof.
  rewrite !elem_of_cons. intros [->|[->|[->|[]%not_elem_of_nil]]];
    cbn [call_handlers lv_event_get_code];
    repeat first [rewrite bool_decide_true by done | rewrite bool_decide_false by done];
    unfold ui_when, mbind, ui_mbind, mret, ui_mret;
    by destruct (perform_action a _ s) as [[[] ?]|].
Qed.

Lemma uwp_deliver_hold h now code s (Q : unit → ust L → Prop) :
  code ∈ [LV_EVENT_PRESSED; LV_EVENT_PRESSING; LV_EVENT_RELEASED] →
  ui_wf s → in_time h code now (holds s h) →
  (∀ s', held_to h (hold_next h code now (holds s h)).1 (hold_next h code now (holds s h)).2
           (hold_shows h code now (holds s h)) (set_tick now s) s' → Q tt s') →
  uwp (deliver (now, objects s (hold_button h), Event code LV_DIR_LEFT)) Q s.
Proof.
  intros Hcode Hwf Hin HQ. unfold deliver. uwp_steps.
  assert (Hwf' : ui_wf (set_tick now s)) by by apply set_tick_wf.
  destruct (handlers_run (hold_button h) _ Hwf') as (v & Hv & Hcb).
  cbn in Hv |- *. rewrite Hv, Hcb.
  assert (E : call_handlers (handlers_of (hold_button h)) (Event code LV_DIR_LEFT) (set_tick now s) =
              hold_action h (Event code LV_DIR_LEFT) (set_tick now s)).
  { destruct h; cbn [hold_button];
      match goal with |- context [handlers_of ?f] =>
        let l := eval vm_compute in (handlers_of f) in change (handlers_of f) with l end;
      by rewrite call_hold. }
  unfold uwp. rewrite E. fold (uwp (hold_action h (Event code LV_DIR_LEFT)) Q (set_tick now s)).
  eapply uwp_mono; [by apply uwp_hold_action|]. cbn beta. intros [] s' Hs'. apply HQ.
  unfold held in Hs'. cbn in Hs'. by destruct (hold_next h code now (holds s h)).
Qed.

(** Holding on, from a press at [t0]. *)
Definition holding (h : hold) (ts : list Z) s s' : Prop :=
  let t0 := start_time (holds s h) in
  wf (objects s) s' ∧ start_time (holds s' h) = t0 ∧ ui_rpc_handler s' = ui_rpc_handler s ∧
  lock (holds s' h) = lock (holds s h) || long_enough h t0 ts ∧
  u_out s' = u_out s ++ (if negb (lock (holds s h)) && long_enough h t0 ts && ui_rpc_handler s
                         then [OutRpc (hold_rpc h)] else []) ∧
  holds s' h = hold_run h (holds s h) ts ∧
  label_text s' (hold_label h) = label_run h t0 ts (label_text s (hold_label h)).

Lemma holding_step h t ts s s1 s2 :
  held_to h (hold_next h LV_EVENT_PRESSING t (holds s h)).1 (hold_next h LV_EVENT_PRESSING t (holds s h)).2
    (hold_shows h LV_EVENT_PRESSING t (holds s h)) (set_tick t s) s1 →
  holding h ts s1 s2 → holding h (t :: ts) s s2.
Proof.
  intros (Hwf1 & Hx & _ & Hr & _ & Hh & _ & Ht) (Hwf2 & Hst2 & Hh2 & Hl2 & Hr2 & Hrun & Hlab).
  rewrite (wf_objects _ _ Hwf1) in Hwf2. cbn [objects set_tick u_out ui_rpc_handler] in Hwf2, Hr, Hh.
  pose proof (next_start h t (holds s h)) as Est. rewrite <- Hx in Est. rewrite Est in Hst2, Hl2, Hr2, Hlab.
  unfold holding. split_and!; [done|done|congruence| | | |].
  - rewrite Hl2, Hx. unfold long_enough. cbn.
    destruct (hold_ms h <=? _), (lock (holds s h)) eqn:Elk; cbn; by rewrite ?Elk.
  - rewrite Hr2, Hr, Hh, Hx, <- app_assoc. unfold long_enough. cbn.
    destruct (hold_ms h <=? _), (lock (holds s h)) eqn:Elk, (ui_rpc_handler s); cbn; by rewrite ?Elk.
  - by rewrite Hrun, Hx.
  - rewrite Hlab, Ht. unfold label_run. cbn [foldl]. by rewrite (shows_start h t (holds s h) (HoldState (start_time (holds s h)) false false)).
Qed.

Lemma uwp_pressing h ts s :
  ui_wf s → Forall (λ t, elapsed t (start_time (holds s h)) ≤ hold_ms h + 2 ^ 31) ts →
  uwp (timer_handler (map (λ t, (t, objects s (hold_button h), Event LV_EVENT_PRESSING LV_DIR_LEFT)) ts))
    (λ _ s', holding h ts s s') s.
Proof.
  revert s. induction ts as [|t ts IH]; intros s Hwf Hts; cbn [map timer_handler].
  { apply uwp_mret. split_and!; try done; [by rewrite orb_false_r|by rewrite andb_false_r, app_nil_r]. }
  apply Forall_cons in Hts as [Ht Hts]. uwp_step.
  apply uwp_deliver_hold; [rewrite !elem_of_cons; auto|done|by intros _|]. intros s1 Hs1.
  pose proof Hs1 as (Hwf1 & Hx & _). cbn in Hwf1.
  pose proof (wf_objects _ _ Hwf1) as Eo. rewrite <- Eo.
  assert (Est : start_time (holds s1 h) = start_time (holds s h)).
  { rewrite Hx. apply next_start. }
  eapply uwp_mono; [apply IH; [by rewrite <- Eo in Hwf1|by rewrite Est]|]. cbn beta. intros _ s2 Hs2.
  by eapply holding_step.
Qed.

(** A press, until it is released or lost. *)
Lemma uwp_press h t0 ts s :
  ui_wf s → Forall (λ t, elapsed t t0 ≤ hold_ms h + 2 ^ 31) ts →
  uwp (timer_handler (press h (objects s) t0 ts))
    (λ _ s', wf (objects s) s' ∧ ui_rpc_handler s' = ui_rpc_handler s ∧
       lock (holds s' h) = lock (holds s h) || long_enough h t0 ts ∧
       u_out s' = u_out s ++ (if negb (lock (holds s h)) && long_enough h t0 ts && ui_rpc_handler s
                              then [OutRpc (hold_rpc h)] else []) ∧
       holds s' h = hold_run h (HoldState t0 (completed (holds s h)) (lock (holds s h))) ts ∧
       label_text s' (hold_label h) = label_run h t0 ts (label_text s (hold_label h))) s.
Proof.
  intros Hwf Hts. unfold press. cbn [timer_handler]. uwp_step.
  apply uwp_deliver_hold; [rewrite !elem_of_cons; auto|done|done|].
  intros s1 (Hwf1 & Hx & _ & Hr & _ & Hh & _ & Ht). cbn [hold_next hold_shows fst snd] in Hx, Hr, Ht.
  cbn in Hwf1, Hr, Hh. rewrite app_nil_r in Hr. pose proof (wf_objects _ _ Hwf1) as Eo. rewrite <- Eo.
  rewrite <- Eo in Hwf1.
  eapply uwp_mono; [apply uwp_pressing; [done|by rewrite Hx]|]. cbn beta.
  intros _ s2 (Hwf2 & _ & Hh2 & Hl2 & Hr2 & Hrun & Hlab). rewrite Hx in *. cbn [start_time lock] in *.
  rewrite Hh, Hr, Ht in *. by split_and!.
Qed.

Lemma uwp_release h t s :
  ui_wf s →
  uwp (timer_handler (release h (objects s) t))
    (λ _ s', wf (objects s) s' ∧ ui_rpc_handler s' = ui_rpc_handler s ∧
       lock (holds s' h) = false ∧ u_out s' = u_out s ∧
       label_text s' (hold_label h) =
         if completed (holds s h) then label_text s (hold_label h) else Some (hold_default h)) s.
Proof.
  intros Hwf. unfold release. cbn [timer_handler]. uwp_step.
  apply uwp_deliver_hold; [rewrite !elem_of_cons; auto|done|done|].
  intros s1 (Hwf1 & Hx & _ & Hr & _ & Hh & _ & Hl). cbn in Hwf1, Hx, Hr, Hh, Hl. rewrite app_nil_r in Hr.
  apply uwp_mret. split_and!; try done; [by rewrite Hx|]. rewrite Hl. by destruct (completed (holds s h)).
Qed.

Lemma uwp_timer_app l1 l2 (Q : unit → ust L → Prop) s :
  uwp (timer_handler l1) (λ _ s', uwp (timer_handler l2) Q s') s → uwp (timer_handler (l1 ++ l2)) Q s.
Proof.
  revert s. induction l1 as [|ev l1 IH]; intros s H; [done|]. cbn [app timer_handler] in *. uwp_step.
  unfold uwp in H |- *. unfold mbind, ui_mbind in H. destruct (deliver ev s) as [[a s1]|]; [|done].
  by apply IH.
Qed.

(** A press and its release. *)
Definition pressed (h : hold) (t0 : Z) (ts : list Z) s s' : Prop :=
  let x := hold_run h (HoldState t0 (completed (holds s h)) (lock (holds s h))) ts in
  let shown := label_run h t0 ts (label_text s (hold_label h)) in
  ui_wf s' ∧ lock (holds s' h) = false ∧
  u_out s' = u_out s ++ (if negb (lock (holds s h)) && long_enough h t0 ts && ui_rpc_handler s
                         then [OutRpc (hold_rpc h)] else []) ∧
  label_text s' (hold_label h) = if completed x then shown else Some (hold_default h).

Lemma uwp_press_release h t0 ts tr s :
  ui_wf s → Forall (λ t, elapsed t t0 ≤ hold_ms h + 2 ^ 31) ts →
  uwp (timer_handler (press h (objects s) t0 ts ++ release h (objects s) tr))
    (λ _ s', pressed h t0 ts s s') s.
Proof.
  intros Hwf Hts. apply uwp_timer_app.
  eapply uwp_mono; [by apply uwp_press|]. cbn beta. intros _ s1 (Hwf1 & Hh & Hl & Hr & Hrun & Hlab).
  pose proof (wf_objects _ _ Hwf1) as Eo. rewrite <- Eo. rewrite <- Eo in Hwf1.
  eapply uwp_mono; [by apply uwp_release|]. cbn beta. intros _ s2 (Hwf2 & Hh2 & Hl2 & Hr2 & Hlab2).
  unfold pressed. rewrite Hlab2, Hlab, Hrun, Hr2.
  split_and!; try done. unfold ui_wf. by rewrite (wf_objects _ _ Hwf2).
Qed.
End press.

(** C13: One press of a hold button, delivered as LVGL's events pressed, pressing
    (at any times, of any number) and released. With the button unlocked before it
    and Go's handler set, the RPC of the button is called exactly once when some
    pressing event comes at least the hold time (ten or five seconds) after the
    press, and not at all otherwise; with the button locked before it, no press
    calls anything, however long it is. Nothing else is sent, and after the release
    the button is unlocked. A press with pressing events that all came too early
    leaves the default text on the label; after a press that called the RPC the
    label keeps what it last showed: the countdown of the last pressing event that
    came too early, or, without one, its old text. *)
Theorem press_fires_once {L} `{!Lvgl L, !LvglLaws L} h t0 ts tr (s : ust L) :
  ui_wf s → Forall (λ t, elapsed t t0 ≤ hold_ms h + 2 ^ 31) ts →
  ∃ s', timer_handler (press h (objects s) t0 ts ++ release h (objects s) tr) s = Some (tt, s') ∧
    ui_wf s' ∧ lock (holds s' h) = false ∧
    u_out s' = u_out s ++ (if negb (lock (holds s h)) && long_enough h t0 ts && ui_rpc_handler s
                           then [OutRpc (hold_rpc h)] else []) ∧
    (long_enough h t0 ts = false → ts ≠ [] → label_text s' (hold_label h) = Some (hold_default h)) ∧
    (∀ short long, ts = short ++ long → Forall (shorter h t0) short →
       Forall (λ t, ¬ shorter h t0 t) long → long ≠ [] → lock (holds s h) = false →
       label_text s' (hold_label h) =
         match last short with
         | Some t => Some (countdown h t0 t)
         | None => label_text s (hold_label h)
         end).
Proof.
  intros Hwf Hts.
  destruct (uwp_run_unit _ (λ s', _) _ (uwp_press_release h t0 ts tr s Hwf Hts)) as (s' & E & ? & ? & ? & Hl).
  exists s'. split_and!; try done.
  - intros Hn Hne. by rewrite Hl, hold_run_short by (done || by apply not_long_enough).
  - intros short long -> Hs Hg Hne Hlk. rewrite Hl. unfold hold_run, label_run. rewrite !foldl_app.
    fold (label_run h t0 short (label_text s (hold_label h))).
    set (x := foldl _ _ short). assert (Hx : start_time x = t0 ∧ lock x = false).
    { subst x. fold (hold_run h (HoldState t0 (completed (holds s h)) (lock (holds s h))) short).
      destruct (decide (short = [])) as [->|]; [done|]. by rewrite hold_run_short. }
    destruct Hx as [Hx1 Hx2]. fold (hold_run h x long). rewrite hold_run_long by (by rewrite ?Hx1).
    cbn [completed]. rewrite label_run_short by done. by apply label_run_long.
Qed.

Lemma press_fires_once_witness :
  ∃ s', timer_handler (press hold_reset_config (objects ui_started) 4294967000 [100; 5000; 9704; 9999] ++
                       release hold_reset_config (objects ui_started) 10000) ui_started = Some (tt, s') ∧
    u_rpcs s' = ["resetConfig"].
Proof.
  destruct (press_fires_once hold_reset_config 4294967000 [100; 5000; 9704; 9999] 10000 ui_started)
    as (s' & E & _ & _ & Hr%rpcs_app & _);
    [apply ui_started_wf|repeat apply Forall_cons_2; [by vm_compute..|apply Forall_nil_2]|].
  assert (Ef : negb (lock (holds ui_started hold_reset_config)) &&
    long_enough hold_reset_config 4294967000 [100; 5000; 9704; 9999] && ui_rpc_handler ui_started = true)
    by by vm_compute.
  rewrite Ef, ui_started_quiet in Hr. exact (ex_intro _ s' (conj E Hr)).
Defined.

(** A lost press blocks the next one. The button is unlocked only by the event
    released, and the handler is not registered for press lost: when the finger
    slides off a button whose RPC was called, the next press, however long it is
    held, calls nothing. *)
Theorem lost_press_blocks_next {L} `{!Lvgl L, !LvglLaws L} h t0 ts t1 ts' tr (s : ust L) :
  ui_wf s → ui_rpc_handler s = true → lock (holds s h) = false →
  Forall (λ t, elapsed t t0 ≤ hold_ms h + 2 ^ 31) ts →
  Forall (λ t, elapsed t t1 ≤ hold_ms h + 2 ^ 31) ts' → long_enough h t0 ts = true →
  ∃ s', timer_handler (press h (objects s) t0 ts ++
                       press h (objects s) t1 ts' ++ release h (objects s) tr) s = Some (tt, s') ∧
    ui_wf s' ∧ u_rpcs s' = u_rpcs s ++ [hold_rpc h].
Proof.
  intros Hwf Hh Hl Hts Hts' Hlong. apply (uwp_run_unit _ (λ s', _)), uwp_timer_app.
  eapply uwp_mono; [by apply uwp_press|]. cbn beta. intros _ s1 (Hwf1 & Hh1 & Hl1 & Hr1%rpcs_app & _).
  pose proof (wf_objects _ _ Hwf1) as Eo1. rewrite <- Eo1. rewrite <- Eo1 in Hwf1.
  apply uwp_timer_app. eapply uwp_mono; [by apply uwp_press|]. cbn beta.
  intros _ s2 (Hwf2 & Hh2 & Hl2 & Hr2%rpcs_app & _).
  pose proof (wf_objects _ _ Hwf2) as Eo2. rewrite <- Eo2. rewrite <- Eo2 in Hwf2.
  eapply uwp_mono; [by apply uwp_release|]. cbn beta. intros _ s3 (Hwf3 & _ & _ & Hr3 & _).
  assert (Er3 : u_rpcs s3 = u_rpcs s2) by (unfold u_rpcs; by rewrite Hr3).
  split; [unfold ui_wf; by rewrite (wf_objects _ _ Hwf3)|].
  rewrite Er3, Hr2, Hl1, Hr1, Hl, Hlong, Hh. cbn. by rewrite app_nil_r.
Qed.

Lemma lost_press_blocks_next_witness :
  ∃ s', timer_handler (press hold_reboot (objects ui_started) 0 [6000] ++
                       press hold_reboot (objects ui_started) 10000 [20000] ++
                       release hold_reboot (objects ui_started) 20100) ui_started = Some (tt, s') ∧
    u_rpcs s' = ["reboot"].
Proof.
  destruct (lost_press_blocks_next hold_reboot 0 [6000] 10000 [20000] 20100 ui_started)
    as (s' & E & _ & Hr);
    [apply ui_started_wf|by vm_compute|by vm_compute|repeat constructor; by vm_compute..|
     by vm_compute|].
  rewrite ui_started_quiet in Hr. exact (ex_intro _ s' (conj E Hr)).
Defined.
