(* ===== verification/UiSpec.v ===== *)
(** * What the calls from Go do

    Texts, flags, variables, rotation: the results of the [jetkvm_ui_*] calls on
    every branch, and what they change. *)
From stdpp Require Import functions.
From S2P Require Import Prelude Lvgl UiStyles UiScreens Ui UiActions UiControl UiBuild UiSafe UiNav.

Section spec.
Context {L : Type} `{!Lvgl L, !LvglLaws L}.
Implicit Types s : ust L.
Variable ui_objects : list (string * field).

Lemma get_obj_run n s : ui_get_obj ui_objects n s =
  Some (match find_name n ui_objects with Some f => objects s f | None => NULL end, s).
Proof. unfold ui_get_obj. by destruct (find_name n ui_objects). Qed.

Lemma not_null f s : ui_wf s → (objects s f =? NULL) = false.
Proof. intros Hwf. apply Z.eqb_neq, Hwf. Qed.

Lemma field_view f s : ui_wf s →
  ∃ v, lv_view (u_lv s) (objects s f) = Some v ∧ v_kind v = (field_kind f).1.
Proof.
  intros Hwf. destruct (has_nodes_view _ _ f (wf_nodes _ _ Hwf)) as (v & ? & ? & _). eauto.
Qed.
Lemma label_get_run f s t : ui_wf s → (field_kind f).1 = lv_label → label_text s f = Some t →
  label_get_text (objects s f) s = Some (t, s).
Proof.
  intros Hwf Hf. destruct (field_view f s Hwf) as (v & Hv & Hk). unfold label_text, label_get_text, live. ui_run.
  rewrite Hv, bool_decide_true by congruence. by intros [= <-].
Qed.
Lemma label_get_other f s : ui_wf s → (field_kind f).1 ≠ lv_label → label_get_text (objects s f) s = None.
Proof.
  intros Hwf Hf. destruct (field_view f s Hwf) as (v & Hv & Hk). unfold label_get_text, live. ui_run.
  by rewrite Hv, bool_decide_false by congruence.
Qed.
Lemma label_some f s : ui_wf s → ∃ t, label_text s f = Some t.
Proof.
  intros Hwf. destruct (wf_live _ _ f Hwf) as (v & _ & _ & Hv & _). exists (v_text v).
  unfold label_text. by rewrite Hv.
Qed.
Lemma configure_field_run a f s : ui_wf s → is_callback a = false → kind_ok a (field_kind f).1 = true →
  ∃ s', configure a (objects s f) s = Some (tt, s') ∧ field_changed (objects s) f a s s'.
Proof. intros Hwf Ha Hk. apply uwp_run_unit. by apply uwp_configure_field. Qed.

(** A call that changes one object. *)
Definition one_changed (f : field) s s' : Prop :=
  ui_wf s' ∧ objects s' = objects s ∧ same_globals s s' ∧
  (∀ o, o ≠ objects s f → lv_view (u_lv s') o = lv_view (u_lv s) o).
Lemma field_one_changed f a s s' : field_changed (objects s) f a s s' → one_changed f s s'.
Proof.
  intros (Hwf & HG & _ & _ & _ & Hoth). split_and!; try done.
  - unfold ui_wf. by rewrite (wf_objects _ _ Hwf).
  - apply Hwf.
Qed.
Lemma one_changed_refl f s : ui_wf s → one_changed f s s.
Proof. intros Hwf. split_and!; try done. Qed.

Lemma set_lvgl_wf s : ui_wf s → ui_wf (set_lvgl_version (replicate 32 NUL) s).
Proof.
  intros Hwf. apply (wf_buffers_change _ s); try done. destruct (wf_buffers _ _ Hwf). by split.
Qed.
End spec.



(** Setting and clearing flags. [jetkvm_ui_add_flag] and
    [jetkvm_ui_clear_flag] answer -1 when no object has the name, then -2 when no
    flag has the name, changing nothing; otherwise 0, and the object has the flag,
    or has it no more, while its text and handlers, its other flags and all
    other objects stay as they were. *)
Theorem change_flag_spec {L} `{!Lvgl L, !LvglLaws L} ui_objects n flag (b : bool) (s : ust L) :
  ui_wf s →
  let call := if b then jetkvm_ui_add_flag (L := L) ui_objects n flag
              else jetkvm_ui_clear_flag ui_objects n flag in
  match find_name n ui_objects, str_to_lv_obj_flag flag with
  | None, _ => call s = Some (-1, s)
  | Some _, None => call s = Some (-2, s)
  | Some f, Some fl => ∃ s' v v', call s = Some (0, s') ∧ one_changed f s s' ∧
      lv_view (u_lv s) (objects s f) = Some v ∧ lv_view (u_lv s') (objects s f) = Some v' ∧
      has_flag fl v' = Some b ∧ (∀ g, g ≠ fl → has_flag g v' = has_flag g v) ∧
      v_text v' = v_text v ∧ shape v' = shape v
  end.
Proof.
  intros Hwf call.
  set (mk := λ fl, if b then lv_obj_add_flag fl else lv_obj_clear_flag [fl]).
  assert (Hcall : call = change_flag ui_objects n flag mk) by (subst call mk; by destruct b).
  assert (Hrun : call s = match find_name n ui_objects with
    | None => Some (-1, s)
    | Some f => match str_to_lv_obj_flag flag with
                | None => Some (-2, s)
                | Some fl => (configure (mk fl) (objects s f);; mret 0) s
                end
    end).
  { rewrite Hcall. unfold change_flag. unfold mbind at 1, ui_mbind. rewrite get_obj_run.
    destruct (find_name n ui_objects); [|done]. rewrite not_null by done.
    by destruct (str_to_lv_obj_flag flag). }
  rewrite Hrun. destruct (find_name n ui_objects) as [f|]; [|done].
  destruct (str_to_lv_obj_flag flag) as [fl|]; [|done].
  destruct (configure_field_run (mk fl) f s Hwf ltac:(subst mk; by destruct b) ltac:(subst mk; by destruct b))
    as (s' & Es & Hc).
  pose proof (field_one_changed _ _ _ _ Hc) as Hone. destruct Hc as (_ & _ & _ & _ & (v & Hv & Hv') & _).
  assert (Ha : apply (mk fl) v = with_flag fl b v) by (subst mk; by destruct b).
  exists s', v, (with_flag fl b v). split_and!; try done.
  - unfold mbind, ui_mbind. by rewrite Es.
  - by rewrite Hv', Ha.
  - unfold has_flag, lookup_setting. cbn. by rewrite bool_decide_true.
  - intros g Hg. unfold has_flag, lookup_setting. cbn. by rewrite bool_decide_false.
Qed.

Lemma change_flag_spec_witness :
  ∃ s' v', jetkvm_ui_add_flag sample_objects "home_info_ipv4_addr" "LV_OBJ_FLAG_HIDDEN" ui_started = Some (0, s') ∧
    lv_view (u_lv s') (objects ui_started o_home_info_ipv4_addr) = Some v' ∧
    has_flag LV_OBJ_FLAG_HIDDEN v' = Some true.
Proof.
  pose proof (change_flag_spec sample_objects "home_info_ipv4_addr" "LV_OBJ_FLAG_HIDDEN" true ui_started
    (proj1 ui_started_wf)) as H.
  assert (Ef : find_name "home_info_ipv4_addr" sample_objects = Some o_home_info_ipv4_addr) by by vm_compute.
  assert (El : str_to_lv_obj_flag "LV_OBJ_FLAG_HIDDEN" = Some LV_OBJ_FLAG_HIDDEN) by by vm_compute.
  cbv zeta in H. rewrite Ef, El in H. destruct H as (s' & v & v' & Hrun & _ & _ & Hv & Hf & _).
  exact (ex_intro _ s' (ex_intro _ v' (conj Hrun (conj Hv Hf)))).
Defined.

(** ** Variables *)

Lemma log_run {L} m file func line msg (s : ust L) : strlen msg < 1024 →
  log m file func line msg s = Some (tt, set_out (u_out s ++ [OutLog m file func line msg]) s).
Proof. intros Hm. unfold log. by rewrite (proj2 (Z.ltb_lt _ _)). Qed.

Lemma cstr_prefix l buf :
  NUL ∉ l → take (length l) buf = l → buf !! length l = Some NUL → cstr buf = Some l.
Proof.
  intros Hl Ht Hlast. rewrite <- (take_drop_middle buf _ _ Hlast), Ht. by apply cstr_app.
Qed.

Lemma strncpy_lookup_end n l : (length l < n)%nat → strncpy n l !! length l = Some NUL.
Proof.
  intros H. unfold strncpy. rewrite take_ge by lia. rewrite lookup_app_r by lia.
  apply lookup_replicate_2. lia.
Qed.

Lemma strncpy_take k n l : (k ≤ n)%nat → (k ≤ length l)%nat → take k (strncpy n l) = take k l.
Proof.
  intros Hn Hl. unfold strncpy. rewrite take_app_le by (rewrite length_take; lia).
  rewrite take_take. f_equal. lia.
Qed.
Lemma take_min {A} n (l : list A) : take (n `min` length l) l = take n l.
Proof.
  destruct (decide (n ≤ length l)%nat); [f_equal; lia|]. by rewrite !take_ge by lia.
Qed.

Lemma cstr_copy_var n l : (0 < n)%nat → NUL ∉ l →
  cstr (<[(n - 1)%nat := NUL]> (strncpy n l)) = Some (take (n - 1) l).
Proof.
  intros Hn Hl. apply cstr_prefix; rewrite ?length_take.
  - intros H. apply Hl. rewrite <- (take_drop (n - 1) l). apply elem_of_app. by left.
  - rewrite take_insert_ge by lia. rewrite strncpy_take by lia. apply take_min.
  - destruct (decide (n - 1 ≤ length l)%nat).
    + rewrite Nat.min_l by lia. apply list_lookup_insert_eq. rewrite length_strncpy. lia.
    + rewrite Nat.min_r by lia. rewrite list_lookup_insert_ne by lia. apply strncpy_lookup_end. lia.
Qed.

(** What a variable keeps of a value. *)
Definition kept (x : ui_var) (v : string) : option string :=
  match x with
  | var_app_version | var_system_version => Some (text (take 99 (chars v)))
  | var_main_screen => Some (text (take 31 (chars v)))
  | var_lvgl_version => None
  end.

(** Variables keep what is set, up to their size. After [jetkvm_ui_set_var]
    of a variable, [jetkvm_ui_get_var] of the same name answers the value, cut off
    at 99 or at 31 characters, and the buffer is terminated; setting the LVGL
    version does nothing. An unknown name is neither set nor read; both calls log it,
    when it leaves room for the message. *)
Theorem set_get_var {L} `{!Lvgl L, !LvglLaws L} ui_vars V n v (s : ust L) :
  ui_wf s → NUL ∉ chars v → op_fits [] ui_vars (op_get_var n) = true →
  ∃ s', jetkvm_ui_set_var ui_vars n v s = Some (tt, s') ∧ ui_wf s' ∧
    u_lv s' = u_lv s ∧
    match find_name n ui_vars with
    | None => s' = set_out (u_out s ++ [OutLog UiError "ctrl.c" "jetkvm_ui_set_var" 199 (not_found n)]) s ∧
        jetkvm_ui_get_var ui_vars V n s' =
          Some (None, set_out (u_out s' ++ [OutLog UiError "ctrl.c" "jetkvm_ui_get_var" 208 (not_found n)]) s')
    | Some x => match kept x v with
                | Some r => jetkvm_ui_get_var ui_vars V n s' = Some (Some r, s')
                | None => s' = s
                end
    end.
Proof.
  intros Hwf Hv Hfit. unfold jetkvm_ui_set_var, jetkvm_ui_get_var. cbn in Hfit.
  destruct (find_name n ui_vars) as [[]|].
  - exists (set_app_version (copy_var 100 v) s). split_and!; [done|by apply set_app_wf|done|].
    unfold kept, get_var_app_version, read_var. ui_run. unfold copy_var. by rewrite cstr_copy_var by (done || lia).
  - exists (set_system_version (copy_var 100 v) s). split_and!; [done|by apply set_system_wf|done|].
    unfold kept, get_var_system_version, read_var. ui_run. unfold copy_var. by rewrite cstr_copy_var by (done || lia).
  - by exists s.
  - exists (set_main_screen (copy_var 32 v) s). split_and!; [done| |done|].
    + apply (wf_buffers_change _ s); try done. destruct (wf_buffers _ _ Hwf).
      split; try done. apply copy_var_ok. lia.
    + unfold kept, get_var_main_screen, read_var. ui_run. unfold copy_var. by rewrite cstr_copy_var by (done || lia).
  - apply Z.ltb_lt in Hfit. eexists. split_and!; [by apply log_run|by apply (wf_ext (objects s) s)|done|done|].
    unfold mbind, ui_mbind. by rewrite log_run.
Qed.

Lemma set_get_var_witness :
  ∃ s', jetkvm_ui_set_var sample_vars "main_screen" "no_network_screen" ui_started = Some (tt, s') ∧
    jetkvm_ui_get_var sample_vars "9.2.2" "main_screen" s' = Some (Some "no_network_screen", s').
Proof.
  destruct (set_get_var sample_vars "9.2.2" "main_screen" "no_network_screen" ui_started)
    as (s' & H1 & _ & _ & H2); [apply ui_started_wf|apply (bool_decide_unpack _); by vm_compute|done|].
  exact (ex_intro _ s' (conj H1 H2)).
Defined.

(** Reading the LVGL version cuts the application version. While the LVGL
    version has not been read yet, [get_var_lvgl_version] fills it and then
    writes its terminator into the wrong buffer: an application version longer than
    31 characters is cut to 31. *)
Theorem lvgl_version_cuts_app_version {L} `{!Lvgl L, !LvglLaws L} V v (s : ust L) :
  ui_wf s → lvgl_version s !! 0%nat = Some NUL → strlen V < 32 → NUL ∉ chars V → NUL ∉ chars v →
  ∃ s', (set_var_app_version v;; get_var_lvgl_version V) s = Some (V, s') ∧
    var_text (app_version s') = text (take 31 (chars v)).
Proof.
  intros Hwf Hempty HV HVn Hv. set (s1 := set_app_version (copy_var 100 v) s).
  assert (Hwf1 : ui_wf s1) by by apply set_app_wf.
  assert (Ef : lvgl_filled V s1 = set_app_version (<[31%nat := NUL]> (copy_var 100 v))
    (set_lvgl_version (strncpy 32 (chars V)) s1)).
  { unfold lvgl_filled. by rewrite bool_decide_true. }
  exists (lvgl_filled V s1). unfold mbind, ui_mbind, set_var_app_version, modify. fold s1.
  rewrite (get_lvgl_version_run V HV s1) by apply Hwf1. rewrite Ef. cbn.
  unfold strlen in HV. pose proof (length_chars V) as HVl. pose proof (length_chars v) as Hvl.
  split; [do 2 f_equal|]; unfold var_text.
  - rewrite (cstr_prefix (chars V)); [apply text_chars|done| |apply strncpy_lookup_end; lia].
    rewrite strncpy_take by lia. by rewrite take_ge by lia.
  - rewrite (cstr_prefix (take 31 (chars v))); [done|..]; rewrite ?length_take.
    + intros H. apply Hv. rewrite <- (take_drop 31 (chars v)). apply elem_of_app. by left.
    + unfold copy_var. rewrite !take_insert_ge by lia. rewrite strncpy_take by lia. apply take_min.
    + unfold copy_var. destruct (decide (31 ≤ length (chars v))%nat).
      * rewrite Nat.min_l by lia. apply list_lookup_insert_eq. rewrite length_insert, length_strncpy. lia.
      * rewrite Nat.min_r by lia. rewrite !list_lookup_insert_ne by lia. apply strncpy_lookup_end. lia.
Qed.

Lemma lvgl_version_cuts_app_version_witness :
  ∃ s' : ust store,
    (set_var_app_version "0.4.8-dev-202507011200-a-long-branch-name";; get_var_lvgl_version "9.2.2")
      (set_lvgl_version (replicate 32 NUL) ui_started) = Some ("9.2.2", s') ∧
    var_text (app_version s') = "0.4.8-dev-202507011200-a-long-b".
Proof.
  destruct (lvgl_version_cuts_app_version "9.2.2" "0.4.8-dev-202507011200-a-long-branch-name"
    (set_lvgl_version (replicate 32 NUL) ui_started)) as (s' & H1 & H2);
    [apply set_lvgl_wf, ui_started_wf|done|done|apply (bool_decide_unpack _); by vm_compute..|].
  exact (ex_intro _ s' (conj H1 H2)).
Defined.

(** ** Rotation *)

(** The left and right paddings of the screens for a rotation. *)
Definition screen_pads (r : Z) : option (Z * Z) :=
  if r =? 90 then Some (24, 44) else if r =? 270 then Some (44, 24) else None.
Definition rotated (r : Z) (d : lv_disp_rotation) : lv_disp_rotation :=
  if r =? 0 then LV_DISP_ROTATION_0 else if r =? 90 then LV_DISP_ROTATION_90
  else if r =? 180 then LV_DISP_ROTATION_180 else if r =? 270 then LV_DISP_ROTATION_270 else d.
(** The calibrated rectangle of the touchscreen. *)
Definition calibrated (r : Z) : Z * Z * Z * Z := if r =? 90 then (0, -20, 239, 279) else (0, 0, 239, 299).

(** What a rotation logs; [touch]: there is a touchscreen. *)
Definition turn_logs (r : Z) (touch : bool) : list ui_output :=
  [OutLog UiInfo "screen.c" "lvgl_set_rotation" 118 ("setting rotation to " ++ decimal 5 r)] ++
  (if bool_decide (r ∈ [0; 90; 180; 270]) then []
   else [OutLog UiError "screen.c" "lvgl_set_rotation" 128 ("invalid rotation " ++ decimal 5 r)]) ++
  (if touch then
     [if r =? 90 then
        OutLog UiInfo "screen.c" "apply_touch_calibration" 52
          ("touch calibration: rotation=" ++ decimal 5 r ++ ", Y offset=+20")
      else
        OutLog UiInfo "screen.c" "apply_touch_calibration" 56
          ("touch calibration: rotation=" ++ decimal 5 r ++ ", no offset")]
   else []).
Definition rotation_logs (r : Z) (touch : bool) : list ui_output :=
  turn_logs r touch ++ [OutLog UiInfo "screen.c" "lvgl_set_rotation" 158 "refreshing objects"].

(** A screen style afterwards: the paddings, and the rest as it was. *)
Definition padded (r : Z) (old style : lv_style_t) : Prop :=
  ∀ p, lv_style_get p style =
    match screen_pads r with
    | Some (l, rt) => if decide (p = pad_left) then Some (Num l)
                      else if decide (p = pad_right) then Some (Num rt) else lv_style_get p old
    | None => lv_style_get p old
    end.

Lemma lv_style_get_set p q v style :
  lv_style_get p (lv_style_set q v style) = if decide (q = p) then Some v else lv_style_get p style.
Proof.
  unfold lv_style_get, lv_style_set. cbn. case_decide; [by rewrite bool_decide_true|].
  by rewrite bool_decide_false.
Qed.

Definition pad_style (l r : Z) (style : lv_style_t) : lv_style_t :=
  lv_style_set pad_right (Num r) (lv_style_set pad_left (Num l) style).

Lemma pad_style_padded r l rt style : screen_pads r = Some (l, rt) → padded r style (pad_style l rt style).
Proof.
  intros E p. rewrite E. unfold pad_style. rewrite !lv_style_get_set.
  repeat case_decide; congruence.
Qed.

Section rotation.
Context {L : Type} `{!Lvgl L, !LvglLaws L}.
Implicit Types s : ust L.

Lemma set_pads_run st1 st2 l r s style1 style2 :
  st1 ≠ st2 → styles s st1 = Some style1 → styles s st2 = Some style2 →
  ∃ t, set_pads st1 st2 l r s = Some (tt, set_styles t s) ∧
    t st1 = Some (pad_style l r style1) ∧ t st2 = Some (pad_style l r style2) ∧
    ∀ st, st ≠ st1 → st ≠ st2 → t st = styles s st.
Proof.
  intros Hne H1 H2.
  cut (uwp (set_pads st1 st2 l r) (λ _ s', ∃ t, s' = set_styles t s ∧
    t st1 = Some (pad_style l r style1) ∧ t st2 = Some (pad_style l r style2) ∧
    ∀ st, st ≠ st1 → st ≠ st2 → t st = styles s st) s).
  { intros ([] & s' & E & t & -> & Ht)%uwp_run. eauto. }
  unfold set_pads. uwp_steps. eapply uwp_style_set; [done|]. uwp_steps.
  eapply uwp_style_set; [cbn; by rewrite style_table_insert, decide_True|]. uwp_steps.
  eapply uwp_style_set; [cbn; by rewrite !style_table_insert, !decide_False|].
  eapply uwp_style_set; [cbn; by rewrite !style_table_insert, decide_True|]. cbn.
  eexists. split; [reflexivity|]. rewrite !style_table_insert. split_and!.
  - by rewrite !decide_False, decide_True by congruence.
  - by rewrite decide_True by done.
  - intros st ??. by rewrite !style_table_insert, !decide_False by congruence.
Qed.

Lemma get_style_run ui_styles n st s : find_name n ui_styles = Some st →
  ui_get_style ui_styles n s = Some (Some st, set_styles (get_style st (styles s)).2 s).
Proof. intros E. unfold ui_get_style. by rewrite E. Qed.

Lemma get_style_after st t : (get_style st t).2 st = Some (get_style st t).1.
Proof. rewrite !get_style_static. unfold get_static. destruct (t st) eqn:E; cbn; [done|]. by rewrite style_table_insert, decide_True. Qed.
Lemma get_style_other st st' t : st' ≠ st → (get_style st t).2 st' = t st'.
Proof.
  intros H. rewrite get_style_static. unfold get_static. destruct (t st) eqn:E; cbn; [done|].
  by rewrite style_table_insert, decide_False.
Qed.

(** Both screen styles. *)
Lemma screen_pads_run r s style1 style2 :
  styles s flex_screen = Some style1 → styles s flex_screen_menu = Some style2 →
  ∃ t, (if r =? 90 then set_pads flex_screen flex_screen_menu 24 44
        else if r =? 270 then set_pads flex_screen flex_screen_menu 44 24
        else mret tt) s = Some (tt, set_styles t s) ∧
    (∃ x, t flex_screen = Some x ∧ padded r style1 x) ∧
    (∃ x, t flex_screen_menu = Some x ∧ padded r style2 x) ∧
    (∀ st, st ≠ flex_screen → st ≠ flex_screen_menu → t st = styles s st).
Proof.
  intros H1 H2.
  assert (Hset : ∀ l rt, screen_pads r = Some (l, rt) → ∃ t,
    set_pads flex_screen flex_screen_menu l rt s = Some (tt, set_styles t s) ∧
    (∃ x, t flex_screen = Some x ∧ padded r style1 x) ∧
    (∃ x, t flex_screen_menu = Some x ∧ padded r style2 x) ∧
    (∀ st, st ≠ flex_screen → st ≠ flex_screen_menu → t st = styles s st)).
  { intros l rt Ep. destruct (set_pads_run flex_screen flex_screen_menu l rt s style1 style2)
      as (t & ? & ? & ? & ?); [done..|].
    exists t. split_and!; [done|eexists; split; [done|by apply pad_style_padded]..|done]. }
  unfold screen_pads in Hset.
  destruct (r =? 90) eqn:E90; [by apply Hset|]. destruct (r =? 270) eqn:E270; [by apply Hset|].
  exists (styles s). split_and!; [by destruct s| | |done].
  - exists style1. split; [done|]. intros p. unfold screen_pads. by rewrite E90, E270.
  - exists style2. split; [done|]. intros p. unfold screen_pads. by rewrite E90, E270.
Qed.

(** Asking for both styles. *)
Lemma two_styles t :
  let t' := (get_style flex_screen_menu (get_style flex_screen t).2).2 in
  t' flex_screen = Some (get_style flex_screen t).1 ∧
  t' flex_screen_menu = Some (get_style flex_screen_menu t).1 ∧
  (∀ st, st ≠ flex_screen → st ≠ flex_screen_menu → t' st = t st).
Proof.
  cbn zeta. split_and!.
  - by rewrite get_style_other, get_style_after.
  - rewrite get_style_after. f_equal. rewrite (get_style_static flex_screen_menu t).
    rewrite (get_style_static flex_screen_menu). unfold get_static. rewrite get_style_other by done. by destruct (t flex_screen_menu).
  - intros st ??. by rewrite !get_style_other.
Qed.

(** The first half: the display, and the touchscreen if there is one. *)
Definition has_touch s : bool := bool_decide (is_Some (touch_indev s)).
Definition turned (r : Z) s : ust L :=
  let s1 := set_rotation r (set_display (rotated r (display_rotation s))
              (set_out (u_out s ++ turn_logs r (has_touch s)) s)) in
  match touch_indev s with Some _ => set_touch (Some (calibrated r)) s1 | None => s1 end.

Lemma mret_bind_run {A} (K : unit → ui L A) s : (mret tt ≫= K) s = K tt s.
Proof. done. Qed.
Lemma modify_bind_run {A} f (K : unit → ui L A) s : (modify f ≫= K) s = K tt (f s).
Proof. done. Qed.
Lemma log_bind_run {A} m file func line msg (K : unit → ui L A) s : strlen msg < 1024 →
  (log m file func line msg ≫= K) s = K tt (set_out (u_out s ++ [OutLog m file func line msg]) s).
Proof. intros Hm. unfold mbind, ui_mbind. by rewrite log_run. Qed.

Lemma set_display_run {A} r (K : unit → ui L A) s :
  (set_display_rotation r ≫= K) s =
  K tt (set_display (rotated r (display_rotation s))
    (set_out (u_out s ++ if bool_decide (r ∈ [0; 90; 180; 270]) then []
       else [OutLog UiError "screen.c" "lvgl_set_rotation" 128 ("invalid rotation " ++ decimal 5 r)]) s)).
Proof.
  unfold set_display_rotation, rotated. case_bool_decide as Hin.
  - rewrite app_nil_r. rewrite !elem_of_cons in Hin.
    destruct Hin as [->|[->|[->|[->|[]%not_elem_of_nil]]]]; by destruct s.
  - rewrite !not_elem_of_cons in Hin. destruct Hin as (? & ? & ? & ? & _).
    rewrite !(proj2 (Z.eqb_neq r _)) by done. rewrite log_bind_run by log_fits. by destruct s.
Qed.

Lemma turned_run {A} r (K : ui L A) s :
  (log UiInfo "screen.c" "lvgl_set_rotation" 118 ("setting rotation to " ++ decimal 5 r);;
   set_display_rotation r;; modify (set_rotation r);; apply_touch_calibration;; K) s = K (turned r s).
Proof.
  rewrite log_bind_run by log_fits. rewrite set_display_run, modify_bind_run.
  unfold apply_touch_calibration, turned, turn_logs, has_touch, calibrated.
  destruct s as [?????????????? [q|]]; unfold mbind at 1 2, ui_mbind, get;
    cbn -[decimal bool_decide mbind]; [|by rewrite app_nil_r, <- !app_assoc].
  destruct (r =? 90); rewrite modify_bind_run, log_run by log_fits;
    cbn -[decimal bool_decide mbind]; by rewrite <- !app_assoc.
Qed.
End rotation.

(** C33: Rotating the display. Every rotation is stored, the display turns only for
    0, 90, 180 and 270 degrees, and the touchscreen, if there is one, is
    recalibrated, shifted by the offset at 90 degrees only. The two screen styles
    get the paddings 24 and 44, in the order the rotation asks for, at 90 and 270
    degrees; any other rotation keeps the paddings they have. No other property and
    no other style changes, and no object; what is logged is what [rotation_logs]
    lists. *)
Theorem rotation_spec {L} `{!Lvgl L, !LvglLaws L} ui_styles r (s : ust L) :
  find_name "flex_screen" ui_styles = Some flex_screen →
  find_name "flex_screen_menu" ui_styles = Some flex_screen_menu →
  ∃ s', jetkvm_ui_set_rotation ui_styles r s = Some (tt, s') ∧
    current_rotation s' = r ∧ display_rotation s' = rotated r (display_rotation s) ∧
    touch_indev s' = (λ _, calibrated r) <$> touch_indev s ∧ u_lv s' = u_lv s ∧
    u_out s' = u_out s ++ rotation_logs r (has_touch s) ∧
    (∀ st, st ∈ [flex_screen; flex_screen_menu] → ∃ style,
       styles s' st = Some style ∧ padded r (get_style st (styles s)).1 style) ∧
    (∀ st, st ∉ [flex_screen; flex_screen_menu] → styles s' st = styles s st).
Proof.
  intros E1 E2. unfold jetkvm_ui_set_rotation, lvgl_set_rotation. rewrite turned_run.
  set (s1 := turned r s).
  assert (Hs1 : current_rotation s1 = r ∧ display_rotation s1 = rotated r (display_rotation s) ∧
    touch_indev s1 = (λ _, calibrated r) <$> touch_indev s ∧ u_lv s1 = u_lv s ∧ styles s1 = styles s ∧
    u_out s1 = u_out s ++ turn_logs r (has_touch s))
    by (subst s1; unfold turned; destruct s as [?????????????? []]; done).
  clearbody s1. destruct Hs1 as (H1 & H2 & H3 & H4 & Est & Eout).
  unfold mbind at 1, ui_mbind. rewrite (get_style_run _ _ _ _ E1).
  unfold mbind at 1. rewrite (get_style_run _ _ _ _ E2). cbn [styles set_styles].
  destruct (two_styles (styles s1)) as (Ha & Hb & Hc). rewrite Est in *.
  destruct (screen_pads_run r (set_styles (get_style flex_screen_menu (get_style flex_screen (styles s)).2).2
    (set_styles (get_style flex_screen (styles s)).2 s1)) _ _ Ha Hb) as (t & Hrun & (x & Hx & Px) & (y & Hy & Py) & Ht).
  unfold mbind. rewrite Hrun, log_run by log_fits. eexists.
  split_and!; [reflexivity|done..| | |].
  - unfold rotation_logs. rewrite app_assoc, <- Eout. done.
  - intros st. rewrite !elem_of_cons. intros [->|[->|[]%not_elem_of_nil]]; eauto.
  - intros st. rewrite !not_elem_of_cons. intros (? & ? & _). cbn. rewrite Ht by done. by apply Hc.
Qed.

Lemma rotation_spec_witness :
  ∃ s' : ust store, jetkvm_ui_set_rotation sample_styles 270 ui_blank = Some (tt, s') ∧
    display_rotation s' = LV_DISP_ROTATION_270.
Proof.
  destruct (rotation_spec sample_styles 270 ui_blank) as (s' & H1 & _ & H2 & _); [done|done|].
  exact (ex_intro _ s' (conj H1 H2)).
Defined.
