(* ===== verification/UiRpc.v ===== *)
(** * The hold buttons and the Go side

    The user interface calls its RPCs through the pointer [lvgl_init] gave it, which is
    [jetkvm_call_rpc_handler] of ctrl.c; that passes them on to the handler the Go
    side registered. Its log calls reach the registered log handler. The two components run one after the other here: the interface
    ([UiSafe]'s operations) and the registry ([Handlers]'s), composed by the calls
    the first makes to the second. *)
From stdpp Require Import functions.
From S2P Require Import Prelude Effects VencConfig Video VideoDevice Handlers Lvgl UiStyles UiScreens Ui UiActions UiControl UiBuild UiSafe UiHold.

Section rpc.
Context {L : Type} `{!Lvgl L, !LvglLaws L}.
Context (ui_objects : list (string * field)) (ui_styles : list (string * ui_style))
  (ui_vars : list (string * ui_var)) (V : string).
Implicit Types (s : ust L) (r : registry).

(** ** The composition *)

Inductive sys_op := UiCall (op : ui_op) | RegCall (op : reg_op).

(** One call of the interface, and what it sends meanwhile, in its order. *)
Definition ui_call (op : ui_op) s : option (list ui_output * ust L) :=
  match ui_perform ui_objects ui_styles ui_vars V op (set_out [] s) with
  | Some (_, s') => Some (u_out s', s')
  | None => None
  end.
(** [ui_call_rpc_handler(method, NULL)] through the pointer, and the macros of log.h. *)
Definition out_op (o : ui_output) : reg_op :=
  match o with
  | OutRpc m => Rpc m None
  | OutLog UiInfo file func line message => Log LogInfo file func line message
  | OutLog UiWarn file func line message => Log LogWarn file func line message
  | OutLog UiError file func line message => Log LogError file func line message
  end.
Definition pass_on (outs : list ui_output) r : option registry := reg_run (map out_op outs) r.

Definition sys_perform (o : sys_op) (c : ust L * registry) : option (ust L * registry) :=
  match o with
  | UiCall op => '(outs, s') ← ui_call op c.1; (λ r', (s', r')) <$> pass_on outs c.2
  | RegCall op => (λ r', (c.1, r')) <$> reg_perform op c.2
  end.
Fixpoint sys_run (ops : list sys_op) (c : ust L * registry) : option (ust L * registry) :=
  match ops with
  | [] => Some c
  | o :: ops' => match sys_perform o c with Some c' => sys_run ops' c' | None => None end
  end.

(** ** The specification: what the interface does alone, as operations of the router *)

Fixpoint trace (ops : list sys_op) s : list reg_op :=
  match ops with
  | [] => []
  | RegCall op :: ops' => op :: trace ops' s
  | UiCall op :: ops' =>
      match ui_call op s with
      | Some (outs, s') => map out_op outs ++ trace ops' s'
      | None => []
      end
  end.
(** An operation of the router that the interface may cause, or one from outside. *)
Definition allowed (ops : list sys_op) (o : reg_op) : Prop :=
  RegCall o ∈ ops ∨ ∃ out, out_ok out ∧ o = out_op out.
(** How a sequence may go wrong: a message from outside that overruns the log buffer,
    or a call of the interface that its caller should not make. *)
Definition overlong (ops : list sys_op) : Prop := ∃ o, RegCall o ∈ ops ∧ too_long o = true.
Definition misused (ops : list sys_op) : Prop :=
  ∃ op, UiCall op ∈ ops ∧ op_fits ui_objects ui_vars op = false.

(** ** Lemmas *)

Lemma out_op_fits o : out_ok o → too_long (out_op o) = false.
Proof.
  destruct o as [|[] file func line msg]; [done|..]; cbn; intros H; apply Z.leb_gt; lia.
Qed.
Lemma reg_run_app l1 l2 r :
  reg_run (l1 ++ l2) r = match reg_run l1 r with Some r' => reg_run l2 r' | None => None end.
Proof. revert r. induction l1 as [|o l1 IH]; intros r; [done|]. cbn. destruct (reg_perform o r); auto. Qed.

Hypothesis HV : strlen V < 32.

Lemma ui_call_runs op s : ui_wf s → op_fits ui_objects ui_vars op = true →
  ∃ outs s', ui_call op s = Some (outs, s') ∧ ui_wf s' ∧ Forall out_ok outs.
Proof.
  intros Hwf Hop. unfold ui_call.
  assert (Hs : sound (objects s) [] (set_out [] s)).
  { split; [by apply (wf_ext (objects s) s)|apply sent_ok_refl]. }
  destruct (uwp_run _ _ _ (safe_perform ui_objects ui_styles ui_vars V HV (objects s) [] op Hop _ Hs))
    as (a & s' & -> & Hwf' & outs & Er & Hr').
  eexists _, s'. split_and!; [done| |by rewrite Er]. unfold ui_wf. by rewrite (wf_objects _ _ Hwf').
Qed.

(** The composition runs the router over the trace. *)
Lemma sys_run_trace ops s r : ui_wf s → ¬ misused ops →
  Forall (allowed ops) (trace ops s) ∧
  match sys_run ops (s, r) with
  | Some (s', r') => ui_wf s' ∧ reg_run (trace ops s) r = Some r'
  | None => reg_run (trace ops s) r = None
  end.
Proof.
  revert s r. induction ops as [|[op|op] ops IH]; intros s r Hwf Hm; cbn [sys_run sys_perform trace]; [done| |].
  - assert (Hops : ¬ misused ops) by (intros (op' & ? & ?); apply Hm; exists op'; split; [by right|done]).
    destruct (op_fits ui_objects ui_vars op) eqn:Hop; [|destruct Hm; exists op; split; [by left|done]].
    destruct (ui_call_runs op s Hwf Hop) as (outs & s' & E & Hwf' & Houts). cbn [fst snd]. rewrite E. cbn.
    split.
    + apply Forall_app. split.
      * apply Forall_fmap. eapply Forall_impl; [exact Houts|]. intros o Ho. right. by exists o.
      * eapply Forall_impl; [by apply (IH s' r)|]. intros o [Ho|Ho]; [left; by right|by right].
    + rewrite reg_run_app. fold (pass_on outs r). destruct (pass_on outs r) as [r'|]; [|done]. cbn. by apply IH.
  - assert (Hops : ¬ misused ops) by (intros (op' & ? & ?); apply Hm; exists op'; split; [by right|done]).
    cbn [fst snd reg_run]. split.
    + constructor; [left; by left|].
      eapply Forall_impl; [by apply (IH s r)|]. intros o [Ho|Ho]; [left; by right|by right].
    + destruct (reg_perform op r) as [r'|]; [|done]. cbn. by apply IH.
Qed.

(** Ticking sends nothing. *)
Lemma ui_tick_quiet s : ui_wf s → uwp (ui_tick V) (λ _ s', u_out s' = u_out s) s.
Proof.
  intros [Ho Hn Hd Hnn Hb Hc].
  assert (Hp : partial ui_nodes s) by (split; [done|done|intros f _; apply Hnn|done]).
  assert (Ht : ui_tick V s = tick_screen V (currentScreen s) s) by done.
  unfold uwp. rewrite Ht. unfold tick_screen, load. rewrite decide_True by lia.
  pose proof (tick_funcs_ok (L := L) V HV) as Hf.
  destruct (lookup_lt_is_Some_2 (zip screen_widgets (tick_screen_funcs (L := L) V))
    (Z.to_nat (currentScreen s))) as ([w m] & Hm).
  { change (length (zip screen_widgets (tick_screen_funcs V))) with 12%nat. lia. }
  rewrite Forall_lookup in Hf. specialize (Hf _ _ Hm). cbn in Hf.
  apply lookup_zip_Some in Hm as [Hw Hm]. rewrite Hm.
  assert (Hin : ∀ n, n ∈ nodes_of true w → n ∈ ui_nodes).
  { intros n Hn'. apply list_elem_of_bind. exists w. split; [done|by eapply list_elem_of_lookup_2]. }
  pose proof (Hf ui_nodes Hin s Hp) as Hq. unfold uwp in Hq.
  destruct (m s) as [[a s']|]; [|done]. destruct Hq as [_ HG]. apply HG.
Qed.

(** The calls of one tick that delivers a whole press of a button. *)
Lemma press_call h t0 ts tr s : ui_wf s → Forall (λ t, elapsed t t0 ≤ hold_ms h + 2 ^ 31) ts →
  ∃ s', ui_call (op_tick (press h (objects s) t0 ts ++ release h (objects s) tr)) s =
    Some (if negb (lock (holds s h)) && long_enough h t0 ts && ui_rpc_handler s
          then [OutRpc (hold_rpc h)] else [], s') ∧ ui_wf s'.
Proof.
  intros Hwf Hts.
  assert (Hwf0 : ui_wf (set_out [] s)) by (by apply (wf_ext (objects s) s)).
  pose proof (uwp_press_release h t0 ts tr _ Hwf0 Hts) as Hp.
  unfold ui_call. cbn [ui_perform]. unfold jetkvm_ui_tick, lvgl_tick, mbind, ui_mbind.
  change (objects (set_out [] s)) with (objects s) in Hp.
  unfold uwp in Hp. destruct (timer_handler _ (set_out [] s)) as [[a s1]|]; [|done].
  destruct Hp as (Hwf1 & _ & Hr1 & _). pose proof (ui_tick_quiet s1 Hwf1) as Hq.
  pose proof (safe_ui_tick (objects s1) (u_out s1) V HV s1 (conj Hwf1 (sent_ok_refl _))) as Hsafe.
  unfold uwp in Hq, Hsafe. destruct (ui_tick V s1) as [[b s2]|]; [|done].
  exists s2. split; [rewrite Hq, Hr1; reflexivity|]. destruct Hsafe as [Hwf2 _].
  unfold ui_wf. by rewrite (wf_objects _ _ Hwf2).
Qed.
End rpc.

(** C12: The interface and the Go program. The interface and the registry together,
    under any sequence of calls of either that the callers may make ([op_fits]), from
    a running interface and with no handler registered yet: the whole runs as the
    router of the registry would over what the interface sends on its own. So each
    RPC goes once, in order and with no parameters, to the RPC handler registered
    last before, and each log message to the log handler, and to nobody if there is
    none. Besides what was called from outside, the interface sends only the three
    RPCs and log messages, which fit the log buffer; the sequence goes wrong only by
    a message from outside that does not. A press of a button within a tick sends
    exactly its RPC if it was held long enough and the button was not locked, and
    nothing otherwise. *)
Theorem button_reaches_go {L} `{!Lvgl L, !LvglLaws L} ui_objects ui_styles ui_vars V
    (ops : list sys_op) (s : ust L) :
  strlen V < 32 → ui_wf s → ¬ misused ui_objects ui_vars ops →
  let acts := trace ui_objects ui_styles ui_vars V ops s in
  match sys_run ui_objects ui_styles ui_vars V ops (s, no_handlers) with
  | Some (s', r') => ui_wf s' ∧ Handlers.calls r' = deliveries (λ _, None) acts
  | None => overlong ops
  end ∧
  Forall (allowed ops) acts ∧
  ∀ h t0 ts tr, Forall (λ t, elapsed t t0 ≤ hold_ms h + 2 ^ 31) ts →
    ∃ s', ui_call ui_objects ui_styles ui_vars V
        (op_tick (press h (objects s) t0 ts ++ release h (objects s) tr)) s =
      Some (if negb (lock (holds s h)) && long_enough h t0 ts && ui_rpc_handler s
            then [OutRpc (hold_rpc h)] else [], s').
Proof.
  intros HV Hwf Hm acts.
  destruct (sys_run_trace ui_objects ui_styles ui_vars V HV ops s no_handlers Hwf Hm) as [Hall Hs].
  fold acts in Hall, Hs. split_and!; [|done|].
  - pose proof (reg_run_deliveries acts (λ _, None) no_handlers) as Hd.
    specialize (Hd ltac:(split_and!; [done..|by right])).
    destruct (sys_run _ _ _ _ ops _) as [[s' r']|].
    + destruct Hs as [Hwf' Hs]. rewrite Hs in Hd. by destruct Hd.
    + rewrite Hs in Hd. apply Exists_exists in Hd as (o & Ho & Ht).
      rewrite Forall_forall in Hall. destruct (Hall o Ho) as [Hin|(out & Hout & ->)]; [by exists o|].
      by rewrite out_op_fits in Ht.
  - intros h t0 ts t Hts. destruct (press_call ui_objects ui_styles ui_vars V HV h t0 ts t s Hwf Hts)
      as (s' & E & _). eauto.
Qed.

Definition sample_press : list (Z * Z * lv_event) :=
  press hold_reboot (objects ui_started) 1000 [3000; 6000] ++ release hold_reboot (objects ui_started) 6100.
Definition sample_sys_ops : list sys_op :=
  [UiCall (op_tick sample_press); RegCall (SetRpc (Some 7)); UiCall (op_tick sample_press);
   RegCall (SetLog (Some 5)); UiCall (op_set_var "no_variable" "1"); RegCall (SetRpc None)].
Lemma button_reaches_go_witness :
  match sys_run sample_objects sample_styles sample_vars "9.2.2" sample_sys_ops (ui_started, no_handlers) with
  | Some (s', r') => ui_wf s' ∧ Handlers.calls r' =
      [(7, EvRpc "reboot" None);
       (5, EvLog 3 "ctrl.c" "jetkvm_ui_set_var" 199 "variable no_variable not found")]
  | None => False
  end.
Proof.
  destruct (button_reaches_go sample_objects sample_styles sample_vars "9.2.2" sample_sys_ops ui_started)
    as (H & _); [done|apply ui_started_wf| |revert H].
  { intros (op & Hin & Hf). unfold sample_sys_ops in Hin. rewrite !elem_of_cons in Hin.
    destruct Hin as [[= ->]|[[=]|[[= ->]|[[=]|[[= ->]|[[=]|[]%not_elem_of_nil]]]]]]; by vm_compute in Hf. }
  destruct (sys_run _ _ _ _ sample_sys_ops _) as [[s' r']|] eqn:E; [|by vm_compute in E].
  intros [H1 H2]. split; [exact H1|]. rewrite H2. vm_compute. reflexivity.
Defined.
