(* ===== verification/UiHeaders.v ===== *)
(** * The headers the name index is made from

    src/internal/native/eez/src/ui/{screens,styles,images,vars}.h, line by line.
    Some lines end in a carriage return. *)
From S2P Require Import Prelude.

Definition CR : ascii := "013"%char.
Definition crlf (line : string) : string := (line ++ String CR "")%string.
(** The string in double quotes. *)
Definition quoted (s : string) : string := (String "034" s ++ String "034" "")%string.

Definition screens_h_0 : list string :=
  [crlf "#ifndef EEZ_LVGL_UI_SCREENS_H";
   crlf "#define EEZ_LVGL_UI_SCREENS_H";
   crlf "";
   crlf "#include <lvgl.h>";
   crlf "";
   crlf "#ifdef __cplusplus";
   crlf ("extern " +:+ quoted "C" +:+ " {");
   crlf "#endif";
   crlf "";
   "typedef struct _objects_t {";
   "    lv_obj_t *boot_screen;";
   "    lv_obj_t *no_network_screen;";
   "    lv_obj_t *home_screen;";
   "    lv_obj_t *menu_screen;";
   "    lv_obj_t *menu_advanced_screen;";
   "    lv_obj_t *menu_network_screen;";
   "    lv_obj_t *about_screen;";
   "    lv_obj_t *status_screen;";
   "    lv_obj_t *reset_config_screen;";
   "    lv_obj_t *reboot_screen;";
   "    lv_obj_t *rebooting_screen;";
   "    lv_obj_t *switch_dhcp_client_screen;";
   "    lv_obj_t *boot_logo;";
   "    lv_obj_t *boot_screen_version;";
   "    lv_obj_t *no_network_header_container;";
   "    lv_obj_t *no_network_header_logo;";
   "    lv_obj_t *no_network_content_container;";
   "    lv_obj_t *no_network_title;";
   "    lv_obj_t *home_info_ipv6_addr_1;";
   "    lv_obj_t *home_header_container;";
   "    lv_obj_t *home_header_logo;";
   "    lv_obj_t *cloud_status_icon;";
   "    lv_obj_t *cloud_status_label;";
   "    lv_obj_t *home_info_container;";
   "    lv_obj_t *home_info_ipv4_addr;";
   "    lv_obj_t *home_info_ipv6_addr;";
   "    lv_obj_t *home_info_mac_addr;";
   "    lv_obj_t *divider;";
   "    lv_obj_t *home_status_container;";
   "    lv_obj_t *usb_status;";
   "    lv_obj_t *usb_indicator;";
   "    lv_obj_t *usb_status_label;";
   "    lv_obj_t *hdmi_status;";
   "    lv_obj_t *hdmi_indicator;";
   "    lv_obj_t *hdmi_status_label;";
   "    lv_obj_t *menu_header_container;";
   "    lv_obj_t *menu_items_container;";
   "    lv_obj_t *menu_btn_status;";
   "    lv_obj_t *menu_btn_network;";
   "    lv_obj_t *menu_btn_access;";
   "    lv_obj_t *menu_btn_advanced;";
   "    lv_obj_t *menu_btn_about;";
   "    lv_obj_t *menu_header_container_1;";
   "    lv_obj_t *menu_items_container_1;";
   "    lv_obj_t *menu_btn_advanced_developer_mode;";
   "    lv_obj_t *menu_btn_advanced_usb_emulation;";
   "    lv_obj_t *menu_btn_advanced_reboot;";
   "    lv_obj_t *menu_btn_dhcp_client;";
   "    lv_obj_t *menu_btn_advanced_reset_config;";
   "    lv_obj_t *menu_header_container_2;";
   "    lv_obj_t *menu_items_container_2;";
   "    lv_obj_t *menu_btn_network_ipv4;";
   "    lv_obj_t *menu_btn_network_ipv6;";
   "    lv_obj_t *menu_btn_network_lldp;";
   "    lv_obj_t *about_header_container;";
   "    lv_obj_t *about_items_container;";
   "    lv_obj_t *system_version_container;";
   "    lv_obj_t *system_version;";
   "    lv_obj_t *app_version_container;";
   "    lv_obj_t *app_version;";
   "    lv_obj_t *build_branch_container;";
   "    lv_obj_t *build_branch;";
   "    lv_obj_t *build_date_container;";
   "    lv_obj_t *build_date;";
   "    lv_obj_t *golang_version_container;";
   "    lv_obj_t *golang_version;";
   "    lv_obj_t *lvgl_version_container;";
   "    lv_obj_t *lvgl_version;";
   "    lv_obj_t *kernel_version_container;";
   "    lv_obj_t *kernel_version;";
   "    lv_obj_t *cpu_serial_container;";
   "    lv_obj_t *cpu_serial;";
   "    lv_obj_t *status_header_container;";
   "    lv_obj_t *status_items_container;";
   "    lv_obj_t *device_id_container;";
   "    lv_obj_t *device_id;";
   "    lv_obj_t *cloud_account_id_container;";
   "    lv_obj_t *app_version_1;";
   "    lv_obj_t *cloud_domain_container;";
   "    lv_obj_t *cloud_domain;";
   "    lv_obj_t *reset_config_header;";
   "    lv_obj_t *reset_config_container;";
   "    lv_obj_t *reset_config_label_container;";
   "    lv_obj_t *reset_config_label;";
   "    lv_obj_t *reset_config_spinner;";
   "    lv_obj_t *reset_config_button;";
   "    lv_obj_t *obj0;";
   "    lv_obj_t *reboot_header;";
   "    lv_obj_t *reboot_container;";
   "    lv_obj_t *reboot_label_container;";
   "    lv_obj_t *reboot_label;";
   "    lv_obj_t *reboot_config_button;";
   "    lv_obj_t *obj1;";
   "    lv_obj_t *reboot_in_progress_logo;";
   "    lv_obj_t *reboot_in_progress_label;";
   "    lv_obj_t *dhcp_client_header;";
   "    lv_obj_t *dhcp_client_container;";
   "    lv_obj_t *dhcp_client_label_container;";
   "    lv_obj_t *dhcpc_label;";
   "    lv_obj_t *dhcp_client_spinner;";
   "    lv_obj_t *dhcp_client_button;";
   "    lv_obj_t *obj2;";
   "    lv_obj_t *dhcp_client_change_label;";
   "} objects_t;";
   ""].

Definition screens_h_1 : list string :=
  ["extern objects_t objects;";
   "";
   "enum ScreensEnum {";
   "    SCREEN_ID_BOOT_SCREEN = 1,";
   "    SCREEN_ID_NO_NETWORK_SCREEN = 2,";
   "    SCREEN_ID_HOME_SCREEN = 3,";
   "    SCREEN_ID_MENU_SCREEN = 4,";
   "    SCREEN_ID_MENU_ADVANCED_SCREEN = 5,";
   "    SCREEN_ID_MENU_NETWORK_SCREEN = 6,";
   "    SCREEN_ID_ABOUT_SCREEN = 7,";
   "    SCREEN_ID_STATUS_SCREEN = 8,";
   "    SCREEN_ID_RESET_CONFIG_SCREEN = 9,";
   "    SCREEN_ID_REBOOT_SCREEN = 10,";
   "    SCREEN_ID_REBOOTING_SCREEN = 11,";
   "    SCREEN_ID_SWITCH_DHCP_CLIENT_SCREEN = 12,";
   "};";
   "";
   "void create_screen_boot_screen();";
   "void tick_screen_boot_screen();";
   "";
   "void create_screen_no_network_screen();";
   "void tick_screen_no_network_screen();";
   "";
   "void create_screen_home_screen();";
   "void tick_screen_home_screen();";
   "";
   "void create_screen_menu_screen();";
   "void tick_screen_menu_screen();";
   "";
   "void create_screen_menu_advanced_screen();";
   "void tick_screen_menu_advanced_screen();";
   "";
   "void create_screen_menu_network_screen();";
   "void tick_screen_menu_network_screen();";
   "";
   "void create_screen_about_screen();";
   "void tick_screen_about_screen();";
   "";
   "void create_screen_status_screen();";
   "void tick_screen_status_screen();";
   "";
   "void create_screen_reset_config_screen();";
   "void tick_screen_reset_config_screen();";
   "";
   "void create_screen_reboot_screen();";
   "void tick_screen_reboot_screen();";
   "";
   "void create_screen_rebooting_screen();";
   "void tick_screen_rebooting_screen();";
   "";
   "void create_screen_switch_dhcp_client_screen();";
   "void tick_screen_switch_dhcp_client_screen();";
   crlf "";
   "void tick_screen_by_id(enum ScreensEnum screenId);";
   "void tick_screen(int screen_index);";
   "";
   "void create_screens();";
   crlf "";
   crlf "";
   crlf "#ifdef __cplusplus";
   crlf "}";
   crlf "#endif";
   crlf "";
   "#endif /*EEZ_LVGL_UI_SCREENS_H*/"].

Definition screens_h : list string := screens_h_0 ++ screens_h_1.

Definition styles_h : list string :=
  [crlf "#ifndef EEZ_LVGL_UI_STYLES_H";
   crlf "#define EEZ_LVGL_UI_STYLES_H";
   crlf "";
   crlf "#include <lvgl.h>";
   crlf "";
   crlf "#ifdef __cplusplus";
   crlf ("extern " +:+ quoted "C" +:+ " {");
   crlf "#endif";
   crlf "";
   "// Style: FlexColumnSpaceBetween";
   "lv_style_t *get_style_flex_column_space_between_MAIN_DEFAULT();";
   "void add_style_flex_column_space_between(lv_obj_t *obj);";
   "void remove_style_flex_column_space_between(lv_obj_t *obj);";
   "";
   "// Style: FlexCenter";
   "lv_style_t *get_style_flex_center_MAIN_DEFAULT();";
   "void add_style_flex_center(lv_obj_t *obj);";
   "void remove_style_flex_center(lv_obj_t *obj);";
   "";
   "// Style: FlexStart";
   "lv_style_t *get_style_flex_start_MAIN_DEFAULT();";
   "void add_style_flex_start(lv_obj_t *obj);";
   "void remove_style_flex_start(lv_obj_t *obj);";
   "";
   "// Style: FlowRowSpaceBetween";
   "lv_style_t *get_style_flow_row_space_between_MAIN_DEFAULT();";
   "void add_style_flow_row_space_between(lv_obj_t *obj);";
   "void remove_style_flow_row_space_between(lv_obj_t *obj);";
   "";
   "// Style: FlowRowStartCenter";
   "lv_style_t *get_style_flow_row_start_center_MAIN_DEFAULT();";
   "void add_style_flow_row_start_center(lv_obj_t *obj);";
   "void remove_style_flow_row_start_center(lv_obj_t *obj);";
   "";
   "// Style: FlexColumnStart";
   "lv_style_t *get_style_flex_column_start_MAIN_DEFAULT();";
   "void add_style_flex_column_start(lv_obj_t *obj);";
   "void remove_style_flex_column_start(lv_obj_t *obj);";
   "";
   "// Style: FlexScreen";
   "lv_style_t *get_style_flex_screen_MAIN_DEFAULT();";
   "void add_style_flex_screen(lv_obj_t *obj);";
   "void remove_style_flex_screen(lv_obj_t *obj);";
   "";
   "// Style: FlexScreenMenu";
   "lv_style_t *get_style_flex_screen_menu_MAIN_DEFAULT();";
   "void add_style_flex_screen_menu(lv_obj_t *obj);";
   "void remove_style_flex_screen_menu(lv_obj_t *obj);";
   "";
   "// Style: LabelFont16";
   "lv_style_t *get_style_label_font16_MAIN_DEFAULT();";
   "void add_style_label_font16(lv_obj_t *obj);";
   "void remove_style_label_font16(lv_obj_t *obj);";
   "";
   "// Style: LabelFontBold30";
   "lv_style_t *get_style_label_font_bold30_MAIN_DEFAULT();";
   "void add_style_label_font_bold30(lv_obj_t *obj);";
   "void remove_style_label_font_bold30(lv_obj_t *obj);";
   "";
   "// Style: HeaderLink";
   "lv_style_t *get_style_header_link_MAIN_DEFAULT();";
   "void add_style_header_link(lv_obj_t *obj);";
   "void remove_style_header_link(lv_obj_t *obj);";
   "";
   "// Style: MenuButton";
   "lv_style_t *get_style_menu_button_MAIN_DEFAULT();";
   "void add_style_menu_button(lv_obj_t *obj);";
   "void remove_style_menu_button(lv_obj_t *obj);";
   "";
   "// Style: MenuButtonLabel";
   "lv_style_t *get_style_menu_button_label_MAIN_DEFAULT();";
   "void add_style_menu_button_label(lv_obj_t *obj);";
   "void remove_style_menu_button_label(lv_obj_t *obj);";
   "";
   "// Style: InfoHeadlineLabel";
   "lv_style_t *get_style_info_headline_label_MAIN_DEFAULT();";
   "void add_style_info_headline_label(lv_obj_t *obj);";
   "void remove_style_info_headline_label(lv_obj_t *obj);";
   "";
   "// Style: InfoContentLabel";
   "lv_style_t *get_style_info_content_label_MAIN_DEFAULT();";
   "void add_style_info_content_label(lv_obj_t *obj);";
   "void remove_style_info_content_label(lv_obj_t *obj);";
   "";
   "// Style: BackButton";
   "lv_style_t *get_style_back_button_MAIN_DEFAULT();";
   "void add_style_back_button(lv_obj_t *obj);";
   "void remove_style_back_button(lv_obj_t *obj);";
   "";
   crlf "";
   crlf "";
   crlf "#ifdef __cplusplus";
   crlf "}";
   crlf "#endif";
   crlf "";
   "#endif /*EEZ_LVGL_UI_STYLES_H*/"].

Definition images_h : list string :=
  [crlf "#ifndef EEZ_LVGL_UI_IMAGES_H";
   crlf "#define EEZ_LVGL_UI_IMAGES_H";
   crlf "";
   crlf "#include <lvgl.h>";
   crlf "";
   crlf "#ifdef __cplusplus";
   crlf ("extern " +:+ quoted "C" +:+ " {");
   crlf "#endif";
   crlf "";
   "extern const lv_img_dsc_t img_logo;";
   "extern const lv_img_dsc_t img_boot_logo_2;";
   "extern const lv_img_dsc_t img_arrow_icon;";
   "extern const lv_img_dsc_t img_back_caret;";
   "extern const lv_img_dsc_t img_back_icon;";
   "extern const lv_img_dsc_t img_check_icon;";
   "extern const lv_img_dsc_t img_cloud_disconnected;";
   "extern const lv_img_dsc_t img_cloud;";
   "extern const lv_img_dsc_t img_d2;";
   "extern const lv_img_dsc_t img_ethernet;";
   "extern const lv_img_dsc_t img_hdmi;";
   "extern const lv_img_dsc_t img_jetkvm;";
   "extern const lv_img_dsc_t img_usb;";
   "extern const lv_img_dsc_t img_x_icon;";
   "";
   "#ifndef EXT_IMG_DESC_T";
   "#define EXT_IMG_DESC_T";
   "typedef struct _ext_img_desc_t {";
   "    const char *name;";
   "    const lv_img_dsc_t *img_dsc;";
   "} ext_img_desc_t;";
   "#endif";
   "";
   "extern const ext_img_desc_t images[14];";
   crlf "";
   crlf "";
   crlf "#ifdef __cplusplus";
   crlf "}";
   crlf "#endif";
   crlf "";
   "#endif /*EEZ_LVGL_UI_IMAGES_H*/"].

Definition vars_h : list string :=
  [crlf "#ifndef EEZ_LVGL_UI_VARS_H";
   crlf "#define EEZ_LVGL_UI_VARS_H";
   crlf "";
   crlf "#include <stdint.h>";
   crlf "#include <stdbool.h>";
   crlf "";
   crlf "#ifdef __cplusplus";
   crlf ("extern " +:+ quoted "C" +:+ " {");
   crlf "#endif";
   crlf "";
   crlf "// enum declarations";
   crlf "";
   crlf "";
   crlf "";
   crlf "// Flow global variables";
   crlf "";
   "enum FlowGlobalVariables {";
   "    FLOW_GLOBAL_VARIABLE_APP_VERSION = 0,";
   "    FLOW_GLOBAL_VARIABLE_SYSTEM_VERSION = 1,";
   "    FLOW_GLOBAL_VARIABLE_LVGL_VERSION = 2,";
   "    FLOW_GLOBAL_VARIABLE_MAIN_SCREEN = 3";
   crlf "};";
   crlf "";
   crlf "// Native global variables";
   crlf "";
   "extern const char *get_var_app_version();";
   "extern void set_var_app_version(const char *value);";
   "extern const char *get_var_system_version();";
   "extern void set_var_system_version(const char *value);";
   "extern const char *get_var_lvgl_version();";
   "extern void set_var_lvgl_version(const char *value);";
   "extern const char *get_var_main_screen();";
   "extern void set_var_main_screen(const char *value);";
   crlf "";
   crlf "";
   crlf "#ifdef __cplusplus";
   crlf "}";
   crlf "#endif";
   crlf "";
   "#endif /*EEZ_LVGL_UI_VARS_H*/"].
