(* ===== verification/UiIndex.v ===== *)
(** * The name index

    src/internal/native/cgo/ui_index.gen.sh, which the build runs to make ui_index.c:
    it picks the declarations out of the headers with grep and sed and writes
    the four tables that [UiControl] looks names up in. The script's filters are
    functions on lists of lines; run on the headers they give the tables, and the
    tables name everything the headers declare. *)
From S2P Require Import Prelude Lvgl UiStyles UiScreens Ui UiActions UiControl UiBuild UiSafe UiStyleCalls UiNav UiHeaders.

(** ** The script's filters *)

(** [grep]: the lines that contain the (literal) pattern. *)
Fixpoint contains (pat s : string) : bool :=
  String.prefix pat s || match s with "" => false | String _ s' => contains pat s' end.
Definition grep (pat : string) (lines : list string) : list string := List.filter (contains pat) lines.

(** [sed 's/pat//g'], from left to right; [skip] counts the characters of the
    occurrence still to drop. *)
Fixpoint remove_go (pat : string) (skip : nat) (s : string) : string :=
  match s with
  | "" => ""
  | String c s' =>
      match skip with
      | S k => remove_go pat k s'
      | O => if String.prefix pat s then remove_go pat (String.length pat - 1) s'
             else String c (remove_go pat O s')
      end
  end.
Definition sed_remove_all (pat : string) (lines : list string) : list string := remove_go pat 0 <$> lines.
(** [sed 's/\r//']: the first carriage return. *)
Fixpoint remove_first (c : ascii) (s : string) : string :=
  match s with
  | "" => ""
  | String d s' => if Ascii.eqb c d then s' else String d (remove_first c s')
  end.
Definition sed_remove_cr (lines : list string) : list string := remove_first CR <$> lines.

(** [read -r line] drops the blanks around the line. *)
Definition blank (c : ascii) : bool := Ascii.eqb c " " || Ascii.eqb c "009".
Fixpoint drop_blanks (l : list ascii) : list ascii :=
  match l with
  | c :: l' => if blank c then drop_blanks l' else l
  | [] => []
  end.
Definition read_line (s : string) : string :=
  text (rev (drop_blanks (rev (drop_blanks (chars s))))).

(** A row the script writes: the string, and the expressions after it. *)
Definition row : Type := string * list string.

Definition object_rows (screens_h : list string) : list row :=
  (λ line, (line, ["&(objects." +:+ line +:+ ")"])) <$>
    (read_line <$> sed_remove_all ";" (sed_remove_all "lv_obj_t *" (grep "lv_obj_t *" screens_h))).
Definition style_rows (styles_h : list string) : list row :=
  (λ line, (line, ["&get_style_" +:+ line +:+ "_MAIN_DEFAULT"])) <$>
    (read_line <$> sed_remove_cr (sed_remove_all "_MAIN_DEFAULT();"
      (sed_remove_all "lv_style_t *get_style_" (grep "lv_style_t *get_style_" styles_h)))).
Definition image_rows (images_h : list string) : list row :=
  (λ line, (line, ["&" +:+ line])) <$>
    (read_line <$> sed_remove_all ";" (sed_remove_all "extern const lv_img_dsc_t "
      (grep "extern const lv_img_dsc_t " images_h))).
Definition var_rows (vars_h : list string) : list row :=
  (λ line, (line, ["&get_var_" +:+ line; "&set_var_" +:+ line])) <$>
    (read_line <$> sed_remove_cr (sed_remove_all "();"
      (sed_remove_all "extern const char *get_var_" (grep "extern const char *get_var_" vars_h)))).

(** ** What the rows' expressions mean to the compiler *)

Definition field_name (f : field) : string :=
  match f with
  | o_boot_screen => "boot_screen"
  | o_no_network_screen => "no_network_screen"
  | o_home_screen => "home_screen"
  | o_menu_screen => "menu_screen"
  | o_menu_advanced_screen => "menu_advanced_screen"
  | o_menu_network_screen => "menu_network_screen"
  | o_about_screen => "about_screen"
  | o_status_screen => "status_screen"
  | o_reset_config_screen => "reset_config_screen"
  | o_reboot_screen => "reboot_screen"
  | o_rebooting_screen => "rebooting_screen"
  | o_switch_dhcp_client_screen => "switch_dhcp_client_screen"
  | o_boot_logo => "boot_logo"
  | o_boot_screen_version => "boot_screen_version"
  | o_no_network_header_container => "no_network_header_container"
  | o_no_network_header_logo => "no_network_header_logo"
  | o_no_network_content_container => "no_network_content_container"
  | o_no_network_title => "no_network_title"
  | o_home_info_ipv6_addr_1 => "home_info_ipv6_addr_1"
  | o_home_header_container => "home_header_container"
  | o_home_header_logo => "home_header_logo"
  | o_cloud_status_icon => "cloud_status_icon"
  | o_cloud_status_label => "cloud_status_label"
  | o_home_info_container => "home_info_container"
  | o_home_info_ipv4_addr => "home_info_ipv4_addr"
  | o_home_info_ipv6_addr => "home_info_ipv6_addr"
  | o_home_info_mac_addr => "home_info_mac_addr"
  | o_divider => "divider"
  | o_home_status_container => "home_status_container"
  | o_usb_status => "usb_status"
  | o_usb_indicator => "usb_indicator"
  | o_usb_status_label => "usb_status_label"
  | o_hdmi_status => "hdmi_status"
  | o_hdmi_indicator => "hdmi_indicator"
  | o_hdmi_status_label => "hdmi_status_label"
  | o_menu_header_container => "menu_header_container"
  | o_menu_items_container => "menu_items_container"
  | o_menu_btn_status => "menu_btn_status"
  | o_menu_btn_network => "menu_btn_network"
  | o_menu_btn_access => "menu_btn_access"
  | o_menu_btn_advanced => "menu_btn_advanced"
  | o_menu_btn_about => "menu_btn_about"
  | o_menu_header_container_1 => "menu_header_container_1"
  | o_menu_items_container_1 => "menu_items_container_1"
  | o_menu_btn_advanced_developer_mode => "menu_btn_advanced_developer_mode"
  | o_menu_btn_advanced_usb_emulation => "menu_btn_advanced_usb_emulation"
  | o_menu_btn_advanced_reboot => "menu_btn_advanced_reboot"
  | o_menu_btn_dhcp_client => "menu_btn_dhcp_client"
  | o_menu_btn_advanced_reset_config => "menu_btn_advanced_reset_config"
  | o_menu_header_container_2 => "menu_header_container_2"
  | o_menu_items_container_2 => "menu_items_container_2"
  | o_menu_btn_network_ipv4 => "menu_btn_network_ipv4"
  | o_menu_btn_network_ipv6 => "menu_btn_network_ipv6"
  | o_menu_btn_network_lldp => "menu_btn_network_lldp"
  | o_about_header_container => "about_header_container"
  | o_about_items_container => "about_items_container"
  | o_system_version_container => "system_version_container"
  | o_system_version => "system_version"
  | o_app_version_container => "app_version_container"
  | o_app_version => "app_version"
  | o_build_branch_container => "build_branch_container"
  | o_build_branch => "build_branch"
  | o_build_date_container => "build_date_container"
  | o_build_date => "build_date"
  | o_golang_version_container => "golang_version_container"
  | o_golang_version => "golang_version"
  | o_lvgl_version_container => "lvgl_version_container"
  | o_lvgl_version => "lvgl_version"
  | o_kernel_version_container => "kernel_version_container"
  | o_kernel_version => "kernel_version"
  | o_cpu_serial_container => "cpu_serial_container"
  | o_cpu_serial => "cpu_serial"
  | o_status_header_container => "status_header_container"
  | o_status_items_container => "status_items_container"
  | o_device_id_container => "device_id_container"
  | o_device_id => "device_id"
  | o_cloud_account_id_container => "cloud_account_id_container"
  | o_app_version_1 => "app_version_1"
  | o_cloud_domain_container => "cloud_domain_container"
  | o_cloud_domain => "cloud_domain"
  | o_reset_config_header => "reset_config_header"
  | o_reset_config_container => "reset_config_container"
  | o_reset_config_label_container => "reset_config_label_container"
  | o_reset_config_label => "reset_config_label"
  | o_reset_config_spinner => "reset_config_spinner"
  | o_reset_config_button => "reset_config_button"
  | o_obj0 => "obj0"
  | o_reboot_header => "reboot_header"
  | o_reboot_container => "reboot_container"
  | o_reboot_label_container => "reboot_label_container"
  | o_reboot_label => "reboot_label"
  | o_reboot_config_button => "reboot_config_button"
  | o_obj1 => "obj1"
  | o_reboot_in_progress_logo => "reboot_in_progress_logo"
  | o_reboot_in_progress_label => "reboot_in_progress_label"
  | o_dhcp_client_header => "dhcp_client_header"
  | o_dhcp_client_container => "dhcp_client_container"
  | o_dhcp_client_label_container => "dhcp_client_label_container"
  | o_dhcpc_label => "dhcpc_label"
  | o_dhcp_client_spinner => "dhcp_client_spinner"
  | o_dhcp_client_button => "dhcp_client_button"
  | o_obj2 => "obj2"
  | o_dhcp_client_change_label => "dhcp_client_change_label"
  end.
Definition style_name (st : ui_style) : string :=
  match st with
  | flex_column_space_between => "flex_column_space_between"
  | flex_center => "flex_center"
  | flex_start => "flex_start"
  | flow_row_space_between => "flow_row_space_between"
  | flow_row_start_center => "flow_row_start_center"
  | flex_column_start => "flex_column_start"
  | flex_screen => "flex_screen"
  | flex_screen_menu => "flex_screen_menu"
  | label_font16 => "label_font16"
  | label_font_bold30 => "label_font_bold30"
  | header_link => "header_link"
  | menu_button => "menu_button"
  | menu_button_label => "menu_button_label"
  | info_headline_label => "info_headline_label"
  | info_content_label => "info_content_label"
  | back_button => "back_button"
  end.
Definition var_name (v : ui_var) : string :=
  match v with
  | var_app_version => "app_version"
  | var_system_version => "system_version"
  | var_lvgl_version => "lvgl_version"
  | var_main_screen => "main_screen"
  end.
Definition all_vars : list ui_var := [var_app_version; var_system_version; var_lvgl_version; var_main_screen].

(** The images of images.h, which the program knows by their names only. *)
Definition all_images : list string :=
  ["img_logo"; "img_boot_logo_2"; "img_arrow_icon"; "img_back_caret"; "img_back_icon";
   "img_check_icon"; "img_cloud_disconnected"; "img_cloud"; "img_d2"; "img_ethernet";
   "img_hdmi"; "img_jetkvm"; "img_usb"; "img_x_icon"].

(** images.c: the same images by other names. *)
Definition images : list (string * string) :=
  [("logo", "img_logo"); ("boot-logo-2", "img_boot_logo_2"); ("arrow-icon", "img_arrow_icon");
   ("back-caret", "img_back_caret"); ("back-icon", "img_back_icon"); ("check-icon", "img_check_icon");
   ("cloud_disconnected", "img_cloud_disconnected"); ("cloud", "img_cloud"); ("d2", "img_d2");
   ("ethernet", "img_ethernet"); ("hdmi", "img_hdmi"); ("jetkvm", "img_jetkvm"); ("usb", "img_usb");
   ("x-icon", "img_x_icon")].
(** The images a widget and the widgets inside it show. *)
Fixpoint image_sources (w : widget) : list string :=
  match w with
  | W _ _ attrs children =>
      omap (λ a, match a with lv_image_set_src img => Some img | _ => None end) attrs ++
      flat_map image_sources children
  end.

(** The entities whose declarations give these expressions. *)
Definition object_exprs (f : field) : list string := ["&(objects." +:+ field_name f +:+ ")"].
Definition style_exprs (st : ui_style) : list string := ["&get_style_" +:+ style_name st +:+ "_MAIN_DEFAULT"].
Definition image_exprs (img : string) : list string := ["&" +:+ img].
Definition var_exprs (v : ui_var) : list string := ["&get_var_" +:+ var_name v; "&set_var_" +:+ var_name v].

(** A table, if every row's expressions are declared; otherwise the compiler stops. *)
Definition compile {A} (all : list A) (exprs : A → list string) (rows : list row) :
    option (list (string * A)) :=
  mapM (λ '(name, es),
    match List.find (λ a, bool_decide (exprs a = es)) all with
    | Some a => Some (name, a)
    | None => None
    end) rows.

Definition ui_objects : list (string * field) :=
  default [] (compile all_fields object_exprs (object_rows screens_h)).
Definition ui_styles : list (string * ui_style) :=
  default [] (compile all_styles style_exprs (style_rows styles_h)).
Definition ui_images : list (string * string) :=
  default [] (compile all_images image_exprs (image_rows images_h)).
Definition ui_vars : list (string * ui_var) :=
  default [] (compile all_vars var_exprs (var_rows vars_h)).

Definition by_name {A} (name : A → string) (all : list A) : list (string * A) := (λ a, (name a, a)) <$> all.

(** ** The tables *)

Lemma ui_objects_by_name :
  compile all_fields object_exprs (object_rows screens_h) = Some (by_name field_name all_fields).
Proof. by vm_compute. Qed.
Lemma ui_styles_by_name :
  compile all_styles style_exprs (style_rows styles_h) = Some (by_name style_name all_styles).
Proof. by vm_compute. Qed.
Lemma ui_images_by_name :
  compile all_images image_exprs (image_rows images_h) = Some (by_name id all_images).
Proof. by vm_compute. Qed.
Lemma ui_vars_by_name :
  compile all_vars var_exprs (var_rows vars_h) = Some (by_name var_name all_vars).
Proof. by vm_compute. Qed.

(** ** Lookups in them *)

Section by_name.
Context {A : Type} (name : A → string).

Lemma find_by_name (all : list A) a : NoDup (name <$> all) → a ∈ all → find_name (name a) (by_name name all) = Some a.
Proof.
  induction all as [|b all IH]; intros Hnd Hin; [by apply not_elem_of_nil in Hin|].
  cbn in Hnd. apply NoDup_cons in Hnd as [Hb Hnd].
  change (by_name name (b :: all)) with ((name b, b) :: by_name name all). cbn [find_name].
  destruct (streq (name b) (name a)) eqn:E.
  - apply elem_of_cons in Hin as [->|Hin]; [done|]. apply streq_true in E. destruct Hb.
    rewrite E. by apply list_elem_of_fmap_2.
  - apply elem_of_cons in Hin as [->|Hin]; [by rewrite streq_refl in E|]. by apply IH.
Qed.
Lemma find_by_name_none (all : list A) n :
  (∀ a, a ∈ all → name a ≠ n) → find_name n (by_name name all) = None.
Proof.
  intros H. induction all as [|b all IH]; [done|].
  change (by_name name (b :: all)) with ((name b, b) :: by_name name all). cbn [find_name].
  rewrite (proj2 (streq_false _ _)); [|apply H; by left]. apply IH. intros a Ha. apply H. by right.
Qed.
Lemma by_name_elem (all : list A) n a : (n, a) ∈ by_name name all → n = name a.
Proof. intros (b & [= -> ->] & _)%list_elem_of_fmap. done. Qed.
End by_name.

Lemma ui_objects_eq : ui_objects = by_name field_name all_fields.
Proof. unfold ui_objects. by rewrite ui_objects_by_name. Qed.
Lemma field_names_distinct : NoDup (field_name <$> all_fields).
Proof. apply (bool_decide_unpack _). by vm_compute. Qed.
Lemma all_fields_all f : f ∈ all_fields.
Proof. apply (bool_decide_unpack _). destruct f; by vm_compute. Qed.
Lemma find_field f : find_name (field_name f) ui_objects = Some f.
Proof. rewrite ui_objects_eq. apply find_by_name; [apply field_names_distinct|apply all_fields_all]. Qed.
Lemma find_no_field n : (∀ f, field_name f ≠ n) → find_name n ui_objects = None.
Proof. rewrite ui_objects_eq. intros H. by apply find_by_name_none. Qed.
Lemma style_names_distinct : NoDup (style_name <$> all_styles).
Proof. apply (bool_decide_unpack _). by vm_compute. Qed.
Lemma find_style st : find_name (style_name st) ui_styles = Some st.
Proof.
  unfold ui_styles. rewrite ui_styles_by_name. apply find_by_name; [apply style_names_distinct|].
  apply (bool_decide_unpack _). destruct st; by vm_compute.
Qed.
Lemma find_var v : find_name (var_name v) ui_vars = Some v.
Proof. unfold ui_vars. rewrite ui_vars_by_name. by destruct v. Qed.
Lemma find_image img : img ∈ all_images → find_name img ui_images = Some img.
Proof.
  unfold ui_images. rewrite ui_images_by_name. intros H. change img with (id img) at 1.
  apply find_by_name; [|done]. apply (bool_decide_unpack _). by vm_compute.
Qed.

Lemma sources_declared : Forall (λ w, Forall (λ n, n ∈ all_images) (image_sources w)) screen_widgets.
Proof. apply (bool_decide_unpack _). by vm_compute. Qed.

Section lookups.
Context {L : Type} `{!Lvgl L}.
Implicit Type s : ust L.

Lemma get_field f s : ui_get_obj ui_objects (field_name f) s = Some (objects s f, s).
Proof. unfold ui_get_obj. by rewrite find_field. Qed.
Lemma get_no_field n s : (∀ f, field_name f ≠ n) → ui_get_obj ui_objects n s = Some (NULL, s).
Proof. intros Hn. unfold ui_get_obj. by rewrite find_no_field. Qed.
Lemma on_no_field n a s : (∀ f, field_name f ≠ n) → on_object ui_objects n a s = Some (tt, s).
Proof. intros Hn. unfold on_object, mbind, ui_mbind. by rewrite get_no_field. Qed.
End lookups.

(** C26: The generated tables are the headers' declarations. What the script picks out
    of the four headers compiles, and the tables it makes list, each once and in the order
    of the headers, every field of [objects_t], every style, image and
    variable under its own name and nothing else; the images are those of images.c, and all
    that the screens show are among them. So names reach what they name: an object's
    name gives the pointer in the field of that name, any other name NULL, a
    style's name the style, and a screen that was loaded by its name is reported
    by that name. *)
Theorem index_lists_declarations {L} `{!Lvgl L, !LvglLaws L} :
  (compile all_fields object_exprs (object_rows screens_h) = Some ui_objects ∧
   compile all_styles style_exprs (style_rows styles_h) = Some ui_styles ∧
   compile all_images image_exprs (image_rows images_h) = Some ui_images ∧
   compile all_vars var_exprs (var_rows vars_h) = Some ui_vars) ∧
  (ui_objects = by_name field_name all_fields ∧ ui_styles = by_name style_name all_styles ∧
   ui_images = by_name id all_images ∧ ui_vars = by_name var_name all_vars) ∧
  ((∀ st, find_name (style_name st) ui_styles = Some st) ∧
   (∀ v, find_name (var_name v) ui_vars = Some v) ∧
   (∀ img, img ∈ all_images → ui_get_image ui_images img = Some img)) ∧
  (images.*2 = ui_images.*2 ∧
   ∀ w img, w ∈ screen_widgets → img ∈ image_sources w → ui_get_image ui_images img = Some img) ∧
  (∀ f (s : ust L), ui_get_obj ui_objects (field_name f) s = Some (objects s f, s)) ∧
  (∀ n (s : ust L), (∀ f, field_name f ≠ n) → ui_get_obj ui_objects n s = Some (NULL, s)) ∧
  ∀ f (s : ust L), ui_wf s → (field_kind f).2 = true → ∃ s',
    (jetkvm_ui_load_screen ui_objects (field_name f);; jetkvm_ui_get_current_screen ui_objects) s
      = Some (Some (field_name f), s') ∧ ui_wf s' ∧ lv_scr_act (u_lv s') = objects s f.
Proof.
  split_and!; try (by unfold ui_objects, ui_styles, ui_images, ui_vars;
    rewrite ?ui_objects_by_name, ?ui_styles_by_name, ?ui_images_by_name, ?ui_vars_by_name).
  - exact find_style.
  - exact find_var.
  - exact find_image.
  - intros w img Hw Hi. apply find_image.
    pose proof (proj1 (Forall_forall _ _) sources_declared w Hw) as Hall.
    by apply (proj1 (Forall_forall _ _) Hall).
  - intros f s. apply get_field.
  - intros n s. apply get_no_field.
  - intros f s Hwf Hsc.
    destruct (load_get_current_screen ui_objects (field_name f) f s Hwf (find_field f) Hsc)
      as (s' & E & Hwf' & Ha & _); [|eauto].
    intros n'. rewrite ui_objects_eq. apply by_name_elem.
Qed.

Lemma index_lists_declarations_witness :
  ∃ s', (jetkvm_ui_load_screen ui_objects "about_screen";; jetkvm_ui_get_current_screen ui_objects) ui_started
    = Some (Some "about_screen", s') ∧ ui_wf s'.
Proof.
  destruct (index_lists_declarations (L := store)) as (_ & _ & _ & _ & _ & _ & H).
  destruct (H o_about_screen ui_started) as (s' & E & Hwf & _); [apply ui_started_wf|by vm_compute|].
  exact (ex_intro _ s' (conj E Hwf)).
Defined.

(** C27: Names the Go program uses that are in no table. Blinking the cloud icon
    fades "ui_Home_Header_Cloud_Status_Icon" in and out, and showing or hiding the IPv6
    address also shows or hides "home_info_ipv6_addr_container": no field has these
    names, so the calls do nothing, whatever the state, and changing a flag
    reports that there is no such object. The images it sets by the names "cloud" and
    "cloud_disconnected" are not in the table either, where they have the prefix
    "img_". *)
Theorem go_names_unknown {L} `{!Lvgl L} (s : ust L) (duration : Z) (flag : string) :
  jetkvm_ui_fade_out ui_objects "ui_Home_Header_Cloud_Status_Icon" duration s = Some (tt, s) ∧
  jetkvm_ui_fade_in ui_objects "ui_Home_Header_Cloud_Status_Icon" duration s = Some (tt, s) ∧
  jetkvm_ui_add_flag ui_objects "home_info_ipv6_addr_container" flag s = Some (-1, s) ∧
  jetkvm_ui_clear_flag ui_objects "home_info_ipv6_addr_container" flag s = Some (-1, s) ∧
  (∀ img, img ∈ ["cloud"; "cloud_disconnected"] →
     ui_get_image ui_images img = None ∧ ui_get_image ui_images ("img_" +:+ img) = Some ("img_" +:+ img)).
Proof.
  assert (Hicon : ∀ f, field_name f ≠ "ui_Home_Header_Cloud_Status_Icon") by (by intros []).
  assert (Hbox : ∀ f, field_name f ≠ "home_info_ipv6_addr_container") by (by intros []).
  assert (Hflag : ∀ mk, change_flag ui_objects "home_info_ipv6_addr_container" flag mk s = Some (-1, s)).
  { intros mk. unfold change_flag, mbind, ui_mbind. by rewrite get_no_field. }
  split_and!; [by apply on_no_field|by apply on_no_field|apply Hflag|apply Hflag|].
  intros img Hi. unfold ui_get_image, ui_images. rewrite ui_images_by_name.
  rewrite !elem_of_cons in Hi. by destruct Hi as [->|[->|[]%not_elem_of_nil]].
Qed.
