(* ===== verification/FontFormat.v ===== *)
(** * The fonts' data types, and what makes a font usable

    src/internal/native/eez/src/ui/fonts/*.c are tables in LVGL's text format: the
    bitmaps of the glyphs one after the other, a description of each glyph, the map
    from characters to glyphs and the kerning by classes. This file has the records;
    [FontBold30], [FontBook16], [FontBook18], [FontBook20] and [FontBook24] have the
    tables and [Fonts] the theorem. The functions that read the tables are LVGL's and
    are known by the documented meaning of the format ([FontEngine]). *)
From S2P Require Import Prelude.

(** ** The records *)

Record lv_font_fmt_txt_glyph_dsc_t := GlyphDsc {
  bitmap_index : Z;     (* of the glyph's first byte in the bitmap *)
  adv_w : Z;            (* the pen's advance, in 1/16 pixel *)
  box_w : Z; box_h : Z;
  ofs_x : Z; ofs_y : Z  (* of the box from the pen on the base line *)
}.

(** The one kind of character map the fonts use. *)
Inductive lv_font_fmt_txt_cmap_type_t := LV_FONT_FMT_TXT_CMAP_FORMAT0_TINY.
Record lv_font_fmt_txt_cmap_t := Cmap {
  range_start : Z; range_length : Z; glyph_id_start : Z;
  unicode_list : option (list Z); glyph_id_ofs_list : option (list Z); list_length : Z;
  cmap_type : lv_font_fmt_txt_cmap_type_t
}.
Record lv_font_fmt_txt_kern_classes_t := KernClasses {
  class_pair_values : list Z;
  left_class_mapping : list Z; right_class_mapping : list Z;
  left_class_cnt : Z; right_class_cnt : Z
}.
Record lv_font_fmt_txt_dsc_t := FontDsc {
  glyph_bitmap : list Z; glyph_dsc : list lv_font_fmt_txt_glyph_dsc_t;
  cmaps : list lv_font_fmt_txt_cmap_t; kern_dsc : lv_font_fmt_txt_kern_classes_t;
  kern_scale : Z; cmap_num : Z; bpp : Z; kern_classes : Z; bitmap_format : Z
}.
(** The functions LVGL is to read the font with, by their names, and its pointers. *)
Inductive lv_font_subpx_t := LV_FONT_SUBPX_NONE.
Record lv_font_t := Font {
  get_glyph_dsc : string; get_glyph_bitmap : string;
  line_height : Z; base_line : Z; subpx : lv_font_subpx_t;
  underline_position : Z; underline_thickness : Z;
  dsc : lv_font_fmt_txt_dsc_t;
  fallback : option string; user_data : option string     (* [None] is [NULL] *)
}.

(** A file of fonts/: the blocks of its bitmap, one per character from U+0020 on,
    and the font it declares. *)
Record font_file := FontFile { ff_name : string; ff_blocks : list (list Z); ff_font : lv_font_t }.

(** ** The tables' readers *)

(** LVGL's functions from a character to its glyph and from two glyphs to their
    kerning, as far as the formats of these fonts are documented. *)
Class FontEngine := {
  get_glyph_id : lv_font_fmt_txt_dsc_t → Z → Z;
  get_kern_value : lv_font_fmt_txt_dsc_t → Z → Z → Z
}.
Class FontEngineLaws `{!FontEngine} : Prop := {
  glyph_id_tiny d cm c :
    cmaps d = [cm] → cmap_type cm = LV_FONT_FMT_TXT_CMAP_FORMAT0_TINY →
    range_start cm <= c < range_start cm + range_length cm →
    get_glyph_id d c = glyph_id_start cm + (c - range_start cm);
  kern_by_classes d l r cl cr :
    kern_classes d = 1 → kern_scale d = 16 →     (* the scale has 4 binary places *)
    load (left_class_mapping (kern_dsc d)) l = Some cl →
    load (right_class_mapping (kern_dsc d)) r = Some cr →
    (cl = 0 ∨ cr = 0 → get_kern_value d l r = 0) ∧
    (0 < cl → 0 < cr → ∀ v,
       load (class_pair_values (kern_dsc d)) ((cl - 1) * right_class_cnt (kern_dsc d) + (cr - 1)) = Some v →
       get_kern_value d l r = v)
}.

(** The bytes of a glyph's box, and a pixel of them: at 4 bits per pixel a byte has
    two, the upper half first, and the rows follow each other without a gap. *)
Definition glyph_size (b : Z) (g : lv_font_fmt_txt_glyph_dsc_t) : Z := (box_w g * box_h g * b + 7) / 8.
Definition pixel (bytes : list Z) (i : nat) : Z :=
  match bytes !! (i / 2)%nat with
  | Some b => if Nat.even i then Z.shiftr b 4 else Z.land b 15
  | None => 0
  end.

(** ** What a character needs of a font *)

(** The glyph [id] can be drawn from the font: its bytes are [block]; its box lies between
    the top and the bottom of the line. *)
Record drawn (f : lv_font_t) (block : list Z) (g : lv_font_fmt_txt_glyph_dsc_t) : Prop := {
  drawn_start : 0 <= bitmap_index g;
  drawn_bytes : take (Z.to_nat (glyph_size (bpp (dsc f)) g))
                  (drop (Z.to_nat (bitmap_index g)) (glyph_bitmap (dsc f))) = block;
  drawn_size : Z.of_nat (length block) = glyph_size (bpp (dsc f)) g;
  drawn_byte : Forall in_u8 block;
  drawn_above : - base_line f <= ofs_y g;
  drawn_below : ofs_y g + box_h g <= line_height f - base_line f
}.
(** Something is seen of it: a pixel of its box is not blank. *)
Definition inked (block : list Z) (g : lv_font_fmt_txt_glyph_dsc_t) : Prop :=
  ∃ i, Z.of_nat i < box_w g * box_h g ∧ pixel block i ≠ 0.

(** Both glyphs have a class, and the pair of classes a value. *)
Definition kern_index (d : lv_font_fmt_txt_dsc_t) (cl cr : Z) : Z :=
  (cl - 1) * right_class_cnt (kern_dsc d) + (cr - 1).
Definition kern_found (d : lv_font_fmt_txt_dsc_t) (l r : Z) : Prop :=
  ∃ cl cr, load (left_class_mapping (kern_dsc d)) l = Some cl ∧
    load (right_class_mapping (kern_dsc d)) r = Some cr ∧
    (0 < cl → 0 < cr → is_Some (load (class_pair_values (kern_dsc d)) (kern_index d cl cr))).

(** ** Checking a font *)

(** The blocks lie one after the other and have the sizes of the boxes. *)
Fixpoint tiles (b pos : Z) (gs : list lv_font_fmt_txt_glyph_dsc_t) (bs : list (list Z)) : bool :=
  match gs, bs with
  | [], [] => true
  | g :: gs', block :: bs' =>
      (bitmap_index g =? pos) && (Z.of_nat (length block) =? glyph_size b g)
      && tiles b (pos + Z.of_nat (length block)) gs' bs'
  | _, _ => false
  end.
Definition byteb (z : Z) : bool := (0 <=? z) && (z <? 256).
Definition glyph_check (f : lv_font_t) (min_kern : Z) (g : lv_font_fmt_txt_glyph_dsc_t) : bool :=
  (- base_line f <=? ofs_y g) && (ofs_y g + box_h g <=? line_height f - base_line f)
  && (0 <? adv_w g + Z.min 0 min_kern).
Definition ink_check (block : list Z) (g : lv_font_fmt_txt_glyph_dsc_t) : bool :=
  existsb (λ i, negb (pixel block i =? 0)) (seq 0 (Z.to_nat (box_w g * box_h g))).
Definition class_check (cnt : Z) (l : list Z) : bool :=
  (Z.of_nat (length l) =? 96) && forallb (λ c, (0 <=? c) && (c <=? cnt)) l.
Definition font_check (f : lv_font_t) (blocks : list (list Z)) : bool :=
  let d := dsc f in let k := kern_dsc d in
  match glyph_dsc d, blocks with
  | _ :: space :: gs, bspace :: bs =>
      let min_kern := foldr Z.min 0 (class_pair_values k) in
      (Z.of_nat (length blocks) =? 95) && (bpp d =? 4)
      && tiles (bpp d) 0 (space :: gs) blocks
      && forallb (forallb byteb) blocks
      && forallb (glyph_check f min_kern) (space :: gs)
      && forallb (λ '(g, b), ink_check b g) (zip gs bs)
      && class_check (left_class_cnt k) (left_class_mapping k)
      && class_check (right_class_cnt k) (right_class_mapping k)
      && (Z.of_nat (length (class_pair_values k)) =? left_class_cnt k * right_class_cnt k)
  | _, _ => false
  end.

(** ** The check is sound *)

Section sound.
Implicit Types (f : lv_font_t) (g : lv_font_fmt_txt_glyph_dsc_t).

(** A block is found where its glyph says. *)
Lemma tiles_lookup b gs bs pre i g :
  tiles b (Z.of_nat (length pre)) gs bs = true → gs !! i = Some g →
  ∃ block, bs !! i = Some block ∧ Z.of_nat (length block) = glyph_size b g ∧
    0 <= bitmap_index g ∧
    take (length block) (drop (Z.to_nat (bitmap_index g)) (pre ++ concat bs)) = block.
Proof.
  revert bs pre i. induction gs as [|g' gs IH]; intros [|block bs] pre i; try done.
  cbn [tiles]. intros Ht Hi. bool_prop. destruct i as [|i]; simpl in *.
  - simplify_eq. exists block. split_and!; try done; [lia|].
    replace (Z.to_nat (bitmap_index g)) with (length pre) by lia.
    by rewrite drop_app_length, take_app_length.
  - destruct (IH bs (pre ++ block) i) as (block' & ? & ? & ? & Hd); [|done|].
    { by rewrite length_app, Nat2Z.inj_add. }
    exists block'. rewrite <- app_assoc in Hd. done.
Qed.

Lemma tiles_length b pos gs bs : tiles b pos gs bs = true → length gs = length bs.
Proof.
  revert pos bs. induction gs as [|g gs IH]; intros pos [|block bs]; try done.
  cbn [tiles]. intros [_ H]%andb_prop. simpl. f_equal. by eapply IH.
Qed.

Lemma ink_check_sound block g : ink_check block g = true → inked block g.
Proof.
  intros (i & Hi & Hp)%existsb_exists. apply in_seq in Hi. exists i. split; [lia|].
  by apply negb_true_iff, Z.eqb_neq in Hp.
Qed.
Lemma bytes_sound l : forallb byteb l = true → Forall in_u8 l.
Proof.
  rewrite forallb_forall, Forall_forall. intros H x Hx. apply list_elem_of_In, H in Hx.
  unfold byteb in Hx. unfold in_u8. lia.
Qed.
Lemma class_check_load cnt l i : class_check cnt l = true → 0 <= i < 96 →
  ∃ c, load l i = Some c ∧ 0 <= c <= cnt.
Proof.
  unfold class_check. intros [Hlen Hall]%andb_prop Hi. unfold load. rewrite decide_True by lia.
  destruct (lookup_lt_is_Some_2 l (Z.to_nat i)) as (c & Hc); [lia|]. exists c. split; [done|].
  rewrite forallb_forall in Hall. assert (Hin : In c l) by (by eapply list_elem_of_In, list_elem_of_lookup_2).
  specialize (Hall c Hin). lia.
Qed.
Lemma min_le l v : v ∈ l → foldr Z.min 0 l <= v.
Proof.
  induction 1 as [? ?|? ? ? ? IH]; cbn [foldr]; [apply Z.le_min_l|].
  etrans; [apply Z.le_min_r|done].
Qed.
Lemma min_nonpos l : foldr Z.min 0 l <= 0.
Proof. induction l; cbn [foldr]; lia. Qed.

Context `{!FontEngine, !FontEngineLaws}.

(** The lookups of kerning are in the tables, and it never takes more than the smallest
    value of them. *)
Lemma kern_bound d l r :
  kern_classes d = 1 → kern_scale d = 16 →
  class_check (left_class_cnt (kern_dsc d)) (left_class_mapping (kern_dsc d)) = true →
  class_check (right_class_cnt (kern_dsc d)) (right_class_mapping (kern_dsc d)) = true →
  Z.of_nat (length (class_pair_values (kern_dsc d)))
    = left_class_cnt (kern_dsc d) * right_class_cnt (kern_dsc d) →
  0 <= l < 96 → 0 <= r < 96 →
  kern_found d l r ∧ foldr Z.min 0 (class_pair_values (kern_dsc d)) <= get_kern_value d l r.
Proof.
  intros Hk Hsc Hl Hr Hlen Hli Hri.
  destruct (class_check_load _ _ l Hl) as (cl & El & Bl); [done|].
  destruct (class_check_load _ _ r Hr) as (cr & Er & Br); [done|].
  assert (Hv : 0 < cl → 0 < cr →
    is_Some (load (class_pair_values (kern_dsc d)) (kern_index d cl cr))).
  { intros. unfold load, kern_index. rewrite decide_True by nia. apply lookup_lt_is_Some_2. nia. }
  split; [by exists cl, cr|].
  destruct (kern_by_classes d l r cl cr Hk Hsc El Er) as [Hnone Hsome].
  destruct (decide (cl = 0 ∨ cr = 0)) as [Hz|Hz]; [rewrite Hnone by done; apply min_nonpos|].
  destruct (Hv ltac:(lia) ltac:(lia)) as (v & Ev).
  rewrite (Hsome ltac:(lia) ltac:(lia) v Ev). apply min_le.
  unfold load in Ev. case_decide; [|done]. by eapply list_elem_of_lookup_2.
Qed.
End sound.
