(* ===== verification/FontBold30.v ===== *)
(** * The tables of fonts/ui_font_font_bold30.c

    The bitmap is written by the blocks of its characters, from U+0020 to U+007E. *)
From S2P Require Import Prelude FontFormat.

(** ** Bitmaps *)

Definition glyph_bitmap_0020 : list (list Z) := [
  (* U+0020 *)
    [];
  (* U+0021 *)
    [0x6f; 0xff; 0xf5; 0x5f; 0xff; 0xf4; 0x4f; 0xff;
     0xf3; 0x3f; 0xff; 0xf2; 0x2f; 0xff; 0xf1; 0xf;
     0xff; 0xf0; 0xf; 0xff; 0xf0; 0xe; 0xff; 0xe0;
     0xd; 0xff; 0xd0; 0xc; 0xff; 0xc0; 0xb; 0xff;
     0xb0; 0xa; 0xff; 0xa0; 0x9; 0xff; 0x90; 0x8;
     0xff; 0x80; 0x4; 0x99; 0x40; 0x0; 0x0; 0x0;
     0x2; 0x99; 0x20; 0x1e; 0xff; 0xe1; 0x4f; 0xff;
     0xf5; 0x2f; 0xff; 0xf2; 0x6; 0xee; 0x60];
  (* U+0022 *)
    [0x4; 0x61; 0x0; 0x15; 0x40; 0x8; 0xff; 0xe1;
     0x1e; 0xff; 0x90; 0xef; 0xff; 0x66; 0xff; 0xff;
     0xd; 0xff; 0xf6; 0x5f; 0xff; 0xe0; 0x9f; 0xff;
     0x21; 0xff; 0xfa; 0x5; 0xff; 0xd0; 0xd; 0xff;
     0x60; 0x1f; 0xf9; 0x0; 0x8f; 0xf2; 0x0; 0xdf;
     0x50; 0x4; 0xfe; 0x0; 0x9; 0xf1; 0x0; 0xf;
     0xa0; 0x0];
  (* U+0023 *)
    [0x0; 0x0; 0x0; 0x1f; 0xff; 0x10; 0x0; 0xff;
     0xf1; 0x0; 0x0; 0x0; 0x0; 0x5; 0xff; 0xc0;
     0x0; 0x4f; 0xfd; 0x0; 0x0; 0x0; 0x0; 0x0;
     0x9f; 0xf8; 0x0; 0x8; 0xff; 0x90; 0x0; 0x0;
     0x0; 0x0; 0xd; 0xff; 0x40; 0x0; 0xcf; 0xf5;
     0x0; 0x0; 0x4; 0xff; 0xff; 0xff; 0xff; 0xff;
     0xff; 0xff; 0xff; 0xff; 0x0; 0x4f; 0xff; 0xff;
     0xff; 0xff; 0xff; 0xff; 0xff; 0xff; 0xf0; 0x3;
     0xdd; 0xde; 0xff; 0xed; 0xdd; 0xef; 0xff; 0xdd;
     0xdd; 0x0; 0x0; 0x0; 0xbf; 0xf6; 0x0; 0xa;
     0xff; 0x70; 0x0; 0x0; 0x0; 0x0; 0xe; 0xff;
     0x30; 0x0; 0xdf; 0xf4; 0x0; 0x0; 0x0; 0x0;
     0x2; 0xff; 0xf0; 0x0; 0xf; 0xff; 0x10; 0x0;
     0x0; 0x0; 0x0; 0x5f; 0xfc; 0x0; 0x4; 0xff;
     0xd0; 0x0; 0x0; 0x9; 0xdd; 0xde; 0xff; 0xfd;
     0xdd; 0xef; 0xff; 0xdd; 0xd6; 0x0; 0xcf; 0xff;
     0xff; 0xff; 0xff; 0xff; 0xff; 0xff; 0xff; 0x80;
     0xc; 0xff; 0xff; 0xff; 0xff; 0xff; 0xff; 0xff;
     0xff; 0xf8; 0x0; 0x0; 0x3; 0xff; 0xf0; 0x0;
     0x2f; 0xff; 0x0; 0x0; 0x0; 0x0; 0x0; 0x6f;
     0xfb; 0x0; 0x5; 0xff; 0xc0; 0x0; 0x0; 0x0;
     0x0; 0x9; 0xff; 0x80; 0x0; 0x8f; 0xf9; 0x0;
     0x0; 0x0; 0x0; 0x0; 0xdf; 0xf5; 0x0; 0xb;
     0xff; 0x50; 0x0; 0x0; 0x0; 0x0; 0xf; 0xff;
     0x10; 0x0; 0xff; 0xf2; 0x0; 0x0; 0x0; 0x0];
  (* U+0024 *)
    [0x0; 0x0; 0x0; 0x4f; 0xfc; 0x0; 0x0; 0x0;
     0x0; 0x0; 0x0; 0x4f; 0xfc; 0x0; 0x0; 0x0;
     0x0; 0x0; 0x0; 0x4f; 0xfc; 0x0; 0x0; 0x0;
     0x0; 0x0; 0x28; 0xcf; 0xff; 0x93; 0x0; 0x0;
     0x0; 0x8; 0xff; 0xff; 0xff; 0xff; 0xa0; 0x0;
     0x0; 0x9f; 0xff; 0xff; 0xff; 0xff; 0xfc; 0x0;
     0x4; 0xff; 0xff; 0xd9; 0x8c; 0xff; 0xff; 0x80;
     0xb; 0xff; 0xfa; 0x0; 0x0; 0x7f; 0xff; 0xe0;
     0xe; 0xff; 0xf2; 0x0; 0x0; 0xc; 0xfa; 0x60;
     0xe; 0xff; 0xf4; 0x0; 0x0; 0x1; 0x0; 0x0;
     0xb; 0xff; 0xff; 0x72; 0x0; 0x0; 0x0; 0x0;
     0x5; 0xff; 0xff; 0xff; 0xeb; 0x72; 0x0; 0x0;
     0x0; 0x9f; 0xff; 0xff; 0xff; 0xff; 0xa1; 0x0;
     0x0; 0x5; 0xef; 0xff; 0xff; 0xff; 0xfd; 0x10;
     0x0; 0x0; 0x4; 0xad; 0xff; 0xff; 0xff; 0xb0;
     0x0; 0x0; 0x0; 0x0; 0x4; 0xcf; 0xff; 0xf2;
     0x37; 0xbf; 0x30; 0x0; 0x0; 0xd; 0xff; 0xf5;
     0x8f; 0xff; 0x90; 0x0; 0x0; 0xb; 0xff; 0xf5;
     0x3f; 0xff; 0xf6; 0x0; 0x0; 0x3f; 0xff; 0xf2;
     0xb; 0xff; 0xff; 0xd9; 0x9b; 0xff; 0xff; 0xc0;
     0x1; 0xdf; 0xff; 0xff; 0xff; 0xff; 0xff; 0x20;
     0x0; 0x1a; 0xff; 0xff; 0xff; 0xff; 0xd2; 0x0;
     0x0; 0x0; 0x38; 0xdf; 0xff; 0xa5; 0x0; 0x0;
     0x0; 0x0; 0x0; 0x4f; 0xfc; 0x0; 0x0; 0x0;
     0x0; 0x0; 0x0; 0x4f; 0xfc; 0x0; 0x0; 0x0;
     0x0; 0x0; 0x0; 0x4f; 0xfc; 0x0; 0x0; 0x0];
  (* U+0025 *)
    [0x0; 0x17; 0xbc; 0xa4; 0x0; 0x0; 0x0; 0x0;
     0x17; 0x77; 0x20; 0x0; 0x2; 0xef; 0xff; 0xff;
     0xa0; 0x0; 0x0; 0x0; 0xbf; 0xfc; 0x0; 0x0;
     0xe; 0xff; 0xff; 0xff; 0xf8; 0x0; 0x0; 0x6;
     0xff; 0xf2; 0x0; 0x0; 0x6f; 0xfd; 0x30; 0x7f;
     0xff; 0x0; 0x0; 0x2f; 0xff; 0x60; 0x0; 0x0;
     0xaf; 0xf6; 0x0; 0xc; 0xff; 0x40; 0x0; 0xcf;
     0xfa; 0x0; 0x0; 0x0; 0xaf; 0xf6; 0x0; 0xd;
     0xff; 0x40; 0x8; 0xff; 0xe1; 0x0; 0x0; 0x0;
     0x6f; 0xfd; 0x30; 0x7f; 0xff; 0x0; 0x3f; 0xff;
     0x40; 0x0; 0x0; 0x0; 0xe; 0xff; 0xff; 0xff;
     0xf8; 0x0; 0xdf; 0xf8; 0x0; 0x0; 0x0; 0x0;
     0x2; 0xef; 0xff; 0xff; 0x90; 0xa; 0xff; 0xd0;
     0x0; 0x0; 0x0; 0x0; 0x0; 0x6; 0xab; 0x93;
     0x0; 0x5f; 0xff; 0x20; 0x0; 0x0; 0x0; 0x0;
     0x0; 0x0; 0x0; 0x0; 0x1; 0xef; 0xf6; 0x0;
     0x6b; 0xca; 0x50; 0x0; 0x0; 0x0; 0x0; 0x0;
     0xb; 0xff; 0xb0; 0x1d; 0xff; 0xff; 0xfb; 0x0;
     0x0; 0x0; 0x0; 0x0; 0x7f; 0xfe; 0x10; 0xcf;
     0xff; 0xff; 0xff; 0x90; 0x0; 0x0; 0x0; 0x2;
     0xff; 0xf5; 0x4; 0xff; 0xf4; 0x6; 0xff; 0xf1;
     0x0; 0x0; 0x0; 0xd; 0xff; 0x90; 0x8; 0xff;
     0x80; 0x0; 0xbf; 0xf5; 0x0; 0x0; 0x0; 0x9f;
     0xfd; 0x0; 0x8; 0xff; 0x80; 0x0; 0xaf; 0xf6;
     0x0; 0x0; 0x4; 0xff; 0xf3; 0x0; 0x5; 0xff;
     0xd1; 0x2; 0xff; 0xf3; 0x0; 0x0; 0x1e; 0xff;
     0x70; 0x0; 0x0; 0xef; 0xff; 0xcf; 0xff; 0xc0;
     0x0; 0x0; 0xaf; 0xfc; 0x0; 0x0; 0x0; 0x3e;
     0xff; 0xff; 0xfd; 0x10; 0x0; 0x6; 0xff; 0xf2;
     0x0; 0x0; 0x0; 0x1; 0x9e; 0xfd; 0x70; 0x0];
  (* U+0026 *)
    [0x0; 0x1; 0x8c; 0xff; 0xd8; 0x20; 0x0; 0x0;
     0x0; 0x0; 0x0; 0x3e; 0xff; 0xff; 0xff; 0xf5;
     0x0; 0x0; 0x0; 0x0; 0x1; 0xff; 0xff; 0xff;
     0xff; 0xff; 0x20; 0x0; 0x0; 0x0; 0x8; 0xff;
     0xfc; 0x55; 0xcf; 0xff; 0x90; 0x0; 0x0; 0x0;
     0xc; 0xff; 0xf1; 0x0; 0x1f; 0xff; 0xd0; 0x0;
     0x0; 0x0; 0xd; 0xff; 0xf0; 0x0; 0xe; 0xff;
     0xd0; 0x0; 0x0; 0x0; 0xa; 0xff; 0xf6; 0x0;
     0x6f; 0xff; 0x90; 0x0; 0x0; 0x0; 0x3; 0xff;
     0xff; 0x58; 0xff; 0xff; 0x20; 0x0; 0x0; 0x0;
     0x0; 0x8f; 0xff; 0xff; 0xff; 0xf5; 0x0; 0x0;
     0x5; 0x0; 0x0; 0xa; 0xff; 0xff; 0xfe; 0x40;
     0x0; 0x0; 0xab; 0x0; 0x0; 0x1c; 0xff; 0xff;
     0xf6; 0x0; 0x0; 0xa; 0xfb; 0x0; 0x2; 0xef;
     0xff; 0xff; 0xff; 0x50; 0x0; 0xaf; 0xfb; 0x0;
     0x1e; 0xff; 0xfc; 0xbf; 0xff; 0xf6; 0xb; 0xff;
     0xfa; 0x0; 0x8f; 0xff; 0xa0; 0xa; 0xff; 0xff;
     0xdf; 0xff; 0xe2; 0x0; 0xdf; 0xff; 0x10; 0x0;
     0xaf; 0xff; 0xff; 0xfd; 0x10; 0x0; 0xff; 0xff;
     0x0; 0x0; 0xa; 0xff; 0xff; 0xe1; 0x0; 0x0;
     0xef; 0xff; 0x60; 0x0; 0x2c; 0xff; 0xff; 0xf6;
     0x0; 0x0; 0x9f; 0xff; 0xfa; 0x79; 0xff; 0xff;
     0xff; 0xff; 0x50; 0x0; 0x1e; 0xff; 0xff; 0xff;
     0xff; 0xff; 0xef; 0xff; 0xf4; 0x0; 0x2; 0xdf;
     0xff; 0xff; 0xff; 0xe4; 0x2e; 0xff; 0xff; 0x30;
     0x0; 0x6; 0xbe; 0xfe; 0xc7; 0x0; 0x3; 0xff;
     0xff; 0xe2];
  (* U+0027 *)
    [0x4; 0x61; 0x8; 0xff; 0xe1; 0xef; 0xff; 0x6d;
     0xff; 0xf6; 0x9f; 0xff; 0x25; 0xff; 0xd0; 0x1f;
     0xf9; 0x0; 0xdf; 0x50; 0x9; 0xf1; 0x0]].
Definition glyph_bitmap_0028 : list (list Z) := [
  (* U+0028 *)
    [0x0; 0x0; 0x0; 0x0; 0x0; 0x0; 0x0; 0x2e;
     0x60; 0x0; 0x0; 0x1d; 0xff; 0x70; 0x0; 0xc;
     0xff; 0xf6; 0x0; 0x8; 0xff; 0xf8; 0x0; 0x2;
     0xff; 0xfb; 0x0; 0x0; 0xaf; 0xff; 0x20; 0x0;
     0x2f; 0xff; 0x80; 0x0; 0x8; 0xff; 0xf1; 0x0;
     0x0; 0xdf; 0xfa; 0x0; 0x0; 0x2f; 0xff; 0x50;
     0x0; 0x5; 0xff; 0xf1; 0x0; 0x0; 0x7f; 0xfe;
     0x0; 0x0; 0x9; 0xff; 0xc0; 0x0; 0x0; 0xaf;
     0xfb; 0x0; 0x0; 0xb; 0xff; 0xa0; 0x0; 0x0;
     0xaf; 0xfb; 0x0; 0x0; 0x9; 0xff; 0xc0; 0x0;
     0x0; 0x7f; 0xfe; 0x0; 0x0; 0x5; 0xff; 0xf1;
     0x0; 0x0; 0x1f; 0xff; 0x50; 0x0; 0x0; 0xdf;
     0xfa; 0x0; 0x0; 0x8; 0xff; 0xf1; 0x0; 0x0;
     0x2f; 0xff; 0xa0; 0x0; 0x0; 0xaf; 0xff; 0x30;
     0x0; 0x2; 0xff; 0xfc; 0x0; 0x0; 0x8; 0xff;
     0xf9; 0x0; 0x0; 0xc; 0xff; 0xf6; 0x0; 0x0;
     0x1d; 0xff; 0x70; 0x0; 0x0; 0x1e; 0x60; 0x0;
     0x0; 0x0; 0x0; 0x0];
  (* U+0029 *)
    [0x0; 0x0; 0x0; 0x0; 0x0; 0x7d; 0x10; 0x0;
     0x0; 0x9f; 0xfc; 0x0; 0x0; 0x7; 0xff; 0xfb;
     0x0; 0x0; 0xa; 0xff; 0xf6; 0x0; 0x0; 0xd;
     0xff; 0xf1; 0x0; 0x0; 0x3f; 0xff; 0x90; 0x0;
     0x0; 0xaf; 0xff; 0x10; 0x0; 0x2; 0xff; 0xf6;
     0x0; 0x0; 0xc; 0xff; 0xb0; 0x0; 0x0; 0x7f;
     0xff; 0x0; 0x0; 0x3; 0xff; 0xf3; 0x0; 0x0;
     0xf; 0xff; 0x60; 0x0; 0x0; 0xdf; 0xf8; 0x0;
     0x0; 0xc; 0xff; 0x80; 0x0; 0x0; 0xcf; 0xf9;
     0x0; 0x0; 0xc; 0xff; 0x80; 0x0; 0x0; 0xdf;
     0xf8; 0x0; 0x0; 0xf; 0xff; 0x60; 0x0; 0x2;
     0xff; 0xf3; 0x0; 0x0; 0x6f; 0xff; 0x0; 0x0;
     0xc; 0xff; 0xb0; 0x0; 0x2; 0xff; 0xf6; 0x0;
     0x0; 0xbf; 0xff; 0x0; 0x0; 0x4f; 0xff; 0x80;
     0x0; 0xd; 0xff; 0xf1; 0x0; 0xa; 0xff; 0xf6;
     0x0; 0x8; 0xff; 0xfa; 0x0; 0x0; 0x8f; 0xfc;
     0x0; 0x0; 0x0; 0x7d; 0x10; 0x0; 0x0; 0x0;
     0x0; 0x0; 0x0; 0x0];
  (* U+002A *)
    [0x0; 0x0; 0xc; 0xff; 0x70; 0x0; 0x0; 0x0;
     0x0; 0xcf; 0xf7; 0x0; 0x0; 0x2; 0x20; 0xc;
     0xff; 0x70; 0x3; 0x0; 0x9f; 0xc7; 0xdf; 0xfa;
     0x9e; 0xf3; 0xe; 0xff; 0xff; 0xff; 0xff; 0xff;
     0x81; 0xbf; 0xff; 0xff; 0xff; 0xff; 0xe8; 0x0;
     0x15; 0xef; 0xff; 0xfb; 0x40; 0x0; 0x0; 0x5f;
     0xff; 0xff; 0xe1; 0x0; 0x0; 0x2f; 0xff; 0xcf;
     0xff; 0xb0; 0x0; 0xa; 0xff; 0xe1; 0x5f; 0xff;
     0x50; 0x0; 0x9; 0xf4; 0x0; 0x9f; 0x60; 0x0;
     0x0; 0x2; 0x0; 0x0; 0x20; 0x0];
  (* U+002B *)
    [0x0; 0x0; 0x0; 0xbd; 0xd6; 0x0; 0x0; 0x0;
     0x0; 0x0; 0x0; 0xdf; 0xf8; 0x0; 0x0; 0x0;
     0x0; 0x0; 0x0; 0xdf; 0xf8; 0x0; 0x0; 0x0;
     0x0; 0x0; 0x0; 0xdf; 0xf8; 0x0; 0x0; 0x0;
     0x0; 0x0; 0x0; 0xdf; 0xf8; 0x0; 0x0; 0x0;
     0x0; 0x0; 0x0; 0xdf; 0xf8; 0x0; 0x0; 0x0;
     0x8f; 0xff; 0xff; 0xff; 0xff; 0xff; 0xff; 0xf3;
     0x8f; 0xff; 0xff; 0xff; 0xff; 0xff; 0xff; 0xf3;
     0x8f; 0xff; 0xff; 0xff; 0xff; 0xff; 0xff; 0xf3;
     0x13; 0x33; 0x33; 0xef; 0xf9; 0x33; 0x33; 0x30;
     0x0; 0x0; 0x0; 0xdf; 0xf8; 0x0; 0x0; 0x0;
     0x0; 0x0; 0x0; 0xdf; 0xf8; 0x0; 0x0; 0x0;
     0x0; 0x0; 0x0; 0xdf; 0xf8; 0x0; 0x0; 0x0;
     0x0; 0x0; 0x0; 0xdf; 0xf8; 0x0; 0x0; 0x0;
     0x0; 0x0; 0x0; 0xdf; 0xf8; 0x0; 0x0; 0x0];
  (* U+002C *)
    [0x2; 0xbe; 0xc3; 0x0; 0xdf; 0xff; 0xe1; 0x2f;
     0xff; 0xff; 0x60; 0xef; 0xff; 0xf8; 0x4; 0xdf;
     0xff; 0x70; 0x0; 0x1f; 0xf3; 0x0; 0x8; 0xfd;
     0x0; 0x19; 0xff; 0x40; 0xb; 0xff; 0x60; 0x0;
     0x99; 0x20; 0x0];
  (* U+002D *)
    [0x57; 0x77; 0x77; 0x77; 0x70; 0xaf; 0xff; 0xff;
     0xff; 0xf0; 0xaf; 0xff; 0xff; 0xff; 0xf0; 0xaf;
     0xff; 0xff; 0xff; 0xf0];
  (* U+002E *)
    [0x0; 0x15; 0x30; 0x0; 0x5f; 0xff; 0x90; 0xe;
     0xff; 0xff; 0x30; 0xff; 0xff; 0xf5; 0xb; 0xff;
     0xff; 0x10; 0x1b; 0xfd; 0x40];
  (* U+002F *)
    [0x0; 0x0; 0x0; 0x0; 0x0; 0xaf; 0xfe; 0x0;
     0x0; 0x0; 0x0; 0x0; 0x2f; 0xff; 0x70; 0x0;
     0x0; 0x0; 0x0; 0xa; 0xff; 0xe0; 0x0; 0x0;
     0x0; 0x0; 0x2; 0xff; 0xf7; 0x0; 0x0; 0x0;
     0x0; 0x0; 0xaf; 0xfe; 0x0; 0x0; 0x0; 0x0;
     0x0; 0x2f; 0xff; 0x70; 0x0; 0x0; 0x0; 0x0;
     0xa; 0xff; 0xe0; 0x0; 0x0; 0x0; 0x0; 0x2;
     0xff; 0xf7; 0x0; 0x0; 0x0; 0x0; 0x0; 0xaf;
     0xfe; 0x0; 0x0; 0x0; 0x0; 0x0; 0x2f; 0xff;
     0x60; 0x0; 0x0; 0x0; 0x0; 0xb; 0xff; 0xe0;
     0x0; 0x0; 0x0; 0x0; 0x3; 0xff; 0xf6; 0x0;
     0x0; 0x0; 0x0; 0x0; 0xbf; 0xfe; 0x0; 0x0;
     0x0; 0x0; 0x0; 0x3f; 0xff; 0x60; 0x0; 0x0;
     0x0; 0x0; 0xb; 0xff; 0xd0; 0x0; 0x0; 0x0;
     0x0; 0x3; 0xff; 0xf6; 0x0; 0x0; 0x0; 0x0;
     0x0; 0xbf; 0xfd; 0x0; 0x0; 0x0; 0x0; 0x0;
     0x3f; 0xff; 0x50; 0x0; 0x0; 0x0; 0x0; 0xb;
     0xff; 0xd0; 0x0; 0x0; 0x0; 0x0; 0x3; 0xff;
     0xf5; 0x0; 0x0; 0x0; 0x0; 0x0; 0xbf; 0xfd;
     0x0; 0x0; 0x0; 0x0; 0x0; 0x0];
  (* U+0030 *)
    [0x0; 0x0; 0x17; 0xce; 0xfe; 0xb5; 0x0; 0x0;
     0x0; 0x0; 0x6f; 0xff; 0xff; 0xff; 0xfd; 0x30;
     0x0; 0x0; 0x7f; 0xff; 0xff; 0xff; 0xff; 0xff;
     0x20; 0x0; 0x3f; 0xff; 0xff; 0xba; 0xcf; 0xff;
     0xfd; 0x0; 0xb; 0xff; 0xfe; 0x20; 0x0; 0x5f;
     0xff; 0xf6; 0x1; 0xff; 0xff; 0x40; 0x0; 0x0;
     0x8f; 0xff; 0xc0; 0x6f; 0xff; 0xd0; 0x0; 0x0;
     0x1; 0xff; 0xff; 0x19; 0xff; 0xf9; 0x0; 0x0;
     0x0; 0xe; 0xff; 0xf4; 0xbf; 0xff; 0x80; 0x0;
     0x0; 0x0; 0xcf; 0xff; 0x6b; 0xff; 0xf6; 0x0;
     0x0; 0x0; 0xb; 0xff; 0xf7; 0xbf; 0xff; 0x60;
     0x0; 0x0; 0x0; 0xbf; 0xff; 0x7b; 0xff; 0xf8;
     0x0; 0x0; 0x0; 0xc; 0xff; 0xf6; 0x9f; 0xff;
     0x90; 0x0; 0x0; 0x0; 0xef; 0xff; 0x46; 0xff;
     0xfd; 0x0; 0x0; 0x0; 0x1f; 0xff; 0xf1; 0x1f;
     0xff; 0xf3; 0x0; 0x0; 0x8; 0xff; 0xfd; 0x0;
     0xbf; 0xff; 0xe2; 0x0; 0x5; 0xff; 0xff; 0x60;
     0x3; 0xff; 0xff; 0xfb; 0xac; 0xff; 0xff; 0xd0;
     0x0; 0x7; 0xff; 0xff; 0xff; 0xff; 0xff; 0xf3;
     0x0; 0x0; 0x6; 0xff; 0xff; 0xff; 0xff; 0xd3;
     0x0; 0x0; 0x0; 0x1; 0x7c; 0xef; 0xeb; 0x60;
     0x0; 0x0];
  (* U+0031 *)
    [0x0; 0x0; 0x0; 0x23; 0x32; 0x0; 0x0; 0x1;
     0xff; 0xfb; 0x0; 0x0; 0xb; 0xff; 0xfb; 0x0;
     0x4; 0xcf; 0xff; 0xfb; 0xd; 0xff; 0xff; 0xff;
     0xfb; 0x1f; 0xff; 0xff; 0xff; 0xfb; 0x1f; 0xff;
     0xff; 0xff; 0xfb; 0x0; 0x0; 0x6; 0xff; 0xfb;
     0x0; 0x0; 0x6; 0xff; 0xfb; 0x0; 0x0; 0x6;
     0xff; 0xfb; 0x0; 0x0; 0x6; 0xff; 0xfb; 0x0;
     0x0; 0x6; 0xff; 0xfb; 0x0; 0x0; 0x6; 0xff;
     0xfb; 0x0; 0x0; 0x6; 0xff; 0xfb; 0x0; 0x0;
     0x6; 0xff; 0xfb; 0x0; 0x0; 0x6; 0xff; 0xfb;
     0x0; 0x0; 0x6; 0xff; 0xfb; 0x0; 0x0; 0x6;
     0xff; 0xfb; 0x0; 0x0; 0x6; 0xff; 0xfb; 0x0;
     0x0; 0x6; 0xff; 0xfb]].
Definition glyph_bitmap_0032 : list (list Z) := [
  (* U+0032 *)
    [0x0; 0x0; 0x2; 0x68; 0x97; 0x40; 0x0; 0x0;
     0x0; 0x2; 0xbf; 0xff; 0xff; 0xfe; 0x60; 0x0;
     0x0; 0x3e; 0xff; 0xff; 0xff; 0xff; 0xf9; 0x0;
     0x0; 0xef; 0xff; 0xff; 0xff; 0xff; 0xff; 0x50;
     0x6; 0xff; 0xff; 0x61; 0x14; 0xef; 0xff; 0xd0;
     0xb; 0xff; 0xf7; 0x0; 0x0; 0x4f; 0xff; 0xf1;
     0xd; 0xff; 0xf2; 0x0; 0x0; 0xf; 0xff; 0xf3;
     0xd; 0xff; 0xf1; 0x0; 0x0; 0x1f; 0xff; 0xf1;
     0x2; 0x33; 0x30; 0x0; 0x0; 0x9f; 0xff; 0xe0;
     0x0; 0x0; 0x0; 0x0; 0x9; 0xff; 0xff; 0x70;
     0x0; 0x0; 0x0; 0x5; 0xdf; 0xff; 0xfb; 0x0;
     0x0; 0x0; 0x2; 0xbf; 0xff; 0xff; 0xb0; 0x0;
     0x0; 0x0; 0x7f; 0xff; 0xff; 0xf7; 0x0; 0x0;
     0x0; 0x9; 0xff; 0xff; 0xfa; 0x10; 0x0; 0x0;
     0x0; 0x7f; 0xff; 0xfd; 0x40; 0x0; 0x0; 0x0;
     0x1; 0xff; 0xff; 0xb0; 0x0; 0x0; 0x0; 0x0;
     0x7; 0xff; 0xff; 0x98; 0x88; 0x88; 0x88; 0x82;
     0xc; 0xff; 0xff; 0xff; 0xff; 0xff; 0xff; 0xf5;
     0xe; 0xff; 0xff; 0xff; 0xff; 0xff; 0xff; 0xf5;
     0xf; 0xff; 0xff; 0xff; 0xff; 0xff; 0xff; 0xf5];
  (* U+0033 *)
    [0x6; 0x88; 0x88; 0x88; 0x88; 0x88; 0x88; 0x70;
     0xd; 0xff; 0xff; 0xff; 0xff; 0xff; 0xff; 0xf0;
     0xd; 0xff; 0xff; 0xff; 0xff; 0xff; 0xff; 0xf0;
     0xd; 0xff; 0xff; 0xff; 0xff; 0xff; 0xff; 0xe0;
     0x0; 0x0; 0x0; 0x0; 0x1c; 0xff; 0xfd; 0x20;
     0x0; 0x0; 0x0; 0x3; 0xef; 0xff; 0xc1; 0x0;
     0x0; 0x0; 0x0; 0x5f; 0xff; 0xf9; 0x0; 0x0;
     0x0; 0x0; 0x7; 0xff; 0xff; 0x70; 0x0; 0x0;
     0x0; 0x0; 0x3f; 0xff; 0xff; 0xfd; 0x60; 0x0;
     0x0; 0x0; 0x9; 0xff; 0xff; 0xff; 0xfc; 0x0;
     0x0; 0x0; 0x1; 0xed; 0xdf; 0xff; 0xff; 0x90;
     0x0; 0x0; 0x0; 0x0; 0x1; 0xaf; 0xff; 0xf2;
     0x0; 0x0; 0x0; 0x0; 0x0; 0xd; 0xff; 0xf6;
     0x4; 0x7a; 0x80; 0x0; 0x0; 0xa; 0xff; 0xf8;
     0x5f; 0xff; 0xd0; 0x0; 0x0; 0xd; 0xff; 0xf7;
     0x1f; 0xff; 0xf9; 0x0; 0x0; 0x7f; 0xff; 0xf3;
     0xa; 0xff; 0xff; 0xd9; 0x9c; 0xff; 0xff; 0xc0;
     0x1; 0xdf; 0xff; 0xff; 0xff; 0xff; 0xfe; 0x20;
     0x0; 0x1b; 0xff; 0xff; 0xff; 0xff; 0xc2; 0x0;
     0x0; 0x0; 0x4a; 0xdf; 0xfe; 0xa5; 0x0; 0x0];
  (* U+0034 *)
    [0x0; 0x0; 0x0; 0x0; 0x3f; 0xff; 0xff; 0x40;
     0x0; 0x0; 0x0; 0x0; 0x1; 0xef; 0xff; 0xff;
     0x40; 0x0; 0x0; 0x0; 0x0; 0xb; 0xff; 0xff;
     0xff; 0x40; 0x0; 0x0; 0x0; 0x0; 0x8f; 0xff;
     0xff; 0xff; 0x40; 0x0; 0x0; 0x0; 0x4; 0xff;
     0xfe; 0xef; 0xff; 0x40; 0x0; 0x0; 0x0; 0x1e;
     0xff; 0xf3; 0xdf; 0xff; 0x40; 0x0; 0x0; 0x0;
     0xcf; 0xff; 0x60; 0xdf; 0xff; 0x40; 0x0; 0x0;
     0x9; 0xff; 0xfa; 0x0; 0xdf; 0xff; 0x40; 0x0;
     0x0; 0x5f; 0xff; 0xd0; 0x0; 0xdf; 0xff; 0x40;
     0x0; 0x2; 0xff; 0xff; 0x20; 0x0; 0xdf; 0xff;
     0x40; 0x0; 0xd; 0xff; 0xf6; 0x0; 0x0; 0xdf;
     0xff; 0x40; 0x0; 0xf; 0xff; 0xe8; 0x88; 0x88;
     0xef; 0xff; 0xa8; 0x83; 0xf; 0xff; 0xff; 0xff;
     0xff; 0xff; 0xff; 0xff; 0xf7; 0xf; 0xff; 0xff;
     0xff; 0xff; 0xff; 0xff; 0xff; 0xf7; 0xf; 0xff;
     0xff; 0xff; 0xff; 0xff; 0xff; 0xff; 0xf7; 0x0;
     0x0; 0x0; 0x0; 0x0; 0xdf; 0xff; 0x40; 0x0;
     0x0; 0x0; 0x0; 0x0; 0x0; 0xdf; 0xff; 0x40;
     0x0; 0x0; 0x0; 0x0; 0x0; 0x0; 0xdf; 0xff;
     0x40; 0x0; 0x0; 0x0; 0x0; 0x0; 0x0; 0xdf;
     0xff; 0x40; 0x0];
  (* U+0035 *)
    [0x0; 0x2; 0x88; 0x88; 0x88; 0x88; 0x88; 0x50;
     0x0; 0x8; 0xff; 0xff; 0xff; 0xff; 0xff; 0xb0;
     0x0; 0xc; 0xff; 0xff; 0xff; 0xff; 0xff; 0xb0;
     0x0; 0xf; 0xff; 0xff; 0xff; 0xff; 0xff; 0xb0;
     0x0; 0x3f; 0xff; 0x60; 0x0; 0x0; 0x0; 0x0;
     0x0; 0x7f; 0xff; 0x30; 0x0; 0x0; 0x0; 0x0;
     0x0; 0xbf; 0xff; 0x0; 0x0; 0x0; 0x0; 0x0;
     0x0; 0xef; 0xfb; 0x6c; 0xff; 0xd9; 0x30; 0x0;
     0x2; 0xff; 0xff; 0xff; 0xff; 0xff; 0xf9; 0x0;
     0x6; 0xff; 0xff; 0xff; 0xff; 0xff; 0xff; 0x90;
     0x3; 0xae; 0xff; 0xa5; 0x48; 0xef; 0xff; 0xf2;
     0x0; 0x0; 0x44; 0x0; 0x0; 0x2e; 0xff; 0xf7;
     0x0; 0x0; 0x0; 0x0; 0x0; 0x8; 0xff; 0xfa;
     0x0; 0x26; 0x70; 0x0; 0x0; 0x6; 0xff; 0xfb;
     0xf; 0xff; 0xf1; 0x0; 0x0; 0x9; 0xff; 0xf9;
     0xd; 0xff; 0xfb; 0x0; 0x0; 0x4f; 0xff; 0xf5;
     0x5; 0xff; 0xff; 0xe9; 0x8b; 0xff; 0xff; 0xe0;
     0x0; 0xaf; 0xff; 0xff; 0xff; 0xff; 0xff; 0x30;
     0x0; 0x8; 0xff; 0xff; 0xff; 0xff; 0xe3; 0x0;
     0x0; 0x0; 0x28; 0xcf; 0xfe; 0xb6; 0x0; 0x0];
  (* U+0036 *)
    [0x0; 0x0; 0x0; 0x27; 0xbd; 0xff; 0xeb; 0x60;
     0x0; 0x0; 0x19; 0xff; 0xff; 0xff; 0xff; 0xe0;
     0x0; 0x3; 0xef; 0xff; 0xff; 0xff; 0xff; 0x90;
     0x0; 0x2f; 0xff; 0xff; 0xea; 0x89; 0xcf; 0x30;
     0x0; 0xdf; 0xff; 0xd4; 0x0; 0x0; 0x1; 0x0;
     0x6; 0xff; 0xfc; 0x0; 0x0; 0x0; 0x0; 0x0;
     0xe; 0xff; 0xf2; 0x2; 0x44; 0x20; 0x0; 0x0;
     0x3f; 0xff; 0xa4; 0xdf; 0xff; 0xfe; 0x80; 0x0;
     0x7f; 0xff; 0xcf; 0xff; 0xff; 0xff; 0xfc; 0x0;
     0x9f; 0xff; 0xff; 0xff; 0xff; 0xff; 0xff; 0xa0;
     0xaf; 0xff; 0xfe; 0x61; 0x14; 0xdf; 0xff; 0xf2;
     0xbf; 0xff; 0xf4; 0x0; 0x0; 0x1e; 0xff; 0xf7;
     0xaf; 0xff; 0xc0; 0x0; 0x0; 0x8; 0xff; 0xfa;
     0x8f; 0xff; 0xb0; 0x0; 0x0; 0x7; 0xff; 0xfa;
     0x4f; 0xff; 0xe0; 0x0; 0x0; 0xb; 0xff; 0xf8;
     0xd; 0xff; 0xfa; 0x0; 0x0; 0x6f; 0xff; 0xf4;
     0x5; 0xff; 0xff; 0xd8; 0x7b; 0xff; 0xff; 0xc0;
     0x0; 0x9f; 0xff; 0xff; 0xff; 0xff; 0xfe; 0x20;
     0x0; 0x8; 0xff; 0xff; 0xff; 0xff; 0xc2; 0x0;
     0x0; 0x0; 0x28; 0xdf; 0xfe; 0xa5; 0x0; 0x0];
  (* U+0037 *)
    [0xdf; 0xff; 0xff; 0xff; 0xff; 0xff; 0xff; 0xfd;
     0xff; 0xff; 0xff; 0xff; 0xff; 0xff; 0xff; 0xdf;
     0xff; 0xff; 0xff; 0xff; 0xff; 0xff; 0xf6; 0x88;
     0x88; 0x88; 0x88; 0x8f; 0xff; 0xfb; 0x0; 0x0;
     0x0; 0x0; 0xb; 0xff; 0xfb; 0x0; 0x0; 0x0;
     0x0; 0xb; 0xff; 0xfc; 0x0; 0x0; 0x0; 0x0;
     0x7; 0xff; 0xfe; 0x10; 0x0; 0x0; 0x0; 0x3;
     0xff; 0xff; 0x30; 0x0; 0x0; 0x0; 0x0; 0xdf;
     0xff; 0x90; 0x0; 0x0; 0x0; 0x0; 0x6f; 0xff;
     0xe0; 0x0; 0x0; 0x0; 0x0; 0xd; 0xff; 0xf7;
     0x0; 0x0; 0x0; 0x0; 0x5; 0xff; 0xff; 0x0;
     0x0; 0x0; 0x0; 0x0; 0xbf; 0xff; 0x90; 0x0;
     0x0; 0x0; 0x0; 0xf; 0xff; 0xf4; 0x0; 0x0;
     0x0; 0x0; 0x5; 0xff; 0xfe; 0x0; 0x0; 0x0;
     0x0; 0x0; 0x9f; 0xff; 0xb0; 0x0; 0x0; 0x0;
     0x0; 0xc; 0xff; 0xf7; 0x0; 0x0; 0x0; 0x0;
     0x0; 0xef; 0xff; 0x50; 0x0; 0x0; 0x0; 0x0;
     0x1f; 0xff; 0xf3; 0x0; 0x0; 0x0; 0x0]].
Definition glyph_bitmap_0038 : list (list Z) := [
  (* U+0038 *)
    [0x0; 0x2; 0x8c; 0xef; 0xec; 0x82; 0x0; 0x0;
     0x7; 0xff; 0xff; 0xff; 0xff; 0xf7; 0x0; 0x7;
     0xff; 0xff; 0xff; 0xff; 0xff; 0xf7; 0x1; 0xff;
     0xff; 0xf8; 0x68; 0xef; 0xff; 0xf1; 0x5f; 0xff;
     0xf2; 0x0; 0x1; 0xef; 0xff; 0x66; 0xff; 0xfb;
     0x0; 0x0; 0xa; 0xff; 0xf7; 0x3f; 0xff; 0xd0;
     0x0; 0x0; 0xcf; 0xff; 0x40; 0xcf; 0xff; 0xa2;
     0x2; 0x9f; 0xff; 0xc0; 0x1; 0xdf; 0xff; 0xff;
     0xff; 0xff; 0xd1; 0x0; 0x0; 0xcf; 0xff; 0xff;
     0xff; 0xd1; 0x0; 0x2; 0xdf; 0xff; 0xff; 0xff;
     0xff; 0xe2; 0x0; 0xef; 0xff; 0xa3; 0x13; 0x9f;
     0xff; 0xe0; 0x7f; 0xff; 0xa0; 0x0; 0x0; 0x9f;
     0xff; 0x8b; 0xff; 0xf5; 0x0; 0x0; 0x4; 0xff;
     0xfc; 0xcf; 0xff; 0x60; 0x0; 0x0; 0x5f; 0xff;
     0xda; 0xff; 0xfd; 0x0; 0x0; 0xc; 0xff; 0xfb;
     0x5f; 0xff; 0xfe; 0x86; 0x8e; 0xff; 0xff; 0x50;
     0xbf; 0xff; 0xff; 0xff; 0xff; 0xff; 0xb0; 0x0;
     0x9f; 0xff; 0xff; 0xff; 0xff; 0xa0; 0x0; 0x0;
     0x28; 0xce; 0xfe; 0xc9; 0x30; 0x0];
  (* U+0039 *)
    [0x0; 0x1; 0x7c; 0xef; 0xeb; 0x60; 0x0; 0x0;
     0x0; 0x6f; 0xff; 0xff; 0xff; 0xfd; 0x30; 0x0;
     0x7; 0xff; 0xff; 0xff; 0xff; 0xff; 0xf3; 0x0;
     0x2f; 0xff; 0xfe; 0x98; 0xbf; 0xff; 0xfd; 0x0;
     0x9f; 0xff; 0xd1; 0x0; 0x3; 0xff; 0xff; 0x60;
     0xdf; 0xff; 0x30; 0x0; 0x0; 0x8f; 0xff; 0xc0;
     0xff; 0xff; 0x0; 0x0; 0x0; 0x5f; 0xff; 0xf0;
     0xef; 0xff; 0x30; 0x0; 0x0; 0x7f; 0xff; 0xf2;
     0xbf; 0xff; 0xc0; 0x0; 0x2; 0xff; 0xff; 0xf3;
     0x5f; 0xff; 0xfe; 0x87; 0x9f; 0xff; 0xff; 0xf3;
     0xa; 0xff; 0xff; 0xff; 0xff; 0xff; 0xff; 0xf2;
     0x0; 0xaf; 0xff; 0xff; 0xff; 0xad; 0xff; 0xf1;
     0x0; 0x4; 0xae; 0xfe; 0xb5; 0x1f; 0xff; 0xd0;
     0x0; 0x0; 0x0; 0x0; 0x0; 0x7f; 0xff; 0x90;
     0x0; 0x0; 0x0; 0x0; 0x2; 0xff; 0xff; 0x30;
     0x1; 0x0; 0x0; 0x0; 0x5e; 0xff; 0xfc; 0x0;
     0xa; 0xfb; 0x88; 0xae; 0xff; 0xff; 0xf2; 0x0;
     0xf; 0xff; 0xff; 0xff; 0xff; 0xff; 0x40; 0x0;
     0x4f; 0xff; 0xff; 0xff; 0xff; 0xb2; 0x0; 0x0;
     0x5; 0xad; 0xff; 0xec; 0x83; 0x0; 0x0; 0x0];
  (* U+003A *)
    [0x1; 0xbf; 0xd4; 0x0; 0xbf; 0xff; 0xf1; 0xf;
     0xff; 0xff; 0x50; 0xdf; 0xff; 0xf2; 0x3; 0xef;
     0xf8; 0x0; 0x0; 0x31; 0x0; 0x0; 0x0; 0x0;
     0x0; 0x0; 0x0; 0x0; 0x0; 0x0; 0x0; 0x0;
     0x0; 0x31; 0x0; 0x3; 0xef; 0xf8; 0x0; 0xcf;
     0xff; 0xf3; 0xe; 0xff; 0xff; 0x50; 0xaf; 0xff;
     0xf1; 0x1; 0xaf; 0xd4; 0x0];
  (* U+003B *)
    [0x1a; 0xfd; 0x40; 0xaf; 0xff; 0xf1; 0xef; 0xff;
     0xf5; 0xcf; 0xff; 0xf3; 0x3e; 0xff; 0x80; 0x0;
     0x32; 0x0; 0x0; 0x0; 0x0; 0x0; 0x0; 0x0;
     0x0; 0x0; 0x0; 0x0; 0x0; 0x0; 0x7; 0xa8;
     0x10; 0x9f; 0xff; 0xd0; 0xef; 0xff; 0xf4; 0xcf;
     0xff; 0xf6; 0x2c; 0xff; 0xf5; 0x0; 0xf; 0xf2;
     0x0; 0x8f; 0xc0; 0x2a; 0xff; 0x30; 0x9f; 0xe4;
     0x0; 0x56; 0x0; 0x0];
  (* U+003C *)
    [0x0; 0x0; 0x0; 0x0; 0x0; 0x0; 0x60; 0x0;
     0x0; 0x0; 0x0; 0x6; 0xef; 0x0; 0x0; 0x0;
     0x0; 0x6e; 0xff; 0xf0; 0x0; 0x0; 0x6; 0xef;
     0xff; 0xff; 0x0; 0x0; 0x6e; 0xff; 0xff; 0xfb;
     0x30; 0x7; 0xef; 0xff; 0xff; 0xa2; 0x0; 0x6e;
     0xff; 0xff; 0xf9; 0x20; 0x0; 0xf; 0xff; 0xff;
     0x81; 0x0; 0x0; 0x0; 0xff; 0xff; 0xa1; 0x0;
     0x0; 0x0; 0xe; 0xff; 0xff; 0xf9; 0x20; 0x0;
     0x0; 0x18; 0xef; 0xff; 0xff; 0xa2; 0x0; 0x0;
     0x0; 0x7e; 0xff; 0xff; 0xfb; 0x30; 0x0; 0x0;
     0x7; 0xef; 0xff; 0xff; 0xb0; 0x0; 0x0; 0x0;
     0x7e; 0xff; 0xff; 0x0; 0x0; 0x0; 0x0; 0x7;
     0xef; 0xf0; 0x0; 0x0; 0x0; 0x0; 0x0; 0x7d;
     0x0; 0x0; 0x0; 0x0; 0x0; 0x0; 0x0];
  (* U+003D *)
    [0x3f; 0xff; 0xff; 0xff; 0xff; 0xff; 0xff; 0xf5;
     0x3f; 0xff; 0xff; 0xff; 0xff; 0xff; 0xff; 0xf5;
     0x3f; 0xff; 0xff; 0xff; 0xff; 0xff; 0xff; 0xf5;
     0x2; 0x22; 0x22; 0x22; 0x22; 0x22; 0x22; 0x20;
     0x0; 0x0; 0x0; 0x0; 0x0; 0x0; 0x0; 0x0;
     0x3; 0x33; 0x33; 0x33; 0x33; 0x33; 0x33; 0x31;
     0x3f; 0xff; 0xff; 0xff; 0xff; 0xff; 0xff; 0xf5;
     0x3f; 0xff; 0xff; 0xff; 0xff; 0xff; 0xff; 0xf5;
     0x3f; 0xff; 0xff; 0xff; 0xff; 0xff; 0xff; 0xf5];
  (* U+003E *)
    [0x5; 0x0; 0x0; 0x0; 0x0; 0x0; 0x0; 0xf;
     0xd5; 0x0; 0x0; 0x0; 0x0; 0x0; 0xf; 0xff;
     0xd6; 0x0; 0x0; 0x0; 0x0; 0xf; 0xff; 0xff;
     0xd6; 0x0; 0x0; 0x0; 0x5; 0xcf; 0xff; 0xff;
     0xd6; 0x0; 0x0; 0x0; 0x4; 0xcf; 0xff; 0xff;
     0xd6; 0x0; 0x0; 0x0; 0x3; 0xbf; 0xff; 0xff;
     0xd5; 0x0; 0x0; 0x0; 0x2; 0xaf; 0xff; 0xfd;
     0x0; 0x0; 0x0; 0x0; 0x1a; 0xff; 0xfd; 0x0;
     0x0; 0x0; 0x29; 0xff; 0xff; 0xfc; 0x0; 0x0;
     0x2a; 0xff; 0xff; 0xfe; 0x60; 0x0; 0x3a; 0xff;
     0xff; 0xfe; 0x60; 0x0; 0xb; 0xff; 0xff; 0xfe;
     0x60; 0x0; 0x0; 0xf; 0xff; 0xfe; 0x60; 0x0;
     0x0; 0x0; 0xf; 0xfe; 0x60; 0x0; 0x0; 0x0;
     0x0; 0xe; 0x60; 0x0; 0x0; 0x0; 0x0; 0x0;
     0x0; 0x0; 0x0; 0x0; 0x0; 0x0; 0x0];
  (* U+003F *)
    [0x0; 0x0; 0x4a; 0xef; 0xfd; 0x93; 0x0; 0x0;
     0x0; 0xaf; 0xff; 0xff; 0xff; 0xfa; 0x0; 0x0;
     0xbf; 0xff; 0xff; 0xff; 0xff; 0xfc; 0x0; 0x6f;
     0xff; 0xfc; 0x89; 0xdf; 0xff; 0xf6; 0xc; 0xff;
     0xf8; 0x0; 0x0; 0xbf; 0xff; 0xb0; 0xff; 0xff;
     0x0; 0x0; 0x4; 0xff; 0xfd; 0xf; 0xff; 0xc0;
     0x0; 0x0; 0x4f; 0xff; 0xc0; 0x77; 0x76; 0x0;
     0x0; 0xb; 0xff; 0xf9; 0x0; 0x0; 0x0; 0x0;
     0x2c; 0xff; 0xff; 0x20; 0x0; 0x0; 0x0; 0x5f;
     0xff; 0xff; 0x60; 0x0; 0x0; 0x0; 0x4f; 0xff;
     0xff; 0x50; 0x0; 0x0; 0x0; 0xe; 0xff; 0xfc;
     0x20; 0x0; 0x0; 0x0; 0x2; 0xff; 0xfc; 0x0;
     0x0; 0x0; 0x0; 0x0; 0x3f; 0xff; 0x40; 0x0;
     0x0; 0x0; 0x0; 0x1; 0x66; 0x60; 0x0; 0x0;
     0x0; 0x0; 0x0; 0x0; 0x0; 0x0; 0x0; 0x0;
     0x0; 0x0; 0x0; 0x6a; 0x70; 0x0; 0x0; 0x0;
     0x0; 0x0; 0x7f; 0xff; 0x80; 0x0; 0x0; 0x0;
     0x0; 0xc; 0xff; 0xfe; 0x0; 0x0; 0x0; 0x0;
     0x0; 0xaf; 0xff; 0xb0; 0x0; 0x0; 0x0; 0x0;
     0x1; 0xbf; 0xc2; 0x0; 0x0; 0x0]].
Definition glyph_bitmap_0040 : list (list Z) := [
  (* U+0040 *)
    [0x0; 0x0; 0x0; 0x2; 0x7b; 0xdf; 0xfd; 0xb7;
     0x20; 0x0; 0x0; 0x0; 0x0; 0x0; 0x2b; 0xff;
     0xff; 0xff; 0xff; 0xff; 0xa2; 0x0; 0x0; 0x0;
     0x0; 0x6f; 0xff; 0xff; 0xdb; 0xbd; 0xff; 0xff;
     0xe4; 0x0; 0x0; 0x0; 0x8f; 0xff; 0xd5; 0x0;
     0x0; 0x0; 0x5d; 0xff; 0xf4; 0x0; 0x0; 0x6f;
     0xff; 0x80; 0x0; 0x0; 0x0; 0x0; 0x9; 0xff;
     0xf1; 0x0; 0x2f; 0xff; 0x70; 0x0; 0x38; 0xa8;
     0x21; 0x44; 0x29; 0xff; 0xa0; 0xa; 0xff; 0xb0;
     0x0; 0x9f; 0xff; 0xff; 0x9f; 0xf7; 0xe; 0xff;
     0x11; 0xff; 0xf2; 0x0; 0xaf; 0xff; 0xff; 0xff;
     0xff; 0x40; 0x8f; 0xf6; 0x6f; 0xfb; 0x0; 0x5f;
     0xff; 0x70; 0x2d; 0xff; 0xf1; 0x3; 0xff; 0x99;
     0xff; 0x70; 0xc; 0xff; 0x80; 0x0; 0x4f; 0xfd;
     0x0; 0x2f; 0xfb; 0xbf; 0xf4; 0x1; 0xff; 0xf1;
     0x0; 0x2; 0xff; 0xa0; 0x2; 0xff; 0xbc; 0xff;
     0x30; 0x3f; 0xfe; 0x0; 0x0; 0x4f; 0xf7; 0x0;
     0x4f; 0xf9; 0xcf; 0xf4; 0x4; 0xff; 0xd0; 0x0;
     0x7; 0xff; 0x30; 0x9; 0xff; 0x6a; 0xff; 0x60;
     0x2f; 0xff; 0x10; 0x0; 0xef; 0xf1; 0x1; 0xff;
     0xf1; 0x7f; 0xfa; 0x0; 0xef; 0xfa; 0x11; 0xaf;
     0xff; 0x32; 0xcf; 0xf8; 0x3; 0xff; 0xf1; 0x6;
     0xff; 0xff; 0xff; 0xff; 0xff; 0xff; 0xfc; 0x0;
     0xd; 0xff; 0x80; 0x8; 0xff; 0xff; 0xe3; 0xcf;
     0xff; 0xfa; 0x0; 0x0; 0x4f; 0xff; 0x40; 0x3;
     0x78; 0x60; 0x0; 0x68; 0x73; 0x0; 0x0; 0x0;
     0xaf; 0xff; 0x60; 0x0; 0x0; 0x0; 0x0; 0x1;
     0x0; 0x0; 0x0; 0x0; 0xbf; 0xff; 0xc4; 0x0;
     0x0; 0x0; 0x29; 0xf5; 0x0; 0x0; 0x0; 0x0;
     0x9f; 0xff; 0xff; 0xcb; 0xab; 0xef; 0xff; 0xe0;
     0x0; 0x0; 0x0; 0x0; 0x4c; 0xff; 0xff; 0xff;
     0xff; 0xff; 0xb2; 0x0; 0x0; 0x0; 0x0; 0x0;
     0x3; 0x7b; 0xdf; 0xfe; 0xb7; 0x20; 0x0; 0x0;
     0x0];
  (* U+0041 *)
    [0x0; 0x0; 0x0; 0x0; 0xbf; 0xff; 0xf7; 0x0;
     0x0; 0x0; 0x0; 0x0; 0x0; 0x0; 0x2; 0xff;
     0xff; 0xfd; 0x0; 0x0; 0x0; 0x0; 0x0; 0x0;
     0x0; 0x8; 0xff; 0xff; 0xff; 0x30; 0x0; 0x0;
     0x0; 0x0; 0x0; 0x0; 0xe; 0xff; 0xff; 0xff;
     0x90; 0x0; 0x0; 0x0; 0x0; 0x0; 0x0; 0x4f;
     0xff; 0xef; 0xff; 0xf0; 0x0; 0x0; 0x0; 0x0;
     0x0; 0x0; 0xaf; 0xff; 0x5d; 0xff; 0xf6; 0x0;
     0x0; 0x0; 0x0; 0x0; 0x1; 0xff; 0xff; 0x7;
     0xff; 0xfc; 0x0; 0x0; 0x0; 0x0; 0x0; 0x7;
     0xff; 0xf9; 0x1; 0xff; 0xff; 0x20; 0x0; 0x0;
     0x0; 0x0; 0xd; 0xff; 0xf3; 0x0; 0xbf; 0xff;
     0x80; 0x0; 0x0; 0x0; 0x0; 0x3f; 0xff; 0xd0;
     0x0; 0x5f; 0xff; 0xe0; 0x0; 0x0; 0x0; 0x0;
     0xaf; 0xff; 0x70; 0x0; 0xe; 0xff; 0xf4; 0x0;
     0x0; 0x0; 0x0; 0xff; 0xff; 0x10; 0x0; 0x9;
     0xff; 0xfb; 0x0; 0x0; 0x0; 0x6; 0xff; 0xff;
     0xbb; 0xbb; 0xbd; 0xff; 0xff; 0x10; 0x0; 0x0;
     0xc; 0xff; 0xff; 0xff; 0xff; 0xff; 0xff; 0xff;
     0x70; 0x0; 0x0; 0x2f; 0xff; 0xff; 0xff; 0xff;
     0xff; 0xff; 0xff; 0xd0; 0x0; 0x0; 0x9f; 0xff;
     0xff; 0xff; 0xff; 0xff; 0xff; 0xff; 0xf3; 0x0;
     0x0; 0xef; 0xff; 0x40; 0x0; 0x0; 0x0; 0xb;
     0xff; 0xf9; 0x0; 0x5; 0xff; 0xfe; 0x0; 0x0;
     0x0; 0x0; 0x6; 0xff; 0xff; 0x0; 0xb; 0xff;
     0xf9; 0x0; 0x0; 0x0; 0x0; 0x0; 0xff; 0xff;
     0x60; 0x2f; 0xff; 0xf3; 0x0; 0x0; 0x0; 0x0;
     0x0; 0xaf; 0xff; 0xc0; 0x8f; 0xff; 0xd0; 0x0;
     0x0; 0x0; 0x0; 0x0; 0x5f; 0xff; 0xf2];
  (* U+0042 *)
    [0x9f; 0xff; 0xff; 0xff; 0xfe; 0xa4; 0x0; 0x0;
     0x9f; 0xff; 0xff; 0xff; 0xff; 0xff; 0xa0; 0x0;
     0x9f; 0xff; 0xff; 0xff; 0xff; 0xff; 0xf9; 0x0;
     0x9f; 0xff; 0xb7; 0x77; 0x9e; 0xff; 0xff; 0x20;
     0x9f; 0xff; 0x80; 0x0; 0x1; 0xef; 0xff; 0x60;
     0x9f; 0xff; 0x80; 0x0; 0x0; 0x9f; 0xff; 0x80;
     0x9f; 0xff; 0x80; 0x0; 0x0; 0x9f; 0xff; 0x60;
     0x9f; 0xff; 0x80; 0x0; 0x1; 0xef; 0xff; 0x20;
     0x9f; 0xff; 0xb6; 0x66; 0x8e; 0xff; 0xf9; 0x0;
     0x9f; 0xff; 0xff; 0xff; 0xff; 0xff; 0x80; 0x0;
     0x9f; 0xff; 0xff; 0xff; 0xff; 0xfe; 0x70; 0x0;
     0x9f; 0xff; 0xff; 0xff; 0xff; 0xff; 0xfb; 0x0;
     0x9f; 0xff; 0x80; 0x0; 0x15; 0xef; 0xff; 0x70;
     0x9f; 0xff; 0x80; 0x0; 0x0; 0x4f; 0xff; 0xf0;
     0x9f; 0xff; 0x80; 0x0; 0x0; 0xf; 0xff; 0xf2;
     0x9f; 0xff; 0x80; 0x0; 0x0; 0xf; 0xff; 0xf2;
     0x9f; 0xff; 0x80; 0x0; 0x0; 0x8f; 0xff; 0xf0;
     0x9f; 0xff; 0xb6; 0x66; 0x7b; 0xff; 0xff; 0xb0;
     0x9f; 0xff; 0xff; 0xff; 0xff; 0xff; 0xff; 0x20;
     0x9f; 0xff; 0xff; 0xff; 0xff; 0xff; 0xe4; 0x0;
     0x9f; 0xff; 0xff; 0xff; 0xff; 0xc7; 0x10; 0x0];
  (* U+0043 *)
    [0x0; 0x0; 0x0; 0x16; 0xbd; 0xff; 0xeb; 0x72;
     0x0; 0x0; 0x0; 0x0; 0x1; 0x9f; 0xff; 0xff;
     0xff; 0xff; 0xfa; 0x10; 0x0; 0x0; 0x3; 0xdf;
     0xff; 0xff; 0xff; 0xff; 0xff; 0xfe; 0x30; 0x0;
     0x3; 0xff; 0xff; 0xff; 0xff; 0xff; 0xff; 0xff;
     0xff; 0x20; 0x1; 0xef; 0xff; 0xfd; 0x61; 0x0;
     0x15; 0xdf; 0xff; 0xfc; 0x0; 0x9f; 0xff; 0xf9;
     0x0; 0x0; 0x0; 0x0; 0x9f; 0xff; 0xf4; 0x1f;
     0xff; 0xfb; 0x0; 0x0; 0x0; 0x0; 0x0; 0xcf;
     0xff; 0x86; 0xff; 0xff; 0x10; 0x0; 0x0; 0x0;
     0x0; 0x4; 0xb6; 0x20; 0xaf; 0xff; 0xb0; 0x0;
     0x0; 0x0; 0x0; 0x0; 0x0; 0x0; 0xb; 0xff;
     0xf8; 0x0; 0x0; 0x0; 0x0; 0x0; 0x0; 0x0;
     0x0; 0xcf; 0xff; 0x70; 0x0; 0x0; 0x0; 0x0;
     0x0; 0x0; 0x0; 0xb; 0xff; 0xf8; 0x0; 0x0;
     0x0; 0x0; 0x0; 0x0; 0x0; 0x0; 0xaf; 0xff;
     0xb0; 0x0; 0x0; 0x0; 0x0; 0x0; 0x0; 0x0;
     0x6; 0xff; 0xff; 0x20; 0x0; 0x0; 0x0; 0x0;
     0x3; 0xe9; 0x50; 0x1f; 0xff; 0xfb; 0x0; 0x0;
     0x0; 0x0; 0x0; 0xbf; 0xff; 0xb0; 0x9f; 0xff;
     0xfa; 0x0; 0x0; 0x0; 0x0; 0x9f; 0xff; 0xf5;
     0x1; 0xef; 0xff; 0xfe; 0x72; 0x0; 0x26; 0xdf;
     0xff; 0xfc; 0x0; 0x3; 0xff; 0xff; 0xff; 0xff;
     0xff; 0xff; 0xff; 0xfe; 0x20; 0x0; 0x4; 0xef;
     0xff; 0xff; 0xff; 0xff; 0xff; 0xfe; 0x30; 0x0;
     0x0; 0x1; 0x9f; 0xff; 0xff; 0xff; 0xff; 0xfa;
     0x10; 0x0; 0x0; 0x0; 0x0; 0x17; 0xbd; 0xff;
     0xec; 0x72; 0x0; 0x0; 0x0];
  (* U+0044 *)
    [0x9f; 0xff; 0xff; 0xff; 0xfe; 0xb7; 0x20; 0x0;
     0x0; 0x9; 0xff; 0xff; 0xff; 0xff; 0xff; 0xff;
     0xa2; 0x0; 0x0; 0x9f; 0xff; 0xff; 0xff; 0xff;
     0xff; 0xff; 0xe4; 0x0; 0x9; 0xff; 0xfe; 0xcc;
     0xcd; 0xff; 0xff; 0xff; 0xf3; 0x0; 0x9f; 0xff;
     0x90; 0x0; 0x0; 0x4c; 0xff; 0xff; 0xe0; 0x9;
     0xff; 0xf9; 0x0; 0x0; 0x0; 0x9; 0xff; 0xff;
     0x70; 0x9f; 0xff; 0x90; 0x0; 0x0; 0x0; 0xc;
     0xff; 0xfd; 0x9; 0xff; 0xf9; 0x0; 0x0; 0x0;
     0x0; 0x4f; 0xff; 0xf2; 0x9f; 0xff; 0x90; 0x0;
     0x0; 0x0; 0x0; 0xff; 0xff; 0x59; 0xff; 0xf9;
     0x0; 0x0; 0x0; 0x0; 0xd; 0xff; 0xf7; 0x9f;
     0xff; 0x90; 0x0; 0x0; 0x0; 0x0; 0xcf; 0xff;
     0x89; 0xff; 0xf9; 0x0; 0x0; 0x0; 0x0; 0xd;
     0xff; 0xf7; 0x9f; 0xff; 0x90; 0x0; 0x0; 0x0;
     0x0; 0xff; 0xff; 0x69; 0xff; 0xf9; 0x0; 0x0;
     0x0; 0x0; 0x4f; 0xff; 0xf2; 0x9f; 0xff; 0x90;
     0x0; 0x0; 0x0; 0xc; 0xff; 0xfe; 0x9; 0xff;
     0xf9; 0x0; 0x0; 0x0; 0x9; 0xff; 0xff; 0x70;
     0x9f; 0xff; 0x90; 0x0; 0x0; 0x4c; 0xff; 0xff;
     0xe0; 0x9; 0xff; 0xfe; 0xcc; 0xcd; 0xff; 0xff;
     0xff; 0xf3; 0x0; 0x9f; 0xff; 0xff; 0xff; 0xff;
     0xff; 0xff; 0xe4; 0x0; 0x9; 0xff; 0xff; 0xff;
     0xff; 0xff; 0xff; 0xa1; 0x0; 0x0; 0x9f; 0xff;
     0xff; 0xff; 0xfe; 0xb7; 0x20; 0x0; 0x0; 0x0]].
Definition glyph_bitmap_0045 : list (list Z) := [
  (* U+0045 *)
    [0x9f; 0xff; 0xff; 0xff; 0xff; 0xff; 0xfc; 0x9f;
     0xff; 0xff; 0xff; 0xff; 0xff; 0xfc; 0x9f; 0xff;
     0xff; 0xff; 0xff; 0xff; 0xfc; 0x9f; 0xff; 0xed;
     0xdd; 0xdd; 0xdd; 0xda; 0x9f; 0xff; 0x90; 0x0;
     0x0; 0x0; 0x0; 0x9f; 0xff; 0x90; 0x0; 0x0;
     0x0; 0x0; 0x9f; 0xff; 0x90; 0x0; 0x0; 0x0;
     0x0; 0x9f; 0xff; 0x90; 0x0; 0x0; 0x0; 0x0;
     0x9f; 0xff; 0xda; 0xaa; 0xaa; 0xaa; 0x80; 0x9f;
     0xff; 0xff; 0xff; 0xff; 0xff; 0xe0; 0x9f; 0xff;
     0xff; 0xff; 0xff; 0xff; 0xe0; 0x9f; 0xff; 0xff;
     0xff; 0xff; 0xff; 0xe0; 0x9f; 0xff; 0x90; 0x0;
     0x0; 0x0; 0x0; 0x9f; 0xff; 0x90; 0x0; 0x0;
     0x0; 0x0; 0x9f; 0xff; 0x90; 0x0; 0x0; 0x0;
     0x0; 0x9f; 0xff; 0x90; 0x0; 0x0; 0x0; 0x0;
     0x9f; 0xff; 0x90; 0x0; 0x0; 0x0; 0x0; 0x9f;
     0xff; 0xed; 0xdd; 0xdd; 0xdd; 0xda; 0x9f; 0xff;
     0xff; 0xff; 0xff; 0xff; 0xfc; 0x9f; 0xff; 0xff;
     0xff; 0xff; 0xff; 0xfc; 0x9f; 0xff; 0xff; 0xff;
     0xff; 0xff; 0xfc];
  (* U+0046 *)
    [0x9f; 0xff; 0xff; 0xff; 0xff; 0xff; 0xfe; 0x9f;
     0xff; 0xff; 0xff; 0xff; 0xff; 0xfe; 0x9f; 0xff;
     0xff; 0xff; 0xff; 0xff; 0xfe; 0x9f; 0xff; 0xfe;
     0xee; 0xee; 0xee; 0xec; 0x9f; 0xff; 0x90; 0x0;
     0x0; 0x0; 0x0; 0x9f; 0xff; 0x90; 0x0; 0x0;
     0x0; 0x0; 0x9f; 0xff; 0x90; 0x0; 0x0; 0x0;
     0x0; 0x9f; 0xff; 0x90; 0x0; 0x0; 0x0; 0x0;
     0x9f; 0xff; 0x90; 0x0; 0x0; 0x0; 0x0; 0x9f;
     0xff; 0xff; 0xff; 0xff; 0xff; 0xd0; 0x9f; 0xff;
     0xff; 0xff; 0xff; 0xff; 0xd0; 0x9f; 0xff; 0xff;
     0xff; 0xff; 0xff; 0xd0; 0x9f; 0xff; 0xec; 0xcc;
     0xcc; 0xcc; 0xa0; 0x9f; 0xff; 0x90; 0x0; 0x0;
     0x0; 0x0; 0x9f; 0xff; 0x90; 0x0; 0x0; 0x0;
     0x0; 0x9f; 0xff; 0x90; 0x0; 0x0; 0x0; 0x0;
     0x9f; 0xff; 0x90; 0x0; 0x0; 0x0; 0x0; 0x9f;
     0xff; 0x90; 0x0; 0x0; 0x0; 0x0; 0x9f; 0xff;
     0x90; 0x0; 0x0; 0x0; 0x0; 0x9f; 0xff; 0x90;
     0x0; 0x0; 0x0; 0x0; 0x9f; 0xff; 0x90; 0x0;
     0x0; 0x0; 0x0];
  (* U+0047 *)
    [0x0; 0x0; 0x0; 0x16; 0xbd; 0xff; 0xec; 0x83;
     0x0; 0x0; 0x0; 0x0; 0x1; 0x9f; 0xff; 0xff;
     0xff; 0xff; 0xfc; 0x20; 0x0; 0x0; 0x3; 0xef;
     0xff; 0xff; 0xff; 0xff; 0xff; 0xff; 0x50; 0x0;
     0x3; 0xff; 0xff; 0xff; 0xfe; 0xdf; 0xff; 0xff;
     0xff; 0x50; 0x1; 0xef; 0xff; 0xfc; 0x40; 0x0;
     0x3; 0xaf; 0xff; 0xfe; 0x10; 0x9f; 0xff; 0xf7;
     0x0; 0x0; 0x0; 0x0; 0x5f; 0xff; 0xf8; 0x1f;
     0xff; 0xf9; 0x0; 0x0; 0x0; 0x0; 0x0; 0x9f;
     0xb6; 0x26; 0xff; 0xff; 0x10; 0x0; 0x0; 0x0;
     0x0; 0x0; 0x0; 0x0; 0xaf; 0xff; 0xa0; 0x0;
     0x0; 0x0; 0x0; 0x0; 0x0; 0x0; 0xb; 0xff;
     0xf7; 0x0; 0x0; 0x8; 0x88; 0x88; 0x88; 0x88;
     0x86; 0xcf; 0xff; 0x60; 0x0; 0x0; 0xff; 0xff;
     0xff; 0xff; 0xff; 0xbb; 0xff; 0xf7; 0x0; 0x0;
     0xf; 0xff; 0xff; 0xff; 0xff; 0xfb; 0xaf; 0xff;
     0xa0; 0x0; 0x0; 0xff; 0xff; 0xff; 0xff; 0xff;
     0xb6; 0xff; 0xfe; 0x0; 0x0; 0x0; 0x0; 0x0;
     0x5; 0xff; 0xfb; 0x1f; 0xff; 0xf8; 0x0; 0x0;
     0x0; 0x0; 0x0; 0xbf; 0xff; 0xb0; 0xaf; 0xff;
     0xf5; 0x0; 0x0; 0x0; 0x0; 0x7f; 0xff; 0xfb;
     0x2; 0xff; 0xff; 0xfa; 0x20; 0x0; 0x2; 0xaf;
     0xff; 0xff; 0xb0; 0x4; 0xff; 0xff; 0xff; 0xec;
     0xcd; 0xff; 0xff; 0xff; 0xfb; 0x0; 0x5; 0xff;
     0xff; 0xff; 0xff; 0xff; 0xff; 0xce; 0xff; 0xb0;
     0x0; 0x2; 0xbf; 0xff; 0xff; 0xff; 0xff; 0xb1;
     0xdf; 0xfb; 0x0; 0x0; 0x0; 0x28; 0xce; 0xfe;
     0xd9; 0x40; 0xb; 0xff; 0xb0];
  (* U+0048 *)
    [0x9f; 0xff; 0x90; 0x0; 0x0; 0x0; 0x2; 0xff;
     0xff; 0x9; 0xff; 0xf9; 0x0; 0x0; 0x0; 0x0;
     0x2f; 0xff; 0xf0; 0x9f; 0xff; 0x90; 0x0; 0x0;
     0x0; 0x2; 0xff; 0xff; 0x9; 0xff; 0xf9; 0x0;
     0x0; 0x0; 0x0; 0x2f; 0xff; 0xf0; 0x9f; 0xff;
     0x90; 0x0; 0x0; 0x0; 0x2; 0xff; 0xff; 0x9;
     0xff; 0xf9; 0x0; 0x0; 0x0; 0x0; 0x2f; 0xff;
     0xf0; 0x9f; 0xff; 0x90; 0x0; 0x0; 0x0; 0x2;
     0xff; 0xff; 0x9; 0xff; 0xf9; 0x0; 0x0; 0x0;
     0x0; 0x2f; 0xff; 0xf0; 0x9f; 0xff; 0xed; 0xdd;
     0xdd; 0xdd; 0xdd; 0xff; 0xff; 0x9; 0xff; 0xff;
     0xff; 0xff; 0xff; 0xff; 0xff; 0xff; 0xf0; 0x9f;
     0xff; 0xff; 0xff; 0xff; 0xff; 0xff; 0xff; 0xff;
     0x9; 0xff; 0xff; 0xff; 0xff; 0xff; 0xff; 0xff;
     0xff; 0xf0; 0x9f; 0xff; 0x90; 0x0; 0x0; 0x0;
     0x2; 0xff; 0xff; 0x9; 0xff; 0xf9; 0x0; 0x0;
     0x0; 0x0; 0x2f; 0xff; 0xf0; 0x9f; 0xff; 0x90;
     0x0; 0x0; 0x0; 0x2; 0xff; 0xff; 0x9; 0xff;
     0xf9; 0x0; 0x0; 0x0; 0x0; 0x2f; 0xff; 0xf0;
     0x9f; 0xff; 0x90; 0x0; 0x0; 0x0; 0x2; 0xff;
     0xff; 0x9; 0xff; 0xf9; 0x0; 0x0; 0x0; 0x0;
     0x2f; 0xff; 0xf0; 0x9f; 0xff; 0x90; 0x0; 0x0;
     0x0; 0x2; 0xff; 0xff; 0x9; 0xff; 0xf9; 0x0;
     0x0; 0x0; 0x0; 0x2f; 0xff; 0xf0; 0x9f; 0xff;
     0x90; 0x0; 0x0; 0x0; 0x2; 0xff; 0xff; 0x0];
  (* U+0049 *)
    [0x9f; 0xff; 0xa9; 0xff; 0xfa; 0x9f; 0xff; 0xa9;
     0xff; 0xfa; 0x9f; 0xff; 0xa9; 0xff; 0xfa; 0x9f;
     0xff; 0xa9; 0xff; 0xfa; 0x9f; 0xff; 0xa9; 0xff;
     0xfa; 0x9f; 0xff; 0xa9; 0xff; 0xfa; 0x9f; 0xff;
     0xa9; 0xff; 0xfa; 0x9f; 0xff; 0xa9; 0xff; 0xfa;
     0x9f; 0xff; 0xa9; 0xff; 0xfa; 0x9f; 0xff; 0xa9;
     0xff; 0xfa; 0x9f; 0xff; 0xa0];
  (* U+004A *)
    [0x0; 0x0; 0x0; 0x0; 0x0; 0xaf; 0xff; 0x70;
     0x0; 0x0; 0x0; 0x0; 0xa; 0xff; 0xf7; 0x0;
     0x0; 0x0; 0x0; 0x0; 0xaf; 0xff; 0x70; 0x0;
     0x0; 0x0; 0x0; 0xa; 0xff; 0xf7; 0x0; 0x0;
     0x0; 0x0; 0x0; 0xaf; 0xff; 0x70; 0x0; 0x0;
     0x0; 0x0; 0xa; 0xff; 0xf7; 0x0; 0x0; 0x0;
     0x0; 0x0; 0xaf; 0xff; 0x70; 0x0; 0x0; 0x0;
     0x0; 0xa; 0xff; 0xf7; 0x0; 0x0; 0x0; 0x0;
     0x0; 0xaf; 0xff; 0x70; 0x0; 0x0; 0x0; 0x0;
     0xa; 0xff; 0xf7; 0x0; 0x0; 0x0; 0x0; 0x0;
     0xaf; 0xff; 0x70; 0x0; 0x0; 0x0; 0x0; 0xa;
     0xff; 0xf7; 0x14; 0x79; 0x70; 0x0; 0x0; 0xaf;
     0xff; 0x76; 0xff; 0xf9; 0x0; 0x0; 0xa; 0xff;
     0xf7; 0x6f; 0xff; 0xa0; 0x0; 0x0; 0xbf; 0xff;
     0x74; 0xff; 0xfe; 0x0; 0x0; 0xe; 0xff; 0xf5;
     0x1f; 0xff; 0xfa; 0x10; 0x1a; 0xff; 0xff; 0x10;
     0xaf; 0xff; 0xff; 0xef; 0xff; 0xff; 0xa0; 0x1;
     0xef; 0xff; 0xff; 0xff; 0xff; 0xe1; 0x0; 0x2;
     0xdf; 0xff; 0xff; 0xff; 0xd2; 0x0; 0x0; 0x0;
     0x6b; 0xef; 0xeb; 0x60; 0x0; 0x0]].
Definition glyph_bitmap_004b : list (list Z) := [
  (* U+004B *)
    [0x9f; 0xff; 0x90; 0x0; 0x0; 0x0; 0x5f; 0xff;
     0xfe; 0x29; 0xff; 0xf9; 0x0; 0x0; 0x0; 0x4f;
     0xff; 0xff; 0x30; 0x9f; 0xff; 0x90; 0x0; 0x0;
     0x3f; 0xff; 0xff; 0x30; 0x9; 0xff; 0xf9; 0x0;
     0x0; 0x2e; 0xff; 0xff; 0x40; 0x0; 0x9f; 0xff;
     0x90; 0x0; 0x1d; 0xff; 0xff; 0x60; 0x0; 0x9;
     0xff; 0xf9; 0x0; 0xc; 0xff; 0xff; 0x70; 0x0;
     0x0; 0x9f; 0xff; 0x90; 0xb; 0xff; 0xff; 0x80;
     0x0; 0x0; 0x9; 0xff; 0xf9; 0xa; 0xff; 0xff;
     0x90; 0x0; 0x0; 0x0; 0x9f; 0xff; 0x98; 0xff;
     0xff; 0xa0; 0x0; 0x0; 0x0; 0x9; 0xff; 0xfe;
     0xff; 0xff; 0xf5; 0x0; 0x0; 0x0; 0x0; 0x9f;
     0xff; 0xff; 0xff; 0xff; 0xe1; 0x0; 0x0; 0x0;
     0x9; 0xff; 0xff; 0xff; 0xff; 0xff; 0xc0; 0x0;
     0x0; 0x0; 0x9f; 0xff; 0xff; 0xeb; 0xff; 0xff;
     0x70; 0x0; 0x0; 0x9; 0xff; 0xff; 0xe2; 0x1e;
     0xff; 0xff; 0x30; 0x0; 0x0; 0x9f; 0xff; 0xf3;
     0x0; 0x3f; 0xff; 0xfd; 0x0; 0x0; 0x9; 0xff;
     0xf9; 0x0; 0x0; 0x8f; 0xff; 0xfa; 0x0; 0x0;
     0x9f; 0xff; 0x90; 0x0; 0x0; 0xcf; 0xff; 0xf5;
     0x0; 0x9; 0xff; 0xf9; 0x0; 0x0; 0x2; 0xff;
     0xff; 0xf2; 0x0; 0x9f; 0xff; 0x90; 0x0; 0x0;
     0x6; 0xff; 0xff; 0xc0; 0x9; 0xff; 0xf9; 0x0;
     0x0; 0x0; 0xa; 0xff; 0xff; 0x80; 0x9f; 0xff;
     0x90; 0x0; 0x0; 0x0; 0x1e; 0xff; 0xff; 0x30];
  (* U+004C *)
    [0x9f; 0xff; 0x90; 0x0; 0x0; 0x0; 0x0; 0x9;
     0xff; 0xf9; 0x0; 0x0; 0x0; 0x0; 0x0; 0x9f;
     0xff; 0x90; 0x0; 0x0; 0x0; 0x0; 0x9; 0xff;
     0xf9; 0x0; 0x0; 0x0; 0x0; 0x0; 0x9f; 0xff;
     0x90; 0x0; 0x0; 0x0; 0x0; 0x9; 0xff; 0xf9;
     0x0; 0x0; 0x0; 0x0; 0x0; 0x9f; 0xff; 0x90;
     0x0; 0x0; 0x0; 0x0; 0x9; 0xff; 0xf9; 0x0;
     0x0; 0x0; 0x0; 0x0; 0x9f; 0xff; 0x90; 0x0;
     0x0; 0x0; 0x0; 0x9; 0xff; 0xf9; 0x0; 0x0;
     0x0; 0x0; 0x0; 0x9f; 0xff; 0x90; 0x0; 0x0;
     0x0; 0x0; 0x9; 0xff; 0xf9; 0x0; 0x0; 0x0;
     0x0; 0x0; 0x9f; 0xff; 0x90; 0x0; 0x0; 0x0;
     0x0; 0x9; 0xff; 0xf9; 0x0; 0x0; 0x0; 0x0;
     0x0; 0x9f; 0xff; 0x90; 0x0; 0x0; 0x0; 0x0;
     0x9; 0xff; 0xf9; 0x0; 0x0; 0x0; 0x0; 0x0;
     0x9f; 0xff; 0x90; 0x0; 0x0; 0x0; 0x0; 0x9;
     0xff; 0xff; 0xee; 0xee; 0xee; 0xee; 0xe0; 0x9f;
     0xff; 0xff; 0xff; 0xff; 0xff; 0xff; 0x9; 0xff;
     0xff; 0xff; 0xff; 0xff; 0xff; 0xf0; 0x9f; 0xff;
     0xff; 0xff; 0xff; 0xff; 0xff; 0x0];
  (* U+004D *)
    [0x9f; 0xff; 0xff; 0x10; 0x0; 0x0; 0x0; 0x0;
     0x0; 0xbf; 0xff; 0xff; 0x29; 0xff; 0xff; 0xf8;
     0x0; 0x0; 0x0; 0x0; 0x0; 0x1f; 0xff; 0xff;
     0xf2; 0x9f; 0xff; 0xff; 0xe0; 0x0; 0x0; 0x0;
     0x0; 0x8; 0xff; 0xff; 0xff; 0x29; 0xff; 0xff;
     0xff; 0x50; 0x0; 0x0; 0x0; 0x0; 0xef; 0xff;
     0xff; 0xf2; 0x9f; 0xff; 0xff; 0xfc; 0x0; 0x0;
     0x0; 0x0; 0x5f; 0xff; 0xff; 0xff; 0x29; 0xff;
     0xff; 0xff; 0xf3; 0x0; 0x0; 0x0; 0xb; 0xff;
     0xff; 0xff; 0xf2; 0x9f; 0xff; 0xef; 0xff; 0xa0;
     0x0; 0x0; 0x2; 0xff; 0xff; 0xff; 0xff; 0x29;
     0xff; 0xf8; 0xff; 0xff; 0x10; 0x0; 0x0; 0x9f;
     0xff; 0x9e; 0xff; 0xf2; 0x9f; 0xff; 0x6b; 0xff;
     0xf7; 0x0; 0x0; 0xe; 0xff; 0xf2; 0xef; 0xff;
     0x29; 0xff; 0xf6; 0x4f; 0xff; 0xe0; 0x0; 0x6;
     0xff; 0xfb; 0xe; 0xff; 0xf2; 0x9f; 0xff; 0x60;
     0xef; 0xff; 0x50; 0x0; 0xcf; 0xff; 0x50; 0xef;
     0xff; 0x29; 0xff; 0xf6; 0x7; 0xff; 0xfb; 0x0;
     0x3f; 0xff; 0xe0; 0xe; 0xff; 0xf2; 0x9f; 0xff;
     0x60; 0x1f; 0xff; 0xf2; 0x9; 0xff; 0xf7; 0x0;
     0xef; 0xff; 0x29; 0xff; 0xf6; 0x0; 0xaf; 0xff;
     0x91; 0xff; 0xff; 0x10; 0xe; 0xff; 0xf2; 0x9f;
     0xff; 0x60; 0x3; 0xff; 0xff; 0x7f; 0xff; 0xa0;
     0x0; 0xef; 0xff; 0x29; 0xff; 0xf6; 0x0; 0xc;
     0xff; 0xff; 0xff; 0xf3; 0x0; 0xe; 0xff; 0xf2;
     0x9f; 0xff; 0x60; 0x0; 0x5f; 0xff; 0xff; 0xfd;
     0x0; 0x0; 0xef; 0xff; 0x29; 0xff; 0xf6; 0x0;
     0x0; 0xef; 0xff; 0xff; 0x60; 0x0; 0xe; 0xff;
     0xf2; 0x9f; 0xff; 0x60; 0x0; 0x8; 0xff; 0xff;
     0xf0; 0x0; 0x0; 0xef; 0xff; 0x29; 0xff; 0xf6;
     0x0; 0x0; 0x2f; 0xff; 0xf9; 0x0; 0x0; 0xe;
     0xff; 0xf2; 0x9f; 0xff; 0x60; 0x0; 0x0; 0xbf;
     0xff; 0x20; 0x0; 0x0; 0xef; 0xff; 0x20];
  (* U+004E *)
    [0x9f; 0xff; 0xfd; 0x0; 0x0; 0x0; 0x0; 0x9f;
     0xff; 0x99; 0xff; 0xff; 0xf8; 0x0; 0x0; 0x0;
     0x9; 0xff; 0xf9; 0x9f; 0xff; 0xff; 0xf3; 0x0;
     0x0; 0x0; 0x9f; 0xff; 0x99; 0xff; 0xff; 0xff;
     0xc0; 0x0; 0x0; 0x9; 0xff; 0xf9; 0x9f; 0xff;
     0xff; 0xff; 0x70; 0x0; 0x0; 0x9f; 0xff; 0x99;
     0xff; 0xff; 0xff; 0xff; 0x20; 0x0; 0x9; 0xff;
     0xf9; 0x9f; 0xff; 0xcf; 0xff; 0xfb; 0x0; 0x0;
     0x9f; 0xff; 0x99; 0xff; 0xf9; 0x8f; 0xff; 0xf5;
     0x0; 0x9; 0xff; 0xf9; 0x9f; 0xff; 0x90; 0xdf;
     0xff; 0xe1; 0x0; 0x9f; 0xff; 0x99; 0xff; 0xf9;
     0x3; 0xff; 0xff; 0xa0; 0x9; 0xff; 0xf9; 0x9f;
     0xff; 0x90; 0x9; 0xff; 0xff; 0x40; 0x9f; 0xff;
     0x99; 0xff; 0xf9; 0x0; 0xe; 0xff; 0xfd; 0x9;
     0xff; 0xf9; 0x9f; 0xff; 0x90; 0x0; 0x4f; 0xff;
     0xf8; 0x9f; 0xff; 0x99; 0xff; 0xf9; 0x0; 0x0;
     0xaf; 0xff; 0xfc; 0xff; 0xf9; 0x9f; 0xff; 0x90;
     0x0; 0x1; 0xef; 0xff; 0xff; 0xff; 0x99; 0xff;
     0xf9; 0x0; 0x0; 0x5; 0xff; 0xff; 0xff; 0xf9;
     0x9f; 0xff; 0x90; 0x0; 0x0; 0xa; 0xff; 0xff;
     0xff; 0x99; 0xff; 0xf9; 0x0; 0x0; 0x0; 0x1e;
     0xff; 0xff; 0xf9; 0x9f; 0xff; 0x90; 0x0; 0x0;
     0x0; 0x6f; 0xff; 0xff; 0x99; 0xff; 0xf9; 0x0;
     0x0; 0x0; 0x0; 0xbf; 0xff; 0xf9; 0x9f; 0xff;
     0x90; 0x0; 0x0; 0x0; 0x2; 0xff; 0xff; 0x90];
  (* U+004F *)
    [0x0; 0x0; 0x0; 0x16; 0xad; 0xff; 0xeb; 0x72;
     0x0; 0x0; 0x0; 0x0; 0x0; 0x1; 0x9f; 0xff;
     0xff; 0xff; 0xff; 0xfa; 0x20; 0x0; 0x0; 0x0;
     0x3; 0xef; 0xff; 0xff; 0xff; 0xff; 0xff; 0xff;
     0x50; 0x0; 0x0; 0x3; 0xff; 0xff; 0xff; 0xff;
     0xff; 0xff; 0xff; 0xff; 0x50; 0x0; 0x1; 0xef;
     0xff; 0xfd; 0x62; 0x0; 0x15; 0xcf; 0xff; 0xff;
     0x30; 0x0; 0x9f; 0xff; 0xfa; 0x0; 0x0; 0x0;
     0x0; 0x7f; 0xff; 0xfc; 0x0; 0x1f; 0xff; 0xfb;
     0x0; 0x0; 0x0; 0x0; 0x0; 0x8f; 0xff; 0xf4;
     0x6; 0xff; 0xff; 0x10; 0x0; 0x0; 0x0; 0x0;
     0x0; 0xef; 0xff; 0x90; 0xaf; 0xff; 0xb0; 0x0;
     0x0; 0x0; 0x0; 0x0; 0x8; 0xff; 0xfd; 0xb;
     0xff; 0xf8; 0x0; 0x0; 0x0; 0x0; 0x0; 0x0;
     0x5f; 0xff; 0xf0; 0xcf; 0xff; 0x70; 0x0; 0x0;
     0x0; 0x0; 0x0; 0x4; 0xff; 0xff; 0xb; 0xff;
     0xf8; 0x0; 0x0; 0x0; 0x0; 0x0; 0x0; 0x5f;
     0xff; 0xf0; 0xaf; 0xff; 0xb0; 0x0; 0x0; 0x0;
     0x0; 0x0; 0x8; 0xff; 0xfd; 0x6; 0xff; 0xff;
     0x10; 0x0; 0x0; 0x0; 0x0; 0x0; 0xef; 0xff;
     0x90; 0x1f; 0xff; 0xfb; 0x0; 0x0; 0x0; 0x0;
     0x0; 0x8f; 0xff; 0xf4; 0x0; 0x9f; 0xff; 0xfa;
     0x0; 0x0; 0x0; 0x0; 0x7f; 0xff; 0xfc; 0x0;
     0x1; 0xef; 0xff; 0xfe; 0x72; 0x0; 0x16; 0xcf;
     0xff; 0xff; 0x30; 0x0; 0x3; 0xff; 0xff; 0xff;
     0xff; 0xff; 0xff; 0xff; 0xff; 0x50; 0x0; 0x0;
     0x3; 0xef; 0xff; 0xff; 0xff; 0xff; 0xff; 0xff;
     0x50; 0x0; 0x0; 0x0; 0x1; 0x9f; 0xff; 0xff;
     0xff; 0xff; 0xfb; 0x20; 0x0; 0x0; 0x0; 0x0;
     0x0; 0x16; 0xbd; 0xff; 0xeb; 0x72; 0x0; 0x0;
     0x0; 0x0]].
Definition glyph_bitmap_0050 : list (list Z) := [
  (* U+0050 *)
    [0x9f; 0xff; 0xff; 0xff; 0xfe; 0xb5; 0x0; 0x0;
     0x9f; 0xff; 0xff; 0xff; 0xff; 0xff; 0xd2; 0x0;
     0x9f; 0xff; 0xff; 0xff; 0xff; 0xff; 0xfe; 0x10;
     0x9f; 0xff; 0xd8; 0x88; 0xad; 0xff; 0xff; 0xa0;
     0x9f; 0xff; 0x90; 0x0; 0x0; 0x9f; 0xff; 0xf1;
     0x9f; 0xff; 0x90; 0x0; 0x0; 0xf; 0xff; 0xf4;
     0x9f; 0xff; 0x90; 0x0; 0x0; 0xd; 0xff; 0xf5;
     0x9f; 0xff; 0x90; 0x0; 0x0; 0xf; 0xff; 0xf4;
     0x9f; 0xff; 0x90; 0x0; 0x0; 0x9f; 0xff; 0xf1;
     0x9f; 0xff; 0xc8; 0x88; 0x9d; 0xff; 0xff; 0xa0;
     0x9f; 0xff; 0xff; 0xff; 0xff; 0xff; 0xfe; 0x10;
     0x9f; 0xff; 0xff; 0xff; 0xff; 0xff; 0xd2; 0x0;
     0x9f; 0xff; 0xff; 0xff; 0xfe; 0xb6; 0x0; 0x0;
     0x9f; 0xff; 0x90; 0x0; 0x0; 0x0; 0x0; 0x0;
     0x9f; 0xff; 0x90; 0x0; 0x0; 0x0; 0x0; 0x0;
     0x9f; 0xff; 0x90; 0x0; 0x0; 0x0; 0x0; 0x0;
     0x9f; 0xff; 0x90; 0x0; 0x0; 0x0; 0x0; 0x0;
     0x9f; 0xff; 0x90; 0x0; 0x0; 0x0; 0x0; 0x0;
     0x9f; 0xff; 0x90; 0x0; 0x0; 0x0; 0x0; 0x0;
     0x9f; 0xff; 0x90; 0x0; 0x0; 0x0; 0x0; 0x0;
     0x9f; 0xff; 0x90; 0x0; 0x0; 0x0; 0x0; 0x0];
  (* U+0051 *)
    [0x0; 0x0; 0x0; 0x16; 0xad; 0xff; 0xeb; 0x72;
     0x0; 0x0; 0x0; 0x0; 0x0; 0x1; 0x9f; 0xff;
     0xff; 0xff; 0xff; 0xfb; 0x20; 0x0; 0x0; 0x0;
     0x3; 0xef; 0xff; 0xff; 0xff; 0xff; 0xff; 0xff;
     0x50; 0x0; 0x0; 0x3; 0xff; 0xff; 0xff; 0xff;
     0xff; 0xff; 0xff; 0xff; 0x50; 0x0; 0x1; 0xef;
     0xff; 0xfd; 0x62; 0x0; 0x15; 0xcf; 0xff; 0xff;
     0x30; 0x0; 0x9f; 0xff; 0xfa; 0x0; 0x0; 0x0;
     0x0; 0x7f; 0xff; 0xfc; 0x0; 0x1f; 0xff; 0xfb;
     0x0; 0x0; 0x0; 0x0; 0x0; 0x8f; 0xff; 0xf4;
     0x6; 0xff; 0xff; 0x10; 0x0; 0x0; 0x0; 0x0;
     0x0; 0xef; 0xff; 0x90; 0xaf; 0xff; 0xb0; 0x0;
     0x0; 0x0; 0x0; 0x0; 0x8; 0xff; 0xfd; 0xb;
     0xff; 0xf8; 0x0; 0x0; 0x0; 0x0; 0x0; 0x0;
     0x5f; 0xff; 0xf0; 0xcf; 0xff; 0x70; 0x0; 0x0;
     0x0; 0x0; 0x0; 0x4; 0xff; 0xff; 0xb; 0xff;
     0xf8; 0x0; 0x0; 0x0; 0x6; 0xb0; 0x0; 0x5f;
     0xff; 0xf0; 0xaf; 0xff; 0xb0; 0x0; 0x0; 0xa;
     0xff; 0xb0; 0x8; 0xff; 0xfd; 0x6; 0xff; 0xff;
     0x10; 0x0; 0x3; 0xff; 0xff; 0xa1; 0xef; 0xff;
     0x90; 0x1f; 0xff; 0xfb; 0x0; 0x0; 0x3; 0xff;
     0xff; 0xef; 0xff; 0xf3; 0x0; 0x9f; 0xff; 0xfa;
     0x0; 0x0; 0x4; 0xff; 0xff; 0xff; 0xfb; 0x0;
     0x1; 0xef; 0xff; 0xfe; 0x72; 0x0; 0x19; 0xff;
     0xff; 0xff; 0x20; 0x0; 0x3; 0xff; 0xff; 0xff;
     0xff; 0xff; 0xff; 0xff; 0xff; 0xa0; 0x0; 0x0;
     0x3; 0xef; 0xff; 0xff; 0xff; 0xff; 0xff; 0xff;
     0xff; 0x80; 0x0; 0x0; 0x1; 0x9f; 0xff; 0xff;
     0xff; 0xff; 0xfb; 0xff; 0xff; 0x60; 0x0; 0x0;
     0x0; 0x16; 0xbd; 0xff; 0xeb; 0x71; 0x8; 0xff;
     0xf8; 0x0; 0x0; 0x0; 0x0; 0x0; 0x0; 0x0;
     0x0; 0x0; 0x9; 0xf5; 0x0; 0x0; 0x0; 0x0;
     0x0; 0x0; 0x0; 0x0; 0x0; 0x0; 0x2; 0x0;
     0x0];
  (* U+0052 *)
    [0x9f; 0xff; 0xff; 0xff; 0xfe; 0xc7; 0x10; 0x0;
     0x9f; 0xff; 0xff; 0xff; 0xff; 0xff; 0xe4; 0x0;
     0x9f; 0xff; 0xff; 0xff; 0xff; 0xff; 0xff; 0x30;
     0x9f; 0xff; 0xd8; 0x88; 0xad; 0xff; 0xff; 0xc0;
     0x9f; 0xff; 0x90; 0x0; 0x0; 0x8f; 0xff; 0xf3;
     0x9f; 0xff; 0x90; 0x0; 0x0; 0xe; 0xff; 0xf6;
     0x9f; 0xff; 0x90; 0x0; 0x0; 0xc; 0xff; 0xf7;
     0x9f; 0xff; 0x90; 0x0; 0x0; 0xe; 0xff; 0xf6;
     0x9f; 0xff; 0x90; 0x0; 0x0; 0x8f; 0xff; 0xf3;
     0x9f; 0xff; 0xc8; 0x88; 0x9d; 0xff; 0xff; 0xc0;
     0x9f; 0xff; 0xff; 0xff; 0xff; 0xff; 0xfe; 0x20;
     0x9f; 0xff; 0xff; 0xff; 0xff; 0xff; 0xd2; 0x0;
     0x9f; 0xff; 0xff; 0xff; 0xff; 0xf5; 0x0; 0x0;
     0x9f; 0xff; 0x90; 0xe; 0xff; 0xf8; 0x0; 0x0;
     0x9f; 0xff; 0x90; 0x7; 0xff; 0xff; 0x10; 0x0;
     0x9f; 0xff; 0x90; 0x0; 0xef; 0xff; 0x90; 0x0;
     0x9f; 0xff; 0x90; 0x0; 0x6f; 0xff; 0xf2; 0x0;
     0x9f; 0xff; 0x90; 0x0; 0xd; 0xff; 0xfa; 0x0;
     0x9f; 0xff; 0x90; 0x0; 0x5; 0xff; 0xff; 0x30;
     0x9f; 0xff; 0x90; 0x0; 0x0; 0xdf; 0xff; 0xb0;
     0x9f; 0xff; 0x90; 0x0; 0x0; 0x5f; 0xff; 0xf4];
  (* U+0053 *)
    [0x0; 0x0; 0x2; 0x9d; 0xff; 0xeb; 0x60; 0x0;
     0x0; 0x0; 0x0; 0x9f; 0xff; 0xff; 0xff; 0xfe;
     0x40; 0x0; 0x0; 0xc; 0xff; 0xff; 0xff; 0xff;
     0xff; 0xf5; 0x0; 0x0; 0x8f; 0xff; 0xff; 0xba;
     0xcf; 0xff; 0xfe; 0x10; 0x0; 0xff; 0xff; 0xa0;
     0x0; 0x4; 0xef; 0xff; 0x70; 0x3; 0xff; 0xff;
     0x0; 0x0; 0x0; 0x5f; 0xfb; 0x50; 0x4; 0xff;
     0xfe; 0x0; 0x0; 0x0; 0x5; 0x0; 0x0; 0x2;
     0xff; 0xff; 0x60; 0x0; 0x0; 0x0; 0x0; 0x0;
     0x0; 0xdf; 0xff; 0xfc; 0x85; 0x20; 0x0; 0x0;
     0x0; 0x0; 0x3f; 0xff; 0xff; 0xff; 0xff; 0xa4;
     0x0; 0x0; 0x0; 0x4; 0xef; 0xff; 0xff; 0xff;
     0xff; 0xb1; 0x0; 0x0; 0x0; 0x7; 0xcf; 0xff;
     0xff; 0xff; 0xfc; 0x0; 0x0; 0x0; 0x0; 0x0;
     0x36; 0x9e; 0xff; 0xff; 0x70; 0x0; 0x0; 0x30;
     0x0; 0x0; 0x1; 0xcf; 0xff; 0xd0; 0x8; 0xcf;
     0xf0; 0x0; 0x0; 0x0; 0x3f; 0xff; 0xf0; 0xe;
     0xff; 0xf6; 0x0; 0x0; 0x0; 0x4f; 0xff; 0xf0;
     0x9; 0xff; 0xff; 0x60; 0x0; 0x2; 0xdf; 0xff;
     0xb0; 0x1; 0xff; 0xff; 0xfe; 0xba; 0xcf; 0xff;
     0xff; 0x40; 0x0; 0x4f; 0xff; 0xff; 0xff; 0xff;
     0xff; 0xf9; 0x0; 0x0; 0x3; 0xdf; 0xff; 0xff;
     0xff; 0xff; 0x70; 0x0; 0x0; 0x0; 0x5; 0xad;
     0xff; 0xec; 0x71; 0x0; 0x0];
  (* U+0054 *)
    [0x8f; 0xff; 0xff; 0xff; 0xff; 0xff; 0xff; 0xff;
     0xff; 0x18; 0xff; 0xff; 0xff; 0xff; 0xff; 0xff;
     0xff; 0xff; 0xf1; 0x8f; 0xff; 0xff; 0xff; 0xff;
     0xff; 0xff; 0xff; 0xff; 0x17; 0xee; 0xee; 0xee;
     0xff; 0xff; 0xee; 0xee; 0xee; 0xe1; 0x0; 0x0;
     0x0; 0xc; 0xff; 0xf6; 0x0; 0x0; 0x0; 0x0;
     0x0; 0x0; 0x0; 0xcf; 0xff; 0x60; 0x0; 0x0;
     0x0; 0x0; 0x0; 0x0; 0xc; 0xff; 0xf6; 0x0;
     0x0; 0x0; 0x0; 0x0; 0x0; 0x0; 0xcf; 0xff;
     0x60; 0x0; 0x0; 0x0; 0x0; 0x0; 0x0; 0xc;
     0xff; 0xf6; 0x0; 0x0; 0x0; 0x0; 0x0; 0x0;
     0x0; 0xcf; 0xff; 0x60; 0x0; 0x0; 0x0; 0x0;
     0x0; 0x0; 0xc; 0xff; 0xf6; 0x0; 0x0; 0x0;
     0x0; 0x0; 0x0; 0x0; 0xcf; 0xff; 0x60; 0x0;
     0x0; 0x0; 0x0; 0x0; 0x0; 0xc; 0xff; 0xf6;
     0x0; 0x0; 0x0; 0x0; 0x0; 0x0; 0x0; 0xcf;
     0xff; 0x60; 0x0; 0x0; 0x0; 0x0; 0x0; 0x0;
     0xc; 0xff; 0xf6; 0x0; 0x0; 0x0; 0x0; 0x0;
     0x0; 0x0; 0xcf; 0xff; 0x60; 0x0; 0x0; 0x0;
     0x0; 0x0; 0x0; 0xc; 0xff; 0xf6; 0x0; 0x0;
     0x0; 0x0; 0x0; 0x0; 0x0; 0xcf; 0xff; 0x60;
     0x0; 0x0; 0x0; 0x0; 0x0; 0x0; 0xc; 0xff;
     0xf6; 0x0; 0x0; 0x0; 0x0; 0x0; 0x0; 0x0;
     0xcf; 0xff; 0x60; 0x0; 0x0; 0x0; 0x0; 0x0;
     0x0; 0xc; 0xff; 0xf6; 0x0; 0x0; 0x0; 0x0]].
Definition glyph_bitmap_0055 : list (list Z) := [
  (* U+0055 *)
    [0xcf; 0xff; 0x50; 0x0; 0x0; 0x0; 0x9f; 0xff;
     0x9c; 0xff; 0xf5; 0x0; 0x0; 0x0; 0x9; 0xff;
     0xf9; 0xcf; 0xff; 0x50; 0x0; 0x0; 0x0; 0x9f;
     0xff; 0x9c; 0xff; 0xf5; 0x0; 0x0; 0x0; 0x9;
     0xff; 0xf9; 0xcf; 0xff; 0x50; 0x0; 0x0; 0x0;
     0x9f; 0xff; 0x9c; 0xff; 0xf5; 0x0; 0x0; 0x0;
     0x9; 0xff; 0xf9; 0xcf; 0xff; 0x50; 0x0; 0x0;
     0x0; 0x9f; 0xff; 0x9c; 0xff; 0xf5; 0x0; 0x0;
     0x0; 0x9; 0xff; 0xf9; 0xcf; 0xff; 0x50; 0x0;
     0x0; 0x0; 0x9f; 0xff; 0x9c; 0xff; 0xf5; 0x0;
     0x0; 0x0; 0x9; 0xff; 0xf9; 0xcf; 0xff; 0x50;
     0x0; 0x0; 0x0; 0x9f; 0xff; 0x9c; 0xff; 0xf5;
     0x0; 0x0; 0x0; 0x9; 0xff; 0xf9; 0xcf; 0xff;
     0x50; 0x0; 0x0; 0x0; 0x9f; 0xff; 0x9c; 0xff;
     0xf6; 0x0; 0x0; 0x0; 0x9; 0xff; 0xf8; 0xaf;
     0xff; 0x90; 0x0; 0x0; 0x0; 0xcf; 0xff; 0x77;
     0xff; 0xff; 0x10; 0x0; 0x0; 0x4f; 0xff; 0xf4;
     0x2f; 0xff; 0xfe; 0x51; 0x1; 0x7f; 0xff; 0xfe;
     0x0; 0xaf; 0xff; 0xff; 0xff; 0xff; 0xff; 0xff;
     0x60; 0x0; 0xdf; 0xff; 0xff; 0xff; 0xff; 0xff;
     0xa0; 0x0; 0x1; 0xaf; 0xff; 0xff; 0xff; 0xff;
     0x80; 0x0; 0x0; 0x0; 0x39; 0xdf; 0xfe; 0xc8;
     0x20; 0x0; 0x0];
  (* U+0056 *)
    [0x8f; 0xff; 0xf0; 0x0; 0x0; 0x0; 0x0; 0x3;
     0xff; 0xff; 0x22; 0xff; 0xff; 0x50; 0x0; 0x0;
     0x0; 0x0; 0x9f; 0xff; 0xb0; 0xc; 0xff; 0xfb;
     0x0; 0x0; 0x0; 0x0; 0xe; 0xff; 0xf5; 0x0;
     0x6f; 0xff; 0xf1; 0x0; 0x0; 0x0; 0x4; 0xff;
     0xff; 0x0; 0x0; 0xff; 0xff; 0x60; 0x0; 0x0;
     0x0; 0xaf; 0xff; 0x90; 0x0; 0xa; 0xff; 0xfc;
     0x0; 0x0; 0x0; 0xf; 0xff; 0xf3; 0x0; 0x0;
     0x4f; 0xff; 0xf2; 0x0; 0x0; 0x6; 0xff; 0xfd;
     0x0; 0x0; 0x0; 0xef; 0xff; 0x70; 0x0; 0x0;
     0xbf; 0xff; 0x70; 0x0; 0x0; 0x8; 0xff; 0xfd;
     0x0; 0x0; 0x1f; 0xff; 0xf1; 0x0; 0x0; 0x0;
     0x2f; 0xff; 0xf3; 0x0; 0x7; 0xff; 0xfb; 0x0;
     0x0; 0x0; 0x0; 0xcf; 0xff; 0x80; 0x0; 0xcf;
     0xff; 0x50; 0x0; 0x0; 0x0; 0x6; 0xff; 0xfe;
     0x0; 0x2f; 0xff; 0xf0; 0x0; 0x0; 0x0; 0x0;
     0xf; 0xff; 0xf4; 0x8; 0xff; 0xf9; 0x0; 0x0;
     0x0; 0x0; 0x0; 0xaf; 0xff; 0x90; 0xdf; 0xff;
     0x30; 0x0; 0x0; 0x0; 0x0; 0x4; 0xff; 0xff;
     0x4f; 0xff; 0xd0; 0x0; 0x0; 0x0; 0x0; 0x0;
     0xe; 0xff; 0xfd; 0xff; 0xf7; 0x0; 0x0; 0x0;
     0x0; 0x0; 0x0; 0x8f; 0xff; 0xff; 0xff; 0x10;
     0x0; 0x0; 0x0; 0x0; 0x0; 0x2; 0xff; 0xff;
     0xff; 0xb0; 0x0; 0x0; 0x0; 0x0; 0x0; 0x0;
     0xc; 0xff; 0xff; 0xf5; 0x0; 0x0; 0x0; 0x0;
     0x0; 0x0; 0x0; 0x6f; 0xff; 0xff; 0x0; 0x0;
     0x0; 0x0; 0x0; 0x0; 0x0; 0x1; 0xff; 0xff;
     0x90; 0x0; 0x0; 0x0; 0x0];
  (* U+0057 *)
    [0x8f; 0xff; 0xd0; 0x0; 0x0; 0x0; 0xd; 0xff;
     0xfc; 0x0; 0x0; 0x0; 0x0; 0xef; 0xff; 0x43;
     0xff; 0xff; 0x20; 0x0; 0x0; 0x2; 0xff; 0xff;
     0xf2; 0x0; 0x0; 0x0; 0x2f; 0xff; 0xf0; 0xe;
     0xff; 0xf6; 0x0; 0x0; 0x0; 0x7f; 0xff; 0xff;
     0x70; 0x0; 0x0; 0x7; 0xff; 0xfc; 0x0; 0xaf;
     0xff; 0xa0; 0x0; 0x0; 0xc; 0xff; 0xff; 0xfc;
     0x0; 0x0; 0x0; 0xbf; 0xff; 0x70; 0x6; 0xff;
     0xfe; 0x0; 0x0; 0x1; 0xff; 0xff; 0xff; 0xf1;
     0x0; 0x0; 0xf; 0xff; 0xf3; 0x0; 0x1f; 0xff;
     0xf3; 0x0; 0x0; 0x7f; 0xff; 0xff; 0xff; 0x60;
     0x0; 0x3; 0xff; 0xfe; 0x0; 0x0; 0xdf; 0xff;
     0x70; 0x0; 0xc; 0xff; 0xfb; 0xff; 0xfc; 0x0;
     0x0; 0x8f; 0xff; 0xa0; 0x0; 0x8; 0xff; 0xfc;
     0x0; 0x1; 0xff; 0xff; 0x1f; 0xff; 0xf1; 0x0;
     0xc; 0xff; 0xf5; 0x0; 0x0; 0x4f; 0xff; 0xf0;
     0x0; 0x6f; 0xff; 0xa0; 0xcf; 0xff; 0x60; 0x0;
     0xff; 0xff; 0x10; 0x0; 0x0; 0xff; 0xff; 0x40;
     0xc; 0xff; 0xf5; 0x6; 0xff; 0xfb; 0x0; 0x4f;
     0xff; 0xc0; 0x0; 0x0; 0xb; 0xff; 0xf9; 0x1;
     0xff; 0xff; 0x0; 0x1f; 0xff; 0xf1; 0x9; 0xff;
     0xf8; 0x0; 0x0; 0x0; 0x6f; 0xff; 0xd0; 0x6f;
     0xff; 0xa0; 0x0; 0xcf; 0xff; 0x60; 0xdf; 0xff;
     0x30; 0x0; 0x0; 0x2; 0xff; 0xff; 0x1b; 0xff;
     0xf5; 0x0; 0x7; 0xff; 0xfb; 0x1f; 0xff; 0xe0;
     0x0; 0x0; 0x0; 0xd; 0xff; 0xf7; 0xff; 0xff;
     0x0; 0x0; 0x2f; 0xff; 0xf6; 0xff; 0xfa; 0x0;
     0x0; 0x0; 0x0; 0x9f; 0xff; 0xff; 0xff; 0xb0;
     0x0; 0x0; 0xcf; 0xff; 0xef; 0xff; 0x60; 0x0;
     0x0; 0x0; 0x4; 0xff; 0xff; 0xff; 0xf6; 0x0;
     0x0; 0x7; 0xff; 0xff; 0xff; 0xf1; 0x0; 0x0;
     0x0; 0x0; 0xf; 0xff; 0xff; 0xff; 0x10; 0x0;
     0x0; 0x2f; 0xff; 0xff; 0xfd; 0x0; 0x0; 0x0;
     0x0; 0x0; 0xbf; 0xff; 0xff; 0xb0; 0x0; 0x0;
     0x0; 0xdf; 0xff; 0xff; 0x80; 0x0; 0x0; 0x0;
     0x0; 0x7; 0xff; 0xff; 0xf6; 0x0; 0x0; 0x0;
     0x8; 0xff; 0xff; 0xf4; 0x0; 0x0; 0x0; 0x0;
     0x0; 0x2f; 0xff; 0xff; 0x10; 0x0; 0x0; 0x0;
     0x2f; 0xff; 0xff; 0x0; 0x0; 0x0; 0x0; 0x0;
     0x0; 0xdf; 0xff; 0xc0; 0x0; 0x0; 0x0; 0x0;
     0xdf; 0xff; 0xb0; 0x0; 0x0; 0x0];
  (* U+0058 *)
    [0x2f; 0xff; 0xfc; 0x0; 0x0; 0x0; 0x0; 0x9f;
     0xff; 0xf3; 0x7; 0xff; 0xff; 0x60; 0x0; 0x0;
     0x4; 0xff; 0xff; 0x80; 0x0; 0xcf; 0xff; 0xf1;
     0x0; 0x0; 0xd; 0xff; 0xfd; 0x0; 0x0; 0x2f;
     0xff; 0xfa; 0x0; 0x0; 0x8f; 0xff; 0xf3; 0x0;
     0x0; 0x8; 0xff; 0xff; 0x50; 0x3; 0xff; 0xff;
     0x80; 0x0; 0x0; 0x0; 0xdf; 0xff; 0xe0; 0xc;
     0xff; 0xfd; 0x0; 0x0; 0x0; 0x0; 0x3f; 0xff;
     0xf9; 0x7f; 0xff; 0xf3; 0x0; 0x0; 0x0; 0x0;
     0x8; 0xff; 0xff; 0xff; 0xff; 0x80; 0x0; 0x0;
     0x0; 0x0; 0x0; 0xdf; 0xff; 0xff; 0xfd; 0x0;
     0x0; 0x0; 0x0; 0x0; 0x0; 0x3f; 0xff; 0xff;
     0xf3; 0x0; 0x0; 0x0; 0x0; 0x0; 0x0; 0xb;
     0xff; 0xff; 0xb0; 0x0; 0x0; 0x0; 0x0; 0x0;
     0x0; 0x3f; 0xff; 0xff; 0xf3; 0x0; 0x0; 0x0;
     0x0; 0x0; 0x0; 0xdf; 0xff; 0xff; 0xfd; 0x0;
     0x0; 0x0; 0x0; 0x0; 0x8; 0xff; 0xff; 0xff;
     0xff; 0x80; 0x0; 0x0; 0x0; 0x0; 0x3f; 0xff;
     0xf7; 0x9f; 0xff; 0xf3; 0x0; 0x0; 0x0; 0x0;
     0xdf; 0xff; 0xd0; 0xe; 0xff; 0xfd; 0x0; 0x0;
     0x0; 0x8; 0xff; 0xff; 0x30; 0x4; 0xff; 0xff;
     0x80; 0x0; 0x0; 0x3f; 0xff; 0xf9; 0x0; 0x0;
     0xaf; 0xff; 0xf3; 0x0; 0x0; 0xdf; 0xff; 0xe0;
     0x0; 0x0; 0x1f; 0xff; 0xfd; 0x0; 0x8; 0xff;
     0xff; 0x40; 0x0; 0x0; 0x6; 0xff; 0xff; 0x80;
     0x3f; 0xff; 0xfa; 0x0; 0x0; 0x0; 0x0; 0xcf;
     0xff; 0xf3]].
Definition glyph_bitmap_0059 : list (list Z) := [
  (* U+0059 *)
    [0x6f; 0xff; 0xf7; 0x0; 0x0; 0x0; 0x0; 0x9f;
     0xff; 0xf1; 0xc; 0xff; 0xfe; 0x10; 0x0; 0x0;
     0x2; 0xff; 0xff; 0x60; 0x3; 0xff; 0xff; 0x90;
     0x0; 0x0; 0xb; 0xff; 0xfc; 0x0; 0x0; 0x9f;
     0xff; 0xf2; 0x0; 0x0; 0x4f; 0xff; 0xf3; 0x0;
     0x0; 0xe; 0xff; 0xfb; 0x0; 0x0; 0xdf; 0xff;
     0x90; 0x0; 0x0; 0x5; 0xff; 0xff; 0x40; 0x7;
     0xff; 0xfe; 0x0; 0x0; 0x0; 0x0; 0xbf; 0xff;
     0xd0; 0x1e; 0xff; 0xf5; 0x0; 0x0; 0x0; 0x0;
     0x2f; 0xff; 0xf7; 0x9f; 0xff; 0xb0; 0x0; 0x0;
     0x0; 0x0; 0x8; 0xff; 0xff; 0xff; 0xff; 0x20;
     0x0; 0x0; 0x0; 0x0; 0x0; 0xef; 0xff; 0xff;
     0xf7; 0x0; 0x0; 0x0; 0x0; 0x0; 0x0; 0x5f;
     0xff; 0xff; 0xd0; 0x0; 0x0; 0x0; 0x0; 0x0;
     0x0; 0xb; 0xff; 0xff; 0x40; 0x0; 0x0; 0x0;
     0x0; 0x0; 0x0; 0x4; 0xff; 0xfd; 0x0; 0x0;
     0x0; 0x0; 0x0; 0x0; 0x0; 0x4; 0xff; 0xfd;
     0x0; 0x0; 0x0; 0x0; 0x0; 0x0; 0x0; 0x4;
     0xff; 0xfd; 0x0; 0x0; 0x0; 0x0; 0x0; 0x0;
     0x0; 0x4; 0xff; 0xfd; 0x0; 0x0; 0x0; 0x0;
     0x0; 0x0; 0x0; 0x4; 0xff; 0xfd; 0x0; 0x0;
     0x0; 0x0; 0x0; 0x0; 0x0; 0x4; 0xff; 0xfd;
     0x0; 0x0; 0x0; 0x0; 0x0; 0x0; 0x0; 0x4;
     0xff; 0xfd; 0x0; 0x0; 0x0; 0x0; 0x0; 0x0;
     0x0; 0x4; 0xff; 0xfd; 0x0; 0x0; 0x0; 0x0;
     0x0; 0x0; 0x0; 0x4; 0xff; 0xfd; 0x0; 0x0;
     0x0; 0x0];
  (* U+005A *)
    [0x7f; 0xff; 0xff; 0xff; 0xff; 0xff; 0xff; 0xff;
     0xc7; 0xff; 0xff; 0xff; 0xff; 0xff; 0xff; 0xff;
     0xfc; 0x7f; 0xff; 0xff; 0xff; 0xff; 0xff; 0xff;
     0xff; 0xc6; 0xee; 0xee; 0xee; 0xee; 0xee; 0xff;
     0xff; 0xfc; 0x0; 0x0; 0x0; 0x0; 0x0; 0x4f;
     0xff; 0xff; 0x30; 0x0; 0x0; 0x0; 0x0; 0x2f;
     0xff; 0xff; 0x50; 0x0; 0x0; 0x0; 0x0; 0x1e;
     0xff; 0xff; 0x70; 0x0; 0x0; 0x0; 0x0; 0xc;
     0xff; 0xff; 0xa0; 0x0; 0x0; 0x0; 0x0; 0xa;
     0xff; 0xff; 0xc0; 0x0; 0x0; 0x0; 0x0; 0x7;
     0xff; 0xff; 0xd1; 0x0; 0x0; 0x0; 0x0; 0x5;
     0xff; 0xff; 0xf2; 0x0; 0x0; 0x0; 0x0; 0x3;
     0xff; 0xff; 0xf4; 0x0; 0x0; 0x0; 0x0; 0x1;
     0xef; 0xff; 0xf6; 0x0; 0x0; 0x0; 0x0; 0x0;
     0xdf; 0xff; 0xf8; 0x0; 0x0; 0x0; 0x0; 0x0;
     0xbf; 0xff; 0xfb; 0x0; 0x0; 0x0; 0x0; 0x0;
     0x8f; 0xff; 0xfd; 0x0; 0x0; 0x0; 0x0; 0x0;
     0x6f; 0xff; 0xfe; 0x10; 0x0; 0x0; 0x0; 0x0;
     0xd; 0xff; 0xff; 0xfe; 0xee; 0xee; 0xee; 0xee;
     0xed; 0xdf; 0xff; 0xff; 0xff; 0xff; 0xff; 0xff;
     0xff; 0xed; 0xff; 0xff; 0xff; 0xff; 0xff; 0xff;
     0xff; 0xfe; 0xdf; 0xff; 0xff; 0xff; 0xff; 0xff;
     0xff; 0xff; 0xe0];
  (* U+005B *)
    [0x8f; 0xff; 0xff; 0xf5; 0x9f; 0xff; 0xff; 0xf5;
     0x9f; 0xff; 0xff; 0xf5; 0x9f; 0xfc; 0x0; 0x0;
     0x9f; 0xfc; 0x0; 0x0; 0x9f; 0xfc; 0x0; 0x0;
     0x9f; 0xfc; 0x0; 0x0; 0x9f; 0xfc; 0x0; 0x0;
     0x9f; 0xfc; 0x0; 0x0; 0x9f; 0xfc; 0x0; 0x0;
     0x9f; 0xfc; 0x0; 0x0; 0x9f; 0xfc; 0x0; 0x0;
     0x9f; 0xfc; 0x0; 0x0; 0x9f; 0xfc; 0x0; 0x0;
     0x9f; 0xfc; 0x0; 0x0; 0x9f; 0xfc; 0x0; 0x0;
     0x9f; 0xfc; 0x0; 0x0; 0x9f; 0xfc; 0x0; 0x0;
     0x9f; 0xfc; 0x0; 0x0; 0x9f; 0xfc; 0x0; 0x0;
     0x9f; 0xfc; 0x0; 0x0; 0x9f; 0xfc; 0x0; 0x0;
     0x9f; 0xfc; 0x0; 0x0; 0x9f; 0xfc; 0x0; 0x0;
     0x9f; 0xfc; 0x0; 0x0; 0x9f; 0xfc; 0x0; 0x0;
     0x9f; 0xff; 0xff; 0xf5; 0x9f; 0xff; 0xff; 0xf5;
     0x9f; 0xff; 0xff; 0xf5];
  (* U+005C *)
    [0xbf; 0xfe; 0x0; 0x0; 0x0; 0x0; 0x0; 0x3;
     0xff; 0xf7; 0x0; 0x0; 0x0; 0x0; 0x0; 0xb;
     0xff; 0xe0; 0x0; 0x0; 0x0; 0x0; 0x0; 0x3f;
     0xff; 0x70; 0x0; 0x0; 0x0; 0x0; 0x0; 0xbf;
     0xfe; 0x0; 0x0; 0x0; 0x0; 0x0; 0x3; 0xff;
     0xf7; 0x0; 0x0; 0x0; 0x0; 0x0; 0xb; 0xff;
     0xe0; 0x0; 0x0; 0x0; 0x0; 0x0; 0x3f; 0xff;
     0x70; 0x0; 0x0; 0x0; 0x0; 0x0; 0xbf; 0xfe;
     0x0; 0x0; 0x0; 0x0; 0x0; 0x3; 0xff; 0xf7;
     0x0; 0x0; 0x0; 0x0; 0x0; 0xb; 0xff; 0xe0;
     0x0; 0x0; 0x0; 0x0; 0x0; 0x3f; 0xff; 0x70;
     0x0; 0x0; 0x0; 0x0; 0x0; 0xaf; 0xfe; 0x0;
     0x0; 0x0; 0x0; 0x0; 0x2; 0xff; 0xf7; 0x0;
     0x0; 0x0; 0x0; 0x0; 0xa; 0xff; 0xe1; 0x0;
     0x0; 0x0; 0x0; 0x0; 0x2f; 0xff; 0x80; 0x0;
     0x0; 0x0; 0x0; 0x0; 0xaf; 0xff; 0x10; 0x0;
     0x0; 0x0; 0x0; 0x2; 0xff; 0xf8; 0x0; 0x0;
     0x0; 0x0; 0x0; 0xa; 0xff; 0xf1; 0x0; 0x0;
     0x0; 0x0; 0x0; 0x2f; 0xff; 0x80; 0x0; 0x0;
     0x0; 0x0; 0x0; 0xaf; 0xff; 0x10];
  (* U+005D *)
    [0xdf; 0xff; 0xff; 0xf1; 0xdf; 0xff; 0xff; 0xf1;
     0xdf; 0xff; 0xff; 0xf1; 0x0; 0x4; 0xff; 0xf1;
     0x0; 0x4; 0xff; 0xf1; 0x0; 0x4; 0xff; 0xf1;
     0x0; 0x4; 0xff; 0xf1; 0x0; 0x4; 0xff; 0xf1;
     0x0; 0x4; 0xff; 0xf1; 0x0; 0x4; 0xff; 0xf1;
     0x0; 0x4; 0xff; 0xf1; 0x0; 0x4; 0xff; 0xf1;
     0x0; 0x4; 0xff; 0xf1; 0x0; 0x4; 0xff; 0xf1;
     0x0; 0x4; 0xff; 0xf1; 0x0; 0x4; 0xff; 0xf1;
     0x0; 0x4; 0xff; 0xf1; 0x0; 0x4; 0xff; 0xf1;
     0x0; 0x4; 0xff; 0xf1; 0x0; 0x4; 0xff; 0xf1;
     0x0; 0x4; 0xff; 0xf1; 0x0; 0x4; 0xff; 0xf1;
     0x0; 0x4; 0xff; 0xf1; 0x0; 0x4; 0xff; 0xf1;
     0x0; 0x4; 0xff; 0xf1; 0x0; 0x5; 0xff; 0xf1;
     0xdf; 0xff; 0xff; 0xf1; 0xdf; 0xff; 0xff; 0xf1;
     0xdf; 0xff; 0xff; 0xf1];
  (* U+005E *)
    [0x0; 0x0; 0x0; 0x58; 0x85; 0x0; 0x0; 0x0;
     0x0; 0x0; 0x2; 0xff; 0xff; 0x10; 0x0; 0x0;
     0x0; 0x0; 0xb; 0xff; 0xff; 0x90; 0x0; 0x0;
     0x0; 0x0; 0x4f; 0xff; 0xff; 0xf3; 0x0; 0x0;
     0x0; 0x0; 0xdf; 0xfd; 0xdf; 0xfb; 0x0; 0x0;
     0x0; 0x6; 0xff; 0xf4; 0x5f; 0xff; 0x40; 0x0;
     0x0; 0xe; 0xff; 0xb0; 0xc; 0xff; 0xd0; 0x0;
     0x0; 0x8f; 0xff; 0x30; 0x3; 0xff; 0xf7; 0x0;
     0x2; 0xff; 0xfa; 0x0; 0x0; 0xbf; 0xfe; 0x10;
     0xa; 0xff; 0xf2; 0x0; 0x0; 0x2f; 0xff; 0x90;
     0x3f; 0xff; 0x90; 0x0; 0x0; 0x9; 0xff; 0xf2];
  (* U+005F *)
    [0x23; 0x33; 0x33; 0x33; 0x33; 0x33; 0x33; 0x31;
     0xdf; 0xff; 0xff; 0xff; 0xff; 0xff; 0xff; 0xf8;
     0xdf; 0xff; 0xff; 0xff; 0xff; 0xff; 0xff; 0xf8;
     0xdf; 0xff; 0xff; 0xff; 0xff; 0xff; 0xff; 0xf8];
  (* U+0060 *)
    [0x6; 0x77; 0x73; 0x0; 0x0; 0x5f; 0xff; 0xe0;
     0x0; 0x0; 0x7f; 0xff; 0x90; 0x0; 0x0; 0x8f;
     0xff; 0x30; 0x0; 0x0; 0x9f; 0xfc; 0x0]].
Definition glyph_bitmap_0061 : list (list Z) := [
  (* U+0061 *)
    [0x0; 0x3; 0xae; 0xff; 0xd9; 0x30; 0x0; 0x0;
     0x9f; 0xff; 0xff; 0xff; 0xf9; 0x0; 0x9; 0xff;
     0xff; 0xff; 0xff; 0xff; 0x70; 0x2f; 0xff; 0xf7;
     0x33; 0x9f; 0xff; 0xe0; 0x4e; 0xff; 0x60; 0x0;
     0xc; 0xff; 0xf2; 0x0; 0x14; 0x0; 0x0; 0x1d;
     0xff; 0xf4; 0x0; 0x3; 0x79; 0xce; 0xff; 0xff;
     0xf4; 0x2; 0xcf; 0xff; 0xff; 0xff; 0xff; 0xf4;
     0x1e; 0xff; 0xfd; 0xa7; 0x5b; 0xff; 0xf4; 0x8f;
     0xff; 0x90; 0x0; 0xa; 0xff; 0xf4; 0xbf; 0xff;
     0x40; 0x0; 0x1e; 0xff; 0xf4; 0xaf; 0xff; 0xb0;
     0x3; 0xcf; 0xff; 0xf4; 0x5f; 0xff; 0xff; 0xff;
     0xff; 0xff; 0xf4; 0x9; 0xff; 0xff; 0xff; 0xe8;
     0xff; 0xf5; 0x0; 0x4b; 0xef; 0xd9; 0x14; 0xff;
     0xf6];
  (* U+0062 *)
    [0xef; 0xff; 0x10; 0x0; 0x0; 0x0; 0x0; 0x0;
     0xef; 0xff; 0x10; 0x0; 0x0; 0x0; 0x0; 0x0;
     0xef; 0xff; 0x10; 0x0; 0x0; 0x0; 0x0; 0x0;
     0xef; 0xff; 0x10; 0x0; 0x0; 0x0; 0x0; 0x0;
     0xef; 0xff; 0x10; 0x0; 0x0; 0x0; 0x0; 0x0;
     0xef; 0xff; 0x10; 0x0; 0x0; 0x0; 0x0; 0x0;
     0xef; 0xff; 0x13; 0xae; 0xfe; 0xb5; 0x0; 0x0;
     0xef; 0xff; 0x8f; 0xff; 0xff; 0xff; 0xc1; 0x0;
     0xef; 0xff; 0xff; 0xff; 0xff; 0xff; 0xfc; 0x0;
     0xef; 0xff; 0xff; 0xb8; 0xae; 0xff; 0xff; 0x70;
     0xef; 0xff; 0xf4; 0x0; 0x1; 0xcf; 0xff; 0xd0;
     0xef; 0xff; 0x70; 0x0; 0x0; 0x1f; 0xff; 0xf2;
     0xef; 0xff; 0x10; 0x0; 0x0; 0xc; 0xff; 0xf4;
     0xef; 0xff; 0x0; 0x0; 0x0; 0xa; 0xff; 0xf5;
     0xef; 0xff; 0x10; 0x0; 0x0; 0xc; 0xff; 0xf4;
     0xef; 0xff; 0x80; 0x0; 0x0; 0x1f; 0xff; 0xf1;
     0xef; 0xff; 0xf4; 0x0; 0x1; 0xcf; 0xff; 0xc0;
     0xef; 0xff; 0xff; 0xb8; 0xae; 0xff; 0xff; 0x50;
     0xef; 0xff; 0xff; 0xff; 0xff; 0xff; 0xfa; 0x0;
     0xef; 0xff; 0x8f; 0xff; 0xff; 0xff; 0xa0; 0x0;
     0xef; 0xff; 0x4; 0xbe; 0xfe; 0xa4; 0x0; 0x0];
  (* U+0063 *)
    [0x0; 0x0; 0x5a; 0xef; 0xec; 0x81; 0x0; 0x0;
     0x2; 0xdf; 0xff; 0xff; 0xff; 0xf6; 0x0; 0x2;
     0xff; 0xff; 0xff; 0xff; 0xff; 0xf6; 0x0; 0xdf;
     0xff; 0xfd; 0xbb; 0xff; 0xff; 0xf1; 0x6f; 0xff;
     0xf6; 0x0; 0x1; 0xdf; 0xff; 0x6b; 0xff; 0xf8;
     0x0; 0x0; 0x3; 0xd8; 0x30; 0xef; 0xff; 0x20;
     0x0; 0x0; 0x0; 0x0; 0xf; 0xff; 0xf0; 0x0;
     0x0; 0x0; 0x0; 0x0; 0xef; 0xff; 0x20; 0x0;
     0x0; 0x0; 0x0; 0xb; 0xff; 0xf8; 0x0; 0x0;
     0x1; 0xc8; 0x30; 0x5f; 0xff; 0xf6; 0x0; 0x1;
     0xbf; 0xff; 0x80; 0xdf; 0xff; 0xfd; 0xab; 0xff;
     0xff; 0xf2; 0x2; 0xef; 0xff; 0xff; 0xff; 0xff;
     0xf6; 0x0; 0x2; 0xcf; 0xff; 0xff; 0xff; 0xf6;
     0x0; 0x0; 0x0; 0x5a; 0xef; 0xfc; 0x81; 0x0;
     0x0];
  (* U+0064 *)
    [0x0; 0x0; 0x0; 0x0; 0x0; 0xb; 0xff; 0xf3;
     0x0; 0x0; 0x0; 0x0; 0x0; 0xb; 0xff; 0xf3;
     0x0; 0x0; 0x0; 0x0; 0x0; 0xb; 0xff; 0xf3;
     0x0; 0x0; 0x0; 0x0; 0x0; 0xb; 0xff; 0xf3;
     0x0; 0x0; 0x0; 0x0; 0x0; 0xb; 0xff; 0xf3;
     0x0; 0x0; 0x0; 0x0; 0x0; 0xb; 0xff; 0xf3;
     0x0; 0x1; 0x7c; 0xff; 0xd8; 0x1b; 0xff; 0xf3;
     0x0; 0x4e; 0xff; 0xff; 0xff; 0xed; 0xff; 0xf3;
     0x4; 0xff; 0xff; 0xff; 0xff; 0xff; 0xff; 0xf3;
     0xe; 0xff; 0xff; 0xb8; 0xae; 0xff; 0xff; 0xf3;
     0x6f; 0xff; 0xf4; 0x0; 0x1; 0xcf; 0xff; 0xf3;
     0xbf; 0xff; 0x70; 0x0; 0x0; 0x1f; 0xff; 0xf3;
     0xef; 0xff; 0x20; 0x0; 0x0; 0xc; 0xff; 0xf3;
     0xff; 0xff; 0x10; 0x0; 0x0; 0xb; 0xff; 0xf3;
     0xef; 0xff; 0x20; 0x0; 0x0; 0xc; 0xff; 0xf3;
     0xbf; 0xff; 0x70; 0x0; 0x0; 0x1f; 0xff; 0xf3;
     0x6f; 0xff; 0xf4; 0x0; 0x1; 0xcf; 0xff; 0xf3;
     0xe; 0xff; 0xff; 0xb8; 0xae; 0xff; 0xff; 0xf3;
     0x4; 0xff; 0xff; 0xff; 0xff; 0xff; 0xff; 0xf3;
     0x0; 0x4e; 0xff; 0xff; 0xff; 0xeb; 0xff; 0xf3;
     0x0; 0x1; 0x7c; 0xef; 0xd8; 0x18; 0xff; 0xf4];
  (* U+0065 *)
    [0x0; 0x0; 0x6b; 0xef; 0xeb; 0x70; 0x0; 0x0;
     0x3; 0xef; 0xff; 0xff; 0xff; 0xe4; 0x0; 0x3;
     0xff; 0xff; 0xff; 0xff; 0xff; 0xf3; 0x0; 0xef;
     0xff; 0x95; 0x35; 0xbf; 0xff; 0xc0; 0x6f; 0xff;
     0x60; 0x0; 0x0; 0xbf; 0xff; 0x3b; 0xff; 0xfb;
     0xaa; 0xaa; 0xac; 0xff; 0xf6; 0xef; 0xff; 0xff;
     0xff; 0xff; 0xff; 0xff; 0x8f; 0xff; 0xff; 0xff;
     0xff; 0xff; 0xff; 0xf8; 0xef; 0xff; 0x0; 0x0;
     0x0; 0x0; 0x0; 0xb; 0xff; 0xf5; 0x0; 0x0;
     0x2; 0xa5; 0x0; 0x6f; 0xff; 0xe2; 0x0; 0x0;
     0xbf; 0xff; 0x20; 0xdf; 0xff; 0xf9; 0x67; 0xdf;
     0xff; 0xd0; 0x3; 0xff; 0xff; 0xff; 0xff; 0xff;
     0xf3; 0x0; 0x3; 0xdf; 0xff; 0xff; 0xff; 0xe3;
     0x0; 0x0; 0x0; 0x6b; 0xef; 0xfc; 0x70; 0x0;
     0x0];
  (* U+0066 *)
    [0x0; 0x0; 0x7; 0xcf; 0xfe; 0x20; 0x0; 0x1c;
     0xff; 0xff; 0xf3; 0x0; 0x9; 0xff; 0xff; 0xff;
     0x30; 0x0; 0xff; 0xff; 0xd8; 0x82; 0x0; 0x1f;
     0xff; 0xf0; 0x0; 0x0; 0x2; 0xff; 0xfe; 0x0;
     0x0; 0x9f; 0xff; 0xff; 0xff; 0xff; 0x39; 0xff;
     0xff; 0xff; 0xff; 0xf3; 0x9f; 0xff; 0xff; 0xff;
     0xff; 0x33; 0x67; 0xff; 0xff; 0x66; 0x61; 0x0;
     0x2f; 0xff; 0xe0; 0x0; 0x0; 0x2; 0xff; 0xfe;
     0x0; 0x0; 0x0; 0x2f; 0xff; 0xe0; 0x0; 0x0;
     0x2; 0xff; 0xfe; 0x0; 0x0; 0x0; 0x2f; 0xff;
     0xe0; 0x0; 0x0; 0x2; 0xff; 0xfe; 0x0; 0x0;
     0x0; 0x2f; 0xff; 0xe0; 0x0; 0x0; 0x2; 0xff;
     0xfe; 0x0; 0x0; 0x0; 0x2f; 0xff; 0xe0; 0x0;
     0x0; 0x2; 0xff; 0xfe; 0x0; 0x0; 0x0; 0x2f;
     0xff; 0xe0; 0x0; 0x0];
  (* U+0067 *)
    [0x0; 0x1; 0x8d; 0xff; 0xd7; 0xd; 0xff; 0xf0;
     0x5; 0xff; 0xff; 0xff; 0xfc; 0xef; 0xff; 0x4;
     0xff; 0xff; 0xff; 0xff; 0xff; 0xff; 0xf0; 0xef;
     0xff; 0xfa; 0x79; 0xef; 0xff; 0xff; 0x6f; 0xff;
     0xf3; 0x0; 0x1; 0xdf; 0xff; 0xfb; 0xff; 0xf7;
     0x0; 0x0; 0x3; 0xff; 0xff; 0xdf; 0xff; 0x20;
     0x0; 0x0; 0xf; 0xff; 0xfe; 0xff; 0xf2; 0x0;
     0x0; 0x0; 0xef; 0xff; 0xcf; 0xff; 0x40; 0x0;
     0x0; 0x1f; 0xff; 0xf9; 0xff; 0xfc; 0x0; 0x0;
     0x9; 0xff; 0xff; 0x3f; 0xff; 0xfa; 0x20; 0x18;
     0xff; 0xff; 0xf0; 0x9f; 0xff; 0xff; 0xff; 0xff;
     0xff; 0xff; 0x0; 0xbf; 0xff; 0xff; 0xff; 0xef;
     0xff; 0xf0; 0x0; 0x7e; 0xff; 0xff; 0xc2; 0xff;
     0xff; 0x0; 0x0; 0x3; 0x55; 0x20; 0xf; 0xff;
     0xe4; 0x9d; 0xe0; 0x0; 0x0; 0x4; 0xff; 0xfb;
     0xbf; 0xff; 0x80; 0x0; 0x1; 0xdf; 0xff; 0x65;
     0xff; 0xff; 0xd8; 0x8a; 0xff; 0xff; 0xe0; 0xa;
     0xff; 0xff; 0xff; 0xff; 0xff; 0xf4; 0x0; 0x8;
     0xff; 0xff; 0xff; 0xff; 0xe4; 0x0; 0x0; 0x2;
     0x9d; 0xff; 0xeb; 0x70; 0x0; 0x0]].
Definition glyph_bitmap_0068 : list (list Z) := [
  (* U+0068 *)
    [0xef; 0xff; 0x20; 0x0; 0x0; 0x0; 0x0; 0xef;
     0xff; 0x20; 0x0; 0x0; 0x0; 0x0; 0xef; 0xff;
     0x20; 0x0; 0x0; 0x0; 0x0; 0xef; 0xff; 0x20;
     0x0; 0x0; 0x0; 0x0; 0xef; 0xff; 0x20; 0x0;
     0x0; 0x0; 0x0; 0xef; 0xff; 0x20; 0x0; 0x0;
     0x0; 0x0; 0xef; 0xff; 0x26; 0xcf; 0xfd; 0x81;
     0x0; 0xef; 0xff; 0xcf; 0xff; 0xff; 0xfe; 0x20;
     0xef; 0xff; 0xff; 0xff; 0xff; 0xff; 0xc0; 0xef;
     0xff; 0xfe; 0xaa; 0xef; 0xff; 0xf3; 0xef; 0xff;
     0xd1; 0x0; 0x1e; 0xff; 0xf7; 0xef; 0xff; 0x50;
     0x0; 0x8; 0xff; 0xf9; 0xef; 0xff; 0x20; 0x0;
     0x6; 0xff; 0xf9; 0xef; 0xff; 0x20; 0x0; 0x6;
     0xff; 0xf9; 0xef; 0xff; 0x20; 0x0; 0x6; 0xff;
     0xf9; 0xef; 0xff; 0x20; 0x0; 0x6; 0xff; 0xf9;
     0xef; 0xff; 0x20; 0x0; 0x6; 0xff; 0xf9; 0xef;
     0xff; 0x20; 0x0; 0x6; 0xff; 0xf9; 0xef; 0xff;
     0x20; 0x0; 0x6; 0xff; 0xf9; 0xef; 0xff; 0x20;
     0x0; 0x6; 0xff; 0xf9; 0xef; 0xff; 0x20; 0x0;
     0x6; 0xff; 0xf9];
  (* U+0069 *)
    [0x5; 0xee; 0x80; 0x2f; 0xff; 0xf5; 0x4f; 0xff;
     0xf8; 0x1f; 0xff; 0xf4; 0x3; 0xbc; 0x50; 0x0;
     0x0; 0x0; 0xe; 0xff; 0xf2; 0xe; 0xff; 0xf2;
     0xe; 0xff; 0xf2; 0xe; 0xff; 0xf2; 0xe; 0xff;
     0xf2; 0xe; 0xff; 0xf2; 0xe; 0xff; 0xf2; 0xe;
     0xff; 0xf2; 0xe; 0xff; 0xf2; 0xe; 0xff; 0xf2;
     0xe; 0xff; 0xf2; 0xe; 0xff; 0xf2; 0xe; 0xff;
     0xf2; 0xe; 0xff; 0xf2; 0xe; 0xff; 0xf2];
  (* U+006A *)
    [0x0; 0x5; 0xee; 0x80; 0x0; 0x2f; 0xff; 0xf5;
     0x0; 0x4f; 0xff; 0xf8; 0x0; 0x1f; 0xff; 0xf4;
     0x0; 0x3; 0xbc; 0x60; 0x0; 0x0; 0x0; 0x0;
     0x0; 0xe; 0xff; 0xf2; 0x0; 0xe; 0xff; 0xf2;
     0x0; 0xe; 0xff; 0xf2; 0x0; 0xe; 0xff; 0xf2;
     0x0; 0xe; 0xff; 0xf2; 0x0; 0xe; 0xff; 0xf2;
     0x0; 0xe; 0xff; 0xf2; 0x0; 0xe; 0xff; 0xf2;
     0x0; 0xe; 0xff; 0xf2; 0x0; 0xe; 0xff; 0xf2;
     0x0; 0xe; 0xff; 0xf2; 0x0; 0xe; 0xff; 0xf2;
     0x0; 0xe; 0xff; 0xf2; 0x0; 0xe; 0xff; 0xf2;
     0x0; 0xe; 0xff; 0xf2; 0x0; 0xe; 0xff; 0xf2;
     0x0; 0xf; 0xff; 0xf1; 0x67; 0xcf; 0xff; 0xf0;
     0xcf; 0xff; 0xff; 0x90; 0xcf; 0xff; 0xfe; 0x10;
     0x9f; 0xfe; 0x91; 0x0];
  (* U+006B *)
    [0xef; 0xff; 0x20; 0x0; 0x0; 0x0; 0x0; 0xe;
     0xff; 0xf2; 0x0; 0x0; 0x0; 0x0; 0x0; 0xef;
     0xff; 0x20; 0x0; 0x0; 0x0; 0x0; 0xe; 0xff;
     0xf2; 0x0; 0x0; 0x0; 0x0; 0x0; 0xef; 0xff;
     0x20; 0x0; 0x0; 0x0; 0x0; 0xe; 0xff; 0xf2;
     0x0; 0x0; 0x0; 0x0; 0x0; 0xef; 0xff; 0x20;
     0x0; 0x4f; 0xff; 0xfd; 0x1e; 0xff; 0xf2; 0x0;
     0x3f; 0xff; 0xfe; 0x20; 0xef; 0xff; 0x20; 0x2e;
     0xff; 0xfe; 0x20; 0xe; 0xff; 0xf2; 0x1d; 0xff;
     0xff; 0x30; 0x0; 0xef; 0xff; 0x3d; 0xff; 0xff;
     0x40; 0x0; 0xe; 0xff; 0xfd; 0xff; 0xff; 0x40;
     0x0; 0x0; 0xef; 0xff; 0xff; 0xff; 0xb0; 0x0;
     0x0; 0xe; 0xff; 0xff; 0xff; 0xff; 0x50; 0x0;
     0x0; 0xef; 0xff; 0xff; 0xff; 0xfe; 0x10; 0x0;
     0xe; 0xff; 0xff; 0x9f; 0xff; 0xfb; 0x0; 0x0;
     0xef; 0xff; 0x90; 0x6f; 0xff; 0xf7; 0x0; 0xe;
     0xff; 0xf2; 0x0; 0xbf; 0xff; 0xf2; 0x0; 0xef;
     0xff; 0x20; 0x1; 0xef; 0xff; 0xc0; 0xe; 0xff;
     0xf2; 0x0; 0x5; 0xff; 0xff; 0x80; 0xef; 0xff;
     0x20; 0x0; 0xa; 0xff; 0xff; 0x30];
  (* U+006C *)
    [0xef; 0xff; 0x2e; 0xff; 0xf2; 0xef; 0xff; 0x2e;
     0xff; 0xf2; 0xef; 0xff; 0x2e; 0xff; 0xf2; 0xef;
     0xff; 0x2e; 0xff; 0xf2; 0xef; 0xff; 0x2e; 0xff;
     0xf2; 0xef; 0xff; 0x2e; 0xff; 0xf2; 0xef; 0xff;
     0x2e; 0xff; 0xf2; 0xef; 0xff; 0x2e; 0xff; 0xf2;
     0xef; 0xff; 0x2e; 0xff; 0xf2; 0xef; 0xff; 0x2e;
     0xff; 0xf2; 0xef; 0xff; 0x20];
  (* U+006D *)
    [0xef; 0xff; 0x4; 0xbe; 0xfd; 0x81; 0x0; 0x5b;
     0xef; 0xd9; 0x10; 0xe; 0xff; 0xf9; 0xff; 0xff;
     0xff; 0xe2; 0xaf; 0xff; 0xff; 0xff; 0x30; 0xef;
     0xff; 0xff; 0xff; 0xff; 0xff; 0xef; 0xff; 0xff;
     0xff; 0xfe; 0xe; 0xff; 0xff; 0xea; 0xbf; 0xff;
     0xff; 0xff; 0xba; 0xef; 0xff; 0xf5; 0xef; 0xff;
     0xc1; 0x0; 0x2f; 0xff; 0xff; 0x30; 0x0; 0xcf;
     0xff; 0x9e; 0xff; 0xf4; 0x0; 0x0; 0xaf; 0xff;
     0xa0; 0x0; 0x5; 0xff; 0xfa; 0xef; 0xff; 0x20;
     0x0; 0x8; 0xff; 0xf7; 0x0; 0x0; 0x3f; 0xff;
     0xae; 0xff; 0xf2; 0x0; 0x0; 0x8f; 0xff; 0x70;
     0x0; 0x3; 0xff; 0xfa; 0xef; 0xff; 0x20; 0x0;
     0x8; 0xff; 0xf7; 0x0; 0x0; 0x3f; 0xff; 0xae;
     0xff; 0xf2; 0x0; 0x0; 0x8f; 0xff; 0x70; 0x0;
     0x3; 0xff; 0xfa; 0xef; 0xff; 0x20; 0x0; 0x8;
     0xff; 0xf7; 0x0; 0x0; 0x3f; 0xff; 0xae; 0xff;
     0xf2; 0x0; 0x0; 0x8f; 0xff; 0x70; 0x0; 0x3;
     0xff; 0xfa; 0xef; 0xff; 0x20; 0x0; 0x8; 0xff;
     0xf7; 0x0; 0x0; 0x3f; 0xff; 0xae; 0xff; 0xf2;
     0x0; 0x0; 0x8f; 0xff; 0x70; 0x0; 0x3; 0xff;
     0xfa; 0xef; 0xff; 0x20; 0x0; 0x8; 0xff; 0xf7;
     0x0; 0x0; 0x3f; 0xff; 0xa0];
  (* U+006E *)
    [0xef; 0xff; 0x4; 0xbe; 0xfd; 0x81; 0x0; 0xef;
     0xff; 0x8f; 0xff; 0xff; 0xfe; 0x20; 0xef; 0xff;
     0xff; 0xff; 0xff; 0xff; 0xd0; 0xef; 0xff; 0xfe;
     0xaa; 0xef; 0xff; 0xf3; 0xef; 0xff; 0xd1; 0x0;
     0x1e; 0xff; 0xf7; 0xef; 0xff; 0x50; 0x0; 0x8;
     0xff; 0xf9; 0xef; 0xff; 0x20; 0x0; 0x6; 0xff;
     0xf9; 0xef; 0xff; 0x20; 0x0; 0x6; 0xff; 0xf9;
     0xef; 0xff; 0x20; 0x0; 0x6; 0xff; 0xf9; 0xef;
     0xff; 0x20; 0x0; 0x6; 0xff; 0xf9; 0xef; 0xff;
     0x20; 0x0; 0x6; 0xff; 0xf9; 0xef; 0xff; 0x20;
     0x0; 0x6; 0xff; 0xf9; 0xef; 0xff; 0x20; 0x0;
     0x6; 0xff; 0xf9; 0xef; 0xff; 0x20; 0x0; 0x6;
     0xff; 0xf9; 0xef; 0xff; 0x20; 0x0; 0x6; 0xff;
     0xf9];
  (* U+006F *)
    [0x0; 0x0; 0x5a; 0xef; 0xec; 0x81; 0x0; 0x0;
     0x0; 0x2d; 0xff; 0xff; 0xff; 0xff; 0x80; 0x0;
     0x2; 0xff; 0xff; 0xff; 0xff; 0xff; 0xf9; 0x0;
     0xd; 0xff; 0xff; 0xda; 0xbf; 0xff; 0xff; 0x50;
     0x6f; 0xff; 0xf5; 0x0; 0x1; 0xbf; 0xff; 0xe0;
     0xbf; 0xff; 0x80; 0x0; 0x0; 0x1e; 0xff; 0xf3;
     0xef; 0xff; 0x20; 0x0; 0x0; 0x9; 0xff; 0xf6;
     0xff; 0xff; 0x0; 0x0; 0x0; 0x8; 0xff; 0xf7;
     0xef; 0xff; 0x20; 0x0; 0x0; 0x9; 0xff; 0xf6;
     0xbf; 0xff; 0x80; 0x0; 0x0; 0x1e; 0xff; 0xf3;
     0x6f; 0xff; 0xf5; 0x0; 0x1; 0xbf; 0xff; 0xe0;
     0xd; 0xff; 0xff; 0xda; 0xbf; 0xff; 0xff; 0x50;
     0x2; 0xff; 0xff; 0xff; 0xff; 0xff; 0xf9; 0x0;
     0x0; 0x2d; 0xff; 0xff; 0xff; 0xff; 0x80; 0x0;
     0x0; 0x0; 0x5a; 0xef; 0xfc; 0x82; 0x0; 0x0]].
Definition glyph_bitmap_0070 : list (list Z) := [
  (* U+0070 *)
    [0xef; 0xff; 0x4; 0xbe; 0xfe; 0xb5; 0x0; 0x0;
     0xef; 0xff; 0x8f; 0xff; 0xff; 0xff; 0xc1; 0x0;
     0xef; 0xff; 0xff; 0xff; 0xff; 0xff; 0xfc; 0x0;
     0xef; 0xff; 0xff; 0xc8; 0xae; 0xff; 0xff; 0x60;
     0xef; 0xff; 0xf5; 0x0; 0x0; 0xbf; 0xff; 0xd0;
     0xef; 0xff; 0x80; 0x0; 0x0; 0x1f; 0xff; 0xf2;
     0xef; 0xff; 0x20; 0x0; 0x0; 0xb; 0xff; 0xf4;
     0xef; 0xff; 0x10; 0x0; 0x0; 0x9; 0xff; 0xf5;
     0xef; 0xff; 0x20; 0x0; 0x0; 0xb; 0xff; 0xf4;
     0xef; 0xff; 0x80; 0x0; 0x0; 0x1f; 0xff; 0xf1;
     0xef; 0xff; 0xf5; 0x0; 0x0; 0xbf; 0xff; 0xc0;
     0xef; 0xff; 0xff; 0xc8; 0x9e; 0xff; 0xff; 0x50;
     0xef; 0xff; 0xff; 0xff; 0xff; 0xff; 0xfa; 0x0;
     0xef; 0xff; 0xbf; 0xff; 0xff; 0xff; 0xa0; 0x0;
     0xef; 0xff; 0x25; 0xbe; 0xfe; 0xa4; 0x0; 0x0;
     0xef; 0xff; 0x20; 0x0; 0x0; 0x0; 0x0; 0x0;
     0xef; 0xff; 0x20; 0x0; 0x0; 0x0; 0x0; 0x0;
     0xef; 0xff; 0x20; 0x0; 0x0; 0x0; 0x0; 0x0;
     0xef; 0xff; 0x20; 0x0; 0x0; 0x0; 0x0; 0x0;
     0xef; 0xff; 0x20; 0x0; 0x0; 0x0; 0x0; 0x0;
     0xef; 0xff; 0x20; 0x0; 0x0; 0x0; 0x0; 0x0];
  (* U+0071 *)
    [0x0; 0x1; 0x8c; 0xff; 0xd8; 0x19; 0xff; 0xf3;
     0x0; 0x5f; 0xff; 0xff; 0xff; 0xeb; 0xff; 0xf3;
     0x4; 0xff; 0xff; 0xff; 0xff; 0xff; 0xff; 0xf3;
     0xe; 0xff; 0xff; 0xb8; 0xae; 0xff; 0xff; 0xf3;
     0x6f; 0xff; 0xf4; 0x0; 0x1; 0xcf; 0xff; 0xf3;
     0xbf; 0xff; 0x70; 0x0; 0x0; 0x1f; 0xff; 0xf3;
     0xef; 0xff; 0x20; 0x0; 0x0; 0xb; 0xff; 0xf3;
     0xff; 0xff; 0x10; 0x0; 0x0; 0xa; 0xff; 0xf3;
     0xef; 0xff; 0x20; 0x0; 0x0; 0xc; 0xff; 0xf3;
     0xbf; 0xff; 0x70; 0x0; 0x0; 0x1f; 0xff; 0xf3;
     0x6f; 0xff; 0xf4; 0x0; 0x1; 0xcf; 0xff; 0xf3;
     0xe; 0xff; 0xff; 0xb8; 0xae; 0xff; 0xff; 0xf3;
     0x3; 0xff; 0xff; 0xff; 0xff; 0xff; 0xff; 0xf3;
     0x0; 0x4e; 0xff; 0xff; 0xff; 0xec; 0xff; 0xf3;
     0x0; 0x1; 0x7c; 0xef; 0xd9; 0x1a; 0xff; 0xf3;
     0x0; 0x0; 0x0; 0x0; 0x0; 0xa; 0xff; 0xf3;
     0x0; 0x0; 0x0; 0x0; 0x0; 0xa; 0xff; 0xf3;
     0x0; 0x0; 0x0; 0x0; 0x0; 0xa; 0xff; 0xf3;
     0x0; 0x0; 0x0; 0x0; 0x0; 0xa; 0xff; 0xf3;
     0x0; 0x0; 0x0; 0x0; 0x0; 0xa; 0xff; 0xf3;
     0x0; 0x0; 0x0; 0x0; 0x0; 0xa; 0xff; 0xf3];
  (* U+0072 *)
    [0x0; 0x0; 0x0; 0x0; 0x0; 0xef; 0xff; 0x5;
     0xbe; 0xf2; 0xef; 0xff; 0x7f; 0xff; 0xf2; 0xef;
     0xff; 0xff; 0xff; 0xf2; 0xef; 0xff; 0xff; 0xfd;
     0xd1; 0xef; 0xff; 0xf8; 0x0; 0x0; 0xef; 0xff;
     0xb0; 0x0; 0x0; 0xef; 0xff; 0x50; 0x0; 0x0;
     0xef; 0xff; 0x20; 0x0; 0x0; 0xef; 0xff; 0x20;
     0x0; 0x0; 0xef; 0xff; 0x20; 0x0; 0x0; 0xef;
     0xff; 0x20; 0x0; 0x0; 0xef; 0xff; 0x20; 0x0;
     0x0; 0xef; 0xff; 0x20; 0x0; 0x0; 0xef; 0xff;
     0x20; 0x0; 0x0; 0xef; 0xff; 0x20; 0x0; 0x0];
  (* U+0073 *)
    [0x0; 0x2; 0x9d; 0xff; 0xd8; 0x10; 0x0; 0x5;
     0xff; 0xff; 0xff; 0xfe; 0x30; 0x2; 0xff; 0xff;
     0xff; 0xff; 0xfe; 0x0; 0x8f; 0xff; 0x70; 0x19;
     0xff; 0xf6; 0xb; 0xff; 0xf0; 0x0; 0xb; 0x95;
     0x10; 0x9f; 0xff; 0xb5; 0x10; 0x0; 0x0; 0x3;
     0xff; 0xff; 0xff; 0xe9; 0x30; 0x0; 0x6; 0xff;
     0xff; 0xff; 0xff; 0x70; 0x0; 0x2; 0x8c; 0xff;
     0xff; 0xff; 0x30; 0x0; 0x0; 0x0; 0x4b; 0xff;
     0xfa; 0x8; 0xcf; 0x70; 0x0; 0x1f; 0xff; 0xb0;
     0xef; 0xff; 0x51; 0x18; 0xff; 0xf9; 0x6; 0xff;
     0xff; 0xff; 0xff; 0xff; 0x20; 0x8; 0xff; 0xff;
     0xff; 0xff; 0x50; 0x0; 0x3; 0x9d; 0xff; 0xd9;
     0x20; 0x0];
  (* U+0074 *)
    [0x0; 0x8; 0xff; 0xf0; 0x0; 0x0; 0x0; 0x8f;
     0xff; 0x0; 0x0; 0x0; 0xa; 0xff; 0xf0; 0x0;
     0x0; 0x5; 0xff; 0xff; 0x0; 0x0; 0x9f; 0xff;
     0xff; 0xff; 0xff; 0x9; 0xff; 0xff; 0xff; 0xff;
     0xf0; 0x9f; 0xff; 0xff; 0xff; 0xff; 0x4; 0x88;
     0xff; 0xff; 0x88; 0x80; 0x0; 0xe; 0xff; 0xf0;
     0x0; 0x0; 0x0; 0xef; 0xff; 0x0; 0x0; 0x0;
     0xe; 0xff; 0xf0; 0x0; 0x0; 0x0; 0xef; 0xff;
     0x0; 0x0; 0x0; 0xe; 0xff; 0xf0; 0x0; 0x0;
     0x0; 0xef; 0xff; 0x0; 0x0; 0x0; 0xe; 0xff;
     0xf2; 0x0; 0x0; 0x0; 0xcf; 0xff; 0xd8; 0x80;
     0x0; 0x8; 0xff; 0xff; 0xff; 0x0; 0x0; 0xd;
     0xff; 0xff; 0xf0; 0x0; 0x0; 0x8; 0xdf; 0xfc;
     0x0];
  (* U+0075 *)
    [0xf; 0xff; 0xf0; 0x0; 0x0; 0x8f; 0xff; 0x70;
     0xff; 0xff; 0x0; 0x0; 0x8; 0xff; 0xf7; 0xf;
     0xff; 0xf0; 0x0; 0x0; 0x8f; 0xff; 0x70; 0xff;
     0xff; 0x0; 0x0; 0x8; 0xff; 0xf7; 0xf; 0xff;
     0xf0; 0x0; 0x0; 0x8f; 0xff; 0x70; 0xff; 0xff;
     0x0; 0x0; 0x8; 0xff; 0xf7; 0xf; 0xff; 0xf0;
     0x0; 0x0; 0x8f; 0xff; 0x70; 0xff; 0xff; 0x0;
     0x0; 0x8; 0xff; 0xf7; 0xf; 0xff; 0xf0; 0x0;
     0x0; 0x9f; 0xff; 0x70; 0xff; 0xff; 0x20; 0x0;
     0xb; 0xff; 0xf7; 0xe; 0xff; 0xfa; 0x0; 0x4;
     0xff; 0xff; 0x70; 0x9f; 0xff; 0xfd; 0xac; 0xff;
     0xff; 0xf7; 0x2; 0xff; 0xff; 0xff; 0xff; 0xff;
     0xff; 0x70; 0x5; 0xff; 0xff; 0xff; 0xfb; 0xff;
     0xf7; 0x0; 0x2; 0xae; 0xfe; 0xb4; 0x4f; 0xff;
     0x80];
  (* U+0076 *)
    [0x8f; 0xff; 0xd0; 0x0; 0x0; 0x5; 0xff; 0xfd;
     0x1; 0xff; 0xff; 0x30; 0x0; 0x0; 0xaf; 0xff;
     0x70; 0xb; 0xff; 0xf9; 0x0; 0x0; 0xf; 0xff;
     0xf1; 0x0; 0x4f; 0xff; 0xe0; 0x0; 0x6; 0xff;
     0xfb; 0x0; 0x0; 0xef; 0xff; 0x50; 0x0; 0xbf;
     0xff; 0x50; 0x0; 0x7; 0xff; 0xfa; 0x0; 0x1f;
     0xff; 0xe0; 0x0; 0x0; 0x1f; 0xff; 0xf1; 0x6;
     0xff; 0xf8; 0x0; 0x0; 0x0; 0xbf; 0xff; 0x60;
     0xcf; 0xff; 0x20; 0x0; 0x0; 0x4; 0xff; 0xfc;
     0x1f; 0xff; 0xc0; 0x0; 0x0; 0x0; 0xe; 0xff;
     0xf9; 0xff; 0xf6; 0x0; 0x0; 0x0; 0x0; 0x7f;
     0xff; 0xff; 0xff; 0x10; 0x0; 0x0; 0x0; 0x1;
     0xff; 0xff; 0xff; 0xa0; 0x0; 0x0; 0x0; 0x0;
     0xa; 0xff; 0xff; 0xf4; 0x0; 0x0; 0x0; 0x0;
     0x0; 0x4f; 0xff; 0xfe; 0x0; 0x0; 0x0; 0x0;
     0x0; 0x0; 0xdf; 0xff; 0x80; 0x0; 0x0; 0x0]].
Definition glyph_bitmap_0077 : list (list Z) := [
  (* U+0077 *)
    [0x7f; 0xff; 0xb0; 0x0; 0x0; 0xaf; 0xff; 0xd0;
     0x0; 0x0; 0x8f; 0xff; 0x62; 0xff; 0xff; 0x0;
     0x0; 0xf; 0xff; 0xff; 0x30; 0x0; 0xd; 0xff;
     0xf1; 0xd; 0xff; 0xf4; 0x0; 0x5; 0xff; 0xff;
     0xf8; 0x0; 0x1; 0xff; 0xfc; 0x0; 0x8f; 0xff;
     0x80; 0x0; 0xaf; 0xff; 0xff; 0xd0; 0x0; 0x6f;
     0xff; 0x70; 0x3; 0xff; 0xfd; 0x0; 0xf; 0xff;
     0xff; 0xff; 0x20; 0xa; 0xff; 0xf2; 0x0; 0xe;
     0xff; 0xf1; 0x5; 0xff; 0xf8; 0xff; 0xf8; 0x0;
     0xef; 0xfd; 0x0; 0x0; 0x9f; 0xff; 0x60; 0xaf;
     0xfe; 0xe; 0xff; 0xd0; 0x3f; 0xff; 0x90; 0x0;
     0x4; 0xff; 0xfb; 0xf; 0xff; 0x90; 0x9f; 0xff;
     0x28; 0xff; 0xf4; 0x0; 0x0; 0xf; 0xff; 0xf5;
     0xff; 0xf4; 0x3; 0xff; 0xf7; 0xcf; 0xfe; 0x0;
     0x0; 0x0; 0xaf; 0xff; 0xdf; 0xfe; 0x0; 0xe;
     0xff; 0xdf; 0xff; 0xa0; 0x0; 0x0; 0x5; 0xff;
     0xff; 0xff; 0x90; 0x0; 0x8f; 0xff; 0xff; 0xf5;
     0x0; 0x0; 0x0; 0xf; 0xff; 0xff; 0xf4; 0x0;
     0x3; 0xff; 0xff; 0xff; 0x0; 0x0; 0x0; 0x0;
     0xbf; 0xff; 0xfe; 0x0; 0x0; 0xe; 0xff; 0xff;
     0xb0; 0x0; 0x0; 0x0; 0x6; 0xff; 0xff; 0x90;
     0x0; 0x0; 0x8f; 0xff; 0xf6; 0x0; 0x0; 0x0;
     0x0; 0x1f; 0xff; 0xf4; 0x0; 0x0; 0x3; 0xff;
     0xff; 0x10; 0x0; 0x0];
  (* U+0078 *)
    [0x4f; 0xff; 0xf6; 0x0; 0x0; 0x6f; 0xff; 0xf2;
     0x9; 0xff; 0xff; 0x10; 0x1; 0xef; 0xff; 0x60;
     0x0; 0xdf; 0xff; 0xb0; 0xa; 0xff; 0xfb; 0x0;
     0x0; 0x3f; 0xff; 0xf6; 0x5f; 0xff; 0xe1; 0x0;
     0x0; 0x7; 0xff; 0xff; 0xef; 0xff; 0x50; 0x0;
     0x0; 0x0; 0xcf; 0xff; 0xff; 0xf9; 0x0; 0x0;
     0x0; 0x0; 0x2f; 0xff; 0xff; 0xd0; 0x0; 0x0;
     0x0; 0x0; 0x9; 0xff; 0xff; 0x80; 0x0; 0x0;
     0x0; 0x0; 0x2f; 0xff; 0xff; 0xf2; 0x0; 0x0;
     0x0; 0x0; 0xcf; 0xff; 0xff; 0xfc; 0x0; 0x0;
     0x0; 0x8; 0xff; 0xfd; 0xef; 0xff; 0x80; 0x0;
     0x0; 0x3f; 0xff; 0xf2; 0x5f; 0xff; 0xf3; 0x0;
     0x0; 0xdf; 0xff; 0x70; 0xb; 0xff; 0xfd; 0x0;
     0x9; 0xff; 0xfc; 0x0; 0x1; 0xef; 0xff; 0x90;
     0x4f; 0xff; 0xf2; 0x0; 0x0; 0x5f; 0xff; 0xf4];
  (* U+0079 *)
    [0x8f; 0xff; 0xe0; 0x0; 0x0; 0x0; 0xef; 0xff;
     0x41; 0xff; 0xff; 0x50; 0x0; 0x0; 0x6f; 0xff;
     0xd0; 0x9; 0xff; 0xfc; 0x0; 0x0; 0xc; 0xff;
     0xf6; 0x0; 0x2f; 0xff; 0xf3; 0x0; 0x3; 0xff;
     0xfe; 0x0; 0x0; 0xaf; 0xff; 0xb0; 0x0; 0x9f;
     0xff; 0x80; 0x0; 0x2; 0xff; 0xff; 0x20; 0x1f;
     0xff; 0xf1; 0x0; 0x0; 0xb; 0xff; 0xf9; 0x7;
     0xff; 0xfa; 0x0; 0x0; 0x0; 0x3f; 0xff; 0xf1;
     0xdf; 0xff; 0x30; 0x0; 0x0; 0x0; 0xbf; 0xff;
     0xbf; 0xff; 0xb0; 0x0; 0x0; 0x0; 0x4; 0xff;
     0xff; 0xff; 0xf4; 0x0; 0x0; 0x0; 0x0; 0xc;
     0xff; 0xff; 0xfd; 0x0; 0x0; 0x0; 0x0; 0x0;
     0x4f; 0xff; 0xff; 0x60; 0x0; 0x0; 0x0; 0x0;
     0x0; 0xdf; 0xff; 0xe0; 0x0; 0x0; 0x0; 0x0;
     0x0; 0xa; 0xff; 0xf8; 0x0; 0x0; 0x0; 0x0;
     0x0; 0x2; 0xff; 0xff; 0x10; 0x0; 0x0; 0x0;
     0x0; 0x0; 0x8f; 0xff; 0xa0; 0x0; 0x0; 0x0;
     0x0; 0x0; 0xf; 0xff; 0xf3; 0x0; 0x0; 0x0;
     0x0; 0x0; 0x7; 0xff; 0xfc; 0x0; 0x0; 0x0;
     0x0; 0x0; 0x0; 0xef; 0xff; 0x50; 0x0; 0x0;
     0x0; 0x0; 0x0; 0x5f; 0xff; 0xe0; 0x0; 0x0;
     0x0; 0x0; 0x0; 0xc; 0xff; 0xf7; 0x0; 0x0;
     0x0; 0x0; 0x0];
  (* U+007A *)
    [0xbf; 0xff; 0xff; 0xff; 0xff; 0xff; 0x3b; 0xff;
     0xff; 0xff; 0xff; 0xff; 0xf3; 0xbf; 0xff; 0xff;
     0xff; 0xff; 0xff; 0x34; 0x66; 0x66; 0x68; 0xff;
     0xff; 0xe1; 0x0; 0x0; 0x0; 0xcf; 0xff; 0xf3;
     0x0; 0x0; 0x0; 0xbf; 0xff; 0xf4; 0x0; 0x0;
     0x0; 0x9f; 0xff; 0xf6; 0x0; 0x0; 0x0; 0x6f;
     0xff; 0xf8; 0x0; 0x0; 0x0; 0x4f; 0xff; 0xfa;
     0x0; 0x0; 0x0; 0x3f; 0xff; 0xfc; 0x0; 0x0;
     0x0; 0x1e; 0xff; 0xfd; 0x10; 0x0; 0x0; 0xc;
     0xff; 0xff; 0x97; 0x77; 0x77; 0x72; 0xef; 0xff;
     0xff; 0xff; 0xff; 0xff; 0x5e; 0xff; 0xff; 0xff;
     0xff; 0xff; 0xf5; 0xef; 0xff; 0xff; 0xff; 0xff;
     0xff; 0x50];
  (* U+007B *)
    [0x0; 0x0; 0x1; 0x8c; 0xef; 0x10; 0x0; 0x3;
     0xef; 0xff; 0xf1; 0x0; 0x0; 0xdf; 0xff; 0xff;
     0x10; 0x0; 0x5f; 0xff; 0x91; 0x0; 0x0; 0x8;
     0xff; 0xe0; 0x0; 0x0; 0x0; 0xaf; 0xfb; 0x0;
     0x0; 0x0; 0xa; 0xff; 0xb0; 0x0; 0x0; 0x0;
     0xaf; 0xfb; 0x0; 0x0; 0x0; 0xa; 0xff; 0xb0;
     0x0; 0x0; 0x0; 0xaf; 0xfb; 0x0; 0x0; 0x0;
     0xb; 0xff; 0xb0; 0x0; 0x0; 0x0; 0xef; 0xf9;
     0x0; 0x0; 0x3; 0xbf; 0xff; 0x50; 0x0; 0xa;
     0xff; 0xff; 0xa0; 0x0; 0x0; 0xaf; 0xff; 0x50;
     0x0; 0x0; 0xa; 0xff; 0xff; 0x50; 0x0; 0x0;
     0x37; 0xef; 0xff; 0x30; 0x0; 0x0; 0x2; 0xff;
     0xf9; 0x0; 0x0; 0x0; 0xc; 0xff; 0xb0; 0x0;
     0x0; 0x0; 0xaf; 0xfb; 0x0; 0x0; 0x0; 0xa;
     0xff; 0xb0; 0x0; 0x0; 0x0; 0xaf; 0xfb; 0x0;
     0x0; 0x0; 0xa; 0xff; 0xb0; 0x0; 0x0; 0x0;
     0xaf; 0xfb; 0x0; 0x0; 0x0; 0x8; 0xff; 0xe0;
     0x0; 0x0; 0x0; 0x5f; 0xff; 0x91; 0x0; 0x0;
     0x0; 0xef; 0xff; 0xff; 0x10; 0x0; 0x3; 0xef;
     0xff; 0xf1; 0x0; 0x0; 0x1; 0x8d; 0xff; 0x10];
  (* U+007C *)
    [0x5a; 0xa7; 0x9f; 0xfc; 0x9f; 0xfc; 0x9f; 0xfc;
     0x9f; 0xfc; 0x9f; 0xfc; 0x9f; 0xfc; 0x9f; 0xfc;
     0x9f; 0xfc; 0x9f; 0xfc; 0x9f; 0xfc; 0x9f; 0xfc;
     0x9f; 0xfc; 0x9f; 0xfc; 0x9f; 0xfc; 0x9f; 0xfc;
     0x9f; 0xfc; 0x9f; 0xfc; 0x9f; 0xfc; 0x9f; 0xfc;
     0x9f; 0xfc; 0x9f; 0xfc; 0x9f; 0xfc; 0x9f; 0xfc;
     0x9f; 0xfc; 0x9f; 0xfc; 0x9f; 0xfc; 0x9f; 0xfc;
     0x9f; 0xfc];
  (* U+007D *)
    [0xdf; 0xd9; 0x20; 0x0; 0x0; 0xdf; 0xff; 0xf5;
     0x0; 0x0; 0xdf; 0xff; 0xff; 0x20; 0x0; 0x1;
     0x6f; 0xff; 0x80; 0x0; 0x0; 0xa; 0xff; 0xc0;
     0x0; 0x0; 0x7; 0xff; 0xd0; 0x0; 0x0; 0x7;
     0xff; 0xe0; 0x0; 0x0; 0x7; 0xff; 0xe0; 0x0;
     0x0; 0x7; 0xff; 0xe0; 0x0; 0x0; 0x7; 0xff;
     0xe0; 0x0; 0x0; 0x7; 0xff; 0xe0; 0x0; 0x0;
     0x5; 0xff; 0xf2; 0x0; 0x0; 0x1; 0xff; 0xfd;
     0x40; 0x0; 0x0; 0x6f; 0xff; 0xfe; 0x0; 0x0;
     0x3; 0xef; 0xfe; 0x0; 0x0; 0x3e; 0xff; 0xfe;
     0x0; 0x0; 0xef; 0xff; 0x95; 0x0; 0x5; 0xff;
     0xf4; 0x0; 0x0; 0x7; 0xff; 0xf0; 0x0; 0x0;
     0x7; 0xff; 0xe0; 0x0; 0x0; 0x7; 0xff; 0xe0;
     0x0; 0x0; 0x7; 0xff; 0xe0; 0x0; 0x0; 0x7;
     0xff; 0xe0; 0x0; 0x0; 0x7; 0xff; 0xd0; 0x0;
     0x0; 0xa; 0xff; 0xc0; 0x0; 0x0; 0x6f; 0xff;
     0x80; 0x0; 0xdf; 0xff; 0xff; 0x20; 0x0; 0xdf;
     0xff; 0xf6; 0x0; 0x0; 0xdf; 0xd9; 0x20; 0x0;
     0x0];
  (* U+007E *)
    [0x0; 0x0; 0x24; 0x30; 0x0; 0x0; 0x0; 0x0;
     0x0; 0x3; 0xcf; 0xff; 0xfa; 0x20; 0x0; 0x8;
     0x10; 0x4; 0xff; 0xff; 0xff; 0xff; 0xa5; 0x6c;
     0xfe; 0x40; 0xef; 0xff; 0xff; 0xff; 0xff; 0xff;
     0xff; 0xf4; 0x5; 0xfd; 0x40; 0x28; 0xff; 0xff;
     0xff; 0xf6; 0x0; 0x2; 0x10; 0x0; 0x1; 0x8d;
     0xfe; 0xa3; 0x0]].
Definition glyph_blocks : list (list Z) :=
  glyph_bitmap_0020 ++ glyph_bitmap_0028 ++ glyph_bitmap_0032 ++ glyph_bitmap_0038 ++ glyph_bitmap_0040 ++ glyph_bitmap_0045 ++ glyph_bitmap_004b ++ glyph_bitmap_0050 ++ glyph_bitmap_0055 ++ glyph_bitmap_0059 ++ glyph_bitmap_0061 ++ glyph_bitmap_0068 ++ glyph_bitmap_0070 ++ glyph_bitmap_0077.
Definition glyph_bitmap : list Z := concat glyph_blocks.

(** ** Glyphs *)

Definition glyph_dsc : list lv_font_fmt_txt_glyph_dsc_t := [
  GlyphDsc 0 0 0 0 0 0;
  GlyphDsc 0 119 0 0 0 0;
  GlyphDsc 0 160 6 21 2 0;
  GlyphDsc 63 193 11 9 1 11;
  GlyphDsc 113 356 21 19 1 0;
  GlyphDsc 313 286 16 26 1 (-3);
  GlyphDsc 521 410 24 20 1 0;
  GlyphDsc 761 344 20 21 2 0;
  GlyphDsc 971 104 5 9 1 11;
  GlyphDsc 994 158 9 31 1 (-6);
  GlyphDsc 1134 158 9 31 0 (-6);
  GlyphDsc 1274 218 13 12 0 9;
  GlyphDsc 1352 283 16 15 1 1;
  GlyphDsc 1472 150 7 10 1 (-5);
  GlyphDsc 1507 182 10 4 1 7;
  GlyphDsc 1527 149 7 6 1 0;
  GlyphDsc 1548 228 15 21 0 0;
  GlyphDsc 1706 300 17 20 1 0;
  GlyphDsc 1876 190 10 20 0 0;
  GlyphDsc 1976 261 16 20 0 0;
  GlyphDsc 2136 264 16 20 0 0;
  GlyphDsc 2296 287 18 19 0 0;
  GlyphDsc 2467 266 16 20 0 0;
  GlyphDsc 2627 279 16 20 1 0;
  GlyphDsc 2787 241 15 19 0 0;
  GlyphDsc 2930 273 15 20 1 0;
  GlyphDsc 3080 280 16 20 1 0;
  GlyphDsc 3240 150 7 15 1 0;
  GlyphDsc 3293 151 6 20 2 (-5);
  GlyphDsc 3353 239 13 17 1 0;
  GlyphDsc 3464 289 16 9 1 4;
  GlyphDsc 3536 239 14 17 0 0;
  GlyphDsc 3655 254 15 21 0 0;
  GlyphDsc 3813 397 23 23 1 (-2);
  GlyphDsc 4078 347 22 21 0 0;
  GlyphDsc 4309 293 16 21 2 0;
  GlyphDsc 4477 367 21 21 1 0;
  GlyphDsc 4698 348 19 21 2 0;
  GlyphDsc 4898 279 14 21 2 0;
  GlyphDsc 5045 270 14 21 2 0;
  GlyphDsc 5192 375 21 21 1 0;
  GlyphDsc 5413 359 19 21 2 0;
  GlyphDsc 5613 145 5 21 2 0;
  GlyphDsc 5666 267 15 21 0 0;
  GlyphDsc 5824 335 19 21 2 0;
  GlyphDsc 6024 269 15 21 2 0;
  GlyphDsc 6182 457 25 21 2 0;
  GlyphDsc 6445 368 19 21 2 0;
  GlyphDsc 6645 387 23 21 1 0;
  GlyphDsc 6887 291 16 21 2 0;
  GlyphDsc 7055 387 23 23 1 (-2);
  GlyphDsc 7320 300 16 21 2 0;
  GlyphDsc 7488 290 18 21 0 0;
  GlyphDsc 7677 297 19 21 0 0;
  GlyphDsc 7877 333 17 21 2 0;
  GlyphDsc 8056 330 21 21 0 0;
  GlyphDsc 8277 493 31 21 0 0;
  GlyphDsc 8603 321 20 21 0 0;
  GlyphDsc 8813 314 20 21 0 0;
  GlyphDsc 9023 307 17 21 1 0;
  GlyphDsc 9202 152 8 29 2 (-5);
  GlyphDsc 9318 228 15 21 0 0;
  GlyphDsc 9476 152 8 29 0 (-5);
  GlyphDsc 9592 254 16 11 0 10;
  GlyphDsc 9680 251 16 4 0 (-3);
  GlyphDsc 9712 142 9 5 0 16;
  GlyphDsc 9735 259 14 15 1 0;
  GlyphDsc 9840 294 16 21 2 0;
  GlyphDsc 10008 264 15 15 1 0;
  GlyphDsc 10121 294 16 21 1 0;
  GlyphDsc 10289 265 15 15 1 0;
  GlyphDsc 10402 171 11 21 0 0;
  GlyphDsc 10518 287 15 21 1 (-6);
  GlyphDsc 10676 280 14 21 2 0;
  GlyphDsc 10823 132 6 21 1 0;
  GlyphDsc 10886 132 8 27 (-1) (-6);
  GlyphDsc 10994 268 15 21 2 0;
  GlyphDsc 11152 132 5 21 2 0;
  GlyphDsc 11205 425 23 15 2 0;
  GlyphDsc 11378 280 14 15 2 0;
  GlyphDsc 11483 280 16 15 1 0;
  GlyphDsc 11603 294 16 21 2 (-6);
  GlyphDsc 11771 292 16 21 1 (-6);
  GlyphDsc 11939 188 10 16 2 0;
  GlyphDsc 12019 221 13 15 0 0;
  GlyphDsc 12117 179 11 19 0 0;
  GlyphDsc 12222 281 15 15 1 0;
  GlyphDsc 12335 262 17 15 0 0;
  GlyphDsc 12463 399 25 15 0 0;
  GlyphDsc 12651 255 16 15 0 0;
  GlyphDsc 12771 269 17 21 0 (-6);
  GlyphDsc 12950 231 13 15 1 0;
  GlyphDsc 13048 180 11 29 1 (-5);
  GlyphDsc 13208 131 4 29 2 (-5);
  GlyphDsc 13266 180 10 29 0 (-5);
  GlyphDsc 13411 280 17 6 0 6].

Definition cmaps : list lv_font_fmt_txt_cmap_t :=
  [Cmap 32 95 1 None None 0 LV_FONT_FMT_TXT_CMAP_FORMAT0_TINY].

(** ** Kerning *)

Definition kern_left_class_mapping : list Z := [
  0; 1; 2; 3; 4; 5; 6; 7;
  3; 8; 0; 9; 10; 11; 12; 13;
  14; 15; 16; 17; 18; 19; 20; 21;
  22; 23; 15; 24; 25; 26; 27; 28;
  29; 30; 31; 32; 33; 34; 35; 36;
  37; 38; 38; 39; 40; 41; 38; 38;
  34; 42; 43; 44; 45; 46; 39; 47;
  48; 49; 50; 51; 52; 53; 0; 54;
  55; 0; 56; 57; 58; 59; 60; 61;
  62; 63; 64; 65; 66; 59; 63; 63;
  57; 57; 64; 67; 68; 69; 70; 71;
  72; 73; 74; 75; 76; 77; 78; 79].
Definition kern_right_class_mapping : list Z := [
  0; 1; 2; 3; 4; 0; 5; 6;
  3; 7; 8; 9; 10; 11; 12; 11;
  13; 14; 15; 16; 17; 18; 19; 20;
  21; 22; 23; 24; 24; 25; 26; 27;
  28; 29; 30; 31; 32; 31; 31; 31;
  32; 31; 31; 33; 31; 31; 31; 31;
  32; 31; 32; 31; 34; 35; 36; 37;
  38; 39; 40; 41; 42; 43; 44; 45;
  46; 0; 47; 48; 49; 49; 49; 50;
  51; 48; 52; 53; 48; 48; 54; 54;
  49; 54; 49; 54; 55; 56; 57; 58;
  59; 60; 61; 62; 63; 64; 44; 65].
Definition kern_class_values_0 : list Z := [
  0; 0; 0; 0; 0; -19; 0; 0;
  0; 0; 0; -24; 0; 0; 0; 0;
  0; 0; 0; 0; 0; 0; 0; 0;
  0; 0; 0; 0; 0; 0; 0; 0;
  0; 0; 0; 0; 0; 0; 0; 0;
  0; 0; 0; 0; 0; 0; 0; 0;
  0; 0; 0; 0; 0; 0; 0; 0;
  0; 0; 0; 0; 0; 0; 0; 0;
  0; 0; 0; 0; 0; 0; 0; 0;
  0; 0; 0; 0; 0; 0; 0; 0;
  0; 0; 0; 0; 0; 3; 0; 0;
  0; 0; 0; 0; 0; 0; -6; 0;
  -3; -3; -3; 0; 0; 0; 0; 0;
  0; 0; 0; 0; 0; 0; 0; -6;
  0; -6; 0; -6; 0; 0; 0; 0;
  0; 0; 0; 0; 0; 0; 0; 0;
  0; 0; 0; 0; 0; 0; 0; 0;
  0; 0; 0; 0; 0; 0; 0; -3;
  6; 2; 3; -24; -3; -3; 12; 0;
  0; 0; 0; 0; 0; 0; 0; -35;
  0; 0; -8; 0; 12; 0; 7; 4;
  2; 2; 0; 0; 0; 0; 0; 0;
  -8; 0; -12; 15; -12; 0; 0; 0;
  0; 0; 0; 8; 8; 2; 5; 0;
  0; 0; 0; 0; 0; 0; 0; 0;
  0; 0; 0; 0; 0; 0; 0; 0;
  -7; -5; -2; -9; -13; -6; -7; -2;
  -4; -4; 0; 0; 0; 0; 0; 0;
  0; 0; 0; 0; 0; 0; 0; 0;
  0; 0; 0; 0; 0; 0; 0; 0;
  0; 0; 0; 0; 0; 0; 0; 0;
  0; 0; 0; 0; 0; 0; 0; 0;
  0; 0; 0; 0; 0; 0; 0; 0;
  0; 0; 0; 0; 0; 0; 0; 0;
  0; -2; -3; 0; -2; -2; -2; -2;
  -2; -2; -2; 0; 0; 0; 0; 0;
  0; 0; 0; 0; 0; 0; 0; 0;
  0; 0; 0; 0; 0; 0; 0; 0;
  0; 0; 0; 0; 0; 0; 0; 0;
  0; 0; 0; 0; 0; 0; 0; 0;
  0; 0; 0; 0; 0; 0; 0; 0;
  0; 0; 0; 0; 0; 0; 0; 0;
  0; 0; -10; -2; 0; 0; 0; 0;
  -10; 0; 0; 0; 0; 0; 0; 0;
  0; 0; 0; 0; 0; 0; 0; 0;
  0; 0; 0; 0; 0; 0; 0; 0;
  0; 0; 0; 0; 0; 0; 0; 0;
  0; 0; 0; 0; 0; 0; 0; 0;
  0; 0; 0; 0; 0; 0; -19; 0;
  0; 0; 0; 0; 0; 0; 0; 0;
  0; 0; 0; 0; -2; 0; -2; -5;
  -2; 0; 0; -1; 0; 0; 0; 0;
  0; 0; 0; 0; 0; -4; 3; 0;
  -34; -5; -27; -18; 0; -45; 0; 0;
  0; 0; 0; 0; 0; 0; 0; 0;
  0; 0; 0; 0; 0; 0; -1; -9;
  0; 0; -9; 0; 0; 0; 0; 0;
  0; 0; 0; 0; 0; 0; 0; 0;
  -27; 0; -19; 0; -10; -7; 1; 3;
  -18; -8; -15; 15; -6; 0; 0; 0;
  0; 0; 0; 0; -6; 0; -12; -7;
  -4; 4; -3; 7; 4; 4; 4; 0;
  0; 0; 0; 0; 0; -1; 0; -15;
  -8; -7; 0; 33; 0; -7; -6; -9;
  -11; -12; -3; -12; -1; 0; 0; 0;
  0; 0; 0; 0; 0; 0; 0; 0;
  0; 0; 0; 0; 0; 0; 0; 3;
  6; -28; 0; 0; 16; 0; 0; 0;
  0; 0; 0; 0; 0; -41; 0; -1;
  -24; 0; 10; 0; 10; 5; -3; -3;
  0; 0; 0; 0; 0; 0; -6; 0;
  -13; 12; -13; 0; 0; 0; -2; 0;
  0; 11; 3; 3; 6; 0; 0; 0;
  0; 0; 0; 0; 0; 0; 0; 0;
  -27; 0; 0; 0; 0; 0; 3; -17;
  -2; -4; 0; 0; 3; -5; 0; -2;
  0; 0; 0; 0; 0; 0; -12; 0;
  3; 0; 0; -27; -1; -22; -14; -12;
  -30; -5; 0; 0; -8; 0; 0; 0;
  -6; 0; 0; 0; 0; 0; 0; 0;
  0; 0; 0; -1; 0; 0; 0; 0;
  0; 0; 0; 0; 0; 0; 0; 0;
  0; 0; 0; 0; 0; 0; 0; -10;
  -39; 0; 0; -15; 0; -10; -18; -2;
  -6; 0; 0; 0; 0; 0; 0; 0;
  0; -17; 0; -5; -54; -16; -57; -42;
  -3; -62; 0; 0; 0; 0; 0; 0;
  -3; -3; -9; -6; -8; 0; 6; 0;
  0; -12; -2; -37; -22; 0; -40; 0;
  0; 0; 0; -24; 0; 0; 0; 0;
  0; 0; -19; 0; 0; 0; 0; 0;
  3; -10; -1; -7; -1; -2; 3; -12;
  0; 0; 0; 0; 0; 0; 0; 0;
  -15; 0; 0; -3; -2; -32; -1; -31;
  -13; -28; -44; -14; 0; 0; -4; 0;
  0; -6; 0; 0; 0; 0; 0; -2;
  0; 0; -2; 0; -7; -4; -12; -12;
  -1; 0; 0; 0; 0; 0; 0; 0;
  0; 0; 0; 0; 0; 0; 0; 0;
  0; -10; -39; 0; 0; -15; 0; -10;
  -18; -2; -6; 0; 0; 0; 0; 0;
  0; 0; 0; -17; 0; -5; -54; -16;
  -57; -42; -3; -62; 0; 0; 0; 0;
  0; 0; -3; -3; -9; -6; -8; 0;
  0; 0; 0; -12; -2; -37; -22; 0;
  -40; 0; 0; 0; 0; 0; 0; 0;
  0; 0; 0; 0; 0; 0; 0; 0;
  0; -27; -19; -9; -17; 0; -41; -7;
  -19; 12; -12; -10; 0; 0; 0; 0;
  0; 0; -39; 0; -21; -46; -11; 13;
  0; 10; 10; 5; 8; 0; 0; 0;
  0; 0; 0; -45; 0; -60; -9; -60;
  0; 0; -23; -44; -3; -16; -8; -12;
  -10; -8; -20; 0; 0; 0; 0; 0;
  -3; -7; -10; -6; 0; -10; 0; 3;
  -19; 3; -13; -1; -5; -1; -1; 0;
  -1; -1; 0; -2; 0; 0; 0; 5;
  3; 0; 0; 0; 0; 0; 0; 0;
  0; 0; 0; 0; 0; 0; 0; 0;
  -19; -3; 0; -10; 0; 0; 0; 0;
  0; 0; 0; 0; 0; 0; 0; 0;
  0; 0; 0; 0; 0; 0; 5; 0;
  0; -2; -7; -2; -3; 0; 6; 0;
  0; -3; 6; 0; 5; 0; 7; 4;
  0; 4; 5; 7; 4; 1; 3; -2;
  6; 14; 0; -3; 0; 0; 0; 0;
  0; 0; 0; 0; 0; 0; 0; 0;
  0; 0; 8; 0; 6; 0; 0; 0;
  0; 0; 0; 0; 0; 0; 0; 0;
  0; 0; 0; 0; 0; 0; 2; 6;
  0; 0; 0; 0; 0; 0; 0; -3;
  3; 0; 0; 0; 3; 0; 0; 0;
  1; -6; 0; 0; 0; 0; 0; 0;
  0; 3; 14; 0; 0; 0; 0; 0;
  0; 0; 0; 0; 0; 0; 0; 0;
  0; 0; -8; 0; 0; 8; 0; 0;
  0; 0; 0; 0; 0; 0; 0; 0;
  0; 0; 0; 0; 0; 0; 0; 0;
  3; 0; 0; 0; -7; -2; 0; 0;
  0; 5; 0; -5; -2; -2; -1; -5;
  -1; 0; 0; 0; -1; 3; 0; 0;
  0; 0; 3; 12; 0; 0; 0; 0;
  0; 0; 0; 0; 0; 0; 0; 0;
  0; 0; 0; 0; 0; 0; -5; 0;
  0; 0; 0; 0; 0; 0; 0; 0;
  0; 0; 0; 0; 0; 0; 0; 0;
  4; 5; 0; 0; -6; 0; -2; 0;
  0; 0; -7; 3; 0; 0; 0; 0].
Definition kern_class_values_1 : list Z := [
  -7; 0; 0; 0; 0; 0; -4; 0;
  0; 3; 6; 10; 12; -3; 0; 0;
  0; 0; 0; 0; 0; 0; 0; 0;
  0; 0; 0; 0; -12; 0; 0; 0;
  0; 0; 0; 0; 0; 0; 0; 0;
  0; 0; 0; 0; 0; 0; 0; 0;
  0; 0; 10; 0; 0; 0; 0; -2;
  -3; 0; -3; 0; 0; -5; 0; -4;
  -1; -4; 0; 0; 0; 0; -1; 1;
  0; 0; 0; 2; 5; 10; 0; -1;
  0; 0; 0; 0; 0; 0; 0; 0;
  0; 0; 0; 0; 0; -3; 0; 0;
  -5; 0; 0; 0; 0; 0; 0; 0;
  0; 0; 0; 0; 0; 0; 0; 0;
  0; 0; 0; 5; 0; 0; 0; -4;
  0; 0; 0; 3; 3; 5; -2; 3;
  0; 0; -6; 0; 1; 0; 0; 0;
  4; 0; 0; 1; 0; 5; 8; 0;
  -2; 0; 0; 0; 0; 0; 0; 0;
  0; 0; 0; 0; 0; 0; -2; 3;
  0; -7; 0; 0; 0; 0; 0; 0;
  0; 0; 0; 0; 0; 0; 0; 0;
  0; 0; 0; 0; 5; 0; 3; 12;
  -19; 0; -3; 0; -3; 12; -21; -61;
  -18; -35; -8; 2; 3; 7; -21; -4;
  -8; 14; 0; 2; -6; -17; 1; 17;
  10; -4; 0; 0; 0; 0; 0; 0;
  0; 0; 0; 0; 0; 0; 0; 12;
  0; 0; -40; 0; 0; 0; 0; 0;
  0; 0; 0; 0; 0; 0; 0; 0;
  0; 0; 0; 0; 10; -16; 0; 0;
  0; -2; -1; -8; 0; -6; 0; 3;
  -2; 0; 0; -2; -4; 0; 1; -1;
  -1; -2; 0; 0; -1; 0; 0; 3;
  5; 0; 0; 0; 0; 0; 0; 0;
  0; 0; 0; 0; 0; 0; 0; 0;
  -18; -3; 0; -8; 0; 0; 0; 0;
  0; 0; 0; 0; 0; 0; 0; 0;
  0; 0; 0; 0; 0; 0; 3; 0;
  0; 0; 0; 0; 0; 0; 0; 0;
  0; 0; 0; 0; 0; -3; 0; 0;
  0; 0; 0; 2; 0; 3; 0; 0;
  0; 0; 0; 0; -3; 0; 0; -3;
  -3; -24; -2; -25; -8; -6; -36; 0;
  0; 0; 0; 0; 0; 0; 0; -4;
  3; -4; 0; 0; 0; 0; 0; 0;
  -3; 0; -3; -3; 0; 0; 0; 0;
  0; 0; 0; 0; 0; 0; 0; 0;
  0; 0; 0; 0; 0; 0; -3; 0;
  0; 0; 0; 0; 2; 0; 3; 0;
  0; 0; 0; 0; 0; -3; 0; 0;
  -3; -3; -24; -2; -25; -8; -6; -36;
  0; 0; 0; 0; 0; 0; 0; 0;
  -4; 3; -4; 0; 6; 0; 0; 0;
  0; -3; 0; -3; -3; 0; 0; 0;
  0; 0; 0; 0; 0; 0; 0; 0;
  0; 0; 0; 0; 0; 0; 7; 12;
  14; 13; 6; 10; 7; 28; 14; 12;
  0; 0; 0; 0; 0; 0; 6; 2;
  5; 0; 0; -2; 0; 3; 6; 3;
  0; 11; 0; 0; 0; 0; 0; 0;
  0; 0; 0; 0; 0; 0; 0; 0;
  0; 0; 9; 6; 0; 9; 6; 0;
  0; 0; 0; 0; 0; 0; 0; 0;
  0; 0; 0; 0; 0; 0; 0; 5;
  -6; 0; 0; 3; 2; 5; -2; 0;
  0; 0; 0; 0; 0; 0; 0; -6;
  0; 3; 0; 0; -14; -1; -13; -5;
  -8; -17; 0; 0; 0; 0; 0; 0;
  0; 0; 0; 0; 0; 0; 0; 0;
  0; 0; 0; 3; 0; 0; 0; 0;
  0; 0; 0; 0; 0; 0; 0; 0;
  0; 0; 0; 0; 0; 0; 0; 0;
  0; -11; -2; -4; 3; 0; 0; -6;
  0; 0; 0; 0; 0; 0; 0; 0;
  -11; 0; 3; 0; -1; -28; -1; -18;
  -12; -24; -35; -6; 0; 0; 0; 0;
  0; 0; 0; 0; 0; 0; 0; 0;
  0; 0; 0; 0; -3; -3; -3; 0;
  0; 0; 0; 0; 0; 0; 0; 0;
  0; 0; 0; 0; 0; 0; 0; 0;
  0; -3; 2; 0; 0; -4; 0; -3;
  12; 0; 0; 0; 0; 0; 0; 0;
  0; -17; 0; -1; -6; 0; 0; 0;
  0; 0; -3; -3; 0; 0; 0; 0;
  0; 0; 0; 0; -12; 0; -12; 0;
  0; 0; 0; 0; 0; 4; 0; 0;
  0; 0; 0; 0; 0; 0; 0; 0;
  0; 0; 0; 0; 0; 0; 0; 0;
  0; 0; -3; -3; -4; -3; -5; -3;
  -3; -1; -3; 0; 0; 0; 0; 0;
  0; 0; -23; 0; 0; -11; 0; -12;
  -3; -15; -10; -17; -25; -7; 0; 0;
  0; 0; 0; -3; 0; -6; 3; -6;
  0; 0; -4; -1; 0; -1; 3; 3;
  0; 1; 1; 0; 0; 0; 0; -6;
  -31; 0; 0; -12; -2; -6; -41; -12;
  0; -15; 10; 0; 0; 0; 0; 0;
  0; 0; 0; 0; 0; -3; -10; -6;
  6; -26; -20; 0; 0; -16; 2; -2;
  -31; -10; -29; -20; -9; -38; 4; 0;
  -36; -3; -21; 14; -2; 0; -5; -6;
  -5; 0; 0; -1; 0; -11; -9; -20;
  -14; 0; -19; 0; -4; 0; -10; 0;
  0; 0; 0; 0; -10; 0; 0; 0;
  -1; -3; 0; -6; 0; 0; 0; 0;
  0; 0; 0; 0; 0; 0; 0; 0;
  1; 6; 0; 0; -8; 0; 0; 9;
  0; 1; 0; -3; -3; -1; -7; 3;
  0; -16; 0; 0; -2; 0; 0; 2;
  -1; 2; 0; 0; -1; -1; 0; -4;
  -1; -1; 0; -1; 0; -6; 0; 1;
  0; 0; 0; 0; 0; -9; 0; -9;
  0; -3; -11; -3; -16; 0; 0; 0;
  0; 0; 0; 0; 0; 0; 0; 0;
  0; 0; 2; 0; -6; -14; 0; -3;
  0; 0; -4; -3; -8; -9; -13; -15;
  0; 0; -16; -7; -2; -8; -7; -5;
  -8; -3; -8; 0; 0; -4; -2; -4;
  -10; -5; -5; -3; -6; -2; -4; 0;
  0; 0; -3; 0; 0; 0; -15; 0;
  -12; -1; 3; -17; 0; -21; 0; 0;
  0; 0; 0; 0; 0; 0; 0; 0;
  0; 3; 3; 5; 0; 0; -16; 0;
  0; 0; -1; -9; 0; -12; -11; -19;
  -23; -5; -1; -21; -12; 5; -19; 0;
  -1; 1; 5; 1; 0; 0; 0; 0;
  11; 0; 0; 0; 0; 0; 1; 0;
  0; 5; 0; 0; 0; 0; 0; -6;
  0; 2; 0; -3; 0; -1; 0; 0;
  0; 0; 0; 0; 0; 0; 0; 0;
  0; 0; 0; 0; 8; 0; -5; 0;
  0; -1; -8; 0; 6; 0; 1; 1;
  1; 3; 6; 0; 0; 3; 0; 0;
  -3; 0; -5; -1; -5; 0; 0; -3;
  -1; 0; -4; -6; -4; 0; -6; 0;
  -9; 0; 0; 0; 0; 10; 0; 0;
  -16; 0; 6; 3; -7; -51; -8; -34;
  0; 0; 0; 0; 0; 0; 0; 0;
  0; 0; -3; -3; -3; 8; 5; -5;
  -26; 0; -2; -18; 0; 17; -1; 4;
  4; 4; 4; 8; 0; 12; 6; 2;
  -36; -17; 1; -15; -2; -15; -1; -2;
  -16; -7; 0; -19; -8; -8; -7; -13;
  -8; -4; 10; -10; 0; 0; 0; 0;
  0; -9; 0; -3; 0; 0; 0; 0;
  1; 0; 0; 0; 0; 0; 0; 0;
  0; 0; 0; 0; 0; 0; 7; -3].
Definition kern_class_values_2 : list Z := [
  0; 0; 0; 0; 0; 0; -5; 0;
  -9; -8; -1; -16; 0; 0; -18; -3;
  0; 5; 0; 0; 0; 0; 0; 0;
  0; 0; 3; 5; -1; 0; 0; 1;
  0; 0; -2; 0; 1; 0; 0; 0;
  0; 0; -3; 0; 0; 0; 0; 0;
  0; 0; 0; 0; 0; 0; 0; 0;
  0; 0; 0; 0; 0; 0; 0; 2;
  0; -2; 0; 0; 0; 0; 0; 0;
  0; 0; 0; 0; 0; 0; 0; 0;
  0; 0; 0; -1; 0; -1; 0; -1;
  0; 0; 0; 0; 0; 0; -1; -1;
  0; 0; 0; -6; 0; 0; 0; 0;
  0; 0; 0; -7; 0; -3; 0; -1;
  -16; -1; -18; 0; 0; 0; 0; 0;
  0; 0; 0; 0; 0; -2; -1; -1;
  0; 0; -4; -13; 0; 0; -1; 0;
  1; 0; 0; 0; -1; 0; 0; 0;
  -3; -3; 0; -9; -1; 0; -2; 0;
  -2; 0; 0; -2; -1; 0; -3; 0;
  0; 0; 0; 0; -10; 0; -1; 0;
  0; 0; 0; 0; -19; -6; 1; -2;
  -16; 0; -35; 7; 0; 0; 0; 0;
  0; 0; 0; 0; 0; 0; -5; -30;
  -15; 9; -7; -22; -2; 0; -25; -7;
  -6; 1; -3; -3; -3; 0; 0; 3;
  0; 6; 1; -10; 12; -10; 0; -20;
  -11; -20; 0; 0; -6; -5; -22; -26;
  -30; -24; -2; -33; 0; -22; 0; -32;
  0; 0; -33; 0; 0; -8; 0; 2;
  -34; -7; 5; -11; 16; 0; 0; 0;
  0; 0; 0; 0; 0; 0; 0; 0;
  -11; -1; 9; -26; -5; 4; 0; -11;
  8; 1; -34; -5; -32; -23; 0; -34;
  9; 0; -42; 2; -18; 17; 3; 0;
  0; -5; 0; 0; 3; 0; 4; -12;
  -7; -22; -18; 0; -23; 4; -6; 4;
  -10; 0; 0; 5; 0; 0; -16; 0;
  -3; 5; -12; -66; -5; -36; 0; 0;
  0; 0; 0; 0; 0; 0; 0; 0;
  0; -6; 0; 10; 10; -1; -27; -1;
  0; -31; 0; 0; 0; -1; -2; -7;
  -7; -2; 0; -6; -3; 0; -40; -9;
  -3; -15; 4; -15; 0; -1; -6; -8;
  5; -10; 1; 0; 0; 2; -2; -10;
  0; -10; 0; -3; 0; 0; 0; -6;
  0; -11; 0; 3; -11; 0; 0; 0;
  0; 0; 0; 0; 0; 0; 0; 0;
  0; 0; 5; 3; 7; 0; 0; -3;
  0; 0; 1; 0; -8; 0; -13; -11;
  -10; -22; 1; 0; -21; -11; 3; 0;
  2; 0; 1; 3; 1; 0; 6; 0;
  0; 4; -1; 0; -1; 3; -1; 1;
  0; 0; 3; 0; 0; 0; 0; 0;
  -7; 0; 1; 2; -5; -7; -7; 0;
  0; 0; 0; 0; 0; 0; 0; 0;
  0; 0; 0; -1; 0; 11; 0; -4;
  -1; 0; -2; -6; 0; 0; 0; -2;
  -4; 0; -5; 1; 0; -11; 2; 2;
  7; -4; 0; -7; 1; -7; 0; 0;
  -1; -1; 4; -5; 0; -2; 2; 0;
  0; -5; 0; -2; 0; 0; 0; 0;
  0; -6; 0; -3; 0; 0; -3; -1;
  -9; 0; 0; 0; 0; 0; 0; 0;
  0; 0; 0; -3; 0; 0; 5; 0;
  0; -7; 0; -1; 2; 0; -1; -1;
  -1; -1; -6; -9; 3; 0; -11; 0;
  -1; -2; -1; -2; -2; -3; -2; -1;
  -1; -7; 0; 2; -6; -10; -7; -3;
  -11; -1; -4; 0; 0; 0; 0; 12;
  0; 0; -17; 0; 4; 10; -27; -54;
  -32; -42; 0; 0; 0; 0; 0; 0;
  0; 0; 0; 0; -24; -25; -14; 4;
  7; -12; -31; 0; -9; -38; 0; 10;
  1; 10; 10; 1; 10; 6; 0; 13;
  4; 0; -22; -41; 1; -46; -8; -46;
  -4; -2; -35; -34; -11; -40; -28; -29;
  -23; -28; -17; -17; 7; -31; 0; 0;
  7; 0; 0; -17; 0; 7; 10; -22;
  -57; -31; -40; 0; 0; 0; 0; 0;
  0; 0; 0; 0; 0; -25; -18; -13;
  0; 2; -15; -29; 0; -12; -31; -2;
  10; 0; 5; 5; 5; 5; 0; 0;
  10; 7; -3; -33; -29; 0; -31; -1;
  -31; 0; 0; -23; -21; -4; -21; -10;
  -8; -5; -8; -8; -14; 7; -22; 0;
  0; 4; 0; 0; -12; 0; 4; 5;
  -14; -42; -13; -35; 0; 0; 0; 0;
  0; 0; 0; 0; 0; 0; -8; -10;
  -5; 6; 0; -10; -20; 0; -11; -27;
  -1; 10; 0; 5; 5; 5; 5; 1;
  0; 10; 4; 0; -23; -14; 0; -18;
  -1; -18; 0; 0; -14; -10; -1; -16;
  -4; -5; -1; -8; -2; -12; 7; -10;
  0; 0; 2; 0; 0; -13; 0; 4;
  -3; -12; -3; -31; 5; 0; 0; 0;
  0; 0; 0; 0; 0; 0; 0; -6;
  -15; -8; 0; -3; -15; -9; 0; -17;
  -13; -6; 1; -1; 5; 5; 0; 5;
  2; 0; 5; 4; -6; 9; -6; 0;
  -18; -3; -18; 0; 0; -1; -6; -9;
  -13; -16; -15; 5; -16; 1; -14; 7;
  -12; 0; 0; 2; 0; 0; -33; 0;
  4; -3; -30; -62; -44; -51; 0; 0;
  0; 0; 0; 0; 0; 0; 0; 0;
  -36; -35; -17; 0; 0; -25; -38; 0;
  -23; -43; -9; 10; 0; 5; 5; 5;
  5; 1; 0; 8; 4; -6; -37; -38;
  -1; -48; -13; -48; -4; -1; -32; -34;
  -12; -33; -24; -25; -17; -22; -21; -15;
  5; -32; 0; 0; 0; 0; 0; -6;
  0; 0; 0; -3; 0; -14; 0; 0;
  0; 0; 0; 0; 0; 0; 0; 0;
  0; 0; -4; 0; 0; 1; -3; 0;
  0; -10; 0; 0; 9; 0; 0; 0;
  2; 1; 0; 0; 0; 0; 0; 8;
  0; 0; -4; 4; -4; 0; 0; 0;
  0; 0; -4; -1; -2; 0; -4; 0;
  0; 3; -3; 0; 0; 0; 0; 0;
  0; 0; 0; 0; -8; 0; -4; 0;
  -3; -6; 0; 1; -16; -7; -9; 15;
  -3; 3; 0; 0; 0; 0; 0; 0;
  -3; 0; -12; -6; -3; 4; -3; 7;
  4; 4; 8; 0; 0; 0; 0; 0;
  0; -1; 0; -13; -11; -13; 0; 33;
  0; -6; -6; -6; -6; -10; -3; -9;
  0; 0; 0; 0; 0; 0; 0; 0;
  0; 0; 0; 0; 0; 0; 0; 0;
  0; -13; -6; 5; -2; -8; -3; -13;
  -3; -7; 0; 0; 0; 0; 0; 0;
  0; 6; 0; -21; -3; -7; -30; -18;
  -40; -35; 5; -41; 3; 0; 0; 0;
  0; 0; 2; 0; -12; 0; -12; 0;
  0; 0; 0; -3; -6; -13; -11; 5;
  -15; 3; 0; 0; 0; 0; 0; 0;
  0; 0; 0; 0; 0; 0; 0; 0;
  0; 0; 0; 0; 0; 0; 0; 0;
  0; 0; 0; 0; 0; 0; 0; 0;
  0; 0; -21; 0; 5; 0; 0; 0;
  0; -3; 0; -6; -6; 0; 0; 0;
  0; 0; 0; 0; 0; 0; 9; 0;
  0; 0; 0; 0; 0; 0; 6; 6;
  0; 3; 0; 0; 0; 0; 0; 0;
  0; 0; 0; 0; 0; 0; 0; 0;
  0; 0; 0; -10; -14; 0; -3; -33;
  -6; -10; 0; -8; -6; 0; 0; 0;
  0; 0; 0; 14; 0; -19; -9; -11;
  -22; -9; -33; -23; 9; -37; 8; 0].
Definition kern_class_values_3 : list Z := [
  0; 0; 0; 0; 0; 0; -12; -5;
  -12; 0; 33; 0; 0; -17; -9; -19;
  -19; 12; -16; 3; 0; 0; 0; 0;
  -6; -6; 0; 0; -11; 0; -3; -10;
  0; 0; 0; 0; 0; 0; 0; 0;
  0; 0; 0; 0; 0; 0; -1; 0;
  0; 0; -6; -5; 0; 0; 0; 0;
  0; 0; 0; 0; 0; 0; 0; 0;
  0; -29; -3; 0; 9; -1; 0; -1;
  0; -1; 0; 0; 0; 0; -1; -3;
  -4; -3; 0; -6; 0; 0; 0; 0;
  0; -6; -12; 0; 0; -11; 0; -15;
  -13; 0; -9; 0; -12; 0; 0; 0;
  0; 0; 0; 0; 0; 0; 0; -4;
  0; 0; 0; -13; 0; 0; 0; 0;
  0; 0; 0; 0; 0; 0; 0; 0;
  0; 0; -45; -15; 0; -12; 0; 0;
  0; 0; 0; 0; 0; 0; 0; -1;
  -1; -7; -6; -9; -11; -1; 0; 0;
  3; 0; 0; -9; 0; 0; -10; 0;
  -9; -8; 0; -3; -1; -9; 0; 0;
  0; 0; 0; 0; 0; 0; 0; 0;
  0; 0; 0; 0; -3; -1; 0; 0;
  0; 0; 0; 0; 0; 0; 0; 0;
  0; 0; 0; -36; -6; 0; -2; -1;
  0; -2; 0; -2; 0; 0; 0; 0;
  0; -4; -5; -5; -4; -5; 0; 0;
  0; 0; 0; 0; 0; 0; 0; -6;
  0; 0; 0; -6; -3; 0; 0; 0;
  0; 0; 0; 0; 0; 0; 0; 0;
  0; 0; 0; 0; 0; 0; 0; 0;
  0; 0; 0; 0; 0; 0; 0; 0;
  0; 0; 0; 0; -3; 0; 0; 0;
  -1; 0; 0; 0; 0; 0; 0; 0;
  0; 0; -1; 0; 0; 0; 0; 0;
  0; 0; 0; 0; 0; -8; 0; 0;
  -9; 0; -11; -10; 0; -6; 0; -4;
  0; 0; 0; 0; 0; 0; 0; 0;
  0; 0; 0; 0; 0; 0; -11; 0;
  0; 0; 0; 0; 0; 0; 0; 0;
  0; 0; 0; 0; 0; -36; -8; 0;
  -2; 0; 0; 0; 0; 0; 0; 0;
  0; 0; 0; -3; -5; -4; -4; -3;
  0; 0; 0; 0; 0; 9; 24; 0;
  0; 0; 0; 12; 19; -2; -30; -4;
  -6; 0; 0; 0; 0; 0; 0; 0;
  0; 0; 0; 6; 0; 0; 20; 15;
  4; 0; 0; 0; 0; 0; 0; 0;
  0; 0; 0; 0; 0; 0; 17; 11;
  12; -15; -3; 0; -5; 0; -5; 3;
  8; 0; 3; 10; -1; 6; 6; 8;
  12; 11; 0; 14; -2; 0; -3; 0;
  0; 0; -10; 0; -6; 0; 0; -3;
  -1; 0; 0; 0; 0; 0; 0; 0;
  0; 0; 0; 0; 0; 0; 0; 0;
  -3; 0; 0; 0; 0; 0; 0; 0;
  0; 0; 0; 0; 0; 0; 0; -25;
  -6; 0; 0; -2; 0; 0; 0; 0;
  0; 0; 0; 0; 0; -2; -1; -2;
  0; -2; 0; 0; 0; 0; 0; 0;
  -3; 0; 0; -6; 0; 0; -2; 0;
  0; 0; 0; 0; 0; 0; 0; 0;
  0; 0; 0; 0; 0; -1; 0; -1;
  0; -9; -4; 0; 0; 0; 0; 0;
  0; 0; 0; 0; 0; 0; 0; 0;
  -33; 0; 0; 0; 0; 0; 0; 0;
  0; 0; 0; 0; 0; 0; -2; -4;
  -1; 0; -4; 0; 0; 0; 0; 0;
  0; 0; 0; 0; -6; 0; 0; 0;
  0; 0; 0; 0; 0; 0; 0; 0;
  0; 0; 0; 0; 0; 0; 0; 0;
  0; 0; -3; 0; 0; 0; 0; 0;
  0; 0; 0; 0; 0; 0; 0; 0;
  0; -14; 0; 0; 0; 0; 0; 0;
  0; 0; 0; 0; 0; 0; 0; 0;
  0; 0; 0; 0; 0; 0; 0; 0;
  0; 0; 0; 0; 0; -6; 0; 0;
  0; 0; -3; 0; 0; 0; 0; 0;
  0; 0; 0; 0; 0; 0; 0; 0;
  0; 0; 6; 0; -1; 0; 0; 0;
  0; 0; 0; 0; 0; 0; 0; 0;
  0; 0; -3; 0; 0; 0; 0; 0;
  0; 1; 0; 0; 0; 0; 0; 0;
  0; 0; 0; 0; 0; 0; 0; 0;
  -3; 0; 0; 0; 0; 0; -10; 0;
  -6; -2; -8; -3; -14; 10; 0; 0;
  0; 0; 0; 0; 0; 0; 0; 0;
  -5; -12; 0; 22; 0; -2; 0; 0;
  0; 0; 0; 0; 0; 0; 0; 0;
  0; 0; 0; -16; -6; -3; 17; -6;
  0; -11; 1; -11; 0; 0; 0; 0;
  0; -2; -9; 0; 0; 0; 1; -2;
  0; -4; 0; 9; 17; 0; 0; -9;
  0; -6; 19; 3; -37; 0; -6; 0;
  0; 0; 0; 0; 0; 0; 0; 0;
  0; 9; 3; 9; 14; 10; 12; 0;
  0; 0; 0; 0; 0; 0; 0; 0;
  0; 0; 0; 0; -11; 4; 12; -11;
  3; 1; -1; 11; -1; 1; 1; 1;
  3; 11; 1; 9; 8; 12; 12; 8;
  0; 14; 0; 0; 0; -2; 0; 0;
  -6; 0; -7; -5; 0; 0; 0; 2;
  0; 0; 0; 0; 0; 0; 0; 0;
  0; 0; 0; 0; 0; 2; -3; 0;
  0; 0; 0; 0; 0; 0; 0; 0;
  0; 0; 0; 0; 0; -29; -3; 0;
  0; -2; 0; -1; 0; -1; 0; 0;
  0; 0; 0; -2; -4; -4; -2; -4;
  1; 0; 0; 0; 0; 0; 3; 0;
  0; 0; 0; 2; 9; 0; 0; 0;
  12; 0; 0; 0; 0; 0; 0; 0;
  0; 0; 0; 3; 0; 0; 12; 7;
  0; 0; 0; 0; 0; 0; 0; 0;
  0; 0; 0; 0; 0; 0; -3; 2;
  3; 14; 3; -10; -1; 0; -1; 1;
  3; -2; 7; 0; 3; 2; 2; 12;
  7; 11; 0; 0; 0; 0; 0; 0;
  0; 0; -6; 0; -4; 0; 0; 0;
  0; 0; 0; 0; 0; 0; 0; 0;
  0; 0; 0; 0; 0; 0; 0; 0;
  0; -2; 0; 0; 0; 0; 0; 0;
  0; 0; 0; 0; 0; 0; 0; -15;
  -1; 0; 0; 0; 0; -1; 1; -1;
  0; 0; 0; 0; 0; -1; 0; 0;
  0; 0; 0; 0; 0; 0; 0; 0;
  8; 0; 0; -9; 0; -11; 11; 0;
  -37; -7; -15; 0; 0; 0; 0; 0;
  0; 0; 0; 0; 0; -3; -3; 3;
  9; 10; 2; 0; 0; 0; 0; 0;
  0; 0; 0; 0; 0; 0; 0; 0;
  -10; -6; 6; -19; -1; 0; -7; 10;
  -7; 0; 0; 0; 0; 9; 0; 1;
  1; 2; 2; 2; 0; 6; 0; 0;
  0; 8; 0; 0; -11; 0; -12; 3;
  -1; -22; -4; -12; 0; 0; 0; 0;
  0; 0; 0; 0; 0; 0; 0; -3;
  0; 6; 6; 4; 0; 0; 0; 0;
  0; 0; 0; 0; 0; 0; 0; 0;
  0; -12; -10; 6; -19; -1; 0; -6;
  9; -6; 0; 0; 0; 0; 9; 0;
  1; 0; 1; 1; 2; 0; 7; 0;
  0; 0; 2; 0; 0; -8; 0; -3;
  3; 0; 0; -12; 10; 0; 0; 0;
  0; 0; 0; 0; 0; 0; 0; -3;
  -3; 0; 0; 6; 1; 0; 0; 0;
  0; 0; 0; 0; 0; 0; 0; 0;
  0; 0; -21; -3; 0; 12; -1; 0;
  -9; 6; -9; 0; 0; 0; 0; 4].
Definition kern_class_values_4 : list Z := [
  -2; 2; 1; 1; 1; 7; 0; 7;
  -3; 0; 0; 5; 0; 0; -10; 0;
  -12; 6; 0; -47; -12; -16; 0; 0;
  0; 0; 0; 0; 0; 0; 0; 0;
  -4; 0; 0; 9; 5; 2; 0; 0;
  0; 0; 0; 0; 0; 0; 0; 0;
  0; 0; 0; -14; -12; 3; -24; -7;
  0; -11; 8; -11; 0; 0; 0; -3;
  7; -2; 1; 0; 0; 1; 0; 0;
  6; 0; 0; 0; 0; 0; 0; -6;
  0; 0; 3; 3; 0; 0; 6; 0;
  0; 0; 0; 0; 0; 0; 0; 0;
  0; 0; 0; 0; 6; 0; 0; 0;
  0; 0; 0; 0; 0; 0; 0; 0;
  0; 0; 0; 0; -20; 0; 0; 5;
  3; 0; -1; 9; -1; 0; 0; 0;
  0; 7; 0; 1; 1; 4; 1; 1;
  0; 6; 0; 0; 0; 0; 0; 0;
  0; 0; 0; 0; -8; 0; -4; 0;
  -3; -6; 0; 1; -16; -7; -9; 15;
  -3; 3; 0; 0; 0; 0; 0; 0;
  -3; 0; -12; -6; -3; 4; -3; 7;
  4; 4; 8; 0; 0; 0; 0; 0;
  0; -2; 0; -13; -11; -13; 0; 33;
  0; -6; -6; -6; -6; -10; -3; -9;
  0; 0; 0; 0; 0; 0; 0; 0;
  0; 0; 0; 0; 0; 0; 0; 0;
  0; 0; 0; 0; 0; 0; 0; 0;
  10; 0; 0; 0; 0; 0; 0; 0;
  0; 0; 0; 0; 0; 0; 7; 0;
  7; 7; 7; 5; 3; 0; 0; 0;
  0; 0; 0; 0; 0; 0; 0; 0;
  9; 0; 0; 0; 0; 6; 7; 7;
  6; 5; 0; 0; 0; 0; 0; 0;
  0; 0; 0; 0; 0; 0; 0; 0;
  0; 0; 0; 0; 0; 0; 0; 0;
  0; 0; 0; 0; 0; 0; 0; 0;
  0; 0; -2; 0; 0; 0; 0; -4;
  0; -2; -2; -2; -8; -4; 0; 0;
  0; 0; 0; 0; 0; 0; 0; 0;
  0; 0; 0; 0; 0; 0; 0; 0;
  0; 0; 0; 0; 0; 0; 0; 0;
  0; 0; 0; 0; 0; 0; 0; 0;
  0; 0; 0; 5; -5; -2; 0; 0;
  0; 5; -12; 0; 0; 0; 0; 0;
  0; 0; 0; -10; 0; 5; 0; 0;
  -31; -1; -22; -10; -12; -32; -3; 0;
  0; 0; 0; 0; 0; 0; 3; 0;
  3; 0; -3; 0; 0; 0; 0; 0;
  0; -3; 0; -1; 0; 0; 0].
Definition kern_class_values : list Z :=
  kern_class_values_0 ++ kern_class_values_1 ++ kern_class_values_2 ++ kern_class_values_3 ++ kern_class_values_4.

Definition kern_classes : lv_font_fmt_txt_kern_classes_t :=
  KernClasses kern_class_values kern_left_class_mapping kern_right_class_mapping 79 65.

(** ** The font *)

Definition font_dsc : lv_font_fmt_txt_dsc_t :=
  FontDsc glyph_bitmap glyph_dsc cmaps kern_classes 16 1 4 1 0.
Definition ui_font_font_bold30 : lv_font_t :=
  Font "lv_font_get_glyph_dsc_fmt_txt" "lv_font_get_bitmap_fmt_txt" 31 6 LV_FONT_SUBPX_NONE (-5) 2 font_dsc None None.

Definition font_file_bold30 : font_file :=
  FontFile "ui_font_font_bold30" glyph_blocks ui_font_font_bold30.

Lemma bold30_checked : font_check ui_font_font_bold30 glyph_blocks = true.
Proof. by vm_compute. Qed.
