(* ===== verification/FontBook16.v ===== *)
(** * The tables of fonts/ui_font_font_book16.c

    The bitmap is written by the blocks of its characters, from U+0020 to U+007E. *)
From S2P Require Import Prelude FontFormat.

(** ** Bitmaps *)

Definition glyph_bitmap_0020 : list (list Z) := [
  (* U+0020 *)
    [];
  (* U+0021 *)
    [0x7f; 0x66; 0xf5; 0x5f; 0x44; 0xf4; 0x3f; 0x32;
     0xf2; 0x2f; 0x11; 0xf0; 0x3; 0x6; 0xf5; 0x5f;
     0x40];
  (* U+0022 *)
    [0x3; 0x0; 0x30; 0x4f; 0x88; 0xf4; 0x3f; 0x67;
     0xf3; 0xf; 0x33; 0xf0; 0xb; 0x0; 0xb0];
  (* U+0023 *)
    [0x0; 0x0; 0x46; 0x0; 0x72; 0x0; 0x0; 0x0;
     0xc9; 0x2; 0xf3; 0x0; 0x0; 0x0; 0xf5; 0x6;
     0xf0; 0x0; 0x6; 0xff; 0xff; 0xff; 0xff; 0xf0;
     0x1; 0x39; 0xe3; 0x3d; 0x93; 0x30; 0x0; 0x9;
     0xb0; 0xf; 0x50; 0x0; 0x0; 0xd; 0x80; 0x3f;
     0x20; 0x0; 0x3f; 0xff; 0xff; 0xff; 0xff; 0x30;
     0x3; 0x6f; 0x43; 0xbc; 0x33; 0x0; 0x0; 0x7e;
     0x0; 0xd8; 0x0; 0x0; 0x0; 0xaa; 0x0; 0xf4;
     0x0; 0x0];
  (* U+0024 *)
    [0x0; 0x0; 0x22; 0x0; 0x0; 0x0; 0xb; 0x80;
     0x0; 0x0; 0x5; 0xdc; 0x30; 0x0; 0xc; 0xff;
     0xff; 0x90; 0x8; 0xf3; 0xb8; 0x8f; 0x40; 0xbd;
     0xb; 0x80; 0x71; 0x9; 0xf6; 0xc8; 0x0; 0x0;
     0x1d; 0xff; 0xe7; 0x10; 0x0; 0x5; 0xdf; 0xfd;
     0x10; 0x11; 0xb; 0x84; 0xf7; 0x1f; 0x90; 0xb8;
     0xf; 0x90; 0xbf; 0x6c; 0x99; 0xf4; 0x1; 0xbf;
     0xff; 0xf7; 0x0; 0x0; 0x1c; 0xa1; 0x0; 0x0;
     0x0; 0xb8; 0x0; 0x0];
  (* U+0025 *)
    [0x0; 0x0; 0x0; 0x0; 0x0; 0x0; 0x0; 0x2c;
     0xfb; 0x10; 0x0; 0xcb; 0x0; 0xd; 0xb4; 0xcb;
     0x0; 0x6e; 0x10; 0x1; 0xf3; 0x5; 0xf0; 0x2f;
     0x50; 0x0; 0xe; 0x91; 0xac; 0xc; 0xa0; 0x0;
     0x0; 0x4e; 0xfe; 0x37; 0xe1; 0x0; 0x0; 0x0;
     0x2; 0x2; 0xf5; 0x0; 0x0; 0x0; 0x0; 0x0;
     0xca; 0xa; 0xfe; 0x50; 0x0; 0x0; 0x7e; 0x18;
     0xe5; 0x8f; 0x10; 0x0; 0x2f; 0x40; 0xb9; 0x0;
     0xf4; 0x0; 0xc; 0xa0; 0x8; 0xe5; 0x9f; 0x10;
     0x8; 0xe1; 0x0; 0x9; 0xfd; 0x40];
  (* U+0026 *)
    [0x2; 0xbf; 0xd6; 0x0; 0x0; 0x0; 0xed; 0x6a;
     0xf5; 0x0; 0x0; 0x3f; 0x50; 0xf; 0x90; 0x0;
     0x1; 0xfa; 0x5; 0xf6; 0x0; 0x0; 0x6; 0xfc;
     0xf9; 0x0; 0x0; 0x0; 0x3e; 0xfc; 0x0; 0x9;
     0x10; 0x3f; 0xb6; 0xfa; 0x9; 0xf1; 0xb; 0xd0;
     0x5; 0xfe; 0xf5; 0x0; 0xdd; 0x0; 0xb; 0xfd;
     0x0; 0x8; 0xfb; 0x7c; 0xfb; 0xfb; 0x0; 0x7;
     0xdf; 0xd6; 0x7; 0xfa; 0x0];
  (* U+0027 *)
    [0x3; 0x4; 0xf8; 0x3f; 0x60; 0xf3; 0xb; 0x0];
  (* U+0028 *)
    [0x0; 0x5; 0x40; 0x2; 0xf7; 0x0; 0xcb; 0x0;
     0x4f; 0x20; 0x9; 0xc0; 0x0; 0xd7; 0x0; 0xf;
     0x40; 0x1; 0xf3; 0x0; 0x1f; 0x30; 0x0; 0xf4;
     0x0; 0xd; 0x80; 0x0; 0x8d; 0x0; 0x2; 0xf4;
     0x0; 0xa; 0xd0; 0x0; 0x1e; 0x90; 0x0; 0x22];
  (* U+0029 *)
    [0x63; 0x0; 0xae; 0x10; 0xd; 0x90; 0x5; 0xf1;
     0x0; 0xe6; 0x0; 0xab; 0x0; 0x7d; 0x0; 0x6e;
     0x0; 0x6e; 0x0; 0x7c; 0x0; 0xba; 0x0; 0xf5;
     0x7; 0xf1; 0x1e; 0x70; 0xbc; 0x0; 0x31; 0x0];
  (* U+002A *)
    [0x0; 0x2f; 0x20; 0x1; 0x42; 0xf2; 0x41; 0x4f;
     0xff; 0xff; 0x40; 0xc; 0xfc; 0x0; 0x5; 0xf5;
     0xf6; 0x0; 0x35; 0x5; 0x40];
  (* U+002B *)
    [0x0; 0x1; 0x91; 0x0; 0x0; 0x0; 0x2f; 0x30;
     0x0; 0x0; 0x2; 0xf3; 0x0; 0x0; 0x0; 0x2f;
     0x30; 0x0; 0x2f; 0xff; 0xff; 0xff; 0x30; 0x33;
     0x5f; 0x53; 0x30; 0x0; 0x2; 0xf3; 0x0; 0x0;
     0x0; 0x2f; 0x30; 0x0];
  (* U+002C *)
    [0x1; 0xb; 0xf5; 0xaf; 0x80; 0x95; 0x6c; 0x4;
     0x0];
  (* U+002D *)
    [0x1; 0x11; 0x10; 0x4f; 0xff; 0xf1; 0x14; 0x44;
     0x40];
  (* U+002E *)
    [0x2; 0xc; 0xf3; 0x9e; 0x20];
  (* U+002F *)
    [0x0; 0x0; 0xc; 0xa0; 0x0; 0x4; 0xf3; 0x0;
     0x0; 0xcb; 0x0; 0x0; 0x4f; 0x30; 0x0; 0xc;
     0xb0; 0x0; 0x4; 0xf3; 0x0; 0x0; 0xcb; 0x0;
     0x0; 0x4f; 0x30; 0x0; 0xc; 0xb0; 0x0; 0x4;
     0xf3; 0x0; 0x0; 0xcb; 0x0; 0x0; 0x0];
  (* U+0030 *)
    [0x0; 0x0; 0x0; 0x0; 0x0; 0x0; 0x4d; 0xff;
     0xc2; 0x0; 0x3; 0xfc; 0x66; 0xee; 0x10; 0xb;
     0xe0; 0x0; 0x2f; 0x80; 0xf; 0x90; 0x0; 0xb;
     0xc0; 0x1f; 0x60; 0x0; 0x9; 0xe0; 0x2f; 0x50;
     0x0; 0x8; 0xf0; 0x1f; 0x60; 0x0; 0x9; 0xe0;
     0xf; 0x90; 0x0; 0xc; 0xc0; 0xa; 0xe1; 0x0;
     0x3f; 0x70; 0x2; 0xfd; 0x78; 0xed; 0x0; 0x0;
     0x3b; 0xfe; 0xa1; 0x0];
  (* U+0031 *)
    [0x0; 0x7; 0x30; 0x2a; 0xf7; 0x9f; 0xff; 0x71;
     0x23; 0xf7; 0x0; 0x1f; 0x70; 0x1; 0xf7; 0x0;
     0x1f; 0x70; 0x1; 0xf7; 0x0; 0x1f; 0x70; 0x1;
     0xf7; 0x0; 0x1f; 0x70];
  (* U+0032 *)
    [0x0; 0x0; 0x10; 0x0; 0x1; 0xaf; 0xfe; 0x50;
     0xb; 0xf7; 0x5b; 0xf3; 0x2f; 0x70; 0x0; 0xfa;
     0x4e; 0x30; 0x0; 0xeb; 0x0; 0x0; 0x4; 0xf8;
     0x0; 0x0; 0x5f; 0xe1; 0x0; 0xa; 0xfc; 0x20;
     0x1; 0xdf; 0x80; 0x0; 0xb; 0xf3; 0x0; 0x0;
     0x3f; 0xc7; 0x77; 0x76; 0x6f; 0xff; 0xff; 0xfd];
  (* U+0033 *)
    [0x2; 0x22; 0x22; 0x21; 0x1; 0xff; 0xff; 0xff;
     0xf0; 0x5; 0x55; 0x5a; 0xfb; 0x0; 0x0; 0x5;
     0xfb; 0x0; 0x0; 0x5; 0xfb; 0x0; 0x0; 0x0;
     0xff; 0xb6; 0x0; 0x0; 0x6; 0x8c; 0xf8; 0x0;
     0x0; 0x0; 0xb; 0xf1; 0x29; 0x20; 0x0; 0x6f;
     0x23; 0xf8; 0x0; 0xa; 0xf0; 0xa; 0xfa; 0x6a;
     0xf8; 0x0; 0x7; 0xef; 0xd6; 0x0];
  (* U+0034 *)
    [0x0; 0x0; 0x17; 0x81; 0x0; 0x0; 0xb; 0xff;
     0x20; 0x0; 0x7; 0xf9; 0xf2; 0x0; 0x3; 0xf7;
     0x5f; 0x20; 0x1; 0xeb; 0x5; 0xf2; 0x0; 0xae;
     0x10; 0x5f; 0x20; 0x5f; 0x62; 0x27; 0xf4; 0x27;
     0xff; 0xff; 0xff; 0xff; 0x25; 0x55; 0x59; 0xf7;
     0x40; 0x0; 0x0; 0x5f; 0x20; 0x0; 0x0; 0x5;
     0xf2; 0x0]].
Definition glyph_bitmap_0035 : list (list Z) := [
  (* U+0035 *)
    [0x0; 0x12; 0x22; 0x21; 0x0; 0xd; 0xff; 0xff;
     0xc0; 0x1; 0xf7; 0x55; 0x53; 0x0; 0x5f; 0x10;
     0x0; 0x0; 0x9; 0xd0; 0x0; 0x0; 0x0; 0xdd;
     0xdf; 0xf9; 0x0; 0x9; 0xe7; 0x59; 0xfa; 0x0;
     0x0; 0x0; 0xa; 0xf1; 0x16; 0x10; 0x0; 0x6f;
     0x24; 0xf7; 0x0; 0xb; 0xf0; 0xb; 0xf9; 0x6b;
     0xf7; 0x0; 0x8; 0xdf; 0xd5; 0x0];
  (* U+0036 *)
    [0x0; 0x0; 0x0; 0x10; 0x0; 0x0; 0x6d; 0xff;
     0xe3; 0x0; 0x9f; 0xb5; 0x59; 0x0; 0x5f; 0x80;
     0x0; 0x0; 0xc; 0xd0; 0x0; 0x0; 0x0; 0xfa;
     0xaf; 0xfc; 0x40; 0x2f; 0xfb; 0x56; 0xdf; 0x22;
     0xfe; 0x0; 0x2; 0xf9; 0xf; 0xb0; 0x0; 0xe;
     0xa0; 0xbe; 0x0; 0x2; 0xf8; 0x3; 0xfd; 0x67;
     0xee; 0x10; 0x3; 0xbf; 0xea; 0x20];
  (* U+0037 *)
    [0x12; 0x22; 0x22; 0x21; 0xef; 0xff; 0xff; 0xfa;
     0x45; 0x55; 0x59; 0xf6; 0x0; 0x0; 0x4f; 0x60;
     0x0; 0x1; 0xe9; 0x0; 0x0; 0xa; 0xe0; 0x0;
     0x0; 0x3f; 0x70; 0x0; 0x0; 0x9f; 0x10; 0x0;
     0x0; 0xeb; 0x0; 0x0; 0x2; 0xf7; 0x0; 0x0;
     0x4; 0xf5; 0x0; 0x0];
  (* U+0038 *)
    [0x0; 0x0; 0x0; 0x0; 0x0; 0x7; 0xef; 0xe7;
     0x0; 0x8; 0xf8; 0x48; 0xf7; 0x0; 0xfb; 0x0;
     0xb; 0xe0; 0xe; 0xa0; 0x0; 0xae; 0x0; 0x8f;
     0x51; 0x5f; 0x70; 0x0; 0xcf; 0xff; 0xb0; 0x0;
     0xae; 0x74; 0x7f; 0x90; 0x2f; 0x60; 0x0; 0x7f;
     0x13; 0xf7; 0x0; 0x8; 0xf2; 0xc; 0xf8; 0x68;
     0xfc; 0x0; 0x19; 0xdf; 0xd8; 0x10];
  (* U+0039 *)
    [0x0; 0x0; 0x10; 0x0; 0x0; 0x8; 0xff; 0xe7;
     0x0; 0x9; 0xf8; 0x59; 0xf8; 0x2; 0xf8; 0x0;
     0x9; 0xf1; 0x5f; 0x40; 0x0; 0x5f; 0x54; 0xf6;
     0x0; 0x8; 0xf7; 0xd; 0xe5; 0x16; 0xff; 0x70;
     0x2c; 0xff; 0xf9; 0xf5; 0x0; 0x2; 0x31; 0x6f;
     0x20; 0x0; 0x0; 0x2e; 0xb0; 0x9; 0x86; 0x9f;
     0xe2; 0x0; 0xae; 0xfe; 0x91; 0x0];
  (* U+003A *)
    [0x8e; 0x3a; 0xf4; 0x2; 0x0; 0x0; 0x0; 0x0;
     0x20; 0xaf; 0x48; 0xe3];
  (* U+003B *)
    [0x8e; 0x3a; 0xf5; 0x2; 0x0; 0x0; 0x0; 0x0;
     0x0; 0x9f; 0x49; 0xf8; 0x9; 0x56; 0xb0; 0x20;
     0x0];
  (* U+003C *)
    [0x0; 0x0; 0x0; 0x41; 0x0; 0x0; 0x4c; 0xf2;
     0x0; 0x4c; 0xfb; 0x30; 0x2c; 0xfb; 0x30; 0x0;
     0x7f; 0xa0; 0x0; 0x0; 0x18; 0xfe; 0x70; 0x0;
     0x0; 0x18; 0xfe; 0x70; 0x0; 0x0; 0x18; 0xf2;
     0x0; 0x0; 0x0; 0x10];
  (* U+003D *)
    [0x0; 0x0; 0x0; 0x0; 0xff; 0xff; 0xff; 0xf7;
     0x33; 0x33; 0x33; 0x31; 0x0; 0x0; 0x0; 0x0;
     0xff; 0xff; 0xff; 0xf7; 0x33; 0x33; 0x33; 0x31];
  (* U+003E *)
    [0x32; 0x0; 0x0; 0x0; 0x6f; 0xa2; 0x0; 0x0;
     0x5; 0xdf; 0xa2; 0x0; 0x0; 0x5; 0xdf; 0xa0;
     0x0; 0x0; 0x2d; 0xf2; 0x0; 0x29; 0xfd; 0x60;
     0x19; 0xfe; 0x60; 0x0; 0x7e; 0x60; 0x0; 0x0;
     0x10; 0x0; 0x0; 0x0];
  (* U+003F *)
    [0x1; 0xaf; 0xeb; 0x30; 0xd; 0xf8; 0x7d; 0xf2;
     0x5f; 0x50; 0x2; 0xf7; 0x5f; 0x20; 0x1; 0xf8;
     0x0; 0x0; 0x1c; 0xe2; 0x0; 0x3; 0xfd; 0x20;
     0x0; 0xc; 0xd0; 0x0; 0x0; 0xa; 0x60; 0x0;
     0x0; 0x0; 0x0; 0x0; 0x0; 0x1f; 0xb0; 0x0;
     0x0; 0x1e; 0x90; 0x0];
  (* U+0040 *)
    [0x0; 0x1; 0x8d; 0xff; 0xc7; 0x0; 0x0; 0x3;
     0xec; 0x63; 0x36; 0xdd; 0x20; 0x2; 0xf8; 0x0;
     0x0; 0x0; 0xad; 0x0; 0xab; 0x0; 0x9f; 0xd8;
     0xe0; 0xe5; 0xf; 0x40; 0xad; 0x45; 0xfa; 0xa;
     0x93; 0xf1; 0x1f; 0x30; 0xc; 0x70; 0xa9; 0x3f;
     0x4; 0xf0; 0x0; 0xe3; 0xd; 0x62; 0xf3; 0x2f;
     0x50; 0x8f; 0x27; 0xf1; 0xd; 0x90; 0x7f; 0xf9;
     0xbf; 0xe3; 0x0; 0x5f; 0x40; 0x1; 0x0; 0x10;
     0x0; 0x0; 0x7f; 0x93; 0x0; 0x39; 0xc0; 0x0;
     0x0; 0x3b; 0xff; 0xff; 0xa2; 0x0; 0x0; 0x0;
     0x0; 0x22; 0x0; 0x0; 0x0];
  (* U+0041 *)
    [0x0; 0x0; 0x8f; 0xa0; 0x0; 0x0; 0x0; 0xe;
     0xdf; 0x10; 0x0; 0x0; 0x5; 0xf2; 0xf8; 0x0;
     0x0; 0x0; 0xc9; 0x8; 0xe0; 0x0; 0x0; 0x2f;
     0x20; 0x1f; 0x50; 0x0; 0x9; 0xc2; 0x22; 0xbb;
     0x0; 0x0; 0xff; 0xff; 0xff; 0xf2; 0x0; 0x6f;
     0x55; 0x55; 0x5e; 0x80; 0xd; 0xa0; 0x0; 0x0;
     0x8e; 0x3; 0xf5; 0x0; 0x0; 0x3; 0xf5; 0xaf;
     0x0; 0x0; 0x0; 0xd; 0xc0];
  (* U+0042 *)
    [0x9f; 0xff; 0xfb; 0x30; 0x9f; 0x66; 0x7e; 0xf2;
     0x9f; 0x0; 0x3; 0xf7; 0x9f; 0x0; 0x1; 0xf7;
     0x9f; 0x11; 0x2b; 0xf2; 0x9f; 0xff; 0xff; 0x60;
     0x9f; 0x44; 0x49; 0xf5; 0x9f; 0x0; 0x0; 0xcc;
     0x9f; 0x0; 0x0; 0xdd; 0x9f; 0x66; 0x6b; 0xf7;
     0x9f; 0xff; 0xfd; 0x60];
  (* U+0043 *)
    [0x0; 0x4; 0xbe; 0xfd; 0x92; 0x0; 0x0; 0x8f;
     0xd9; 0x79; 0xff; 0x30; 0x6; 0xf8; 0x0; 0x0;
     0x1d; 0xe0; 0xe; 0xc0; 0x0; 0x0; 0x4; 0xa1;
     0x2f; 0x60; 0x0; 0x0; 0x0; 0x0; 0x4f; 0x50;
     0x0; 0x0; 0x0; 0x0; 0x2f; 0x60; 0x0; 0x0;
     0x0; 0x0; 0xe; 0xc0; 0x0; 0x0; 0x3; 0xb2;
     0x6; 0xf9; 0x0; 0x0; 0x1d; 0xe0; 0x0; 0x9f;
     0xd9; 0x79; 0xfe; 0x30; 0x0; 0x4; 0xbe; 0xfd;
     0x91; 0x0];
  (* U+0044 *)
    [0x9f; 0xff; 0xfe; 0x92; 0x0; 0x9f; 0x66; 0x69;
     0xff; 0x40; 0x9f; 0x0; 0x0; 0x1d; 0xe1; 0x9f;
     0x0; 0x0; 0x3; 0xf7; 0x9f; 0x0; 0x0; 0x0;
     0xeb; 0x9f; 0x0; 0x0; 0x0; 0xdc; 0x9f; 0x0;
     0x0; 0x0; 0xeb; 0x9f; 0x0; 0x0; 0x4; 0xf7;
     0x9f; 0x0; 0x0; 0x1d; 0xf1; 0x9f; 0x66; 0x79;
     0xff; 0x40; 0x9f; 0xff; 0xfe; 0x92; 0x0];
  (* U+0045 *)
    [0x9f; 0xff; 0xff; 0xf5; 0x9f; 0x77; 0x77; 0x72;
     0x9f; 0x0; 0x0; 0x0; 0x9f; 0x0; 0x0; 0x0;
     0x9f; 0x22; 0x22; 0x10; 0x9f; 0xff; 0xff; 0xd0;
     0x9f; 0x55; 0x55; 0x40; 0x9f; 0x0; 0x0; 0x0;
     0x9f; 0x0; 0x0; 0x0; 0x9f; 0x77; 0x77; 0x72;
     0x9f; 0xff; 0xff; 0xf5];
  (* U+0046 *)
    [0x9f; 0xff; 0xff; 0xf5; 0x9f; 0x77; 0x77; 0x72;
     0x9f; 0x0; 0x0; 0x0; 0x9f; 0x0; 0x0; 0x0;
     0x9f; 0x22; 0x22; 0x10; 0x9f; 0xff; 0xff; 0xd0;
     0x9f; 0x55; 0x55; 0x40; 0x9f; 0x0; 0x0; 0x0;
     0x9f; 0x0; 0x0; 0x0; 0x9f; 0x0; 0x0; 0x0;
     0x9f; 0x0; 0x0; 0x0]].
Definition glyph_bitmap_0047 : list (list Z) := [
  (* U+0047 *)
    [0x0; 0x4; 0xbe; 0xfd; 0x92; 0x0; 0x0; 0x9f;
     0xd9; 0x79; 0xef; 0x50; 0x6; 0xf8; 0x0; 0x0;
     0xb; 0xf1; 0xe; 0xc0; 0x0; 0x0; 0x1; 0x30;
     0x2f; 0x60; 0x0; 0x11; 0x11; 0x10; 0x4f; 0x50;
     0x2; 0xff; 0xff; 0xf4; 0x2f; 0x60; 0x0; 0x44;
     0x48; 0xf4; 0xe; 0xc0; 0x0; 0x0; 0x8; 0xf4;
     0x7; 0xf8; 0x0; 0x0; 0x4f; 0xf4; 0x0; 0xaf;
     0xc8; 0x7a; 0xfa; 0xf4; 0x0; 0x5; 0xbf; 0xfc;
     0x60; 0xf4];
  (* U+0048 *)
    [0x9f; 0x0; 0x0; 0x3; 0xf6; 0x9f; 0x0; 0x0;
     0x3; 0xf6; 0x9f; 0x0; 0x0; 0x3; 0xf6; 0x9f;
     0x0; 0x0; 0x3; 0xf6; 0x9f; 0x22; 0x22; 0x25;
     0xf6; 0x9f; 0xff; 0xff; 0xff; 0xf6; 0x9f; 0x55;
     0x55; 0x57; 0xf6; 0x9f; 0x0; 0x0; 0x3; 0xf6;
     0x9f; 0x0; 0x0; 0x3; 0xf6; 0x9f; 0x0; 0x0;
     0x3; 0xf6; 0x9f; 0x0; 0x0; 0x3; 0xf6];
  (* U+0049 *)
    [0x9f; 0x9; 0xf0; 0x9f; 0x9; 0xf0; 0x9f; 0x9;
     0xf0; 0x9f; 0x9; 0xf0; 0x9f; 0x9; 0xf0; 0x9f;
     0x0];
  (* U+004A *)
    [0x0; 0x0; 0x4; 0xf4; 0x0; 0x0; 0x4; 0xf4;
     0x0; 0x0; 0x4; 0xf4; 0x0; 0x0; 0x4; 0xf4;
     0x0; 0x0; 0x4; 0xf4; 0x0; 0x0; 0x4; 0xf4;
     0x26; 0x0; 0x4; 0xf4; 0xae; 0x0; 0x4; 0xf3;
     0x8f; 0x10; 0x8; 0xf1; 0x2f; 0xd8; 0x9f; 0xa0;
     0x3; 0xbe; 0xe8; 0x0];
  (* U+004B *)
    [0x9f; 0x0; 0x0; 0x3f; 0xd1; 0x9f; 0x0; 0x2;
     0xed; 0x10; 0x9f; 0x0; 0x2e; 0xd1; 0x0; 0x9f;
     0x1; 0xde; 0x20; 0x0; 0x9f; 0x1d; 0xe2; 0x0;
     0x0; 0x9f; 0xcf; 0xf2; 0x0; 0x0; 0x9f; 0xe4;
     0xed; 0x0; 0x0; 0x9f; 0x30; 0x3f; 0xb0; 0x0;
     0x9f; 0x0; 0x6; 0xf7; 0x0; 0x9f; 0x0; 0x0;
     0xaf; 0x40; 0x9f; 0x0; 0x0; 0xd; 0xe2];
  (* U+004C *)
    [0x9f; 0x0; 0x0; 0x0; 0x9f; 0x0; 0x0; 0x0;
     0x9f; 0x0; 0x0; 0x0; 0x9f; 0x0; 0x0; 0x0;
     0x9f; 0x0; 0x0; 0x0; 0x9f; 0x0; 0x0; 0x0;
     0x9f; 0x0; 0x0; 0x0; 0x9f; 0x0; 0x0; 0x0;
     0x9f; 0x0; 0x0; 0x0; 0x9f; 0x77; 0x77; 0x72;
     0x9f; 0xff; 0xff; 0xf6];
  (* U+004D *)
    [0x9f; 0xc0; 0x0; 0x0; 0x0; 0xaf; 0xb9; 0xff;
     0x30; 0x0; 0x0; 0x1f; 0xfb; 0x9f; 0xfa; 0x0;
     0x0; 0x8; 0xff; 0xb9; 0xf8; 0xf2; 0x0; 0x0;
     0xea; 0xdb; 0x9f; 0x1f; 0x90; 0x0; 0x6f; 0x3d;
     0xb9; 0xf0; 0xaf; 0x10; 0xd; 0xc0; 0xdb; 0x9f;
     0x3; 0xf7; 0x5; 0xf4; 0xd; 0xb9; 0xf0; 0xb;
     0xe0; 0xcd; 0x0; 0xdb; 0x9f; 0x0; 0x4f; 0x9f;
     0x60; 0xd; 0xb9; 0xf0; 0x0; 0xdf; 0xe0; 0x0;
     0xdb; 0x9f; 0x0; 0x6; 0xf7; 0x0; 0xd; 0xb0];
  (* U+004E *)
    [0x9f; 0xd0; 0x0; 0x0; 0xcc; 0x9f; 0xf8; 0x0;
     0x0; 0xcc; 0x9f; 0xaf; 0x30; 0x0; 0xcc; 0x9f;
     0x1e; 0xd0; 0x0; 0xcc; 0x9f; 0x4; 0xf8; 0x0;
     0xcc; 0x9f; 0x0; 0x9f; 0x30; 0xcc; 0x9f; 0x0;
     0xe; 0xd0; 0xcc; 0x9f; 0x0; 0x4; 0xf9; 0xcc;
     0x9f; 0x0; 0x0; 0x9f; 0xfc; 0x9f; 0x0; 0x0;
     0xd; 0xfc; 0x9f; 0x0; 0x0; 0x3; 0xfc];
  (* U+004F *)
    [0x0; 0x3; 0xae; 0xfe; 0x92; 0x0; 0x0; 0x8;
     0xfd; 0x97; 0xae; 0xf6; 0x0; 0x6; 0xf9; 0x0;
     0x0; 0xb; 0xf3; 0x0; 0xec; 0x0; 0x0; 0x0;
     0xe; 0xb0; 0x2f; 0x60; 0x0; 0x0; 0x0; 0x9f;
     0x4; 0xf5; 0x0; 0x0; 0x0; 0x8; 0xf1; 0x2f;
     0x60; 0x0; 0x0; 0x0; 0x9f; 0x0; 0xed; 0x0;
     0x0; 0x0; 0x1e; 0xb0; 0x6; 0xf9; 0x0; 0x0;
     0x1b; 0xf3; 0x0; 0x8; 0xfe; 0x97; 0x9e; 0xf6;
     0x0; 0x0; 0x4; 0xae; 0xfe; 0x92; 0x0; 0x0];
  (* U+0050 *)
    [0x9f; 0xff; 0xfd; 0x70; 0x9; 0xf6; 0x67; 0xbf;
     0x80; 0x9f; 0x0; 0x0; 0xbf; 0x9; 0xf0; 0x0;
     0x9; 0xf0; 0x9f; 0x11; 0x26; 0xfb; 0x9; 0xff;
     0xff; 0xfc; 0x10; 0x9f; 0x44; 0x42; 0x0; 0x9;
     0xf0; 0x0; 0x0; 0x0; 0x9f; 0x0; 0x0; 0x0;
     0x9; 0xf0; 0x0; 0x0; 0x0; 0x9f; 0x0; 0x0;
     0x0; 0x0];
  (* U+0051 *)
    [0x0; 0x3; 0xae; 0xfe; 0x92; 0x0; 0x0; 0x8;
     0xfd; 0x97; 0xae; 0xf6; 0x0; 0x6; 0xf9; 0x0;
     0x0; 0xb; 0xf4; 0x0; 0xec; 0x0; 0x0; 0x0;
     0xe; 0xc0; 0x2f; 0x60; 0x0; 0x0; 0x0; 0x9f;
     0x4; 0xf5; 0x0; 0x0; 0x0; 0x8; 0xf1; 0x2f;
     0x60; 0x0; 0x18; 0x0; 0x9f; 0x0; 0xed; 0x0;
     0x3; 0xfb; 0x1e; 0xb0; 0x6; 0xf9; 0x0; 0x3;
     0xfe; 0xf3; 0x0; 0x8; 0xfe; 0x97; 0x9e; 0xfc;
     0x0; 0x0; 0x4; 0xae; 0xfd; 0x96; 0xf8; 0x0;
     0x0; 0x0; 0x0; 0x0; 0x6; 0x20];
  (* U+0052 *)
    [0x9f; 0xff; 0xfd; 0x80; 0x9; 0xf7; 0x67; 0xaf;
     0xa0; 0x9f; 0x0; 0x0; 0xaf; 0x9; 0xf0; 0x0;
     0x8; 0xf2; 0x9f; 0x21; 0x25; 0xed; 0x9; 0xff;
     0xff; 0xfc; 0x20; 0x9f; 0x55; 0xfa; 0x0; 0x9;
     0xf0; 0x9; 0xf2; 0x0; 0x9f; 0x0; 0x1f; 0xb0;
     0x9; 0xf0; 0x0; 0x8f; 0x40; 0x9f; 0x0; 0x0;
     0xed; 0x0];
  (* U+0053 *)
    [0x0; 0x3c; 0xff; 0xb2; 0x0; 0x4f; 0xc7; 0x8e;
     0xe2; 0xc; 0xd0; 0x0; 0x1f; 0x70; 0xdc; 0x0;
     0x0; 0x10; 0x7; 0xf9; 0x41; 0x0; 0x0; 0x6;
     0xdf; 0xfc; 0x40; 0x0; 0x0; 0x14; 0xbf; 0x41;
     0x71; 0x0; 0x0; 0xea; 0x2f; 0x90; 0x0; 0x1f;
     0xa0; 0x9f; 0xb7; 0x8d; 0xf2; 0x0; 0x6d; 0xfe;
     0xb2; 0x0];
  (* U+0054 *)
    [0xdf; 0xff; 0xff; 0xff; 0xf5; 0x67; 0x77; 0xfb;
     0x77; 0x72; 0x0; 0x0; 0xf8; 0x0; 0x0; 0x0;
     0x0; 0xf8; 0x0; 0x0; 0x0; 0x0; 0xf8; 0x0;
     0x0; 0x0; 0x0; 0xf8; 0x0; 0x0; 0x0; 0x0;
     0xf8; 0x0; 0x0; 0x0; 0x0; 0xf8; 0x0; 0x0;
     0x0; 0x0; 0xf8; 0x0; 0x0; 0x0; 0x0; 0xf8;
     0x0; 0x0; 0x0; 0x0; 0xf8; 0x0; 0x0];
  (* U+0055 *)
    [0xbd; 0x0; 0x0; 0x2f; 0x7b; 0xd0; 0x0; 0x2;
     0xf7; 0xbd; 0x0; 0x0; 0x2f; 0x7b; 0xd0; 0x0;
     0x2; 0xf7; 0xbd; 0x0; 0x0; 0x2f; 0x7b; 0xd0;
     0x0; 0x2; 0xf7; 0xbd; 0x0; 0x0; 0x2f; 0x7a;
     0xe0; 0x0; 0x3; 0xf6; 0x7f; 0x40; 0x0; 0x8f;
     0x30; 0xdf; 0x97; 0xbf; 0xa0; 0x1; 0x9d; 0xfd;
     0x70; 0x0];
  (* U+0056 *)
    [0xaf; 0x0; 0x0; 0x0; 0x7f; 0x24; 0xf6; 0x0;
     0x0; 0xd; 0xc0; 0xd; 0xc0; 0x0; 0x4; 0xf5;
     0x0; 0x7f; 0x20; 0x0; 0xae; 0x0; 0x1; 0xf8;
     0x0; 0xf; 0x90; 0x0; 0xb; 0xe0; 0x6; 0xf2;
     0x0; 0x0; 0x5f; 0x40; 0xcc; 0x0; 0x0; 0x0;
     0xea; 0x2f; 0x60; 0x0; 0x0; 0x8; 0xf9; 0xf0;
     0x0; 0x0; 0x0; 0x2f; 0xf9; 0x0; 0x0; 0x0;
     0x0; 0xcf; 0x20; 0x0; 0x0]].
Definition glyph_bitmap_0057 : list (list Z) := [
  (* U+0057 *)
    [0x9f; 0x0; 0x0; 0xf; 0xf0; 0x0; 0x0; 0xea;
     0x5f; 0x40; 0x0; 0x4f; 0xf5; 0x0; 0x3; 0xf6;
     0xf; 0x90; 0x0; 0xad; 0xda; 0x0; 0x8; 0xf1;
     0xb; 0xd0; 0x0; 0xe8; 0x8f; 0x0; 0xc; 0xc0;
     0x6; 0xf2; 0x4; 0xf3; 0x2f; 0x50; 0x1f; 0x80;
     0x2; 0xf7; 0x9; 0xe0; 0xd; 0xb0; 0x5f; 0x30;
     0x0; 0xdb; 0xe; 0x90; 0x8; 0xf0; 0x9e; 0x0;
     0x0; 0x8f; 0x5f; 0x30; 0x3; 0xf5; 0xe9; 0x0;
     0x0; 0x3f; 0xee; 0x0; 0x0; 0xdd; 0xf5; 0x0;
     0x0; 0xe; 0xf9; 0x0; 0x0; 0x8f; 0xf0; 0x0;
     0x0; 0xa; 0xf4; 0x0; 0x0; 0x3f; 0xb0; 0x0];
  (* U+0058 *)
    [0x7f; 0x60; 0x0; 0x7; 0xf5; 0xc; 0xf1; 0x0;
     0x2f; 0xa0; 0x1; 0xfb; 0x0; 0xce; 0x10; 0x0;
     0x5f; 0x68; 0xf4; 0x0; 0x0; 0xa; 0xff; 0x80;
     0x0; 0x0; 0x2; 0xff; 0x0; 0x0; 0x0; 0xa;
     0xff; 0x80; 0x0; 0x0; 0x6f; 0x68; 0xf3; 0x0;
     0x2; 0xfb; 0x0; 0xdd; 0x0; 0xc; 0xe1; 0x0;
     0x3f; 0x90; 0x7f; 0x50; 0x0; 0x8; 0xf4];
  (* U+0059 *)
    [0x8f; 0x50; 0x0; 0x5; 0xf6; 0xd; 0xe0; 0x0;
     0xe; 0xc0; 0x4; 0xf8; 0x0; 0x9f; 0x20; 0x0;
     0x9f; 0x22; 0xf8; 0x0; 0x0; 0x1e; 0xbc; 0xd0;
     0x0; 0x0; 0x5; 0xff; 0x30; 0x0; 0x0; 0x0;
     0xdc; 0x0; 0x0; 0x0; 0x0; 0xdb; 0x0; 0x0;
     0x0; 0x0; 0xdb; 0x0; 0x0; 0x0; 0x0; 0xdb;
     0x0; 0x0; 0x0; 0x0; 0xdb; 0x0; 0x0];
  (* U+005A *)
    [0x2f; 0xff; 0xff; 0xff; 0xf6; 0x7; 0x77; 0x77;
     0x7d; 0xf4; 0x0; 0x0; 0x0; 0x6f; 0x90; 0x0;
     0x0; 0x4; 0xfb; 0x0; 0x0; 0x0; 0x2e; 0xd0;
     0x0; 0x0; 0x1; 0xde; 0x10; 0x0; 0x0; 0xc;
     0xf3; 0x0; 0x0; 0x0; 0xaf; 0x50; 0x0; 0x0;
     0x8; 0xf7; 0x0; 0x0; 0x0; 0x3f; 0xe7; 0x77;
     0x77; 0x73; 0x4f; 0xff; 0xff; 0xff; 0xf7];
  (* U+005B *)
    [0x0; 0x0; 0x9f; 0xf8; 0x9c; 0x31; 0x9c; 0x0;
     0x9c; 0x0; 0x9c; 0x0; 0x9c; 0x0; 0x9c; 0x0;
     0x9c; 0x0; 0x9c; 0x0; 0x9c; 0x0; 0x9c; 0x0;
     0x9c; 0x0; 0x9c; 0x0; 0x9c; 0x0; 0x9f; 0xf8;
     0x13; 0x31];
  (* U+005C *)
    [0xcb; 0x0; 0x0; 0x4; 0xf3; 0x0; 0x0; 0xc;
     0xb0; 0x0; 0x0; 0x4f; 0x30; 0x0; 0x0; 0xcb;
     0x0; 0x0; 0x4; 0xf3; 0x0; 0x0; 0xc; 0xb0;
     0x0; 0x0; 0x4f; 0x30; 0x0; 0x0; 0xcb; 0x0;
     0x0; 0x4; 0xf3; 0x0; 0x0; 0xc; 0xb0];
  (* U+005D *)
    [0x0; 0x0; 0xef; 0xf2; 0x25; 0xf2; 0x2; 0xf2;
     0x2; 0xf2; 0x2; 0xf2; 0x2; 0xf2; 0x2; 0xf2;
     0x2; 0xf2; 0x2; 0xf2; 0x2; 0xf2; 0x2; 0xf2;
     0x2; 0xf2; 0x2; 0xf2; 0x2; 0xf2; 0xef; 0xf2;
     0x23; 0x30];
  (* U+005E *)
    [0x0; 0xc; 0xf1; 0x0; 0x0; 0x4f; 0xf9; 0x0;
     0x0; 0xcb; 0x6f; 0x20; 0x4; 0xf3; 0xe; 0xa0;
     0xd; 0xb0; 0x6; 0xf2; 0x5f; 0x30; 0x0; 0xda];
  (* U+005F *)
    [0x0; 0x0; 0x0; 0x0; 0xc; 0xff; 0xff; 0xff;
     0xf7; 0x23; 0x33; 0x33; 0x33; 0x10];
  (* U+0060 *)
    [0x28; 0x40; 0xa; 0xe0; 0x0; 0xc8];
  (* U+0061 *)
    [0x0; 0x9e; 0xeb; 0x20; 0xa; 0xf7; 0x5c; 0xe0;
     0x9; 0x70; 0x4; 0xf3; 0x0; 0x58; 0xbe; 0xf5;
     0xb; 0xfb; 0x88; 0xf5; 0x2f; 0x70; 0x5; 0xf5;
     0xf; 0xa1; 0x3d; 0xf5; 0x4; 0xdf; 0xd6; 0xf5];
  (* U+0062 *)
    [0xbc; 0x0; 0x0; 0x0; 0xbc; 0x0; 0x0; 0x0;
     0xbc; 0x0; 0x0; 0x0; 0xbc; 0x0; 0x0; 0x0;
     0xbc; 0x6e; 0xfc; 0x30; 0xbf; 0xe7; 0x6d; 0xf2;
     0xbf; 0x20; 0x1; 0xf9; 0xbd; 0x0; 0x0; 0xcc;
     0xbd; 0x0; 0x0; 0xcc; 0xbf; 0x20; 0x1; 0xf9;
     0xbf; 0xe7; 0x6d; 0xf1; 0xbc; 0x6e; 0xfc; 0x20];
  (* U+0063 *)
    [0x0; 0x6d; 0xfd; 0x60; 0x7; 0xfb; 0x7a; 0xf7;
     0x1f; 0x90; 0x0; 0x98; 0x5f; 0x40; 0x0; 0x0;
     0x5f; 0x40; 0x0; 0x0; 0x1f; 0x90; 0x0; 0x88;
     0x7; 0xfa; 0x69; 0xf8; 0x0; 0x6d; 0xfd; 0x70];
  (* U+0064 *)
    [0x0; 0x0; 0x0; 0x5f; 0x20; 0x0; 0x0; 0x5;
     0xf2; 0x0; 0x0; 0x0; 0x5f; 0x20; 0x0; 0x0;
     0x5; 0xf2; 0x0; 0x7e; 0xfb; 0x7f; 0x20; 0x8f;
     0x96; 0xaf; 0xf2; 0x1f; 0x90; 0x0; 0xbf; 0x25;
     0xf3; 0x0; 0x6; 0xf2; 0x4f; 0x30; 0x0; 0x6f;
     0x21; 0xf8; 0x0; 0xb; 0xf2; 0x9; 0xf9; 0x6a;
     0xff; 0x20; 0x7; 0xef; 0xb6; 0xf2];
  (* U+0065 *)
    [0x0; 0x6d; 0xfd; 0x50; 0x0; 0x7f; 0x86; 0x9f;
     0x50; 0x1f; 0x60; 0x0; 0xac; 0x4; 0xff; 0xff;
     0xff; 0xf0; 0x4f; 0x63; 0x33; 0x33; 0x1; 0xf9;
     0x0; 0x8; 0x90; 0x7; 0xf9; 0x58; 0xf7; 0x0;
     0x6; 0xdf; 0xd6; 0x0];
  (* U+0066 *)
    [0x0; 0x6e; 0xf2; 0x2; 0xfc; 0x71; 0x4; 0xf4;
     0x0; 0xbf; 0xff; 0xf2; 0x38; 0xf8; 0x50; 0x4;
     0xf4; 0x0; 0x4; 0xf4; 0x0; 0x4; 0xf4; 0x0;
     0x4; 0xf4; 0x0; 0x4; 0xf4; 0x0; 0x4; 0xf4;
     0x0];
  (* U+0067 *)
    [0x0; 0x6e; 0xfc; 0x7f; 0x20; 0x7f; 0x95; 0x9f;
     0xf2; 0xf; 0xa0; 0x0; 0xaf; 0x22; 0xf5; 0x0;
     0x6; 0xf2; 0x3f; 0x50; 0x0; 0x6f; 0x20; 0xf9;
     0x0; 0xa; 0xf2; 0x7; 0xf8; 0x59; 0xff; 0x20;
     0x7; 0xef; 0xb7; 0xf1; 0x19; 0x30; 0x0; 0x9e;
     0x0; 0xde; 0x75; 0x9f; 0x70; 0x1; 0x9e; 0xfd;
     0x60; 0x0];
  (* U+0068 *)
    [0xbc; 0x0; 0x0; 0xb; 0xc0; 0x0; 0x0; 0xbc;
     0x0; 0x0; 0xb; 0xc0; 0x0; 0x0; 0xbc; 0x8e;
     0xe9; 0xb; 0xfc; 0x6a; 0xf8; 0xbf; 0x0; 0xc;
     0xcb; 0xc0; 0x0; 0xad; 0xbc; 0x0; 0xa; 0xeb;
     0xc0; 0x0; 0xae; 0xbc; 0x0; 0xa; 0xeb; 0xc0;
     0x0; 0xae];
  (* U+0069 *)
    [0xc; 0xd0; 0xe; 0xe0; 0x0; 0x10; 0x0; 0x0;
     0xb; 0xc0; 0xb; 0xc0; 0xb; 0xc0; 0xb; 0xc0;
     0xb; 0xc0; 0xb; 0xc0; 0xb; 0xc0; 0xb; 0xc0];
  (* U+006A *)
    [0x0; 0xcd; 0x0; 0xe; 0xe0; 0x0; 0x1; 0x0;
     0x0; 0x0; 0x0; 0xbc; 0x0; 0xb; 0xc0; 0x0;
     0xbc; 0x0; 0xb; 0xc0; 0x0; 0xbc; 0x0; 0xb;
     0xc0; 0x0; 0xbc; 0x0; 0xb; 0xc0; 0x0; 0xbc;
     0x1; 0x6f; 0x90; 0x3f; 0xc1; 0x0]].
Definition glyph_bitmap_006b : list (list Z) := [
  (* U+006B *)
    [0xbc; 0x0; 0x0; 0x0; 0xbc; 0x0; 0x0; 0x0;
     0xbc; 0x0; 0x0; 0x0; 0xbc; 0x0; 0x0; 0x0;
     0xbc; 0x0; 0x6f; 0xa0; 0xbc; 0x5; 0xfb; 0x0;
     0xbc; 0x4f; 0xb0; 0x0; 0xbe; 0xff; 0x10; 0x0;
     0xbf; 0xcf; 0xb0; 0x0; 0xbe; 0x6; 0xf6; 0x0;
     0xbc; 0x0; 0xbf; 0x20; 0xbc; 0x0; 0x1e; 0xd0];
  (* U+006C *)
    [0xbc; 0xbc; 0xbc; 0xbc; 0xbc; 0xbc; 0xbc; 0xbc;
     0xbc; 0xbc; 0xbc; 0xbc];
  (* U+006D *)
    [0xbc; 0x9e; 0xf9; 0x1a; 0xfe; 0x60; 0xbf; 0x82;
     0x7f; 0xf7; 0x28; 0xf3; 0xbe; 0x0; 0xe; 0xd0;
     0x0; 0xf8; 0xbc; 0x0; 0xd; 0xb0; 0x0; 0xe9;
     0xbc; 0x0; 0xd; 0xb0; 0x0; 0xe9; 0xbc; 0x0;
     0xd; 0xb0; 0x0; 0xe9; 0xbc; 0x0; 0xd; 0xb0;
     0x0; 0xe9; 0xbc; 0x0; 0xd; 0xb0; 0x0; 0xe9];
  (* U+006E *)
    [0xbc; 0x8e; 0xe9; 0xb; 0xf9; 0x36; 0xf8; 0xbe;
     0x0; 0xb; 0xcb; 0xc0; 0x0; 0xad; 0xbc; 0x0;
     0xa; 0xeb; 0xc0; 0x0; 0xae; 0xbc; 0x0; 0xa;
     0xeb; 0xc0; 0x0; 0xae];
  (* U+006F *)
    [0x0; 0x5d; 0xfd; 0x70; 0x0; 0x7f; 0xa6; 0x9f;
     0x90; 0x1f; 0x90; 0x0; 0x7f; 0x35; 0xf4; 0x0;
     0x1; 0xf7; 0x5f; 0x40; 0x0; 0x1f; 0x71; 0xf9;
     0x0; 0x7; 0xf3; 0x7; 0xfa; 0x69; 0xfa; 0x0;
     0x6; 0xdf; 0xe7; 0x0];
  (* U+0070 *)
    [0xbb; 0x7e; 0xfc; 0x30; 0xbf; 0xd4; 0x4c; 0xf2;
     0xbf; 0x10; 0x1; 0xf9; 0xbc; 0x0; 0x0; 0xcc;
     0xbd; 0x0; 0x0; 0xcc; 0xbf; 0x30; 0x2; 0xf9;
     0xbf; 0xe7; 0x7e; 0xf2; 0xbc; 0x7e; 0xfc; 0x20;
     0xbc; 0x0; 0x0; 0x0; 0xbc; 0x0; 0x0; 0x0;
     0xbc; 0x0; 0x0; 0x0];
  (* U+0071 *)
    [0x0; 0x7e; 0xfb; 0x6f; 0x20; 0x9f; 0x96; 0xaf;
     0xf2; 0x1f; 0x80; 0x0; 0xaf; 0x24; 0xf3; 0x0;
     0x5; 0xf2; 0x4f; 0x30; 0x0; 0x6f; 0x21; 0xf9;
     0x0; 0xb; 0xf2; 0x8; 0xf9; 0x6a; 0xff; 0x20;
     0x7; 0xef; 0xb7; 0xf2; 0x0; 0x0; 0x0; 0x5f;
     0x20; 0x0; 0x0; 0x5; 0xf2; 0x0; 0x0; 0x0;
     0x5f; 0x20];
  (* U+0072 *)
    [0xbc; 0x7e; 0x8b; 0xfe; 0x84; 0xbf; 0x20; 0xb;
     0xd0; 0x0; 0xbc; 0x0; 0xb; 0xc0; 0x0; 0xbc;
     0x0; 0xb; 0xc0; 0x0];
  (* U+0073 *)
    [0x3; 0xcf; 0xd5; 0x0; 0xeb; 0x5a; 0xf3; 0x2f;
     0x50; 0x5; 0x0; 0xcf; 0xb7; 0x10; 0x0; 0x6a;
     0xef; 0x21; 0x80; 0x1; 0xf7; 0x2f; 0xb5; 0x8f;
     0x40; 0x4c; 0xfd; 0x60];
  (* U+0074 *)
    [0x0; 0x82; 0x0; 0x1f; 0x40; 0x5; 0xf4; 0xb;
     0xff; 0xff; 0x37; 0xf8; 0x50; 0x3f; 0x40; 0x3;
     0xf4; 0x0; 0x3f; 0x40; 0x3; 0xf4; 0x0; 0x1f;
     0xb6; 0x0; 0x7e; 0xe0];
  (* U+0075 *)
    [0xcb; 0x0; 0xb; 0xcc; 0xb0; 0x0; 0xbc; 0xcb;
     0x0; 0xb; 0xcc; 0xb0; 0x0; 0xbc; 0xcb; 0x0;
     0xb; 0xcb; 0xd0; 0x0; 0xec; 0x6f; 0xa5; 0xaf;
     0xc0; 0x7e; 0xf9; 0xad];
  (* U+0076 *)
    [0xaf; 0x10; 0x0; 0xea; 0x4f; 0x60; 0x4; 0xf4;
     0xd; 0xb0; 0xa; 0xe0; 0x7; 0xf1; 0xf; 0x80;
     0x1; 0xf7; 0x5f; 0x20; 0x0; 0xbc; 0xbc; 0x0;
     0x0; 0x4f; 0xf5; 0x0; 0x0; 0xe; 0xf0; 0x0];
  (* U+0077 *)
    [0x9f; 0x0; 0x8; 0xf5; 0x0; 0x4f; 0x44; 0xf5;
     0x0; 0xef; 0xa0; 0x9; 0xf0; 0xf; 0x90; 0x3f;
     0x9f; 0x0; 0xda; 0x0; 0xae; 0x8; 0xd1; 0xf5;
     0x1f; 0x50; 0x5; 0xf2; 0xe8; 0xc; 0xa6; 0xf1;
     0x0; 0xf; 0xaf; 0x20; 0x6f; 0xbb; 0x0; 0x0;
     0xbf; 0xd0; 0x1; 0xff; 0x60; 0x0; 0x6; 0xf8;
     0x0; 0xc; 0xf1; 0x0];
  (* U+0078 *)
    [0x6f; 0x60; 0x8; 0xf4; 0xa; 0xf2; 0x2f; 0x80;
     0x1; 0xec; 0xcd; 0x0; 0x0; 0x4f; 0xf2; 0x0;
     0x0; 0x6f; 0xf4; 0x0; 0x2; 0xfa; 0xce; 0x10;
     0xc; 0xe0; 0x2f; 0xa0; 0x7f; 0x40; 0x7; 0xf5];
  (* U+0079 *)
    [0x9f; 0x20; 0x0; 0xae; 0x2; 0xf8; 0x0; 0x1f;
     0x80; 0xa; 0xf0; 0x7; 0xf1; 0x0; 0x2f; 0x70;
     0xe9; 0x0; 0x0; 0xbe; 0x5f; 0x20; 0x0; 0x3;
     0xff; 0xb0; 0x0; 0x0; 0xb; 0xf3; 0x0; 0x0;
     0x0; 0xcc; 0x0; 0x0; 0x0; 0x4f; 0x50; 0x0;
     0x0; 0xc; 0xd0; 0x0; 0x0; 0x3; 0xf6; 0x0;
     0x0; 0x0];
  (* U+007A *)
    [0x4f; 0xff; 0xff; 0xb1; 0x55; 0x59; 0xf8; 0x0;
     0x1; 0xec; 0x0; 0x0; 0xce; 0x10; 0x0; 0xaf;
     0x30; 0x0; 0x6f; 0x60; 0x0; 0x3f; 0xd6; 0x66;
     0x45; 0xff; 0xff; 0xfd];
  (* U+007B *)
    [0x0; 0x6; 0xd8; 0x0; 0x3f; 0x61; 0x0; 0x7d;
     0x0; 0x0; 0x8c; 0x0; 0x0; 0x8c; 0x0; 0x0;
     0x9c; 0x0; 0x4; 0xe9; 0x0; 0x4f; 0xb0; 0x0;
     0x17; 0xf7; 0x0; 0x0; 0x9c; 0x0; 0x0; 0x8c;
     0x0; 0x0; 0x8c; 0x0; 0x0; 0x7d; 0x0; 0x0;
     0x4f; 0x30; 0x0; 0x9; 0xf9; 0x0; 0x0; 0x11];
  (* U+007C *)
    [0x9c; 0x9c; 0x9c; 0x9c; 0x9c; 0x9c; 0x9c; 0x9c;
     0x9c; 0x9c; 0x9c; 0x9c; 0x9c; 0x9c; 0x9c];
  (* U+007D *)
    [0xec; 0x20; 0x3; 0xad; 0x0; 0x3; 0xf1; 0x0;
     0x2f; 0x20; 0x2; 0xf2; 0x0; 0x2f; 0x30; 0x0;
     0xeb; 0x20; 0x3; 0xee; 0x0; 0xcd; 0x50; 0x1f;
     0x40; 0x2; 0xf2; 0x0; 0x2f; 0x20; 0x2; 0xf1;
     0x0; 0x8e; 0x0; 0xef; 0x50; 0x2; 0x0; 0x0];
  (* U+007E *)
    [0x0; 0x0; 0x0; 0x0; 0x0; 0x8f; 0xfa; 0x42;
     0xa3; 0x3e; 0x66; 0xcf; 0xfd; 0x10; 0x0; 0x0;
     0x23; 0x0]].
Definition glyph_blocks : list (list Z) :=
  glyph_bitmap_0020 ++ glyph_bitmap_0035 ++ glyph_bitmap_0047 ++ glyph_bitmap_0057 ++ glyph_bitmap_006b.
Definition glyph_bitmap : list Z := concat glyph_blocks.

(** ** Glyphs *)

Definition glyph_dsc : list lv_font_fmt_txt_glyph_dsc_t := [
  GlyphDsc 0 0 0 0 0 0;
  GlyphDsc 0 64 0 0 0 0;
  GlyphDsc 0 80 3 11 1 0;
  GlyphDsc 17 96 6 5 0 6;
  GlyphDsc 32 189 12 11 0 0;
  GlyphDsc 98 152 9 15 0 (-2);
  GlyphDsc 166 209 13 12 0 0;
  GlyphDsc 244 178 11 11 1 0;
  GlyphDsc 305 51 3 5 0 6;
  GlyphDsc 313 77 5 16 0 (-3);
  GlyphDsc 353 77 4 16 0 (-3);
  GlyphDsc 385 113 7 6 0 5;
  GlyphDsc 406 145 9 8 0 1;
  GlyphDsc 442 75 3 6 1 (-3);
  GlyphDsc 451 92 6 3 0 3;
  GlyphDsc 460 71 3 3 1 0;
  GlyphDsc 465 111 7 11 0 0;
  GlyphDsc 504 157 10 12 0 0;
  GlyphDsc 564 90 5 11 0 0;
  GlyphDsc 592 135 8 12 0 0;
  GlyphDsc 640 142 9 12 0 0;
  GlyphDsc 694 147 9 11 0 0;
  GlyphDsc 744 140 9 12 0 0;
  GlyphDsc 798 148 9 12 0 0;
  GlyphDsc 852 124 8 11 0 0;
  GlyphDsc 896 143 9 12 0 0;
  GlyphDsc 950 149 9 12 0 0;
  GlyphDsc 1004 74 3 8 1 0;
  GlyphDsc 1016 76 3 11 1 (-3);
  GlyphDsc 1033 123 8 9 0 0;
  GlyphDsc 1069 152 8 6 1 2;
  GlyphDsc 1093 123 8 9 0 0;
  GlyphDsc 1129 131 8 11 0 0;
  GlyphDsc 1173 211 13 13 0 (-2);
  GlyphDsc 1258 178 11 11 0 0;
  GlyphDsc 1319 154 8 11 1 0;
  GlyphDsc 1363 192 12 11 0 0;
  GlyphDsc 1429 184 10 11 1 0;
  GlyphDsc 1484 149 8 11 1 0;
  GlyphDsc 1528 141 8 11 1 0;
  GlyphDsc 1572 196 12 11 0 0;
  GlyphDsc 1638 189 10 11 1 0;
  GlyphDsc 1693 72 3 11 1 0;
  GlyphDsc 1710 137 8 11 0 0;
  GlyphDsc 1754 171 10 11 1 0;
  GlyphDsc 1809 140 8 11 1 0;
  GlyphDsc 1853 242 13 11 1 0;
  GlyphDsc 1925 195 10 11 1 0;
  GlyphDsc 1980 205 13 11 0 0;
  GlyphDsc 2052 153 9 11 1 0;
  GlyphDsc 2102 205 13 12 0 (-1);
  GlyphDsc 2180 158 9 11 1 0;
  GlyphDsc 2230 152 9 11 0 0;
  GlyphDsc 2280 152 10 11 0 0;
  GlyphDsc 2335 172 9 11 1 0;
  GlyphDsc 2385 168 11 11 0 0;
  GlyphDsc 2446 257 16 11 0 0;
  GlyphDsc 2534 158 10 11 0 0;
  GlyphDsc 2589 158 10 11 0 0;
  GlyphDsc 2644 162 10 11 0 0;
  GlyphDsc 2699 74 4 17 1 (-3);
  GlyphDsc 2733 111 7 11 0 0;
  GlyphDsc 2772 74 4 17 0 (-3);
  GlyphDsc 2806 133 8 6 0 6;
  GlyphDsc 2830 139 9 3 0 (-2);
  GlyphDsc 2844 70 4 3 0 9;
  GlyphDsc 2850 134 8 8 0 0;
  GlyphDsc 2882 152 8 12 1 0;
  GlyphDsc 2930 136 8 8 0 0;
  GlyphDsc 2962 151 9 12 0 0;
  GlyphDsc 3016 139 9 8 0 0;
  GlyphDsc 3052 88 6 11 0 0;
  GlyphDsc 3085 148 9 11 0 (-3);
  GlyphDsc 3135 144 7 12 1 0;
  GlyphDsc 3177 65 4 12 0 0;
  GlyphDsc 3201 65 5 15 (-1) (-3);
  GlyphDsc 3239 134 8 12 1 0;
  GlyphDsc 3287 65 2 12 1 0;
  GlyphDsc 3299 219 12 8 1 0;
  GlyphDsc 3347 144 7 8 1 0;
  GlyphDsc 3375 146 9 8 0 0;
  GlyphDsc 3411 152 8 11 1 (-3);
  GlyphDsc 3455 149 9 11 0 (-3);
  GlyphDsc 3505 94 5 8 1 0;
  GlyphDsc 3525 116 7 8 0 0;
  GlyphDsc 3553 91 5 11 0 0;
  GlyphDsc 3581 145 7 8 1 0;
  GlyphDsc 3609 129 8 8 0 0;
  GlyphDsc 3641 203 13 8 0 0;
  GlyphDsc 3693 126 8 8 0 0;
  GlyphDsc 3725 134 9 11 0 (-3);
  GlyphDsc 3775 119 7 8 0 0;
  GlyphDsc 3803 90 6 16 0 (-3);
  GlyphDsc 3851 67 2 15 1 (-2);
  GlyphDsc 3866 90 5 16 0 (-3);
  GlyphDsc 3906 146 9 4 0 3].

Definition cmaps : list lv_font_fmt_txt_cmap_t :=
  [Cmap 32 95 1 None None 0 LV_FONT_FMT_TXT_CMAP_FORMAT0_TINY].

(** ** Kerning *)

Definition kern_left_class_mapping : list Z := [
  0; 1; 0; 2; 3; 4; 5; 6;
  2; 7; 0; 8; 9; 10; 11; 10;
  12; 13; 14; 15; 16; 17; 18; 19;
  20; 21; 13; 22; 22; 23; 24; 25;
  26; 27; 28; 29; 30; 31; 32; 33;
  34; 35; 35; 36; 37; 38; 35; 35;
  31; 39; 40; 41; 42; 43; 36; 44;
  45; 46; 47; 48; 49; 50; 0; 51;
  52; 0; 53; 54; 55; 56; 57; 58;
  59; 60; 61; 62; 63; 56; 60; 60;
  54; 54; 61; 64; 65; 66; 67; 68;
  69; 70; 71; 72; 73; 74; 75; 76].
Definition kern_right_class_mapping : list Z := [
  0; 1; 2; 3; 4; 0; 5; 6;
  3; 7; 8; 9; 10; 11; 12; 11;
  13; 14; 15; 16; 17; 18; 19; 14;
  20; 21; 22; 23; 23; 24; 25; 26;
  27; 28; 29; 30; 31; 30; 30; 30;
  31; 30; 30; 32; 30; 30; 30; 30;
  31; 30; 31; 30; 33; 34; 35; 36;
  37; 38; 39; 40; 41; 42; 43; 44;
  45; 0; 46; 47; 48; 48; 48; 49;
  50; 47; 51; 52; 47; 47; 53; 53;
  48; 53; 48; 53; 54; 55; 56; 57;
  58; 59; 60; 61; 62; 63; 43; 64].
Definition kern_class_values_0 : list Z := [
  0; 0; 0; 0; 0; -10; 0; 0;
  0; 0; 0; -13; 0; 0; 0; 0;
  0; 0; 0; 0; 0; 0; 0; 0;
  0; 0; 0; 0; 0; 0; 0; 0;
  0; 0; 0; 0; 0; 0; 0; 0;
  0; 0; 0; 0; 0; 0; 0; 0;
  0; 0; 0; 0; 0; 0; 0; 0;
  0; 0; 0; 0; 0; 0; 0; 0;
  0; 0; 0; 0; 0; 0; 0; 0;
  0; 0; 0; 0; 0; 0; 8; 3;
  0; -13; 0; 5; 0; 0; 0; 0;
  0; 0; 0; 0; -15; 0; 0; -10;
  0; 8; 0; 5; 5; 3; 3; 0;
  0; 0; 0; 0; 0; -3; 0; -5;
  5; -5; 0; 0; 0; 0; 0; 0;
  3; 3; 3; 3; 0; 0; 0; 0;
  0; 0; 0; 0; 0; 0; 0; 0;
  0; 0; 0; 0; 0; -5; -3; -3;
  -8; -10; -8; -3; -5; -5; 0; 0;
  0; 0; 0; 0; 0; 0; 0; 0;
  0; 0; 0; 0; 0; 0; 0; 0;
  0; 0; 0; 0; 0; 0; 0; 0;
  0; 0; 0; 0; 0; 0; 0; 0;
  0; 0; 0; 0; 0; 0; 0; 0;
  0; 0; 0; 0; 0; 0; 0; 0;
  0; 0; 0; 0; 0; -3; 0; 0;
  -3; -3; -3; -3; -3; -3; 0; 0;
  0; 0; 0; 0; 0; 0; 0; 0;
  0; 0; 0; 0; 0; 0; 0; 0;
  0; 0; 0; 0; 0; 0; 0; 0;
  0; 0; 0; 0; 0; 0; 0; 0;
  0; 0; 0; 0; 0; 0; 0; 0;
  0; 0; 0; 0; 0; 0; 0; 0;
  0; 0; 0; 0; 0; -5; -3; 0;
  0; 0; 0; 0; 0; 0; 0; 0;
  0; 0; 0; 0; 0; 0; 0; 0;
  0; 0; 0; 0; 0; 0; 0; 0;
  0; 0; 0; 0; 0; 0; 0; 0;
  0; 0; 0; 0; 0; 0; 0; 0;
  0; 0; 0; 0; 0; 0; 0; 0;
  -10; 0; 0; 0; 0; 0; 0; 0;
  0; 0; 0; 0; 0; 0; -3; 0;
  -3; -3; -3; 0; 0; 0; 0; 0;
  0; 0; 0; 0; 0; 0; 0; 0;
  0; -18; -3; -19; -9; 0; -19; 0;
  0; 0; 0; 0; 0; 0; 0; 0;
  0; 0; 0; 0; 0; 0; 0; 0;
  0; 0; 0; 0; 0; 0; 0; 0;
  0; 0; 0; 0; 0; 0; 0; 0;
  0; -13; 0; -10; 0; -5; -1; 1;
  0; -5; -6; 10; 0; 0; 0; 0;
  0; 0; 0; 0; 0; 0; -5; -4;
  0; 5; 0; 5; 5; 5; 5; 0;
  0; 0; 0; 0; 0; -1; 0; -5;
  -3; -5; 0; 13; 0; 0; 0; 0;
  -5; -5; 0; 0; 0; 0; 0; 0;
  0; 0; 0; 0; 0; 0; 0; 0;
  0; 0; 0; 0; 0; 0; 0; 0;
  0; -18; 0; 10; 0; 0; 0; 0;
  0; 0; 0; 0; -28; 0; -1; -13;
  0; 5; 0; 5; 3; 0; 0; 0;
  0; 0; 0; 0; 0; -8; 0; -10;
  0; -10; 0; 0; 0; -3; 0; 0;
  3; 0; 0; 0; 0; 0; 0; 0;
  0; 0; 0; 0; 0; 0; 0; -13;
  0; 0; 0; 0; 0; 0; -8; -3;
  -5; 0; 0; -3; 0; -3; 0; 0;
  0; 0; 0; 0; -4; 0; 0; 0;
  0; -13; -1; -10; -8; -3; -13; -5;
  0; 0; -10; 0; 0; 0; 0; 0;
  0; 0; 0; 0; 0; 0; 0; 0;
  0; 0; 0; 0; 0; 0; 0; 0;
  0; 0; 0; 0; 0; 0; 0; 0;
  0; 0; 0; 0; 0; -5; -18; 0;
  0; -13; 0; -5; -3; 0; 0; 0;
  0; 0; 0; 0; 0; 0; -8; 0;
  -3; -26; -6; -26; -26; 0; -33; 0;
  0; 0; 0; 0; 0; 0; 0; -4;
  0; -3; 0; 0; 0; 0; -5; -3;
  -23; -10; 0; -23; 0; 0; 0; 0;
  -13; 0; 0; 0; 0; 0; 0; -10;
  0; 0; 0; 0; 0; 0; -5; 0;
  -5; -1; -3; -8; 0; 0; 0; 0;
  0; 0; 0; 0; -5; 0; 0; 0;
  -3; -15; -1; -14; -10; -10; -20; -12;
  0; 0; -5; 0; 0; 0; 0; 0;
  0; 0; 0; -3; 0; 0; -3; 0;
  -1; -1; -3; -5; -1; 0; 0; 0;
  0; 0; 0; 0; 0; 0; 0; 0;
  0; 0; 0; 0; -36; -10; 0; -5;
  0; -20; -5; 8; -8; -5; 0; 0;
  0; 0; 0; 0; -18; 0; -9; -31;
  -3; 10; 0; 5; 5; 3; 3; 0;
  0; 0; 0; 0; 0; -29; 0; -31;
  -3; -31; 0; 0; -15; -20; 0; -12;
  -3; -5; -5; -3; -15; 0; 0; 0;
  0; 0; 0; -5; -5; 0; 0; -5;
  0; 0; -10; 0; -10; -1; -1; 0;
  -1; 0; -1; 0; -1; 0; 0; 0;
  3; 0; 0; 0; 0; 0; 0; 0;
  0; 0; 0; 0; 0; 0; 0; 0;
  0; -10; 0; 0; -5; 0; 0; 0;
  0; 0; 0; 0; 0; 0; 0; 0;
  0; 0; 0; 0; 0; 0; 0; 3;
  0; 0; -3; -5; -3; 0; 0; 0;
  0; 0; -3; 0; 0; 1; 0; 1;
  0; 0; 0; 1; 0; 0; 0; -3;
  0; 8; 0; 0; 0; 0; 0; 0;
  0; 0; 0; 0; 0; 0; 0; 0;
  0; 0; 3; 0; 0; 0; 0; 0;
  0; 0; 0; 0; 0; 0; 0; 0;
  0; 0; 0; 0; 0; 0; 3; 0;
  0; 0; 0; 0; 0; 0; 0; 0;
  0; 0; 0; 0; 0; 0; 3; 0;
  0; -4; 0; 0; 0; 0; 0; 0;
  0; 8; 0; 0; 0; 0; 0; 0;
  0; 0; 0; 0; 0; 0; 0; 0;
  0; -3; 0; 0; 3; 0; 0; 0;
  0; 0; 0; 0; 0; 0; 0; 0;
  0; 0; 0; 0; 0; 0; 0; 0;
  0; 0; 0; -5; -3; 0; 0; 0;
  3; 0; -3; -3; -3; 0; -1; 0;
  0; 0; 0; 3; 0; 0; 0; 0;
  0; 8; 0; 0; 0; 0; 0; 0;
  0; 0; 0; 0; 0; 0; 0; 0;
  0; 0; 0; 0; -3; 0; 0; 0;
  0; 0; 0; 0; 0; 0; 0; 0;
  0; 0; 0; 0; 0; 0; 5; 3;
  0; 0; 0; 0; -3; 0; 0; 0;
  -5; 0; 0; 0; 0; 0; 0; 0;
  0; 0; 0; -1; 0; 0; 0; 0;
  5; 8; 0; 0; 0; 0; 0; 0;
  0; 0; 0; 0; 0; 0; 0; 0;
  0; 0; 0; 0; 0; 0; 0; 0;
  0; 0; 0; 0; 0; 0; 0; 0;
  0; 0; 0; 0; 0; 0; 0; 5;
  0; 0; 0; 0; -3; 0; 0; 0;
  0; 0; -3; 0; -5; 0; 0; 0;
  0; 0; 0; 1; 0; 0; 0; 3;
  3; 5; 0; -1; 0; 0; 0; 0;
  0; 0; 0; 0; 0; 0; 0; 0;
  0; 0; 0; 0; -3; 0; 0; 0;
  0; 0; 0; 0; 0; 0; 0; 0;
  0; 0; 0; 0; 0; 0; 0; 3;
  0; 0; 0; -5; 0; 0; 0; 0;
  0; 3; -3; 0; 0; 0; 0; 0;
  0; 0; 0; 1; 0; 0; 0; 0;
  3; 3; 0; -3; 0; 0; 0; 0].
Definition kern_class_values_1 : list Z := [
  0; 0; 0; 0; 0; 0; 0; 0;
  0; -3; 0; 0; -5; 0; 0; 0;
  0; 0; 0; 0; 0; 0; 0; 0;
  0; 0; 0; 0; 0; 0; 0; 3;
  0; 0; 5; -10; 0; 0; 0; 0;
  5; -13; -28; -13; -15; -6; 1; 0;
  0; -14; -4; 8; 0; 3; -8; -8;
  1; 8; 5; -1; 0; 0; 0; 0;
  0; 0; 0; 0; 0; 0; 0; 0;
  0; 8; 0; 0; -23; 0; 0; 0;
  0; 0; 0; 0; 0; 0; 0; 0;
  0; 0; 0; 0; 0; 0; 5; -10;
  0; 0; 0; -3; -1; -3; 0; 0;
  0; 0; -3; 0; 0; -1; 0; 0;
  0; 0; 0; 0; 0; 0; 0; 0;
  0; 3; 0; 0; 0; 0; 0; 0;
  0; 0; 0; 0; 0; 0; 0; 0;
  0; -10; 0; 0; -3; 0; 0; 0;
  0; 0; 0; 0; 0; 0; 0; 0;
  0; 0; 0; 0; 0; 0; 0; 0;
  0; 0; 0; 0; 0; 0; 0; 0;
  0; 0; 0; 0; 0; 0; 0; 0;
  0; 0; 0; 3; 0; 4; 0; 0;
  0; 0; 0; 0; 0; 0; 0; 0;
  0; -15; -1; -10; -3; 0; -15; 0;
  0; 0; 0; 0; 0; 0; 0; -1;
  0; -1; 0; 0; 0; 0; 0; 0;
  0; 0; 0; 0; 0; 0; 0; 0;
  0; 0; 0; 0; 0; 0; 0; 0;
  0; 0; 0; 0; 0; 5; 8; 8;
  3; 0; 5; 18; 8; 8; 0; 0;
  0; 0; 0; 0; 0; 3; 3; 0;
  0; -3; 0; 0; 0; 0; 0; 3;
  0; 0; 0; 0; 0; 0; 0; 0;
  0; 0; 0; 0; 0; 0; 0; 0;
  0; 0; 0; 0; 0; 0; 0; 0;
  0; 0; 0; 0; 0; 0; 0; 0;
  0; 0; 0; 0; 0; 3; 0; 0;
  0; 0; 3; -3; 0; 0; 0; 0;
  0; 0; 0; 0; 0; 0; 0; 0;
  0; -8; 0; -3; -3; -3; -8; 0;
  0; 0; 0; 0; 0; 0; 0; 0;
  0; 0; 0; 0; 0; 0; 0; 0;
  0; 0; 0; 0; 0; 0; 0; 0;
  0; 0; 0; 0; 0; 0; 0; 0;
  0; 0; 0; 0; 0; 0; -3; -3;
  -5; 0; 0; 0; 0; 0; 0; 0;
  0; 0; 0; 0; -5; 0; 0; 0;
  0; -10; -1; -5; -5; -5; -15; -4;
  0; 0; 0; 0; 0; 0; 0; 0;
  0; 0; 0; 0; 0; 0; 0; 0;
  0; 0; 0; 0; 0; 0; 0; 0;
  0; 0; 0; 0; 0; 0; 0; 0;
  0; 0; 0; 0; 0; 0; 3; 0;
  0; -5; 0; 8; 0; 0; 0; 0;
  0; 0; 0; 0; 0; 0; -1; 0;
  0; 0; 0; 0; 0; 0; 0; 0;
  0; 0; 0; 0; 0; 0; 0; -5;
  0; -5; 0; 0; 0; 0; 0; 0;
  5; 0; 0; 0; 0; 0; 0; 0;
  0; 0; 0; 0; 0; 0; 0; 0;
  0; 0; 0; 0; 0; 0; 0; 0;
  -3; -3; 0; 3; 0; 0; 0; 0;
  0; 0; 0; 0; -8; 0; 0; -3;
  0; -6; 0; -5; -5; -5; -10; -5;
  0; 0; 0; 0; 0; 0; 0; 0;
  0; 0; 0; 0; 0; 0; 0; 0;
  4; 4; 1; 4; 1; 0; 0; 0;
  0; 0; -10; 0; 0; -1; -3; 0;
  -28; -4; 0; -5; 5; 0; 0; 0;
  0; 0; 0; 0; 0; 0; 0; -5;
  0; 0; -12; -8; 0; 0; -6; 3;
  -3; -17; -4; -14; -12; 0; -17; 0;
  0; -18; 0; -5; 8; -1; 0; -3;
  0; -3; 0; 0; -1; 0; -6; -6;
  -8; -8; 0; -6; 0; -5; 0; -5;
  0; 0; 0; 0; 0; -1; 0; 0;
  0; -1; -4; 0; -4; 0; 0; 0;
  0; 0; 0; 0; 0; 0; 0; 0;
  0; 3; 0; 0; -5; 0; 0; 4;
  0; 0; 0; 0; 0; 0; -1; 0;
  0; -6; 0; 0; -3; -3; 0; 1;
  -1; 1; 0; 0; -1; -1; 0; -5;
  -1; -1; 0; -1; 0; 0; 0; 0;
  0; 0; 0; 0; 0; -4; 0; 0;
  0; 0; -3; 0; -6; 0; 0; 0;
  0; 0; 0; 0; 0; 0; 0; 0;
  0; 3; 0; -8; -5; 0; -3; 0;
  0; -1; 0; -3; -4; -4; -6; 0;
  0; -6; 3; -3; -3; -5; -3; -5;
  -3; -5; 0; 0; -4; -3; -1; -5;
  -3; -3; -3; -4; -3; -5; 0; 0;
  0; 0; 0; 0; 0; -5; 0; -5;
  -1; 0; -8; 0; -9; 0; 0; 0;
  0; 0; 0; 0; 0; 0; 0; 0;
  0; 3; 0; 0; -6; 0; 0; 0;
  -1; -6; 0; -6; -5; -8; -12; -3;
  -1; -9; -5; 3; -10; 0; 0; 0;
  1; 0; 0; 0; 0; 0; 6; 0;
  0; 0; 0; 0; 0; 0; 0; 3;
  0; 0; 0; 0; 0; 0; 0; 3;
  0; 0; 0; -1; 0; 0; 0; 0;
  0; 0; 0; 0; 0; 0; 0; 0;
  0; 3; 0; -6; 0; 0; -1; -3;
  0; 0; 0; 0; 0; 0; 0; 0;
  0; 0; 4; 0; 0; -4; 0; -5;
  -1; -5; 0; 0; -4; -1; 0; -4;
  -4; -4; 0; -4; 0; -8; 0; 0;
  0; 0; 5; 0; 0; -3; 0; 8;
  4; -5; -26; -3; -14; 0; 0; 0;
  0; 0; 0; 0; 0; 0; 0; 0;
  0; 3; 3; -3; -12; 0; -1; -10;
  0; 8; -1; 0; 0; 0; 0; 3;
  0; 8; 8; 3; -26; -9; 1; -9;
  -3; -9; -1; -1; -6; -4; 0; -12;
  -5; -5; -4; -4; -3; -5; 5; -5;
  0; 0; 0; 0; 0; -4; 0; 0;
  0; 0; 0; 0; 1; 0; 0; 0;
  0; 0; 0; 0; 0; 0; 0; 0;
  0; 5; 0; 0; 0; 0; 0; 0;
  0; -1; 0; -4; -3; 0; -8; 0;
  0; -5; 0; 0; 3; 0; 0; 0;
  0; 0; 0; 0; 0; 0; 6; -1;
  0; 0; 0; 0; 0; -3; 0; 1;
  0; 0; 0; 0; 0; 0; 0; 0;
  0; 0; 0; 0; 0; 0; 0; 0;
  0; 0; 0; 0; 0; 0; 0; 0;
  0; 3; 0; -3; 0; 0; 0; 0;
  0; 0; 0; 0; 0; 0; 0; 0;
  0; 0; 0; 0; 0; -1; 0; 0;
  0; 0; 0; 0; 0; 0; 0; 0;
  0; 0; 0; 0; 0; -8; 0; 0;
  0; 0; 0; 0; 0; -1; 0; 0;
  0; -1; -6; -1; -5; 0; 0; 0;
  0; 0; 0; 0; 0; 0; -1; -1;
  0; 0; 0; -1; -8; 0; 0; 0;
  0; 0; 0; 0; 0; 0; 0; 0;
  0; 0; 0; 0; -4; 0; 0; -1;
  0; -1; 0; 0; -1; 0; 0; 0;
  0; 0; 0; 0; 0; -5; 0; -1;
  0; 0; 0; 0; 0; -14; 0; 1;
  -3; -10; 0; -18; 5; 0; 0; 0;
  0; 0; 0; 0; 0; 0; -3; -13;
  -13; 0; -1; -14; -3; 0; -14; -1;
  -3; 0; -3; -4; -4; 0; 0; 0;
  0; 0; 1; -5; 5; -4; 0; -9;
  -5; -9; 0; 0; -4; -3; -8; -14;
  -12; -12; -3; -15; 0; -10; 0; -15].
Definition kern_class_values_2 : list Z := [
  0; 0; -20; 0; 0; -6; 0; 3;
  -18; -5; 3; -10; 10; 0; 0; 0;
  0; 0; 0; 0; 0; 0; 0; -10;
  -5; 0; -12; -5; 5; 0; -9; 5;
  0; -18; -3; -15; -13; 0; -17; 0;
  0; -18; 3; -13; 8; 0; 0; -1;
  -3; -1; 0; 0; 0; 0; -4; -5;
  -10; -10; 0; -12; 0; -8; 5; -13;
  0; 0; 3; 0; 0; -3; 0; 0;
  3; -8; -31; -3; -18; 0; 0; 0;
  0; 0; 0; 0; 0; 0; 0; 0;
  0; 5; 5; -1; -15; 0; 0; -18;
  0; 0; -1; 0; -1; -1; -1; -3;
  0; 0; 0; 0; -23; -8; -3; -10;
  1; -10; 0; -1; -4; -6; 3; -5;
  0; 0; 0; 3; -3; -5; 0; -5;
  0; 0; 0; 0; 0; 0; 0; -3;
  0; 0; -3; 0; 0; 0; 0; 0;
  0; 0; 0; 0; 0; 0; 0; 3;
  0; 5; 0; 0; -4; 0; 0; 1;
  0; -5; 0; -6; -5; -4; -10; 0;
  0; -9; -3; 0; 0; -1; 0; 0;
  0; 0; 0; 0; 0; 0; 0; 0;
  0; -1; 0; -1; 0; 0; 0; 0;
  0; 0; 0; 0; 0; -1; 0; 1;
  3; -3; -1; -5; 0; 0; 0; 0;
  0; 0; 0; 0; 0; 0; 0; -1;
  0; 6; 0; -4; -1; 0; -1; -4;
  0; 0; 0; -1; -1; 0; -3; 0;
  0; -1; 3; 3; 1; -1; 0; -5;
  0; -5; 0; 0; -1; -1; 0; -5;
  0; -3; 3; 0; 0; -3; 0; -3;
  0; 0; 0; 0; 0; 0; 0; 0;
  0; 0; 0; -1; 0; 0; 0; 0;
  0; 0; 0; 0; 0; 0; 0; 0;
  0; 6; 0; 0; -1; 0; -1; 3;
  0; -1; -1; 0; 0; 0; -3; 0;
  0; -6; 4; -1; -3; -1; -1; -3;
  -4; -3; -1; -1; -8; 0; -3; -6;
  -5; -5; -4; -6; -1; -5; 0; 0;
  0; 0; 8; 0; 0; -8; 0; 5;
  5; -13; -26; -15; -18; 0; 0; 0;
  0; 0; 0; 0; 0; 0; -15; -10;
  -8; -3; 5; -6; -17; 0; -6; -17;
  0; 5; 0; 5; 5; 4; 5; 0;
  0; 10; 5; 0; -10; -22; 0; -24;
  -10; -24; -5; -3; -15; -18; -6; -24;
  -18; -19; -19; -18; -12; -8; 5; -18;
  0; 0; 5; 0; 0; -12; 0; 5;
  5; -10; -26; -14; -15; 0; 0; 0;
  0; 0; 0; 0; 0; 0; -10; -5;
  -3; 0; 3; -5; -14; 0; -6; -14;
  -1; 5; 0; 3; 3; 3; 3; 0;
  0; 5; 5; 0; -13; -14; 0; -14;
  0; -14; 0; 0; -8; -5; -1; -9;
  -1; -3; -1; -1; -5; -8; 5; -10;
  0; 0; 5; 0; 0; 0; 0; 5;
  3; -8; -26; -10; -15; 0; 0; 0;
  0; 0; 0; 0; 0; 0; -3; -5;
  -3; 0; 0; -5; -12; 0; -5; -13;
  0; 5; 0; 3; 3; 3; 3; 0;
  0; 5; 5; 0; -12; -8; 0; -9;
  0; -9; 0; 0; -8; -5; -1; -8;
  -1; -3; 0; -1; -1; -8; 5; -5;
  0; 0; 3; 0; 0; -3; 0; 5;
  0; -3; 0; -10; 3; 0; 0; 0;
  0; 0; 0; 0; 0; 0; 0; -5;
  -3; 0; 0; -6; 0; 0; -5; -3;
  0; 4; 0; 3; 3; 0; 3; 3;
  0; 3; 5; 0; 4; 0; 0; -6;
  0; -6; 0; 0; 0; 0; 0; -3;
  -4; -3; 5; -4; 1; -8; 5; -5;
  0; 0; 3; 0; 0; -13; 0; 5;
  0; -13; -33; -20; -22; 0; 0; 0;
  0; 0; 0; 0; 0; 0; -15; -15;
  -8; 0; 0; -10; -17; 0; -12; -19;
  -3; 5; 0; 3; 3; 3; 3; 1;
  0; 3; 5; 0; -15; -17; 0; -23;
  -6; -23; -1; -1; -15; -17; -3; -15;
  -10; -13; -8; -12; -9; -5; 3; -15;
  0; 0; 0; 0; 0; 0; 0; 0;
  0; -3; 0; -12; 0; 0; 0; 0;
  0; 0; 0; 0; 0; 0; 0; 0;
  0; 0; 1; -4; 0; 0; -5; 0;
  0; 4; 0; 0; 0; 3; 1; 0;
  0; 0; 0; 0; 3; 0; 0; -1;
  0; -1; 0; 0; 0; 0; 0; -1;
  0; -1; 0; -5; 0; 0; 0; 0;
  0; 0; 0; 0; 0; 0; 0; 0;
  0; -10; 0; -5; 0; 0; 0; 0;
  0; -8; -5; 13; 0; 3; 0; 0;
  0; 0; 0; 0; 0; 0; -5; 0;
  0; 5; 0; 5; 5; 5; 10; 0;
  0; 0; 0; 0; 0; 0; 0; -3;
  -3; -3; 0; 13; 0; 0; 0; 0;
  0; -5; 0; 0; 0; 0; 0; 0;
  0; 0; 0; 0; 0; 0; 0; 0;
  0; 0; 0; 0; 0; -10; 0; 3;
  -3; -3; 0; 0; -5; 0; 0; 0;
  0; 0; 0; 0; 0; 0; -9; 0;
  -1; -13; -5; -15; -15; 3; -17; 0;
  0; 0; 0; 0; 0; 3; 0; -4;
  0; -4; 0; 0; 0; 0; 0; 0;
  -3; -3; 3; -3; 0; 0; 0; 0;
  0; 0; 0; 0; 0; 0; 0; 0;
  0; 0; 0; 0; 0; 0; 0; 0;
  0; 0; 0; 0; 0; 0; 0; 0;
  0; 0; 0; 0; -5; 0; 3; 0;
  0; 0; 0; 0; 0; 0; 0; 0;
  0; 0; 0; 0; 0; 0; 0; 0;
  0; 0; 0; 0; 0; 0; 0; 0;
  0; 0; 0; 0; 0; 0; 0; 0;
  0; 0; 0; 0; 0; 0; 0; 0;
  0; 0; 0; 0; 0; -5; 0; 0;
  0; -13; 0; 0; -3; 0; 0; 0;
  0; 0; 0; 0; 8; 0; -10; 0;
  -3; -10; -4; -13; -12; 4; -15; 3;
  0; 0; 0; 0; 0; 0; 0; -5;
  -3; -5; 0; 13; 0; 0; -4; -4;
  -10; -10; 8; -10; 0; 0; 0; 0;
  0; 0; 0; 0; 0; -3; 0; 0;
  -5; 0; 0; 0; 0; 0; 0; 0;
  0; 0; 0; 0; 0; 0; 0; 0;
  0; 0; 0; -3; 0; 0; 0; 0;
  0; 0; 0; 0; 0; 0; 0; 0;
  0; -15; 0; 0; 8; 0; 0; 0;
  0; 0; 0; 0; 0; 0; 0; -3;
  0; 0; 0; -3; 0; 0; 0; 0;
  0; 0; -5; 0; 0; -3; 0; -5;
  -10; 0; -4; 0; -5; 0; 0; 0;
  0; 0; 0; 0; 0; 0; -1; 0;
  0; 0; -6; 0; 0; 0; 0; 0;
  0; 0; 0; 0; 0; 0; 0; 0;
  0; -26; -5; 0; -5; 0; 0; 0;
  0; 0; 0; 0; 0; 0; -1; -1;
  -4; -3; -3; -5; -1; 0; 0; 0;
  0; 0; 0; 0; 0; -1; 0; 0;
  -3; 0; 0; 0; -4; 0; 0; 0;
  0; 0; 0; 0; 0; 0; 0; 0;
  0; 0; 0; -1; 0; 0; 0; 0;
  0; 0; 0; 0; 0; 0; 0; 0;
  0; -18; 0; 0; -3; -1; 0; -1;
  0; -1; 0; 0; 0; 0; 0; -1;
  -1; -1; -1; -1; 0; 0; 0; 0;
  0; 0; 0; 0; 0; 0; 0; 0;
  0; 0; 0; 0; 0; 0; 0; 0;
  0; 0; 0; 0; 0; 0; 0; 0;
  0; 0; 0; 0; 0; 0; 0; 0].
Definition kern_class_values_3 : list Z := [
  0; 0; 0; 0; 0; 0; 0; 0;
  0; 0; 0; 0; 0; 0; 0; 0;
  0; 0; 0; 0; 0; 0; 0; -1;
  0; 0; 0; 0; 0; 0; 0; 0;
  0; 0; -3; 0; 0; -4; 0; -3;
  -5; 0; -4; 0; 0; 0; 0; 0;
  0; 0; 0; 0; 0; 0; 0; 0;
  0; 0; -6; 0; 0; 0; 0; 0;
  0; 0; 0; 0; 0; 0; 0; 0;
  0; -18; -3; 0; -3; 0; 0; 0;
  0; 0; 0; 0; 0; 0; 0; -4;
  -3; -1; -1; -3; 0; 0; 0; 0;
  0; 4; 13; 0; 0; 0; 0; 8;
  10; -3; -13; -1; -4; 0; 0; 0;
  0; 0; 0; 0; 0; 0; 0; 0;
  0; 8; 5; 0; 0; 0; 0; 0;
  0; 0; 0; 0; 0; 0; 0; 0;
  0; 8; 6; 5; -5; -4; 0; -5;
  -1; -5; 0; 6; 0; 0; 0; -1;
  3; 3; 3; 4; 3; 0; 8; -3;
  0; 0; 0; 0; 0; -1; 0; 0;
  0; 0; 0; 0; 0; 0; 0; 0;
  0; 0; 0; 0; 0; 0; 0; 0;
  0; 0; 0; 0; 0; 0; 0; 0;
  0; 0; 0; 0; 0; 0; 0; 0;
  0; -10; 0; 0; 0; -1; 0; 0;
  0; 0; 0; 0; 0; 0; 0; -1;
  0; -1; 0; -1; 0; 0; 0; 0;
  0; 0; 0; 0; 0; 0; 0; 0;
  -3; 0; 0; 0; 0; 0; 0; 0;
  0; 0; 0; 0; 0; 0; 0; 0;
  -1; 0; -4; -1; 0; 0; 0; 0;
  0; 0; 0; 0; 0; 0; 0; 0;
  0; -17; 0; 0; 0; 0; 0; 0;
  0; 0; 0; 0; 0; 0; 0; -3;
  0; 0; 0; 0; 0; 0; 0; 0;
  0; 0; 0; 0; 0; 0; 0; 0;
  0; 0; 0; 0; 0; 0; 0; 0;
  0; 0; 0; 0; 0; 0; 0; 0;
  0; 0; 0; 0; 0; 0; 0; 0;
  0; 0; 0; 0; 0; 0; 0; 0;
  0; -15; 0; 0; 0; 0; 0; 0;
  0; 0; 0; 0; 0; 0; 0; 0;
  0; 0; 0; 0; 0; 0; 0; 0;
  0; 0; 0; 0; 0; 0; 0; 0;
  0; 0; 0; 0; 0; 0; 0; 0;
  0; 0; 0; 0; 0; 0; 0; 0;
  0; 0; 0; -1; 0; 0; 0; 0;
  0; 0; 0; 0; 0; 0; 0; 0;
  0; 0; 0; 0; 0; 0; 0; 0;
  0; 0; 0; 0; 0; 0; 0; 0;
  0; 0; 0; 0; 0; 0; 0; 0;
  0; 0; 0; 0; 0; -1; 0; 0;
  -3; -3; 0; -8; 5; 0; 0; 0;
  0; 0; 0; 0; 0; 0; -1; -5;
  0; 10; 0; -1; 0; 0; 0; 0;
  0; 0; 0; 0; 0; 0; 0; 0;
  0; -6; 0; 0; 8; -4; 0; -6;
  0; -6; 0; 0; 0; 0; 0; -1;
  0; 0; 0; 0; 1; -3; 0; -5;
  0; 8; 8; 0; 0; 0; 0; 0;
  10; 0; -23; 0; 0; 0; 0; 0;
  0; 0; 0; 0; 0; 0; 0; 0;
  0; 0; 5; 5; 0; 0; 0; 0;
  0; 0; 0; 0; 0; 0; 0; 0;
  0; -3; 5; 0; -3; 0; 0; -1;
  6; -1; 0; 0; 0; 0; 6; 1;
  4; 3; 8; 4; 3; 0; 8; 0;
  0; 0; -3; 0; 0; 0; 0; 0;
  -3; 0; 0; 0; 3; 0; 0; 0;
  0; 0; 0; 0; 0; 0; 0; 0;
  0; 3; 0; 0; 0; 0; 0; 0;
  0; 0; 0; 0; 0; 0; 0; 0;
  0; -15; 0; 0; 0; -3; 0; -1;
  0; -1; 0; 0; 0; 0; 0; -1;
  -1; -1; -1; -1; 0; 0; 0; 0;
  0; 0; 0; 0; 0; 0; 0; 3;
  0; 0; 0; 0; 5; 0; 0; 0;
  0; 0; 0; 0; 0; 0; 0; 0;
  0; 0; 1; 0; 0; 0; 0; 0;
  0; 0; 0; 0; 0; 0; 0; 0;
  0; 0; 3; 0; 8; 0; 0; -1;
  0; -1; 0; 0; -3; 1; 0; 0;
  3; 3; 5; 1; 5; 0; 0; 0;
  0; 0; 0; 0; 0; 0; 0; 0;
  0; 0; 0; 0; 0; 0; 0; 0;
  0; 0; 0; 0; 0; 0; 0; 0;
  0; 0; 0; -1; 0; 0; 0; 0;
  0; 0; 0; 0; 0; 0; 0; 0;
  0; -13; 0; 0; 0; 0; 0; -1;
  0; -1; 0; 0; 0; 0; 0; -1;
  0; 0; 0; 0; 0; 0; 0; 0;
  0; 0; 3; 0; 0; 0; 0; -5;
  3; 0; -23; -1; -5; 0; 0; 0;
  0; 0; 0; 0; 0; 0; 0; 0;
  0; 0; 5; 3; 0; 0; 0; 0;
  0; 0; 0; 0; 0; 0; 0; 0;
  0; -5; 0; 0; -10; -1; 0; -4;
  4; -4; 0; 0; 0; 0; 4; 0;
  1; 1; 3; 3; 3; 0; 0; 0;
  0; 0; 3; 0; 0; -3; 0; -5;
  0; 0; -10; -1; -5; 0; 0; 0;
  0; 0; 0; 0; 0; 0; 0; 0;
  0; 0; 0; 4; 0; 0; 0; 0;
  0; 0; 0; 0; 0; 0; 0; 0;
  0; -5; -5; 0; -10; -1; 0; -3;
  4; -3; 0; 0; 0; 0; 4; 0;
  1; 0; 1; 1; 1; 0; 5; 0;
  0; 0; 3; 0; 0; -3; 0; 0;
  0; 0; 0; -3; 5; 0; 0; 0;
  0; 0; 0; 0; 0; 0; 0; 0;
  0; 0; 0; 1; 0; 0; 0; 0;
  0; 0; 0; 0; 0; 0; 0; 0;
  0; -5; 0; 0; 8; 0; 0; -3;
  4; -3; 0; 0; 0; 0; 1; -1;
  3; 1; 1; 1; 5; 0; 5; 0;
  0; 0; 3; 0; 0; -5; 0; 0;
  0; 0; -28; -5; -3; 0; 0; 0;
  0; 0; 0; 0; 0; 0; 0; 0;
  0; 0; 3; 3; 0; 0; 0; 0;
  0; 0; 0; 0; 0; 0; 0; 0;
  0; -8; 0; 0; -13; -4; 0; -5;
  3; -5; 0; 0; 0; -3; 1; -1;
  1; 0; 0; 1; 0; 0; 4; 0;
  0; 0; 0; 0; 0; 0; 0; 0;
  0; 0; 0; 0; 0; 0; 0; 0;
  0; 0; 0; 0; 0; 0; 0; 0;
  0; 0; 0; 0; 0; 0; 0; 0;
  0; 0; 0; 0; 0; 0; 0; 0;
  0; -9; 0; 0; 3; 0; 0; 0;
  0; 0; 0; 0; 0; 0; 0; 0;
  0; 0; 1; 0; 0; 0; 4; 0;
  0; 0; 0; 0; 0; 0; 0; 0;
  0; -10; 0; -5; 0; 0; 0; 0;
  0; -8; -5; 13; 0; 3; 0; 0;
  0; 0; 0; 0; 0; 0; -5; 0;
  0; 5; 0; 5; 5; 5; 10; 0;
  0; 0; 0; 0; 0; -1; 0; -3;
  -3; -3; 0; 13; 0; 0; 0; 0;
  0; -5; 0; 0; 0; 0; 0; 0;
  0; 0; 0; 0; 0; 0; 0; 0;
  0; 0; 0; 0; 0; 0; 0; 0;
  0; 0; 0; 5; 0; 0; 0; 0;
  0; 0; 0; 0; 0; 0; 0; 0;
  0; 5; 0; 5; 5; 5; 3; 0;
  0; 0; 0; 0; 0; 0; 0; 0;
  0; 0; 0; 0; 0; 0; 0; 0;
  0; 5; 5; 4; 3; 0; 0; 0].
Definition kern_class_values_4 : list Z := [
  0; 0; 0; 0; 0; 0; 0; 0;
  0; 0; 0; 0; 0; 0; 0; 0;
  0; 0; 0; 0; 0; 0; 0; 0;
  0; 0; 0; 0; -3; 0; 0; 0;
  0; -5; 0; -3; -3; -3; -10; -5;
  0; 0; 0; 0; 0; 0; 0; 0;
  0; 0; 0; 0; 0; 0; 0; 0;
  0; 0; 0; 0; 0; 0; 0; 0;
  0; 0; 0; 0; 0; 0; 0; 0;
  0; 0; 0; 0; 0; 3; -3; -3;
  0; 0; 0; -5; 0; 0; 0; 0;
  0; 0; 0; 0; -5; 0; 3; 0;
  0; -18; -1; -10; -5; -5; -15; 0;
  0; 0; 0; 0; 0; 0; 0; 0;
  0; 0; 0; 0; 0; 0; 0; 0;
  0; 0; 0; 0; 0; 0; 0; 0].
Definition kern_class_values : list Z :=
  kern_class_values_0 ++ kern_class_values_1 ++ kern_class_values_2 ++ kern_class_values_3 ++ kern_class_values_4.

Definition kern_classes : lv_font_fmt_txt_kern_classes_t :=
  KernClasses kern_class_values kern_left_class_mapping kern_right_class_mapping 76 64.

(** ** The font *)

Definition font_dsc : lv_font_fmt_txt_dsc_t :=
  FontDsc glyph_bitmap glyph_dsc cmaps kern_classes 16 1 4 1 0.
Definition ui_font_font_book16 : lv_font_t :=
  Font "lv_font_get_glyph_dsc_fmt_txt" "lv_font_get_bitmap_fmt_txt" 17 3 LV_FONT_SUBPX_NONE (-2) 1 font_dsc None None.

Definition font_file_book16 : font_file :=
  FontFile "ui_font_font_book16" glyph_blocks ui_font_font_book16.

Lemma book16_checked : font_check ui_font_font_book16 glyph_blocks = true.
Proof. by vm_compute. Qed.
