(* ===== verification/FontBook18.v ===== *)
(** * The tables of fonts/ui_font_font_book18.c

    The bitmap is written by the blocks of its characters, from U+0020 to U+007E. *)
From S2P Require Import Prelude FontFormat.

(** ** Bitmaps *)

Definition glyph_bitmap_0020 : list (list Z) := [
  (* U+0020 *)
    [];
  (* U+0021 *)
    [0x3f; 0xd3; 0xfc; 0x2f; 0xb1; 0xfa; 0xf; 0xa0;
     0xf9; 0xe; 0x80; 0xe7; 0xd; 0x70; 0x21; 0x4;
     0x24; 0xfe; 0x2e; 0xa0];
  (* U+0022 *)
    [0x1b; 0x70; 0xb9; 0x3; 0xfd; 0x1f; 0xf0; 0xf;
     0xa0; 0xec; 0x0; 0xd7; 0xb; 0x80; 0x9; 0x30;
     0x85; 0x0];
  (* U+0023 *)
    [0x0; 0x0; 0x1f; 0x60; 0xf; 0x70; 0x0; 0x0;
     0x4; 0xf3; 0x3; 0xf4; 0x0; 0x0; 0x0; 0x8f;
     0x0; 0x7f; 0x10; 0x0; 0x3f; 0xff; 0xff; 0xff;
     0xff; 0xf6; 0x1; 0x66; 0xfb; 0x66; 0xec; 0x66;
     0x20; 0x0; 0x1f; 0x60; 0xf; 0x70; 0x0; 0x0;
     0x4; 0xf3; 0x3; 0xf4; 0x0; 0x0; 0x11; 0x8f;
     0x21; 0x6f; 0x31; 0x0; 0x1f; 0xff; 0xff; 0xff;
     0xff; 0xf8; 0x0; 0x44; 0xfb; 0x44; 0xec; 0x44;
     0x20; 0x0; 0x2f; 0x60; 0xf; 0x70; 0x0; 0x0;
     0x5; 0xf2; 0x4; 0xf3; 0x0; 0x0];
  (* U+0024 *)
    [0x0; 0x0; 0x0; 0x0; 0x0; 0x0; 0x0; 0x2f;
     0x30; 0x0; 0x0; 0x0; 0x3f; 0x40; 0x0; 0x0;
     0x1b; 0xff; 0xfb; 0x10; 0x1; 0xef; 0xaf; 0xcf;
     0xe0; 0x7; 0xf6; 0x2f; 0x37; 0xf6; 0x8; 0xf3;
     0x2f; 0x30; 0x40; 0x5; 0xfc; 0x5f; 0x30; 0x0;
     0x0; 0xbf; 0xff; 0xb5; 0x0; 0x0; 0x5; 0xaf;
     0xff; 0xb0; 0x0; 0x0; 0x2f; 0x5b; 0xf6; 0xa;
     0xa0; 0x2f; 0x32; 0xfa; 0xc; 0xf3; 0x2f; 0x34;
     0xf8; 0x3; 0xff; 0xbf; 0xbf; 0xf1; 0x0; 0x3b;
     0xff; 0xfb; 0x20; 0x0; 0x0; 0x3f; 0x40; 0x0;
     0x0; 0x0; 0x2f; 0x30; 0x0];
  (* U+0025 *)
    [0x0; 0x0; 0x0; 0x0; 0x0; 0x2; 0x0; 0x1;
     0xbf; 0xf9; 0x0; 0x0; 0x9e; 0x10; 0xb; 0xe6;
     0x7f; 0x70; 0x4; 0xf5; 0x0; 0xf; 0x80; 0xc;
     0xb0; 0x1e; 0xa0; 0x0; 0xc; 0xd3; 0x4f; 0x80;
     0xbe; 0x0; 0x0; 0x3; 0xef; 0xfc; 0x6; 0xf4;
     0x0; 0x0; 0x0; 0x3; 0x30; 0x2f; 0x90; 0x0;
     0x0; 0x0; 0x0; 0x0; 0xcd; 0x9; 0xff; 0x90;
     0x0; 0x0; 0x7; 0xf3; 0x7f; 0x77; 0xf7; 0x0;
     0x0; 0x2f; 0x80; 0xcb; 0x0; 0xbc; 0x0; 0x0;
     0xdc; 0x0; 0xcb; 0x0; 0xbc; 0x0; 0x8; 0xf2;
     0x0; 0x6f; 0x99; 0xf6; 0x0; 0x3f; 0x70; 0x0;
     0x7; 0xee; 0x70];
  (* U+0026 *)
    [0x0; 0x7e; 0xfc; 0x30; 0x0; 0x0; 0x9; 0xfc;
     0x9f; 0xf2; 0x0; 0x0; 0xf; 0xd0; 0x4; 0xf8;
     0x0; 0x0; 0xf; 0xc0; 0x4; 0xf8; 0x0; 0x0;
     0xa; 0xf6; 0x2d; 0xf2; 0x0; 0x0; 0x1; 0xdf;
     0xfe; 0x40; 0x0; 0x10; 0x0; 0xbf; 0xf7; 0x0;
     0x7; 0x50; 0xc; 0xf8; 0xdf; 0x50; 0x5f; 0x50;
     0x7f; 0x70; 0x1e; 0xf8; 0xfc; 0x0; 0xaf; 0x10;
     0x2; 0xef; 0xe1; 0x0; 0x9f; 0x60; 0x4; 0xff;
     0xf4; 0x0; 0x2f; 0xfb; 0xbf; 0xf8; 0xff; 0x30;
     0x3; 0xcf; 0xfb; 0x30; 0x5f; 0xe2];
  (* U+0027 *)
    [0x1b; 0x73; 0xfd; 0xf; 0xa0; 0xd7; 0x9; 0x30];
  (* U+0028 *)
    [0x0; 0x0; 0x20; 0x0; 0x5; 0xf3; 0x0; 0x2f;
     0xa0; 0x0; 0xae; 0x10; 0x2; 0xf7; 0x0; 0x7;
     0xf1; 0x0; 0xb; 0xc0; 0x0; 0xe; 0x90; 0x0;
     0xf; 0x80; 0x0; 0xf; 0x70; 0x0; 0xf; 0x80;
     0x0; 0xd; 0xa0; 0x0; 0x9; 0xe0; 0x0; 0x4;
     0xf4; 0x0; 0x0; 0xeb; 0x0; 0x0; 0x5f; 0x50;
     0x0; 0xb; 0xe2; 0x0; 0x1; 0xa1];
  (* U+0029 *)
    [0x11; 0x0; 0xc; 0xc0; 0x0; 0x4f; 0x80; 0x0;
     0x9f; 0x10; 0x1; 0xf8; 0x0; 0xa; 0xd0; 0x0;
     0x5f; 0x20; 0x2; 0xf5; 0x0; 0x1f; 0x60; 0x0;
     0xf7; 0x0; 0x2f; 0x60; 0x3; 0xf4; 0x0; 0x8f;
     0x0; 0xd; 0xb0; 0x5; 0xf5; 0x0; 0xdc; 0x0;
     0xaf; 0x30; 0x7; 0x50; 0x0];
  (* U+002A *)
    [0x0; 0xc; 0xa0; 0x0; 0x2; 0xc; 0xa0; 0x20;
     0x3f; 0xce; 0xdd; 0xf2; 0x4; 0xaf; 0xf9; 0x30;
     0x0; 0xbd; 0xea; 0x0; 0x5; 0xf3; 0x4f; 0x40;
     0x0; 0x30; 0x3; 0x0];
  (* U+002B *)
    [0x0; 0x0; 0x57; 0x0; 0x0; 0x0; 0x0; 0xad;
     0x0; 0x0; 0x0; 0x0; 0xad; 0x0; 0x0; 0x2;
     0x22; 0xad; 0x22; 0x20; 0xf; 0xff; 0xff; 0xff;
     0xf3; 0x5; 0x55; 0xce; 0x55; 0x51; 0x0; 0x0;
     0xad; 0x0; 0x0; 0x0; 0x0; 0xad; 0x0; 0x0;
     0x0; 0x0; 0xad; 0x0; 0x0];
  (* U+002C *)
    [0x16; 0x20; 0xaf; 0xd0; 0x7f; 0xf0; 0x4; 0xd0;
     0x2d; 0x50; 0x75; 0x0];
  (* U+002D *)
    [0x2; 0x22; 0x21; 0x3f; 0xff; 0xfb; 0x5; 0x55;
     0x53];
  (* U+002E *)
    [0x17; 0x1a; 0xfb; 0x6f; 0x60];
  (* U+002F *)
    [0x0; 0x0; 0x1; 0xf9; 0x0; 0x0; 0x8; 0xf1;
     0x0; 0x0; 0x1f; 0x90; 0x0; 0x0; 0x7f; 0x20;
     0x0; 0x0; 0xea; 0x0; 0x0; 0x7; 0xf3; 0x0;
     0x0; 0xe; 0xb0; 0x0; 0x0; 0x6f; 0x40; 0x0;
     0x0; 0xdc; 0x0; 0x0; 0x5; 0xf4; 0x0; 0x0;
     0xc; 0xd0; 0x0; 0x0; 0x4f; 0x50; 0x0; 0x0;
     0xcd; 0x0; 0x0; 0x0];
  (* U+0030 *)
    [0x0; 0x1; 0x78; 0x71; 0x0; 0x0; 0x5; 0xff;
     0xff; 0xf5; 0x0; 0x2; 0xfd; 0x30; 0x3d; 0xf3;
     0x0; 0x9f; 0x30; 0x0; 0x2f; 0xa0; 0xd; 0xd0;
     0x0; 0x0; 0xde; 0x0; 0xfb; 0x0; 0x0; 0xa;
     0xf0; 0x1f; 0xa0; 0x0; 0x0; 0x9f; 0x20; 0xfa;
     0x0; 0x0; 0xa; 0xf1; 0xe; 0xc0; 0x0; 0x0;
     0xbf; 0x0; 0xbf; 0x10; 0x0; 0xf; 0xc0; 0x5;
     0xf9; 0x0; 0x8; 0xf6; 0x0; 0xb; 0xfd; 0x9c;
     0xfb; 0x0; 0x0; 0x8; 0xdf; 0xe8; 0x0; 0x0];
  (* U+0031 *)
    [0x0; 0x8; 0xc0; 0x29; 0xff; 0x8f; 0xff; 0xf1;
     0x33; 0xcf; 0x0; 0xb; 0xf0; 0x0; 0xbf; 0x0;
     0xb; 0xf0; 0x0; 0xbf; 0x0; 0xb; 0xf0; 0x0;
     0xbf; 0x0; 0xb; 0xf0; 0x0; 0xbf];
  (* U+0032 *)
    [0x0; 0x4c; 0xfe; 0xa1; 0x0; 0x6f; 0xe9; 0xbf;
     0xe1; 0xf; 0xe0; 0x0; 0x6f; 0x83; 0xf8; 0x0;
     0x1; 0xfb; 0x15; 0x30; 0x0; 0x4f; 0x90; 0x0;
     0x0; 0x2d; 0xf3; 0x0; 0x0; 0x6e; 0xf6; 0x0;
     0x1; 0xbf; 0xd3; 0x0; 0x1; 0xdf; 0x80; 0x0;
     0x0; 0xbf; 0x40; 0x0; 0x0; 0x2f; 0xfa; 0xaa;
     0xaa; 0x85; 0xff; 0xff; 0xff; 0xfc]].
Definition glyph_bitmap_0033 : list (list Z) := [
  (* U+0033 *)
    [0xf; 0xff; 0xff; 0xff; 0xf0; 0x9; 0xaa; 0xaa;
     0xdf; 0xe0; 0x0; 0x0; 0x5; 0xfd; 0x20; 0x0;
     0x0; 0x6f; 0xd1; 0x0; 0x0; 0x7; 0xfe; 0x30;
     0x0; 0x0; 0x6; 0xff; 0xfc; 0x10; 0x0; 0x0;
     0x32; 0x8f; 0xc0; 0x0; 0x0; 0x0; 0xb; 0xf2;
     0x3e; 0x80; 0x0; 0x9; 0xf3; 0x1f; 0xe1; 0x0;
     0x1e; 0xf0; 0x6; 0xff; 0xaa; 0xef; 0x60; 0x0;
     0x4c; 0xff; 0xc4; 0x0];
  (* U+0034 *)
    [0x0; 0x0; 0xb; 0xff; 0x10; 0x0; 0x0; 0x5;
     0xff; 0xf1; 0x0; 0x0; 0x1; 0xed; 0xaf; 0x10;
     0x0; 0x0; 0xaf; 0x4a; 0xf1; 0x0; 0x0; 0x5f;
     0x90; 0xaf; 0x10; 0x0; 0x1e; 0xd0; 0xa; 0xf1;
     0x0; 0xa; 0xf4; 0x0; 0xaf; 0x10; 0x4; 0xf9;
     0x0; 0xa; 0xf1; 0x0; 0x6f; 0xff; 0xff; 0xff;
     0xff; 0x13; 0xaa; 0xaa; 0xad; 0xfa; 0xa0; 0x0;
     0x0; 0x0; 0xaf; 0x10; 0x0; 0x0; 0x0; 0xa;
     0xf1; 0x0];
  (* U+0035 *)
    [0x0; 0x8f; 0xff; 0xff; 0xc0; 0x0; 0xce; 0xaa;
     0xaa; 0x70; 0x1; 0xf8; 0x0; 0x0; 0x0; 0x5;
     0xf4; 0x0; 0x0; 0x0; 0x9; 0xf8; 0xdf; 0xd5;
     0x0; 0xc; 0xfe; 0xaa; 0xff; 0x60; 0x0; 0x40;
     0x0; 0x2f; 0xf0; 0x0; 0x0; 0x0; 0xa; 0xf3;
     0x3c; 0x70; 0x0; 0xa; 0xf2; 0x1f; 0xe1; 0x0;
     0x2f; 0xe0; 0x7; 0xfe; 0xaa; 0xff; 0x50; 0x0;
     0x4c; 0xff; 0xb3; 0x0];
  (* U+0036 *)
    [0x0; 0x0; 0x7d; 0xfe; 0xb2; 0x0; 0x2e; 0xfc;
     0x9a; 0xe2; 0x0; 0xdf; 0x50; 0x0; 0x0; 0x7;
     0xf6; 0x0; 0x0; 0x0; 0xc; 0xe4; 0xcf; 0xea;
     0x20; 0xf; 0xef; 0xb8; 0xcf; 0xe1; 0xf; 0xf8;
     0x0; 0x8; 0xf8; 0xf; 0xf1; 0x0; 0x1; 0xfc;
     0xd; 0xf1; 0x0; 0x1; 0xfb; 0x8; 0xf8; 0x0;
     0x8; 0xf7; 0x0; 0xcf; 0xc9; 0xcf; 0xc0; 0x0;
     0x8; 0xef; 0xe8; 0x0];
  (* U+0037 *)
    [0x9a; 0xaa; 0xaa; 0xaa; 0x6e; 0xff; 0xff; 0xff;
     0xf9; 0x0; 0x0; 0x1; 0xce; 0x30; 0x0; 0x0;
     0xcf; 0x20; 0x0; 0x0; 0x8f; 0x50; 0x0; 0x0;
     0x2f; 0xb0; 0x0; 0x0; 0xa; 0xf2; 0x0; 0x0;
     0x2; 0xfb; 0x0; 0x0; 0x0; 0x7f; 0x60; 0x0;
     0x0; 0xb; 0xf1; 0x0; 0x0; 0x0; 0xee; 0x0;
     0x0; 0x0; 0x1f; 0xb0; 0x0; 0x0];
  (* U+0038 *)
    [0x0; 0x0; 0x1; 0x0; 0x0; 0x0; 0x6d; 0xff;
     0xe6; 0x0; 0x6; 0xfd; 0x66; 0xcf; 0x70; 0xd;
     0xf1; 0x0; 0xe; 0xe0; 0xc; 0xf0; 0x0; 0xe;
     0xd0; 0x5; 0xfa; 0x33; 0xaf; 0x60; 0x0; 0x7f;
     0xff; 0xf8; 0x0; 0x5; 0xfc; 0x66; 0xbf; 0x60;
     0xe; 0xd0; 0x0; 0xc; 0xf1; 0x2f; 0xa0; 0x0;
     0x9; 0xf3; 0xf; 0xe1; 0x0; 0xd; 0xf1; 0x7;
     0xfe; 0x99; 0xef; 0x90; 0x0; 0x5c; 0xff; 0xc5;
     0x0];
  (* U+0039 *)
    [0x0; 0x4; 0x77; 0x40; 0x0; 0x1; 0xbf; 0xff;
     0xfb; 0x0; 0xa; 0xf8; 0x11; 0x8f; 0xa0; 0x2f;
     0xb0; 0x0; 0xb; 0xf2; 0x4f; 0x80; 0x0; 0x8;
     0xf6; 0x2f; 0xb0; 0x0; 0xb; 0xf8; 0xc; 0xf8;
     0x11; 0x8f; 0xf8; 0x1; 0xdf; 0xff; 0xfa; 0xf7;
     0x0; 0x4; 0x76; 0x27; 0xf4; 0x0; 0x0; 0x0;
     0xd; 0xf0; 0x0; 0x0; 0x0; 0x9f; 0x80; 0xa;
     0xca; 0xae; 0xfb; 0x0; 0x8; 0xdf; 0xec; 0x60;
     0x0];
  (* U+003A *)
    [0x5f; 0x89; 0xfc; 0x17; 0x20; 0x0; 0x0; 0x0;
     0x0; 0x17; 0x28; 0xfc; 0x5f; 0x80];
  (* U+003B *)
    [0x4f; 0x88; 0xfc; 0x17; 0x20; 0x0; 0x0; 0x0;
     0x0; 0x4; 0x8; 0xfc; 0x6f; 0xf0; 0x4c; 0x2d;
     0x45; 0x30];
  (* U+003C *)
    [0x0; 0x0; 0x0; 0x7; 0x0; 0x0; 0x0; 0x6e;
     0xf0; 0x0; 0x6; 0xef; 0xc4; 0x0; 0x6e; 0xfc;
     0x40; 0x0; 0x5f; 0xd4; 0x0; 0x0; 0x3; 0xff;
     0xb3; 0x0; 0x0; 0x1; 0x8f; 0xfb; 0x30; 0x0;
     0x0; 0x18; 0xff; 0xb0; 0x0; 0x0; 0x1; 0x8f;
     0x0; 0x0; 0x0; 0x0; 0x10];
  (* U+003D *)
    [0x11; 0x11; 0x11; 0x11; 0xd; 0xff; 0xff; 0xff;
     0xf8; 0x34; 0x44; 0x44; 0x44; 0x20; 0x0; 0x0;
     0x0; 0x0; 0x12; 0x22; 0x22; 0x22; 0x1d; 0xff;
     0xff; 0xff; 0xf8; 0x45; 0x55; 0x55; 0x55; 0x20];
  (* U+003E *)
    [0x34; 0x0; 0x0; 0x0; 0x6; 0xfc; 0x40; 0x0;
     0x0; 0x7; 0xef; 0xc4; 0x0; 0x0; 0x0; 0x6e;
     0xfb; 0x30; 0x0; 0x0; 0x6; 0xff; 0x0; 0x0;
     0x5; 0xdf; 0xd0; 0x0; 0x5d; 0xfd; 0x50; 0x3;
     0xdf; 0xd5; 0x0; 0x0; 0x6d; 0x50; 0x0; 0x0;
     0x1; 0x0; 0x0; 0x0; 0x0];
  (* U+003F *)
    [0x0; 0x7d; 0xfe; 0x80; 0x0; 0x9f; 0xda; 0xcf;
     0xc0; 0x2f; 0xc0; 0x0; 0xaf; 0x55; 0xf6; 0x0;
     0x4; 0xf8; 0x29; 0x40; 0x0; 0x8f; 0x60; 0x0;
     0x0; 0x7f; 0xd0; 0x0; 0x0; 0xaf; 0xc1; 0x0;
     0x0; 0x4f; 0xa0; 0x0; 0x0; 0x7; 0xf2; 0x0;
     0x0; 0x0; 0x14; 0x0; 0x0; 0x0; 0x1; 0x40;
     0x0; 0x0; 0x0; 0xcf; 0x60; 0x0; 0x0; 0x9;
     0xe3; 0x0; 0x0];
  (* U+0040 *)
    [0x0; 0x0; 0x29; 0xdf; 0xfc; 0x71; 0x0; 0x0;
     0x0; 0x8f; 0xd7; 0x55; 0x8e; 0xe4; 0x0; 0x0;
     0x8f; 0x60; 0x0; 0x0; 0x1a; 0xf2; 0x0; 0x3f;
     0x70; 0x2c; 0xfe; 0x7f; 0x2c; 0xb0; 0xb; 0xd0;
     0x1e; 0xc5; 0x8f; 0xe0; 0x5f; 0x10; 0xf8; 0x8;
     0xf1; 0x0; 0xdb; 0x2; 0xf3; 0x2f; 0x50; 0xca;
     0x0; 0xd; 0x80; 0x4f; 0x22; 0xf4; 0xc; 0xa0;
     0x1; 0xf5; 0x8; 0xe0; 0x1f; 0x60; 0x9f; 0x32;
     0xbf; 0x64; 0xf7; 0x0; 0xdb; 0x1; 0xcf; 0xf9;
     0xbf; 0xf9; 0x0; 0x7; 0xf3; 0x0; 0x21; 0x0;
     0x21; 0x0; 0x0; 0xc; 0xd2; 0x0; 0x0; 0x0;
     0x70; 0x0; 0x0; 0x1c; 0xf8; 0x31; 0x15; 0xcf;
     0x30; 0x0; 0x0; 0x7; 0xdf; 0xff; 0xfb; 0x30;
     0x0; 0x0; 0x0; 0x0; 0x13; 0x31; 0x0; 0x0;
     0x0];
  (* U+0041 *)
    [0x0; 0x0; 0xe; 0xf7; 0x0; 0x0; 0x0; 0x0;
     0x5; 0xff; 0xd0; 0x0; 0x0; 0x0; 0x0; 0xbf;
     0xaf; 0x40; 0x0; 0x0; 0x0; 0x1f; 0xa3; 0xfa;
     0x0; 0x0; 0x0; 0x8; 0xf4; 0xd; 0xf1; 0x0;
     0x0; 0x0; 0xee; 0x0; 0x7f; 0x70; 0x0; 0x0;
     0x4f; 0x90; 0x1; 0xfd; 0x0; 0x0; 0xa; 0xf3;
     0x0; 0xb; 0xf3; 0x0; 0x1; 0xff; 0xff; 0xff;
     0xff; 0x90; 0x0; 0x7f; 0xca; 0xaa; 0xaa; 0xff;
     0x0; 0xd; 0xf1; 0x0; 0x0; 0x9; 0xf6; 0x3;
     0xfa; 0x0; 0x0; 0x0; 0x2f; 0xc0; 0x9f; 0x40;
     0x0; 0x0; 0x0; 0xcf; 0x20]].
Definition glyph_bitmap_0042 : list (list Z) := [
  (* U+0042 *)
    [0x6f; 0xff; 0xfe; 0xa1; 0x0; 0x6f; 0xb9; 0x9c;
     0xfd; 0x0; 0x6f; 0x60; 0x0; 0x9f; 0x60; 0x6f;
     0x60; 0x0; 0x3f; 0x90; 0x6f; 0x60; 0x0; 0x4f;
     0x80; 0x6f; 0x60; 0x3; 0xdf; 0x20; 0x6f; 0xff;
     0xff; 0xf3; 0x0; 0x6f; 0xb8; 0x89; 0xee; 0x30;
     0x6f; 0x60; 0x0; 0x2f; 0xc0; 0x6f; 0x60; 0x0;
     0xd; 0xf0; 0x6f; 0x60; 0x0; 0x2f; 0xe0; 0x6f;
     0xb9; 0x9a; 0xff; 0x50; 0x6f; 0xff; 0xfe; 0xc4;
     0x0];
  (* U+0043 *)
    [0x0; 0x0; 0x6c; 0xff; 0xd8; 0x10; 0x0; 0x2;
     0xdf; 0xeb; 0xad; 0xff; 0x30; 0x0; 0xdf; 0x70;
     0x0; 0x4; 0xff; 0x10; 0x8f; 0x70; 0x0; 0x0;
     0x5; 0xf8; 0xe; 0xe0; 0x0; 0x0; 0x0; 0x6;
     0x11; 0xfb; 0x0; 0x0; 0x0; 0x0; 0x0; 0x2f;
     0xa0; 0x0; 0x0; 0x0; 0x0; 0x1; 0xfb; 0x0;
     0x0; 0x0; 0x0; 0x0; 0xe; 0xe0; 0x0; 0x0;
     0x0; 0x6; 0x20; 0x8f; 0x70; 0x0; 0x0; 0x5;
     0xf9; 0x0; 0xdf; 0x70; 0x0; 0x5; 0xfe; 0x10;
     0x2; 0xdf; 0xeb; 0xad; 0xff; 0x30; 0x0; 0x0;
     0x7c; 0xff; 0xd8; 0x10; 0x0];
  (* U+0044 *)
    [0x6f; 0xff; 0xff; 0xd7; 0x10; 0x0; 0x6f; 0xb9;
     0x99; 0xdf; 0xe2; 0x0; 0x6f; 0x60; 0x0; 0x6;
     0xfe; 0x10; 0x6f; 0x60; 0x0; 0x0; 0x7f; 0x80;
     0x6f; 0x60; 0x0; 0x0; 0xf; 0xe0; 0x6f; 0x60;
     0x0; 0x0; 0xc; 0xf1; 0x6f; 0x60; 0x0; 0x0;
     0xb; 0xf2; 0x6f; 0x60; 0x0; 0x0; 0xc; 0xf1;
     0x6f; 0x60; 0x0; 0x0; 0xf; 0xe0; 0x6f; 0x60;
     0x0; 0x0; 0x7f; 0x80; 0x6f; 0x60; 0x0; 0x5;
     0xfe; 0x10; 0x6f; 0xb9; 0x99; 0xdf; 0xe3; 0x0;
     0x6f; 0xff; 0xff; 0xd8; 0x10; 0x0];
  (* U+0045 *)
    [0x6f; 0xff; 0xff; 0xff; 0x66; 0xfc; 0xaa; 0xaa;
     0xa3; 0x6f; 0x60; 0x0; 0x0; 0x6; 0xf6; 0x0;
     0x0; 0x0; 0x6f; 0x60; 0x0; 0x0; 0x6; 0xf6;
     0x0; 0x0; 0x0; 0x6f; 0xff; 0xff; 0xfd; 0x6;
     0xfc; 0xaa; 0xaa; 0x80; 0x6f; 0x60; 0x0; 0x0;
     0x6; 0xf6; 0x0; 0x0; 0x0; 0x6f; 0x60; 0x0;
     0x0; 0x6; 0xfc; 0xaa; 0xaa; 0xa3; 0x6f; 0xff;
     0xff; 0xff; 0x60];
  (* U+0046 *)
    [0x6f; 0xff; 0xff; 0xff; 0x66; 0xfc; 0xaa; 0xaa;
     0xa3; 0x6f; 0x60; 0x0; 0x0; 0x6; 0xf6; 0x0;
     0x0; 0x0; 0x6f; 0x60; 0x0; 0x0; 0x6; 0xf6;
     0x0; 0x0; 0x0; 0x6f; 0xff; 0xff; 0xfd; 0x6;
     0xfc; 0xaa; 0xaa; 0x80; 0x6f; 0x60; 0x0; 0x0;
     0x6; 0xf6; 0x0; 0x0; 0x0; 0x6f; 0x60; 0x0;
     0x0; 0x6; 0xf6; 0x0; 0x0; 0x0; 0x6f; 0x60;
     0x0; 0x0; 0x0];
  (* U+0047 *)
    [0x0; 0x0; 0x6c; 0xff; 0xd8; 0x10; 0x0; 0x2;
     0xdf; 0xea; 0xad; 0xff; 0x40; 0x0; 0xdf; 0x70;
     0x0; 0x4; 0xef; 0x30; 0x8f; 0x70; 0x0; 0x0;
     0x4; 0xf8; 0xe; 0xf0; 0x0; 0x0; 0x0; 0x2;
     0x1; 0xfb; 0x0; 0x0; 0x0; 0x0; 0x0; 0x2f;
     0xa0; 0x0; 0x49; 0x99; 0x99; 0x61; 0xfb; 0x0;
     0x7; 0xff; 0xff; 0xfa; 0xe; 0xe0; 0x0; 0x0;
     0x0; 0x1f; 0xa0; 0x8f; 0x70; 0x0; 0x0; 0x8;
     0xfa; 0x1; 0xef; 0x60; 0x0; 0x5; 0xff; 0xa0;
     0x2; 0xef; 0xea; 0xad; 0xf9; 0xda; 0x0; 0x1;
     0x7d; 0xff; 0xc6; 0xc; 0xa0];
  (* U+0048 *)
    [0x6f; 0x60; 0x0; 0x0; 0x1f; 0xa6; 0xf6; 0x0;
     0x0; 0x1; 0xfa; 0x6f; 0x60; 0x0; 0x0; 0x1f;
     0xa6; 0xf6; 0x0; 0x0; 0x1; 0xfa; 0x6f; 0x60;
     0x0; 0x0; 0x1f; 0xa6; 0xfc; 0xaa; 0xaa; 0xab;
     0xfa; 0x6f; 0xff; 0xff; 0xff; 0xff; 0xa6; 0xf6;
     0x0; 0x0; 0x1; 0xfa; 0x6f; 0x60; 0x0; 0x0;
     0x1f; 0xa6; 0xf6; 0x0; 0x0; 0x1; 0xfa; 0x6f;
     0x60; 0x0; 0x0; 0x1f; 0xa6; 0xf6; 0x0; 0x0;
     0x1; 0xfa; 0x6f; 0x60; 0x0; 0x0; 0x1f; 0xa0];
  (* U+0049 *)
    [0x6f; 0x66; 0xf6; 0x6f; 0x66; 0xf6; 0x6f; 0x66;
     0xf6; 0x6f; 0x66; 0xf6; 0x6f; 0x66; 0xf6; 0x6f;
     0x66; 0xf6; 0x6f; 0x60];
  (* U+004A *)
    [0x0; 0x0; 0x0; 0x9f; 0x20; 0x0; 0x0; 0x9;
     0xf2; 0x0; 0x0; 0x0; 0x9f; 0x20; 0x0; 0x0;
     0x9; 0xf2; 0x0; 0x0; 0x0; 0x9f; 0x20; 0x0;
     0x0; 0x9; 0xf2; 0x0; 0x0; 0x0; 0x9f; 0x20;
     0x20; 0x0; 0x9; 0xf2; 0x9f; 0x20; 0x0; 0x9f;
     0x29; 0xf3; 0x0; 0xa; 0xf1; 0x6f; 0x90; 0x1;
     0xee; 0x0; 0xcf; 0xdb; 0xef; 0x50; 0x0; 0x9e;
     0xfd; 0x40; 0x0];
  (* U+004B *)
    [0x6f; 0x60; 0x0; 0x2; 0xef; 0x46; 0xf6; 0x0;
     0x1; 0xef; 0x50; 0x6f; 0x60; 0x0; 0xdf; 0x60;
     0x6; 0xf6; 0x0; 0xbf; 0x70; 0x0; 0x6f; 0x60;
     0xaf; 0x90; 0x0; 0x6; 0xf6; 0x8f; 0xa0; 0x0;
     0x0; 0x6f; 0xcf; 0xfd; 0x0; 0x0; 0x6; 0xff;
     0xc9; 0xfa; 0x0; 0x0; 0x6f; 0xd1; 0xc; 0xf6;
     0x0; 0x6; 0xf6; 0x0; 0x1e; 0xf2; 0x0; 0x6f;
     0x60; 0x0; 0x5f; 0xd0; 0x6; 0xf6; 0x0; 0x0;
     0x9f; 0xa0; 0x6f; 0x60; 0x0; 0x0; 0xdf; 0x60];
  (* U+004C *)
    [0x6f; 0x60; 0x0; 0x0; 0x6; 0xf6; 0x0; 0x0;
     0x0; 0x6f; 0x60; 0x0; 0x0; 0x6; 0xf6; 0x0;
     0x0; 0x0; 0x6f; 0x60; 0x0; 0x0; 0x6; 0xf6;
     0x0; 0x0; 0x0; 0x6f; 0x60; 0x0; 0x0; 0x6;
     0xf6; 0x0; 0x0; 0x0; 0x6f; 0x60; 0x0; 0x0;
     0x6; 0xf6; 0x0; 0x0; 0x0; 0x6f; 0x60; 0x0;
     0x0; 0x6; 0xfc; 0xaa; 0xaa; 0xa4; 0x6f; 0xff;
     0xff; 0xff; 0x60];
  (* U+004D *)
    [0x6f; 0xf3; 0x0; 0x0; 0x0; 0x2; 0xff; 0x66;
     0xff; 0xa0; 0x0; 0x0; 0x0; 0x9f; 0xf6; 0x6f;
     0xff; 0x10; 0x0; 0x0; 0x1f; 0xff; 0x66; 0xfb;
     0xf8; 0x0; 0x0; 0x7; 0xfb; 0xf6; 0x6f; 0x6e;
     0xe0; 0x0; 0x0; 0xde; 0x6f; 0x66; 0xf5; 0x8f;
     0x50; 0x0; 0x4f; 0x85; 0xf6; 0x6f; 0x51; 0xfc;
     0x0; 0xb; 0xf1; 0x5f; 0x66; 0xf5; 0xa; 0xf3;
     0x2; 0xfa; 0x5; 0xf6; 0x6f; 0x50; 0x3f; 0xa0;
     0x9f; 0x30; 0x5f; 0x66; 0xf5; 0x0; 0xcf; 0x2f;
     0xd0; 0x5; 0xf6; 0x6f; 0x50; 0x6; 0xfd; 0xf6;
     0x0; 0x5f; 0x66; 0xf5; 0x0; 0xe; 0xfe; 0x0;
     0x5; 0xf6; 0x6f; 0x50; 0x0; 0x8f; 0x80; 0x0;
     0x5f; 0x60];
  (* U+004E *)
    [0x6f; 0xf4; 0x0; 0x0; 0xa; 0xf1; 0x6f; 0xfe;
     0x0; 0x0; 0xa; 0xf1; 0x6f; 0xef; 0x90; 0x0;
     0xa; 0xf1; 0x6f; 0x6d; 0xf3; 0x0; 0xa; 0xf1;
     0x6f; 0x64; 0xfd; 0x0; 0xa; 0xf1; 0x6f; 0x60;
     0x9f; 0x70; 0xa; 0xf1; 0x6f; 0x60; 0xe; 0xf2;
     0xa; 0xf1; 0x6f; 0x60; 0x4; 0xfc; 0xa; 0xf1;
     0x6f; 0x60; 0x0; 0xaf; 0x6a; 0xf1; 0x6f; 0x60;
     0x0; 0x1e; 0xfc; 0xf1; 0x6f; 0x60; 0x0; 0x5;
     0xff; 0xf1; 0x6f; 0x60; 0x0; 0x0; 0xbf; 0xf1;
     0x6f; 0x60; 0x0; 0x0; 0x1f; 0xf1]].
Definition glyph_bitmap_004f : list (list Z) := [
  (* U+004F *)
    [0x0; 0x0; 0x6b; 0xef; 0xd9; 0x20; 0x0; 0x0;
     0x1c; 0xfe; 0xba; 0xdf; 0xf6; 0x0; 0x0; 0xdf;
     0x70; 0x0; 0x3; 0xdf; 0x50; 0x8; 0xf8; 0x0;
     0x0; 0x0; 0x2f; 0xe0; 0xe; 0xf0; 0x0; 0x0;
     0x0; 0x8; 0xf5; 0x1f; 0xb0; 0x0; 0x0; 0x0;
     0x4; 0xf8; 0x2f; 0xa0; 0x0; 0x0; 0x0; 0x3;
     0xf9; 0x1f; 0xb0; 0x0; 0x0; 0x0; 0x4; 0xf8;
     0xe; 0xf0; 0x0; 0x0; 0x0; 0x8; 0xf5; 0x8;
     0xf8; 0x0; 0x0; 0x0; 0x2f; 0xe0; 0x0; 0xdf;
     0x70; 0x0; 0x3; 0xdf; 0x50; 0x0; 0x1c; 0xfe;
     0xba; 0xcf; 0xf6; 0x0; 0x0; 0x0; 0x6c; 0xff;
     0xd9; 0x20; 0x0];
  (* U+0050 *)
    [0x6f; 0xff; 0xff; 0xc4; 0x0; 0x6f; 0xc9; 0x9a;
     0xff; 0x50; 0x6f; 0x60; 0x0; 0x2e; 0xe0; 0x6f;
     0x60; 0x0; 0xa; 0xf2; 0x6f; 0x60; 0x0; 0xb;
     0xf1; 0x6f; 0x60; 0x1; 0x7f; 0xc0; 0x6f; 0xff;
     0xff; 0xfd; 0x20; 0x6f; 0xc9; 0x99; 0x60; 0x0;
     0x6f; 0x60; 0x0; 0x0; 0x0; 0x6f; 0x60; 0x0;
     0x0; 0x0; 0x6f; 0x60; 0x0; 0x0; 0x0; 0x6f;
     0x60; 0x0; 0x0; 0x0; 0x6f; 0x60; 0x0; 0x0;
     0x0];
  (* U+0051 *)
    [0x0; 0x0; 0x6b; 0xef; 0xd9; 0x20; 0x0; 0x0;
     0x1c; 0xfe; 0xba; 0xdf; 0xf6; 0x0; 0x0; 0xdf;
     0x70; 0x0; 0x3; 0xdf; 0x50; 0x8; 0xf8; 0x0;
     0x0; 0x0; 0x2f; 0xe0; 0xe; 0xf0; 0x0; 0x0;
     0x0; 0x8; 0xf5; 0x1f; 0xb0; 0x0; 0x0; 0x0;
     0x4; 0xf8; 0x2f; 0xa0; 0x0; 0x0; 0x0; 0x3;
     0xf9; 0x1f; 0xb0; 0x0; 0x0; 0x50; 0x4; 0xf8;
     0xe; 0xf0; 0x0; 0x8; 0xf7; 0x9; 0xf4; 0x8;
     0xf8; 0x0; 0x0; 0xbf; 0x7f; 0xe0; 0x0; 0xdf;
     0x70; 0x0; 0xd; 0xff; 0x40; 0x0; 0x1c; 0xfe;
     0xba; 0xdf; 0xff; 0x30; 0x0; 0x0; 0x6c; 0xff;
     0xd8; 0x4e; 0xe1; 0x0; 0x0; 0x0; 0x0; 0x0;
     0x3; 0x70];
  (* U+0052 *)
    [0x6f; 0xff; 0xff; 0xd6; 0x0; 0x6f; 0xc9; 0x9a;
     0xef; 0x80; 0x6f; 0x60; 0x0; 0x1e; 0xf1; 0x6f;
     0x60; 0x0; 0x8; 0xf4; 0x6f; 0x60; 0x0; 0xa;
     0xf3; 0x6f; 0x60; 0x0; 0x6f; 0xd0; 0x6f; 0xff;
     0xff; 0xfe; 0x30; 0x6f; 0xc9; 0xdf; 0x90; 0x0;
     0x6f; 0x60; 0x3f; 0xc0; 0x0; 0x6f; 0x60; 0xa;
     0xf5; 0x0; 0x6f; 0x60; 0x2; 0xfd; 0x0; 0x6f;
     0x60; 0x0; 0x9f; 0x70; 0x6f; 0x60; 0x0; 0x1f;
     0xe1];
  (* U+0053 *)
    [0x0; 0x8; 0xef; 0xe8; 0x10; 0x0; 0xcf; 0xc9;
     0xcf; 0xd0; 0x8; 0xf7; 0x0; 0x6; 0xf8; 0xb;
     0xf0; 0x0; 0x0; 0x83; 0xa; 0xf4; 0x0; 0x0;
     0x0; 0x3; 0xff; 0xa6; 0x20; 0x0; 0x0; 0x4c;
     0xff; 0xfd; 0x40; 0x0; 0x0; 0x15; 0x9f; 0xf4;
     0x0; 0x10; 0x0; 0x4; 0xfb; 0x2f; 0x90; 0x0;
     0x0; 0xfd; 0xe; 0xf4; 0x0; 0x6; 0xf9; 0x4;
     0xff; 0xca; 0xcf; 0xe1; 0x0; 0x2a; 0xef; 0xe9;
     0x10];
  (* U+0054 *)
    [0xdf; 0xff; 0xff; 0xff; 0xff; 0x78; 0xaa; 0xad;
     0xfb; 0xaa; 0xa4; 0x0; 0x0; 0x8f; 0x30; 0x0;
     0x0; 0x0; 0x8; 0xf3; 0x0; 0x0; 0x0; 0x0;
     0x8f; 0x30; 0x0; 0x0; 0x0; 0x8; 0xf3; 0x0;
     0x0; 0x0; 0x0; 0x8f; 0x30; 0x0; 0x0; 0x0;
     0x8; 0xf3; 0x0; 0x0; 0x0; 0x0; 0x8f; 0x30;
     0x0; 0x0; 0x0; 0x8; 0xf3; 0x0; 0x0; 0x0;
     0x0; 0x8f; 0x30; 0x0; 0x0; 0x0; 0x8; 0xf3;
     0x0; 0x0; 0x0; 0x0; 0x8f; 0x30; 0x0; 0x0];
  (* U+0055 *)
    [0x9f; 0x30; 0x0; 0x2; 0xfa; 0x9f; 0x30; 0x0;
     0x2; 0xfa; 0x9f; 0x30; 0x0; 0x2; 0xfa; 0x9f;
     0x30; 0x0; 0x2; 0xfa; 0x9f; 0x30; 0x0; 0x2;
     0xfa; 0x9f; 0x30; 0x0; 0x2; 0xfa; 0x9f; 0x30;
     0x0; 0x2; 0xfa; 0x9f; 0x30; 0x0; 0x2; 0xfa;
     0x8f; 0x30; 0x0; 0x2; 0xf9; 0x7f; 0x60; 0x0;
     0x5; 0xf7; 0x2f; 0xd1; 0x0; 0x1d; 0xf3; 0x8;
     0xff; 0xbb; 0xff; 0x90; 0x0; 0x5c; 0xff; 0xc5;
     0x0];
  (* U+0056 *)
    [0xaf; 0x30; 0x0; 0x0; 0x6; 0xf7; 0x4f; 0x90;
     0x0; 0x0; 0xc; 0xf1; 0xe; 0xe0; 0x0; 0x0;
     0x1f; 0xb0; 0x8; 0xf4; 0x0; 0x0; 0x7f; 0x50;
     0x2; 0xfa; 0x0; 0x0; 0xde; 0x0; 0x0; 0xcf;
     0x0; 0x3; 0xf9; 0x0; 0x0; 0x6f; 0x60; 0x9;
     0xf3; 0x0; 0x0; 0x1f; 0xc0; 0xe; 0xc0; 0x0;
     0x0; 0xa; 0xf1; 0x4f; 0x60; 0x0; 0x0; 0x4;
     0xf7; 0xaf; 0x10; 0x0; 0x0; 0x0; 0xed; 0xfa;
     0x0; 0x0; 0x0; 0x0; 0x9f; 0xf4; 0x0; 0x0;
     0x0; 0x0; 0x3f; 0xe0; 0x0; 0x0];
  (* U+0057 *)
    [0x9f; 0x30; 0x0; 0x1; 0xff; 0x10; 0x0; 0x2;
     0xfa; 0x4f; 0x80; 0x0; 0x6; 0xff; 0x60; 0x0;
     0x6; 0xf6; 0xf; 0xc0; 0x0; 0xb; 0xff; 0xc0;
     0x0; 0xa; 0xf1; 0xb; 0xf1; 0x0; 0xf; 0xba;
     0xf1; 0x0; 0xf; 0xd0; 0x7; 0xf5; 0x0; 0x5f;
     0x65; 0xf6; 0x0; 0x3f; 0x80; 0x2; 0xf9; 0x0;
     0xaf; 0x10; 0xfb; 0x0; 0x7f; 0x40; 0x0; 0xee;
     0x0; 0xec; 0x0; 0xbf; 0x0; 0xcf; 0x0; 0x0;
     0x9f; 0x24; 0xf7; 0x0; 0x6f; 0x50; 0xfb; 0x0;
     0x0; 0x5f; 0x69; 0xf2; 0x0; 0x1f; 0xa4; 0xf6;
     0x0; 0x0; 0xf; 0xbe; 0xd0; 0x0; 0xc; 0xf9;
     0xf2; 0x0; 0x0; 0xc; 0xff; 0x80; 0x0; 0x7;
     0xff; 0xd0; 0x0; 0x0; 0x7; 0xff; 0x30; 0x0;
     0x2; 0xff; 0x90; 0x0; 0x0; 0x3; 0xfd; 0x0;
     0x0; 0x0; 0xdf; 0x40; 0x0];
  (* U+0058 *)
    [0x7f; 0xa0; 0x0; 0x0; 0x7f; 0x90; 0xcf; 0x40;
     0x0; 0x2f; 0xd0; 0x2; 0xfe; 0x0; 0xc; 0xf4;
     0x0; 0x7; 0xf8; 0x6; 0xf9; 0x0; 0x0; 0xc;
     0xf4; 0xfd; 0x0; 0x0; 0x0; 0x2f; 0xff; 0x40;
     0x0; 0x0; 0x0; 0xaf; 0xc0; 0x0; 0x0; 0x0;
     0x2f; 0xff; 0x40; 0x0; 0x0; 0xc; 0xf5; 0xfd;
     0x0; 0x0; 0x7; 0xf8; 0x7; 0xf9; 0x0; 0x2;
     0xfd; 0x0; 0xc; 0xf3; 0x0; 0xcf; 0x30; 0x0;
     0x3f; 0xd0; 0x7f; 0x90; 0x0; 0x0; 0x8f; 0x80];
  (* U+0059 *)
    [0x8f; 0x90; 0x0; 0x0; 0x5f; 0xa0; 0xdf; 0x20;
     0x0; 0xe; 0xf1; 0x4; 0xfb; 0x0; 0x8; 0xf6;
     0x0; 0xb; 0xf4; 0x1; 0xfc; 0x0; 0x0; 0x2f;
     0xd0; 0xaf; 0x30; 0x0; 0x0; 0x7f; 0xaf; 0x90;
     0x0; 0x0; 0x0; 0xdf; 0xe1; 0x0; 0x0; 0x0;
     0x5; 0xf7; 0x0; 0x0; 0x0; 0x0; 0x5f; 0x70;
     0x0; 0x0; 0x0; 0x5; 0xf7; 0x0; 0x0; 0x0;
     0x0; 0x5f; 0x70; 0x0; 0x0; 0x0; 0x5; 0xf7;
     0x0; 0x0; 0x0; 0x0; 0x5f; 0x70; 0x0; 0x0];
  (* U+005A *)
    [0xf; 0xff; 0xff; 0xff; 0xff; 0x90; 0xaa; 0xaa;
     0xaa; 0xae; 0xf8; 0x0; 0x0; 0x0; 0x4; 0xfd;
     0x10; 0x0; 0x0; 0x1; 0xef; 0x30; 0x0; 0x0;
     0x0; 0xcf; 0x50; 0x0; 0x0; 0x0; 0xaf; 0x90;
     0x0; 0x0; 0x0; 0x6f; 0xc0; 0x0; 0x0; 0x0;
     0x3f; 0xe1; 0x0; 0x0; 0x0; 0x1e; 0xf3; 0x0;
     0x0; 0x0; 0xc; 0xf6; 0x0; 0x0; 0x0; 0x9;
     0xf9; 0x0; 0x0; 0x0; 0x2; 0xff; 0xba; 0xaa;
     0xaa; 0xa7; 0x3f; 0xff; 0xff; 0xff; 0xff; 0xa0]].
Definition glyph_bitmap_005b : list (list Z) := [
  (* U+005B *)
    [0x1; 0x11; 0x6; 0xff; 0xf1; 0x6f; 0x54; 0x6;
     0xf1; 0x0; 0x6f; 0x10; 0x6; 0xf1; 0x0; 0x6f;
     0x10; 0x6; 0xf1; 0x0; 0x6f; 0x10; 0x6; 0xf1;
     0x0; 0x6f; 0x10; 0x6; 0xf1; 0x0; 0x6f; 0x10;
     0x6; 0xf1; 0x0; 0x6f; 0x10; 0x6; 0xf1; 0x0;
     0x6f; 0x21; 0x6; 0xff; 0xf1; 0x14; 0x44; 0x0];
  (* U+005C *)
    [0xce; 0x0; 0x0; 0x0; 0x4f; 0x60; 0x0; 0x0;
     0xd; 0xd0; 0x0; 0x0; 0x5; 0xf5; 0x0; 0x0;
     0x0; 0xdc; 0x0; 0x0; 0x0; 0x6f; 0x40; 0x0;
     0x0; 0xe; 0xb0; 0x0; 0x0; 0x7; 0xf3; 0x0;
     0x0; 0x0; 0xea; 0x0; 0x0; 0x0; 0x8f; 0x20;
     0x0; 0x0; 0x1f; 0xa0; 0x0; 0x0; 0x9; 0xf1;
     0x0; 0x0; 0x1; 0xf9];
  (* U+005D *)
    [0x11; 0x10; 0xef; 0xf9; 0x44; 0xe9; 0x0; 0xe9;
     0x0; 0xe9; 0x0; 0xe9; 0x0; 0xe9; 0x0; 0xe9;
     0x0; 0xe9; 0x0; 0xe9; 0x0; 0xe9; 0x0; 0xe9;
     0x0; 0xe9; 0x0; 0xe9; 0x0; 0xe9; 0x0; 0xe9;
     0x11; 0xe9; 0xef; 0xf9; 0x34; 0x42];
  (* U+005E *)
    [0x0; 0x1; 0x84; 0x0; 0x0; 0x0; 0x9f; 0xe0;
     0x0; 0x0; 0x2f; 0xbf; 0x80; 0x0; 0xa; 0xf1;
     0xaf; 0x10; 0x3; 0xf8; 0x2; 0xf9; 0x0; 0xbf;
     0x10; 0xa; 0xf2; 0x4f; 0x70; 0x0; 0x2f; 0xa0];
  (* U+005F *)
    [0x12; 0x22; 0x22; 0x22; 0x20; 0xbf; 0xff; 0xff;
     0xff; 0xf7; 0x35; 0x55; 0x55; 0x55; 0x52];
  (* U+0060 *)
    [0x17; 0x70; 0x0; 0x7f; 0x50; 0x0; 0x9e; 0x10];
  (* U+0061 *)
    [0x0; 0x5c; 0xfe; 0x91; 0x0; 0x6f; 0xc7; 0x9f;
     0xb0; 0xb; 0xe0; 0x0; 0x9f; 0x10; 0x0; 0x13;
     0x5c; 0xf3; 0x2; 0xcf; 0xfd; 0xdf; 0x30; 0xde;
     0x40; 0x8; 0xf3; 0xf; 0xb0; 0x0; 0xdf; 0x30;
     0xcf; 0x87; 0xce; 0xf3; 0x2; 0xbf; 0xe8; 0x6f;
     0x40];
  (* U+0062 *)
    [0x9f; 0x10; 0x0; 0x0; 0x9; 0xf1; 0x0; 0x0;
     0x0; 0x9f; 0x10; 0x0; 0x0; 0x9; 0xf1; 0x0;
     0x0; 0x0; 0x9f; 0x3a; 0xff; 0xb2; 0x9; 0xfe;
     0xd8; 0xaf; 0xe2; 0x9f; 0xb0; 0x0; 0x6f; 0x99;
     0xf4; 0x0; 0x0; 0xed; 0x9f; 0x20; 0x0; 0xd;
     0xe9; 0xf4; 0x0; 0x0; 0xed; 0x9f; 0xb0; 0x0;
     0x6f; 0x89; 0xfe; 0xd9; 0xbf; 0xe1; 0x9f; 0x3b;
     0xff; 0xa1; 0x0];
  (* U+0063 *)
    [0x0; 0x2a; 0xfe; 0xb3; 0x0; 0x3f; 0xfb; 0xaf;
     0xf4; 0xc; 0xf3; 0x0; 0x1e; 0xb2; 0xf9; 0x0;
     0x0; 0x20; 0x4f; 0x70; 0x0; 0x0; 0x2; 0xfa;
     0x0; 0x0; 0x10; 0xc; 0xf3; 0x0; 0x1d; 0xc0;
     0x3f; 0xfb; 0xae; 0xf5; 0x0; 0x2b; 0xfe; 0xb4;
     0x0];
  (* U+0064 *)
    [0x0; 0x0; 0x0; 0x8; 0xf2; 0x0; 0x0; 0x0;
     0x8; 0xf2; 0x0; 0x0; 0x0; 0x8; 0xf2; 0x0;
     0x0; 0x0; 0x8; 0xf2; 0x0; 0x2b; 0xfe; 0x88;
     0xf2; 0x3; 0xfe; 0x99; 0xee; 0xf2; 0xd; 0xf2;
     0x0; 0x2f; 0xf2; 0x2f; 0x90; 0x0; 0xa; 0xf2;
     0x4f; 0x70; 0x0; 0x8; 0xf2; 0x2f; 0x90; 0x0;
     0xb; 0xf2; 0xd; 0xf2; 0x0; 0x3f; 0xf2; 0x4;
     0xfe; 0x99; 0xfe; 0xf2; 0x0; 0x4c; 0xfe; 0x87;
     0xf2];
  (* U+0065 *)
    [0x0; 0x3b; 0xfe; 0xa2; 0x0; 0x3; 0xfe; 0x99;
     0xfe; 0x10; 0xc; 0xf2; 0x0; 0x3f; 0x90; 0x2f;
     0xa1; 0x11; 0x1d; 0xe0; 0x3f; 0xff; 0xff; 0xff;
     0xf0; 0x2f; 0xa4; 0x44; 0x44; 0x40; 0xd; 0xe1;
     0x0; 0xb; 0x90; 0x3; 0xfe; 0x98; 0xdf; 0x50;
     0x0; 0x3b; 0xff; 0xc4; 0x0];
  (* U+0066 *)
    [0x0; 0x1b; 0xfb; 0x0; 0xbf; 0xb8; 0x0; 0xfc;
     0x0; 0x0; 0xfb; 0x0; 0xaf; 0xff; 0xfc; 0x58;
     0xfd; 0x86; 0x0; 0xfb; 0x0; 0x0; 0xfb; 0x0;
     0x0; 0xfb; 0x0; 0x0; 0xfb; 0x0; 0x0; 0xfb;
     0x0; 0x0; 0xfb; 0x0; 0x0; 0xfb; 0x0];
  (* U+0067 *)
    [0x0; 0x2b; 0xfe; 0x98; 0xf2; 0x2; 0xfe; 0x98;
     0xef; 0xf2; 0xb; 0xf2; 0x0; 0x1f; 0xf2; 0x1f;
     0xb0; 0x0; 0x9; 0xf2; 0x2f; 0x90; 0x0; 0x8;
     0xf2; 0x1f; 0xb0; 0x0; 0x9; 0xf2; 0xc; 0xf2;
     0x0; 0x1f; 0xf2; 0x3; 0xfe; 0x88; 0xee; 0xf2;
     0x0; 0x2c; 0xfe; 0x89; 0xf0; 0x1a; 0x80; 0x0;
     0xd; 0xd0; 0xb; 0xfb; 0x88; 0xdf; 0x50; 0x0;
     0x7d; 0xff; 0xc4; 0x0];
  (* U+0068 *)
    [0x9f; 0x20; 0x0; 0x0; 0x9f; 0x20; 0x0; 0x0;
     0x9f; 0x20; 0x0; 0x0; 0x9f; 0x20; 0x0; 0x0;
     0x9f; 0x5c; 0xfe; 0x70; 0x9f; 0xfb; 0x9e; 0xf5;
     0x9f; 0x80; 0x2; 0xfb; 0x9f; 0x20; 0x0; 0xdd;
     0x9f; 0x20; 0x0; 0xdd; 0x9f; 0x20; 0x0; 0xdd;
     0x9f; 0x20; 0x0; 0xdd; 0x9f; 0x20; 0x0; 0xdd;
     0x9f; 0x20; 0x0; 0xdd];
  (* U+0069 *)
    [0x9e; 0x3d; 0xf6; 0x25; 0x0; 0x0; 0x9f; 0x19;
     0xf1; 0x9f; 0x19; 0xf1; 0x9f; 0x19; 0xf1; 0x9f;
     0x19; 0xf1; 0x9f; 0x10];
  (* U+006A *)
    [0x0; 0x9e; 0x30; 0xd; 0xf6; 0x0; 0x26; 0x0;
     0x0; 0x0; 0x0; 0x9f; 0x20; 0x9; 0xf2; 0x0;
     0x9f; 0x20; 0x9; 0xf2; 0x0; 0x9f; 0x20; 0x9;
     0xf2; 0x0; 0x9f; 0x20; 0x9; 0xf2; 0x0; 0x9f;
     0x20; 0x9; 0xf1; 0x28; 0xfe; 0x3; 0xfd; 0x40];
  (* U+006B *)
    [0x9f; 0x10; 0x0; 0x0; 0x9; 0xf1; 0x0; 0x0;
     0x0; 0x9f; 0x10; 0x0; 0x0; 0x9; 0xf1; 0x0;
     0x0; 0x0; 0x9f; 0x10; 0x9; 0xfb; 0x9; 0xf1;
     0x8; 0xfb; 0x0; 0x9f; 0x17; 0xfb; 0x0; 0x9;
     0xf8; 0xfc; 0x0; 0x0; 0x9f; 0xff; 0xe1; 0x0;
     0x9; 0xfc; 0x6f; 0xb0; 0x0; 0x9f; 0x20; 0xaf;
     0x70; 0x9; 0xf1; 0x0; 0xdf; 0x30; 0x9f; 0x10;
     0x3; 0xfd; 0x0];
  (* U+006C *)
    [0x9f; 0x29; 0xf2; 0x9f; 0x29; 0xf2; 0x9f; 0x29;
     0xf2; 0x9f; 0x29; 0xf2; 0x9f; 0x29; 0xf2; 0x9f;
     0x29; 0xf2; 0x9f; 0x20];
  (* U+006D *)
    [0x9f; 0x3c; 0xfd; 0x50; 0x8e; 0xea; 0x10; 0x9f;
     0xea; 0x9e; 0xfb; 0xd8; 0xbf; 0xa0; 0x9f; 0x70;
     0x4; 0xfe; 0x10; 0xc; 0xf1; 0x9f; 0x20; 0x0;
     0xfb; 0x0; 0x8; 0xf2; 0x9f; 0x10; 0x0; 0xfa;
     0x0; 0x8; 0xf2; 0x9f; 0x10; 0x0; 0xfa; 0x0;
     0x8; 0xf2; 0x9f; 0x10; 0x0; 0xfa; 0x0; 0x8;
     0xf2; 0x9f; 0x10; 0x0; 0xfa; 0x0; 0x8; 0xf2;
     0x9f; 0x10; 0x0; 0xfa; 0x0; 0x8; 0xf2]].
Definition glyph_bitmap_006e : list (list Z) := [
  (* U+006E *)
    [0x9f; 0x3b; 0xfe; 0x70; 0x9f; 0xeb; 0x9e; 0xf5;
     0x9f; 0x80; 0x2; 0xfb; 0x9f; 0x20; 0x0; 0xdd;
     0x9f; 0x20; 0x0; 0xdd; 0x9f; 0x20; 0x0; 0xdd;
     0x9f; 0x20; 0x0; 0xdd; 0x9f; 0x20; 0x0; 0xdd;
     0x9f; 0x20; 0x0; 0xdd];
  (* U+006F *)
    [0x0; 0x2a; 0xef; 0xc4; 0x0; 0x3; 0xff; 0xa9;
     0xef; 0x70; 0xd; 0xf3; 0x0; 0xd; 0xf2; 0x2f;
     0x90; 0x0; 0x5; 0xf7; 0x4f; 0x70; 0x0; 0x3;
     0xf8; 0x2f; 0x90; 0x0; 0x5; 0xf7; 0xd; 0xf2;
     0x0; 0xd; 0xf2; 0x3; 0xff; 0xa9; 0xef; 0x70;
     0x0; 0x2a; 0xef; 0xc4; 0x0];
  (* U+0070 *)
    [0x9f; 0x3b; 0xff; 0xb2; 0x9; 0xff; 0xa5; 0x8f;
     0xe1; 0x9f; 0xa0; 0x0; 0x5f; 0x89; 0xf3; 0x0;
     0x0; 0xed; 0x9f; 0x20; 0x0; 0xd; 0xe9; 0xf4;
     0x0; 0x0; 0xfd; 0x9f; 0xc0; 0x0; 0x7f; 0x89;
     0xfe; 0xd9; 0xbf; 0xe1; 0x9f; 0x3b; 0xff; 0xa2;
     0x9; 0xf1; 0x0; 0x0; 0x0; 0x9f; 0x10; 0x0;
     0x0; 0x9; 0xf1; 0x0; 0x0; 0x0];
  (* U+0071 *)
    [0x0; 0x3c; 0xfe; 0x87; 0xf3; 0x4; 0xfe; 0x9a;
     0xfe; 0xf3; 0xd; 0xf2; 0x0; 0x2f; 0xf3; 0x2f;
     0x90; 0x0; 0x9; 0xf3; 0x4f; 0x70; 0x0; 0x7;
     0xf3; 0x2f; 0x90; 0x0; 0xa; 0xf3; 0xd; 0xf2;
     0x0; 0x2f; 0xf3; 0x4; 0xff; 0x99; 0xfe; 0xf3;
     0x0; 0x4c; 0xfe; 0x87; 0xf3; 0x0; 0x0; 0x0;
     0x7; 0xf3; 0x0; 0x0; 0x0; 0x7; 0xf3; 0x0;
     0x0; 0x0; 0x7; 0xf3];
  (* U+0072 *)
    [0x9f; 0x3c; 0xf3; 0x9f; 0xee; 0xb2; 0x9f; 0xb0;
     0x0; 0x9f; 0x40; 0x0; 0x9f; 0x20; 0x0; 0x9f;
     0x20; 0x0; 0x9f; 0x20; 0x0; 0x9f; 0x20; 0x0;
     0x9f; 0x20; 0x0];
  (* U+0073 *)
    [0x1; 0x9e; 0xfa; 0x20; 0xb; 0xf8; 0x8f; 0xd0;
     0xf; 0x90; 0x5; 0x91; 0xe; 0xe7; 0x30; 0x0;
     0x3; 0xdf; 0xfe; 0x50; 0x0; 0x2; 0x5d; 0xf2;
     0x2c; 0x50; 0x6; 0xf4; 0xd; 0xf9; 0x8e; 0xe0;
     0x1; 0xae; 0xfb; 0x20];
  (* U+0074 *)
    [0x0; 0x65; 0x0; 0x0; 0xdb; 0x0; 0x2; 0xfb;
     0x0; 0xaf; 0xff; 0xf9; 0x58; 0xfd; 0x85; 0x0;
     0xfb; 0x0; 0x0; 0xfb; 0x0; 0x0; 0xfb; 0x0;
     0x0; 0xfb; 0x0; 0x0; 0xfc; 0x0; 0x0; 0xcf;
     0xa5; 0x0; 0x3c; 0xf8];
  (* U+0075 *)
    [0xaf; 0x0; 0x0; 0xfc; 0xaf; 0x0; 0x0; 0xfc;
     0xaf; 0x0; 0x0; 0xfc; 0xaf; 0x0; 0x0; 0xfc;
     0xaf; 0x0; 0x0; 0xfc; 0xaf; 0x10; 0x0; 0xfc;
     0x7f; 0x50; 0x4; 0xfc; 0x1f; 0xf9; 0x9f; 0xfc;
     0x3; 0xcf; 0xd6; 0xdc];
  (* U+0076 *)
    [0x9f; 0x40; 0x0; 0x2f; 0xa3; 0xf9; 0x0; 0x8;
     0xf4; 0xd; 0xf0; 0x0; 0xde; 0x0; 0x7f; 0x50;
     0x3f; 0x80; 0x1; 0xfa; 0x9; 0xf2; 0x0; 0xa;
     0xf1; 0xeb; 0x0; 0x0; 0x4f; 0xbf; 0x50; 0x0;
     0x0; 0xef; 0xf0; 0x0; 0x0; 0x8; 0xf9; 0x0;
     0x0];
  (* U+0077 *)
    [0x9f; 0x40; 0x0; 0xdf; 0x30; 0x0; 0xed; 0x4f;
     0x80; 0x3; 0xff; 0x80; 0x3; 0xf8; 0xe; 0xd0;
     0x8; 0xfc; 0xe0; 0x7; 0xf3; 0xa; 0xf2; 0xd;
     0xb6; 0xf3; 0xc; 0xe0; 0x5; 0xf6; 0x2f; 0x51;
     0xf8; 0x1f; 0x90; 0x0; 0xfb; 0x8f; 0x10; 0xbe;
     0x5f; 0x40; 0x0; 0xaf; 0xdb; 0x0; 0x6f; 0xdf;
     0x0; 0x0; 0x5f; 0xf6; 0x0; 0x1f; 0xfa; 0x0;
     0x0; 0x1f; 0xf1; 0x0; 0xb; 0xf5; 0x0];
  (* U+0078 *)
    [0x5f; 0xa0; 0x0; 0xcf; 0x30; 0xaf; 0x50; 0x7f;
     0x80; 0x1; 0xee; 0x3f; 0xc0; 0x0; 0x3; 0xff;
     0xf2; 0x0; 0x0; 0xc; 0xfa; 0x0; 0x0; 0x5;
     0xfe; 0xf3; 0x0; 0x1; 0xfd; 0x2f; 0xd0; 0x0;
     0xcf; 0x30; 0x6f; 0x90; 0x7f; 0x80; 0x0; 0xbf;
     0x40];
  (* U+0079 *)
    [0x9f; 0x50; 0x0; 0xc; 0xf0; 0x1f; 0xd0; 0x0;
     0x3f; 0x80; 0x9; 0xf4; 0x0; 0xbf; 0x10; 0x1;
     0xfb; 0x2; 0xf9; 0x0; 0x0; 0x9f; 0x39; 0xf2;
     0x0; 0x0; 0x1f; 0xbf; 0xa0; 0x0; 0x0; 0x9;
     0xff; 0x20; 0x0; 0x0; 0x3; 0xfb; 0x0; 0x0;
     0x0; 0x9; 0xf3; 0x0; 0x0; 0x0; 0x1f; 0xc0;
     0x0; 0x0; 0x0; 0x8f; 0x40; 0x0; 0x0; 0x1;
     0xfd; 0x0; 0x0; 0x0];
  (* U+007A *)
    [0x3f; 0xff; 0xff; 0xf9; 0x18; 0x88; 0x8d; 0xf7;
     0x0; 0x0; 0x4f; 0xc0; 0x0; 0x2; 0xfe; 0x10;
     0x0; 0xd; 0xf3; 0x0; 0x0; 0xaf; 0x60; 0x0;
     0x7; 0xf9; 0x0; 0x0; 0x3f; 0xf9; 0x88; 0x85;
     0x4f; 0xff; 0xff; 0xfa];
  (* U+007B *)
    [0x0; 0x0; 0x0; 0x0; 0x0; 0x2b; 0xf4; 0x0;
     0xc; 0xd5; 0x10; 0x1; 0xf5; 0x0; 0x0; 0x3f;
     0x40; 0x0; 0x3; 0xf4; 0x0; 0x0; 0x3f; 0x40;
     0x0; 0x4; 0xf3; 0x0; 0x1; 0xcf; 0x10; 0x3;
     0xfd; 0x30; 0x0; 0x1b; 0xfa; 0x0; 0x0; 0x7;
     0xf2; 0x0; 0x0; 0x3f; 0x40; 0x0; 0x3; 0xf4;
     0x0; 0x0; 0x3f; 0x40; 0x0; 0x1; 0xf5; 0x0;
     0x0; 0xe; 0xb2; 0x0; 0x0; 0x4e; 0xf4; 0x0;
     0x0; 0x3; 0x10];
  (* U+007C *)
    [0x6f; 0x16; 0xf1; 0x6f; 0x16; 0xf1; 0x6f; 0x16;
     0xf1; 0x6f; 0x16; 0xf1; 0x6f; 0x16; 0xf1; 0x6f;
     0x16; 0xf1; 0x6f; 0x16; 0xf1; 0x6f; 0x16; 0xf1;
     0x6f; 0x10];
  (* U+007D *)
    [0x0; 0x0; 0x0; 0xed; 0x50; 0x0; 0x4a; 0xf2;
     0x0; 0x0; 0xf6; 0x0; 0x0; 0xe8; 0x0; 0x0;
     0xe9; 0x0; 0x0; 0xe9; 0x0; 0x0; 0xea; 0x0;
     0x0; 0xaf; 0x40; 0x0; 0x1b; 0xf8; 0x0; 0x5f;
     0xd5; 0x0; 0xdc; 0x0; 0x0; 0xe9; 0x0; 0x0;
     0xe9; 0x0; 0x0; 0xe8; 0x0; 0x0; 0xf7; 0x0;
     0x17; 0xf4; 0x0; 0xef; 0x80; 0x0; 0x31; 0x0;
     0x0];
  (* U+007E *)
    [0x0; 0x57; 0x50; 0x0; 0x20; 0xc; 0xff; 0xfe;
     0xaa; 0xf5; 0x1a; 0x40; 0x4b; 0xfe; 0x70]].
Definition glyph_blocks : list (list Z) :=
  glyph_bitmap_0020 ++ glyph_bitmap_0033 ++ glyph_bitmap_0042 ++ glyph_bitmap_004f ++ glyph_bitmap_005b ++ glyph_bitmap_006e.
Definition glyph_bitmap : list Z := concat glyph_blocks.

(** ** Glyphs *)

Definition glyph_dsc : list lv_font_fmt_txt_glyph_dsc_t := [
  GlyphDsc 0 0 0 0 0 0;
  GlyphDsc 0 72 0 0 0 0;
  GlyphDsc 0 90 3 13 1 0;
  GlyphDsc 20 108 7 5 0 7;
  GlyphDsc 38 213 13 12 0 0;
  GlyphDsc 116 171 10 17 0 (-2);
  GlyphDsc 201 235 14 13 0 0;
  GlyphDsc 292 201 12 13 1 0;
  GlyphDsc 370 58 3 5 0 7;
  GlyphDsc 378 87 6 18 0 (-3);
  GlyphDsc 432 87 5 18 0 (-3);
  GlyphDsc 477 127 8 7 0 6;
  GlyphDsc 505 163 10 9 0 1;
  GlyphDsc 550 85 4 6 1 (-3);
  GlyphDsc 562 104 6 3 0 4;
  GlyphDsc 571 80 3 3 1 0;
  GlyphDsc 576 125 8 13 0 0;
  GlyphDsc 628 177 11 13 0 0;
  GlyphDsc 700 102 5 12 0 0;
  GlyphDsc 730 152 9 12 0 0;
  GlyphDsc 784 159 10 12 0 0;
  GlyphDsc 844 165 11 12 0 0;
  GlyphDsc 910 158 10 12 0 0;
  GlyphDsc 970 167 10 12 0 0;
  GlyphDsc 1030 139 9 12 0 0;
  GlyphDsc 1084 161 10 13 0 0;
  GlyphDsc 1149 167 10 13 0 0;
  GlyphDsc 1214 84 3 9 1 0;
  GlyphDsc 1228 86 3 12 1 (-3);
  GlyphDsc 1246 139 9 10 0 0;
  GlyphDsc 1291 171 9 7 1 2;
  GlyphDsc 1323 139 9 10 0 0;
  GlyphDsc 1368 147 9 13 0 0;
  GlyphDsc 1427 238 15 15 0 (-2);
  GlyphDsc 1540 201 13 13 0 0;
  GlyphDsc 1625 173 10 13 1 0;
  GlyphDsc 1690 216 13 13 0 0;
  GlyphDsc 1775 207 12 13 1 0;
  GlyphDsc 1853 167 9 13 1 0;
  GlyphDsc 1912 159 9 13 1 0;
  GlyphDsc 1971 220 13 13 0 0;
  GlyphDsc 2056 213 11 13 1 0;
  GlyphDsc 2128 81 3 13 1 0;
  GlyphDsc 2148 154 9 13 0 0;
  GlyphDsc 2207 192 11 13 1 0;
  GlyphDsc 2279 158 9 13 1 0;
  GlyphDsc 2338 272 15 13 1 0;
  GlyphDsc 2436 220 12 13 1 0;
  GlyphDsc 2514 231 14 13 0 0;
  GlyphDsc 2605 172 10 13 1 0;
  GlyphDsc 2670 231 14 14 0 (-1);
  GlyphDsc 2768 178 10 13 1 0;
  GlyphDsc 2833 171 10 13 0 0;
  GlyphDsc 2898 170 11 13 0 0;
  GlyphDsc 2970 193 10 13 1 0;
  GlyphDsc 3035 189 12 13 0 0;
  GlyphDsc 3113 289 18 13 0 0;
  GlyphDsc 3230 178 11 13 0 0;
  GlyphDsc 3302 178 11 13 0 0;
  GlyphDsc 3374 182 11 13 0 0;
  GlyphDsc 3446 83 5 19 1 (-3);
  GlyphDsc 3494 125 8 13 0 0;
  GlyphDsc 3546 83 4 19 0 (-3);
  GlyphDsc 3584 150 9 7 0 6;
  GlyphDsc 3616 156 10 3 0 (-2);
  GlyphDsc 3631 78 5 3 0 10;
  GlyphDsc 3639 151 9 9 0 0;
  GlyphDsc 3680 171 9 13 1 0;
  GlyphDsc 3739 153 9 9 0 0;
  GlyphDsc 3780 169 10 13 0 0;
  GlyphDsc 3845 156 10 9 0 0;
  GlyphDsc 3890 99 6 13 0 0;
  GlyphDsc 3929 166 10 12 0 (-3);
  GlyphDsc 3989 162 8 13 1 0;
  GlyphDsc 4041 73 3 13 1 0;
  GlyphDsc 4061 73 5 16 (-1) (-3);
  GlyphDsc 4101 151 9 13 1 0;
  GlyphDsc 4160 73 3 13 1 0;
  GlyphDsc 4180 247 14 9 1 0;
  GlyphDsc 4243 162 8 9 1 0;
  GlyphDsc 4279 165 10 9 0 0;
  GlyphDsc 4324 171 9 12 1 (-3);
  GlyphDsc 4378 167 10 12 0 (-3);
  GlyphDsc 4438 106 6 9 1 0;
  GlyphDsc 4465 130 8 9 0 0;
  GlyphDsc 4501 102 6 12 0 0;
  GlyphDsc 4537 163 8 9 1 0;
  GlyphDsc 4573 145 9 9 0 0;
  GlyphDsc 4614 228 14 9 0 0;
  GlyphDsc 4677 141 9 9 0 0;
  GlyphDsc 4718 151 10 12 0 (-3);
  GlyphDsc 4778 134 8 9 0 0;
  GlyphDsc 4814 102 7 19 0 (-3);
  GlyphDsc 4881 75 3 17 1 (-3);
  GlyphDsc 4907 102 6 19 0 (-3);
  GlyphDsc 4964 164 10 3 0 4].

Definition cmaps : list lv_font_fmt_txt_cmap_t :=
  [Cmap 32 95 1 None None 0 LV_FONT_FMT_TXT_CMAP_FORMAT0_TINY].

(** ** Kerning *)

Definition kern_left_class_mapping : list Z := [
  0; 1; 0; 2; 3; 4; 5; 6;
  2; 7; 0; 8; 9; 10; 11; 10;
  12; 13; 14; 15; 16; 17; 18; 19;
  20; 21; 13; 22; 22; 23; 24; 25;
  26; 27; 28; 29; 30; 31; 32; 33;
  34; 35; 35; 36; 37; 38; 35; 35;
  31; 39; 40; 41; 42; 43; 36; 44;
  45; 46; 47; 48; 49; 50; 0; 51;
  52; 0; 53; 54; 55; 56; 57; 58;
  59; 60; 61; 62; 63; 56; 60; 60;
  54; 54; 61; 64; 65; 66; 67; 68;
  69; 70; 71; 72; 73; 74; 75; 76].
Definition kern_right_class_mapping : list Z := [
  0; 1; 2; 3; 4; 0; 5; 6;
  3; 7; 8; 9; 10; 11; 12; 11;
  13; 14; 15; 16; 17; 18; 19; 14;
  20; 21; 22; 23; 23; 24; 25; 26;
  27; 28; 29; 30; 31; 30; 30; 30;
  31; 30; 30; 32; 30; 30; 30; 30;
  31; 30; 31; 30; 33; 34; 35; 36;
  37; 38; 39; 40; 41; 42; 43; 44;
  45; 0; 46; 47; 48; 48; 48; 49;
  50; 47; 51; 52; 47; 47; 53; 53;
  48; 53; 48; 53; 54; 55; 56; 57;
  58; 59; 60; 61; 62; 63; 43; 64].
Definition kern_class_values_0 : list Z := [
  0; 0; 0; 0; 0; -12; 0; 0;
  0; 0; 0; -14; 0; 0; 0; 0;
  0; 0; 0; 0; 0; 0; 0; 0;
  0; 0; 0; 0; 0; 0; 0; 0;
  0; 0; 0; 0; 0; 0; 0; 0;
  0; 0; 0; 0; 0; 0; 0; 0;
  0; 0; 0; 0; 0; 0; 0; 0;
  0; 0; 0; 0; 0; 0; 0; 0;
  0; 0; 0; 0; 0; 0; 0; 0;
  0; 0; 0; 0; 0; 0; 9; 3;
  0; -14; 0; 6; 0; 0; 0; 0;
  0; 0; 0; 0; -17; 0; 0; -12;
  0; 9; 0; 6; 6; 3; 3; 0;
  0; 0; 0; 0; 0; -3; 0; -6;
  6; -6; 0; 0; 0; 0; 0; 0;
  3; 3; 3; 3; 0; 0; 0; 0;
  0; 0; 0; 0; 0; 0; 0; 0;
  0; 0; 0; 0; 0; -6; -3; -3;
  -9; -12; -9; -3; -6; -6; 0; 0;
  0; 0; 0; 0; 0; 0; 0; 0;
  0; 0; 0; 0; 0; 0; 0; 0;
  0; 0; 0; 0; 0; 0; 0; 0;
  0; 0; 0; 0; 0; 0; 0; 0;
  0; 0; 0; 0; 0; 0; 0; 0;
  0; 0; 0; 0; 0; 0; 0; 0;
  0; 0; 0; 0; 0; -3; 0; 0;
  -3; -3; -3; -3; -3; -3; 0; 0;
  0; 0; 0; 0; 0; 0; 0; 0;
  0; 0; 0; 0; 0; 0; 0; 0;
  0; 0; 0; 0; 0; 0; 0; 0;
  0; 0; 0; 0; 0; 0; 0; 0;
  0; 0; 0; 0; 0; 0; 0; 0;
  0; 0; 0; 0; 0; 0; 0; 0;
  0; 0; 0; 0; 0; -6; -3; 0;
  0; 0; 0; 0; 0; 0; 0; 0;
  0; 0; 0; 0; 0; 0; 0; 0;
  0; 0; 0; 0; 0; 0; 0; 0;
  0; 0; 0; 0; 0; 0; 0; 0;
  0; 0; 0; 0; 0; 0; 0; 0;
  0; 0; 0; 0; 0; 0; 0; 0;
  -12; 0; 0; 0; 0; 0; 0; 0;
  0; 0; 0; 0; 0; 0; -3; 0;
  -3; -3; -3; 0; 0; 0; 0; 0;
  0; 0; 0; 0; 0; 0; 0; 0;
  0; -20; -3; -22; -10; 0; -22; 0;
  0; 0; 0; 0; 0; 0; 0; 0;
  0; 0; 0; 0; 0; 0; 0; 0;
  0; 0; 0; 0; 0; 0; 0; 0;
  0; 0; 0; 0; 0; 0; 0; 0;
  0; -14; 0; -12; 0; -6; -1; 1;
  0; -6; -7; 12; 0; 0; 0; 0;
  0; 0; 0; 0; 0; 0; -6; -4;
  0; 6; 0; 6; 6; 6; 6; 0;
  0; 0; 0; 0; 0; -1; 0; -6;
  -3; -6; 0; 14; 0; 0; 0; 0;
  -6; -6; 0; 0; 0; 0; 0; 0;
  0; 0; 0; 0; 0; 0; 0; 0;
  0; 0; 0; 0; 0; 0; 0; 0;
  0; -20; 0; 12; 0; 0; 0; 0;
  0; 0; 0; 0; -32; 0; -1; -14;
  0; 6; 0; 6; 3; 0; 0; 0;
  0; 0; 0; 0; 0; -9; 0; -12;
  0; -12; 0; 0; 0; -3; 0; 0;
  3; 0; 0; 0; 0; 0; 0; 0;
  0; 0; 0; 0; 0; 0; 0; -14;
  0; 0; 0; 0; 0; 0; -9; -3;
  -6; 0; 0; -3; 0; -3; 0; 0;
  0; 0; 0; 0; -4; 0; 0; 0;
  0; -14; -1; -12; -9; -3; -14; -6;
  0; 0; -12; 0; 0; 0; 0; 0;
  0; 0; 0; 0; 0; 0; 0; 0;
  0; 0; 0; 0; 0; 0; 0; 0;
  0; 0; 0; 0; 0; 0; 0; 0;
  0; 0; 0; 0; 0; -6; -20; 0;
  0; -14; 0; -6; -3; 0; 0; 0;
  0; 0; 0; 0; 0; 0; -9; 0;
  -3; -29; -7; -29; -29; 0; -37; 0;
  0; 0; 0; 0; 0; 0; 0; -4;
  0; -3; 0; 0; 0; 0; -6; -3;
  -26; -12; 0; -26; 0; 0; 0; 0;
  -14; 0; 0; 0; 0; 0; 0; -12;
  0; 0; 0; 0; 0; 0; -6; 0;
  -6; -1; -3; -9; 0; 0; 0; 0;
  0; 0; 0; 0; -6; 0; 0; 0;
  -3; -17; -1; -16; -12; -12; -23; -13;
  0; 0; -6; 0; 0; 0; 0; 0;
  0; 0; 0; -3; 0; 0; -3; 0;
  -1; -1; -3; -6; -1; 0; 0; 0;
  0; 0; 0; 0; 0; 0; 0; 0;
  0; 0; 0; 0; -40; -12; 0; -6;
  0; -23; -6; 9; -9; -6; 0; 0;
  0; 0; 0; 0; -20; 0; -10; -35;
  -3; 12; 0; 6; 6; 3; 3; 0;
  0; 0; 0; 0; 0; -33; 0; -35;
  -3; -35; 0; 0; -17; -23; 0; -13;
  -3; -6; -6; -3; -17; 0; 0; 0;
  0; 0; 0; -6; -6; 0; 0; -6;
  0; 0; -12; 0; -12; -1; -1; 0;
  -1; 0; -1; 0; -1; 0; 0; 0;
  3; 0; 0; 0; 0; 0; 0; 0;
  0; 0; 0; 0; 0; 0; 0; 0;
  0; -12; 0; 0; -6; 0; 0; 0;
  0; 0; 0; 0; 0; 0; 0; 0;
  0; 0; 0; 0; 0; 0; 0; 3;
  0; 0; -3; -6; -3; 0; 0; 0;
  0; 0; -3; 0; 0; 1; 0; 1;
  0; 0; 0; 1; 0; 0; 0; -3;
  0; 9; 0; 0; 0; 0; 0; 0;
  0; 0; 0; 0; 0; 0; 0; 0;
  0; 0; 3; 0; 0; 0; 0; 0;
  0; 0; 0; 0; 0; 0; 0; 0;
  0; 0; 0; 0; 0; 0; 3; 0;
  0; 0; 0; 0; 0; 0; 0; 0;
  0; 0; 0; 0; 0; 0; 3; 0;
  0; -4; 0; 0; 0; 0; 0; 0;
  0; 9; 0; 0; 0; 0; 0; 0;
  0; 0; 0; 0; 0; 0; 0; 0;
  0; -3; 0; 0; 3; 0; 0; 0;
  0; 0; 0; 0; 0; 0; 0; 0;
  0; 0; 0; 0; 0; 0; 0; 0;
  0; 0; 0; -6; -3; 0; 0; 0;
  3; 0; -3; -3; -3; 0; -1; 0;
  0; 0; 0; 3; 0; 0; 0; 0;
  0; 9; 0; 0; 0; 0; 0; 0;
  0; 0; 0; 0; 0; 0; 0; 0;
  0; 0; 0; 0; -3; 0; 0; 0;
  0; 0; 0; 0; 0; 0; 0; 0;
  0; 0; 0; 0; 0; 0; 6; 3;
  0; 0; 0; 0; -3; 0; 0; 0;
  -6; 0; 0; 0; 0; 0; 0; 0;
  0; 0; 0; -1; 0; 0; 0; 0;
  6; 9; 0; 0; 0; 0; 0; 0;
  0; 0; 0; 0; 0; 0; 0; 0;
  0; 0; 0; 0; 0; 0; 0; 0;
  0; 0; 0; 0; 0; 0; 0; 0;
  0; 0; 0; 0; 0; 0; 0; 6;
  0; 0; 0; 0; -3; 0; 0; 0;
  0; 0; -3; 0; -6; 0; 0; 0;
  0; 0; 0; 1; 0; 0; 0; 3;
  3; 6; 0; -1; 0; 0; 0; 0;
  0; 0; 0; 0; 0; 0; 0; 0;
  0; 0; 0; 0; -3; 0; 0; 0;
  0; 0; 0; 0; 0; 0; 0; 0;
  0; 0; 0; 0; 0; 0; 0; 3;
  0; 0; 0; -6; 0; 0; 0; 0;
  0; 3; -3; 0; 0; 0; 0; 0;
  0; 0; 0; 1; 0; 0; 0; 0;
  3; 3; 0; -3; 0; 0; 0; 0].
Definition kern_class_values_1 : list Z := [
  0; 0; 0; 0; 0; 0; 0; 0;
  0; -3; 0; 0; -6; 0; 0; 0;
  0; 0; 0; 0; 0; 0; 0; 0;
  0; 0; 0; 0; 0; 0; 0; 3;
  0; 0; 6; -12; 0; 0; 0; 0;
  6; -14; -32; -14; -17; -7; 1; 0;
  0; -16; -4; 9; 0; 3; -9; -9;
  1; 9; 6; -1; 0; 0; 0; 0;
  0; 0; 0; 0; 0; 0; 0; 0;
  0; 9; 0; 0; -26; 0; 0; 0;
  0; 0; 0; 0; 0; 0; 0; 0;
  0; 0; 0; 0; 0; 0; 6; -12;
  0; 0; 0; -3; -1; -3; 0; 0;
  0; 0; -3; 0; 0; -1; 0; 0;
  0; 0; 0; 0; 0; 0; 0; 0;
  0; 3; 0; 0; 0; 0; 0; 0;
  0; 0; 0; 0; 0; 0; 0; 0;
  0; -12; 0; 0; -3; 0; 0; 0;
  0; 0; 0; 0; 0; 0; 0; 0;
  0; 0; 0; 0; 0; 0; 0; 0;
  0; 0; 0; 0; 0; 0; 0; 0;
  0; 0; 0; 0; 0; 0; 0; 0;
  0; 0; 0; 3; 0; 4; 0; 0;
  0; 0; 0; 0; 0; 0; 0; 0;
  0; -17; -1; -12; -3; 0; -17; 0;
  0; 0; 0; 0; 0; 0; 0; -1;
  0; -1; 0; 0; 0; 0; 0; 0;
  0; 0; 0; 0; 0; 0; 0; 0;
  0; 0; 0; 0; 0; 0; 0; 0;
  0; 0; 0; 0; 0; 6; 9; 9;
  3; 0; 6; 20; 9; 9; 0; 0;
  0; 0; 0; 0; 0; 3; 3; 0;
  0; -3; 0; 0; 0; 0; 0; 3;
  0; 0; 0; 0; 0; 0; 0; 0;
  0; 0; 0; 0; 0; 0; 0; 0;
  0; 0; 0; 0; 0; 0; 0; 0;
  0; 0; 0; 0; 0; 0; 0; 0;
  0; 0; 0; 0; 0; 3; 0; 0;
  0; 0; 3; -3; 0; 0; 0; 0;
  0; 0; 0; 0; 0; 0; 0; 0;
  0; -9; 0; -3; -3; -3; -9; 0;
  0; 0; 0; 0; 0; 0; 0; 0;
  0; 0; 0; 0; 0; 0; 0; 0;
  0; 0; 0; 0; 0; 0; 0; 0;
  0; 0; 0; 0; 0; 0; 0; 0;
  0; 0; 0; 0; 0; 0; -3; -3;
  -6; 0; 0; 0; 0; 0; 0; 0;
  0; 0; 0; 0; -6; 0; 0; 0;
  0; -12; -1; -6; -6; -6; -17; -4;
  0; 0; 0; 0; 0; 0; 0; 0;
  0; 0; 0; 0; 0; 0; 0; 0;
  0; 0; 0; 0; 0; 0; 0; 0;
  0; 0; 0; 0; 0; 0; 0; 0;
  0; 0; 0; 0; 0; 0; 3; 0;
  0; -6; 0; 9; 0; 0; 0; 0;
  0; 0; 0; 0; 0; 0; -1; 0;
  0; 0; 0; 0; 0; 0; 0; 0;
  0; 0; 0; 0; 0; 0; 0; -6;
  0; -6; 0; 0; 0; 0; 0; 0;
  6; 0; 0; 0; 0; 0; 0; 0;
  0; 0; 0; 0; 0; 0; 0; 0;
  0; 0; 0; 0; 0; 0; 0; 0;
  -3; -3; 0; 3; 0; 0; 0; 0;
  0; 0; 0; 0; -9; 0; 0; -3;
  0; -7; 0; -6; -6; -6; -12; -6;
  0; 0; 0; 0; 0; 0; 0; 0;
  0; 0; 0; 0; 0; 0; 0; 0;
  4; 4; 1; 4; 1; 0; 0; 0;
  0; 0; -12; 0; 0; -1; -3; 0;
  -32; -4; 0; -6; 6; 0; 0; 0;
  0; 0; 0; 0; 0; 0; 0; -6;
  0; 0; -13; -9; 0; 0; -7; 3;
  -3; -19; -4; -16; -13; 0; -19; 0;
  0; -20; 0; -6; 9; -1; 0; -3;
  0; -3; 0; 0; -1; 0; -7; -7;
  -9; -9; 0; -7; 0; -6; 0; -6;
  0; 0; 0; 0; 0; -1; 0; 0;
  0; -1; -4; 0; -4; 0; 0; 0;
  0; 0; 0; 0; 0; 0; 0; 0;
  0; 3; 0; 0; -6; 0; 0; 4;
  0; 0; 0; 0; 0; 0; -1; 0;
  0; -7; 0; 0; -3; -3; 0; 1;
  -1; 1; 0; 0; -1; -1; 0; -6;
  -1; -1; 0; -1; 0; 0; 0; 0;
  0; 0; 0; 0; 0; -4; 0; 0;
  0; 0; -3; 0; -7; 0; 0; 0;
  0; 0; 0; 0; 0; 0; 0; 0;
  0; 3; 0; -9; -6; 0; -3; 0;
  0; -1; 0; -3; -4; -4; -7; 0;
  0; -7; 3; -3; -3; -6; -3; -6;
  -3; -6; 0; 0; -4; -3; -1; -6;
  -3; -3; -3; -4; -3; -6; 0; 0;
  0; 0; 0; 0; 0; -6; 0; -6;
  -1; 0; -9; 0; -10; 0; 0; 0;
  0; 0; 0; 0; 0; 0; 0; 0;
  0; 3; 0; 0; -7; 0; 0; 0;
  -1; -7; 0; -7; -6; -9; -13; -3;
  -1; -10; -6; 3; -12; 0; 0; 0;
  1; 0; 0; 0; 0; 0; 7; 0;
  0; 0; 0; 0; 0; 0; 0; 3;
  0; 0; 0; 0; 0; 0; 0; 3;
  0; 0; 0; -1; 0; 0; 0; 0;
  0; 0; 0; 0; 0; 0; 0; 0;
  0; 3; 0; -7; 0; 0; -1; -3;
  0; 0; 0; 0; 0; 0; 0; 0;
  0; 0; 4; 0; 0; -4; 0; -6;
  -1; -6; 0; 0; -4; -1; 0; -4;
  -4; -4; 0; -4; 0; -9; 0; 0;
  0; 0; 6; 0; 0; -3; 0; 9;
  4; -6; -29; -3; -16; 0; 0; 0;
  0; 0; 0; 0; 0; 0; 0; 0;
  0; 3; 3; -3; -13; 0; -1; -12;
  0; 9; -1; 0; 0; 0; 0; 3;
  0; 9; 9; 3; -29; -10; 1; -10;
  -3; -10; -1; -1; -7; -4; 0; -13;
  -6; -6; -4; -4; -3; -6; 6; -6;
  0; 0; 0; 0; 0; -4; 0; 0;
  0; 0; 0; 0; 1; 0; 0; 0;
  0; 0; 0; 0; 0; 0; 0; 0;
  0; 6; 0; 0; 0; 0; 0; 0;
  0; -1; 0; -4; -3; 0; -9; 0;
  0; -6; 0; 0; 3; 0; 0; 0;
  0; 0; 0; 0; 0; 0; 7; -1;
  0; 0; 0; 0; 0; -3; 0; 1;
  0; 0; 0; 0; 0; 0; 0; 0;
  0; 0; 0; 0; 0; 0; 0; 0;
  0; 0; 0; 0; 0; 0; 0; 0;
  0; 3; 0; -3; 0; 0; 0; 0;
  0; 0; 0; 0; 0; 0; 0; 0;
  0; 0; 0; 0; 0; -1; 0; 0;
  0; 0; 0; 0; 0; 0; 0; 0;
  0; 0; 0; 0; 0; -9; 0; 0;
  0; 0; 0; 0; 0; -1; 0; 0;
  0; -1; -7; -1; -6; 0; 0; 0;
  0; 0; 0; 0; 0; 0; -1; -1;
  0; 0; 0; -1; -9; 0; 0; 0;
  0; 0; 0; 0; 0; 0; 0; 0;
  0; 0; 0; 0; -4; 0; 0; -1;
  0; -1; 0; 0; -1; 0; 0; 0;
  0; 0; 0; 0; 0; -6; 0; -1;
  0; 0; 0; 0; 0; -16; 0; 1;
  -3; -12; 0; -20; 6; 0; 0; 0;
  0; 0; 0; 0; 0; 0; -3; -14;
  -14; 0; -1; -16; -3; 0; -16; -1;
  -3; 0; -3; -4; -4; 0; 0; 0;
  0; 0; 1; -6; 6; -4; 0; -10;
  -6; -10; 0; 0; -4; -3; -9; -16;
  -13; -13; -3; -17; 0; -12; 0; -17].
Definition kern_class_values_2 : list Z := [
  0; 0; -23; 0; 0; -7; 0; 3;
  -20; -6; 3; -12; 12; 0; 0; 0;
  0; 0; 0; 0; 0; 0; 0; -12;
  -6; 0; -13; -6; 6; 0; -10; 6;
  0; -20; -3; -17; -14; 0; -19; 0;
  0; -20; 3; -14; 9; 0; 0; -1;
  -3; -1; 0; 0; 0; 0; -4; -6;
  -12; -12; 0; -13; 0; -9; 6; -14;
  0; 0; 3; 0; 0; -3; 0; 0;
  3; -9; -35; -3; -20; 0; 0; 0;
  0; 0; 0; 0; 0; 0; 0; 0;
  0; 6; 6; -1; -17; 0; 0; -20;
  0; 0; -1; 0; -1; -1; -1; -3;
  0; 0; 0; 0; -26; -9; -3; -12;
  1; -12; 0; -1; -4; -7; 3; -6;
  0; 0; 0; 3; -3; -6; 0; -6;
  0; 0; 0; 0; 0; 0; 0; -3;
  0; 0; -3; 0; 0; 0; 0; 0;
  0; 0; 0; 0; 0; 0; 0; 3;
  0; 6; 0; 0; -4; 0; 0; 1;
  0; -6; 0; -7; -6; -4; -12; 0;
  0; -10; -3; 0; 0; -1; 0; 0;
  0; 0; 0; 0; 0; 0; 0; 0;
  0; -1; 0; -1; 0; 0; 0; 0;
  0; 0; 0; 0; 0; -1; 0; 1;
  3; -3; -1; -6; 0; 0; 0; 0;
  0; 0; 0; 0; 0; 0; 0; -1;
  0; 7; 0; -4; -1; 0; -1; -4;
  0; 0; 0; -1; -1; 0; -3; 0;
  0; -1; 3; 3; 1; -1; 0; -6;
  0; -6; 0; 0; -1; -1; 0; -6;
  0; -3; 3; 0; 0; -3; 0; -3;
  0; 0; 0; 0; 0; 0; 0; 0;
  0; 0; 0; -1; 0; 0; 0; 0;
  0; 0; 0; 0; 0; 0; 0; 0;
  0; 7; 0; 0; -1; 0; -1; 3;
  0; -1; -1; 0; 0; 0; -3; 0;
  0; -7; 4; -1; -3; -1; -1; -3;
  -4; -3; -1; -1; -9; 0; -3; -7;
  -6; -6; -4; -7; -1; -6; 0; 0;
  0; 0; 9; 0; 0; -9; 0; 6;
  6; -14; -29; -17; -20; 0; 0; 0;
  0; 0; 0; 0; 0; 0; -17; -12;
  -9; -3; 6; -7; -19; 0; -7; -19;
  0; 6; 0; 6; 6; 4; 6; 0;
  0; 12; 6; 0; -12; -24; 0; -27;
  -12; -27; -6; -3; -17; -20; -7; -27;
  -20; -22; -22; -20; -13; -9; 6; -20;
  0; 0; 6; 0; 0; -13; 0; 6;
  6; -12; -29; -16; -17; 0; 0; 0;
  0; 0; 0; 0; 0; 0; -12; -6;
  -3; 0; 3; -6; -16; 0; -7; -16;
  -1; 6; 0; 3; 3; 3; 3; 0;
  0; 6; 6; 0; -14; -16; 0; -16;
  0; -16; 0; 0; -9; -6; -1; -10;
  -1; -3; -1; -1; -6; -9; 6; -12;
  0; 0; 6; 0; 0; 0; 0; 6;
  3; -9; -29; -12; -17; 0; 0; 0;
  0; 0; 0; 0; 0; 0; -3; -6;
  -3; 0; 0; -6; -13; 0; -6; -14;
  0; 6; 0; 3; 3; 3; 3; 0;
  0; 6; 6; 0; -13; -9; 0; -10;
  0; -10; 0; 0; -9; -6; -1; -9;
  -1; -3; 0; -1; -1; -9; 6; -6;
  0; 0; 3; 0; 0; -3; 0; 6;
  0; -3; 0; -12; 3; 0; 0; 0;
  0; 0; 0; 0; 0; 0; 0; -6;
  -3; 0; 0; -7; 0; 0; -6; -3;
  0; 4; 0; 3; 3; 0; 3; 3;
  0; 3; 6; 0; 4; 0; 0; -7;
  0; -7; 0; 0; 0; 0; 0; -3;
  -4; -3; 6; -4; 1; -9; 6; -6;
  0; 0; 3; 0; 0; -14; 0; 6;
  0; -14; -37; -23; -24; 0; 0; 0;
  0; 0; 0; 0; 0; 0; -17; -17;
  -9; 0; 0; -12; -19; 0; -13; -22;
  -3; 6; 0; 3; 3; 3; 3; 1;
  0; 3; 6; 0; -17; -19; 0; -26;
  -7; -26; -1; -1; -17; -19; -3; -17;
  -12; -14; -9; -13; -10; -6; 3; -17;
  0; 0; 0; 0; 0; 0; 0; 0;
  0; -3; 0; -13; 0; 0; 0; 0;
  0; 0; 0; 0; 0; 0; 0; 0;
  0; 0; 1; -4; 0; 0; -6; 0;
  0; 4; 0; 0; 0; 3; 1; 0;
  0; 0; 0; 0; 3; 0; 0; -1;
  0; -1; 0; 0; 0; 0; 0; -1;
  0; -1; 0; -6; 0; 0; 0; 0;
  0; 0; 0; 0; 0; 0; 0; 0;
  0; -12; 0; -6; 0; 0; 0; 0;
  0; -9; -6; 14; 0; 3; 0; 0;
  0; 0; 0; 0; 0; 0; -6; 0;
  0; 6; 0; 6; 6; 6; 12; 0;
  0; 0; 0; 0; 0; 0; 0; -3;
  -3; -3; 0; 14; 0; 0; 0; 0;
  0; -6; 0; 0; 0; 0; 0; 0;
  0; 0; 0; 0; 0; 0; 0; 0;
  0; 0; 0; 0; 0; -12; 0; 3;
  -3; -3; 0; 0; -6; 0; 0; 0;
  0; 0; 0; 0; 0; 0; -10; 0;
  -1; -14; -6; -17; -17; 3; -19; 0;
  0; 0; 0; 0; 0; 3; 0; -4;
  0; -4; 0; 0; 0; 0; 0; 0;
  -3; -3; 3; -3; 0; 0; 0; 0;
  0; 0; 0; 0; 0; 0; 0; 0;
  0; 0; 0; 0; 0; 0; 0; 0;
  0; 0; 0; 0; 0; 0; 0; 0;
  0; 0; 0; 0; -6; 0; 3; 0;
  0; 0; 0; 0; 0; 0; 0; 0;
  0; 0; 0; 0; 0; 0; 0; 0;
  0; 0; 0; 0; 0; 0; 0; 0;
  0; 0; 0; 0; 0; 0; 0; 0;
  0; 0; 0; 0; 0; 0; 0; 0;
  0; 0; 0; 0; 0; -6; 0; 0;
  0; -14; 0; 0; -3; 0; 0; 0;
  0; 0; 0; 0; 9; 0; -12; 0;
  -3; -12; -4; -14; -13; 4; -17; 3;
  0; 0; 0; 0; 0; 0; 0; -6;
  -3; -6; 0; 14; 0; 0; -4; -4;
  -12; -12; 9; -12; 0; 0; 0; 0;
  0; 0; 0; 0; 0; -3; 0; 0;
  -6; 0; 0; 0; 0; 0; 0; 0;
  0; 0; 0; 0; 0; 0; 0; 0;
  0; 0; 0; -3; 0; 0; 0; 0;
  0; 0; 0; 0; 0; 0; 0; 0;
  0; -17; 0; 0; 9; 0; 0; 0;
  0; 0; 0; 0; 0; 0; 0; -3;
  0; 0; 0; -3; 0; 0; 0; 0;
  0; 0; -6; 0; 0; -3; 0; -6;
  -12; 0; -4; 0; -6; 0; 0; 0;
  0; 0; 0; 0; 0; 0; -1; 0;
  0; 0; -7; 0; 0; 0; 0; 0;
  0; 0; 0; 0; 0; 0; 0; 0;
  0; -29; -6; 0; -6; 0; 0; 0;
  0; 0; 0; 0; 0; 0; -1; -1;
  -4; -3; -3; -6; -1; 0; 0; 0;
  0; 0; 0; 0; 0; -1; 0; 0;
  -3; 0; 0; 0; -4; 0; 0; 0;
  0; 0; 0; 0; 0; 0; 0; 0;
  0; 0; 0; -1; 0; 0; 0; 0;
  0; 0; 0; 0; 0; 0; 0; 0;
  0; -20; 0; 0; -3; -1; 0; -1;
  0; -1; 0; 0; 0; 0; 0; -1;
  -1; -1; -1; -1; 0; 0; 0; 0;
  0; 0; 0; 0; 0; 0; 0; 0;
  0; 0; 0; 0; 0; 0; 0; 0;
  0; 0; 0; 0; 0; 0; 0; 0;
  0; 0; 0; 0; 0; 0; 0; 0].
Definition kern_class_values_3 : list Z := [
  0; 0; 0; 0; 0; 0; 0; 0;
  0; 0; 0; 0; 0; 0; 0; 0;
  0; 0; 0; 0; 0; 0; 0; -1;
  0; 0; 0; 0; 0; 0; 0; 0;
  0; 0; -3; 0; 0; -4; 0; -3;
  -6; 0; -4; 0; 0; 0; 0; 0;
  0; 0; 0; 0; 0; 0; 0; 0;
  0; 0; -7; 0; 0; 0; 0; 0;
  0; 0; 0; 0; 0; 0; 0; 0;
  0; -20; -3; 0; -3; 0; 0; 0;
  0; 0; 0; 0; 0; 0; 0; -4;
  -3; -1; -1; -3; 0; 0; 0; 0;
  0; 4; 14; 0; 0; 0; 0; 9;
  12; -3; -14; -1; -4; 0; 0; 0;
  0; 0; 0; 0; 0; 0; 0; 0;
  0; 9; 6; 0; 0; 0; 0; 0;
  0; 0; 0; 0; 0; 0; 0; 0;
  0; 9; 7; 6; -6; -4; 0; -6;
  -1; -6; 0; 7; 0; 0; 0; -1;
  3; 3; 3; 4; 3; 0; 9; -3;
  0; 0; 0; 0; 0; -1; 0; 0;
  0; 0; 0; 0; 0; 0; 0; 0;
  0; 0; 0; 0; 0; 0; 0; 0;
  0; 0; 0; 0; 0; 0; 0; 0;
  0; 0; 0; 0; 0; 0; 0; 0;
  0; -12; 0; 0; 0; -1; 0; 0;
  0; 0; 0; 0; 0; 0; 0; -1;
  0; -1; 0; -1; 0; 0; 0; 0;
  0; 0; 0; 0; 0; 0; 0; 0;
  -3; 0; 0; 0; 0; 0; 0; 0;
  0; 0; 0; 0; 0; 0; 0; 0;
  -1; 0; -4; -1; 0; 0; 0; 0;
  0; 0; 0; 0; 0; 0; 0; 0;
  0; -19; 0; 0; 0; 0; 0; 0;
  0; 0; 0; 0; 0; 0; 0; -3;
  0; 0; 0; 0; 0; 0; 0; 0;
  0; 0; 0; 0; 0; 0; 0; 0;
  0; 0; 0; 0; 0; 0; 0; 0;
  0; 0; 0; 0; 0; 0; 0; 0;
  0; 0; 0; 0; 0; 0; 0; 0;
  0; 0; 0; 0; 0; 0; 0; 0;
  0; -17; 0; 0; 0; 0; 0; 0;
  0; 0; 0; 0; 0; 0; 0; 0;
  0; 0; 0; 0; 0; 0; 0; 0;
  0; 0; 0; 0; 0; 0; 0; 0;
  0; 0; 0; 0; 0; 0; 0; 0;
  0; 0; 0; 0; 0; 0; 0; 0;
  0; 0; 0; -1; 0; 0; 0; 0;
  0; 0; 0; 0; 0; 0; 0; 0;
  0; 0; 0; 0; 0; 0; 0; 0;
  0; 0; 0; 0; 0; 0; 0; 0;
  0; 0; 0; 0; 0; 0; 0; 0;
  0; 0; 0; 0; 0; -1; 0; 0;
  -3; -3; 0; -9; 6; 0; 0; 0;
  0; 0; 0; 0; 0; 0; -1; -6;
  0; 12; 0; -1; 0; 0; 0; 0;
  0; 0; 0; 0; 0; 0; 0; 0;
  0; -7; 0; 0; 9; -4; 0; -7;
  0; -7; 0; 0; 0; 0; 0; -1;
  0; 0; 0; 0; 1; -3; 0; -6;
  0; 9; 9; 0; 0; 0; 0; 0;
  12; 0; -26; 0; 0; 0; 0; 0;
  0; 0; 0; 0; 0; 0; 0; 0;
  0; 0; 6; 6; 0; 0; 0; 0;
  0; 0; 0; 0; 0; 0; 0; 0;
  0; -3; 6; 0; -3; 0; 0; -1;
  7; -1; 0; 0; 0; 0; 7; 1;
  4; 3; 9; 4; 3; 0; 9; 0;
  0; 0; -3; 0; 0; 0; 0; 0;
  -3; 0; 0; 0; 3; 0; 0; 0;
  0; 0; 0; 0; 0; 0; 0; 0;
  0; 3; 0; 0; 0; 0; 0; 0;
  0; 0; 0; 0; 0; 0; 0; 0;
  0; -17; 0; 0; 0; -3; 0; -1;
  0; -1; 0; 0; 0; 0; 0; -1;
  -1; -1; -1; -1; 0; 0; 0; 0;
  0; 0; 0; 0; 0; 0; 0; 3;
  0; 0; 0; 0; 6; 0; 0; 0;
  0; 0; 0; 0; 0; 0; 0; 0;
  0; 0; 1; 0; 0; 0; 0; 0;
  0; 0; 0; 0; 0; 0; 0; 0;
  0; 0; 3; 0; 9; 0; 0; -1;
  0; -1; 0; 0; -3; 1; 0; 0;
  3; 3; 6; 1; 6; 0; 0; 0;
  0; 0; 0; 0; 0; 0; 0; 0;
  0; 0; 0; 0; 0; 0; 0; 0;
  0; 0; 0; 0; 0; 0; 0; 0;
  0; 0; 0; -1; 0; 0; 0; 0;
  0; 0; 0; 0; 0; 0; 0; 0;
  0; -14; 0; 0; 0; 0; 0; -1;
  0; -1; 0; 0; 0; 0; 0; -1;
  0; 0; 0; 0; 0; 0; 0; 0;
  0; 0; 3; 0; 0; 0; 0; -6;
  3; 0; -26; -1; -6; 0; 0; 0;
  0; 0; 0; 0; 0; 0; 0; 0;
  0; 0; 6; 3; 0; 0; 0; 0;
  0; 0; 0; 0; 0; 0; 0; 0;
  0; -6; 0; 0; -12; -1; 0; -4;
  4; -4; 0; 0; 0; 0; 4; 0;
  1; 1; 3; 3; 3; 0; 0; 0;
  0; 0; 3; 0; 0; -3; 0; -6;
  0; 0; -12; -1; -6; 0; 0; 0;
  0; 0; 0; 0; 0; 0; 0; 0;
  0; 0; 0; 4; 0; 0; 0; 0;
  0; 0; 0; 0; 0; 0; 0; 0;
  0; -6; -6; 0; -12; -1; 0; -3;
  4; -3; 0; 0; 0; 0; 4; 0;
  1; 0; 1; 1; 1; 0; 6; 0;
  0; 0; 3; 0; 0; -3; 0; 0;
  0; 0; 0; -3; 6; 0; 0; 0;
  0; 0; 0; 0; 0; 0; 0; 0;
  0; 0; 0; 1; 0; 0; 0; 0;
  0; 0; 0; 0; 0; 0; 0; 0;
  0; -6; 0; 0; 9; 0; 0; -3;
  4; -3; 0; 0; 0; 0; 1; -1;
  3; 1; 1; 1; 6; 0; 6; 0;
  0; 0; 3; 0; 0; -6; 0; 0;
  0; 0; -32; -6; -3; 0; 0; 0;
  0; 0; 0; 0; 0; 0; 0; 0;
  0; 0; 3; 3; 0; 0; 0; 0;
  0; 0; 0; 0; 0; 0; 0; 0;
  0; -9; 0; 0; -14; -4; 0; -6;
  3; -6; 0; 0; 0; -3; 1; -1;
  1; 0; 0; 1; 0; 0; 4; 0;
  0; 0; 0; 0; 0; 0; 0; 0;
  0; 0; 0; 0; 0; 0; 0; 0;
  0; 0; 0; 0; 0; 0; 0; 0;
  0; 0; 0; 0; 0; 0; 0; 0;
  0; 0; 0; 0; 0; 0; 0; 0;
  0; -10; 0; 0; 3; 0; 0; 0;
  0; 0; 0; 0; 0; 0; 0; 0;
  0; 0; 1; 0; 0; 0; 4; 0;
  0; 0; 0; 0; 0; 0; 0; 0;
  0; -12; 0; -6; 0; 0; 0; 0;
  0; -9; -6; 14; 0; 3; 0; 0;
  0; 0; 0; 0; 0; 0; -6; 0;
  0; 6; 0; 6; 6; 6; 12; 0;
  0; 0; 0; 0; 0; -1; 0; -3;
  -3; -3; 0; 14; 0; 0; 0; 0;
  0; -6; 0; 0; 0; 0; 0; 0;
  0; 0; 0; 0; 0; 0; 0; 0;
  0; 0; 0; 0; 0; 0; 0; 0;
  0; 0; 0; 6; 0; 0; 0; 0;
  0; 0; 0; 0; 0; 0; 0; 0;
  0; 6; 0; 6; 6; 6; 3; 0;
  0; 0; 0; 0; 0; 0; 0; 0;
  0; 0; 0; 0; 0; 0; 0; 0;
  0; 6; 6; 4; 3; 0; 0; 0].
Definition kern_class_values_4 : list Z := [
  0; 0; 0; 0; 0; 0; 0; 0;
  0; 0; 0; 0; 0; 0; 0; 0;
  0; 0; 0; 0; 0; 0; 0; 0;
  0; 0; 0; 0; -3; 0; 0; 0;
  0; -6; 0; -3; -3; -3; -12; -6;
  0; 0; 0; 0; 0; 0; 0; 0;
  0; 0; 0; 0; 0; 0; 0; 0;
  0; 0; 0; 0; 0; 0; 0; 0;
  0; 0; 0; 0; 0; 0; 0; 0;
  0; 0; 0; 0; 0; 3; -3; -3;
  0; 0; 0; -6; 0; 0; 0; 0;
  0; 0; 0; 0; -6; 0; 3; 0;
  0; -20; -1; -12; -6; -6; -17; 0;
  0; 0; 0; 0; 0; 0; 0; 0;
  0; 0; 0; 0; 0; 0; 0; 0;
  0; 0; 0; 0; 0; 0; 0; 0].
Definition kern_class_values : list Z :=
  kern_class_values_0 ++ kern_class_values_1 ++ kern_class_values_2 ++ kern_class_values_3 ++ kern_class_values_4.

Definition kern_classes : lv_font_fmt_txt_kern_classes_t :=
  KernClasses kern_class_values kern_left_class_mapping kern_right_class_mapping 76 64.

(** ** The font *)

Definition font_dsc : lv_font_fmt_txt_dsc_t :=
  FontDsc glyph_bitmap glyph_dsc cmaps kern_classes 16 1 4 1 0.
Definition ui_font_font_book18 : lv_font_t :=
  Font "lv_font_get_glyph_dsc_fmt_txt" "lv_font_get_bitmap_fmt_txt" 19 3 LV_FONT_SUBPX_NONE (-3) 1 font_dsc None None.

Definition font_file_book18 : font_file :=
  FontFile "ui_font_font_book18" glyph_blocks ui_font_font_book18.

Lemma book18_checked : font_check ui_font_font_book18 glyph_blocks = true.
Proof. by vm_compute. Qed.
