(* ===== verification/FontBook20.v ===== *)
(** * The tables of fonts/ui_font_font_book20.c

    The bitmap is written by the blocks of its characters, from U+0020 to U+007E. *)
From S2P Require Import Prelude FontFormat.

(** ** Bitmaps *)

Definition glyph_bitmap_0020 : list (list Z) := [
  (* U+0020 *)
    [];
  (* U+0021 *)
    [0xf; 0xf4; 0xf; 0xf3; 0xf; 0xf2; 0xe; 0xf1;
     0xd; 0xf0; 0xc; 0xf0; 0xc; 0xf0; 0xb; 0xe0;
     0xa; 0xd0; 0x9; 0xd0; 0x1; 0x20; 0x6; 0x80;
     0x2f; 0xf5; 0xc; 0xe2];
  (* U+0022 *)
    [0x3; 0x30; 0x15; 0x1; 0xff; 0x2a; 0xf9; 0x1f;
     0xf1; 0xaf; 0x90; 0xee; 0x6; 0xf5; 0xa; 0xa0;
     0x3f; 0x20; 0x77; 0x0; 0xd0];
  (* U+0023 *)
    [0x0; 0x0; 0x8f; 0x20; 0xf; 0xa0; 0x0; 0x0;
     0xc; 0xe0; 0x4; 0xf6; 0x0; 0x0; 0x0; 0xfa;
     0x0; 0x8f; 0x20; 0x0; 0xff; 0xff; 0xff; 0xff;
     0xff; 0xfc; 0x8; 0x8c; 0xfa; 0x88; 0xfd; 0x88;
     0x60; 0x0; 0xaf; 0x0; 0x2f; 0x80; 0x0; 0x0;
     0xd; 0xd0; 0x5; 0xf5; 0x0; 0x0; 0x0; 0xfa;
     0x0; 0x8f; 0x20; 0x0; 0xff; 0xff; 0xff; 0xff;
     0xff; 0xfc; 0x8; 0x8c; 0xf9; 0x88; 0xfd; 0x88;
     0x60; 0x0; 0xaf; 0x0; 0x2f; 0x80; 0x0; 0x0;
     0xe; 0xc0; 0x5; 0xf4; 0x0; 0x0; 0x1; 0xf9;
     0x0; 0x9f; 0x10; 0x0; 0x0];
  (* U+0024 *)
    [0x0; 0x0; 0x8b; 0x0; 0x0; 0x0; 0x0; 0xae;
     0x0; 0x0; 0x0; 0x16; 0xdf; 0x82; 0x0; 0x3;
     0xef; 0xff; 0xff; 0x60; 0x1e; 0xf7; 0xbe; 0x6f;
     0xf3; 0x5f; 0xa0; 0xae; 0x7; 0xf6; 0x6f; 0x90;
     0xae; 0x0; 0x10; 0x2f; 0xf6; 0xbe; 0x0; 0x0;
     0x8; 0xff; 0xff; 0x93; 0x0; 0x0; 0x4b; 0xff;
     0xff; 0x80; 0x0; 0x0; 0xaf; 0x7f; 0xf5; 0x38;
     0x0; 0xae; 0x6; 0xfa; 0xdf; 0x40; 0xae; 0x4;
     0xfb; 0x7f; 0xd3; 0xae; 0x1b; 0xf6; 0xa; 0xff;
     0xff; 0xff; 0xb0; 0x0; 0x5b; 0xff; 0xb6; 0x0;
     0x0; 0x0; 0xae; 0x0; 0x0; 0x0; 0x0; 0xae;
     0x0; 0x0];
  (* U+0025 *)
    [0x0; 0x68; 0x40; 0x0; 0x0; 0x19; 0x50; 0x1;
     0xef; 0xff; 0x90; 0x0; 0xb; 0xf1; 0x0; 0xaf;
     0x40; 0xaf; 0x40; 0x6; 0xf6; 0x0; 0xe; 0xd0;
     0x3; 0xf7; 0x2; 0xfb; 0x0; 0x0; 0xce; 0x0;
     0x5f; 0x60; 0xce; 0x10; 0x0; 0x4; 0xfd; 0xaf;
     0xe0; 0x7f; 0x50; 0x0; 0x0; 0x5; 0xdf; 0xb2;
     0x2f; 0xa0; 0x0; 0x0; 0x0; 0x0; 0x0; 0xd;
     0xe1; 0x17; 0x84; 0x0; 0x0; 0x0; 0x8; 0xf4;
     0x2e; 0xff; 0xf8; 0x0; 0x0; 0x3; 0xf9; 0xb;
     0xf4; 0x1b; 0xf2; 0x0; 0x0; 0xde; 0x0; 0xfb;
     0x0; 0x4f; 0x60; 0x0; 0x9f; 0x40; 0xd; 0xd0;
     0x7; 0xf5; 0x0; 0x4f; 0x90; 0x0; 0x6f; 0xda;
     0xfd; 0x0; 0x1e; 0xd0; 0x0; 0x0; 0x6d; 0xea;
     0x10];
  (* U+0026 *)
    [0x0; 0x3b; 0xfe; 0xa1; 0x0; 0x0; 0x0; 0x3f;
     0xfc; 0xdf; 0xe1; 0x0; 0x0; 0xb; 0xf6; 0x0;
     0xaf; 0x70; 0x0; 0x0; 0xdf; 0x20; 0x7; 0xf8;
     0x0; 0x0; 0x9; 0xf9; 0x1; 0xdf; 0x30; 0x0;
     0x0; 0x1d; 0xfa; 0xef; 0x70; 0x0; 0x0; 0x0;
     0x3f; 0xff; 0x40; 0x0; 0x6; 0x0; 0x2d; 0xff;
     0xf9; 0x0; 0xb; 0xa0; 0xd; 0xf7; 0x1d; 0xf9;
     0xa; 0xf8; 0x6; 0xf9; 0x0; 0x1d; 0xfe; 0xfa;
     0x0; 0x8f; 0x70; 0x0; 0x1f; 0xfe; 0x0; 0x6;
     0xfd; 0x10; 0x1b; 0xff; 0xf9; 0x0; 0xd; 0xff;
     0xdf; 0xfe; 0x5f; 0xf8; 0x0; 0x18; 0xef; 0xe9;
     0x10; 0x3f; 0xf7];
  (* U+0027 *)
    [0x3; 0x30; 0x1f; 0xf2; 0x1f; 0xf1; 0xe; 0xe0;
     0xa; 0xa0; 0x7; 0x70];
  (* U+0028 *)
    [0x0; 0x8; 0x70; 0x0; 0x5f; 0xa0; 0x1; 0xed;
     0x0; 0x8; 0xf4; 0x0; 0xf; 0xc0; 0x0; 0x4f;
     0x60; 0x0; 0x9f; 0x10; 0x0; 0xce; 0x0; 0x0;
     0xdd; 0x0; 0x0; 0xeb; 0x0; 0x0; 0xdc; 0x0;
     0x0; 0xce; 0x0; 0x0; 0xaf; 0x10; 0x0; 0x5f;
     0x50; 0x0; 0x1f; 0xa0; 0x0; 0xa; 0xf3; 0x0;
     0x2; 0xfb; 0x0; 0x0; 0x8f; 0x70; 0x0; 0xb;
     0xa0; 0x0; 0x0; 0x0];
  (* U+0029 *)
    [0x78; 0x0; 0xa; 0xf6; 0x0; 0xd; 0xf1; 0x0;
     0x4f; 0x90; 0x0; 0xcf; 0x0; 0x6; 0xf4; 0x0;
     0x1f; 0x90; 0x0; 0xec; 0x0; 0xc; 0xe0; 0x0;
     0xbe; 0x0; 0xc; 0xe0; 0x0; 0xdd; 0x0; 0xf;
     0xa0; 0x5; 0xf6; 0x0; 0xaf; 0x10; 0x2f; 0xb0;
     0xb; 0xf2; 0x7; 0xf8; 0x0; 0xab; 0x0; 0x0;
     0x0; 0x0];
  (* U+002A *)
    [0x0; 0x6; 0xf3; 0x0; 0x0; 0x0; 0x6f; 0x30;
     0x0; 0x1f; 0xaa; 0xf8; 0xbd; 0x1; 0x9e; 0xff;
     0xfd; 0x80; 0x0; 0x2f; 0xfe; 0x0; 0x0; 0xd;
     0xe5; 0xfa; 0x0; 0x2; 0xd4; 0x7; 0xc1; 0x0;
     0x0; 0x0; 0x0; 0x0];
  (* U+002B *)
    [0x0; 0x1; 0x73; 0x0; 0x0; 0x0; 0x2; 0xf7;
     0x0; 0x0; 0x0; 0x2; 0xf7; 0x0; 0x0; 0x0;
     0x2; 0xf7; 0x0; 0x0; 0x89; 0x9a; 0xfc; 0x99;
     0x92; 0xef; 0xff; 0xff; 0xff; 0xf3; 0x0; 0x2;
     0xf7; 0x0; 0x0; 0x0; 0x2; 0xf7; 0x0; 0x0;
     0x0; 0x2; 0xf7; 0x0; 0x0; 0x0; 0x2; 0xf7;
     0x0; 0x0];
  (* U+002C *)
    [0x1a; 0x80; 0x8f; 0xf5; 0x4e; 0xf7; 0x0; 0xe4;
     0x8; 0xd0; 0x7c; 0x20; 0x0; 0x0];
  (* U+002D *)
    [0xa; 0xaa; 0xaa; 0x31; 0xff; 0xff; 0xf5];
  (* U+002E *)
    [0x2b; 0x80; 0x8f; 0xf2; 0x4e; 0xb0];
  (* U+002F *)
    [0x0; 0x0; 0x0; 0x6f; 0x70; 0x0; 0x0; 0xd;
     0xe0; 0x0; 0x0; 0x5; 0xf7; 0x0; 0x0; 0x0;
     0xde; 0x0; 0x0; 0x0; 0x5f; 0x70; 0x0; 0x0;
     0xd; 0xe0; 0x0; 0x0; 0x5; 0xf7; 0x0; 0x0;
     0x0; 0xdf; 0x10; 0x0; 0x0; 0x4f; 0x80; 0x0;
     0x0; 0xc; 0xf1; 0x0; 0x0; 0x4; 0xf8; 0x0;
     0x0; 0x0; 0xcf; 0x10; 0x0; 0x0; 0x4f; 0x80;
     0x0; 0x0; 0xc; 0xf1; 0x0; 0x0; 0x0];
  (* U+0030 *)
    [0x0; 0x17; 0xab; 0x82; 0x0; 0x0; 0x2e; 0xff;
     0xff; 0xf6; 0x0; 0xd; 0xf8; 0x11; 0x5f; 0xf3;
     0x6; 0xfa; 0x0; 0x0; 0x6f; 0xa0; 0xbf; 0x40;
     0x0; 0x0; 0xff; 0xd; 0xf0; 0x0; 0x0; 0xc;
     0xf2; 0xff; 0x0; 0x0; 0x0; 0xbf; 0x3f; 0xf0;
     0x0; 0x0; 0xa; 0xf4; 0xdf; 0x0; 0x0; 0x0;
     0xbf; 0x3c; 0xf3; 0x0; 0x0; 0xe; 0xf0; 0x8f;
     0x80; 0x0; 0x3; 0xfc; 0x1; 0xff; 0x40; 0x2;
     0xdf; 0x50; 0x5; 0xff; 0xdd; 0xff; 0x90; 0x0;
     0x3; 0xbe; 0xfc; 0x60; 0x0];
  (* U+0031 *)
    [0x0; 0x0; 0x10; 0x0; 0x7; 0xf9; 0x13; 0x9f;
     0xf9; 0x8f; 0xff; 0xf9; 0x24; 0x48; 0xf9; 0x0;
     0x5; 0xf9; 0x0; 0x5; 0xf9; 0x0; 0x5; 0xf9;
     0x0; 0x5; 0xf9; 0x0; 0x5; 0xf9; 0x0; 0x5;
     0xf9; 0x0; 0x5; 0xf9; 0x0; 0x5; 0xf9; 0x0;
     0x5; 0xf9]].
Definition glyph_bitmap_0032 : list (list Z) := [
  (* U+0032 *)
    [0x0; 0x2a; 0xef; 0xd8; 0x0; 0x3; 0xff; 0xec;
     0xff; 0xc0; 0xd; 0xf7; 0x0; 0x1d; 0xf6; 0x1f;
     0xe0; 0x0; 0x5; 0xfa; 0x1b; 0xa0; 0x0; 0x6;
     0xf9; 0x0; 0x0; 0x0; 0xd; 0xf5; 0x0; 0x0;
     0x2; 0xcf; 0xb0; 0x0; 0x0; 0x7f; 0xf9; 0x0;
     0x0; 0x1c; 0xfd; 0x40; 0x0; 0x1; 0xef; 0x80;
     0x0; 0x0; 0xa; 0xf7; 0x0; 0x0; 0x0; 0x1f;
     0xfd; 0xdd; 0xdd; 0xda; 0x3f; 0xff; 0xff; 0xff;
     0xfc];
  (* U+0033 *)
    [0xd; 0xff; 0xff; 0xff; 0xff; 0x0; 0xad; 0xdd;
     0xdd; 0xff; 0xe0; 0x0; 0x0; 0x0; 0x6f; 0xe3;
     0x0; 0x0; 0x0; 0x8f; 0xd2; 0x0; 0x0; 0x0;
     0xaf; 0xd1; 0x0; 0x0; 0x0; 0x3f; 0xfe; 0xb3;
     0x0; 0x0; 0x0; 0x8a; 0xbf; 0xf6; 0x0; 0x0;
     0x0; 0x0; 0x4f; 0xf0; 0x3; 0x40; 0x0; 0x0;
     0xdf; 0x32; 0xfe; 0x0; 0x0; 0xd; 0xf3; 0xd;
     0xf9; 0x0; 0x7; 0xfe; 0x0; 0x3f; 0xfe; 0xce;
     0xff; 0x40; 0x0; 0x19; 0xef; 0xea; 0x20; 0x0];
  (* U+0034 *)
    [0x0; 0x0; 0x2; 0xff; 0xf0; 0x0; 0x0; 0x0;
     0xc; 0xff; 0xf0; 0x0; 0x0; 0x0; 0x8f; 0x9f;
     0xf0; 0x0; 0x0; 0x4; 0xfd; 0xf; 0xf0; 0x0;
     0x0; 0x1e; 0xf2; 0xf; 0xf0; 0x0; 0x0; 0xbf;
     0x60; 0xf; 0xf0; 0x0; 0x6; 0xfb; 0x0; 0xf;
     0xf0; 0x0; 0x2f; 0xe1; 0x0; 0xf; 0xf0; 0x0;
     0x4f; 0xed; 0xdd; 0xdf; 0xfd; 0xd2; 0x4f; 0xff;
     0xff; 0xff; 0xff; 0xf3; 0x0; 0x0; 0x0; 0xf;
     0xf0; 0x0; 0x0; 0x0; 0x0; 0xf; 0xf0; 0x0;
     0x0; 0x0; 0x0; 0xf; 0xf0; 0x0];
  (* U+0035 *)
    [0x0; 0x4f; 0xff; 0xff; 0xfb; 0x0; 0x8; 0xfd;
     0xdd; 0xdd; 0x90; 0x0; 0xcf; 0x0; 0x0; 0x0;
     0x0; 0x1f; 0xb0; 0x0; 0x0; 0x0; 0x5; 0xf8;
     0x7a; 0xa6; 0x0; 0x0; 0x9f; 0xff; 0xff; 0xfd;
     0x20; 0x4; 0xba; 0x30; 0x3c; 0xfc; 0x0; 0x0;
     0x0; 0x0; 0x1f; 0xf1; 0x1; 0x30; 0x0; 0x0;
     0xcf; 0x33; 0xfd; 0x0; 0x0; 0xe; 0xf2; 0xe;
     0xf8; 0x0; 0x9; 0xfc; 0x0; 0x3f; 0xfe; 0xce;
     0xfe; 0x20; 0x0; 0x19; 0xef; 0xe9; 0x10; 0x0];
  (* U+0036 *)
    [0x0; 0x0; 0x6a; 0xba; 0x71; 0x0; 0x4e; 0xff;
     0xff; 0xf4; 0x4; 0xff; 0x82; 0x1; 0x50; 0xe;
     0xf4; 0x0; 0x0; 0x0; 0x6f; 0xa0; 0x0; 0x0;
     0x0; 0xaf; 0x48; 0xef; 0xe8; 0x0; 0xef; 0xdf;
     0xcc; 0xff; 0xd0; 0xff; 0xf3; 0x0; 0x2d; 0xf7;
     0xff; 0x80; 0x0; 0x5; 0xfc; 0xdf; 0x50; 0x0;
     0x2; 0xfd; 0x9f; 0x80; 0x0; 0x5; 0xfb; 0x2f;
     0xf4; 0x0; 0x2d; 0xf6; 0x6; 0xff; 0xcc; 0xff;
     0xb0; 0x0; 0x4b; 0xff; 0xc6; 0x0];
  (* U+0037 *)
    [0xef; 0xff; 0xff; 0xff; 0xf9; 0xbd; 0xdd; 0xdd;
     0xdf; 0xf8; 0x0; 0x0; 0x0; 0x5f; 0xc1; 0x0;
     0x0; 0x3; 0xfd; 0x10; 0x0; 0x0; 0x1e; 0xf2;
     0x0; 0x0; 0x0; 0x9f; 0x70; 0x0; 0x0; 0x2;
     0xfd; 0x0; 0x0; 0x0; 0x9; 0xf7; 0x0; 0x0;
     0x0; 0xf; 0xf0; 0x0; 0x0; 0x0; 0x4f; 0xb0;
     0x0; 0x0; 0x0; 0x9f; 0x70; 0x0; 0x0; 0x0;
     0xbf; 0x40; 0x0; 0x0; 0x0; 0xdf; 0x20; 0x0;
     0x0];
  (* U+0038 *)
    [0x0; 0x2; 0x89; 0x83; 0x0; 0x0; 0x8; 0xff;
     0xff; 0xfa; 0x0; 0x5; 0xfe; 0x40; 0x2c; 0xf8;
     0x0; 0xbf; 0x50; 0x0; 0x2f; 0xe0; 0xb; 0xf4;
     0x0; 0x1; 0xfe; 0x0; 0x6f; 0xb0; 0x0; 0x8f;
     0x90; 0x0; 0x9f; 0xeb; 0xdf; 0xc0; 0x0; 0x6;
     0xef; 0xff; 0xf8; 0x0; 0x7; 0xfb; 0x30; 0x29;
     0xfa; 0x0; 0xff; 0x0; 0x0; 0xd; 0xf2; 0x1f;
     0xf0; 0x0; 0x0; 0xcf; 0x40; 0xdf; 0x70; 0x0;
     0x5f; 0xf1; 0x4; 0xff; 0xeb; 0xdf; 0xf7; 0x0;
     0x3; 0xae; 0xfe; 0xb4; 0x0];
  (* U+0039 *)
    [0x0; 0x4; 0x9b; 0x95; 0x0; 0x0; 0xb; 0xff;
     0xff; 0xfb; 0x0; 0x9; 0xfd; 0x30; 0x3b; 0xf9;
     0x0; 0xff; 0x10; 0x0; 0xe; 0xf2; 0x2f; 0xd0;
     0x0; 0x0; 0xaf; 0x61; 0xff; 0x0; 0x0; 0xd;
     0xf9; 0xc; 0xf9; 0x0; 0x7; 0xff; 0x90; 0x2f;
     0xfe; 0xbd; 0xfd; 0xf8; 0x0; 0x2a; 0xef; 0xd6;
     0x8f; 0x60; 0x0; 0x0; 0x0; 0xc; 0xf3; 0x0;
     0x0; 0x0; 0x4; 0xfd; 0x0; 0x11; 0x0; 0x5;
     0xff; 0x40; 0x9; 0xfd; 0xce; 0xff; 0x70; 0x0;
     0x6c; 0xff; 0xea; 0x30; 0x0];
  (* U+003A *)
    [0x2e; 0xc0; 0x7f; 0xf3; 0x1b; 0x90; 0x0; 0x0;
     0x0; 0x0; 0x0; 0x0; 0x0; 0x0; 0x1a; 0x90;
     0x6f; 0xf3; 0x2e; 0xd0];
  (* U+003B *)
    [0x2e; 0xc0; 0x7f; 0xf3; 0x1b; 0x90; 0x0; 0x0;
     0x0; 0x0; 0x0; 0x0; 0x0; 0x0; 0x7; 0x60;
     0x6f; 0xf4; 0x3e; 0xf6; 0x0; 0xe4; 0x9; 0xc0;
     0x5a; 0x10];
  (* U+003C *)
    [0x0; 0x0; 0x0; 0x1; 0x80; 0x0; 0x0; 0x18;
     0xff; 0x0; 0x1; 0x8f; 0xfd; 0x50; 0x18; 0xff;
     0xd5; 0x0; 0x3f; 0xfd; 0x50; 0x0; 0x4; 0xff;
     0x60; 0x0; 0x0; 0x7; 0xef; 0xe6; 0x0; 0x0;
     0x0; 0x7e; 0xfe; 0x60; 0x0; 0x0; 0x7; 0xef;
     0xd0; 0x0; 0x0; 0x0; 0x7e; 0x0; 0x0; 0x0;
     0x0; 0x0];
  (* U+003D *)
    [0x69; 0x99; 0x99; 0x99; 0x95; 0xbf; 0xff; 0xff;
     0xff; 0xf9; 0x0; 0x0; 0x0; 0x0; 0x0; 0x0;
     0x0; 0x0; 0x0; 0x0; 0x69; 0x99; 0x99; 0x99;
     0x95; 0xbf; 0xff; 0xff; 0xff; 0xf9];
  (* U+003E *)
    [0x36; 0x0; 0x0; 0x0; 0x4; 0xfd; 0x50; 0x0;
     0x0; 0x8; 0xff; 0xd5; 0x0; 0x0; 0x1; 0x8f;
     0xfd; 0x50; 0x0; 0x0; 0x18; 0xff; 0xc0; 0x0;
     0x0; 0x1a; 0xff; 0x0; 0x1; 0x9f; 0xfc; 0x40;
     0x19; 0xff; 0xc4; 0x0; 0x3f; 0xfc; 0x40; 0x0;
     0x4; 0xd5; 0x0; 0x0; 0x0; 0x0; 0x0; 0x0;
     0x0; 0x0];
  (* U+003F *)
    [0x0; 0x4b; 0xff; 0xc6; 0x0; 0x6; 0xff; 0xed;
     0xff; 0x90; 0xf; 0xf5; 0x0; 0x3f; 0xf3; 0x3f;
     0xc0; 0x0; 0x9; 0xf7; 0x3f; 0xa0; 0x0; 0x9;
     0xf6; 0x0; 0x0; 0x0; 0x5f; 0xf1; 0x0; 0x0;
     0x9; 0xff; 0x40; 0x0; 0x0; 0x9f; 0xc2; 0x0;
     0x0; 0x0; 0xfe; 0x0; 0x0; 0x0; 0x1; 0xea;
     0x0; 0x0; 0x0; 0x0; 0x0; 0x0; 0x0; 0x0;
     0x0; 0x85; 0x0; 0x0; 0x0; 0x7; 0xff; 0x0;
     0x0; 0x0; 0x3; 0xeb; 0x0; 0x0]].
Definition glyph_bitmap_0040 : list (list Z) := [
  (* U+0040 *)
    [0x0; 0x0; 0x5; 0xae; 0xfe; 0xc7; 0x0; 0x0;
     0x0; 0x2; 0xcf; 0xd9; 0x78; 0xcf; 0xe4; 0x0;
     0x0; 0x2e; 0xe5; 0x0; 0x0; 0x2; 0xcf; 0x30;
     0x0; 0xde; 0x20; 0x4; 0x74; 0x4; 0x2d; 0xe0;
     0x6; 0xf5; 0x0; 0xbf; 0xff; 0xbf; 0x53; 0xf6;
     0xc; 0xe0; 0x9; 0xf7; 0x5; 0xff; 0x20; 0xea;
     0xf; 0xa0; 0x1f; 0xb0; 0x0; 0xcf; 0x0; 0xcc;
     0x1f; 0x90; 0x4f; 0x50; 0x0; 0xcc; 0x0; 0xcc;
     0xf; 0x90; 0x6f; 0x40; 0x0; 0xe9; 0x0; 0xf9;
     0xe; 0xc0; 0x4f; 0x60; 0x4; 0xf6; 0x5; 0xf5;
     0x9; 0xf2; 0xe; 0xd3; 0x3e; 0xf9; 0x3e; 0xd0;
     0x2; 0xfb; 0x4; 0xff; 0xf8; 0xaf; 0xfd; 0x20;
     0x0; 0x8f; 0xa0; 0x3; 0x10; 0x3; 0x30; 0x0;
     0x0; 0x8; 0xfe; 0x84; 0x23; 0x58; 0xe8; 0x0;
     0x0; 0x0; 0x3b; 0xff; 0xff; 0xfd; 0x70; 0x0;
     0x0; 0x0; 0x0; 0x3; 0x44; 0x20; 0x0; 0x0];
  (* U+0041 *)
    [0x0; 0x0; 0x5; 0xff; 0x40; 0x0; 0x0; 0x0;
     0x0; 0xc; 0xff; 0xb0; 0x0; 0x0; 0x0; 0x0;
     0x2f; 0xbd; 0xf1; 0x0; 0x0; 0x0; 0x0; 0x9f;
     0x57; 0xf8; 0x0; 0x0; 0x0; 0x0; 0xee; 0x1;
     0xfe; 0x0; 0x0; 0x0; 0x5; 0xf8; 0x0; 0xaf;
     0x40; 0x0; 0x0; 0xc; 0xf2; 0x0; 0x4f; 0xb0;
     0x0; 0x0; 0x2f; 0xc0; 0x0; 0xe; 0xf1; 0x0;
     0x0; 0x9f; 0xed; 0xdd; 0xdf; 0xf8; 0x0; 0x0;
     0xff; 0xff; 0xff; 0xff; 0xfe; 0x0; 0x6; 0xf9;
     0x0; 0x0; 0x0; 0xbf; 0x50; 0xc; 0xf3; 0x0;
     0x0; 0x0; 0x5f; 0xb0; 0x3f; 0xd0; 0x0; 0x0;
     0x0; 0xe; 0xf2; 0x9f; 0x70; 0x0; 0x0; 0x0;
     0x9; 0xf8];
  (* U+0042 *)
    [0x3f; 0xff; 0xff; 0xe8; 0x0; 0x3; 0xff; 0xbb;
     0xcf; 0xfd; 0x10; 0x3f; 0xc0; 0x0; 0x1c; 0xf7;
     0x3; 0xfc; 0x0; 0x0; 0x5f; 0xa0; 0x3f; 0xc0;
     0x0; 0x6; 0xf9; 0x3; 0xfc; 0x0; 0x4; 0xef;
     0x20; 0x3f; 0xff; 0xff; 0xfe; 0x30; 0x3; 0xfe;
     0xbb; 0xbd; 0xfd; 0x10; 0x3f; 0xc0; 0x0; 0x7;
     0xfb; 0x3; 0xfc; 0x0; 0x0; 0xf; 0xf0; 0x3f;
     0xc0; 0x0; 0x0; 0xff; 0x13; 0xfc; 0x0; 0x0;
     0x8f; 0xd0; 0x3f; 0xfb; 0xbc; 0xef; 0xf4; 0x3;
     0xff; 0xff; 0xfe; 0xb2; 0x0];
  (* U+0043 *)
    [0x0; 0x0; 0x28; 0xdf; 0xfd; 0x82; 0x0; 0x0;
     0x0; 0x7f; 0xff; 0xde; 0xff; 0xf6; 0x0; 0x0;
     0x8f; 0xe6; 0x0; 0x0; 0x7f; 0xf4; 0x0; 0x3f;
     0xf2; 0x0; 0x0; 0x0; 0x5f; 0xd0; 0xa; 0xf7;
     0x0; 0x0; 0x0; 0x0; 0xb8; 0x0; 0xef; 0x10;
     0x0; 0x0; 0x0; 0x0; 0x0; 0xf; 0xf0; 0x0;
     0x0; 0x0; 0x0; 0x0; 0x0; 0xff; 0x0; 0x0;
     0x0; 0x0; 0x0; 0x0; 0xf; 0xf1; 0x0; 0x0;
     0x0; 0x0; 0x0; 0x0; 0xaf; 0x70; 0x0; 0x0;
     0x0; 0xb; 0x90; 0x3; 0xff; 0x20; 0x0; 0x0;
     0x6; 0xfd; 0x0; 0x8; 0xfe; 0x60; 0x0; 0x18;
     0xff; 0x40; 0x0; 0x8; 0xff; 0xfd; 0xef; 0xff;
     0x40; 0x0; 0x0; 0x2; 0x9d; 0xff; 0xd8; 0x10;
     0x0];
  (* U+0044 *)
    [0x3f; 0xff; 0xff; 0xec; 0x60; 0x0; 0x3; 0xff;
     0xcc; 0xcd; 0xff; 0xe3; 0x0; 0x3f; 0xc0; 0x0;
     0x1; 0xaf; 0xe2; 0x3; 0xfc; 0x0; 0x0; 0x0;
     0x9f; 0xa0; 0x3f; 0xc0; 0x0; 0x0; 0x1; 0xff;
     0x13; 0xfc; 0x0; 0x0; 0x0; 0xb; 0xf5; 0x3f;
     0xc0; 0x0; 0x0; 0x0; 0x8f; 0x73; 0xfc; 0x0;
     0x0; 0x0; 0x8; 0xf7; 0x3f; 0xc0; 0x0; 0x0;
     0x0; 0xaf; 0x53; 0xfc; 0x0; 0x0; 0x0; 0xf;
     0xf1; 0x3f; 0xc0; 0x0; 0x0; 0x9; 0xfb; 0x3;
     0xfc; 0x0; 0x0; 0x19; 0xfe; 0x20; 0x3f; 0xfc;
     0xcc; 0xdf; 0xfe; 0x30; 0x3; 0xff; 0xff; 0xff;
     0xc7; 0x0; 0x0];
  (* U+0045 *)
    [0x3f; 0xff; 0xff; 0xff; 0xf6; 0x3f; 0xfd; 0xdd;
     0xdd; 0xd5; 0x3f; 0xc0; 0x0; 0x0; 0x0; 0x3f;
     0xc0; 0x0; 0x0; 0x0; 0x3f; 0xc0; 0x0; 0x0;
     0x0; 0x3f; 0xc0; 0x0; 0x0; 0x0; 0x3f; 0xff;
     0xff; 0xff; 0xc0; 0x3f; 0xfd; 0xdd; 0xdd; 0xa0;
     0x3f; 0xc0; 0x0; 0x0; 0x0; 0x3f; 0xc0; 0x0;
     0x0; 0x0; 0x3f; 0xc0; 0x0; 0x0; 0x0; 0x3f;
     0xc0; 0x0; 0x0; 0x0; 0x3f; 0xfd; 0xdd; 0xdd;
     0xd5; 0x3f; 0xff; 0xff; 0xff; 0xf6];
  (* U+0046 *)
    [0x3f; 0xff; 0xff; 0xff; 0xf6; 0x3f; 0xfd; 0xdd;
     0xdd; 0xd5; 0x3f; 0xc0; 0x0; 0x0; 0x0; 0x3f;
     0xc0; 0x0; 0x0; 0x0; 0x3f; 0xc0; 0x0; 0x0;
     0x0; 0x3f; 0xc0; 0x0; 0x0; 0x0; 0x3f; 0xfd;
     0xdd; 0xdd; 0xa0; 0x3f; 0xff; 0xff; 0xff; 0xc0;
     0x3f; 0xc0; 0x0; 0x0; 0x0; 0x3f; 0xc0; 0x0;
     0x0; 0x0; 0x3f; 0xc0; 0x0; 0x0; 0x0; 0x3f;
     0xc0; 0x0; 0x0; 0x0; 0x3f; 0xc0; 0x0; 0x0;
     0x0; 0x3f; 0xc0; 0x0; 0x0; 0x0];
  (* U+0047 *)
    [0x0; 0x0; 0x29; 0xdf; 0xfd; 0x81; 0x0; 0x0;
     0x0; 0x8f; 0xff; 0xde; 0xff; 0xf5; 0x0; 0x0;
     0x8f; 0xe6; 0x0; 0x1; 0x7f; 0xf5; 0x0; 0x3f;
     0xf2; 0x0; 0x0; 0x0; 0x4f; 0xe0; 0xa; 0xf7;
     0x0; 0x0; 0x0; 0x0; 0x85; 0x0; 0xff; 0x10;
     0x0; 0x0; 0x0; 0x0; 0x0; 0xf; 0xf0; 0x0;
     0x0; 0x0; 0x0; 0x0; 0x0; 0xff; 0x0; 0x0;
     0xbf; 0xff; 0xff; 0xf1; 0xf; 0xf1; 0x0; 0x8;
     0xcc; 0xcc; 0xff; 0x10; 0xbf; 0x60; 0x0; 0x0;
     0x0; 0xf; 0xf1; 0x4; 0xfe; 0x20; 0x0; 0x0;
     0x6; 0xff; 0x10; 0x9; 0xfe; 0x50; 0x0; 0x7;
     0xff; 0xf1; 0x0; 0x9; 0xff; 0xfc; 0xdf; 0xfa;
     0xaf; 0x10; 0x0; 0x3; 0xad; 0xfe; 0xc5; 0x8;
     0xf1];
  (* U+0048 *)
    [0x3f; 0xc0; 0x0; 0x0; 0x0; 0xff; 0x3f; 0xc0;
     0x0; 0x0; 0x0; 0xff; 0x3f; 0xc0; 0x0; 0x0;
     0x0; 0xff; 0x3f; 0xc0; 0x0; 0x0; 0x0; 0xff;
     0x3f; 0xc0; 0x0; 0x0; 0x0; 0xff; 0x3f; 0xc0;
     0x0; 0x0; 0x0; 0xff; 0x3f; 0xff; 0xff; 0xff;
     0xff; 0xff; 0x3f; 0xfd; 0xdd; 0xdd; 0xdd; 0xff;
     0x3f; 0xc0; 0x0; 0x0; 0x0; 0xff; 0x3f; 0xc0;
     0x0; 0x0; 0x0; 0xff; 0x3f; 0xc0; 0x0; 0x0;
     0x0; 0xff; 0x3f; 0xc0; 0x0; 0x0; 0x0; 0xff;
     0x3f; 0xc0; 0x0; 0x0; 0x0; 0xff; 0x3f; 0xc0;
     0x0; 0x0; 0x0; 0xff];
  (* U+0049 *)
    [0x3f; 0xc3; 0xfc; 0x3f; 0xc3; 0xfc; 0x3f; 0xc3;
     0xfc; 0x3f; 0xc3; 0xfc; 0x3f; 0xc3; 0xfc; 0x3f;
     0xc3; 0xfc; 0x3f; 0xc3; 0xfc];
  (* U+004A *)
    [0x0; 0x0; 0x0; 0xe; 0xf1; 0x0; 0x0; 0x0;
     0xe; 0xf1; 0x0; 0x0; 0x0; 0xe; 0xf1; 0x0;
     0x0; 0x0; 0xe; 0xf1; 0x0; 0x0; 0x0; 0xe;
     0xf1; 0x0; 0x0; 0x0; 0xe; 0xf1; 0x0; 0x0;
     0x0; 0xe; 0xf1; 0x0; 0x0; 0x0; 0xe; 0xf1;
     0x38; 0x30; 0x0; 0xe; 0xf1; 0x9f; 0x50; 0x0;
     0xe; 0xf1; 0x8f; 0x80; 0x0; 0xf; 0xf0; 0x3f;
     0xe2; 0x0; 0x9f; 0xa0; 0xa; 0xff; 0xef; 0xfe;
     0x20; 0x0; 0x7d; 0xfe; 0xa1; 0x0]].
Definition glyph_bitmap_004b : list (list Z) := [
  (* U+004B *)
    [0x3f; 0xc0; 0x0; 0x0; 0x2e; 0xf8; 0x3; 0xfc;
     0x0; 0x0; 0x1d; 0xf9; 0x0; 0x3f; 0xc0; 0x0;
     0x1d; 0xf9; 0x0; 0x3; 0xfc; 0x0; 0xc; 0xfa;
     0x0; 0x0; 0x3f; 0xc0; 0xb; 0xfb; 0x0; 0x0;
     0x3; 0xfc; 0xa; 0xfb; 0x0; 0x0; 0x0; 0x3f;
     0xc9; 0xff; 0x50; 0x0; 0x0; 0x3; 0xff; 0xfe;
     0xfe; 0x10; 0x0; 0x0; 0x3f; 0xfd; 0x18; 0xfc;
     0x0; 0x0; 0x3; 0xfe; 0x20; 0xc; 0xf9; 0x0;
     0x0; 0x3f; 0xc0; 0x0; 0x1e; 0xf5; 0x0; 0x3;
     0xfc; 0x0; 0x0; 0x4f; 0xf2; 0x0; 0x3f; 0xc0;
     0x0; 0x0; 0x8f; 0xd0; 0x3; 0xfc; 0x0; 0x0;
     0x0; 0xcf; 0xa0];
  (* U+004C *)
    [0x3f; 0xc0; 0x0; 0x0; 0x0; 0x3f; 0xc0; 0x0;
     0x0; 0x0; 0x3f; 0xc0; 0x0; 0x0; 0x0; 0x3f;
     0xc0; 0x0; 0x0; 0x0; 0x3f; 0xc0; 0x0; 0x0;
     0x0; 0x3f; 0xc0; 0x0; 0x0; 0x0; 0x3f; 0xc0;
     0x0; 0x0; 0x0; 0x3f; 0xc0; 0x0; 0x0; 0x0;
     0x3f; 0xc0; 0x0; 0x0; 0x0; 0x3f; 0xc0; 0x0;
     0x0; 0x0; 0x3f; 0xc0; 0x0; 0x0; 0x0; 0x3f;
     0xc0; 0x0; 0x0; 0x0; 0x3f; 0xfd; 0xdd; 0xdd;
     0xd6; 0x3f; 0xff; 0xff; 0xff; 0xf7];
  (* U+004D *)
    [0x3f; 0xfa; 0x0; 0x0; 0x0; 0x0; 0xb; 0xff;
     0x23; 0xff; 0xf1; 0x0; 0x0; 0x0; 0x2; 0xff;
     0xf2; 0x3f; 0xff; 0x80; 0x0; 0x0; 0x0; 0x9f;
     0xff; 0x23; 0xfd; 0xff; 0x0; 0x0; 0x0; 0x1f;
     0xfd; 0xf2; 0x3f; 0xba; 0xf6; 0x0; 0x0; 0x7;
     0xf8; 0xdf; 0x23; 0xfb; 0x3f; 0xd0; 0x0; 0x0;
     0xef; 0x2d; 0xf2; 0x3f; 0xb0; 0xcf; 0x40; 0x0;
     0x6f; 0xa0; 0xdf; 0x23; 0xfb; 0x5; 0xfb; 0x0;
     0xd; 0xf3; 0xd; 0xf2; 0x3f; 0xb0; 0xd; 0xf2;
     0x4; 0xfc; 0x0; 0xdf; 0x23; 0xfb; 0x0; 0x7f;
     0x90; 0xbf; 0x50; 0xd; 0xf2; 0x3f; 0xb0; 0x0;
     0xff; 0x3f; 0xe0; 0x0; 0xdf; 0x23; 0xfb; 0x0;
     0x8; 0xfe; 0xf7; 0x0; 0xd; 0xf2; 0x3f; 0xb0;
     0x0; 0x2f; 0xff; 0x0; 0x0; 0xdf; 0x23; 0xfb;
     0x0; 0x0; 0xaf; 0x90; 0x0; 0xd; 0xf2];
  (* U+004E *)
    [0x3f; 0xfb; 0x0; 0x0; 0x0; 0x8f; 0x73; 0xff;
     0xf6; 0x0; 0x0; 0x8; 0xf7; 0x3f; 0xff; 0xf1;
     0x0; 0x0; 0x8f; 0x73; 0xfc; 0xaf; 0xb0; 0x0;
     0x8; 0xf7; 0x3f; 0xc1; 0xef; 0x60; 0x0; 0x8f;
     0x73; 0xfc; 0x4; 0xff; 0x10; 0x8; 0xf7; 0x3f;
     0xc0; 0x9; 0xfb; 0x0; 0x8f; 0x73; 0xfc; 0x0;
     0xe; 0xf5; 0x8; 0xf7; 0x3f; 0xc0; 0x0; 0x4f;
     0xe1; 0x8f; 0x73; 0xfc; 0x0; 0x0; 0x9f; 0xa8;
     0xf7; 0x3f; 0xc0; 0x0; 0x0; 0xef; 0xdf; 0x73;
     0xfc; 0x0; 0x0; 0x4; 0xff; 0xf7; 0x3f; 0xc0;
     0x0; 0x0; 0x9; 0xff; 0x73; 0xfc; 0x0; 0x0;
     0x0; 0xd; 0xf7];
  (* U+004F *)
    [0x0; 0x0; 0x28; 0xdf; 0xfd; 0x82; 0x0; 0x0;
     0x0; 0x7; 0xff; 0xfd; 0xdf; 0xff; 0x70; 0x0;
     0x0; 0x7f; 0xf6; 0x0; 0x0; 0x6e; 0xf8; 0x0;
     0x3; 0xff; 0x20; 0x0; 0x0; 0x2; 0xff; 0x30;
     0xa; 0xf7; 0x0; 0x0; 0x0; 0x0; 0x7f; 0xb0;
     0xe; 0xf1; 0x0; 0x0; 0x0; 0x0; 0x1f; 0xf0;
     0xf; 0xf0; 0x0; 0x0; 0x0; 0x0; 0xe; 0xf1;
     0xf; 0xf0; 0x0; 0x0; 0x0; 0x0; 0xe; 0xf1;
     0xe; 0xf1; 0x0; 0x0; 0x0; 0x0; 0x1f; 0xf0;
     0xa; 0xf7; 0x0; 0x0; 0x0; 0x0; 0x7f; 0xb0;
     0x3; 0xff; 0x20; 0x0; 0x0; 0x2; 0xff; 0x30;
     0x0; 0x7f; 0xf6; 0x0; 0x0; 0x6e; 0xf8; 0x0;
     0x0; 0x7; 0xff; 0xfd; 0xdf; 0xff; 0x70; 0x0;
     0x0; 0x0; 0x28; 0xdf; 0xfd; 0x92; 0x0; 0x0];
  (* U+0050 *)
    [0x3f; 0xff; 0xff; 0xfb; 0x30; 0x3; 0xff; 0xcc;
     0xce; 0xff; 0x60; 0x3f; 0xc0; 0x0; 0x6; 0xff;
     0x3; 0xfc; 0x0; 0x0; 0xc; 0xf4; 0x3f; 0xc0;
     0x0; 0x0; 0xcf; 0x43; 0xfc; 0x0; 0x0; 0x6f;
     0xf1; 0x3f; 0xfc; 0xcc; 0xef; 0xf6; 0x3; 0xff;
     0xff; 0xff; 0xc4; 0x0; 0x3f; 0xc0; 0x0; 0x0;
     0x0; 0x3; 0xfc; 0x0; 0x0; 0x0; 0x0; 0x3f;
     0xc0; 0x0; 0x0; 0x0; 0x3; 0xfc; 0x0; 0x0;
     0x0; 0x0; 0x3f; 0xc0; 0x0; 0x0; 0x0; 0x3;
     0xfc; 0x0; 0x0; 0x0; 0x0];
  (* U+0051 *)
    [0x0; 0x0; 0x28; 0xdf; 0xfd; 0x82; 0x0; 0x0;
     0x0; 0x7; 0xff; 0xfd; 0xdf; 0xff; 0x70; 0x0;
     0x0; 0x7f; 0xf6; 0x0; 0x0; 0x6e; 0xf8; 0x0;
     0x3; 0xff; 0x20; 0x0; 0x0; 0x2; 0xef; 0x30;
     0xa; 0xf7; 0x0; 0x0; 0x0; 0x0; 0x6f; 0xb0;
     0xe; 0xf1; 0x0; 0x0; 0x0; 0x0; 0x1f; 0xf0;
     0xf; 0xf0; 0x0; 0x0; 0x0; 0x0; 0xe; 0xf1;
     0xf; 0xf0; 0x0; 0x0; 0x0; 0x0; 0xe; 0xf1;
     0xe; 0xf1; 0x0; 0x0; 0x5c; 0x10; 0x1f; 0xf0;
     0xa; 0xf7; 0x0; 0x0; 0x8f; 0xc1; 0x7f; 0xa0;
     0x3; 0xff; 0x20; 0x0; 0x9; 0xfc; 0xff; 0x20;
     0x0; 0x7f; 0xf6; 0x0; 0x0; 0xdf; 0xf7; 0x0;
     0x0; 0x7; 0xff; 0xfd; 0xdf; 0xff; 0xfb; 0x0;
     0x0; 0x0; 0x28; 0xdf; 0xfc; 0x82; 0xcf; 0x80;
     0x0; 0x0; 0x0; 0x0; 0x0; 0x0; 0x1a; 0x10];
  (* U+0052 *)
    [0x3f; 0xff; 0xff; 0xfc; 0x60; 0x3; 0xff; 0xcc;
     0xce; 0xff; 0x90; 0x3f; 0xc0; 0x0; 0x4; 0xff;
     0x23; 0xfc; 0x0; 0x0; 0xa; 0xf6; 0x3f; 0xc0;
     0x0; 0x0; 0xaf; 0x63; 0xfc; 0x0; 0x0; 0x4f;
     0xf2; 0x3f; 0xfc; 0xcc; 0xef; 0xf8; 0x3; 0xff;
     0xff; 0xff; 0xb4; 0x0; 0x3f; 0xc0; 0xd; 0xf6;
     0x0; 0x3; 0xfc; 0x0; 0x4f; 0xe0; 0x0; 0x3f;
     0xc0; 0x0; 0xbf; 0x70; 0x3; 0xfc; 0x0; 0x3;
     0xff; 0x10; 0x3f; 0xc0; 0x0; 0xa; 0xf9; 0x3;
     0xfc; 0x0; 0x0; 0x2f; 0xf2];
  (* U+0053 *)
    [0x0; 0x4; 0xbf; 0xfd; 0x70; 0x0; 0x8; 0xff;
     0xdc; 0xff; 0xc0; 0x4; 0xfe; 0x20; 0x1; 0xcf;
     0x70; 0x9f; 0x70; 0x0; 0x1; 0xd6; 0x8; 0xf7;
     0x0; 0x0; 0x0; 0x0; 0x4f; 0xe5; 0x0; 0x0;
     0x0; 0x0; 0x7f; 0xff; 0xd9; 0x40; 0x0; 0x0;
     0x28; 0xcf; 0xff; 0xa0; 0x0; 0x0; 0x0; 0x3;
     0xdf; 0x80; 0x46; 0x0; 0x0; 0x3; 0xfd; 0x1f;
     0xe1; 0x0; 0x0; 0x2f; 0xe0; 0xbf; 0xb2; 0x0;
     0x1b; 0xf9; 0x1; 0xdf; 0xfd; 0xdf; 0xfd; 0x10;
     0x0; 0x7d; 0xff; 0xd7; 0x0];
  (* U+0054 *)
    [0xcf; 0xff; 0xff; 0xff; 0xff; 0xfa; 0xad; 0xdd;
     0xdf; 0xfd; 0xdd; 0xd8; 0x0; 0x0; 0x1f; 0xe0;
     0x0; 0x0; 0x0; 0x0; 0x1f; 0xe0; 0x0; 0x0;
     0x0; 0x0; 0x1f; 0xe0; 0x0; 0x0; 0x0; 0x0;
     0x1f; 0xe0; 0x0; 0x0; 0x0; 0x0; 0x1f; 0xe0;
     0x0; 0x0; 0x0; 0x0; 0x1f; 0xe0; 0x0; 0x0;
     0x0; 0x0; 0x1f; 0xe0; 0x0; 0x0; 0x0; 0x0;
     0x1f; 0xe0; 0x0; 0x0; 0x0; 0x0; 0x1f; 0xe0;
     0x0; 0x0; 0x0; 0x0; 0x1f; 0xe0; 0x0; 0x0;
     0x0; 0x0; 0x1f; 0xe0; 0x0; 0x0; 0x0; 0x0;
     0x1f; 0xe0; 0x0; 0x0]].
Definition glyph_bitmap_0055 : list (list Z) := [
  (* U+0055 *)
    [0x6f; 0x80; 0x0; 0x0; 0x2f; 0xc6; 0xf8; 0x0;
     0x0; 0x2; 0xfc; 0x6f; 0x80; 0x0; 0x0; 0x2f;
     0xc6; 0xf8; 0x0; 0x0; 0x2; 0xfc; 0x6f; 0x80;
     0x0; 0x0; 0x2f; 0xc6; 0xf8; 0x0; 0x0; 0x2;
     0xfc; 0x6f; 0x80; 0x0; 0x0; 0x2f; 0xc6; 0xf8;
     0x0; 0x0; 0x2; 0xfc; 0x6f; 0x80; 0x0; 0x0;
     0x2f; 0xc5; 0xfa; 0x0; 0x0; 0x3; 0xfc; 0x3f;
     0xd0; 0x0; 0x0; 0x8f; 0x90; 0xdf; 0xa1; 0x0;
     0x5f; 0xf3; 0x3; 0xff; 0xfd; 0xff; 0xf8; 0x0;
     0x1; 0x9d; 0xfe; 0xb4; 0x0];
  (* U+0056 *)
    [0x9f; 0x70; 0x0; 0x0; 0x0; 0x5f; 0xb3; 0xfd;
     0x0; 0x0; 0x0; 0xb; 0xf5; 0xd; 0xf3; 0x0;
     0x0; 0x1; 0xfe; 0x0; 0x7f; 0x90; 0x0; 0x0;
     0x7f; 0x90; 0x1; 0xfe; 0x0; 0x0; 0xd; 0xf2;
     0x0; 0xb; 0xf5; 0x0; 0x2; 0xfc; 0x0; 0x0;
     0x5f; 0xb0; 0x0; 0x9f; 0x60; 0x0; 0x0; 0xef;
     0x10; 0xe; 0xf0; 0x0; 0x0; 0x8; 0xf7; 0x4;
     0xfa; 0x0; 0x0; 0x0; 0x2f; 0xc0; 0xaf; 0x30;
     0x0; 0x0; 0x0; 0xcf; 0x4f; 0xd0; 0x0; 0x0;
     0x0; 0x6; 0xfe; 0xf7; 0x0; 0x0; 0x0; 0x0;
     0xf; 0xff; 0x10; 0x0; 0x0; 0x0; 0x0; 0xaf;
     0xa0; 0x0; 0x0];
  (* U+0057 *)
    [0x8f; 0x70; 0x0; 0x0; 0x2f; 0xf3; 0x0; 0x0;
     0x6; 0xfa; 0x4f; 0xb0; 0x0; 0x0; 0x7f; 0xf8;
     0x0; 0x0; 0xa; 0xf5; 0xf; 0xf0; 0x0; 0x0;
     0xdf; 0xfe; 0x0; 0x0; 0xe; 0xf1; 0xa; 0xf4;
     0x0; 0x2; 0xfb; 0xbf; 0x30; 0x0; 0x3f; 0xc0;
     0x6; 0xf9; 0x0; 0x7; 0xf6; 0x6f; 0x80; 0x0;
     0x7f; 0x70; 0x1; 0xfe; 0x0; 0xc; 0xf1; 0x1f;
     0xd0; 0x0; 0xcf; 0x30; 0x0; 0xcf; 0x20; 0x1f;
     0xc0; 0xb; 0xf3; 0x0; 0xfe; 0x0; 0x0; 0x8f;
     0x70; 0x7f; 0x70; 0x6; 0xf8; 0x4; 0xf9; 0x0;
     0x0; 0x3f; 0xb0; 0xcf; 0x20; 0x1; 0xfd; 0x9;
     0xf5; 0x0; 0x0; 0xe; 0xf2; 0xfc; 0x0; 0x0;
     0xcf; 0x2d; 0xf0; 0x0; 0x0; 0x9; 0xfb; 0xf7;
     0x0; 0x0; 0x6f; 0xaf; 0xb0; 0x0; 0x0; 0x5;
     0xff; 0xf2; 0x0; 0x0; 0x1f; 0xff; 0x70; 0x0;
     0x0; 0x0; 0xff; 0xd0; 0x0; 0x0; 0xc; 0xff;
     0x20; 0x0; 0x0; 0x0; 0xbf; 0x80; 0x0; 0x0;
     0x7; 0xfe; 0x0; 0x0];
  (* U+0058 *)
    [0x6f; 0xd0; 0x0; 0x0; 0x8; 0xfc; 0x0; 0xbf;
     0x90; 0x0; 0x3; 0xff; 0x20; 0x1; 0xef; 0x30;
     0x0; 0xdf; 0x60; 0x0; 0x5; 0xfd; 0x0; 0x8f;
     0xb0; 0x0; 0x0; 0xa; 0xf8; 0x2f; 0xe1; 0x0;
     0x0; 0x0; 0x1e; 0xfd; 0xf5; 0x0; 0x0; 0x0;
     0x0; 0x4f; 0xfa; 0x0; 0x0; 0x0; 0x0; 0x4;
     0xff; 0xa0; 0x0; 0x0; 0x0; 0x1; 0xef; 0xdf;
     0x50; 0x0; 0x0; 0x0; 0xbf; 0x83; 0xfe; 0x10;
     0x0; 0x0; 0x6f; 0xd0; 0x8; 0xfb; 0x0; 0x0;
     0x2f; 0xf3; 0x0; 0xd; 0xf6; 0x0; 0xc; 0xf8;
     0x0; 0x0; 0x4f; 0xf1; 0x7; 0xfd; 0x0; 0x0;
     0x0; 0x9f; 0xb0];
  (* U+0059 *)
    [0x7f; 0xd0; 0x0; 0x0; 0x6; 0xfd; 0x0; 0xdf;
     0x70; 0x0; 0x0; 0xef; 0x30; 0x3; 0xff; 0x10;
     0x0; 0x8f; 0x90; 0x0; 0x9; 0xf9; 0x0; 0x2f;
     0xe1; 0x0; 0x0; 0x1e; 0xf3; 0xb; 0xf5; 0x0;
     0x0; 0x0; 0x5f; 0xc5; 0xfb; 0x0; 0x0; 0x0;
     0x0; 0xbf; 0xff; 0x20; 0x0; 0x0; 0x0; 0x2;
     0xff; 0x70; 0x0; 0x0; 0x0; 0x0; 0xc; 0xf2;
     0x0; 0x0; 0x0; 0x0; 0x0; 0xcf; 0x20; 0x0;
     0x0; 0x0; 0x0; 0xc; 0xf2; 0x0; 0x0; 0x0;
     0x0; 0x0; 0xcf; 0x20; 0x0; 0x0; 0x0; 0x0;
     0xc; 0xf2; 0x0; 0x0; 0x0; 0x0; 0x0; 0xcf;
     0x20; 0x0; 0x0];
  (* U+005A *)
    [0xe; 0xff; 0xff; 0xff; 0xff; 0xfb; 0xc; 0xdd;
     0xdd; 0xdd; 0xdf; 0xfb; 0x0; 0x0; 0x0; 0x0;
     0x3f; 0xf4; 0x0; 0x0; 0x0; 0x1; 0xef; 0x60;
     0x0; 0x0; 0x0; 0xc; 0xf9; 0x0; 0x0; 0x0;
     0x0; 0xaf; 0xb0; 0x0; 0x0; 0x0; 0x8; 0xfd;
     0x10; 0x0; 0x0; 0x0; 0x5f; 0xf2; 0x0; 0x0;
     0x0; 0x3; 0xff; 0x40; 0x0; 0x0; 0x0; 0x1e;
     0xf6; 0x0; 0x0; 0x0; 0x0; 0xcf; 0x90; 0x0;
     0x0; 0x0; 0xa; 0xfb; 0x0; 0x0; 0x0; 0x0;
     0x1f; 0xfe; 0xdd; 0xdd; 0xdd; 0xdb; 0x1f; 0xff;
     0xff; 0xff; 0xff; 0xfd];
  (* U+005B *)
    [0x3f; 0xff; 0xa3; 0xfb; 0x85; 0x3f; 0x70; 0x3;
     0xf7; 0x0; 0x3f; 0x70; 0x3; 0xf7; 0x0; 0x3f;
     0x70; 0x3; 0xf7; 0x0; 0x3f; 0x70; 0x3; 0xf7;
     0x0; 0x3f; 0x70; 0x3; 0xf7; 0x0; 0x3f; 0x70;
     0x3; 0xf7; 0x0; 0x3f; 0x70; 0x3; 0xf7; 0x0;
     0x3f; 0x70; 0x3; 0xfb; 0x85; 0x3f; 0xff; 0xa0];
  (* U+005C *)
    [0xcf; 0x10; 0x0; 0x0; 0x4; 0xf9; 0x0; 0x0;
     0x0; 0xc; 0xf1; 0x0; 0x0; 0x0; 0x4f; 0x90;
     0x0; 0x0; 0x0; 0xcf; 0x10; 0x0; 0x0; 0x5;
     0xf8; 0x0; 0x0; 0x0; 0xd; 0xf1; 0x0; 0x0;
     0x0; 0x5f; 0x80; 0x0; 0x0; 0x0; 0xdf; 0x0;
     0x0; 0x0; 0x6; 0xf7; 0x0; 0x0; 0x0; 0xd;
     0xe0; 0x0; 0x0; 0x0; 0x6f; 0x70; 0x0; 0x0;
     0x0; 0xee; 0x0; 0x0; 0x0; 0x6; 0xf7];
  (* U+005D *)
    [0xef; 0xff; 0x78; 0xdf; 0x0; 0xbf; 0x0; 0xbf;
     0x0; 0xbf; 0x0; 0xbf; 0x0; 0xbf; 0x0; 0xbf;
     0x0; 0xbf; 0x0; 0xbf; 0x0; 0xbf; 0x0; 0xbf;
     0x0; 0xbf; 0x0; 0xbf; 0x0; 0xbf; 0x0; 0xbf;
     0x0; 0xbf; 0x78; 0xdf; 0xef; 0xff];
  (* U+005E *)
    [0x0; 0x0; 0xdf; 0x50; 0x0; 0x0; 0x7; 0xff;
     0xd0; 0x0; 0x0; 0x1e; 0xe8; 0xf6; 0x0; 0x0;
     0x9f; 0x50; 0xee; 0x0; 0x2; 0xfd; 0x0; 0x6f;
     0x80; 0xa; 0xf4; 0x0; 0xd; 0xf1; 0x3f; 0xc0;
     0x0; 0x5; 0xfa];
  (* U+005F *)
    [0x69; 0x99; 0x99; 0x99; 0x99; 0x5b; 0xff; 0xff;
     0xff; 0xff; 0xf8];
  (* U+0060 *)
    [0xd; 0xf5; 0x0; 0x2e; 0xd0; 0x0; 0x3f; 0x70];
  (* U+0061 *)
    [0x2; 0xae; 0xfd; 0x60; 0x2; 0xef; 0xba; 0xef;
     0x80; 0x9f; 0x60; 0x1; 0xef; 0x2; 0x60; 0x0;
     0xd; 0xf1; 0x2; 0x8b; 0xdf; 0xff; 0x25; 0xff;
     0xa7; 0x5d; 0xf2; 0xdf; 0x10; 0x0; 0xef; 0x2e;
     0xf1; 0x0; 0x5f; 0xf2; 0x9f; 0xda; 0xcf; 0xdf;
     0x20; 0x8e; 0xfc; 0x4a; 0xf3];
  (* U+0062 *)
    [0x6f; 0x70; 0x0; 0x0; 0x0; 0x6; 0xf7; 0x0;
     0x0; 0x0; 0x0; 0x6f; 0x70; 0x0; 0x0; 0x0;
     0x6; 0xf7; 0x0; 0x0; 0x0; 0x0; 0x6f; 0x70;
     0x0; 0x0; 0x0; 0x6; 0xf7; 0x5d; 0xfe; 0x91;
     0x0; 0x6f; 0xdf; 0xdb; 0xef; 0xd1; 0x6; 0xff;
     0x60; 0x0; 0xbf; 0x80; 0x6f; 0xb0; 0x0; 0x2;
     0xfe; 0x6; 0xf8; 0x0; 0x0; 0xe; 0xf0; 0x6f;
     0x80; 0x0; 0x0; 0xef; 0x6; 0xfc; 0x0; 0x0;
     0x2f; 0xd0; 0x6f; 0xf7; 0x0; 0x1c; 0xf8; 0x6;
     0xfd; 0xfd; 0xcf; 0xfd; 0x0; 0x6f; 0x76; 0xdf;
     0xe9; 0x0; 0x0]].
Definition glyph_bitmap_0063 : list (list Z) := [
  (* U+0063 *)
    [0x0; 0x7; 0xdf; 0xe9; 0x10; 0x0; 0xcf; 0xfc;
     0xef; 0xe2; 0x9; 0xfb; 0x10; 0x8; 0xfa; 0xf;
     0xf1; 0x0; 0x0; 0x83; 0x2f; 0xc0; 0x0; 0x0;
     0x0; 0x2f; 0xc0; 0x0; 0x0; 0x0; 0xf; 0xf1;
     0x0; 0x0; 0x62; 0x8; 0xfb; 0x10; 0x6; 0xfc;
     0x0; 0xcf; 0xfc; 0xef; 0xe2; 0x0; 0x8; 0xdf;
     0xea; 0x20];
  (* U+0064 *)
    [0x0; 0x0; 0x0; 0x0; 0xbf; 0x20; 0x0; 0x0;
     0x0; 0xb; 0xf2; 0x0; 0x0; 0x0; 0x0; 0xbf;
     0x20; 0x0; 0x0; 0x0; 0xb; 0xf2; 0x0; 0x0;
     0x0; 0x0; 0xbf; 0x20; 0x1; 0x8e; 0xfd; 0x5b;
     0xf2; 0x1; 0xdf; 0xeb; 0xdf; 0xef; 0x20; 0x9f;
     0xa0; 0x0; 0x9f; 0xf2; 0xf; 0xf1; 0x0; 0x0;
     0xef; 0x22; 0xfc; 0x0; 0x0; 0xb; 0xf2; 0x2f;
     0xc0; 0x0; 0x0; 0xcf; 0x20; 0xff; 0x10; 0x0;
     0xf; 0xf2; 0xa; 0xfa; 0x0; 0xa; 0xff; 0x20;
     0x1d; 0xfe; 0xbd; 0xfd; 0xf2; 0x0; 0x19; 0xef;
     0xc4; 0x9f; 0x30];
  (* U+0065 *)
    [0x0; 0x8; 0xdf; 0xe8; 0x10; 0x0; 0xc; 0xfd;
     0xbd; 0xfd; 0x10; 0x9; 0xf8; 0x0; 0x8; 0xf8;
     0x0; 0xfe; 0x22; 0x22; 0x2f; 0xe0; 0x2f; 0xff;
     0xff; 0xff; 0xff; 0x2; 0xfe; 0x55; 0x55; 0x55;
     0x50; 0xf; 0xf1; 0x0; 0x0; 0x73; 0x0; 0x9f;
     0xa0; 0x0; 0x5f; 0xb0; 0x0; 0xdf; 0xeb; 0xcf;
     0xe2; 0x0; 0x0; 0x8d; 0xfd; 0x91; 0x0];
  (* U+0066 *)
    [0x0; 0x8; 0xef; 0x60; 0x7; 0xff; 0xc5; 0x0;
     0xcf; 0x40; 0x0; 0xd; 0xf2; 0x0; 0x9f; 0xff;
     0xff; 0x76; 0xbf; 0xfc; 0xb5; 0x0; 0xdf; 0x20;
     0x0; 0xd; 0xf2; 0x0; 0x0; 0xdf; 0x20; 0x0;
     0xd; 0xf2; 0x0; 0x0; 0xdf; 0x20; 0x0; 0xd;
     0xf2; 0x0; 0x0; 0xdf; 0x20; 0x0; 0xd; 0xf2;
     0x0];
  (* U+0067 *)
    [0x0; 0x8; 0xef; 0xd5; 0xbf; 0x20; 0xc; 0xfd;
     0xad; 0xfe; 0xf2; 0x7; 0xfb; 0x0; 0x8; 0xff;
     0x20; 0xdf; 0x10; 0x0; 0xe; 0xf2; 0xf; 0xe0;
     0x0; 0x0; 0xbf; 0x20; 0xfe; 0x0; 0x0; 0xb;
     0xf2; 0xe; 0xf1; 0x0; 0x0; 0xef; 0x20; 0x8f;
     0xa0; 0x0; 0x8f; 0xf2; 0x0; 0xdf; 0xda; 0xcf;
     0xef; 0x20; 0x0; 0x9e; 0xfc; 0x4b; 0xf1; 0x5;
     0x70; 0x0; 0x0; 0xdf; 0x0; 0xef; 0x40; 0x0;
     0x6f; 0xb0; 0x4; 0xff; 0xca; 0xdf; 0xe2; 0x0;
     0x2; 0xae; 0xfe; 0x91; 0x0];
  (* U+0068 *)
    [0x6f; 0x70; 0x0; 0x0; 0x6; 0xf7; 0x0; 0x0;
     0x0; 0x6f; 0x70; 0x0; 0x0; 0x6; 0xf7; 0x0;
     0x0; 0x0; 0x6f; 0x70; 0x0; 0x0; 0x6; 0xf7;
     0x7d; 0xfd; 0x40; 0x6f; 0xef; 0xce; 0xff; 0x36;
     0xff; 0x20; 0x9; 0xfa; 0x6f; 0x90; 0x0; 0x2f;
     0xc6; 0xf7; 0x0; 0x0; 0xfd; 0x6f; 0x70; 0x0;
     0xf; 0xd6; 0xf7; 0x0; 0x0; 0xfd; 0x6f; 0x70;
     0x0; 0xf; 0xd6; 0xf7; 0x0; 0x0; 0xfd; 0x6f;
     0x70; 0x0; 0xf; 0xd0];
  (* U+0069 *)
    [0x7f; 0x7c; 0xfd; 0x3a; 0x40; 0x0; 0x0; 0x6;
     0xf7; 0x6f; 0x76; 0xf7; 0x6f; 0x76; 0xf7; 0x6f;
     0x76; 0xf7; 0x6f; 0x76; 0xf7; 0x6f; 0x70];
  (* U+006A *)
    [0x0; 0x6f; 0x70; 0xc; 0xfd; 0x0; 0x4b; 0x40;
     0x0; 0x0; 0x0; 0x0; 0x0; 0x6; 0xf7; 0x0;
     0x6f; 0x70; 0x6; 0xf7; 0x0; 0x6f; 0x70; 0x6;
     0xf7; 0x0; 0x6f; 0x70; 0x6; 0xf7; 0x0; 0x6f;
     0x70; 0x6; 0xf7; 0x0; 0x6f; 0x70; 0x6; 0xf7;
     0x0; 0x8f; 0x63; 0xbf; 0xf2; 0x4f; 0xd5; 0x0];
  (* U+006B *)
    [0x6f; 0x70; 0x0; 0x0; 0x0; 0x6f; 0x70; 0x0;
     0x0; 0x0; 0x6f; 0x70; 0x0; 0x0; 0x0; 0x6f;
     0x70; 0x0; 0x0; 0x0; 0x6f; 0x70; 0x0; 0x0;
     0x0; 0x6f; 0x70; 0x0; 0xcf; 0xb0; 0x6f; 0x70;
     0xc; 0xfb; 0x0; 0x6f; 0x70; 0xbf; 0xc0; 0x0;
     0x6f; 0x7a; 0xfc; 0x0; 0x0; 0x6f; 0xef; 0xf5;
     0x0; 0x0; 0x6f; 0xfd; 0xfe; 0x10; 0x0; 0x6f;
     0xd1; 0x8f; 0xc0; 0x0; 0x6f; 0x70; 0xd; 0xf7;
     0x0; 0x6f; 0x70; 0x2; 0xff; 0x30; 0x6f; 0x70;
     0x0; 0x6f; 0xd0];
  (* U+006C *)
    [0x6f; 0x76; 0xf7; 0x6f; 0x76; 0xf7; 0x6f; 0x76;
     0xf7; 0x6f; 0x76; 0xf7; 0x6f; 0x76; 0xf7; 0x6f;
     0x76; 0xf7; 0x6f; 0x76; 0xf7; 0x6f; 0x70];
  (* U+006D *)
    [0x6f; 0x67; 0xef; 0xb2; 0x7; 0xdf; 0xc3; 0x6;
     0xfe; 0xfb; 0xdf; 0xe9; 0xfb; 0xcf; 0xf2; 0x6f;
     0xe1; 0x0; 0xaf; 0xf3; 0x0; 0x8f; 0x96; 0xf8;
     0x0; 0x5; 0xfb; 0x0; 0x2; 0xfb; 0x6f; 0x70;
     0x0; 0x4f; 0xa0; 0x0; 0x2f; 0xb6; 0xf7; 0x0;
     0x4; 0xfa; 0x0; 0x2; 0xfb; 0x6f; 0x70; 0x0;
     0x4f; 0xa0; 0x0; 0x2f; 0xb6; 0xf7; 0x0; 0x4;
     0xfa; 0x0; 0x2; 0xfb; 0x6f; 0x70; 0x0; 0x4f;
     0xa0; 0x0; 0x2f; 0xb6; 0xf7; 0x0; 0x4; 0xfa;
     0x0; 0x2; 0xfb];
  (* U+006E *)
    [0x6f; 0x76; 0xdf; 0xd4; 0x6; 0xfd; 0xfc; 0xef;
     0xf3; 0x6f; 0xf2; 0x0; 0x9f; 0xa6; 0xfa; 0x0;
     0x2; 0xfc; 0x6f; 0x70; 0x0; 0xf; 0xd6; 0xf7;
     0x0; 0x0; 0xfd; 0x6f; 0x70; 0x0; 0xf; 0xd6;
     0xf7; 0x0; 0x0; 0xfd; 0x6f; 0x70; 0x0; 0xf;
     0xd6; 0xf7; 0x0; 0x0; 0xfd];
  (* U+006F *)
    [0x0; 0x7; 0xdf; 0xea; 0x20; 0x0; 0xc; 0xfe;
     0xbd; 0xff; 0x40; 0x9; 0xfb; 0x10; 0x5; 0xff;
     0x10; 0xff; 0x10; 0x0; 0x9; 0xf6; 0x2f; 0xc0;
     0x0; 0x0; 0x5f; 0x92; 0xfc; 0x0; 0x0; 0x5;
     0xf9; 0xf; 0xf1; 0x0; 0x0; 0x9f; 0x60; 0x9f;
     0xb0; 0x0; 0x5f; 0xf1; 0x0; 0xcf; 0xeb; 0xdf;
     0xf4; 0x0; 0x0; 0x7d; 0xfe; 0xa2; 0x0];
  (* U+0070 *)
    [0x6f; 0x67; 0xdf; 0xe9; 0x10; 0x6; 0xfe; 0xf9;
     0x7c; 0xfd; 0x10; 0x6f; 0xf4; 0x0; 0xa; 0xf8;
     0x6; 0xfb; 0x0; 0x0; 0x1f; 0xe0; 0x6f; 0x70;
     0x0; 0x0; 0xef; 0x6; 0xf8; 0x0; 0x0; 0xf;
     0xf0; 0x6f; 0xc0; 0x0; 0x3; 0xfd; 0x6; 0xff;
     0x70; 0x1; 0xcf; 0x80; 0x6f; 0xdf; 0xec; 0xff;
     0xd0; 0x6; 0xf7; 0x6d; 0xfe; 0x81; 0x0; 0x6f;
     0x70; 0x0; 0x0; 0x0; 0x6; 0xf7; 0x0; 0x0;
     0x0; 0x0; 0x6f; 0x70; 0x0; 0x0; 0x0; 0x6;
     0xf7; 0x0; 0x0; 0x0; 0x0];
  (* U+0071 *)
    [0x0; 0x19; 0xef; 0xc4; 0x9f; 0x30; 0x1e; 0xfe;
     0xbe; 0xfd; 0xf3; 0xa; 0xf9; 0x0; 0x9; 0xff;
     0x30; 0xff; 0x0; 0x0; 0xe; 0xf3; 0x2f; 0xc0;
     0x0; 0x0; 0xbf; 0x32; 0xfc; 0x0; 0x0; 0xb;
     0xf3; 0xf; 0xf1; 0x0; 0x0; 0xef; 0x30; 0x9f;
     0xa0; 0x0; 0x9f; 0xf3; 0x1; 0xdf; 0xeb; 0xef;
     0xdf; 0x30; 0x1; 0x9e; 0xfd; 0x5a; 0xf3; 0x0;
     0x0; 0x0; 0x0; 0xaf; 0x30; 0x0; 0x0; 0x0;
     0xa; 0xf3; 0x0; 0x0; 0x0; 0x0; 0xaf; 0x30;
     0x0; 0x0; 0x0; 0xa; 0xf3]].
Definition glyph_bitmap_0072 : list (list Z) := [
  (* U+0072 *)
    [0x6f; 0x77; 0xee; 0x6f; 0xdf; 0xfd; 0x6f; 0xf6;
     0x0; 0x6f; 0xb0; 0x0; 0x6f; 0x80; 0x0; 0x6f;
     0x70; 0x0; 0x6f; 0x70; 0x0; 0x6f; 0x70; 0x0;
     0x6f; 0x70; 0x0; 0x6f; 0x70; 0x0];
  (* U+0073 *)
    [0x0; 0x6d; 0xfd; 0x70; 0x0; 0x7f; 0xda; 0xef;
     0x80; 0xe; 0xe0; 0x0; 0xdb; 0x0; 0xef; 0x20;
     0x0; 0x0; 0x6; 0xff; 0xea; 0x40; 0x0; 0x3;
     0x9d; 0xff; 0x80; 0x1; 0x20; 0x2; 0xef; 0x2;
     0xfc; 0x0; 0xd; 0xf0; 0xb; 0xfd; 0xac; 0xfa;
     0x0; 0x7; 0xef; 0xd8; 0x0];
  (* U+0074 *)
    [0x0; 0x9f; 0x20; 0x0; 0x9; 0xf2; 0x0; 0x2;
     0xdf; 0x20; 0x9; 0xff; 0xff; 0xf3; 0x6b; 0xef;
     0xcb; 0x20; 0xc; 0xf2; 0x0; 0x0; 0xcf; 0x20;
     0x0; 0xc; 0xf2; 0x0; 0x0; 0xcf; 0x20; 0x0;
     0xc; 0xf2; 0x0; 0x0; 0xbf; 0x30; 0x0; 0x7;
     0xfe; 0xb2; 0x0; 0x9; 0xef; 0x20];
  (* U+0075 *)
    [0x8f; 0x60; 0x0; 0x2f; 0xb8; 0xf6; 0x0; 0x2;
     0xfb; 0x8f; 0x60; 0x0; 0x2f; 0xb8; 0xf6; 0x0;
     0x2; 0xfb; 0x8f; 0x60; 0x0; 0x2f; 0xb8; 0xf6;
     0x0; 0x2; 0xfb; 0x6f; 0x70; 0x0; 0x4f; 0xb4;
     0xfd; 0x0; 0xa; 0xfb; 0xc; 0xfe; 0xbd; 0xef;
     0xb0; 0x9; 0xef; 0xb3; 0xfc];
  (* U+0076 *)
    [0x9f; 0x70; 0x0; 0x5; 0xfa; 0x3f; 0xd0; 0x0;
     0xb; 0xf4; 0xd; 0xf3; 0x0; 0x1f; 0xd0; 0x7;
     0xf8; 0x0; 0x6f; 0x70; 0x1; 0xfe; 0x0; 0xcf;
     0x10; 0x0; 0xaf; 0x42; 0xfb; 0x0; 0x0; 0x4f;
     0xa8; 0xf5; 0x0; 0x0; 0xd; 0xfd; 0xe0; 0x0;
     0x0; 0x7; 0xff; 0x90; 0x0; 0x0; 0x1; 0xff;
     0x30; 0x0];
  (* U+0077 *)
    [0x8f; 0x80; 0x0; 0x2f; 0xf1; 0x0; 0x9; 0xf6;
     0x3f; 0xc0; 0x0; 0x7f; 0xf7; 0x0; 0xd; 0xf1;
     0xe; 0xf1; 0x0; 0xde; 0xfc; 0x0; 0x2f; 0xc0;
     0x9; 0xf5; 0x2; 0xf9; 0xbf; 0x10; 0x6f; 0x70;
     0x4; 0xfa; 0x7; 0xf3; 0x5f; 0x70; 0xbf; 0x20;
     0x0; 0xfe; 0xc; 0xe0; 0xf; 0xc0; 0xfd; 0x0;
     0x0; 0xaf; 0x5f; 0x90; 0xa; 0xf5; 0xf8; 0x0;
     0x0; 0x5f; 0xef; 0x40; 0x5; 0xfe; 0xf3; 0x0;
     0x0; 0xf; 0xfe; 0x0; 0x0; 0xff; 0xe0; 0x0;
     0x0; 0xb; 0xf9; 0x0; 0x0; 0xaf; 0x90; 0x0];
  (* U+0078 *)
    [0x5f; 0xe0; 0x0; 0x1f; 0xf2; 0xa; 0xf9; 0x0;
     0xbf; 0x70; 0x0; 0xdf; 0x46; 0xfb; 0x0; 0x0;
     0x3f; 0xee; 0xf1; 0x0; 0x0; 0x8; 0xff; 0x50;
     0x0; 0x0; 0xa; 0xff; 0x70; 0x0; 0x0; 0x5f;
     0xce; 0xf3; 0x0; 0x1; 0xef; 0x25; 0xfd; 0x0;
     0xb; 0xf6; 0x0; 0xaf; 0x90; 0x7f; 0xc0; 0x0;
     0x1e; 0xf4];
  (* U+0079 *)
    [0x9f; 0x90; 0x0; 0x0; 0xef; 0x11; 0xff; 0x10;
     0x0; 0x6f; 0x90; 0x9; 0xf7; 0x0; 0xd; 0xf2;
     0x0; 0x2f; 0xe0; 0x3; 0xfb; 0x0; 0x0; 0xaf;
     0x50; 0xaf; 0x40; 0x0; 0x3; 0xfc; 0x1f; 0xc0;
     0x0; 0x0; 0xb; 0xfb; 0xf5; 0x0; 0x0; 0x0;
     0x4f; 0xfe; 0x0; 0x0; 0x0; 0x0; 0xcf; 0x70;
     0x0; 0x0; 0x0; 0xe; 0xf0; 0x0; 0x0; 0x0;
     0x7; 0xf9; 0x0; 0x0; 0x0; 0x0; 0xef; 0x20;
     0x0; 0x0; 0x0; 0x5f; 0xa0; 0x0; 0x0; 0x0;
     0xd; 0xf3; 0x0; 0x0; 0x0];
  (* U+007A *)
    [0x2f; 0xff; 0xff; 0xff; 0x61; 0xbb; 0xbb; 0xbf;
     0xf5; 0x0; 0x0; 0x8; 0xfb; 0x0; 0x0; 0x5;
     0xfd; 0x10; 0x0; 0x2; 0xff; 0x30; 0x0; 0x1;
     0xdf; 0x50; 0x0; 0x0; 0xbf; 0x80; 0x0; 0x0;
     0x8f; 0xb0; 0x0; 0x0; 0x2f; 0xfc; 0xbb; 0xbb;
     0x53; 0xff; 0xff; 0xff; 0xf8];
  (* U+007B *)
    [0x0; 0x0; 0x5c; 0xe0; 0x0; 0x5f; 0xd8; 0x0;
     0xb; 0xe0; 0x0; 0x0; 0xec; 0x0; 0x0; 0xe;
     0xb0; 0x0; 0x0; 0xeb; 0x0; 0x0; 0xe; 0xb0;
     0x0; 0x0; 0xfb; 0x0; 0x1; 0xaf; 0x70; 0x1;
     0xff; 0x80; 0x0; 0x1d; 0xfc; 0x10; 0x0; 0x5;
     0xf9; 0x0; 0x0; 0xf; 0xb0; 0x0; 0x0; 0xeb;
     0x0; 0x0; 0xe; 0xb0; 0x0; 0x0; 0xec; 0x0;
     0x0; 0xb; 0xe0; 0x0; 0x0; 0x5f; 0xc8; 0x0;
     0x0; 0x6d; 0xe0];
  (* U+007C *)
    [0x3f; 0x73; 0xf7; 0x3f; 0x73; 0xf7; 0x3f; 0x73;
     0xf7; 0x3f; 0x73; 0xf7; 0x3f; 0x73; 0xf7; 0x3f;
     0x73; 0xf7; 0x3f; 0x73; 0xf7; 0x3f; 0x73; 0xf7;
     0x3f; 0x73; 0xf7; 0x3f; 0x70];
  (* U+007D *)
    [0xdd; 0x50; 0x0; 0x7; 0xcf; 0x50; 0x0; 0x0;
     0xec; 0x0; 0x0; 0xb; 0xe0; 0x0; 0x0; 0xbf;
     0x0; 0x0; 0xb; 0xf0; 0x0; 0x0; 0xbf; 0x0;
     0x0; 0xa; 0xf1; 0x0; 0x0; 0x6f; 0xa1; 0x0;
     0x0; 0x7f; 0xf2; 0x0; 0x1c; 0xfd; 0x10; 0x8;
     0xf6; 0x0; 0x0; 0xaf; 0x0; 0x0; 0xb; 0xf0;
     0x0; 0x0; 0xbf; 0x0; 0x0; 0xb; 0xe0; 0x0;
     0x0; 0xdc; 0x0; 0x7; 0xcf; 0x60; 0x0; 0xed;
     0x60; 0x0; 0x0];
  (* U+007E *)
    [0x2; 0xbf; 0xe8; 0x10; 0x8; 0x11; 0xef; 0xbd;
     0xff; 0xbe; 0xf6; 0x8; 0x30; 0x5; 0xcf; 0xd6;
     0x0]].
Definition glyph_blocks : list (list Z) :=
  glyph_bitmap_0020 ++ glyph_bitmap_0032 ++ glyph_bitmap_0040 ++ glyph_bitmap_004b ++ glyph_bitmap_0055 ++ glyph_bitmap_0063 ++ glyph_bitmap_0072.
Definition glyph_bitmap : list Z := concat glyph_blocks.

(** ** Glyphs *)

Definition glyph_dsc : list lv_font_fmt_txt_glyph_dsc_t := [
  GlyphDsc 0 0 0 0 0 0;
  GlyphDsc 0 80 0 0 0 0;
  GlyphDsc 0 100 4 14 1 0;
  GlyphDsc 28 120 7 6 0 8;
  GlyphDsc 49 236 13 13 1 0;
  GlyphDsc 134 190 10 18 1 (-2);
  GlyphDsc 224 261 15 14 1 0;
  GlyphDsc 329 223 13 14 1 0;
  GlyphDsc 420 64 4 6 0 8;
  GlyphDsc 432 97 6 20 1 (-4);
  GlyphDsc 492 97 5 20 0 (-4);
  GlyphDsc 542 141 9 8 0 6;
  GlyphDsc 578 181 10 10 1 1;
  GlyphDsc 628 94 4 7 1 (-4);
  GlyphDsc 642 116 7 2 0 5;
  GlyphDsc 649 89 4 3 1 0;
  GlyphDsc 655 139 9 14 0 0;
  GlyphDsc 718 196 11 14 1 0;
  GlyphDsc 795 113 6 14 0 0;
  GlyphDsc 837 169 10 13 0 0;
  GlyphDsc 902 177 11 13 0 0;
  GlyphDsc 974 184 12 13 0 0;
  GlyphDsc 1052 175 11 13 0 0;
  GlyphDsc 1124 186 10 14 1 0;
  GlyphDsc 1194 155 10 13 0 0;
  GlyphDsc 1259 179 11 14 0 0;
  GlyphDsc 1336 186 11 14 0 0;
  GlyphDsc 1413 93 4 10 1 0;
  GlyphDsc 1433 95 4 13 1 (-3);
  GlyphDsc 1459 154 9 11 0 0;
  GlyphDsc 1509 190 10 6 1 3;
  GlyphDsc 1539 154 9 11 0 0;
  GlyphDsc 1589 163 10 14 0 0;
  GlyphDsc 1659 264 16 16 0 (-2);
  GlyphDsc 1787 223 14 14 0 0;
  GlyphDsc 1885 193 11 14 1 0;
  GlyphDsc 1962 240 15 14 0 0;
  GlyphDsc 2067 230 13 14 1 0;
  GlyphDsc 2158 186 10 14 1 0;
  GlyphDsc 2228 176 10 14 1 0;
  GlyphDsc 2298 245 15 14 0 0;
  GlyphDsc 2403 236 12 14 1 0;
  GlyphDsc 2487 90 3 14 1 0;
  GlyphDsc 2508 171 10 14 0 0;
  GlyphDsc 2578 214 13 14 1 0;
  GlyphDsc 2669 175 10 14 1 0;
  GlyphDsc 2739 303 17 14 1 0;
  GlyphDsc 2858 244 13 14 1 0;
  GlyphDsc 2949 257 16 14 0 0;
  GlyphDsc 3061 191 11 14 1 0;
  GlyphDsc 3138 257 16 15 0 (-1);
  GlyphDsc 3258 198 11 14 1 0;
  GlyphDsc 3335 190 11 14 0 0;
  GlyphDsc 3412 189 12 14 0 0;
  GlyphDsc 3496 214 11 14 1 0;
  GlyphDsc 3573 210 13 14 0 0;
  GlyphDsc 3664 321 20 14 0 0;
  GlyphDsc 3804 197 13 14 0 0;
  GlyphDsc 3895 198 13 14 0 0;
  GlyphDsc 3986 202 12 14 0 0;
  GlyphDsc 4070 92 5 19 1 (-3);
  GlyphDsc 4118 139 9 14 0 0;
  GlyphDsc 4181 92 4 19 0 (-3);
  GlyphDsc 4219 167 10 7 0 7;
  GlyphDsc 4254 173 11 2 0 (-2);
  GlyphDsc 4265 87 5 3 0 11;
  GlyphDsc 4273 167 9 10 1 0;
  GlyphDsc 4318 190 11 15 1 0;
  GlyphDsc 4401 170 10 10 0 0;
  GlyphDsc 4451 188 11 15 0 0;
  GlyphDsc 4534 173 11 10 0 0;
  GlyphDsc 4589 110 7 14 0 0;
  GlyphDsc 4638 185 11 14 0 (-4);
  GlyphDsc 4715 180 9 15 1 0;
  GlyphDsc 4783 81 3 15 1 0;
  GlyphDsc 4806 81 5 19 (-1) (-4);
  GlyphDsc 4854 168 10 15 1 0;
  GlyphDsc 4929 81 3 15 1 0;
  GlyphDsc 4952 274 15 10 1 0;
  GlyphDsc 5027 180 9 10 1 0;
  GlyphDsc 5072 183 11 10 0 0;
  GlyphDsc 5127 190 11 14 1 (-4);
  GlyphDsc 5204 186 11 14 0 (-4);
  GlyphDsc 5281 117 6 10 1 0;
  GlyphDsc 5311 145 9 10 0 0;
  GlyphDsc 5356 114 7 13 0 0;
  GlyphDsc 5402 181 9 10 1 0;
  GlyphDsc 5447 161 10 10 0 0;
  GlyphDsc 5497 254 16 10 0 0;
  GlyphDsc 5577 157 10 10 0 0;
  GlyphDsc 5627 167 11 14 0 (-4);
  GlyphDsc 5704 149 9 10 0 0;
  GlyphDsc 5749 113 7 19 0 (-3);
  GlyphDsc 5816 84 3 19 1 (-3);
  GlyphDsc 5845 113 7 19 0 (-3);
  GlyphDsc 5912 182 11 3 0 4].

Definition cmaps : list lv_font_fmt_txt_cmap_t :=
  [Cmap 32 95 1 None None 0 LV_FONT_FMT_TXT_CMAP_FORMAT0_TINY].

(** ** Kerning *)

Definition kern_left_class_mapping : list Z := [
  0; 1; 0; 2; 3; 4; 5; 6;
  2; 7; 0; 8; 9; 10; 11; 10;
  12; 13; 14; 15; 16; 17; 18; 19;
  20; 21; 13; 22; 22; 23; 24; 25;
  26; 27; 28; 29; 30; 31; 32; 33;
  34; 35; 35; 36; 37; 38; 35; 35;
  31; 39; 40; 41; 42; 43; 36; 44;
  45; 46; 47; 48; 49; 50; 0; 51;
  52; 0; 53; 54; 55; 56; 57; 58;
  59; 60; 61; 62; 63; 56; 60; 60;
  54; 54; 61; 64; 65; 66; 67; 68;
  69; 70; 71; 72; 73; 74; 75; 76].
Definition kern_right_class_mapping : list Z := [
  0; 1; 2; 3; 4; 0; 5; 6;
  3; 7; 8; 9; 10; 11; 12; 11;
  13; 14; 15; 16; 17; 18; 19; 14;
  20; 21; 22; 23; 23; 24; 25; 26;
  27; 28; 29; 30; 31; 30; 30; 30;
  31; 30; 30; 32; 30; 30; 30; 30;
  31; 30; 31; 30; 33; 34; 35; 36;
  37; 38; 39; 40; 41; 42; 43; 44;
  45; 0; 46; 47; 48; 48; 48; 49;
  50; 47; 51; 52; 47; 47; 53; 53;
  48; 53; 48; 53; 54; 55; 56; 57;
  58; 59; 60; 61; 62; 63; 43; 64].
Definition kern_class_values_0 : list Z := [
  0; 0; 0; 0; 0; -13; 0; 0;
  0; 0; 0; -16; 0; 0; 0; 0;
  0; 0; 0; 0; 0; 0; 0; 0;
  0; 0; 0; 0; 0; 0; 0; 0;
  0; 0; 0; 0; 0; 0; 0; 0;
  0; 0; 0; 0; 0; 0; 0; 0;
  0; 0; 0; 0; 0; 0; 0; 0;
  0; 0; 0; 0; 0; 0; 0; 0;
  0; 0; 0; 0; 0; 0; 0; 0;
  0; 0; 0; 0; 0; 0; 10; 3;
  0; -16; 0; 6; 0; 0; 0; 0;
  0; 0; 0; 0; -19; 0; 0; -13;
  0; 10; 0; 6; 6; 3; 3; 0;
  0; 0; 0; 0; 0; -3; 0; -6;
  6; -6; 0; 0; 0; 0; 0; 0;
  3; 3; 3; 3; 0; 0; 0; 0;
  0; 0; 0; 0; 0; 0; 0; 0;
  0; 0; 0; 0; 0; -6; -3; -3;
  -10; -13; -10; -3; -6; -6; 0; 0;
  0; 0; 0; 0; 0; 0; 0; 0;
  0; 0; 0; 0; 0; 0; 0; 0;
  0; 0; 0; 0; 0; 0; 0; 0;
  0; 0; 0; 0; 0; 0; 0; 0;
  0; 0; 0; 0; 0; 0; 0; 0;
  0; 0; 0; 0; 0; 0; 0; 0;
  0; 0; 0; 0; 0; -3; 0; 0;
  -3; -3; -3; -3; -3; -3; 0; 0;
  0; 0; 0; 0; 0; 0; 0; 0;
  0; 0; 0; 0; 0; 0; 0; 0;
  0; 0; 0; 0; 0; 0; 0; 0;
  0; 0; 0; 0; 0; 0; 0; 0;
  0; 0; 0; 0; 0; 0; 0; 0;
  0; 0; 0; 0; 0; 0; 0; 0;
  0; 0; 0; 0; 0; -6; -3; 0;
  0; 0; 0; 0; 0; 0; 0; 0;
  0; 0; 0; 0; 0; 0; 0; 0;
  0; 0; 0; 0; 0; 0; 0; 0;
  0; 0; 0; 0; 0; 0; 0; 0;
  0; 0; 0; 0; 0; 0; 0; 0;
  0; 0; 0; 0; 0; 0; 0; 0;
  -13; 0; 0; 0; 0; 0; 0; 0;
  0; 0; 0; 0; 0; 0; -3; 0;
  -3; -3; -3; 0; 0; 0; 0; 0;
  0; 0; 0; 0; 0; 0; 0; 0;
  0; -22; -3; -24; -11; 0; -24; 0;
  0; 0; 0; 0; 0; 0; 0; 0;
  0; 0; 0; 0; 0; 0; 0; 0;
  0; 0; 0; 0; 0; 0; 0; 0;
  0; 0; 0; 0; 0; 0; 0; 0;
  0; -16; 0; -13; 0; -6; -2; 2;
  0; -6; -8; 13; 0; 0; 0; 0;
  0; 0; 0; 0; 0; 0; -6; -5;
  0; 6; 0; 6; 6; 6; 6; 0;
  0; 0; 0; 0; 0; -2; 0; -6;
  -3; -6; 0; 16; 0; 0; 0; 0;
  -6; -6; 0; 0; 0; 0; 0; 0;
  0; 0; 0; 0; 0; 0; 0; 0;
  0; 0; 0; 0; 0; 0; 0; 0;
  0; -22; 0; 13; 0; 0; 0; 0;
  0; 0; 0; 0; -35; 0; -2; -16;
  0; 6; 0; 6; 3; 0; 0; 0;
  0; 0; 0; 0; 0; -10; 0; -13;
  0; -13; 0; 0; 0; -3; 0; 0;
  3; 0; 0; 0; 0; 0; 0; 0;
  0; 0; 0; 0; 0; 0; 0; -16;
  0; 0; 0; 0; 0; 0; -10; -3;
  -6; 0; 0; -3; 0; -3; 0; 0;
  0; 0; 0; 0; -5; 0; 0; 0;
  0; -16; -2; -13; -10; -3; -16; -6;
  0; 0; -13; 0; 0; 0; 0; 0;
  0; 0; 0; 0; 0; 0; 0; 0;
  0; 0; 0; 0; 0; 0; 0; 0;
  0; 0; 0; 0; 0; 0; 0; 0;
  0; 0; 0; 0; 0; -6; -22; 0;
  0; -16; 0; -6; -3; 0; 0; 0;
  0; 0; 0; 0; 0; 0; -10; 0;
  -3; -32; -8; -32; -32; 0; -42; 0;
  0; 0; 0; 0; 0; 0; 0; -5;
  0; -3; 0; 0; 0; 0; -6; -3;
  -29; -13; 0; -29; 0; 0; 0; 0;
  -16; 0; 0; 0; 0; 0; 0; -13;
  0; 0; 0; 0; 0; 0; -6; 0;
  -6; -2; -3; -10; 0; 0; 0; 0;
  0; 0; 0; 0; -6; 0; 0; 0;
  -3; -19; -2; -18; -13; -13; -26; -14;
  0; 0; -6; 0; 0; 0; 0; 0;
  0; 0; 0; -3; 0; 0; -3; 0;
  -2; -2; -3; -6; -2; 0; 0; 0;
  0; 0; 0; 0; 0; 0; 0; 0;
  0; 0; 0; 0; -45; -13; 0; -6;
  0; -26; -6; 10; -10; -6; 0; 0;
  0; 0; 0; 0; -22; 0; -11; -38;
  -3; 13; 0; 6; 6; 3; 3; 0;
  0; 0; 0; 0; 0; -37; 0; -38;
  -3; -38; 0; 0; -19; -26; 0; -14;
  -3; -6; -6; -3; -19; 0; 0; 0;
  0; 0; 0; -6; -6; 0; 0; -6;
  0; 0; -13; 0; -13; -2; -2; 0;
  -2; 0; -2; 0; -2; 0; 0; 0;
  3; 0; 0; 0; 0; 0; 0; 0;
  0; 0; 0; 0; 0; 0; 0; 0;
  0; -13; 0; 0; -6; 0; 0; 0;
  0; 0; 0; 0; 0; 0; 0; 0;
  0; 0; 0; 0; 0; 0; 0; 3;
  0; 0; -3; -6; -3; 0; 0; 0;
  0; 0; -3; 0; 0; 2; 0; 2;
  0; 0; 0; 2; 0; 0; 0; -3;
  0; 10; 0; 0; 0; 0; 0; 0;
  0; 0; 0; 0; 0; 0; 0; 0;
  0; 0; 3; 0; 0; 0; 0; 0;
  0; 0; 0; 0; 0; 0; 0; 0;
  0; 0; 0; 0; 0; 0; 3; 0;
  0; 0; 0; 0; 0; 0; 0; 0;
  0; 0; 0; 0; 0; 0; 3; 0;
  0; -5; 0; 0; 0; 0; 0; 0;
  0; 10; 0; 0; 0; 0; 0; 0;
  0; 0; 0; 0; 0; 0; 0; 0;
  0; -3; 0; 0; 3; 0; 0; 0;
  0; 0; 0; 0; 0; 0; 0; 0;
  0; 0; 0; 0; 0; 0; 0; 0;
  0; 0; 0; -6; -3; 0; 0; 0;
  3; 0; -3; -3; -3; 0; -2; 0;
  0; 0; 0; 3; 0; 0; 0; 0;
  0; 10; 0; 0; 0; 0; 0; 0;
  0; 0; 0; 0; 0; 0; 0; 0;
  0; 0; 0; 0; -3; 0; 0; 0;
  0; 0; 0; 0; 0; 0; 0; 0;
  0; 0; 0; 0; 0; 0; 6; 3;
  0; 0; 0; 0; -3; 0; 0; 0;
  -6; 0; 0; 0; 0; 0; 0; 0;
  0; 0; 0; -2; 0; 0; 0; 0;
  6; 10; 0; 0; 0; 0; 0; 0;
  0; 0; 0; 0; 0; 0; 0; 0;
  0; 0; 0; 0; 0; 0; 0; 0;
  0; 0; 0; 0; 0; 0; 0; 0;
  0; 0; 0; 0; 0; 0; 0; 6;
  0; 0; 0; 0; -3; 0; 0; 0;
  0; 0; -3; 0; -6; 0; 0; 0;
  0; 0; 0; 2; 0; 0; 0; 3;
  3; 6; 0; -2; 0; 0; 0; 0;
  0; 0; 0; 0; 0; 0; 0; 0;
  0; 0; 0; 0; -3; 0; 0; 0;
  0; 0; 0; 0; 0; 0; 0; 0;
  0; 0; 0; 0; 0; 0; 0; 3;
  0; 0; 0; -6; 0; 0; 0; 0;
  0; 3; -3; 0; 0; 0; 0; 0;
  0; 0; 0; 2; 0; 0; 0; 0;
  3; 3; 0; -3; 0; 0; 0; 0].
Definition kern_class_values_1 : list Z := [
  0; 0; 0; 0; 0; 0; 0; 0;
  0; -3; 0; 0; -6; 0; 0; 0;
  0; 0; 0; 0; 0; 0; 0; 0;
  0; 0; 0; 0; 0; 0; 0; 3;
  0; 0; 6; -13; 0; 0; 0; 0;
  6; -16; -35; -16; -19; -8; 2; 0;
  0; -18; -5; 10; 0; 3; -10; -10;
  2; 10; 6; -2; 0; 0; 0; 0;
  0; 0; 0; 0; 0; 0; 0; 0;
  0; 10; 0; 0; -29; 0; 0; 0;
  0; 0; 0; 0; 0; 0; 0; 0;
  0; 0; 0; 0; 0; 0; 6; -13;
  0; 0; 0; -3; -2; -3; 0; 0;
  0; 0; -3; 0; 0; -2; 0; 0;
  0; 0; 0; 0; 0; 0; 0; 0;
  0; 3; 0; 0; 0; 0; 0; 0;
  0; 0; 0; 0; 0; 0; 0; 0;
  0; -13; 0; 0; -3; 0; 0; 0;
  0; 0; 0; 0; 0; 0; 0; 0;
  0; 0; 0; 0; 0; 0; 0; 0;
  0; 0; 0; 0; 0; 0; 0; 0;
  0; 0; 0; 0; 0; 0; 0; 0;
  0; 0; 0; 3; 0; 5; 0; 0;
  0; 0; 0; 0; 0; 0; 0; 0;
  0; -19; -2; -13; -3; 0; -19; 0;
  0; 0; 0; 0; 0; 0; 0; -2;
  0; -2; 0; 0; 0; 0; 0; 0;
  0; 0; 0; 0; 0; 0; 0; 0;
  0; 0; 0; 0; 0; 0; 0; 0;
  0; 0; 0; 0; 0; 6; 10; 10;
  3; 0; 6; 22; 10; 10; 0; 0;
  0; 0; 0; 0; 0; 3; 3; 0;
  0; -3; 0; 0; 0; 0; 0; 3;
  0; 0; 0; 0; 0; 0; 0; 0;
  0; 0; 0; 0; 0; 0; 0; 0;
  0; 0; 0; 0; 0; 0; 0; 0;
  0; 0; 0; 0; 0; 0; 0; 0;
  0; 0; 0; 0; 0; 3; 0; 0;
  0; 0; 3; -3; 0; 0; 0; 0;
  0; 0; 0; 0; 0; 0; 0; 0;
  0; -10; 0; -3; -3; -3; -10; 0;
  0; 0; 0; 0; 0; 0; 0; 0;
  0; 0; 0; 0; 0; 0; 0; 0;
  0; 0; 0; 0; 0; 0; 0; 0;
  0; 0; 0; 0; 0; 0; 0; 0;
  0; 0; 0; 0; 0; 0; -3; -3;
  -6; 0; 0; 0; 0; 0; 0; 0;
  0; 0; 0; 0; -6; 0; 0; 0;
  0; -13; -2; -6; -6; -6; -19; -5;
  0; 0; 0; 0; 0; 0; 0; 0;
  0; 0; 0; 0; 0; 0; 0; 0;
  0; 0; 0; 0; 0; 0; 0; 0;
  0; 0; 0; 0; 0; 0; 0; 0;
  0; 0; 0; 0; 0; 0; 3; 0;
  0; -6; 0; 10; 0; 0; 0; 0;
  0; 0; 0; 0; 0; 0; -2; 0;
  0; 0; 0; 0; 0; 0; 0; 0;
  0; 0; 0; 0; 0; 0; 0; -6;
  0; -6; 0; 0; 0; 0; 0; 0;
  6; 0; 0; 0; 0; 0; 0; 0;
  0; 0; 0; 0; 0; 0; 0; 0;
  0; 0; 0; 0; 0; 0; 0; 0;
  -3; -3; 0; 3; 0; 0; 0; 0;
  0; 0; 0; 0; -10; 0; 0; -3;
  0; -8; 0; -6; -6; -6; -13; -6;
  0; 0; 0; 0; 0; 0; 0; 0;
  0; 0; 0; 0; 0; 0; 0; 0;
  5; 5; 2; 5; 2; 0; 0; 0;
  0; 0; -13; 0; 0; -2; -3; 0;
  -35; -5; 0; -6; 6; 0; 0; 0;
  0; 0; 0; 0; 0; 0; 0; -6;
  0; 0; -14; -10; 0; 0; -8; 3;
  -3; -21; -5; -18; -14; 0; -21; 0;
  0; -22; 0; -6; 10; -2; 0; -3;
  0; -3; 0; 0; -2; 0; -8; -8;
  -10; -10; 0; -8; 0; -6; 0; -6;
  0; 0; 0; 0; 0; -2; 0; 0;
  0; -2; -5; 0; -5; 0; 0; 0;
  0; 0; 0; 0; 0; 0; 0; 0;
  0; 3; 0; 0; -6; 0; 0; 5;
  0; 0; 0; 0; 0; 0; -2; 0;
  0; -8; 0; 0; -3; -3; 0; 2;
  -2; 2; 0; 0; -2; -2; 0; -6;
  -2; -2; 0; -2; 0; 0; 0; 0;
  0; 0; 0; 0; 0; -5; 0; 0;
  0; 0; -3; 0; -8; 0; 0; 0;
  0; 0; 0; 0; 0; 0; 0; 0;
  0; 3; 0; -10; -6; 0; -3; 0;
  0; -2; 0; -3; -5; -5; -8; 0;
  0; -8; 3; -3; -3; -6; -3; -6;
  -3; -6; 0; 0; -5; -3; -2; -6;
  -3; -3; -3; -5; -3; -6; 0; 0;
  0; 0; 0; 0; 0; -6; 0; -6;
  -2; 0; -10; 0; -11; 0; 0; 0;
  0; 0; 0; 0; 0; 0; 0; 0;
  0; 3; 0; 0; -8; 0; 0; 0;
  -2; -8; 0; -8; -6; -10; -14; -3;
  -2; -11; -6; 3; -13; 0; 0; 0;
  2; 0; 0; 0; 0; 0; 8; 0;
  0; 0; 0; 0; 0; 0; 0; 3;
  0; 0; 0; 0; 0; 0; 0; 3;
  0; 0; 0; -2; 0; 0; 0; 0;
  0; 0; 0; 0; 0; 0; 0; 0;
  0; 3; 0; -8; 0; 0; -2; -3;
  0; 0; 0; 0; 0; 0; 0; 0;
  0; 0; 5; 0; 0; -5; 0; -6;
  -2; -6; 0; 0; -5; -2; 0; -5;
  -5; -5; 0; -5; 0; -10; 0; 0;
  0; 0; 6; 0; 0; -3; 0; 10;
  5; -6; -32; -3; -18; 0; 0; 0;
  0; 0; 0; 0; 0; 0; 0; 0;
  0; 3; 3; -3; -14; 0; -2; -13;
  0; 10; -2; 0; 0; 0; 0; 3;
  0; 10; 10; 3; -32; -11; 2; -11;
  -3; -11; -2; -2; -8; -5; 0; -14;
  -6; -6; -5; -5; -3; -6; 6; -6;
  0; 0; 0; 0; 0; -5; 0; 0;
  0; 0; 0; 0; 2; 0; 0; 0;
  0; 0; 0; 0; 0; 0; 0; 0;
  0; 6; 0; 0; 0; 0; 0; 0;
  0; -2; 0; -5; -3; 0; -10; 0;
  0; -6; 0; 0; 3; 0; 0; 0;
  0; 0; 0; 0; 0; 0; 8; -2;
  0; 0; 0; 0; 0; -3; 0; 2;
  0; 0; 0; 0; 0; 0; 0; 0;
  0; 0; 0; 0; 0; 0; 0; 0;
  0; 0; 0; 0; 0; 0; 0; 0;
  0; 3; 0; -3; 0; 0; 0; 0;
  0; 0; 0; 0; 0; 0; 0; 0;
  0; 0; 0; 0; 0; -2; 0; 0;
  0; 0; 0; 0; 0; 0; 0; 0;
  0; 0; 0; 0; 0; -10; 0; 0;
  0; 0; 0; 0; 0; -2; 0; 0;
  0; -2; -8; -2; -6; 0; 0; 0;
  0; 0; 0; 0; 0; 0; -2; -2;
  0; 0; 0; -2; -10; 0; 0; 0;
  0; 0; 0; 0; 0; 0; 0; 0;
  0; 0; 0; 0; -5; 0; 0; -2;
  0; -2; 0; 0; -2; 0; 0; 0;
  0; 0; 0; 0; 0; -6; 0; -2;
  0; 0; 0; 0; 0; -18; 0; 2;
  -3; -13; 0; -22; 6; 0; 0; 0;
  0; 0; 0; 0; 0; 0; -3; -16;
  -16; 0; -2; -18; -3; 0; -18; -2;
  -3; 0; -3; -5; -5; 0; 0; 0;
  0; 0; 2; -6; 6; -5; 0; -11;
  -6; -11; 0; 0; -5; -3; -10; -18;
  -14; -14; -3; -19; 0; -13; 0; -19].
Definition kern_class_values_2 : list Z := [
  0; 0; -26; 0; 0; -8; 0; 3;
  -22; -6; 3; -13; 13; 0; 0; 0;
  0; 0; 0; 0; 0; 0; 0; -13;
  -6; 0; -14; -6; 6; 0; -11; 6;
  0; -22; -3; -19; -16; 0; -21; 0;
  0; -22; 3; -16; 10; 0; 0; -2;
  -3; -2; 0; 0; 0; 0; -5; -6;
  -13; -13; 0; -14; 0; -10; 6; -16;
  0; 0; 3; 0; 0; -3; 0; 0;
  3; -10; -38; -3; -22; 0; 0; 0;
  0; 0; 0; 0; 0; 0; 0; 0;
  0; 6; 6; -2; -19; 0; 0; -22;
  0; 0; -2; 0; -2; -2; -2; -3;
  0; 0; 0; 0; -29; -10; -3; -13;
  2; -13; 0; -2; -5; -8; 3; -6;
  0; 0; 0; 3; -3; -6; 0; -6;
  0; 0; 0; 0; 0; 0; 0; -3;
  0; 0; -3; 0; 0; 0; 0; 0;
  0; 0; 0; 0; 0; 0; 0; 3;
  0; 6; 0; 0; -5; 0; 0; 2;
  0; -6; 0; -8; -6; -5; -13; 0;
  0; -11; -3; 0; 0; -2; 0; 0;
  0; 0; 0; 0; 0; 0; 0; 0;
  0; -2; 0; -2; 0; 0; 0; 0;
  0; 0; 0; 0; 0; -2; 0; 2;
  3; -3; -2; -6; 0; 0; 0; 0;
  0; 0; 0; 0; 0; 0; 0; -2;
  0; 8; 0; -5; -2; 0; -2; -5;
  0; 0; 0; -2; -2; 0; -3; 0;
  0; -2; 3; 3; 2; -2; 0; -6;
  0; -6; 0; 0; -2; -2; 0; -6;
  0; -3; 3; 0; 0; -3; 0; -3;
  0; 0; 0; 0; 0; 0; 0; 0;
  0; 0; 0; -2; 0; 0; 0; 0;
  0; 0; 0; 0; 0; 0; 0; 0;
  0; 8; 0; 0; -2; 0; -2; 3;
  0; -2; -2; 0; 0; 0; -3; 0;
  0; -8; 5; -2; -3; -2; -2; -3;
  -5; -3; -2; -2; -10; 0; -3; -8;
  -6; -6; -5; -8; -2; -6; 0; 0;
  0; 0; 10; 0; 0; -10; 0; 6;
  6; -16; -32; -19; -22; 0; 0; 0;
  0; 0; 0; 0; 0; 0; -19; -13;
  -10; -3; 6; -8; -21; 0; -8; -21;
  0; 6; 0; 6; 6; 5; 6; 0;
  0; 13; 6; 0; -13; -27; 0; -30;
  -13; -30; -6; -3; -19; -22; -8; -30;
  -22; -24; -24; -22; -14; -10; 6; -22;
  0; 0; 6; 0; 0; -14; 0; 6;
  6; -13; -32; -18; -19; 0; 0; 0;
  0; 0; 0; 0; 0; 0; -13; -6;
  -3; 0; 3; -6; -18; 0; -8; -18;
  -2; 6; 0; 3; 3; 3; 3; 0;
  0; 6; 6; 0; -16; -18; 0; -18;
  0; -18; 0; 0; -10; -6; -2; -11;
  -2; -3; -2; -2; -6; -10; 6; -13;
  0; 0; 6; 0; 0; 0; 0; 6;
  3; -10; -32; -13; -19; 0; 0; 0;
  0; 0; 0; 0; 0; 0; -3; -6;
  -3; 0; 0; -6; -14; 0; -6; -16;
  0; 6; 0; 3; 3; 3; 3; 0;
  0; 6; 6; 0; -14; -10; 0; -11;
  0; -11; 0; 0; -10; -6; -2; -10;
  -2; -3; 0; -2; -2; -10; 6; -6;
  0; 0; 3; 0; 0; -3; 0; 6;
  0; -3; 0; -13; 3; 0; 0; 0;
  0; 0; 0; 0; 0; 0; 0; -6;
  -3; 0; 0; -8; 0; 0; -6; -3;
  0; 5; 0; 3; 3; 0; 3; 3;
  0; 3; 6; 0; 5; 0; 0; -8;
  0; -8; 0; 0; 0; 0; 0; -3;
  -5; -3; 6; -5; 2; -10; 6; -6;
  0; 0; 3; 0; 0; -16; 0; 6;
  0; -16; -42; -26; -27; 0; 0; 0;
  0; 0; 0; 0; 0; 0; -19; -19;
  -10; 0; 0; -13; -21; 0; -14; -24;
  -3; 6; 0; 3; 3; 3; 3; 2;
  0; 3; 6; 0; -19; -21; 0; -29;
  -8; -29; -2; -2; -19; -21; -3; -19;
  -13; -16; -10; -14; -11; -6; 3; -19;
  0; 0; 0; 0; 0; 0; 0; 0;
  0; -3; 0; -14; 0; 0; 0; 0;
  0; 0; 0; 0; 0; 0; 0; 0;
  0; 0; 2; -5; 0; 0; -6; 0;
  0; 5; 0; 0; 0; 3; 2; 0;
  0; 0; 0; 0; 3; 0; 0; -2;
  0; -2; 0; 0; 0; 0; 0; -2;
  0; -2; 0; -6; 0; 0; 0; 0;
  0; 0; 0; 0; 0; 0; 0; 0;
  0; -13; 0; -6; 0; 0; 0; 0;
  0; -10; -6; 16; 0; 3; 0; 0;
  0; 0; 0; 0; 0; 0; -6; 0;
  0; 6; 0; 6; 6; 6; 13; 0;
  0; 0; 0; 0; 0; 0; 0; -3;
  -3; -3; 0; 16; 0; 0; 0; 0;
  0; -6; 0; 0; 0; 0; 0; 0;
  0; 0; 0; 0; 0; 0; 0; 0;
  0; 0; 0; 0; 0; -13; 0; 3;
  -3; -3; 0; 0; -6; 0; 0; 0;
  0; 0; 0; 0; 0; 0; -11; 0;
  -2; -16; -6; -19; -19; 3; -21; 0;
  0; 0; 0; 0; 0; 3; 0; -5;
  0; -5; 0; 0; 0; 0; 0; 0;
  -3; -3; 3; -3; 0; 0; 0; 0;
  0; 0; 0; 0; 0; 0; 0; 0;
  0; 0; 0; 0; 0; 0; 0; 0;
  0; 0; 0; 0; 0; 0; 0; 0;
  0; 0; 0; 0; -6; 0; 3; 0;
  0; 0; 0; 0; 0; 0; 0; 0;
  0; 0; 0; 0; 0; 0; 0; 0;
  0; 0; 0; 0; 0; 0; 0; 0;
  0; 0; 0; 0; 0; 0; 0; 0;
  0; 0; 0; 0; 0; 0; 0; 0;
  0; 0; 0; 0; 0; -6; 0; 0;
  0; -16; 0; 0; -3; 0; 0; 0;
  0; 0; 0; 0; 10; 0; -13; 0;
  -3; -13; -5; -16; -14; 5; -19; 3;
  0; 0; 0; 0; 0; 0; 0; -6;
  -3; -6; 0; 16; 0; 0; -5; -5;
  -13; -13; 10; -13; 0; 0; 0; 0;
  0; 0; 0; 0; 0; -3; 0; 0;
  -6; 0; 0; 0; 0; 0; 0; 0;
  0; 0; 0; 0; 0; 0; 0; 0;
  0; 0; 0; -3; 0; 0; 0; 0;
  0; 0; 0; 0; 0; 0; 0; 0;
  0; -19; 0; 0; 10; 0; 0; 0;
  0; 0; 0; 0; 0; 0; 0; -3;
  0; 0; 0; -3; 0; 0; 0; 0;
  0; 0; -6; 0; 0; -3; 0; -6;
  -13; 0; -5; 0; -6; 0; 0; 0;
  0; 0; 0; 0; 0; 0; -2; 0;
  0; 0; -8; 0; 0; 0; 0; 0;
  0; 0; 0; 0; 0; 0; 0; 0;
  0; -32; -6; 0; -6; 0; 0; 0;
  0; 0; 0; 0; 0; 0; -2; -2;
  -5; -3; -3; -6; -2; 0; 0; 0;
  0; 0; 0; 0; 0; -2; 0; 0;
  -3; 0; 0; 0; -5; 0; 0; 0;
  0; 0; 0; 0; 0; 0; 0; 0;
  0; 0; 0; -2; 0; 0; 0; 0;
  0; 0; 0; 0; 0; 0; 0; 0;
  0; -22; 0; 0; -3; -2; 0; -2;
  0; -2; 0; 0; 0; 0; 0; -2;
  -2; -2; -2; -2; 0; 0; 0; 0;
  0; 0; 0; 0; 0; 0; 0; 0;
  0; 0; 0; 0; 0; 0; 0; 0;
  0; 0; 0; 0; 0; 0; 0; 0;
  0; 0; 0; 0; 0; 0; 0; 0].
Definition kern_class_values_3 : list Z := [
  0; 0; 0; 0; 0; 0; 0; 0;
  0; 0; 0; 0; 0; 0; 0; 0;
  0; 0; 0; 0; 0; 0; 0; -2;
  0; 0; 0; 0; 0; 0; 0; 0;
  0; 0; -3; 0; 0; -5; 0; -3;
  -6; 0; -5; 0; 0; 0; 0; 0;
  0; 0; 0; 0; 0; 0; 0; 0;
  0; 0; -8; 0; 0; 0; 0; 0;
  0; 0; 0; 0; 0; 0; 0; 0;
  0; -22; -3; 0; -3; 0; 0; 0;
  0; 0; 0; 0; 0; 0; 0; -5;
  -3; -2; -2; -3; 0; 0; 0; 0;
  0; 5; 16; 0; 0; 0; 0; 10;
  13; -3; -16; -2; -5; 0; 0; 0;
  0; 0; 0; 0; 0; 0; 0; 0;
  0; 10; 6; 0; 0; 0; 0; 0;
  0; 0; 0; 0; 0; 0; 0; 0;
  0; 10; 8; 6; -6; -5; 0; -6;
  -2; -6; 0; 8; 0; 0; 0; -2;
  3; 3; 3; 5; 3; 0; 10; -3;
  0; 0; 0; 0; 0; -2; 0; 0;
  0; 0; 0; 0; 0; 0; 0; 0;
  0; 0; 0; 0; 0; 0; 0; 0;
  0; 0; 0; 0; 0; 0; 0; 0;
  0; 0; 0; 0; 0; 0; 0; 0;
  0; -13; 0; 0; 0; -2; 0; 0;
  0; 0; 0; 0; 0; 0; 0; -2;
  0; -2; 0; -2; 0; 0; 0; 0;
  0; 0; 0; 0; 0; 0; 0; 0;
  -3; 0; 0; 0; 0; 0; 0; 0;
  0; 0; 0; 0; 0; 0; 0; 0;
  -2; 0; -5; -2; 0; 0; 0; 0;
  0; 0; 0; 0; 0; 0; 0; 0;
  0; -21; 0; 0; 0; 0; 0; 0;
  0; 0; 0; 0; 0; 0; 0; -3;
  0; 0; 0; 0; 0; 0; 0; 0;
  0; 0; 0; 0; 0; 0; 0; 0;
  0; 0; 0; 0; 0; 0; 0; 0;
  0; 0; 0; 0; 0; 0; 0; 0;
  0; 0; 0; 0; 0; 0; 0; 0;
  0; 0; 0; 0; 0; 0; 0; 0;
  0; -19; 0; 0; 0; 0; 0; 0;
  0; 0; 0; 0; 0; 0; 0; 0;
  0; 0; 0; 0; 0; 0; 0; 0;
  0; 0; 0; 0; 0; 0; 0; 0;
  0; 0; 0; 0; 0; 0; 0; 0;
  0; 0; 0; 0; 0; 0; 0; 0;
  0; 0; 0; -2; 0; 0; 0; 0;
  0; 0; 0; 0; 0; 0; 0; 0;
  0; 0; 0; 0; 0; 0; 0; 0;
  0; 0; 0; 0; 0; 0; 0; 0;
  0; 0; 0; 0; 0; 0; 0; 0;
  0; 0; 0; 0; 0; -2; 0; 0;
  -3; -3; 0; -10; 6; 0; 0; 0;
  0; 0; 0; 0; 0; 0; -2; -6;
  0; 13; 0; -2; 0; 0; 0; 0;
  0; 0; 0; 0; 0; 0; 0; 0;
  0; -8; 0; 0; 10; -5; 0; -8;
  0; -8; 0; 0; 0; 0; 0; -2;
  0; 0; 0; 0; 2; -3; 0; -6;
  0; 10; 10; 0; 0; 0; 0; 0;
  13; 0; -29; 0; 0; 0; 0; 0;
  0; 0; 0; 0; 0; 0; 0; 0;
  0; 0; 6; 6; 0; 0; 0; 0;
  0; 0; 0; 0; 0; 0; 0; 0;
  0; -3; 6; 0; -3; 0; 0; -2;
  8; -2; 0; 0; 0; 0; 8; 2;
  5; 3; 10; 5; 3; 0; 10; 0;
  0; 0; -3; 0; 0; 0; 0; 0;
  -3; 0; 0; 0; 3; 0; 0; 0;
  0; 0; 0; 0; 0; 0; 0; 0;
  0; 3; 0; 0; 0; 0; 0; 0;
  0; 0; 0; 0; 0; 0; 0; 0;
  0; -19; 0; 0; 0; -3; 0; -2;
  0; -2; 0; 0; 0; 0; 0; -2;
  -2; -2; -2; -2; 0; 0; 0; 0;
  0; 0; 0; 0; 0; 0; 0; 3;
  0; 0; 0; 0; 6; 0; 0; 0;
  0; 0; 0; 0; 0; 0; 0; 0;
  0; 0; 2; 0; 0; 0; 0; 0;
  0; 0; 0; 0; 0; 0; 0; 0;
  0; 0; 3; 0; 10; 0; 0; -2;
  0; -2; 0; 0; -3; 2; 0; 0;
  3; 3; 6; 2; 6; 0; 0; 0;
  0; 0; 0; 0; 0; 0; 0; 0;
  0; 0; 0; 0; 0; 0; 0; 0;
  0; 0; 0; 0; 0; 0; 0; 0;
  0; 0; 0; -2; 0; 0; 0; 0;
  0; 0; 0; 0; 0; 0; 0; 0;
  0; -16; 0; 0; 0; 0; 0; -2;
  0; -2; 0; 0; 0; 0; 0; -2;
  0; 0; 0; 0; 0; 0; 0; 0;
  0; 0; 3; 0; 0; 0; 0; -6;
  3; 0; -29; -2; -6; 0; 0; 0;
  0; 0; 0; 0; 0; 0; 0; 0;
  0; 0; 6; 3; 0; 0; 0; 0;
  0; 0; 0; 0; 0; 0; 0; 0;
  0; -6; 0; 0; -13; -2; 0; -5;
  5; -5; 0; 0; 0; 0; 5; 0;
  2; 2; 3; 3; 3; 0; 0; 0;
  0; 0; 3; 0; 0; -3; 0; -6;
  0; 0; -13; -2; -6; 0; 0; 0;
  0; 0; 0; 0; 0; 0; 0; 0;
  0; 0; 0; 5; 0; 0; 0; 0;
  0; 0; 0; 0; 0; 0; 0; 0;
  0; -6; -6; 0; -13; -2; 0; -3;
  5; -3; 0; 0; 0; 0; 5; 0;
  2; 0; 2; 2; 2; 0; 6; 0;
  0; 0; 3; 0; 0; -3; 0; 0;
  0; 0; 0; -3; 6; 0; 0; 0;
  0; 0; 0; 0; 0; 0; 0; 0;
  0; 0; 0; 2; 0; 0; 0; 0;
  0; 0; 0; 0; 0; 0; 0; 0;
  0; -6; 0; 0; 10; 0; 0; -3;
  5; -3; 0; 0; 0; 0; 2; -2;
  3; 2; 2; 2; 6; 0; 6; 0;
  0; 0; 3; 0; 0; -6; 0; 0;
  0; 0; -35; -6; -3; 0; 0; 0;
  0; 0; 0; 0; 0; 0; 0; 0;
  0; 0; 3; 3; 0; 0; 0; 0;
  0; 0; 0; 0; 0; 0; 0; 0;
  0; -10; 0; 0; -16; -5; 0; -6;
  3; -6; 0; 0; 0; -3; 2; -2;
  2; 0; 0; 2; 0; 0; 5; 0;
  0; 0; 0; 0; 0; 0; 0; 0;
  0; 0; 0; 0; 0; 0; 0; 0;
  0; 0; 0; 0; 0; 0; 0; 0;
  0; 0; 0; 0; 0; 0; 0; 0;
  0; 0; 0; 0; 0; 0; 0; 0;
  0; -11; 0; 0; 3; 0; 0; 0;
  0; 0; 0; 0; 0; 0; 0; 0;
  0; 0; 2; 0; 0; 0; 5; 0;
  0; 0; 0; 0; 0; 0; 0; 0;
  0; -13; 0; -6; 0; 0; 0; 0;
  0; -10; -6; 16; 0; 3; 0; 0;
  0; 0; 0; 0; 0; 0; -6; 0;
  0; 6; 0; 6; 6; 6; 13; 0;
  0; 0; 0; 0; 0; -2; 0; -3;
  -3; -3; 0; 16; 0; 0; 0; 0;
  0; -6; 0; 0; 0; 0; 0; 0;
  0; 0; 0; 0; 0; 0; 0; 0;
  0; 0; 0; 0; 0; 0; 0; 0;
  0; 0; 0; 6; 0; 0; 0; 0;
  0; 0; 0; 0; 0; 0; 0; 0;
  0; 6; 0; 6; 6; 6; 3; 0;
  0; 0; 0; 0; 0; 0; 0; 0;
  0; 0; 0; 0; 0; 0; 0; 0;
  0; 6; 6; 5; 3; 0; 0; 0].
Definition kern_class_values_4 : list Z := [
  0; 0; 0; 0; 0; 0; 0; 0;
  0; 0; 0; 0; 0; 0; 0; 0;
  0; 0; 0; 0; 0; 0; 0; 0;
  0; 0; 0; 0; -3; 0; 0; 0;
  0; -6; 0; -3; -3; -3; -13; -6;
  0; 0; 0; 0; 0; 0; 0; 0;
  0; 0; 0; 0; 0; 0; 0; 0;
  0; 0; 0; 0; 0; 0; 0; 0;
  0; 0; 0; 0; 0; 0; 0; 0;
  0; 0; 0; 0; 0; 3; -3; -3;
  0; 0; 0; -6; 0; 0; 0; 0;
  0; 0; 0; 0; -6; 0; 3; 0;
  0; -22; -2; -13; -6; -6; -19; 0;
  0; 0; 0; 0; 0; 0; 0; 0;
  0; 0; 0; 0; 0; 0; 0; 0;
  0; 0; 0; 0; 0; 0; 0; 0].
Definition kern_class_values : list Z :=
  kern_class_values_0 ++ kern_class_values_1 ++ kern_class_values_2 ++ kern_class_values_3 ++ kern_class_values_4.

Definition kern_classes : lv_font_fmt_txt_kern_classes_t :=
  KernClasses kern_class_values kern_left_class_mapping kern_right_class_mapping 76 64.

(** ** The font *)

Definition font_dsc : lv_font_fmt_txt_dsc_t :=
  FontDsc glyph_bitmap glyph_dsc cmaps kern_classes 16 1 4 1 0.
Definition ui_font_font_book20 : lv_font_t :=
  Font "lv_font_get_glyph_dsc_fmt_txt" "lv_font_get_bitmap_fmt_txt" 20 4 LV_FONT_SUBPX_NONE (-3) 2 font_dsc None None.

Definition font_file_book20 : font_file :=
  FontFile "ui_font_font_book20" glyph_blocks ui_font_font_book20.

Lemma book20_checked : font_check ui_font_font_book20 glyph_blocks = true.
Proof. by vm_compute. Qed.
