(* ===== verification/FontBook24.v ===== *)
(** * The tables of fonts/ui_font_font_book24.c

    The bitmap is written by the blocks of its characters, from U+0020 to U+007E. *)
From S2P Require Import Prelude FontFormat.

(** ** Bitmaps *)

Definition glyph_bitmap_0020 : list (list Z) := [
  (* U+0020 *)
    [];
  (* U+0021 *)
    [0xaf; 0xf1; 0xaf; 0xf1; 0x9f; 0xf0; 0x8f; 0xf0;
     0x7f; 0xe0; 0x6f; 0xd0; 0x5f; 0xd0; 0x5f; 0xc0;
     0x4f; 0xb0; 0x3f; 0xa0; 0x2f; 0x90; 0x1f; 0x90;
     0x4; 0x20; 0x1; 0x0; 0x7f; 0xd0; 0xcf; 0xf3;
     0x5f; 0xb0];
  (* U+0022 *)
    [0x2; 0x61; 0x1; 0x62; 0x0; 0xef; 0xb0; 0xcf;
     0xe0; 0xf; 0xfc; 0xd; 0xff; 0x0; 0xcf; 0x90;
     0x9f; 0xb0; 0x8; 0xf5; 0x6; 0xf8; 0x0; 0x5f;
     0x20; 0x3f; 0x40; 0x1; 0xe0; 0x0; 0xf1; 0x0];
  (* U+0023 *)
    [0x0; 0x0; 0x2; 0x85; 0x0; 0x7; 0x80; 0x0;
     0x0; 0x0; 0x8; 0xf7; 0x0; 0x2f; 0xe0; 0x0;
     0x0; 0x0; 0xc; 0xf3; 0x0; 0x6f; 0xa0; 0x0;
     0x0; 0x0; 0xf; 0xf0; 0x0; 0xaf; 0x60; 0x0;
     0xa; 0xff; 0xff; 0xff; 0xff; 0xff; 0xff; 0xf8;
     0x8; 0xdd; 0xef; 0xed; 0xdd; 0xff; 0xdd; 0xd6;
     0x0; 0x0; 0xaf; 0x50; 0x4; 0xfc; 0x0; 0x0;
     0x0; 0x0; 0xef; 0x20; 0x7; 0xf9; 0x0; 0x0;
     0x0; 0x1; 0xfe; 0x0; 0xa; 0xf5; 0x0; 0x0;
     0x0; 0x4; 0xfb; 0x0; 0xd; 0xf2; 0x0; 0x0;
     0xcf; 0xff; 0xff; 0xff; 0xff; 0xff; 0xff; 0x50;
     0xad; 0xdf; 0xfd; 0xdd; 0xef; 0xfd; 0xdd; 0x40;
     0x0; 0xe; 0xf1; 0x0; 0x8f; 0x80; 0x0; 0x0;
     0x0; 0x2f; 0xe0; 0x0; 0xbf; 0x40; 0x0; 0x0;
     0x0; 0x5f; 0xa0; 0x0; 0xef; 0x10; 0x0; 0x0;
     0x0; 0x8f; 0x70; 0x1; 0xfe; 0x0; 0x0; 0x0];
  (* U+0024 *)
    [0x0; 0x0; 0x3; 0x51; 0x0; 0x0; 0x0; 0x0;
     0x9; 0xf4; 0x0; 0x0; 0x0; 0x0; 0x9; 0xf4;
     0x0; 0x0; 0x0; 0x3; 0x9e; 0xfc; 0x71; 0x0;
     0x0; 0x8f; 0xff; 0xff; 0xff; 0x40; 0x7; 0xff;
     0xab; 0xfa; 0xef; 0xf1; 0xe; 0xf9; 0x9; 0xf4;
     0x2f; 0xf8; 0x2f; 0xf4; 0x9; 0xf4; 0x7; 0xa3;
     0x1f; 0xf6; 0x9; 0xf4; 0x0; 0x0; 0xd; 0xff;
     0x7a; 0xf4; 0x0; 0x0; 0x3; 0xff; 0xff; 0xfb;
     0x50; 0x0; 0x0; 0x2b; 0xff; 0xff; 0xfe; 0x30;
     0x0; 0x0; 0x1a; 0xfd; 0xff; 0xf3; 0x0; 0x0;
     0x9; 0xf4; 0x3e; 0xfa; 0x5b; 0x90; 0x9; 0xf4;
     0x8; 0xfe; 0x9f; 0xe0; 0x9; 0xf4; 0x8; 0xfd;
     0x3f; 0xfb; 0x9; 0xf4; 0x2e; 0xf9; 0x8; 0xff;
     0xfe; 0xfd; 0xff; 0xe1; 0x0; 0x6f; 0xff; 0xff;
     0xfc; 0x20; 0x0; 0x0; 0x4c; 0xf9; 0x30; 0x0;
     0x0; 0x0; 0x9; 0xf4; 0x0; 0x0; 0x0; 0x0;
     0x9; 0xf4; 0x0; 0x0];
  (* U+0025 *)
    [0x0; 0x8e; 0xfb; 0x20; 0x0; 0x0; 0xd; 0xf3;
     0x0; 0xc; 0xff; 0xff; 0xf2; 0x0; 0x0; 0xaf;
     0x80; 0x0; 0x6f; 0xd1; 0x9; 0xfb; 0x0; 0x5;
     0xfd; 0x0; 0x0; 0xaf; 0x60; 0x0; 0xff; 0x0;
     0x1e; 0xf2; 0x0; 0x0; 0xaf; 0x60; 0x1; 0xff;
     0x0; 0xbf; 0x70; 0x0; 0x0; 0x5f; 0xd2; 0x1a;
     0xfa; 0x6; 0xfb; 0x0; 0x0; 0x0; 0xb; 0xff;
     0xff; 0xe1; 0x2f; 0xf1; 0x0; 0x0; 0x0; 0x0;
     0x7d; 0xea; 0x10; 0xcf; 0x50; 0x0; 0x0; 0x0;
     0x0; 0x0; 0x0; 0x8; 0xfa; 0x2; 0xbe; 0xc5;
     0x0; 0x0; 0x0; 0x0; 0x3f; 0xe1; 0x3f; 0xff;
     0xff; 0x80; 0x0; 0x0; 0x0; 0xdf; 0x40; 0xdf;
     0x80; 0x4f; 0xf3; 0x0; 0x0; 0x9; 0xf9; 0x1;
     0xfe; 0x0; 0x9; 0xf7; 0x0; 0x0; 0x5f; 0xd0;
     0x1; 0xfe; 0x0; 0x9; 0xf7; 0x0; 0x1; 0xef;
     0x30; 0x0; 0xdf; 0x60; 0x2e; 0xf3; 0x0; 0xb;
     0xf7; 0x0; 0x0; 0x4f; 0xff; 0xff; 0x90; 0x0;
     0x6f; 0xc0; 0x0; 0x0; 0x3; 0xcf; 0xe7; 0x0];
  (* U+0026 *)
    [0x0; 0x3; 0xbf; 0xfc; 0x50; 0x0; 0x0; 0x0;
     0x0; 0x7f; 0xff; 0xff; 0xf8; 0x0; 0x0; 0x0;
     0x1; 0xff; 0xa2; 0x1a; 0xff; 0x20; 0x0; 0x0;
     0x5; 0xff; 0x0; 0x0; 0xff; 0x60; 0x0; 0x0;
     0x5; 0xff; 0x0; 0x0; 0xff; 0x60; 0x0; 0x0;
     0x1; 0xff; 0x80; 0x8; 0xff; 0x10; 0x0; 0x0;
     0x0; 0x7f; 0xf7; 0xbf; 0xf5; 0x0; 0x0; 0x0;
     0x0; 0xa; 0xff; 0xfe; 0x40; 0x0; 0x1; 0x10;
     0x0; 0x9; 0xff; 0xf8; 0x0; 0x0; 0x1d; 0x20;
     0x0; 0xcf; 0xfb; 0xff; 0x70; 0x0; 0xcf; 0x20;
     0xa; 0xff; 0x30; 0x9f; 0xf8; 0xc; 0xfd; 0x10;
     0x1f; 0xf5; 0x0; 0x9; 0xff; 0xdf; 0xe2; 0x0;
     0x4f; 0xf2; 0x0; 0x0; 0x9f; 0xff; 0x30; 0x0;
     0x3f; 0xf6; 0x0; 0x0; 0xbf; 0xff; 0x70; 0x0;
     0xe; 0xff; 0x73; 0x5d; 0xff; 0xef; 0xf6; 0x0;
     0x4; 0xff; 0xff; 0xff; 0xf8; 0x1d; 0xff; 0x50;
     0x0; 0x2a; 0xef; 0xea; 0x30; 0x1; 0xdf; 0xf4];
  (* U+0027 *)
    [0x2; 0x61; 0xe; 0xfb; 0xf; 0xfc; 0xc; 0xf9;
     0x8; 0xf5; 0x5; 0xf2; 0x1; 0xe0];
  (* U+0028 *)
    [0x0; 0x0; 0x0; 0x0; 0x0; 0xb; 0xa0; 0x0;
     0x8; 0xfd; 0x0; 0x3; 0xff; 0x20; 0x0; 0xcf;
     0x70; 0x0; 0x5f; 0xe0; 0x0; 0xb; 0xf6; 0x0;
     0x0; 0xff; 0x0; 0x0; 0x4f; 0xb0; 0x0; 0x7;
     0xf8; 0x0; 0x0; 0x9f; 0x50; 0x0; 0xa; 0xf4;
     0x0; 0x0; 0xaf; 0x40; 0x0; 0xa; 0xf5; 0x0;
     0x0; 0x8f; 0x60; 0x0; 0x6; 0xf9; 0x0; 0x0;
     0x3f; 0xc0; 0x0; 0x0; 0xdf; 0x20; 0x0; 0x9;
     0xf8; 0x0; 0x0; 0x2f; 0xf1; 0x0; 0x0; 0x9f;
     0xa0; 0x0; 0x1; 0xef; 0x50; 0x0; 0x4; 0xff;
     0x10; 0x0; 0x6; 0x50];
  (* U+0029 *)
    [0x0; 0x0; 0x0; 0x6d; 0x10; 0x0; 0x9f; 0xc0;
     0x0; 0xd; 0xf7; 0x0; 0x3; 0xff; 0x10; 0x0;
     0xaf; 0x90; 0x0; 0x2f; 0xe0; 0x0; 0xd; 0xf4;
     0x0; 0x8; 0xf8; 0x0; 0x4; 0xfb; 0x0; 0x2;
     0xfd; 0x0; 0x0; 0xfe; 0x0; 0x0; 0xfe; 0x0;
     0x1; 0xfd; 0x0; 0x2; 0xfc; 0x0; 0x5; 0xfa;
     0x0; 0x9; 0xf7; 0x0; 0xe; 0xf2; 0x0; 0x5f;
     0xd0; 0x0; 0xdf; 0x60; 0x6; 0xfd; 0x0; 0x2f;
     0xf4; 0x0; 0xcf; 0x80; 0x0; 0x29; 0x0; 0x0];
  (* U+002A *)
    [0x0; 0x0; 0xbf; 0x30; 0x0; 0x0; 0x0; 0xbf;
     0x30; 0x0; 0x7; 0x50; 0xbf; 0x33; 0x83; 0xf;
     0xff; 0xef; 0xef; 0xf9; 0x3; 0x8d; 0xff; 0xfb;
     0x61; 0x0; 0x9; 0xff; 0xf3; 0x0; 0x0; 0x5f;
     0xd6; 0xfd; 0x10; 0x0; 0xcf; 0x30; 0x9f; 0x70;
     0x0; 0x4; 0x0; 0x5; 0x0];
  (* U+002B *)
    [0x0; 0x0; 0x16; 0x40; 0x0; 0x0; 0x0; 0x0;
     0x3f; 0xc0; 0x0; 0x0; 0x0; 0x0; 0x3f; 0xc0;
     0x0; 0x0; 0x0; 0x0; 0x3f; 0xc0; 0x0; 0x0;
     0x0; 0x0; 0x3f; 0xc0; 0x0; 0x0; 0x9e; 0xee;
     0xef; 0xfe; 0xee; 0xe4; 0xbf; 0xff; 0xff; 0xff;
     0xff; 0xf4; 0x0; 0x0; 0x3f; 0xc0; 0x0; 0x0;
     0x0; 0x0; 0x3f; 0xc0; 0x0; 0x0; 0x0; 0x0;
     0x3f; 0xc0; 0x0; 0x0; 0x0; 0x0; 0x3f; 0xc0;
     0x0; 0x0; 0x0; 0x0; 0x3f; 0xc0; 0x0; 0x0];
  (* U+002C *)
    [0x0; 0x30; 0x1; 0xef; 0xd0; 0x4f; 0xff; 0x40;
     0xcf; 0xf5; 0x0; 0x4f; 0x30; 0xc; 0xd0; 0x1d;
     0xe3; 0x1; 0x81; 0x0];
  (* U+002D *)
    [0xef; 0xff; 0xff; 0x9e; 0xff; 0xff; 0xf9]].
Definition glyph_bitmap_002e : list (list Z) := [
  (* U+002E *)
    [0x1; 0x40; 0x1; 0xff; 0xb0; 0x4f; 0xff; 0x0;
     0xbf; 0x70];
  (* U+002F *)
    [0x0; 0x0; 0x0; 0x1; 0xff; 0x20; 0x0; 0x0;
     0x0; 0x7f; 0xb0; 0x0; 0x0; 0x0; 0xe; 0xf3;
     0x0; 0x0; 0x0; 0x7; 0xfb; 0x0; 0x0; 0x0;
     0x0; 0xef; 0x30; 0x0; 0x0; 0x0; 0x6f; 0xc0;
     0x0; 0x0; 0x0; 0xe; 0xf4; 0x0; 0x0; 0x0;
     0x6; 0xfc; 0x0; 0x0; 0x0; 0x0; 0xdf; 0x40;
     0x0; 0x0; 0x0; 0x5f; 0xd0; 0x0; 0x0; 0x0;
     0xd; 0xf5; 0x0; 0x0; 0x0; 0x5; 0xfd; 0x0;
     0x0; 0x0; 0x0; 0xdf; 0x50; 0x0; 0x0; 0x0;
     0x4f; 0xd0; 0x0; 0x0; 0x0; 0xc; 0xf6; 0x0;
     0x0; 0x0; 0x4; 0xfe; 0x0; 0x0; 0x0; 0x0;
     0xcf; 0x60; 0x0; 0x0; 0x0; 0x0];
  (* U+0030 *)
    [0x0; 0x0; 0x0; 0x10; 0x0; 0x0; 0x0; 0x0;
     0x5c; 0xff; 0xfb; 0x30; 0x0; 0x0; 0xaf; 0xff;
     0xff; 0xff; 0x60; 0x0; 0x7f; 0xf9; 0x10; 0x2b;
     0xff; 0x30; 0xf; 0xf8; 0x0; 0x0; 0xc; 0xfb;
     0x5; 0xff; 0x10; 0x0; 0x0; 0x4f; 0xf1; 0x9f;
     0xc0; 0x0; 0x0; 0x0; 0xff; 0x4b; 0xf9; 0x0;
     0x0; 0x0; 0xe; 0xf7; 0xcf; 0x80; 0x0; 0x0;
     0x0; 0xdf; 0x8c; 0xf8; 0x0; 0x0; 0x0; 0xd;
     0xf8; 0xbf; 0x90; 0x0; 0x0; 0x0; 0xef; 0x78;
     0xfc; 0x0; 0x0; 0x0; 0xf; 0xf4; 0x5f; 0xf1;
     0x0; 0x0; 0x5; 0xff; 0x10; 0xef; 0x90; 0x0;
     0x0; 0xdf; 0xa0; 0x6; 0xff; 0xa3; 0x14; 0xdf;
     0xf2; 0x0; 0x8; 0xff; 0xff; 0xff; 0xf5; 0x0;
     0x0; 0x4; 0xbe; 0xfe; 0x92; 0x0; 0x0];
  (* U+0031 *)
    [0x0; 0x0; 0x5a; 0x70; 0x0; 0xd; 0xfa; 0x0;
     0x2b; 0xff; 0xa4; 0xdf; 0xff; 0xfa; 0x6f; 0xff;
     0xff; 0xa0; 0x0; 0xa; 0xfa; 0x0; 0x0; 0xaf;
     0xa0; 0x0; 0xa; 0xfa; 0x0; 0x0; 0xaf; 0xa0;
     0x0; 0xa; 0xfa; 0x0; 0x0; 0xaf; 0xa0; 0x0;
     0xa; 0xfa; 0x0; 0x0; 0xaf; 0xa0; 0x0; 0xa;
     0xfa; 0x0; 0x0; 0xaf; 0xa0; 0x0; 0xa; 0xfa];
  (* U+0032 *)
    [0x0; 0x4; 0xbe; 0xfe; 0x92; 0x0; 0x0; 0x8f;
     0xff; 0xff; 0xff; 0x50; 0x4; 0xff; 0xb3; 0x25;
     0xdf; 0xf1; 0xb; 0xfc; 0x0; 0x0; 0x2f; 0xf7;
     0xe; 0xf7; 0x0; 0x0; 0xc; 0xf9; 0xb; 0xe5;
     0x0; 0x0; 0xd; 0xf8; 0x0; 0x0; 0x0; 0x0;
     0x4f; 0xf5; 0x0; 0x0; 0x0; 0x3; 0xef; 0xd0;
     0x0; 0x0; 0x0; 0x8f; 0xfe; 0x20; 0x0; 0x0;
     0x3d; 0xff; 0xc1; 0x0; 0x0; 0x7; 0xff; 0xf6;
     0x0; 0x0; 0x0; 0x7f; 0xfb; 0x10; 0x0; 0x0;
     0x3; 0xff; 0x80; 0x0; 0x0; 0x0; 0xa; 0xfe;
     0x33; 0x33; 0x33; 0x32; 0xf; 0xff; 0xff; 0xff;
     0xff; 0xfb; 0x1f; 0xff; 0xff; 0xff; 0xff; 0xfb];
  (* U+0033 *)
    [0x9; 0xff; 0xff; 0xff; 0xff; 0xff; 0x0; 0x9f;
     0xff; 0xff; 0xff; 0xff; 0xf0; 0x1; 0x22; 0x22;
     0x22; 0xaf; 0xf8; 0x0; 0x0; 0x0; 0x0; 0x9f;
     0xf7; 0x0; 0x0; 0x0; 0x0; 0xaf; 0xf6; 0x0;
     0x0; 0x0; 0x0; 0xbf; 0xf5; 0x0; 0x0; 0x0;
     0x0; 0x8f; 0xfe; 0xa5; 0x0; 0x0; 0x0; 0x2;
     0xff; 0xff; 0xfb; 0x0; 0x0; 0x0; 0x3; 0x23;
     0x9f; 0xfa; 0x0; 0x0; 0x0; 0x0; 0x0; 0x8f;
     0xf1; 0x1; 0x41; 0x0; 0x0; 0x2; 0xff; 0x40;
     0xff; 0x60; 0x0; 0x0; 0x2f; 0xf4; 0xc; 0xfd;
     0x0; 0x0; 0x8; 0xff; 0x10; 0x4f; 0xfd; 0x41;
     0x39; 0xff; 0x90; 0x0; 0x7f; 0xff; 0xff; 0xff;
     0xb0; 0x0; 0x0; 0x3a; 0xef; 0xec; 0x60; 0x0];
  (* U+0034 *)
    [0x0; 0x0; 0x0; 0x5; 0x88; 0x60; 0x0; 0x0;
     0x0; 0x0; 0x3f; 0xff; 0xc0; 0x0; 0x0; 0x0;
     0x1; 0xef; 0xff; 0xc0; 0x0; 0x0; 0x0; 0xb;
     0xfd; 0x9f; 0xc0; 0x0; 0x0; 0x0; 0x7f; 0xf2;
     0x8f; 0xc0; 0x0; 0x0; 0x3; 0xff; 0x50; 0x8f;
     0xc0; 0x0; 0x0; 0x1d; 0xf9; 0x0; 0x8f; 0xc0;
     0x0; 0x0; 0xaf; 0xd0; 0x0; 0x8f; 0xc0; 0x0;
     0x6; 0xff; 0x20; 0x0; 0x8f; 0xc0; 0x0; 0x1f;
     0xf5; 0x0; 0x0; 0x8f; 0xc0; 0x0; 0x2f; 0xff;
     0xff; 0xff; 0xff; 0xff; 0xf6; 0x2f; 0xff; 0xff;
     0xff; 0xff; 0xff; 0xf6; 0x3; 0x33; 0x33; 0x33;
     0xaf; 0xc3; 0x31; 0x0; 0x0; 0x0; 0x0; 0x8f;
     0xc0; 0x0; 0x0; 0x0; 0x0; 0x0; 0x8f; 0xc0;
     0x0; 0x0; 0x0; 0x0; 0x0; 0x8f; 0xc0; 0x0];
  (* U+0035 *)
    [0x0; 0xb; 0xff; 0xff; 0xff; 0xfa; 0x0; 0x0;
     0xff; 0xff; 0xff; 0xff; 0xa0; 0x0; 0x3f; 0xe2;
     0x22; 0x22; 0x21; 0x0; 0x8; 0xfa; 0x0; 0x0;
     0x0; 0x0; 0x0; 0xcf; 0x50; 0x0; 0x0; 0x0;
     0x0; 0x1f; 0xf6; 0xcf; 0xfc; 0x70; 0x0; 0x5;
     0xff; 0xff; 0xff; 0xff; 0xc0; 0x0; 0x3b; 0xfb;
     0x31; 0x3a; 0xff; 0x90; 0x0; 0x2; 0x0; 0x0;
     0xb; 0xff; 0x0; 0x0; 0x0; 0x0; 0x0; 0x3f;
     0xf3; 0x0; 0x51; 0x0; 0x0; 0x1; 0xff; 0x41;
     0xff; 0x50; 0x0; 0x0; 0x3f; 0xf3; 0xd; 0xfd;
     0x0; 0x0; 0xb; 0xfe; 0x0; 0x5f; 0xfc; 0x41;
     0x3b; 0xff; 0x60; 0x0; 0x7f; 0xff; 0xff; 0xff;
     0x90; 0x0; 0x0; 0x3a; 0xef; 0xeb; 0x40; 0x0];
  (* U+0036 *)
    [0x0; 0x0; 0x0; 0x0; 0x10; 0x0; 0x0; 0x0;
     0x3; 0xae; 0xff; 0xfc; 0x30; 0x0; 0x9; 0xff;
     0xff; 0xff; 0xf5; 0x0; 0xa; 0xff; 0x93; 0x0;
     0x27; 0x0; 0x6; 0xff; 0x30; 0x0; 0x0; 0x0;
     0x0; 0xef; 0x60; 0x0; 0x0; 0x0; 0x0; 0x4f;
     0xe1; 0x8d; 0xfe; 0xb4; 0x0; 0x8; 0xfc; 0xdf;
     0xff; 0xff; 0xf8; 0x0; 0xaf; 0xff; 0x92; 0x14;
     0xdf; 0xf5; 0xc; 0xff; 0x90; 0x0; 0x0; 0xef;
     0xb0; 0xbf; 0xf1; 0x0; 0x0; 0x7; 0xff; 0xa;
     0xff; 0x0; 0x0; 0x0; 0x5f; 0xf0; 0x6f; 0xf1;
     0x0; 0x0; 0x7; 0xff; 0x1; 0xff; 0x90; 0x0;
     0x0; 0xef; 0xb0; 0x8; 0xff; 0xa3; 0x14; 0xcf;
     0xf3; 0x0; 0xa; 0xff; 0xff; 0xff; 0xf5; 0x0;
     0x0; 0x4; 0xbe; 0xfe; 0x92; 0x0; 0x0];
  (* U+0037 *)
    [0xef; 0xff; 0xff; 0xff; 0xff; 0xf7; 0xef; 0xff;
     0xff; 0xff; 0xff; 0xf7; 0x22; 0x22; 0x22; 0x22;
     0x9f; 0xf3; 0x0; 0x0; 0x0; 0x7; 0xff; 0x30;
     0x0; 0x0; 0x0; 0x4f; 0xf4; 0x0; 0x0; 0x0;
     0x1; 0xef; 0x80; 0x0; 0x0; 0x0; 0x9; 0xfd;
     0x0; 0x0; 0x0; 0x0; 0x2f; 0xf5; 0x0; 0x0;
     0x0; 0x0; 0xaf; 0xd0; 0x0; 0x0; 0x0; 0x1;
     0xff; 0x60; 0x0; 0x0; 0x0; 0x6; 0xff; 0x0;
     0x0; 0x0; 0x0; 0xb; 0xfb; 0x0; 0x0; 0x0;
     0x0; 0xf; 0xf7; 0x0; 0x0; 0x0; 0x0; 0x2f;
     0xf4; 0x0; 0x0; 0x0; 0x0; 0x5f; 0xf1; 0x0;
     0x0; 0x0; 0x0; 0x7f; 0xf0; 0x0; 0x0; 0x0];
  (* U+0038 *)
    [0x0; 0x29; 0xef; 0xfb; 0x50; 0x0; 0x5; 0xff;
     0xff; 0xff; 0xfb; 0x0; 0x1f; 0xfc; 0x30; 0x18;
     0xff; 0x70; 0x6f; 0xf1; 0x0; 0x0; 0xaf; 0xd0;
     0x7f; 0xe0; 0x0; 0x0; 0x7f; 0xe0; 0x4f; 0xf1;
     0x0; 0x0; 0xaf; 0xb0; 0xc; 0xfd; 0x40; 0x18;
     0xff; 0x30; 0x1; 0xaf; 0xff; 0xff; 0xe4; 0x0;
     0x3; 0xcf; 0xff; 0xff; 0xe7; 0x0; 0x2f; 0xfa;
     0x20; 0x16; 0xef; 0x80; 0xbf; 0xb0; 0x0; 0x0;
     0x4f; 0xf2; 0xef; 0x80; 0x0; 0x0; 0x1f; 0xf5;
     0xdf; 0xc0; 0x0; 0x0; 0x5f; 0xf3; 0x7f; 0xfa;
     0x31; 0x26; 0xef; 0xd0; 0xa; 0xff; 0xff; 0xff;
     0xfe; 0x30; 0x0; 0x4b; 0xef; 0xfc; 0x81; 0x0]].
Definition glyph_bitmap_0039 : list (list Z) := [
  (* U+0039 *)
    [0x0; 0x0; 0x0; 0x0; 0x0; 0x0; 0x0; 0x0;
     0x3b; 0xff; 0xfc; 0x50; 0x0; 0x0; 0x7f; 0xff;
     0xff; 0xff; 0xa0; 0x0; 0x4f; 0xfb; 0x30; 0x28;
     0xff; 0x80; 0xc; 0xfc; 0x0; 0x0; 0x7; 0xff;
     0x10; 0xff; 0x60; 0x0; 0x0; 0xf; 0xf6; 0xf;
     0xf6; 0x0; 0x0; 0x0; 0xff; 0xa0; 0xdf; 0xc0;
     0x0; 0x0; 0x7f; 0xfb; 0x6; 0xff; 0xb3; 0x2;
     0x8f; 0xff; 0xb0; 0x9; 0xff; 0xff; 0xff; 0xec;
     0xfa; 0x0; 0x5; 0xbf; 0xfe; 0x91; 0xdf; 0x80;
     0x0; 0x0; 0x0; 0x0; 0x1f; 0xf5; 0x0; 0x0;
     0x0; 0x0; 0x8; 0xff; 0x0; 0x0; 0x0; 0x0;
     0x5; 0xff; 0x80; 0x0; 0xa5; 0x32; 0x5a; 0xff;
     0xd0; 0x0; 0x6f; 0xff; 0xff; 0xff; 0xb1; 0x0;
     0x2; 0x9d; 0xff; 0xda; 0x40; 0x0; 0x0];
  (* U+003A *)
    [0x9; 0xf8; 0x2; 0xff; 0xf1; 0xe; 0xfd; 0x0;
     0x14; 0x10; 0x0; 0x0; 0x0; 0x0; 0x0; 0x0;
     0x0; 0x0; 0x0; 0x0; 0x1; 0x41; 0x0; 0xef;
     0xd0; 0x1f; 0xff; 0x10; 0x9f; 0x90];
  (* U+003B *)
    [0x9; 0xf8; 0x1; 0xff; 0xf1; 0xe; 0xfd; 0x0;
     0x14; 0x10; 0x0; 0x0; 0x0; 0x0; 0x0; 0x0;
     0x0; 0x0; 0x0; 0x0; 0x0; 0x0; 0x0; 0xcf;
     0xb0; 0x2f; 0xff; 0x30; 0xbf; 0xf4; 0x0; 0x4f;
     0x20; 0xc; 0xb0; 0xd; 0xd1; 0x0; 0x50; 0x0];
  (* U+003C *)
    [0x0; 0x0; 0x0; 0x0; 0x5; 0x80; 0x0; 0x0;
     0x0; 0x4c; 0xfb; 0x0; 0x0; 0x4; 0xcf; 0xfe;
     0x60; 0x0; 0x4c; 0xff; 0xe7; 0x0; 0x4; 0xcf;
     0xfe; 0x70; 0x0; 0x2; 0xff; 0xe7; 0x0; 0x0;
     0x0; 0x2f; 0xfd; 0x50; 0x0; 0x0; 0x0; 0x6e;
     0xff; 0xd5; 0x0; 0x0; 0x0; 0x6; 0xef; 0xfd;
     0x50; 0x0; 0x0; 0x0; 0x6e; 0xff; 0xd4; 0x0;
     0x0; 0x0; 0x7; 0xef; 0xb0; 0x0; 0x0; 0x0;
     0x0; 0x7a; 0x0; 0x0; 0x0; 0x0; 0x0; 0x0];
  (* U+003D *)
    [0x6d; 0xdd; 0xdd; 0xdd; 0xdd; 0xd9; 0x7f; 0xff;
     0xff; 0xff; 0xff; 0xfa; 0x0; 0x0; 0x0; 0x0;
     0x0; 0x0; 0x0; 0x0; 0x0; 0x0; 0x0; 0x0;
     0x0; 0x0; 0x0; 0x0; 0x0; 0x0; 0x6e; 0xee;
     0xee; 0xee; 0xee; 0xe9; 0x7f; 0xff; 0xff; 0xff;
     0xff; 0xfa];
  (* U+003E *)
    [0x29; 0x10; 0x0; 0x0; 0x0; 0x2; 0xff; 0x91;
     0x0; 0x0; 0x0; 0xa; 0xff; 0xf9; 0x10; 0x0;
     0x0; 0x2; 0xaf; 0xff; 0x91; 0x0; 0x0; 0x0;
     0x2a; 0xff; 0xf9; 0x10; 0x0; 0x0; 0x2; 0xaf;
     0xfb; 0x0; 0x0; 0x0; 0x18; 0xff; 0xb0; 0x0;
     0x1; 0x8f; 0xff; 0xb3; 0x0; 0x18; 0xff; 0xfb;
     0x30; 0x0; 0x8f; 0xff; 0xb3; 0x0; 0x0; 0x2f;
     0xfb; 0x30; 0x0; 0x0; 0x2; 0xb3; 0x0; 0x0;
     0x0; 0x0; 0x0; 0x0; 0x0; 0x0; 0x0; 0x0];
  (* U+003F *)
    [0x0; 0x6; 0xcf; 0xfd; 0x81; 0x0; 0x0; 0xbf;
     0xff; 0xff; 0xfe; 0x20; 0x8; 0xff; 0x93; 0x37;
     0xff; 0xc0; 0xe; 0xf9; 0x0; 0x0; 0x6f; 0xf3;
     0x1f; 0xf3; 0x0; 0x0; 0xf; 0xf5; 0x1f; 0xf2;
     0x0; 0x0; 0x2f; 0xf4; 0x0; 0x10; 0x0; 0x0;
     0xbf; 0xe0; 0x0; 0x0; 0x0; 0x3d; 0xff; 0x40;
     0x0; 0x0; 0x4; 0xff; 0xe4; 0x0; 0x0; 0x0;
     0xe; 0xfb; 0x10; 0x0; 0x0; 0x0; 0x3f; 0xf0;
     0x0; 0x0; 0x0; 0x0; 0x4f; 0xd0; 0x0; 0x0;
     0x0; 0x0; 0x1; 0x0; 0x0; 0x0; 0x0; 0x0;
     0x1; 0x0; 0x0; 0x0; 0x0; 0x0; 0x7f; 0xd1;
     0x0; 0x0; 0x0; 0x0; 0xcf; 0xf4; 0x0; 0x0;
     0x0; 0x0; 0x5f; 0xb0; 0x0; 0x0];
  (* U+0040 *)
    [0x0; 0x0; 0x2; 0x8c; 0xef; 0xeb; 0x71; 0x0;
     0x0; 0x0; 0x0; 0x9f; 0xff; 0xdc; 0xdf; 0xff;
     0x70; 0x0; 0x0; 0x2d; 0xfd; 0x50; 0x0; 0x1;
     0x6e; 0xfb; 0x0; 0x0; 0xdf; 0x90; 0x0; 0x0;
     0x0; 0x0; 0xbf; 0x90; 0x9; 0xfa; 0x0; 0x5;
     0xbc; 0x80; 0x77; 0xd; 0xf3; 0x1f; 0xf1; 0x0;
     0xbf; 0xff; 0xfc; 0xfc; 0x5; 0xf9; 0x7f; 0x90;
     0x8; 0xfd; 0x30; 0x6f; 0xf9; 0x0; 0xfd; 0xbf;
     0x40; 0x1f; 0xf1; 0x0; 0xc; 0xf5; 0x0; 0xef;
     0xdf; 0x20; 0x5f; 0xa0; 0x0; 0xa; 0xf2; 0x0;
     0xfe; 0xef; 0x10; 0x7f; 0x80; 0x0; 0xd; 0xf0;
     0x1; 0xfc; 0xdf; 0x20; 0x6f; 0x90; 0x0; 0x2f;
     0xb0; 0x7; 0xf8; 0xbf; 0x40; 0x3f; 0xe1; 0x0;
     0xcf; 0xb0; 0x2f; 0xf1; 0x7f; 0x90; 0xa; 0xfe;
     0xbe; 0xee; 0xfb; 0xff; 0x60; 0x1f; 0xf1; 0x0;
     0x8e; 0xfa; 0x14; 0xdf; 0xc5; 0x0; 0x9; 0xfb;
     0x0; 0x0; 0x0; 0x0; 0x0; 0x0; 0x0; 0x0;
     0xcf; 0xb1; 0x0; 0x0; 0x0; 0x2; 0xa0; 0x0;
     0x0; 0x1c; 0xff; 0x94; 0x10; 0x14; 0x9f; 0xf5;
     0x0; 0x0; 0x0; 0x7e; 0xff; 0xff; 0xff; 0xfe;
     0x50; 0x0; 0x0; 0x0; 0x0; 0x48; 0xab; 0xb8;
     0x40; 0x0; 0x0];
  (* U+0041 *)
    [0x0; 0x0; 0x0; 0x2f; 0xfe; 0x0; 0x0; 0x0;
     0x0; 0x0; 0x0; 0x9; 0xff; 0xf5; 0x0; 0x0;
     0x0; 0x0; 0x0; 0x0; 0xff; 0xdf; 0xb0; 0x0;
     0x0; 0x0; 0x0; 0x0; 0x6f; 0xe4; 0xff; 0x10;
     0x0; 0x0; 0x0; 0x0; 0xc; 0xf8; 0xe; 0xf8;
     0x0; 0x0; 0x0; 0x0; 0x2; 0xff; 0x20; 0x8f;
     0xe0; 0x0; 0x0; 0x0; 0x0; 0x9f; 0xb0; 0x1;
     0xff; 0x40; 0x0; 0x0; 0x0; 0xe; 0xf5; 0x0;
     0xb; 0xfb; 0x0; 0x0; 0x0; 0x6; 0xff; 0x0;
     0x0; 0x5f; 0xf1; 0x0; 0x0; 0x0; 0xcf; 0x90;
     0x0; 0x0; 0xef; 0x70; 0x0; 0x0; 0x2f; 0xff;
     0xff; 0xff; 0xff; 0xfe; 0x0; 0x0; 0x9; 0xff;
     0xff; 0xff; 0xff; 0xff; 0xf4; 0x0; 0x0; 0xef;
     0x83; 0x33; 0x33; 0x33; 0xcf; 0xb0; 0x0; 0x5f;
     0xf1; 0x0; 0x0; 0x0; 0x6; 0xff; 0x10; 0xc;
     0xfb; 0x0; 0x0; 0x0; 0x0; 0xf; 0xf7; 0x2;
     0xff; 0x50; 0x0; 0x0; 0x0; 0x0; 0xaf; 0xe0;
     0x9f; 0xe0; 0x0; 0x0; 0x0; 0x0; 0x4; 0xff;
     0x40];
  (* U+0042 *)
    [0xdf; 0xff; 0xff; 0xfc; 0x60; 0x0; 0xdf; 0xff;
     0xff; 0xff; 0xfa; 0x0; 0xdf; 0x81; 0x11; 0x4b;
     0xff; 0x60; 0xdf; 0x80; 0x0; 0x0; 0xcf; 0xb0;
     0xdf; 0x80; 0x0; 0x0; 0x9f; 0xc0; 0xdf; 0x80;
     0x0; 0x0; 0xcf; 0xa0; 0xdf; 0x80; 0x0; 0x2a;
     0xff; 0x20; 0xdf; 0xff; 0xff; 0xff; 0xc3; 0x0;
     0xdf; 0xff; 0xff; 0xff; 0xf8; 0x0; 0xdf; 0x80;
     0x0; 0x26; 0xff; 0x80; 0xdf; 0x80; 0x0; 0x0;
     0x6f; 0xf1; 0xdf; 0x80; 0x0; 0x0; 0x1f; 0xf4;
     0xdf; 0x80; 0x0; 0x0; 0x1f; 0xf5; 0xdf; 0x80;
     0x0; 0x0; 0x7f; 0xf2; 0xdf; 0x81; 0x11; 0x28;
     0xff; 0xc0; 0xdf; 0xff; 0xff; 0xff; 0xfd; 0x10;
     0xdf; 0xff; 0xff; 0xfd; 0x80; 0x0]].
Definition glyph_bitmap_0043 : list (list Z) := [
  (* U+0043 *)
    [0x0; 0x0; 0x7; 0xbe; 0xfe; 0xc8; 0x10; 0x0;
     0x0; 0x0; 0x6f; 0xff; 0xff; 0xff; 0xff; 0x70;
     0x0; 0x0; 0x8f; 0xfe; 0x84; 0x35; 0x7e; 0xff;
     0x80; 0x0; 0x6f; 0xfa; 0x0; 0x0; 0x0; 0xa;
     0xff; 0x40; 0x1e; 0xfb; 0x0; 0x0; 0x0; 0x0;
     0xd; 0xfb; 0x6; 0xff; 0x20; 0x0; 0x0; 0x0;
     0x0; 0x5b; 0x60; 0xbf; 0xc0; 0x0; 0x0; 0x0;
     0x0; 0x0; 0x0; 0xd; 0xf9; 0x0; 0x0; 0x0;
     0x0; 0x0; 0x0; 0x0; 0xef; 0x80; 0x0; 0x0;
     0x0; 0x0; 0x0; 0x0; 0xd; 0xf9; 0x0; 0x0;
     0x0; 0x0; 0x0; 0x0; 0x0; 0xbf; 0xc0; 0x0;
     0x0; 0x0; 0x0; 0x0; 0x0; 0x6; 0xff; 0x20;
     0x0; 0x0; 0x0; 0x0; 0x4d; 0x70; 0x1e; 0xfb;
     0x0; 0x0; 0x0; 0x0; 0xc; 0xfb; 0x0; 0x6f;
     0xfa; 0x0; 0x0; 0x0; 0xb; 0xff; 0x30; 0x0;
     0x9f; 0xfe; 0x84; 0x34; 0x7e; 0xff; 0x70; 0x0;
     0x0; 0x6f; 0xff; 0xff; 0xff; 0xff; 0x60; 0x0;
     0x0; 0x0; 0x17; 0xce; 0xfe; 0xc7; 0x10; 0x0;
     0x0];
  (* U+0044 *)
    [0xdf; 0xff; 0xff; 0xfd; 0xa4; 0x0; 0x0; 0xd;
     0xff; 0xff; 0xff; 0xff; 0xfc; 0x10; 0x0; 0xdf;
     0x91; 0x11; 0x24; 0xaf; 0xfe; 0x10; 0xd; 0xf8;
     0x0; 0x0; 0x0; 0x4f; 0xfc; 0x0; 0xdf; 0x80;
     0x0; 0x0; 0x0; 0x5f; 0xf5; 0xd; 0xf8; 0x0;
     0x0; 0x0; 0x0; 0xcf; 0xb0; 0xdf; 0x80; 0x0;
     0x0; 0x0; 0x7; 0xff; 0xd; 0xf8; 0x0; 0x0;
     0x0; 0x0; 0x4f; 0xf1; 0xdf; 0x80; 0x0; 0x0;
     0x0; 0x3; 0xff; 0x2d; 0xf8; 0x0; 0x0; 0x0;
     0x0; 0x4f; 0xf1; 0xdf; 0x80; 0x0; 0x0; 0x0;
     0x7; 0xff; 0xd; 0xf8; 0x0; 0x0; 0x0; 0x0;
     0xcf; 0xb0; 0xdf; 0x80; 0x0; 0x0; 0x0; 0x4f;
     0xf5; 0xd; 0xf8; 0x0; 0x0; 0x0; 0x3e; 0xfd;
     0x0; 0xdf; 0x91; 0x11; 0x24; 0xaf; 0xfe; 0x20;
     0xd; 0xff; 0xff; 0xff; 0xff; 0xfc; 0x10; 0x0;
     0xdf; 0xff; 0xff; 0xfd; 0xa4; 0x0; 0x0; 0x0];
  (* U+0045 *)
    [0xdf; 0xff; 0xff; 0xff; 0xff; 0x8d; 0xff; 0xff;
     0xff; 0xff; 0xf8; 0xdf; 0x93; 0x33; 0x33; 0x33;
     0x1d; 0xf8; 0x0; 0x0; 0x0; 0x0; 0xdf; 0x80;
     0x0; 0x0; 0x0; 0xd; 0xf8; 0x0; 0x0; 0x0;
     0x0; 0xdf; 0x80; 0x0; 0x0; 0x0; 0xd; 0xff;
     0xff; 0xff; 0xff; 0xc0; 0xdf; 0xff; 0xff; 0xff;
     0xfc; 0xd; 0xf9; 0x33; 0x33; 0x33; 0x20; 0xdf;
     0x80; 0x0; 0x0; 0x0; 0xd; 0xf8; 0x0; 0x0;
     0x0; 0x0; 0xdf; 0x80; 0x0; 0x0; 0x0; 0xd;
     0xf8; 0x0; 0x0; 0x0; 0x0; 0xdf; 0x93; 0x33;
     0x33; 0x33; 0x1d; 0xff; 0xff; 0xff; 0xff; 0xf8;
     0xdf; 0xff; 0xff; 0xff; 0xff; 0x80];
  (* U+0046 *)
    [0xdf; 0xff; 0xff; 0xff; 0xff; 0x8d; 0xff; 0xff;
     0xff; 0xff; 0xf8; 0xdf; 0x93; 0x33; 0x33; 0x33;
     0x1d; 0xf8; 0x0; 0x0; 0x0; 0x0; 0xdf; 0x80;
     0x0; 0x0; 0x0; 0xd; 0xf8; 0x0; 0x0; 0x0;
     0x0; 0xdf; 0x80; 0x0; 0x0; 0x0; 0xd; 0xfa;
     0x33; 0x33; 0x33; 0x20; 0xdf; 0xff; 0xff; 0xff;
     0xfc; 0xd; 0xff; 0xff; 0xff; 0xff; 0xc0; 0xdf;
     0x80; 0x0; 0x0; 0x0; 0xd; 0xf8; 0x0; 0x0;
     0x0; 0x0; 0xdf; 0x80; 0x0; 0x0; 0x0; 0xd;
     0xf8; 0x0; 0x0; 0x0; 0x0; 0xdf; 0x80; 0x0;
     0x0; 0x0; 0xd; 0xf8; 0x0; 0x0; 0x0; 0x0;
     0xdf; 0x80; 0x0; 0x0; 0x0; 0x0];
  (* U+0047 *)
    [0x0; 0x0; 0x17; 0xbe; 0xfe; 0xc8; 0x20; 0x0;
     0x0; 0x0; 0x6f; 0xff; 0xff; 0xff; 0xff; 0x80;
     0x0; 0x0; 0x9f; 0xfe; 0x84; 0x34; 0x7d; 0xff;
     0xa0; 0x0; 0x6f; 0xfa; 0x0; 0x0; 0x0; 0x8;
     0xff; 0x70; 0x1e; 0xfb; 0x0; 0x0; 0x0; 0x0;
     0xa; 0xfc; 0x6; 0xff; 0x20; 0x0; 0x0; 0x0;
     0x0; 0x14; 0x0; 0xbf; 0xc0; 0x0; 0x0; 0x0;
     0x0; 0x0; 0x0; 0xd; 0xf9; 0x0; 0x0; 0x0;
     0x0; 0x0; 0x0; 0x0; 0xef; 0x80; 0x0; 0x3;
     0xff; 0xff; 0xff; 0xfe; 0xd; 0xf9; 0x0; 0x0;
     0x3f; 0xff; 0xff; 0xff; 0xe0; 0xbf; 0xb0; 0x0;
     0x0; 0x22; 0x22; 0x28; 0xfe; 0x6; 0xff; 0x10;
     0x0; 0x0; 0x0; 0x0; 0xaf; 0xe0; 0x1f; 0xfa;
     0x0; 0x0; 0x0; 0x0; 0x2f; 0xfe; 0x0; 0x7f;
     0xf9; 0x0; 0x0; 0x0; 0x1d; 0xff; 0xe0; 0x0;
     0xaf; 0xfd; 0x73; 0x24; 0x8f; 0xfb; 0xfe; 0x0;
     0x0; 0x8f; 0xff; 0xff; 0xff; 0xf9; 0x2f; 0xe0;
     0x0; 0x0; 0x18; 0xce; 0xfd; 0xa4; 0x0; 0xfe;
     0x0];
  (* U+0048 *)
    [0xdf; 0x80; 0x0; 0x0; 0x0; 0xc; 0xf8; 0xdf;
     0x80; 0x0; 0x0; 0x0; 0xc; 0xf8; 0xdf; 0x80;
     0x0; 0x0; 0x0; 0xc; 0xf8; 0xdf; 0x80; 0x0;
     0x0; 0x0; 0xc; 0xf8; 0xdf; 0x80; 0x0; 0x0;
     0x0; 0xc; 0xf8; 0xdf; 0x80; 0x0; 0x0; 0x0;
     0xc; 0xf8; 0xdf; 0x80; 0x0; 0x0; 0x0; 0xc;
     0xf8; 0xdf; 0xff; 0xff; 0xff; 0xff; 0xff; 0xf8;
     0xdf; 0xff; 0xff; 0xff; 0xff; 0xff; 0xf8; 0xdf;
     0x93; 0x33; 0x33; 0x33; 0x3d; 0xf8; 0xdf; 0x80;
     0x0; 0x0; 0x0; 0xc; 0xf8; 0xdf; 0x80; 0x0;
     0x0; 0x0; 0xc; 0xf8; 0xdf; 0x80; 0x0; 0x0;
     0x0; 0xc; 0xf8; 0xdf; 0x80; 0x0; 0x0; 0x0;
     0xc; 0xf8; 0xdf; 0x80; 0x0; 0x0; 0x0; 0xc;
     0xf8; 0xdf; 0x80; 0x0; 0x0; 0x0; 0xc; 0xf8;
     0xdf; 0x80; 0x0; 0x0; 0x0; 0xc; 0xf8];
  (* U+0049 *)
    [0xdf; 0x9d; 0xf9; 0xdf; 0x9d; 0xf9; 0xdf; 0x9d;
     0xf9; 0xdf; 0x9d; 0xf9; 0xdf; 0x9d; 0xf9; 0xdf;
     0x9d; 0xf9; 0xdf; 0x9d; 0xf9; 0xdf; 0x9d; 0xf9;
     0xdf; 0x90];
  (* U+004A *)
    [0x0; 0x0; 0x0; 0x0; 0x7f; 0xe0; 0x0; 0x0;
     0x0; 0x7; 0xfe; 0x0; 0x0; 0x0; 0x0; 0x7f;
     0xe0; 0x0; 0x0; 0x0; 0x7; 0xfe; 0x0; 0x0;
     0x0; 0x0; 0x7f; 0xe0; 0x0; 0x0; 0x0; 0x7;
     0xfe; 0x0; 0x0; 0x0; 0x0; 0x7f; 0xe0; 0x0;
     0x0; 0x0; 0x7; 0xfe; 0x0; 0x0; 0x0; 0x0;
     0x7f; 0xe0; 0x0; 0x0; 0x0; 0x7; 0xfe; 0x4a;
     0xb0; 0x0; 0x0; 0x7f; 0xe8; 0xfd; 0x0; 0x0;
     0x7; 0xfe; 0x7f; 0xf0; 0x0; 0x0; 0x8f; 0xd3;
     0xff; 0x40; 0x0; 0xd; 0xf9; 0xd; 0xff; 0x74;
     0x5c; 0xff; 0x20; 0x3e; 0xff; 0xff; 0xff; 0x60;
     0x0; 0x19; 0xdf; 0xeb; 0x30; 0x0];
  (* U+004B *)
    [0xdf; 0x80; 0x0; 0x0; 0x1; 0xdf; 0xe2; 0xdf;
     0x80; 0x0; 0x0; 0xd; 0xff; 0x30; 0xdf; 0x80;
     0x0; 0x0; 0xcf; 0xf4; 0x0; 0xdf; 0x80; 0x0;
     0xb; 0xff; 0x50; 0x0; 0xdf; 0x80; 0x0; 0x9f;
     0xf6; 0x0; 0x0; 0xdf; 0x80; 0x8; 0xff; 0x70;
     0x0; 0x0; 0xdf; 0x80; 0x6f; 0xf8; 0x0; 0x0;
     0x0; 0xdf; 0x85; 0xff; 0xb0; 0x0; 0x0; 0x0;
     0xdf; 0xcf; 0xff; 0xf3; 0x0; 0x0; 0x0; 0xdf;
     0xff; 0xbd; 0xfe; 0x10; 0x0; 0x0; 0xdf; 0xfc;
     0x2; 0xff; 0xb0; 0x0; 0x0; 0xdf; 0xd0; 0x0;
     0x6f; 0xf7; 0x0; 0x0; 0xdf; 0x80; 0x0; 0xa;
     0xff; 0x40; 0x0; 0xdf; 0x80; 0x0; 0x0; 0xdf;
     0xe1; 0x0; 0xdf; 0x80; 0x0; 0x0; 0x3f; 0xfc;
     0x0; 0xdf; 0x80; 0x0; 0x0; 0x6; 0xff; 0x80;
     0xdf; 0x80; 0x0; 0x0; 0x0; 0xaf; 0xf4]].
Definition glyph_bitmap_004c : list (list Z) := [
  (* U+004C *)
    [0xdf; 0x80; 0x0; 0x0; 0x0; 0xd; 0xf8; 0x0;
     0x0; 0x0; 0x0; 0xdf; 0x80; 0x0; 0x0; 0x0;
     0xd; 0xf8; 0x0; 0x0; 0x0; 0x0; 0xdf; 0x80;
     0x0; 0x0; 0x0; 0xd; 0xf8; 0x0; 0x0; 0x0;
     0x0; 0xdf; 0x80; 0x0; 0x0; 0x0; 0xd; 0xf8;
     0x0; 0x0; 0x0; 0x0; 0xdf; 0x80; 0x0; 0x0;
     0x0; 0xd; 0xf8; 0x0; 0x0; 0x0; 0x0; 0xdf;
     0x80; 0x0; 0x0; 0x0; 0xd; 0xf8; 0x0; 0x0;
     0x0; 0x0; 0xdf; 0x80; 0x0; 0x0; 0x0; 0xd;
     0xf8; 0x0; 0x0; 0x0; 0x0; 0xdf; 0x93; 0x33;
     0x33; 0x33; 0x1d; 0xff; 0xff; 0xff; 0xff; 0xf8;
     0xdf; 0xff; 0xff; 0xff; 0xff; 0x80];
  (* U+004D *)
    [0xdf; 0xf9; 0x0; 0x0; 0x0; 0x0; 0x0; 0xd;
     0xff; 0x8d; 0xff; 0xf0; 0x0; 0x0; 0x0; 0x0;
     0x4; 0xff; 0xf8; 0xdf; 0xff; 0x70; 0x0; 0x0;
     0x0; 0x0; 0xbf; 0xff; 0x8d; 0xff; 0xfd; 0x0;
     0x0; 0x0; 0x0; 0x2f; 0xff; 0xf8; 0xdf; 0xaf;
     0xf4; 0x0; 0x0; 0x0; 0x9; 0xfe; 0xcf; 0x8d;
     0xf7; 0xcf; 0xb0; 0x0; 0x0; 0x0; 0xff; 0x7c;
     0xf8; 0xdf; 0x75; 0xff; 0x20; 0x0; 0x0; 0x7f;
     0xf1; 0xcf; 0x8d; 0xf7; 0xe; 0xf9; 0x0; 0x0;
     0xd; 0xf9; 0xc; 0xf8; 0xdf; 0x70; 0x7f; 0xf1;
     0x0; 0x5; 0xff; 0x20; 0xcf; 0x8d; 0xf7; 0x1;
     0xff; 0x70; 0x0; 0xcf; 0xb0; 0xc; 0xf8; 0xdf;
     0x70; 0x9; 0xfe; 0x0; 0x2f; 0xf4; 0x0; 0xcf;
     0x8d; 0xf7; 0x0; 0x2f; 0xf5; 0xa; 0xfd; 0x0;
     0xc; 0xf8; 0xdf; 0x70; 0x0; 0xbf; 0xc1; 0xff;
     0x60; 0x0; 0xcf; 0x8d; 0xf7; 0x0; 0x4; 0xff;
     0xbf; 0xe0; 0x0; 0xc; 0xf8; 0xdf; 0x70; 0x0;
     0xd; 0xff; 0xf8; 0x0; 0x0; 0xcf; 0x8d; 0xf7;
     0x0; 0x0; 0x6f; 0xff; 0x10; 0x0; 0xc; 0xf8;
     0xdf; 0x70; 0x0; 0x0; 0xef; 0xa0; 0x0; 0x0;
     0xcf; 0x80];
  (* U+004E *)
    [0xdf; 0xf9; 0x0; 0x0; 0x0; 0x3; 0xff; 0x2d;
     0xff; 0xf4; 0x0; 0x0; 0x0; 0x3f; 0xf2; 0xdf;
     0xff; 0xe0; 0x0; 0x0; 0x3; 0xff; 0x2d; 0xfc;
     0xff; 0x90; 0x0; 0x0; 0x3f; 0xf2; 0xdf; 0x89;
     0xff; 0x30; 0x0; 0x3; 0xff; 0x2d; 0xf8; 0xd;
     0xfd; 0x0; 0x0; 0x3f; 0xf2; 0xdf; 0x80; 0x4f;
     0xf8; 0x0; 0x3; 0xff; 0x2d; 0xf8; 0x0; 0x9f;
     0xf3; 0x0; 0x3f; 0xf2; 0xdf; 0x80; 0x0; 0xef;
     0xd0; 0x3; 0xff; 0x2d; 0xf8; 0x0; 0x4; 0xff;
     0x70; 0x3f; 0xf2; 0xdf; 0x80; 0x0; 0x9; 0xff;
     0x23; 0xff; 0x2d; 0xf8; 0x0; 0x0; 0xe; 0xfc;
     0x3f; 0xf2; 0xdf; 0x80; 0x0; 0x0; 0x4f; 0xfa;
     0xff; 0x2d; 0xf8; 0x0; 0x0; 0x0; 0x9f; 0xff;
     0xf2; 0xdf; 0x80; 0x0; 0x0; 0x1; 0xef; 0xff;
     0x2d; 0xf8; 0x0; 0x0; 0x0; 0x4; 0xff; 0xf2;
     0xdf; 0x80; 0x0; 0x0; 0x0; 0xa; 0xff; 0x20];
  (* U+004F *)
    [0x0; 0x0; 0x6; 0xbe; 0xfe; 0xc8; 0x10; 0x0;
     0x0; 0x0; 0x5; 0xef; 0xff; 0xff; 0xff; 0xf8;
     0x0; 0x0; 0x0; 0x8f; 0xfe; 0x84; 0x34; 0x7d;
     0xff; 0xb0; 0x0; 0x5; 0xff; 0xa0; 0x0; 0x0;
     0x0; 0x7f; 0xf9; 0x0; 0xe; 0xfb; 0x0; 0x0;
     0x0; 0x0; 0x8; 0xff; 0x30; 0x6f; 0xf2; 0x0;
     0x0; 0x0; 0x0; 0x0; 0xdf; 0xa0; 0xbf; 0xc0;
     0x0; 0x0; 0x0; 0x0; 0x0; 0x8f; 0xf0; 0xdf;
     0x90; 0x0; 0x0; 0x0; 0x0; 0x0; 0x5f; 0xf1;
     0xef; 0x80; 0x0; 0x0; 0x0; 0x0; 0x0; 0x4f;
     0xf2; 0xdf; 0x90; 0x0; 0x0; 0x0; 0x0; 0x0;
     0x5f; 0xf1; 0xbf; 0xc0; 0x0; 0x0; 0x0; 0x0;
     0x0; 0x8f; 0xe0; 0x6f; 0xf2; 0x0; 0x0; 0x0;
     0x0; 0x0; 0xdf; 0xa0; 0xe; 0xfb; 0x0; 0x0;
     0x0; 0x0; 0x8; 0xff; 0x30; 0x5; 0xff; 0xa0;
     0x0; 0x0; 0x0; 0x7f; 0xf9; 0x0; 0x0; 0x8f;
     0xfe; 0x84; 0x33; 0x7d; 0xff; 0xb0; 0x0; 0x0;
     0x5; 0xef; 0xff; 0xff; 0xff; 0xf8; 0x0; 0x0;
     0x0; 0x0; 0x6; 0xbe; 0xfe; 0xc8; 0x10; 0x0;
     0x0];
  (* U+0050 *)
    [0xdf; 0xff; 0xff; 0xfd; 0x91; 0x0; 0xdf; 0xff;
     0xff; 0xff; 0xfe; 0x30; 0xdf; 0x92; 0x22; 0x37;
     0xff; 0xe0; 0xdf; 0x80; 0x0; 0x0; 0x4f; 0xf5;
     0xdf; 0x80; 0x0; 0x0; 0xe; 0xf8; 0xdf; 0x80;
     0x0; 0x0; 0xe; 0xf9; 0xdf; 0x80; 0x0; 0x0;
     0x3f; 0xf6; 0xdf; 0x92; 0x22; 0x37; 0xef; 0xe0;
     0xdf; 0xff; 0xff; 0xff; 0xff; 0x30; 0xdf; 0xff;
     0xff; 0xfe; 0x92; 0x0; 0xdf; 0x80; 0x0; 0x0;
     0x0; 0x0; 0xdf; 0x80; 0x0; 0x0; 0x0; 0x0;
     0xdf; 0x80; 0x0; 0x0; 0x0; 0x0; 0xdf; 0x80;
     0x0; 0x0; 0x0; 0x0; 0xdf; 0x80; 0x0; 0x0;
     0x0; 0x0; 0xdf; 0x80; 0x0; 0x0; 0x0; 0x0;
     0xdf; 0x80; 0x0; 0x0; 0x0; 0x0];
  (* U+0051 *)
    [0x0; 0x0; 0x6; 0xbe; 0xfe; 0xc8; 0x10; 0x0;
     0x0; 0x0; 0x5; 0xef; 0xff; 0xff; 0xff; 0xf8;
     0x0; 0x0; 0x0; 0x8f; 0xfe; 0x84; 0x34; 0x7d;
     0xff; 0xb0; 0x0; 0x5; 0xff; 0xa0; 0x0; 0x0;
     0x0; 0x7f; 0xf9; 0x0; 0xe; 0xfb; 0x0; 0x0;
     0x0; 0x0; 0x8; 0xff; 0x30; 0x6f; 0xf2; 0x0;
     0x0; 0x0; 0x0; 0x0; 0xdf; 0xa0; 0xbf; 0xc0;
     0x0; 0x0; 0x0; 0x0; 0x0; 0x8f; 0xf0; 0xdf;
     0x90; 0x0; 0x0; 0x0; 0x0; 0x0; 0x5f; 0xf1;
     0xef; 0x80; 0x0; 0x0; 0x0; 0x0; 0x0; 0x4f;
     0xf2; 0xdf; 0x90; 0x0; 0x0; 0x0; 0x10; 0x0;
     0x5f; 0xf1; 0xbf; 0xc0; 0x0; 0x0; 0xb; 0xe2;
     0x0; 0x8f; 0xe0; 0x6f; 0xf2; 0x0; 0x0; 0x1d;
     0xfe; 0x10; 0xef; 0x90; 0xe; 0xfb; 0x0; 0x0;
     0x1; 0xdf; 0xd9; 0xff; 0x20; 0x5; 0xff; 0xa0;
     0x0; 0x0; 0x1e; 0xff; 0xf8; 0x0; 0x0; 0x8f;
     0xfe; 0x84; 0x34; 0x7d; 0xff; 0xe0; 0x0; 0x0;
     0x5; 0xef; 0xff; 0xff; 0xff; 0xff; 0xfb; 0x0;
     0x0; 0x0; 0x6; 0xbe; 0xff; 0xc8; 0x14; 0xff;
     0x80; 0x0; 0x0; 0x0; 0x0; 0x0; 0x0; 0x0;
     0x5b; 0x0; 0x0; 0x0; 0x0; 0x0; 0x0; 0x0;
     0x0; 0x0; 0x0];
  (* U+0052 *)
    [0xdf; 0xff; 0xff; 0xfe; 0xa3; 0x0; 0xdf; 0xff;
     0xff; 0xff; 0xff; 0x60; 0xdf; 0x92; 0x22; 0x36;
     0xef; 0xf2; 0xdf; 0x80; 0x0; 0x0; 0x2f; 0xf8;
     0xdf; 0x80; 0x0; 0x0; 0xb; 0xfb; 0xdf; 0x80;
     0x0; 0x0; 0xb; 0xfb; 0xdf; 0x80; 0x0; 0x0;
     0x2f; 0xf8; 0xdf; 0x92; 0x22; 0x26; 0xef; 0xf2;
     0xdf; 0xff; 0xff; 0xff; 0xff; 0x50; 0xdf; 0xff;
     0xff; 0xfe; 0x82; 0x0; 0xdf; 0x80; 0xa; 0xff;
     0x10; 0x0; 0xdf; 0x80; 0x1; 0xff; 0x90; 0x0;
     0xdf; 0x80; 0x0; 0x8f; 0xf2; 0x0; 0xdf; 0x80;
     0x0; 0xe; 0xfb; 0x0; 0xdf; 0x80; 0x0; 0x6;
     0xff; 0x40; 0xdf; 0x80; 0x0; 0x0; 0xdf; 0xd0;
     0xdf; 0x80; 0x0; 0x0; 0x4f; 0xf6];
  (* U+0053 *)
    [0x0; 0x0; 0x5b; 0xef; 0xea; 0x30; 0x0; 0x0;
     0xb; 0xff; 0xff; 0xff; 0xf7; 0x0; 0x0; 0x9f;
     0xf8; 0x31; 0x4c; 0xff; 0x50; 0x2; 0xff; 0x70;
     0x0; 0x0; 0xbf; 0xc0; 0x5; 0xff; 0x10; 0x0;
     0x0; 0x3a; 0x40; 0x5; 0xff; 0x20; 0x0; 0x0;
     0x0; 0x0; 0x1; 0xff; 0xc2; 0x0; 0x0; 0x0;
     0x0; 0x0; 0x6f; 0xff; 0xc9; 0x61; 0x0; 0x0;
     0x0; 0x4; 0xdf; 0xff; 0xff; 0xb2; 0x0; 0x0;
     0x0; 0x2; 0x69; 0xdf; 0xff; 0x30; 0x0; 0x0;
     0x0; 0x0; 0x4; 0xef; 0xc0; 0x1; 0x62; 0x0;
     0x0; 0x0; 0x7f; 0xf1; 0xf; 0xf7; 0x0; 0x0;
     0x0; 0x5f; 0xf1; 0xa; 0xff; 0x20; 0x0; 0x0;
     0xaf; 0xe0; 0x2; 0xff; 0xf8; 0x33; 0x5b; 0xff;
     0x70; 0x0; 0x4e; 0xff; 0xff; 0xff; 0xf8; 0x0;
     0x0; 0x1; 0x7c; 0xff; 0xea; 0x30; 0x0]].
Definition glyph_bitmap_0054 : list (list Z) := [
  (* U+0054 *)
    [0xcf; 0xff; 0xff; 0xff; 0xff; 0xff; 0xff; 0xcf;
     0xff; 0xff; 0xff; 0xff; 0xff; 0xff; 0x23; 0x33;
     0x34; 0xff; 0x63; 0x33; 0x33; 0x0; 0x0; 0x1;
     0xff; 0x40; 0x0; 0x0; 0x0; 0x0; 0x1; 0xff;
     0x40; 0x0; 0x0; 0x0; 0x0; 0x1; 0xff; 0x40;
     0x0; 0x0; 0x0; 0x0; 0x1; 0xff; 0x40; 0x0;
     0x0; 0x0; 0x0; 0x1; 0xff; 0x40; 0x0; 0x0;
     0x0; 0x0; 0x1; 0xff; 0x40; 0x0; 0x0; 0x0;
     0x0; 0x1; 0xff; 0x40; 0x0; 0x0; 0x0; 0x0;
     0x1; 0xff; 0x40; 0x0; 0x0; 0x0; 0x0; 0x1;
     0xff; 0x40; 0x0; 0x0; 0x0; 0x0; 0x1; 0xff;
     0x40; 0x0; 0x0; 0x0; 0x0; 0x1; 0xff; 0x40;
     0x0; 0x0; 0x0; 0x0; 0x1; 0xff; 0x40; 0x0;
     0x0; 0x0; 0x0; 0x1; 0xff; 0x40; 0x0; 0x0;
     0x0; 0x0; 0x1; 0xff; 0x40; 0x0; 0x0];
  (* U+0055 *)
    [0x1f; 0xf4; 0x0; 0x0; 0x0; 0x3f; 0xf2; 0x1f;
     0xf4; 0x0; 0x0; 0x0; 0x3f; 0xf2; 0x1f; 0xf4;
     0x0; 0x0; 0x0; 0x3f; 0xf2; 0x1f; 0xf4; 0x0;
     0x0; 0x0; 0x3f; 0xf2; 0x1f; 0xf4; 0x0; 0x0;
     0x0; 0x3f; 0xf2; 0x1f; 0xf4; 0x0; 0x0; 0x0;
     0x3f; 0xf2; 0x1f; 0xf4; 0x0; 0x0; 0x0; 0x3f;
     0xf2; 0x1f; 0xf4; 0x0; 0x0; 0x0; 0x3f; 0xf2;
     0x1f; 0xf4; 0x0; 0x0; 0x0; 0x3f; 0xf2; 0x1f;
     0xf4; 0x0; 0x0; 0x0; 0x3f; 0xf2; 0x1f; 0xf4;
     0x0; 0x0; 0x0; 0x3f; 0xf2; 0xf; 0xf5; 0x0;
     0x0; 0x0; 0x4f; 0xf1; 0xe; 0xf8; 0x0; 0x0;
     0x0; 0x7f; 0xf0; 0x9; 0xff; 0x20; 0x0; 0x1;
     0xef; 0xa0; 0x2; 0xff; 0xe7; 0x33; 0x6e; 0xff;
     0x30; 0x0; 0x4f; 0xff; 0xff; 0xff; 0xf5; 0x0;
     0x0; 0x1; 0x8d; 0xff; 0xd9; 0x20; 0x0];
  (* U+0056 *)
    [0x9f; 0xe0; 0x0; 0x0; 0x0; 0x0; 0x2f; 0xf5;
     0x3f; 0xf4; 0x0; 0x0; 0x0; 0x0; 0x7f; 0xe0;
     0xd; 0xfa; 0x0; 0x0; 0x0; 0x0; 0xdf; 0x90;
     0x7; 0xff; 0x0; 0x0; 0x0; 0x3; 0xff; 0x20;
     0x1; 0xff; 0x60; 0x0; 0x0; 0x9; 0xfc; 0x0;
     0x0; 0xbf; 0xc0; 0x0; 0x0; 0xf; 0xf6; 0x0;
     0x0; 0x5f; 0xf2; 0x0; 0x0; 0x5f; 0xf0; 0x0;
     0x0; 0xe; 0xf7; 0x0; 0x0; 0xbf; 0xa0; 0x0;
     0x0; 0x9; 0xfd; 0x0; 0x1; 0xff; 0x30; 0x0;
     0x0; 0x2; 0xff; 0x30; 0x7; 0xfd; 0x0; 0x0;
     0x0; 0x0; 0xcf; 0x90; 0xd; 0xf7; 0x0; 0x0;
     0x0; 0x0; 0x6f; 0xe0; 0x3f; 0xf1; 0x0; 0x0;
     0x0; 0x0; 0x1f; 0xf5; 0x9f; 0xb0; 0x0; 0x0;
     0x0; 0x0; 0xa; 0xfb; 0xef; 0x50; 0x0; 0x0;
     0x0; 0x0; 0x4; 0xff; 0xfe; 0x0; 0x0; 0x0;
     0x0; 0x0; 0x0; 0xef; 0xf8; 0x0; 0x0; 0x0;
     0x0; 0x0; 0x0; 0x8f; 0xf2; 0x0; 0x0; 0x0];
  (* U+0057 *)
    [0x7f; 0xe0; 0x0; 0x0; 0x0; 0x5f; 0xf6; 0x0;
     0x0; 0x0; 0xd; 0xf9; 0x3f; 0xf3; 0x0; 0x0;
     0x0; 0xbf; 0xfc; 0x0; 0x0; 0x0; 0x1f; 0xf4;
     0xe; 0xf7; 0x0; 0x0; 0x0; 0xff; 0xff; 0x10;
     0x0; 0x0; 0x5f; 0xf0; 0xa; 0xfc; 0x0; 0x0;
     0x5; 0xfe; 0xef; 0x60; 0x0; 0x0; 0xaf; 0xb0;
     0x5; 0xff; 0x10; 0x0; 0xa; 0xf9; 0x8f; 0xb0;
     0x0; 0x0; 0xef; 0x70; 0x1; 0xff; 0x50; 0x0;
     0xf; 0xf4; 0x3f; 0xf1; 0x0; 0x3; 0xff; 0x20;
     0x0; 0xcf; 0x90; 0x0; 0x4f; 0xf0; 0xe; 0xf6;
     0x0; 0x7; 0xfe; 0x0; 0x0; 0x7f; 0xe0; 0x0;
     0x9f; 0xa0; 0x9; 0xfb; 0x0; 0xb; 0xf9; 0x0;
     0x0; 0x2f; 0xf2; 0x0; 0xef; 0x50; 0x4; 0xff;
     0x0; 0xf; 0xf4; 0x0; 0x0; 0xe; 0xf7; 0x4;
     0xff; 0x0; 0x0; 0xef; 0x50; 0x4f; 0xf0; 0x0;
     0x0; 0x9; 0xfb; 0x9; 0xfb; 0x0; 0x0; 0xaf;
     0xa0; 0x8f; 0xb0; 0x0; 0x0; 0x5; 0xff; 0xe;
     0xf6; 0x0; 0x0; 0x4f; 0xf0; 0xdf; 0x70; 0x0;
     0x0; 0x0; 0xff; 0x8f; 0xf1; 0x0; 0x0; 0xf;
     0xf6; 0xff; 0x20; 0x0; 0x0; 0x0; 0xbf; 0xff;
     0xb0; 0x0; 0x0; 0xa; 0xff; 0xfe; 0x0; 0x0;
     0x0; 0x0; 0x7f; 0xff; 0x60; 0x0; 0x0; 0x5;
     0xff; 0xf9; 0x0; 0x0; 0x0; 0x0; 0x2f; 0xff;
     0x10; 0x0; 0x0; 0x0; 0xff; 0xf5; 0x0; 0x0;
     0x0; 0x0; 0xd; 0xfc; 0x0; 0x0; 0x0; 0x0;
     0xbf; 0xf0; 0x0; 0x0];
  (* U+0058 *)
    [0x6f; 0xf7; 0x0; 0x0; 0x0; 0x8; 0xff; 0x30;
     0xbf; 0xf2; 0x0; 0x0; 0x3; 0xff; 0x80; 0x1;
     0xef; 0xb0; 0x0; 0x0; 0xdf; 0xd0; 0x0; 0x5;
     0xff; 0x60; 0x0; 0x8f; 0xf3; 0x0; 0x0; 0xa;
     0xfe; 0x10; 0x2f; 0xf7; 0x0; 0x0; 0x0; 0x1e;
     0xfa; 0xc; 0xfc; 0x0; 0x0; 0x0; 0x0; 0x4f;
     0xfb; 0xff; 0x20; 0x0; 0x0; 0x0; 0x0; 0xaf;
     0xff; 0x70; 0x0; 0x0; 0x0; 0x0; 0x2; 0xff;
     0xe0; 0x0; 0x0; 0x0; 0x0; 0x0; 0xaf; 0xff;
     0x70; 0x0; 0x0; 0x0; 0x0; 0x5f; 0xfb; 0xff;
     0x20; 0x0; 0x0; 0x0; 0x1e; 0xfa; 0xd; 0xfc;
     0x0; 0x0; 0x0; 0xb; 0xfe; 0x10; 0x3f; 0xf7;
     0x0; 0x0; 0x6; 0xff; 0x50; 0x0; 0x9f; 0xf2;
     0x0; 0x1; 0xff; 0xa0; 0x0; 0x0; 0xef; 0xc0;
     0x0; 0xbf; 0xe1; 0x0; 0x0; 0x4; 0xff; 0x70;
     0x6f; 0xf5; 0x0; 0x0; 0x0; 0xa; 0xff; 0x20];
  (* U+0059 *)
    [0x7f; 0xf5; 0x0; 0x0; 0x0; 0x6; 0xff; 0x40;
     0xdf; 0xe0; 0x0; 0x0; 0x0; 0xef; 0xa0; 0x3;
     0xff; 0x80; 0x0; 0x0; 0x8f; 0xf1; 0x0; 0x9;
     0xff; 0x20; 0x0; 0x2f; 0xf6; 0x0; 0x0; 0x1e;
     0xfb; 0x0; 0xb; 0xfc; 0x0; 0x0; 0x0; 0x6f;
     0xf4; 0x4; 0xff; 0x30; 0x0; 0x0; 0x0; 0xcf;
     0xd0; 0xdf; 0x90; 0x0; 0x0; 0x0; 0x2; 0xff;
     0xcf; 0xe1; 0x0; 0x0; 0x0; 0x0; 0x8; 0xff;
     0xf5; 0x0; 0x0; 0x0; 0x0; 0x0; 0xe; 0xfc;
     0x0; 0x0; 0x0; 0x0; 0x0; 0x0; 0xcf; 0x90;
     0x0; 0x0; 0x0; 0x0; 0x0; 0xc; 0xf9; 0x0;
     0x0; 0x0; 0x0; 0x0; 0x0; 0xcf; 0x90; 0x0;
     0x0; 0x0; 0x0; 0x0; 0xc; 0xf9; 0x0; 0x0;
     0x0; 0x0; 0x0; 0x0; 0xcf; 0x90; 0x0; 0x0;
     0x0; 0x0; 0x0; 0xc; 0xf9; 0x0; 0x0; 0x0;
     0x0; 0x0; 0x0; 0xcf; 0x90; 0x0; 0x0; 0x0];
  (* U+005A *)
    [0xbf; 0xff; 0xff; 0xff; 0xff; 0xff; 0xf1; 0xbf;
     0xff; 0xff; 0xff; 0xff; 0xff; 0xf1; 0x23; 0x33;
     0x33; 0x33; 0x34; 0xff; 0xd0; 0x0; 0x0; 0x0;
     0x0; 0xc; 0xff; 0x20; 0x0; 0x0; 0x0; 0x0;
     0xaf; 0xf4; 0x0; 0x0; 0x0; 0x0; 0x7; 0xff;
     0x70; 0x0; 0x0; 0x0; 0x0; 0x4f; 0xfa; 0x0;
     0x0; 0x0; 0x0; 0x2; 0xff; 0xc0; 0x0; 0x0;
     0x0; 0x0; 0xd; 0xfe; 0x10; 0x0; 0x0; 0x0;
     0x0; 0xbf; 0xf3; 0x0; 0x0; 0x0; 0x0; 0x8;
     0xff; 0x60; 0x0; 0x0; 0x0; 0x0; 0x5f; 0xf9;
     0x0; 0x0; 0x0; 0x0; 0x3; 0xff; 0xb0; 0x0;
     0x0; 0x0; 0x0; 0x1e; 0xfd; 0x10; 0x0; 0x0;
     0x0; 0x0; 0xcf; 0xf6; 0x33; 0x33; 0x33; 0x33;
     0x30; 0xef; 0xff; 0xff; 0xff; 0xff; 0xff; 0xf3;
     0xef; 0xff; 0xff; 0xff; 0xff; 0xff; 0xf3];
  (* U+005B *)
    [0xbd; 0xdd; 0xad; 0xff; 0xfc; 0xdf; 0x20; 0xd;
     0xf2; 0x0; 0xdf; 0x20; 0xd; 0xf2; 0x0; 0xdf;
     0x20; 0xd; 0xf2; 0x0; 0xdf; 0x20; 0xd; 0xf2;
     0x0; 0xdf; 0x20; 0xd; 0xf2; 0x0; 0xdf; 0x20;
     0xd; 0xf2; 0x0; 0xdf; 0x20; 0xd; 0xf2; 0x0;
     0xdf; 0x20; 0xd; 0xf2; 0x0; 0xdf; 0x20; 0xd;
     0xf2; 0x0; 0xdf; 0x20; 0xd; 0xfd; 0xda; 0xdf;
     0xff; 0xc0]].
Definition glyph_bitmap_005c : list (list Z) := [
  (* U+005C *)
    [0xcf; 0x70; 0x0; 0x0; 0x0; 0x4; 0xfe; 0x0;
     0x0; 0x0; 0x0; 0xc; 0xf6; 0x0; 0x0; 0x0;
     0x0; 0x5f; 0xe0; 0x0; 0x0; 0x0; 0x0; 0xdf;
     0x60; 0x0; 0x0; 0x0; 0x5; 0xfd; 0x0; 0x0;
     0x0; 0x0; 0xd; 0xf5; 0x0; 0x0; 0x0; 0x0;
     0x6f; 0xd0; 0x0; 0x0; 0x0; 0x0; 0xef; 0x50;
     0x0; 0x0; 0x0; 0x6; 0xfc; 0x0; 0x0; 0x0;
     0x0; 0xe; 0xf4; 0x0; 0x0; 0x0; 0x0; 0x7f;
     0xc0; 0x0; 0x0; 0x0; 0x0; 0xef; 0x40; 0x0;
     0x0; 0x0; 0x8; 0xfb; 0x0; 0x0; 0x0; 0x0;
     0x1f; 0xf3; 0x0; 0x0; 0x0; 0x0; 0x8f; 0xb0;
     0x0; 0x0; 0x0; 0x1; 0xff; 0x20];
  (* U+005D *)
    [0xbd; 0xdd; 0x9e; 0xff; 0xfc; 0x0; 0x3f; 0xc0;
     0x3; 0xfc; 0x0; 0x3f; 0xc0; 0x3; 0xfc; 0x0;
     0x3f; 0xc0; 0x3; 0xfc; 0x0; 0x3f; 0xc0; 0x3;
     0xfc; 0x0; 0x3f; 0xc0; 0x3; 0xfc; 0x0; 0x3f;
     0xc0; 0x3; 0xfc; 0x0; 0x3f; 0xc0; 0x3; 0xfc;
     0x0; 0x3f; 0xc0; 0x3; 0xfc; 0x0; 0x3f; 0xc0;
     0x3; 0xfc; 0x0; 0x3f; 0xcb; 0xdd; 0xfc; 0xef;
     0xff; 0xc0];
  (* U+005E *)
    [0x0; 0x0; 0x7; 0x83; 0x0; 0x0; 0x0; 0x0;
     0x4f; 0xfc; 0x0; 0x0; 0x0; 0x0; 0xdf; 0xff;
     0x50; 0x0; 0x0; 0x6; 0xfe; 0x6f; 0xd0; 0x0;
     0x0; 0xe; 0xf6; 0xd; 0xf7; 0x0; 0x0; 0x7f;
     0xd0; 0x5; 0xfe; 0x0; 0x1; 0xff; 0x40; 0x0;
     0xcf; 0x80; 0x9; 0xfc; 0x0; 0x0; 0x4f; 0xf1;
     0x2f; 0xf3; 0x0; 0x0; 0xb; 0xfa];
  (* U+005F *)
    [0x9e; 0xee; 0xee; 0xee; 0xee; 0xee; 0x9a; 0xff;
     0xff; 0xff; 0xff; 0xff; 0xfa];
  (* U+0060 *)
    [0x7; 0x86; 0x0; 0x5; 0xff; 0x30; 0x0; 0x7f;
     0xd0; 0x0; 0x9; 0xf6];
  (* U+0061 *)
    [0x0; 0x4b; 0xff; 0xd9; 0x10; 0x0; 0x7f; 0xff;
     0xff; 0xfe; 0x10; 0x3f; 0xf8; 0x0; 0x3d; 0xf9;
     0x6; 0xec; 0x0; 0x0; 0x6f; 0xe0; 0x0; 0x10;
     0x0; 0x29; 0xff; 0x0; 0x6; 0xbe; 0xff; 0xff;
     0xf0; 0x1d; 0xff; 0xc9; 0x78; 0xff; 0x9; 0xfd;
     0x10; 0x0; 0x5f; 0xf0; 0xcf; 0x80; 0x0; 0xa;
     0xff; 0xa; 0xfd; 0x20; 0x18; 0xff; 0xf0; 0x2f;
     0xff; 0xff; 0xfa; 0xff; 0x0; 0x2b; 0xff; 0xc5;
     0x2f; 0xf0];
  (* U+0062 *)
    [0x1f; 0xf2; 0x0; 0x0; 0x0; 0x0; 0x1; 0xff;
     0x20; 0x0; 0x0; 0x0; 0x0; 0x1f; 0xf2; 0x0;
     0x0; 0x0; 0x0; 0x1; 0xff; 0x20; 0x0; 0x0;
     0x0; 0x0; 0x1f; 0xf2; 0x0; 0x0; 0x0; 0x0;
     0x1; 0xff; 0x20; 0x0; 0x0; 0x0; 0x0; 0x1f;
     0xf2; 0x5c; 0xff; 0xc6; 0x0; 0x1; 0xff; 0xaf;
     0xff; 0xff; 0xfa; 0x0; 0x1f; 0xff; 0xc2; 0x2;
     0x9f; 0xf6; 0x1; 0xff; 0xd0; 0x0; 0x0; 0xbf;
     0xd0; 0x1f; 0xf5; 0x0; 0x0; 0x4; 0xff; 0x11;
     0xff; 0x30; 0x0; 0x0; 0x1f; 0xf3; 0x1f; 0xf3;
     0x0; 0x0; 0x1; 0xff; 0x31; 0xff; 0x60; 0x0;
     0x0; 0x4f; 0xf1; 0x1f; 0xfd; 0x0; 0x0; 0xc;
     0xfd; 0x1; 0xff; 0xfc; 0x30; 0x2a; 0xff; 0x50;
     0x1f; 0xf9; 0xff; 0xff; 0xff; 0x90; 0x1; 0xff;
     0x25; 0xcf; 0xfc; 0x50; 0x0];
  (* U+0063 *)
    [0x0; 0x1; 0x8d; 0xff; 0xb4; 0x0; 0x0; 0x3e;
     0xff; 0xff; 0xff; 0x90; 0x1; 0xef; 0xe6; 0x23;
     0x9f; 0xf5; 0x8; 0xff; 0x10; 0x0; 0x9; 0xfa;
     0xd; 0xf8; 0x0; 0x0; 0x1; 0x30; 0xf; 0xf4;
     0x0; 0x0; 0x0; 0x0; 0xf; 0xf4; 0x0; 0x0;
     0x0; 0x0; 0xd; 0xf8; 0x0; 0x0; 0x0; 0x20;
     0x8; 0xff; 0x10; 0x0; 0x7; 0xfa; 0x1; 0xef;
     0xe6; 0x23; 0x8f; 0xf7; 0x0; 0x3e; 0xff; 0xff;
     0xff; 0x90; 0x0; 0x1; 0x8d; 0xff; 0xc4; 0x0];
  (* U+0064 *)
    [0x0; 0x0; 0x0; 0x0; 0x0; 0xff; 0x30; 0x0;
     0x0; 0x0; 0x0; 0xf; 0xf3; 0x0; 0x0; 0x0;
     0x0; 0x0; 0xff; 0x30; 0x0; 0x0; 0x0; 0x0;
     0xf; 0xf3; 0x0; 0x0; 0x0; 0x0; 0x0; 0xff;
     0x30; 0x0; 0x0; 0x0; 0x0; 0xf; 0xf3; 0x0;
     0x1; 0x9e; 0xfd; 0x71; 0xff; 0x30; 0x4; 0xff;
     0xff; 0xff; 0xbf; 0xf3; 0x1; 0xef; 0xd4; 0x2;
     0x9f; 0xff; 0x30; 0x8f; 0xe1; 0x0; 0x0; 0xaf;
     0xf3; 0xd; 0xf8; 0x0; 0x0; 0x3; 0xff; 0x30;
     0xff; 0x50; 0x0; 0x0; 0x1f; 0xf3; 0xf; 0xf5;
     0x0; 0x0; 0x1; 0xff; 0x30; 0xdf; 0x80; 0x0;
     0x0; 0x4f; 0xf3; 0x9; 0xfe; 0x0; 0x0; 0xb;
     0xff; 0x30; 0x2f; 0xfd; 0x30; 0x2a; 0xff; 0xf3;
     0x0; 0x5f; 0xff; 0xff; 0xfa; 0xff; 0x30; 0x0;
     0x2a; 0xef; 0xd7; 0xe; 0xf3];
  (* U+0065 *)
    [0x0; 0x1; 0x9e; 0xfe; 0xa3; 0x0; 0x0; 0x3;
     0xef; 0xff; 0xff; 0xf5; 0x0; 0x1; 0xef; 0xc3;
     0x2; 0xaf; 0xf2; 0x0; 0x8f; 0xd0; 0x0; 0x0;
     0xcf; 0x90; 0xd; 0xf8; 0x0; 0x0; 0x6; 0xfd;
     0x0; 0xff; 0xff; 0xff; 0xff; 0xff; 0xf0; 0xf;
     0xfd; 0xcc; 0xcc; 0xcc; 0xcc; 0x0; 0xdf; 0x70;
     0x0; 0x0; 0x0; 0x0; 0x8; 0xfd; 0x0; 0x0;
     0x4; 0xe8; 0x0; 0x1e; 0xfc; 0x40; 0x16; 0xff;
     0x70; 0x0; 0x3e; 0xff; 0xff; 0xff; 0xa0; 0x0;
     0x0; 0x18; 0xdf; 0xfc; 0x50; 0x0];
  (* U+0066 *)
    [0x0; 0x1; 0x8d; 0xfa; 0x0; 0xc; 0xff; 0xfc;
     0x0; 0x4f; 0xf8; 0x22; 0x0; 0x6f; 0xf0; 0x0;
     0x0; 0x6f; 0xf0; 0x0; 0x8f; 0xff; 0xff; 0xfb;
     0x8f; 0xff; 0xff; 0xfb; 0x1; 0x6f; 0xf1; 0x10;
     0x0; 0x6f; 0xf0; 0x0; 0x0; 0x6f; 0xf0; 0x0;
     0x0; 0x6f; 0xf0; 0x0; 0x0; 0x6f; 0xf0; 0x0;
     0x0; 0x6f; 0xf0; 0x0; 0x0; 0x6f; 0xf0; 0x0;
     0x0; 0x6f; 0xf0; 0x0; 0x0; 0x6f; 0xf0; 0x0;
     0x0; 0x6f; 0xf0; 0x0];
  (* U+0067 *)
    [0x0; 0x19; 0xef; 0xd8; 0x1f; 0xf3; 0x3; 0xef;
     0xff; 0xff; 0xcf; 0xf3; 0xe; 0xfc; 0x30; 0x8;
     0xff; 0xf3; 0x7f; 0xf1; 0x0; 0x0; 0xaf; 0xf3;
     0xbf; 0xa0; 0x0; 0x0; 0x3f; 0xf3; 0xdf; 0x70;
     0x0; 0x0; 0xf; 0xf3; 0xdf; 0x70; 0x0; 0x0;
     0xf; 0xf3; 0xbf; 0xa0; 0x0; 0x0; 0x3f; 0xf3;
     0x6f; 0xf1; 0x0; 0x0; 0xaf; 0xf3; 0xe; 0xfd;
     0x30; 0x19; 0xff; 0xf3; 0x3; 0xef; 0xff; 0xff;
     0x9f; 0xf3; 0x0; 0x18; 0xce; 0xc6; 0x1f; 0xf2;
     0x25; 0x20; 0x0; 0x0; 0x3f; 0xf0; 0xcf; 0xa0;
     0x0; 0x0; 0x8f; 0xc0; 0x6f; 0xf8; 0x20; 0x28;
     0xff; 0x50; 0x8; 0xff; 0xff; 0xff; 0xf8; 0x0;
     0x0; 0x3b; 0xef; 0xeb; 0x40; 0x0]].
Definition glyph_bitmap_0068 : list (list Z) := [
  (* U+0068 *)
    [0x1f; 0xf2; 0x0; 0x0; 0x0; 0x1; 0xff; 0x20;
     0x0; 0x0; 0x0; 0x1f; 0xf2; 0x0; 0x0; 0x0;
     0x1; 0xff; 0x20; 0x0; 0x0; 0x0; 0x1f; 0xf2;
     0x0; 0x0; 0x0; 0x1; 0xff; 0x20; 0x0; 0x0;
     0x0; 0x1f; 0xf3; 0x7d; 0xfe; 0x91; 0x1; 0xff;
     0xcf; 0xff; 0xff; 0xd0; 0x1f; 0xff; 0x72; 0x29;
     0xff; 0x61; 0xff; 0x90; 0x0; 0xc; 0xfb; 0x1f;
     0xf4; 0x0; 0x0; 0x8f; 0xc1; 0xff; 0x20; 0x0;
     0x7; 0xfd; 0x1f; 0xf2; 0x0; 0x0; 0x7f; 0xd1;
     0xff; 0x20; 0x0; 0x7; 0xfd; 0x1f; 0xf2; 0x0;
     0x0; 0x7f; 0xd1; 0xff; 0x20; 0x0; 0x7; 0xfd;
     0x1f; 0xf2; 0x0; 0x0; 0x7f; 0xd1; 0xff; 0x20;
     0x0; 0x7; 0xfd];
  (* U+0069 *)
    [0x2d; 0xe3; 0x8f; 0xf9; 0x4f; 0xf5; 0x2; 0x20;
     0x0; 0x0; 0x0; 0x0; 0x1f; 0xf2; 0x1f; 0xf2;
     0x1f; 0xf2; 0x1f; 0xf2; 0x1f; 0xf2; 0x1f; 0xf2;
     0x1f; 0xf2; 0x1f; 0xf2; 0x1f; 0xf2; 0x1f; 0xf2;
     0x1f; 0xf2; 0x1f; 0xf2];
  (* U+006A *)
    [0x0; 0x2d; 0xe3; 0x0; 0x8f; 0xf9; 0x0; 0x4f;
     0xf5; 0x0; 0x2; 0x20; 0x0; 0x0; 0x0; 0x0;
     0x0; 0x0; 0x0; 0x1f; 0xf2; 0x0; 0x1f; 0xf2;
     0x0; 0x1f; 0xf2; 0x0; 0x1f; 0xf2; 0x0; 0x1f;
     0xf2; 0x0; 0x1f; 0xf2; 0x0; 0x1f; 0xf2; 0x0;
     0x1f; 0xf2; 0x0; 0x1f; 0xf2; 0x0; 0x1f; 0xf2;
     0x0; 0x1f; 0xf2; 0x0; 0x1f; 0xf2; 0x0; 0x1f;
     0xf2; 0x0; 0x1f; 0xf2; 0x0; 0x7f; 0xf0; 0x5f;
     0xff; 0x90; 0x5f; 0xfa; 0x0];
  (* U+006B *)
    [0x1f; 0xf2; 0x0; 0x0; 0x0; 0x0; 0x1f; 0xf2;
     0x0; 0x0; 0x0; 0x0; 0x1f; 0xf2; 0x0; 0x0;
     0x0; 0x0; 0x1f; 0xf2; 0x0; 0x0; 0x0; 0x0;
     0x1f; 0xf2; 0x0; 0x0; 0x0; 0x0; 0x1f; 0xf2;
     0x0; 0x0; 0x0; 0x0; 0x1f; 0xf2; 0x0; 0x5;
     0xff; 0xb0; 0x1f; 0xf2; 0x0; 0x4f; 0xfc; 0x0;
     0x1f; 0xf2; 0x3; 0xff; 0xc0; 0x0; 0x1f; 0xf2;
     0x3f; 0xfc; 0x10; 0x0; 0x1f; 0xf5; 0xef; 0xd1;
     0x0; 0x0; 0x1f; 0xff; 0xff; 0xa0; 0x0; 0x0;
     0x1f; 0xff; 0xef; 0xf5; 0x0; 0x0; 0x1f; 0xfe;
     0x2a; 0xff; 0x20; 0x0; 0x1f; 0xf3; 0x1; 0xef;
     0xc0; 0x0; 0x1f; 0xf2; 0x0; 0x4f; 0xf8; 0x0;
     0x1f; 0xf2; 0x0; 0x8; 0xff; 0x40; 0x1f; 0xf2;
     0x0; 0x0; 0xcf; 0xe1];
  (* U+006C *)
    [0x1f; 0xf2; 0x1f; 0xf2; 0x1f; 0xf2; 0x1f; 0xf2;
     0x1f; 0xf2; 0x1f; 0xf2; 0x1f; 0xf2; 0x1f; 0xf2;
     0x1f; 0xf2; 0x1f; 0xf2; 0x1f; 0xf2; 0x1f; 0xf2;
     0x1f; 0xf2; 0x1f; 0xf2; 0x1f; 0xf2; 0x1f; 0xf2;
     0x1f; 0xf2; 0x1f; 0xf2];
  (* U+006D *)
    [0x1f; 0xf1; 0x7d; 0xfd; 0x70; 0x5; 0xcf; 0xea;
     0x10; 0x1f; 0xfb; 0xff; 0xff; 0xf9; 0x7f; 0xff;
     0xff; 0xe1; 0x1f; 0xff; 0x61; 0x1a; 0xff; 0xfb;
     0x20; 0x5f; 0xf8; 0x1f; 0xf8; 0x0; 0x0; 0xef;
     0xe0; 0x0; 0x9; 0xfc; 0x1f; 0xf3; 0x0; 0x0;
     0xcf; 0x90; 0x0; 0x6; 0xfe; 0x1f; 0xf2; 0x0;
     0x0; 0xbf; 0x80; 0x0; 0x5; 0xfe; 0x1f; 0xf2;
     0x0; 0x0; 0xbf; 0x80; 0x0; 0x5; 0xfe; 0x1f;
     0xf2; 0x0; 0x0; 0xbf; 0x80; 0x0; 0x5; 0xfe;
     0x1f; 0xf2; 0x0; 0x0; 0xbf; 0x80; 0x0; 0x5;
     0xfe; 0x1f; 0xf2; 0x0; 0x0; 0xbf; 0x80; 0x0;
     0x5; 0xfe; 0x1f; 0xf2; 0x0; 0x0; 0xbf; 0x80;
     0x0; 0x5; 0xfe; 0x1f; 0xf2; 0x0; 0x0; 0xbf;
     0x80; 0x0; 0x5; 0xfe];
  (* U+006E *)
    [0x1f; 0xf2; 0x5c; 0xfe; 0x91; 0x1; 0xff; 0x9f;
     0xff; 0xff; 0xd0; 0x1f; 0xff; 0x71; 0x29; 0xff;
     0x61; 0xff; 0x90; 0x0; 0xc; 0xfb; 0x1f; 0xf4;
     0x0; 0x0; 0x8f; 0xc1; 0xff; 0x20; 0x0; 0x7;
     0xfd; 0x1f; 0xf2; 0x0; 0x0; 0x7f; 0xd1; 0xff;
     0x20; 0x0; 0x7; 0xfd; 0x1f; 0xf2; 0x0; 0x0;
     0x7f; 0xd1; 0xff; 0x20; 0x0; 0x7; 0xfd; 0x1f;
     0xf2; 0x0; 0x0; 0x7f; 0xd1; 0xff; 0x20; 0x0;
     0x7; 0xfd];
  (* U+006F *)
    [0x0; 0x1; 0x8d; 0xff; 0xc6; 0x0; 0x0; 0x3;
     0xef; 0xff; 0xff; 0xfc; 0x10; 0x1; 0xef; 0xd5;
     0x11; 0x7f; 0xfb; 0x0; 0x8f; 0xf1; 0x0; 0x0;
     0x5f; 0xf4; 0xd; 0xf8; 0x0; 0x0; 0x0; 0xcf;
     0x90; 0xff; 0x40; 0x0; 0x0; 0x9; 0xfb; 0xf;
     0xf4; 0x0; 0x0; 0x0; 0x9f; 0xb0; 0xdf; 0x80;
     0x0; 0x0; 0xc; 0xf9; 0x8; 0xff; 0x10; 0x0;
     0x5; 0xff; 0x40; 0x1e; 0xfe; 0x51; 0x27; 0xff;
     0xb0; 0x0; 0x3e; 0xff; 0xff; 0xff; 0xc1; 0x0;
     0x0; 0x18; 0xdf; 0xfc; 0x60; 0x0];
  (* U+0070 *)
    [0x1f; 0xf1; 0x4c; 0xff; 0xc5; 0x0; 0x1; 0xff;
     0x8f; 0xff; 0xff; 0xfa; 0x0; 0x1f; 0xff; 0xc3;
     0x2; 0xbf; 0xf6; 0x1; 0xff; 0xd0; 0x0; 0x0;
     0xcf; 0xd0; 0x1f; 0xf6; 0x0; 0x0; 0x4; 0xff;
     0x11; 0xff; 0x30; 0x0; 0x0; 0x1f; 0xf3; 0x1f;
     0xf3; 0x0; 0x0; 0x1; 0xff; 0x31; 0xff; 0x60;
     0x0; 0x0; 0x4f; 0xf1; 0x1f; 0xfd; 0x0; 0x0;
     0xc; 0xfd; 0x1; 0xff; 0xfc; 0x30; 0x2b; 0xff;
     0x50; 0x1f; 0xfa; 0xff; 0xff; 0xff; 0x90; 0x1;
     0xff; 0x25; 0xcf; 0xfc; 0x50; 0x0; 0x1f; 0xf2;
     0x0; 0x0; 0x0; 0x0; 0x1; 0xff; 0x20; 0x0;
     0x0; 0x0; 0x0; 0x1f; 0xf2; 0x0; 0x0; 0x0;
     0x0; 0x1; 0xff; 0x20; 0x0; 0x0; 0x0; 0x0;
     0x1f; 0xf2; 0x0; 0x0; 0x0; 0x0; 0x0];
  (* U+0071 *)
    [0x0; 0x2; 0xae; 0xfd; 0x70; 0xef; 0x40; 0x5;
     0xff; 0xff; 0xff; 0xae; 0xf4; 0x2; 0xff; 0xc3;
     0x2; 0xaf; 0xff; 0x40; 0x9f; 0xe0; 0x0; 0x0;
     0xaf; 0xf4; 0xe; 0xf7; 0x0; 0x0; 0x3; 0xff;
     0x40; 0xff; 0x50; 0x0; 0x0; 0xf; 0xf4; 0xf;
     0xf5; 0x0; 0x0; 0x0; 0xff; 0x40; 0xdf; 0x80;
     0x0; 0x0; 0x3f; 0xf4; 0x8; 0xfe; 0x10; 0x0;
     0xb; 0xff; 0x40; 0x1f; 0xfd; 0x30; 0x2a; 0xff;
     0xf4; 0x0; 0x4f; 0xff; 0xff; 0xfb; 0xff; 0x40;
     0x0; 0x2a; 0xef; 0xd8; 0xf; 0xf4; 0x0; 0x0;
     0x0; 0x0; 0x0; 0xff; 0x40; 0x0; 0x0; 0x0;
     0x0; 0xf; 0xf4; 0x0; 0x0; 0x0; 0x0; 0x0;
     0xff; 0x40; 0x0; 0x0; 0x0; 0x0; 0xf; 0xf4;
     0x0; 0x0; 0x0; 0x0; 0x0; 0xff; 0x40];
  (* U+0072 *)
    [0x1f; 0xf2; 0x6d; 0xf4; 0x1f; 0xf9; 0xff; 0xf5;
     0x1f; 0xff; 0xc6; 0x41; 0x1f; 0xfc; 0x0; 0x0;
     0x1f; 0xf5; 0x0; 0x0; 0x1f; 0xf3; 0x0; 0x0;
     0x1f; 0xf2; 0x0; 0x0; 0x1f; 0xf2; 0x0; 0x0;
     0x1f; 0xf2; 0x0; 0x0; 0x1f; 0xf2; 0x0; 0x0;
     0x1f; 0xf2; 0x0; 0x0; 0x1f; 0xf2; 0x0; 0x0];
  (* U+0073 *)
    [0x0; 0x19; 0xef; 0xd8; 0x0; 0x1; 0xef; 0xff;
     0xff; 0xc0; 0x9; 0xfc; 0x10; 0x4e; 0xf7; 0xc;
     0xf7; 0x0; 0x5; 0x82; 0x9; 0xfd; 0x40; 0x0;
     0x0; 0x2; 0xef; 0xff; 0xd8; 0x10; 0x0; 0x18;
     0xcf; 0xff; 0xe1; 0x0; 0x0; 0x0; 0x4e; 0xf8;
     0x8; 0xe1; 0x0; 0x8; 0xfb; 0xd; 0xfb; 0x20;
     0x2d; 0xf9; 0x3; 0xff; 0xff; 0xff; 0xe1; 0x0;
     0x2a; 0xef; 0xe9; 0x10]].
Definition glyph_bitmap_0074 : list (list Z) := [
  (* U+0074 *)
    [0x0; 0x18; 0x70; 0x0; 0x0; 0x2f; 0xf0; 0x0;
     0x0; 0x2f; 0xf0; 0x0; 0x0; 0x9f; 0xf0; 0x0;
     0x8f; 0xff; 0xff; 0xf7; 0x8f; 0xff; 0xff; 0xf7;
     0x1; 0x5f; 0xf1; 0x10; 0x0; 0x5f; 0xf0; 0x0;
     0x0; 0x5f; 0xf0; 0x0; 0x0; 0x5f; 0xf0; 0x0;
     0x0; 0x5f; 0xf0; 0x0; 0x0; 0x5f; 0xf0; 0x0;
     0x0; 0x4f; 0xf0; 0x0; 0x0; 0x2f; 0xf6; 0x10;
     0x0; 0xd; 0xff; 0xf7; 0x0; 0x2; 0xbe; 0xf5];
  (* U+0075 *)
    [0x3f; 0xf1; 0x0; 0x0; 0x9f; 0xa3; 0xff; 0x10;
     0x0; 0x9; 0xfa; 0x3f; 0xf1; 0x0; 0x0; 0x9f;
     0xa3; 0xff; 0x10; 0x0; 0x9; 0xfa; 0x3f; 0xf1;
     0x0; 0x0; 0x9f; 0xa3; 0xff; 0x10; 0x0; 0x9;
     0xfa; 0x3f; 0xf1; 0x0; 0x0; 0x9f; 0xa2; 0xff;
     0x10; 0x0; 0xa; 0xfa; 0x1f; 0xf5; 0x0; 0x0;
     0xef; 0xa0; 0xbf; 0xe4; 0x2; 0xaf; 0xfa; 0x2;
     0xff; 0xff; 0xff; 0xcf; 0xa0; 0x2; 0xbf; 0xfc;
     0x56; 0xfb];
  (* U+0076 *)
    [0x9f; 0xe0; 0x0; 0x0; 0xc; 0xf9; 0x2f; 0xf5;
     0x0; 0x0; 0x2f; 0xf3; 0xc; 0xfa; 0x0; 0x0;
     0x8f; 0xd0; 0x6; 0xff; 0x0; 0x0; 0xdf; 0x70;
     0x0; 0xff; 0x60; 0x3; 0xff; 0x10; 0x0; 0x9f;
     0xb0; 0x9; 0xfb; 0x0; 0x0; 0x3f; 0xf1; 0xe;
     0xf5; 0x0; 0x0; 0xd; 0xf7; 0x4f; 0xe0; 0x0;
     0x0; 0x7; 0xfc; 0xaf; 0x80; 0x0; 0x0; 0x1;
     0xff; 0xff; 0x20; 0x0; 0x0; 0x0; 0xaf; 0xfc;
     0x0; 0x0; 0x0; 0x0; 0x4f; 0xf6; 0x0; 0x0];
  (* U+0077 *)
    [0x7f; 0xf0; 0x0; 0x0; 0xbf; 0xe0; 0x0; 0x0;
     0xdf; 0x82; 0xff; 0x40; 0x0; 0x1f; 0xff; 0x30;
     0x0; 0x2f; 0xf3; 0xd; 0xf8; 0x0; 0x6; 0xff;
     0xf9; 0x0; 0x6; 0xfe; 0x0; 0x8f; 0xd0; 0x0;
     0xbf; 0x9f; 0xe0; 0x0; 0xbf; 0x90; 0x3; 0xff;
     0x10; 0x1f; 0xf0; 0xef; 0x30; 0xf; 0xf4; 0x0;
     0xe; 0xf6; 0x6; 0xfa; 0x9; 0xf9; 0x4; 0xfe;
     0x0; 0x0; 0x9f; 0xb0; 0xbf; 0x50; 0x4f; 0xe0;
     0x8f; 0xa0; 0x0; 0x4; 0xff; 0x1f; 0xf0; 0x0;
     0xef; 0x3d; 0xf5; 0x0; 0x0; 0xe; 0xfa; 0xfa;
     0x0; 0x9; 0xfa; 0xff; 0x0; 0x0; 0x0; 0xaf;
     0xff; 0x50; 0x0; 0x3f; 0xff; 0xb0; 0x0; 0x0;
     0x5; 0xff; 0xf0; 0x0; 0x0; 0xef; 0xf6; 0x0;
     0x0; 0x0; 0xf; 0xfb; 0x0; 0x0; 0x9; 0xff;
     0x10; 0x0];
  (* U+0078 *)
    [0x4f; 0xf7; 0x0; 0x0; 0x9f; 0xf1; 0x8; 0xff;
     0x20; 0x4; 0xff; 0x50; 0x0; 0xdf; 0xc0; 0xd;
     0xfa; 0x0; 0x0; 0x2f; 0xf7; 0x9f; 0xe1; 0x0;
     0x0; 0x7; 0xff; 0xff; 0x40; 0x0; 0x0; 0x0;
     0xbf; 0xf9; 0x0; 0x0; 0x0; 0x0; 0xdf; 0xfb;
     0x0; 0x0; 0x0; 0x9; 0xfe; 0xff; 0x60; 0x0;
     0x0; 0x4f; 0xf4; 0x8f; 0xf2; 0x0; 0x1; 0xef;
     0x90; 0xd; 0xfc; 0x0; 0xb; 0xfd; 0x0; 0x3;
     0xff; 0x70; 0x6f; 0xf4; 0x0; 0x0; 0x8f; 0xf3];
  (* U+0079 *)
    [0x8f; 0xf1; 0x0; 0x0; 0x5; 0xff; 0x11; 0xff;
     0x70; 0x0; 0x0; 0xbf; 0xa0; 0x9; 0xfe; 0x0;
     0x0; 0x2f; 0xf3; 0x0; 0x2f; 0xf5; 0x0; 0x9;
     0xfc; 0x0; 0x0; 0xaf; 0xc0; 0x0; 0xff; 0x50;
     0x0; 0x3; 0xff; 0x30; 0x6f; 0xd0; 0x0; 0x0;
     0xb; 0xfa; 0xd; 0xf6; 0x0; 0x0; 0x0; 0x4f;
     0xf5; 0xff; 0x0; 0x0; 0x0; 0x0; 0xcf; 0xff;
     0x80; 0x0; 0x0; 0x0; 0x5; 0xff; 0xf2; 0x0;
     0x0; 0x0; 0x0; 0xe; 0xfa; 0x0; 0x0; 0x0;
     0x0; 0x2; 0xff; 0x30; 0x0; 0x0; 0x0; 0x0;
     0xaf; 0xc0; 0x0; 0x0; 0x0; 0x0; 0x1f; 0xf5;
     0x0; 0x0; 0x0; 0x0; 0x8; 0xfe; 0x0; 0x0;
     0x0; 0x0; 0x0; 0xff; 0x70; 0x0; 0x0; 0x0;
     0x0; 0x7f; 0xf1; 0x0; 0x0; 0x0; 0x0];
  (* U+007A *)
    [0xf; 0xff; 0xff; 0xff; 0xff; 0x10; 0xff; 0xff;
     0xff; 0xff; 0xf1; 0x0; 0x11; 0x11; 0x3f; 0xfb;
     0x0; 0x0; 0x0; 0xc; 0xfd; 0x0; 0x0; 0x0;
     0xa; 0xff; 0x20; 0x0; 0x0; 0x7; 0xff; 0x40;
     0x0; 0x0; 0x4; 0xff; 0x80; 0x0; 0x0; 0x1;
     0xef; 0xb0; 0x0; 0x0; 0x0; 0xcf; 0xd0; 0x0;
     0x0; 0x0; 0xaf; 0xf3; 0x11; 0x11; 0x10; 0xf;
     0xff; 0xff; 0xff; 0xff; 0x30; 0xff; 0xff; 0xff;
     0xff; 0xf3];
  (* U+007B *)
    [0x0; 0x0; 0x29; 0xc4; 0x0; 0x4; 0xff; 0xf5;
     0x0; 0xd; 0xf7; 0x10; 0x0; 0x2f; 0xd0; 0x0;
     0x0; 0x4f; 0xb0; 0x0; 0x0; 0x4f; 0xb0; 0x0;
     0x0; 0x4f; 0xb0; 0x0; 0x0; 0x4f; 0xb0; 0x0;
     0x0; 0x5f; 0xa0; 0x0; 0x0; 0x8f; 0x90; 0x0;
     0x27; 0xff; 0x40; 0x0; 0xef; 0xd5; 0x0; 0x0;
     0xef; 0xe7; 0x0; 0x0; 0x5; 0xff; 0x50; 0x0;
     0x0; 0x7f; 0xa0; 0x0; 0x0; 0x4f; 0xb0; 0x0;
     0x0; 0x4f; 0xb0; 0x0; 0x0; 0x4f; 0xb0; 0x0;
     0x0; 0x4f; 0xb0; 0x0; 0x0; 0x3f; 0xc0; 0x0;
     0x0; 0xf; 0xf3; 0x0; 0x0; 0x7; 0xff; 0xe4;
     0x0; 0x0; 0x6c; 0xf5];
  (* U+007C *)
    [0x68; 0x1d; 0xf2; 0xdf; 0x2d; 0xf2; 0xdf; 0x2d;
     0xf2; 0xdf; 0x2d; 0xf2; 0xdf; 0x2d; 0xf2; 0xdf;
     0x2d; 0xf2; 0xdf; 0x2d; 0xf2; 0xdf; 0x2d; 0xf2;
     0xdf; 0x2d; 0xf2; 0xdf; 0x2d; 0xf2; 0xdf; 0x2d;
     0xf2; 0xdf; 0x20];
  (* U+007D *)
    [0xbb; 0x60; 0x0; 0x0; 0xef; 0xfb; 0x0; 0x0;
     0x3; 0xdf; 0x50; 0x0; 0x0; 0x6f; 0x90; 0x0;
     0x0; 0x3f; 0xb0; 0x0; 0x0; 0x3f; 0xc0; 0x0;
     0x0; 0x3f; 0xc0; 0x0; 0x0; 0x3f; 0xc0; 0x0;
     0x0; 0x3f; 0xc0; 0x0; 0x0; 0x2f; 0xf0; 0x0;
     0x0; 0xc; 0xfb; 0x30; 0x0; 0x1; 0xaf; 0xf6;
     0x0; 0x2; 0xcf; 0xf6; 0x0; 0xd; 0xfa; 0x20;
     0x0; 0x2f; 0xe0; 0x0; 0x0; 0x3f; 0xc0; 0x0;
     0x0; 0x3f; 0xc0; 0x0; 0x0; 0x3f; 0xc0; 0x0;
     0x0; 0x3f; 0xb0; 0x0; 0x0; 0x5f; 0xa0; 0x0;
     0x0; 0xbf; 0x70; 0x0; 0xbf; 0xfe; 0x10; 0x0;
     0xde; 0xa1; 0x0; 0x0];
  (* U+007E *)
    [0x0; 0x5d; 0xfc; 0x50; 0x0; 0x5; 0x0; 0x8f;
     0xff; 0xff; 0xb3; 0x18; 0xf8; 0xd; 0xf5; 0x15;
     0xef; 0xff; 0xff; 0x40; 0x24; 0x0; 0x0; 0x8d;
     0xfb; 0x30]].
Definition glyph_blocks : list (list Z) :=
  glyph_bitmap_0020 ++ glyph_bitmap_002e ++ glyph_bitmap_0039 ++ glyph_bitmap_0043 ++ glyph_bitmap_004c ++ glyph_bitmap_0054 ++ glyph_bitmap_005c ++ glyph_bitmap_0068 ++ glyph_bitmap_0074.
Definition glyph_bitmap : list Z := concat glyph_blocks.

(** ** Glyphs *)

Definition glyph_dsc : list lv_font_fmt_txt_glyph_dsc_t := [
  GlyphDsc 0 0 0 0 0 0;
  GlyphDsc 0 96 0 0 0 0;
  GlyphDsc 0 119 4 17 2 0;
  GlyphDsc 34 144 9 7 0 10;
  GlyphDsc 66 283 16 16 1 0;
  GlyphDsc 194 228 12 22 1 (-3);
  GlyphDsc 326 314 18 16 1 0;
  GlyphDsc 470 268 16 17 1 0;
  GlyphDsc 606 77 4 7 0 10;
  GlyphDsc 620 116 7 24 1 (-4);
  GlyphDsc 704 116 6 24 0 (-4);
  GlyphDsc 776 169 10 9 0 8;
  GlyphDsc 821 218 12 12 1 1;
  GlyphDsc 893 113 5 8 1 (-4);
  GlyphDsc 913 139 7 2 1 6;
  GlyphDsc 920 107 5 4 1 0;
  GlyphDsc 930 167 11 17 0 0;
  GlyphDsc 1024 236 13 17 1 0;
  GlyphDsc 1135 136 7 16 0 0;
  GlyphDsc 1191 203 12 16 0 0;
  GlyphDsc 1287 212 13 16 0 0;
  GlyphDsc 1391 220 14 16 0 0;
  GlyphDsc 1503 210 13 16 0 0;
  GlyphDsc 1607 223 13 17 1 0;
  GlyphDsc 1718 185 12 16 0 0;
  GlyphDsc 1814 215 12 16 1 0;
  GlyphDsc 1910 223 13 17 0 0;
  GlyphDsc 2021 111 5 12 1 0;
  GlyphDsc 2051 114 5 16 1 (-4);
  GlyphDsc 2091 185 11 13 0 0;
  GlyphDsc 2163 228 12 7 1 4;
  GlyphDsc 2205 185 11 13 0 0;
  GlyphDsc 2277 196 12 17 0 0;
  GlyphDsc 2379 317 18 19 1 (-2);
  GlyphDsc 2550 268 17 17 0 0;
  GlyphDsc 2695 231 12 17 2 0;
  GlyphDsc 2797 288 17 17 1 0;
  GlyphDsc 2942 276 15 17 2 0;
  GlyphDsc 3070 223 11 17 2 0;
  GlyphDsc 3164 212 11 17 2 0;
  GlyphDsc 3258 294 17 17 1 0;
  GlyphDsc 3403 283 14 17 2 0;
  GlyphDsc 3522 108 3 17 2 0;
  GlyphDsc 3548 205 11 17 0 0;
  GlyphDsc 3642 257 14 17 2 0;
  GlyphDsc 3761 210 11 17 2 0;
  GlyphDsc 3855 363 19 17 2 0;
  GlyphDsc 4017 293 15 17 2 0;
  GlyphDsc 4145 308 18 17 1 0;
  GlyphDsc 4298 229 12 17 2 0;
  GlyphDsc 4400 308 18 19 1 (-2);
  GlyphDsc 4571 238 12 17 2 0;
  GlyphDsc 4673 228 14 17 0 0;
  GlyphDsc 4792 227 14 17 0 0;
  GlyphDsc 4911 257 14 17 1 0;
  GlyphDsc 5030 252 16 17 0 0;
  GlyphDsc 5166 386 24 17 0 0;
  GlyphDsc 5370 237 15 17 0 0;
  GlyphDsc 5498 237 15 17 0 0;
  GlyphDsc 5626 243 14 17 1 0;
  GlyphDsc 5745 111 5 23 2 (-4);
  GlyphDsc 5803 167 11 17 0 0;
  GlyphDsc 5897 111 5 23 0 (-4);
  GlyphDsc 5955 200 12 9 0 9;
  GlyphDsc 6009 208 13 2 0 (-2);
  GlyphDsc 6022 104 6 4 0 13;
  GlyphDsc 6034 201 11 12 1 0;
  GlyphDsc 6100 228 13 18 1 0;
  GlyphDsc 6217 204 12 12 0 0;
  GlyphDsc 6289 226 13 18 0 0;
  GlyphDsc 6406 208 13 12 0 0;
  GlyphDsc 6484 132 8 17 0 0;
  GlyphDsc 6552 222 12 17 1 (-5);
  GlyphDsc 6654 216 11 18 1 0;
  GlyphDsc 6753 97 4 18 1 0;
  GlyphDsc 6789 98 6 23 (-1) (-5);
  GlyphDsc 6858 202 12 18 1 0;
  GlyphDsc 6966 98 4 18 1 0;
  GlyphDsc 7002 329 18 12 1 0;
  GlyphDsc 7110 216 11 12 1 0;
  GlyphDsc 7176 220 13 12 0 0;
  GlyphDsc 7254 228 13 17 1 (-5);
  GlyphDsc 7365 223 13 17 0 (-5);
  GlyphDsc 7476 141 8 12 1 0;
  GlyphDsc 7524 174 10 12 0 0;
  GlyphDsc 7584 136 8 16 0 0;
  GlyphDsc 7648 217 11 12 1 0;
  GlyphDsc 7714 193 12 12 0 0;
  GlyphDsc 7786 305 19 12 0 0;
  GlyphDsc 7900 189 12 12 0 0;
  GlyphDsc 7972 201 13 17 0 (-5);
  GlyphDsc 8083 179 11 12 0 0;
  GlyphDsc 8149 136 8 23 1 (-4);
  GlyphDsc 8241 101 3 23 2 (-4);
  GlyphDsc 8276 136 8 23 0 (-4);
  GlyphDsc 8368 219 13 4 0 5].

Definition cmaps : list lv_font_fmt_txt_cmap_t :=
  [Cmap 32 95 1 None None 0 LV_FONT_FMT_TXT_CMAP_FORMAT0_TINY].

(** ** Kerning *)

Definition kern_left_class_mapping : list Z := [
  0; 1; 0; 2; 3; 4; 5; 6;
  2; 7; 0; 8; 9; 10; 11; 10;
  12; 13; 14; 15; 16; 17; 18; 19;
  20; 21; 13; 22; 22; 23; 24; 25;
  26; 27; 28; 29; 30; 31; 32; 33;
  34; 35; 35; 36; 37; 38; 35; 35;
  31; 39; 40; 41; 42; 43; 36; 44;
  45; 46; 47; 48; 49; 50; 0; 51;
  52; 0; 53; 54; 55; 56; 57; 58;
  59; 60; 61; 62; 63; 56; 60; 60;
  54; 54; 61; 64; 65; 66; 67; 68;
  69; 70; 71; 72; 73; 74; 75; 76].
Definition kern_right_class_mapping : list Z := [
  0; 1; 2; 3; 4; 0; 5; 6;
  3; 7; 8; 9; 10; 11; 12; 11;
  13; 14; 15; 16; 17; 18; 19; 14;
  20; 21; 22; 23; 23; 24; 25; 26;
  27; 28; 29; 30; 31; 30; 30; 30;
  31; 30; 30; 32; 30; 30; 30; 30;
  31; 30; 31; 30; 33; 34; 35; 36;
  37; 38; 39; 40; 41; 42; 43; 44;
  45; 0; 46; 47; 48; 48; 48; 49;
  50; 47; 51; 52; 47; 47; 53; 53;
  48; 53; 48; 53; 54; 55; 56; 57;
  58; 59; 60; 61; 62; 63; 43; 64].
Definition kern_class_values_0 : list Z := [
  0; 0; 0; 0; 0; -15; 0; 0;
  0; 0; 0; -19; 0; 0; 0; 0;
  0; 0; 0; 0; 0; 0; 0; 0;
  0; 0; 0; 0; 0; 0; 0; 0;
  0; 0; 0; 0; 0; 0; 0; 0;
  0; 0; 0; 0; 0; 0; 0; 0;
  0; 0; 0; 0; 0; 0; 0; 0;
  0; 0; 0; 0; 0; 0; 0; 0;
  0; 0; 0; 0; 0; 0; 0; 0;
  0; 0; 0; 0; 0; 0; 12; 4;
  0; -19; 0; 8; 0; 0; 0; 0;
  0; 0; 0; 0; -23; 0; 0; -15;
  0; 12; 0; 8; 8; 4; 4; 0;
  0; 0; 0; 0; 0; -4; 0; -8;
  8; -8; 0; 0; 0; 0; 0; 0;
  4; 4; 4; 4; 0; 0; 0; 0;
  0; 0; 0; 0; 0; 0; 0; 0;
  0; 0; 0; 0; 0; -8; -4; -4;
  -12; -15; -12; -4; -8; -8; 0; 0;
  0; 0; 0; 0; 0; 0; 0; 0;
  0; 0; 0; 0; 0; 0; 0; 0;
  0; 0; 0; 0; 0; 0; 0; 0;
  0; 0; 0; 0; 0; 0; 0; 0;
  0; 0; 0; 0; 0; 0; 0; 0;
  0; 0; 0; 0; 0; 0; 0; 0;
  0; 0; 0; 0; 0; -4; 0; 0;
  -4; -4; -4; -4; -4; -4; 0; 0;
  0; 0; 0; 0; 0; 0; 0; 0;
  0; 0; 0; 0; 0; 0; 0; 0;
  0; 0; 0; 0; 0; 0; 0; 0;
  0; 0; 0; 0; 0; 0; 0; 0;
  0; 0; 0; 0; 0; 0; 0; 0;
  0; 0; 0; 0; 0; 0; 0; 0;
  0; 0; 0; 0; 0; -8; -4; 0;
  0; 0; 0; 0; 0; 0; 0; 0;
  0; 0; 0; 0; 0; 0; 0; 0;
  0; 0; 0; 0; 0; 0; 0; 0;
  0; 0; 0; 0; 0; 0; 0; 0;
  0; 0; 0; 0; 0; 0; 0; 0;
  0; 0; 0; 0; 0; 0; 0; 0;
  -15; 0; 0; 0; 0; 0; 0; 0;
  0; 0; 0; 0; 0; 0; -4; 0;
  -4; -4; -4; 0; 0; 0; 0; 0;
  0; 0; 0; 0; 0; 0; 0; 0;
  0; -27; -4; -29; -13; 0; -29; 0;
  0; 0; 0; 0; 0; 0; 0; 0;
  0; 0; 0; 0; 0; 0; 0; 0;
  0; 0; 0; 0; 0; 0; 0; 0;
  0; 0; 0; 0; 0; 0; 0; 0;
  0; -19; 0; -15; 0; -8; -2; 2;
  0; -8; -10; 15; 0; 0; 0; 0;
  0; 0; 0; 0; 0; 0; -8; -6;
  0; 8; 0; 8; 8; 8; 8; 0;
  0; 0; 0; 0; 0; -2; 0; -8;
  -4; -8; 0; 19; 0; 0; 0; 0;
  -8; -8; 0; 0; 0; 0; 0; 0;
  0; 0; 0; 0; 0; 0; 0; 0;
  0; 0; 0; 0; 0; 0; 0; 0;
  0; -27; 0; 15; 0; 0; 0; 0;
  0; 0; 0; 0; -42; 0; -2; -19;
  0; 8; 0; 8; 4; 0; 0; 0;
  0; 0; 0; 0; 0; -12; 0; -15;
  0; -15; 0; 0; 0; -4; 0; 0;
  4; 0; 0; 0; 0; 0; 0; 0;
  0; 0; 0; 0; 0; 0; 0; -19;
  0; 0; 0; 0; 0; 0; -12; -4;
  -8; 0; 0; -4; 0; -4; 0; 0;
  0; 0; 0; 0; -6; 0; 0; 0;
  0; -19; -2; -15; -12; -4; -19; -8;
  0; 0; -15; 0; 0; 0; 0; 0;
  0; 0; 0; 0; 0; 0; 0; 0;
  0; 0; 0; 0; 0; 0; 0; 0;
  0; 0; 0; 0; 0; 0; 0; 0;
  0; 0; 0; 0; 0; -8; -27; 0;
  0; -19; 0; -8; -4; 0; 0; 0;
  0; 0; 0; 0; 0; 0; -12; 0;
  -4; -38; -10; -38; -38; 0; -50; 0;
  0; 0; 0; 0; 0; 0; 0; -6;
  0; -4; 0; 0; 0; 0; -8; -4;
  -35; -15; 0; -35; 0; 0; 0; 0;
  -19; 0; 0; 0; 0; 0; 0; -15;
  0; 0; 0; 0; 0; 0; -8; 0;
  -8; -2; -4; -12; 0; 0; 0; 0;
  0; 0; 0; 0; -8; 0; 0; 0;
  -4; -23; -2; -21; -15; -15; -31; -17;
  0; 0; -8; 0; 0; 0; 0; 0;
  0; 0; 0; -4; 0; 0; -4; 0;
  -2; -2; -4; -8; -2; 0; 0; 0;
  0; 0; 0; 0; 0; 0; 0; 0;
  0; 0; 0; 0; -54; -15; 0; -8;
  0; -31; -8; 12; -12; -8; 0; 0;
  0; 0; 0; 0; -27; 0; -13; -46;
  -4; 15; 0; 8; 8; 4; 4; 0;
  0; 0; 0; 0; 0; -44; 0; -46;
  -4; -46; 0; 0; -23; -31; 0; -17;
  -4; -8; -8; -4; -23; 0; 0; 0;
  0; 0; 0; -8; -8; 0; 0; -8;
  0; 0; -15; 0; -15; -2; -2; 0;
  -2; 0; -2; 0; -2; 0; 0; 0;
  4; 0; 0; 0; 0; 0; 0; 0;
  0; 0; 0; 0; 0; 0; 0; 0;
  0; -15; 0; 0; -8; 0; 0; 0;
  0; 0; 0; 0; 0; 0; 0; 0;
  0; 0; 0; 0; 0; 0; 0; 4;
  0; 0; -4; -8; -4; 0; 0; 0;
  0; 0; -4; 0; 0; 2; 0; 2;
  0; 0; 0; 2; 0; 0; 0; -4;
  0; 12; 0; 0; 0; 0; 0; 0;
  0; 0; 0; 0; 0; 0; 0; 0;
  0; 0; 4; 0; 0; 0; 0; 0;
  0; 0; 0; 0; 0; 0; 0; 0;
  0; 0; 0; 0; 0; 0; 4; 0;
  0; 0; 0; 0; 0; 0; 0; 0;
  0; 0; 0; 0; 0; 0; 4; 0;
  0; -6; 0; 0; 0; 0; 0; 0;
  0; 12; 0; 0; 0; 0; 0; 0;
  0; 0; 0; 0; 0; 0; 0; 0;
  0; -4; 0; 0; 4; 0; 0; 0;
  0; 0; 0; 0; 0; 0; 0; 0;
  0; 0; 0; 0; 0; 0; 0; 0;
  0; 0; 0; -8; -4; 0; 0; 0;
  4; 0; -4; -4; -4; 0; -2; 0;
  0; 0; 0; 4; 0; 0; 0; 0;
  0; 12; 0; 0; 0; 0; 0; 0;
  0; 0; 0; 0; 0; 0; 0; 0;
  0; 0; 0; 0; -4; 0; 0; 0;
  0; 0; 0; 0; 0; 0; 0; 0;
  0; 0; 0; 0; 0; 0; 8; 4;
  0; 0; 0; 0; -4; 0; 0; 0;
  -8; 0; 0; 0; 0; 0; 0; 0;
  0; 0; 0; -2; 0; 0; 0; 0;
  8; 12; 0; 0; 0; 0; 0; 0;
  0; 0; 0; 0; 0; 0; 0; 0;
  0; 0; 0; 0; 0; 0; 0; 0;
  0; 0; 0; 0; 0; 0; 0; 0;
  0; 0; 0; 0; 0; 0; 0; 8;
  0; 0; 0; 0; -4; 0; 0; 0;
  0; 0; -4; 0; -8; 0; 0; 0;
  0; 0; 0; 2; 0; 0; 0; 4;
  4; 8; 0; -2; 0; 0; 0; 0;
  0; 0; 0; 0; 0; 0; 0; 0;
  0; 0; 0; 0; -4; 0; 0; 0;
  0; 0; 0; 0; 0; 0; 0; 0;
  0; 0; 0; 0; 0; 0; 0; 4;
  0; 0; 0; -8; 0; 0; 0; 0;
  0; 4; -4; 0; 0; 0; 0; 0;
  0; 0; 0; 2; 0; 0; 0; 0;
  4; 4; 0; -4; 0; 0; 0; 0].
Definition kern_class_values_1 : list Z := [
  0; 0; 0; 0; 0; 0; 0; 0;
  0; -4; 0; 0; -8; 0; 0; 0;
  0; 0; 0; 0; 0; 0; 0; 0;
  0; 0; 0; 0; 0; 0; 0; 4;
  0; 0; 8; -15; 0; 0; 0; 0;
  8; -19; -42; -19; -23; -10; 2; 0;
  0; -21; -6; 12; 0; 4; -12; -12;
  2; 12; 8; -2; 0; 0; 0; 0;
  0; 0; 0; 0; 0; 0; 0; 0;
  0; 12; 0; 0; -35; 0; 0; 0;
  0; 0; 0; 0; 0; 0; 0; 0;
  0; 0; 0; 0; 0; 0; 8; -15;
  0; 0; 0; -4; -2; -4; 0; 0;
  0; 0; -4; 0; 0; -2; 0; 0;
  0; 0; 0; 0; 0; 0; 0; 0;
  0; 4; 0; 0; 0; 0; 0; 0;
  0; 0; 0; 0; 0; 0; 0; 0;
  0; -15; 0; 0; -4; 0; 0; 0;
  0; 0; 0; 0; 0; 0; 0; 0;
  0; 0; 0; 0; 0; 0; 0; 0;
  0; 0; 0; 0; 0; 0; 0; 0;
  0; 0; 0; 0; 0; 0; 0; 0;
  0; 0; 0; 4; 0; 6; 0; 0;
  0; 0; 0; 0; 0; 0; 0; 0;
  0; -23; -2; -15; -4; 0; -23; 0;
  0; 0; 0; 0; 0; 0; 0; -2;
  0; -2; 0; 0; 0; 0; 0; 0;
  0; 0; 0; 0; 0; 0; 0; 0;
  0; 0; 0; 0; 0; 0; 0; 0;
  0; 0; 0; 0; 0; 8; 12; 12;
  4; 0; 8; 27; 12; 12; 0; 0;
  0; 0; 0; 0; 0; 4; 4; 0;
  0; -4; 0; 0; 0; 0; 0; 4;
  0; 0; 0; 0; 0; 0; 0; 0;
  0; 0; 0; 0; 0; 0; 0; 0;
  0; 0; 0; 0; 0; 0; 0; 0;
  0; 0; 0; 0; 0; 0; 0; 0;
  0; 0; 0; 0; 0; 4; 0; 0;
  0; 0; 4; -4; 0; 0; 0; 0;
  0; 0; 0; 0; 0; 0; 0; 0;
  0; -12; 0; -4; -4; -4; -12; 0;
  0; 0; 0; 0; 0; 0; 0; 0;
  0; 0; 0; 0; 0; 0; 0; 0;
  0; 0; 0; 0; 0; 0; 0; 0;
  0; 0; 0; 0; 0; 0; 0; 0;
  0; 0; 0; 0; 0; 0; -4; -4;
  -8; 0; 0; 0; 0; 0; 0; 0;
  0; 0; 0; 0; -8; 0; 0; 0;
  0; -15; -2; -8; -8; -8; -23; -6;
  0; 0; 0; 0; 0; 0; 0; 0;
  0; 0; 0; 0; 0; 0; 0; 0;
  0; 0; 0; 0; 0; 0; 0; 0;
  0; 0; 0; 0; 0; 0; 0; 0;
  0; 0; 0; 0; 0; 0; 4; 0;
  0; -8; 0; 12; 0; 0; 0; 0;
  0; 0; 0; 0; 0; 0; -2; 0;
  0; 0; 0; 0; 0; 0; 0; 0;
  0; 0; 0; 0; 0; 0; 0; -8;
  0; -8; 0; 0; 0; 0; 0; 0;
  8; 0; 0; 0; 0; 0; 0; 0;
  0; 0; 0; 0; 0; 0; 0; 0;
  0; 0; 0; 0; 0; 0; 0; 0;
  -4; -4; 0; 4; 0; 0; 0; 0;
  0; 0; 0; 0; -12; 0; 0; -4;
  0; -10; 0; -8; -8; -8; -15; -8;
  0; 0; 0; 0; 0; 0; 0; 0;
  0; 0; 0; 0; 0; 0; 0; 0;
  6; 6; 2; 6; 2; 0; 0; 0;
  0; 0; -15; 0; 0; -2; -4; 0;
  -42; -6; 0; -8; 8; 0; 0; 0;
  0; 0; 0; 0; 0; 0; 0; -8;
  0; 0; -17; -12; 0; 0; -10; 4;
  -4; -25; -6; -21; -17; 0; -25; 0;
  0; -27; 0; -8; 12; -2; 0; -4;
  0; -4; 0; 0; -2; 0; -10; -10;
  -12; -12; 0; -10; 0; -8; 0; -8;
  0; 0; 0; 0; 0; -2; 0; 0;
  0; -2; -6; 0; -6; 0; 0; 0;
  0; 0; 0; 0; 0; 0; 0; 0;
  0; 4; 0; 0; -8; 0; 0; 6;
  0; 0; 0; 0; 0; 0; -2; 0;
  0; -10; 0; 0; -4; -4; 0; 2;
  -2; 2; 0; 0; -2; -2; 0; -8;
  -2; -2; 0; -2; 0; 0; 0; 0;
  0; 0; 0; 0; 0; -6; 0; 0;
  0; 0; -4; 0; -10; 0; 0; 0;
  0; 0; 0; 0; 0; 0; 0; 0;
  0; 4; 0; -12; -8; 0; -4; 0;
  0; -2; 0; -4; -6; -6; -10; 0;
  0; -10; 4; -4; -4; -8; -4; -8;
  -4; -8; 0; 0; -6; -4; -2; -8;
  -4; -4; -4; -6; -4; -8; 0; 0;
  0; 0; 0; 0; 0; -8; 0; -8;
  -2; 0; -12; 0; -13; 0; 0; 0;
  0; 0; 0; 0; 0; 0; 0; 0;
  0; 4; 0; 0; -10; 0; 0; 0;
  -2; -10; 0; -10; -8; -12; -17; -4;
  -2; -13; -8; 4; -15; 0; 0; 0;
  2; 0; 0; 0; 0; 0; 10; 0;
  0; 0; 0; 0; 0; 0; 0; 4;
  0; 0; 0; 0; 0; 0; 0; 4;
  0; 0; 0; -2; 0; 0; 0; 0;
  0; 0; 0; 0; 0; 0; 0; 0;
  0; 4; 0; -10; 0; 0; -2; -4;
  0; 0; 0; 0; 0; 0; 0; 0;
  0; 0; 6; 0; 0; -6; 0; -8;
  -2; -8; 0; 0; -6; -2; 0; -6;
  -6; -6; 0; -6; 0; -12; 0; 0;
  0; 0; 8; 0; 0; -4; 0; 12;
  6; -8; -38; -4; -21; 0; 0; 0;
  0; 0; 0; 0; 0; 0; 0; 0;
  0; 4; 4; -4; -17; 0; -2; -15;
  0; 12; -2; 0; 0; 0; 0; 4;
  0; 12; 12; 4; -38; -13; 2; -13;
  -4; -13; -2; -2; -10; -6; 0; -17;
  -8; -8; -6; -6; -4; -8; 8; -8;
  0; 0; 0; 0; 0; -6; 0; 0;
  0; 0; 0; 0; 2; 0; 0; 0;
  0; 0; 0; 0; 0; 0; 0; 0;
  0; 8; 0; 0; 0; 0; 0; 0;
  0; -2; 0; -6; -4; 0; -12; 0;
  0; -8; 0; 0; 4; 0; 0; 0;
  0; 0; 0; 0; 0; 0; 10; -2;
  0; 0; 0; 0; 0; -4; 0; 2;
  0; 0; 0; 0; 0; 0; 0; 0;
  0; 0; 0; 0; 0; 0; 0; 0;
  0; 0; 0; 0; 0; 0; 0; 0;
  0; 4; 0; -4; 0; 0; 0; 0;
  0; 0; 0; 0; 0; 0; 0; 0;
  0; 0; 0; 0; 0; -2; 0; 0;
  0; 0; 0; 0; 0; 0; 0; 0;
  0; 0; 0; 0; 0; -12; 0; 0;
  0; 0; 0; 0; 0; -2; 0; 0;
  0; -2; -10; -2; -8; 0; 0; 0;
  0; 0; 0; 0; 0; 0; -2; -2;
  0; 0; 0; -2; -12; 0; 0; 0;
  0; 0; 0; 0; 0; 0; 0; 0;
  0; 0; 0; 0; -6; 0; 0; -2;
  0; -2; 0; 0; -2; 0; 0; 0;
  0; 0; 0; 0; 0; -8; 0; -2;
  0; 0; 0; 0; 0; -21; 0; 2;
  -4; -15; 0; -27; 8; 0; 0; 0;
  0; 0; 0; 0; 0; 0; -4; -19;
  -19; 0; -2; -21; -4; 0; -21; -2;
  -4; 0; -4; -6; -6; 0; 0; 0;
  0; 0; 2; -8; 8; -6; 0; -13;
  -8; -13; 0; 0; -6; -4; -12; -21;
  -17; -17; -4; -23; 0; -15; 0; -23].
Definition kern_class_values_2 : list Z := [
  0; 0; -31; 0; 0; -10; 0; 4;
  -27; -8; 4; -15; 15; 0; 0; 0;
  0; 0; 0; 0; 0; 0; 0; -15;
  -8; 0; -17; -8; 8; 0; -13; 8;
  0; -27; -4; -23; -19; 0; -25; 0;
  0; -27; 4; -19; 12; 0; 0; -2;
  -4; -2; 0; 0; 0; 0; -6; -8;
  -15; -15; 0; -17; 0; -12; 8; -19;
  0; 0; 4; 0; 0; -4; 0; 0;
  4; -12; -46; -4; -27; 0; 0; 0;
  0; 0; 0; 0; 0; 0; 0; 0;
  0; 8; 8; -2; -23; 0; 0; -27;
  0; 0; -2; 0; -2; -2; -2; -4;
  0; 0; 0; 0; -35; -12; -4; -15;
  2; -15; 0; -2; -6; -10; 4; -8;
  0; 0; 0; 4; -4; -8; 0; -8;
  0; 0; 0; 0; 0; 0; 0; -4;
  0; 0; -4; 0; 0; 0; 0; 0;
  0; 0; 0; 0; 0; 0; 0; 4;
  0; 8; 0; 0; -6; 0; 0; 2;
  0; -8; 0; -10; -8; -6; -15; 0;
  0; -13; -4; 0; 0; -2; 0; 0;
  0; 0; 0; 0; 0; 0; 0; 0;
  0; -2; 0; -2; 0; 0; 0; 0;
  0; 0; 0; 0; 0; -2; 0; 2;
  4; -4; -2; -8; 0; 0; 0; 0;
  0; 0; 0; 0; 0; 0; 0; -2;
  0; 10; 0; -6; -2; 0; -2; -6;
  0; 0; 0; -2; -2; 0; -4; 0;
  0; -2; 4; 4; 2; -2; 0; -8;
  0; -8; 0; 0; -2; -2; 0; -8;
  0; -4; 4; 0; 0; -4; 0; -4;
  0; 0; 0; 0; 0; 0; 0; 0;
  0; 0; 0; -2; 0; 0; 0; 0;
  0; 0; 0; 0; 0; 0; 0; 0;
  0; 10; 0; 0; -2; 0; -2; 4;
  0; -2; -2; 0; 0; 0; -4; 0;
  0; -10; 6; -2; -4; -2; -2; -4;
  -6; -4; -2; -2; -12; 0; -4; -10;
  -8; -8; -6; -10; -2; -8; 0; 0;
  0; 0; 12; 0; 0; -12; 0; 8;
  8; -19; -38; -23; -27; 0; 0; 0;
  0; 0; 0; 0; 0; 0; -23; -15;
  -12; -4; 8; -10; -25; 0; -10; -25;
  0; 8; 0; 8; 8; 6; 8; 0;
  0; 15; 8; 0; -15; -33; 0; -36;
  -15; -36; -8; -4; -23; -27; -10; -36;
  -27; -29; -29; -27; -17; -12; 8; -27;
  0; 0; 8; 0; 0; -17; 0; 8;
  8; -15; -38; -21; -23; 0; 0; 0;
  0; 0; 0; 0; 0; 0; -15; -8;
  -4; 0; 4; -8; -21; 0; -10; -21;
  -2; 8; 0; 4; 4; 4; 4; 0;
  0; 8; 8; 0; -19; -21; 0; -21;
  0; -21; 0; 0; -12; -8; -2; -13;
  -2; -4; -2; -2; -8; -12; 8; -15;
  0; 0; 8; 0; 0; 0; 0; 8;
  4; -12; -38; -15; -23; 0; 0; 0;
  0; 0; 0; 0; 0; 0; -4; -8;
  -4; 0; 0; -8; -17; 0; -8; -19;
  0; 8; 0; 4; 4; 4; 4; 0;
  0; 8; 8; 0; -17; -12; 0; -13;
  0; -13; 0; 0; -12; -8; -2; -12;
  -2; -4; 0; -2; -2; -12; 8; -8;
  0; 0; 4; 0; 0; -4; 0; 8;
  0; -4; 0; -15; 4; 0; 0; 0;
  0; 0; 0; 0; 0; 0; 0; -8;
  -4; 0; 0; -10; 0; 0; -8; -4;
  0; 6; 0; 4; 4; 0; 4; 4;
  0; 4; 8; 0; 6; 0; 0; -10;
  0; -10; 0; 0; 0; 0; 0; -4;
  -6; -4; 8; -6; 2; -12; 8; -8;
  0; 0; 4; 0; 0; -19; 0; 8;
  0; -19; -50; -31; -33; 0; 0; 0;
  0; 0; 0; 0; 0; 0; -23; -23;
  -12; 0; 0; -15; -25; 0; -17; -29;
  -4; 8; 0; 4; 4; 4; 4; 2;
  0; 4; 8; 0; -23; -25; 0; -35;
  -10; -35; -2; -2; -23; -25; -4; -23;
  -15; -19; -12; -17; -13; -8; 4; -23;
  0; 0; 0; 0; 0; 0; 0; 0;
  0; -4; 0; -17; 0; 0; 0; 0;
  0; 0; 0; 0; 0; 0; 0; 0;
  0; 0; 2; -6; 0; 0; -8; 0;
  0; 6; 0; 0; 0; 4; 2; 0;
  0; 0; 0; 0; 4; 0; 0; -2;
  0; -2; 0; 0; 0; 0; 0; -2;
  0; -2; 0; -8; 0; 0; 0; 0;
  0; 0; 0; 0; 0; 0; 0; 0;
  0; -15; 0; -8; 0; 0; 0; 0;
  0; -12; -8; 19; 0; 4; 0; 0;
  0; 0; 0; 0; 0; 0; -8; 0;
  0; 8; 0; 8; 8; 8; 15; 0;
  0; 0; 0; 0; 0; 0; 0; -4;
  -4; -4; 0; 19; 0; 0; 0; 0;
  0; -8; 0; 0; 0; 0; 0; 0;
  0; 0; 0; 0; 0; 0; 0; 0;
  0; 0; 0; 0; 0; -15; 0; 4;
  -4; -4; 0; 0; -8; 0; 0; 0;
  0; 0; 0; 0; 0; 0; -13; 0;
  -2; -19; -8; -23; -23; 4; -25; 0;
  0; 0; 0; 0; 0; 4; 0; -6;
  0; -6; 0; 0; 0; 0; 0; 0;
  -4; -4; 4; -4; 0; 0; 0; 0;
  0; 0; 0; 0; 0; 0; 0; 0;
  0; 0; 0; 0; 0; 0; 0; 0;
  0; 0; 0; 0; 0; 0; 0; 0;
  0; 0; 0; 0; -8; 0; 4; 0;
  0; 0; 0; 0; 0; 0; 0; 0;
  0; 0; 0; 0; 0; 0; 0; 0;
  0; 0; 0; 0; 0; 0; 0; 0;
  0; 0; 0; 0; 0; 0; 0; 0;
  0; 0; 0; 0; 0; 0; 0; 0;
  0; 0; 0; 0; 0; -8; 0; 0;
  0; -19; 0; 0; -4; 0; 0; 0;
  0; 0; 0; 0; 12; 0; -15; 0;
  -4; -15; -6; -19; -17; 6; -23; 4;
  0; 0; 0; 0; 0; 0; 0; -8;
  -4; -8; 0; 19; 0; 0; -6; -6;
  -15; -15; 12; -15; 0; 0; 0; 0;
  0; 0; 0; 0; 0; -4; 0; 0;
  -8; 0; 0; 0; 0; 0; 0; 0;
  0; 0; 0; 0; 0; 0; 0; 0;
  0; 0; 0; -4; 0; 0; 0; 0;
  0; 0; 0; 0; 0; 0; 0; 0;
  0; -23; 0; 0; 12; 0; 0; 0;
  0; 0; 0; 0; 0; 0; 0; -4;
  0; 0; 0; -4; 0; 0; 0; 0;
  0; 0; -8; 0; 0; -4; 0; -8;
  -15; 0; -6; 0; -8; 0; 0; 0;
  0; 0; 0; 0; 0; 0; -2; 0;
  0; 0; -10; 0; 0; 0; 0; 0;
  0; 0; 0; 0; 0; 0; 0; 0;
  0; -38; -8; 0; -8; 0; 0; 0;
  0; 0; 0; 0; 0; 0; -2; -2;
  -6; -4; -4; -8; -2; 0; 0; 0;
  0; 0; 0; 0; 0; -2; 0; 0;
  -4; 0; 0; 0; -6; 0; 0; 0;
  0; 0; 0; 0; 0; 0; 0; 0;
  0; 0; 0; -2; 0; 0; 0; 0;
  0; 0; 0; 0; 0; 0; 0; 0;
  0; -27; 0; 0; -4; -2; 0; -2;
  0; -2; 0; 0; 0; 0; 0; -2;
  -2; -2; -2; -2; 0; 0; 0; 0;
  0; 0; 0; 0; 0; 0; 0; 0;
  0; 0; 0; 0; 0; 0; 0; 0;
  0; 0; 0; 0; 0; 0; 0; 0;
  0; 0; 0; 0; 0; 0; 0; 0].
Definition kern_class_values_3 : list Z := [
  0; 0; 0; 0; 0; 0; 0; 0;
  0; 0; 0; 0; 0; 0; 0; 0;
  0; 0; 0; 0; 0; 0; 0; -2;
  0; 0; 0; 0; 0; 0; 0; 0;
  0; 0; -4; 0; 0; -6; 0; -4;
  -8; 0; -6; 0; 0; 0; 0; 0;
  0; 0; 0; 0; 0; 0; 0; 0;
  0; 0; -10; 0; 0; 0; 0; 0;
  0; 0; 0; 0; 0; 0; 0; 0;
  0; -27; -4; 0; -4; 0; 0; 0;
  0; 0; 0; 0; 0; 0; 0; -6;
  -4; -2; -2; -4; 0; 0; 0; 0;
  0; 6; 19; 0; 0; 0; 0; 12;
  15; -4; -19; -2; -6; 0; 0; 0;
  0; 0; 0; 0; 0; 0; 0; 0;
  0; 12; 8; 0; 0; 0; 0; 0;
  0; 0; 0; 0; 0; 0; 0; 0;
  0; 12; 10; 8; -8; -6; 0; -8;
  -2; -8; 0; 10; 0; 0; 0; -2;
  4; 4; 4; 6; 4; 0; 12; -4;
  0; 0; 0; 0; 0; -2; 0; 0;
  0; 0; 0; 0; 0; 0; 0; 0;
  0; 0; 0; 0; 0; 0; 0; 0;
  0; 0; 0; 0; 0; 0; 0; 0;
  0; 0; 0; 0; 0; 0; 0; 0;
  0; -15; 0; 0; 0; -2; 0; 0;
  0; 0; 0; 0; 0; 0; 0; -2;
  0; -2; 0; -2; 0; 0; 0; 0;
  0; 0; 0; 0; 0; 0; 0; 0;
  -4; 0; 0; 0; 0; 0; 0; 0;
  0; 0; 0; 0; 0; 0; 0; 0;
  -2; 0; -6; -2; 0; 0; 0; 0;
  0; 0; 0; 0; 0; 0; 0; 0;
  0; -25; 0; 0; 0; 0; 0; 0;
  0; 0; 0; 0; 0; 0; 0; -4;
  0; 0; 0; 0; 0; 0; 0; 0;
  0; 0; 0; 0; 0; 0; 0; 0;
  0; 0; 0; 0; 0; 0; 0; 0;
  0; 0; 0; 0; 0; 0; 0; 0;
  0; 0; 0; 0; 0; 0; 0; 0;
  0; 0; 0; 0; 0; 0; 0; 0;
  0; -23; 0; 0; 0; 0; 0; 0;
  0; 0; 0; 0; 0; 0; 0; 0;
  0; 0; 0; 0; 0; 0; 0; 0;
  0; 0; 0; 0; 0; 0; 0; 0;
  0; 0; 0; 0; 0; 0; 0; 0;
  0; 0; 0; 0; 0; 0; 0; 0;
  0; 0; 0; -2; 0; 0; 0; 0;
  0; 0; 0; 0; 0; 0; 0; 0;
  0; 0; 0; 0; 0; 0; 0; 0;
  0; 0; 0; 0; 0; 0; 0; 0;
  0; 0; 0; 0; 0; 0; 0; 0;
  0; 0; 0; 0; 0; -2; 0; 0;
  -4; -4; 0; -12; 8; 0; 0; 0;
  0; 0; 0; 0; 0; 0; -2; -8;
  0; 15; 0; -2; 0; 0; 0; 0;
  0; 0; 0; 0; 0; 0; 0; 0;
  0; -10; 0; 0; 12; -6; 0; -10;
  0; -10; 0; 0; 0; 0; 0; -2;
  0; 0; 0; 0; 2; -4; 0; -8;
  0; 12; 12; 0; 0; 0; 0; 0;
  15; 0; -35; 0; 0; 0; 0; 0;
  0; 0; 0; 0; 0; 0; 0; 0;
  0; 0; 8; 8; 0; 0; 0; 0;
  0; 0; 0; 0; 0; 0; 0; 0;
  0; -4; 8; 0; -4; 0; 0; -2;
  10; -2; 0; 0; 0; 0; 10; 2;
  6; 4; 12; 6; 4; 0; 12; 0;
  0; 0; -4; 0; 0; 0; 0; 0;
  -4; 0; 0; 0; 4; 0; 0; 0;
  0; 0; 0; 0; 0; 0; 0; 0;
  0; 4; 0; 0; 0; 0; 0; 0;
  0; 0; 0; 0; 0; 0; 0; 0;
  0; -23; 0; 0; 0; -4; 0; -2;
  0; -2; 0; 0; 0; 0; 0; -2;
  -2; -2; -2; -2; 0; 0; 0; 0;
  0; 0; 0; 0; 0; 0; 0; 4;
  0; 0; 0; 0; 8; 0; 0; 0;
  0; 0; 0; 0; 0; 0; 0; 0;
  0; 0; 2; 0; 0; 0; 0; 0;
  0; 0; 0; 0; 0; 0; 0; 0;
  0; 0; 4; 0; 12; 0; 0; -2;
  0; -2; 0; 0; -4; 2; 0; 0;
  4; 4; 8; 2; 8; 0; 0; 0;
  0; 0; 0; 0; 0; 0; 0; 0;
  0; 0; 0; 0; 0; 0; 0; 0;
  0; 0; 0; 0; 0; 0; 0; 0;
  0; 0; 0; -2; 0; 0; 0; 0;
  0; 0; 0; 0; 0; 0; 0; 0;
  0; -19; 0; 0; 0; 0; 0; -2;
  0; -2; 0; 0; 0; 0; 0; -2;
  0; 0; 0; 0; 0; 0; 0; 0;
  0; 0; 4; 0; 0; 0; 0; -8;
  4; 0; -35; -2; -8; 0; 0; 0;
  0; 0; 0; 0; 0; 0; 0; 0;
  0; 0; 8; 4; 0; 0; 0; 0;
  0; 0; 0; 0; 0; 0; 0; 0;
  0; -8; 0; 0; -15; -2; 0; -6;
  6; -6; 0; 0; 0; 0; 6; 0;
  2; 2; 4; 4; 4; 0; 0; 0;
  0; 0; 4; 0; 0; -4; 0; -8;
  0; 0; -15; -2; -8; 0; 0; 0;
  0; 0; 0; 0; 0; 0; 0; 0;
  0; 0; 0; 6; 0; 0; 0; 0;
  0; 0; 0; 0; 0; 0; 0; 0;
  0; -8; -8; 0; -15; -2; 0; -4;
  6; -4; 0; 0; 0; 0; 6; 0;
  2; 0; 2; 2; 2; 0; 8; 0;
  0; 0; 4; 0; 0; -4; 0; 0;
  0; 0; 0; -4; 8; 0; 0; 0;
  0; 0; 0; 0; 0; 0; 0; 0;
  0; 0; 0; 2; 0; 0; 0; 0;
  0; 0; 0; 0; 0; 0; 0; 0;
  0; -8; 0; 0; 12; 0; 0; -4;
  6; -4; 0; 0; 0; 0; 2; -2;
  4; 2; 2; 2; 8; 0; 8; 0;
  0; 0; 4; 0; 0; -8; 0; 0;
  0; 0; -42; -8; -4; 0; 0; 0;
  0; 0; 0; 0; 0; 0; 0; 0;
  0; 0; 4; 4; 0; 0; 0; 0;
  0; 0; 0; 0; 0; 0; 0; 0;
  0; -12; 0; 0; -19; -6; 0; -8;
  4; -8; 0; 0; 0; -4; 2; -2;
  2; 0; 0; 2; 0; 0; 6; 0;
  0; 0; 0; 0; 0; 0; 0; 0;
  0; 0; 0; 0; 0; 0; 0; 0;
  0; 0; 0; 0; 0; 0; 0; 0;
  0; 0; 0; 0; 0; 0; 0; 0;
  0; 0; 0; 0; 0; 0; 0; 0;
  0; -13; 0; 0; 4; 0; 0; 0;
  0; 0; 0; 0; 0; 0; 0; 0;
  0; 0; 2; 0; 0; 0; 6; 0;
  0; 0; 0; 0; 0; 0; 0; 0;
  0; -15; 0; -8; 0; 0; 0; 0;
  0; -12; -8; 19; 0; 4; 0; 0;
  0; 0; 0; 0; 0; 0; -8; 0;
  0; 8; 0; 8; 8; 8; 15; 0;
  0; 0; 0; 0; 0; -2; 0; -4;
  -4; -4; 0; 19; 0; 0; 0; 0;
  0; -8; 0; 0; 0; 0; 0; 0;
  0; 0; 0; 0; 0; 0; 0; 0;
  0; 0; 0; 0; 0; 0; 0; 0;
  0; 0; 0; 8; 0; 0; 0; 0;
  0; 0; 0; 0; 0; 0; 0; 0;
  0; 8; 0; 8; 8; 8; 4; 0;
  0; 0; 0; 0; 0; 0; 0; 0;
  0; 0; 0; 0; 0; 0; 0; 0;
  0; 8; 8; 6; 4; 0; 0; 0].
Definition kern_class_values_4 : list Z := [
  0; 0; 0; 0; 0; 0; 0; 0;
  0; 0; 0; 0; 0; 0; 0; 0;
  0; 0; 0; 0; 0; 0; 0; 0;
  0; 0; 0; 0; -4; 0; 0; 0;
  0; -8; 0; -4; -4; -4; -15; -8;
  0; 0; 0; 0; 0; 0; 0; 0;
  0; 0; 0; 0; 0; 0; 0; 0;
  0; 0; 0; 0; 0; 0; 0; 0;
  0; 0; 0; 0; 0; 0; 0; 0;
  0; 0; 0; 0; 0; 4; -4; -4;
  0; 0; 0; -8; 0; 0; 0; 0;
  0; 0; 0; 0; -8; 0; 4; 0;
  0; -27; -2; -15; -8; -8; -23; 0;
  0; 0; 0; 0; 0; 0; 0; 0;
  0; 0; 0; 0; 0; 0; 0; 0;
  0; 0; 0; 0; 0; 0; 0; 0].
Definition kern_class_values : list Z :=
  kern_class_values_0 ++ kern_class_values_1 ++ kern_class_values_2 ++ kern_class_values_3 ++ kern_class_values_4.

Definition kern_classes : lv_font_fmt_txt_kern_classes_t :=
  KernClasses kern_class_values kern_left_class_mapping kern_right_class_mapping 76 64.

(** ** The font *)

Definition font_dsc : lv_font_fmt_txt_dsc_t :=
  FontDsc glyph_bitmap glyph_dsc cmaps kern_classes 16 1 4 1 0.
Definition ui_font_font_book24 : lv_font_t :=
  Font "lv_font_get_glyph_dsc_fmt_txt" "lv_font_get_bitmap_fmt_txt" 25 5 LV_FONT_SUBPX_NONE (-4) 2 font_dsc None None.

Definition font_file_book24 : font_file :=
  FontFile "ui_font_font_book24" glyph_blocks ui_font_font_book24.

Lemma book24_checked : font_check ui_font_font_book24 glyph_blocks = true.
Proof. by vm_compute. Qed.
