(* ===== verification/Fonts.v ===== *)
(** * The five fonts of the interface

    Every printable character can be drawn in each font of fonts.h: its glyph's
    bytes are where the description says, its box fits the line, and after any
    kerning the pen has moved on. *)
From S2P Require Import Prelude FontBold30 FontBook16 FontBook18 FontBook20 FontBook24 FontFormat.

(** fonts.h *)
Definition fonts : list font_file :=
  [font_file_bold30; font_file_book16; font_file_book18; font_file_book20; font_file_book24].

Definition printable (c : Z) : Prop := 32 <= c <= 126.
#[export] Instance printable_dec c : Decision (printable c).
Proof. unfold printable. apply _. Defined.

Section draws.
Context `{!FontEngine, !FontEngineLaws}.

Definition draws (ff : font_file) (c : Z) : Prop :=
  let d := dsc (ff_font ff) in
  ∃ g block, load (glyph_dsc d) (get_glyph_id d c) = Some g ∧
    load (ff_blocks ff) (c - 32) = Some block ∧
    drawn (ff_font ff) block g ∧ (c ≠ 32 → inked block g) ∧
    ∀ c', printable c' → kern_found d (get_glyph_id d c) (get_glyph_id d c') ∧
      0 < adv_w g + get_kern_value d (get_glyph_id d c) (get_glyph_id d c').

(** What the declarations of a file have in common. *)
Definition file_shape (ff : font_file) : Prop :=
  let d := dsc (ff_font ff) in
  font_check (ff_font ff) (ff_blocks ff) = true ∧ glyph_bitmap d = concat (ff_blocks ff) ∧
  cmaps d = [Cmap 32 95 1 None None 0 LV_FONT_FMT_TXT_CMAP_FORMAT0_TINY] ∧
  cmap_num d = 1 ∧ kern_classes d = 1 ∧ kern_scale d = 16 ∧ bpp d = 4 ∧ bitmap_format d = 0 ∧
  get_glyph_dsc (ff_font ff) = "lv_font_get_glyph_dsc_fmt_txt" ∧
  get_glyph_bitmap (ff_font ff) = "lv_font_get_bitmap_fmt_txt".

Lemma fonts_shape : Forall file_shape fonts.
Proof.
  repeat apply Forall_cons_2; try apply Forall_nil_2; (split; [|done]);
    [apply bold30_checked|apply book16_checked|apply book18_checked|apply book20_checked|apply book24_checked].
Qed.

Lemma shape_id ff c : file_shape ff → printable c →
  get_glyph_id (dsc (ff_font ff)) c = c - 31.
Proof.
  intros (_ & _ & Hcm & _) Hc. unfold printable in Hc.
  rewrite (glyph_id_tiny _ _ c Hcm); cbn; [lia|done|lia].
Qed.

(** The glyph of a character, the block of its bytes, and what the check found of them. *)
Lemma shape_glyph ff c : file_shape ff → printable c →
  ∃ g block, load (glyph_dsc (dsc (ff_font ff))) (c - 31) = Some g ∧
    load (ff_blocks ff) (c - 32) = Some block ∧
    glyph_check (ff_font ff) (foldr Z.min 0 (class_pair_values (kern_dsc (dsc (ff_font ff))))) g = true ∧
    drawn (ff_font ff) block g ∧ (c ≠ 32 → inked block g).
Proof.
  intros (Hck & Hbm & _) Hc. unfold font_check in Hck. unfold printable in Hc.
  destruct (glyph_dsc (dsc (ff_font ff))) as [|r [|sp gs]] eqn:Eg; try done.
  destruct (ff_blocks ff) as [|bsp bs] eqn:Eb; [done|].
  apply andb_prop in Hck as [[[[[[[[Hn _]%andb_prop Ht]%andb_prop Hb]%andb_prop Hgl]%andb_prop
    Hink]%andb_prop _]%andb_prop _]%andb_prop _].
  pose proof (tiles_length _ _ _ _ Ht) as Hlen. apply Z.eqb_eq in Hn.
  destruct (lookup_lt_is_Some_2 (sp :: gs) (Z.to_nat (c - 32))) as (g & Hg); [lia|].
  destruct (tiles_lookup _ _ _ [] _ g Ht Hg) as (block & Hbl & Hsz & Hst & Htk).
  rewrite forallb_forall in Hb, Hgl.
  specialize (Hb block ltac:(by eapply list_elem_of_In, list_elem_of_lookup_2)).
  specialize (Hgl g ltac:(by eapply list_elem_of_In, list_elem_of_lookup_2)).
  exists g, block. unfold load. rewrite !decide_True by lia.
  replace (Z.to_nat (c - 31)) with (S (Z.to_nat (c - 32))) by lia. split_and!; try done.
  - pose proof Hgl as [[Ha Hbw]%andb_prop _]%andb_prop. split; try done; try lia; [|by apply bytes_sound].
    by rewrite <- Hsz, Nat2Z.id, Hbm.
  - intros Hne. apply ink_check_sound. rewrite forallb_forall in Hink.
    apply (Hink (g, block)). replace (Z.to_nat (c - 32)) with (S (Z.to_nat (c - 33))) in Hg, Hbl by lia.
    eapply list_elem_of_In, list_elem_of_lookup_2, lookup_zip_Some. split; [exact Hg|exact Hbl].
Qed.

Lemma shape_kern ff c c' : file_shape ff → printable c → printable c' →
  kern_found (dsc (ff_font ff)) (c - 31) (c' - 31) ∧
  foldr Z.min 0 (class_pair_values (kern_dsc (dsc (ff_font ff))))
    <= get_kern_value (dsc (ff_font ff)) (c - 31) (c' - 31).
Proof.
  intros (Hck & _ & _ & _ & Hk & Hsc & _) Hc Hc'. unfold font_check in Hck. unfold printable in *.
  destruct (glyph_dsc (dsc (ff_font ff))) as [|r [|sp gs]]; try done.
  destruct (ff_blocks ff) as [|bsp bs]; [done|].
  apply andb_prop in Hck as [[[_ Hl]%andb_prop Hr]%andb_prop Hn%Z.eqb_eq].
  apply kern_bound; done || lia.
Qed.

Lemma shape_draws ff c : file_shape ff → printable c → draws ff c.
Proof.
  intros Hs Hc. destruct (shape_glyph ff c Hs Hc) as (g & block & Hg & Hb & Hck & Hd & Hi).
  unfold draws. rewrite (shape_id ff c Hs Hc). exists g, block. split_and!; try done.
  intros c' Hc'. rewrite (shape_id ff c' Hs Hc'). destruct (shape_kern ff c c' Hs Hc Hc') as [Hf Hm].
  split; [done|]. unfold glyph_check in Hck. lia.
Qed.
Lemma fonts_draw ff c : ff ∈ fonts → printable c → draws ff c.
Proof. intros Hff. apply shape_draws. by apply (proj1 (Forall_forall _ _) fonts_shape). Qed.
End draws.

(** C25: In each of the five fonts, and with any engine that reads the tables as their
    format is documented, every printable character has a glyph: the bytes
    its description points to are in the bitmap and are the block
    written there for that character, as many as its box has pixels for at 4 bits
    each; the box lies within the line; every character but the space shows a pixel;
    and whatever character follows, kerning's lookups are within its tables and the
    pen ends further on than it was, so no two characters are drawn at the same place. *)
Theorem fonts_well_formed `{!FontEngine, !FontEngineLaws} (ff : font_file) (c : Z) :
  ff ∈ fonts → printable c → draws ff c.
Proof. apply fonts_draw. Qed.

(** An engine: the first map with the character in its range, the value of the classes. *)
Definition format_engine : FontEngine := {|
  get_glyph_id d c :=
    match List.find (λ cm, (range_start cm <=? c) && (c <? range_start cm + range_length cm)) (cmaps d) with
    | Some cm => glyph_id_start cm + (c - range_start cm)
    | None => 0
    end;
  get_kern_value d l r :=
    match load (left_class_mapping (kern_dsc d)) l, load (right_class_mapping (kern_dsc d)) r with
    | Some cl, Some cr =>
        if (0 <? cl) && (0 <? cr) then
          default 0 (load (class_pair_values (kern_dsc d)) ((cl - 1) * right_class_cnt (kern_dsc d) + (cr - 1)))
        else 0
    | _, _ => 0
    end
|}.
Lemma format_engine_laws : @FontEngineLaws format_engine.
Proof.
  split; cbn.
  - intros d cm c -> _ Hc. cbn.
    by replace ((range_start cm <=? c) && (c <? range_start cm + range_length cm)) with true by lia.
  - intros d l r cl cr _ _ -> ->. split.
    + intros H. by replace ((0 <? cl) && (0 <? cr)) with false by lia.
    + intros H1 H2 v ->. by replace ((0 <? cl) && (0 <? cr)) with true by lia.
Qed.

Lemma fonts_well_formed_witness :
  let _ := format_engine in get_glyph_id font_dsc 65 = 34 ∧ draws font_file_book16 65.
Proof.
  pose proof format_engine_laws as Hlaws. split; [by vm_compute|].
  apply (@fonts_well_formed format_engine Hlaws font_file_book16 65); [|by split].
  right; left.
Defined.
