(* ===== verification/UiTexts.v ===== *)
(** * Every text shown can be drawn

    As long as Go passes printable ASCII, every text any widget ever has consists of
    characters that each font of the interface has a glyph for. *)
From S2P Require Import Prelude Lvgl UiStyles UiScreens Ui UiActions UiControl UiBuild UiSafe UiInv FontFormat Fonts.

(** The widgets' texts: no other part of LVGL's state matters. *)
Definition texts_plain {L} `{!Lvgl L} (l : L) : Prop :=
  ∀ o v, lv_view l o = Some v → text_all plain_char (v_text v) = true.

Lemma apply_text a v : attr_ok (λ _ _, true) plain_char a = true →
  text_all plain_char (v_text v) = true → text_all plain_char (v_text (apply a v)) = true.
Proof.
  intros Ha Hv. destruct a; try done; cbn [apply].
  - revert v Hv. induction fs as [|f fs IH]; intros v Hv; [done|]. by apply IH.
  - by destruct st.
  - by destruct st.
Qed.

#[export] Instance texts_ui_inv L `{!Lvgl L, !LvglLaws L} :
  UiInv (L := L) (λ l _, texts_plain l) (λ _ _, true) plain_char.
Proof.
  split; try done.
  - intros k p l o l' _ E Hl o' v. rewrite (create_view _ _ _ _ _ _ E).
    case_decide; [by intros [= <-]|apply Hl].
  - intros a o l _ w Ha Hw Hk Hl o' v. rewrite (set_view _ _ _ w) by done.
    case_decide; [|apply Hl]. intros [= <-]. apply apply_text; [done|by eapply Hl].
  - intros o l _ Hl o' v. rewrite load_view. apply Hl.
Qed.

(** What the program starts from: no widget yet, and the variables it was linked with. *)
Definition plain_state {L} `{!Lvgl L} (s : ust L) : Prop := inv (λ l _, texts_plain l) plain_char s.

(** A text can be drawn in a font: its characters are new lines or have a glyph. *)
Definition drawable `{!FontEngine} (ff : font_file) (t : string) : Prop :=
  ∀ c, c ∈ chars t → c = "010"%char ∨ draws ff (Z.of_N (N_of_ascii c)).

Lemma plain_drawable `{!FontEngine, !FontEngineLaws} ff t :
  ff ∈ fonts → text_all plain_char t = true → drawable ff t.
Proof.
  unfold text_all. rewrite forallb_forall. intros Hff Ht c Hc.
  specialize (Ht c (proj1 (list_elem_of_In _ _) Hc)). unfold plain_char in Ht.
  apply orb_true_iff in Ht as [Hp|Hn].
  - right. apply fonts_draw; [done|]. unfold printable. lia.
  - left. rewrite <- (ascii_N_embedding c). by apply N.eqb_eq in Hn as ->.
Qed.
Lemma fonts_listed name : name ∈ ui_fonts → ∃ ff, ff ∈ fonts ∧ ff_name ff = name.
Proof.
  intros H. change ui_fonts with (ff_name <$> fonts) in H. apply list_elem_of_fmap in H as (ff & -> & ?). eauto.
Qed.

(** C24: No text is ever shown as missing glyphs. From a state whose variables hold
    printable ASCII, after building the screens and any sequence of calls from
    Go and of ticks with events in which the texts and variables passed are
    printable ASCII too (such a run gets to its end when the callers keep to
    [op_fits]), every character of every widget's text, be it one of screens.c, a variable's, a version's, a
    countdown's or one from Go, is a new line or has a well-formed glyph in the font
    a style can give it, whichever of the fonts of fonts.h that is. *)
Theorem texts_stay_drawable {L} `{!Lvgl L, !LvglLaws L, !FontEngine, !FontEngineLaws}
    ui_objects ui_styles ui_vars V (ops : list ui_op) (s : ust L) :
  strlen V < 32 → buffers_ok s →
  plain_state s → text_all plain_char V = true → forallb (op_ok plain_char) ops = true →
  ∃ s1, ui_init V s = Some (tt, s1) ∧
    (forallb (op_fits ui_objects ui_vars) ops = true →
     ∃ s2, ui_run_ops ui_objects ui_styles ui_vars V ops s1 = Some (tt, s2)) ∧
    ∀ s2, ui_run_ops ui_objects ui_styles ui_vars V ops s1 = Some (tt, s2) →
    ∀ o v font, lv_view (u_lv s2) o = Some v → well_typed text_font (Name font) = true →
    ∃ ff, ff ∈ fonts ∧ ff_name ff = font ∧ drawable ff (v_text v).
Proof.
  intros Hlen Hb Hs HV Hops.
  destruct (ui_runs ui_objects ui_styles ui_vars V ops s Hlen Hb) as (s1 & E1 & Hrun).
  destruct (keeps_ui_init _ _ _ V HV s tt s1 E1 Hs) as [Hs1 _].
  exists s1. split_and!; [done..|]. intros s2 E2.
  destruct (keeps_run_ops _ _ _ V HV ui_objects ui_styles ui_vars ops Hops s1 tt s2 E2 Hs1)
    as [[Ht _ _ _ _] _].
  intros o v font Hv Hfont.
  destruct (fonts_listed font) as (ff & Hff & Hn).
  { unfold well_typed, one_of in Hfont. apply existsb_exists in Hfont as (n & Hin & ->%streq_true).
    by apply list_elem_of_In. }
  exists ff. split_and!; try done. apply plain_drawable; [done|by eapply Ht].
Qed.

(** The text of a widget once the sample calls were made. *)
Definition sample_text (f : field) : option string :=
  match ui_init "9.2.2" ui_blank with
  | Some (_, s1) =>
      match ui_run_ops sample_objects sample_styles sample_vars "9.2.2" sample_ops s1 with
      | Some (_, s2) => v_text <$> lv_view (u_lv s2) (objects s2 f)
      | None => None
      end
  | None => None
  end.
Lemma ui_blank_plain : plain_state ui_blank.
Proof. split; [by intros o v; cbn; unfold store_view; destruct (o <=? 0)|..]; apply (bool_decide_unpack _); by vm_compute. Qed.

Lemma texts_stay_drawable_witness :
  let _ := format_engine in
  sample_text o_home_info_ipv4_addr = Some "10.0.0.1" ∧
  ∃ ff, ff ∈ fonts ∧ ff_name ff = "ui_font_font_book18" ∧ drawable ff "10.0.0.1".
Proof.
  pose proof format_engine_laws as Hlaws. intros eng.
  assert (Ht : sample_text o_home_info_ipv4_addr = Some "10.0.0.1") by by vm_compute.
  split; [exact Ht|]. revert Ht. unfold sample_text.
  destruct (texts_stay_drawable (L := store) sample_objects sample_styles sample_vars "9.2.2" sample_ops ui_blank)
    as (s1 & -> & Hrun & Hd);
    [done|exact ui_blank_ok|exact ui_blank_plain|by vm_compute|by vm_compute|].
  destruct Hrun as (s2 & E2); [by vm_compute|]. rewrite E2. specialize (Hd s2 E2).
  destruct (lv_view (u_lv s2) _) as [v|] eqn:Ev; [|intros [=]]. intros [= <-].
  exact (Hd _ v "ui_font_font_book18" Ev eq_refl).
Defined.
